(* ===== verification/_CoqProject ===== *)
-Q . S2P
Prelude.v
Types.v
Posix.v
VspwTp.v
Reassembler.v
LinkTiming.v
Faults.v
Ring.v
Queue.v
Backend.v
DriverApi.v
PortConfig.v
Loopback.v
Port.v
PortClient.v
PortProps.v
LoopbackPort.v
Driver.v
DriverProps.v
Vspd.v
CuseRecord.v
Server.v
ServerLoop.v
ServerInv.v
ServerRequests.v
ServerProps.v
ServerRun.v
ServerPaths.v
Simulator.v
SimulatorProps.v
SimulatorDuplex.v
SimulatorRun.v
Device.v
DeviceProps.v
DevicePaths.v
Udp.v
UdpProps.v
UdpPaths.v
Spwcuse.v
SpwcuseProps.v
SpwcuseRun.v
CommandLine.v
CommandLineProps.v
Management.v
ManagementProps.v
Tools.v
ToolsProps.v
ToolsPaths.v
