(* ===== verification/Prelude.v ===== *)
(** * SpWKit: a verification library

    SpWKit is a C library that gives an application SpaceWire ports over several
    carriers, with a daemon that shares links between processes.  This library
    models its protocol codecs, its port layer, its backends and its daemon as
    Rocq functions over explicit state, and proves the properties that make them
    correct.

    ** The program and its parts

    An application opens a port (src/include/spwkit/port.h).  The port layer
    (src/src/core/port.c) checks every argument, owns the zero-copy buffers and
    calls a backend through a table of operations (src/src/core/backend_c.h).  The
    backends are: loopback; a virtual link between two ports of one process
    (simulator); a driver supplied by the application; UDP, with the VSPW-TP
    datagram protocol, fragmentation, link timing and fault injection; and a
    client of the vspwd daemon.  vspwd (src/src/vspwd) serves pairs of ports to
    client processes over sequenced-packet sockets with the VSPD record protocol,
    and may bridge a port to UDP through the port layer.  spwcuse (src/src/cuse)
    presents one port as a character device: a broker thread owns the port, the
    handlers of libfuse queue reads, writes and polls for it, and packets are
    carried as records with a header.  spwctl and spwmon (src/src/tools) show the
    state of the daemon's ports through its management requests and events.

    ** Files

    - [Prelude]: machine integers ([wrap] and the widths), byte memories, tactics,
      generic lemmas.
    - [Types]: types.h, udp.h, simulator.h, device.h, config.h: result codes,
      packets, time-codes, statistics, configuration structures.
    - [Posix]: the poll flags and error numbers of the system calls used.
    - [VspwTp]: src/src/backends/ethernet/vspw_tp.c, the datagram codec.
    - [Reassembler]: fragment_reassembler.c, the coverage bitmap, the
      word-at-a-time copy and the byte-wise reference it equals.
    - [LinkTiming], [Faults]: virtual_link_timing.c, deterministic_faults.c.
    - [Ring]: the bounded queues used by the loopback, the simulator and vspwd.
    - [Queue]: the bounded queues with head and count of the UDP backend and of
      spwcuse.
    - [Backend]: the operations table of backend_c.h; [BackendSim], a backend that
      behaves as another; [BackendOutputs], what a backend promises of the values
      it hands out.
    - [Loopback]: loopback_backend.c and its FIFO specification.  [LoopbackPort]: the
      port layer over it, as one explicit machine from open to close.
    - [DriverApi], [PortConfig], [Port], [PortProps]: driver.h, the validation of
      configurations, and all of port.c over an arbitrary backend.
    - [PortClient]: what a program that uses a port of any backend may rely on; the
      server and spwcuse are such programs.
    - [Driver], [DriverProps]: driver_backend.c over an arbitrary provider.
    - [Simulator], [SimulatorProps], [SimulatorDuplex], [SimulatorRun]:
      simulator_backend.c.
    - [Vspd]: vspw_device_protocol.c, the record codec and validation.
    - [CuseRecord]: vspw_cuse_record.c.
    - [Server], [ServerLoop]: all of src/src/vspwd/server.c: requests and data
      path, then events, accepting, polling and the whole run.
    - [ServerInv], [ServerRequests], [ServerProps]: the server's invariant, that
      every handler answers and keeps it, and that the loop keeps it.
    - [ServerRun], [ServerPaths]: whole runs, and the way of a packet through the
      server.
    - [Device], [DeviceProps], [DevicePaths]: device_backend.c, the client of
      vspwd; its invariant and what it sends; and its packets through the server.
    - [Udp], [UdpProps], [UdpPaths]: udp_backend.c; its invariant, what it sends
      and that it delivers once; and its packets over a network that keeps,
      reorders or repeats datagrams.
    - [Spwcuse], [SpwcuseProps], [SpwcuseRun]: spwcuse.c as two threads; the account
      of its requests, blocks and poll handles and the order of its records; and
      the theorems about all its runs.
    - [CommandLine], [CommandLineProps]: src/src/vspwd/main.c (Module [vspwd]) and
      the way of spwcuse's main to its started port (Module [spwcuse]), from the
      argument strings on, with the strtoul they use.
    - [Management], [ManagementProps]: vspd_management_client.c, the client of the
      tools, and its queue of snapshots.
    - [Tools], [ToolsProps], [ToolsPaths]: spwctl.c and spwmon.c (Modules [spwctl]
      and [spwmon]) from their arguments to the text they write; their use of the
      socket; and the tools connected to the server of [Server].

    ** How code becomes definitions

    A C function is a function of the same name whose arguments are the pointed-to
    values and which returns the result code, the out-parameters and the new
    state, in this order.  Early returns are [if ... then result else].  NULL is
    [None].  A w-bit integer is a [Z] and conversions to a width are written out.
    A [uint8_t] array is a [list Z]; a write beyond it extends the list, so a bound
    on its length is the statement that no write leaves the array.  Structures are
    records with the C field names behind a prefix.  A function pointer table is a
    record of functions.  The address of a buffer is a handle; stale handles are
    values like any other.

    What is not under src/ is a parameter.  The system calls of vspwd are a table
    [os] on a state of the world; theorems hold for every table that keeps
    [OsContract], which says only what the calls are documented to return.  The
    provider of the driver backend is a table on its own state, with no contract
    for the invariant.  The mutexes and conditions of the simulator are a table
    whose operations may let other threads run: [HostContract] says that these
    keep the registry's invariant and what a held mutex protects; [schedule_host] of
    [SimulatorDuplex] is a concrete table, in which the other port completes calls
    during a wait.  The socket and
    the clock of the device backend are a table [dev_os]; [DevContract] says that
    what is received are bytes.  The sockets, clock and sleep of the UDP backend
    are a table [udp_os]; [UdpContract] says that received data are bytes and names
    an invariant of the world that a send keeps when the datagram satisfies a
    given predicate.  [lan] is a concrete table, the network of [UdpPaths].  The
    socket calls of the management client are a table [mgmt_os] with no contract
    but that received data are bytes; [daemon] of [ToolsPaths] is a concrete table,
    a connection whose other end is the model of vspwd.  A program returns its exit
    code and what it wrote to stdout and stderr.

    The two threads of spwcuse share a state behind one mutex.  A step of a thread
    is one critical section, one call of the port, or one call of libfuse, malloc
    or free; [step] lets either thread move, so [reached] has every interleaving,
    with spurious wake-ups of the condition.  The heap is a map from addresses to
    blocks, and the use of a block that is not live is recorded in [sy_fault].
    Which calls of malloc succeed is a parameter.  libfuse chooses the requests;
    with the option -s that main passes, it handles one at a time.

    ** What is proved

    - Codecs ([VspwTp], [Vspd], [CuseRecord]): round trips, and soundness of
      decoding: what is accepted is canonical and within bounds, so no other byte
      string has the same meaning.
    - Reassembly: the optimised store equals the byte-wise one; the bitmap counts
      exactly the bytes received in every reachable state of a buffer below
      2^32 - 63 bytes (beyond, the reset of the bitmap wraps, which is recorded);
      fragments arriving in any order and any number of times give the packet.
    - Timing and faults: no overflow for any packet the transport carries, the
      rounding is the ceiling, and the fault sequence is the one of its seed.
    - Ports: a loopback port is, call by call from open to close, an explicit
      machine of three phases and two queues; over any backend the port behaves as
      over one that backend simulates; arguments are checked before the backend is
      called; a buffer is in the hands of one side; a reset makes every earlier
      buffer stale; the workspace sizes do not wrap.
    - Driver backend: for any provider, the buffers it has out are those of the
      active slots and the rejected ones it would not take back; the invariant
      holds whatever the provider does.
    - Loopback and simulator: the rings and the shared registry behave as FIFO
      lists, the simulator for two threads whose waits let the other one run: each
      call takes effect at one moment.  Its registry is well formed whatever other
      threads do; finite waits end.
    - vspwd: in every reachable state the tables are consistent and link states
      current; every record sent is valid; every request is answered; a packet
      cut into fragments anywhere arrives at the peer as that packet.  A queued
      time-code that the bridge cannot send blocks its queue for ever, which is
      recorded as a defect.
    - Device backend: whatever the socket does the port stays well formed; every
      record it sends is a request of the protocol; a packet sent by one port
      passes the server and is received unchanged by the other.  A second packet
      that arrives during a send, and a response that arrives after its request
      timed out, end the session, which is recorded.
    - UDP backend: whatever the network delivers and the calls return, every field
      keeps its C type and the state stays well formed; every datagram sent
      decodes, has its exact size and belongs to the link and the session the port
      is in; a message in the history is not delivered again.  A packet whose
      datagrams arrive in any order and any number of times is received unchanged
      and its acknowledgement frees the transmit slot.  A message whose retries are
      used up blocks the port and is counted again by every send, which is
      recorded.
    - spwcuse: in every interleaving nothing is freed twice or used after it was
      freed, each request is answered exactly once, and nothing is left at the end;
      readers get the records of what the port delivered, in order and unchanged; a
      queued write is answered; the program can always end.  A read can miss its
      wake-up while the record queue is full, and no read is answered while the
      daemon is gone, which is recorded.
    - Command lines: what vspwd accepts is in range, and every setting of the bridge
      in range can be written and is read back; when spwcuse presents its device
      its port is open and started and is the one its options name.
    - Tools: whatever the socket does, the client sends valid requests only, uses
      its descriptor while it is open and closes it once, and its queue holds the
      latest snapshot of each port; both programs close what they opened on every
      way out.  Connected to the model of vspwd, what they print is the state the
      server holds, the daemon receives the requests of the command and no others,
      and a query changes no port.

    ** Bounds and fuel

    Loops over arrays are structural.  Loops the system drives carry fuel:
    [vspwd_loop] the number of iterations, [vspwd_accept_clients] the number of
    connections accepted in one iteration, [wait_loop] the number of wake-ups.
    The invariants hold for every fuel, so for every prefix of a run; a run that
    exhausts the fuel of an inner loop is one in which the next call of the system
    fails, which it may always do.  [simulator_waits_end] shows that for a finite
    timeout a fuel above the timeout in microseconds changes nothing.
    [simulator_is_duplex] holds for every fuel: a wait that exhausts it has timed
    out or, without a limit, is a call that is still waiting.  In the
    device backend [io_fuel] bounds the retries of one call and the records one
    call handles; a call that would go on is one whose connection is then lost,
    which the socket may always report.  The fragments of a packet are counted
    before they are sent, so that loop always ends by itself.  The UDP backend has
    the same two fuels; a call that exhausts [io_fuel] is one whose next system
    call fails, which gives SPW_ERR_BACKEND.  [packet_over_udp] holds for every
    [io_fuel] above the number of datagrams that arrive.  The model of spwcuse is a
    step relation and needs no fuel; [broker_run] names the number of steps, and
    [write_answered] and [shutdown_completes] prove that some number is enough.  In
    the management client [io_fuel] bounds the repetitions of an interrupted call
    and the records one request reads; the loop of spwmon has a fuel of its own and
    gives no result while it goes on.  [spwctl_reports] and [spwmon_reports] hold
    for every [io_fuel] of one or more and prove that the programs end.

    ** Not modelled

    - src/src/backends/ethernet/udp_backend.c: the branches for a system without
      MSG_DONTWAIT, and the size and alignment entries of UDP_FACTORY.
    - src/src/vspwd/main.c and src/src/cuse/spwcuse.c: the text of the usage and
      error messages, and what main passes to cuse_lowlevel_main.
    - src/src/cuse/spwcuse_probe.c: a stand-alone check of the CUSE interface that
      answers every read and write with an error.
    - src/src/platform, src/src/profiling: wrappers of mutexes, clocks and counters
      without a data effect; macros that are empty in a normal build.
    - src/include/spwkit/spwkit.hpp: C++ forwarding to the modelled C functions.
    - examples, benchmarks, integrations, scripts, tests: programs that use the
      library. *)

From Stdlib Require Export ZArith Lia Bool.
From stdpp Require Export base numbers list.

#[global] Open Scope Z_scope.

(** ** Notation for C bit operators *)

Declare Scope spw_scope.
Delimit Scope spw_scope with spw.
Infix ".&" := Z.land (at level 40, left associativity) : spw_scope.
Infix ".|" := Z.lor (at level 50, left associativity) : spw_scope.
Infix ".^" := Z.lxor (at level 50, left associativity) : spw_scope.
#[global] Open Scope spw_scope.

(** ** Machine-width integers

    A C unsigned integer of width [w] is a [Z] in [0, 2^w); conversion to
    that width (and hence every arithmetic operation that can exceed it) is
    an explicit [wrap w]. *)

Definition wrap (w x : Z) : Z := x mod 2 ^ w.
Abbreviation u8 := (wrap 8).
Abbreviation u16 := (wrap 16).
Abbreviation u32 := (wrap 32).
Abbreviation u64 := (wrap 64).

(** [int32_t] conversion of an unsigned 32-bit value. *)
Definition i32 (x : Z) : Z :=
  let y := wrap 32 x in if y <? 2 ^ 31 then y else y - 2 ^ 32.

Definition in_width (w x : Z) : bool := (0 <=? x) && (x <? 2 ^ w).

Definition UINT64_MAX : Z := 2 ^ 64 - 1.
(** [size_t] is 64 bits wide on the modelled targets. *)
Definition SIZE_MAX : Z := 2 ^ 64 - 1.
Definition b2z (b : bool) : Z := if b then 1 else 0.

(** ** Byte memories

    A [uint8_t] array is a list of byte values; reads past the recorded
    prefix give 0 (static and cleared storage), and a write past it extends
    the prefix. A bound on the length of the list is therefore exactly the
    statement that no write leaves the array. *)

Definition mem_get (m : list Z) (i : nat) : Z := default 0 (m !! i).

Definition mem_write (m : list Z) (off : nat) (bs : list Z) : list Z :=
  take off m ++ replicate (off - length m) 0 ++ bs ++ drop (off + length bs) m.

Definition mem_read (m : list Z) (off n : nat) : list Z :=
  take n (drop off m ++ replicate n 0).

Arguments mem_get m i%_nat_scope.
Arguments mem_write m off%_nat_scope bs.
Arguments mem_read m off%_nat_scope n%_nat_scope.

Definition bytes_ok (m : list Z) : Prop := Forall (fun b => 0 <= b < 256) m.

(** ** Automation *)

Create HintDb spw.
Create Rewrite HintDb spw.
Create HintDb spw_consts.

(** Case analysis on the innermost guard of an early-return cascade. *)
Ltac case_if_in H :=
  match type of H with
  | context [if ?b then _ else _] =>
      lazymatch b with
      | context [if _ then _ else _] => fail
      | _ => let E := fresh "E" in destruct b eqn:E
      end
  end.
Ltac case_if :=
  match goal with
  | |- context [if ?b then _ else _] =>
      lazymatch b with
      | context [if _ then _ else _] => fail
      | _ => let E := fresh "E" in destruct b eqn:E
      end
  end.
Ltac case_ifs_in H := repeat (case_if_in H; try discriminate H).
Ltac case_ifs := repeat case_if.

(** Split a conjunction of boolean tests that evaluates to [true]. *)
Ltac split_andb :=
  repeat match goal with
  | H : _ && _ = true |- _ => apply andb_true_iff in H as [? ?]
  | H : _ || _ = false |- _ => apply orb_false_iff in H as [? ?]
  | H : negb _ = true |- _ => apply negb_true_iff in H
  | H : negb _ = false |- _ => apply negb_false_iff in H
  end.

(** ** Generic lemmas: widths and bits *)

Lemma pow2_pos (w : Z) : 0 <= w -> 0 < 2 ^ w.
Proof. intros. apply Z.pow_pos_nonneg; lia. Qed.

Lemma wrap_bounds (w x : Z) : 0 <= w -> 0 <= wrap w x < 2 ^ w.
Proof. intros. apply Z.mod_pos_bound, pow2_pos; done. Qed.

Lemma wrap_small (w x : Z) : 0 <= x < 2 ^ w -> wrap w x = x.
Proof. intros. by apply Z.mod_small. Qed.

Lemma in_width_spec (w x : Z) : in_width w x = true <-> 0 <= x < 2 ^ w.
Proof. unfold in_width. lia. Qed.

(** A shifted value joined with a value that fits below the shift. *)
Lemma lor_shiftl_add (a b n : Z) :
  0 <= n -> 0 <= b < 2 ^ n -> Z.lor (Z.shiftl a n) b = a * 2 ^ n + b.
Proof.
  intros Hn Hb. rewrite <- Z.shiftl_mul_pow2 by done.
  assert (Z.land (Z.shiftl a n) b = 0) as Hdisj.
  { apply Z.bits_inj'. intros i Hi.
    rewrite Z.land_spec, Z.bits_0, Z.shiftl_spec by done.
    destruct (Z.lt_ge_cases i n).
    - by rewrite Z.testbit_neg_r by lia.
    - rewrite <- (Z.mod_small b (2 ^ n)) by lia.
      rewrite Z.mod_pow2_bits_high by lia. apply andb_false_r. }
  pose proof (Z.add_lor_land (Z.shiftl a n) b) as H. lia.
Qed.

Lemma lor_add_low (a b n : Z) :
  0 <= n -> a mod 2 ^ n = 0 -> 0 <= b < 2 ^ n -> Z.lor a b = a + b.
Proof.
  intros Hn Ha Hb. pose proof (pow2_pos n Hn).
  rewrite (Z.div_mod a (2 ^ n)) by lia. rewrite Ha, Z.add_0_r, Z.mul_comm.
  rewrite <- (lor_shiftl_add _ b n) by done. by rewrite Z.shiftl_mul_pow2.
Qed.

Lemma lor_bound (w x y : Z) :
  0 <= w -> 0 <= x < 2 ^ w -> 0 <= y < 2 ^ w -> 0 <= x .| y < 2 ^ w.
Proof.
  intros Hw Hx Hy. assert (x .| y = (x .| y) mod 2 ^ w) as ->.
  { rewrite <- Z.land_ones, Z.land_lor_distr_l, !Z.land_ones by done.
    by rewrite !Z.mod_small. }
  by apply Z.mod_pos_bound, pow2_pos.
Qed.

Lemma land_low_byte (x : Z) : Z.land x 255 = x mod 256.
Proof. change 255 with (Z.ones 8). rewrite Z.land_ones by lia. done. Qed.

Lemma u8_land_ff (x : Z) : u8 (x .& 0xff) = u8 x.
Proof. unfold wrap. rewrite land_low_byte. by rewrite Z.mod_mod by lia. Qed.

Lemma u8_shiftr (x n : Z) : 0 <= n -> u8 (x ≫ n) = (x / 2 ^ n) mod 256.
Proof. intros. unfold wrap. by rewrite Z.shiftr_div_pow2. Qed.

(** Big-endian joining of bytes, as the readers of the wire codecs write it. *)
Lemma be16_join (b0 b1 : Z) :
  0 <= b0 < 256 -> 0 <= b1 < 256 ->
  u16 (u16 (b0 ≪ 8) .| b1) = b0 * 2 ^ 8 + b1.
Proof.
  intros. rewrite (wrap_small 16 (b0 ≪ 8)) by (rewrite Z.shiftl_mul_pow2; lia).
  rewrite lor_shiftl_add by lia. apply wrap_small. lia.
Qed.

Lemma be32_join (b0 b1 b2 b3 : Z) :
  0 <= b0 < 256 -> 0 <= b1 < 256 -> 0 <= b2 < 256 -> 0 <= b3 < 256 ->
  u32 (b0 ≪ 24) .| u32 (b1 ≪ 16) .| u32 (b2 ≪ 8) .| b3 =
  b0 * 2 ^ 24 + b1 * 2 ^ 16 + b2 * 2 ^ 8 + b3.
Proof.
  intros. rewrite !Z.shiftl_mul_pow2 by lia. rewrite !wrap_small by lia.
  rewrite (lor_add_low (b0 * _) _ 24); [|lia|by apply Z.mod_mul|lia].
  rewrite (lor_add_low (_ + _) (b2 * _) 16); [|lia| |lia].
  2: { Z.div_mod_to_equations. lia. }
  rewrite (lor_add_low _ b3 8); [done|lia| |lia].
  Z.div_mod_to_equations. lia.
Qed.

Lemma be64_join (h l : Z) :
  0 <= h < 2 ^ 32 -> 0 <= l < 2 ^ 32 -> u64 (h ≪ 32) .| l = h * 2 ^ 32 + l.
Proof.
  intros. rewrite wrap_small by (rewrite Z.shiftl_mul_pow2; lia).
  by rewrite lor_shiftl_add by lia.
Qed.

Lemma be16_split (v : Z) :
  0 <= v < 2 ^ 16 -> u8 (v ≫ 8) * 2 ^ 8 + u8 v = v.
Proof.
  intros. rewrite u8_shiftr by lia. unfold wrap. Z.div_mod_to_equations. lia.
Qed.

Lemma be32_split (v : Z) :
  0 <= v < 2 ^ 32 ->
  u8 (v ≫ 24) * 2 ^ 24 + u8 (v ≫ 16) * 2 ^ 16 + u8 (v ≫ 8) * 2 ^ 8 + u8 v = v.
Proof.
  intros. rewrite !u8_shiftr by lia. unfold wrap. Z.div_mod_to_equations. lia.
Qed.

Lemma be64_split (v : Z) :
  0 <= v < 2 ^ 64 -> u32 (v ≫ 32) * 2 ^ 32 + u32 v = v.
Proof.
  intros. unfold wrap. rewrite Z.shiftr_div_pow2 by lia.
  Z.div_mod_to_equations. lia.
Qed.

Lemma u32_land_ones (v : Z) : u32 (v .& 0xffffffff) = u32 v.
Proof.
  change 0xffffffff with (Z.ones 32). rewrite Z.land_ones by lia.
  unfold wrap. by rewrite Z.mod_mod by lia.
Qed.

Lemma u8_range (x : Z) : 0 <= u8 x < 256.
Proof. apply (wrap_bounds 8). lia. Qed.

(** The wire bytes of a value, most significant first. *)
Definition be16_bytes (v : Z) : list Z := [u8 (v ≫ 8); u8 v].
Definition be32_bytes (v : Z) : list Z :=
  [u8 (v ≫ 24); u8 (v ≫ 16); u8 (v ≫ 8); u8 v].
Definition be64_bytes (v : Z) : list Z :=
  be32_bytes (u32 (v ≫ 32)) ++ be32_bytes (u32 v).

Lemma be16_bytes_join (b0 b1 : Z) :
  0 <= b0 < 256 -> 0 <= b1 < 256 -> be16_bytes (b0 * 2 ^ 8 + b1) = [b0; b1].
Proof.
  intros. unfold be16_bytes. rewrite !u8_shiftr by lia. unfold wrap.
  repeat f_equal; Z.div_mod_to_equations; lia.
Qed.

Lemma be32_bytes_join (b0 b1 b2 b3 : Z) :
  0 <= b0 < 256 -> 0 <= b1 < 256 -> 0 <= b2 < 256 -> 0 <= b3 < 256 ->
  be32_bytes (b0 * 2 ^ 24 + b1 * 2 ^ 16 + b2 * 2 ^ 8 + b3) = [b0; b1; b2; b3].
Proof.
  intros. unfold be32_bytes. rewrite !u8_shiftr by lia. unfold wrap.
  repeat f_equal; Z.div_mod_to_equations; lia.
Qed.

Lemma be64_bytes_join (h l : Z) :
  0 <= h < 2 ^ 32 -> 0 <= l < 2 ^ 32 ->
  be64_bytes (h * 2 ^ 32 + l) = be32_bytes h ++ be32_bytes l.
Proof.
  intros. unfold be64_bytes. rewrite Z.shiftr_div_pow2 by lia. unfold wrap.
  replace ((h * 2 ^ 32 + l) / 2 ^ 32) with h by (Z.div_mod_to_equations; lia).
  replace ((h * 2 ^ 32 + l) mod 2 ^ 32) with l by (Z.div_mod_to_equations; lia).
  by rewrite Z.mod_small by lia.
Qed.

Lemma bytes_ok_be32 v : bytes_ok (be32_bytes v).
Proof. repeat constructor; apply u8_range. Qed.

(** A single-bit mask test is a bit test. *)
Lemma land_pow2_testbit (x n : Z) :
  0 <= n -> (Z.land x (2 ^ n) =? 0) = negb (Z.testbit x n).
Proof.
  intros Hn. destruct (Z.testbit x n) eqn:E; simpl.
  - apply Z.eqb_neq. intros H.
    apply (f_equal (fun y => Z.testbit y n)) in H.
    rewrite Z.land_spec, Z.pow2_bits_true, E, Z.bits_0 in H by done. done.
  - apply Z.eqb_eq, Z.bits_inj'. intros i Hi.
    rewrite Z.land_spec, Z.bits_0.
    destruct (decide (i = n)) as [->|].
    + by rewrite E.
    + rewrite Z.pow2_bits_false by lia. apply andb_false_r.
Qed.

(** ** Generic lemmas: byte memories *)

Lemma length_mem_write m off bs :
  length (mem_write m off bs) = Nat.max (length m) (off + length bs).
Proof.
  unfold mem_write.
  rewrite !length_app, length_take, length_drop, length_replicate. lia.
Qed.

Lemma mem_get_ge (m : list Z) i : (length m <= i)%nat -> mem_get m i = 0.
Proof. intros. unfold mem_get. by rewrite lookup_ge_None_2. Qed.

Lemma mem_get_replicate n i : mem_get (replicate n 0) i = 0.
Proof.
  unfold mem_get. destruct (replicate n 0 !! i) eqn:E; [|done].
  apply lookup_replicate in E as [-> _]. done.
Qed.

Lemma mem_get_app m1 m2 i :
  mem_get (m1 ++ m2) i =
  if decide (i < length m1)%nat then mem_get m1 i else mem_get m2 (i - length m1).
Proof.
  unfold mem_get. case_decide.
  - by rewrite lookup_app_l by lia.
  - by rewrite lookup_app_r by lia.
Qed.

Lemma mem_get_take m n i :
  mem_get (take n m) i = if decide (i < n)%nat then mem_get m i else 0.
Proof.
  unfold mem_get. case_decide.
  - by rewrite lookup_take_lt by lia.
  - by rewrite lookup_take_ge by lia.
Qed.

Lemma mem_get_drop m n i : mem_get (drop n m) i = mem_get m (n + i).
Proof. unfold mem_get. by rewrite lookup_drop. Qed.

Lemma mem_get_write m off bs i :
  mem_get (mem_write m off bs) i =
  if decide (off <= i < off + length bs)%nat
  then mem_get bs (i - off) else mem_get m i.
Proof.
  unfold mem_write.
  rewrite !mem_get_app, mem_get_take, mem_get_replicate, mem_get_drop,
    length_take, length_replicate.
  repeat case_decide; try lia; try done;
    solve [f_equal; lia | rewrite ?mem_get_ge by lia; done].
Qed.

Lemma mem_write_0 m bs : mem_write m 0 bs = bs ++ drop (length bs) m.
Proof. done. Qed.

Lemma mem_write_nil_0 m : mem_write m 0 [] = m.
Proof. done. Qed.

Lemma mem_get_write1 m k x j :
  mem_get (mem_write m k [x]) j = if decide (j = k) then x else mem_get m j.
Proof.
  rewrite mem_get_write. simpl. repeat case_decide; try lia; try done.
  replace (j - k)%nat with 0%nat by lia. done.
Qed.

(** Writing at the end of a known prefix. *)
Lemma mem_write_app p rest off bs :
  off = length p ->
  mem_write (p ++ rest) off bs = (p ++ bs) ++ drop (length bs) rest.
Proof.
  intros ->. unfold mem_write.
  rewrite take_app_length, length_app.
  replace (length p - (length p + length rest))%nat with 0%nat by lia.
  rewrite drop_app_add'; [|done].
  simpl. by rewrite <- app_assoc.
Qed.

Lemma length_mem_read m off n : length (mem_read m off n) = n.
Proof.
  unfold mem_read.
  rewrite length_take, length_app, length_drop, length_replicate. lia.
Qed.

Lemma mem_get_read m off n i :
  (i < n)%nat -> mem_get (mem_read m off n) i = mem_get m (off + i).
Proof.
  intros. unfold mem_read.
  rewrite mem_get_take, decide_True by done.
  rewrite mem_get_app, mem_get_drop, mem_get_replicate, length_drop.
  case_decide; [done|]. rewrite mem_get_ge; [done|lia].
Qed.

Lemma list_eq_mem_get (l k : list Z) :
  length l = length k ->
  (forall i, (i < length l)%nat -> mem_get l i = mem_get k i) -> l = k.
Proof.
  intros Hl H. apply list_eq_same_length with (length l); [done|done|].
  intros i x y Hi Hx Hy. specialize (H i Hi). unfold mem_get in H.
  by rewrite Hx, Hy in H.
Qed.

Lemma mem_read_write_same m off bs :
  mem_read (mem_write m off bs) off (length bs) = bs.
Proof.
  apply list_eq_mem_get; rewrite length_mem_read; [done|].
  intros i Hi. rewrite mem_get_read by done.
  rewrite mem_get_write, decide_True by lia. f_equal. lia.
Qed.

Lemma mem_read_0_take m n : (n <= length m)%nat -> mem_read m 0 n = take n m.
Proof.
  intros. unfold mem_read. rewrite drop_0, take_app_le by done. done.
Qed.

Lemma bytes_ok_app m1 m2 : bytes_ok (m1 ++ m2) <-> bytes_ok m1 /\ bytes_ok m2.
Proof. apply Forall_app. Qed.

Lemma bytes_ok_get m i : bytes_ok m -> 0 <= mem_get m i < 256.
Proof.
  intros H. unfold mem_get. destruct (m !! i) eqn:E; simpl; [|lia].
  by eapply Forall_lookup_1 in E; [|done].
Qed.

Lemma mem_write_snoc m off bs b :
  bs <> [] ->
  mem_write m off (bs ++ [b]) = mem_write (mem_write m off bs) (off + length bs) [b].
Proof.
  intros Hbs. assert (0 < length bs)%nat by (destruct bs; [done|simpl; lia]).
  apply list_eq_mem_get.
  { rewrite !length_mem_write, !length_app. simpl. lia. }
  intros i _. rewrite mem_get_write1, !mem_get_write, length_app. simpl.
  repeat case_decide; try lia; try done.
  - rewrite mem_get_app, decide_False by lia. subst.
    replace (off + length bs - off - length bs)%nat with 0%nat by lia. done.
  - by rewrite mem_get_app, decide_True by lia.
Qed.

Lemma mem_read_snoc m off n :
  mem_read m off (S n) = mem_read m off n ++ [mem_get m (off + n)].
Proof.
  apply list_eq_mem_get.
  { rewrite length_app, !length_mem_read. simpl. lia. }
  rewrite length_mem_read. intros i Hi.
  rewrite mem_get_read by done. rewrite mem_get_app, length_mem_read.
  case_decide; [by rewrite mem_get_read by done|].
  replace i with n by lia. by rewrite Nat.sub_diag.
Qed.

(** ** Counting a decidable set of positions *)

Fixpoint count (f : Z -> bool) (n : nat) : Z :=
  match n with
  | O => 0
  | S n => count f n + b2z (f (Z.of_nat n))
  end.

Lemma count_bounds f n : 0 <= count f n <= Z.of_nat n.
Proof. induction n; cbn [count]; [lia|]. unfold b2z. destruct (f _); lia. Qed.

Lemma count_ext f g n :
  (forall i, 0 <= i < Z.of_nat n -> f i = g i) -> count f n = count g n.
Proof.
  induction n as [|n IH]; cbn [count]; intros H; [done|].
  rewrite IH, (H (Z.of_nat n)) by (intros; apply H || idtac; lia). done.
Qed.

Lemma count_false n : count (fun _ => false) n = 0.
Proof. induction n; cbn [count]; unfold b2z; lia. Qed.

(** Adding one new position below the bound adds one to the count. *)
Lemma count_add f g n p :
  0 <= p < Z.of_nat n -> f p = false ->
  (forall i, 0 <= i -> g i = f i || (i =? p)) -> count g n = count f n + 1.
Proof.
  intros Hp Hf Hg. induction n as [|n IH]; [lia|]. cbn [count].
  destruct (decide (p = Z.of_nat n)) as [->|].
  - rewrite Hg, Hf, Z.eqb_refl by lia. unfold b2z; cbn [orb].
    rewrite (count_ext g f n); [lia|]. intros i Hi. rewrite Hg by lia.
    replace (i =? Z.of_nat n) with false by lia. apply orb_false_r.
  - rewrite IH by lia. rewrite (Hg (Z.of_nat n)) by lia.
    replace (Z.of_nat n =? p) with false by lia. rewrite orb_false_r. lia.
Qed.

Lemma count_full f n :
  count f n = Z.of_nat n <-> (forall i, 0 <= i < Z.of_nat n -> f i = true).
Proof.
  induction n as [|n IH]; cbn [count].
  { split; [|done]. intros _ i ?. lia. }
  pose proof (count_bounds f n) as Hcb. unfold b2z. split.
  - intros H i Hi. destruct (f (Z.of_nat n)) eqn:E; [|lia].
    destruct (decide (i = Z.of_nat n)) as [->|]; [done|].
    apply IH; lia.
  - intros Hall. rewrite (Hall (Z.of_nat n)) by lia.
    rewrite (proj2 IH); [lia|]. intros i Hi. apply Hall. lia.
Qed.

#[export] Hint Rewrite length_mem_write length_mem_read mem_get_replicate
  mem_read_write_same : spw.
Lemma bytes_ok_check m : forallb (fun b => (0 <=? b) && (b <? 256)) m = true -> bytes_ok m.
Proof.
  intros H. apply Forall_forall. intros b Hb. rewrite forallb_forall in H.
  specialize (H b (proj1 (list_elem_of_In _ _) Hb)). lia.
Qed.

Lemma bytes_ok_replicate n : bytes_ok (replicate n 0).
Proof. apply Forall_replicate. lia. Qed.

Lemma bytes_ok_read m off n : bytes_ok m -> bytes_ok (mem_read m off n).
Proof.
  intros H. unfold mem_read. apply Forall_take, bytes_ok_app.
  split; [by apply Forall_drop|apply bytes_ok_replicate].
Qed.

Lemma bytes_ok_write m off bs : bytes_ok m -> bytes_ok bs -> bytes_ok (mem_write m off bs).
Proof.
  intros H Hb. unfold mem_write. rewrite !bytes_ok_app.
  split_and!; [by apply Forall_take|apply bytes_ok_replicate|done|by apply Forall_drop].
Qed.

#[export] Hint Resolve wrap_bounds bytes_ok_get bytes_ok_read bytes_ok_write : spw.
