(* ===== verification/Types.v ===== *)
(** * Public types and constants

    src/include/spwkit/types.h, config.h, udp.h, simulator.h and device.h: the
    result codes, link states, capability and readiness bits, packets,
    time-codes, statistics and configuration structures that every component
    shares.  Results are the C integers; a pointer that may be NULL is an
    [option]. *)

From S2P Require Import Prelude.

(** ** types.h *)

Definition SPW_OK : Z := 0.
Definition SPW_ERR_INVALID_ARGUMENT : Z := -1.
Definition SPW_ERR_INVALID_STATE : Z := -2.
Definition SPW_ERR_TIMEOUT : Z := -3.
Definition SPW_ERR_UNSUPPORTED : Z := -4.
Definition SPW_ERR_RESOURCE_EXHAUSTED : Z := -5.
Definition SPW_ERR_LINK_UNAVAILABLE : Z := -6.
Definition SPW_ERR_BUFFER_TOO_SMALL : Z := -7.
Definition SPW_ERR_INVALID_PACKET : Z := -8.
Definition SPW_ERR_BACKEND : Z := -9.

Definition SPW_TIMEOUT_IMMEDIATE : Z := 0.
Definition SPW_TIMEOUT_INFINITE : Z := UINT64_MAX.

Definition SPW_TERMINATOR_EOP : Z := 0.
Definition SPW_TERMINATOR_EEP : Z := 1.

Definition SPW_LINK_ERROR_RESET : Z := 0.
Definition SPW_LINK_ERROR_WAIT : Z := 1.
Definition SPW_LINK_READY : Z := 2.
Definition SPW_LINK_STARTED : Z := 3.
Definition SPW_LINK_CONNECTING : Z := 4.
Definition SPW_LINK_RUN : Z := 5.

Definition SPW_CAP_NONE : Z := 0.
Definition SPW_CAP_EEP : Z := 1 ≪ 0.
Definition SPW_CAP_TIME_CODE : Z := 1 ≪ 1.
Definition SPW_CAP_LINK_CONTROL : Z := 1 ≪ 2.
Definition SPW_CAP_STATISTICS : Z := 1 ≪ 3.
Definition SPW_CAP_RATE_CONTROL : Z := 1 ≪ 4.
Definition SPW_CAP_FAULT_INJECTION : Z := 1 ≪ 5.
Definition SPW_CAP_ZERO_COPY : Z := 1 ≪ 6.
Definition SPW_CAP_READINESS : Z := 1 ≪ 7.

Definition SPW_READY_NONE : Z := 0.
Definition SPW_READY_RX_PACKET : Z := 1 ≪ 0.
Definition SPW_READY_RX_TIME_CODE : Z := 1 ≪ 1.
Definition SPW_READY_ALL : Z := SPW_READY_RX_PACKET .| SPW_READY_RX_TIME_CODE.

Record spw_capabilities := {
  cap_bits : Z;
  cap_max_packet_size : Z;
  cap_tx_queue_depth : Z;
  cap_rx_queue_depth : Z;
  cap_buffer_alignment : Z
}.

(** [pkt_data] is the pointed-to storage: the payload bytes of a packet to
    send, or the caller's writable storage for a packet to receive. *)
Record spw_packet := {
  pkt_data : option (list Z);
  pkt_length : Z;
  pkt_capacity : Z;
  pkt_terminator : Z
}.

Record spw_time_code := {
  time_count : Z;
  control_flags : Z
}.

Record spw_statistics := {
  tx_packets : Z;
  rx_packets : Z;
  tx_bytes : Z;
  rx_bytes : Z;
  tx_time_codes : Z;
  rx_time_codes : Z;
  eep_packets : Z;
  link_errors : Z;
  dropped_packets : Z
}.

Definition statistics_zero : spw_statistics :=
  {| tx_packets := 0; rx_packets := 0; tx_bytes := 0; rx_bytes := 0;
     tx_time_codes := 0; rx_time_codes := 0; eep_packets := 0;
     link_errors := 0; dropped_packets := 0 |}.

Record spw_fault_statistics := {
  transport_drops : Z;
  transport_duplicates : Z;
  transport_reorders : Z;
  transport_delays : Z;
  spacewire_eep_injections : Z
}.

Definition fault_statistics_zero : spw_fault_statistics :=
  {| transport_drops := 0; transport_duplicates := 0; transport_reorders := 0;
     transport_delays := 0; spacewire_eep_injections := 0 |}.

(** ** udp.h *)

Definition SPW_UDP_CONFIG_VERSION : Z := 3.
Definition SPW_UDP_ADDRESS_MAX : Z := 64.
Definition SPW_UDP_FAULT_RULE_COUNT : nat := 8.
Definition SPW_UDP_FAULT_PROBABILITY_SCALE : Z := 10000.

Definition SPW_UDP_FAULT_ACTION_NONE : Z := 0.
Definition SPW_UDP_FAULT_ACTION_TRANSPORT_DROP : Z := 1.
Definition SPW_UDP_FAULT_ACTION_TRANSPORT_DUPLICATE : Z := 2.
Definition SPW_UDP_FAULT_ACTION_TRANSPORT_REORDER : Z := 3.
Definition SPW_UDP_FAULT_ACTION_TRANSPORT_DELAY : Z := 4.
Definition SPW_UDP_FAULT_ACTION_SPACEWIRE_EEP : Z := 5.

Definition SPW_UDP_FAULT_TARGET_ANY : Z := 0.
Definition SPW_UDP_FAULT_TARGET_DATA : Z := 1.
Definition SPW_UDP_FAULT_TARGET_TIME_CODE : Z := 2.
Definition SPW_UDP_FAULT_TARGET_ACK : Z := 3.
Definition SPW_UDP_FAULT_TARGET_KEEPALIVE : Z := 4.

Record spw_udp_fault_rule := {
  action : Z;
  target : Z;
  probability_per_10000 : Z;
  max_events : Z;
  rule_delay_us : Z;
  rule_reserved : Z
}.

Record spw_udp_config := {
  udp_struct_size : Z;
  udp_version : Z;
  local_address : list Z;
  local_port : Z;
  remote_address : list Z;
  remote_port : Z;
  udp_link_id : Z;
  fragment_payload_size : Z;
  max_retries : Z;
  ack_timeout_ms : Z;
  keepalive_interval_ms : Z;
  peer_timeout_ms : Z;
  virtual_link_bps : Z;
  virtual_latency_us : Z;
  fault_seed : Z;
  fault_rules : list spw_udp_fault_rule;
  udp_reserved : Z
}.

Definition SPW_UDP_FAULT_RULE_INITIALIZER : spw_udp_fault_rule :=
  {| action := SPW_UDP_FAULT_ACTION_NONE; target := SPW_UDP_FAULT_TARGET_ANY;
     probability_per_10000 := 0; max_events := 0; rule_delay_us := 0;
     rule_reserved := 0 |}.

(** ** simulator.h and device.h *)

Definition SPW_SIMULATOR_CONFIG_VERSION : Z := 1.
Definition SPW_SIMULATOR_ENDPOINT_A : Z := 0.
Definition SPW_SIMULATOR_ENDPOINT_B : Z := 1.

Record spw_simulator_config := {
  sim_struct_size : Z;
  sim_version : Z;
  sim_link_id : Z;
  sim_endpoint : Z
}.

Definition SPW_DEVICE_CONFIG_VERSION : Z := 1.
Definition SPW_DEVICE_ENDPOINT_CAPACITY : Z := 108.

Record spw_device_config := {
  dev_struct_size : Z;
  dev_version : Z;
  dev_port_id : Z;
  dev_reserved : Z;
  dev_endpoint : list Z
}.
