(* ===== verification/Posix.v ===== *)
(** * System constants

    The values of poll.h, errno.h and fcntl.h on Linux, which the server, the
    socket backends and the CUSE presenter use. *)

From S2P Require Import Prelude.

Definition POLLIN : Z := 1.
Definition POLLOUT : Z := 4.
Definition POLLERR : Z := 8.
Definition POLLHUP : Z := 16.
Definition POLLNVAL : Z := 32.
Definition POLLRDNORM : Z := 64.
Definition POLLWRNORM : Z := 256.
Definition EINTR : Z := 4.
Definition EIO : Z := 5.
Definition EAGAIN : Z := 11.
Definition EWOULDBLOCK : Z := EAGAIN.
Definition ENOMEM : Z := 12.
Definition EBUSY : Z := 16.
Definition EINVAL : Z := 22.
Definition ENOLINK : Z := 67.
Definition EMSGSIZE : Z := 90.
Definition EOPNOTSUPP : Z := 95.
Definition ENOBUFS : Z := 105.
Definition O_NONBLOCK : Z := 2048.
