(* ===== verification/VspwTp.v ===== *)
(** * VSPW-TP wire codec

    The distributed UDP transport protocol of
    src/src/backends/ethernet/vspw_tp.{h,c}: the 40-byte big-endian header,
    its validation, and the acknowledgement payload. Pointer arguments are
    options ([None] is NULL); a byte buffer is a list of byte values with its
    size passed separately, as in C. *)

From S2P Require Import Prelude.

(** ** Constants (vspw_tp.h) *)

Definition SPW_VSPW_TP_MAGIC : Z := 0x56535057.
Definition SPW_VSPW_TP_VERSION_MAJOR : Z := 1.
Definition SPW_VSPW_TP_VERSION_MINOR : Z := 0.
Definition SPW_VSPW_TP_HEADER_SIZE : Z := 40.
Definition SPW_VSPW_TP_MAX_UDP_PAYLOAD : Z := 65507.
Definition SPW_VSPW_TP_MAX_FRAGMENT_PAYLOAD : Z :=
  SPW_VSPW_TP_MAX_UDP_PAYLOAD - SPW_VSPW_TP_HEADER_SIZE.
Definition SPW_VSPW_TP_MAX_PACKET_SIZE : Z := 16 * 1024 * 1024.
Definition SPW_VSPW_TP_TIME_CODE_PAYLOAD_SIZE : Z := 2.
Definition SPW_VSPW_TP_ACK_PAYLOAD_SIZE : Z := 8.

Definition SPW_VSPW_TP_DATA : Z := 1.
Definition SPW_VSPW_TP_TIME_CODE : Z := 2.
Definition SPW_VSPW_TP_LINK_CONTROL : Z := 3.
Definition SPW_VSPW_TP_KEEPALIVE : Z := 4.
Definition SPW_VSPW_TP_ACK : Z := 5.

Definition SPW_VSPW_TP_FLAG_EOP : Z := 2 ^ 0.
Definition SPW_VSPW_TP_FLAG_EEP : Z := 2 ^ 1.
Definition SPW_VSPW_TP_FLAG_FRAGMENT_START : Z := 2 ^ 2.
Definition SPW_VSPW_TP_FLAG_FRAGMENT_END : Z := 2 ^ 3.
Definition SPW_VSPW_TP_FLAG_ACK_REQUIRED : Z := 2 ^ 4.

#[export] Hint Unfold SPW_VSPW_TP_MAGIC SPW_VSPW_TP_VERSION_MAJOR
  SPW_VSPW_TP_VERSION_MINOR SPW_VSPW_TP_HEADER_SIZE
  SPW_VSPW_TP_MAX_UDP_PAYLOAD SPW_VSPW_TP_MAX_FRAGMENT_PAYLOAD
  SPW_VSPW_TP_MAX_PACKET_SIZE SPW_VSPW_TP_TIME_CODE_PAYLOAD_SIZE
  SPW_VSPW_TP_ACK_PAYLOAD_SIZE SPW_VSPW_TP_DATA SPW_VSPW_TP_TIME_CODE
  SPW_VSPW_TP_LINK_CONTROL SPW_VSPW_TP_KEEPALIVE SPW_VSPW_TP_ACK : spw_consts.

(** Host representation of the header. *)
Record spw_vspw_tp_header := {
  version_major : Z;
  version_minor : Z;
  type : Z;
  flags : Z;
  header_size : Z;
  payload_size : Z;
  link_id : Z;
  session_id : Z;
  sequence : Z;
  message_id : Z;
  fragment_offset : Z;
  total_size : Z
}.

(** [spw_vspw_tp_decode_result_t]; [DECODE_OK] carries the header written to
    [*out_header], which the C code leaves untouched on every error. *)
Inductive decode_result :=
  | DECODE_OK (h : spw_vspw_tp_header)
  | DECODE_BUFFER_TOO_SMALL
  | DECODE_BAD_MAGIC
  | DECODE_UNSUPPORTED_VERSION
  | DECODE_UNSUPPORTED_TYPE
  | DECODE_INVALID_HEADER_SIZE
  | DECODE_INVALID_PAYLOAD_SIZE
  | DECODE_INVALID_SESSION
  | DECODE_INVALID_FLAGS
  | DECODE_INVALID_FRAGMENT.

(** ** Byte-order helpers *)

Definition write_u16 (dst : list Z) (off : nat) (value : Z) : list Z :=
  mem_write dst off [u8 ((value ≫ 8) .& 0xff); u8 (value .& 0xff)].

Definition write_u32 (dst : list Z) (off : nat) (value : Z) : list Z :=
  mem_write dst off
    [u8 ((value ≫ 24) .& 0xff); u8 ((value ≫ 16) .& 0xff);
     u8 ((value ≫ 8) .& 0xff); u8 (value .& 0xff)].

Definition write_u64 (dst : list Z) (off : nat) (value : Z) : list Z :=
  let dst := write_u32 dst off (u32 (value ≫ 32)) in
  write_u32 dst (off + 4) (u32 (value .& 0xffffffff)).

Definition read_u16 (src : list Z) (off : nat) : Z :=
  u16 (u16 (mem_get src off ≪ 8) .| mem_get src (off + 1)).

Definition read_u32 (src : list Z) (off : nat) : Z :=
  u32 (mem_get src off ≪ 24) .| u32 (mem_get src (off + 1) ≪ 16)
  .| u32 (mem_get src (off + 2) ≪ 8) .| mem_get src (off + 3).

Definition read_u64 (src : list Z) (off : nat) : Z :=
  u64 (read_u32 src off ≪ 32) .| read_u32 src (off + 4).

Arguments write_u16 dst off%_nat_scope value.
Arguments write_u32 dst off%_nat_scope value.
Arguments write_u64 dst off%_nat_scope value.
Arguments read_u16 src off%_nat_scope.
Arguments read_u32 src off%_nat_scope.
Arguments read_u64 src off%_nat_scope.

(** ** Header validation *)

Definition has_flag (flags flag : Z) : bool := negb (flags .& flag =? 0).

Definition spw_vspw_tp_is_known_type (type : Z) : bool :=
  (type =? SPW_VSPW_TP_DATA) || (type =? SPW_VSPW_TP_TIME_CODE) ||
  (type =? SPW_VSPW_TP_LINK_CONTROL) ||
  (type =? SPW_VSPW_TP_KEEPALIVE) || (type =? SPW_VSPW_TP_ACK).

Definition validate_flags (header : spw_vspw_tp_header) : bool :=
  let known_flags :=
    u8 (SPW_VSPW_TP_FLAG_EOP .| SPW_VSPW_TP_FLAG_EEP .|
        SPW_VSPW_TP_FLAG_FRAGMENT_START .| SPW_VSPW_TP_FLAG_FRAGMENT_END .|
        SPW_VSPW_TP_FLAG_ACK_REQUIRED) in
  if negb (flags header .& u8 (Z.lnot known_flags) =? 0) then false else
  if has_flag (flags header) SPW_VSPW_TP_FLAG_EOP &&
     has_flag (flags header) SPW_VSPW_TP_FLAG_EEP then false else
  if negb (type header =? SPW_VSPW_TP_DATA) &&
     (has_flag (flags header) SPW_VSPW_TP_FLAG_EOP ||
      has_flag (flags header) SPW_VSPW_TP_FLAG_EEP) then false else
  if has_flag (flags header) SPW_VSPW_TP_FLAG_ACK_REQUIRED &&
     negb (type header =? SPW_VSPW_TP_DATA) &&
     negb (type header =? SPW_VSPW_TP_TIME_CODE) then false else
  true.

Definition validate_fragment (header : spw_vspw_tp_header) : bool :=
  let start := has_flag (flags header) SPW_VSPW_TP_FLAG_FRAGMENT_START in
  let end_ := has_flag (flags header) SPW_VSPW_TP_FLAG_FRAGMENT_END in
  let fragment_end := u64 (fragment_offset header + payload_size header) in
  if (SPW_VSPW_TP_MAX_PACKET_SIZE <? total_size header) ||
     (SPW_VSPW_TP_MAX_FRAGMENT_PAYLOAD <? payload_size header) ||
     (total_size header <? fragment_offset header) ||
     (total_size header <? fragment_end) then false else
  if negb (type header =? SPW_VSPW_TP_DATA) then
    (fragment_offset header =? 0) &&
    (total_size header =? payload_size header) && negb start && negb end_
  else
  if total_size header =? payload_size header then
    (fragment_offset header =? 0) && negb start && negb end_
  else
  if negb start && negb end_ && (payload_size header =? 0) then false else
  if start && negb (fragment_offset header =? 0) then false else
  if end_ && negb (fragment_end =? total_size header) then false else
  true.

Definition validate_message_shape (header : spw_vspw_tp_header) : bool :=
  if type header =? SPW_VSPW_TP_DATA then true else
  if type header =? SPW_VSPW_TP_TIME_CODE then
    (payload_size header =? SPW_VSPW_TP_TIME_CODE_PAYLOAD_SIZE) &&
    (total_size header =? SPW_VSPW_TP_TIME_CODE_PAYLOAD_SIZE) else
  if type header =? SPW_VSPW_TP_KEEPALIVE then
    (payload_size header =? 0) && (total_size header =? 0) &&
    (message_id header =? 0) else
  if type header =? SPW_VSPW_TP_ACK then
    (payload_size header =? SPW_VSPW_TP_ACK_PAYLOAD_SIZE) &&
    (total_size header =? SPW_VSPW_TP_ACK_PAYLOAD_SIZE) &&
    negb (message_id header =? 0) else
  if type header =? SPW_VSPW_TP_LINK_CONTROL then true else
  false.

Definition spw_vspw_tp_validate (header : option spw_vspw_tp_header) : bool :=
  match header with
  | None => false
  | Some header =>
      (version_major header =? SPW_VSPW_TP_VERSION_MAJOR) &&
      (version_minor header <=? SPW_VSPW_TP_VERSION_MINOR) &&
      spw_vspw_tp_is_known_type (type header) &&
      (header_size header =? SPW_VSPW_TP_HEADER_SIZE) &&
      negb (session_id header =? 0) && validate_flags header &&
      validate_fragment header && validate_message_shape header
  end.

(** ** Encoding and decoding *)

Definition encode_fields (header : spw_vspw_tp_header) (destination : list Z)
  : list Z :=
  let d := write_u32 destination 0 SPW_VSPW_TP_MAGIC in
  let d := mem_write d 4 [version_major header] in
  let d := mem_write d 5 [version_minor header] in
  let d := mem_write d 6 [type header] in
  let d := mem_write d 7 [flags header] in
  let d := write_u16 d 8 (header_size header) in
  let d := write_u16 d 10 (payload_size header) in
  let d := write_u32 d 12 (link_id header) in
  let d := write_u64 d 16 (session_id header) in
  let d := write_u32 d 24 (sequence header) in
  let d := write_u32 d 28 (message_id header) in
  let d := write_u32 d 32 (fragment_offset header) in
  write_u32 d 36 (total_size header).

(** [None] is the C result [false]; [Some] carries the written buffer. *)
Definition spw_vspw_tp_encode_header (header : option spw_vspw_tp_header)
    (destination : option (list Z)) (destination_size : Z) : option (list Z) :=
  match destination, header with
  | Some destination, Some h =>
      if (destination_size <? SPW_VSPW_TP_HEADER_SIZE) ||
         negb (spw_vspw_tp_validate header)
      then None
      else Some (encode_fields h destination)
  | _, _ => None
  end.

Definition decode_fields (source : list Z) : spw_vspw_tp_header :=
  {| version_major := mem_get source 4;
     version_minor := mem_get source 5;
     type := mem_get source 6;
     flags := mem_get source 7;
     header_size := read_u16 source 8;
     payload_size := read_u16 source 10;
     link_id := read_u32 source 12;
     session_id := read_u64 source 16;
     sequence := read_u32 source 24;
     message_id := read_u32 source 28;
     fragment_offset := read_u32 source 32;
     total_size := read_u32 source 36 |}.

Definition spw_vspw_tp_decode_header (source : option (list Z))
    (source_size : Z) : decode_result :=
  match source with
  | None => DECODE_BUFFER_TOO_SMALL
  | Some source =>
      if source_size <? SPW_VSPW_TP_HEADER_SIZE then DECODE_BUFFER_TOO_SMALL else
      if negb (read_u32 source 0 =? SPW_VSPW_TP_MAGIC) then DECODE_BAD_MAGIC else
      let header := decode_fields source in
      if negb (version_major header =? SPW_VSPW_TP_VERSION_MAJOR) ||
         (SPW_VSPW_TP_VERSION_MINOR <? version_minor header)
      then DECODE_UNSUPPORTED_VERSION else
      if negb (spw_vspw_tp_is_known_type (type header))
      then DECODE_UNSUPPORTED_TYPE else
      if negb (header_size header =? SPW_VSPW_TP_HEADER_SIZE)
      then DECODE_INVALID_HEADER_SIZE else
      if (SPW_VSPW_TP_MAX_FRAGMENT_PAYLOAD <? payload_size header) ||
         (source_size <? SPW_VSPW_TP_HEADER_SIZE + payload_size header)
      then DECODE_INVALID_PAYLOAD_SIZE else
      if session_id header =? 0 then DECODE_INVALID_SESSION else
      if negb (validate_flags header) then DECODE_INVALID_FLAGS else
      if negb (validate_fragment header) || negb (validate_message_shape header)
      then DECODE_INVALID_FRAGMENT else
      DECODE_OK header
  end.

Definition spw_vspw_tp_encode_ack_payload (acknowledged_session_id : Z)
    (destination : option (list Z)) (destination_size : Z) : option (list Z) :=
  match destination with
  | None => None
  | Some destination =>
      if (destination_size <? SPW_VSPW_TP_ACK_PAYLOAD_SIZE) ||
         (acknowledged_session_id =? 0)
      then None
      else Some (write_u64 destination 0 acknowledged_session_id)
  end.

Definition spw_vspw_tp_decode_ack_payload (source : option (list Z))
    (source_size : Z) : option Z :=
  match source with
  | None => None
  | Some source =>
      if negb (source_size =? SPW_VSPW_TP_ACK_PAYLOAD_SIZE) then None else
      let value := read_u64 source 0 in
      if value =? 0 then None else Some value
  end.

(** ** Header ranges and bytes *)

(** Every field fits the C type it is declared with. *)
Definition header_in_range (h : spw_vspw_tp_header) : bool :=
  in_width 8 (version_major h) && in_width 8 (version_minor h) &&
  in_width 8 (type h) && in_width 8 (flags h) &&
  in_width 16 (header_size h) && in_width 16 (payload_size h) &&
  in_width 32 (link_id h) && in_width 64 (session_id h) &&
  in_width 32 (sequence h) && in_width 32 (message_id h) &&
  in_width 32 (fragment_offset h) && in_width 32 (total_size h).

(** The 40 bytes of a header on the wire, in order. *)
Definition header_bytes (h : spw_vspw_tp_header) : list Z :=
  be32_bytes SPW_VSPW_TP_MAGIC ++
  [version_major h; version_minor h; type h; flags h] ++
  be16_bytes (header_size h) ++ be16_bytes (payload_size h) ++
  be32_bytes (link_id h) ++ be64_bytes (session_id h) ++
  be32_bytes (sequence h) ++ be32_bytes (message_id h) ++
  be32_bytes (fragment_offset h) ++ be32_bytes (total_size h).

Lemma write_u16_app p rest off v :
  off = length p -> write_u16 (p ++ rest) off v = (p ++ be16_bytes v) ++ drop 2 rest.
Proof.
  intros. unfold write_u16. rewrite mem_write_app by done. by rewrite !u8_land_ff.
Qed.

Lemma write_u32_app p rest off v :
  off = length p -> write_u32 (p ++ rest) off v = (p ++ be32_bytes v) ++ drop 4 rest.
Proof.
  intros. unfold write_u32. rewrite mem_write_app by done. by rewrite !u8_land_ff.
Qed.

Lemma write_u64_app p rest off v :
  off = length p -> write_u64 (p ++ rest) off v = (p ++ be64_bytes v) ++ drop 8 rest.
Proof.
  intros. unfold write_u64. rewrite write_u32_app by done.
  rewrite write_u32_app by (rewrite length_app; simpl; lia).
  unfold be64_bytes. by rewrite u32_land_ones, !app_assoc, drop_drop.
Qed.

Lemma encode_fields_bytes h dst :
  encode_fields h dst = header_bytes h ++ drop 40 dst.
Proof.
  unfold encode_fields. rewrite <- (app_nil_l dst) at 1.
  repeat first [ rewrite write_u64_app by reflexivity
               | rewrite write_u32_app by reflexivity
               | rewrite write_u16_app by reflexivity
               | rewrite mem_write_app by reflexivity ].
  unfold header_bytes. rewrite !drop_drop. simpl. done.
Qed.

Lemma read_u16_bytes src off v :
  mem_get src off = u8 (v ≫ 8) -> mem_get src (off + 1) = u8 v ->
  0 <= v < 2 ^ 16 -> read_u16 src off = v.
Proof.
  unfold read_u16. intros -> -> ?.
  rewrite be16_join by apply u8_range. by apply be16_split.
Qed.

Lemma read_u32_bytes src off v :
  mem_get src off = u8 (v ≫ 24) -> mem_get src (off + 1) = u8 (v ≫ 16) ->
  mem_get src (off + 2) = u8 (v ≫ 8) -> mem_get src (off + 3) = u8 v ->
  0 <= v < 2 ^ 32 -> read_u32 src off = v.
Proof.
  unfold read_u32. intros -> -> -> -> ?.
  rewrite be32_join by apply u8_range. by apply be32_split.
Qed.

Lemma read_u64_bytes src off v :
  read_u32 src off = u32 (v ≫ 32) -> read_u32 src (off + 4) = u32 v ->
  0 <= v < 2 ^ 64 -> read_u64 src off = v.
Proof.
  unfold read_u64. intros -> -> ?.
  rewrite be64_join by (apply (wrap_bounds 32); lia). by apply be64_split.
Qed.

Lemma read_write_u64 dst v :
  0 <= v < 2 ^ 64 -> read_u64 (write_u64 dst 0 v) 0 = v.
Proof.
  intros. rewrite <- (app_nil_l dst), write_u64_app by reflexivity.
  apply read_u64_bytes; [| |done];
    (apply read_u32_bytes; [reflexivity..|apply (wrap_bounds 32); lia]).
Qed.

Lemma decode_fields_bytes h rest :
  header_in_range h = true -> decode_fields (header_bytes h ++ rest) = h.
Proof.
  unfold header_in_range, in_width. intros H. split_andb.
  destruct h as [vm vn ty fl hs ps li si sq mi fo ts]; simpl in *.
  unfold decode_fields. f_equal; try reflexivity;
    try (apply read_u16_bytes; [reflexivity..|lia]);
    try (apply read_u32_bytes; [reflexivity..|lia]).
  apply read_u64_bytes; [| |lia];
    (apply read_u32_bytes; [reflexivity..|apply (wrap_bounds 32); lia]).
Qed.

Lemma header_bytes_magic h rest :
  read_u32 (header_bytes h ++ rest) 0 = SPW_VSPW_TP_MAGIC.
Proof.
  apply read_u32_bytes; [reflexivity..|unfold SPW_VSPW_TP_MAGIC; lia].
Qed.

(** Reading a value and writing it back reproduces the bytes read. *)
Lemma be32_bytes_read src off :
  bytes_ok src ->
  be32_bytes (read_u32 src off) =
  [mem_get src off; mem_get src (off + 1); mem_get src (off + 2); mem_get src (off + 3)].
Proof.
  intros. unfold read_u32.
  rewrite be32_join, be32_bytes_join by (by apply bytes_ok_get). done.
Qed.

Lemma be16_bytes_read src off :
  bytes_ok src ->
  be16_bytes (read_u16 src off) = [mem_get src off; mem_get src (off + 1)].
Proof.
  intros. unfold read_u16.
  rewrite be16_join, be16_bytes_join by (by apply bytes_ok_get). done.
Qed.

Lemma read_u16_range src off : bytes_ok src -> 0 <= read_u16 src off < 2 ^ 16.
Proof. intros. apply (wrap_bounds 16). lia. Qed.

Lemma read_u32_range src off : bytes_ok src -> 0 <= read_u32 src off < 2 ^ 32.
Proof.
  intros H. unfold read_u32. rewrite be32_join by (by apply bytes_ok_get).
  pose proof (bytes_ok_get src off H).
  pose proof (bytes_ok_get src (off + 1) H).
  pose proof (bytes_ok_get src (off + 2) H).
  pose proof (bytes_ok_get src (off + 3) H). lia.
Qed.

Lemma read_u64_range src off : bytes_ok src -> 0 <= read_u64 src off < 2 ^ 64.
Proof.
  intros H. unfold read_u64.
  pose proof (read_u32_range src off H). pose proof (read_u32_range src (off + 4) H).
  rewrite be64_join by done. lia.
Qed.

Lemma be64_bytes_read src off :
  bytes_ok src ->
  be64_bytes (read_u64 src off) =
  be32_bytes (read_u32 src off) ++ be32_bytes (read_u32 src (off + 4)).
Proof.
  intros H. unfold read_u64.
  pose proof (read_u32_range src off H). pose proof (read_u32_range src (off + 4) H).
  by rewrite be64_join, be64_bytes_join.
Qed.

Lemma header_bytes_decode_fields src :
  bytes_ok src -> (40 <= length src)%nat ->
  read_u32 src 0 = SPW_VSPW_TP_MAGIC ->
  header_bytes (decode_fields src) = take 40 src.
Proof.
  intros Hb Hlen Hm. rewrite <- mem_read_0_take by done.
  unfold header_bytes. rewrite <- Hm. cbn [decode_fields version_major
    version_minor type flags header_size payload_size link_id session_id
    sequence message_id fragment_offset total_size].
  rewrite !be64_bytes_read, !be32_bytes_read, !be16_bytes_read by done.
  apply list_eq_mem_get; [by rewrite length_mem_read|].
  intros i Hi. rewrite mem_get_read by exact Hi.
  do 40 (destruct i as [|i]; [reflexivity|]). simpl in Hi. lia.
Qed.

Lemma decode_fields_in_range src :
  bytes_ok src -> header_in_range (decode_fields src) = true.
Proof.
  intros H. unfold header_in_range, in_width. cbn.
  repeat (apply andb_true_intro; split);
    repeat match goal with
    | |- context [mem_get src ?i] => pose proof (bytes_ok_get src i H); generalize dependent (mem_get src i); intros
    | |- context [read_u16 src ?i] => pose proof (read_u16_range src i H); generalize dependent (read_u16 src i); intros
    | |- context [read_u32 src ?i] => pose proof (read_u32_range src i H); generalize dependent (read_u32 src i); intros
    | |- context [read_u64 src ?i] => pose proof (read_u64_range src i H); generalize dependent (read_u64 src i); intros
    end; lia.
Qed.

Lemma decode_ok_inv src n h :
  spw_vspw_tp_decode_header (Some src) n = DECODE_OK h ->
  SPW_VSPW_TP_HEADER_SIZE <= n /\ read_u32 src 0 = SPW_VSPW_TP_MAGIC /\
  h = decode_fields src /\ spw_vspw_tp_validate (Some h) = true /\
  SPW_VSPW_TP_HEADER_SIZE + payload_size h <= n.
Proof.
  unfold spw_vspw_tp_decode_header. intros H. case_ifs_in H. simplify_eq.
  split_andb. unfold spw_vspw_tp_validate.
  repeat match goal with H : ?x = true |- context [?x] => rewrite H end.
  split_and!; try lia; try done.
Qed.

Lemma decode_ok_intro src n :
  SPW_VSPW_TP_HEADER_SIZE <= n -> read_u32 src 0 = SPW_VSPW_TP_MAGIC ->
  spw_vspw_tp_validate (Some (decode_fields src)) = true ->
  SPW_VSPW_TP_HEADER_SIZE + payload_size (decode_fields src) <= n ->
  spw_vspw_tp_decode_header (Some src) n = DECODE_OK (decode_fields src).
Proof.
  intros Hn Hm Hv Hp. unfold spw_vspw_tp_validate in Hv. split_andb.
  unfold spw_vspw_tp_decode_header.
  assert (payload_size (decode_fields src) <= SPW_VSPW_TP_MAX_FRAGMENT_PAYLOAD).
  { unfold validate_fragment in *. case_ifs_in H1; lia. }
  rewrite Hm, Z.eqb_refl. repeat (case_if; [exfalso|]); try done; try lia.
  all: repeat match goal with H : ?x = true |- _ => rewrite H in * end; done.
Qed.

(** ** Properties *)

(** C31. Encoding then decoding: a header whose fields fit their C types and
    that [spw_vspw_tp_validate] accepts is encoded into any destination of at
    least 40 bytes, and decoding the resulting datagram (of any size that
    holds the announced payload) gives the same header back. *)
Theorem tp_decode_encode h dst dst_size n :
  header_in_range h = true ->
  spw_vspw_tp_validate (Some h) = true ->
  SPW_VSPW_TP_HEADER_SIZE <= dst_size ->
  SPW_VSPW_TP_HEADER_SIZE + payload_size h <= n ->
  exists out,
    spw_vspw_tp_encode_header (Some h) (Some dst) dst_size = Some out /\
    drop 40 out = drop 40 dst /\
    spw_vspw_tp_decode_header (Some out) n = DECODE_OK h.
Proof.
  intros Hr Hv Hs Hn. exists (header_bytes h ++ drop 40 dst).
  unfold spw_vspw_tp_encode_header. rewrite Hv, encode_fields_bytes.
  destruct (Z.ltb_spec dst_size SPW_VSPW_TP_HEADER_SIZE); [lia|].
  split_and!; [done|done|].
  pose proof (decode_fields_bytes h (drop 40 dst) Hr) as Hd.
  rewrite decode_ok_intro; rewrite ?Hd; try done.
  unfold header_in_range, in_width in Hr. split_andb. lia.
Qed.

(** C21. Everything the decoder accepts is valid: the announced payload is
    inside the datagram, every field is in range, the header passes
    [spw_vspw_tp_validate], and re-encoding it reproduces the 40 bytes that
    were read, so each accepted header has exactly one encoding. *)
Theorem tp_decode_sound src n h :
  bytes_ok src -> n = Z.of_nat (length src) ->
  spw_vspw_tp_decode_header (Some src) n = DECODE_OK h ->
  SPW_VSPW_TP_HEADER_SIZE + payload_size h <= n /\
  header_in_range h = true /\
  spw_vspw_tp_validate (Some h) = true /\
  (forall dst dst_size, SPW_VSPW_TP_HEADER_SIZE <= dst_size ->
     spw_vspw_tp_encode_header (Some h) (Some dst) dst_size =
     Some (take 40 src ++ drop 40 dst)).
Proof.
  intros Hb -> (Hlen & Hm & -> & Hv & Hp)%decode_ok_inv.
  unfold SPW_VSPW_TP_HEADER_SIZE in Hlen.
  split_and!; [done|by apply decode_fields_in_range|done|].
  intros dst dst_size ?. unfold spw_vspw_tp_encode_header.
  rewrite Hv, encode_fields_bytes, header_bytes_decode_fields by (done || lia).
  destruct (Z.ltb_spec dst_size SPW_VSPW_TP_HEADER_SIZE); [lia|done].
Qed.

(** Bounds of an accepted fragment: its byte range lies inside the
    logical packet (no 32-bit wrap-around of offset plus size), the packet is
    at most 16 MiB, a DATA terminator is not both EOP and EEP, and a message
    that is not DATA is never fragmented. *)
Theorem tp_decode_fragment_bounds src n h :
  bytes_ok src ->
  spw_vspw_tp_decode_header (Some src) n = DECODE_OK h ->
  fragment_offset h + payload_size h <= total_size h <= SPW_VSPW_TP_MAX_PACKET_SIZE /\
  payload_size h <= SPW_VSPW_TP_MAX_FRAGMENT_PAYLOAD /\
  ~ (has_flag (flags h) SPW_VSPW_TP_FLAG_EOP = true /\
     has_flag (flags h) SPW_VSPW_TP_FLAG_EEP = true) /\
  (type h <> SPW_VSPW_TP_DATA ->
     fragment_offset h = 0 /\ total_size h = payload_size h).
Proof.
  intros Hb (Hlen & Hm & Hh & Hv & Hp)%decode_ok_inv.
  pose proof (decode_fields_in_range src Hb) as Hr. rewrite <- Hh in Hr.
  unfold header_in_range, in_width in Hr. unfold spw_vspw_tp_validate in Hv.
  split_andb. clear Hh Hm.
  assert (u64 (fragment_offset h + payload_size h) =
          fragment_offset h + payload_size h) as Hu by (apply wrap_small; lia).
  match goal with
  | Hfl : validate_flags h = true, Hfr : validate_fragment h = true |- _ =>
      unfold validate_flags in Hfl; unfold validate_fragment in Hfr;
      rewrite Hu in Hfr; case_ifs_in Hfl; case_ifs_in Hfr
  end; split_and!; try lia;
    intros [Ha Hc]; rewrite Ha, Hc in E0; discriminate.
Qed.

(** The acknowledgement payload round-trips every non-zero 64-bit session
    identifier and is rejected for session 0 on both sides. *)
Theorem tp_ack_roundtrip sid dst dst_size :
  0 <= sid < 2 ^ 64 -> SPW_VSPW_TP_ACK_PAYLOAD_SIZE <= dst_size ->
  match spw_vspw_tp_encode_ack_payload sid (Some dst) dst_size with
  | Some out =>
      sid <> 0 /\
      spw_vspw_tp_decode_ack_payload (Some out) SPW_VSPW_TP_ACK_PAYLOAD_SIZE = Some sid
  | None => sid = 0
  end.
Proof.
  intros Hs Hd. unfold spw_vspw_tp_encode_ack_payload.
  destruct (Z.ltb_spec dst_size SPW_VSPW_TP_ACK_PAYLOAD_SIZE); [lia|].
  destruct (Z.eqb_spec sid 0) as [->|Hne]; [done|]. cbn [orb].
  split; [done|]. unfold spw_vspw_tp_decode_ack_payload.
  rewrite Z.eqb_refl, read_write_u64 by done. cbn [negb].
  destruct (Z.eqb_spec sid 0); done.
Qed.

(** ** Witnesses *)

(** The middle fragment of a 3000-byte packet. *)
Definition sample_fragment : spw_vspw_tp_header :=
  {| version_major := 1; version_minor := 0; type := SPW_VSPW_TP_DATA;
     flags := SPW_VSPW_TP_FLAG_EOP .| SPW_VSPW_TP_FLAG_ACK_REQUIRED;
     header_size := 40; payload_size := 1200; link_id := 7;
     session_id := 0x1122334455667788; sequence := 41; message_id := 9;
     fragment_offset := 1200; total_size := 3000 |}.

(** A keepalive datagram as it appears on the wire. *)
Definition sample_keepalive : list Z :=
  header_bytes
    {| version_major := 1; version_minor := 0; type := SPW_VSPW_TP_KEEPALIVE;
       flags := 0; header_size := 40; payload_size := 0; link_id := 7;
       session_id := 3; sequence := 1; message_id := 0;
       fragment_offset := 0; total_size := 0 |}.

Lemma tp_decode_encode_witness :
  exists out,
    spw_vspw_tp_encode_header (Some sample_fragment) (Some []) 1240 = Some out /\
    drop 40 out = drop 40 [] /\
    spw_vspw_tp_decode_header (Some out) 1240 = DECODE_OK sample_fragment.
Proof. apply (tp_decode_encode sample_fragment [] 1240 1240); by vm_compute. Defined.

Lemma sample_keepalive_decodes :
  spw_vspw_tp_decode_header (Some sample_keepalive) 40 =
  DECODE_OK (decode_fields sample_keepalive).
Proof. reflexivity. Qed.

Lemma sample_keepalive_bytes : bytes_ok sample_keepalive.
Proof. repeat constructor; by vm_compute. Qed.

Lemma tp_decode_sound_witness :
  spw_vspw_tp_validate (Some (decode_fields sample_keepalive)) = true.
Proof.
  destruct (tp_decode_sound sample_keepalive 40 _ sample_keepalive_bytes
              eq_refl sample_keepalive_decodes) as (_ & _ & H & _).
  exact H.
Defined.

Lemma tp_decode_fragment_bounds_witness :
  fragment_offset (decode_fields sample_keepalive) = 0.
Proof.
  destruct (tp_decode_fragment_bounds sample_keepalive 40 _ sample_keepalive_bytes
              sample_keepalive_decodes) as (_ & _ & _ & H).
  apply H. by vm_compute.
Defined.

Lemma tp_ack_roundtrip_witness :
  match spw_vspw_tp_encode_ack_payload 77 (Some []) 8 with
  | Some out =>
      77 <> 0 /\
      spw_vspw_tp_decode_ack_payload (Some out) SPW_VSPW_TP_ACK_PAYLOAD_SIZE = Some 77
  | None => 77 = 0
  end.
Proof. apply (tp_ack_roundtrip 77 [] 8); by vm_compute. Defined.
