(* ===== verification/Reassembler.v ===== *)
(** * VSPW-TP fragment reassembly

    src/src/backends/ethernet/fragment_reassembler.{h,c}. A reassembler owns a
    byte buffer and a bitmap of covered positions, 64 per word. Fragments of
    one message may arrive in any order, more than once and overlapping; the
    code has a word-at-a-time path for disjoint fragments and a
    byte-at-a-time path for the rest. *)

From S2P Require Import Prelude VspwTp.

(** [spw_reassembly_result_t] *)
Inductive reassembly_result :=
  | REASSEMBLY_ACCEPTED
  | REASSEMBLY_DUPLICATE
  | REASSEMBLY_COMPLETE
  | REASSEMBLY_CONFLICT
  | REASSEMBLY_INVALID.

#[export] Instance reassembly_result_eq_dec : EqDecision reassembly_result.
Proof. solve_decision. Defined.

Record spw_fragment_reassembler := {
  data : option (list Z);
  coverage : option (list Z);
  capacity : Z;
  coverage_words : Z;
  covered_bytes : Z;
  message_id : Z;
  total_size : Z;
  terminator_flags : Z;
  ack_required : bool;
  seen_start : bool;
  seen_end : bool;
  active : bool
}.

(** A macro, so its sum has the width of its argument: 32 bits for a message's
    [total_size], 64 for a [capacity]. *)
Definition SPW_FRAGMENT_COVERAGE_WORDS (width capacity : Z) : Z :=
  wrap width (capacity + 63) / 64.

(** ** Coverage bitmap *)

Definition covered (coverage : list Z) (position : Z) : bool :=
  let word := position / 64 in
  let bit := position mod 64 in
  negb (mem_get coverage (Z.to_nat word) .& u64 (1 ≪ bit) =? 0).

Definition mark_covered (coverage : list Z) (position : Z) : list Z :=
  let word := position / 64 in
  let bit := position mod 64 in
  mem_write coverage (Z.to_nat word)
    [mem_get coverage (Z.to_nat word) .| u64 (1 ≪ bit)].

Definition coverage_mask (bit count : Z) : Z :=
  let low_bits :=
    if count =? 64 then UINT64_MAX else u64 (u64 (1 ≪ count) - 1) in
  u64 (low_bits ≪ bit).

(** The [while (position < end)] loops; each iteration advances [position] by
    at least one, so [end - position] iterations are enough. *)
Fixpoint range_is_clear_loop (fuel : nat) (coverage : list Z)
    (position end_ : Z) : bool :=
  match fuel with
  | O => true
  | S fuel =>
      if negb (position <? end_) then true else
      let word := position / 64 in
      let bit := position mod 64 in
      let remaining := end_ - position in
      let count := if remaining <? 64 - bit then remaining else 64 - bit in
      let mask := coverage_mask bit count in
      if negb (mem_get coverage (Z.to_nat word) .& mask =? 0) then false else
      range_is_clear_loop fuel coverage (position + count) end_
  end.

Definition coverage_range_is_clear (coverage : list Z) (offset length : Z) : bool :=
  range_is_clear_loop (Z.to_nat length) coverage offset (u64 (offset + length)).

Fixpoint mark_range_loop (fuel : nat) (coverage : list Z)
    (position end_ : Z) : list Z :=
  match fuel with
  | O => coverage
  | S fuel =>
      if negb (position <? end_) then coverage else
      let word := position / 64 in
      let bit := position mod 64 in
      let remaining := end_ - position in
      let count := if remaining <? 64 - bit then remaining else 64 - bit in
      let coverage :=
        mem_write coverage (Z.to_nat word)
          [mem_get coverage (Z.to_nat word) .| coverage_mask bit count] in
      mark_range_loop fuel coverage (position + count) end_
  end.

Definition mark_coverage_range (coverage : list Z) (offset length : Z) : list Z :=
  mark_range_loop (Z.to_nat length) coverage offset (u64 (offset + length)).

(** ** Lifecycle *)

Definition spw_fragment_reassembler_init (data : option (list Z)) (capacity : Z)
    (coverage : option (list Z)) (coverage_words : Z) : spw_fragment_reassembler :=
  {| data := data;
     coverage :=
       match coverage with
       | Some c =>
           Some (if negb (coverage_words =? 0)
                 then mem_write c 0 (replicate (Z.to_nat coverage_words) 0) else c)
       | None => None
       end;
     capacity := capacity;
     coverage_words := coverage_words;
     covered_bytes := 0; message_id := 0; total_size := 0;
     terminator_flags := 0; ack_required := false;
     seen_start := false; seen_end := false; active := false |}.

Definition spw_fragment_reassembler_reset (r : spw_fragment_reassembler)
  : spw_fragment_reassembler :=
  let words_to_clear :=
    if active r && (total_size r <=? capacity r) then
      let words := SPW_FRAGMENT_COVERAGE_WORDS 32 (total_size r) in
      if coverage_words r <? words then coverage_words r else words
    else coverage_words r in
  {| data := data r;
     coverage :=
       match coverage r with
       | Some c =>
           Some (if negb (words_to_clear =? 0)
                 then mem_write c 0 (replicate (Z.to_nat words_to_clear) 0) else c)
       | None => None
       end;
     capacity := capacity r;
     coverage_words := coverage_words r;
     covered_bytes := 0; message_id := 0; total_size := 0;
     terminator_flags := 0; ack_required := false;
     seen_start := false; seen_end := false; active := false |}.

(** ** Pushing a fragment *)

(** The byte store the two copy paths work on: buffer, bitmap, count of
    covered bytes and the bytes added by this call. *)
Record store := {
  st_data : list Z;
  st_coverage : list Z;
  st_covered_bytes : Z;
  st_added : Z
}.

(** Word-at-a-time path for a range no byte of which is covered. *)
Definition copy_range (s : store) (offset payload_size : Z) (payload : list Z)
  : store :=
  {| st_data := mem_write (st_data s) (Z.to_nat offset)
                  (mem_read payload 0 (Z.to_nat payload_size));
     st_coverage := mark_coverage_range (st_coverage s) offset payload_size;
     st_covered_bytes := u64 (st_covered_bytes s + payload_size);
     st_added := payload_size |}.

(** First byte-at-a-time loop: does a covered byte disagree? *)
Definition overlap_conflicts (s : store) (offset payload_size : Z)
    (payload : list Z) : bool :=
  existsb
    (fun i : nat =>
       let position := u64 (offset + Z.of_nat i) in
       covered (st_coverage s) position &&
       negb (mem_get (st_data s) (Z.to_nat position) =? mem_get payload i))
    (seq 0 (Z.to_nat payload_size)).

(** Body of the second byte-at-a-time loop: store an uncovered byte. *)
Definition store_byte (offset : Z) (payload : list Z) (s : store) (i : nat)
  : store :=
  let position := u64 (offset + Z.of_nat i) in
  if covered (st_coverage s) position then s else
  {| st_data := mem_write (st_data s) (Z.to_nat position) [mem_get payload i];
     st_coverage := mark_covered (st_coverage s) position;
     st_covered_bytes := u64 (st_covered_bytes s + 1);
     st_added := u64 (st_added s + 1) |}.

Definition store_bytes (s : store) (offset payload_size : Z) (payload : list Z)
  : store :=
  fold_left (store_byte offset payload) (seq 0 (Z.to_nat payload_size)) s.

(** [None]: the fragment contradicts a byte that is already covered. *)
Definition store_fragment (s : store) (offset payload_size : Z)
    (payload : list Z) : option store :=
  if negb (payload_size =? 0) &&
     coverage_range_is_clear (st_coverage s) offset payload_size
  then Some (copy_range s offset payload_size payload)
  else if overlap_conflicts s offset payload_size payload then None
  else Some (store_bytes s offset payload_size payload).

(** Rejection of a fragment before the state is touched. *)
Definition push_invalid (r : spw_fragment_reassembler)
    (header : option spw_vspw_tp_header) (payload : option (list Z)) : bool :=
  match header, data r, coverage r with
  | Some h, Some _, Some _ =>
      (coverage_words r <? SPW_FRAGMENT_COVERAGE_WORDS 64 (capacity r)) ||
      negb (type h =? SPW_VSPW_TP_DATA) ||
      (VspwTp.total_size h =? payload_size h) ||
      (VspwTp.total_size h =? 0) || (capacity r <? VspwTp.total_size h) ||
      (VspwTp.message_id h =? 0) ||
      (negb (payload_size h =? 0) && negb (bool_decide (is_Some payload))) ||
      (VspwTp.total_size h <? u64 (fragment_offset h + payload_size h))
  | _, _, _ => true
  end.

Definition frag_terminator_flags (h : spw_vspw_tp_header) : Z :=
  flags h .& (SPW_VSPW_TP_FLAG_EOP .| SPW_VSPW_TP_FLAG_EEP).
Definition frag_ack_required (h : spw_vspw_tp_header) : bool :=
  negb (flags h .& SPW_VSPW_TP_FLAG_ACK_REQUIRED =? 0).
Definition frag_start (h : spw_vspw_tp_header) : bool :=
  negb (flags h .& SPW_VSPW_TP_FLAG_FRAGMENT_START =? 0).
Definition frag_end (h : spw_vspw_tp_header) : bool :=
  negb (flags h .& SPW_VSPW_TP_FLAG_FRAGMENT_END =? 0).

(** First fragment of a message: record its identity. *)
Definition activate (r : spw_fragment_reassembler) (h : spw_vspw_tp_header)
  : spw_fragment_reassembler :=
  {| data := data r; coverage := coverage r; capacity := capacity r;
     coverage_words := coverage_words r; covered_bytes := covered_bytes r;
     message_id := VspwTp.message_id h; total_size := VspwTp.total_size h;
     terminator_flags := frag_terminator_flags h;
     ack_required := frag_ack_required h;
     seen_start := seen_start r; seen_end := seen_end r; active := true |}.

Definition identity_differs (r : spw_fragment_reassembler)
    (h : spw_vspw_tp_header) : bool :=
  negb (VspwTp.message_id h =? message_id r) ||
  negb (VspwTp.total_size h =? total_size r) ||
  negb (frag_terminator_flags h =? terminator_flags r) ||
  negb (eqb (frag_ack_required h) (ack_required r)).

Definition store_of (r : spw_fragment_reassembler) : store :=
  {| st_data := default [] (data r); st_coverage := default [] (coverage r);
     st_covered_bytes := covered_bytes r; st_added := 0 |}.

Definition with_store (r : spw_fragment_reassembler) (s : store)
    (h : spw_vspw_tp_header) : spw_fragment_reassembler :=
  {| data := Some (st_data s); coverage := Some (st_coverage s);
     capacity := capacity r; coverage_words := coverage_words r;
     covered_bytes := st_covered_bytes s; message_id := message_id r;
     total_size := total_size r; terminator_flags := terminator_flags r;
     ack_required := ack_required r;
     seen_start := seen_start r || frag_start h;
     seen_end := seen_end r || frag_end h; active := active r |}.

Definition spw_fragment_reassembler_push (r : spw_fragment_reassembler)
    (header : option spw_vspw_tp_header) (payload : option (list Z))
  : reassembly_result * spw_fragment_reassembler :=
  match header with
  | None => (REASSEMBLY_INVALID, r)
  | Some h =>
      if push_invalid r header payload then (REASSEMBLY_INVALID, r) else
      if active r && identity_differs r h then (REASSEMBLY_CONFLICT, r) else
      let r := if active r then r else activate r h in
      match store_fragment (store_of r) (fragment_offset h) (payload_size h)
              (default [] payload) with
      | None => (REASSEMBLY_CONFLICT, r)
      | Some s =>
          let r := with_store r s h in
          (if (covered_bytes r =? total_size r) && seen_start r && seen_end r
           then REASSEMBLY_COMPLETE
           else if st_added s =? 0 then REASSEMBLY_DUPLICATE
           else REASSEMBLY_ACCEPTED, r)
      end
  end.

(** ** Bitmap lemmas *)

Definition words_ok (c : list Z) : Prop := Forall (fun w => 0 <= w < 2 ^ 64) c.

Lemma words_ok_get c i : words_ok c -> 0 <= mem_get c i < 2 ^ 64.
Proof.
  intros H. unfold mem_get. destruct (c !! i) eqn:E; simpl; [|lia].
  by eapply Forall_lookup_1 in E; [|done].
Qed.

Lemma words_ok_replicate n : words_ok (replicate n 0).
Proof. apply Forall_replicate. lia. Qed.

Lemma words_ok_write c i w :
  words_ok c -> 0 <= w < 2 ^ 64 -> words_ok (mem_write c i [w]).
Proof.
  intros H Hw. unfold words_ok, mem_write. rewrite !Forall_app.
  split_and!; [by apply Forall_take| |by apply Forall_singleton|by apply Forall_drop].
  apply Forall_replicate. lia.
Qed.

Lemma covered_testbit c pos :
  0 <= pos -> covered c pos = Z.testbit (mem_get c (Z.to_nat (pos / 64))) (pos mod 64).
Proof.
  intros. pose proof (Z.mod_pos_bound pos 64). unfold covered.
  rewrite Z.shiftl_1_l, wrap_small.
  - rewrite land_pow2_testbit by lia. apply negb_involutive.
  - split; [apply Z.pow_nonneg; lia|apply Z.pow_lt_mono_r; lia].
Qed.

Lemma coverage_mask_eq bit count :
  0 <= bit -> 0 < count -> bit + count <= 64 ->
  coverage_mask bit count = Z.shiftl (Z.ones count) bit /\
  0 <= coverage_mask bit count < 2 ^ 64.
Proof.
  intros Hb Hc Hs. unfold coverage_mask.
  assert ((if count =? 64 then UINT64_MAX else u64 (u64 (1 ≪ count) - 1))
          = Z.ones count) as ->.
  { rewrite Z.ones_equiv. case_if; [by replace count with 64 by lia|].
    rewrite Z.shiftl_1_l.
    assert (2 ^ count < 2 ^ 64) by (apply Z.pow_lt_mono_r; lia).
    assert (0 < 2 ^ count) by (apply pow2_pos; lia).
    rewrite !wrap_small by (rewrite ?wrap_small; lia). lia. }
  assert (0 <= Z.ones count ≪ bit < 2 ^ 64) as Hr.
  { rewrite Z.shiftl_mul_pow2, Z.ones_equiv by lia.
    assert (0 < 2 ^ bit) by (apply pow2_pos; lia).
    assert (0 < 2 ^ count) by (apply pow2_pos; lia).
    assert (2 ^ count * 2 ^ bit <= 2 ^ 64).
    { rewrite <- Z.pow_add_r by lia. apply Z.pow_le_mono_r; lia. }
    nia. }
  by rewrite wrap_small.
Qed.

Lemma coverage_mask_testbit bit count i :
  0 <= bit -> 0 < count -> bit + count <= 64 -> 0 <= i ->
  Z.testbit (coverage_mask bit count) i = (bit <=? i) && (i <? bit + count).
Proof.
  intros Hb Hc Hs Hi. destruct (coverage_mask_eq bit count) as [-> _]; [done..|].
  rewrite Z.shiftl_spec by done.
  destruct (Z.leb_spec bit i); simpl.
  - rewrite Z.testbit_ones_nonneg by lia. lia.
  - by rewrite Z.testbit_neg_r by lia.
Qed.

Lemma land_mask_zero w bit count :
  0 <= bit -> 0 < count -> bit + count <= 64 ->
  (w .& coverage_mask bit count =? 0) = true <->
  (forall i, bit <= i < bit + count -> Z.testbit w i = false).
Proof.
  intros Hb Hc Hs. rewrite Z.eqb_eq. split.
  - intros H i Hi. apply (f_equal (fun x => Z.testbit x i)) in H.
    rewrite Z.land_spec, coverage_mask_testbit, Z.bits_0 in H by lia.
    replace ((bit <=? i) && (i <? bit + count)) with true in H by lia.
    by rewrite andb_true_r in H.
  - intros H. apply Z.bits_inj'. intros i Hi.
    rewrite Z.land_spec, coverage_mask_testbit, Z.bits_0 by lia.
    destruct ((bit <=? i) && (i <? bit + count)) eqn:E; [|apply andb_false_r].
    rewrite H by lia. done.
Qed.

(** One loop iteration of the word-at-a-time code handles the positions of a
    single word. *)
Lemma chunk_positions position end_ count :
  0 <= position < end_ ->
  count = (if end_ - position <? 64 - position mod 64
           then end_ - position else 64 - position mod 64) ->
  0 < count /\ position mod 64 + count <= 64 /\ position + count <= end_ /\
  (forall i, position <= i < position + count ->
     i / 64 = position / 64 /\ i mod 64 = position mod 64 + (i - position)).
Proof.
  intros Hp ->. pose proof (Z.mod_pos_bound position 64).
  case_if; split_and!; try lia; intros i Hi;
    Z.div_mod_to_equations; lia.
Qed.

Lemma range_is_clear_loop_spec fuel c position end_ :
  0 <= position -> end_ - position <= Z.of_nat fuel ->
  range_is_clear_loop fuel c position end_ = true <->
  (forall i, position <= i < end_ -> covered c i = false).
Proof.
  revert position. induction fuel as [|fuel IH]; intros position Hp Hf.
  { split; [|done]. intros _ i ?. lia. }
  cbn [range_is_clear_loop]. destruct (Z.ltb_spec position end_) as [Hlt|]; cbn [negb].
  2: { split; [|done]. intros _ i ?. lia. }
  remember (if end_ - position <? 64 - position mod 64
            then end_ - position else 64 - position mod 64) as count eqn:Hc.
  destruct (chunk_positions position end_ count) as (Hc0 & Hc1 & Hc2 & Hpos); [lia|done|].
  pose proof (Z.mod_pos_bound position 64).
  specialize (IH (position + count)).
  pose proof (land_mask_zero (mem_get c (Z.to_nat (position / 64)))
                (position mod 64) count) as Hland.
  assert (Hword : forall i, position <= i < position + count ->
    covered c i = Z.testbit (mem_get c (Z.to_nat (position / 64)))
                    (position mod 64 + (i - position))).
  { intros i Hi. rewrite covered_testbit by lia. by destruct (Hpos i Hi) as [-> ->]. }
  destruct (_ =? 0); cbn [negb].
  - rewrite IH by lia. destruct Hland as [Hland _]; [lia..|]. split.
    + intros Hrest i Hi. destruct (Z.lt_ge_cases i (position + count)).
      * rewrite Hword by lia. apply Hland; [done|lia].
      * apply Hrest. lia.
    + intros Hall i Hi. apply Hall. lia.
  - split; [done|]. intros Hall. destruct Hland as [_ Hland]; [lia..|].
    rewrite <- Hland; [done|]. intros i Hi.
    specialize (Hword (position + (i - position mod 64))).
    rewrite Hall in Hword by lia. rewrite Hword by lia. f_equal. lia.
Qed.

(** Marking part of one word. *)
Lemma mark_chunk_covered c position count i :
  words_ok c -> 0 <= position -> 0 < count -> position mod 64 + count <= 64 -> 0 <= i ->
  covered (mem_write c (Z.to_nat (position / 64))
             [mem_get c (Z.to_nat (position / 64)) .|
              coverage_mask (position mod 64) count]) i =
  covered c i || ((position <=? i) && (i <? position + count)).
Proof.
  intros Hw Hp Hc Hb Hi. pose proof (Z.mod_pos_bound position 64).
  pose proof (Z.mod_pos_bound i 64).
  rewrite !covered_testbit, mem_get_write1 by done.
  destruct (decide (Z.to_nat (i / 64) = Z.to_nat (position / 64))) as [E|E].
  - rewrite E, Z.lor_spec, coverage_mask_testbit by lia. f_equal.
    assert (i / 64 = position / 64) by (Z.div_mod_to_equations; lia).
    Z.div_mod_to_equations. lia.
  - assert ((position <=? i) && (i <? position + count) = false) as ->.
    { Z.div_mod_to_equations. lia. }
    by rewrite orb_false_r.
Qed.

Lemma mark_range_loop_spec fuel c position end_ :
  words_ok c -> 0 <= position -> end_ - position <= Z.of_nat fuel ->
  end_ <= 64 * Z.of_nat (length c) ->
  let c' := mark_range_loop fuel c position end_ in
  words_ok c' /\ length c' = length c /\
  (forall i, 0 <= i ->
     covered c' i = covered c i || ((position <=? i) && (i <? end_))).
Proof.
  revert c position. induction fuel as [|fuel IH]; intros c position Hw Hp Hf Hl;
    cbn [mark_range_loop].
  { split_and!; [done|done|]. intros i Hi.
    replace ((position <=? i) && (i <? end_)) with false by lia.
    by rewrite orb_false_r. }
  destruct (Z.ltb_spec position end_) as [Hlt|]; cbn [negb].
  2: { split_and!; [done|done|]. intros i Hi.
    replace ((position <=? i) && (i <? end_)) with false by lia.
    by rewrite orb_false_r. }
  remember (if end_ - position <? 64 - position mod 64
            then end_ - position else 64 - position mod 64) as count eqn:Hc.
  destruct (chunk_positions position end_ count) as (Hc0 & Hc1 & Hc2 & _); [lia|done|].
  pose proof (Z.mod_pos_bound position 64).
  set (c1 := mem_write c _ _).
  assert (words_ok c1).
  { apply words_ok_write; [done|]. apply lor_bound; [lia|by apply words_ok_get|].
    apply coverage_mask_eq; lia. }
  assert (length c1 = length c) as Hlen.
  { unfold c1. rewrite length_mem_write. simpl.
    assert (position / 64 < Z.of_nat (length c)) by (apply Z.div_lt_upper_bound; lia).
    pose proof (Z.div_pos position 64). lia. }
  destruct (IH c1 (position + count)) as (Hw' & Hl' & Hcov); [done|lia..|].
  split_and!; [done|congruence|]. intros i Hi. rewrite Hcov by done.
  unfold c1. rewrite mark_chunk_covered by (done || lia).
  rewrite <- orb_assoc. f_equal. lia.
Qed.

Lemma mark_covered_range c pos :
  0 <= pos -> mark_covered c pos = mark_range_loop 1 c pos (pos + 1).
Proof.
  intros. unfold mark_covered. cbn [mark_range_loop].
  replace (pos <? pos + 1) with true by lia. cbn [negb].
  replace (pos + 1 - pos) with 1 by lia.
  pose proof (Z.mod_pos_bound pos 64).
  assert ((if 1 <? 64 - pos mod 64 then 1 else 64 - pos mod 64) = 1) as ->
    by (case_if; lia).
  destruct (coverage_mask_eq (pos mod 64) 1) as [-> _]; [lia..|].
  rewrite !Z.shiftl_1_l, wrap_small; [done|].
  split; [apply Z.pow_nonneg; lia|apply Z.pow_lt_mono_r; lia].
Qed.

Lemma mark_covered_spec c pos :
  words_ok c -> 0 <= pos < 64 * Z.of_nat (length c) ->
  words_ok (mark_covered c pos) /\ length (mark_covered c pos) = length c /\
  (forall i, 0 <= i -> covered (mark_covered c pos) i = covered c i || (i =? pos)).
Proof.
  intros Hw Hp. rewrite mark_covered_range by lia.
  destruct (mark_range_loop_spec 1 c pos (pos + 1)) as (? & ? & Hc); [done|lia..|].
  split_and!; [done..|]. intros i Hi. rewrite Hc by done. f_equal. lia.
Qed.

(** ** The byte store *)

(** What the store holds at a position: the byte, once covered. *)
Definition content (s : store) (i : Z) : option Z :=
  if covered (st_coverage s) i then Some (mem_get (st_data s) (Z.to_nat i)) else None.

(** Representation invariant of the store for a message of [total] bytes: the
    bitmap has room for the message, marks nothing past its end, and the byte
    counter is the number of marked positions. *)
Record store_wf (total : Z) (s : store) : Prop := {
  sw_total : 0 <= total < 2 ^ 32;
  sw_words : words_ok (st_coverage s);
  sw_room : total <= 64 * Z.of_nat (length (st_coverage s));
  sw_high : forall i, total <= i -> covered (st_coverage s) i = false;
  sw_count : st_covered_bytes s = count (covered (st_coverage s)) (Z.to_nat total)
}.

Lemma store_byte_spec total s offset payload i :
  store_wf total s -> 0 <= offset -> offset + Z.of_nat i < total ->
  0 <= st_added s <= Z.of_nat i ->
  let s' := store_byte offset payload s i in
  store_wf total s' /\
  length (st_coverage s') = length (st_coverage s) /\
  (length (st_data s') <= Nat.max (length (st_data s)) (Z.to_nat total))%nat /\
  (forall j, 0 <= j -> content s' j =
     if decide (j = offset + Z.of_nat i)
     then Some (default (mem_get payload i) (content s j)) else content s j) /\
  0 <= st_added s' <= Z.of_nat (S i) /\
  st_added s' - st_added s = st_covered_bytes s' - st_covered_bytes s.
Proof.
  intros [Ht Hw Hr Hh Hc] Ho Hi Ha. unfold store_byte.
  assert (u64 (offset + Z.of_nat i) = offset + Z.of_nat i) as -> by (apply wrap_small; lia).
  destruct (covered (st_coverage s) (offset + Z.of_nat i)) eqn:E; cbn zeta.
  - split_and!; try done; try lia. intros j Hj. case_decide as Hd; [|done].
    unfold content. subst j. by rewrite E.
  - destruct (mark_covered_spec (st_coverage s) (offset + Z.of_nat i))
      as (Hw' & Hl' & Hcov); [done|lia|].
    pose proof (count_bounds (covered (st_coverage s)) (Z.to_nat total)).
    assert (count (covered (mark_covered (st_coverage s) (offset + Z.of_nat i)))
              (Z.to_nat total) =
            count (covered (st_coverage s)) (Z.to_nat total) + 1) as Hcount.
    { eapply count_add; [|exact E|exact Hcov]. lia. }
    pose proof (count_bounds (covered (mark_covered (st_coverage s)
      (offset + Z.of_nat i))) (Z.to_nat total)).
    split_and!; cbn [st_data st_coverage st_covered_bytes st_added].
    + split; cbn [st_data st_coverage st_covered_bytes st_added]; try done; [lia| |].
      * intros j Hj. rewrite Hcov, Hh by lia. lia.
      * rewrite Hcount, wrap_small; lia.
    + done.
    + rewrite length_mem_write. simpl. lia.
    + intros j Hj. unfold content. cbn [st_data st_coverage].
      rewrite Hcov, mem_get_write1 by lia.
      destruct (decide (j = offset + Z.of_nat i)) as [->|Hne].
      * rewrite E, Z.eqb_refl, decide_True by done. done.
      * replace (j =? offset + Z.of_nat i) with false by lia. rewrite orb_false_r.
        by rewrite decide_False by lia.
    + rewrite wrap_small; lia.
    + rewrite wrap_small; lia.
    + rewrite !wrap_small; lia.
Qed.

(** The byte loop fills exactly the positions of the fragment that were
    empty. *)
Lemma store_bytes_fold total s offset payload k :
  store_wf total s -> 0 <= offset -> offset + Z.of_nat k <= total ->
  st_added s = 0 ->
  let s' := fold_left (store_byte offset payload) (seq 0 k) s in
  store_wf total s' /\
  length (st_coverage s') = length (st_coverage s) /\
  (length (st_data s') <= Nat.max (length (st_data s)) (Z.to_nat total))%nat /\
  (forall j, 0 <= j -> content s' j =
     if decide (offset <= j < offset + Z.of_nat k)
     then Some (default (mem_get payload (Z.to_nat (j - offset))) (content s j))
     else content s j) /\
  0 <= st_added s' <= Z.of_nat k /\
  st_added s' = st_covered_bytes s' - st_covered_bytes s.
Proof.
  intros Hwf Ho Hk Ha. induction k as [|k IH].
  { simpl. split_and!; try done; try lia. intros j Hj. by rewrite decide_False by lia. }
  rewrite seq_S, fold_left_app. cbn [fold_left Nat.add].
  destruct IH as (Hwf' & Hlc & Hld & Hcon & Hadd & Heq); [lia|].
  destruct (store_byte_spec total _ offset payload k Hwf') as
    (Hwf'' & Hlc' & Hld' & Hcon' & Hadd' & Heq'); [lia..|].
  split_and!; try done; try lia.
  intros j Hj. rewrite Hcon', Hcon by done.
  destruct (decide (j = offset + Z.of_nat k)) as [->|].
  - rewrite decide_False, decide_True by lia.
    do 3 f_equal. lia.
  - repeat case_decide; try lia; done.
Qed.

Lemma covered_content s i : covered (st_coverage s) i = bool_decide (is_Some (content s i)).
Proof. unfold content. by destruct (covered _ _). Qed.

(** Two bitmaps of the same length that mark the same positions are equal. *)
Lemma coverage_ext c1 c2 :
  words_ok c1 -> words_ok c2 -> length c1 = length c2 ->
  (forall i, 0 <= i -> covered c1 i = covered c2 i) -> c1 = c2.
Proof.
  intros H1 H2 Hl Hc. apply list_eq_mem_get; [done|]. intros k Hk.
  assert (Hb : forall w, 0 <= w < 2 ^ 64 -> forall i, 64 <= i -> Z.testbit w i = false).
  { intros w Hw i Hi. rewrite <- (Z.mod_small w (2 ^ 64)) by done.
    apply Z.mod_pow2_bits_high. lia. }
  apply Z.bits_inj'. intros i Hi.
  destruct (Z.lt_ge_cases i 64).
  - specialize (Hc (64 * Z.of_nat k + i)).
    rewrite !covered_testbit in Hc by lia.
    replace ((64 * Z.of_nat k + i) / 64) with (Z.of_nat k) in Hc
      by (Z.div_mod_to_equations; lia).
    replace ((64 * Z.of_nat k + i) mod 64) with i in Hc
      by (Z.div_mod_to_equations; lia).
    rewrite Nat2Z.id in Hc. apply Hc. lia.
  - rewrite !Hb; [done|by apply words_ok_get|done|by apply words_ok_get|done].
Qed.

(** On a range with no covered byte, the byte loop does what the block copy
    does, field by field. *)
Lemma store_bytes_fold_clear total s offset payload k :
  store_wf total s -> 0 <= offset -> offset + Z.of_nat (S k) <= total ->
  st_added s = 0 ->
  (forall i, offset <= i < offset + Z.of_nat (S k) -> covered (st_coverage s) i = false) ->
  let s' := fold_left (store_byte offset payload) (seq 0 (S k)) s in
  st_data s' = mem_write (st_data s) (Z.to_nat offset) (mem_read payload 0 (S k)) /\
  st_covered_bytes s' = u64 (st_covered_bytes s + Z.of_nat (S k)) /\
  st_added s' = Z.of_nat (S k).
Proof.
  intros Hwf Ho Hk Ha Hclear.
  assert (Hstep : forall j, (j <= k)%nat ->
    let sj := fold_left (store_byte offset payload) (seq 0 j) s in
    store_byte offset payload sj j =
    {| st_data := mem_write (st_data sj) (Z.to_nat (offset + Z.of_nat j)) [mem_get payload j];
       st_coverage := mark_covered (st_coverage sj) (offset + Z.of_nat j);
       st_covered_bytes := u64 (st_covered_bytes sj + 1);
       st_added := u64 (st_added sj + 1) |}).
  { intros j Hj sj. unfold store_byte. pose proof (sw_total _ _ Hwf).
    rewrite (wrap_small 64 (offset + Z.of_nat j)) by lia.
    rewrite covered_content.
    destruct (store_bytes_fold total s offset payload j) as (_ & _ & _ & Hcon & _); [done|lia..|].
    fold sj in Hcon. rewrite Hcon, decide_False by lia.
    unfold content. by rewrite Hclear by lia. }
  pose proof (sw_total _ _ Hwf).
  pose proof (count_bounds (covered (st_coverage s)) (Z.to_nat total)) as Hcb.
  rewrite <- (sw_count _ _ Hwf) in Hcb.
  induction k as [|k IH].
  - cbn [seq fold_left]. specialize (Hstep 0%nat). cbn [seq fold_left] in Hstep.
    rewrite Hstep by lia. cbn [st_data st_covered_bytes st_added].
    rewrite Ha, Z.add_0_r. split_and!; try done.
    by rewrite mem_read_snoc.
  - rewrite (seq_S (S k)), fold_left_app. cbn [fold_left Nat.add].
    rewrite Hstep by lia. cbn [st_data st_covered_bytes st_added].
    destruct IH as (Hd & Hc & Hadd); [lia|intros; apply Hclear; lia|intros; apply Hstep; lia|].
    rewrite Hd, Hc, Hadd. rewrite !wrap_small by (rewrite ?wrap_small; lia).
    split_and!; try lia.
    rewrite (mem_read_snoc payload 0 (S k)), mem_write_snoc.
    + rewrite length_mem_read. f_equal. lia.
    + rewrite mem_read_snoc. by destruct (mem_read payload 0 k).
Qed.

Lemma store_bytes_clear total s offset n payload :
  store_wf total s -> 0 <= offset -> 0 < n -> offset + n <= total -> st_added s = 0 ->
  (forall i, offset <= i < offset + n -> covered (st_coverage s) i = false) ->
  store_bytes s offset n payload = copy_range s offset n payload.
Proof.
  intros Hwf Ho Hn Ht Ha Hclear. unfold store_bytes.
  destruct (store_bytes_fold total s offset payload (Z.to_nat n))
    as (Hwf' & Hlc & _ & Hcon & _); [done|lia..|].
  pose proof (sw_total _ _ Hwf). pose proof (sw_room _ _ Hwf).
  assert (u64 (offset + n) = offset + n) as Hu by (apply wrap_small; lia).
  destruct (mark_range_loop_spec (Z.to_nat n) (st_coverage s) offset (offset + n))
    as (Hmw & Hml & Hmc); [apply Hwf|lia..|].
  destruct (Z.to_nat n) as [|k] eqn:E; [lia|].
  destruct (store_bytes_fold_clear total s offset payload k) as (Hd & Hb & Hadd);
    [done|lia|lia|done|intros; apply Hclear; lia|].
  unfold copy_range, mark_coverage_range. rewrite Hu, E.
  destruct (fold_left _ _ _) as [d' c' b' a'] eqn:Ef.
  cbn [st_data st_coverage st_covered_bytes st_added] in *. subst.
  f_equal; [|f_equal; lia|lia].
  apply coverage_ext; [apply Hwf'|done|congruence|].
  intros i Hi. specialize (Hcon i Hi).
  pose proof (covered_content {| st_data := mem_write (st_data s) (Z.to_nat offset)
    (mem_read payload 0 (S k)); st_coverage := c';
    st_covered_bytes := u64 (st_covered_bytes s + Z.of_nat (S k));
    st_added := Z.of_nat (S k) |} i) as Hci. cbn [st_coverage] in Hci.
  rewrite Hci, Hcon, Hmc by done.
  case_decide.
  - replace ((offset <=? i) && (i <? offset + n)) with true by lia.
    rewrite orb_true_r. by apply bool_decide_eq_true.
  - replace ((offset <=? i) && (i <? offset + n)) with false by lia.
    by rewrite orb_false_r, covered_content.
Qed.

Lemma overlap_conflicts_spec total s offset n payload :
  store_wf total s -> 0 <= offset -> 0 <= n -> offset + n <= total ->
  overlap_conflicts s offset n payload = false <->
  (forall j b, offset <= j < offset + n -> content s j = Some b ->
     b = mem_get payload (Z.to_nat (j - offset))).
Proof.
  intros Hwf Ho Hn Ht. pose proof (sw_total _ _ Hwf). unfold overlap_conflicts.
  rewrite <- not_true_iff_false, existsb_exists. split.
  - intros Hno j b Hj Hb. destruct (decide (b = mem_get payload (Z.to_nat (j - offset)))); [done|].
    exfalso. apply Hno. exists (Z.to_nat (j - offset)). split; [apply in_seq; lia|].
    rewrite (wrap_small 64) by lia.
    replace (offset + Z.of_nat (Z.to_nat (j - offset))) with j by lia.
    unfold content in Hb. destruct (covered (st_coverage s) j); simplify_eq. lia.
  - intros Hall (i & Hi%in_seq & Hc). rewrite (wrap_small 64) in Hc by lia.
    apply andb_true_iff in Hc as [Hc Hne]. unfold content in Hall.
    specialize (Hall (offset + Z.of_nat i)). rewrite Hc in Hall.
    rewrite (Hall _ ltac:(lia) eq_refl) in Hne.
    replace (Z.to_nat (offset + Z.of_nat i - offset)) with i in Hne by lia. lia.
Qed.

Lemma overlap_conflicts_witness total s offset n payload :
  store_wf total s -> 0 <= offset -> 0 <= n -> offset + n <= total ->
  overlap_conflicts s offset n payload = true ->
  exists j b, offset <= j < offset + n /\ content s j = Some b /\
    b <> mem_get payload (Z.to_nat (j - offset)).
Proof.
  intros Hwf Ho Hn Ht. pose proof (sw_total _ _ Hwf). unfold overlap_conflicts.
  rewrite existsb_exists. intros (i & Hi%in_seq & Hc).
  rewrite (wrap_small 64) in Hc by lia. apply andb_true_iff in Hc as [Hc Hne].
  exists (offset + Z.of_nat i), (mem_get (st_data s) (Z.to_nat (offset + Z.of_nat i))).
  unfold content. rewrite Hc.
  replace (Z.to_nat (offset + Z.of_nat i - offset)) with i by lia.
  split_and!; [lia|lia|done|]. lia.
Qed.

Lemma store_fragment_eq total s offset n payload :
  store_wf total s -> 0 <= offset -> 0 <= n -> offset + n <= total -> st_added s = 0 ->
  store_fragment s offset n payload =
  if overlap_conflicts s offset n payload then None
  else Some (store_bytes s offset n payload).
Proof.
  intros Hwf Ho Hn Ht Ha. unfold store_fragment.
  destruct (negb (n =? 0) && coverage_range_is_clear (st_coverage s) offset n) eqn:E;
    [|done]. apply andb_true_iff in E as [En Ec].
  pose proof (sw_total _ _ Hwf).
  assert (Hclear : forall i, offset <= i < offset + n -> covered (st_coverage s) i = false).
  { unfold coverage_range_is_clear in Ec. rewrite (wrap_small 64) in Ec by lia.
    apply (range_is_clear_loop_spec (Z.to_nat n)); [lia|lia|exact Ec]. }
  rewrite (proj2 (overlap_conflicts_spec total s offset n payload Hwf Ho Hn Ht)).
  - by rewrite (store_bytes_clear total) by (done || lia).
  - intros j b Hj. unfold content. by rewrite Hclear.
Qed.

(** C30. The word-at-a-time copy path of a push is equivalent to the
    byte-at-a-time reference: whenever the store is well formed and the
    fragment lies inside the message, storing a fragment gives exactly the
    buffer, bitmap and counters of the byte loops, and the same conflicts. *)
Theorem store_fragment_bytewise total s offset n payload :
  store_wf total s -> 0 <= offset -> 0 <= n -> offset + n <= total -> st_added s = 0 ->
  store_fragment s offset n payload =
  if overlap_conflicts s offset n payload then None
  else Some (store_bytes s offset n payload).
Proof. apply store_fragment_eq. Qed.

(** ** Invariant of the reassembler *)

Definition content_of (r : spw_fragment_reassembler) (i : Z) : option Z :=
  content (store_of r) i.

Record reassembler_wf (r : spw_fragment_reassembler) : Prop := {
  rw_capacity : 0 <= capacity r < 2 ^ 63;
  rw_data : exists d, data r = Some d /\ Z.of_nat (length d) <= capacity r;
  rw_coverage : exists c, coverage r = Some c /\
                  Z.of_nat (length c) = coverage_words r;
  rw_words : SPW_FRAGMENT_COVERAGE_WORDS 64 (capacity r) <= coverage_words r;
  rw_store : store_wf (total_size r) (store_of r);
  rw_active : if active r then 0 < total_size r <= capacity r
              else total_size r = 0 /\ seen_start r = false /\ seen_end r = false
}.

Lemma coverage_words_room n m :
  0 <= n < 2 ^ 63 -> SPW_FRAGMENT_COVERAGE_WORDS 64 n <= m -> n <= 64 * m.
Proof.
  unfold SPW_FRAGMENT_COVERAGE_WORDS. intros Hn.
  rewrite wrap_small by lia. Z.div_mod_to_equations. lia.
Qed.

Lemma covered_zero n i : covered (replicate n 0) i = false.
Proof. unfold covered. by rewrite mem_get_replicate. Qed.

Lemma store_wf_empty n d a : store_wf 0
  {| st_data := d; st_coverage := replicate n 0; st_covered_bytes := 0; st_added := a |}.
Proof.
  split; cbn [st_data st_coverage st_covered_bytes]; try lia.
  - apply words_ok_replicate.
  - intros. apply covered_zero.
  - done.
Qed.

(** Clearing the first [n] words of a bitmap of [m] words whose other words
    are already clear leaves the all-clear bitmap. *)
Lemma clear_words_zero c n :
  words_ok c -> (n <= length c)%nat ->
  (forall i, 64 * Z.of_nat n <= i -> covered c i = false) ->
  mem_write c 0 (replicate n 0) = replicate (length c) 0.
Proof.
  intros Hw Hn Hc. rewrite mem_write_0, length_replicate.
  replace (drop n c) with (replicate (length c - n) 0).
  - rewrite <- replicate_add. by replace (n + (length c - n))%nat with (length c) by lia.
  - apply coverage_ext; [apply words_ok_replicate|by apply Forall_drop| |].
    + by rewrite length_replicate, length_drop.
    + intros i Hi. rewrite covered_zero, covered_testbit, mem_get_drop by done.
      specialize (Hc (64 * Z.of_nat n + i)). rewrite covered_testbit in Hc by lia.
      replace ((64 * Z.of_nat n + i) / 64) with (Z.of_nat n + i / 64) in Hc
        by (Z.div_mod_to_equations; lia).
      replace ((64 * Z.of_nat n + i) mod 64) with (i mod 64) in Hc
        by (Z.div_mod_to_equations; lia).
      pose proof (Z.div_pos i 64).
      rewrite Z2Nat.inj_add, Nat2Z.id in Hc by lia. symmetry. apply Hc. lia.
Qed.

Lemma init_wf d c cap words :
  0 <= cap < 2 ^ 63 -> Z.of_nat (length d) <= cap ->
  Z.of_nat (length c) = words -> SPW_FRAGMENT_COVERAGE_WORDS 64 cap <= words ->
  reassembler_wf (spw_fragment_reassembler_init (Some d) cap (Some c) words).
Proof.
  intros Hcap Hd Hc Hw. unfold spw_fragment_reassembler_init.
  assert ((if negb (words =? 0)
           then mem_write c 0 (replicate (Z.to_nat words) 0) else c)
          = replicate (length c) 0) as ->.
  { case_if; [|by destruct c; simpl in *; [|lia]].
    rewrite mem_write_0, length_replicate, drop_ge, app_nil_r by lia. f_equal. lia. }
  split; cbn; eauto.
  - exists (replicate (length c) 0). rewrite length_replicate. done.
  - apply store_wf_empty.
Qed.

(** The reset clears only the words the active message could have touched;
    on a well-formed reassembler that clears the whole bitmap, unless the number
    of words wraps. *)
Lemma reset_coverage r :
  reassembler_wf r -> capacity r + 63 < 2 ^ 32 ->
  coverage (spw_fragment_reassembler_reset r) =
  Some (replicate (Z.to_nat (coverage_words r)) 0).
Proof.
  intros [Hcap _ (c & Hc & Hl) Hw [Ht Hwords Hroom Hhigh _] Hact] Hsmall.
  assert (total_size r <= capacity r) as Hts by (destruct (active r); lia).
  unfold spw_fragment_reassembler_reset, store_of in *.
  rewrite Hc in *. cbn [coverage default from_option id st_coverage] in *. f_equal.
  set (n := if _ && _ then _ else _).
  assert (Hn : 0 <= n <= Z.of_nat (length c) /\ total_size r <= 64 * n).
  { unfold n. unfold SPW_FRAGMENT_COVERAGE_WORDS in *.
    rewrite (wrap_small 32 (total_size r + 63)) in * by lia.
    assert (0 <= (total_size r + 63) / 64 /\ total_size r <= 64 * ((total_size r + 63) / 64))
      by (Z.div_mod_to_equations; lia).
    repeat case_if; lia. }
  clearbody n. destruct (Z.eqb_spec n 0) as [->|]; cbn [negb].
  - assert (mem_write c 0 (replicate 0 0) = c) as <- by (by rewrite mem_write_0).
    rewrite clear_words_zero; [f_equal; lia|done|lia|]. intros i Hi. apply Hhigh. lia.
  - rewrite clear_words_zero; [f_equal; lia|done|lia|]. intros i Hi. apply Hhigh. lia.
Qed.

Lemma reset_wf r : reassembler_wf r -> capacity r + 63 < 2 ^ 32 ->
  reassembler_wf (spw_fragment_reassembler_reset r).
Proof.
  intros Hwf Hsmall. pose proof (reset_coverage r Hwf Hsmall) as Hcov.
  destruct Hwf as [Hcap Hd (c & Hc & Hl) Hw _ _]. split; try done.
  - exists (replicate (Z.to_nat (coverage_words r)) 0). split; [done|].
    rewrite length_replicate. cbn. lia.
  - unfold store_of. rewrite Hcov. cbn. apply store_wf_empty.
Qed.

(** ** Pushing *)

(** Guards of a push, as propositions. *)
Lemma push_valid_inv r h payload :
  reassembler_wf r -> header_in_range h = true ->
  push_invalid r (Some h) payload = false ->
  0 < VspwTp.total_size h <= capacity r /\ VspwTp.total_size h < 2 ^ 32 /\
  0 <= fragment_offset h /\ 0 <= payload_size h /\
  fragment_offset h + payload_size h <= VspwTp.total_size h /\
  VspwTp.message_id h <> 0.
Proof.
  intros [_ (d & Hd & _) (c & Hc & _) _ _ _] Hr. unfold push_invalid. rewrite Hd, Hc.
  unfold header_in_range, in_width in Hr. split_andb. intros Hv.
  rewrite (wrap_small 64 (fragment_offset h + payload_size h)) in Hv by lia. lia.
Qed.

Lemma activate_store_wf r h :
  reassembler_wf r -> active r = false ->
  0 < VspwTp.total_size h <= capacity r -> VspwTp.total_size h < 2 ^ 32 ->
  store_wf (VspwTp.total_size h) (store_of (activate r h)).
Proof.
  intros [Hcap Hd (c & Hc & Hl) Hw [Ht Hwo Hro Hhi Hco] Hact] Ha Htot Htot'.
  rewrite Ha in Hact. destruct Hact as (H0 & _).
  unfold store_of, activate in *. rewrite Hc in *. cbn in *. unfold id in *. rewrite H0 in *.
  split; cbn; try done; try lia.
  - pose proof (coverage_words_room (capacity r) (coverage_words r)). lia.
  - intros i Hi. apply Hhi. lia.
  - rewrite Hco, (count_ext _ (fun _ => false) (Z.to_nat (VspwTp.total_size h)));
      [by rewrite count_false|]. intros. apply Hhi. lia.
Qed.

Lemma activated_store_wf r h :
  reassembler_wf r -> 0 < VspwTp.total_size h <= capacity r ->
  VspwTp.total_size h < 2 ^ 32 ->
  active r && identity_differs r h = false ->
  let r1 := if active r then r else activate r h in
  total_size r1 = VspwTp.total_size h /\ active r1 = true /\
  store_wf (VspwTp.total_size h) (store_of r1).
Proof.
  intros Hwf Ht Ht' Hid. destruct (active r) eqn:Ha; cbn zeta.
  - unfold identity_differs in Hid. cbn in Hid. split_andb.
    assert (total_size r = VspwTp.total_size h) as Heq by lia.
    rewrite <- Heq. split_and!; [done|done|]. apply Hwf.
  - split_and!; [done|done|]. by apply activate_store_wf.
Qed.

(** What a stored fragment does to the store of an activated reassembler. *)
Lemma store_fragment_spec total s offset n payload s' :
  store_wf total s -> 0 <= offset -> 0 <= n -> offset + n <= total -> st_added s = 0 ->
  store_fragment s offset n payload = Some s' ->
  store_wf total s' /\
  length (st_coverage s') = length (st_coverage s) /\
  (length (st_data s') <= Nat.max (length (st_data s)) (Z.to_nat total))%nat /\
  (forall j, 0 <= j -> content s' j =
     if decide (offset <= j < offset + n)
     then Some (mem_get payload (Z.to_nat (j - offset))) else content s j) /\
  st_added s' = st_covered_bytes s' - st_covered_bytes s.
Proof.
  intros Hwf Ho Hn Ht Ha. rewrite (store_fragment_eq total) by done.
  destruct (overlap_conflicts s offset n payload) eqn:Eo; [done|].
  intros [= <-]. rewrite (overlap_conflicts_spec total) in Eo by done.
  unfold store_bytes.
  destruct (store_bytes_fold total s offset payload (Z.to_nat n))
    as (H1 & H2 & H3 & H4 & _ & H6); [done|lia..|].
  split_and!; try done. intros j Hj. rewrite H4, Z2Nat.id by lia.
  case_decide; [|done]. f_equal. destruct (content s j) eqn:Ec; [|done].
  cbn. by apply Eo.
Qed.

Definition stored_result (res : reassembly_result) : Prop :=
  res = REASSEMBLY_ACCEPTED \/ res = REASSEMBLY_DUPLICATE \/ res = REASSEMBLY_COMPLETE.

(** The reassembler after the identity check, before the copy. *)
Definition activated (r : spw_fragment_reassembler) (h : spw_vspw_tp_header) :=
  if active r then r else activate r h.

Lemma activated_wf r h :
  reassembler_wf r -> 0 < VspwTp.total_size h <= capacity r ->
  VspwTp.total_size h < 2 ^ 32 ->
  active r && identity_differs r h = false ->
  reassembler_wf (activated r h) /\ (forall j, content_of (activated r h) j = content_of r j).
Proof.
  intros Hwf Ht Ht' Hid.
  destruct (activated_store_wf r h Hwf Ht Ht' Hid) as (Htot & Hact & Hst).
  fold (activated r h) in *. split.
  - unfold activated in *. destruct (active r) eqn:Ha; [done|].
    destruct Hwf as [? ? ? ? ? _]. split; try done.
  - intros j. unfold activated. by destruct (active r).
Qed.

Lemma with_store_wf r h s' :
  reassembler_wf r -> active r = true -> store_wf (total_size r) s' ->
  length (st_coverage s') = length (st_coverage (store_of r)) ->
  (length (st_data s') <= Nat.max (length (st_data (store_of r))) (Z.to_nat (total_size r)))%nat ->
  reassembler_wf (with_store r s' h).
Proof.
  intros [Hcap (d & Hd & Hdl) (c & Hc & Hcl) Hw Hs Ha] Hact Hs' Hl Hl'.
  rewrite Hact in Ha. unfold store_of in Hl, Hl'. rewrite Hc in Hl. rewrite Hd in Hl'.
  cbn in Hl, Hl'. unfold id in *. split; cbn; try done; try lia.
  - exists (st_data s'). split; [done|lia].
  - exists (st_coverage s'). split; [done|lia].
  - destruct s'. destruct Hs'; split; cbn in *; done.
  - by rewrite Hact.
Qed.

Lemma push_stored r h payload :
  reassembler_wf r -> header_in_range h = true ->
  push_invalid r (Some h) payload = false ->
  active r && identity_differs r h = false ->
  let pushed := spw_fragment_reassembler_push r (Some h) payload in
  match store_fragment (store_of (activated r h)) (fragment_offset h)
          (payload_size h) (default [] payload) with
  | None => pushed = (REASSEMBLY_CONFLICT, activated r h)
  | Some s' =>
      stored_result pushed.1 /\ pushed.2 = with_store (activated r h) s' h /\
      reassembler_wf pushed.2 /\
      (forall j, 0 <= j -> content_of pushed.2 j =
         if decide (fragment_offset h <= j < fragment_offset h + payload_size h)
         then Some (mem_get (default [] payload) (Z.to_nat (j - fragment_offset h)))
         else content_of r j) /\
      (pushed.1 = REASSEMBLY_COMPLETE <->
         (forall j, 0 <= j < VspwTp.total_size h -> is_Some (content_of pushed.2 j)) /\
         seen_start pushed.2 = true /\ seen_end pushed.2 = true)
  end.
Proof.
  intros Hwf Hr Hv Hid.
  destruct (push_valid_inv r h payload Hwf Hr Hv) as (Ht & Ht' & Ho & Hn & He & _).
  destruct (activated_store_wf r h Hwf Ht Ht' Hid) as (Htot & Hact & Hst).
  destruct (activated_wf r h Hwf Ht Ht' Hid) as (Hwf1 & Hcon1).
  cbn zeta. unfold spw_fragment_reassembler_push. rewrite Hv, Hid.
  fold (activated r h) in *. set (r1 := activated r h) in *. clearbody r1.
  destruct (store_fragment (store_of r1) _ _ _) as [s'|] eqn:Es; [|done].
  destruct (store_fragment_spec (VspwTp.total_size h) (store_of r1)
              (fragment_offset h) (payload_size h) (default [] payload) s')
    as (Hs1 & Hs2 & Hs3 & Hs4 & _); [done..|].
  rewrite <- Htot in Hs1, Hs3.
  pose proof (with_store_wf r1 h s' Hwf1 Hact Hs1 Hs2 Hs3) as Hwf2.
  cbn [fst snd]. split_and!; try done.
  - unfold stored_result. repeat case_if; auto.
  - intros j Hj. unfold content_of at 1, store_of, content. cbn.
    fold (content s' j). by rewrite Hs4, <- Hcon1.
  - rewrite <- Htot. pose proof (sw_count _ _ (rw_store _ Hwf2)) as Hc. cbn in Hc.
    assert ((forall j, 0 <= j < total_size r1 ->
              is_Some (content_of (with_store r1 s' h) j)) <->
            st_covered_bytes s' = total_size r1) as ->.
    { rewrite Hc. pose proof (count_full (covered (st_coverage s')) (Z.to_nat (total_size r1))) as Hf.
      rewrite Z2Nat.id in Hf by (apply Hs1). unfold id. rewrite Hf.
      split; intros H j Hj; specialize (H j Hj); revert H;
        unfold content_of, content; cbn; unfold id;
        destruct (covered _ _); try done; intros H; by inversion H. }
    cbn. rewrite <- (Z.eqb_eq (st_covered_bytes s')).
    destruct (_ =? _), (_ || _), (_ || _); cbn; try done;
      (split; [by destruct (st_added s' =? 0)|by intros (? & ? & ?)]).
Qed.

Lemma push_wf r h payload :
  reassembler_wf r -> header_in_range h = true ->
  reassembler_wf (spw_fragment_reassembler_push r (Some h) payload).2.
Proof.
  intros Hwf Hr. destruct (push_invalid r (Some h) payload) eqn:Hv.
  { unfold spw_fragment_reassembler_push. by rewrite Hv. }
  destruct (active r && identity_differs r h) eqn:Hid.
  { unfold spw_fragment_reassembler_push. by rewrite Hv, Hid. }
  pose proof (push_stored r h payload Hwf Hr Hv Hid) as Hp. cbn zeta in Hp.
  destruct (store_fragment _ _ _ _).
  - by destruct Hp as (_ & _ & ? & _).
  - rewrite Hp. destruct (push_valid_inv r h payload Hwf Hr Hv) as (Ht & Ht' & _).
    by apply activated_wf.
Qed.

Lemma push_capacity r h payload :
  capacity (spw_fragment_reassembler_push r (Some h) payload).2 = capacity r.
Proof.
  unfold spw_fragment_reassembler_push. case_if; [done|]. case_if; [done|].
  destruct (store_fragment _ _ _ _); by destruct (active r).
Qed.

(** Every reassembler state the transport can reach: initialised over storage
    of the documented size, of less than 2^32 - 63 bytes, then reset and pushed to
    in any order. *)
Inductive reachable : spw_fragment_reassembler -> Prop :=
  | reach_init d c cap :
      0 <= cap -> cap + 63 < 2 ^ 32 -> Z.of_nat (length d) = cap ->
      Z.of_nat (length c) = SPW_FRAGMENT_COVERAGE_WORDS 64 cap ->
      reachable (spw_fragment_reassembler_init (Some d) cap (Some c)
                   (SPW_FRAGMENT_COVERAGE_WORDS 64 cap))
  | reach_reset r : reachable r -> reachable (spw_fragment_reassembler_reset r)
  | reach_push r h payload :
      reachable r -> header_in_range h = true ->
      reachable (spw_fragment_reassembler_push r (Some h) payload).2.

Lemma reachable_wf r : reachable r -> reassembler_wf r /\ capacity r + 63 < 2 ^ 32.
Proof.
  induction 1 as [d c cap Hc Hs Hd Hl|r _ [IH Hs]|r h payload _ [IH Hs] Hr].
  - split; [apply init_wf; lia|done].
  - split; [by apply reset_wf|done].
  - split; [by apply push_wf|by rewrite push_capacity].
Qed.

(** C23. Invariant of the reassembler over a buffer of less than 2^32 - 63 bytes
    (the transport's has 1 MiB), in every reachable state: the buffer
    never grows past its capacity and the bitmap never past its words (so no
    write is out of bounds), no bit is set past the end of the current
    message, and [covered_bytes] is the number of set bits. *)
Theorem reassembler_invariant r :
  reachable r ->
  (exists d c, data r = Some d /\ coverage r = Some c /\
     Z.of_nat (length d) <= capacity r /\ Z.of_nat (length c) = coverage_words r /\
     (forall i, total_size r <= i -> covered c i = false) /\
     covered_bytes r = count (covered c) (Z.to_nat (total_size r))) /\
  total_size r <= capacity r.
Proof.
  intros [[Hcap (d & Hd & Hdl) (c & Hc & Hcl) Hw [Ht _ _ Hh Hn] Ha] _]%reachable_wf.
  unfold store_of in Hh, Hn. rewrite Hc in Hh, Hn. cbn in Hh, Hn.
  split; [exists d, c; done|]. destruct (active r); lia.
Qed.

(** Functional behaviour of a push on a well-formed reassembler, on every
    branch: an invalid fragment changes nothing; a fragment that disagrees
    with the current message's identity or with a byte already received is a
    conflict and leaves every received byte as it was; otherwise its bytes are
    stored, nothing else changes, and the result is COMPLETE exactly when all
    bytes of the message and both the start and end fragments were seen. *)
Theorem push_functional r h payload :
  reassembler_wf r -> header_in_range h = true ->
  let pushed := spw_fragment_reassembler_push r (Some h) payload in
  match pushed.1 with
  | REASSEMBLY_INVALID =>
      push_invalid r (Some h) payload = true /\ pushed.2 = r
  | REASSEMBLY_CONFLICT =>
      (forall j, content_of pushed.2 j = content_of r j) /\
      ((active r = true /\ identity_differs r h = true) \/
       exists j b, fragment_offset h <= j < fragment_offset h + payload_size h /\
         content_of r j = Some b /\
         b <> mem_get (default [] payload) (Z.to_nat (j - fragment_offset h)))
  | res =>
      (forall j, 0 <= j -> content_of pushed.2 j =
         if decide (fragment_offset h <= j < fragment_offset h + payload_size h)
         then Some (mem_get (default [] payload) (Z.to_nat (j - fragment_offset h)))
         else content_of r j) /\
      (res = REASSEMBLY_COMPLETE <->
         (forall j, 0 <= j < VspwTp.total_size h -> is_Some (content_of pushed.2 j)) /\
         seen_start pushed.2 = true /\ seen_end pushed.2 = true)
  end.
Proof.
  intros Hwf Hr. destruct (push_invalid r (Some h) payload) eqn:Hv.
  { unfold spw_fragment_reassembler_push. by rewrite Hv. }
  destruct (active r && identity_differs r h) eqn:Hid.
  { unfold spw_fragment_reassembler_push. rewrite Hv, Hid. cbn.
    apply andb_true_iff in Hid. auto. }
  pose proof (push_stored r h payload Hwf Hr Hv Hid) as Hp. cbn zeta in Hp |- *.
  destruct (push_valid_inv r h payload Hwf Hr Hv) as (Ht & Ht' & Ho & Hn & He & _).
  destruct (store_fragment _ _ _ _) eqn:Es.
  - destruct Hp as (Hres & _ & _ & Hcon & Hcomp).
    destruct (spw_fragment_reassembler_push r (Some h) payload).1;
      destruct Hres as [?|[?|?]]; done.
  - rewrite Hp. cbn [fst snd].
    destruct (activated_wf r h Hwf Ht Ht' Hid) as (_ & Hcon1).
    destruct (activated_store_wf r h Hwf Ht Ht' Hid) as (_ & _ & Hst).
    split; [done|]. right. fold (activated r h) in Hst.
    rewrite (store_fragment_eq (VspwTp.total_size h)) in Es by done.
    destruct (overlap_conflicts _ _ _ _) eqn:Eo; [|done].
    apply (overlap_conflicts_witness (VspwTp.total_size h)) in Eo as (j & b & Hj & Hb & Hne);
      [|done..].
    exists j, b. by rewrite <- Hcon1.
Qed.

(** ** Reassembly of a whole message *)

Section message.
(** A logical packet and the identity its fragments carry. *)
Context (msg : list Z) (mid tflags : Z) (ack : bool).

(** [f] carries a proper part of [msg], wherever it lies. *)
Record fragment_of (f : spw_vspw_tp_header * list Z) : Prop := {
  fo_range : header_in_range f.1 = true;
  fo_type : type f.1 = SPW_VSPW_TP_DATA;
  fo_total : VspwTp.total_size f.1 = Z.of_nat (length msg);
  fo_part : payload_size f.1 <> VspwTp.total_size f.1;
  fo_id : VspwTp.message_id f.1 = mid;
  fo_flags : frag_terminator_flags f.1 = tflags;
  fo_ack : frag_ack_required f.1 = ack;
  fo_inside : fragment_offset f.1 + payload_size f.1 <= Z.of_nat (length msg);
  fo_bytes : forall i, 0 <= i < payload_size f.1 ->
    mem_get f.2 (Z.to_nat i) = mem_get msg (Z.to_nat (fragment_offset f.1 + i))
}.

Definition in_fragment (i : Z) (f : spw_vspw_tp_header * list Z) : bool :=
  (fragment_offset f.1 <=? i) && (i <? fragment_offset f.1 + payload_size f.1).

Definition push_one (r : spw_fragment_reassembler)
    (f : spw_vspw_tp_header * list Z) :=
  spw_fragment_reassembler_push r (Some f.1) (Some f.2).

Definition push_list (fs : list (spw_vspw_tp_header * list Z))
    (r : spw_fragment_reassembler) : spw_fragment_reassembler :=
  fold_left (fun r f => (push_one r f).2) fs r.

(** State after pushing fragments of [msg]: the bytes received are those of
    [msg], at the positions some fragment carried. *)
Record partial (fs : list (spw_vspw_tp_header * list Z)) (cap : Z)
    (r : spw_fragment_reassembler) : Prop := {
  pa_wf : reassembler_wf r;
  pa_cap : capacity r = cap;
  pa_content : forall i, 0 <= i -> content_of r i =
    if existsb (in_fragment i) fs then Some (mem_get msg (Z.to_nat i)) else None;
  pa_start : seen_start r = existsb (fun f => frag_start f.1) fs;
  pa_end : seen_end r = existsb (fun f => frag_end f.1) fs;
  pa_id : active r = true ->
    message_id r = mid /\ total_size r = Z.of_nat (length msg) /\
    terminator_flags r = tflags /\ ack_required r = ack
}.

Lemma partial_fresh r :
  reassembler_wf r -> active r = false -> partial [] (capacity r) r.
Proof.
  intros Hwf Ha. split; try done.
  - intros i Hi. unfold content_of, content.
    pose proof (rw_active _ Hwf) as Hact. rewrite Ha in Hact. destruct Hact as (Ht & _).
    by rewrite (sw_high _ _ (rw_store _ Hwf)) by lia.
  - pose proof (rw_active _ Hwf) as Hact. rewrite Ha in Hact. by destruct Hact as (_ & -> & _).
  - pose proof (rw_active _ Hwf) as Hact. rewrite Ha in Hact. by destruct Hact as (_ & _ & ->).
  - by rewrite Ha.
Qed.

Lemma fragment_push_valid fs cap r f :
  partial fs cap r -> fragment_of f -> mid <> 0 ->
  (0 < length msg)%nat -> Z.of_nat (length msg) <= cap ->
  push_invalid r (Some f.1) (Some f.2) = false /\
  active r && identity_differs r f.1 = false.
Proof.
  intros [Hwf Hcap _ _ _ Hid] [Hr Hty Htot Hpart Hfid Hfl Hack Hin _] Hmid Hlen Hc.
  assert (fragment_offset f.1 + payload_size f.1 < 2 ^ 64).
  { unfold header_in_range, in_width in Hr. split_andb. lia. }
  assert (0 <= fragment_offset f.1 + payload_size f.1).
  { unfold header_in_range, in_width in Hr. split_andb. lia. }
  split.
  - pose proof (rw_words _ Hwf).
    destruct Hwf as [_ (d & Hd & _) (c & Hcv & _) _ _ _].
    unfold push_invalid. rewrite Hd, Hcv, wrap_small, bool_decide_true by eauto.
    rewrite Hty, Z.eqb_refl. cbn [negb]. rewrite andb_false_r. lia.
  - destruct (active r) eqn:Ha; [|done]. destruct (Hid eq_refl) as (H1 & H2 & H3 & H4).
    unfold identity_differs. rewrite H1, H2, H3, H4, Hfid, Htot, Hfl, Hack.
    by rewrite !Z.eqb_refl, eqb_reflx.
Qed.

(** One more fragment of [msg]: always stored, never a conflict. *)
Lemma partial_push fs cap r f :
  partial fs cap r -> fragment_of f -> mid <> 0 ->
  (0 < length msg)%nat -> Z.of_nat (length msg) <= cap ->
  stored_result (push_one r f).1 /\ partial (fs ++ [f]) cap (push_one r f).2 /\
  ((push_one r f).1 = REASSEMBLY_COMPLETE <->
     (forall j, 0 <= j < Z.of_nat (length msg) ->
        is_Some (content_of (push_one r f).2 j)) /\
     seen_start (push_one r f).2 = true /\ seen_end (push_one r f).2 = true).
Proof.
  intros Hp Hf Hmid Hlen Hc.
  destruct (fragment_push_valid fs cap r f) as (Hv & Hid); [done..|].
  pose proof Hp as [Hwf Hcap Hcon Hs He Hpid].
  pose proof Hf as [Hr Hty Htot Hpart Hfid Hfl Hack Hin Hby].
  destruct (push_valid_inv r f.1 _ Hwf Hr Hv) as (Ht & Ht' & Ho & Hn & Hof & _).
  destruct (activated_store_wf r f.1 Hwf Ht Ht' Hid) as (Ha1 & Ha2 & Hst).
  pose proof (push_stored r f.1 (Some f.2) Hwf Hr Hv Hid) as Hps.
  cbn zeta in Hps. fold (push_one r f) in Hps. fold (activated r f.1) in *.
  destruct (activated_wf r f.1 Hwf Ht Ht' Hid) as (Hwf1 & Hcon1).
  rewrite (store_fragment_eq (VspwTp.total_size f.1)) in Hps by done.
  rewrite (proj2 (overlap_conflicts_spec (VspwTp.total_size f.1) _ _ _ _ Hst Ho Hn Hof)) in Hps.
  2: { intros j b Hj Hb. fold (content_of (activated r f.1) j) in Hb.
       rewrite Hcon1, Hcon in Hb by lia. destruct (existsb (in_fragment j) fs); [|done].
       injection Hb as <-. cbn. rewrite Hby by lia. f_equal. lia. }
  destruct Hps as (Hres & Hst2 & Hwf2 & Hcon2 & Hcomp).
  rewrite Htot in Hcomp. split_and!; [done| |done].
  split; [done|by rewrite Hst2; unfold activated; destruct (active r)|..].
  - intros i Hi. rewrite Hcon2, existsb_app, Hcon by done. cbn [existsb].
    rewrite orb_false_r. case_decide.
    + assert (in_fragment i f = true) as -> by (unfold in_fragment; lia).
      rewrite orb_true_r. f_equal. cbn.
      rewrite Hby by lia. f_equal. lia.
    + assert (in_fragment i f = false) as -> by (unfold in_fragment; lia).
      by rewrite orb_false_r.
  - rewrite Hst2, existsb_app. cbn. rewrite orb_false_r, <- Hs.
    unfold activated. by destruct (active r).
  - rewrite Hst2, existsb_app. cbn. rewrite orb_false_r, <- He.
    unfold activated. by destruct (active r).
  - intros _. rewrite Hst2. cbn. unfold activated.
    destruct (active r) eqn:Ha; [by apply Hpid|done].
Qed.

Lemma push_list_partial fs pre cap r :
  partial pre cap r -> Forall fragment_of fs -> mid <> 0 ->
  (0 < length msg)%nat -> Z.of_nat (length msg) <= cap ->
  partial (pre ++ fs) cap (push_list fs r).
Proof.
  intros Hp Hfs Hmid Hlen Hc. revert pre r Hp.
  induction Hfs as [|f fs Hf Hfs IH]; intros pre r Hp; cbn.
  - by rewrite app_nil_r.
  - replace (pre ++ f :: fs) with ((pre ++ [f]) ++ fs) by (by rewrite <- app_assoc).
    apply IH. by apply partial_push.
Qed.
(** Once every byte is there, the buffer holds the message. *)
Lemma partial_data fs cap r : partial fs cap r ->
  (forall j, 0 <= j < Z.of_nat (length msg) -> is_Some (content_of r j)) ->
  mem_read (default [] (data r)) 0 (length msg) = msg.
Proof.
  intros [_ _ Hcon _ _ _] Hall. apply list_eq_mem_get; [by rewrite length_mem_read|].
  rewrite length_mem_read. intros i Hi. rewrite mem_get_read by done. cbn.
  specialize (Hall (Z.of_nat i) ltac:(lia)). specialize (Hcon (Z.of_nat i) ltac:(lia)).
  destruct (existsb (in_fragment (Z.of_nat i)) fs); [|rewrite Hcon in Hall; by inversion Hall].
  unfold content_of, content, store_of in Hcon. cbn in Hcon.
  destruct (covered _ _); simplify_eq. by rewrite !Nat2Z.id in Hcon.
Qed.
End message.

(** C1. Order-independent reassembly: start from any inactive well-formed
    reassembler, push any list of fragments of one message (in any order,
    repeated or overlapping), then one more. No push is rejected or a
    conflict; the last one completes the message exactly when the fragments
    pushed cover every byte and include a start and an end fragment; and then
    the buffer holds the message. *)
Theorem reassembly_any_order msg mid tflags ack r0 fs f :
  reassembler_wf r0 -> active r0 = false ->
  mid <> 0 -> (0 < length msg)%nat -> Z.of_nat (length msg) <= capacity r0 ->
  Forall (fragment_of msg mid tflags ack) fs -> fragment_of msg mid tflags ack f ->
  let last := push_one (push_list fs r0) f in
  stored_result last.1 /\
  (last.1 = REASSEMBLY_COMPLETE <->
     (forall i, 0 <= i < Z.of_nat (length msg) -> existsb (in_fragment i) (fs ++ [f]) = true) /\
     existsb (fun g => frag_start g.1) (fs ++ [f]) = true /\
     existsb (fun g => frag_end g.1) (fs ++ [f]) = true) /\
  (last.1 = REASSEMBLY_COMPLETE ->
     mem_read (default [] (data last.2)) 0 (length msg) = msg).
Proof.
  intros Hwf Ha Hmid Hlen Hcap Hfs Hf. cbn zeta.
  pose proof (push_list_partial msg mid tflags ack fs [] (capacity r0) r0
    (partial_fresh msg mid tflags ack r0 Hwf Ha) Hfs Hmid Hlen Hcap) as Hp.
  cbn [app] in Hp.
  destruct (partial_push msg mid tflags ack fs (capacity r0) (push_list fs r0) f)
    as (Hres & Hp2 & Hcomp); [done..|].
  pose proof Hp2 as [_ _ Hcon Hs He _]. rewrite Hs, He in Hcomp.
  assert (Hsome : forall i, 0 <= i ->
    is_Some (content_of (push_one (push_list fs r0) f).2 i) <->
    existsb (in_fragment i) (fs ++ [f]) = true).
  { intros i Hi. rewrite Hcon by done. destruct (existsb (in_fragment i) _); [done|].
    split; intros H; by inversion H. }
  split_and!; [done| |].
  - rewrite Hcomp. split; intros (H1 & H2 & H3); split_and!; try done;
      intros i Hi; apply Hsome; auto; lia.
  - intros (H1 & _)%Hcomp. by eapply partial_data.
Qed.

(** Reset of a well-formed reassembler of less than 2^32 - 63 bytes clears the
    whole bitmap although it only rewrites the words the active message can have touched, and
    leaves the reassembler ready for the next message. *)
Theorem reset_clears_coverage r :
  reassembler_wf r -> capacity r + 63 < 2 ^ 32 ->
  let r' := spw_fragment_reassembler_reset r in
  coverage r' = Some (replicate (Z.to_nat (coverage_words r)) 0) /\
  active r' = false /\ reassembler_wf r' /\ (forall i, content_of r' i = None).
Proof.
  intros Hwf Hs. pose proof (reset_coverage r Hwf Hs) as Hcov. cbn zeta.
  split_and!; [done|done|by apply reset_wf|].
  intros i. unfold content_of, content, store_of. rewrite Hcov. cbn.
  by rewrite covered_zero.
Qed.

(** A larger buffer admits messages for which the number of words to clear wraps
    to zero: the reset that follows such a message leaves the bitmap as it is. *)
Theorem reset_keeps_coverage r :
  active r = true -> 2 ^ 32 - 64 < total_size r < 2 ^ 32 -> total_size r <= capacity r ->
  0 <= coverage_words r ->
  coverage (spw_fragment_reassembler_reset r) = coverage r /\
  active (spw_fragment_reassembler_reset r) = false.
Proof.
  intros Ha Ht Hc Hw. unfold spw_fragment_reassembler_reset, SPW_FRAGMENT_COVERAGE_WORDS.
  rewrite Ha, (proj2 (Z.leb_le _ _) Hc). cbn [andb coverage active]. split; [|done].
  assert (wrap 32 (total_size r + 63) / 64 = 0) as ->.
  { unfold wrap. Z.div_mod_to_equations. lia. }
  rewrite (proj2 (Z.ltb_ge _ _) Hw). by destruct (coverage r).
Qed.

(** ** Witnesses *)

Definition sample_header (offset size fl : Z) : spw_vspw_tp_header :=
  {| version_major := 1; version_minor := 0; type := SPW_VSPW_TP_DATA;
     flags := SPW_VSPW_TP_FLAG_EOP .| fl; header_size := 40; payload_size := size;
     link_id := 1; session_id := 1; sequence := 1; VspwTp.message_id := 4;
     fragment_offset := offset; VspwTp.total_size := 5 |}.

Definition sample_msg : list Z := [10; 20; 30; 40; 50].
Definition sample_last : spw_vspw_tp_header * list Z :=
  (sample_header 3 2 SPW_VSPW_TP_FLAG_FRAGMENT_END, [40; 50]).
Definition sample_first : spw_vspw_tp_header * list Z :=
  (sample_header 0 4 SPW_VSPW_TP_FLAG_FRAGMENT_START, [10; 20; 30; 40]).
Definition sample_reassembler : spw_fragment_reassembler :=
  spw_fragment_reassembler_init (Some (replicate 8 7)) 8 (Some [99]) 1.

(** The tail arrives twice before the (overlapping) head completes the
    message. *)
Example sample_run :
  map (fun fs => (push_one (push_list fs sample_reassembler) sample_last).1)
    [[]; [sample_last]; [sample_last; sample_last; sample_first]; [sample_first]] =
  [REASSEMBLY_ACCEPTED; REASSEMBLY_DUPLICATE; REASSEMBLY_COMPLETE; REASSEMBLY_COMPLETE].
Proof. reflexivity. Qed.

Lemma sample_reassembler_wf : reassembler_wf sample_reassembler.
Proof. apply init_wf; [lia|cbn; lia|done|by vm_compute]. Qed.

Lemma sample_fragment_ok f :
  f = sample_last \/ f = sample_first ->
  fragment_of sample_msg 4 SPW_VSPW_TP_FLAG_EOP false f.
Proof.
  intros [->| ->]; split; try (by vm_compute); cbn; intros i Hi.
  - assert (i = 0 \/ i = 1) as [->| ->] by lia; done.
  - assert (i = 0 \/ i = 1 \/ i = 2 \/ i = 3) as [->|[->|[->| ->]]] by lia; done.
Qed.

Lemma store_fragment_bytewise_witness :
  store_fragment (store_of (activate sample_reassembler sample_first.1)) 0 4 sample_first.2 =
  Some (store_bytes (store_of (activate sample_reassembler sample_first.1)) 0 4 sample_first.2).
Proof.
  rewrite (store_fragment_bytewise 5); [by vm_compute| |lia..|done].
  apply (activate_store_wf sample_reassembler sample_first.1);
    [apply sample_reassembler_wf|by vm_compute..].
Defined.

Lemma reassembler_invariant_witness :
  total_size (push_one sample_reassembler sample_first).2 <= 8.
Proof.
  apply (reassembler_invariant (push_one sample_reassembler sample_first).2).
  apply reach_push; [|done]. apply (reach_init (replicate 8 7) [99] 8); [lia|lia|done|by vm_compute].
Defined.

Lemma push_functional_witness :
  content_of (push_one sample_reassembler sample_first).2 1 =
    Some (mem_get sample_first.2 1).
Proof.
  destruct (push_functional sample_reassembler sample_first.1 (Some sample_first.2)
              sample_reassembler_wf eq_refl) as [H _].
  by apply (H 1).
Defined.

Lemma reassembly_any_order_witness :
  mem_read (default [] (data (push_one
    (push_list [sample_last; sample_last] sample_reassembler) sample_first).2)) 0 5 = sample_msg.
Proof.
  destruct (reassembly_any_order sample_msg 4 SPW_VSPW_TP_FLAG_EOP false
              sample_reassembler [sample_last; sample_last] sample_first) as (_ & _ & H);
    [apply sample_reassembler_wf|done|done|cbn; lia|cbn; lia| |
     by apply sample_fragment_ok; right|].
  - repeat constructor; apply sample_fragment_ok; by left.
  - apply H. by vm_compute.
Defined.

Lemma reset_clears_coverage_witness :
  coverage (spw_fragment_reassembler_reset (push_one sample_reassembler sample_first).2) =
  Some [0].
Proof.
  apply (reset_clears_coverage (push_one sample_reassembler sample_first).2); [|done].
  by apply push_wf; [apply sample_reassembler_wf|].
Defined.
