(* ===== verification/LinkTiming.v ===== *)
(** * Virtual link timing

    src/src/backends/ethernet/virtual_link_timing.{h,c}: the simulated
    SpaceWire serialisation delay of a packet or time-code, in 64-bit
    unsigned microseconds. *)

From S2P Require Import Prelude VspwTp.

Definition SPW_VIRTUAL_LINK_EVENT_DATA : Z := 0.
Definition SPW_VIRTUAL_LINK_EVENT_TIME_CODE : Z := 1.

Record spw_virtual_link_timing := {
  link_bps : Z;
  latency_us : Z
}.

Definition spw_virtual_link_serialization_us
    (timing : option spw_virtual_link_timing) (event payload_size : Z) : Z :=
  match timing with
  | None => 0
  | Some timing =>
      if link_bps timing =? 0 then 0 else
      let effective_octets :=
        if event =? SPW_VIRTUAL_LINK_EVENT_DATA then u64 (payload_size + 1) else 2 in
      let bit_microseconds := u64 (u64 (effective_octets * 8) * 1000000) in
      let whole := bit_microseconds / link_bps timing in
      u64 (whole + (if negb (bit_microseconds mod link_bps timing =? 0) then 1 else 0))
  end.

Definition spw_virtual_link_delay_us
    (timing : option spw_virtual_link_timing) (event payload_size : Z) : Z :=
  match timing with
  | None => 0
  | Some t =>
      u64 (spw_virtual_link_serialization_us timing event payload_size + latency_us t)
  end.

(** Field ranges of the C struct. *)
Definition timing_in_range (t : spw_virtual_link_timing) : bool :=
  in_width 64 (link_bps t) && in_width 32 (latency_us t).

(** Octets a logical event occupies on the link: the payload and its end
    marker, or the two octets of a time-code. *)
Definition event_octets (event payload_size : Z) : Z :=
  if event =? SPW_VIRTUAL_LINK_EVENT_DATA then payload_size + 1 else 2.

Lemma serialization_eq t event n :
  timing_in_range t = true -> link_bps t <> 0 ->
  0 <= n <= SPW_VSPW_TP_MAX_PACKET_SIZE ->
  let bits := event_octets event n * 8000000 in
  spw_virtual_link_serialization_us (Some t) event n =
    bits / link_bps t + (if negb (bits mod link_bps t =? 0) then 1 else 0) /\
  0 <= bits < 2 ^ 63 /\ 0 < link_bps t.
Proof.
  unfold timing_in_range, in_width, SPW_VSPW_TP_MAX_PACKET_SIZE.
  intros Hr Hne Hn. split_andb. cbn zeta.
  assert (0 <= event_octets event n * 8000000 < 2 ^ 63) as Hb.
  { unfold event_octets. case_if; lia. }
  split_and!; try lia.
  unfold spw_virtual_link_serialization_us.
  replace (link_bps t =? 0) with false by lia.
  assert ((if event =? SPW_VIRTUAL_LINK_EVENT_DATA then u64 (n + 1) else 2) =
          event_octets event n) as ->.
  { unfold event_octets. case_if; [apply wrap_small; lia|done]. }
  rewrite (wrap_small 64 (event_octets event n * 8)) by lia.
  replace (event_octets event n * 8 * 1000000) with (event_octets event n * 8000000) by lia.
  rewrite (wrap_small 64 (event_octets event n * 8000000)) by lia.
  apply wrap_small.
  pose proof (Z.div_pos (event_octets event n * 8000000) (link_bps t)).
  pose proof (Z.div_le_upper_bound (event_octets event n * 8000000) (link_bps t)
    (event_octets event n * 8000000)).
  case_if; nia.
Qed.

(** For every packet the transport can carry (up to 16 MiB) and every
    non-zero bit rate, the serialisation delay is computed without 64-bit
    overflow and is the least whole number of microseconds in which the link
    can carry the event: [t] microseconds are enough and [t - 1] are not. *)
Theorem serialization_is_ceiling t event n :
  timing_in_range t = true -> link_bps t <> 0 ->
  0 <= n <= SPW_VSPW_TP_MAX_PACKET_SIZE ->
  let us := spw_virtual_link_serialization_us (Some t) event n in
  let bits := event_octets event n * 8 in
  0 <= us < 2 ^ 63 + 1 /\
  bits * 1000000 <= us * link_bps t /\
  (us - 1) * link_bps t < bits * 1000000.
Proof.
  intros Hr Hne Hn. cbn zeta.
  destruct (serialization_eq t event n Hr Hne Hn) as (-> & Hb & Hpos).
  set (b := event_octets event n * 8000000) in *.
  assert (event_octets event n * 8 * 1000000 = b) as -> by (unfold b; lia).
  pose proof (Z.div_mod b (link_bps t)).
  pose proof (Z.mod_pos_bound b (link_bps t)).
  assert (0 <= b / link_bps t <= b)
    by (split; [apply Z.div_pos; lia|apply Z.div_le_upper_bound; nia]).
  case_if; split_and!; nia.
Qed.

(** The total delay adds the fixed latency without overflow, does not
    decrease when the payload grows, and is only the latency on a link with
    no bit rate. *)
Lemma delay_monotone t event n m :
  timing_in_range t = true ->
  0 <= n <= m -> m <= SPW_VSPW_TP_MAX_PACKET_SIZE ->
  let d := spw_virtual_link_delay_us (Some t) event in
  d n <= d m /\
  d n = spw_virtual_link_serialization_us (Some t) event n + latency_us t /\
  (link_bps t = 0 -> d n = latency_us t).
Proof.
  intros Hr Hnm Hm. cbn zeta.
  assert (Hl : 0 <= latency_us t < 2 ^ 32)
    by (unfold timing_in_range, in_width in Hr; split_andb; lia).
  unfold spw_virtual_link_delay_us.
  destruct (decide (link_bps t = 0)) as [E|E].
  { unfold spw_virtual_link_serialization_us. rewrite E. cbn.
    rewrite wrap_small by lia. lia. }
  destruct (serialization_eq t event n Hr E) as (-> & Hb & Hpos); [lia|].
  destruct (serialization_eq t event m Hr E) as (-> & Hb' & _); [lia|].
  assert (event_octets event n * 8000000 <= event_octets event m * 8000000) as Hle.
  { unfold event_octets. case_if; lia. }
  generalize dependent (event_octets event n * 8000000). intros a Ha Hle.
  generalize dependent (event_octets event m * 8000000). intros b Hb' Hle.
  pose proof (Z.div_mod a (link_bps t)). pose proof (Z.mod_pos_bound a (link_bps t)).
  pose proof (Z.div_mod b (link_bps t)). pose proof (Z.mod_pos_bound b (link_bps t)).
  assert (a / link_bps t <= b / link_bps t) by (apply Z.div_le_mono; lia).
  assert (0 <= b / link_bps t <= b)
    by (split; [apply Z.div_pos; lia|apply Z.div_le_upper_bound; nia]).
  assert (0 <= a / link_bps t) by (apply Z.div_pos; lia).
  repeat case_if; rewrite !wrap_small by lia; split_and!; try lia; nia.
Qed.

Definition sample_timing : spw_virtual_link_timing :=
  {| link_bps := 100000000; latency_us := 7 |}.

(** 1000 payload octets and the end marker at 100 Mbit/s take 81 us. *)
Lemma serialization_is_ceiling_witness :
  let us := spw_virtual_link_serialization_us (Some sample_timing) 0 1000 in
  us = 81 /\ event_octets 0 1000 * 8 * 1000000 <= us * 100000000.
Proof.
  split; [reflexivity|].
  apply (serialization_is_ceiling sample_timing 0 1000); by vm_compute.
Defined.

Lemma delay_monotone_witness :
  spw_virtual_link_delay_us (Some sample_timing) 0 10 <=
  spw_virtual_link_delay_us (Some sample_timing) 0 1000.
Proof. apply (delay_monotone sample_timing 0 10 1000); by vm_compute. Defined.
