(* ===== verification/Faults.v ===== *)
(** * Deterministic fault injection

    src/src/backends/ethernet/deterministic_faults.{h,c}: the fault rules of
    the UDP backend, each with its own xorshift generator and its own budget
    of events. *)

From S2P Require Import Prelude Types VspwTp.

Record spw_fault_decision := {
  dec_action : Z;
  dec_delay_us : Z
}.

(** The arrays of the C struct have [SPW_UDP_FAULT_RULE_COUNT] elements each
    ([injector_wf] below). *)
Record spw_deterministic_fault_injector := {
  rules : list spw_udp_fault_rule;
  states : list Z;
  injected_counts : list Z;
  seed : Z
}.

Definition is_transport_action (action : Z) : bool :=
  (SPW_UDP_FAULT_ACTION_TRANSPORT_DROP <=? action) &&
  (action <=? SPW_UDP_FAULT_ACTION_TRANSPORT_DELAY).

Definition target_matches (configured actual : Z) : bool :=
  (configured =? SPW_UDP_FAULT_TARGET_ANY) || (configured =? actual).

Definition target_for (type : Z) : Z :=
  if type =? SPW_VSPW_TP_DATA then SPW_UDP_FAULT_TARGET_DATA else
  if type =? SPW_VSPW_TP_TIME_CODE then SPW_UDP_FAULT_TARGET_TIME_CODE else
  if type =? SPW_VSPW_TP_ACK then SPW_UDP_FAULT_TARGET_ACK else
  if (type =? SPW_VSPW_TP_KEEPALIVE) || (type =? SPW_VSPW_TP_LINK_CONTROL)
  then SPW_UDP_FAULT_TARGET_KEEPALIVE
  else SPW_UDP_FAULT_TARGET_ANY.

Definition spw_fault_rule_valid (rule : option spw_udp_fault_rule) : bool :=
  match rule with
  | None => false
  | Some rule =>
      if negb (rule_reserved rule =? 0) ||
         (SPW_UDP_FAULT_PROBABILITY_SCALE <? probability_per_10000 rule) ||
         (SPW_UDP_FAULT_TARGET_KEEPALIVE <? target rule) ||
         (SPW_UDP_FAULT_ACTION_SPACEWIRE_EEP <? action rule) then false else
      if action rule =? SPW_UDP_FAULT_ACTION_NONE then
        (target rule =? SPW_UDP_FAULT_TARGET_ANY) &&
        (probability_per_10000 rule =? 0) && (max_events rule =? 0) &&
        (rule_delay_us rule =? 0) else
      if probability_per_10000 rule =? 0 then false else
      if action rule =? SPW_UDP_FAULT_ACTION_TRANSPORT_DELAY
      then negb (rule_delay_us rule =? 0) else
      if negb (rule_delay_us rule =? 0) then false else
      if action rule =? SPW_UDP_FAULT_ACTION_SPACEWIRE_EEP
      then target rule =? SPW_UDP_FAULT_TARGET_DATA else
      true
  end.

(** The generator state the reset loop stores for rule [i]. *)
Definition initial_state (seed : Z) (i : nat) : Z :=
  let state := seed .^ u64 (0x9e3779b97f4a7c15 * (Z.of_nat i + 1)) in
  if state =? 0 then u64 (0xd1b54a32d192ed03 + Z.of_nat i) else state.

Definition spw_fault_injector_reset (inj : spw_deterministic_fault_injector)
    : spw_deterministic_fault_injector :=
  {| rules := rules inj;
     states := initial_state (seed inj) <$> seq 0 SPW_UDP_FAULT_RULE_COUNT;
     injected_counts := replicate SPW_UDP_FAULT_RULE_COUNT 0;
     seed := seed inj |}.

Definition spw_fault_injector_init (config : spw_udp_config)
    : spw_deterministic_fault_injector :=
  spw_fault_injector_reset
    {| rules := fault_rules config;
       states := replicate SPW_UDP_FAULT_RULE_COUNT 0;
       injected_counts := replicate SPW_UDP_FAULT_RULE_COUNT 0;
       seed := fault_seed config |}.

Definition rule_at (inj : spw_deterministic_fault_injector) (i : nat) : spw_udp_fault_rule :=
  default SPW_UDP_FAULT_RULE_INITIALIZER (rules inj !! i).

Definition exhausted (inj : spw_deterministic_fault_injector) (index : nat)
    (rule : spw_udp_fault_rule) : bool :=
  negb (max_events rule =? 0) && (max_events rule <=? mem_get (injected_counts inj) index).

(** One xorshift64 step on the 64-bit state. *)
Definition xorshift (x : Z) : Z :=
  let x := x .^ u64 (x ≪ 13) in
  let x := x .^ (x ≫ 7) in
  x .^ u64 (x ≪ 17).

Definition set_state (inj : spw_deterministic_fault_injector) (i : nat) (x : Z)
    : spw_deterministic_fault_injector :=
  {| rules := rules inj; states := <[i := x]> (states inj);
     injected_counts := injected_counts inj; seed := seed inj |}.

Definition fires (inj : spw_deterministic_fault_injector) (index : nat)
    (rule : spw_udp_fault_rule) : bool * spw_deterministic_fault_injector :=
  let x := xorshift (mem_get (states inj) index) in
  let inj := set_state inj index x in
  if SPW_UDP_FAULT_PROBABILITY_SCALE <=? probability_per_10000 rule then (true, inj)
  else (x mod SPW_UDP_FAULT_PROBABILITY_SCALE <? probability_per_10000 rule, inj).

Definition count_event (inj : spw_deterministic_fault_injector) (i : nat)
    : spw_deterministic_fault_injector :=
  {| rules := rules inj; states := states inj;
     injected_counts :=
       <[i := u32 (mem_get (injected_counts inj) i + 1)]> (injected_counts inj);
     seed := seed inj |}.

(** The rule loop shared by the two entry points, from index [i] on with
    [todo] rules to go: the first eligible rule that fires ends the loop. *)
Fixpoint fault_loop (eligible : spw_udp_fault_rule -> bool) (todo i : nat)
    (inj : spw_deterministic_fault_injector)
    : option spw_udp_fault_rule * spw_deterministic_fault_injector :=
  match todo with
  | O => (None, inj)
  | S todo =>
      let rule := rule_at inj i in
      if negb (eligible rule) || exhausted inj i rule
      then fault_loop eligible todo (S i) inj
      else
        let '(hit, inj) := fires inj i rule in
        if hit then (Some rule, count_event inj i)
        else fault_loop eligible todo (S i) inj
  end.

Definition transport_eligible (type : Z) (rule : spw_udp_fault_rule) : bool :=
  is_transport_action (action rule) && target_matches (target rule) (target_for type).

Definition eep_eligible (rule : spw_udp_fault_rule) : bool :=
  (action rule =? SPW_UDP_FAULT_ACTION_SPACEWIRE_EEP) &&
  target_matches (target rule) SPW_UDP_FAULT_TARGET_DATA.

Definition spw_fault_inject_transport (inj : spw_deterministic_fault_injector) (type : Z)
    : spw_fault_decision * spw_deterministic_fault_injector :=
  match fault_loop (transport_eligible type) SPW_UDP_FAULT_RULE_COUNT 0 inj with
  | (Some rule, inj) =>
      ({| dec_action := action rule; dec_delay_us := rule_delay_us rule |}, inj)
  | (None, inj) =>
      ({| dec_action := SPW_UDP_FAULT_ACTION_NONE; dec_delay_us := 0 |}, inj)
  end.

Definition spw_fault_inject_spacewire_eep (inj : spw_deterministic_fault_injector)
    : bool * spw_deterministic_fault_injector :=
  match fault_loop eep_eligible SPW_UDP_FAULT_RULE_COUNT 0 inj with
  | (Some _, inj) => (true, inj)
  | (None, inj) => (false, inj)
  end.

(** ** Well-formed injectors *)

(** Eight non-zero 64-bit generator states, eight counters, none of them above
    a limited rule's budget. *)
Record injector_wf (inj : spw_deterministic_fault_injector) : Prop := {
  wf_rules : length (rules inj) = SPW_UDP_FAULT_RULE_COUNT;
  wf_states : length (states inj) = SPW_UDP_FAULT_RULE_COUNT;
  wf_counts : length (injected_counts inj) = SPW_UDP_FAULT_RULE_COUNT;
  wf_limits : Forall (fun r => 0 <= max_events r < 2 ^ 32) (rules inj);
  wf_nonzero : forall i, (i < SPW_UDP_FAULT_RULE_COUNT)%nat ->
    0 < mem_get (states inj) i < 2 ^ 64;
  wf_budget : forall i, (i < SPW_UDP_FAULT_RULE_COUNT)%nat ->
    0 <= mem_get (injected_counts inj) i < 2 ^ 32 /\
    (max_events (rule_at inj i) <> 0 ->
     mem_get (injected_counts inj) i <= max_events (rule_at inj i))
}.

(** ** The generator never sticks at zero *)

Lemma lxor_bound w a b :
  0 <= w -> 0 <= a < 2 ^ w -> 0 <= b < 2 ^ w -> 0 <= a .^ b < 2 ^ w.
Proof.
  intros Hw Ha Hb. split; [apply Z.lxor_nonneg; lia|].
  destruct (decide (a .^ b = 0)) as [->|Hne]; [lia|].
  assert (0 <= a .^ b) by (apply Z.lxor_nonneg; lia).
  apply Z.log2_lt_pow2; [lia|].
  pose proof (Z.log2_lxor a b).
  assert (forall z, 0 <= z < 2 ^ w -> z <> 0 -> Z.log2 z < w) as Hl
    by (intros z Hz Hz0; apply Z.log2_lt_pow2; lia).
  destruct (decide (a = 0)) as [->|]; [rewrite Z.lxor_0_l in *; apply Hl; lia|].
  destruct (decide (b = 0)) as [->|]; [rewrite Z.lxor_0_r in *; apply Hl; lia|].
  pose proof (Hl a Ha ltac:(done)). pose proof (Hl b Hb ltac:(done)). lia.
Qed.

Lemma xor_shiftl_zero k x :
  0 < k -> 0 <= x < 2 ^ 64 -> x .^ u64 (x ≪ k) = 0 -> x = 0.
Proof.
  intros Hk Hx Hxor. apply Z.lxor_eq in Hxor.
  assert (forall i, 0 <= i -> Z.testbit x i = false) as H.
  { intros i Hi. pattern i. apply Zlt_0_ind; [|exact Hi]. clear i Hi. intros i IH Hi.
    rewrite Hxor. unfold wrap.
    destruct (decide (i < 64)).
    - rewrite Z.mod_pow2_bits_low, Z.shiftl_spec by lia.
      destruct (decide (i < k)); [apply Z.testbit_neg_r; lia|apply IH; lia].
    - apply Z.mod_pow2_bits_high; lia. }
  apply Z.bits_inj_0. intros i.
  destruct (decide (i < 0)); [by apply Z.testbit_neg_r|apply H; lia].
Qed.

Lemma xor_shiftr_zero k x :
  0 < k -> 0 <= x < 2 ^ 64 -> x .^ (x ≫ k) = 0 -> x = 0.
Proof.
  intros Hk Hx Hxor. apply Z.lxor_eq in Hxor.
  assert (forall j, 0 <= j -> j <= 64 -> Z.testbit x (64 - j) = false) as H.
  { intros j Hj. pattern j. apply Zlt_0_ind; [|exact Hj]. clear j Hj. intros j IH Hj H64.
    rewrite Hxor, Z.shiftr_spec by lia.
    destruct (decide (j < k)).
    - rewrite <- (Z.mod_small x (2 ^ 64)) by lia. apply Z.mod_pow2_bits_high; lia.
    - replace (64 - j + k) with (64 - (j - k)) by lia. apply IH; lia. }
  apply Z.bits_inj_0. intros i.
  destruct (decide (i < 0)); [by apply Z.testbit_neg_r|].
  destruct (decide (i < 64)).
  - replace i with (64 - (64 - i)) by lia. apply H; lia.
  - rewrite <- (Z.mod_small x (2 ^ 64)) by lia. apply Z.mod_pow2_bits_high; lia.
Qed.

Lemma xorshift_nonzero x : 0 < x < 2 ^ 64 -> 0 < xorshift x < 2 ^ 64.
Proof.
  intros Hx. unfold xorshift.
  assert (forall k y, 0 < k -> 0 < y < 2 ^ 64 -> 0 < y .^ u64 (y ≪ k) < 2 ^ 64) as Hl.
  { intros k y Hk Hy. pose proof (lxor_bound 64 y (u64 (y ≪ k)) ltac:(lia) ltac:(lia)
      (wrap_bounds 64 _ ltac:(lia))).
    pose proof (xor_shiftl_zero k y Hk ltac:(lia)). lia. }
  apply Hl; [lia|]. specialize (Hl 13 x ltac:(lia) Hx).
  set (y := x .^ u64 (x ≪ 13)) in *.
  assert (0 <= y ≫ 7 < 2 ^ 64) as Hr.
  { rewrite Z.shiftr_div_pow2 by lia. split; [apply Z.div_pos; lia|].
    apply Z.div_lt_upper_bound; lia. }
  pose proof (lxor_bound 64 y (y ≫ 7) ltac:(lia) ltac:(lia) Hr).
  pose proof (xor_shiftr_zero 7 y ltac:(lia) ltac:(lia)). lia.
Qed.

(** ** The rule loop against its specification *)

(** A rule takes part in an event when it is eligible and has budget left;
    its draw hits when the next generator value is under its probability. *)
Definition active_rule (eligible : spw_udp_fault_rule -> bool)
    (inj : spw_deterministic_fault_injector) (i : nat) : bool :=
  eligible (rule_at inj i) && negb (exhausted inj i (rule_at inj i)).

Definition draw_hits (inj : spw_deterministic_fault_injector) (i : nat) : bool :=
  let p := probability_per_10000 (rule_at inj i) in
  (SPW_UDP_FAULT_PROBABILITY_SCALE <=? p) ||
  (xorshift (mem_get (states inj) i) mod SPW_UDP_FAULT_PROBABILITY_SCALE <? p).

(** The first rule in array order that takes part and hits. *)
Definition first_hit (eligible : spw_udp_fault_rule -> bool)
    (inj : spw_deterministic_fault_injector) (ixs : list nat) : option nat :=
  find (fun i => active_rule eligible inj i && draw_hits inj i) ixs.

(** What one event does: the rules that take part, up to the one that fires,
    advance their generators; the one that fires counts the event. *)
Record fault_step (eligible : spw_udp_fault_rule -> bool) (i todo : nat)
    (inj : spw_deterministic_fault_injector) (fired : option spw_udp_fault_rule)
    (inj' : spw_deterministic_fault_injector) : Prop := {
  step_rules : rules inj' = rules inj;
  step_seed : seed inj' = seed inj;
  step_fired : fired = rule_at inj <$> first_hit eligible inj (seq i todo);
  step_counts : injected_counts inj' =
    match first_hit eligible inj (seq i todo) with
    | Some k => <[k := u32 (mem_get (injected_counts inj) k + 1)]> (injected_counts inj)
    | None => injected_counts inj
    end;
  step_len : length (states inj') = length (states inj);
  step_states : forall k, (k < length (states inj))%nat ->
    mem_get (states inj') k =
      if decide (i <= k < i + todo)%nat then
        if active_rule eligible inj k &&
           match first_hit eligible inj (seq i todo) with
           | Some h => (k <=? h)%nat
           | None => true
           end
        then xorshift (mem_get (states inj) k) else mem_get (states inj) k
      else mem_get (states inj) k
}.

Lemma first_hit_cons eligible inj i todo :
  first_hit eligible inj (seq i (S todo)) =
    if active_rule eligible inj i && draw_hits inj i then Some i
    else first_hit eligible inj (seq (S i) todo).
Proof. done. Qed.

Lemma first_hit_range eligible inj i todo k :
  first_hit eligible inj (seq i todo) = Some k ->
  (i <= k < i + todo)%nat /\ active_rule eligible inj k = true /\ draw_hits inj k = true.
Proof.
  intros H. apply find_some in H as [Hin H].
  apply in_seq in Hin. apply andb_prop in H. done.
Qed.

Lemma fires_eq inj i :
  fires inj i (rule_at inj i) =
    (draw_hits inj i, set_state inj i (xorshift (mem_get (states inj) i))).
Proof. unfold fires, draw_hits. by destruct (SPW_UDP_FAULT_PROBABILITY_SCALE <=? _). Qed.

Lemma mem_get_insert (l : list Z) i k x : (i < length l)%nat ->
  mem_get (<[i := x]> l) k = if decide (k = i) then x else mem_get l k.
Proof.
  intros Hi. unfold mem_get. destruct (decide (k = i)) as [->|].
  - by rewrite list_lookup_insert_eq.
  - by rewrite list_lookup_insert_ne.
Qed.

(** Advancing the generator of an earlier rule leaves the later ones alone. *)
Lemma first_hit_set_state eligible inj i x j todo : (i < j)%nat ->
  (i < length (states inj))%nat ->
  first_hit eligible (set_state inj i x) (seq j todo) = first_hit eligible inj (seq j todo).
Proof.
  intros Hij Hi. revert j Hij. induction todo as [|todo IH]; intros j Hij; [done|].
  rewrite !first_hit_cons, IH by lia.
  replace (draw_hits (set_state inj i x) j) with (draw_hits inj j); [done|].
  unfold draw_hits. cbn [set_state states]. rewrite mem_get_insert by done.
  by rewrite decide_False by lia.
Qed.

Lemma fault_loop_step eligible todo : forall i inj,
  (i + todo <= length (states inj))%nat ->
  let '(fired, inj') := fault_loop eligible todo i inj in
  fault_step eligible i todo inj fired inj'.
Proof.
  induction todo as [|todo IH]; intros i inj Hlen.
  { cbn. constructor; try done. intros k Hk. by rewrite decide_False by lia. }
  cbn [fault_loop].
  assert (negb (eligible (rule_at inj i)) || exhausted inj i (rule_at inj i) =
          negb (active_rule eligible inj i)) as ->.
  { unfold active_rule. by rewrite negb_andb, negb_involutive. }
  destruct (active_rule eligible inj i) eqn:Ha; cbn [negb].
  2:{ specialize (IH (S i) inj ltac:(lia)).
      destruct (fault_loop eligible todo (S i) inj) as [fired inj'].
      destruct IH as [? ? Hf Hc ? Hs]. constructor; try done;
        rewrite ?first_hit_cons, ?Ha; cbn [andb]; try done.
      intros k Hk. rewrite Hs by done.
      destruct (decide (k = i)) as [->|].
      - rewrite decide_False, decide_True by lia. by rewrite Ha.
      - repeat case_decide; try lia; done. }
  rewrite fires_eq. destruct (draw_hits inj i) eqn:Hd.
  { constructor; try done; rewrite ?first_hit_cons, ?Ha, ?Hd; cbn [andb]; try done.
    - cbn. by rewrite length_insert.
    - intros k Hk. cbn [count_event set_state states]. rewrite mem_get_insert by lia.
      destruct (decide (k = i)) as [->|].
      + rewrite decide_True by lia. by rewrite Ha, Nat.leb_refl.
      + case_decide; [|done]. rewrite (proj2 (Nat.leb_gt k i)) by lia.
        by rewrite andb_false_r. }
  specialize (IH (S i) (set_state inj i (xorshift (mem_get (states inj) i)))).
  destruct (fault_loop eligible todo (S i) _) as [fired inj'].
  destruct IH as [? ? Hf Hc Hl Hs]; [cbn; rewrite length_insert; lia|].
  rewrite first_hit_set_state in Hf, Hc, Hs by lia.
  cbn [set_state states] in Hl, Hs. rewrite length_insert in Hl, Hs.
  constructor; try done; rewrite ?first_hit_cons, ?Ha, ?Hd; cbn [andb]; try done.
  intros k Hk. rewrite Hs by done. rewrite mem_get_insert by lia.
  destruct (decide (k = i)) as [->|].
  - rewrite decide_False, decide_True by lia. rewrite Ha. cbn [andb].
    destruct (first_hit eligible inj (seq (S i) todo)) as [h|] eqn:Hh; [|done].
    apply first_hit_range in Hh. by rewrite (proj2 (Nat.leb_le i h)) by lia.
  - repeat case_decide; try lia; done.
Qed.

Lemma fault_step_wf eligible inj fired inj' :
  injector_wf inj -> fault_step eligible 0 SPW_UDP_FAULT_RULE_COUNT inj fired inj' ->
  injector_wf inj'.
Proof.
  intros [Hr Hs Hc Hlim Hnz Hb] [Er Es Ef Ec El Est].
  assert (forall i, rule_at inj' i = rule_at inj i) as Hrule
    by (intros i; unfold rule_at; by rewrite Er).
  constructor; rewrite ?Er, ?El; try done.
  - rewrite Ec. case_match; rewrite ?length_insert; done.
  - intros i Hi. rewrite Est by (rewrite Hs; lia).
    pose proof (Hnz i Hi). repeat case_match; first [done|by apply xorshift_nonzero].
  - intros i Hi. rewrite Hrule. pose proof (Hb i Hi) as [Hb1 Hb2]. rewrite Ec.
    destruct (first_hit _ _ _) as [h|] eqn:Hh; [|done].
    apply first_hit_range in Hh as (Hh & Ha & _).
    rewrite mem_get_insert by lia. case_decide as E; [subst h|done].
    pose proof (wrap_bounds 32 (mem_get (injected_counts inj) i + 1) ltac:(lia)).
    split; [done|]. intros Hm. unfold active_rule in Ha.
    apply andb_prop in Ha as [_ Ha]. unfold exhausted in Ha.
    assert (0 <= max_events (rule_at inj i) < 2 ^ 32) as Hmax.
    { unfold rule_at in *. destruct (lookup_lt_is_Some_2 (rules inj) i) as [r Er'];
        [by rewrite Hr|]. rewrite Er' in *. cbn [default from_option id] in *.
      by apply (Forall_lookup_1 _ _ _ _ Hlim Er'). }
    rewrite wrap_small by lia. lia.
Qed.

(** ** Runs *)

Inductive fault_event :=
| EvTransport (type : Z)
| EvEep
| EvReset.

Definition fault_event_apply (inj : spw_deterministic_fault_injector) (e : fault_event)
    : spw_deterministic_fault_injector :=
  match e with
  | EvTransport type => (spw_fault_inject_transport inj type).2
  | EvEep => (spw_fault_inject_spacewire_eep inj).2
  | EvReset => spw_fault_injector_reset inj
  end.

Definition fault_run (inj : spw_deterministic_fault_injector) (es : list fault_event)
    : spw_deterministic_fault_injector := fold_left fault_event_apply es inj.

(** A configuration as the C struct holds it: eight rules, fields in range. *)
Definition fault_config_ok (config : spw_udp_config) : Prop :=
  length (fault_rules config) = SPW_UDP_FAULT_RULE_COUNT /\
  Forall (fun r => 0 <= max_events r < 2 ^ 32) (fault_rules config) /\
  0 <= fault_seed config < 2 ^ 64.

Lemma initial_state_nonzero s i : (i < SPW_UDP_FAULT_RULE_COUNT)%nat ->
  0 <= s < 2 ^ 64 -> 0 < initial_state s i < 2 ^ 64.
Proof.
  intros Hi Hs. unfold initial_state, SPW_UDP_FAULT_RULE_COUNT in *. cbn zeta.
  pose proof (lxor_bound 64 s (u64 (0x9e3779b97f4a7c15 * (Z.of_nat i + 1)))
    ltac:(lia) Hs (wrap_bounds 64 _ ltac:(lia))).
  case_if; [rewrite wrap_small by lia|]; lia.
Qed.

Lemma injector_reset_wf inj :
  length (rules inj) = SPW_UDP_FAULT_RULE_COUNT ->
  Forall (fun r => 0 <= max_events r < 2 ^ 32) (rules inj) ->
  0 <= seed inj < 2 ^ 64 -> injector_wf (spw_fault_injector_reset inj).
Proof.
  intros Hr Hl Hs. constructor; cbn [spw_fault_injector_reset rules states injected_counts];
    try done.
  - intros i Hi. unfold mem_get. rewrite list_lookup_fmap, lookup_seq_lt by done.
    by apply initial_state_nonzero.
  - intros i Hi. rewrite mem_get_replicate. split; [lia|]. intros _.
    unfold rule_at. cbn [spw_fault_injector_reset rules].
    destruct (rules inj !! i) as [r|] eqn:E; cbn; [|lia].
    apply (Forall_lookup_1 _ _ _ _ Hl E).
Qed.

Lemma fault_event_step inj e : injector_wf inj -> 0 <= seed inj < 2 ^ 64 ->
  injector_wf (fault_event_apply inj e) /\
  rules (fault_event_apply inj e) = rules inj /\ seed (fault_event_apply inj e) = seed inj.
Proof.
  intros Hwf Hs. pose proof Hwf as [Hr Hst _ Hl _ _].
  assert ((0 + SPW_UDP_FAULT_RULE_COUNT <= length (states inj))%nat) as Hlen
    by (rewrite Hst; done).
  destruct e as [type| |]; cbn [fault_event_apply].
  - unfold spw_fault_inject_transport.
    pose proof (fault_loop_step (transport_eligible type) _ 0 inj Hlen) as H.
    destruct (fault_loop _ _ _ _) as [[r|] inj']; cbn [snd];
      pose proof (fault_step_wf _ _ _ _ Hwf H); destruct H; done.
  - unfold spw_fault_inject_spacewire_eep.
    pose proof (fault_loop_step eep_eligible _ 0 inj Hlen) as H.
    destruct (fault_loop _ _ _ _) as [[r|] inj']; cbn [snd];
      pose proof (fault_step_wf _ _ _ _ Hwf H); destruct H; done.
  - split; [by apply injector_reset_wf|done].
Qed.

Lemma fault_run_invariant es : forall inj, injector_wf inj -> 0 <= seed inj < 2 ^ 64 ->
  injector_wf (fault_run inj es) /\
  rules (fault_run inj es) = rules inj /\ seed (fault_run inj es) = seed inj.
Proof.
  induction es as [|e es IH]; intros inj Hwf Hs; [done|].
  destruct (fault_event_step inj e Hwf Hs) as (Hwf' & Er & Es).
  destruct (IH _ Hwf') as (? & ? & ?); [by rewrite Es|].
  unfold fault_run in *. cbn [fold_left]. split; [done|]. by split; congruence.
Qed.

(** From any configuration and any seed, through any sequence of carrier
    events, EEP draws and resets: every generator state stays a non-zero
    64-bit number, no limited rule has fired more often than its budget, and a
    reset brings back exactly the initial injector, so the fault sequence of a
    session is reproducible from its seed. *)
Theorem fault_run_sound config es :
  fault_config_ok config ->
  let inj := fault_run (spw_fault_injector_init config) es in
  injector_wf inj /\ spw_fault_injector_reset inj = spw_fault_injector_init config.
Proof.
  intros (Hr & Hl & Hs). cbn zeta.
  destruct (fault_run_invariant es (spw_fault_injector_init config))
    as (Hwf & Er & Es); [by apply injector_reset_wf|done|].
  split; [done|]. unfold spw_fault_injector_init, spw_fault_injector_reset in *.
  cbn [rules seed] in *. by rewrite Er, Es.
Qed.

(** One carrier event takes the first rule, in array order, that is a
    transport action for this kind of datagram, has budget left and whose draw
    hits; the decision is that rule's action and delay, only that rule counts
    the event, exactly the rules that took part up to it advanced their
    generators, and with no such rule the event passes unharmed. *)
Theorem inject_transport_first_hit inj type :
  injector_wf inj ->
  let '(d, inj') := spw_fault_inject_transport inj type in
  exists fired,
    fault_step (transport_eligible type) 0 SPW_UDP_FAULT_RULE_COUNT inj fired inj' /\
    match fired with
    | Some r => d = {| dec_action := action r; dec_delay_us := rule_delay_us r |} /\
                is_transport_action (dec_action d) = true /\
                target_matches (target r) (target_for type) = true
    | None => dec_action d = SPW_UDP_FAULT_ACTION_NONE /\
              injected_counts inj' = injected_counts inj
    end.
Proof.
  intros Hwf. unfold spw_fault_inject_transport.
  pose proof (fault_loop_step (transport_eligible type) SPW_UDP_FAULT_RULE_COUNT 0 inj) as H.
  destruct (fault_loop _ _ _ _) as [fired inj'].
  specialize (H ltac:(by rewrite (wf_states _ Hwf))).
  pose proof H as [_ _ Hf Hc _ _].
  destruct fired as [r|]; (eexists; split; [exact H|]).
  - destruct (first_hit _ _ _) as [k|] eqn:Hk; [|done]. cbn in Hf. injection Hf as ->.
    apply first_hit_range in Hk as (_ & Ha & _). unfold active_rule in Ha.
    apply andb_prop in Ha as [Ha _]. apply andb_prop in Ha. done.
  - destruct (first_hit _ _ _); done.
Qed.

Definition sample_drop_rule : spw_udp_fault_rule :=
  {| action := SPW_UDP_FAULT_ACTION_TRANSPORT_DROP; target := SPW_UDP_FAULT_TARGET_DATA;
     probability_per_10000 := 10000; max_events := 1; rule_delay_us := 0;
     rule_reserved := 0 |}.

Definition sample_udp_config : spw_udp_config :=
  {| udp_struct_size := 768; udp_version := 3; local_address := [49]; local_port := 1;
     remote_address := [49]; remote_port := 2; udp_link_id := 1;
     fragment_payload_size := 1200; max_retries := 5; ack_timeout_ms := 100;
     keepalive_interval_ms := 1000; peer_timeout_ms := 3000; virtual_link_bps := 0;
     virtual_latency_us := 0; fault_seed := 0x9e3779b97f4a7c15;
     fault_rules := sample_drop_rule :: replicate 7 SPW_UDP_FAULT_RULE_INITIALIZER;
     udp_reserved := 0 |}.

Lemma sample_config_ok : fault_config_ok sample_udp_config.
Proof. split_and!; [done|repeat constructor; cbn; lia|cbn; lia..]. Qed.

(** The seed cancels the first generator's constant: the zero state is
    replaced. *)
Lemma fault_run_sound_witness :
  let inj := fault_run (spw_fault_injector_init sample_udp_config)
               [EvTransport SPW_VSPW_TP_DATA; EvEep; EvTransport SPW_VSPW_TP_DATA] in
  mem_get (injected_counts inj) 0 = 1 /\ injector_wf inj.
Proof.
  split; [by vm_compute|].
  apply (fault_run_sound sample_udp_config _ sample_config_ok).
Defined.

Lemma inject_transport_first_hit_witness :
  let inj := spw_fault_injector_init sample_udp_config in
  (spw_fault_inject_transport inj SPW_VSPW_TP_DATA).1 =
    {| dec_action := SPW_UDP_FAULT_ACTION_TRANSPORT_DROP; dec_delay_us := 0 |} /\
  let '(d, inj') := spw_fault_inject_transport inj SPW_VSPW_TP_DATA in
  exists fired, fault_step (transport_eligible SPW_VSPW_TP_DATA) 0
                  SPW_UDP_FAULT_RULE_COUNT inj fired inj'.
Proof.
  split; [by vm_compute|].
  pose proof (inject_transport_first_hit (spw_fault_injector_init sample_udp_config)
    SPW_VSPW_TP_DATA) as H.
  destruct (spw_fault_inject_transport _ _) as [d inj'].
  destruct H as (fired & H & _); [|by exists fired].
  apply injector_reset_wf; apply sample_config_ok.
Defined.
