(* ===== verification/Ring.v ===== *)
(** * Bounded ring buffers

    The loopback backend, the simulator and the vspwd server all keep their
    queues as an array with a head index, a tail index and a count.  This file
    holds the shared array operations, their invariant, and the refinement of a
    ring to the FIFO list of its elements. *)

From S2P Require Import Prelude.

Record ring (A : Type) := Ring {
  r_slots : list A;
  r_head : nat;
  r_tail : nat;
  r_count : nat
}.
Arguments Ring {A} _ _ _ _.
Arguments r_slots {A} _.
Arguments r_head {A} _.
Arguments r_tail {A} _.
Arguments r_count {A} _.

Lemma mod_wrap_once a d : (a < 2 * d)%nat ->
  (a mod d)%nat = if decide (a < d)%nat then a else (a - d)%nat.
Proof.
  intros H. case_decide; [by apply Nat.mod_small|].
  replace a with ((a - d) + 1 * d)%nat at 1 by lia.
  rewrite Nat.Div0.mod_add. apply Nat.mod_small. lia.
Qed.

Section ring.
Context {A : Type} `{!Inhabited A}.
Implicit Types (r : ring A) (a : A).

(** The queue after memset to zero: [depth] copies of the zero element. *)
Definition ring_empty (depth : nat) (zero : A) : ring A :=
  Ring (replicate depth zero) 0 0 0.

Definition ring_depth r : nat := length (r_slots r).
Definition ring_at r (i : nat) : A := r_slots r !!! i.
Definition ring_full r : bool := Nat.eqb (r_count r) (ring_depth r).
Definition ring_is_empty r : bool := Nat.eqb (r_count r) 0.

(** [slots[tail] = a; tail = (tail + 1) % depth; ++count;] *)
Definition ring_push r a : ring A :=
  Ring (<[r_tail r := a]> (r_slots r)) (r_head r)
    ((r_tail r + 1) mod ring_depth r)%nat (r_count r + 1).

(** [head = (head + 1) % depth; --count;] *)
Definition ring_pop r : ring A :=
  Ring (r_slots r) ((r_head r + 1) mod ring_depth r)%nat (r_tail r) (r_count r - 1).

Definition ring_front r : A := ring_at r (r_head r).

(** Assignments to fields of [slots[head]]. *)
Definition ring_set_front r a : ring A :=
  Ring (<[r_head r := a]> (r_slots r)) (r_head r) (r_tail r) (r_count r).

(** [head = 0; tail = 0; count = 0;] *)
Definition ring_clear r : ring A := Ring (r_slots r) 0 0 0.

Record ring_wf (depth : nat) r : Prop := {
  ring_len : ring_depth r = depth;
  ring_pos : (0 < depth)%nat;
  ring_head_lt : (r_head r < depth)%nat;
  ring_count_le : (r_count r <= depth)%nat;
  ring_tail_eq : r_tail r = ((r_head r + r_count r) mod depth)%nat
}.

(** The elements in arrival order. *)
Definition ring_list r : list A :=
  (fun k => ring_at r ((r_head r + k) mod ring_depth r)%nat) <$> seq 0 (r_count r).

Lemma ring_empty_wf depth zero : (0 < depth)%nat -> ring_wf depth (ring_empty depth zero).
Proof.
  intros H. split; cbn; try lia.
  - apply length_replicate.
  - by rewrite Nat.Div0.mod_0_l.
Qed.

Lemma ring_list_empty depth zero : ring_list (ring_empty depth zero) = [].
Proof. done. Qed.

Lemma length_ring_list r : length (ring_list r) = r_count r.
Proof. unfold ring_list. by rewrite length_fmap, length_seq. Qed.

Lemma ring_push_wf depth r a :
  ring_wf depth r -> (r_count r < depth)%nat -> ring_wf depth (ring_push r a).
Proof.
  intros [Hl Hp Hh Hc Ht] Hlt. unfold ring_push. split; cbn; try lia.
  - unfold ring_depth in *. cbn. by rewrite length_insert.
  - rewrite Hl, Ht, Nat.Div0.add_mod_idemp_l. f_equal. lia.
Qed.

(** The slot written by a push is none of the occupied ones. *)
Lemma ring_tail_fresh depth r k :
  ring_wf depth r -> (k < r_count r)%nat -> (r_count r < depth)%nat ->
  ((r_head r + k) mod depth)%nat <> r_tail r.
Proof.
  intros [Hl Hp Hh Hc Ht] Hk Hlt. rewrite Ht. intros E.
  rewrite !mod_wrap_once in E by lia. repeat case_decide; lia.
Qed.

Lemma ring_tail_lt depth r : ring_wf depth r -> (r_tail r < depth)%nat.
Proof. intros [Hl Hp Hh Hc Ht]. rewrite Ht. apply Nat.mod_upper_bound. lia. Qed.

Lemma ring_list_push depth r a :
  ring_wf depth r -> (r_count r < depth)%nat ->
  ring_list (ring_push r a) = ring_list r ++ [a].
Proof.
  intros Hwf Hlt. pose proof Hwf as [Hl Hp Hh Hc Ht].
  pose proof (ring_tail_lt depth r Hwf) as Htl.
  unfold ring_list, ring_push, ring_at. cbn [r_count r_head r_slots].
  unfold ring_depth in *. cbn [r_slots]. rewrite length_insert.
  rewrite Nat.add_1_r, seq_S, fmap_app. cbn [Nat.add]. f_equal.
  - apply list_fmap_ext. intros i k Hk. apply lookup_seq in Hk as [-> Hk].
    rewrite list_lookup_total_insert_ne; [done|].
    rewrite Hl. apply not_eq_sym. by apply ring_tail_fresh.
  - cbn. rewrite Hl. f_equal. rewrite <- Ht.
    rewrite list_lookup_total_insert_eq by (by rewrite Hl). done.
Qed.

Lemma ring_list_front r depth : ring_wf depth r -> (0 < r_count r)%nat ->
  ring_list r = ring_front r :: ring_list (ring_pop r).
Proof.
  intros [Hl Hp Hh Hc Ht] Hpos. unfold ring_list, ring_front, ring_pop, ring_at.
  cbn [r_count r_head r_slots]. unfold ring_depth in *. cbn [r_slots].
  destruct (r_count r) as [|c] eqn:Ec; [lia|].
  replace (S c - 1)%nat with c by lia. cbn [seq]. rewrite fmap_cons. f_equal.
  - rewrite Nat.add_0_r, Nat.mod_small by lia. done.
  - rewrite <- fmap_S_seq, <- list_fmap_compose. apply list_fmap_ext. intros i k _.
    cbn. rewrite Nat.Div0.add_mod_idemp_l. do 2 f_equal. lia.
Qed.

Lemma ring_pop_wf depth r :
  ring_wf depth r -> (0 < r_count r)%nat -> ring_wf depth (ring_pop r).
Proof.
  intros [Hl Hp Hh Hc Ht] Hpos. unfold ring_pop. split; cbn; try done; try lia.
  - rewrite Hl. apply Nat.mod_upper_bound. lia.
  - rewrite Ht, Hl, Nat.Div0.add_mod_idemp_l. f_equal. lia.
Qed.

Lemma ring_list_nil r : ring_list r = [] <-> r_count r = 0%nat.
Proof. rewrite <- length_zero_iff_nil, length_ring_list. done. Qed.

Lemma ring_list_cons r depth x l : ring_wf depth r -> ring_list r = x :: l ->
  ring_front r = x /\ ring_list (ring_pop r) = l /\ ring_wf depth (ring_pop r).
Proof.
  intros Hwf E. assert (0 < r_count r)%nat as Hpos.
  { rewrite <- length_ring_list, E. cbn. lia. }
  rewrite (ring_list_front r depth Hwf Hpos) in E. injection E as -> ->.
  split_and!; [done|done|by apply ring_pop_wf].
Qed.

Lemma ring_full_spec depth r : ring_wf depth r ->
  ring_full r = (length (ring_list r) =? depth)%nat.
Proof. intros [Hl _ _ _ _]. unfold ring_full. by rewrite length_ring_list, Hl. Qed.

Lemma ring_clear_wf depth r : ring_wf depth r -> ring_wf depth (ring_clear r).
Proof.
  intros [Hl Hp Hh Hc Ht]. split; cbn; try done; try lia. by rewrite Nat.Div0.mod_0_l.
Qed.

Lemma ring_set_front_wf depth r a : ring_wf depth r -> ring_wf depth (ring_set_front r a).
Proof.
  intros [Hl Hp Hh Hc Ht]. split; cbn; try done. unfold ring_depth. cbn. by rewrite length_insert.
Qed.

Lemma ring_list_set_front depth r a : ring_wf depth r -> (0 < r_count r)%nat ->
  ring_list (ring_set_front r a) = a :: ring_list (ring_pop r).
Proof.
  intros Hwf Hpos. pose proof Hwf as [Hl Hp Hh Hc Ht].
  rewrite (ring_list_front _ depth) by (done || by apply ring_set_front_wf). f_equal.
  - unfold ring_front, ring_at, ring_set_front. cbn. apply list_lookup_total_insert_eq.
    unfold ring_depth in Hl. lia.
  - unfold ring_list, ring_pop, ring_set_front, ring_at, ring_depth in *.
    cbn [r_count r_head r_slots]. rewrite length_insert.
    apply list_fmap_ext. intros i k Hk. apply lookup_seq in Hk as [-> Hk].
    rewrite list_lookup_total_insert_ne; [done|].
    rewrite Hl, Nat.Div0.add_mod_idemp_l, mod_wrap_once by lia. case_decide; lia.
Qed.

Lemma ring_front_elem depth r : ring_wf depth r -> (0 < r_count r)%nat ->
  ring_front r ∈ ring_list r.
Proof. intros Hw Hc. rewrite (ring_list_front r depth) by done. by left. Qed.
End ring.
