(* ===== verification/Queue.v ===== *)
(** * Queues of a head and a count

    The UDP backend and the CUSE presenter keep their queues as an array, the
    index of the first element and a count, and find the free slot from these.
    The operations, their invariant, and the elements in order; the histories of
    the UDP backend overwrite their oldest element when they are full. *)

From S2P Require Import Prelude Ring.

Record queue (A : Type) := Queue {
  q_slots : list A;
  q_head : nat;
  q_count : nat
}.
Arguments Queue {A} _ _ _.
Arguments q_slots {A} _.
Arguments q_head {A} _.
Arguments q_count {A} _.

Section queue.
Context {A : Type} `{!Inhabited A}.
Implicit Types (q : queue A) (a : A).

Definition queue_depth q : nat := length (q_slots q).

(** [slots[(head + count) % depth] = a; ++count;] *)
Definition queue_push q a : queue A :=
  Queue (<[((q_head q + q_count q) mod queue_depth q)%nat := a]> (q_slots q)) (q_head q)
    (q_count q + 1).

(** [slots[head] = a; head = (head + 1) % depth;] *)
Definition queue_overwrite q a : queue A :=
  Queue (<[q_head q := a]> (q_slots q)) ((q_head q + 1) mod queue_depth q)%nat (q_count q).

(** [head = (head + 1) % depth; --count;] *)
Definition queue_pop q : queue A :=
  Queue (q_slots q) ((q_head q + 1) mod queue_depth q)%nat (q_count q - 1).

(** [slots[head] = zero; head = (head + 1) % depth; --count;] *)
Definition queue_take (zero : A) q : queue A :=
  Queue (<[q_head q := zero]> (q_slots q)) ((q_head q + 1) mod queue_depth q)%nat (q_count q - 1).

(** [head = 0; count = 0;] *)
Definition queue_clear q : queue A := Queue (q_slots q) 0 0.

Definition queue_front q : A := q_slots q !!! q_head q.

(** The elements in order. *)
Definition queue_list q : list A :=
  (fun i => q_slots q !!! ((q_head q + i) mod queue_depth q)%nat) <$> seq 0 (q_count q).

(** The search loop and the bounded history. *)
Definition queue_has (equal : A -> bool) q : bool := existsb equal (queue_list q).

Definition queue_remember q a : queue A :=
  if (q_count q <? queue_depth q)%nat then queue_push q a else queue_overwrite q a.
End queue.

(** ** Well-formedness *)

Record queue_wf {A} (depth : nat) (q : queue A) : Prop := {
  qw_len : length (q_slots q) = depth;
  qw_head : (q_head q < depth)%nat;
  qw_count : (q_count q <= depth)%nat
}.

Section queue.
Context {A : Type} `{!Inhabited A}.
Implicit Types (q : queue A) (a : A) (depth : nat).

Lemma queue_clear_wf depth q : queue_wf depth q -> queue_wf depth (queue_clear q).
Proof. intros []. constructor; cbn; lia. Qed.

Lemma queue_push_wf depth q a : queue_wf depth q -> (q_count q < depth)%nat ->
  queue_wf depth (queue_push q a).
Proof. intros [] Hc. constructor; cbn; [by rewrite length_insert|lia..]. Qed.

Lemma queue_pop_wf depth q : queue_wf depth q -> queue_wf depth (queue_pop q).
Proof.
  intros [Hl Hh Hc]. constructor; cbn; [done| |lia]. unfold queue_depth. rewrite Hl.
  apply Nat.mod_upper_bound. lia.
Qed.

Lemma queue_remember_wf depth q a : queue_wf depth q -> queue_wf depth (queue_remember q a).
Proof.
  intros Hq. pose proof Hq as [Hl Hh Hc]. unfold queue_remember, queue_depth. rewrite Hl.
  destruct (_ <? _)%nat eqn:E.
  - apply queue_push_wf; [done|]. by apply Nat.ltb_lt.
  - constructor; cbn; [by rewrite length_insert| |lia]. unfold queue_depth. rewrite Hl.
    apply Nat.mod_upper_bound. lia.
Qed.

(** An empty queue of [depth] slots. *)
Lemma queue_new_wf depth a : (0 < depth)%nat -> queue_wf depth (Queue (replicate depth a) 0 0).
Proof. intros. constructor; cbn; [by rewrite length_replicate|lia..]. Qed.

Lemma queue_elem q a depth : queue_wf depth q -> In a (queue_list q) <->
  exists i, (i < q_count q)%nat /\ q_slots q !!! ((q_head q + i) mod depth)%nat = a.
Proof.
  intros [Hl _ _]. unfold queue_list. rewrite in_map_iff. unfold queue_depth. rewrite Hl.
  setoid_rewrite in_seq. split; intros (i & H1 & H2); exists i; (split; [lia|done]) || split; done || lia.
Qed.

(** What was just remembered is found. *)
Lemma queue_remember_elem depth q a : queue_wf depth q -> In a (queue_list (queue_remember q a)).
Proof.
  intros Hq. pose proof (queue_remember_wf depth q a Hq) as Hq'.
  apply (queue_elem _ _ depth Hq'). destruct Hq as [Hl Hh Hc]. revert Hq'.
  unfold queue_remember, queue_depth. rewrite Hl. destruct (_ <? _)%nat eqn:E; intros Hq'; cbn.
  - exists (q_count q). split; [lia|]. unfold queue_depth. rewrite Hl.
    apply list_lookup_total_insert_eq. rewrite Hl. apply Nat.mod_upper_bound. lia.
  - apply Nat.ltb_ge in E. exists (depth - 1)%nat. unfold queue_depth. rewrite Hl. split; [lia|].
    replace (((q_head q + 1) mod depth + (depth - 1)) mod depth)%nat with (q_head q).
    + apply list_lookup_total_insert_eq. lia.
    + rewrite Nat.Div0.add_mod_idemp_l. replace (q_head q + 1 + (depth - 1))%nat
        with (q_head q + 1 * depth)%nat by lia.
      rewrite Nat.Div0.mod_add. symmetry. by apply Nat.mod_small.
Qed.

(** ** As a ring *)

(** The ring with the same contents, whose tail is written down. *)
Definition ring_of q : ring A :=
  Ring (q_slots q) (q_head q) ((q_head q + q_count q) mod queue_depth q)%nat (q_count q).

Lemma ring_of_wf depth q : queue_wf depth q -> ring_wf depth (ring_of q).
Proof.
  intros [Hl Hh Hc]. constructor; cbn; try done; [lia|]. unfold queue_depth. by rewrite Hl.
Qed.

Lemma length_queue_list q : length (queue_list q) = q_count q.
Proof. apply (length_ring_list (ring_of q)). Qed.

Lemma queue_list_nil q : q_count q = 0%nat -> queue_list q = [].
Proof. apply (ring_list_nil (ring_of q)). Qed.

Lemma queue_list_push depth q a : queue_wf depth q -> (q_count q < depth)%nat ->
  queue_list (queue_push q a) = queue_list q ++ [a].
Proof. intros Hq Hc. apply (ring_list_push depth (ring_of q) a); [by apply ring_of_wf|done]. Qed.

Lemma queue_take_wf depth z q : queue_wf depth q -> queue_wf depth (queue_take z q).
Proof.
  intros [Hl Hh Hc]. constructor; cbn; [by rewrite length_insert| |lia]. unfold queue_depth.
  rewrite Hl. apply Nat.mod_upper_bound. lia.
Qed.

Lemma queue_list_take depth z q : queue_wf depth q -> (0 < q_count q)%nat ->
  queue_list q = queue_front q :: queue_list (queue_take z q).
Proof.
  intros Hq Hc. pose proof (ring_of_wf depth q Hq) as Hr.
  assert (queue_list (queue_take z q) = ring_list (ring_pop (ring_set_front (ring_of q) z))) as ->.
  { unfold queue_list, ring_list, queue_depth, ring_depth, ring_pop, queue_take, ring_set_front.
    cbn. unfold queue_depth, ring_depth. cbn. by rewrite !length_insert. }
  pose proof (ring_list_front (ring_set_front (ring_of q) z) depth
    (ring_set_front_wf _ _ _ Hr) Hc) as H1.
  rewrite (ring_list_set_front depth _ z Hr Hc) in H1. injection H1 as _ H1.
  rewrite <- H1. apply (ring_list_front _ depth Hr Hc).
Qed.

(** ** Slots outside the queue *)

(** The slots outside the queue hold [z]. *)
Definition queue_clean (z : A) q : Prop := forall i, (q_count q <= i < queue_depth q)%nat ->
  q_slots q !!! ((q_head q + i) mod queue_depth q)%nat = z.

Lemma queue_new_clean depth z : queue_clean z (Queue (replicate depth z) 0 0).
Proof.
  intros i [_ Hi]. unfold queue_depth in *. cbn in *. rewrite length_replicate in *.
  apply lookup_total_replicate_2. apply Nat.mod_upper_bound. lia.
Qed.

Lemma queue_push_clean depth z q a : queue_wf depth q -> (q_count q < depth)%nat ->
  queue_clean z q -> queue_clean z (queue_push q a).
Proof.
  intros [<- Hh Hc] Hlt Hq i [Hi1 Hi2]. unfold queue_clean, queue_depth in *. cbn in *.
  unfold queue_depth in *. rewrite length_insert in Hi2. rewrite length_insert.
  rewrite list_lookup_total_insert_ne; [apply Hq; lia|].
  rewrite !mod_wrap_once by lia. repeat case_decide; lia.
Qed.

Lemma queue_take_clean depth z q : queue_wf depth q -> (0 < q_count q)%nat ->
  queue_clean z q -> queue_clean z (queue_take z q).
Proof.
  intros [<- Hh Hc] Hlt Hq i [Hi1 Hi2]. unfold queue_clean, queue_depth in *. cbn in *.
  unfold queue_depth in *. rewrite length_insert in Hi2. rewrite length_insert.
  rewrite Nat.Div0.add_mod_idemp_l. destruct (decide (i + 1 = length (q_slots q))%nat) as [E|E].
  - replace (q_head q + 1 + i)%nat with (q_head q + 1 * length (q_slots q))%nat by lia.
    rewrite Nat.Div0.mod_add, Nat.mod_small by lia. apply list_lookup_total_insert_eq. lia.
  - replace (q_head q + 1 + i)%nat with (q_head q + (i + 1))%nat by lia.
    rewrite list_lookup_total_insert_ne; [apply Hq; lia|].
    rewrite mod_wrap_once by lia. case_decide; lia.
Qed.

(** All the slots: the queue's elements and the value of the others. *)
Lemma queue_slots_perm depth z q : queue_wf depth q -> queue_clean z q ->
  q_slots q ≡ₚ queue_list q ++ replicate (depth - q_count q) z.
Proof.
  intros [Hl Hh Hc] Hq. unfold queue_clean, queue_depth in Hq. rewrite Hl in Hq.
  set (f := fun i => q_slots q !!! ((q_head q + i) mod depth)%nat).
  assert (queue_list q = f <$> seq 0 (q_count q)) as ->
    by (unfold queue_list, queue_depth; by rewrite Hl).
  assert (replicate (depth - q_count q) z = f <$> seq (q_count q) (depth - q_count q)) as ->.
  { symmetry. apply list_eq_same_length with (depth - q_count q)%nat;
      [by rewrite length_replicate|by rewrite length_fmap, length_seq|].
    intros i x y Hi Hx Hy. apply lookup_replicate in Hy as [-> _].
    apply list_lookup_fmap_Some in Hx as (k & -> & Hk). apply lookup_seq in Hk as [-> Hk].
    apply Hq. lia. }
  rewrite <- fmap_app, <- seq_app. replace (q_count q + (depth - q_count q))%nat with depth by lia.
  replace depth with ((depth - q_head q) + q_head q)%nat at 1 by lia.
  rewrite seq_app, fmap_app. transitivity (drop (q_head q) (q_slots q) ++ take (q_head q) (q_slots q)).
  - rewrite Permutation_app_comm. by rewrite take_drop.
  - assert (f <$> seq 0 (depth - q_head q) = drop (q_head q) (q_slots q)) as ->; [|f_equiv].
    + apply list_eq_same_length with (depth - q_head q)%nat;
        [rewrite length_drop; lia|by rewrite length_fmap, length_seq|].
      intros i x y Hi Hx Hy. rewrite lookup_drop in Hy. apply list_lookup_fmap_Some in Hx as (k & -> & Hk).
      apply lookup_seq in Hk as [-> Hk]. unfold f. rewrite Nat.mod_small by lia. cbn.
      by apply list_lookup_total_correct.
    + replace (f <$> seq (0 + (depth - q_head q)) (q_head q)) with (take (q_head q) (q_slots q)); [done|].
      symmetry. apply list_eq_same_length with (q_head q);
        [rewrite length_take; lia|by rewrite length_fmap, length_seq|].
      intros i x y Hi Hx Hy. rewrite lookup_take_lt in Hy by done.
      apply list_lookup_fmap_Some in Hx as (k & -> & Hk). apply lookup_seq in Hk as [-> Hk]. unfold f.
      replace (q_head q + (0 + (depth - q_head q) + i))%nat with (i + 1 * depth)%nat by lia.
      rewrite Nat.Div0.mod_add, Nat.mod_small by lia. by apply list_lookup_total_correct.
Qed.
End queue.
