(* ===== verification/Backend.v ===== *)
(** * The backend interface

    src/src/core/backend_c.h and src/src/core/buffer_internal.h: the operation
    table every backend provides and the internal representation of a
    zero-copy buffer.  A context of type [C] stands for the backend's memory
    and whatever part of the outside world its operations read and change; an
    operation returns its result code, the values left in its out-parameters
    and the new context.  A NULL table entry is [None].

    [BackendSim] is the contract between the port layer and a backend: a
    simulation between two operation tables on every call the port layer can
    make. *)

From S2P Require Import Prelude Types.

(** ** Buffers *)

Definition SPW_BUFFER_DIRECTION_TX : Z := 1.
Definition SPW_BUFFER_DIRECTION_RX : Z := 2.
Definition SPW_BUFFER_STATE_FREE : Z := 0.
Definition SPW_BUFFER_STATE_APPLICATION : Z := 1.
Definition SPW_BUFFER_STATE_BACKEND : Z := 2.
Definition SPW_BUFFER_STATE_COMPLETED : Z := 3.

(** [buf_data] is the address of the storage, which the application and the
    provider share; [buf_owner] is the address of the owning backend context
    and [buf_owner_epoch] that of the port whose [ownership_epoch] it points
    to. *)
Record spw_buffer := {
  buf_data : option Z;
  buf_length : Z;
  buf_capacity : Z;
  buf_terminator : Z;
  buf_owner : option Z;
  buf_direction : Z;
  buf_state : Z;
  buf_token : Z;
  buf_owner_epoch : option Z;
  buf_epoch : Z
}.

(** ** The operation table *)

Record spw_backend_ops (C : Type) := {
  op_start : C -> Z * C;
  op_stop : C -> Z * C;
  op_reset : C -> Z * C;
  op_get_link_state : C -> Z -> Z * Z * C;
  op_get_capabilities : C -> spw_capabilities -> Z * spw_capabilities * C;
  op_supports_zero_copy : option (C -> bool);
  op_send : C -> spw_packet -> Z -> Z * C;
  op_receive : C -> spw_packet -> Z -> Z * spw_packet * C;
  op_send_time_code : C -> spw_time_code -> Z -> Z * C;
  op_receive_time_code : C -> spw_time_code -> Z -> Z * spw_time_code * C;
  op_get_statistics : C -> spw_statistics -> Z * spw_statistics * C;
  op_clear_statistics : C -> Z * C;
  op_get_fault_statistics :
    option (C -> spw_fault_statistics -> Z * spw_fault_statistics * C);
  op_clear_fault_statistics : option (C -> Z * C);
  op_acquire_tx_buffer : option (C -> Z -> Z -> Z * option nat * C);
  op_submit_tx_buffer : option (C -> nat -> Z -> Z * C);
  op_reclaim_tx_buffer : option (C -> Z -> Z * option nat * C);
  op_release_tx_buffer : option (C -> nat -> Z * C);
  op_acquire_rx_buffer : option (C -> Z -> Z * option nat * C);
  op_release_rx_buffer : option (C -> nat -> Z * C);
  op_wait : option (C -> Z -> Z -> Z -> Z * Z * C)
}.
Arguments op_start {C} _ _.
Arguments op_stop {C} _ _.
Arguments op_reset {C} _ _.
Arguments op_get_link_state {C} _ _ _.
Arguments op_get_capabilities {C} _ _ _.
Arguments op_supports_zero_copy {C} _.
Arguments op_send {C} _ _ _ _.
Arguments op_receive {C} _ _ _ _.
Arguments op_send_time_code {C} _ _ _ _.
Arguments op_receive_time_code {C} _ _ _ _.
Arguments op_get_statistics {C} _ _ _.
Arguments op_clear_statistics {C} _ _.
Arguments op_get_fault_statistics {C} _.
Arguments op_clear_fault_statistics {C} _.
Arguments op_acquire_tx_buffer {C} _.
Arguments op_submit_tx_buffer {C} _.
Arguments op_reclaim_tx_buffer {C} _.
Arguments op_release_tx_buffer {C} _.
Arguments op_acquire_rx_buffer {C} _.
Arguments op_release_rx_buffer {C} _.
Arguments op_wait {C} _.

(** ** Packets the port layer hands down *)

Definition valid_terminator (t : Z) : bool :=
  (t =? SPW_TERMINATOR_EOP) || (t =? SPW_TERMINATOR_EEP).

Definition valid_time_code (tc : spw_time_code) : bool :=
  (time_count tc <=? 63) && (control_flags tc =? 0).

(** A packet to send: its bytes are there and its terminator is one of two. *)
Definition tx_packet_ok (p : spw_packet) : bool :=
  (0 <=? pkt_length p) && valid_terminator (pkt_terminator p) &&
  match pkt_data p with
  | Some bs => pkt_length p <=? Z.of_nat (length bs)
  | None => pkt_length p =? 0
  end.

(** A packet to receive into: its storage is as large as its capacity says. *)
Definition rx_packet_ok (p : spw_packet) : bool :=
  (0 <=? pkt_capacity p) &&
  match pkt_data p with
  | Some bs => pkt_capacity p =? Z.of_nat (length bs)
  | None => pkt_capacity p =? 0
  end.

(** The payload a packet carries. *)
Definition packet_payload (p : spw_packet) : list Z :=
  mem_read (default [] (pkt_data p)) 0 (Z.to_nat (pkt_length p)).

(** ** Calls *)

(** The calls the port layer makes for copied I/O, lifecycle, statistics and
    readiness; for an entry the table leaves NULL the call stands for the port
    layer's own UNSUPPORTED answer. *)
Inductive backend_call :=
| CallStart
| CallStop
| CallReset
| CallLinkState (out : Z)
| CallCapabilities (out : spw_capabilities)
| CallSend (p : spw_packet) (timeout : Z)
| CallReceive (p : spw_packet) (timeout : Z)
| CallSendTimeCode (tc : spw_time_code) (timeout : Z)
| CallReceiveTimeCode (out : spw_time_code) (timeout : Z)
| CallStatistics (out : spw_statistics)
| CallClearStatistics
| CallFaultStatistics (out : spw_fault_statistics)
| CallClearFaultStatistics
| CallWait (interests timeout out : Z).

(** What a call leaves behind: the result code and the out-parameter. *)
Inductive backend_out :=
| OutNone
| OutState (s : Z)
| OutCapabilities (c : spw_capabilities)
| OutPacket (p : spw_packet)
| OutTimeCode (tc : spw_time_code)
| OutStatistics (s : spw_statistics)
| OutFaultStatistics (s : spw_fault_statistics)
| OutReady (events : Z).

Definition call_ok (call : backend_call) : bool :=
  match call with
  | CallSend p _ => tx_packet_ok p
  | CallReceive p _ => rx_packet_ok p
  | CallSendTimeCode tc _ => valid_time_code tc
  | _ => true
  end.

(** A call's arguments, as the port layer checks them and C bytes are. *)
Definition call_args_ok (call : backend_call) : Prop :=
  call_ok call = true /\
  match call with
  | CallSend p _ | CallReceive p _ => bytes_ok (default [] (pkt_data p))
  | CallSendTimeCode tc _ => 0 <= time_count tc
  | _ => True
  end.

Definition do_call {C} (ops : spw_backend_ops C) (c : C) (call : backend_call)
    : Z * backend_out * C :=
  match call with
  | CallStart => let '(r, c) := op_start ops c in (r, OutNone, c)
  | CallStop => let '(r, c) := op_stop ops c in (r, OutNone, c)
  | CallReset => let '(r, c) := op_reset ops c in (r, OutNone, c)
  | CallLinkState out =>
      let '(r, s, c) := op_get_link_state ops c out in (r, OutState s, c)
  | CallCapabilities out =>
      let '(r, s, c) := op_get_capabilities ops c out in (r, OutCapabilities s, c)
  | CallSend p t => let '(r, c) := op_send ops c p t in (r, OutNone, c)
  | CallReceive p t =>
      let '(r, p, c) := op_receive ops c p t in (r, OutPacket p, c)
  | CallSendTimeCode tc t => let '(r, c) := op_send_time_code ops c tc t in (r, OutNone, c)
  | CallReceiveTimeCode out t =>
      let '(r, tc, c) := op_receive_time_code ops c out t in (r, OutTimeCode tc, c)
  | CallStatistics out =>
      let '(r, s, c) := op_get_statistics ops c out in (r, OutStatistics s, c)
  | CallClearStatistics => let '(r, c) := op_clear_statistics ops c in (r, OutNone, c)
  | CallFaultStatistics out =>
      match op_get_fault_statistics ops with
      | Some f => let '(r, s, c) := f c out in (r, OutFaultStatistics s, c)
      | None => (SPW_ERR_UNSUPPORTED, OutFaultStatistics fault_statistics_zero, c)
      end
  | CallClearFaultStatistics =>
      match op_clear_fault_statistics ops with
      | Some f => let '(r, c) := f c in (r, OutNone, c)
      | None => (SPW_ERR_UNSUPPORTED, OutNone, c)
      end
  | CallWait interests t out =>
      match op_wait ops with
      | Some f => let '(r, e, c) := f c interests t out in (r, OutReady e, c)
      | None => (SPW_ERR_UNSUPPORTED, OutReady out, c)
      end
  end.

Fixpoint run_calls {C} (ops : spw_backend_ops C) (c : C) (calls : list backend_call)
    : list (Z * backend_out) * C :=
  match calls with
  | [] => ([], c)
  | call :: calls =>
      let '(r, out, c) := do_call ops c call in
      let '(rs, c) := run_calls ops c calls in
      ((r, out) :: rs, c)
  end.

(** ** Simulation *)

(** Table [ops] behaves as table [aops] for related contexts: the same result
    code, the same out-parameter, related contexts again. *)
Class BackendSim {C A : Type} (ops : spw_backend_ops C) (aops : spw_backend_ops A)
    (R : C -> A -> Prop) : Prop := {
  sim_call : forall call c a, call_ok call = true -> R c a ->
    let '(r, out, c') := do_call ops c call in
    let '(r', out', a') := do_call aops a call in
    r = r' /\ out = out' /\ R c' a';
  sim_zero_copy : forall c a, R c a ->
    match op_supports_zero_copy ops with Some f => f c | None => false end =
    match op_supports_zero_copy aops with Some f => f a | None => false end;
  sim_wait : (exists f, op_wait ops = Some f) <-> (exists f, op_wait aops = Some f)
}.

Lemma run_calls_sim {C A} (ops : spw_backend_ops C) (aops : spw_backend_ops A) R
    `{!BackendSim ops aops R} calls : forall c a,
  forallb call_ok calls = true -> R c a ->
  (run_calls ops c calls).1 = (run_calls aops a calls).1 /\
  R (run_calls ops c calls).2 (run_calls aops a calls).2.
Proof.
  induction calls as [|call calls IH]; intros c a Hok HR; [done|].
  cbn [forallb] in Hok. apply andb_prop in Hok as [Hc Hok].
  pose proof (sim_call call c a Hc HR) as H. cbn [run_calls].
  destruct (do_call ops c call) as [[r out] c'].
  destruct (do_call aops a call) as [[r' out'] a'].
  destruct H as (-> & -> & HR'). specialize (IH c' a' Hok HR').
  destruct (run_calls ops c' calls), (run_calls aops a' calls). cbn in *.
  destruct IH as [-> IH]. done.
Qed.

Lemma run_calls_app {C} (ops : spw_backend_ops C) calls1 calls2 : forall c,
  run_calls ops c (calls1 ++ calls2) =
    let '(rs1, c1) := run_calls ops c calls1 in
    let '(rs2, c2) := run_calls ops c1 calls2 in
    (rs1 ++ rs2, c2).
Proof.
  induction calls1 as [|call calls1 IH]; intros c; cbn [app run_calls].
  - by destruct (run_calls ops c calls2).
  - destruct (do_call ops c call) as [[r out] c']. rewrite IH.
    destruct (run_calls ops c' calls1) as [rs1 c1].
    by destruct (run_calls ops c1 calls2).
Qed.

(** ** Outputs *)

(** What a client of a port relies on in the values a backend hands out: link
    states of the public enumeration, received packets that lie in the caller's
    storage with a legal terminator, and time-codes of six and two bits.  [I] is
    an invariant of the backend's contexts. *)
Class BackendOutputs {C : Type} (ops : spw_backend_ops C) (I : C -> Prop) : Prop := {
  out_link_state : forall c out, I c ->
    let '(r, s, c') := op_get_link_state ops c out in
    I c' /\ (r = SPW_OK -> SPW_LINK_ERROR_RESET <= s <= SPW_LINK_RUN);
  out_send : forall c p t, I c -> tx_packet_ok p = true ->
    bytes_ok (default [] (pkt_data p)) -> I (op_send ops c p t).2;
  out_receive : forall c p t, I c -> rx_packet_ok p = true ->
    bytes_ok (default [] (pkt_data p)) ->
    let '(r, p', c') := op_receive ops c p t in
    I c' /\ bytes_ok (default [] (pkt_data p')) /\
    length (default [] (pkt_data p')) = length (default [] (pkt_data p)) /\
    (r = SPW_OK -> 0 <= pkt_length p' <= pkt_capacity p /\
                   valid_terminator (pkt_terminator p') = true);
  out_send_time_code : forall c tc t, I c -> valid_time_code tc = true ->
    0 <= time_count tc -> I (op_send_time_code ops c tc t).2;
  out_receive_time_code : forall c out t, I c ->
    let '(r, tc, c') := op_receive_time_code ops c out t in
    I c' /\ (r = SPW_OK -> 0 <= time_count tc <= 63 /\ 0 <= control_flags tc <= 3)
}.

(** The promise carries over to whatever simulates the backend. *)
Lemma outputs_sim {C A} (ops : spw_backend_ops C) (aops : spw_backend_ops A) R I
    `{!BackendSim ops aops R} `{!BackendOutputs aops I} :
  BackendOutputs ops (fun c => exists a, R c a /\ I a).
Proof.
  constructor.
  - intros c out (a & HR & HI).
    pose proof (sim_call (CallLinkState out) c a eq_refl HR) as H. cbn in H.
    pose proof (out_link_state a out HI) as Ho.
    destruct (op_get_link_state ops c out) as [[??]?], (op_get_link_state aops a out) as [[??]?].
    destruct H as (-> & [= ->] & H), Ho. split; [eauto|done].
  - intros c p t (a & HR & HI) Hp Hb.
    pose proof (sim_call (CallSend p t) c a Hp HR) as H. cbn in H.
    pose proof (out_send a p t HI Hp Hb) as Ho.
    destruct (op_send ops c p t), (op_send aops a p t). destruct H as (_ & _ & H). cbn. eauto.
  - intros c p t (a & HR & HI) Hp Hb.
    pose proof (sim_call (CallReceive p t) c a Hp HR) as H. cbn in H.
    pose proof (out_receive a p t HI Hp Hb) as Ho.
    destruct (op_receive ops c p t) as [[??]?], (op_receive aops a p t) as [[??]?].
    destruct H as (-> & [= ->] & H), Ho. split; [eauto|done].
  - intros c tc t (a & HR & HI) Hp H0.
    pose proof (sim_call (CallSendTimeCode tc t) c a Hp HR) as H. cbn in H.
    pose proof (out_send_time_code a tc t HI Hp H0) as Ho.
    destruct (op_send_time_code ops c tc t), (op_send_time_code aops a tc t).
    destruct H as (_ & _ & H). cbn. eauto.
  - intros c out t (a & HR & HI).
    pose proof (sim_call (CallReceiveTimeCode out t) c a eq_refl HR) as H. cbn in H.
    pose proof (out_receive_time_code a out t HI) as Ho.
    destruct (op_receive_time_code ops c out t) as [[??]?],
      (op_receive_time_code aops a out t) as [[??]?].
    destruct H as (-> & [= ->] & H), Ho. split; [eauto|done].
Qed.
