(* ===== verification/DriverApi.v ===== *)
(** * The hardware-driver callback table

    src/include/spwkit/driver.h: the table a hardware provider fills in and the
    configuration that hands it to the library.  The provider's code is not
    part of the library; its state has the type parameter [P] and every
    callback is an argument of the model.  A NULL callback is [None]. *)

From S2P Require Import Prelude Types.

Definition SPW_DRIVER_OPS_VERSION : Z := 2.
Definition SPW_DRIVER_CONFIG_VERSION : Z := 2.
Definition SPW_DRIVER_MAX_BUFFER_SLOTS : Z := 64.
Definition SPW_DRIVER_SYNC_TO_DEVICE : Z := 1.
Definition SPW_DRIVER_SYNC_FROM_DEVICE : Z := 2.

Record spw_driver_buffer := {
  db_data : option Z;
  db_length : Z;
  db_capacity : Z;
  db_terminator : Z;
  db_token : Z
}.

Definition driver_buffer_zero : spw_driver_buffer :=
  {| db_data := None; db_length := 0; db_capacity := 0; db_terminator := 0; db_token := 0 |}.

Record spw_driver_ops (P : Type) := {
  drv_struct_size : Z;
  drv_version : Z;
  drv_start : option (P -> Z * P);
  drv_stop : option (P -> Z * P);
  drv_reset : option (P -> Z * P);
  drv_get_link_state : option (P -> Z -> Z * Z * P);
  drv_get_capabilities : option (P -> spw_capabilities -> Z * spw_capabilities * P);
  drv_send : option (P -> spw_packet -> Z -> Z * P);
  drv_receive : option (P -> spw_packet -> Z -> Z * spw_packet * P);
  drv_send_time_code : option (P -> spw_time_code -> Z -> Z * P);
  drv_receive_time_code : option (P -> spw_time_code -> Z -> Z * spw_time_code * P);
  drv_get_statistics : option (P -> spw_statistics -> Z * spw_statistics * P);
  drv_clear_statistics : option (P -> Z * P);
  drv_wait : option (P -> Z -> Z -> Z -> Z * Z * P);
  drv_acquire_tx_buffer :
    option (P -> Z -> Z -> spw_driver_buffer -> Z * spw_driver_buffer * P);
  drv_submit_tx_buffer : option (P -> spw_driver_buffer -> Z -> Z * P);
  drv_reclaim_tx_buffer : option (P -> Z -> spw_driver_buffer -> Z * spw_driver_buffer * P);
  drv_release_tx_buffer : option (P -> spw_driver_buffer -> Z * P);
  drv_acquire_rx_buffer : option (P -> Z -> spw_driver_buffer -> Z * spw_driver_buffer * P);
  drv_release_rx_buffer : option (P -> spw_driver_buffer -> Z * P);
  drv_sync_buffer : option (P -> spw_driver_buffer -> Z -> Z * P)
}.
Arguments drv_struct_size {P} _.
Arguments drv_version {P} _.
Arguments drv_start {P} _.
Arguments drv_stop {P} _.
Arguments drv_reset {P} _.
Arguments drv_get_link_state {P} _.
Arguments drv_get_capabilities {P} _.
Arguments drv_send {P} _.
Arguments drv_receive {P} _.
Arguments drv_send_time_code {P} _.
Arguments drv_receive_time_code {P} _.
Arguments drv_get_statistics {P} _.
Arguments drv_clear_statistics {P} _.
Arguments drv_wait {P} _.
Arguments drv_acquire_tx_buffer {P} _.
Arguments drv_submit_tx_buffer {P} _.
Arguments drv_reclaim_tx_buffer {P} _.
Arguments drv_release_tx_buffer {P} _.
Arguments drv_acquire_rx_buffer {P} _.
Arguments drv_release_rx_buffer {P} _.
Arguments drv_sync_buffer {P} _.

Record spw_driver_config (P : Type) := {
  drc_struct_size : Z;
  drc_version : Z;
  drc_ops : option (spw_driver_ops P);
  drc_driver_context : P;
  drc_reserved : Z;
  tx_buffer_slots : Z;
  rx_buffer_slots : Z
}.
Arguments drc_struct_size {P} _.
Arguments drc_version {P} _.
Arguments drc_ops {P} _.
Arguments drc_driver_context {P} _.
Arguments drc_reserved {P} _.
Arguments tx_buffer_slots {P} _.
Arguments rx_buffer_slots {P} _.

(** [ptr != NULL] *)
Definition non_null {A} (p : option A) : bool :=
  match p with Some _ => true | None => false end.

(** All six DMA ownership callbacks are present. *)
Definition all_dma {P} (ops : spw_driver_ops P) : bool :=
  non_null (drv_acquire_tx_buffer ops) && non_null (drv_submit_tx_buffer ops) &&
  non_null (drv_reclaim_tx_buffer ops) && non_null (drv_release_tx_buffer ops) &&
  non_null (drv_acquire_rx_buffer ops) && non_null (drv_release_rx_buffer ops).
