(* ===== verification/PortConfig.v ===== *)
(** * Port configuration and workspace layout

    The first part of src/src/core/port.c: configuration validation, the
    choice of the backend factory, and the size and alignment of the workspace
    that holds the port and its backend context.  Structure sizes and
    alignments are the compiler's; they are fields of [abi], with [lp64] the
    values of the 64-bit targets.  Conditional compilation is the record
    [build]. *)

From S2P Require Import Prelude Types Backend DriverApi Faults.

Definition SPW_PORT_CONFIG_VERSION : Z := 1.
Definition SPW_BACKEND_LOOPBACK : Z := 1.
Definition SPW_BACKEND_SIMULATOR : Z := 2.
Definition SPW_BACKEND_UDP : Z := 3.
Definition SPW_BACKEND_DEVICE : Z := 4.
Definition SPW_BACKEND_DRIVER : Z := 5.

(** sizeof and alignof of the structures the code measures. *)
Record abi := {
  sizeof_port : Z;
  alignof_port : Z;
  sizeof_port_config : Z;
  sizeof_device_config : Z;
  sizeof_driver_config : Z;
  sizeof_driver_ops : Z;
  sizeof_simulator_config : Z;
  sizeof_udp_config : Z
}.

Definition lp64 : abi :=
  {| sizeof_port := 56; alignof_port := 8; sizeof_port_config := 32;
     sizeof_device_config := 124; sizeof_driver_config := 48; sizeof_driver_ops := 160;
     sizeof_simulator_config := 24; sizeof_udp_config := 320 |}.

Record build := {
  has_simulator : bool;
  has_udp : bool;
  has_device : bool;
  enable_heap : bool
}.

Section config.
Context {P : Type}.

(** The storage behind [backend_config], read as each of the structures the
    code may cast it to. *)
Record config_memory := {
  as_simulator : spw_simulator_config;
  as_udp : spw_udp_config;
  as_device : spw_device_config;
  as_driver : spw_driver_config P
}.

Record spw_port_config := {
  cfg_struct_size : Z;
  cfg_version : Z;
  cfg_backend : Z;
  cfg_flags : Z;
  cfg_backend_config : option config_memory;
  cfg_backend_config_size : Z
}.

Variable A : abi.

Definition validate_common_config (config : option spw_port_config) : Z :=
  match config with
  | None => SPW_ERR_INVALID_ARGUMENT
  | Some config =>
      if cfg_struct_size config <? sizeof_port_config A then SPW_ERR_INVALID_ARGUMENT else
      if negb (cfg_version config =? SPW_PORT_CONFIG_VERSION) then SPW_ERR_UNSUPPORTED else
      if negb (cfg_flags config =? 0) then SPW_ERR_UNSUPPORTED else
      SPW_OK
  end.

(** The loop that measures the endpoint name: the number of characters before
    the first NUL, at most [fuel] of them from index [i] on. *)
Fixpoint endpoint_length_from (endpoint : list Z) (i fuel : nat) : nat :=
  match fuel with
  | O => i
  | S fuel =>
      if mem_get endpoint i =? 0 then i else endpoint_length_from endpoint (S i) fuel
  end.

Definition validate_device_config (config : spw_port_config) : Z :=
  match cfg_backend_config config with
  | None => SPW_ERR_INVALID_ARGUMENT
  | Some mem =>
      if cfg_backend_config_size config <? sizeof_device_config A
      then SPW_ERR_INVALID_ARGUMENT else
      let device := as_device mem in
      if dev_struct_size device <? sizeof_device_config A then SPW_ERR_INVALID_ARGUMENT else
      if negb (dev_version device =? SPW_DEVICE_CONFIG_VERSION) then SPW_ERR_UNSUPPORTED else
      if negb (dev_reserved device =? 0) || (mem_get (dev_endpoint device) 0 =? 0)
      then SPW_ERR_INVALID_ARGUMENT else
      let endpoint_length := Z.of_nat (endpoint_length_from (dev_endpoint device) 0
                               (Z.to_nat SPW_DEVICE_ENDPOINT_CAPACITY)) in
      if (endpoint_length =? 0) || (SPW_DEVICE_ENDPOINT_CAPACITY <=? endpoint_length)
      then SPW_ERR_INVALID_ARGUMENT else
      SPW_OK
  end.

Definition validate_driver_config (config : spw_port_config) : Z :=
  match cfg_backend_config config with
  | None => SPW_ERR_INVALID_ARGUMENT
  | Some mem =>
      if cfg_backend_config_size config <? sizeof_driver_config A
      then SPW_ERR_INVALID_ARGUMENT else
      let driver := as_driver mem in
      if drc_struct_size driver <? sizeof_driver_config A then SPW_ERR_INVALID_ARGUMENT else
      if negb (drc_version driver =? SPW_DRIVER_CONFIG_VERSION) then SPW_ERR_UNSUPPORTED else
      if negb (drc_reserved driver =? 0) then SPW_ERR_INVALID_ARGUMENT else
      match drc_ops driver with
      | None => SPW_ERR_INVALID_ARGUMENT
      | Some ops =>
          if drv_struct_size ops <? sizeof_driver_ops A then SPW_ERR_INVALID_ARGUMENT else
          if negb (drv_version ops =? SPW_DRIVER_OPS_VERSION) then SPW_ERR_UNSUPPORTED else
          if negb (non_null (drv_start ops)) || negb (non_null (drv_stop ops)) ||
             negb (non_null (drv_reset ops)) || negb (non_null (drv_get_link_state ops)) ||
             negb (non_null (drv_get_capabilities ops)) || negb (non_null (drv_send ops)) ||
             negb (non_null (drv_receive ops))
          then SPW_ERR_INVALID_ARGUMENT else
          let any_dma :=
            non_null (drv_acquire_tx_buffer ops) || non_null (drv_submit_tx_buffer ops) ||
            non_null (drv_reclaim_tx_buffer ops) || non_null (drv_release_tx_buffer ops) ||
            non_null (drv_acquire_rx_buffer ops) || non_null (drv_release_rx_buffer ops) in
          if xorb any_dma (all_dma ops) then SPW_ERR_INVALID_ARGUMENT else
          if ((SPW_DRIVER_MAX_BUFFER_SLOTS <? tx_buffer_slots driver) ||
              (SPW_DRIVER_MAX_BUFFER_SLOTS <? rx_buffer_slots driver)) ||
             ((negb (tx_buffer_slots driver =? 0) || negb (rx_buffer_slots driver =? 0)) &&
              negb (all_dma ops))
          then SPW_ERR_INVALID_ARGUMENT else
          SPW_OK
      end
  end.

Definition validate_simulator_config (config : spw_port_config) : Z :=
  match cfg_backend_config config with
  | None => SPW_ERR_INVALID_ARGUMENT
  | Some mem =>
      if cfg_backend_config_size config <? sizeof_simulator_config A
      then SPW_ERR_INVALID_ARGUMENT else
      let simulator := as_simulator mem in
      if sim_struct_size simulator <? sizeof_simulator_config A
      then SPW_ERR_INVALID_ARGUMENT else
      if negb (sim_version simulator =? SPW_SIMULATOR_CONFIG_VERSION)
      then SPW_ERR_UNSUPPORTED else
      if negb (sim_endpoint simulator =? SPW_SIMULATOR_ENDPOINT_A) &&
         negb (sim_endpoint simulator =? SPW_SIMULATOR_ENDPOINT_B)
      then SPW_ERR_INVALID_ARGUMENT else
      SPW_OK
  end.

Definition valid_udp_fault_rule (rule : spw_udp_fault_rule) : bool :=
  if negb (rule_reserved rule =? 0) ||
     (SPW_UDP_FAULT_PROBABILITY_SCALE <? probability_per_10000 rule) ||
     (SPW_UDP_FAULT_TARGET_KEEPALIVE <? target rule) ||
     (SPW_UDP_FAULT_ACTION_SPACEWIRE_EEP <? action rule) then false else
  if action rule =? SPW_UDP_FAULT_ACTION_NONE then
    (target rule =? SPW_UDP_FAULT_TARGET_ANY) && (probability_per_10000 rule =? 0) &&
    (max_events rule =? 0) && (rule_delay_us rule =? 0) else
  if probability_per_10000 rule =? 0 then false else
  if action rule =? SPW_UDP_FAULT_ACTION_TRANSPORT_DELAY
  then negb (rule_delay_us rule =? 0) else
  if negb (rule_delay_us rule =? 0) then false else
  if action rule =? SPW_UDP_FAULT_ACTION_SPACEWIRE_EEP
  then target rule =? SPW_UDP_FAULT_TARGET_DATA else
  true.

Definition validate_udp_config (config : spw_port_config) : Z :=
  match cfg_backend_config config with
  | None => SPW_ERR_INVALID_ARGUMENT
  | Some mem =>
      if cfg_backend_config_size config <? sizeof_udp_config A
      then SPW_ERR_INVALID_ARGUMENT else
      let udp := as_udp mem in
      if udp_struct_size udp <? sizeof_udp_config A then SPW_ERR_INVALID_ARGUMENT else
      if negb (udp_version udp =? SPW_UDP_CONFIG_VERSION) then SPW_ERR_UNSUPPORTED else
      if (remote_port udp =? 0) || (udp_link_id udp =? 0) ||
         (fragment_payload_size udp <? 256) || (max_retries udp =? 0) ||
         (ack_timeout_ms udp =? 0) || (keepalive_interval_ms udp =? 0) ||
         (peer_timeout_ms udp <=? keepalive_interval_ms udp) ||
         negb (udp_reserved udp =? 0) || (mem_get (local_address udp) 0 =? 0) ||
         (mem_get (remote_address udp) 0 =? 0)
      then SPW_ERR_INVALID_ARGUMENT else
      if forallb valid_udp_fault_rule (fault_rules udp) then SPW_OK
      else SPW_ERR_INVALID_ARGUMENT
  end.

(** ** The factory *)

Inductive factory_id :=
| LoopbackFactory
| SimulatorFactory
| UdpFactory
| DeviceFactory
| DriverFactory (enable_wait enable_zero_copy : bool).

Variable B : build.

Definition select_factory (config : option spw_port_config) : Z * option factory_id :=
  let result := validate_common_config config in
  match config with
  | None => (result, None)
  | Some config =>
      if negb (result =? SPW_OK) then (result, None) else
      if cfg_backend config =? SPW_BACKEND_LOOPBACK then
        if non_null (cfg_backend_config config) || negb (cfg_backend_config_size config =? 0)
        then (SPW_ERR_INVALID_ARGUMENT, None)
        else (SPW_OK, Some LoopbackFactory)
      else if cfg_backend config =? SPW_BACKEND_SIMULATOR then
        let result := validate_simulator_config config in
        if negb (result =? SPW_OK) then (result, None) else
        if has_simulator B then (SPW_OK, Some SimulatorFactory)
        else (SPW_ERR_UNSUPPORTED, None)
      else if cfg_backend config =? SPW_BACKEND_UDP then
        let result := validate_udp_config config in
        if negb (result =? SPW_OK) then (result, None) else
        if has_udp B then (SPW_OK, Some UdpFactory) else (SPW_ERR_UNSUPPORTED, None)
      else if cfg_backend config =? SPW_BACKEND_DEVICE then
        let result := validate_device_config config in
        if negb (result =? SPW_OK) then (result, None) else
        if has_device B then (SPW_OK, Some DeviceFactory) else (SPW_ERR_UNSUPPORTED, None)
      else if cfg_backend config =? SPW_BACKEND_DRIVER then
        let result := validate_driver_config config in
        if negb (result =? SPW_OK) then (result, None) else
        match cfg_backend_config config with
        | Some {| as_driver := driver |} =>
            match drc_ops driver with
            | Some ops =>
                (SPW_OK,
                 Some (DriverFactory (non_null (drv_wait ops))
                   (non_null (drv_acquire_tx_buffer ops) &&
                    negb (tx_buffer_slots driver =? 0) &&
                    negb (rx_buffer_slots driver =? 0))))
            | None => (SPW_ERR_INVALID_ARGUMENT, None)
            end
        | None => (SPW_ERR_INVALID_ARGUMENT, None)
        end
      else (SPW_ERR_UNSUPPORTED, None)
  end.
End config.
Arguments config_memory : clear implicits.
Arguments spw_port_config : clear implicits.

(** ** Workspace layout *)

(** A backend factory: [context_size_for_config] takes the configuration and
    the default size and returns a result code and the size to use. *)
Record spw_backend_factory (P C : Type) := {
  context_size : Z;
  context_alignment : Z;
  construct : spw_port_config P -> Z * C;
  destroy : C -> C;
  factory_ops : spw_backend_ops C;
  context_size_for_config : option (spw_port_config P -> Z -> Z * Z)
}.
Arguments context_size {P C} _.
Arguments context_alignment {P C} _.
Arguments construct {P C} _ _.
Arguments destroy {P C} _ _.
Arguments factory_ops {P C} _.
Arguments context_size_for_config {P C} _.

Definition align_up (value alignment : Z) : Z :=
  u64 (u64 (value + alignment) - 1) .& u64 (Z.lnot (u64 (alignment - 1))).

Definition is_aligned (pointer alignment : Z) : bool :=
  negb (pointer =? 0) && (pointer mod alignment =? 0).

Definition is_power_of_two (value : Z) : bool :=
  negb (value =? 0) && (value .& u64 (value - 1) =? 0).

Definition backend_address (A : abi) (workspace backend_alignment : Z) : Z :=
  u64 (workspace + align_up (sizeof_port A) backend_alignment).

Record spw_port_workspace_requirements := {
  req_size : Z;
  req_alignment : Z
}.

Definition no_requirements : spw_port_workspace_requirements :=
  {| req_size := 0; req_alignment := 0 |}.

Definition requirements_for {P C} (A : abi) (config : spw_port_config P)
    (factory : spw_backend_factory P C) (out : spw_port_workspace_requirements)
    : Z * spw_port_workspace_requirements :=
  if (context_alignment factory =? 0) ||
     negb (is_power_of_two (context_alignment factory)) then (SPW_ERR_BACKEND, out) else
  let '(result, size) :=
    match context_size_for_config factory with
    | Some f => f config (context_size factory)
    | None => (SPW_OK, context_size factory)
    end in
  if negb (result =? SPW_OK) then (result, out) else
  if size =? 0 then (SPW_ERR_BACKEND, out) else
  let required_alignment :=
    if alignof_port A <? context_alignment factory then context_alignment factory
    else alignof_port A in
  let context_offset := align_up (sizeof_port A) (context_alignment factory) in
  if SIZE_MAX - context_offset <? size then (SPW_ERR_RESOURCE_EXHAUSTED, out) else
  (SPW_OK, {| req_size := u64 (context_offset + size); req_alignment := required_alignment |}).

(** The context size the computation settles on. *)
Definition context_size_of {P C} (config : spw_port_config P)
    (factory : spw_backend_factory P C) : Z :=
  match context_size_for_config factory with
  | Some f => (f config (context_size factory)).2
  | None => context_size factory
  end.

(** ** Alignment arithmetic *)

Lemma power_of_two_spec v : 0 <= v < 2 ^ 64 -> is_power_of_two v = true ->
  exists k, 0 <= k < 64 /\ v = 2 ^ k.
Proof.
  unfold is_power_of_two. intros Hv H. split_andb.
  assert (0 < v) by lia. exists (Z.log2 v).
  assert (0 <= Z.log2 v < 64) as Hk
    by (split; [apply Z.log2_nonneg|apply Z.log2_lt_pow2; lia]).
  split; [done|]. rewrite wrap_small in * by lia.
  pose proof (Z.log2_spec v ltac:(lia)) as [Hlo Hhi].
  destruct (decide (v = 2 ^ Z.log2 v)) as [|Hne]; [done|exfalso].
  assert (Z.testbit (v .& (v - 1)) (Z.log2 v) = true) as Hb.
  { rewrite Z.land_spec. rewrite Z.bit_log2 by lia. cbn [andb].
    rewrite <- (Z.log2_unique (v - 1) (Z.log2 v)) at 1; [|lia|lia].
    apply Z.bit_log2. pose proof (pow2_pos (Z.log2 v)). lia. }
  replace (v .& (v - 1)) with 0 in Hb by lia. by rewrite Z.testbit_0_l in Hb.
Qed.

Lemma align_up_spec v k : 0 <= k < 64 -> 0 <= v -> v + 2 ^ k <= 2 ^ 64 ->
  align_up v (2 ^ k) = (v + 2 ^ k - 1) / 2 ^ k * 2 ^ k.
Proof.
  intros Hk Hv Hle. unfold align_up.
  pose proof (pow2_pos k ltac:(lia)).
  assert (2 ^ k <= 2 ^ 63) by (apply Z.pow_le_mono_r; lia).
  assert (u64 (u64 (v + 2 ^ k) - 1) = v + 2 ^ k - 1) as ->.
  { unfold wrap. rewrite Zminus_mod_idemp_l. apply Z.mod_small. lia. }
  rewrite (wrap_small 64 (2 ^ k - 1)) by lia.
  set (x := v + 2 ^ k - 1).
  assert (0 <= x < 2 ^ 64) as Hx by lia.
  unfold wrap. rewrite <- Z.land_ones by lia.
  rewrite (Z.land_comm (Z.lnot _)), Z.land_assoc, (Z.land_ones x) by lia.
  rewrite Z.mod_small by lia.
  replace (2 ^ k - 1) with (Z.ones k) by (rewrite Z.ones_equiv; lia).
  rewrite <- Z.ldiff_land, Z.ldiff_ones_r by lia.
  rewrite Z.shiftr_div_pow2, Z.shiftl_mul_pow2 by lia. done.
Qed.

Lemma align_up_bounds v k : 0 <= k < 64 -> 0 <= v -> v + 2 ^ k <= 2 ^ 64 ->
  v <= align_up v (2 ^ k) < v + 2 ^ k /\ align_up v (2 ^ k) mod 2 ^ k = 0.
Proof.
  intros Hk Hv Hle. rewrite align_up_spec by lia.
  pose proof (pow2_pos k ltac:(lia)).
  pose proof (Z.div_mod (v + 2 ^ k - 1) (2 ^ k)).
  pose proof (Z.mod_pos_bound (v + 2 ^ k - 1) (2 ^ k)).
  split; [lia|apply Z.mod_mul; lia].
Qed.

(** What the compiler guarantees of the port structure. *)
Record abi_ok (A : abi) : Prop := {
  abi_port_size : 0 < sizeof_port A < 2 ^ 32;
  abi_port_alignment : is_power_of_two (alignof_port A) = true;
  abi_port_alignment_range : 0 <= alignof_port A < 2 ^ 32
}.

Lemma lp64_ok : abi_ok lp64.
Proof. by split. Qed.

Lemma mod_pow2_weaken x j k : 0 <= j <= k -> x mod 2 ^ k = 0 -> x mod 2 ^ j = 0.
Proof.
  intros Hjk Hx. apply Z.mod_divide in Hx; [|apply Z.pow_nonzero; lia].
  apply Z.mod_divide; [apply Z.pow_nonzero; lia|].
  transitivity (2 ^ k); [|done]. exists (2 ^ (k - j)).
  rewrite <- Z.pow_add_r by lia. f_equal. lia.
Qed.

(** C32. When the requirements of a configuration are granted, any workspace of
    that size and alignment holds the port structure and, behind it and aligned
    as the backend asks, the whole backend context: the two do not overlap,
    nothing reaches past the end, and no size computation wraps. *)
Theorem workspace_layout {P C} (A : abi) (config : spw_port_config P)
    (factory : spw_backend_factory P C) req workspace :
  abi_ok A -> 0 <= context_alignment factory < 2 ^ 32 ->
  requirements_for A config factory no_requirements = (SPW_OK, req) ->
  is_aligned workspace (req_alignment req) = true ->
  0 <= context_size_of config factory < 2 ^ 64 ->
  0 <= workspace -> workspace + req_size req < 2 ^ 64 ->
  let context := backend_address A workspace (context_alignment factory) in
  workspace mod alignof_port A = 0 /\
  context mod context_alignment factory = 0 /\
  workspace + sizeof_port A <= context /\
  context + context_size_of config factory = workspace + req_size req /\
  req_size req =
    align_up (sizeof_port A) (context_alignment factory) + context_size_of config factory.
Proof.
  intros [Hps Hpa Hpr] Hca Hreq Hal Hsize Hw Hend. cbn zeta.
  unfold requirements_for in Hreq. case_if_in Hreq; [done|].
  destruct (match context_size_for_config factory with Some f => _ | None => _ end)
    as [result size] eqn:Es.
  assert (context_size_of config factory = size) as Esize.
  { unfold context_size_of.
    destruct (context_size_for_config factory); [by rewrite Es|by injection Es]. }
  rewrite Esize in *. cbn beta iota zeta in Hreq. split_andb. destruct (power_of_two_spec (context_alignment factory)) as (k & Hk & Ek); [lia|done|].
  destruct (power_of_two_spec (alignof_port A)) as (j & Hj & Ej); [lia|done|].
  rewrite Ek in *. pose proof (pow2_pos k ltac:(lia)).
  pose proof (align_up_bounds (sizeof_port A) k ltac:(lia) ltac:(lia) ltac:(lia)) as [Hb Hm].
  case_if_in Hreq; [injection Hreq as ->; lia|]. case_if_in Hreq; [done|].
  case_if_in Hreq; [done|]. injection Hreq as <-. cbn [req_size req_alignment] in *.
  unfold is_aligned in Hal. split_andb. unfold SIZE_MAX, UINT64_MAX in *.
  rewrite (wrap_small 64 (_ + size)) in * by lia.
  assert (workspace mod 2 ^ k = 0 /\ workspace mod alignof_port A = 0) as [Hwk Hwj].
  { rewrite Ej in *. destruct (2 ^ j <? 2 ^ k) eqn:Ecmp.
    - split; [lia|]. apply (mod_pow2_weaken _ j k); [|lia].
      split; [lia|]. apply Z.lt_le_incl, (Z.pow_lt_mono_r_iff 2); lia.
    - split; [|lia]. apply (mod_pow2_weaken _ k j); [|lia].
      split; [lia|]. apply (Z.pow_le_mono_r_iff 2); lia. }
  unfold backend_address.
  rewrite wrap_small by lia. split_and!; try lia.
  rewrite Z.add_mod, Hwk, Hm by lia. done.
Qed.

(** ** Accepted configurations *)

(** The rule check of port.c and the one of the fault injector are two copies
    of the same code. *)
Lemma fault_rule_checks_agree rule :
  valid_udp_fault_rule rule = spw_fault_rule_valid (Some rule).
Proof. done. Qed.

Lemma endpoint_length_spec endpoint fuel : forall i,
  let n := endpoint_length_from endpoint i fuel in
  (i <= n <= i + fuel)%nat /\
  (forall j, (i <= j < n)%nat -> mem_get endpoint j <> 0) /\
  ((n < i + fuel)%nat -> mem_get endpoint n = 0).
Proof.
  induction fuel as [|fuel IH]; intros i; cbn [endpoint_length_from].
  { split_and!; intros; lia. }
  case_if; [split_and!; intros; lia|].
  destruct (IH (S i)) as (Hn & Hj & Hz). split_and!; [lia|lia| |].
  - intros j Hr. destruct (decide (j = i)) as [->|]; [lia|apply Hj; lia].
  - intros Hr. apply Hz. lia.
Qed.

(** What the chosen backend may rely on. *)
Definition accepted {P} (config : spw_port_config P) (f : factory_id) : Prop :=
  match f, cfg_backend_config config with
  | LoopbackFactory, None => cfg_backend_config_size config = 0
  | SimulatorFactory, Some mem =>
      sim_endpoint (as_simulator mem) = SPW_SIMULATOR_ENDPOINT_A \/
      sim_endpoint (as_simulator mem) = SPW_SIMULATOR_ENDPOINT_B
  | UdpFactory, Some mem =>
      let udp := as_udp mem in
      256 <= fragment_payload_size udp /\ udp_link_id udp <> 0 /\ max_retries udp <> 0 /\
      ack_timeout_ms udp <> 0 /\ keepalive_interval_ms udp < peer_timeout_ms udp /\
      Forall (fun r => spw_fault_rule_valid (Some r) = true) (fault_rules udp)
  | DeviceFactory, Some mem =>
      exists n, (0 < n)%nat /\ Z.of_nat n < SPW_DEVICE_ENDPOINT_CAPACITY /\
        mem_get (dev_endpoint (as_device mem)) n = 0 /\
        forall i, (i < n)%nat -> mem_get (dev_endpoint (as_device mem)) i <> 0
  | DriverFactory wait zero_copy, Some mem =>
      exists ops, drc_ops (as_driver mem) = Some ops /\
        non_null (drv_start ops) && non_null (drv_stop ops) && non_null (drv_reset ops) &&
        non_null (drv_get_link_state ops) && non_null (drv_get_capabilities ops) &&
        non_null (drv_send ops) && non_null (drv_receive ops) = true /\
        wait = non_null (drv_wait ops) /\
        (zero_copy = true <-> all_dma ops = true /\
           tx_buffer_slots (as_driver mem) <> 0 /\ rx_buffer_slots (as_driver mem) <> 0) /\
        tx_buffer_slots (as_driver mem) <= SPW_DRIVER_MAX_BUFFER_SLOTS /\
        rx_buffer_slots (as_driver mem) <= SPW_DRIVER_MAX_BUFFER_SLOTS
  | _, _ => False
  end.

Section accepted.
Context {P : Type} (A : abi) (config : spw_port_config P).

Lemma udp_config_accepted : validate_udp_config A config = SPW_OK -> accepted config UdpFactory.
Proof.
  unfold validate_udp_config, accepted.
  destruct (cfg_backend_config config) as [mem|]; [|done]. intros H. case_ifs_in H.
  split_andb. split_and!; try lia.
  apply Forall_forall. intros r Hr. rewrite <- fault_rule_checks_agree.
  apply (proj1 (forallb_forall _ _) E3). by apply list_elem_of_In.
Qed.

Lemma simulator_config_accepted :
  validate_simulator_config A config = SPW_OK -> accepted config SimulatorFactory.
Proof.
  unfold validate_simulator_config, accepted.
  destruct (cfg_backend_config config) as [mem|]; [|done]. intros H. case_ifs_in H. lia.
Qed.

Lemma device_config_accepted :
  validate_device_config A config = SPW_OK -> accepted config DeviceFactory.
Proof.
  unfold validate_device_config, accepted.
  destruct (cfg_backend_config config) as [mem|]; [|done]. cbn zeta. intros H.
  pose proof (endpoint_length_spec (dev_endpoint (as_device mem))
    (Z.to_nat SPW_DEVICE_ENDPOINT_CAPACITY) 0) as (Hn & Hj & Hz). cbn zeta in *.
  case_ifs_in H. exists (endpoint_length_from (dev_endpoint (as_device mem)) 0
    (Z.to_nat SPW_DEVICE_ENDPOINT_CAPACITY)).
  unfold SPW_DEVICE_ENDPOINT_CAPACITY in *. split_and!; try lia.
  intros i Hi. apply Hj. lia.
Qed.

Lemma driver_config_accepted mem : cfg_backend_config config = Some mem ->
  validate_driver_config A config = SPW_OK ->
  exists ops, drc_ops (as_driver mem) = Some ops /\
    accepted config (DriverFactory (non_null (drv_wait ops))
      (non_null (drv_acquire_tx_buffer ops) &&
       negb (tx_buffer_slots (as_driver mem) =? 0) &&
       negb (rx_buffer_slots (as_driver mem) =? 0))).
Proof.
  unfold validate_driver_config, accepted. intros ->. cbn zeta.
  destruct (drc_ops (as_driver mem)) as [ops|]; intros H; case_ifs_in H.
  exists ops. split; [done|]. exists ops.
  assert (non_null (drv_acquire_tx_buffer ops) = true -> all_dma ops = true) as Hdma.
  { intros Ha. rewrite Ha in *. cbn [orb] in *. by destruct (all_dma ops). }
  assert (all_dma ops = true -> non_null (drv_acquire_tx_buffer ops) = true) as Hdma'.
  { unfold all_dma. intros ?. by split_andb. }
  split_andb. repeat match goal with H : non_null _ = true |- _ => rewrite H end.
  split_and!; try done; try lia.
  split.
  - intros ?. split_andb. split_and!; [by apply Hdma|lia..].
  - intros (Ha & ? & ?). rewrite Hdma' by done. lia.
Qed.
End accepted.

Lemma select_factory_spec {P} (A : abi) (B : build) (config : spw_port_config P) :
  match select_factory A B (Some config) with
  | (r, Some f) => r = SPW_OK /\ accepted config f
  | (r, None) => r <> SPW_OK
  end.
Proof.
  unfold select_factory. set (r := validate_common_config A (Some config)).
  repeat case_if; try (cbn in *; lia); try done.
  - unfold accepted. destruct (cfg_backend_config config); [done|]. cbn [non_null orb] in *.
    lia.
  - split; [done|]. apply (simulator_config_accepted A). lia.
  - split; [done|]. apply (udp_config_accepted A). lia.
  - split; [done|]. apply (device_config_accepted A). lia.
  - destruct (cfg_backend_config config) as [mem|] eqn:Em; [|done].
    destruct mem as [s u d driver] eqn:Emem. 
    destruct (driver_config_accepted A config mem) as (ops & Eo & Hacc);
      [by rewrite Em, Emem|lia|].
    subst mem. cbn [as_driver] in *. rewrite Eo. done.
Qed.

(** A configuration gets a factory exactly when validation succeeds, and
    then everything the chosen backend relies on holds: a loopback port has no
    backend configuration, a device endpoint is a non-empty NUL-terminated
    name, a peer timeout is longer than the keepalive interval and every fault
    rule passes the injector's own check, a driver table has its seven required
    callbacks, and zero-copy is enabled only with all six DMA callbacks and
    slots in both directions. *)
Theorem select_factory_sound {P} (A : abi) (B : build) (config : spw_port_config P) :
  match select_factory A B (Some config) with
  | (r, Some f) => r = SPW_OK /\ accepted config f
  | (r, None) => r <> SPW_OK
  end.
Proof. apply select_factory_spec. Qed.


(** ** Samples *)

Definition loopback_config : spw_port_config unit :=
  {| cfg_struct_size := 32; cfg_version := SPW_PORT_CONFIG_VERSION;
     cfg_backend := SPW_BACKEND_LOOPBACK; cfg_flags := 0; cfg_backend_config := None;
     cfg_backend_config_size := 0 |}.

Definition sample_ops : spw_backend_ops unit :=
  {| op_start := fun c => (SPW_OK, c); op_stop := fun c => (SPW_OK, c);
     op_reset := fun c => (SPW_OK, c);
     op_get_link_state := fun c o => (SPW_OK, o, c);
     op_get_capabilities := fun c o => (SPW_OK, o, c);
     op_supports_zero_copy := None;
     op_send := fun c _ _ => (SPW_OK, c);
     op_receive := fun c p _ => (SPW_OK, p, c);
     op_send_time_code := fun c _ _ => (SPW_OK, c);
     op_receive_time_code := fun c o _ => (SPW_OK, o, c);
     op_get_statistics := fun c o => (SPW_OK, o, c);
     op_clear_statistics := fun c => (SPW_OK, c);
     op_get_fault_statistics := None; op_clear_fault_statistics := None;
     op_acquire_tx_buffer := None; op_submit_tx_buffer := None;
     op_reclaim_tx_buffer := None; op_release_tx_buffer := None;
     op_acquire_rx_buffer := None; op_release_rx_buffer := None; op_wait := None |}.

(** A context of 100 bytes aligned to 64. *)
Definition sample_factory : spw_backend_factory unit unit :=
  {| context_size := 100; context_alignment := 64; construct := fun _ => (SPW_OK, tt);
     destroy := id; factory_ops := sample_ops; context_size_for_config := None |}.

(** The port takes the first 56 bytes, the context starts at the next multiple
    of 64. *)
Lemma workspace_layout_witness :
  let req := {| req_size := 164; req_alignment := 64 |} in
  requirements_for lp64 loopback_config sample_factory no_requirements = (SPW_OK, req) /\
  backend_address lp64 4096 64 = 4160 /\
  4096 + sizeof_port lp64 <= backend_address lp64 4096 (context_alignment sample_factory).
Proof.
  split_and!; [by vm_compute..|].
  eapply (workspace_layout lp64 loopback_config sample_factory
    {| req_size := 164; req_alignment := 64 |} 4096 lp64_ok); by vm_compute.
Defined.
