(* ===== verification/Loopback.v ===== *)
(** * The loopback backend

    src/src/backends/loopback/loopback_backend.c: a port whose packets and
    time-codes come back to itself through two bounded rings.  The concrete
    backend ([LOOPBACK_OPS], rings of fixed 4096-byte slots that keep the bytes
    of earlier packets) is proved to behave as the FIFO lists of [FIFO_OPS]. *)

From S2P Require Import Prelude Types Ring Backend PortConfig.

Definition SPW_LOOPBACK_MAX_PACKET_SIZE : Z := 4096.
Definition SPW_LOOPBACK_PACKET_QUEUE_DEPTH : nat := 8.
Definition SPW_LOOPBACK_TIME_CODE_QUEUE_DEPTH : nat := 8.

(** alignof(spw_loopback_max_alignment_t) on the LP64 hosts the library is
    built for: the alignment of long double. *)
Definition loopback_max_alignment : Z := 16.

Record spw_loopback_packet_slot := {
  slot_data : list Z;
  slot_length : Z;
  slot_terminator : Z
}.

Definition zero_slot : spw_loopback_packet_slot :=
  {| slot_data := replicate (Z.to_nat SPW_LOOPBACK_MAX_PACKET_SIZE) 0;
     slot_length := 0; slot_terminator := 0 |}.

Definition zero_time_code : spw_time_code := {| time_count := 0; control_flags := 0 |}.

#[export] Instance slot_inhabited : Inhabited spw_loopback_packet_slot := populate zero_slot.
#[export] Instance time_code_inhabited : Inhabited spw_time_code := populate zero_time_code.

Record spw_loopback_backend := {
  lb_state : Z;
  lb_packets : ring spw_loopback_packet_slot;
  lb_time_codes : ring spw_time_code;
  lb_statistics : spw_statistics
}.

(** ** Statistics counters, 64-bit *)

Definition count_tx_packet (length terminator : Z) (s : spw_statistics) : spw_statistics :=
  {| tx_packets := u64 (tx_packets s + 1); rx_packets := rx_packets s;
     tx_bytes := u64 (tx_bytes s + length); rx_bytes := rx_bytes s;
     tx_time_codes := tx_time_codes s; rx_time_codes := rx_time_codes s;
     eep_packets :=
       if terminator =? SPW_TERMINATOR_EEP then u64 (eep_packets s + 1) else eep_packets s;
     link_errors := link_errors s; dropped_packets := dropped_packets s |}.

Definition count_rx_packet (length : Z) (s : spw_statistics) : spw_statistics :=
  {| tx_packets := tx_packets s; rx_packets := u64 (rx_packets s + 1);
     tx_bytes := tx_bytes s; rx_bytes := u64 (rx_bytes s + length);
     tx_time_codes := tx_time_codes s; rx_time_codes := rx_time_codes s;
     eep_packets := eep_packets s; link_errors := link_errors s;
     dropped_packets := dropped_packets s |}.

Definition count_tx_time_code (s : spw_statistics) : spw_statistics :=
  {| tx_packets := tx_packets s; rx_packets := rx_packets s;
     tx_bytes := tx_bytes s; rx_bytes := rx_bytes s;
     tx_time_codes := u64 (tx_time_codes s + 1); rx_time_codes := rx_time_codes s;
     eep_packets := eep_packets s; link_errors := link_errors s;
     dropped_packets := dropped_packets s |}.

Definition count_rx_time_code (s : spw_statistics) : spw_statistics :=
  {| tx_packets := tx_packets s; rx_packets := rx_packets s;
     tx_bytes := tx_bytes s; rx_bytes := rx_bytes s;
     tx_time_codes := tx_time_codes s; rx_time_codes := u64 (rx_time_codes s + 1);
     eep_packets := eep_packets s; link_errors := link_errors s;
     dropped_packets := dropped_packets s |}.

Definition count_link_error (s : spw_statistics) : spw_statistics :=
  {| tx_packets := tx_packets s; rx_packets := rx_packets s;
     tx_bytes := tx_bytes s; rx_bytes := rx_bytes s;
     tx_time_codes := tx_time_codes s; rx_time_codes := rx_time_codes s;
     eep_packets := eep_packets s; link_errors := u64 (link_errors s + 1);
     dropped_packets := dropped_packets s |}.

(** [count] packets thrown away. *)
Definition count_drops (count : Z) (s : spw_statistics) : spw_statistics :=
  {| tx_packets := tx_packets s; rx_packets := rx_packets s;
     tx_bytes := tx_bytes s; rx_bytes := rx_bytes s;
     tx_time_codes := tx_time_codes s; rx_time_codes := rx_time_codes s;
     eep_packets := eep_packets s; link_errors := link_errors s;
     dropped_packets := u64 (dropped_packets s + count) |}.

Definition count_dropped : spw_statistics -> spw_statistics := count_drops 1.

(** ** Operations *)

Definition with_state (s : Z) (b : spw_loopback_backend) : spw_loopback_backend :=
  {| lb_state := s; lb_packets := lb_packets b; lb_time_codes := lb_time_codes b;
     lb_statistics := lb_statistics b |}.

Definition clear_queues (b : spw_loopback_backend) : spw_loopback_backend :=
  {| lb_state := lb_state b;
     lb_packets := ring_empty SPW_LOOPBACK_PACKET_QUEUE_DEPTH zero_slot;
     lb_time_codes := ring_empty SPW_LOOPBACK_TIME_CODE_QUEUE_DEPTH zero_time_code;
     lb_statistics := lb_statistics b |}.

Definition loopback_construct : Z * spw_loopback_backend :=
  (SPW_OK,
   {| lb_state := SPW_LINK_ERROR_RESET;
      lb_packets := ring_empty SPW_LOOPBACK_PACKET_QUEUE_DEPTH zero_slot;
      lb_time_codes := ring_empty SPW_LOOPBACK_TIME_CODE_QUEUE_DEPTH zero_time_code;
      lb_statistics := statistics_zero |}).

Definition loopback_start (b : spw_loopback_backend) : Z * spw_loopback_backend :=
  (SPW_OK, with_state SPW_LINK_RUN b).

Definition loopback_stop (b : spw_loopback_backend) : Z * spw_loopback_backend :=
  (SPW_OK, with_state SPW_LINK_READY b).

Definition loopback_reset (b : spw_loopback_backend) : Z * spw_loopback_backend :=
  (SPW_OK, with_state SPW_LINK_ERROR_RESET (clear_queues b)).

Definition loopback_get_link_state (b : spw_loopback_backend) (_ : Z)
    : Z * Z * spw_loopback_backend := (SPW_OK, lb_state b, b).

Definition loopback_capabilities : spw_capabilities :=
  {| cap_bits := SPW_CAP_EEP .| SPW_CAP_TIME_CODE .| SPW_CAP_LINK_CONTROL .|
                 SPW_CAP_STATISTICS;
     cap_max_packet_size := SPW_LOOPBACK_MAX_PACKET_SIZE;
     cap_tx_queue_depth := Z.of_nat SPW_LOOPBACK_PACKET_QUEUE_DEPTH;
     cap_rx_queue_depth := Z.of_nat SPW_LOOPBACK_PACKET_QUEUE_DEPTH;
     cap_buffer_alignment := loopback_max_alignment |}.

Definition loopback_get_capabilities (b : spw_loopback_backend) (_ : spw_capabilities)
    : Z * spw_capabilities * spw_loopback_backend := (SPW_OK, loopback_capabilities, b).

Definition loopback_supports_zero_copy (_ : spw_loopback_backend) : bool := false.

(** The slot after a packet is copied in: bytes past the packet stay. *)
Definition fill_slot (slot : spw_loopback_packet_slot) (p : spw_packet)
    : spw_loopback_packet_slot :=
  {| slot_data :=
       if 0 <? pkt_length p then mem_write (slot_data slot) 0 (packet_payload p)
       else slot_data slot;
     slot_length := pkt_length p;
     slot_terminator := pkt_terminator p |}.

Definition loopback_send (b : spw_loopback_backend) (p : spw_packet) (timeout_us : Z)
    : Z * spw_loopback_backend :=
  if negb (lb_state b =? SPW_LINK_RUN) then (SPW_ERR_INVALID_STATE, b) else
  if SPW_LOOPBACK_MAX_PACKET_SIZE <? pkt_length p then (SPW_ERR_INVALID_PACKET, b) else
  if Nat.eqb (r_count (lb_packets b)) SPW_LOOPBACK_PACKET_QUEUE_DEPTH
  then (SPW_ERR_RESOURCE_EXHAUSTED, b) else
  let slot := ring_at (lb_packets b) (r_tail (lb_packets b)) in
  (SPW_OK,
   {| lb_state := lb_state b;
      lb_packets := ring_push (lb_packets b) (fill_slot slot p);
      lb_time_codes := lb_time_codes b;
      lb_statistics :=
        count_tx_packet (pkt_length p) (pkt_terminator p) (lb_statistics b) |}).

(** [packet->length] and [packet->terminator] are set before the checks. *)
Definition set_packet_shape (length terminator : Z) (p : spw_packet) : spw_packet :=
  {| pkt_data := pkt_data p; pkt_length := length; pkt_capacity := pkt_capacity p;
     pkt_terminator := terminator |}.

Definition set_packet_bytes (bs : list Z) (p : spw_packet) : spw_packet :=
  {| pkt_data := (fun m => mem_write m 0 bs) <$> pkt_data p; pkt_length := pkt_length p;
     pkt_capacity := pkt_capacity p; pkt_terminator := pkt_terminator p |}.

Definition slot_payload (s : spw_loopback_packet_slot) : list Z :=
  mem_read (slot_data s) 0 (Z.to_nat (slot_length s)).

Definition loopback_receive (b : spw_loopback_backend) (p : spw_packet) (timeout_us : Z)
    : Z * spw_packet * spw_loopback_backend :=
  if negb (lb_state b =? SPW_LINK_RUN) then (SPW_ERR_INVALID_STATE, p, b) else
  if Nat.eqb (r_count (lb_packets b)) 0 then (SPW_ERR_TIMEOUT, p, b) else
  let slot := ring_at (lb_packets b) (r_head (lb_packets b)) in
  let p := set_packet_shape (slot_length slot) (slot_terminator slot) p in
  if pkt_capacity p <? slot_length slot then (SPW_ERR_BUFFER_TOO_SMALL, p, b) else
  if (0 <? slot_length slot) && negb (bool_decide (is_Some (pkt_data p)))
  then (SPW_ERR_INVALID_ARGUMENT, p, b) else
  let p := if 0 <? slot_length slot then set_packet_bytes (slot_payload slot) p else p in
  (SPW_OK, p,
   {| lb_state := lb_state b;
      lb_packets := ring_pop (lb_packets b);
      lb_time_codes := lb_time_codes b;
      lb_statistics := count_rx_packet (slot_length slot) (lb_statistics b) |}).

Definition loopback_send_time_code (b : spw_loopback_backend) (tc : spw_time_code)
    (timeout_us : Z) : Z * spw_loopback_backend :=
  if negb (lb_state b =? SPW_LINK_RUN) then (SPW_ERR_INVALID_STATE, b) else
  if negb (valid_time_code tc) then (SPW_ERR_INVALID_ARGUMENT, b) else
  if Nat.eqb (r_count (lb_time_codes b)) SPW_LOOPBACK_TIME_CODE_QUEUE_DEPTH
  then (SPW_ERR_RESOURCE_EXHAUSTED, b) else
  (SPW_OK,
   {| lb_state := lb_state b; lb_packets := lb_packets b;
      lb_time_codes := ring_push (lb_time_codes b) tc;
      lb_statistics := count_tx_time_code (lb_statistics b) |}).

Definition loopback_receive_time_code (b : spw_loopback_backend) (out : spw_time_code)
    (timeout_us : Z) : Z * spw_time_code * spw_loopback_backend :=
  if negb (lb_state b =? SPW_LINK_RUN) then (SPW_ERR_INVALID_STATE, out, b) else
  if Nat.eqb (r_count (lb_time_codes b)) 0 then (SPW_ERR_TIMEOUT, out, b) else
  (SPW_OK, ring_at (lb_time_codes b) (r_head (lb_time_codes b)),
   {| lb_state := lb_state b; lb_packets := lb_packets b;
      lb_time_codes := ring_pop (lb_time_codes b);
      lb_statistics := count_rx_time_code (lb_statistics b) |}).

Definition loopback_get_statistics (b : spw_loopback_backend) (_ : spw_statistics)
    : Z * spw_statistics * spw_loopback_backend := (SPW_OK, lb_statistics b, b).

Definition loopback_clear_statistics (b : spw_loopback_backend) : Z * spw_loopback_backend :=
  (SPW_OK,
   {| lb_state := lb_state b; lb_packets := lb_packets b;
      lb_time_codes := lb_time_codes b; lb_statistics := statistics_zero |}).

Definition LOOPBACK_OPS : spw_backend_ops spw_loopback_backend :=
  {| op_start := loopback_start;
     op_stop := loopback_stop;
     op_reset := loopback_reset;
     op_get_link_state := loopback_get_link_state;
     op_get_capabilities := loopback_get_capabilities;
     op_supports_zero_copy := Some loopback_supports_zero_copy;
     op_send := loopback_send;
     op_receive := loopback_receive;
     op_send_time_code := loopback_send_time_code;
     op_receive_time_code := loopback_receive_time_code;
     op_get_statistics := loopback_get_statistics;
     op_clear_statistics := loopback_clear_statistics;
     op_get_fault_statistics := None;
     op_clear_fault_statistics := None;
     op_acquire_tx_buffer := None;
     op_submit_tx_buffer := None;
     op_reclaim_tx_buffer := None;
     op_release_tx_buffer := None;
     op_acquire_rx_buffer := None;
     op_release_rx_buffer := None;
     op_wait := None |}.

Definition loopback_destroy (b : spw_loopback_backend) : spw_loopback_backend := b.

(** [context_size] is sizeof(spw_loopback_backend_t) on LP64: the state, eight
    slots of 4112 bytes, eight two-byte time-codes, the six queue indices and
    the nine counters. *)
Definition LOOPBACK_FACTORY {P} : spw_backend_factory P spw_loopback_backend :=
  {| context_size := 33040;
     context_alignment := 8;
     construct := fun _ => loopback_construct;
     destroy := loopback_destroy;
     factory_ops := LOOPBACK_OPS;
     context_size_for_config := None |}.

(** ** The specification: two bounded FIFO lists *)

Record fifo := {
  f_state : Z;
  f_packets : list (list Z * Z);
  f_time_codes : list spw_time_code;
  f_statistics : spw_statistics
}.

Definition fifo_send (f : fifo) (p : spw_packet) (timeout_us : Z) : Z * fifo :=
  if negb (f_state f =? SPW_LINK_RUN) then (SPW_ERR_INVALID_STATE, f) else
  if SPW_LOOPBACK_MAX_PACKET_SIZE <? pkt_length p then (SPW_ERR_INVALID_PACKET, f) else
  if Nat.eqb (length (f_packets f)) SPW_LOOPBACK_PACKET_QUEUE_DEPTH
  then (SPW_ERR_RESOURCE_EXHAUSTED, f) else
  (SPW_OK,
   {| f_state := f_state f;
      f_packets := f_packets f ++ [(packet_payload p, pkt_terminator p)];
      f_time_codes := f_time_codes f;
      f_statistics :=
        count_tx_packet (pkt_length p) (pkt_terminator p) (f_statistics f) |}).

Definition fifo_receive (f : fifo) (p : spw_packet) (timeout_us : Z)
    : Z * spw_packet * fifo :=
  if negb (f_state f =? SPW_LINK_RUN) then (SPW_ERR_INVALID_STATE, p, f) else
  match f_packets f with
  | [] => (SPW_ERR_TIMEOUT, p, f)
  | (bs, terminator) :: rest =>
      let len := Z.of_nat (length bs) in
      let p := set_packet_shape len terminator p in
      if pkt_capacity p <? len then (SPW_ERR_BUFFER_TOO_SMALL, p, f) else
      (SPW_OK, set_packet_bytes bs p,
       {| f_state := f_state f; f_packets := rest; f_time_codes := f_time_codes f;
          f_statistics := count_rx_packet len (f_statistics f) |})
  end.

Definition fifo_send_time_code (f : fifo) (tc : spw_time_code) (timeout_us : Z) : Z * fifo :=
  if negb (f_state f =? SPW_LINK_RUN) then (SPW_ERR_INVALID_STATE, f) else
  if Nat.eqb (length (f_time_codes f)) SPW_LOOPBACK_TIME_CODE_QUEUE_DEPTH
  then (SPW_ERR_RESOURCE_EXHAUSTED, f) else
  (SPW_OK,
   {| f_state := f_state f; f_packets := f_packets f;
      f_time_codes := f_time_codes f ++ [tc];
      f_statistics := count_tx_time_code (f_statistics f) |}).

Definition fifo_receive_time_code (f : fifo) (out : spw_time_code) (timeout_us : Z)
    : Z * spw_time_code * fifo :=
  if negb (f_state f =? SPW_LINK_RUN) then (SPW_ERR_INVALID_STATE, out, f) else
  match f_time_codes f with
  | [] => (SPW_ERR_TIMEOUT, out, f)
  | tc :: rest =>
      (SPW_OK, tc,
       {| f_state := f_state f; f_packets := f_packets f; f_time_codes := rest;
          f_statistics := count_rx_time_code (f_statistics f) |})
  end.

Definition fifo_with_state (s : Z) (f : fifo) : fifo :=
  {| f_state := s; f_packets := f_packets f; f_time_codes := f_time_codes f;
     f_statistics := f_statistics f |}.

Definition fifo_initial : fifo :=
  {| f_state := SPW_LINK_ERROR_RESET; f_packets := []; f_time_codes := [];
     f_statistics := statistics_zero |}.

Definition FIFO_OPS : spw_backend_ops fifo :=
  {| op_start := fun f => (SPW_OK, fifo_with_state SPW_LINK_RUN f);
     op_stop := fun f => (SPW_OK, fifo_with_state SPW_LINK_READY f);
     op_reset := fun f =>
       (SPW_OK, {| f_state := SPW_LINK_ERROR_RESET; f_packets := []; f_time_codes := [];
                   f_statistics := f_statistics f |});
     op_get_link_state := fun f _ => (SPW_OK, f_state f, f);
     op_get_capabilities := fun f _ => (SPW_OK, loopback_capabilities, f);
     op_supports_zero_copy := None;
     op_send := fifo_send;
     op_receive := fifo_receive;
     op_send_time_code := fifo_send_time_code;
     op_receive_time_code := fifo_receive_time_code;
     op_get_statistics := fun f _ => (SPW_OK, f_statistics f, f);
     op_clear_statistics := fun f =>
       (SPW_OK, {| f_state := f_state f; f_packets := f_packets f;
                   f_time_codes := f_time_codes f; f_statistics := statistics_zero |});
     op_get_fault_statistics := None;
     op_clear_fault_statistics := None;
     op_acquire_tx_buffer := None;
     op_submit_tx_buffer := None;
     op_reclaim_tx_buffer := None;
     op_release_tx_buffer := None;
     op_acquire_rx_buffer := None;
     op_release_rx_buffer := None;
     op_wait := None |}.

(** ** Refinement *)

Definition slot_ok (s : spw_loopback_packet_slot) : Prop :=
  length (slot_data s) = Z.to_nat SPW_LOOPBACK_MAX_PACKET_SIZE /\
  0 <= slot_length s <= SPW_LOOPBACK_MAX_PACKET_SIZE.

Definition slot_abs (s : spw_loopback_packet_slot) : list Z * Z :=
  (slot_payload s, slot_terminator s).

(** The representation invariant and the abstraction in one relation. *)
Record loopback_refines (b : spw_loopback_backend) (f : fifo) : Prop := {
  lr_state : lb_state b = f_state f;
  lr_stats : lb_statistics b = f_statistics f;
  lr_pwf : ring_wf SPW_LOOPBACK_PACKET_QUEUE_DEPTH (lb_packets b);
  lr_slots : Forall slot_ok (r_slots (lb_packets b));
  lr_packets : slot_abs <$> ring_list (lb_packets b) = f_packets f;
  lr_twf : ring_wf SPW_LOOPBACK_TIME_CODE_QUEUE_DEPTH (lb_time_codes b);
  lr_time_codes : ring_list (lb_time_codes b) = f_time_codes f
}.

Lemma zero_slot_ok : slot_ok zero_slot.
Proof. split; [apply length_replicate|]. cbn. unfold SPW_LOOPBACK_MAX_PACKET_SIZE. lia. Qed.

Lemma length_payload p : tx_packet_ok p = true ->
  length (packet_payload p) = Z.to_nat (pkt_length p).
Proof. intros _. apply length_mem_read. Qed.

Lemma fill_slot_ok s p : slot_ok s -> tx_packet_ok p = true ->
  pkt_length p <= SPW_LOOPBACK_MAX_PACKET_SIZE ->
  slot_ok (fill_slot s p) /\ slot_abs (fill_slot s p) = (packet_payload p, pkt_terminator p).
Proof.
  intros [Hd Hl] Hp Hlen. pose proof (length_payload p Hp) as Hpl.
  unfold tx_packet_ok in Hp. split_andb.
  unfold slot_ok, slot_abs, slot_payload, fill_slot, SPW_LOOPBACK_MAX_PACKET_SIZE in *. cbn [slot_data slot_length slot_terminator].
  split.
  - split; [|lia]. case_if; [|done]. rewrite length_mem_write, Hpl, Hd. lia.
  - f_equal. case_if.
    + rewrite <- Hpl at 1. rewrite mem_read_write_same. done.
    + unfold packet_payload. replace (pkt_length p) with 0 by lia. done.
Qed.

Lemma ring_front_slot_ok n b : ring_wf n b -> Forall slot_ok (r_slots b) ->
  forall i, (i < n)%nat -> slot_ok (ring_at b i).
Proof.
  intros [Hl _ _ _ _] Hs i Hi. unfold ring_at. apply Forall_lookup_total_1; [done|].
  unfold ring_depth in Hl. lia.
Qed.

Lemma loopback_initial_refines : loopback_refines (loopback_construct.2) fifo_initial.
Proof.
  constructor; try done.
  - by apply ring_empty_wf; unfold SPW_LOOPBACK_PACKET_QUEUE_DEPTH; lia.
  - exact (Forall_replicate slot_ok SPW_LOOPBACK_PACKET_QUEUE_DEPTH _ zero_slot_ok).
  - by apply ring_empty_wf; unfold SPW_LOOPBACK_TIME_CODE_QUEUE_DEPTH; lia.
Qed.

Ltac lb_cbn :=
  cbn [lb_state lb_packets lb_time_codes lb_statistics f_state f_packets f_time_codes
       f_statistics fst snd].

Lemma refines_count b f : loopback_refines b f ->
  r_count (lb_packets b) = length (f_packets f) /\
  r_count (lb_time_codes b) = length (f_time_codes f).
Proof.
  intros []. rewrite <- lr_packets0, <- lr_time_codes0.
  by rewrite length_fmap, !length_ring_list.
Qed.

Lemma send_refines b f p t : tx_packet_ok p = true -> loopback_refines b f ->
  (loopback_send b p t).1 = (fifo_send f p t).1 /\
  loopback_refines (loopback_send b p t).2 (fifo_send f p t).2.
Proof.
  intros Hp HR. pose proof (refines_count b f HR) as [Hc _].
  pose proof HR as [Hs Hst Hw Hsl Hpk Htw Htc].
  unfold loopback_send, fifo_send. rewrite Hs, Hc.
  case_if; [done|]. case_if; [done|]. case_if; [done|].
  apply Nat.eqb_neq in E1. pose proof (ring_count_le _ _ Hw).
  destruct (fill_slot_ok (ring_at (lb_packets b) (r_tail (lb_packets b))) p)
    as [Hok Habs]; [|done|lia|].
  { eapply ring_front_slot_ok; [done|done|by eapply ring_tail_lt]. }
  split; [done|]. constructor; lb_cbn; try done; try congruence.
  - apply ring_push_wf; [done|lia].
  - by apply Forall_insert.
  - erewrite ring_list_push by (done || lia).
    rewrite fmap_app, Hpk. cbn. by rewrite Habs.
Qed.

Lemma set_bytes_nil p : set_packet_bytes [] p = p.
Proof.
  destruct p as [[m|] l c tm]; unfold set_packet_bytes; cbn; [|done].
  by rewrite mem_write_nil_0.
Qed.

Lemma receive_refines b f p t : rx_packet_ok p = true -> loopback_refines b f ->
  (loopback_receive b p t).1 = (fifo_receive f p t).1 /\
  loopback_refines (loopback_receive b p t).2 (fifo_receive f p t).2.
Proof.
  intros Hp HR. pose proof (refines_count b f HR) as [Hc _].
  pose proof HR as [Hs Hst Hw Hsl Hpk Htw Htc].
  unfold loopback_receive, fifo_receive. rewrite Hs, Hc.
  case_if; [done|].
  destruct (f_packets f) as [|[bs tm] rest] eqn:Ef; [done|]. cbn [length Nat.eqb].
  destruct (ring_list (lb_packets b)) as [|s l] eqn:El; [done|].
  cbn in Hpk. injection Hpk as Hbs Htm Hrest.
  destruct (ring_list_cons _ _ _ _ Hw El) as (Hf & Hl & Hw').
  unfold ring_front in Hf. rewrite Hf.
  assert (slot_ok s) as [Hd Hlen].
  { rewrite <- Hf. eapply ring_front_slot_ok; [done|done|apply Hw]. }
  assert (Z.of_nat (length bs) = slot_length s) as Hbl.
  { rewrite <- Hbs. unfold slot_payload. rewrite length_mem_read. lia. }
  rewrite Hbl, Htm. cbn [set_packet_shape pkt_capacity pkt_data].
  case_if; [done|].
  destruct (0 <? slot_length s) eqn:Hz; cbn [andb].
  - unfold rx_packet_ok in Hp. destruct (pkt_data p) as [m|] eqn:Em; [|lia].
    rewrite bool_decide_eq_true_2 by done. cbn [negb]. rewrite Hbs.
    split; [done|]. constructor; lb_cbn; try done; try congruence.
  - assert (bs = []) as -> by (apply length_zero_iff_nil; lia).
    rewrite set_bytes_nil. split; [done|]. constructor; lb_cbn; try done; try congruence.
Qed.

Lemma send_time_code_refines b f tc t : valid_time_code tc = true -> loopback_refines b f ->
  (loopback_send_time_code b tc t).1 = (fifo_send_time_code f tc t).1 /\
  loopback_refines (loopback_send_time_code b tc t).2 (fifo_send_time_code f tc t).2.
Proof.
  intros Hv HR. pose proof (refines_count b f HR) as [_ Hc].
  pose proof HR as [Hs Hst Hw Hsl Hpk Htw Htc].
  unfold loopback_send_time_code, fifo_send_time_code. rewrite Hs, Hc, Hv. cbn [negb].
  case_if; [done|]. case_if; [done|].
  apply Nat.eqb_neq in E0. pose proof (ring_count_le _ _ Htw).
  split; [done|]. constructor; lb_cbn; try done; try congruence.
  - apply ring_push_wf; [done|lia].
  - erewrite ring_list_push by (done || lia). by rewrite Htc.
Qed.

Lemma receive_time_code_refines b f o t : loopback_refines b f ->
  (loopback_receive_time_code b o t).1 = (fifo_receive_time_code f o t).1 /\
  loopback_refines (loopback_receive_time_code b o t).2 (fifo_receive_time_code f o t).2.
Proof.
  intros HR. pose proof (refines_count b f HR) as [_ Hc].
  pose proof HR as [Hs Hst Hw Hsl Hpk Htw Htc].
  unfold loopback_receive_time_code, fifo_receive_time_code. rewrite Hs, Hc.
  case_if; [done|].
  destruct (f_time_codes f) as [|tc rest] eqn:Ef; [done|]. cbn [length Nat.eqb].
  destruct (ring_list_cons _ _ _ _ Htw Htc) as (Hf & Hl & Hw').
  unfold ring_front in Hf. rewrite Hf.
  split; [done|]. constructor; lb_cbn; try done; try congruence.
Qed.

#[export] Instance loopback_sim : BackendSim LOOPBACK_OPS FIFO_OPS loopback_refines.
Proof.
  split; [|done|split; intros [? ?]; done].
  intros call b f Hok HR. pose proof HR as [Hs Hst Hw Hsl Hpk Htw Htc].
  destruct call; cbn [do_call LOOPBACK_OPS FIFO_OPS op_start op_stop op_reset
    op_get_link_state op_get_capabilities op_get_statistics op_clear_statistics
    op_send op_receive op_send_time_code op_receive_time_code];
    cbn [call_ok] in Hok; try (split_and!; [done|try done; congruence|done]).
  - split_and!; try done. destruct loopback_initial_refines. by constructor.
  - destruct (send_refines b f p timeout Hok HR) as [E HR'].
    destruct (loopback_send _ _ _), (fifo_send _ _ _). done.
  - destruct (receive_refines b f p timeout Hok HR) as [E HR'].
    destruct (loopback_receive _ _ _) as [[]], (fifo_receive _ _ _) as [[]].
    cbn in E. by injection E as -> ->.
  - destruct (send_time_code_refines b f tc timeout Hok HR) as [E HR'].
    destruct (loopback_send_time_code _ _ _), (fifo_send_time_code _ _ _). done.
  - destruct (receive_time_code_refines b f out timeout HR) as [E HR'].
    destruct (loopback_receive_time_code _ _ _) as [[]], (fifo_receive_time_code _ _ _) as [[]].
    cbn in E. by injection E as -> ->.
Qed.

(** ** Correctness *)

(** C16. Whatever sequence of calls the port layer makes on a fresh loopback
    backend, every result code and every out-parameter (received bytes,
    lengths, terminators, time-codes, link state, statistics) is the one the
    two bounded FIFO lists give: the ring arithmetic, the reuse of dirty slots
    and the in-place copies cannot be told from a queue of packets. *)
Theorem loopback_is_fifo calls :
  forallb call_ok calls = true ->
  (run_calls LOOPBACK_OPS loopback_construct.2 calls).1 =
  (run_calls FIFO_OPS fifo_initial calls).1.
Proof.
  intros Hok.
  apply (run_calls_sim LOOPBACK_OPS FIFO_OPS loopback_refines calls _ _ Hok).
  apply loopback_initial_refines.
Qed.

(** What the receiver holds after packet [p] was delivered into [q]. *)
Definition delivered (p q : spw_packet) : spw_packet :=
  set_packet_bytes (packet_payload p) (set_packet_shape (pkt_length p) (pkt_terminator p) q).

Definition deliverable (p q : spw_packet) : Prop :=
  tx_packet_ok p = true /\ pkt_length p <= SPW_LOOPBACK_MAX_PACKET_SIZE /\
  rx_packet_ok q = true /\ pkt_length p <= pkt_capacity q.

Lemma fifo_sends ps : forall f,
  f_state f = SPW_LINK_RUN ->
  Forall (fun p => pkt_length p <= SPW_LOOPBACK_MAX_PACKET_SIZE) ps ->
  (length (f_packets f) + length ps <= SPW_LOOPBACK_PACKET_QUEUE_DEPTH)%nat ->
  let '(rs, f') := run_calls FIFO_OPS f ((fun p => CallSend p 0) <$> ps) in
  rs = replicate (length ps) (SPW_OK, OutNone) /\
  f_state f' = SPW_LINK_RUN /\
  f_packets f' = f_packets f ++ ((fun p => (packet_payload p, pkt_terminator p)) <$> ps).
Proof.
  induction ps as [|p ps IH]; intros f Hs Hl Hc.
  { cbn. by rewrite app_nil_r. }
  cbn [length] in Hc. inversion Hl as [|? ? Hp Hl']; subst.
  cbn [fmap list_fmap run_calls do_call FIFO_OPS op_send]. unfold fifo_send. rewrite Hs.
  cbn [negb Z.eqb SPW_LINK_RUN Pos.eqb].
  replace (SPW_LOOPBACK_MAX_PACKET_SIZE <? pkt_length p) with false by lia.
  rewrite (proj2 (Nat.eqb_neq _ _)) by lia.
  match goal with |- context [run_calls _ ?g _] => specialize (IH g eq_refl Hl') end.
  destruct (run_calls _ _ _) as [rs f']. cbn [f_packets] in IH.
  rewrite length_app in IH. cbn [length] in IH.
  destruct IH as (-> & ? & ->); [lia|]. cbn. by rewrite <- app_assoc.
Qed.

Lemma fifo_receives ps qs : Forall2 deliverable ps qs -> forall f,
  f_state f = SPW_LINK_RUN ->
  f_packets f = (fun p => (packet_payload p, pkt_terminator p)) <$> ps ->
  (run_calls FIFO_OPS f ((fun q => CallReceive q 0) <$> qs)).1 =
  zip_with (fun p q => (SPW_OK, OutPacket (delivered p q))) ps qs.
Proof.
  induction 1 as [|p q ps qs (Hp & _ & _ & Hcap) _ IH]; intros f Hs Hf; [done|].
  cbn [fmap list_fmap run_calls do_call FIFO_OPS op_receive zip_with] in *.
  unfold fifo_receive. rewrite Hs, Hf. cbn [negb Z.eqb SPW_LINK_RUN Pos.eqb].
  assert (Z.of_nat (length (packet_payload p)) = pkt_length p) as ->.
  { rewrite length_payload by done. unfold tx_packet_ok in Hp. split_andb. lia. }
  cbn [set_packet_shape pkt_capacity].
  replace (pkt_capacity q <? pkt_length p) with false by lia.
  match goal with |- context [run_calls _ ?g _] => specialize (IH g eq_refl eq_refl) end.
  destruct (run_calls _ _ _) as [rs f']. cbn [fst] in *. by rewrite IH.
Qed.

(** A started loopback port returns what was sent: up to eight packets of
    up to 4096 bytes, received into storage that is large enough, come back in
    order with the same bytes, length and terminator. *)
Theorem loopback_echo ps qs :
  Forall2 deliverable ps qs -> (length ps <= SPW_LOOPBACK_PACKET_QUEUE_DEPTH)%nat ->
  (run_calls LOOPBACK_OPS loopback_construct.2
     (CallStart :: ((fun p => CallSend p 0) <$> ps) ++ ((fun q => CallReceive q 0) <$> qs))).1 =
  (SPW_OK, OutNone) :: replicate (length ps) (SPW_OK, OutNone) ++
    zip_with (fun p q => (SPW_OK, OutPacket (delivered p q))) ps qs.
Proof.
  intros H Hlen.
  assert (forallb call_ok (CallStart :: ((fun p => CallSend p 0) <$> ps) ++
      ((fun q => CallReceive q 0) <$> qs)) = true) as Hok.
  { cbn [forallb call_ok andb]. rewrite forallb_app. clear Hlen.
    induction H as [|p q ps qs (Hp & _ & Hq & _) _ IH]; [done|].
    cbn [fmap list_fmap forallb call_ok] in *. rewrite Hp, Hq. exact IH. }
  rewrite (proj1 (run_calls_sim LOOPBACK_OPS FIFO_OPS loopback_refines _ _ _ Hok
    loopback_initial_refines)).
  cbn [run_calls do_call FIFO_OPS op_start]. rewrite run_calls_app.
  pose proof (fifo_sends ps (fifo_with_state SPW_LINK_RUN fifo_initial) eq_refl) as Hsend.
  destruct (run_calls _ _ ((fun p => CallSend p 0) <$> ps)) as [rs f'].
  destruct Hsend as (-> & Hs & Hf); [|cbn; lia|].
  { clear Hlen Hok. induction H as [|? ? ? ? (_ & ? & _)]; constructor; done. }
  pose proof (fifo_receives ps qs H f' Hs Hf) as Hr.
  destruct (run_calls _ _ _) as [rs' f'']. cbn [fst] in *. by rewrite Hr.
Qed.

Definition sample_tx (bs : list Z) (terminator : Z) : spw_packet :=
  {| pkt_data := Some bs; pkt_length := Z.of_nat (length bs);
     pkt_capacity := Z.of_nat (length bs); pkt_terminator := terminator |}.

Definition sample_rx (n : nat) : spw_packet :=
  {| pkt_data := Some (replicate n 255); pkt_length := 0; pkt_capacity := Z.of_nat n;
     pkt_terminator := 0 |}.

Definition sample_calls : list backend_call :=
  [CallStart; CallSend (sample_tx [1; 2; 3] 0) 0; CallReceive (sample_rx 4) 0;
   CallReceive (sample_rx 4) 0].

Lemma loopback_is_fifo_witness :
  (run_calls LOOPBACK_OPS loopback_construct.2 sample_calls).1 =
    [(SPW_OK, OutNone); (SPW_OK, OutNone);
     (SPW_OK, OutPacket {| pkt_data := Some [1; 2; 3; 255]; pkt_length := 3;
                           pkt_capacity := 4; pkt_terminator := 0 |});
     (SPW_ERR_TIMEOUT, OutPacket (sample_rx 4))] /\
  (run_calls LOOPBACK_OPS loopback_construct.2 sample_calls).1 =
  (run_calls FIFO_OPS fifo_initial sample_calls).1.
Proof. split; [by vm_compute|]. apply loopback_is_fifo. by vm_compute. Defined.

Lemma loopback_echo_witness :
  (run_calls LOOPBACK_OPS loopback_construct.2
     [CallStart; CallSend (sample_tx [7] 1) 0; CallSend (sample_tx [8; 9] 0) 0;
      CallReceive (sample_rx 2) 0; CallReceive (sample_rx 2) 0]).1 =
  [(SPW_OK, OutNone); (SPW_OK, OutNone); (SPW_OK, OutNone);
   (SPW_OK, OutPacket (delivered (sample_tx [7] 1) (sample_rx 2)));
   (SPW_OK, OutPacket (delivered (sample_tx [8; 9] 0) (sample_rx 2)))].
Proof.
  apply (loopback_echo [sample_tx [7] 1; sample_tx [8; 9] 0] [sample_rx 2; sample_rx 2]);
    [|unfold SPW_LOOPBACK_PACKET_QUEUE_DEPTH; cbn; lia].
  repeat constructor; by vm_compute.
Defined.

(** ** What a loopback port hands out *)

Definition fifo_contents_ok (f : fifo) : Prop :=
  SPW_LINK_ERROR_RESET <= f_state f <= SPW_LINK_RUN /\
  Forall (fun p => bytes_ok p.1 /\ valid_terminator p.2 = true) (f_packets f) /\
  Forall (fun tc => 0 <= time_count tc <= 63 /\ control_flags tc = 0) (f_time_codes f).

#[export] Instance fifo_outputs : BackendOutputs FIFO_OPS fifo_contents_ok.
Proof.
  constructor; cbn [FIFO_OPS op_get_link_state op_send op_receive op_send_time_code
    op_receive_time_code].
  - intros f out H. split; [done|]. intros _. apply H.
  - intros f p t Hf Hp Hb. unfold fifo_send. repeat (case_if; [done|]).
    destruct Hf as (Hs & Hpk & Htc). split; [done|]. split; [|done].
    apply Forall_app. split; [done|]. constructor; [|done]. cbn.
    unfold tx_packet_ok in Hp. split_andb. split; [|done].
    unfold packet_payload. by apply bytes_ok_read.
  - intros f p t Hf Hp Hb. unfold fifo_receive.
    case_if; [done|]. destruct Hf as (Hs & Hpk & Htc).
    destruct (f_packets f) as [|[bs term] rest] eqn:Ef; [by rewrite <- Ef in Hpk|].
    inversion Hpk as [|? ? [Hbs Hterm] Hrest]; subst. cbn [fst snd] in *. cbn zeta.
    case_if; cbn [set_packet_shape pkt_capacity] in E0.
    + unfold fifo_contents_ok. rewrite Ef. done.
    + split; [done|]. cbn [set_packet_bytes set_packet_shape pkt_data pkt_length].
      unfold rx_packet_ok in Hp. split_andb.
      destruct (pkt_data p) as [m|]; cbn in *.
      * rewrite length_mem_write. split; [by apply bytes_ok_write|]. split; [lia|]. split; [lia|done].
      * split; [done|]. split; [done|]. split; [lia|done].
  - intros f tc t Hf Hv H0. unfold fifo_send_time_code. repeat (case_if; [done|]).
    destruct Hf as (Hs & Hpk & Htc). split; [done|]. split; [done|].
    apply Forall_app. split; [done|]. constructor; [|done].
    unfold valid_time_code in Hv. split_andb. lia.
  - intros f out t Hf. unfold fifo_receive_time_code.
    case_if; [done|]. destruct Hf as (Hs & Hpk & Htc).
    destruct (f_time_codes f) as [|tc rest] eqn:Ef; [by rewrite <- Ef in Htc|].
    inversion Htc as [|? ? [Ht Hc] Hrest]; subst. split; [done|]. lia.
Qed.

#[export] Instance loopback_outputs :
  BackendOutputs LOOPBACK_OPS (fun b => exists f, loopback_refines b f /\ fifo_contents_ok f).
Proof. apply (outputs_sim _ FIFO_OPS loopback_refines fifo_contents_ok). Qed.
