(* ===== verification/Port.v ===== *)
(** * The port layer

    src/src/core/port.c from [spw_port_workspace_requirements] on: opening and
    closing a port, its lifecycle, the checks and dispatch of every public
    operation, and the ownership of zero-copy buffers.

    The section is parametric in the backends: [C] is the type of backend
    contexts, [factories] gives the table of each backend, and the buffer
    structures a context holds are reached through [BufferMemory].  The port
    structure lives at the start of its workspace, so [workspace_base] is also
    the address of the port. *)

From S2P Require Import Prelude Types Backend DriverApi PortConfig.

(** Reading and writing the [spw_buffer] structures that live in a backend's
    memory; [buffer_valid] says which handles point to one. *)
Class BufferMemory (C : Type) := {
  buffer_valid : C -> nat -> bool;
  buffer_at : C -> nat -> spw_buffer;
  set_buffer : C -> nat -> spw_buffer -> C;
  buffer_at_set : forall c h b, buffer_valid c h = true ->
    buffer_at (set_buffer c h b) h = b;
  buffer_at_set_other : forall c h h' b, h <> h' ->
    buffer_at (set_buffer c h b) h' = buffer_at c h';
  buffer_valid_set : forall c h h' b, buffer_valid (set_buffer c h b) h' = buffer_valid c h'
}.

Section port.
Context {P C : Type}.

Record spw_port := {
  ops : option (spw_backend_ops C);
  backend_context : option C;
  destroy_backend : C -> C;
  workspace_base : Z;
  workspace_alignment : Z;
  release_workspace : bool;
  locally_started : bool;
  ownership_epoch : Z
}.

Definition validate_port (port : option spw_port) : Z :=
  match port with
  | Some p => if non_null (ops p) && non_null (backend_context p)
              then SPW_OK else SPW_ERR_INVALID_ARGUMENT
  | None => SPW_ERR_INVALID_ARGUMENT
  end.

Definition validate_started_port (port : option spw_port) : Z :=
  let result := validate_port port in
  if negb (result =? SPW_OK) then result else
  match port with
  | Some p => if locally_started p then SPW_OK else SPW_ERR_INVALID_STATE
  | None => SPW_ERR_INVALID_ARGUMENT
  end.

(** ** Field updates *)

Definition with_context (c : C) (p : spw_port) : spw_port :=
  {| ops := ops p; backend_context := Some c; destroy_backend := destroy_backend p;
     workspace_base := workspace_base p; workspace_alignment := workspace_alignment p;
     release_workspace := release_workspace p; locally_started := locally_started p;
     ownership_epoch := ownership_epoch p |}.

Definition with_started (b : bool) (p : spw_port) : spw_port :=
  {| ops := ops p; backend_context := backend_context p;
     destroy_backend := destroy_backend p;
     workspace_base := workspace_base p; workspace_alignment := workspace_alignment p;
     release_workspace := release_workspace p; locally_started := b;
     ownership_epoch := ownership_epoch p |}.

Definition with_epoch (e : Z) (p : spw_port) : spw_port :=
  {| ops := ops p; backend_context := backend_context p;
     destroy_backend := destroy_backend p;
     workspace_base := workspace_base p; workspace_alignment := workspace_alignment p;
     release_workspace := release_workspace p; locally_started := locally_started p;
     ownership_epoch := e |}.

Definition with_release (b : bool) (p : spw_port) : spw_port :=
  {| ops := ops p; backend_context := backend_context p;
     destroy_backend := destroy_backend p;
     workspace_base := workspace_base p; workspace_alignment := workspace_alignment p;
     release_workspace := b; locally_started := locally_started p;
     ownership_epoch := ownership_epoch p |}.

(** The check [validate_port (port) != SPW_OK] with its early return [invalid],
    and then the code [f] on the port, its table and its context. *)
Definition on_backend {R} (port : option spw_port) (invalid : R)
    (f : spw_port -> spw_backend_ops C -> C -> R * spw_port) : R * option spw_port :=
  match port with
  | Some p =>
      match ops p, backend_context p with
      | Some o, Some c => let '(r, p) := f p o c in (r, Some p)
      | _, _ => (invalid, port)
      end
  | None => (invalid, port)
  end.

(** ** Opening and closing *)

Section open.
Context (A : abi) (B : build) (factories : factory_id -> spw_backend_factory P C).

Definition spw_port_workspace_requirements (config : option (spw_port_config P))
    (out : option spw_port_workspace_requirements)
    : Z * option spw_port_workspace_requirements :=
  match out with
  | None => (SPW_ERR_INVALID_ARGUMENT, None)
  | Some _ =>
      match select_factory A B config with
      | (result, Some id) =>
          if negb (result =? SPW_OK) then (result, Some no_requirements) else
          let factory := factories id in
          if (context_size factory =? 0) || (context_alignment factory =? 0)
          then (SPW_ERR_BACKEND, Some no_requirements) else
          match config with
          | Some config =>
              let '(result, req) := requirements_for A config factory no_requirements in
              (result, Some req)
          | None => (SPW_ERR_BACKEND, Some no_requirements)
          end
      | (result, None) =>
          if negb (result =? SPW_OK) then (result, Some no_requirements)
          else (SPW_ERR_BACKEND, Some no_requirements)
      end
  end.

(** [out_port] is taken to be non-NULL; the port is returned. *)
Definition spw_port_open_in_place (config : option (spw_port_config P))
    (workspace : option Z) (workspace_size : Z) : Z * option spw_port :=
  match select_factory A B config, config with
  | (result, Some id), Some config =>
      if negb (result =? SPW_OK) then (result, None) else
      let factory := factories id in
      let '(result, requirements) := requirements_for A config factory no_requirements in
      if negb (result =? SPW_OK) then (result, None) else
      match workspace with
      | None => (SPW_ERR_INVALID_ARGUMENT, None)
      | Some workspace =>
          if negb (is_aligned workspace (req_alignment requirements))
          then (SPW_ERR_INVALID_ARGUMENT, None) else
          if workspace_size <? req_size requirements
          then (SPW_ERR_BUFFER_TOO_SMALL, None) else
          let '(result, context) := construct factory config in
          if negb (result =? SPW_OK) then (result, None) else
          (SPW_OK,
           Some {| ops := Some (factory_ops factory); backend_context := Some context;
                   destroy_backend := destroy factory; workspace_base := workspace;
                   workspace_alignment := req_alignment requirements;
                   release_workspace := false; locally_started := false;
                   ownership_epoch := 1 |})
      end
  | (result, _), _ => (result, None)
  end.

(** [allocate_workspace]: the C library's aligned_alloc, called with the size
    rounded up to the alignment; [None] is a NULL result. *)
Variable aligned_alloc : Z -> Z -> option Z.

Definition allocate_workspace (size alignment : Z) : option Z :=
  aligned_alloc alignment (align_up size alignment).

(** The last component is the workspace handed to free_workspace, if any. *)
Definition spw_port_open (config : option (spw_port_config P))
    : Z * option spw_port * option Z :=
  let '(result, requirements) :=
    spw_port_workspace_requirements config (Some no_requirements) in
  if negb (result =? SPW_OK) then (result, None, None) else
  if enable_heap B then
    let requirements := default no_requirements requirements in
    match allocate_workspace (req_size requirements) (req_alignment requirements) with
    | None => (SPW_ERR_RESOURCE_EXHAUSTED, None, None)
    | Some workspace =>
        match spw_port_open_in_place config (Some workspace) (req_size requirements) with
        | (result, port) =>
            if negb (result =? SPW_OK) then (result, None, Some workspace)
            else (SPW_OK, with_release true <$> port, None)
        end
    end
  else (SPW_ERR_UNSUPPORTED, None, None).

(** Result, the port as close leaves it, the destroyed context and the
    workspace freed. *)
Definition spw_port_close (port : option spw_port)
    : Z * option spw_port * option C * option Z :=
  match port with
  | Some p =>
      if negb (validate_port port =? SPW_OK)
      then (SPW_ERR_INVALID_ARGUMENT, port, None, None) else
      (SPW_OK,
       Some {| ops := None; backend_context := None; destroy_backend := destroy_backend p;
               workspace_base := workspace_base p;
               workspace_alignment := workspace_alignment p;
               release_workspace := release_workspace p; locally_started := false;
               ownership_epoch := ownership_epoch p |},
       destroy_backend p <$> backend_context p,
       if enable_heap B && release_workspace p then Some (workspace_base p) else None)
  | None => (SPW_ERR_INVALID_ARGUMENT, None, None, None)
  end.
End open.

(** ** Lifecycle *)

Definition spw_port_start (port : option spw_port) : Z * option spw_port :=
  on_backend port SPW_ERR_INVALID_ARGUMENT (fun p o c =>
    let '(result, c) := op_start o c in
    let p := with_context c p in
    (result, if result =? SPW_OK then with_started true p else p)).

Definition spw_port_stop (port : option spw_port) : Z * option spw_port :=
  on_backend port SPW_ERR_INVALID_ARGUMENT (fun p o c =>
    let '(result, c) := op_stop o c in
    let p := with_context c p in
    (result, if result =? SPW_OK then with_started false p else p)).

Definition spw_port_reset (port : option spw_port) : Z * option spw_port :=
  on_backend port SPW_ERR_INVALID_ARGUMENT (fun p o c =>
    let '(result, c) := op_reset o c in
    let p := with_context c p in
    if result =? SPW_OK then
      let p := with_started false p in
      let epoch := u64 (ownership_epoch p + 1) in
      (result, with_epoch (if epoch =? 0 then 1 else epoch) p)
    else (result, p)).

(** ** State, capabilities, readiness *)

Definition spw_port_get_link_state (port : option spw_port) (out_state : option Z)
    : Z * option Z * option spw_port :=
  match out_state with
  | None => (SPW_ERR_INVALID_ARGUMENT, None, port)
  | Some out =>
      on_backend port (SPW_ERR_INVALID_ARGUMENT, Some out) (fun p o c =>
        let '(result, out, c) := op_get_link_state o c out in
        (result, Some out, with_context c p))
  end.

Definition spw_port_get_capabilities (port : option spw_port) (out : option spw_capabilities)
    : Z * option spw_capabilities * option spw_port :=
  match out with
  | None => (SPW_ERR_INVALID_ARGUMENT, None, port)
  | Some out =>
      on_backend port (SPW_ERR_INVALID_ARGUMENT, Some out) (fun p o c =>
        let '(result, out, c) := op_get_capabilities o c out in
        if result =? SPW_OK then
          let bits := cap_bits out in
          let bits :=
            match op_supports_zero_copy o with
            | Some f => if f c then bits .| SPW_CAP_ZERO_COPY else bits
            | None => bits
            end in
          let bits := if non_null (op_wait o) then bits .| SPW_CAP_READINESS else bits in
          (result,
           Some {| cap_bits := bits; cap_max_packet_size := cap_max_packet_size out;
                   cap_tx_queue_depth := cap_tx_queue_depth out;
                   cap_rx_queue_depth := cap_rx_queue_depth out;
                   cap_buffer_alignment := cap_buffer_alignment out |},
           with_context c p)
        else (result, Some out, with_context c p))
  end.

Definition spw_port_wait (port : option spw_port) (interests timeout_us : Z) (out_ready : option Z)
    : Z * option Z * option spw_port :=
  match out_ready with
  | None => (SPW_ERR_INVALID_ARGUMENT, None, port)
  | Some out =>
      if (interests =? SPW_READY_NONE) ||
         negb (interests .& Z.lnot SPW_READY_ALL =? 0)
      then (SPW_ERR_INVALID_ARGUMENT, Some out, port) else
      let state_result := validate_started_port port in
      if negb (state_result =? SPW_OK) then (state_result, Some SPW_READY_NONE, port) else
      on_backend port (SPW_ERR_INVALID_ARGUMENT, Some SPW_READY_NONE) (fun p o c =>
        match op_wait o with
        | None => (SPW_ERR_UNSUPPORTED, Some SPW_READY_NONE, p)
        | Some f =>
            let '(result, ready, c) := f c interests timeout_us SPW_READY_NONE in
            (result, Some ready, with_context c p)
        end)
  end.

(** ** Copied I/O *)

Definition spw_port_send (port : option spw_port) (packet : option spw_packet)
    (timeout_us : Z) : Z * option spw_port :=
  match packet with
  | None => (SPW_ERR_INVALID_ARGUMENT, port)
  | Some packet =>
      if negb (pkt_length packet =? 0) && negb (non_null (pkt_data packet))
      then (SPW_ERR_INVALID_ARGUMENT, port) else
      if negb (valid_terminator (pkt_terminator packet)) ||
         (negb (pkt_capacity packet =? 0) && (pkt_capacity packet <? pkt_length packet))
      then (SPW_ERR_INVALID_PACKET, port) else
      let state_result := validate_started_port port in
      if negb (state_result =? SPW_OK) then (state_result, port) else
      on_backend port SPW_ERR_INVALID_ARGUMENT (fun p o c =>
        let '(result, c) := op_send o c packet timeout_us in (result, with_context c p))
  end.

Definition spw_port_receive (port : option spw_port) (packet : option spw_packet)
    (timeout_us : Z) : Z * option spw_packet * option spw_port :=
  match packet with
  | None => (SPW_ERR_INVALID_ARGUMENT, None, port)
  | Some packet =>
      if negb (pkt_capacity packet =? 0) && negb (non_null (pkt_data packet))
      then (SPW_ERR_INVALID_ARGUMENT, Some packet, port) else
      let state_result := validate_started_port port in
      if negb (state_result =? SPW_OK) then (state_result, Some packet, port) else
      on_backend port (SPW_ERR_INVALID_ARGUMENT, Some packet) (fun p o c =>
        let '(result, packet, c) := op_receive o c packet timeout_us in
        (result, Some packet, with_context c p))
  end.

Definition spw_port_send_time_code (port : option spw_port)
    (time_code : option spw_time_code) (timeout_us : Z) : Z * option spw_port :=
  match time_code with
  | None => (SPW_ERR_INVALID_ARGUMENT, port)
  | Some time_code =>
      if negb (valid_time_code time_code) then (SPW_ERR_INVALID_ARGUMENT, port) else
      let state_result := validate_started_port port in
      if negb (state_result =? SPW_OK) then (state_result, port) else
      on_backend port SPW_ERR_INVALID_ARGUMENT (fun p o c =>
        let '(result, c) := op_send_time_code o c time_code timeout_us in
        (result, with_context c p))
  end.

Definition spw_port_receive_time_code (port : option spw_port)
    (time_code : option spw_time_code) (timeout_us : Z)
    : Z * option spw_time_code * option spw_port :=
  match time_code with
  | None => (SPW_ERR_INVALID_ARGUMENT, None, port)
  | Some time_code =>
      let state_result := validate_started_port port in
      if negb (state_result =? SPW_OK) then (state_result, Some time_code, port) else
      on_backend port (SPW_ERR_INVALID_ARGUMENT, Some time_code) (fun p o c =>
        let '(result, time_code, c) := op_receive_time_code o c time_code timeout_us in
        (result, Some time_code, with_context c p))
  end.

(** ** Statistics *)

Definition spw_port_get_statistics (port : option spw_port) (out : option spw_statistics)
    : Z * option spw_statistics * option spw_port :=
  match out with
  | None => (SPW_ERR_INVALID_ARGUMENT, None, port)
  | Some out =>
      on_backend port (SPW_ERR_INVALID_ARGUMENT, Some out) (fun p o c =>
        let '(result, out, c) := op_get_statistics o c out in
        (result, Some out, with_context c p))
  end.

Definition spw_port_clear_statistics (port : option spw_port) : Z * option spw_port :=
  on_backend port SPW_ERR_INVALID_ARGUMENT (fun p o c =>
    let '(result, c) := op_clear_statistics o c in (result, with_context c p)).

Definition spw_port_get_fault_statistics (port : option spw_port)
    (out : option spw_fault_statistics)
    : Z * option spw_fault_statistics * option spw_port :=
  match out with
  | None => (SPW_ERR_INVALID_ARGUMENT, None, port)
  | Some out =>
      on_backend port (SPW_ERR_INVALID_ARGUMENT, Some out) (fun p o c =>
        match op_get_fault_statistics o with
        | None => (SPW_ERR_UNSUPPORTED, Some fault_statistics_zero, p)
        | Some f =>
            let '(result, out, c) := f c out in (result, Some out, with_context c p)
        end)
  end.

Definition spw_port_clear_fault_statistics (port : option spw_port) : Z * option spw_port :=
  on_backend port SPW_ERR_INVALID_ARGUMENT (fun p o c =>
    match op_clear_fault_statistics o with
    | None => (SPW_ERR_UNSUPPORTED, p)
    | Some f => let '(result, c) := f c in (result, with_context c p)
    end).

(** ** Zero-copy buffers *)

Section buffers.
Context `{!BufferMemory C}.

(** [*internal->owner_epoch]: the epoch stored at a port's address.  [epochs]
    is that memory for the other ports. *)
Definition epoch_memory (epochs : Z -> Z) (port : option spw_port) (address : Z) : Z :=
  match port with
  | Some p => if address =? workspace_base p then ownership_epoch p else epochs address
  | None => epochs address
  end.

Definition application_owned (epoch_at : Z -> Z) (b : spw_buffer) : bool :=
  (buf_state b =? SPW_BUFFER_STATE_APPLICATION) &&
  match buf_owner_epoch b with
  | Some address => buf_epoch b =? epoch_at address
  | None => false
  end.

Definition buffer_owned_by_port (epochs : Z -> Z) (b : spw_buffer) (port : option spw_port)
    : bool :=
  application_owned (epoch_memory epochs port) b &&
  match port, buf_owner_epoch b with
  | Some p, Some address => address =? workspace_base p
  | _, _ => false
  end.

Definition bind_buffer_epoch (p : spw_port) (b : spw_buffer) : spw_buffer :=
  {| buf_data := buf_data b; buf_length := buf_length b; buf_capacity := buf_capacity b;
     buf_terminator := buf_terminator b; buf_owner := buf_owner b;
     buf_direction := buf_direction b; buf_state := buf_state b; buf_token := buf_token b;
     buf_owner_epoch := Some (workspace_base p); buf_epoch := ownership_epoch p |}.

Record spw_buffer_view := {
  view_data : option Z;
  view_length : Z;
  view_capacity : Z;
  view_terminator : Z
}.

Definition spw_buffer_get_view (epoch_at : Z -> Z) (buffer : option spw_buffer)
    (out_view : option spw_buffer_view) : Z * option spw_buffer_view :=
  match buffer, out_view with
  | Some b, Some out =>
      if negb (application_owned epoch_at b) then (SPW_ERR_INVALID_STATE, Some out) else
      (SPW_OK,
       Some {| view_data := buf_data b; view_length := buf_length b;
               view_capacity := buf_capacity b; view_terminator := buf_terminator b |})
  | _, _ => (SPW_ERR_INVALID_ARGUMENT, out_view)
  end.

Definition set_buffer_packet (length terminator : Z) (b : spw_buffer) : spw_buffer :=
  {| buf_data := buf_data b; buf_length := length; buf_capacity := buf_capacity b;
     buf_terminator := terminator; buf_owner := buf_owner b;
     buf_direction := buf_direction b; buf_state := buf_state b; buf_token := buf_token b;
     buf_owner_epoch := buf_owner_epoch b; buf_epoch := buf_epoch b |}.

Definition spw_buffer_set_packet (epoch_at : Z -> Z) (buffer : option spw_buffer)
    (length terminator : Z) : Z * option spw_buffer :=
  match buffer with
  | None => (SPW_ERR_INVALID_ARGUMENT, None)
  | Some b =>
      if negb (application_owned epoch_at b) then (SPW_ERR_INVALID_STATE, buffer) else
      if negb (buf_direction b =? SPW_BUFFER_DIRECTION_TX)
      then (SPW_ERR_INVALID_STATE, buffer) else
      if (buf_capacity b <? length) || negb (valid_terminator terminator)
      then (SPW_ERR_INVALID_PACKET, buffer) else
      (SPW_OK, Some (set_buffer_packet length terminator b))
  end.

(** After a successful acquire or reclaim the handle is bound to the port. *)
Definition bind_result (p : spw_port) (result : Z) (handle : option nat) (c : C) : C :=
  match handle with
  | Some h =>
      if result =? SPW_OK then set_buffer c h (bind_buffer_epoch p (buffer_at c h)) else c
  | None => c
  end.

(** The three acquiring operations, [entry] the table's callback applied to
    its arguments ([out_buffer] non-NULL; the handle is returned). *)
Definition acquire_through (port : option spw_port)
    (entry : spw_backend_ops C -> option (C -> Z * option nat * C))
    : Z * option nat * option spw_port :=
  let state_result := validate_started_port port in
  if negb (state_result =? SPW_OK) then (state_result, None, port) else
  on_backend port (SPW_ERR_INVALID_ARGUMENT, None) (fun p o c =>
    match entry o with
    | None => (SPW_ERR_UNSUPPORTED, None, p)
    | Some f =>
        let '(result, handle, c) := f c in
        (result, handle, with_context (bind_result p result handle c) p)
    end).

Definition spw_port_acquire_tx_buffer (port : option spw_port)
    (min_capacity timeout_us : Z) : Z * option nat * option spw_port :=
  acquire_through port (fun o =>
    (fun f c => f c min_capacity timeout_us) <$> op_acquire_tx_buffer o).

Definition spw_port_reclaim_tx_buffer (port : option spw_port) (timeout_us : Z)
    : Z * option nat * option spw_port :=
  acquire_through port (fun o => (fun f c => f c timeout_us) <$> op_reclaim_tx_buffer o).

Definition spw_port_acquire_rx_buffer (port : option spw_port) (timeout_us : Z)
    : Z * option nat * option spw_port :=
  acquire_through port (fun o => (fun f c => f c timeout_us) <$> op_acquire_rx_buffer o).

(** The three giving-up operations after their pointer and state checks: the
    caller's handle becomes NULL exactly on success. *)
Definition give_through (epochs : Z -> Z) (port : option spw_port) (h : nat)
    (entry : spw_backend_ops C -> option (C -> nat -> Z * C))
    : Z * option nat * option spw_port :=
  on_backend port (SPW_ERR_INVALID_ARGUMENT, Some h) (fun p o c =>
    if negb (buffer_owned_by_port epochs (buffer_at c h) port)
    then (SPW_ERR_INVALID_STATE, Some h, p) else
    match entry o with
    | None => (SPW_ERR_UNSUPPORTED, Some h, p)
    | Some f =>
        let '(result, c) := f c h in
        (result, if result =? SPW_OK then None else Some h, with_context c p)
    end).

Definition spw_port_submit_tx_buffer (epochs : Z -> Z) (port : option spw_port)
    (inout_buffer : option nat) (timeout_us : Z) : Z * option nat * option spw_port :=
  match inout_buffer with
  | None => (SPW_ERR_INVALID_ARGUMENT, None, port)
  | Some h =>
      let state_result := validate_started_port port in
      if negb (state_result =? SPW_OK) then (state_result, Some h, port) else
      give_through epochs port h (fun o =>
        (fun f c h => f c h timeout_us) <$> op_submit_tx_buffer o)
  end.

Definition spw_port_release_tx_buffer (epochs : Z -> Z) (port : option spw_port)
    (inout_buffer : option nat) : Z * option nat * option spw_port :=
  match inout_buffer with
  | None => (SPW_ERR_INVALID_ARGUMENT, None, port)
  | Some h => give_through epochs port h op_release_tx_buffer
  end.

Definition spw_port_release_rx_buffer (epochs : Z -> Z) (port : option spw_port)
    (inout_buffer : option nat) : Z * option nat * option spw_port :=
  match inout_buffer with
  | None => (SPW_ERR_INVALID_ARGUMENT, None, port)
  | Some h => give_through epochs port h op_release_rx_buffer
  end.
End buffers.
End port.
Arguments spw_port : clear implicits.
