(* ===== verification/PortClient.v ===== *)
(** * Clients of a port

    What a program that uses a port of an arbitrary backend may rely on: the
    server with its bridge and the CUSE presenter.  [BackendOutputs] is what the
    backend promises, and [port_runs] is kept by every call. *)

From S2P Require Import Prelude Types Backend DriverApi Loopback PortConfig Port.

Definition time_code_ok (tc : spw_time_code) : Prop :=
  0 <= time_count tc <= 63 /\ 0 <= control_flags tc <= 3.

Definition link_state_ok (state : Z) : Prop :=
  SPW_LINK_ERROR_RESET <= state <= SPW_LINK_RUN.

(** Waiting keeps the invariant of the backend too. *)
Class BackendWaits {C : Type} (ops : spw_backend_ops C) (I : C -> Prop) : Prop :=
  out_wait : forall f c interests t out, op_wait ops = Some f -> I c -> I (f c interests t out).2.

Section client.
Context {B : Type} (o : spw_backend_ops B) (Inv : B -> Prop) `{!BackendOutputs o Inv}.

(** The port, if any, runs the backend [o] in a good state. *)
Definition port_runs (port : option (spw_port B)) : Prop :=
  forall p, port = Some p ->
    (forall o', ops p = Some o' -> o' = o) /\
    (forall c, backend_context p = Some c -> Inv c).

(** ** The calls *)

Lemma on_backend_runs {R} (port : option (spw_port B)) (invalid : R) f
    (Q : R * option (spw_port B) -> Prop) :
  port_runs port -> Q (invalid, port) ->
  (forall p c, port = Some p -> ops p = Some o -> backend_context p = Some c -> Inv c ->
     Q (let '(r, p) := f p o c in (r, Some p))) ->
  Q (on_backend port invalid f).
Proof.
  intros Hu Hq Hf. unfold on_backend. destruct port as [p|]; [|done].
  destruct (Hu p eq_refl) as [Hops Hctx].
  destruct (ops p) as [o'|] eqn:Eo; [|done]. destruct (backend_context p) as [c|] eqn:Ec; [|done].
  rewrite (Hops o' eq_refl) in *. apply Hf; auto.
Qed.

Lemma port_runs_context p c : ops p = Some o -> Inv c -> port_runs (Some (with_context c p)).
Proof.
  intros Ho Hc p' [= <-]. cbn. rewrite Ho. split; [congruence|]. by intros c' [= <-].
Qed.

Lemma link_state_runs port x : port_runs port ->
  let '(r, out, port') := spw_port_get_link_state port (Some x) in
  port_runs port' /\ (r = SPW_OK -> link_state_ok (default SPW_LINK_ERROR_WAIT out)).
Proof.
  intros Hu. unfold spw_port_get_link_state.
  apply (on_backend_runs port _ _
    (fun '(r, out, port') => port_runs port' /\
       (r = SPW_OK -> link_state_ok (default SPW_LINK_ERROR_WAIT out)))); [done|done|].
  intros p c _ Ho _ Hc. pose proof (out_link_state c x Hc) as H.
  destruct (op_get_link_state o c x) as [[r st] c']. destruct H as [Hc' Hst].
  split; [by apply port_runs_context|]. exact Hst.
Qed.

Lemma send_runs port p t : port_runs port -> tx_packet_ok p = true ->
  bytes_ok (default [] (pkt_data p)) -> port_runs (spw_port_send port (Some p) t).2.
Proof.
  intros Hu Hp Hb. unfold spw_port_send. repeat (case_if; [done|]).
  apply (on_backend_runs port _ _ (fun x => port_runs x.2)); [done|done|].
  intros q c _ Ho _ Hc. pose proof (out_send c p t Hc Hp Hb) as H.
  destruct (op_send o c p t) as [r c']. by apply port_runs_context.
Qed.

Lemma send_time_code_runs port tc t : port_runs port -> 0 <= time_count tc ->
  port_runs (spw_port_send_time_code port (Some tc) t).2.
Proof.
  intros Hu H0. unfold spw_port_send_time_code. case_if; [done|]. apply negb_false_iff in E.
  case_if; [done|].
  apply (on_backend_runs port _ _ (fun x => port_runs x.2)); [done|done|].
  intros q c _ Ho _ Hc. pose proof (out_send_time_code c tc t Hc E H0) as H.
  destruct (op_send_time_code o c tc t) as [r c']. by apply port_runs_context.
Qed.

Lemma receive_runs port p t : port_runs port -> rx_packet_ok p = true ->
  bytes_ok (default [] (pkt_data p)) ->
  let '(r, out, port') := spw_port_receive port (Some p) t in
  let p' := default p out in
  port_runs port' /\ bytes_ok (default [] (pkt_data p')) /\
  length (default [] (pkt_data p')) = length (default [] (pkt_data p)) /\
  (r = SPW_OK -> 0 <= pkt_length p' <= pkt_capacity p /\
     valid_terminator (pkt_terminator p') = true).
Proof.
  intros Hu Hp Hb. unfold spw_port_receive. case_if; [done|].
  destruct (negb (validate_started_port port =? SPW_OK)) eqn:Es.
  { split; [done|]. split; [done|]. split; [done|]. intros Hz. rewrite Hz in Es. done. }
  apply (on_backend_runs port _ _
    (fun '(r, out, port') => let p' := default p out in
      port_runs port' /\ bytes_ok (default [] (pkt_data p')) /\
      length (default [] (pkt_data p')) = length (default [] (pkt_data p)) /\
      (r = SPW_OK -> 0 <= pkt_length p' <= pkt_capacity p /\
        valid_terminator (pkt_terminator p') = true))); [done|done|].
  intros q c _ Ho _ Hc. pose proof (out_receive c p t Hc Hp Hb) as H.
  destruct (op_receive o c p t) as [[r p'] c']. destruct H as (Hc' & H).
  split; [by apply port_runs_context|]. exact H.
Qed.

Lemma receive_time_code_runs port tc t : port_runs port ->
  let '(r, out, port') := spw_port_receive_time_code port (Some tc) t in
  port_runs port' /\ (r = SPW_OK -> time_code_ok (default zero_time_code out)).
Proof.
  intros Hu. unfold spw_port_receive_time_code.
  destruct (negb (validate_started_port port =? SPW_OK)) eqn:Es.
  { split; [done|]. intros Hz. rewrite Hz in Es. done. }
  apply (on_backend_runs port _ _
    (fun '(r, out, port') =>
      port_runs port' /\ (r = SPW_OK -> time_code_ok (default zero_time_code out)))); [done|done|].
  intros q c _ Ho _ Hc. pose proof (out_receive_time_code c tc t Hc) as H.
  destruct (op_receive_time_code o c tc t) as [[r tc'] c']. destruct H as [Hc' H].
  split; [by apply port_runs_context|]. exact H.
Qed.

Lemma wait_runs `{!BackendWaits o Inv} port interests t out : port_runs port ->
  port_runs (spw_port_wait port interests t out).2.
Proof.
  intros Hu. unfold spw_port_wait. destruct out; [|done]. repeat (case_if; [done|]).
  apply (on_backend_runs port _ _ (fun x => port_runs x.2)); [done|done|].
  intros q c -> Ho _ Hc. destruct (op_wait o) as [f|] eqn:Ef; [|done].
  pose proof (out_wait f c interests t SPW_READY_NONE Ef Hc) as H.
  destruct (f c interests t SPW_READY_NONE) as [[r ready] c']. by apply port_runs_context.
Qed.
End client.
