(* ===== verification/PortProps.v ===== *)
(** * Correctness of the port layer

    Theorems about [Port]: a port over one backend behaves as a port over any
    backend that simulates it, the lifecycle gates every operation, and a
    buffer handle stops being usable when its port is reset. *)

From S2P Require Import Prelude Types Backend DriverApi PortConfig Port PortClient Ring Loopback.

(** ** The public operations as one step function *)

Inductive api_call :=
| ApiStart
| ApiStop
| ApiReset
| ApiLinkState (out : option Z)
| ApiCapabilities (out : option spw_capabilities)
| ApiWait (interests timeout : Z) (out : option Z)
| ApiSend (packet : option spw_packet) (timeout : Z)
| ApiReceive (packet : option spw_packet) (timeout : Z)
| ApiSendTimeCode (tc : option spw_time_code) (timeout : Z)
| ApiReceiveTimeCode (tc : option spw_time_code) (timeout : Z)
| ApiStatistics (out : option spw_statistics)
| ApiClearStatistics
| ApiFaultStatistics (out : option spw_fault_statistics)
| ApiClearFaultStatistics.

Definition out_of {A} (f : A -> backend_out) (o : option A) : backend_out :=
  match o with Some a => f a | None => OutNone end.

Definition do_api {C} (port : option (spw_port C)) (call : api_call)
    : Z * backend_out * option (spw_port C) :=
  match call with
  | ApiStart => let '(r, p) := spw_port_start port in (r, OutNone, p)
  | ApiStop => let '(r, p) := spw_port_stop port in (r, OutNone, p)
  | ApiReset => let '(r, p) := spw_port_reset port in (r, OutNone, p)
  | ApiLinkState out =>
      let '(r, o, p) := spw_port_get_link_state port out in (r, out_of OutState o, p)
  | ApiCapabilities out =>
      let '(r, o, p) := spw_port_get_capabilities port out in (r, out_of OutCapabilities o, p)
  | ApiWait i t out =>
      let '(r, o, p) := spw_port_wait port i t out in (r, out_of OutReady o, p)
  | ApiSend packet t => let '(r, p) := spw_port_send port packet t in (r, OutNone, p)
  | ApiReceive packet t =>
      let '(r, o, p) := spw_port_receive port packet t in (r, out_of OutPacket o, p)
  | ApiSendTimeCode tc t =>
      let '(r, p) := spw_port_send_time_code port tc t in (r, OutNone, p)
  | ApiReceiveTimeCode tc t =>
      let '(r, o, p) := spw_port_receive_time_code port tc t in (r, out_of OutTimeCode o, p)
  | ApiStatistics out =>
      let '(r, o, p) := spw_port_get_statistics port out in (r, out_of OutStatistics o, p)
  | ApiClearStatistics => let '(r, p) := spw_port_clear_statistics port in (r, OutNone, p)
  | ApiFaultStatistics out =>
      let '(r, o, p) := spw_port_get_fault_statistics port out in
      (r, out_of OutFaultStatistics o, p)
  | ApiClearFaultStatistics =>
      let '(r, p) := spw_port_clear_fault_statistics port in (r, OutNone, p)
  end.

Fixpoint run_api {C} (port : option (spw_port C)) (calls : list api_call)
    : list (Z * backend_out) * option (spw_port C) :=
  match calls with
  | [] => ([], port)
  | call :: calls =>
      let '(r, out, port) := do_api port call in
      let '(rs, port) := run_api port calls in
      ((r, out) :: rs, port)
  end.

(** The caller's part: storage is as large as the packet says. *)
Definition api_ok (call : api_call) : bool :=
  match call with
  | ApiSend (Some p) _ =>
      (0 <=? pkt_length p) &&
      match pkt_data p with
      | Some bs => pkt_length p <=? Z.of_nat (length bs) | None => true end
  | ApiReceive (Some p) _ =>
      (0 <=? pkt_capacity p) &&
      match pkt_data p with
      | Some bs => pkt_capacity p =? Z.of_nat (length bs) | None => true end
  | _ => true
  end.

(** ** A port over a simulated backend *)

Section sim.
Context {C A : Type} (cops : spw_backend_ops C) (aops : spw_backend_ops A) (R : C -> A -> Prop).
Context `{!BackendSim cops aops R}.

Record port_rel (p : spw_port C) (a : spw_port A) : Prop := {
  pr_live : (ops p = Some cops /\ ops a = Some aops) \/ (ops p = None /\ ops a = None);
  pr_context : option_relation R (fun _ => False) (fun _ => False)
                 (backend_context p) (backend_context a);
  pr_base : workspace_base p = workspace_base a;
  pr_started : locally_started p = locally_started a;
  pr_epoch : ownership_epoch p = ownership_epoch a
}.

Definition ports_rel : option (spw_port C) -> option (spw_port A) -> Prop :=
  option_relation port_rel (fun _ => False) (fun _ => False).

Lemma validate_started_rel port port' : ports_rel port port' ->
  validate_started_port port = validate_started_port port'.
Proof.
  unfold validate_started_port, validate_port.
  destruct port as [p|], port' as [a|]; cbn; try done.
  intros [[[-> ->]|[-> ->]] Hc _ -> _]; [|done].
  by destruct (backend_context p), (backend_context a).
Qed.

(** Related dispatch: if the code after [validate_port] is related on related
    contexts, so is the whole operation. *)
Lemma on_backend_rel {X} port port' (inv : X)
    (f : spw_port C -> spw_backend_ops C -> C -> X * spw_port C)
    (g : spw_port A -> spw_backend_ops A -> A -> X * spw_port A) :
  ports_rel port port' ->
  (forall p a c x, port_rel p a -> R c x ->
     backend_context p = Some c -> backend_context a = Some x ->
     (f p cops c).1 = (g a aops x).1 /\ port_rel (f p cops c).2 (g a aops x).2) ->
  (on_backend port inv f).1 = (on_backend port' inv g).1 /\
  ports_rel (on_backend port inv f).2 (on_backend port' inv g).2.
Proof.
  intros Hp Hfg. destruct port as [p|], port' as [a|]; try done.
  cbn in Hp. pose proof Hp as [Hl Hc _ _ _]. cbn [on_backend].
  destruct Hl as [[Ec Ea]|[Ec Ea]]; rewrite Ec, Ea; [|done].
  destruct (backend_context p) as [c|] eqn:Ep, (backend_context a) as [x|] eqn:Ex; try done.
  destruct (Hfg p a c x Hp Hc Ep Ex) as [E HR].
  destruct (f p cops c), (g a aops x). done.
Qed.

Lemma with_context_rel p a c x : port_rel p a -> R c x ->
  port_rel (with_context c p) (with_context x a).
Proof. intros []. by constructor. Qed.

Lemma with_context_rel_l p a c x : port_rel p a -> backend_context p = Some c -> R c x ->
  port_rel p (with_context x a).
Proof. intros [] E ?. constructor; try done. cbn. by rewrite E. Qed.

Lemma with_context_rel_r p a c x : port_rel p a -> backend_context a = Some x -> R c x ->
  port_rel (with_context c p) a.
Proof. intros [] E ?. constructor; try done. cbn. by rewrite E. Qed.

Lemma with_started_rel b p a : port_rel p a -> port_rel (with_started b p) (with_started b a).
Proof. intros []. by constructor. Qed.

Lemma with_epoch_rel e p a : port_rel p a -> port_rel (with_epoch e p) (with_epoch e a).
Proof. intros []. by constructor. Qed.

(** Enter an operation and use the simulation for the table call it makes. *)
Ltac dispatch call :=
  apply on_backend_rel; [done|]; intros p a c x Hp HR Ep Ex; cbn [fst snd];
  let H := fresh "Hsim" in
  pose proof (sim_call call c x) as H; cbn [do_call] in H.

Lemma lifecycle_rel port port' : ports_rel port port' ->
  ((spw_port_start port).1 = (spw_port_start port').1 /\
   ports_rel (spw_port_start port).2 (spw_port_start port').2) /\
  ((spw_port_stop port).1 = (spw_port_stop port').1 /\
   ports_rel (spw_port_stop port).2 (spw_port_stop port').2) /\
  ((spw_port_reset port).1 = (spw_port_reset port').1 /\
   ports_rel (spw_port_reset port).2 (spw_port_reset port').2).
Proof.
  intros Hports. split; [|split].
  - dispatch CallStart. destruct (op_start cops c), (op_start aops x).
    destruct Hsim as (-> & _ & ?); [done..|]. cbn [fst snd].
    case_if; auto using with_context_rel, with_started_rel.
  - dispatch CallStop. destruct (op_stop cops c), (op_stop aops x).
    destruct Hsim as (-> & _ & ?); [done..|]. cbn [fst snd].
    case_if; auto using with_context_rel, with_started_rel.
  - dispatch CallReset. destruct (op_reset cops c), (op_reset aops x).
    destruct Hsim as (-> & _ & ?); [done..|].
    cbn [fst snd]. case_if; cbn [fst snd with_started with_context ownership_epoch];
      [|by auto using with_context_rel].
    rewrite (pr_epoch _ _ Hp). auto using with_context_rel, with_started_rel, with_epoch_rel.
Qed.

Lemma getters_rel port port' : ports_rel port port' ->
  (forall out, (spw_port_get_link_state port out).1 = (spw_port_get_link_state port' out).1 /\
     ports_rel (spw_port_get_link_state port out).2 (spw_port_get_link_state port' out).2) /\
  (forall out, (spw_port_get_statistics port out).1 = (spw_port_get_statistics port' out).1 /\
     ports_rel (spw_port_get_statistics port out).2 (spw_port_get_statistics port' out).2) /\
  ((spw_port_clear_statistics port).1 = (spw_port_clear_statistics port').1 /\
     ports_rel (spw_port_clear_statistics port).2 (spw_port_clear_statistics port').2).
Proof.
  intros Hports. split; [|split].
  - intros [out|]; [|done]. dispatch (CallLinkState out).
    destruct (op_get_link_state cops c out) as [[]], (op_get_link_state aops x out) as [[]].
    destruct Hsim as (-> & [= ->] & ?); [done..|]. cbn [fst snd]. auto using with_context_rel.
  - intros [out|]; [|done]. dispatch (CallStatistics out).
    destruct (op_get_statistics cops c out) as [[]], (op_get_statistics aops x out) as [[]].
    destruct Hsim as (-> & [= ->] & ?); [done..|]. cbn [fst snd]. auto using with_context_rel.
  - dispatch CallClearStatistics.
    destruct (op_clear_statistics cops c), (op_clear_statistics aops x).
    destruct Hsim as (-> & _ & ?); [done..|]. cbn [fst snd]. auto using with_context_rel.
Qed.

Lemma fault_statistics_rel port port' : ports_rel port port' ->
  (forall out,
     (spw_port_get_fault_statistics port out).1 = (spw_port_get_fault_statistics port' out).1 /\
     ports_rel (spw_port_get_fault_statistics port out).2
       (spw_port_get_fault_statistics port' out).2) /\
  ((spw_port_clear_fault_statistics port).1 = (spw_port_clear_fault_statistics port').1 /\
     ports_rel (spw_port_clear_fault_statistics port).2
       (spw_port_clear_fault_statistics port').2).
Proof.
  intros Hports. split.
  - intros [out|]; [|done]. dispatch (CallFaultStatistics out).
    destruct (op_get_fault_statistics cops) as [f|], (op_get_fault_statistics aops) as [g|].
    all: try destruct (f c out) as [[]]; try destruct (g x out) as [[]].
    all: destruct Hsim as (Er & Eo & ?); [done..|]; simplify_eq; cbn [fst snd].
    all: eauto using with_context_rel, with_context_rel_l, with_context_rel_r.
  - dispatch CallClearFaultStatistics.
    destruct (op_clear_fault_statistics cops) as [f|], (op_clear_fault_statistics aops) as [g|].
    all: try destruct (f c); try destruct (g x).
    all: destruct Hsim as (Er & _ & ?); [done..|]; simplify_eq; cbn [fst snd].
    all: eauto using with_context_rel, with_context_rel_l, with_context_rel_r.
Qed.

Lemma capabilities_rel port port' out : ports_rel port port' ->
  (spw_port_get_capabilities port out).1 = (spw_port_get_capabilities port' out).1 /\
  ports_rel (spw_port_get_capabilities port out).2 (spw_port_get_capabilities port' out).2.
Proof.
  intros Hports. destruct out as [out|]; [|done]. dispatch (CallCapabilities out).
  destruct (op_get_capabilities cops c out) as [[r caps] c'].
  destruct (op_get_capabilities aops x out) as [[r' caps'] x'].
  destruct Hsim as (-> & [= ->] & HR'); [done..|].
  case_if; cbn [fst snd]; [|by auto using with_context_rel].
  split; [|by apply with_context_rel]. do 2 f_equal. f_equal.
  pose proof (sim_zero_copy c' x' HR') as Hz.
  assert (non_null (op_wait cops) = non_null (op_wait aops)) as ->.
  { pose proof sim_wait as [Hw Hw'].
    destruct (op_wait cops), (op_wait aops); try done.
    - by destruct Hw; eauto.
    - by destruct Hw'; eauto. }
  replace (match op_supports_zero_copy cops with
           | Some f => if f c' then cap_bits caps' .| SPW_CAP_ZERO_COPY else cap_bits caps'
           | None => cap_bits caps' end)
    with (match op_supports_zero_copy aops with
          | Some f => if f x' then cap_bits caps' .| SPW_CAP_ZERO_COPY else cap_bits caps'
          | None => cap_bits caps' end); [done|].
  destruct (op_supports_zero_copy cops), (op_supports_zero_copy aops); rewrite ?Hz; try done.
  by rewrite <- Hz.
Qed.

Lemma wait_rel port port' interests timeout out : ports_rel port port' ->
  (spw_port_wait port interests timeout out).1 = (spw_port_wait port' interests timeout out).1 /\
  ports_rel (spw_port_wait port interests timeout out).2
    (spw_port_wait port' interests timeout out).2.
Proof.
  intros Hports. unfold spw_port_wait. destruct out as [out|]; [|done].
  rewrite (validate_started_rel port port') by done.
  case_if; [done|]. case_if; [done|].
  dispatch (CallWait interests timeout SPW_READY_NONE).
  destruct (op_wait cops) as [f|], (op_wait aops) as [g|].
  all: try destruct (f c _ _ _) as [[]]; try destruct (g x _ _ _) as [[]].
  all: destruct Hsim as (Er & Eo & ?); [done..|]; simplify_eq; cbn [fst snd].
  all: eauto using with_context_rel, with_context_rel_l, with_context_rel_r.
Qed.

Lemma send_rel port port' packet timeout : ports_rel port port' ->
  api_ok (ApiSend packet timeout) = true ->
  (spw_port_send port packet timeout).1 = (spw_port_send port' packet timeout).1 /\
  ports_rel (spw_port_send port packet timeout).2 (spw_port_send port' packet timeout).2.
Proof.
  intros Hports Hok. unfold spw_port_send. destruct packet as [packet|]; [|done].
  rewrite (validate_started_rel port port') by done.
  case_if; [done|]. case_if; [done|]. case_if; [done|].
  dispatch (CallSend packet timeout).
  assert (call_ok (CallSend packet timeout) = true) as Hc.
  { cbn [api_ok call_ok] in *. unfold tx_packet_ok. split_andb.
    replace (valid_terminator (pkt_terminator packet)) with true.
    destruct (pkt_data packet); cbn [non_null] in *; lia. }
  destruct (op_send cops c packet timeout), (op_send aops x packet timeout).
  destruct Hsim as (-> & _ & ?); [done..|]. cbn [fst snd]. auto using with_context_rel.
Qed.

Lemma receive_rel port port' packet timeout : ports_rel port port' ->
  api_ok (ApiReceive packet timeout) = true ->
  (spw_port_receive port packet timeout).1 = (spw_port_receive port' packet timeout).1 /\
  ports_rel (spw_port_receive port packet timeout).2 (spw_port_receive port' packet timeout).2.
Proof.
  intros Hports Hok. unfold spw_port_receive. destruct packet as [packet|]; [|done].
  rewrite (validate_started_rel port port') by done.
  case_if; [done|]. case_if; [done|].
  dispatch (CallReceive packet timeout).
  assert (call_ok (CallReceive packet timeout) = true) as Hc.
  { cbn [api_ok call_ok] in *. unfold rx_packet_ok. split_andb.
    destruct (pkt_data packet); cbn [non_null] in *; lia. }
  destruct (op_receive cops c packet timeout) as [[]], (op_receive aops x packet timeout) as [[]].
  destruct Hsim as (-> & [= ->] & ?); [done..|]. cbn [fst snd]. auto using with_context_rel.
Qed.

Lemma time_code_rel port port' tc timeout : ports_rel port port' ->
  ((spw_port_send_time_code port tc timeout).1 = (spw_port_send_time_code port' tc timeout).1 /\
   ports_rel (spw_port_send_time_code port tc timeout).2
     (spw_port_send_time_code port' tc timeout).2) /\
  ((spw_port_receive_time_code port tc timeout).1 =
   (spw_port_receive_time_code port' tc timeout).1 /\
   ports_rel (spw_port_receive_time_code port tc timeout).2
     (spw_port_receive_time_code port' tc timeout).2).
Proof.
  intros Hports. unfold spw_port_send_time_code, spw_port_receive_time_code.
  destruct tc as [tc|]; [|done]. rewrite (validate_started_rel port port') by done. split.
  - case_if; [done|]. case_if; [done|]. dispatch (CallSendTimeCode tc timeout).
    destruct (op_send_time_code cops c tc timeout), (op_send_time_code aops x tc timeout).
    destruct Hsim as (-> & _ & ?); [cbn [call_ok]; by apply negb_false_iff|done|]. cbn [fst snd].
    auto using with_context_rel.
  - case_if; [done|]. dispatch (CallReceiveTimeCode tc timeout).
    destruct (op_receive_time_code cops c tc timeout) as [[]].
    destruct (op_receive_time_code aops x tc timeout) as [[]].
    destruct Hsim as (-> & [= ->] & ?); [done..|]. cbn [fst snd]. auto using with_context_rel.
Qed.

(** Read an operation's relation as one of [do_api]. *)
Lemma api_result_rel (u : Z * option (spw_port C)) (v : Z * option (spw_port A)) :
  u.1 = v.1 /\ ports_rel u.2 v.2 ->
  (let '(r, p) := u in (r, OutNone, p)).1 = (let '(r, p) := v in (r, OutNone, p)).1 /\
  ports_rel (let '(r, p) := u in (r, OutNone, p)).2 (let '(r, p) := v in (r, OutNone, p)).2.
Proof. destruct u, v. cbn. by intros [-> ?]. Qed.

Lemma api_out_rel {X} (f : X -> backend_out)
    (u : Z * option X * option (spw_port C)) (v : Z * option X * option (spw_port A)) :
  u.1 = v.1 /\ ports_rel u.2 v.2 ->
  (let '(r, o, p) := u in (r, out_of f o, p)).1 =
  (let '(r, o, p) := v in (r, out_of f o, p)).1 /\
  ports_rel (let '(r, o, p) := u in (r, out_of f o, p)).2
    (let '(r, o, p) := v in (r, out_of f o, p)).2.
Proof. destruct u as [[]], v as [[]]. cbn. by intros [[= -> ->] ?]. Qed.

Lemma do_api_rel port port' call : ports_rel port port' -> api_ok call = true ->
  (do_api port call).1 = (do_api port' call).1 /\
  ports_rel (do_api port call).2 (do_api port' call).2.
Proof.
  intros Hp Hok.
  pose proof (lifecycle_rel port port' Hp) as (Hstart & Hstop & Hreset).
  pose proof (getters_rel port port' Hp) as (Hls & Hst & Hcs).
  pose proof (fault_statistics_rel port port' Hp) as (Hfs & Hcf).
  destruct call; cbn [do_api]; first [apply api_result_rel|apply api_out_rel]; try done.
  - by apply capabilities_rel.
  - by apply wait_rel.
  - by apply send_rel.
  - by apply receive_rel.
  - by apply time_code_rel.
  - by apply time_code_rel.
Qed.

(** For every sequence of calls, NULL arguments, malformed packets and wrong-state
    calls included, every result code and every out-parameter agree: the port layer
    itself establishes what the simulation asks of the calls that reach the backend. *)
Lemma run_api_rel calls : forall port port', ports_rel port port' ->
  forallb api_ok calls = true ->
  (run_api port calls).1 = (run_api port' calls).1 /\
  ports_rel (run_api port calls).2 (run_api port' calls).2.
Proof.
  induction calls as [|call calls IH]; intros port port' Hp Hok; [done|].
  cbn [forallb] in Hok. apply andb_prop in Hok as [Hc Hok].
  pose proof (do_api_rel port port' call Hp Hc) as H. cbn [run_api].
  destruct (do_api port call) as [[r out] q], (do_api port' call) as [[r' out'] q'].
  cbn [fst snd] in H. destruct H as [[= -> ->] Hq]. specialize (IH q q' Hq Hok).
  destruct (run_api q calls), (run_api q' calls). cbn [fst snd] in *.
  by destruct IH as [-> IH].
Qed.
End sim.
Arguments port_rel {C A} cops aops R _ _.
Arguments ports_rel {C A} cops aops R _ _.

(** ** Gating *)

Definition needs_start (call : api_call) : bool :=
  match call with
  | ApiWait _ _ _ | ApiSend _ _ | ApiReceive _ _
  | ApiSendTimeCode _ _ | ApiReceiveTimeCode _ _ => true
  | _ => false
  end.

(** A port that can serve a call at all: not NULL, not closed. *)
Definition port_live {C} (port : option (spw_port C)) : bool :=
  validate_port port =? SPW_OK.

Definition port_started {C} (port : option (spw_port C)) : bool :=
  match port with Some p => locally_started p | None => false end.

Section gating.
Context {C : Type}.
Implicit Types (port : option (spw_port C)).

Lemma on_backend_dead {X} port (inv : X) f : port_live port = false ->
  on_backend port inv f = (inv, port).
Proof.
  unfold port_live, validate_port. destruct port as [p|]; [|done]. cbn.
  by destruct (ops p), (backend_context p).
Qed.

Lemma validate_started_dead port : port_live port = false ->
  validate_started_port port = SPW_ERR_INVALID_ARGUMENT.
Proof.
  unfold port_live, validate_started_port. destruct port as [p|]; [|done]. cbn.
  by destruct (ops p), (backend_context p).
Qed.

Lemma validate_started_stopped port : port_live port = true -> port_started port = false ->
  validate_started_port port = SPW_ERR_INVALID_STATE.
Proof.
  unfold port_live, validate_started_port. cbn zeta. intros Hl. rewrite Hl. cbn [negb].
  destruct port as [p|]; [|done]. cbn [port_started]. by intros ->.
Qed.

Lemma gated_call port call r : validate_started_port port = r -> r <> SPW_OK ->
  needs_start call = true ->
  (do_api port call).2 = port /\
  ((do_api port call).1.1 = r \/ (do_api port call).1.1 = SPW_ERR_INVALID_ARGUMENT \/
   (do_api port call).1.1 = SPW_ERR_INVALID_PACKET).
Proof.
  intros Hv Hr Hn.
  assert (negb (r =? SPW_OK) = true) as Hb by lia.
  destruct call; try done; cbn [do_api];
    unfold spw_port_wait, spw_port_send, spw_port_receive, spw_port_send_time_code,
      spw_port_receive_time_code; rewrite Hv, Hb;
    try destruct out; try destruct packet; try destruct tc; repeat case_if; cbn; auto.
Qed.

(** A closed or NULL port accepts nothing, and a port that is not started
    does no I/O: the call fails, and neither the port nor the backend context
    behind it changes.  For a not-started port a well-formed I/O call reports
    INVALID_STATE. *)
Theorem port_gating port call :
  (port_live port = false ->
     (do_api port call).2 = port /\ (do_api port call).1.1 <> SPW_OK) /\
  (port_live port = true -> port_started port = false -> needs_start call = true ->
     (do_api port call).2 = port /\
     ((do_api port call).1.1 = SPW_ERR_INVALID_STATE \/
      (do_api port call).1.1 = SPW_ERR_INVALID_ARGUMENT \/
      (do_api port call).1.1 = SPW_ERR_INVALID_PACKET)).
Proof.
  split.
  - intros Hd. destruct (needs_start call) eqn:Hn.
    { destruct (gated_call port call _ (validate_started_dead port Hd)) as [E Hr]; [done..|].
      split; [done|]. unfold SPW_OK, SPW_ERR_INVALID_ARGUMENT, SPW_ERR_INVALID_PACKET in *. lia. }
    destruct call; try done; cbn [do_api];
      unfold spw_port_start, spw_port_stop, spw_port_reset, spw_port_get_link_state,
        spw_port_get_capabilities, spw_port_get_statistics, spw_port_clear_statistics,
        spw_port_get_fault_statistics, spw_port_clear_fault_statistics;
      try destruct out; rewrite ?on_backend_dead by done; done.
  - intros Hl Hs Hn. by apply gated_call; [apply validate_started_stopped|..].
Qed.
End gating.

(** ** Lifecycle and epochs *)

(** The epoch a successful reset moves to. *)
Definition next_epoch (e : Z) : Z :=
  let e := u64 (e + 1) in if e =? 0 then 1 else e.

(** The local state a call leaves, from its result code. *)
Definition started_after (call : api_call) (r : Z) (started : bool) : bool :=
  match call with
  | ApiStart => (r =? SPW_OK) || started
  | ApiStop | ApiReset => negb (r =? SPW_OK) && started
  | _ => started
  end.

Definition epoch_after (call : api_call) (r : Z) (e : Z) : Z :=
  match call with
  | ApiReset => if r =? SPW_OK then next_epoch e else e
  | _ => e
  end.

Section lifecycle.
Context {C : Type}.

(** Everything but the backend context, the started flag and the epoch stays. *)
Definition same_identity (p q : spw_port C) : Prop :=
  ops q = ops p /\ destroy_backend q = destroy_backend p /\
  workspace_base q = workspace_base p /\ workspace_alignment q = workspace_alignment p /\
  release_workspace q = release_workspace p /\
  (non_null (backend_context p) = true -> non_null (backend_context q) = true).

(** A call that only touches the backend context. *)
Definition keeps (p q : spw_port C) : Prop :=
  same_identity p q /\ locally_started q = locally_started p /\
  ownership_epoch q = ownership_epoch p.

Lemma keeps_refl p : keeps p p.
Proof. by unfold keeps, same_identity. Qed.

Lemma keeps_context c p : keeps p (with_context c p).
Proof. by unfold keeps, same_identity. Qed.

Lemma on_backend_keeps {X} p (inv : X) f :
  (forall o c, keeps p (f p o c).2) ->
  exists q, (on_backend (Some p) inv f).2 = Some q /\ keeps p q.
Proof.
  intros Hf. cbn [on_backend].
  destruct (ops p) as [o|]; [|by exists p; split; [|apply keeps_refl]].
  destruct (backend_context p) as [c|]; [|by exists p; split; [|apply keeps_refl]].
  specialize (Hf o c). destruct (f p o c) as [r q]. by exists q.
Qed.

Ltac keeps_call :=
  first [eexists; split; [reflexivity|apply keeps_refl]
        |apply on_backend_keeps; intros o c; cbn [fst snd]; repeat case_match;
         cbn [fst snd]; first [apply keeps_refl|apply keeps_context]].

Lemma snd_result (u : Z * option (spw_port C)) :
  (let '(r, p) := u in (r, OutNone, p)).2 = u.2.
Proof. by destruct u. Qed.

Lemma snd_out {X} (f : X -> backend_out) (u : Z * option X * option (spw_port C)) :
  (let '(r, o, p) := u in (r, out_of f o, p)).2 = u.2.
Proof. by destruct u as [[]]. Qed.

Definition lifecycle_call (call : api_call) : bool :=
  match call with ApiStart | ApiStop | ApiReset => true | _ => false end.

Lemma other_calls_keep (p : spw_port C) call : lifecycle_call call = false ->
  exists q, (do_api (Some p) call).2 = Some q /\ keeps p q.
Proof.
  intros Hc. destruct call; try done; cbn [do_api]; rewrite ?snd_result, ?snd_out;
    unfold spw_port_get_link_state, spw_port_get_capabilities, spw_port_get_statistics,
      spw_port_clear_statistics, spw_port_get_fault_statistics,
      spw_port_clear_fault_statistics, spw_port_wait, spw_port_send, spw_port_receive,
      spw_port_send_time_code, spw_port_receive_time_code; cbn zeta;
    try destruct out; try destruct packet; try destruct tc; repeat case_if; keeps_call.
Qed.

Lemma lifecycle_step (p : spw_port C) call : port_live (Some p) = true ->
  exists q, (do_api (Some p) call).2 = Some q /\ same_identity p q /\
    locally_started q =
      started_after call (do_api (Some p) call).1.1 (locally_started p) /\
    ownership_epoch q = epoch_after call (do_api (Some p) call).1.1 (ownership_epoch p).
Proof.
  intros Hl. destruct (lifecycle_call call) eqn:Hc.
  2:{ destruct (other_calls_keep p call Hc) as (q & E & Hi & Hs & He).
      exists q. destruct call; done. }
  unfold port_live, validate_port in Hl.
  destruct (ops p) as [o|] eqn:Eo; [|done]. destruct (backend_context p) as [c|] eqn:Ec; [|done].
  destruct call; try done; cbn [do_api];
    unfold spw_port_start, spw_port_stop, spw_port_reset, on_backend; rewrite Eo, Ec.
  - destruct (op_start o c) as [r c']. cbn [fst snd started_after epoch_after].
    eexists; split; [reflexivity|]. case_if; by rewrite <- ?Eo.
  - destruct (op_stop o c) as [r c']. cbn [fst snd started_after epoch_after].
    eexists; split; [reflexivity|]. case_if; by rewrite <- ?Eo.
  - destruct (op_reset o c) as [r c']. cbn [fst snd started_after epoch_after].
    case_if; cbn [fst snd]; (eexists; split; [reflexivity|]); rewrite ?E; by rewrite <- ?Eo.
Qed.

Lemma same_identity_live p q : same_identity p q -> port_live (Some p) = true ->
  port_live (Some q) = true.
Proof.
  unfold port_live, validate_port. intros (-> & _ & _ & _ & _ & Hc) H.
  destruct (non_null (ops p)); [|done]. cbn [andb] in *.
  destruct (non_null (backend_context p)); [|done]. by rewrite Hc.
Qed.

Lemma same_identity_trans p q q' : same_identity p q -> same_identity q q' -> same_identity p q'.
Proof.
  intros (E1 & E2 & E3 & E4 & E5 & E6) (F1 & F2 & F3 & F4 & F5 & F6).
  split_and!; try congruence. auto.
Qed.

(** The successful resets among calls and their results. *)
Fixpoint resets (calls : list api_call) (rs : list (Z * backend_out)) : nat :=
  match calls, rs with
  | call :: calls, (r, _) :: rs =>
      match call with
      | ApiReset => if r =? SPW_OK then S (resets calls rs) else resets calls rs
      | _ => resets calls rs
      end
  | _, _ => 0
  end.

Lemma run_api_epoch calls : forall p : spw_port C, port_live (Some p) = true ->
  exists q, (run_api (Some p) calls).2 = Some q /\ same_identity p q /\
    ownership_epoch q =
      Nat.iter (resets calls (run_api (Some p) calls).1) next_epoch (ownership_epoch p).
Proof.
  induction calls as [|call calls IH]; intros p Hl.
  { exists p. by unfold same_identity. }
  destruct (lifecycle_step p call Hl) as (q & Eq & Hi & _ & He).
  cbn [run_api]. destruct (do_api (Some p) call) as [[r out] port]. cbn [fst snd] in *. subst port.
  destruct (IH q (same_identity_live _ _ Hi Hl)) as (q' & Eq' & Hi' & He').
  destruct (run_api (Some q) calls) as [rs port']. cbn [fst snd] in *.
  exists q'. split_and!; [done|by eapply same_identity_trans|].
  rewrite He', He. destruct call; try done. cbn [epoch_after resets].
  case_if; [|done]. by rewrite Nat.iter_succ_r.
Qed.
End lifecycle.

(** Epochs cycle through 1 .. 2^64 - 1. *)
Lemma next_epoch_cycle e n : 1 <= e < 2 ^ 64 ->
  Nat.iter n next_epoch e = (e - 1 + Z.of_nat n) mod (2 ^ 64 - 1) + 1.
Proof.
  intros He. induction n as [|n IH].
  { cbn [Nat.iter nat_rect]. rewrite Z.mod_small by lia. lia. }
  rewrite Nat.iter_succ, IH. unfold next_epoch. cbn zeta.
  pose proof (Z.mod_pos_bound (e - 1 + Z.of_nat n) (2 ^ 64 - 1) ltac:(lia)) as Hm.
  replace (e - 1 + Z.of_nat (S n)) with ((e - 1 + Z.of_nat n) + 1) by lia.
  rewrite <- (Z.add_mod_idemp_l (e - 1 + Z.of_nat n) 1) by lia.
  set (m := (e - 1 + Z.of_nat n) mod (2 ^ 64 - 1)) in *.
  destruct (decide (m + 1 = 2 ^ 64 - 1)) as [E|E].
  - rewrite E, Z.mod_same by lia. replace (2 ^ 64 - 1 + 1) with (2 ^ 64) by lia. done.
  - rewrite (Z.mod_small (m + 1)) by lia. rewrite (wrap_small 64) by lia.
    replace (m + 1 + 1 =? 0) with false by lia. done.
Qed.

Lemma next_epoch_moves e n : 1 <= e < 2 ^ 64 -> (0 < n)%nat -> Z.of_nat n < 2 ^ 64 - 1 ->
  Nat.iter n next_epoch e <> e.
Proof.
  intros He Hn Hlt. rewrite next_epoch_cycle by done. intros E.
  assert ((e - 1 + Z.of_nat n) mod (2 ^ 64 - 1) = e - 1) as Em by lia.
  destruct (decide (e - 1 + Z.of_nat n < 2 ^ 64 - 1)).
  - rewrite Z.mod_small in Em by lia. lia.
  - rewrite <- (Z.mod_add _ (-1)), Z.mod_small in Em by lia. lia.
Qed.

(** Start, stop and reset are the only calls that change a port's local
    state: each does so exactly on success, reset also moves the port to a new
    non-zero ownership epoch, and no call changes which backend, destructor or
    workspace the port has. *)
Theorem port_lifecycle {C} (p : spw_port C) call :
  port_live (Some p) = true -> 1 <= ownership_epoch p < 2 ^ 64 ->
  exists q, (do_api (Some p) call).2 = Some q /\ same_identity p q /\
    locally_started q =
      started_after call (do_api (Some p) call).1.1 (locally_started p) /\
    ownership_epoch q = epoch_after call (do_api (Some p) call).1.1 (ownership_epoch p) /\
    1 <= ownership_epoch q < 2 ^ 64.
Proof.
  intros Hl He. destruct (lifecycle_step p call Hl) as (q & ? & ? & ? & Ee).
  exists q. split_and!; try done; rewrite Ee;
    (destruct call; try apply He; cbn [epoch_after]; case_if; try apply He;
     pose proof (next_epoch_cycle (ownership_epoch p) 1 He) as Hc; cbn in Hc;
     rewrite Hc; pose proof (Z.mod_pos_bound (ownership_epoch p - 1 + 1) (2 ^ 64 - 1)); lia).
Qed.

(** ** Buffer ownership *)

Section ownership.
Context {C : Type} `{!BufferMemory C}.

(** The three operations by which the application gives a buffer up. *)
Inductive give_call :=
| GiveSubmit (timeout : Z)
| GiveReleaseTx
| GiveReleaseRx.

Definition do_give (epochs : Z -> Z) (port : option (spw_port C)) (h : option nat)
    (g : give_call) : Z * option nat * option (spw_port C) :=
  match g with
  | GiveSubmit t => spw_port_submit_tx_buffer epochs port h t
  | GiveReleaseTx => spw_port_release_tx_buffer epochs port h
  | GiveReleaseRx => spw_port_release_rx_buffer epochs port h
  end.

Inductive take_call :=
| TakeTx (min_capacity timeout : Z)
| TakeReclaim (timeout : Z)
| TakeRx (timeout : Z).

Definition do_take (port : option (spw_port C)) (t : take_call)
    : Z * option nat * option (spw_port C) :=
  match t with
  | TakeTx n t => spw_port_acquire_tx_buffer port n t
  | TakeReclaim t => spw_port_reclaim_tx_buffer port t
  | TakeRx t => spw_port_acquire_rx_buffer port t
  end.

(** A handle the port does not own: nothing happens. *)
Lemma give_not_owned epochs (p : spw_port C) c h g :
  backend_context p = Some c ->
  buffer_owned_by_port epochs (buffer_at c h) (Some p) = false ->
  let '(r, h', port) := do_give epochs (Some p) (Some h) g in
  r <> SPW_OK /\ h' = Some h /\ port = Some p.
Proof.
  intros Ec Ho.
  assert (forall entry, let '(r, h', port) := give_through epochs (Some p) h entry in
            r <> SPW_OK /\ h' = Some h /\ port = Some p) as Hgive.
  { intros entry. unfold give_through, on_backend. rewrite Ec.
    destruct (ops p); [|done]. by rewrite Ho. }
  destruct g; cbn [do_give]; unfold spw_port_submit_tx_buffer, spw_port_release_tx_buffer,
    spw_port_release_rx_buffer; try apply Hgive.
  cbn zeta. case_if; [|apply Hgive]. split; [lia|done].
Qed.

Lemma stale_not_owned epochs (q : spw_port C) b e n :
  ownership_epoch q = Nat.iter n next_epoch e ->
  buf_owner_epoch b = Some (workspace_base q) -> buf_epoch b = e ->
  1 <= e < 2 ^ 64 -> (0 < n)%nat -> Z.of_nat n < 2 ^ 64 - 1 ->
  application_owned (epoch_memory epochs (Some q)) b = false.
Proof.
  intros Eq Eo Ee He Hn Hlt. unfold application_owned, epoch_memory.
  rewrite Eo, Ee, Z.eqb_refl, Eq.
  pose proof (next_epoch_moves e n He Hn Hlt).
  replace (e =? Nat.iter n next_epoch e) with false by lia. apply andb_false_r.
Qed.

(** C14. A buffer handle does not survive a reset: after any sequence of calls
    with at least one successful reset (and fewer than 2^64 - 1 of them), a
    buffer that is still bound to the earlier epoch of its port, that is, was not
    acquired again since, is refused by every
    operation; the view and packet operations report INVALID_STATE, and
    submitting or releasing it reaches neither the backend nor the caller's
    handle. *)
Theorem buffer_stale_after_reset epochs (p : spw_port C) calls b :
  port_live (Some p) = true -> 1 <= ownership_epoch p < 2 ^ 64 ->
  buf_owner_epoch b = Some (workspace_base p) -> buf_epoch b = ownership_epoch p ->
  let n := resets calls (run_api (Some p) calls).1 in
  (0 < n)%nat -> Z.of_nat n < 2 ^ 64 - 1 ->
  exists q, (run_api (Some p) calls).2 = Some q /\
    (forall out, spw_buffer_get_view (epoch_memory epochs (Some q)) (Some b) (Some out) =
       (SPW_ERR_INVALID_STATE, Some out)) /\
    (forall len t, spw_buffer_set_packet (epoch_memory epochs (Some q)) (Some b) len t =
       (SPW_ERR_INVALID_STATE, Some b)) /\
    (forall c h g, backend_context q = Some c -> buffer_at c h = b ->
       let '(r, h', port) := do_give epochs (Some q) (Some h) g in
       r <> SPW_OK /\ h' = Some h /\ port = Some q).
Proof.
  intros Hl He Hb Hbe n Hn Hlt.
  destruct (run_api_epoch calls p Hl) as (q & Eq & Hi & Eepoch). exists q.
  assert (application_owned (epoch_memory epochs (Some q)) b = false) as Ho.
  { apply (stale_not_owned _ _ _ (ownership_epoch p) n); try done.
    rewrite Hb. by destruct Hi as (_ & _ & -> & _). }
  split; [done|]. split; [|split].
  - intros out. unfold spw_buffer_get_view. by rewrite Ho.
  - intros len t. unfold spw_buffer_set_packet. by rewrite Ho.
  - intros c h g Ec Eb. apply (give_not_owned _ _ c); [done|].
    unfold buffer_owned_by_port. by rewrite Eb, Ho.
Qed.

Lemma take_through_bound (p : spw_port C) entry r h q :
  acquire_through (Some p) entry = (r, Some h, Some q) -> r = SPW_OK ->
  exists c, backend_context q = Some c /\
    (buffer_valid c h = true ->
     buf_owner_epoch (buffer_at c h) = Some (workspace_base q) /\
     buf_epoch (buffer_at c h) = ownership_epoch q).
Proof.
  unfold acquire_through, on_backend. cbn zeta. intros H Hr. subst r.
  case_if_in H; [injection H as E1; lia|].
  destruct (ops p) as [o|] eqn:Eo; [|done].
  destruct (backend_context p) as [c|] eqn:Ec; [|done].
  destruct (entry o) as [f|]; [|done].
  destruct (f c) as [[r handle] c'] eqn:Ef. injection H as -> -> <-.
  eexists. split; [reflexivity|]. cbn [bind_result]. rewrite Z.eqb_refl, buffer_valid_set.
  intros Hv. by rewrite buffer_at_set.
Qed.

(** C29. A handle that an acquire or reclaim returned belongs to the port in its
    current epoch as soon as the backend marks it application-owned; and a
    submit or release succeeds only on such a handle, takes it away from the
    caller exactly when it succeeds, and leaves it with the caller otherwise. *)
Theorem buffer_ownership epochs (p : spw_port C) :
  (forall t h q c, do_take (Some p) t = (SPW_OK, Some h, Some q) ->
     backend_context q = Some c -> buffer_valid c h = true ->
     buf_state (buffer_at c h) = SPW_BUFFER_STATE_APPLICATION ->
     buffer_owned_by_port epochs (buffer_at c h) (Some q) = true) /\
  (forall g h c, backend_context p = Some c ->
     let '(r, h', port) := do_give epochs (Some p) (Some h) g in
     (r = SPW_OK -> buffer_owned_by_port epochs (buffer_at c h) (Some p) = true /\ h' = None) /\
     (r <> SPW_OK -> h' = Some h)).
Proof.
  split.
  - intros t h q c Ht Ec Hv Hs.
    assert (exists c, backend_context q = Some c /\ (buffer_valid c h = true ->
      buf_owner_epoch (buffer_at c h) = Some (workspace_base q) /\
      buf_epoch (buffer_at c h) = ownership_epoch q)) as (c' & Ec' & Hb).
    { destruct t; cbn [do_take] in Ht; by eapply take_through_bound. }
    rewrite Ec' in Ec. injection Ec as ->. destruct (Hb Hv) as [Ho He].
    unfold buffer_owned_by_port, application_owned, epoch_memory.
    rewrite Ho, He, Hs. cbn. by rewrite !Z.eqb_refl, ?Z.eqb_refl.
  - intros g h c Ec. pose proof (give_not_owned epochs p c h g Ec) as Hno.
    destruct (buffer_owned_by_port epochs (buffer_at c h) (Some p)) eqn:Ho.
    2:{ destruct (do_give epochs (Some p) (Some h) g) as [[r h'] port].
        destruct (Hno eq_refl) as (Hr & -> & _). done. }
    assert (forall entry, let '(r, h', port) := give_through epochs (Some p) h entry in
            (r = SPW_OK -> true = true /\ h' = None) /\ (r <> SPW_OK -> h' = Some h)) as Hgive.
    { intros entry. unfold give_through, on_backend. rewrite Ec.
      destruct (ops p) as [o|]; [|done]. rewrite Ho. cbn [negb].
      destruct (entry o) as [f|]; [|done]. destruct (f c h) as [r c'].
      case_if; (split; intros; [|]); try done; lia. }
    destruct g; cbn [do_give]; unfold spw_port_submit_tx_buffer, spw_port_release_tx_buffer,
      spw_port_release_rx_buffer; try apply Hgive.
    cbn zeta. case_if; [|apply Hgive]. split; [lia|done].
Qed.
End ownership.

(** ** Opening *)

Section opening.
Context {P C : Type} (A : abi) (B : build)
  (factories : factory_id -> spw_backend_factory P C).

(** A port as a successful open leaves it. *)
Record opened (config : option (spw_port_config P)) (workspace : option Z) (size : Z)
    (p : spw_port C) : Prop := {
  opened_live : port_live (Some p) = true;
  opened_stopped : locally_started p = false;
  opened_epoch : ownership_epoch p = 1;
  opened_release : release_workspace p = false;
  opened_base : workspace = Some (workspace_base p);
  opened_from : exists cfg id req, config = Some cfg /\
    select_factory A B config = (SPW_OK, Some id) /\
    ops p = Some (factory_ops (factories id)) /\
    (construct (factories id) cfg).1 = SPW_OK /\
    backend_context p = Some (construct (factories id) cfg).2 /\
    requirements_for A cfg (factories id) no_requirements = (SPW_OK, req) /\
    is_aligned (workspace_base p) (req_alignment req) = true /\ req_size req <= size
}.

Lemma open_in_place_spec config workspace size :
  match spw_port_open_in_place A B factories config workspace size with
  | (r, Some p) => r = SPW_OK /\ opened config workspace size p
  | (r, None) => r <> SPW_OK
  end.
Proof.
  unfold spw_port_open_in_place. destruct config as [cfg|]; [|done].
  pose proof (select_factory_spec A B cfg) as Hs.
  destruct (select_factory A B (Some cfg)) as [r [id|]] eqn:Es; [|done].
  destruct Hs as [-> _]. cbn [negb]. rewrite Z.eqb_refl. cbn [negb].
  destruct (requirements_for A cfg (factories id) no_requirements) as [r req] eqn:Er.
  case_if; [lia|]. destruct workspace as [w|]; [|done].
  case_if; [done|]. case_if; [done|].
  destruct (construct (factories id) cfg) as [r' c] eqn:Ec.
  case_if; [lia|]. split; [done|]. constructor; try done.
  exists cfg, id, req. cbn. rewrite Ec.
  assert (r = SPW_OK) as -> by lia. assert (r' = SPW_OK) as -> by lia.
  split_and!; try done; [by destruct (is_aligned _ _)|lia].
Qed.

Variable alloc : Z -> Z -> option Z.

(** Opening in place succeeds only in a workspace that is aligned and large
    enough, and then gives a live port that is not started, in its first
    ownership epoch, at the workspace address, with the selected backend's
    table over its constructed context; a failed open gives no port.  An open
    that allocates keeps the workspace on success and hands it back to the
    allocator when it fails after the allocation, so nothing leaks. *)
Theorem port_open_sound config :
  (forall workspace size,
     match spw_port_open_in_place A B factories config workspace size with
     | (r, Some p) => r = SPW_OK /\ opened config workspace size p
     | (r, None) => r <> SPW_OK
     end) /\
  (enable_heap B = true ->
   let '(r0, req) := spw_port_workspace_requirements A B factories config
                       (Some no_requirements) in
   let req := default no_requirements req in
   let memory := allocate_workspace alloc (req_size req) (req_alignment req) in
   match spw_port_open A B factories alloc config with
   | (r, Some p, freed) =>
       r = SPW_OK /\ freed = None /\ release_workspace p = true /\
       exists q, p = with_release true q /\ opened config memory (req_size req) q
   | (r, None, freed) =>
       r <> SPW_OK /\ freed = if r0 =? SPW_OK then memory else None
   end).
Proof.
  split; [apply open_in_place_spec|]. intros Hh. unfold spw_port_open.
  destruct (spw_port_workspace_requirements A B factories config _) as [r0 req].
  cbn zeta. case_if.
  { split; [lia|]. by replace (r0 =? SPW_OK) with false by lia. }
  replace (r0 =? SPW_OK) with true by lia. rewrite Hh.
  destruct (allocate_workspace alloc _ _) as [w|]; [|done].
  pose proof (open_in_place_spec config (Some w) (req_size (default no_requirements req))) as Ho.
  destruct (spw_port_open_in_place _ _ _ _ _ _) as [r [q|]].
  - destruct Ho as [-> Ho]. rewrite Z.eqb_refl. cbn. eauto 8.
  - replace (r =? SPW_OK) with false by lia. done.
Qed.
End opening.

(** ** Opening a port of a known backend *)

(** What a client needs of the factory of its backend: its table is [o], and
    construction and start leave a context the table keeps its promises on. *)
Record factory_ok {P B : Type} (o : spw_backend_ops B) (Inv : B -> Prop)
    (f : spw_backend_factory P B) : Prop := {
  fo_ops : factory_ops f = o;
  fo_construct : forall config, (construct f config).1 = SPW_OK -> Inv (construct f config).2;
  fo_start : forall c, Inv c -> Inv (op_start o c).2
}.

Section serving.
Context {P C : Type} (A : abi) (Bd : build) (factories : factory_id -> spw_backend_factory P C)
  (alloc : Z -> Z -> option Z).
Context (o : spw_backend_ops C) (Inv : C -> Prop) `{!BackendOutputs o Inv} (id : factory_id).
Hypothesis Hfactory : factory_ok o Inv (factories id).

Lemma open_runs config :
  (forall id', select_factory A Bd (Some config) = (SPW_OK, Some id') -> id' = id) ->
  let '(r, port, _) := spw_port_open A Bd factories alloc (Some config) in port_runs o Inv port.
Proof.
  intros Hselect.
  unfold spw_port_open. destruct (spw_port_workspace_requirements _ _ _ _ _) as [r req].
  case_if; [done|]. destruct (enable_heap Bd); [|done].
  destruct (allocate_workspace _ _ _) as [w|]; [|done].
  pose proof (open_in_place_spec A Bd factories (Some config) (Some w)
    (req_size (default no_requirements req))) as H.
  destruct (spw_port_open_in_place _ _ _ _ _ _) as [r' [p|]]; case_if; try done.
  destruct H as [_ H]. destruct (opened_from _ _ _ _ _ _ _ H)
    as (cfg & id' & req' & _ & Hsel & Ho & Hok & Hctx & _).
  apply Hselect in Hsel as ->. intros p' [= <-]. cbn [with_release ops backend_context].
  rewrite Ho, Hctx, (fo_ops _ _ _ Hfactory). split; [congruence|].
  intros c [= <-]. by apply Hfactory.
Qed.

Lemma start_runs port : port_runs o Inv port -> port_runs o Inv (spw_port_start port).2.
Proof.
  intros Hu. unfold spw_port_start.
  apply (on_backend_runs o Inv port _ _ (fun x => port_runs o Inv x.2)); [done|done|].
  intros p c _ Ho _ Hc. pose proof (fo_start _ _ _ Hfactory c Hc) as H.
  destruct (op_start o c) as [r c']. cbn [snd] in *.
  case_if; [|by apply port_runs_context].
  intros p' [= <-]. by apply (port_runs_context o Inv p c' Ho H (with_context c' p)).
Qed.
End serving.

(** ** Samples *)

(** A loopback port and a FIFO port, as open leaves them. *)
Definition loopback_port : spw_port spw_loopback_backend :=
  {| ops := Some LOOPBACK_OPS; backend_context := Some loopback_construct.2;
     destroy_backend := id; workspace_base := 4096; workspace_alignment := 8;
     release_workspace := false; locally_started := false; ownership_epoch := 1 |}.

Definition fifo_port : spw_port fifo :=
  {| ops := Some FIFO_OPS; backend_context := Some fifo_initial;
     destroy_backend := id; workspace_base := 4096; workspace_alignment := 8;
     release_workspace := false; locally_started := false; ownership_epoch := 1 |}.

Lemma port_gating_witness :
  (do_api (Some loopback_port) (ApiSend (Some (sample_tx [1] 0)) 0)).2 = Some loopback_port /\
  (do_api (@None (spw_port fifo)) ApiStart).1.1 <> SPW_OK.
Proof.
  split.
  - by apply (port_gating (Some loopback_port)).
  - by apply (port_gating (@None (spw_port fifo))).
Defined.

Lemma port_lifecycle_witness :
  exists q, (do_api (Some loopback_port) ApiReset).2 = Some q /\ ownership_epoch q = 2.
Proof.
  destruct (port_lifecycle loopback_port ApiReset) as (q & E & _ & _ & He & _);
    [done|cbn; lia|]. exists q. split; [done|]. rewrite He. by vm_compute.
Defined.

(** Buffers in a list, the table of a backend that hands out the first one. *)
Definition buffers : Type := list spw_buffer.

#[export, refine] Instance buffers_memory : BufferMemory buffers :=
  {| buffer_valid := fun c h => (h <? length c)%nat;
     buffer_at := fun c h => nth h c {| buf_data := None; buf_length := 0; buf_capacity := 0;
       buf_terminator := 0; buf_owner := None; buf_direction := 0; buf_state := 0;
       buf_token := 0; buf_owner_epoch := None; buf_epoch := 0 |};
     set_buffer := fun c h b => <[h := b]> c |}.
Proof.
  - intros c h b Hv. apply Nat.ltb_lt in Hv.
    apply nth_lookup_Some. by apply list_lookup_insert_eq.
  - intros c h h' b Hne. rewrite !nth_lookup. by rewrite list_lookup_insert_ne.
  - intros c h h' b. by rewrite length_insert.
Defined.

Definition sample_buffer : spw_buffer :=
  {| buf_data := Some 8192; buf_length := 0; buf_capacity := 64; buf_terminator := 0;
     buf_owner := Some 4160; buf_direction := SPW_BUFFER_DIRECTION_TX;
     buf_state := SPW_BUFFER_STATE_APPLICATION; buf_token := 0;
     buf_owner_epoch := Some 4096; buf_epoch := 1 |}.

Definition BUFFER_OPS : spw_backend_ops buffers :=
  {| op_start := fun c => (SPW_OK, c); op_stop := fun c => (SPW_OK, c);
     op_reset := fun c => (SPW_OK, c);
     op_get_link_state := fun c o => (SPW_OK, o, c);
     op_get_capabilities := fun c o => (SPW_OK, o, c);
     op_supports_zero_copy := Some (fun _ => true);
     op_send := fun c _ _ => (SPW_OK, c);
     op_receive := fun c p _ => (SPW_OK, p, c);
     op_send_time_code := fun c _ _ => (SPW_OK, c);
     op_receive_time_code := fun c o _ => (SPW_OK, o, c);
     op_get_statistics := fun c o => (SPW_OK, o, c);
     op_clear_statistics := fun c => (SPW_OK, c);
     op_get_fault_statistics := None; op_clear_fault_statistics := None;
     op_acquire_tx_buffer := Some (fun c _ _ => (SPW_OK, Some 0%nat, c));
     op_submit_tx_buffer := Some (fun c _ _ => (SPW_OK, c));
     op_reclaim_tx_buffer := None;
     op_release_tx_buffer := Some (fun c _ => (SPW_OK, c));
     op_acquire_rx_buffer := None; op_release_rx_buffer := None; op_wait := None |}.

Definition buffer_port : spw_port buffers :=
  {| ops := Some BUFFER_OPS; backend_context := Some [sample_buffer];
     destroy_backend := id; workspace_base := 4096; workspace_alignment := 8;
     release_workspace := false; locally_started := true; ownership_epoch := 1 |}.

Lemma buffer_stale_after_reset_witness :
  exists q, (run_api (Some buffer_port) [ApiReset; ApiStart]).2 = Some q /\
    (do_give (fun _ => 0) (Some q) (Some 0%nat) (GiveSubmit 0)).1.1 <> SPW_OK.
Proof.
  destruct (buffer_stale_after_reset (fun _ => 0) buffer_port [ApiReset; ApiStart] sample_buffer)
    as (q & E & _ & _ & Hg); [by vm_compute|cbn; lia|done|done|cbn; lia|cbn; lia|].
  exists q. split; [done|]. cbn in E. injection E as <-.
  specialize (Hg [sample_buffer] 0%nat (GiveSubmit 0) eq_refl eq_refl).
  destruct (do_give _ _ _ _) as [[r h'] port]. by destruct Hg.
Defined.

Lemma buffer_ownership_witness :
  (do_give (fun _ => 0) (Some buffer_port) (Some 0%nat) (GiveSubmit 0)).1 = (SPW_OK, None) /\
  buffer_owned_by_port (fun _ => 0) sample_buffer (Some buffer_port) = true.
Proof.
  split; [by vm_compute|].
  destruct (buffer_ownership (fun _ => 0) buffer_port) as [_ Hg].
  specialize (Hg (GiveSubmit 0) 0%nat [sample_buffer] eq_refl).
  destruct (do_give _ _ _ _) as [[r h'] port] eqn:E. vm_compute in E. injection E as <- _ _.
  by apply Hg.
Defined.

Lemma port_open_sound_witness :
  exists p, spw_port_open_in_place lp64
    {| has_simulator := true; has_udp := true; has_device := true; enable_heap := true |}
    (fun _ => LOOPBACK_FACTORY) (Some loopback_config) (Some 4096) 40000 = (SPW_OK, Some p) /\
    port_live (Some p) = true.
Proof.
  eexists. split; [reflexivity|].
  pose proof (port_open_sound lp64
    {| has_simulator := true; has_udp := true; has_device := true; enable_heap := true |}
    (fun _ => LOOPBACK_FACTORY) (fun _ _ => None) (Some loopback_config)) as [Ho _].
  by destruct (Ho (Some 4096) 40000) as [_ []].
Defined.
