(* ===== verification/LoopbackPort.v ===== *)
(** * A loopback port, from open to close

    The port layer of [Port] over the backend of [Loopback], as the application
    sees it: an explicit machine of three phases and two bounded queues gives the
    result and the outputs of every call on a loopback port, in every order.  The
    machine uses neither the port's code nor the backend's, but for the increments
    of the statistics counters and the tests [valid_terminator] and
    [valid_time_code]. *)

From S2P Require Import Prelude Types Backend DriverApi PortConfig Port PortClient Ring Loopback PortProps.

(** ** The machine *)

Inductive phase := PhaseReset | PhaseReady | PhaseRun.

Record machine := {
  m_phase : phase;
  m_packets : list (list Z * Z);
  m_time_codes : list spw_time_code;
  m_statistics : spw_statistics
}.

Definition machine_initial : machine :=
  {| m_phase := PhaseReset; m_packets := []; m_time_codes := []; m_statistics := statistics_zero |}.

Definition phase_state (p : phase) : Z :=
  match p with
  | PhaseReset => SPW_LINK_ERROR_RESET
  | PhaseReady => SPW_LINK_READY
  | PhaseRun => SPW_LINK_RUN
  end.

Definition m_enter (p : phase) (x : machine) : machine :=
  {| m_phase := p; m_packets := m_packets x; m_time_codes := m_time_codes x;
     m_statistics := m_statistics x |}.
Definition m_reset (x : machine) : machine :=
  {| m_phase := PhaseReset; m_packets := []; m_time_codes := []; m_statistics := m_statistics x |}.
Definition m_counting (f : spw_statistics -> spw_statistics) (x : machine) : machine :=
  {| m_phase := m_phase x; m_packets := m_packets x; m_time_codes := m_time_codes x;
     m_statistics := f (m_statistics x) |}.
Definition m_with_packets (ps : list (list Z * Z)) (x : machine) : machine :=
  {| m_phase := m_phase x; m_packets := ps; m_time_codes := m_time_codes x;
     m_statistics := m_statistics x |}.
Definition m_with_time_codes (ts : list spw_time_code) (x : machine) : machine :=
  {| m_phase := m_phase x; m_packets := m_packets x; m_time_codes := ts;
     m_statistics := m_statistics x |}.

(** The calls of the public interface on one port. *)
Inductive port_call :=
| PortApi (call : api_call)
| PortTake (call : take_call)
| PortGive (handle : option nat) (call : give_call)
| PortClose.

Inductive port_out :=
| Plain (out : backend_out)
| Handle (h : option nat).

(** [None] is a closed port.  A call that needs an open port, and one that needs
    a running one. *)
Definition opened_machine {X} (m : option machine) (refuse : Z -> X) (k : machine -> X) : X :=
  match m with None => refuse SPW_ERR_INVALID_ARGUMENT | Some x => k x end.

Definition running_machine {X} (m : option machine) (refuse : Z -> X) (k : machine -> X) : X :=
  opened_machine m refuse (fun x =>
    match m_phase x with PhaseRun => k x | _ => refuse SPW_ERR_INVALID_STATE end).

Definition m_send (p : spw_packet) (m : option machine) : Z * option machine :=
  if negb (pkt_length p =? 0) && negb (non_null (pkt_data p)) then (SPW_ERR_INVALID_ARGUMENT, m) else
  if negb (valid_terminator (pkt_terminator p)) ||
     (negb (pkt_capacity p =? 0) && (pkt_capacity p <? pkt_length p))
  then (SPW_ERR_INVALID_PACKET, m) else
  running_machine m (fun r => (r, m)) (fun x =>
    if 4096 <? pkt_length p then (SPW_ERR_INVALID_PACKET, m) else
    if Nat.eqb (length (m_packets x)) 8 then (SPW_ERR_RESOURCE_EXHAUSTED, m) else
    (SPW_OK,
     Some (m_counting (count_tx_packet (pkt_length p) (pkt_terminator p))
             (m_with_packets (m_packets x ++ [(packet_payload p, pkt_terminator p)]) x)))).

(** The receiver learns the size and the terminator of the first packet even if
    its storage is too small, and then the packet stays. *)
Definition m_receive (p : spw_packet) (m : option machine) : Z * spw_packet * option machine :=
  if negb (pkt_capacity p =? 0) && negb (non_null (pkt_data p))
  then (SPW_ERR_INVALID_ARGUMENT, p, m) else
  running_machine m (fun r => (r, p, m)) (fun x =>
    match m_packets x with
    | [] => (SPW_ERR_TIMEOUT, p, m)
    | (bytes, terminator) :: rest =>
        let size := Z.of_nat (length bytes) in
        let p := {| pkt_data := pkt_data p; pkt_length := size; pkt_capacity := pkt_capacity p;
                    pkt_terminator := terminator |} in
        if pkt_capacity p <? size then (SPW_ERR_BUFFER_TOO_SMALL, p, m) else
        (SPW_OK,
         {| pkt_data := (fun storage => bytes ++ drop (length bytes) storage) <$> pkt_data p;
            pkt_length := size; pkt_capacity := pkt_capacity p; pkt_terminator := terminator |},
         Some (m_counting (count_rx_packet size) (m_with_packets rest x)))
    end).

Definition m_send_time_code (tc : spw_time_code) (m : option machine) : Z * option machine :=
  if negb (valid_time_code tc) then (SPW_ERR_INVALID_ARGUMENT, m) else
  running_machine m (fun r => (r, m)) (fun x =>
    if Nat.eqb (length (m_time_codes x)) 8 then (SPW_ERR_RESOURCE_EXHAUSTED, m) else
    (SPW_OK,
     Some (m_counting count_tx_time_code (m_with_time_codes (m_time_codes x ++ [tc]) x)))).

Definition m_receive_time_code (out : spw_time_code) (m : option machine)
    : Z * spw_time_code * option machine :=
  running_machine m (fun r => (r, out, m)) (fun x =>
    match m_time_codes x with
    | [] => (SPW_ERR_TIMEOUT, out, m)
    | tc :: rest => (SPW_OK, tc, Some (m_counting count_rx_time_code (m_with_time_codes rest x)))
    end).

(** Readiness is not offered. *)
Definition m_wait (interests out : Z) (m : option machine) : Z * Z :=
  if (interests =? SPW_READY_NONE) || negb (interests .& Z.lnot SPW_READY_ALL =? 0)
  then (SPW_ERR_INVALID_ARGUMENT, out) else
  running_machine m (fun r => (r, SPW_READY_NONE)) (fun _ => (SPW_ERR_UNSUPPORTED, SPW_READY_NONE)).

(** A query that fails on a closed port. *)
Definition m_get {O} (value out : O) (m : option machine) : Z * O :=
  opened_machine m (fun r => (r, out)) (fun _ => (SPW_OK, value)).

Definition m_update (f : machine -> machine) (m : option machine) : Z * option machine :=
  opened_machine m (fun r => (r, m)) (fun x => (SPW_OK, Some (f x))).

(** A call whose pointer is NULL. *)
Definition m_null (m : option machine) : Z * backend_out * option machine :=
  (SPW_ERR_INVALID_ARGUMENT, OutNone, m).

Definition machine_api (m : option machine) (call : api_call)
    : Z * backend_out * option machine :=
  match call with
  | ApiStart => let '(r, m) := m_update (m_enter PhaseRun) m in (r, OutNone, m)
  | ApiStop => let '(r, m) := m_update (m_enter PhaseReady) m in (r, OutNone, m)
  | ApiReset => let '(r, m) := m_update m_reset m in (r, OutNone, m)
  | ApiClearStatistics =>
      let '(r, m) := m_update (m_counting (fun _ => statistics_zero)) m in (r, OutNone, m)
  | ApiLinkState (Some out) =>
      let '(r, v) := m_get (default 0 (phase_state ∘ m_phase <$> m)) out m in (r, OutState v, m)
  | ApiCapabilities (Some out) =>
      let '(r, v) :=
        m_get {| cap_bits := SPW_CAP_EEP .| SPW_CAP_TIME_CODE .| SPW_CAP_LINK_CONTROL .|
                             SPW_CAP_STATISTICS;
                 cap_max_packet_size := 4096; cap_tx_queue_depth := 8; cap_rx_queue_depth := 8;
                 cap_buffer_alignment := 16 |} out m in (r, OutCapabilities v, m)
  | ApiWait interests _ (Some out) => let '(r, v) := m_wait interests out m in (r, OutReady v, m)
  | ApiSend (Some p) _ => let '(r, m) := m_send p m in (r, OutNone, m)
  | ApiReceive (Some p) _ => let '(r, p, m) := m_receive p m in (r, OutPacket p, m)
  | ApiSendTimeCode (Some tc) _ => let '(r, m) := m_send_time_code tc m in (r, OutNone, m)
  | ApiReceiveTimeCode (Some tc) _ =>
      let '(r, tc, m) := m_receive_time_code tc m in (r, OutTimeCode tc, m)
  | ApiStatistics (Some out) =>
      let '(r, v) := m_get (default statistics_zero (m_statistics <$> m)) out m in
      (r, OutStatistics v, m)
  | ApiFaultStatistics (Some out) =>
      opened_machine m (fun r => (r, OutFaultStatistics out, m))
        (fun _ => (SPW_ERR_UNSUPPORTED, OutFaultStatistics fault_statistics_zero, m))
  | ApiClearFaultStatistics =>
      (opened_machine m id (fun _ => SPW_ERR_UNSUPPORTED), OutNone, m)
  | _ => m_null m
  end.

(** Zero-copy is not offered: nothing can be acquired, and a buffer that belongs
    to some other port is refused. *)
Definition machine_call (m : option machine) (call : port_call)
    : Z * port_out * option machine :=
  match call with
  | PortApi call => let '(r, out, m) := machine_api m call in (r, Plain out, m)
  | PortTake _ => (running_machine m id (fun _ => SPW_ERR_UNSUPPORTED), Handle None, m)
  | PortGive None _ => (SPW_ERR_INVALID_ARGUMENT, Handle None, m)
  | PortGive (Some h) (GiveSubmit _) =>
      (running_machine m id (fun _ => SPW_ERR_INVALID_STATE), Handle (Some h), m)
  | PortGive (Some h) _ =>
      (opened_machine m id (fun _ => SPW_ERR_INVALID_STATE), Handle (Some h), m)
  | PortClose => (opened_machine m id (fun _ => SPW_OK), Plain OutNone, None)
  end.

Fixpoint machine_run (m : option machine) (calls : list port_call) : list (Z * port_out) :=
  match calls with
  | [] => []
  | call :: calls => let '(r, out, m) := machine_call m call in (r, out) :: machine_run m calls
  end.

(** ** The port *)

Section port.
Context (Bd : build) `{!BufferMemory spw_loopback_backend} (epochs : Z -> Z).
Abbreviation port := (spw_port spw_loopback_backend).

Definition do_port (p : option port) (call : port_call) : Z * port_out * option port :=
  match call with
  | PortApi call => let '(r, out, p) := do_api p call in (r, Plain out, p)
  | PortTake call => let '(r, h, p) := do_take p call in (r, Handle h, p)
  | PortGive h call => let '(r, h, p) := do_give epochs p h call in (r, Handle h, p)
  | PortClose => let '(r, p, _, _) := spw_port_close Bd p in (r, Plain OutNone, p)
  end.

Fixpoint run_port (p : option port) (calls : list port_call) : list (Z * port_out) :=
  match calls with
  | [] => []
  | call :: calls => let '(r, out, p) := do_port p call in (r, out) :: run_port p calls
  end.

Definition port_call_ok (call : port_call) : bool :=
  match call with PortApi call => api_ok call | _ => true end.

(** ** The abstraction *)

Definition is_run (p : phase) : bool := match p with PhaseRun => true | _ => false end.

Definition fifo_of (x : machine) : fifo :=
  {| f_state := phase_state (m_phase x); f_packets := m_packets x; f_time_codes := m_time_codes x;
     f_statistics := m_statistics x |}.

(** A port over the FIFO table in the state of the machine. *)
Record fifo_port_of (base : Z) (x : machine) (a : spw_port fifo) : Prop := {
  fp_base : workspace_base a = base;
  fp_ops : ops a = Some FIFO_OPS;
  fp_context : backend_context a = Some (fifo_of x);
  fp_started : locally_started a = is_run (m_phase x)
}.

Definition abstracts (base : Z) (p : option port) (m : option machine) : Prop :=
  exists q, p = Some q /\
  match m with
  | None => ops q = None
  | Some x =>
      exists a, port_rel LOOPBACK_OPS FIFO_OPS loopback_refines q a /\ fifo_port_of base x a
  end.

(** Reading one call of the FIFO port off the machine's. *)
Definition matches (base : Z) (u : Z * backend_out * option (spw_port fifo))
    (v : Z * backend_out * option machine) : Prop :=
  u.1 = v.1 /\ exists a x, u.2 = Some a /\ v.2 = Some x /\ fifo_port_of base x a.

Section step.
Context (base : Z) (x : machine) (a : spw_port fifo) (Ha : fifo_port_of base x a).
Abbreviation matches := (matches base).

Lemma fifo_dispatch {R} (invalid : R) f :
  on_backend (Some a) invalid f = let '(r, p) := f a FIFO_OPS (fifo_of x) in (r, Some p).
Proof. unfold on_backend. by rewrite (fp_ops _ _ _ Ha), (fp_context _ _ _ Ha). Qed.

Lemma fifo_validated :
  validate_started_port (Some a) = running_machine (Some x) id (fun _ => SPW_OK).
Proof.
  unfold validate_started_port, validate_port.
  rewrite (fp_ops _ _ _ Ha), (fp_context _ _ _ Ha), (fp_started _ _ _ Ha). cbn. by destruct (m_phase x).
Qed.

Lemma matches_same r out : matches (r, out, Some a) (r, out, Some x).
Proof. split; [done|]. by exists a, x. Qed.

(** The backend is left in the state of [x']. *)
Lemma matches_context r out f x' : f = fifo_of x' -> m_phase x' = m_phase x ->
  matches (r, out, Some (with_context f a)) (r, out, Some x').
Proof.
  intros -> E. split; [done|]. exists (with_context (fifo_of x') a), x'.
  split; [done|]. split; [done|]. destruct Ha as [Hb Ho _ Hs]. constructor; cbn; congruence.
Qed.

Lemma matches_unmoved r out : matches (r, out, Some (with_context (fifo_of x) a)) (r, out, Some x).
Proof. by apply matches_context. Qed.

(** A call on a running port, after the check of its arguments. *)
Ltac running :=
  rewrite fifo_validated; unfold running_machine, opened_machine;
  destruct (m_phase x) eqn:Ephase; cbn [id]; try apply matches_same;
  change (negb (SPW_OK =? SPW_OK)) with false; cbn iota; rewrite fifo_dispatch.

Ltac is_running :=
  replace (negb (f_state (fifo_of x) =? SPW_LINK_RUN)) with false
    by (cbn [fifo_of f_state]; match goal with H : m_phase x = PhaseRun |- _ => by rewrite H end).

Lemma fifo_send_matches p t :
  matches (do_api (Some a) (ApiSend (Some p) t)) (machine_api (Some x) (ApiSend (Some p) t)).
Proof.
  cbn [do_api machine_api]. unfold spw_port_send, m_send.
  case_if; [apply matches_same|]. case_if; [apply matches_same|]. cbn zeta. running.
  cbn [FIFO_OPS op_send]. unfold fifo_send. is_running.
  change SPW_LOOPBACK_MAX_PACKET_SIZE with 4096. case_if; [apply matches_unmoved|].
  change SPW_LOOPBACK_PACKET_QUEUE_DEPTH with 8%nat. change (f_packets (fifo_of x)) with (m_packets x).
  case_if; [apply matches_unmoved|].
  by apply matches_context.
Qed.

Lemma fifo_receive_matches p t :
  matches (do_api (Some a) (ApiReceive (Some p) t)) (machine_api (Some x) (ApiReceive (Some p) t)).
Proof.
  cbn [do_api machine_api]. unfold spw_port_receive, m_receive.
  case_if; [apply matches_same|]. cbn zeta. running.
  cbn [FIFO_OPS op_receive]. unfold fifo_receive. is_running.
  change (f_packets (fifo_of x)) with (m_packets x).
  destruct (m_packets x) as [|[bytes terminator] rest]; [apply matches_unmoved|].
  cbn zeta. unfold set_packet_shape, set_packet_bytes. cbn [pkt_capacity pkt_data pkt_length pkt_terminator].
  case_if; [apply matches_unmoved|].
  assert (forall f g : list Z -> list Z, (forall m, f m = g m) -> f <$> pkt_data p = g <$> pkt_data p) as Hext
    by (intros f g Hfg; destruct (pkt_data p); cbn; [by rewrite Hfg|done]).
  rewrite (Hext _ (fun storage => bytes ++ drop (length bytes) storage)) by (intros; apply mem_write_0).
  by apply matches_context.
Qed.

Lemma fifo_time_code_matches tc t :
  matches (do_api (Some a) (ApiSendTimeCode (Some tc) t))
    (machine_api (Some x) (ApiSendTimeCode (Some tc) t)) /\
  matches (do_api (Some a) (ApiReceiveTimeCode (Some tc) t))
    (machine_api (Some x) (ApiReceiveTimeCode (Some tc) t)).
Proof.
  cbn [do_api machine_api].
  unfold spw_port_send_time_code, spw_port_receive_time_code, m_send_time_code, m_receive_time_code.
  cbn zeta. split.
  - case_if; [apply matches_same|]. running. cbn [FIFO_OPS op_send_time_code].
    unfold fifo_send_time_code. is_running. change SPW_LOOPBACK_TIME_CODE_QUEUE_DEPTH with 8%nat.
    change (f_time_codes (fifo_of x)) with (m_time_codes x).
    case_if; [apply matches_unmoved|].
    by apply matches_context.
  - running. cbn [FIFO_OPS op_receive_time_code]. unfold fifo_receive_time_code. is_running.
    change (f_time_codes (fifo_of x)) with (m_time_codes x).
    destruct (m_time_codes x) as [|c rest]; [apply matches_unmoved|].
    by apply matches_context.
Qed.

Lemma fifo_lifecycle_matches call : lifecycle_call call = true ->
  matches (do_api (Some a) call) (machine_api (Some x) call).
Proof.
  destruct call; intros H; try discriminate; cbn [do_api machine_api];
    unfold spw_port_start, spw_port_stop, spw_port_reset; rewrite fifo_dispatch;
    (split; [done|]; eexists _, _; split; [done|]; split; [done|]; destruct Ha; by constructor).
Qed.

Lemma fifo_step call : matches (do_api (Some a) call) (machine_api (Some x) call).
Proof.
  destruct call as [| | |[out|]|[out|]|interests t [out|]|[p|] t|[p|] t|[tc|] t|[tc|] t|[out|]| |[out|]|];
    try by apply fifo_lifecycle_matches.
  all: try apply matches_same.
  - cbn [do_api]. unfold spw_port_get_link_state. rewrite fifo_dispatch. apply matches_unmoved.
  - cbn [do_api]. unfold spw_port_get_capabilities. rewrite fifo_dispatch. apply matches_unmoved.
  - cbn [do_api machine_api]. unfold spw_port_wait, m_wait. case_if; [apply matches_same|].
    cbn zeta. running. apply matches_same.
  - apply fifo_send_matches.
  - apply fifo_receive_matches.
  - apply fifo_time_code_matches.
  - apply fifo_time_code_matches.
  - cbn [do_api]. unfold spw_port_get_statistics. rewrite fifo_dispatch. apply matches_unmoved.
  - cbn [do_api]. unfold spw_port_clear_statistics. rewrite fifo_dispatch.
    by apply matches_context.
  - cbn [do_api]. unfold spw_port_get_fault_statistics. rewrite fifo_dispatch. apply matches_same.
  - cbn [do_api]. unfold spw_port_clear_fault_statistics. rewrite fifo_dispatch. apply matches_same.
Qed.
End step.

(** ** Every call *)

Section calls.
Context (base : Z).
Hypothesis Hunbound : forall c h, buf_owner_epoch (buffer_at c h) <> Some base.

Definition agree (u : Z * port_out * option port) (v : Z * port_out * option machine) : Prop :=
  u.1 = v.1 /\ abstracts base u.2 v.2.

Lemma api_agrees q x a call : port_rel LOOPBACK_OPS FIFO_OPS loopback_refines q a ->
  fifo_port_of base x a -> api_ok call = true ->
  agree (do_port (Some q) (PortApi call)) (machine_call (Some x) (PortApi call)).
Proof.
  intros HR Ha Hok. cbn [do_port machine_call].
  destruct (do_api_rel LOOPBACK_OPS FIFO_OPS loopback_refines (Some q) (Some a) call HR Hok) as [E1 E2].
  destruct (fifo_step base x a Ha call) as (E3 & a' & x' & E4 & E5 & Ha').
  destruct (do_api (Some q) call) as [[r out] q'], (do_api (Some a) call) as [[r1 out1] a1],
    (machine_api (Some x) call) as [[r2 out2] m2]. cbn [fst snd] in *. subst.
  injection E1 as -> ->. injection E3 as -> ->. split; [done|].
  destruct q' as [q'|]; [|done]. exists q'. split; [done|]. by exists a'.
Qed.

(** A closed port. *)
Lemma closed_agrees q call : ops q = None ->
  agree (do_port (Some q) call) (machine_call None call).
Proof.
  intros Ho. assert (forall r out, agree (r, out, Some q) (r, out, None)) as Hsame
    by (intros; split; [done|by exists q]).
  assert (forall X (inv : X) f, on_backend (Some q) inv f = (inv, Some q)) as Hb
    by (intros; unfold on_backend; by rewrite Ho).
  assert (validate_started_port (Some q) = SPW_ERR_INVALID_ARGUMENT) as Hv
    by (unfold validate_started_port, validate_port; by rewrite Ho).
  destruct call as [call|call|[h|] call|]; cbn [do_port machine_call].
  - destruct call as [| | |[out|]|[out|]|interests t [out|]|[p|] t|[p|] t|[tc|] t|[tc|] t|[out|]| |[out|]|];
      cbn [do_api machine_api];
      unfold spw_port_start, spw_port_stop, spw_port_reset, spw_port_get_link_state,
        spw_port_get_capabilities, spw_port_wait, spw_port_send, spw_port_receive,
        spw_port_send_time_code, spw_port_receive_time_code, spw_port_get_statistics,
        spw_port_clear_statistics, spw_port_get_fault_statistics, spw_port_clear_fault_statistics,
        m_wait, m_send, m_receive, m_send_time_code, m_receive_time_code;
      rewrite ?Hb, ?Hv; repeat case_if; apply Hsame.
  - destruct call; cbn [do_take]; unfold spw_port_acquire_tx_buffer, spw_port_reclaim_tx_buffer,
      spw_port_acquire_rx_buffer, acquire_through; rewrite Hv; apply Hsame.
  - destruct call; cbn [do_give]; unfold spw_port_submit_tx_buffer, spw_port_release_tx_buffer,
      spw_port_release_rx_buffer, give_through; rewrite ?Hv, ?Hb; apply Hsame.
  - destruct call; apply Hsame.
  - unfold spw_port_close, validate_port. rewrite Ho. apply Hsame.
Qed.

(** An open port and the calls on buffers. *)
Lemma buffers_agree q x a call : port_rel LOOPBACK_OPS FIFO_OPS loopback_refines q a ->
  fifo_port_of base x a ->
  match call with PortTake _ | PortGive _ _ => True | _ => False end ->
  agree (do_port (Some q) call) (machine_call (Some x) call).
Proof.
  intros HR Ha Hcall. pose proof HR as [Hl Hc Hbase Hs _].
  rewrite (fp_ops _ _ _ Ha) in Hl. rewrite (fp_context _ _ _ Ha) in Hc.
  destruct Hl as [[Ho _]|[_ ?]]; [|done].
  destruct (backend_context q) as [c|] eqn:Ec; [|done].
  assert (forall r out, agree (r, out, Some q) (r, out, Some x)) as Hsame
    by (intros; split; [done|]; exists q; split; [done|]; by exists a).
  assert (forall X (inv : X) f, on_backend (Some q) inv f =
    let '(r, p) := f q LOOPBACK_OPS c in (r, Some p)) as Hb
    by (intros; unfold on_backend; by rewrite Ho, Ec).
  assert (validate_started_port (Some q) = running_machine (Some x) id (fun _ => SPW_OK)) as Hv.
  { rewrite <- (fifo_validated base x a Ha).
    by apply (validate_started_rel LOOPBACK_OPS FIFO_OPS loopback_refines). }
  assert (forall h, buffer_owned_by_port epochs (buffer_at c h) (Some q) = false) as Hnot.
  { intros h. unfold buffer_owned_by_port. specialize (Hunbound c h).
    destruct (buf_owner_epoch (buffer_at c h)) as [address|]; [|apply andb_false_r].
    rewrite (proj2 (Z.eqb_neq address _)); [apply andb_false_r|].
    rewrite Hbase, (fp_base _ _ _ Ha). congruence. }
  destruct call as [call|call|[h|] call|]; try done; cbn [do_port machine_call].
  - destruct call; cbn [do_take]; unfold spw_port_acquire_tx_buffer, spw_port_reclaim_tx_buffer,
      spw_port_acquire_rx_buffer, acquire_through; rewrite Hv, Hb; unfold running_machine;
      cbn [opened_machine]; destruct (m_phase x); apply Hsame.
  - destruct call; cbn [do_give]; unfold spw_port_submit_tx_buffer, spw_port_release_tx_buffer,
      spw_port_release_rx_buffer, give_through; rewrite ?Hv, ?Hb, Hnot; unfold running_machine;
      cbn [opened_machine]; try destruct (m_phase x); apply Hsame.
  - destruct call; apply Hsame.
Qed.

Lemma port_agrees p m call : abstracts base p m -> port_call_ok call = true ->
  agree (do_port p call) (machine_call m call).
Proof.
  intros (q & -> & Hm) Hok. destruct m as [x|]; [|by apply closed_agrees].
  destruct Hm as (a & HR & Ha).
  destruct call as [call|call|h call|]; [by apply (api_agrees q x a)|by apply (buffers_agree q x a)..|].
  cbn [do_port machine_call]. unfold spw_port_close, validate_port. destruct HR as [Hl Hc _ _ _].
  rewrite (fp_ops _ _ _ Ha) in Hl. rewrite (fp_context _ _ _ Ha) in Hc.
  destruct Hl as [[-> _]|[_ ?]]; [|done]. destruct (backend_context q); [|done].
  split; [done|]. by eexists.
Qed.

Lemma run_agrees calls : forall p m, abstracts base p m -> forallb port_call_ok calls = true ->
  run_port p calls = machine_run m calls.
Proof.
  induction calls as [|call calls IH]; intros p m Hp Hok; [done|].
  cbn [forallb] in Hok. apply andb_prop in Hok as [Hc Hok]. cbn [run_port machine_run].
  destruct (port_agrees p m call Hp Hc) as [E Hp'].
  destruct (do_port p call) as [[r out] p'], (machine_call m call) as [[r' out'] m'].
  cbn [fst snd] in *. injection E as -> ->. f_equal. by apply IH.
Qed.
End calls.

(** C5. A loopback port, from open to close, is the machine above: whatever the
    workspace it was opened in, for every sequence of public calls, NULL
    arguments, malformed packets, calls in the wrong state, calls on zero-copy
    buffers and calls after close included, every result code and every output is
    the machine's.  Packets and time-codes come back once, in order and unaltered,
    and only from a port that is started. *)
Theorem loopback_port_is_machine {P} (A : abi)
    (factories : factory_id -> spw_backend_factory P spw_loopback_backend) config workspace size p calls :
  factories LoopbackFactory = LOOPBACK_FACTORY -> cfg_backend config = SPW_BACKEND_LOOPBACK ->
  spw_port_open_in_place A Bd factories (Some config) (Some workspace) size = (SPW_OK, Some p) ->
  (forall c h, buf_owner_epoch (buffer_at c h) <> Some workspace) ->
  forallb port_call_ok calls = true ->
  run_port (Some p) calls = machine_run (Some machine_initial) calls.
Proof.
  intros Hf Hb Ho Hun Hok. apply (run_agrees workspace Hun); [|done].
  pose proof (open_in_place_spec A Bd factories (Some config) (Some workspace) size) as H.
  rewrite Ho in H. destruct H as [_ [_ Hs _ _ Hbase Hfrom]]. injection Hbase as ->.
  destruct Hfrom as (cfg & id & req & [= <-] & Hsel & Hops & _ & Hctx & _).
  assert (id = LoopbackFactory) as ->.
  { unfold select_factory in Hsel. rewrite Hb in Hsel. case_if_in Hsel; [discriminate|].
    rewrite Z.eqb_refl in Hsel. case_if_in Hsel; [discriminate|congruence]. }
  rewrite Hf in Hops, Hctx. exists p. split; [done|].
  exists {| ops := Some FIFO_OPS; backend_context := Some fifo_initial; destroy_backend := fun f => f;
            workspace_base := workspace_base p; workspace_alignment := 0; release_workspace := false;
            locally_started := false; ownership_epoch := ownership_epoch p |}.
  split; [|done]. constructor; try done; [by left|]. rewrite Hctx. cbn. apply loopback_initial_refines.
Qed.
End port.

(** ** Witness *)

(** No buffer lives in a loopback context; a handle can only be one of another
    port, here one at address 64. *)
#[refine] Instance foreign_buffers : BufferMemory spw_loopback_backend :=
  {| buffer_valid := fun _ _ => false;
     buffer_at := fun _ _ => bind_buffer_epoch (C := unit)
       {| ops := None; backend_context := None; destroy_backend := id; workspace_base := 64;
          workspace_alignment := 8; release_workspace := false; locally_started := true;
          ownership_epoch := 3 |} sample_buffer;
     set_buffer := fun c _ _ => c |}.
Proof. all: done. Defined.

Definition bare_build : build :=
  {| has_simulator := false; has_udp := false; has_device := false; enable_heap := false |}.

Definition loopback_calls : list port_call :=
  [PortApi (ApiSend (Some (sample_tx [1] 0)) 0); PortApi ApiStart;
   PortApi (ApiSend (Some (sample_tx [1; 2] 1)) 0); PortApi (ApiSend None 0); PortTake (TakeTx 16 0);
   PortGive (Some 2%nat) GiveReleaseTx; PortApi (ApiReceive (Some (sample_rx 1)) 0);
   PortApi (ApiReceive (Some (sample_rx 3)) 0); PortClose; PortApi ApiStart].

Definition bare_port : spw_port spw_loopback_backend :=
  {| ops := Some LOOPBACK_OPS; backend_context := Some loopback_construct.2;
     destroy_backend := loopback_destroy; workspace_base := 4096; workspace_alignment := 8;
     release_workspace := false; locally_started := false; ownership_epoch := 1 |}.

Lemma loopback_port_is_machine_witness :
  spw_port_open_in_place lp64 bare_build (fun _ => LOOPBACK_FACTORY) (Some loopback_config)
    (Some 4096) 65536 = (SPW_OK, Some bare_port) /\
  fst <$> machine_run (Some machine_initial) loopback_calls =
    [SPW_ERR_INVALID_STATE; SPW_OK; SPW_OK; SPW_ERR_INVALID_ARGUMENT; SPW_ERR_UNSUPPORTED;
     SPW_ERR_INVALID_STATE; SPW_ERR_BUFFER_TOO_SMALL; SPW_OK; SPW_OK; SPW_ERR_INVALID_ARGUMENT] /\
  run_port bare_build (fun _ => 3) (Some bare_port) loopback_calls =
    machine_run (Some machine_initial) loopback_calls.
Proof.
  split; [reflexivity|]. split; [vm_compute; reflexivity|].
  apply (loopback_port_is_machine bare_build (fun _ => 3) lp64 (fun _ => LOOPBACK_FACTORY)
    loopback_config 4096 65536 bare_port);
    [reflexivity|reflexivity|reflexivity|intros c h H; discriminate|reflexivity].
Defined.
