(* ===== verification/Driver.v ===== *)
(** * The hardware-driver backend

    src/src/backends/driver/driver_backend.c: the backend that forwards to a
    provider's callback table and keeps the ownership of the provider's DMA
    buffers in a fixed array of slots.

    The provider is arbitrary: its state type [P] and its callback table are
    parameters.  A handle of the public API is the index of the slot that holds
    the buffer structure.  Calling a NULL callback is undefined in C; it leaves
    the state alone and gives the arbitrary result [undef] here, and the
    configuration check of the port layer rules it out for the required
    callbacks. *)

From S2P Require Import Prelude Types Backend DriverApi PortConfig Port.

Record spw_driver_buffer_slot := {
  slot_buffer : spw_buffer;
  slot_driver_buffer : spw_driver_buffer;
  slot_active : bool
}.

Definition buffer_zero : spw_buffer :=
  {| buf_data := None; buf_length := 0; buf_capacity := 0; buf_terminator := 0;
     buf_owner := None; buf_direction := 0; buf_state := 0; buf_token := 0;
     buf_owner_epoch := None; buf_epoch := 0 |}.

(** [self] is the address of the context, the [owner] the buffers point to. *)
Record spw_driver_backend (P : Type) := {
  self : Z;
  drb_ops : option (spw_driver_ops P);
  driver_context : P;
  tx_slot_count : nat;
  rx_slot_count : nat;
  slots : list spw_driver_buffer_slot
}.
Arguments self {P} _.
Arguments drb_ops {P} _.
Arguments driver_context {P} _.
Arguments tx_slot_count {P} _.
Arguments rx_slot_count {P} _.
Arguments slots {P} _.

Definition clear_slot : spw_driver_buffer_slot :=
  {| slot_buffer := buffer_zero; slot_driver_buffer := driver_buffer_zero;
     slot_active := false |}.

#[export] Instance driver_slot_inhabited : Inhabited spw_driver_buffer_slot :=
  populate clear_slot.

(** sizeof of the two structures on LP64. *)
Definition sizeof_driver_backend : Z := 32.
Definition sizeof_driver_buffer_slot : Z := 120.

Section driver.
Context {P : Type}.
Variable undef : Z.
Abbreviation backend := (spw_driver_backend P).

(** ** Configuration *)

Definition zero_copy_enabled_config (config : spw_driver_config P) : bool :=
  match drc_ops config with
  | Some ops => all_dma ops && negb (tx_buffer_slots config =? 0) &&
                negb (rx_buffer_slots config =? 0)
  | None => false
  end.

Definition driver_context_size_for_config (config : spw_port_config P) (size : Z) : Z * Z :=
  match cfg_backend_config config with
  | None => (SPW_ERR_INVALID_ARGUMENT, size)
  | Some mem =>
      let driver := as_driver mem in
      if zero_copy_enabled_config driver then
        if SIZE_MAX - rx_buffer_slots driver <? tx_buffer_slots driver
        then (SPW_ERR_RESOURCE_EXHAUSTED, size) else
        let total_slots := u64 (tx_buffer_slots driver + rx_buffer_slots driver) in
        if SIZE_MAX / sizeof_driver_buffer_slot <? total_slots
        then (SPW_ERR_RESOURCE_EXHAUSTED, size) else
        let slots_size := u64 (total_slots * sizeof_driver_buffer_slot) in
        if SIZE_MAX - sizeof_driver_backend <? slots_size
        then (SPW_ERR_RESOURCE_EXHAUSTED, size) else
        (SPW_OK, u64 (sizeof_driver_backend + slots_size))
      else (SPW_OK, sizeof_driver_backend)
  end.

(** The number of bytes the constructor clears. *)
Definition construct_size (driver : spw_driver_config P) : Z :=
  u64 (sizeof_driver_backend +
    (if zero_copy_enabled_config driver
     then u64 (u64 (tx_buffer_slots driver + rx_buffer_slots driver) *
               sizeof_driver_buffer_slot)
     else 0)).

Definition driver_construct (address : Z) (driver : spw_driver_config P) : Z * backend :=
  let tx := if zero_copy_enabled_config driver then Z.to_nat (tx_buffer_slots driver) else 0%nat in
  let rx := if zero_copy_enabled_config driver then Z.to_nat (rx_buffer_slots driver) else 0%nat in
  (SPW_OK,
   {| self := address; drb_ops := drc_ops driver;
      driver_context := drc_driver_context driver;
      tx_slot_count := tx; rx_slot_count := rx; slots := replicate (tx + rx) clear_slot |}).

(** ** State updates *)

Definition with_provider (p : P) (b : backend) : backend :=
  {| self := self b; drb_ops := drb_ops b; driver_context := p;
     tx_slot_count := tx_slot_count b; rx_slot_count := rx_slot_count b; slots := slots b |}.

Definition with_slots (ss : list spw_driver_buffer_slot) (b : backend) : backend :=
  {| self := self b; drb_ops := drb_ops b; driver_context := driver_context b;
     tx_slot_count := tx_slot_count b; rx_slot_count := rx_slot_count b; slots := ss |}.

Definition set_slot (i : nat) (s : spw_driver_buffer_slot) (b : backend) : backend :=
  with_slots (<[i := s]> (slots b)) b.

Definition slot_at (b : backend) (i : nat) : spw_driver_buffer_slot := slots b !!! i.

Definition slot_total (b : backend) : nat := tx_slot_count b + rx_slot_count b.

Definition clear_slots (b : backend) : backend :=
  with_slots (replicate (slot_total b) clear_slot ++ drop (slot_total b) (slots b)) b.

Definition driver_destroy (b : backend) : backend :=
  let b := clear_slots b in
  {| self := self b; drb_ops := None; driver_context := driver_context b;
     tx_slot_count := 0; rx_slot_count := 0; slots := slots b |}.

(** [b->ops->f], NULL if the field or the table is. *)
Definition callback {F} (field : spw_driver_ops P -> option F) (b : backend) : option F :=
  match drb_ops b with Some ops => field ops | None => None end.

(** [b->ops->f(b->driver_context, ...)] without and with an out-parameter. *)
Definition invoke (f : option (P -> Z * P)) (b : backend) : Z * backend :=
  match f with
  | Some f => let '(r, p) := f (driver_context b) in (r, with_provider p b)
  | None => (undef, b)
  end.

Definition invoke_out {O} (f : option (P -> Z * O * P)) (out : O) (b : backend)
    : Z * O * backend :=
  match f with
  | Some f => let '(r, o, p) := f (driver_context b) in (r, o, with_provider p b)
  | None => (undef, out, b)
  end.

(** ** Forwarded operations *)

Definition driver_start (b : backend) : Z * backend := invoke (callback drv_start b) b.
Definition driver_stop (b : backend) : Z * backend := invoke (callback drv_stop b) b.

Definition driver_reset (b : backend) : Z * backend :=
  let '(result, b) := invoke (callback drv_reset b) b in
  (result, if result =? SPW_OK then clear_slots b else b).

Definition driver_get_link_state (b : backend) (out : Z) : Z * Z * backend :=
  invoke_out ((fun f p => f p out) <$> callback drv_get_link_state b) out b.

Definition driver_supports_zero_copy (b : backend) : bool :=
  negb (Nat.eqb (tx_slot_count b) 0) && negb (Nat.eqb (rx_slot_count b) 0) &&
  match drb_ops b with Some ops => all_dma ops | None => false end.

Definition has_cap (caps : spw_capabilities) (bit : Z) : bool :=
  negb (cap_bits caps .& bit =? 0).

Definition clear_cap (bit : Z) (caps : spw_capabilities) : spw_capabilities :=
  {| cap_bits := cap_bits caps .& Z.lnot bit;
     cap_max_packet_size := cap_max_packet_size caps;
     cap_tx_queue_depth := cap_tx_queue_depth caps;
     cap_rx_queue_depth := cap_rx_queue_depth caps;
     cap_buffer_alignment := cap_buffer_alignment caps |}.

Definition driver_get_capabilities (b : backend) (out : spw_capabilities)
    : Z * spw_capabilities * backend :=
  let zero_copy := driver_supports_zero_copy b in
  let '(result, caps, b) :=
    invoke_out ((fun f p => f p out) <$> callback drv_get_capabilities b) out b in
  if negb (result =? SPW_OK) then (result, caps, b) else
  if has_cap caps SPW_CAP_ZERO_COPY && negb zero_copy then (SPW_ERR_BACKEND, caps, b) else
  if has_cap caps SPW_CAP_FAULT_INJECTION then (SPW_ERR_UNSUPPORTED, caps, b) else
  if has_cap caps SPW_CAP_TIME_CODE &&
     (negb (non_null (callback drv_send_time_code b)) ||
      negb (non_null (callback drv_receive_time_code b)))
  then (SPW_ERR_BACKEND, caps, b) else
  if has_cap caps SPW_CAP_STATISTICS &&
     (negb (non_null (callback drv_get_statistics b)) ||
      negb (non_null (callback drv_clear_statistics b)))
  then (SPW_ERR_BACKEND, caps, b) else
  if has_cap caps SPW_CAP_READINESS && negb (non_null (callback drv_wait b))
  then (SPW_ERR_BACKEND, caps, b) else
  (SPW_OK,
   (if negb (non_null (callback drv_wait b)) then clear_cap SPW_CAP_READINESS caps else caps),
   b).

Definition driver_send (b : backend) (packet : spw_packet) (timeout_us : Z) : Z * backend :=
  invoke ((fun f p => f p packet timeout_us) <$> callback drv_send b) b.

Definition driver_receive (b : backend) (packet : spw_packet) (timeout_us : Z)
    : Z * spw_packet * backend :=
  invoke_out ((fun f p => f p packet timeout_us) <$> callback drv_receive b) packet b.

Definition driver_send_time_code (b : backend) (code : spw_time_code) (timeout_us : Z)
    : Z * backend :=
  match callback drv_send_time_code b with
  | Some f => invoke (Some (fun p => f p code timeout_us)) b
  | None => (SPW_ERR_UNSUPPORTED, b)
  end.

Definition driver_receive_time_code (b : backend) (code : spw_time_code) (timeout_us : Z)
    : Z * spw_time_code * backend :=
  match callback drv_receive_time_code b with
  | Some f => invoke_out (Some (fun p => f p code timeout_us)) code b
  | None => (SPW_ERR_UNSUPPORTED, code, b)
  end.

Definition driver_get_statistics (b : backend) (out : spw_statistics)
    : Z * spw_statistics * backend :=
  match callback drv_get_statistics b with
  | Some f => invoke_out (Some (fun p => f p out)) out b
  | None => (SPW_ERR_UNSUPPORTED, statistics_zero, b)
  end.

Definition driver_clear_statistics (b : backend) : Z * backend :=
  match callback drv_clear_statistics b with
  | Some f => invoke (Some f) b
  | None => (SPW_ERR_UNSUPPORTED, b)
  end.

Definition driver_wait (b : backend) (interests timeout_us out : Z) : Z * Z * backend :=
  match callback drv_wait b with
  | Some f => invoke_out (Some (fun p => f p interests timeout_us out)) out b
  | None => (SPW_ERR_UNSUPPORTED, out, b)
  end.

(** ** Slots *)

Definition find_free_slot (b : backend) (first count : nat) : option nat :=
  find (fun i => negb (slot_active (slot_at b i))) (seq first count).

Definition token_in_use (b : backend) (token : Z) : bool :=
  existsb (fun i => slot_active (slot_at b i) &&
                    (db_token (slot_driver_buffer (slot_at b i)) =? token))
    (seq 0 (slot_total b)).

Definition find_slot_for_public_buffer (b : backend) (h : nat) (direction : Z) : option nat :=
  find (fun i =>
    let s := slot_at b i in
    slot_active s && Nat.eqb i h && bool_decide (buf_owner (slot_buffer s) = Some (self b)) &&
    (buf_direction (slot_buffer s) =? direction)) (seq 0 (slot_total b)).

Definition find_tx_slot_for_token (b : backend) (token : Z) : option nat :=
  find (fun i =>
    let s := slot_at b i in
    slot_active s && (db_token (slot_driver_buffer s) =? token) &&
    (buf_state (slot_buffer s) =? SPW_BUFFER_STATE_BACKEND)) (seq 0 (tx_slot_count b)).

Definition validate_driver_buffer (buffer : spw_driver_buffer) (require_packet_metadata : bool)
    : Z :=
  if (db_capacity buffer <? db_length buffer) ||
     (negb (db_capacity buffer =? 0) && negb (non_null (db_data buffer)))
  then SPW_ERR_BACKEND else
  if require_packet_metadata && negb (valid_terminator (db_terminator buffer))
  then SPW_ERR_BACKEND else
  SPW_OK.

(** The slot after [slot->driver_buffer = descriptor; expose_slot(...)]; the
    epoch fields of the buffer are not touched. *)
Definition expose_slot (b : backend) (i : nat) (descriptor : spw_driver_buffer)
    (direction state : Z) : backend :=
  let old := slot_buffer (slot_at b i) in
  set_slot i
    {| slot_buffer :=
         {| buf_data := db_data descriptor; buf_length := db_length descriptor;
            buf_capacity := db_capacity descriptor;
            buf_terminator := db_terminator descriptor; buf_owner := Some (self b);
            buf_direction := direction; buf_state := state; buf_token := Z.of_nat i;
            buf_owner_epoch := buf_owner_epoch old; buf_epoch := buf_epoch old |};
       slot_driver_buffer := descriptor; slot_active := true |} b.

Definition set_shape (length terminator : Z) (d : spw_driver_buffer) : spw_driver_buffer :=
  {| db_data := db_data d; db_length := length; db_capacity := db_capacity d;
     db_terminator := terminator; db_token := db_token d |}.

(** [slot->driver_buffer.length = slot->buffer.length; ... .terminator = ...] *)
Definition sync_shape (i : nat) (b : backend) : backend :=
  let s := slot_at b i in
  set_slot i
    {| slot_buffer := slot_buffer s;
       slot_driver_buffer := set_shape (buf_length (slot_buffer s))
         (buf_terminator (slot_buffer s)) (slot_driver_buffer s);
       slot_active := slot_active s |} b.

Definition set_buf_state (state : Z) (b : spw_buffer) : spw_buffer :=
  {| buf_data := buf_data b; buf_length := buf_length b; buf_capacity := buf_capacity b;
     buf_terminator := buf_terminator b; buf_owner := buf_owner b;
     buf_direction := buf_direction b; buf_state := state; buf_token := buf_token b;
     buf_owner_epoch := buf_owner_epoch b; buf_epoch := buf_epoch b |}.

Definition set_slot_state (i : nat) (state : Z) (b : backend) : backend :=
  let s := slot_at b i in
  set_slot i
    {| slot_buffer := set_buf_state state (slot_buffer s);
       slot_driver_buffer := slot_driver_buffer s; slot_active := slot_active s |} b.

(** ** Zero-copy operations *)

Definition driver_acquire_tx_buffer (b : backend) (min_capacity timeout_us : Z)
    : Z * option nat * backend :=
  match find_free_slot b 0 (tx_slot_count b) with
  | None => (SPW_ERR_RESOURCE_EXHAUSTED, None, b)
  | Some i =>
      let '(result, descriptor, b) :=
        invoke_out ((fun f p => f p min_capacity timeout_us driver_buffer_zero) <$>
                    callback drv_acquire_tx_buffer b) driver_buffer_zero b in
      if negb (result =? SPW_OK) then (result, None, b) else
      if negb (validate_driver_buffer descriptor false =? SPW_OK) ||
         (db_capacity descriptor <? min_capacity) || token_in_use b (db_token descriptor)
      then
        let '(_, b) := invoke ((fun f p => f p descriptor) <$> callback drv_release_tx_buffer b) b in
        (SPW_ERR_BACKEND, None, b)
      else
        let descriptor := set_shape 0 SPW_TERMINATOR_EOP descriptor in
        (SPW_OK, Some i,
         expose_slot b i descriptor SPW_BUFFER_DIRECTION_TX SPW_BUFFER_STATE_APPLICATION)
  end.

(** The provider call of a submit; on success the hardware owns the slot. *)
Definition submit_slot (b : backend) (i : nat) (d : spw_driver_buffer) (timeout_us : Z)
    : Z * backend :=
  let '(result, b) :=
    invoke ((fun f p => f p d timeout_us) <$> callback drv_submit_tx_buffer b) b in
  (result, if result =? SPW_OK then set_slot_state i SPW_BUFFER_STATE_BACKEND b else b).

Definition driver_submit_tx_buffer (b : backend) (buffer : nat) (timeout_us : Z) : Z * backend :=
  match find_slot_for_public_buffer b buffer SPW_BUFFER_DIRECTION_TX with
  | None => (SPW_ERR_INVALID_STATE, b)
  | Some i =>
      if negb (buf_state (slot_buffer (slot_at b i)) =? SPW_BUFFER_STATE_APPLICATION)
      then (SPW_ERR_INVALID_STATE, b) else
      let b := sync_shape i b in
      let d := slot_driver_buffer (slot_at b i) in
      if negb (valid_terminator (db_terminator d)) || (db_capacity d <? db_length d)
      then (SPW_ERR_INVALID_PACKET, b) else
      let '(result, b) :=
        match callback drv_sync_buffer b with
        | Some f => invoke (Some (fun p => f p d SPW_DRIVER_SYNC_TO_DEVICE)) b
        | None => (SPW_OK, b)
        end in
      if negb (result =? SPW_OK) then (result, b) else
      submit_slot b i d timeout_us
  end.

Definition driver_reclaim_tx_buffer (b : backend) (timeout_us : Z) : Z * option nat * backend :=
  let '(result, descriptor, b) :=
    invoke_out ((fun f p => f p timeout_us driver_buffer_zero) <$>
                callback drv_reclaim_tx_buffer b) driver_buffer_zero b in
  if negb (result =? SPW_OK) then (result, None, b) else
  match find_tx_slot_for_token b (db_token descriptor) with
  | None => (SPW_ERR_BACKEND, None, b)
  | Some i =>
      if negb (validate_driver_buffer descriptor false =? SPW_OK)
      then (SPW_ERR_BACKEND, None, b) else
      (SPW_OK, Some i,
       expose_slot b i descriptor SPW_BUFFER_DIRECTION_TX SPW_BUFFER_STATE_APPLICATION)
  end.

Definition driver_release_tx_buffer (b : backend) (buffer : nat) : Z * backend :=
  match find_slot_for_public_buffer b buffer SPW_BUFFER_DIRECTION_TX with
  | None => (SPW_ERR_INVALID_STATE, b)
  | Some i =>
      if negb (buf_state (slot_buffer (slot_at b i)) =? SPW_BUFFER_STATE_APPLICATION)
      then (SPW_ERR_INVALID_STATE, b) else
      let b := sync_shape i b in
      let '(result, b) :=
        invoke ((fun f p => f p (slot_driver_buffer (slot_at b i))) <$>
                callback drv_release_tx_buffer b) b in
      (result, if result =? SPW_OK then set_slot i clear_slot b else b)
  end.

Definition driver_acquire_rx_buffer (b : backend) (timeout_us : Z) : Z * option nat * backend :=
  match find_free_slot b (tx_slot_count b) (rx_slot_count b) with
  | None => (SPW_ERR_RESOURCE_EXHAUSTED, None, b)
  | Some i =>
      let '(result, descriptor, b) :=
        invoke_out ((fun f p => f p timeout_us driver_buffer_zero) <$>
                    callback drv_acquire_rx_buffer b) driver_buffer_zero b in
      if negb (result =? SPW_OK) then (result, None, b) else
      if negb (validate_driver_buffer descriptor true =? SPW_OK) ||
         token_in_use b (db_token descriptor)
      then
        let '(_, b) := invoke ((fun f p => f p descriptor) <$> callback drv_release_rx_buffer b) b in
        (SPW_ERR_BACKEND, None, b)
      else
        let '(result, b) :=
          match callback drv_sync_buffer b with
          | Some f => invoke (Some (fun p => f p descriptor SPW_DRIVER_SYNC_FROM_DEVICE)) b
          | None => (SPW_OK, b)
          end in
        if negb (result =? SPW_OK) then
          let '(_, b) :=
            invoke ((fun f p => f p descriptor) <$> callback drv_release_rx_buffer b) b in
          (result, None, b)
        else
          (SPW_OK, Some i,
           expose_slot b i descriptor SPW_BUFFER_DIRECTION_RX SPW_BUFFER_STATE_APPLICATION)
  end.

Definition driver_release_rx_buffer (b : backend) (buffer : nat) : Z * backend :=
  match find_slot_for_public_buffer b buffer SPW_BUFFER_DIRECTION_RX with
  | None => (SPW_ERR_INVALID_STATE, b)
  | Some i =>
      if negb (buf_state (slot_buffer (slot_at b i)) =? SPW_BUFFER_STATE_APPLICATION)
      then (SPW_ERR_INVALID_STATE, b) else
      let '(result, b) :=
        invoke ((fun f p => f p (slot_driver_buffer (slot_at b i))) <$>
                callback drv_release_rx_buffer b) b in
      (result, if result =? SPW_OK then set_slot i clear_slot b else b)
  end.

(** ** The four tables *)

Definition DRIVER_COMMON_OPS (dma wait : bool) : spw_backend_ops backend :=
  let opt {F} (on : bool) (f : F) := if on then Some f else None in
  {| op_start := driver_start; op_stop := driver_stop; op_reset := driver_reset;
     op_get_link_state := driver_get_link_state;
     op_get_capabilities := driver_get_capabilities;
     op_supports_zero_copy := Some driver_supports_zero_copy;
     op_send := driver_send; op_receive := driver_receive;
     op_send_time_code := driver_send_time_code;
     op_receive_time_code := driver_receive_time_code;
     op_get_statistics := driver_get_statistics;
     op_clear_statistics := driver_clear_statistics;
     op_get_fault_statistics := None; op_clear_fault_statistics := None;
     op_acquire_tx_buffer := opt dma driver_acquire_tx_buffer;
     op_submit_tx_buffer := opt dma driver_submit_tx_buffer;
     op_reclaim_tx_buffer := opt dma driver_reclaim_tx_buffer;
     op_release_tx_buffer := opt dma driver_release_tx_buffer;
     op_acquire_rx_buffer := opt dma driver_acquire_rx_buffer;
     op_release_rx_buffer := opt dma driver_release_rx_buffer;
     op_wait := opt wait driver_wait |}.

(** [address] is where the constructor's context lies; [undef_backend] is what
    a NULL configuration would leave there, which validate_driver_config rules
    out. *)
Definition spw_driver_backend_factory (address : Z) (undef_backend : backend)
    (enable_wait enable_zero_copy : bool) : spw_backend_factory P backend :=
  {| context_size := sizeof_driver_backend; context_alignment := 8;
     construct := fun config =>
       match cfg_backend_config config with
       | Some mem => driver_construct address (as_driver mem)
       | None => (undef, undef_backend)
       end;
     destroy := driver_destroy;
     factory_ops := DRIVER_COMMON_OPS enable_zero_copy enable_wait;
     context_size_for_config := Some driver_context_size_for_config |}.
End driver.
