(* ===== verification/DriverProps.v ===== *)
(** * Correctness of the driver backend

    Theorems about [Driver] for an arbitrary provider: the slot invariant, the
    account of the provider's buffers, the truth of the advertised
    capabilities and the size of the context. *)

From S2P Require Import Prelude Types Backend DriverApi PortConfig Port Driver.

(** ** The calls the port layer and the application make *)

Inductive driver_call :=
| DrStart | DrStop | DrReset
| DrLinkState (out : Z)
| DrCapabilities (out : spw_capabilities)
| DrSend (p : spw_packet) (timeout : Z)
| DrReceive (p : spw_packet) (timeout : Z)
| DrSendTimeCode (tc : spw_time_code) (timeout : Z)
| DrReceiveTimeCode (tc : spw_time_code) (timeout : Z)
| DrStatistics (out : spw_statistics)
| DrClearStatistics
| DrWait (interests timeout out : Z)
| DrAcquireTx (min_capacity timeout : Z)
| DrSubmitTx (h : nat) (timeout : Z)
| DrReclaimTx (timeout : Z)
| DrReleaseTx (h : nat)
| DrAcquireRx (timeout : Z)
| DrReleaseRx (h : nat)
| DrSetPacket (h : nat) (length terminator : Z)
| DrBind (h : nat) (port epoch : Z).

(** [spw_buffer_set_packet] and [bind_buffer_epoch] write the buffer structure
    of a slot directly; the port layer only does so on application-owned
    buffers and checks the length against the capacity. *)
Definition edit_buffer {P} (h : nat) (f : spw_buffer -> spw_buffer) (b : spw_driver_backend P)
    : spw_driver_backend P :=
  let s := slot_at b h in
  if Nat.ltb h (slot_total b) && slot_active s &&
     (buf_state (slot_buffer s) =? SPW_BUFFER_STATE_APPLICATION)
  then set_slot h {| slot_buffer := f (slot_buffer s);
                     slot_driver_buffer := slot_driver_buffer s;
                     slot_active := slot_active s |} b
  else b.

Definition set_packet_fields (length terminator : Z) (b : spw_buffer) : spw_buffer :=
  if (buf_capacity b <? length) || negb (valid_terminator terminator) then b
  else set_buffer_packet length terminator b.

Definition bind_fields (port epoch : Z) (b : spw_buffer) : spw_buffer :=
  {| buf_data := buf_data b; buf_length := buf_length b; buf_capacity := buf_capacity b;
     buf_terminator := buf_terminator b; buf_owner := buf_owner b;
     buf_direction := buf_direction b; buf_state := buf_state b; buf_token := buf_token b;
     buf_owner_epoch := Some port; buf_epoch := epoch |}.

Definition do_driver {P} (undef : Z) (b : spw_driver_backend P) (call : driver_call)
    : spw_driver_backend P :=
  match call with
  | DrStart => (driver_start undef b).2
  | DrStop => (driver_stop undef b).2
  | DrReset => (driver_reset undef b).2
  | DrLinkState out => (driver_get_link_state undef b out).2
  | DrCapabilities out => (driver_get_capabilities undef b out).2
  | DrSend p t => (driver_send undef b p t).2
  | DrReceive p t => (driver_receive undef b p t).2
  | DrSendTimeCode tc t => (driver_send_time_code undef b tc t).2
  | DrReceiveTimeCode tc t => (driver_receive_time_code undef b tc t).2
  | DrStatistics out => (driver_get_statistics undef b out).2
  | DrClearStatistics => (driver_clear_statistics undef b).2
  | DrWait i t out => (driver_wait undef b i t out).2
  | DrAcquireTx n t => (driver_acquire_tx_buffer undef b n t).2
  | DrSubmitTx h t => (driver_submit_tx_buffer undef b h t).2
  | DrReclaimTx t => (driver_reclaim_tx_buffer undef b t).2
  | DrReleaseTx h => (driver_release_tx_buffer undef b h).2
  | DrAcquireRx t => (driver_acquire_rx_buffer undef b t).2
  | DrReleaseRx h => (driver_release_rx_buffer undef b h).2
  | DrSetPacket h n t => edit_buffer h (set_packet_fields n t) b
  | DrBind h port epoch => edit_buffer h (bind_fields port epoch) b
  end.

(** Sizes are unsigned. *)
Definition driver_call_ok (call : driver_call) : Prop :=
  match call with DrAcquireTx n _ => 0 <= n | _ => True end.

(** ** The slot invariant *)

Section invariant.
Context {P : Type} (undef : Z).
Implicit Types (b : spw_driver_backend P).

Definition slot_token (s : spw_driver_buffer_slot) : Z := db_token (slot_driver_buffer s).

(** An active slot at index [i] describes one provider buffer. *)
Record active_wf (owner : Z) (tx : nat) (i : nat) (s : spw_driver_buffer_slot) : Prop := {
  aw_owner : buf_owner (slot_buffer s) = Some owner;
  aw_direction : buf_direction (slot_buffer s) =
    if Nat.ltb i (tx) then SPW_BUFFER_DIRECTION_TX else SPW_BUFFER_DIRECTION_RX;
  aw_state : buf_state (slot_buffer s) = SPW_BUFFER_STATE_APPLICATION \/
    (buf_state (slot_buffer s) = SPW_BUFFER_STATE_BACKEND /\ (i < tx)%nat);
  aw_token : buf_token (slot_buffer s) = Z.of_nat i;
  aw_data : buf_data (slot_buffer s) = db_data (slot_driver_buffer s);
  aw_capacity : buf_capacity (slot_buffer s) = db_capacity (slot_driver_buffer s);
  aw_length : buf_length (slot_buffer s) <= buf_capacity (slot_buffer s);
  aw_dlength : db_length (slot_driver_buffer s) <= db_capacity (slot_driver_buffer s);
  aw_storage : buf_capacity (slot_buffer s) <> 0 -> is_Some (buf_data (slot_buffer s))
}.

Definition slot_wf (owner : Z) (tx : nat) (i : nat) (s : spw_driver_buffer_slot) : Prop :=
  if slot_active s then active_wf owner tx i s else s = clear_slot.

Record driver_wf b : Prop := {
  dw_length : length (slots b) = slot_total b;
  dw_slots : forall i, (i < slot_total b)%nat -> slot_wf (self b) (tx_slot_count b) i (slot_at b i);
  dw_tokens : forall i j, (i < slot_total b)%nat -> (j < slot_total b)%nat ->
    slot_active (slot_at b i) = true -> slot_active (slot_at b j) = true ->
    slot_token (slot_at b i) = slot_token (slot_at b j) -> i = j
}.

Lemma slot_at_set b i j s : (i < length (slots b))%nat ->
  slot_at (set_slot i s b) j = if decide (j = i) then s else slot_at b j.
Proof.
  intros Hi. unfold slot_at, set_slot. cbn [with_slots slots].
  destruct (decide (j = i)) as [->|].
  - by apply list_lookup_total_insert_eq.
  - by apply list_lookup_total_insert_ne.
Qed.

(** Writing a well-formed slot whose token no other active slot has. *)
Lemma set_slot_wf b i s : driver_wf b -> (i < slot_total b)%nat -> slot_wf (self b) (tx_slot_count b) i s ->
  (slot_active s = true -> forall j, (j < slot_total b)%nat -> j <> i ->
     slot_active (slot_at b j) = true -> slot_token (slot_at b j) <> slot_token s) ->
  driver_wf (set_slot i s b).
Proof.
  intros [Hl Hs Ht] Hi Hwf Hfresh. constructor.
  - cbn. by rewrite length_insert.
  - intros j Hj. rewrite slot_at_set by lia. change (slot_total (set_slot i s b))
      with (slot_total b) in Hj. case_decide; subst; [done|by apply Hs].
  - change (slot_total (set_slot i s b)) with (slot_total b).
    intros j k Hj Hk. rewrite !slot_at_set by lia.
    repeat case_decide; subst; intros Ha Hb E; try done.
    + exfalso. eapply Hfresh; [done|exact Hk|done|done|]. congruence.
    + exfalso. eapply Hfresh; [done|exact Hj|done|done|]. congruence.
    + by apply Ht.
Qed.

Lemma with_provider_wf b p : driver_wf b -> driver_wf (with_provider p b).
Proof. intros []. by constructor. Qed.

Lemma invoke_provider f b : exists p, (invoke undef f b).2 = with_provider p b.
Proof.
  unfold invoke. destruct f as [f|]; [destruct (f (driver_context b)); by eexists|].
  exists (driver_context b). by destruct b.
Qed.

Lemma invoke_out_provider {O} f (out : O) b :
  exists p, (invoke_out undef f out b).2 = with_provider p b.
Proof.
  unfold invoke_out. destruct f as [f|]; [destruct (f (driver_context b)) as [[]]; by eexists|].
  exists (driver_context b). by destruct b.
Qed.

Lemma clear_slots_wf b : driver_wf b -> driver_wf (clear_slots b).
Proof.
  intros [Hl Hs Ht].
  assert (slots (clear_slots b) = replicate (slot_total b) clear_slot) as E.
  { cbn. rewrite drop_ge by lia. apply app_nil_r. }
  assert (forall i, slot_at (clear_slots b) i = clear_slot) as Hat.
  { intros i. unfold slot_at. rewrite E, list_lookup_total_alt.
    destruct (replicate _ _ !! i) as [s|] eqn:El; [|done].
    by apply lookup_replicate in El as [-> _]. }
  constructor.
  - by rewrite E, length_replicate.
  - intros i Hi. by rewrite Hat.
  - intros i j _ _. by rewrite Hat.
Qed.

Lemma find_free_slot_spec b first n i : find_free_slot b first n = Some i ->
  (first <= i < first + n)%nat /\ slot_active (slot_at b i) = false.
Proof.
  intros H. apply find_some in H as [Hin H]. apply in_seq in Hin.
  split; [lia|]. by apply negb_true_iff.
Qed.

Lemma token_in_use_spec b token i : token_in_use b token = false ->
  (i < slot_total b)%nat -> slot_active (slot_at b i) = true -> slot_token (slot_at b i) <> token.
Proof.
  intros H Hi Ha E. rewrite <- not_true_iff_false in H. apply H.
  apply existsb_exists. exists i. split; [apply in_seq; lia|].
  unfold slot_token in E. rewrite Ha, E. cbn. lia.
Qed.

Lemma find_public_spec b h d i : find_slot_for_public_buffer b h d = Some i ->
  i = h /\ (i < slot_total b)%nat /\ slot_active (slot_at b i) = true /\
  buf_direction (slot_buffer (slot_at b i)) = d.
Proof.
  intros H. apply find_some in H as [Hin H]. apply in_seq in Hin.
  apply andb_prop in H as [H Hd]. apply andb_prop in H as [H _].
  apply andb_prop in H as [Ha Hh]. apply Nat.eqb_eq in Hh.
  split_and!; [done|lia|done|lia].
Qed.

Lemma find_tx_spec b token i : find_tx_slot_for_token b token = Some i ->
  (i < tx_slot_count b)%nat /\ slot_active (slot_at b i) = true /\
  slot_token (slot_at b i) = token.
Proof.
  intros H. apply find_some in H as [Hin H]. apply in_seq in Hin.
  apply andb_prop in H as [H _]. apply andb_prop in H as [Ha Ht].
  unfold slot_token. split_and!; [lia|done|lia].
Qed.

(** Filling slot [i] with a checked descriptor. *)
Lemma expose_wf b i d dir : driver_wf b -> (i < slot_total b)%nat ->
  dir = (if Nat.ltb i (tx_slot_count b) then SPW_BUFFER_DIRECTION_TX
         else SPW_BUFFER_DIRECTION_RX) ->
  validate_driver_buffer d false = SPW_OK ->
  (forall j, (j < slot_total b)%nat -> j <> i -> slot_active (slot_at b j) = true ->
     slot_token (slot_at b j) <> db_token d) ->
  driver_wf (expose_slot b i d dir SPW_BUFFER_STATE_APPLICATION).
Proof.
  intros Hwf Hi Hd Hv Hf. unfold validate_driver_buffer in Hv. case_ifs_in Hv.
  apply orb_false_iff in E as [E1 E2].
  apply set_slot_wf; [done|done| |by intros _].
  unfold slot_wf. cbn [slot_active]. constructor; cbn; try done; try lia.
  intros Hc. destruct (db_data d); [done|]. cbn in E2. lia.
Qed.

Lemma sync_shape_wf b i : driver_wf b -> (i < slot_total b)%nat ->
  slot_active (slot_at b i) = true -> driver_wf (sync_shape i b).
Proof.
  intros Hwf Hi Ha. pose proof (dw_slots _ Hwf i Hi) as Hs. unfold slot_wf in Hs.
  rewrite Ha in Hs. destruct Hs. apply set_slot_wf; [done|done| |].
  - unfold slot_wf. cbn [slot_active]. rewrite Ha. constructor; cbn; try done. lia.
  - intros _ j Hj Hne Haj E. apply Hne. by eapply (dw_tokens _ Hwf).
Qed.

(** Rewriting the buffer of an active slot, identity and capacity kept. *)
Lemma edit_slot_wf b i (f : spw_buffer -> spw_buffer) :
  driver_wf b -> (i < slot_total b)%nat -> slot_active (slot_at b i) = true ->
  active_wf (self b) (tx_slot_count b) i {| slot_buffer := f (slot_buffer (slot_at b i));
                   slot_driver_buffer := slot_driver_buffer (slot_at b i);
                   slot_active := true |} ->
  driver_wf (set_slot i {| slot_buffer := f (slot_buffer (slot_at b i));
                           slot_driver_buffer := slot_driver_buffer (slot_at b i);
                           slot_active := slot_active (slot_at b i) |} b).
Proof.
  intros Hwf Hi Ha Hact. apply set_slot_wf; [done|done| |].
  - unfold slot_wf. cbn [slot_active]. by rewrite Ha.
  - intros _ j Hj Hne Haj E. apply Hne. by eapply (dw_tokens _ Hwf).
Qed.

Lemma edit_buffer_wf b h f : driver_wf b ->
  (forall s, active_wf (self b) (tx_slot_count b) h s -> slot_active s = true ->
     active_wf (self b) (tx_slot_count b) h {| slot_buffer := f (slot_buffer s);
       slot_driver_buffer := slot_driver_buffer s; slot_active := true |}) ->
  driver_wf (edit_buffer h f b).
Proof.
  intros Hwf Hf. unfold edit_buffer. case_if; [|done].
  apply andb_prop in E as [E _]. apply andb_prop in E as [Hh Ha]. apply Nat.ltb_lt in Hh.
  apply edit_slot_wf; [done..|]. apply Hf; [|done].
  pose proof (dw_slots _ Hwf h Hh) as Hs. unfold slot_wf in Hs. by rewrite Ha in Hs.
Qed.

Lemma clear_slot_wf b i : driver_wf b -> (i < slot_total b)%nat ->
  driver_wf (set_slot i clear_slot b).
Proof. intros Hwf Hi. by apply set_slot_wf. Qed.

(** Replace a call into the provider by an arbitrary provider state. *)
Ltac provider :=
  match goal with
  | |- context [invoke undef ?f ?b] =>
      let q := fresh "q" in let H := fresh "H" in
      destruct (invoke_provider f b) as [q H]; destruct (invoke undef f b) as [? ?];
      cbn [fst snd] in H; subst
  | |- context [invoke_out undef ?f ?o ?b] =>
      let q := fresh "q" in let H := fresh "H" in
      destruct (invoke_out_provider f o b) as [q H];
      destruct (invoke_out undef f o b) as [[? ?] ?]; cbn [fst snd] in H; subst
  end.

Lemma forwarded_wf b call : driver_wf b ->
  match call with
  | DrStart | DrStop | DrLinkState _ | DrCapabilities _ | DrSend _ _ | DrReceive _ _
  | DrSendTimeCode _ _ | DrReceiveTimeCode _ _ | DrStatistics _ | DrClearStatistics
  | DrWait _ _ _ => driver_wf (do_driver undef b call)
  | _ => True
  end.
Proof.
  intros Hwf. destruct call; try done; cbn [do_driver];
    unfold driver_start, driver_stop, driver_get_link_state, driver_get_capabilities,
      driver_send, driver_receive, driver_send_time_code, driver_receive_time_code,
      driver_get_statistics, driver_clear_statistics, driver_wait; cbn zeta;
    try match goal with
      | |- context [match callback ?f b with Some _ => _ | None => _ end] =>
          destruct (callback f b) end;
    try provider; cbn [fst snd]; repeat case_if; cbn [fst snd];
    auto using with_provider_wf.
Qed.

Lemma reset_driver_wf b : driver_wf b -> driver_wf (driver_reset undef b).2.
Proof.
  intros Hwf. unfold driver_reset. provider. cbn [snd]. case_if;
    auto using with_provider_wf, clear_slots_wf.
Qed.

Lemma validate_weaken d : validate_driver_buffer d true = SPW_OK ->
  validate_driver_buffer d false = SPW_OK.
Proof. unfold validate_driver_buffer. intros H. case_ifs_in H. done. Qed.

Lemma acquire_tx_wf b n t : 0 <= n -> driver_wf b -> driver_wf (driver_acquire_tx_buffer undef b n t).2.
Proof.
  intros Hn Hwf. unfold driver_acquire_tx_buffer.
  destruct (find_free_slot b 0 _) as [i|] eqn:Ei; [|done].
  apply find_free_slot_spec in Ei as [Hi Hact]. provider.
  assert (driver_wf (with_provider q b)) as Hwf' by auto using with_provider_wf.
  case_if; [done|]. case_if; [by provider; apply with_provider_wf|]. cbn [snd].
  split_andb. apply expose_wf; [done|unfold slot_total; cbn; lia| | |].
  - by rewrite (proj2 (Nat.ltb_lt _ _)) by (cbn; lia).
  - unfold validate_driver_buffer in *. cbn [set_shape db_capacity db_length db_data andb].
    replace (db_capacity s <? 0) with false by lia. cbn [orb].
    case_if_in H; [done|]. by apply orb_false_iff in E0 as [_ ->].
  - intros j Hj Hne Ha. by apply token_in_use_spec.
Qed.

Lemma acquire_rx_wf b t : driver_wf b -> driver_wf (driver_acquire_rx_buffer undef b t).2.
Proof.
  intros Hwf. unfold driver_acquire_rx_buffer.
  destruct (find_free_slot b _ _) as [i|] eqn:Ei; [|done].
  apply find_free_slot_spec in Ei as [Hi Hact]. provider.
  assert (driver_wf (with_provider q b)) as Hwf' by auto using with_provider_wf.
  case_if; [done|]. case_if; [by provider; apply with_provider_wf|].
  split_andb.
  assert (forall q', driver_wf (expose_slot (with_provider q' (with_provider q b)) i s
            SPW_BUFFER_DIRECTION_RX SPW_BUFFER_STATE_APPLICATION)) as Hexp.
  { intros q'. apply expose_wf; [by apply with_provider_wf|unfold slot_total; cbn; lia| | |].
    - by rewrite (proj2 (Nat.ltb_ge _ _)) by (cbn; lia).
    - apply validate_weaken. lia.
    - intros j Hj Hne Ha. by apply (token_in_use_spec (with_provider q b)). }
  destruct (callback drv_sync_buffer _) as [f|].
  - provider. case_if; [provider; cbn [snd]; by repeat apply with_provider_wf|apply Hexp].
  - case_if; [done|]. cbn [snd]. pose proof (Hexp (driver_context (with_provider q b))) as He.
    by destruct b.
Qed.

Lemma reclaim_wf b t : driver_wf b -> driver_wf (driver_reclaim_tx_buffer undef b t).2.
Proof.
  intros Hwf. unfold driver_reclaim_tx_buffer. provider.
  assert (driver_wf (with_provider q b)) as Hwf' by auto using with_provider_wf.
  case_if; [done|]. destruct (find_tx_slot_for_token _ _) as [i|] eqn:Ei; [|done].
  apply find_tx_spec in Ei as (Hi & Ha & Ht). case_if; [done|]. cbn [snd].
  apply expose_wf; [done|unfold slot_total; lia| |lia|].
  - by rewrite (proj2 (Nat.ltb_lt _ _)) by lia.
  - intros j Hj Hne Haj E1. apply Hne. apply (dw_tokens _ Hwf'); try done.
    + unfold slot_total. lia.
    + congruence.
Qed.

Lemma submit_wf b h t : driver_wf b -> driver_wf (driver_submit_tx_buffer undef b h t).2.
Proof.
  intros Hwf. unfold driver_submit_tx_buffer.
  destruct (find_slot_for_public_buffer _ _ _) as [i|] eqn:Ei; [|done].
  apply find_public_spec in Ei as (-> & Hh & Ha & Hd).
  case_if; [done|]. cbn zeta.
  pose proof (sync_shape_wf b h Hwf Hh Ha) as Hwf'.
  case_if; [done|].
  assert (forall q, driver_wf (set_slot_state h SPW_BUFFER_STATE_BACKEND
            (with_provider q (sync_shape h b)))) as Hset.
  { intros q. pose proof (with_provider_wf _ q Hwf') as Hq.
    assert (slot_active (slot_at (with_provider q (sync_shape h b)) h) = true) as Hact.
    { change (slot_active (slot_at (sync_shape h b) h) = true).
      unfold sync_shape. rewrite slot_at_set by (rewrite (dw_length _ Hwf); lia).
      by rewrite decide_True. }
    pose proof (dw_slots _ Hq h Hh) as Hs. unfold slot_wf in Hs. rewrite Hact in Hs.
    apply (edit_slot_wf _ h (set_buf_state SPW_BUFFER_STATE_BACKEND)); [done..|].
    pose proof (aw_direction _ _ _ _ Hs) as Hdir.
    destruct Hs. constructor; cbn; try done.
    right. split; [done|].
    assert (buf_direction (slot_buffer (slot_at (sync_shape h b) h)) =
            SPW_BUFFER_DIRECTION_TX) as Hd'.
    { unfold sync_shape. rewrite slot_at_set by (rewrite (dw_length _ Hwf); lia).
      by rewrite decide_True. }
    change (slot_at (with_provider q (sync_shape h b)) h)
      with (slot_at (sync_shape h b) h) in Hdir.
    change (tx_slot_count (with_provider q (sync_shape h b))) with (tx_slot_count b) in Hdir.
    rewrite Hd' in Hdir. by destruct (Nat.ltb_spec h (tx_slot_count b)). }
  destruct (callback drv_sync_buffer _) as [f|].
  - provider. case_if; [by apply with_provider_wf|]. unfold submit_slot. provider. cbn [snd].
    case_if; [|by repeat apply with_provider_wf]. apply (Hset q0).
  - case_if; [done|]. unfold submit_slot. provider. cbn [snd].
    case_if; [apply Hset|by apply with_provider_wf].
Qed.

Lemma release_wf b h : driver_wf b ->
  driver_wf (driver_release_tx_buffer undef b h).2 /\
  driver_wf (driver_release_rx_buffer undef b h).2.
Proof.
  intros Hwf. unfold driver_release_tx_buffer, driver_release_rx_buffer. split.
  - destruct (find_slot_for_public_buffer _ _ _) as [i|] eqn:Ei; [|done].
    apply find_public_spec in Ei as (-> & Hh & Ha & Hd). case_if; [done|]. cbn zeta.
    pose proof (sync_shape_wf b h Hwf Hh Ha) as Hwf'. provider. cbn [snd].
    case_if; auto using clear_slot_wf, with_provider_wf.
  - destruct (find_slot_for_public_buffer _ _ _) as [i|] eqn:Ei; [|done].
    apply find_public_spec in Ei as (-> & Hh & Ha & Hd). case_if; [done|].
    provider. cbn [snd]. case_if; auto using clear_slot_wf, with_provider_wf.
Qed.

Lemma do_driver_wf b call : driver_call_ok call -> driver_wf b -> driver_wf (do_driver undef b call).
Proof.
  intros Hok Hwf. pose proof (forwarded_wf b call Hwf) as Hf.
  destruct call; try exact Hf; cbn [do_driver];
    auto using reset_driver_wf, acquire_tx_wf, acquire_rx_wf, reclaim_wf, submit_wf.
  - by apply release_wf.
  - by apply release_wf.
  - apply edit_buffer_wf; [done|]. intros s [] _. unfold set_packet_fields.
    case_if; constructor; cbn; try done. split_andb. lia.
  - apply edit_buffer_wf; [done|]. intros s [] _. by constructor.
Qed.

Lemma construct_wf address driver : driver_wf (driver_construct address driver).2.
Proof.
  unfold driver_construct. cbn [snd]. set (n := (_ + _)%nat).
  assert (forall i, (replicate n clear_slot !!! i) = clear_slot) as Hat.
  { intros i. rewrite list_lookup_total_alt.
    destruct (replicate _ _ !! i) as [s|] eqn:El; [|done].
    by apply lookup_replicate in El as [-> _]. }
  constructor; unfold slot_at; cbn [slots].
  - apply length_replicate.
  - intros i _. by rewrite Hat.
  - intros i j _ _. by rewrite Hat.
Qed.

Lemma driver_run_wf calls : Forall driver_call_ok calls -> forall b, driver_wf b ->
  driver_wf (fold_left (do_driver undef) calls b).
Proof. induction 1 as [|call calls Hc _ IH]; intros b Hwf; [done|]. by apply IH, do_driver_wf. Qed.
End invariant.

(** Whatever the provider does, after any sequence of calls from a fresh
    context: every active slot describes one provider buffer, owned by this
    context, in the direction of its half of the array, owned by the
    application or (transmit only) by the hardware, with its length within its
    capacity; no two active slots have the same provider token; and an inactive
    slot is cleared, so a handle to a released buffer is never taken for an
    owned one. *)
Theorem driver_invariant {P} (undef address : Z) (driver : spw_driver_config P) calls :
  Forall driver_call_ok calls ->
  driver_wf (fold_left (do_driver undef) calls (driver_construct address driver).2).
Proof. intros Hok. by apply driver_run_wf, construct_wf. Qed.

(** ** The account of the provider's buffers *)

(** The provider with a ledger of the tokens it has handed out and not got
    back, and the tokens it has refused to take back, latest first: a successful
    acquire enters the token, a release strikes one entry if it succeeds and is
    noted as refused if not, a successful reset strikes the whole ledger. *)
Section account.
Context {P : Type}.
Abbreviation Pl := (P * (list Z * list Z))%type.
Implicit Types (b : spw_driver_backend (P * (list Z * list Z))) (lost : list Z).

Fixpoint strike (t : Z) (l : list Z) : list Z :=
  match l with
  | [] => []
  | x :: l => if x =? t then l else x :: strike t l
  end.

Definition lift (f : P -> Z * P) (x : Pl) : Z * Pl :=
  let '(r, p) := f x.1 in (r, (p, x.2)).

Definition lift_out {O} (f : P -> Z * O * P) (x : Pl) : Z * O * Pl :=
  let '(r, o, p) := f x.1 in (r, o, (p, x.2)).

Definition enter (f : P -> Z * spw_driver_buffer * P) (x : Pl) : Z * spw_driver_buffer * Pl :=
  let '(r, d, p) := f x.1 in (r, d, (p, (if r =? SPW_OK then db_token d :: x.2.1 else x.2.1, x.2.2))).

Definition leave (d : spw_driver_buffer) (f : P -> Z * P) (x : Pl) : Z * Pl :=
  let '(r, p) := f x.1 in
  (r, (p, if r =? SPW_OK then (strike (db_token d) x.2.1, x.2.2)
          else (x.2.1, db_token d :: x.2.2))).

Definition accounted (ops : spw_driver_ops P) : spw_driver_ops (P * (list Z * list Z)) :=
  {| drv_struct_size := drv_struct_size ops; drv_version := drv_version ops;
     drv_start := lift <$> drv_start ops;
     drv_stop := lift <$> drv_stop ops;
     drv_reset := (fun f (x : Pl) =>
       let '(r, p) := f x.1 in (r, (p, (if r =? SPW_OK then [] else x.2.1, x.2.2)))) <$> drv_reset ops;
     drv_get_link_state := (fun f x o => lift_out (fun p => f p o) x) <$> drv_get_link_state ops;
     drv_get_capabilities :=
       (fun f x o => lift_out (fun p => f p o) x) <$> drv_get_capabilities ops;
     drv_send := (fun f x a t => lift (fun p => f p a t) x) <$> drv_send ops;
     drv_receive := (fun f x a t => lift_out (fun p => f p a t) x) <$> drv_receive ops;
     drv_send_time_code := (fun f x a t => lift (fun p => f p a t) x) <$> drv_send_time_code ops;
     drv_receive_time_code :=
       (fun f x a t => lift_out (fun p => f p a t) x) <$> drv_receive_time_code ops;
     drv_get_statistics := (fun f x o => lift_out (fun p => f p o) x) <$> drv_get_statistics ops;
     drv_clear_statistics := lift <$> drv_clear_statistics ops;
     drv_wait := (fun f x i t o => lift_out (fun p => f p i t o) x) <$> drv_wait ops;
     drv_acquire_tx_buffer :=
       (fun f x n t d => enter (fun p => f p n t d) x) <$> drv_acquire_tx_buffer ops;
     drv_submit_tx_buffer := (fun f x d t => lift (fun p => f p d t) x) <$> drv_submit_tx_buffer ops;
     drv_reclaim_tx_buffer :=
       (fun f x t d => lift_out (fun p => f p t d) x) <$> drv_reclaim_tx_buffer ops;
     drv_release_tx_buffer :=
       (fun f x d => leave d (fun p => f p d) x) <$> drv_release_tx_buffer ops;
     drv_acquire_rx_buffer :=
       (fun f x t d => enter (fun p => f p t d) x) <$> drv_acquire_rx_buffer ops;
     drv_release_rx_buffer :=
       (fun f x d => leave d (fun p => f p d) x) <$> drv_release_rx_buffer ops;
     drv_sync_buffer := (fun f x d s => lift (fun p => f p d s) x) <$> drv_sync_buffer ops |}.

(** The tokens of the active slots. *)
Definition held b : list Z :=
  map slot_token (List.filter slot_active (slots b)).

Definition ledger b : list Z := (driver_context b).2.1.
Definition refused b : list Z := (driver_context b).2.2.

(** The tokens refused between two states. *)
Definition refusals b b' : list Z :=
  take (length (refused b') - length (refused b)) (refused b').

Lemma strike_perm t l : In t l -> l ≡ₚ t :: strike t l.
Proof.
  induction l as [|x l IH]; [done|]. cbn. case_if.
  - intros _. by replace x with t by lia.
  - intros [->|Hin]; [lia|]. rewrite (IH Hin) at 1. constructor.
Qed.

Lemma slots_split b i : (i < length (slots b))%nat ->
  slots b = take i (slots b) ++ slot_at b i :: drop (S i) (slots b).
Proof.
  intros Hi. symmetry. apply take_drop_middle. unfold slot_at.
  by apply list_lookup_lookup_total_lt.
Qed.

Lemma held_set b i s : (i < length (slots b))%nat ->
  held (set_slot i s b) ≡ₚ
    (if slot_active s then [slot_token s] else []) ++
    map slot_token (List.filter slot_active (take i (slots b) ++ drop (S i) (slots b))).
Proof.
  intros Hi. unfold held, set_slot. cbn [with_slots slots].
  rewrite insert_take_drop by done. rewrite !List.filter_app, !map_app.
  cbn [List.filter]. destruct (slot_active s); cbn [map app]; [|done].
  symmetry. apply Permutation_middle.
Qed.

Lemma held_at b i : (i < length (slots b))%nat ->
  held b ≡ₚ
    (if slot_active (slot_at b i) then [slot_token (slot_at b i)] else []) ++
    map slot_token (List.filter slot_active (take i (slots b) ++ drop (S i) (slots b))).
Proof.
  intros Hi. rewrite <- held_set by done. unfold held, set_slot, slot_at.
  cbn [with_slots slots]. by rewrite list_insert_id by (by apply list_lookup_lookup_total_lt).
Qed.

(** Rewriting a slot from [b]'s to [s]: what is held changes by the tokens. *)
Lemma held_replace b i s : (i < length (slots b))%nat ->
  (if slot_active (slot_at b i) then [slot_token (slot_at b i)] else []) ++
    held (set_slot i s b) ≡ₚ
  (if slot_active s then [slot_token s] else []) ++ held b.
Proof.
  intros Hi. rewrite (held_set b i s Hi), (held_at b i Hi). apply Permutation_app_swap_app.
Qed.

(** A call and the buffers that are lost after it: those whose descriptor an
    acquire rejected and that the provider would not take back, until the
    provider is reset. *)
Definition account_step (undef : Z) (x : spw_driver_backend Pl * list Z) (call : driver_call)
    : spw_driver_backend Pl * list Z :=
  let b := do_driver undef x.1 call in
  (b, match call with
      | DrAcquireTx _ _ | DrAcquireRx _ => refusals x.1 b ++ x.2
      | DrReset => if (driver_reset undef x.1).1 =? SPW_OK then [] else x.2
      | _ => x.2
      end).

Context (undef : Z) (ops : spw_driver_ops P) (Hreset : is_Some (drv_reset ops)).

Record balanced b lost : Prop := {
  bal_ops : drb_ops b = Some (accounted ops);
  bal_dma : (0 < slot_total b)%nat -> all_dma ops = true;
  bal_wf : driver_wf b;
  bal_perm : ledger b ≡ₚ held b ++ lost
}.

Lemma balanced_provider b lost q : balanced b lost -> q.2.1 = ledger b ->
  balanced (with_provider q b) lost.
Proof.
  intros [Ho Hd Hw Hp] E. constructor; try done; [by apply with_provider_wf|].
  unfold ledger. cbn. by rewrite E.
Qed.

(** A callback that keeps the account. *)
Definition quiet (f : option (Pl -> Z * Pl)) : Prop :=
  forall g x, f = Some g -> (g x).2.2 = x.2.
Definition quiet_out {O} (f : option (Pl -> Z * O * Pl)) : Prop :=
  forall g x, f = Some g -> (g x).2.2 = x.2.

Lemma invoke_quiet f b : quiet f -> exists q, (invoke undef f b).2 = with_provider q b /\
  q.2.1 = ledger b.
Proof.
  intros Hf. unfold invoke. destruct f as [f|].
  - pose proof (Hf f (driver_context b) eq_refl) as H.
    destruct (f (driver_context b)) as [r q]. exists q. split; [done|exact (f_equal fst H)].
  - exists (driver_context b). by destruct b.
Qed.

Lemma invoke_out_quiet {O} f (o : O) b : quiet_out f ->
  exists q, (invoke_out undef f o b).2 = with_provider q b /\ q.2.1 = ledger b.
Proof.
  intros Hf. unfold invoke_out. destruct f as [f|].
  - pose proof (Hf f (driver_context b) eq_refl) as H.
    destruct (f (driver_context b)) as [[r o'] q]. exists q. split; [done|exact (f_equal fst H)].
  - exists (driver_context b). by destruct b.
Qed.

Lemma quiet_lift {F} (g : F -> P -> Z * P) (o : option F) :
  quiet ((fun f => lift (g f)) <$> o).
Proof.
  intros h x H. destruct o as [f|]; [|done]. injection H as <-.
  unfold lift. by destruct (g f x.1).
Qed.

Lemma quiet_lift_out {F O} (g : F -> P -> Z * O * P) (o : option F) :
  quiet_out ((fun f => lift_out (g f)) <$> o).
Proof.
  intros h x H. destruct o as [f|]; [|done]. injection H as <-.
  unfold lift_out. by destruct (g f x.1) as [[]].
Qed.

(** Replace a quiet call by a provider state with the same ledger. *)
Ltac quiet_call :=
  match goal with
  | |- context [invoke undef ?f ?b] =>
      let q := fresh "q" in let Eq := fresh "Eq" in let H := fresh "H" in
      destruct (invoke_quiet f b) as (q & H & Eq);
      [intros ? [? ?] ?; simplify_option_eq; unfold lift; by repeat case_match|];
      destruct (invoke undef f b) as [? ?]; cbn [fst snd] in H; subst
  | |- context [invoke_out undef ?f ?o ?b] =>
      let q := fresh "q" in let Eq := fresh "Eq" in let H := fresh "H" in
      destruct (invoke_out_quiet f o b) as (q & H & Eq);
      [intros ? [? ?] ?; simplify_option_eq; unfold lift_out; by repeat case_match|];
      destruct (invoke_out undef f o b) as [[? ?] ?]; cbn [fst snd] in H; subst
  end.

Lemma forwarded_balanced b lost call : balanced b lost ->
  match call with
  | DrStart | DrStop | DrLinkState _ | DrCapabilities _ | DrSend _ _ | DrReceive _ _
  | DrSendTimeCode _ _ | DrReceiveTimeCode _ _ | DrStatistics _ | DrClearStatistics
  | DrWait _ _ _ => balanced (do_driver undef b call) lost
  | _ => True
  end.
Proof.
  intros Hb. pose proof (bal_ops _ _ Hb) as Ho.
  destruct call; try done; cbn [do_driver];
    unfold driver_start, driver_stop, driver_get_link_state, driver_get_capabilities,
      driver_send, driver_receive, driver_send_time_code, driver_receive_time_code,
      driver_get_statistics, driver_clear_statistics, driver_wait, callback; cbn zeta;
    rewrite Ho; cbn [accounted drv_start drv_stop drv_get_link_state drv_get_capabilities
      drv_send drv_receive drv_send_time_code drv_receive_time_code drv_get_statistics
      drv_clear_statistics drv_wait].
  all: try match goal with
    | |- context [match ?f <$> ?o with Some _ => _ | None => _ end] =>
        destruct o; cbn [fmap option_fmap option_map] end.
  all: try quiet_call; cbn [fst snd]; repeat case_if; cbn [fst snd];
    auto using balanced_provider.
Qed.

Lemma balanced_set b lost q i s : balanced b lost -> (i < slot_total b)%nat ->
  driver_wf (set_slot i s (with_provider q b)) ->
  (if slot_active (slot_at b i) then [slot_token (slot_at b i)] else []) ++ q.2.1 ≡ₚ
  (if slot_active s then [slot_token s] else []) ++ ledger b ->
  balanced (set_slot i s (with_provider q b)) lost.
Proof.
  intros [Ho Hd Hw Hp] Hi Hw' Hq. constructor; try done.
  unfold ledger. cbn [set_slot with_slots with_provider driver_context].
  apply (Permutation_app_inv_l (if slot_active (slot_at b i) then [slot_token (slot_at b i)]
                                else [])).
  rewrite Hq, Hp, !app_assoc. f_equiv. symmetry. apply (held_replace b).
  rewrite (dw_length _ Hw). lia.
Qed.

Lemma dma_present b lost : balanced b lost -> (0 < slot_total b)%nat ->
  is_Some (drv_acquire_tx_buffer ops) /\ is_Some (drv_release_tx_buffer ops) /\
  is_Some (drv_acquire_rx_buffer ops) /\ is_Some (drv_release_rx_buffer ops).
Proof.
  intros Hb Hpos. pose proof (bal_dma _ _ Hb Hpos) as H. unfold all_dma in H. split_andb.
  destruct (drv_acquire_tx_buffer ops), (drv_release_tx_buffer ops),
    (drv_acquire_rx_buffer ops), (drv_release_rx_buffer ops); try done; eauto.
Qed.

(** A state of [b] in which nothing was refused since. *)
Lemma balanced_unrefused b b' lost : balanced b' lost -> refused b' = refused b ->
  balanced b' (refusals b b' ++ lost).
Proof. intros Hb E. unfold refusals. by rewrite E, Nat.sub_diag, take_0. Qed.

(** A buffer just acquired that goes back to the provider. *)
Lemma returned_balanced b lost p d g : balanced b lost ->
  let b' := (invoke undef ((fun h x => leave d (fun p => h p d) x) <$> Some g)
               (with_provider (p, (db_token d :: ledger b, refused b)) b)).2 in
  balanced b' (refusals b b' ++ lost).
Proof.
  intros Hb. cbn [fmap option_fmap option_map invoke]. unfold leave.
  cbn [fst snd with_provider driver_context]. destruct (g p d) as [r' p']. case_if.
  - apply balanced_unrefused; [|done]. apply (balanced_provider b lost (p', _)); [done|].
    cbn. by rewrite Z.eqb_refl.
  - cbn [snd]. set (b' := with_provider _ _).
    assert (refusals b b' = [db_token d]) as ->.
    { unfold refusals, b', refused. cbn [with_provider driver_context snd length].
      replace (S _ - _)%nat with 1%nat by lia. by rewrite firstn_cons, firstn_O. }
    destruct Hb as [Ho Hd Hw Hp]. subst b'.
    constructor; [done|done|by do 2 apply with_provider_wf|].
    apply (Permutation_trans (l' := db_token d :: held b ++ lost));
      [by apply perm_skip|apply Permutation_middle].
Qed.

Lemma acquire_tx_balanced b lost n t : 0 <= n -> balanced b lost ->
  let b' := (driver_acquire_tx_buffer undef b n t).2 in balanced b' (refusals b b' ++ lost).
Proof.
  intros Hn Hb. pose proof (acquire_tx_wf undef b n t Hn (bal_wf _ _ Hb)) as Hwf.
  revert Hwf. cbn zeta. unfold driver_acquire_tx_buffer.
  destruct (find_free_slot b 0 _) as [i|] eqn:Ei; [|intros _; by apply balanced_unrefused].
  apply find_free_slot_spec in Ei as [Hi Hact].
  assert (i < slot_total b)%nat as Hit by (unfold slot_total; lia).
  destruct (dma_present b lost Hb ltac:(lia)) as ([f Ef] & [g Eg] & _).
  unfold callback. rewrite (bal_ops _ _ Hb). cbn [accounted drv_acquire_tx_buffer].
  rewrite Ef. cbn [fmap option_fmap option_map invoke_out]. unfold enter.
  destruct (f _ n t driver_buffer_zero) as [[r d] p] eqn:Er. case_if.
  { intros _. apply balanced_unrefused; [|done]. apply balanced_provider; [done|]. cbn.
    by replace (r =? SPW_OK) with false by lia. }
  replace (r =? SPW_OK) with true by lia. case_if.
  - cbn [with_provider drb_ops]. rewrite (bal_ops _ _ Hb). cbn [accounted drv_release_tx_buffer].
    rewrite Eg. intros _. pose proof (returned_balanced b lost p d g Hb) as H.
    cbn zeta in H. unfold ledger, refused in H.
    by destruct (invoke undef _ _) as [r1 b1].
  - intros Hwf. apply balanced_unrefused; [|done].
    apply balanced_set; [done|done|exact Hwf|]. rewrite Hact. done.
Qed.

Lemma acquire_rx_balanced b lost t : balanced b lost ->
  let b' := (driver_acquire_rx_buffer undef b t).2 in balanced b' (refusals b b' ++ lost).
Proof.
  intros Hb. pose proof (acquire_rx_wf undef b t (bal_wf _ _ Hb)) as Hwf.
  revert Hwf. cbn zeta. unfold driver_acquire_rx_buffer.
  destruct (find_free_slot b _ _) as [i|] eqn:Ei; [|intros _; by apply balanced_unrefused].
  apply find_free_slot_spec in Ei as [Hi Hact].
  assert (i < slot_total b)%nat as Hit by (unfold slot_total; lia).
  destruct (dma_present b lost Hb ltac:(lia)) as (_ & _ & [f Ef] & [g Eg]).
  unfold callback. rewrite (bal_ops _ _ Hb). cbn [accounted drv_acquire_rx_buffer].
  rewrite Ef. cbn [fmap option_fmap option_map invoke_out]. unfold enter.
  destruct (f _ t driver_buffer_zero) as [[r d] p] eqn:Er. case_if.
  { intros _. apply balanced_unrefused; [|done]. apply balanced_provider; [done|]. cbn.
    by replace (r =? SPW_OK) with false by lia. }
  replace (r =? SPW_OK) with true by lia.
  pose proof (fun p1 => returned_balanced b lost p1 d g Hb) as Hrel. cbn zeta in Hrel.
  cbn [with_provider drb_ops]. rewrite (bal_ops _ _ Hb).
  cbn [accounted drv_release_rx_buffer drv_sync_buffer]. rewrite Eg.
  case_if.
  { specialize (Hrel p). unfold ledger, refused in Hrel.
    destruct (invoke undef _ _) as [r1 b1]. intros _. exact Hrel. }
  destruct (drv_sync_buffer ops) as [h|]; cbn [fmap option_fmap option_map invoke].
  - unfold lift. cbn [with_provider driver_context fst snd].
    destruct (h p d _) as [r2 p2]. case_if.
    + specialize (Hrel p2). unfold ledger, refused in Hrel.
      cbn [with_provider drb_ops]. rewrite (bal_ops _ _ Hb). cbn [accounted drv_release_rx_buffer].
      rewrite Eg. destruct (invoke undef _ _) as [r1 b1]. intros _. exact Hrel.
    + intros Hwf. apply balanced_unrefused; [|done].
      apply (balanced_set b lost (p2, _)); [done|done|exact Hwf|]. by rewrite Hact.
  - cbn [negb]. rewrite Z.eqb_refl. cbn [negb]. intros Hwf. apply balanced_unrefused; [|done].
    apply balanced_set; [done|done|exact Hwf|]. by rewrite Hact.
Qed.

(** Rewriting a slot without changing its token or activity. *)
Lemma balanced_rewrite b lost q i s : balanced b lost -> (i < slot_total b)%nat ->
  driver_wf (set_slot i s (with_provider q b)) -> q.2.1 = ledger b ->
  slot_active s = slot_active (slot_at b i) -> slot_token s = slot_token (slot_at b i) ->
  balanced (set_slot i s (with_provider q b)) lost.
Proof. intros Hb Hi Hw Eq Ea Et. apply balanced_set; [done..|]. by rewrite Ea, Et, Eq. Qed.

Lemma balanced_rewrite_here b lost i s : balanced b lost -> (i < slot_total b)%nat ->
  driver_wf (set_slot i s b) ->
  slot_active s = slot_active (slot_at b i) -> slot_token s = slot_token (slot_at b i) ->
  balanced (set_slot i s b) lost.
Proof.
  intros Hb Hi Hw Ea Et.
  pose proof (balanced_rewrite b lost (driver_context b) i s Hb Hi) as H. destruct b. by apply H.
Qed.

Lemma reset_balanced b lost : balanced b lost ->
  balanced (driver_reset undef b).2 (if (driver_reset undef b).1 =? SPW_OK then [] else lost).
Proof.
  intros Hb. pose proof (reset_driver_wf undef b (bal_wf _ _ Hb)) as Hwf. revert Hwf.
  unfold driver_reset, callback. rewrite (bal_ops _ _ Hb). cbn [accounted drv_reset].
  destruct Hreset as [f ->]. cbn [fmap option_fmap option_map invoke].
  destruct (f (driver_context b).1) as [r p]. cbn [fst snd].
  case_if; [|by intros; apply balanced_provider].
  intros Hwf. constructor; try done; [by apply (bal_ops b lost)|by apply (bal_dma b lost)|].
  rewrite app_nil_r.
  unfold held, ledger, clear_slots. cbn [with_slots with_provider slots driver_context snd].
  rewrite drop_ge by (rewrite (dw_length _ (bal_wf _ _ Hb)); done). rewrite app_nil_r.
  change (slot_total (with_provider (p, ([], _)) b)) with (slot_total b). cbn [fst].
  induction (slot_total b); done.
Qed.

Lemma reclaim_balanced b lost t : balanced b lost ->
  balanced (driver_reclaim_tx_buffer undef b t).2 lost.
Proof.
  intros Hb. pose proof (reclaim_wf undef b t (bal_wf _ _ Hb)) as Hwf. revert Hwf.
  unfold driver_reclaim_tx_buffer, callback. rewrite (bal_ops _ _ Hb).
  cbn [accounted drv_reclaim_tx_buffer]. quiet_call.
  assert (balanced (with_provider q b) lost) as Hb' by by apply balanced_provider.
  case_if; [done|]. destruct (find_tx_slot_for_token _ _) as [i|] eqn:Ei; [|done].
  apply find_tx_spec in Ei as (Hi & Ha & Ht). case_if; [done|]. cbn [snd]. intros Hwf.
  apply (balanced_rewrite b lost q); [done|unfold slot_total; cbn in Hi; lia|done|done|exact (eq_sym Ha)|].
  exact (eq_sym Ht).
Qed.

Lemma sync_shape_balanced b lost i : balanced b lost -> (i < slot_total b)%nat ->
  slot_active (slot_at b i) = true -> balanced (sync_shape i b) lost.
Proof.
  intros Hb Hi Ha. apply balanced_rewrite_here; try done.
  apply (sync_shape_wf b i); [by eapply bal_wf|done|done].
Qed.

Lemma submit_slot_balanced b lost q h d t : balanced b lost -> q.2.1 = ledger b ->
  (h < slot_total b)%nat ->
  driver_wf (submit_slot undef (with_provider q b) h d t).2 ->
  balanced (submit_slot undef (with_provider q b) h d t).2 lost.
Proof.
  intros Hb Hq Hh. unfold submit_slot, callback. cbn [with_provider drb_ops].
  rewrite (bal_ops _ _ Hb). cbn [accounted drv_submit_tx_buffer]. quiet_call. cbn [snd].
  case_if; [|intros; by apply (balanced_provider b lost q0); [|rewrite Eq]].
  intros Hwf. apply (balanced_rewrite b lost q0); try done. by rewrite Eq.
Qed.

Lemma submit_balanced b lost h t : balanced b lost ->
  balanced (driver_submit_tx_buffer undef b h t).2 lost.
Proof.
  intros Hb. pose proof (submit_wf undef b h t (bal_wf _ _ Hb)) as Hwf. revert Hwf.
  unfold driver_submit_tx_buffer.
  destruct (find_slot_for_public_buffer _ _ _) as [i|] eqn:Ei; [|done].
  apply find_public_spec in Ei as (-> & Hh & Ha & Hd).
  case_if; [done|]. cbn zeta.
  pose proof (sync_shape_balanced b lost h Hb Hh Ha) as Hb'.
  case_if; [done|]. clear E0. set (d := slot_driver_buffer _). clearbody d.
  assert (h < slot_total (sync_shape h b))%nat as Hh' by done.
  generalize dependent (sync_shape h b). intros b1 Hb1 Hh'.
  unfold callback. rewrite (bal_ops _ _ Hb1). cbn [accounted drv_sync_buffer].
  destruct (drv_sync_buffer ops) as [f|]; cbn [fmap option_fmap option_map].
  - quiet_call. case_if; [by intros; apply balanced_provider|]. by apply submit_slot_balanced.
  - cbn [negb]. rewrite Z.eqb_refl. cbn [negb].
    pose proof (submit_slot_balanced b1 lost (driver_context b1) h d t Hb1 eq_refl Hh') as H.
    by destruct b1.
Qed.

Lemma cleared_balanced b lost q h : balanced b lost -> (h < slot_total b)%nat ->
  slot_active (slot_at b h) = true -> q.2.1 = strike (slot_token (slot_at b h)) (ledger b) ->
  driver_wf (set_slot h clear_slot (with_provider q b)) ->
  balanced (set_slot h clear_slot (with_provider q b)) lost.
Proof.
  intros Hb Hh Ha Hq Hwf. apply balanced_set; [done..|]. rewrite Ha, Hq.
  cbn [clear_slot slot_active app]. symmetry. apply strike_perm.
  rewrite (bal_perm _ _ Hb). apply in_or_app. left. unfold held. apply in_map.
  apply filter_In. split; [|done]. unfold slot_at. apply list_elem_of_In.
  apply list_elem_of_lookup_total_2. rewrite (dw_length _ (bal_wf _ _ Hb)). done.
Qed.

(** A release that the provider was asked for: the slot is cleared exactly if it
    succeeds. *)
Lemma released_balanced b lost h g : balanced b lost -> (h < slot_total b)%nat ->
  slot_active (slot_at b h) = true ->
  let d := slot_driver_buffer (slot_at b h) in
  let '(r, b') := invoke undef ((fun f p => f p d) <$>
    ((fun f x d => leave d (fun p => f p d) x) <$> Some g)) b in
  let b'' := if r =? SPW_OK then set_slot h clear_slot b' else b' in
  driver_wf b'' -> balanced b'' lost.
Proof.
  intros Hb Hh Ha. cbn [fmap option_fmap option_map invoke]. unfold leave.
  destruct (g _ _) as [r p]. case_if; intros Hwf.
  - by apply cleared_balanced.
  - by apply balanced_provider.
Qed.

Lemma release_balanced b lost h : balanced b lost ->
  balanced (driver_release_tx_buffer undef b h).2 lost /\
  balanced (driver_release_rx_buffer undef b h).2 lost.
Proof.
  intros Hb. destruct (release_wf undef b h (bal_wf _ _ Hb)) as [Hw1 Hw2].
  revert Hw1 Hw2. unfold driver_release_tx_buffer, driver_release_rx_buffer. intros Hw1 Hw2.
  split.
  - clear Hw2. revert Hw1.
    destruct (find_slot_for_public_buffer _ _ _) as [i|] eqn:Ei; [|done].
    apply find_public_spec in Ei as (-> & Hh & Ha & Hd). case_if; [done|]. cbn zeta.
    pose proof (sync_shape_balanced b lost h Hb Hh Ha) as Hb'.
    assert (slot_active (slot_at (sync_shape h b) h) = true) as Ha'.
    { unfold sync_shape. rewrite slot_at_set by (rewrite (dw_length _ (bal_wf _ _ Hb)); lia).
      by rewrite decide_True. }
    assert (h < slot_total (sync_shape h b))%nat as Hh' by done.
    generalize dependent (sync_shape h b). intros b1 Hb1 Ha1 Hh1.
    destruct (dma_present b1 lost Hb1 ltac:(lia)) as (_ & [g Eg] & _).
    unfold callback. rewrite (bal_ops _ _ Hb1). cbn [accounted drv_release_tx_buffer].
    rewrite Eg. pose proof (released_balanced b1 lost h g Hb1 Hh1 Ha1) as H. cbn zeta in H.
    by destruct (invoke undef _ _).
  - clear Hw1. revert Hw2.
    destruct (find_slot_for_public_buffer _ _ _) as [i|] eqn:Ei; [|done].
    apply find_public_spec in Ei as (-> & Hh & Ha & Hd). case_if; [done|].
    destruct (dma_present b lost Hb ltac:(lia)) as (_ & _ & _ & [g Eg]).
    unfold callback. rewrite (bal_ops _ _ Hb). cbn [accounted drv_release_rx_buffer].
    rewrite Eg. pose proof (released_balanced b lost h g Hb Hh Ha) as H. cbn zeta in H.
    by destruct (invoke undef _ _).
Qed.

Lemma edit_balanced b lost h f : balanced b lost -> driver_wf (edit_buffer h f b) ->
  balanced (edit_buffer h f b) lost.
Proof.
  intros Hb. unfold edit_buffer. case_if; [|done]. intros Hwf.
  apply andb_prop in E as [E _]. apply andb_prop in E as [Hh Ha]. apply Nat.ltb_lt in Hh.
  by apply balanced_rewrite_here.
Qed.

Lemma account_step_balanced b lost call : driver_call_ok call -> balanced b lost ->
  let '(b', lost') := account_step undef (b, lost) call in balanced b' lost'.
Proof.
  intros Hok Hb. pose proof (forwarded_balanced b lost call Hb) as Hf.
  pose proof (do_driver_wf undef b call Hok (bal_wf _ _ Hb)) as Hwf.
  destruct call; try exact Hf; cbn [account_step do_driver fst snd] in *;
    auto using reset_balanced, acquire_tx_balanced, acquire_rx_balanced, reclaim_balanced,
      submit_balanced, edit_balanced.
  - by apply release_balanced.
  - by apply release_balanced.
Qed.
End account.

Definition account_config {P} (driver : spw_driver_config P) : spw_driver_config (P * (list Z * list Z)) :=
  {| drc_struct_size := drc_struct_size driver; drc_version := drc_version driver;
     drc_ops := accounted <$> drc_ops driver;
     drc_driver_context := (drc_driver_context driver, ([], []));
     drc_reserved := drc_reserved driver; tx_buffer_slots := tx_buffer_slots driver;
     rx_buffer_slots := rx_buffer_slots driver |}.

Lemma accounted_dma {P} (ops : spw_driver_ops P) : all_dma (accounted ops) = all_dma ops.
Proof.
  unfold all_dma. cbn. by destruct (drv_acquire_tx_buffer ops), (drv_submit_tx_buffer ops),
    (drv_reclaim_tx_buffer ops), (drv_release_tx_buffer ops), (drv_acquire_rx_buffer ops),
    (drv_release_rx_buffer ops).
Qed.

Lemma construct_balanced {P} address (driver : spw_driver_config P) ops :
  drc_ops driver = Some ops ->
  balanced ops (driver_construct address (account_config driver)).2 [].
Proof.
  intros Ho. pose proof (construct_wf address (account_config driver)) as Hwf.
  constructor; try done.
  - cbn. by rewrite Ho.
  - unfold slot_total, driver_construct, zero_copy_enabled_config.
    cbn [snd tx_slot_count rx_slot_count account_config drc_ops]. rewrite Ho.
    cbn [fmap option_fmap option_map]. rewrite accounted_dma.
    destruct (all_dma ops); [done|]. cbn. lia.
  - unfold held, ledger, driver_construct. cbn [snd slots driver_context account_config].
    match goal with |- context [replicate ?n _] => generalize n end. intros n. by induction n.
Qed.

(** C4. No buffer is unaccounted for, whatever the provider does: after any
    sequence of calls the buffers that the provider has handed out and not got
    back are exactly those of the active slots, and those whose descriptor the
    backend rejected (too small, malformed, reused token, failed cache
    synchronisation), offered back and the provider would not take.  A release by
    the application that the provider refuses keeps its slot. *)
Theorem driver_account {P} (undef address : Z) (driver : spw_driver_config P) ops calls :
  drc_ops driver = Some ops -> is_Some (drv_reset ops) -> Forall driver_call_ok calls ->
  let '(b, lost) := fold_left (account_step undef) calls
    ((driver_construct address (account_config driver)).2, []) in
  ledger b ≡ₚ held b ++ lost.
Proof.
  intros Ho Hreset Hok.
  pose proof (construct_balanced address driver ops Ho) as Hb. revert Hb.
  generalize (driver_construct address (account_config driver)).2, (@nil Z).
  induction Hok as [|call calls Hc _ IH]; intros b lost Hb; [exact (bal_perm ops b lost Hb)|].
  cbn [fold_left]. pose proof (account_step_balanced undef ops Hreset b lost call Hc Hb) as H.
  destruct (account_step undef (b, lost) call) as [b' lost']. by apply IH.
Qed.

(** ** Capabilities *)

Lemma has_cap_testbit caps k : 0 <= k -> has_cap caps (2 ^ k) = Z.testbit (cap_bits caps) k.
Proof. intros Hk. unfold has_cap. rewrite land_pow2_testbit by done. apply negb_involutive. Qed.

Lemma driver_caps_ok {P} (undef : Z) ops (b : spw_driver_backend P) out c b' :
  drb_ops b = Some ops -> driver_get_capabilities undef b out = (SPW_OK, c, b') ->
  (exists q, b' = with_provider q b) /\
  (Z.testbit (cap_bits c) 1 = true ->
     non_null (drv_send_time_code ops) && non_null (drv_receive_time_code ops) = true) /\
  (Z.testbit (cap_bits c) 3 = true ->
     non_null (drv_get_statistics ops) && non_null (drv_clear_statistics ops) = true) /\
  (Z.testbit (cap_bits c) 6 = true -> driver_supports_zero_copy b = true) /\
  Z.testbit (cap_bits c) 5 = false /\
  (Z.testbit (cap_bits c) 7 = true -> non_null (drv_wait ops) = true).
Proof.
  intros Hb. unfold driver_get_capabilities. cbn zeta.
  destruct (invoke_out_provider undef ((fun f q => f q out) <$> callback drv_get_capabilities b)
    out b) as [q Hq].
  destruct (invoke_out _ _ _ _) as [[r c'] b1] eqn:Er. cbn [snd] in Hq. subst b1.
  unfold callback. cbn [with_provider drb_ops]. rewrite Hb.
  change SPW_CAP_TIME_CODE with (2 ^ 1). change SPW_CAP_STATISTICS with (2 ^ 3).
  change SPW_CAP_READINESS with (2 ^ 7). change SPW_CAP_ZERO_COPY with (2 ^ 6).
  change SPW_CAP_FAULT_INJECTION with (2 ^ 5). rewrite !has_cap_testbit by lia.
  intros H. case_if_in H; [injection H as ->; cbn in *; lia|].
  do 5 (case_if_in H; [done|]). injection H as <- <-.
  split; [by exists q|].
  assert (forall k, 0 <= k -> k <> 7 -> Z.testbit (cap_bits
    (if negb (non_null (drv_wait ops)) then clear_cap (2 ^ 7) c' else c')) k =
    Z.testbit (cap_bits c') k) as Hk.
  { intros k Hk Hne. case_if; [|done]. cbn [clear_cap cap_bits].
    rewrite Z.land_spec, Z.lnot_spec, Z.pow2_bits_false by lia. apply andb_true_r. }
  rewrite !Hk by lia.
  destruct (Z.testbit (cap_bits c') 1), (Z.testbit (cap_bits c') 3),
    (Z.testbit (cap_bits c') 5), (Z.testbit (cap_bits c') 6), (driver_supports_zero_copy b),
    (non_null (drv_send_time_code ops)), (non_null (drv_receive_time_code ops)),
    (non_null (drv_get_statistics ops)), (non_null (drv_clear_statistics ops)),
    (non_null (drv_wait ops)); try done.
  all: split_and!; try done.
  all: cbn [negb clear_cap cap_bits]; rewrite Z.land_spec, Z.lnot_spec, Z.pow2_bits_true by lia.
  all: by rewrite andb_false_r.
Qed.

(** What a port over the driver backend advertises is true: a successful
    capability query claims time-codes or statistics only if the provider has
    both callbacks, readiness exactly if it has the wait callback, zero-copy
    exactly if the backend has slots in both directions and all six DMA
    callbacks, and never fault injection. *)
Theorem driver_capabilities_truthful {P} (undef : Z) ops (b : spw_driver_backend P)
    (p : spw_port (spw_driver_backend P)) dma out caps port :
  drb_ops b = Some ops -> backend_context p = Some b ->
  Port.ops p = Some (DRIVER_COMMON_OPS undef dma (non_null (drv_wait ops))) ->
  spw_port_get_capabilities (Some p) (Some out) = (SPW_OK, Some caps, port) ->
  (has_cap caps SPW_CAP_TIME_CODE = true ->
     is_Some (drv_send_time_code ops) /\ is_Some (drv_receive_time_code ops)) /\
  (has_cap caps SPW_CAP_STATISTICS = true ->
     is_Some (drv_get_statistics ops) /\ is_Some (drv_clear_statistics ops)) /\
  has_cap caps SPW_CAP_READINESS = non_null (drv_wait ops) /\
  has_cap caps SPW_CAP_ZERO_COPY = driver_supports_zero_copy b /\
  has_cap caps SPW_CAP_FAULT_INJECTION = false.
Proof.
  intros Hb Hc Ho. unfold spw_port_get_capabilities, on_backend. rewrite Ho, Hc.
  cbn [DRIVER_COMMON_OPS op_get_capabilities op_supports_zero_copy op_wait].
  destruct (driver_get_capabilities undef b out) as [[r c] b'] eqn:Ed.
  case_if; cbn iota beta; intros H; injection H as Hr <- _; [|by rewrite Hr in E].
  subst r. destruct (driver_caps_ok undef ops b out c b' Hb Ed)
    as ([q ->] & H1 & H3 & H6 & H5 & H7).
  change (driver_supports_zero_copy (with_provider q b)) with (driver_supports_zero_copy b).
  change SPW_CAP_TIME_CODE with (2 ^ 1). change SPW_CAP_STATISTICS with (2 ^ 3).
  change SPW_CAP_READINESS with (2 ^ 7). change SPW_CAP_ZERO_COPY with (2 ^ 6).
  change SPW_CAP_FAULT_INJECTION with (2 ^ 5). rewrite !has_cap_testbit by lia.
  cbn [cap_bits].
  replace (non_null (if non_null (drv_wait ops) then Some (driver_wait undef) else None))
    with (non_null (drv_wait ops)) by (by destruct (drv_wait ops)).
  assert (forall k, 0 <= k -> Z.testbit (if non_null (drv_wait ops)
      then (if driver_supports_zero_copy b then cap_bits c .| 2 ^ 6 else cap_bits c) .| 2 ^ 7
      else if driver_supports_zero_copy b then cap_bits c .| 2 ^ 6 else cap_bits c) k =
    Z.testbit (cap_bits c) k || (driver_supports_zero_copy b && (k =? 6)) ||
      (non_null (drv_wait ops) && (k =? 7))) as Hbits.
  { intros k Hk. destruct (non_null (drv_wait ops)), (driver_supports_zero_copy b);
      rewrite ?Z.lor_spec, ?Z.pow2_bits_eqb by lia; cbn [andb];
      rewrite ?orb_false_r, ?(Z.eqb_sym 6), ?(Z.eqb_sym 7); done. }
  rewrite !Hbits by lia. cbn [Z.eqb Pos.eqb].
  rewrite !andb_false_r, !andb_true_r, !orb_false_r.
  split_and!; try done.
  - intros H. specialize (H1 H). by destruct (drv_send_time_code ops), (drv_receive_time_code ops).
  - intros H. specialize (H3 H). by destruct (drv_get_statistics ops), (drv_clear_statistics ops).
  - destruct (non_null (drv_wait ops)); [by rewrite orb_true_r|].
    destruct (Z.testbit (cap_bits c) 7); [by rewrite H7|done].
  - destruct (driver_supports_zero_copy b); [by rewrite orb_true_r|].
    destruct (Z.testbit (cap_bits c) 6); [by rewrite H6|done].
Qed.

(** ** Context size *)

(** For every driver configuration with at most 64 slots per direction, the
    size the backend asks for is exactly what its constructor clears, computed
    without overflow: the structure and one slot record per buffer. *)
Lemma driver_context_fits {P} (config : spw_port_config P) mem size :
  cfg_backend_config config = Some mem ->
  0 <= tx_buffer_slots (as_driver mem) <= SPW_DRIVER_MAX_BUFFER_SLOTS ->
  0 <= rx_buffer_slots (as_driver mem) <= SPW_DRIVER_MAX_BUFFER_SLOTS ->
  driver_context_size_for_config config size = (SPW_OK, construct_size (as_driver mem)) /\
  construct_size (as_driver mem) = sizeof_driver_backend +
    Z.of_nat (length (slots (driver_construct 0 (as_driver mem)).2)) * sizeof_driver_buffer_slot.
Proof.
  intros Hc Ht Hr. unfold driver_context_size_for_config, construct_size, driver_construct.
  rewrite Hc. cbn zeta. cbn [snd slots]. rewrite length_replicate.
  unfold SPW_DRIVER_MAX_BUFFER_SLOTS, sizeof_driver_backend, sizeof_driver_buffer_slot,
    SIZE_MAX, UINT64_MAX in *.
  destruct (zero_copy_enabled_config (as_driver mem)).
  - rewrite !(wrap_small 64 (_ + rx_buffer_slots _)) by lia.
    rewrite !(wrap_small 64 (_ * 120)) by lia. rewrite !wrap_small by lia.
    split; [|lia]. change ((2 ^ 64 - 1) `div` 120) with 153722867280912930.
    repeat (case_if; [exfalso; lia|]). done.
  - rewrite wrap_small by lia. split; [done|]. lia.
Qed.

(** ** The buffers of a driver context, for the port layer *)

#[export, refine] Instance driver_buffers {P} : BufferMemory (spw_driver_backend P) :=
  {| buffer_valid := fun b h => Nat.ltb h (length (slots b));
     buffer_at := fun b h => slot_buffer (slot_at b h);
     set_buffer := fun b h x =>
       set_slot h {| slot_buffer := x; slot_driver_buffer := slot_driver_buffer (slot_at b h);
                     slot_active := slot_active (slot_at b h) |} b |}.
Proof.
  - intros b h x Hv. apply Nat.ltb_lt in Hv. rewrite slot_at_set by done.
    by rewrite decide_True.
  - intros b h h' x Hne. destruct (decide (h < length (slots b))%nat).
    + rewrite slot_at_set by done. by rewrite decide_False.
    + unfold set_slot, slot_at. cbn [with_slots slots]. by rewrite list_insert_ge by lia.
  - intros b h h' x. cbn. by rewrite length_insert.
Defined.

(** ** Samples *)

(** A provider that numbers its buffers. *)
Definition sample_provider : spw_driver_ops Z :=
  {| drv_struct_size := 160; drv_version := 2;
     drv_start := Some (fun p => (SPW_OK, p)); drv_stop := Some (fun p => (SPW_OK, p));
     drv_reset := Some (fun p => (SPW_OK, p));
     drv_get_link_state := Some (fun p _ => (SPW_OK, SPW_LINK_RUN, p));
     drv_get_capabilities := Some (fun p c => (SPW_OK, c, p));
     drv_send := Some (fun p _ _ => (SPW_OK, p));
     drv_receive := Some (fun p q _ => (SPW_ERR_TIMEOUT, q, p));
     drv_send_time_code := None; drv_receive_time_code := None;
     drv_get_statistics := None; drv_clear_statistics := None;
     drv_wait := Some (fun p _ _ o => (SPW_OK, o, p));
     drv_acquire_tx_buffer := Some (fun p _ _ _ =>
       (SPW_OK, {| db_data := Some 8192; db_length := 0; db_capacity := 64;
                   db_terminator := 0; db_token := p |}, p + 1));
     drv_submit_tx_buffer := Some (fun p _ _ => (SPW_OK, p));
     drv_reclaim_tx_buffer := Some (fun p _ d => (SPW_ERR_TIMEOUT, d, p));
     drv_release_tx_buffer := Some (fun p _ => (SPW_OK, p));
     drv_acquire_rx_buffer := Some (fun p _ _ =>
       (SPW_OK, {| db_data := Some 12288; db_length := 8; db_capacity := 64;
                   db_terminator := 1; db_token := p |}, p + 1));
     drv_release_rx_buffer := Some (fun p _ => (SPW_OK, p));
     drv_sync_buffer := None |}.

Definition sample_driver_config : spw_driver_config Z :=
  {| drc_struct_size := 48; drc_version := 2; drc_ops := Some sample_provider;
     drc_driver_context := 7; drc_reserved := 0; tx_buffer_slots := 2; rx_buffer_slots := 1 |}.

(** The second acquire asks for more than the provider gives and is returned. *)
Definition sample_driver_calls : list driver_call :=
  [DrAcquireTx 16 0; DrAcquireTx 100 0; DrSetPacket 0 3 0; DrSubmitTx 0 0; DrAcquireRx 0].

Lemma sample_driver_calls_ok : Forall driver_call_ok sample_driver_calls.
Proof. repeat constructor; cbn; lia. Qed.

Lemma driver_invariant_witness :
  driver_wf (fold_left (do_driver 0) sample_driver_calls
    (driver_construct 4160 sample_driver_config).2).
Proof. apply (driver_invariant 0 4160 sample_driver_config _ sample_driver_calls_ok). Defined.

(** A provider that keeps what it gets back while its numbers are odd. *)
Definition stubborn_provider : spw_driver_ops Z :=
  {| drv_struct_size := 160; drv_version := 2;
     drv_start := drv_start sample_provider; drv_stop := drv_stop sample_provider;
     drv_reset := drv_reset sample_provider;
     drv_get_link_state := drv_get_link_state sample_provider;
     drv_get_capabilities := drv_get_capabilities sample_provider;
     drv_send := drv_send sample_provider; drv_receive := drv_receive sample_provider;
     drv_send_time_code := None; drv_receive_time_code := None;
     drv_get_statistics := None; drv_clear_statistics := None;
     drv_wait := drv_wait sample_provider;
     drv_acquire_tx_buffer := drv_acquire_tx_buffer sample_provider;
     drv_submit_tx_buffer := drv_submit_tx_buffer sample_provider;
     drv_reclaim_tx_buffer := drv_reclaim_tx_buffer sample_provider;
     drv_release_tx_buffer := Some (fun p _ =>
       (if Z.odd p then SPW_ERR_BACKEND else SPW_OK, p));
     drv_acquire_rx_buffer := drv_acquire_rx_buffer sample_provider;
     drv_release_rx_buffer := drv_release_rx_buffer sample_provider;
     drv_sync_buffer := None |}.

Definition stubborn_config : spw_driver_config Z :=
  {| drc_struct_size := 48; drc_version := 2; drc_ops := Some stubborn_provider;
     drc_driver_context := 7; drc_reserved := 0; tx_buffer_slots := 2; rx_buffer_slots := 1 |}.

(** Buffer 8 is rejected and refused; the release of buffer 7 is refused too, but
    buffer 7 stays in its slot; buffer 9 is received. *)
Lemma driver_account_witness :
  let x := fold_left (account_step 0) (sample_driver_calls ++ [DrReleaseTx 0])
             ((driver_construct 4160 (account_config stubborn_config)).2, []) in
  held x.1 = [7; 9] /\ x.2 = [8] /\ ledger x.1 ≡ₚ held x.1 ++ x.2.
Proof.
  split; [vm_compute; reflexivity|]. split; [vm_compute; reflexivity|].
  pose proof (driver_account 0 4160 stubborn_config stubborn_provider
    (sample_driver_calls ++ [DrReleaseTx 0])) as H.
  specialize (H eq_refl (ex_intro _ _ eq_refl)).
  destruct (fold_left _ _ _) as [b lost]. apply H.
  apply Forall_app_2; [apply sample_driver_calls_ok|]. by repeat constructor.
Defined.

Definition sample_caps : spw_capabilities :=
  {| cap_bits := SPW_CAP_EEP; cap_max_packet_size := 64; cap_tx_queue_depth := 2;
     cap_rx_queue_depth := 1; cap_buffer_alignment := 8 |}.

Definition sample_driver_port : spw_port (spw_driver_backend Z) :=
  {| Port.ops := Some (DRIVER_COMMON_OPS 0 true true);
     backend_context := Some (driver_construct 4160 sample_driver_config).2;
     destroy_backend := driver_destroy; workspace_base := 4096; workspace_alignment := 8;
     release_workspace := false; locally_started := false; ownership_epoch := 1 |}.

Lemma driver_capabilities_truthful_witness :
  exists caps port,
    spw_port_get_capabilities (Some sample_driver_port) (Some sample_caps) =
      (SPW_OK, Some caps, port) /\
    has_cap caps SPW_CAP_ZERO_COPY = true.
Proof.
  eexists _, _. split; [reflexivity|].
  eapply (driver_capabilities_truthful 0 sample_provider
    (driver_construct 4160 sample_driver_config).2 sample_driver_port true sample_caps);
    reflexivity.
Defined.

Lemma driver_context_fits_witness :
  exists config : spw_port_config Z,
    driver_context_size_for_config config 0 = (SPW_OK, 392).
Proof.
  exists {| cfg_struct_size := 32; cfg_version := 1; cfg_backend := SPW_BACKEND_DRIVER;
     cfg_flags := 0; cfg_backend_config_size := 48; cfg_backend_config := Some
       {| as_simulator := {| sim_struct_size := 0; sim_version := 0; sim_link_id := 0;
                             sim_endpoint := 0 |};
          as_udp := Faults.sample_udp_config;
          as_device := {| dev_struct_size := 0; dev_version := 0; dev_port_id := 0;
                          dev_reserved := 0; dev_endpoint := [] |};
          as_driver := sample_driver_config |} |}.
  match goal with |- driver_context_size_for_config ?c _ = _ =>
    destruct (driver_context_fits c _ 0 eq_refl) as [-> _] end;
    [cbn; unfold SPW_DRIVER_MAX_BUFFER_SLOTS; lia..|by vm_compute].
Defined.
