(* ===== verification/Vspd.v ===== *)
(** * VSPD: the device protocol codec

    src/src/backends/device/vspw_device_protocol.{h,c}: the 40-byte header and
    the payloads exchanged between the device backend and the vspwd server,
    with the validation both sides apply to every record. *)

From S2P Require Import Prelude VspwTp.

(** ** Constants *)

Definition VSPD_MAGIC : Z := 0x56535044.
Definition VSPD_VERSION_MAJOR : Z := 1.
Definition VSPD_VERSION_MINOR : Z := 3.
Definition VSPD_HEADER_SIZE : Z := 40.
Definition VSPD_MAX_FRAME_PAYLOAD : Z := 32 * 1024.
Definition VSPD_MAX_LOGICAL_PACKET : Z := 1024 * 1024.

Definition VSPD_MSG_HELLO : Z := 1.
Definition VSPD_MSG_ATTACH : Z := 2.
Definition VSPD_MSG_DETACH : Z := 3.
Definition VSPD_MSG_START : Z := 4.
Definition VSPD_MSG_STOP : Z := 5.
Definition VSPD_MSG_RESET : Z := 6.
Definition VSPD_MSG_GET_LINK_STATE : Z := 7.
Definition VSPD_MSG_GET_CAPABILITIES : Z := 8.
Definition VSPD_MSG_DATA_TX : Z := 9.
Definition VSPD_MSG_DATA_RX : Z := 10.
Definition VSPD_MSG_TIME_CODE_TX : Z := 11.
Definition VSPD_MSG_TIME_CODE_RX : Z := 12.
Definition VSPD_MSG_GET_STATISTICS : Z := 13.
Definition VSPD_MSG_CLEAR_STATISTICS : Z := 14.
Definition VSPD_MSG_LINK_STATE_EVENT : Z := 15.
Definition VSPD_MSG_GET_SERVER_INFO : Z := 16.
Definition VSPD_MSG_GET_PORT_INFO : Z := 17.
Definition VSPD_MSG_GET_PORT_STATISTICS : Z := 18.
Definition VSPD_MSG_CLEAR_PORT_STATISTICS : Z := 19.
Definition VSPD_MSG_SUBSCRIBE_PORT : Z := 20.
Definition VSPD_MSG_UNSUBSCRIBE_PORT : Z := 21.
Definition VSPD_MSG_PORT_SNAPSHOT_EVENT : Z := 22.

Definition VSPD_FLAG_RESPONSE : Z := 0x01.
Definition VSPD_FLAG_FRAGMENT_START : Z := 0x02.
Definition VSPD_FLAG_FRAGMENT_END : Z := 0x04.
Definition VSPD_FLAG_EOP : Z := 0x08.
Definition VSPD_FLAG_EEP : Z := 0x10.
Definition VSPD_FLAG_KNOWN_MASK : Z := 0x1f.

Definition VSPD_HELLO_PAYLOAD_SIZE : Z := 4.
Definition VSPD_LINK_STATE_PAYLOAD_SIZE : Z := 4.
Definition VSPD_CAPABILITIES_PAYLOAD_SIZE : Z := 24.
Definition VSPD_TIME_CODE_PAYLOAD_SIZE : Z := 2.
Definition VSPD_STATISTICS_PAYLOAD_SIZE : Z := 72.
Definition VSPD_SERVER_INFO_PAYLOAD_SIZE : Z := 20.
Definition VSPD_PORT_INFO_PAYLOAD_SIZE : Z := 16.
Definition VSPD_PORT_SNAPSHOT_PAYLOAD_SIZE : Z :=
  VSPD_PORT_INFO_PAYLOAD_SIZE + VSPD_STATISTICS_PAYLOAD_SIZE.

Definition VSPD_PORT_INFO_ATTACHED : Z := 0x01.
Definition VSPD_PORT_INFO_STARTED : Z := 0x02.
Definition VSPD_PORT_INFO_RESET_LATCHED : Z := 0x04.
Definition VSPD_PORT_INFO_EVER_ATTACHED : Z := 0x08.
Definition VSPD_PORT_INFO_BRIDGED : Z := 0x10.
Definition VSPD_PORT_INFO_KNOWN_MASK : Z := 0x1f.

Definition VSPD_STATUS_OK : Z := 0.
Definition VSPD_STATUS_INVALID_ARGUMENT : Z := -1.
Definition VSPD_STATUS_INVALID_STATE : Z := -2.
Definition VSPD_STATUS_TIMEOUT : Z := -3.
Definition VSPD_STATUS_UNSUPPORTED : Z := -4.
Definition VSPD_STATUS_RESOURCE_EXHAUSTED : Z := -5.
Definition VSPD_STATUS_LINK_UNAVAILABLE : Z := -6.
Definition VSPD_STATUS_BUFFER_TOO_SMALL : Z := -7.
Definition VSPD_STATUS_INVALID_PACKET : Z := -8.
Definition VSPD_STATUS_BACKEND : Z := -9.

Definition VSPD_LINK_ERROR_RESET : Z := 0.
Definition VSPD_LINK_ERROR_WAIT : Z := 1.
Definition VSPD_LINK_READY : Z := 2.
Definition VSPD_LINK_STARTED : Z := 3.
Definition VSPD_LINK_CONNECTING : Z := 4.
Definition VSPD_LINK_RUN : Z := 5.

Definition VSPD_CODEC_OK : Z := 0.
Definition VSPD_CODEC_INVALID_ARGUMENT : Z := -1.
Definition VSPD_CODEC_TRUNCATED : Z := -2.
Definition VSPD_CODEC_INVALID_MAGIC : Z := -3.
Definition VSPD_CODEC_UNSUPPORTED_VERSION : Z := -4.
Definition VSPD_CODEC_INVALID_HEADER : Z := -5.
Definition VSPD_CODEC_INVALID_TYPE : Z := -6.
Definition VSPD_CODEC_INVALID_FLAGS : Z := -7.
Definition VSPD_CODEC_INVALID_SIZE : Z := -8.
Definition VSPD_CODEC_INVALID_SHAPE : Z := -9.

(** ** Structures *)

Record vspd_header := {
  v_magic : Z;
  v_version_major : Z;
  v_version_minor : Z;
  v_type : Z;
  v_flags : Z;
  v_header_size : Z;
  v_reserved : Z;
  v_payload_size : Z;
  v_request_id : Z;
  v_port_id : Z;
  v_message_id : Z;
  v_fragment_offset : Z;
  v_total_size : Z;
  v_status : Z
}.

Record vspd_capabilities_payload := {
  vc_bits : Z;
  vc_max_packet_size : Z;
  vc_tx_queue_depth : Z;
  vc_rx_queue_depth : Z;
  vc_buffer_alignment : Z
}.

Record vspd_server_info_payload := {
  vi_port_count : Z;
  vi_client_capacity : Z;
  vi_packet_queue_depth : Z;
  vi_time_code_queue_depth : Z;
  vi_max_logical_packet : Z
}.

Record vspd_port_info_payload := {
  vp_flags : Z;
  vp_link_state : Z;
  vp_packet_queue_count : Z;
  vp_time_code_queue_count : Z
}.

Record vspd_statistics_payload := {
  vs_tx_packets : Z;
  vs_rx_packets : Z;
  vs_tx_bytes : Z;
  vs_rx_bytes : Z;
  vs_tx_time_codes : Z;
  vs_rx_time_codes : Z;
  vs_eep_packets : Z;
  vs_link_errors : Z;
  vs_dropped_packets : Z
}.

Record vspd_port_snapshot_payload := {
  vn_info : vspd_port_info_payload;
  vn_statistics : vspd_statistics_payload
}.

(** ** Byte-order helpers *)

Definition vspd_read_be16 (p : list Z) (off : nat) : Z :=
  u16 (u16 (mem_get p off ≪ 8) .| mem_get p (off + 1)).

Definition vspd_read_be32 (p : list Z) (off : nat) : Z :=
  u32 (mem_get p off ≪ 24) .| u32 (mem_get p (off + 1) ≪ 16)
  .| u32 (mem_get p (off + 2) ≪ 8) .| mem_get p (off + 3).

Definition vspd_read_be64 (p : list Z) (off : nat) : Z :=
  u64 (vspd_read_be32 p off ≪ 32) .| vspd_read_be32 p (off + 4).

Definition vspd_write_be16 (p : list Z) (off : nat) (value : Z) : list Z :=
  mem_write p off [u8 (value ≫ 8); u8 value].

Definition vspd_write_be32 (p : list Z) (off : nat) (value : Z) : list Z :=
  mem_write p off [u8 (value ≫ 24); u8 (value ≫ 16); u8 (value ≫ 8); u8 value].

Definition vspd_write_be64 (p : list Z) (off : nat) (value : Z) : list Z :=
  vspd_write_be32 (vspd_write_be32 p off (u32 (value ≫ 32))) (off + 4) (u32 value).

Arguments vspd_read_be16 p off%_nat_scope.
Arguments vspd_read_be32 p off%_nat_scope.
Arguments vspd_read_be64 p off%_nat_scope.
Arguments vspd_write_be16 p off%_nat_scope value.
Arguments vspd_write_be32 p off%_nat_scope value.
Arguments vspd_write_be64 p off%_nat_scope value.

(** ** Validation *)

Definition vspd_type_valid (type : Z) : bool :=
  (VSPD_MSG_HELLO <=? type) && (type <=? VSPD_MSG_PORT_SNAPSHOT_EVENT).

Definition vspd_type_is_event (type : Z) : bool :=
  (type =? VSPD_MSG_DATA_RX) || (type =? VSPD_MSG_TIME_CODE_RX) ||
  (type =? VSPD_MSG_LINK_STATE_EVENT) || (type =? VSPD_MSG_PORT_SNAPSHOT_EVENT).

Definition vspd_type_allows_response (type : Z) : bool := negb (vspd_type_is_event type).

Definition vspd_status_valid (status : Z) : bool :=
  (status <=? VSPD_STATUS_OK) && (VSPD_STATUS_BACKEND <=? status).

Definition vspd_has_data_flags (flags : Z) : bool :=
  negb (flags .& (VSPD_FLAG_FRAGMENT_START .| VSPD_FLAG_FRAGMENT_END .|
                  VSPD_FLAG_EOP .| VSPD_FLAG_EEP) =? 0).

Definition vspd_success_response_payload_size (type : Z) : Z :=
  if type =? VSPD_MSG_HELLO then VSPD_HELLO_PAYLOAD_SIZE else
  if type =? VSPD_MSG_GET_LINK_STATE then VSPD_LINK_STATE_PAYLOAD_SIZE else
  if type =? VSPD_MSG_GET_CAPABILITIES then VSPD_CAPABILITIES_PAYLOAD_SIZE else
  if (type =? VSPD_MSG_GET_STATISTICS) || (type =? VSPD_MSG_GET_PORT_STATISTICS)
  then VSPD_STATISTICS_PAYLOAD_SIZE else
  if type =? VSPD_MSG_GET_SERVER_INFO then VSPD_SERVER_INFO_PAYLOAD_SIZE else
  if type =? VSPD_MSG_GET_PORT_INFO then VSPD_PORT_INFO_PAYLOAD_SIZE else
  0.

Definition vspd_validate_common (header : vspd_header) : Z :=
  if negb (v_magic header =? VSPD_MAGIC) then VSPD_CODEC_INVALID_MAGIC else
  if negb (v_version_major header =? VSPD_VERSION_MAJOR) ||
     negb (v_version_minor header =? VSPD_VERSION_MINOR)
  then VSPD_CODEC_UNSUPPORTED_VERSION else
  if negb (v_header_size header =? VSPD_HEADER_SIZE) || negb (v_reserved header =? 0)
  then VSPD_CODEC_INVALID_HEADER else
  if negb (vspd_type_valid (v_type header)) then VSPD_CODEC_INVALID_TYPE else
  if negb (v_flags header .& u8 (Z.lnot VSPD_FLAG_KNOWN_MASK) =? 0)
  then VSPD_CODEC_INVALID_FLAGS else
  if VSPD_MAX_FRAME_PAYLOAD <? v_payload_size header then VSPD_CODEC_INVALID_SIZE else
  VSPD_CODEC_OK.

Definition vspd_flag (header : vspd_header) (flag : Z) : bool :=
  negb (v_flags header .& flag =? 0).

Definition vspd_validate_data_shape (header : vspd_header) : Z :=
  let start := vspd_flag header VSPD_FLAG_FRAGMENT_START in
  let end_ := vspd_flag header VSPD_FLAG_FRAGMENT_END in
  let eop := vspd_flag header VSPD_FLAG_EOP in
  let eep := vspd_flag header VSPD_FLAG_EEP in
  let fragment_end := u64 (v_fragment_offset header + v_payload_size header) in
  if (v_message_id header =? 0) || (VSPD_MAX_LOGICAL_PACKET <? v_total_size header)
  then VSPD_CODEC_INVALID_SHAPE else
  if v_total_size header <? fragment_end then VSPD_CODEC_INVALID_SHAPE else
  if (if v_total_size header =? 0 then
        negb (v_payload_size header =? 0) || negb (v_fragment_offset header =? 0) ||
        negb start || negb end_
      else
        (v_payload_size header =? 0) ||
        xorb (v_fragment_offset header =? 0) start ||
        xorb (fragment_end =? v_total_size header) end_)
  then VSPD_CODEC_INVALID_SHAPE else
  if (if end_ then eqb eop eep else eop || eep) then VSPD_CODEC_INVALID_SHAPE else
  VSPD_CODEC_OK.

(** The exact payload size of a request or event that is not DATA. *)
Definition vspd_request_payload_wrong (type payload_size : Z) : bool :=
  if type =? VSPD_MSG_HELLO then negb (payload_size =? VSPD_HELLO_PAYLOAD_SIZE) else
  if (type =? VSPD_MSG_ATTACH) || (type =? VSPD_MSG_DETACH) || (type =? VSPD_MSG_START) ||
     (type =? VSPD_MSG_STOP) || (type =? VSPD_MSG_RESET) ||
     (type =? VSPD_MSG_GET_LINK_STATE) || (type =? VSPD_MSG_GET_CAPABILITIES) ||
     (type =? VSPD_MSG_GET_STATISTICS) || (type =? VSPD_MSG_CLEAR_STATISTICS) ||
     (type =? VSPD_MSG_GET_SERVER_INFO) || (type =? VSPD_MSG_GET_PORT_INFO) ||
     (type =? VSPD_MSG_GET_PORT_STATISTICS) || (type =? VSPD_MSG_CLEAR_PORT_STATISTICS) ||
     (type =? VSPD_MSG_SUBSCRIBE_PORT) || (type =? VSPD_MSG_UNSUBSCRIBE_PORT)
  then negb (payload_size =? 0) else
  if (type =? VSPD_MSG_TIME_CODE_TX) || (type =? VSPD_MSG_TIME_CODE_RX)
  then negb (payload_size =? VSPD_TIME_CODE_PAYLOAD_SIZE) else
  if type =? VSPD_MSG_LINK_STATE_EVENT
  then negb (payload_size =? VSPD_LINK_STATE_PAYLOAD_SIZE) else
  if type =? VSPD_MSG_PORT_SNAPSHOT_EVENT
  then negb (payload_size =? VSPD_PORT_SNAPSHOT_PAYLOAD_SIZE) else
  false.

(** The header part of the shape check: responses, then requests and events. *)
Definition vspd_validate_shape_fields (header : vspd_header) : Z :=
  if vspd_flag header VSPD_FLAG_RESPONSE then
    if negb (vspd_type_allows_response (v_type header)) || (v_request_id header =? 0) ||
       vspd_has_data_flags (v_flags header) || negb (v_message_id header =? 0) ||
       negb (v_fragment_offset header =? 0) || negb (v_total_size header =? 0) ||
       negb (vspd_status_valid (v_status header))
    then VSPD_CODEC_INVALID_SHAPE else
    let expected :=
      if v_status header =? VSPD_STATUS_OK
      then vspd_success_response_payload_size (v_type header) else 0 in
    if negb (v_payload_size header =? expected) then VSPD_CODEC_INVALID_SHAPE else
    VSPD_CODEC_OK
  else
    if negb (v_status header =? VSPD_STATUS_OK) then VSPD_CODEC_INVALID_SHAPE else
    if (if vspd_type_is_event (v_type header) then negb (v_request_id header =? 0)
        else v_request_id header =? 0)
    then VSPD_CODEC_INVALID_SHAPE else
    if (v_type header =? VSPD_MSG_DATA_TX) || (v_type header =? VSPD_MSG_DATA_RX)
    then vspd_validate_data_shape header else
    if vspd_has_data_flags (v_flags header) || negb (v_message_id header =? 0) ||
       negb (v_fragment_offset header =? 0) || negb (v_total_size header =? 0)
    then VSPD_CODEC_INVALID_SHAPE else
    if vspd_request_payload_wrong (v_type header) (v_payload_size header)
    then VSPD_CODEC_INVALID_SHAPE else
    VSPD_CODEC_OK.

(** The content part: what the payload bytes of the fixed messages may be. *)
Definition vspd_validate_content (header : vspd_header) (payload : list Z) : Z :=
  let response := vspd_flag header VSPD_FLAG_RESPONSE in
  if (v_type header =? VSPD_MSG_HELLO) && (v_payload_size header =? 4) &&
     (negb (mem_get payload 0 =? VSPD_VERSION_MAJOR) ||
      negb (mem_get payload 1 =? VSPD_VERSION_MINOR) ||
      negb (mem_get payload 2 =? 0) || negb (mem_get payload 3 =? 0))
  then VSPD_CODEC_UNSUPPORTED_VERSION else
  if ((v_type header =? VSPD_MSG_TIME_CODE_TX) || (v_type header =? VSPD_MSG_TIME_CODE_RX)) &&
     (v_payload_size header =? VSPD_TIME_CODE_PAYLOAD_SIZE) &&
     ((63 <? mem_get payload 0) || (3 <? mem_get payload 1))
  then VSPD_CODEC_INVALID_SHAPE else
  if (((v_type header =? VSPD_MSG_GET_LINK_STATE) && response &&
       (v_status header =? VSPD_STATUS_OK)) ||
      (v_type header =? VSPD_MSG_LINK_STATE_EVENT)) &&
     ((v_payload_size header =? VSPD_LINK_STATE_PAYLOAD_SIZE) &&
      (VSPD_LINK_RUN <? vspd_read_be32 payload 0))
  then VSPD_CODEC_INVALID_SHAPE else
  if (((v_type header =? VSPD_MSG_GET_PORT_INFO) && response &&
       (v_status header =? VSPD_STATUS_OK) &&
       (v_payload_size header =? VSPD_PORT_INFO_PAYLOAD_SIZE)) ||
      ((v_type header =? VSPD_MSG_PORT_SNAPSHOT_EVENT) &&
       (v_payload_size header =? VSPD_PORT_SNAPSHOT_PAYLOAD_SIZE))) &&
     (negb (vspd_read_be32 payload 0 .& u32 (Z.lnot VSPD_PORT_INFO_KNOWN_MASK) =? 0) ||
      (VSPD_LINK_RUN <? vspd_read_be32 payload 4))
  then VSPD_CODEC_INVALID_SHAPE else
  VSPD_CODEC_OK.

Definition vspd_validate_payload_shape (header : vspd_header) (payload : option (list Z)) : Z :=
  let result := vspd_validate_shape_fields header in
  if negb (result =? VSPD_CODEC_OK) then result else
  match payload with
  | None =>
      if negb (v_payload_size header =? 0) then VSPD_CODEC_INVALID_ARGUMENT
      else VSPD_CODEC_OK
  | Some payload => vspd_validate_content header payload
  end.

(** ** Header encoding and decoding *)

(** The result code and the 40-byte buffer. *)
Definition vspd_encode_header (header : vspd_header) (out : list Z) : Z * list Z :=
  let result := vspd_validate_common header in
  if negb (result =? VSPD_CODEC_OK) then (result, out) else
  let out := vspd_write_be32 out 0 (v_magic header) in
  let out := mem_write out 4 [v_version_major header] in
  let out := mem_write out 5 [v_version_minor header] in
  let out := mem_write out 6 [v_type header] in
  let out := mem_write out 7 [v_flags header] in
  let out := vspd_write_be16 out 8 (v_header_size header) in
  let out := vspd_write_be16 out 10 (v_reserved header) in
  let out := vspd_write_be32 out 12 (v_payload_size header) in
  let out := vspd_write_be32 out 16 (v_request_id header) in
  let out := vspd_write_be32 out 20 (v_port_id header) in
  let out := vspd_write_be32 out 24 (v_message_id header) in
  let out := vspd_write_be32 out 28 (v_fragment_offset header) in
  let out := vspd_write_be32 out 32 (v_total_size header) in
  let out := vspd_write_be32 out 36 (u32 (v_status header)) in
  (VSPD_CODEC_OK, out).

Definition header_zero : vspd_header :=
  {| v_magic := 0; v_version_major := 0; v_version_minor := 0; v_type := 0; v_flags := 0;
     v_header_size := 0; v_reserved := 0; v_payload_size := 0; v_request_id := 0;
     v_port_id := 0; v_message_id := 0; v_fragment_offset := 0; v_total_size := 0;
     v_status := 0 |}.

Definition vspd_read_header (data : list Z) : vspd_header :=
  {| v_magic := vspd_read_be32 data 0;
     v_version_major := mem_get data 4;
     v_version_minor := mem_get data 5;
     v_type := mem_get data 6;
     v_flags := mem_get data 7;
     v_header_size := vspd_read_be16 data 8;
     v_reserved := vspd_read_be16 data 10;
     v_payload_size := vspd_read_be32 data 12;
     v_request_id := vspd_read_be32 data 16;
     v_port_id := vspd_read_be32 data 20;
     v_message_id := vspd_read_be32 data 24;
     v_fragment_offset := vspd_read_be32 data 28;
     v_total_size := vspd_read_be32 data 32;
     v_status := i32 (vspd_read_be32 data 36) |}.

(** [out] is the caller's header before the call. *)
Definition vspd_decode_header (data : list Z) (size : Z) (out : vspd_header)
    : Z * vspd_header :=
  if size <? VSPD_HEADER_SIZE then (VSPD_CODEC_TRUNCATED, out) else
  let header := vspd_read_header data in
  let result := vspd_validate_common header in
  if negb (result =? VSPD_CODEC_OK) then (result, header_zero) else (result, header).

Definition vspd_validate_frame (frame : option (list Z)) (frame_size : Z)
    (out : option vspd_header) : Z * option vspd_header :=
  match frame with
  | None => (VSPD_CODEC_INVALID_ARGUMENT, out)
  | Some frame =>
      let '(result, header) := vspd_decode_header frame frame_size header_zero in
      if negb (result =? VSPD_CODEC_OK) then (result, out) else
      if negb (frame_size =? VSPD_HEADER_SIZE + v_payload_size header) then
        (if frame_size <? VSPD_HEADER_SIZE + v_payload_size header
         then VSPD_CODEC_TRUNCATED else VSPD_CODEC_INVALID_SIZE, out) else
      let payload :=
        if v_payload_size header =? 0 then None
        else Some (drop (Z.to_nat VSPD_HEADER_SIZE) frame) in
      let result := vspd_validate_payload_shape header payload in
      if negb (result =? VSPD_CODEC_OK) then (result, out) else
      (VSPD_CODEC_OK, match out with Some _ => Some header | None => None end)
  end.

(** ** Payloads *)

Definition vspd_encode_u32_payload (value : Z) (out : list Z) : list Z :=
  vspd_write_be32 out 0 value.

Definition vspd_decode_u32_payload (inp : list Z) : Z := vspd_read_be32 inp 0.

Definition vspd_encode_server_info (value : vspd_server_info_payload) (out : list Z) : list Z :=
  let out := vspd_write_be32 out 0 (vi_port_count value) in
  let out := vspd_write_be32 out 4 (vi_client_capacity value) in
  let out := vspd_write_be32 out 8 (vi_packet_queue_depth value) in
  let out := vspd_write_be32 out 12 (vi_time_code_queue_depth value) in
  vspd_write_be32 out 16 (vi_max_logical_packet value).

Definition vspd_decode_server_info (inp : list Z) : vspd_server_info_payload :=
  {| vi_port_count := vspd_read_be32 inp 0;
     vi_client_capacity := vspd_read_be32 inp 4;
     vi_packet_queue_depth := vspd_read_be32 inp 8;
     vi_time_code_queue_depth := vspd_read_be32 inp 12;
     vi_max_logical_packet := vspd_read_be32 inp 16 |}.

Definition vspd_encode_port_info (value : vspd_port_info_payload) (out : list Z) : list Z :=
  let out := vspd_write_be32 out 0 (vp_flags value) in
  let out := vspd_write_be32 out 4 (vp_link_state value) in
  let out := vspd_write_be32 out 8 (vp_packet_queue_count value) in
  vspd_write_be32 out 12 (vp_time_code_queue_count value).

Definition vspd_decode_port_info (inp : list Z) : vspd_port_info_payload :=
  {| vp_flags := vspd_read_be32 inp 0;
     vp_link_state := vspd_read_be32 inp 4;
     vp_packet_queue_count := vspd_read_be32 inp 8;
     vp_time_code_queue_count := vspd_read_be32 inp 12 |}.

Definition vspd_encode_capabilities (value : vspd_capabilities_payload) (out : list Z)
    : list Z :=
  let out := vspd_write_be64 out 0 (vc_bits value) in
  let out := vspd_write_be32 out 8 (vc_max_packet_size value) in
  let out := vspd_write_be32 out 12 (vc_tx_queue_depth value) in
  let out := vspd_write_be32 out 16 (vc_rx_queue_depth value) in
  vspd_write_be32 out 20 (vc_buffer_alignment value).

Definition vspd_decode_capabilities (inp : list Z) : vspd_capabilities_payload :=
  {| vc_bits := vspd_read_be64 inp 0;
     vc_max_packet_size := vspd_read_be32 inp 8;
     vc_tx_queue_depth := vspd_read_be32 inp 12;
     vc_rx_queue_depth := vspd_read_be32 inp 16;
     vc_buffer_alignment := vspd_read_be32 inp 20 |}.

(** [off] is where the structure starts in the payload. *)
Definition vspd_encode_statistics (value : vspd_statistics_payload) (out : list Z) (off : nat)
    : list Z :=
  let out := vspd_write_be64 out off (vs_tx_packets value) in
  let out := vspd_write_be64 out (off + 8) (vs_rx_packets value) in
  let out := vspd_write_be64 out (off + 16) (vs_tx_bytes value) in
  let out := vspd_write_be64 out (off + 24) (vs_rx_bytes value) in
  let out := vspd_write_be64 out (off + 32) (vs_tx_time_codes value) in
  let out := vspd_write_be64 out (off + 40) (vs_rx_time_codes value) in
  let out := vspd_write_be64 out (off + 48) (vs_eep_packets value) in
  let out := vspd_write_be64 out (off + 56) (vs_link_errors value) in
  vspd_write_be64 out (off + 64) (vs_dropped_packets value).

Definition vspd_decode_statistics (inp : list Z) (off : nat) : vspd_statistics_payload :=
  {| vs_tx_packets := vspd_read_be64 inp off;
     vs_rx_packets := vspd_read_be64 inp (off + 8);
     vs_tx_bytes := vspd_read_be64 inp (off + 16);
     vs_rx_bytes := vspd_read_be64 inp (off + 24);
     vs_tx_time_codes := vspd_read_be64 inp (off + 32);
     vs_rx_time_codes := vspd_read_be64 inp (off + 40);
     vs_eep_packets := vspd_read_be64 inp (off + 48);
     vs_link_errors := vspd_read_be64 inp (off + 56);
     vs_dropped_packets := vspd_read_be64 inp (off + 64) |}.

Arguments vspd_encode_statistics value out off%_nat_scope.
Arguments vspd_decode_statistics inp off%_nat_scope.

Definition vspd_encode_port_snapshot (value : vspd_port_snapshot_payload) (out : list Z)
    : list Z :=
  vspd_encode_statistics (vn_statistics value)
    (vspd_encode_port_info (vn_info value) out) (Z.to_nat VSPD_PORT_INFO_PAYLOAD_SIZE).

Definition vspd_decode_port_snapshot (inp : list Z) : vspd_port_snapshot_payload :=
  {| vn_info := vspd_decode_port_info inp;
     vn_statistics := vspd_decode_statistics inp (Z.to_nat VSPD_PORT_INFO_PAYLOAD_SIZE) |}.

(** ** Ranges and bytes *)

Definition vspd_header_in_range (h : vspd_header) : bool :=
  in_width 32 (v_magic h) && in_width 8 (v_version_major h) &&
  in_width 8 (v_version_minor h) && in_width 8 (v_type h) && in_width 8 (v_flags h) &&
  in_width 16 (v_header_size h) && in_width 16 (v_reserved h) &&
  in_width 32 (v_payload_size h) && in_width 32 (v_request_id h) &&
  in_width 32 (v_port_id h) && in_width 32 (v_message_id h) &&
  in_width 32 (v_fragment_offset h) && in_width 32 (v_total_size h) &&
  (- 2 ^ 31 <=? v_status h) && (v_status h <? 2 ^ 31).

Definition vspd_header_bytes (h : vspd_header) : list Z :=
  be32_bytes (v_magic h) ++
  [v_version_major h; v_version_minor h; v_type h; v_flags h] ++
  be16_bytes (v_header_size h) ++ be16_bytes (v_reserved h) ++
  be32_bytes (v_payload_size h) ++ be32_bytes (v_request_id h) ++
  be32_bytes (v_port_id h) ++ be32_bytes (v_message_id h) ++
  be32_bytes (v_fragment_offset h) ++ be32_bytes (v_total_size h) ++
  be32_bytes (u32 (v_status h)).

(** The two codecs read integers alike. *)
Lemma vspd_read_agree p off :
  vspd_read_be16 p off = read_u16 p off /\ vspd_read_be32 p off = read_u32 p off /\
  vspd_read_be64 p off = read_u64 p off.
Proof. done. Qed.

Lemma vspd_write_be16_app p rest off v :
  off = length p -> vspd_write_be16 (p ++ rest) off v = (p ++ be16_bytes v) ++ drop 2 rest.
Proof. intros. unfold vspd_write_be16. by rewrite mem_write_app. Qed.

Lemma vspd_write_be32_app p rest off v :
  off = length p -> vspd_write_be32 (p ++ rest) off v = (p ++ be32_bytes v) ++ drop 4 rest.
Proof. intros. unfold vspd_write_be32. by rewrite mem_write_app. Qed.

Lemma vspd_write_be64_app p rest off v :
  off = length p -> vspd_write_be64 (p ++ rest) off v = (p ++ be64_bytes v) ++ drop 8 rest.
Proof.
  intros. unfold vspd_write_be64. rewrite vspd_write_be32_app by done.
  rewrite vspd_write_be32_app by (rewrite length_app; simpl; lia).
  unfold be64_bytes. by rewrite !app_assoc, drop_drop.
Qed.

(** Evaluate a sequence of writes that fills a buffer from the front. *)
Ltac vspd_writes out :=
  rewrite <- (app_nil_l out) at 1;
  repeat first [ rewrite vspd_write_be64_app by reflexivity
               | rewrite vspd_write_be32_app by reflexivity
               | rewrite vspd_write_be16_app by reflexivity
               | rewrite mem_write_app by reflexivity ].

Lemma vspd_encode_header_bytes h out : vspd_validate_common h = VSPD_CODEC_OK ->
  vspd_encode_header h out = (VSPD_CODEC_OK, vspd_header_bytes h ++ drop 40 out).
Proof.
  intros Hv. unfold vspd_encode_header. rewrite Hv, Z.eqb_refl. cbn [negb]. cbn zeta.
  f_equal. vspd_writes out. unfold vspd_header_bytes. rewrite !drop_drop. simpl. done.
Qed.

Lemma i32_u32 x : - 2 ^ 31 <= x < 2 ^ 31 -> i32 (u32 x) = x.
Proof.
  intros Hx. unfold i32, wrap. rewrite Z.mod_mod by lia.
  destruct (decide (0 <= x)).
  - rewrite Z.mod_small by lia. case_if; lia.
  - replace (x mod 2 ^ 32) with (x + 2 ^ 32)
      by (rewrite <- (Z.mod_add x 1), Z.mod_small by lia; lia).
    case_if; lia.
Qed.

Lemma vspd_read_header_bytes h rest : vspd_header_in_range h = true ->
  vspd_read_header (vspd_header_bytes h ++ rest) = h.
Proof.
  unfold vspd_header_in_range, in_width. intros H. split_andb.
  destruct h as [mg vm vn ty fl hs rs ps ri po mi fo ts st]; simpl in *.
  unfold vspd_read_header. f_equal; try reflexivity;
    try (apply read_u16_bytes; [reflexivity..|lia]);
    try (apply read_u32_bytes; [reflexivity..|lia]).
  transitivity (i32 (u32 st)); [|apply i32_u32; lia]. f_equal.
  apply read_u32_bytes; [reflexivity..|apply (wrap_bounds 32); lia].
Qed.

Lemma u32_i32 x : 0 <= x < 2 ^ 32 -> u32 (i32 x) = x.
Proof.
  intros Hx. unfold i32. rewrite (wrap_small 32 x) by lia. case_if; unfold wrap.
  - apply Z.mod_small. lia.
  - rewrite <- (Z.mod_add (x - 2 ^ 32) 1), Z.mod_small by lia. lia.
Qed.

Lemma vspd_header_bytes_read src : bytes_ok src -> (40 <= length src)%nat ->
  vspd_header_bytes (vspd_read_header src) = take 40 src.
Proof.
  intros Hb Hlen. rewrite <- mem_read_0_take by done.
  unfold vspd_header_bytes. cbn [vspd_read_header v_magic v_version_major v_version_minor v_type
    v_flags v_header_size v_reserved v_payload_size v_request_id v_port_id v_message_id
    v_fragment_offset v_total_size v_status].
  rewrite u32_i32 by (by apply read_u32_range).
  rewrite !(be32_bytes_read src), !(be16_bytes_read src) by done.
  apply list_eq_mem_get; [by rewrite length_mem_read|].
  intros i Hi. rewrite mem_get_read by exact Hi.
  do 40 (destruct i as [|i]; [reflexivity|]). simpl in Hi. lia.
Qed.

Lemma i32_range x : - 2 ^ 31 <= i32 x < 2 ^ 31.
Proof. unfold i32. pose proof (wrap_bounds 32 x). case_if; lia. Qed.

Lemma vspd_read_header_in_range src :
  bytes_ok src -> vspd_header_in_range (vspd_read_header src) = true.
Proof.
  intros H. unfold vspd_header_in_range, in_width. cbn [vspd_read_header v_magic
    v_version_major v_version_minor v_type v_flags v_header_size v_reserved v_payload_size
    v_request_id v_port_id v_message_id v_fragment_offset v_total_size v_status].
  pose proof (i32_range (vspd_read_be32 src 36)).
  pose proof (read_u32_range src 0 H). pose proof (read_u32_range src 12 H).
  pose proof (read_u32_range src 16 H). pose proof (read_u32_range src 20 H).
  pose proof (read_u32_range src 24 H). pose proof (read_u32_range src 28 H).
  pose proof (read_u32_range src 32 H). pose proof (read_u16_range src 8 H).
  pose proof (read_u16_range src 10 H).
  pose proof (bytes_ok_get src 4 H). pose proof (bytes_ok_get src 5 H).
  pose proof (bytes_ok_get src 6 H). pose proof (bytes_ok_get src 7 H).
  change (vspd_read_be32 src) with (read_u32 src) in *.
  change (vspd_read_be16 src) with (read_u16 src) in *.
  repeat (apply andb_true_intro; split); lia.
Qed.

(** ** Frames *)

(** What a receiver may rely on in an accepted record. *)
Record frame_ok (h : vspd_header) (payload : list Z) : Prop := {
  fo_range : vspd_header_in_range h = true;
  fo_type : vspd_type_valid (v_type h) = true;
  fo_payload : Z.of_nat (length payload) = v_payload_size h;
  fo_max : v_payload_size h <= VSPD_MAX_FRAME_PAYLOAD;
  (** requests and responses are numbered, events are not *)
  fo_request : v_request_id h = 0 <-> vspd_type_is_event (v_type h) = true;
  fo_response : vspd_flag h VSPD_FLAG_RESPONSE = true ->
    vspd_type_is_event (v_type h) = false /\
    VSPD_STATUS_BACKEND <= v_status h <= VSPD_STATUS_OK;
  fo_not_response : vspd_flag h VSPD_FLAG_RESPONSE = false -> v_status h = VSPD_STATUS_OK;
  (** a DATA record is a piece of its logical packet *)
  fo_data : vspd_flag h VSPD_FLAG_RESPONSE = false ->
    v_type h = VSPD_MSG_DATA_TX \/ v_type h = VSPD_MSG_DATA_RX ->
    v_message_id h <> 0 /\
    v_fragment_offset h + v_payload_size h <= v_total_size h <= VSPD_MAX_LOGICAL_PACKET /\
    (vspd_flag h VSPD_FLAG_FRAGMENT_START = true <-> v_fragment_offset h = 0) /\
    (vspd_flag h VSPD_FLAG_FRAGMENT_END = true <->
       v_fragment_offset h + v_payload_size h = v_total_size h) /\
    vspd_flag h VSPD_FLAG_FRAGMENT_END =
      xorb (vspd_flag h VSPD_FLAG_EOP) (vspd_flag h VSPD_FLAG_EEP) /\
    (vspd_flag h VSPD_FLAG_EOP = true -> vspd_flag h VSPD_FLAG_EEP = false) /\
    (v_payload_size h = 0 -> v_total_size h = 0);
  fo_time_code : vspd_flag h VSPD_FLAG_RESPONSE = false ->
    v_type h = VSPD_MSG_TIME_CODE_TX \/ v_type h = VSPD_MSG_TIME_CODE_RX ->
    length payload = 2%nat /\ mem_get payload 0 <= 63 /\ mem_get payload 1 <= 3
}.

Lemma validate_common_ok h : vspd_validate_common h = VSPD_CODEC_OK ->
  vspd_type_valid (v_type h) = true /\ v_payload_size h <= VSPD_MAX_FRAME_PAYLOAD.
Proof.
  unfold vspd_validate_common. intros H. case_ifs_in H. split; [by destruct (vspd_type_valid _)|lia].
Qed.

Lemma data_shape_ok h : vspd_header_in_range h = true ->
  vspd_validate_data_shape h = VSPD_CODEC_OK ->
  v_message_id h <> 0 /\
  v_fragment_offset h + v_payload_size h <= v_total_size h <= VSPD_MAX_LOGICAL_PACKET /\
  (vspd_flag h VSPD_FLAG_FRAGMENT_START = true <-> v_fragment_offset h = 0) /\
  (vspd_flag h VSPD_FLAG_FRAGMENT_END = true <->
     v_fragment_offset h + v_payload_size h = v_total_size h) /\
  vspd_flag h VSPD_FLAG_FRAGMENT_END =
    xorb (vspd_flag h VSPD_FLAG_EOP) (vspd_flag h VSPD_FLAG_EEP) /\
  (vspd_flag h VSPD_FLAG_EOP = true -> vspd_flag h VSPD_FLAG_EEP = false) /\
  (v_payload_size h = 0 -> v_total_size h = 0).
Proof.
  unfold vspd_header_in_range, in_width, vspd_validate_data_shape. intros Hr H.
  split_andb. rewrite (wrap_small 64) in H by lia. cbn zeta in H.
  do 2 (case_if_in H; [done|]). apply orb_false_iff in E as [Hm Ht].
  destruct (vspd_flag h VSPD_FLAG_FRAGMENT_START), (vspd_flag h VSPD_FLAG_FRAGMENT_END),
    (vspd_flag h VSPD_FLAG_EOP), (vspd_flag h VSPD_FLAG_EEP); cbn in H;
    destruct (v_total_size h =? 0) eqn:Et; case_ifs_in H; try done; split_andb;
    rewrite ?xorb_false_r, ?xorb_true_r, ?orb_true_r in *; try done;
    split_and!; try lia; done.
Qed.

Lemma shape_fields_ok h : vspd_header_in_range h = true ->
  vspd_validate_shape_fields h = VSPD_CODEC_OK ->
  (v_request_id h = 0 <-> vspd_type_is_event (v_type h) = true) /\
  (vspd_flag h VSPD_FLAG_RESPONSE = true ->
    vspd_type_is_event (v_type h) = false /\ VSPD_STATUS_BACKEND <= v_status h <= VSPD_STATUS_OK) /\
  (vspd_flag h VSPD_FLAG_RESPONSE = false ->
    v_status h = VSPD_STATUS_OK /\
    (v_type h = VSPD_MSG_DATA_TX \/ v_type h = VSPD_MSG_DATA_RX ->
     vspd_validate_data_shape h = VSPD_CODEC_OK) /\
    (v_type h = VSPD_MSG_TIME_CODE_TX \/ v_type h = VSPD_MSG_TIME_CODE_RX ->
     v_payload_size h = VSPD_TIME_CODE_PAYLOAD_SIZE)).
Proof.
  unfold vspd_validate_shape_fields, vspd_type_allows_response. intros Hr H.
  destruct (vspd_flag h VSPD_FLAG_RESPONSE) eqn:Hf.
  - case_if_in H; [done|]. clear H. split_andb. unfold vspd_status_valid in *. split_andb.
    destruct (vspd_type_is_event (v_type h)); [done|]. split_and!; try done; lia.
  - case_if_in H; [done|].
    destruct (if vspd_type_is_event (v_type h) then _ else _) eqn:Hev in H; [done|].
    split; [destruct (vspd_type_is_event (v_type h)); lia|]. split; [done|].
    intros _. split; [lia|].
    destruct ((v_type h =? VSPD_MSG_DATA_TX) || (v_type h =? VSPD_MSG_DATA_RX)) eqn:Ed.
    + split; [done|]. unfold VSPD_MSG_DATA_TX, VSPD_MSG_DATA_RX, VSPD_MSG_TIME_CODE_TX,
        VSPD_MSG_TIME_CODE_RX in *. lia.
    + split; [lia|]. case_if_in H; [done|]. case_if_in H; [done|].
      intros Ht. destruct Ht as [Ht|Ht]; rewrite Ht in *; cbn in *; lia.
Qed.

Lemma frame_accepted h payload : vspd_header_in_range h = true ->
  vspd_validate_common h = VSPD_CODEC_OK ->
  Z.of_nat (length payload) = v_payload_size h ->
  vspd_validate_payload_shape h (if v_payload_size h =? 0 then None else Some payload) =
    VSPD_CODEC_OK ->
  frame_ok h payload.
Proof.
  intros Hr Hc Hl Hs. unfold vspd_validate_payload_shape in Hs. cbn zeta in Hs.
  case_if_in Hs; [lia|].
  destruct (shape_fields_ok h Hr) as (Hreq & Hresp & Hnot); [lia|].
  destruct (validate_common_ok h Hc) as [Ht Hm].
  constructor; try done.
  - intros Hf. apply Hnot, Hf.
  - intros Hf Hd. apply data_shape_ok; [done|]. by apply Hnot.
  - intros Hf Htc. destruct (Hnot Hf) as (_ & _ & Hsize). specialize (Hsize Htc).
    rewrite Hsize in Hl. unfold VSPD_TIME_CODE_PAYLOAD_SIZE in *. split; [lia|].
    rewrite Hsize in Hs. cbn [Z.eqb] in Hs. unfold vspd_validate_content in Hs. cbn zeta in Hs.
    rewrite Hsize in Hs. case_if_in Hs; [done|]. case_if_in Hs; [done|].
    destruct Htc as [Htc|Htc]; rewrite Htc in *; cbn in *; lia.
Qed.

Lemma validate_frame_inv frame n o h :
  vspd_validate_frame (Some frame) n (Some o) = (VSPD_CODEC_OK, Some h) ->
  VSPD_HEADER_SIZE <= n /\ h = vspd_read_header frame /\
  vspd_validate_common h = VSPD_CODEC_OK /\ n = VSPD_HEADER_SIZE + v_payload_size h /\
  vspd_validate_payload_shape h
    (if v_payload_size h =? 0 then None else Some (drop 40 frame)) = VSPD_CODEC_OK.
Proof.
  unfold vspd_validate_frame, vspd_decode_header. intros H.
  destruct (n <? VSPD_HEADER_SIZE) eqn:En; [done|]. cbn zeta in H.
  destruct (vspd_validate_common (vspd_read_header frame) =? VSPD_CODEC_OK) eqn:Ec;
    cbn [negb] in H; [|cbn in H; case_if_in H; [injection H as H; lia|lia]].
  rewrite Ec in H. cbn [negb] in H. case_if_in H.
  { case_if_in H; done. }
  destruct (vspd_validate_payload_shape _ _ =? VSPD_CODEC_OK) eqn:Ep in H; cbn [negb] in H;
    [|apply Z.eqb_neq in Ep; congruence]. injection H as <-.
  split_and!; try lia; [done|]. apply Z.eqb_eq. exact Ep.
Qed.

(** A record a sender may put on the wire. *)
Record valid_record (h : vspd_header) (payload : list Z) : Prop := {
  vr_range : vspd_header_in_range h = true;
  vr_common : vspd_validate_common h = VSPD_CODEC_OK;
  vr_size : Z.of_nat (length payload) = v_payload_size h;
  vr_shape : vspd_validate_payload_shape h
    (if v_payload_size h =? 0 then None else Some payload) = VSPD_CODEC_OK
}.

Lemma valid_record_validates h payload o : valid_record h payload ->
  vspd_validate_frame (Some (vspd_header_bytes h ++ payload))
    (VSPD_HEADER_SIZE + v_payload_size h) (Some o) = (VSPD_CODEC_OK, Some h).
Proof.
  intros [Hr Hc Hl Hs]. unfold vspd_validate_frame, vspd_decode_header.
  assert (length (vspd_header_bytes h) = 40%nat) as H40 by done.
  assert (0 <= v_payload_size h) as Hp
    by (unfold vspd_header_in_range, in_width in Hr; split_andb; lia).
  replace (_ <? VSPD_HEADER_SIZE) with false by lia. cbn zeta.
  rewrite vspd_read_header_bytes, Hc by done. rewrite !Z.eqb_refl. cbn [negb].
  rewrite Z.eqb_refl. cbn [negb].
  change (Z.to_nat VSPD_HEADER_SIZE) with 40%nat. rewrite drop_app_length' by done.
  by rewrite Hs, Z.eqb_refl.
Qed.

(** A record round-trips: a header that fits its C types and passes the
    common checks, with a payload of the announced size that passes the shape
    checks, is encoded, and the encoded record validates to the same header. *)
Theorem vspd_frame_roundtrip h payload out o :
  vspd_header_in_range h = true -> vspd_validate_common h = VSPD_CODEC_OK ->
  Z.of_nat (length payload) = v_payload_size h ->
  vspd_validate_payload_shape h (if v_payload_size h =? 0 then None else Some payload) =
    VSPD_CODEC_OK ->
  let '(r, bytes) := vspd_encode_header h out in
  r = VSPD_CODEC_OK /\ drop 40 bytes = drop 40 out /\
  vspd_validate_frame (Some (take 40 bytes ++ payload))
    (VSPD_HEADER_SIZE + v_payload_size h) (Some o) = (VSPD_CODEC_OK, Some h).
Proof.
  intros Hr Hc Hl Hs. rewrite vspd_encode_header_bytes by done.
  assert (length (vspd_header_bytes h) = 40%nat) as H40 by done.
  split; [done|]. split; [by rewrite drop_app_length'|].
  rewrite take_app_length' by done. by apply valid_record_validates.
Qed.

(** Everything the validator accepts is sound: the record has exactly the
    announced size (at most 32 KiB of payload), re-encoding its header gives
    back the 40 bytes read, request numbers, status codes and response flags
    are consistent with the message type, a DATA record is a piece of a logical
    packet of at most 1 MiB with its start, end and terminator flags right, and
    a time-code is in range. *)
Theorem vspd_frame_sound frame o h :
  bytes_ok frame ->
  vspd_validate_frame (Some frame) (Z.of_nat (length frame)) (Some o) =
    (VSPD_CODEC_OK, Some h) ->
  frame_ok h (drop 40 frame) /\
  vspd_encode_header h [] = (VSPD_CODEC_OK, take 40 frame) /\
  Z.of_nat (length frame) <= VSPD_HEADER_SIZE + VSPD_MAX_FRAME_PAYLOAD.
Proof.
  intros Hb (Hn & Hh & Hc & Hsize & Hs)%validate_frame_inv.
  unfold VSPD_HEADER_SIZE in Hn.
  assert (vspd_header_in_range h = true) as Hr
    by (rewrite Hh; by apply vspd_read_header_in_range).
  assert (frame_ok h (drop 40 frame)) as Hf.
  { apply frame_accepted; try done. rewrite length_drop. unfold VSPD_HEADER_SIZE in *. lia. }
  split_and!; [done| |].
  - rewrite vspd_encode_header_bytes by done. rewrite drop_nil, app_nil_r, Hh.
    by rewrite vspd_header_bytes_read by (done || lia).
  - pose proof (fo_max _ _ Hf). lia.
Qed.

(** ** Payload round trips *)

Definition server_info_ok (v : vspd_server_info_payload) : bool :=
  in_width 32 (vi_port_count v) && in_width 32 (vi_client_capacity v) &&
  in_width 32 (vi_packet_queue_depth v) && in_width 32 (vi_time_code_queue_depth v) &&
  in_width 32 (vi_max_logical_packet v).

Definition port_info_ok (v : vspd_port_info_payload) : bool :=
  in_width 32 (vp_flags v) && in_width 32 (vp_link_state v) &&
  in_width 32 (vp_packet_queue_count v) && in_width 32 (vp_time_code_queue_count v).

Definition capabilities_ok (v : vspd_capabilities_payload) : bool :=
  in_width 64 (vc_bits v) && in_width 32 (vc_max_packet_size v) &&
  in_width 32 (vc_tx_queue_depth v) && in_width 32 (vc_rx_queue_depth v) &&
  in_width 32 (vc_buffer_alignment v).

Definition vspd_statistics_ok (v : vspd_statistics_payload) : bool :=
  in_width 64 (vs_tx_packets v) && in_width 64 (vs_rx_packets v) &&
  in_width 64 (vs_tx_bytes v) && in_width 64 (vs_rx_bytes v) &&
  in_width 64 (vs_tx_time_codes v) && in_width 64 (vs_rx_time_codes v) &&
  in_width 64 (vs_eep_packets v) && in_width 64 (vs_link_errors v) &&
  in_width 64 (vs_dropped_packets v).

Lemma read_be64_shift p l k :
  vspd_read_be64 (p ++ l) (length p + k) = vspd_read_be64 l k.
Proof.
  assert (forall i, mem_get (p ++ l) (length p + i) = mem_get l i) as Hg.
  { intros i. unfold mem_get. rewrite lookup_app_r by lia. do 2 f_equal. lia. }
  unfold vspd_read_be64, vspd_read_be32. by rewrite <- !Nat.add_assoc, !Hg.
Qed.

Definition port_info_bytes (v : vspd_port_info_payload) : list Z :=
  be32_bytes (vp_flags v) ++ be32_bytes (vp_link_state v) ++
  be32_bytes (vp_packet_queue_count v) ++ be32_bytes (vp_time_code_queue_count v).

Definition statistics_bytes (v : vspd_statistics_payload) : list Z :=
  be64_bytes (vs_tx_packets v) ++ be64_bytes (vs_rx_packets v) ++
  be64_bytes (vs_tx_bytes v) ++ be64_bytes (vs_rx_bytes v) ++
  be64_bytes (vs_tx_time_codes v) ++ be64_bytes (vs_rx_time_codes v) ++
  be64_bytes (vs_eep_packets v) ++ be64_bytes (vs_link_errors v) ++
  be64_bytes (vs_dropped_packets v).

Lemma encode_port_info_bytes v out :
  vspd_encode_port_info v out = port_info_bytes v ++ drop 16 out.
Proof.
  unfold vspd_encode_port_info. cbn zeta. vspd_writes out.
  unfold port_info_bytes. rewrite !drop_drop. simpl. done.
Qed.

Lemma encode_statistics_bytes v p out :
  vspd_encode_statistics v (p ++ out) (length p) = p ++ statistics_bytes v ++ drop 72 out.
Proof.
  unfold vspd_encode_statistics. cbn zeta.
  repeat (rewrite vspd_write_be64_app by (rewrite ?length_app; cbn; lia)).
  unfold statistics_bytes. rewrite !drop_drop, <- !app_assoc. cbn [Nat.add]. done.
Qed.

Lemma decode_port_info_bytes v rest : port_info_ok v = true ->
  vspd_decode_port_info (port_info_bytes v ++ rest) = v.
Proof.
  unfold port_info_ok, in_width. intros H. split_andb. destruct v; simpl in *.
  unfold vspd_decode_port_info. f_equal; (apply read_u32_bytes; [reflexivity..|lia]).
Qed.

Lemma decode_statistics_bytes v p rest : vspd_statistics_ok v = true ->
  vspd_decode_statistics (p ++ statistics_bytes v ++ rest) (length p) = v.
Proof.
  unfold vspd_statistics_ok, in_width. intros H. split_andb. destruct v; simpl in *.
  unfold vspd_decode_statistics, statistics_bytes.
  rewrite <- (Nat.add_0_r (length p)) at 1. rewrite !read_be64_shift.
  f_equal; (apply read_u64_bytes; [| |lia];
    (apply read_u32_bytes; [reflexivity..|apply (wrap_bounds 32); lia])).
Qed.

Lemma server_info_roundtrip info out : server_info_ok info = true ->
  vspd_decode_server_info (vspd_encode_server_info info out) = info /\
  drop 20 (vspd_encode_server_info info out) = drop 20 out.
Proof.
  intros Hi.
  assert (vspd_encode_server_info info out =
    (be32_bytes (vi_port_count info) ++ be32_bytes (vi_client_capacity info) ++
     be32_bytes (vi_packet_queue_depth info) ++ be32_bytes (vi_time_code_queue_depth info) ++
     be32_bytes (vi_max_logical_packet info)) ++ drop 20 out) as ->.
  { unfold vspd_encode_server_info. cbn zeta. vspd_writes out. rewrite !drop_drop. simpl. done. }
  split; [|by apply drop_app_length'].
  unfold server_info_ok, in_width in Hi. split_andb. destruct info; simpl in *.
  unfold vspd_decode_server_info.
  f_equal; (apply read_u32_bytes; [reflexivity..|lia]).
Qed.

Lemma capabilities_roundtrip caps out : capabilities_ok caps = true ->
  vspd_decode_capabilities (vspd_encode_capabilities caps out) = caps /\
  drop 24 (vspd_encode_capabilities caps out) = drop 24 out.
Proof.
  intros Hc.
  assert (vspd_encode_capabilities caps out =
    (be64_bytes (vc_bits caps) ++ be32_bytes (vc_max_packet_size caps) ++
     be32_bytes (vc_tx_queue_depth caps) ++ be32_bytes (vc_rx_queue_depth caps) ++
     be32_bytes (vc_buffer_alignment caps)) ++ drop 24 out) as ->.
  { unfold vspd_encode_capabilities. cbn zeta. vspd_writes out. rewrite !drop_drop. simpl. done. }
  split; [|by apply drop_app_length'].
  unfold capabilities_ok, in_width in Hc. split_andb. destruct caps; simpl in *.
  unfold vspd_decode_capabilities.
  f_equal; try (apply read_u32_bytes; [reflexivity..|lia]).
  apply read_u64_bytes; [| |lia];
    (apply read_u32_bytes; [reflexivity..|apply (wrap_bounds 32); lia]).
Qed.

Lemma encode_port_snapshot_bytes value out :
  vspd_encode_port_snapshot value out =
  port_info_bytes (vn_info value) ++ statistics_bytes (vn_statistics value) ++ drop 88 out.
Proof.
  unfold vspd_encode_port_snapshot. rewrite encode_port_info_bytes.
  change (Z.to_nat VSPD_PORT_INFO_PAYLOAD_SIZE) with (length (port_info_bytes (vn_info value))).
  rewrite encode_statistics_bytes. by rewrite drop_drop.
Qed.

(** Every fixed payload round-trips: what the encoder of a server-info,
    port-info, capabilities, statistics or snapshot payload writes is read back
    by its decoder as the same structure, for all field values of their C
    types, and the encoder writes exactly the payload's size. *)
Theorem vspd_payload_roundtrip info port caps stats out :
  server_info_ok info = true -> port_info_ok port = true -> capabilities_ok caps = true ->
  vspd_statistics_ok stats = true ->
  let snapshot := {| vn_info := port; vn_statistics := stats |} in
  vspd_decode_server_info (vspd_encode_server_info info out) = info /\
  drop 20 (vspd_encode_server_info info out) = drop 20 out /\
  vspd_decode_port_info (vspd_encode_port_info port out) = port /\
  drop 16 (vspd_encode_port_info port out) = drop 16 out /\
  vspd_decode_capabilities (vspd_encode_capabilities caps out) = caps /\
  drop 24 (vspd_encode_capabilities caps out) = drop 24 out /\
  vspd_decode_statistics (vspd_encode_statistics stats out 0) 0 = stats /\
  drop 72 (vspd_encode_statistics stats out 0) = drop 72 out /\
  vspd_decode_port_snapshot (vspd_encode_port_snapshot snapshot out) = snapshot /\
  drop 88 (vspd_encode_port_snapshot snapshot out) = drop 88 out.
Proof.
  intros Hi Hp Hc Hs. cbn zeta.
  destruct (server_info_roundtrip info out Hi) as [-> ->].
  destruct (capabilities_roundtrip caps out Hc) as [-> ->].
  pose proof (encode_statistics_bytes stats [] out) as Es. cbn [app length] in Es.
  rewrite Es, encode_port_snapshot_bytes, encode_port_info_bytes. cbn [vn_info vn_statistics].
  repeat (split; [first [reflexivity|assumption|idtac]|]).
  - by apply decode_port_info_bytes.
  - by apply (decode_statistics_bytes stats []).
  - unfold vspd_decode_port_snapshot. rewrite decode_port_info_bytes by done.
    change (Z.to_nat VSPD_PORT_INFO_PAYLOAD_SIZE) with (length (port_info_bytes port)).
    by rewrite decode_statistics_bytes.
  - rewrite app_assoc. by apply drop_app_length'.
Qed.

(** ** Witnesses *)

(** The first fragment of a 50000-byte packet, as a client sends it. *)
Definition sample_data_header : vspd_header :=
  {| v_magic := VSPD_MAGIC; v_version_major := 1; v_version_minor := 3;
     v_type := VSPD_MSG_DATA_TX; v_flags := VSPD_FLAG_FRAGMENT_START; v_header_size := 40;
     v_reserved := 0; v_payload_size := 3; v_request_id := 5; v_port_id := 1;
     v_message_id := 9; v_fragment_offset := 0; v_total_size := 50000; v_status := 0 |}.

Lemma vspd_frame_roundtrip_witness :
  vspd_validate_frame (Some (vspd_header_bytes sample_data_header ++ [1; 2; 3])) 43
    (Some header_zero) = (VSPD_CODEC_OK, Some sample_data_header).
Proof.
  pose proof (vspd_frame_roundtrip sample_data_header [1; 2; 3] [] header_zero) as H.
  destruct (vspd_encode_header sample_data_header []) as [r bytes] eqn:E.
  vm_compute in E. injection E as <- <-.
  by destruct H as (_ & _ & H); [by vm_compute..|].
Defined.

Lemma vspd_frame_sound_witness :
  frame_ok sample_data_header [1; 2; 3].
Proof.
  destruct (vspd_frame_sound (vspd_header_bytes sample_data_header ++ [1; 2; 3]) header_zero
    sample_data_header) as [H _]; [repeat constructor; by vm_compute|by vm_compute|exact H].
Defined.

Lemma vspd_payload_roundtrip_witness :
  let info := {| vi_port_count := 4; vi_client_capacity := 16; vi_packet_queue_depth := 8;
                 vi_time_code_queue_depth := 8; vi_max_logical_packet := 1048576 |} in
  vspd_decode_server_info (vspd_encode_server_info info []) = info.
Proof.
  apply (vspd_payload_roundtrip _
    {| vp_flags := 0; vp_link_state := 0; vp_packet_queue_count := 0;
       vp_time_code_queue_count := 0 |}
    {| vc_bits := 0; vc_max_packet_size := 0; vc_tx_queue_depth := 0; vc_rx_queue_depth := 0;
       vc_buffer_alignment := 0 |}
    {| vs_tx_packets := 0; vs_rx_packets := 0; vs_tx_bytes := 0; vs_rx_bytes := 0;
       vs_tx_time_codes := 0; vs_rx_time_codes := 0; vs_eep_packets := 0;
       vs_link_errors := 0; vs_dropped_packets := 0 |}); by vm_compute.
Defined.
