(* ===== verification/CuseRecord.v ===== *)
(** * The packet records of the CUSE character devices

    [src/src/cuse/vspw_cuse_record.h] and [.c]: the 16-byte record header that a
    raw [/dev/vspwX] consumer writes and reads before each packet or time-code,
    and the validation of the payload that follows it.  A NULL pointer is
    [None]; a byte array is a [list Z] of its contents. *)

From stdpp Require Import base list numbers.
From Stdlib Require Import ZArith Lia.
From S2P Require Import Prelude.
From S2P Require Import VspwTp.
Open Scope Z_scope.
Open Scope spw_scope.

Definition VSPW_CUSE_RECORD_MAGIC : Z := 0x53505752.
Definition VSPW_CUSE_RECORD_VERSION : Z := 1.
Definition VSPW_CUSE_RECORD_HEADER_SIZE : Z := 16.
Definition VSPW_CUSE_RECORD_MAX_PAYLOAD : Z := 1024 * 1024.
Definition VSPW_CUSE_RECORD_DATA : Z := 1.
Definition VSPW_CUSE_RECORD_TIME_CODE : Z := 2.
Definition VSPW_CUSE_RECORD_FLAG_EEP : Z := 0x01.
Definition VSPW_CUSE_RECORD_KNOWN_FLAGS : Z := VSPW_CUSE_RECORD_FLAG_EEP.
Definition VSPW_CUSE_RECORD_RESERVED_SIZE : nat := 4.

Record vspw_cuse_record_header := {
  cr_type : Z;
  cr_flags : Z;
  cr_payload_size : Z
}.

Inductive vspw_cuse_record_result :=
| VSPW_CUSE_RECORD_OK
| VSPW_CUSE_RECORD_INVALID_ARGUMENT
| VSPW_CUSE_RECORD_INVALID_MAGIC
| VSPW_CUSE_RECORD_INVALID_VERSION
| VSPW_CUSE_RECORD_INVALID_TYPE
| VSPW_CUSE_RECORD_INVALID_FLAGS
| VSPW_CUSE_RECORD_INVALID_SIZE
| VSPW_CUSE_RECORD_INVALID_PAYLOAD.

#[export] Instance vspw_cuse_record_result_eq_dec : EqDecision vspw_cuse_record_result.
Proof. solve_decision. Defined.

Definition read_be32 (p : list Z) (off : nat) : Z :=
  u32 (mem_get p off ≪ 24) .| u32 (mem_get p (off + 1) ≪ 16) .|
  u32 (mem_get p (off + 2) ≪ 8) .| mem_get p (off + 3).

Definition write_be32 (p : list Z) (off : nat) (value : Z) : list Z :=
  mem_write p off [u8 (value ≫ 24); u8 (value ≫ 16); u8 (value ≫ 8); u8 value].

Definition validate_header (header : option vspw_cuse_record_header)
    : vspw_cuse_record_result :=
  match header with
  | None => VSPW_CUSE_RECORD_INVALID_ARGUMENT
  | Some header =>
      if negb (cr_type header =? VSPW_CUSE_RECORD_DATA) &&
         negb (cr_type header =? VSPW_CUSE_RECORD_TIME_CODE)
      then VSPW_CUSE_RECORD_INVALID_TYPE
      else if negb (cr_flags header .& u8 (Z.lnot VSPW_CUSE_RECORD_KNOWN_FLAGS) =? 0)
      then VSPW_CUSE_RECORD_INVALID_FLAGS
      else if cr_payload_size header >? VSPW_CUSE_RECORD_MAX_PAYLOAD
      then VSPW_CUSE_RECORD_INVALID_SIZE
      else if (cr_type header =? VSPW_CUSE_RECORD_TIME_CODE) &&
              (negb (cr_flags header =? 0) || negb (cr_payload_size header =? 2))
      then VSPW_CUSE_RECORD_INVALID_PAYLOAD
      else VSPW_CUSE_RECORD_OK
  end.

(** The result and the output array after the call. *)
Definition vspw_cuse_record_encode_header (header : option vspw_cuse_record_header)
    (out : option (list Z)) : vspw_cuse_record_result * option (list Z) :=
  match out with
  | None => (VSPW_CUSE_RECORD_INVALID_ARGUMENT, out)
  | Some bytes =>
      let result := validate_header header in
      match result, header with
      | VSPW_CUSE_RECORD_OK, Some header =>
          let bytes := write_be32 bytes 0 VSPW_CUSE_RECORD_MAGIC in
          let bytes := mem_write bytes 4 [VSPW_CUSE_RECORD_VERSION] in
          let bytes := mem_write bytes 5 [cr_type header] in
          let bytes := mem_write bytes 6 [cr_flags header] in
          let bytes := mem_write bytes 7 [0] in
          let bytes := write_be32 bytes 8 (cr_payload_size header) in
          let bytes := mem_write bytes 12 (replicate VSPW_CUSE_RECORD_RESERVED_SIZE 0) in
          (VSPW_CUSE_RECORD_OK, Some bytes)
      | _, _ => (result, out)
      end
  end.

(** The result and the header structure after the call: a record that is
    rejected for its type, flags or size has still been copied out. *)
Definition vspw_cuse_record_decode_header (inp : option (list Z))
    (out_header : option vspw_cuse_record_header)
    : vspw_cuse_record_result * option vspw_cuse_record_header :=
  match inp, out_header with
  | Some inp, Some _ =>
      if negb (read_be32 inp 0 =? VSPW_CUSE_RECORD_MAGIC)
      then (VSPW_CUSE_RECORD_INVALID_MAGIC, out_header)
      else if negb (mem_get inp 4 =? VSPW_CUSE_RECORD_VERSION)
      then (VSPW_CUSE_RECORD_INVALID_VERSION, out_header)
      else if negb (mem_get inp 7 =? 0)
      then (VSPW_CUSE_RECORD_INVALID_PAYLOAD, out_header)
      else if existsb (fun i => negb (mem_get inp (12 + i) =? 0))
                (seq 0 VSPW_CUSE_RECORD_RESERVED_SIZE)
      then (VSPW_CUSE_RECORD_INVALID_PAYLOAD, out_header)
      else
        let header := {| cr_type := mem_get inp 5; cr_flags := mem_get inp 6;
                         cr_payload_size := read_be32 inp 8 |} in
        (validate_header (Some header), Some header)
  | _, _ => (VSPW_CUSE_RECORD_INVALID_ARGUMENT, out_header)
  end.

Definition vspw_cuse_record_validate_payload (header : option vspw_cuse_record_header)
    (payload : option (list Z)) (payload_size : Z) : vspw_cuse_record_result :=
  match validate_header header, header with
  | VSPW_CUSE_RECORD_OK, Some header =>
      if negb (payload_size =? cr_payload_size header)
      then VSPW_CUSE_RECORD_INVALID_SIZE
      else
        match payload with
        | None =>
            if negb (payload_size =? 0) then VSPW_CUSE_RECORD_INVALID_ARGUMENT
            else VSPW_CUSE_RECORD_OK
        | Some payload =>
            if (cr_type header =? VSPW_CUSE_RECORD_TIME_CODE) &&
               ((mem_get payload 0 >? 63) || negb (mem_get payload 1 .& 0xfc =? 0))
            then VSPW_CUSE_RECORD_INVALID_PAYLOAD
            else VSPW_CUSE_RECORD_OK
        end
  | result, _ => result
  end.

(** ** What a valid record is *)

(** A header that a sender may use: a packet of at most 1 MiB, ended by an EOP
    or an EEP, or a time-code with its two bytes. *)
Definition record_ok (h : vspw_cuse_record_header) : Prop :=
  (cr_type h = VSPW_CUSE_RECORD_DATA /\ (cr_flags h = 0 \/ cr_flags h = VSPW_CUSE_RECORD_FLAG_EEP) /\
   0 <= cr_payload_size h <= VSPW_CUSE_RECORD_MAX_PAYLOAD) \/
  (cr_type h = VSPW_CUSE_RECORD_TIME_CODE /\ cr_flags h = 0 /\ cr_payload_size h = 2).

Definition cuse_header_in_range (h : vspw_cuse_record_header) : bool :=
  in_width 8 (cr_type h) && in_width 8 (cr_flags h) && in_width 32 (cr_payload_size h).

Definition record_bytes (h : vspw_cuse_record_header) : list Z :=
  be32_bytes VSPW_CUSE_RECORD_MAGIC ++
  [VSPW_CUSE_RECORD_VERSION; cr_type h; cr_flags h; 0] ++
  be32_bytes (cr_payload_size h) ++ [0; 0; 0; 0].

Lemma read_be32_u32 p off : read_be32 p off = read_u32 p off.
Proof. done. Qed.

Lemma write_be32_app p rest off v : off = length p ->
  write_be32 (p ++ rest) off v = (p ++ be32_bytes v) ++ drop 4 rest.
Proof. intros. unfold write_be32. by rewrite mem_write_app. Qed.

Lemma unknown_flags_clear f : 0 <= f < 2 ^ 8 ->
  (f .& u8 (Z.lnot VSPW_CUSE_RECORD_KNOWN_FLAGS) =? 0) = (f =? 0) || (f =? 1).
Proof.
  intros Hf. change (u8 (Z.lnot VSPW_CUSE_RECORD_KNOWN_FLAGS)) with 254.
  assert (f .& 254 = f - f mod 2) as ->.
  { change 254 with (Z.ldiff 255 1). rewrite Z.ldiff_land, Z.land_assoc.
    change 255 with (Z.ones 8). rewrite Z.land_ones, (Z.mod_small f) by lia.
    rewrite <- Z.ldiff_land. change 1 with (Z.ones 1). rewrite Z.ldiff_ones_r by lia.
    rewrite Z.shiftl_mul_pow2, Z.shiftr_div_pow2 by lia.
    Z.div_mod_to_equations. lia. }
  Z.div_mod_to_equations. lia.
Qed.

Lemma validate_header_ok h : cuse_header_in_range h = true ->
  validate_header (Some h) = VSPW_CUSE_RECORD_OK <-> record_ok h.
Proof.
  unfold cuse_header_in_range, in_width, validate_header, record_ok. intros Hr. split_andb.
  rewrite unknown_flags_clear by lia.
  unfold VSPW_CUSE_RECORD_DATA, VSPW_CUSE_RECORD_TIME_CODE, VSPW_CUSE_RECORD_FLAG_EEP,
    VSPW_CUSE_RECORD_MAX_PAYLOAD in *.
  split.
  - intros Hok. case_ifs_in Hok; try done; lia.
  - intros Hok. repeat (case_if; [lia|]). done.
Qed.

Lemma encode_header_bytes h out : validate_header (Some h) = VSPW_CUSE_RECORD_OK ->
  vspw_cuse_record_encode_header (Some h) (Some out) =
  (VSPW_CUSE_RECORD_OK, Some (record_bytes h ++ drop 16 out)).
Proof.
  intros Hv. unfold vspw_cuse_record_encode_header. rewrite Hv. cbn zeta.
  rewrite <- (app_nil_l out) at 1.
  repeat first [ rewrite write_be32_app by reflexivity | rewrite mem_write_app by reflexivity ].
  unfold record_bytes. rewrite !drop_drop. simpl. done.
Qed.

Lemma record_bytes_fields h rest : cuse_header_in_range h = true ->
  read_be32 (record_bytes h ++ rest) 0 = VSPW_CUSE_RECORD_MAGIC /\
  read_be32 (record_bytes h ++ rest) 8 = cr_payload_size h.
Proof.
  unfold cuse_header_in_range, in_width. intros. split_andb. rewrite !read_be32_u32.
  split; (apply read_u32_bytes; [reflexivity..|]); [by vm_compute|lia].
Qed.

(** A record header round-trips: every legal header is encoded into the
    first 16 bytes of the output and decodes back to itself, and a header that
    is not legal is refused by the encoder without writing a byte. *)
Theorem cuse_record_roundtrip h out o : cuse_header_in_range h = true ->
  (record_ok h ->
   exists bytes,
     vspw_cuse_record_encode_header (Some h) (Some out) =
       (VSPW_CUSE_RECORD_OK, Some (bytes ++ drop 16 out)) /\
     Z.of_nat (length bytes) = VSPW_CUSE_RECORD_HEADER_SIZE /\
     vspw_cuse_record_decode_header (Some (bytes ++ drop 16 out)) (Some o) =
       (VSPW_CUSE_RECORD_OK, Some h)) /\
  (~ record_ok h ->
   exists e, e <> VSPW_CUSE_RECORD_OK /\
     vspw_cuse_record_encode_header (Some h) (Some out) = (e, Some out)).
Proof.
  intros Hr. split; intros H; rewrite <- validate_header_ok in H by done.
  - exists (record_bytes h). split; [by apply encode_header_bytes|]. split; [done|].
    unfold vspw_cuse_record_decode_header.
    destruct (record_bytes_fields h (drop 16 out) Hr) as [-> ->].
    change (mem_get (record_bytes h ++ drop 16 out) 5) with (cr_type h).
    change (mem_get (record_bytes h ++ drop 16 out) 6) with (cr_flags h).
    destruct h. cbn in *. by rewrite H.
  - exists (validate_header (Some h)). split; [done|].
    unfold vspw_cuse_record_encode_header. by destruct (validate_header (Some h)).
Qed.

Lemma control_bits c : 0 <= c < 256 -> (c .& 0xfc =? 0) = true -> c <= 3.
Proof.
  intros Hc H. apply Z.eqb_eq in H.
  assert (c ≫ 2 = 0) as Hs.
  { apply Z.bits_inj'. intros i Hi. rewrite Z.shiftr_spec, Z.bits_0 by lia.
    destruct (decide (i < 6)).
    - apply (f_equal (fun x => Z.testbit x (i + 2))) in H.
      rewrite Z.land_spec, Z.bits_0 in H.
      change 0xfc with (Z.ones 6 ≪ 2) in H.
      rewrite Z.shiftl_spec, Z.ones_spec_low, andb_true_r in H by lia. done.
    - apply (Z.testbit_false c (i + 2)); [lia|]. rewrite Z.div_small; [done|].
      split; [lia|]. apply (Z.lt_le_trans _ (2 ^ 8)); [lia|]. apply Z.pow_le_mono_r; lia. }
  rewrite Z.shiftr_div_pow2 in Hs by lia. Z.div_mod_to_equations. lia.
Qed.

Lemma decode_header_ok inp o h : bytes_ok inp -> (16 <= length inp)%nat ->
  vspw_cuse_record_decode_header (Some inp) (Some o) = (VSPW_CUSE_RECORD_OK, Some h) ->
  cuse_header_in_range h = true /\ validate_header (Some h) = VSPW_CUSE_RECORD_OK /\
  record_bytes h = take 16 inp.
Proof.
  intros Hb Hlen H. unfold vspw_cuse_record_decode_header in H.
  do 4 (case_if_in H; [done|]). cbn zeta in H. injection H as Hv <-.
  pose proof (read_u32_range inp 8 Hb). pose proof (bytes_ok_get inp 5 Hb).
  pose proof (bytes_ok_get inp 6 Hb). rewrite !read_be32_u32 in *.
  split; [unfold cuse_header_in_range, in_width; cbn -[read_u32]; lia|]. split; [done|].
  rewrite <- mem_read_0_take by done. unfold record_bytes. cbn [cr_type cr_flags cr_payload_size].
  replace VSPW_CUSE_RECORD_MAGIC with (read_u32 inp 0) by lia.
  rewrite !(be32_bytes_read inp) by done.
  apply list_eq_mem_get; [by rewrite length_mem_read|].
  cbn [existsb seq VSPW_CUSE_RECORD_RESERVED_SIZE Nat.add] in E2.
  assert (VSPW_CUSE_RECORD_VERSION = mem_get inp 4) as H4 by lia.
  assert (0 = mem_get inp 7 /\ 0 = mem_get inp 12 /\ 0 = mem_get inp 13 /\
          0 = mem_get inp 14 /\ 0 = mem_get inp 15) as (H7 & H12 & H13 & H14 & H15) by lia.
  intros i Hi. rewrite mem_get_read by exact Hi.
  do 16 (destruct i as [|i];
    [first [reflexivity|exact H4|exact H7|exact H12|exact H13|exact H14|exact H15]|]).
  simpl in Hi. lia.
Qed.

(** Everything the device accepts is legal: a record whose header decodes
    and whose payload validates has exactly one 16-byte encoding, namely the
    bytes read, is a packet of at most 1 MiB or a time-code, and its payload
    has the announced size; the tick of a time-code is below 64. *)
Theorem cuse_record_sound inp o h payload :
  bytes_ok inp -> (16 <= length inp)%nat -> bytes_ok payload ->
  vspw_cuse_record_decode_header (Some inp) (Some o) = (VSPW_CUSE_RECORD_OK, Some h) ->
  vspw_cuse_record_validate_payload (Some h) (Some payload) (Z.of_nat (length payload)) =
    VSPW_CUSE_RECORD_OK ->
  record_ok h /\ vspw_cuse_record_encode_header (Some h) (Some inp) =
    (VSPW_CUSE_RECORD_OK, Some inp) /\
  Z.of_nat (length payload) = cr_payload_size h /\
  (cr_type h = VSPW_CUSE_RECORD_TIME_CODE ->
   exists tick control, payload = [tick; control] /\ 0 <= tick <= 63 /\ 0 <= control <= 3).
Proof.
  intros Hb Hlen Hp Hd Hv.
  destruct (decode_header_ok inp o h Hb Hlen Hd) as (Hr & Hh & Hbytes).
  assert (record_ok h) as Hok by (by apply validate_header_ok).
  unfold vspw_cuse_record_validate_payload in Hv. rewrite Hh in Hv.
  do 2 (case_if_in Hv; [done|]).
  split; [done|]. split.
  { rewrite encode_header_bytes, Hbytes by done. by rewrite take_drop. }
  split; [lia|]. intros Ht. rewrite Ht, Z.eqb_refl in E0. cbn [andb] in E0.
  destruct Hok as [(Hc & _)|(_ & _ & Hs)]; [rewrite Ht in Hc; done|].
  assert (length payload = 2%nat) as Hl2 by lia.
  destruct payload as [|tick [|control [|]]]; try discriminate Hl2.
  exists tick, control. inversion Hp as [|? ? Ht8 Hp']; subst. inversion Hp' as [|? ? Hc8 _]; subst.
  cbn beta in Ht8, Hc8. apply orb_false_iff in E0 as [E1 E2].
  change ((tick >? 63) = false) in E1. change (negb (control .& 0xfc =? 0) = false) in E2.
  split; [done|]. split; [lia|].
  apply negb_false_iff in E2. pose proof (control_bits control). lia.
Qed.

(** ** Witnesses *)

Definition sample_record : vspw_cuse_record_header :=
  {| cr_type := VSPW_CUSE_RECORD_TIME_CODE; cr_flags := 0; cr_payload_size := 2 |}.

Lemma cuse_record_roundtrip_witness :
  exists bytes,
    vspw_cuse_record_encode_header (Some sample_record) (Some []) =
      (VSPW_CUSE_RECORD_OK, Some (bytes ++ drop 16 [])).
Proof.
  destruct (cuse_record_roundtrip sample_record [] sample_record eq_refl) as [H _].
  destruct H as (bytes & H & _); [by right|by exists bytes].
Defined.

Lemma cuse_record_sound_witness : exists tick control, [63; 2] = [tick; control].
Proof.
  destruct (cuse_record_sound (record_bytes sample_record) sample_record sample_record [63; 2])
    as (_ & _ & _ & H); [| | |by vm_compute|by vm_compute|].
  - repeat constructor; by vm_compute.
  - simpl. lia.
  - repeat constructor; by vm_compute.
  - destruct (H eq_refl) as (t & c & E & _). by exists t, c.
Defined.
