(* ===== verification/Server.v ===== *)
(** * The vspwd server: state and handlers

    src/src/vspwd/server.c: the daemon that joins two virtual SpaceWire ports.
    Clients speak the VSPD protocol over sequenced-packet sockets; a client that
    attaches to a port owns it, others are managers that query and subscribe.
    A port can instead be bridged to a remote peer through a UDP port, which is
    the [spw_port] of the port layer over an arbitrary backend [B].

    C ints that hold an index or -1 are [Z]; arrays are lists of the C length.
    A packet array holds the bytes written so far, further bytes being zero.
    This file holds the state and every function that does not call the
    operating system; [ServerLoop] has those that do. *)

From S2P Require Import Prelude Types Ring Backend Loopback DriverApi PortConfig Port Vspd.

Definition VSPWD_PORT_COUNT : Z := 2.
Definition VSPWD_CLIENT_COUNT : Z := 4.
Definition VSPWD_PACKET_QUEUE_DEPTH : nat := 2.
Definition VSPWD_TIME_CODE_QUEUE_DEPTH : nat := 8.
Definition VSPWD_RESPONSE_MAX : Z := VSPD_HEADER_SIZE + VSPD_STATISTICS_PAYLOAD_SIZE.
Definition VSPWD_FRAME_MAX : Z := VSPD_HEADER_SIZE + VSPD_MAX_FRAME_PAYLOAD.

Record vspwd_packet_slot := {
  ps_data : list Z;
  ps_length : Z;
  ps_offset : Z;
  ps_message_id : Z;
  ps_terminator : Z
}.

Definition packet_slot_zero : vspwd_packet_slot :=
  {| ps_data := []; ps_length := 0; ps_offset := 0; ps_message_id := 0;
     ps_terminator := 0 |}.
#[export] Instance vspwd_packet_slot_inhabited : Inhabited vspwd_packet_slot :=
  populate packet_slot_zero.

Record vspwd_port := {
  p_client_index : Z;
  p_started : bool;
  p_reset_latched : bool;
  p_ever_attached : bool;
  p_bridged : bool;
  p_state : Z;
  p_state_event_pending : bool;
  p_next_message_id : Z;
  p_packets : ring vspwd_packet_slot;
  p_time_codes : ring spw_time_code;
  p_statistics : spw_statistics
}.

Record vspwd_reassembly := {
  ra_active : bool;
  ra_request_id : Z;
  ra_message_id : Z;
  ra_total_size : Z;
  ra_next_offset : Z;
  ra_terminator : Z;
  ra_data : list Z
}.

Record vspwd_client := {
  c_fd : Z;
  c_hello_done : bool;
  c_port_id : Z;
  c_monitor_mask : Z;
  c_monitor_pending_mask : Z;
  c_response_pending : bool;
  c_response_size : Z;
  c_response : list Z;
  c_reassembly : vspwd_reassembly
}.

Definition port_zero : vspwd_port :=
  {| p_client_index := 0; p_started := false; p_reset_latched := false;
     p_ever_attached := false; p_bridged := false; p_state := 0;
     p_state_event_pending := false; p_next_message_id := 0;
     p_packets := ring_empty VSPWD_PACKET_QUEUE_DEPTH packet_slot_zero;
     p_time_codes := ring_empty VSPWD_TIME_CODE_QUEUE_DEPTH zero_time_code;
     p_statistics := statistics_zero |}.

Definition reassembly_zero : vspwd_reassembly :=
  {| ra_active := false; ra_request_id := 0; ra_message_id := 0; ra_total_size := 0;
     ra_next_offset := 0; ra_terminator := 0; ra_data := [] |}.

Definition client_zero : vspwd_client :=
  {| c_fd := 0; c_hello_done := false; c_port_id := 0; c_monitor_mask := 0;
     c_monitor_pending_mask := 0; c_response_pending := false; c_response_size := 0;
     c_response := []; c_reassembly := reassembly_zero |}.

#[export] Instance vspwd_port_inhabited : Inhabited vspwd_port := populate port_zero.
#[export] Instance vspwd_client_inhabited : Inhabited vspwd_client := populate client_zero.

(** Field assignments. *)

Definition set_p_client_index (v : Z) (s : vspwd_port) : vspwd_port :=
  {| p_client_index := v; p_started := p_started s; p_reset_latched := p_reset_latched s;
     p_ever_attached := p_ever_attached s; p_bridged := p_bridged s; p_state := p_state s;
     p_state_event_pending := p_state_event_pending s;
     p_next_message_id := p_next_message_id s; p_packets := p_packets s;
     p_time_codes := p_time_codes s; p_statistics := p_statistics s |}.
Definition set_p_started (v : bool) (s : vspwd_port) : vspwd_port :=
  {| p_client_index := p_client_index s; p_started := v;
     p_reset_latched := p_reset_latched s; p_ever_attached := p_ever_attached s;
     p_bridged := p_bridged s; p_state := p_state s;
     p_state_event_pending := p_state_event_pending s;
     p_next_message_id := p_next_message_id s; p_packets := p_packets s;
     p_time_codes := p_time_codes s; p_statistics := p_statistics s |}.
Definition set_p_reset_latched (v : bool) (s : vspwd_port) : vspwd_port :=
  {| p_client_index := p_client_index s; p_started := p_started s; p_reset_latched := v;
     p_ever_attached := p_ever_attached s; p_bridged := p_bridged s; p_state := p_state s;
     p_state_event_pending := p_state_event_pending s;
     p_next_message_id := p_next_message_id s; p_packets := p_packets s;
     p_time_codes := p_time_codes s; p_statistics := p_statistics s |}.
Definition set_p_ever_attached (v : bool) (s : vspwd_port) : vspwd_port :=
  {| p_client_index := p_client_index s; p_started := p_started s;
     p_reset_latched := p_reset_latched s; p_ever_attached := v; p_bridged := p_bridged s;
     p_state := p_state s; p_state_event_pending := p_state_event_pending s;
     p_next_message_id := p_next_message_id s; p_packets := p_packets s;
     p_time_codes := p_time_codes s; p_statistics := p_statistics s |}.
Definition set_p_bridged (v : bool) (s : vspwd_port) : vspwd_port :=
  {| p_client_index := p_client_index s; p_started := p_started s;
     p_reset_latched := p_reset_latched s; p_ever_attached := p_ever_attached s;
     p_bridged := v; p_state := p_state s; p_state_event_pending := p_state_event_pending s;
     p_next_message_id := p_next_message_id s; p_packets := p_packets s;
     p_time_codes := p_time_codes s; p_statistics := p_statistics s |}.
Definition set_p_state (v : Z) (s : vspwd_port) : vspwd_port :=
  {| p_client_index := p_client_index s; p_started := p_started s;
     p_reset_latched := p_reset_latched s; p_ever_attached := p_ever_attached s;
     p_bridged := p_bridged s; p_state := v;
     p_state_event_pending := p_state_event_pending s;
     p_next_message_id := p_next_message_id s; p_packets := p_packets s;
     p_time_codes := p_time_codes s; p_statistics := p_statistics s |}.
Definition set_p_state_event_pending (v : bool) (s : vspwd_port) : vspwd_port :=
  {| p_client_index := p_client_index s; p_started := p_started s;
     p_reset_latched := p_reset_latched s; p_ever_attached := p_ever_attached s;
     p_bridged := p_bridged s; p_state := p_state s; p_state_event_pending := v;
     p_next_message_id := p_next_message_id s; p_packets := p_packets s;
     p_time_codes := p_time_codes s; p_statistics := p_statistics s |}.
Definition set_p_next_message_id (v : Z) (s : vspwd_port) : vspwd_port :=
  {| p_client_index := p_client_index s; p_started := p_started s;
     p_reset_latched := p_reset_latched s; p_ever_attached := p_ever_attached s;
     p_bridged := p_bridged s; p_state := p_state s;
     p_state_event_pending := p_state_event_pending s; p_next_message_id := v;
     p_packets := p_packets s; p_time_codes := p_time_codes s;
     p_statistics := p_statistics s |}.
Definition set_p_packets (v : ring vspwd_packet_slot) (s : vspwd_port) : vspwd_port :=
  {| p_client_index := p_client_index s; p_started := p_started s;
     p_reset_latched := p_reset_latched s; p_ever_attached := p_ever_attached s;
     p_bridged := p_bridged s; p_state := p_state s;
     p_state_event_pending := p_state_event_pending s;
     p_next_message_id := p_next_message_id s; p_packets := v;
     p_time_codes := p_time_codes s; p_statistics := p_statistics s |}.
Definition set_p_time_codes (v : ring spw_time_code) (s : vspwd_port) : vspwd_port :=
  {| p_client_index := p_client_index s; p_started := p_started s;
     p_reset_latched := p_reset_latched s; p_ever_attached := p_ever_attached s;
     p_bridged := p_bridged s; p_state := p_state s;
     p_state_event_pending := p_state_event_pending s;
     p_next_message_id := p_next_message_id s; p_packets := p_packets s; p_time_codes := v;
     p_statistics := p_statistics s |}.
Definition set_p_statistics (v : spw_statistics) (s : vspwd_port) : vspwd_port :=
  {| p_client_index := p_client_index s; p_started := p_started s;
     p_reset_latched := p_reset_latched s; p_ever_attached := p_ever_attached s;
     p_bridged := p_bridged s; p_state := p_state s;
     p_state_event_pending := p_state_event_pending s;
     p_next_message_id := p_next_message_id s; p_packets := p_packets s;
     p_time_codes := p_time_codes s; p_statistics := v |}.

Definition set_c_fd (v : Z) (s : vspwd_client) : vspwd_client :=
  {| c_fd := v; c_hello_done := c_hello_done s; c_port_id := c_port_id s;
     c_monitor_mask := c_monitor_mask s; c_monitor_pending_mask := c_monitor_pending_mask s;
     c_response_pending := c_response_pending s; c_response_size := c_response_size s;
     c_response := c_response s; c_reassembly := c_reassembly s |}.
Definition set_c_hello_done (v : bool) (s : vspwd_client) : vspwd_client :=
  {| c_fd := c_fd s; c_hello_done := v; c_port_id := c_port_id s;
     c_monitor_mask := c_monitor_mask s; c_monitor_pending_mask := c_monitor_pending_mask s;
     c_response_pending := c_response_pending s; c_response_size := c_response_size s;
     c_response := c_response s; c_reassembly := c_reassembly s |}.
Definition set_c_port_id (v : Z) (s : vspwd_client) : vspwd_client :=
  {| c_fd := c_fd s; c_hello_done := c_hello_done s; c_port_id := v;
     c_monitor_mask := c_monitor_mask s; c_monitor_pending_mask := c_monitor_pending_mask s;
     c_response_pending := c_response_pending s; c_response_size := c_response_size s;
     c_response := c_response s; c_reassembly := c_reassembly s |}.
Definition set_c_monitor_mask (v : Z) (s : vspwd_client) : vspwd_client :=
  {| c_fd := c_fd s; c_hello_done := c_hello_done s; c_port_id := c_port_id s;
     c_monitor_mask := v; c_monitor_pending_mask := c_monitor_pending_mask s;
     c_response_pending := c_response_pending s; c_response_size := c_response_size s;
     c_response := c_response s; c_reassembly := c_reassembly s |}.
Definition set_c_monitor_pending_mask (v : Z) (s : vspwd_client) : vspwd_client :=
  {| c_fd := c_fd s; c_hello_done := c_hello_done s; c_port_id := c_port_id s;
     c_monitor_mask := c_monitor_mask s; c_monitor_pending_mask := v;
     c_response_pending := c_response_pending s; c_response_size := c_response_size s;
     c_response := c_response s; c_reassembly := c_reassembly s |}.
Definition set_c_response_pending (v : bool) (s : vspwd_client) : vspwd_client :=
  {| c_fd := c_fd s; c_hello_done := c_hello_done s; c_port_id := c_port_id s;
     c_monitor_mask := c_monitor_mask s; c_monitor_pending_mask := c_monitor_pending_mask s;
     c_response_pending := v; c_response_size := c_response_size s;
     c_response := c_response s; c_reassembly := c_reassembly s |}.
Definition set_c_response_size (v : Z) (s : vspwd_client) : vspwd_client :=
  {| c_fd := c_fd s; c_hello_done := c_hello_done s; c_port_id := c_port_id s;
     c_monitor_mask := c_monitor_mask s; c_monitor_pending_mask := c_monitor_pending_mask s;
     c_response_pending := c_response_pending s; c_response_size := v;
     c_response := c_response s; c_reassembly := c_reassembly s |}.
Definition set_c_response (v : list Z) (s : vspwd_client) : vspwd_client :=
  {| c_fd := c_fd s; c_hello_done := c_hello_done s; c_port_id := c_port_id s;
     c_monitor_mask := c_monitor_mask s; c_monitor_pending_mask := c_monitor_pending_mask s;
     c_response_pending := c_response_pending s; c_response_size := c_response_size s;
     c_response := v; c_reassembly := c_reassembly s |}.
Definition set_c_reassembly (v : vspwd_reassembly) (s : vspwd_client) : vspwd_client :=
  {| c_fd := c_fd s; c_hello_done := c_hello_done s; c_port_id := c_port_id s;
     c_monitor_mask := c_monitor_mask s; c_monitor_pending_mask := c_monitor_pending_mask s;
     c_response_pending := c_response_pending s; c_response_size := c_response_size s;
     c_response := c_response s; c_reassembly := v |}.

(** ** Queues and small helpers *)

(** The message id handed out and the port after it: 0 is never used. *)
Definition vspwd_next_message_id (port : vspwd_port) : Z * vspwd_port :=
  let result := p_next_message_id port in
  let next := u32 (result + 1) in
  let '(result, next) := if result =? 0 then (next, u32 (next + 1)) else (result, next) in
  let next := if next =? 0 then 1 else next in
  (result, set_p_next_message_id next port).

Definition vspwd_peer_port (port_id : Z) : Z := if port_id =? 0 then 1 else 0.

Definition vspwd_clear_reassembly (r : vspwd_reassembly) : vspwd_reassembly :=
  {| ra_active := false; ra_request_id := 0; ra_message_id := 0; ra_total_size := 0;
     ra_next_offset := 0; ra_terminator := SPW_TERMINATOR_EOP; ra_data := ra_data r |}.

Definition vspwd_clear_port_queues (port : vspwd_port) : vspwd_port :=
  set_p_time_codes (ring_clear (p_time_codes port))
    (set_p_packets (ring_clear (p_packets port)) port).

Section server.
Context {B : Type}.

Record vspwd_udp_bridge := {
  b_enabled : bool;
  b_port_id : Z;
  b_udp_port : option (spw_port B);
  b_state : Z;
  b_rx_packet : list Z
}.

Record vspwd_server := {
  s_listener_fd : Z;
  s_socket_path : list Z;
  s_clients : list vspwd_client;
  s_ports : list vspwd_port;
  s_bridge : vspwd_udp_bridge
}.

Definition set_b_enabled (v : bool) (s : vspwd_udp_bridge) : vspwd_udp_bridge :=
  {| b_enabled := v; b_port_id := b_port_id s; b_udp_port := b_udp_port s;
     b_state := b_state s; b_rx_packet := b_rx_packet s |}.
Definition set_b_port_id (v : Z) (s : vspwd_udp_bridge) : vspwd_udp_bridge :=
  {| b_enabled := b_enabled s; b_port_id := v; b_udp_port := b_udp_port s;
     b_state := b_state s; b_rx_packet := b_rx_packet s |}.
Definition set_b_udp_port (v : option (spw_port B)) (s : vspwd_udp_bridge) : vspwd_udp_bridge :=
  {| b_enabled := b_enabled s; b_port_id := b_port_id s; b_udp_port := v;
     b_state := b_state s; b_rx_packet := b_rx_packet s |}.
Definition set_b_state (v : Z) (s : vspwd_udp_bridge) : vspwd_udp_bridge :=
  {| b_enabled := b_enabled s; b_port_id := b_port_id s; b_udp_port := b_udp_port s;
     b_state := v; b_rx_packet := b_rx_packet s |}.
Definition set_b_rx_packet (v : list Z) (s : vspwd_udp_bridge) : vspwd_udp_bridge :=
  {| b_enabled := b_enabled s; b_port_id := b_port_id s; b_udp_port := b_udp_port s;
     b_state := b_state s; b_rx_packet := v |}.

Definition set_s_clients (v : list vspwd_client) (s : vspwd_server) : vspwd_server :=
  {| s_listener_fd := s_listener_fd s; s_socket_path := s_socket_path s; s_clients := v;
     s_ports := s_ports s; s_bridge := s_bridge s |}.
Definition set_s_ports (v : list vspwd_port) (s : vspwd_server) : vspwd_server :=
  {| s_listener_fd := s_listener_fd s; s_socket_path := s_socket_path s;
     s_clients := s_clients s; s_ports := v; s_bridge := s_bridge s |}.
Definition set_s_bridge (v : vspwd_udp_bridge) (s : vspwd_server) : vspwd_server :=
  {| s_listener_fd := s_listener_fd s; s_socket_path := s_socket_path s;
     s_clients := s_clients s; s_ports := s_ports s; s_bridge := v |}.

(** The array elements a C index names. *)
Definition port_at (s : vspwd_server) (id : Z) : vspwd_port := s_ports s !!! Z.to_nat id.
Definition client_at (s : vspwd_server) (i : Z) : vspwd_client := s_clients s !!! Z.to_nat i.
Definition upd_port (id : Z) (f : vspwd_port -> vspwd_port) (s : vspwd_server) : vspwd_server :=
  set_s_ports (<[Z.to_nat id := f (port_at s id)]> (s_ports s)) s.
Definition upd_client (i : Z) (f : vspwd_client -> vspwd_client) (s : vspwd_server)
    : vspwd_server :=
  set_s_clients (<[Z.to_nat i := f (client_at s i)]> (s_clients s)) s.
Definition upd_bridge (f : vspwd_udp_bridge -> vspwd_udp_bridge) (s : vspwd_server)
    : vspwd_server := set_s_bridge (f (s_bridge s)) s.

(** ** Link states *)

Definition vspwd_calculate_state (server : vspwd_server) (port_id : Z) : Z :=
  let port := port_at server port_id in
  let peer := port_at server (vspwd_peer_port port_id) in
  if p_bridged port then b_state (s_bridge server) else
  if p_client_index port <? 0 then SPW_LINK_ERROR_RESET else
  if p_reset_latched port then SPW_LINK_ERROR_RESET else
  if negb (p_started port) then SPW_LINK_READY else
  if p_bridged peer then
    if p_state peer =? SPW_LINK_RUN then SPW_LINK_RUN else
    if p_state peer =? SPW_LINK_ERROR_WAIT then SPW_LINK_ERROR_WAIT else
    SPW_LINK_CONNECTING
  else
  if (0 <=? p_client_index peer) && p_started peer && negb (p_reset_latched peer)
  then SPW_LINK_RUN else
  if 0 <=? p_client_index peer then SPW_LINK_CONNECTING else
  if p_ever_attached peer then SPW_LINK_ERROR_WAIT else SPW_LINK_CONNECTING.

(** Does client [c] watch the port of mask bit [bit]? *)
Definition monitors (c : vspwd_client) (bit : Z) : bool :=
  (0 <=? c_fd c) && c_hello_done c && (c_port_id c <? 0) &&
  negb (c_monitor_mask c .& bit =? 0).

Definition vspwd_mark_port_changed (server : vspwd_server) (port_id : Z) : vspwd_server :=
  if (port_id <? 0) || (VSPWD_PORT_COUNT <=? port_id) then server else
  let bit := u32 (1 ≪ port_id) in
  set_s_clients
    ((fun c => if monitors c bit
               then set_c_monitor_pending_mask (c_monitor_pending_mask c .| bit) c
               else c) <$> s_clients server) server.

(** The body of the loop of [vspwd_update_states]. *)
Definition vspwd_update_state (server : vspwd_server) (port_id : Z) : vspwd_server :=
  let port := port_at server port_id in
  if (p_client_index port <? 0) && negb (p_bridged port) then
    upd_port port_id
      (fun p => set_p_state_event_pending false (set_p_state SPW_LINK_ERROR_RESET p)) server
  else
  let next_state := vspwd_calculate_state server port_id in
  if next_state =? p_state port then server else
  let server :=
    if next_state =? SPW_LINK_ERROR_WAIT
    then upd_port port_id (fun p => set_p_statistics (count_link_error (p_statistics p)) p) server
    else server in
  let server :=
    upd_port port_id
      (fun p => set_p_state_event_pending true (set_p_state next_state p)) server in
  vspwd_mark_port_changed server port_id.

Definition vspwd_update_states (server : vspwd_server) : vspwd_server :=
  fold_left vspwd_update_state (seqZ 0 VSPWD_PORT_COUNT) server.

Definition vspwd_init_server : vspwd_server :=
  {| s_listener_fd := -1; s_socket_path := [];
     s_clients :=
       replicate (Z.to_nat VSPWD_CLIENT_COUNT) (set_c_port_id (-1) (set_c_fd (-1) client_zero));
     s_ports :=
       replicate (Z.to_nat VSPWD_PORT_COUNT)
         (set_p_next_message_id 1
           (set_p_state SPW_LINK_ERROR_RESET (set_p_client_index (-1) port_zero)));
     s_bridge := {| b_enabled := false; b_port_id := -1; b_udp_port := None;
                    b_state := SPW_LINK_ERROR_RESET; b_rx_packet := [] |} |}.

(** ** Responses *)

Definition response_header (request : vspd_header) (status payload_size : Z) : vspd_header :=
  {| v_magic := VSPD_MAGIC; v_version_major := VSPD_VERSION_MAJOR;
     v_version_minor := VSPD_VERSION_MINOR; v_type := v_type request;
     v_flags := VSPD_FLAG_RESPONSE; v_header_size := VSPD_HEADER_SIZE; v_reserved := 0;
     v_payload_size := if status =? VSPD_STATUS_OK then payload_size else 0;
     v_request_id := v_request_id request; v_port_id := v_port_id request;
     v_message_id := 0; v_fragment_offset := 0; v_total_size := 0; v_status := status |}.

Definition vspwd_queue_response (client : vspwd_client) (request : vspd_header) (status : Z)
    (payload : option (list Z)) (payload_size : Z) : bool * vspwd_client :=
  if c_response_pending client || (VSPD_STATISTICS_PAYLOAD_SIZE <? payload_size)
  then (false, client) else
  let response := response_header request status payload_size in
  let '(result, out) := vspd_encode_header response (c_response client) in
  let client := set_c_response out client in
  if negb (result =? VSPD_CODEC_OK) then (false, client) else
  let size := v_payload_size response in
  let ready (client : vspwd_client) :=
    set_c_response_pending true (set_c_response_size (VSPD_HEADER_SIZE + size) client) in
  if negb (size =? 0) then
    match payload with
    | None => (false, client)
    | Some payload =>
        (true,
         ready (set_c_response
                  (mem_write (c_response client) (Z.to_nat VSPD_HEADER_SIZE)
                     (mem_read payload 0 (Z.to_nat size))) client))
    end
  else (true, ready client).

(** [vspwd_queue_response] on a client of the server. *)
Definition respond (server : vspwd_server) (client_index : Z) (request : vspd_header)
    (status : Z) (payload : option (list Z)) (payload_size : Z) : bool * vspwd_server :=
  let '(ok, client) :=
    vspwd_queue_response (client_at server client_index) request status payload payload_size in
  (ok, upd_client client_index (fun _ => client) server).

Definition vspwd_validate_attached_request (client : vspwd_client) (header : vspd_header) : Z :=
  if negb (c_hello_done client) || (c_port_id client <? 0)
  then VSPD_STATUS_INVALID_STATE else
  if negb (v_port_id header =? u32 (c_port_id client))
  then VSPD_STATUS_INVALID_ARGUMENT else VSPD_STATUS_OK.

Definition vspwd_validate_management_request (client : vspwd_client) (header : vspd_header)
    (requires_port : bool) : Z :=
  if negb (c_hello_done client) || (0 <=? c_port_id client)
  then VSPD_STATUS_INVALID_STATE else
  if requires_port && (VSPWD_PORT_COUNT <=? v_port_id header)
  then VSPD_STATUS_INVALID_ARGUMENT else VSPD_STATUS_OK.

Definition vspwd_statistics_to_wire (source : spw_statistics) : vspd_statistics_payload :=
  {| vs_tx_packets := tx_packets source; vs_rx_packets := rx_packets source;
     vs_tx_bytes := tx_bytes source; vs_rx_bytes := rx_bytes source;
     vs_tx_time_codes := tx_time_codes source; vs_rx_time_codes := rx_time_codes source;
     vs_eep_packets := eep_packets source; vs_link_errors := link_errors source;
     vs_dropped_packets := dropped_packets source |}.

Definition flag_if (b : bool) (bit flags : Z) : Z := if b then flags .| bit else flags.

Definition vspwd_port_info_to_wire (port : vspwd_port) : vspd_port_info_payload :=
  let flags := flag_if (0 <=? p_client_index port) VSPD_PORT_INFO_ATTACHED 0 in
  let flags := flag_if (p_started port) VSPD_PORT_INFO_STARTED flags in
  let flags := flag_if (p_reset_latched port) VSPD_PORT_INFO_RESET_LATCHED flags in
  let flags := flag_if (p_ever_attached port) VSPD_PORT_INFO_EVER_ATTACHED flags in
  let flags := flag_if (p_bridged port) VSPD_PORT_INFO_BRIDGED flags in
  {| vp_flags := flags; vp_link_state := p_state port;
     vp_packet_queue_count := Z.of_nat (r_count (p_packets port));
     vp_time_code_queue_count := Z.of_nat (r_count (p_time_codes port)) |}.

Definition vspwd_port_snapshot_to_wire (port : vspwd_port) : vspd_port_snapshot_payload :=
  {| vn_info := vspwd_port_info_to_wire port;
     vn_statistics := vspwd_statistics_to_wire (p_statistics port) |}.

(** ** Attachment *)

(** The port a departing client leaves behind. *)
Definition detached_port (p : vspwd_port) : vspwd_port :=
  vspwd_clear_port_queues
    (set_p_state_event_pending false
      (set_p_state SPW_LINK_ERROR_RESET
        (set_p_reset_latched false (set_p_started false (set_p_client_index (-1) p))))).

Definition detached_client (c : vspwd_client) : vspwd_client :=
  set_c_reassembly (vspwd_clear_reassembly (c_reassembly c)) (set_c_port_id (-1) c).

Definition vspwd_detach_client (server : vspwd_server) (client_index : Z) : vspwd_server :=
  let port_id := c_port_id (client_at server client_index) in
  let server :=
    if (0 <=? port_id) && (port_id <? VSPWD_PORT_COUNT) then
      if p_client_index (port_at server port_id) =? client_index then
        vspwd_mark_port_changed (upd_port port_id detached_port server) port_id
      else server
    else server in
  vspwd_update_states (upd_client client_index detached_client server).

(** [vspwd_close_client] but for the close(2) of the descriptor. *)
Definition forget_client (server : vspwd_server) (client_index : Z) : vspwd_server :=
  upd_client client_index (fun _ => set_c_port_id (-1) (set_c_fd (-1) client_zero))
    (vspwd_detach_client server client_index).

(** ** The data path *)

(** The slot at the tail is filled and the tail moves on. *)
Definition vspwd_push_packet (bytes : list Z) (length terminator : Z) (port : vspwd_port)
    : vspwd_port :=
  let queue := p_packets port in
  let slot := ring_at queue (r_tail queue) in
  let '(message_id, port) := vspwd_next_message_id port in
  set_p_packets
    (ring_push queue
       {| ps_data := if length =? 0 then ps_data slot
                     else mem_write (ps_data slot) 0 (mem_read bytes 0 (Z.to_nat length));
          ps_length := u32 length; ps_offset := 0; ps_message_id := message_id;
          ps_terminator := terminator |}) port.

Definition vspwd_enqueue_packet (server : vspwd_server) (source_port_id : Z)
    (reassembly : vspwd_reassembly) : bool * vspwd_server :=
  let peer_id := vspwd_peer_port source_port_id in
  let source := port_at server source_port_id in
  let destination := port_at server peer_id in
  if negb (p_state source =? SPW_LINK_RUN) || negb (p_state destination =? SPW_LINK_RUN)
  then (false, server) else
  if (VSPWD_PACKET_QUEUE_DEPTH <=? r_count (p_packets destination))%nat
  then (false, server) else
  let server :=
    upd_port peer_id
      (vspwd_push_packet (ra_data reassembly) (ra_total_size reassembly)
         (ra_terminator reassembly)) server in
  let server :=
    upd_port source_port_id
      (fun p => set_p_statistics
         (count_tx_packet (ra_total_size reassembly) (ra_terminator reassembly)
            (p_statistics p)) p) server in
  let server := vspwd_mark_port_changed server source_port_id in
  (true, vspwd_mark_port_changed server peer_id).

Definition set_reassembly (client_index : Z) (r : vspwd_reassembly) (server : vspwd_server)
    : vspwd_server := upd_client client_index (set_c_reassembly r) server.

(** The first step of [vspwd_accept_data_fragment]: begin a reassembly or check
    that the fragment continues the one in progress. *)
Definition begin_or_continue (r : vspwd_reassembly) (header : vspd_header)
    : option vspwd_reassembly :=
  let start := vspd_flag header VSPD_FLAG_FRAGMENT_START in
  if negb (ra_active r) then
    if negb start || negb (v_fragment_offset header =? 0) then None
    else Some {| ra_active := true; ra_request_id := v_request_id header;
                 ra_message_id := v_message_id header; ra_total_size := v_total_size header;
                 ra_next_offset := 0; ra_terminator := ra_terminator r;
                 ra_data := ra_data r |}
  else
    if start || negb (ra_request_id r =? v_request_id header) ||
       negb (ra_message_id r =? v_message_id header) ||
       negb (ra_total_size r =? v_total_size header) ||
       negb (ra_next_offset r =? v_fragment_offset header)
    then None else Some r.

Definition store_payload (r : vspwd_reassembly) (header : vspd_header) (payload : list Z)
    : vspwd_reassembly :=
  {| ra_active := ra_active r; ra_request_id := ra_request_id r;
     ra_message_id := ra_message_id r; ra_total_size := ra_total_size r;
     ra_next_offset := u32 (v_fragment_offset header + v_payload_size header);
     ra_terminator := ra_terminator r;
     ra_data :=
       if v_payload_size header =? 0 then ra_data r
       else mem_write (ra_data r) (Z.to_nat (v_fragment_offset header))
              (mem_read payload 0 (Z.to_nat (v_payload_size header))) |}.

Definition set_ra_terminator (t : Z) (r : vspwd_reassembly) : vspwd_reassembly :=
  {| ra_active := ra_active r; ra_request_id := ra_request_id r;
     ra_message_id := ra_message_id r; ra_total_size := ra_total_size r;
     ra_next_offset := ra_next_offset r; ra_terminator := t; ra_data := ra_data r |}.

Definition vspwd_accept_data_fragment (server : vspwd_server) (client_index : Z)
    (header : vspd_header) (payload : list Z) : Z * vspwd_server :=
  let client := client_at server client_index in
  match begin_or_continue (c_reassembly client) header with
  | None => (VSPD_STATUS_INVALID_PACKET, server)
  | Some r =>
      let r := store_payload r header payload in
      if negb (vspd_flag header VSPD_FLAG_FRAGMENT_END)
      then (VSPD_STATUS_OK, set_reassembly client_index r server) else
      if negb (ra_next_offset r =? ra_total_size r)
      then (VSPD_STATUS_INVALID_PACKET, set_reassembly client_index r server) else
      let r := set_ra_terminator
                 (if vspd_flag header VSPD_FLAG_EEP then SPW_TERMINATOR_EEP
                  else SPW_TERMINATOR_EOP) r in
      let server := set_reassembly client_index r server in
      let port_id := c_port_id client in
      if negb (p_state (port_at server port_id) =? SPW_LINK_RUN)
      then (VSPD_STATUS_LINK_UNAVAILABLE, server) else
      if (VSPWD_PACKET_QUEUE_DEPTH <=?
          r_count (p_packets (port_at server (vspwd_peer_port port_id))))%nat
      then
        let server :=
          upd_port port_id (fun p => set_p_statistics (count_dropped (p_statistics p)) p)
            server in
        (VSPD_STATUS_RESOURCE_EXHAUSTED, vspwd_mark_port_changed server port_id)
      else
      let '(ok, server) := vspwd_enqueue_packet server port_id r in
      ((if ok then VSPD_STATUS_OK else VSPD_STATUS_LINK_UNAVAILABLE), server)
  end.

Definition vspwd_enqueue_time_code (server : vspwd_server) (source_port_id : Z)
    (time_code : spw_time_code) : bool * vspwd_server :=
  let peer_id := vspwd_peer_port source_port_id in
  let source := port_at server source_port_id in
  let destination := port_at server peer_id in
  if negb (p_state source =? SPW_LINK_RUN) || negb (p_state destination =? SPW_LINK_RUN)
  then (false, server) else
  if (VSPWD_TIME_CODE_QUEUE_DEPTH <=? r_count (p_time_codes destination))%nat
  then (false, server) else
  let server :=
    upd_port peer_id (fun p => set_p_time_codes (ring_push (p_time_codes p) time_code) p)
      server in
  let server :=
    upd_port source_port_id
      (fun p => set_p_statistics (count_tx_time_code (p_statistics p)) p) server in
  let server := vspwd_mark_port_changed server source_port_id in
  (true, vspwd_mark_port_changed server peer_id).

(** ** The UDP bridge *)

Definition set_udp_port (udp : option (spw_port B)) (server : vspwd_server) : vspwd_server :=
  upd_bridge (set_b_udp_port udp) server.

Definition bridge_running (server : vspwd_server) : bool :=
  b_state (s_bridge server) =? SPW_LINK_RUN.

Definition vspwd_bridge_refresh_state (server : vspwd_server) : vspwd_server :=
  let bridge := s_bridge server in
  if negb (b_enabled bridge) || negb (non_null (b_udp_port bridge)) then server else
  let '(result, out, udp) :=
    spw_port_get_link_state (b_udp_port bridge) (Some SPW_LINK_ERROR_WAIT) in
  let server := set_udp_port udp server in
  let state :=
    if negb (result =? SPW_OK) then SPW_LINK_ERROR_WAIT
    else default SPW_LINK_ERROR_WAIT out in
  if state =? b_state bridge then server else
  let id := b_port_id bridge in
  let server := upd_bridge (set_b_state state) server in
  let server :=
    if p_state (port_at server id) =? state then server else
    let server :=
      if state =? SPW_LINK_ERROR_WAIT
      then upd_port id (fun p => set_p_statistics (count_link_error (p_statistics p)) p) server
      else server in
    vspwd_mark_port_changed (upd_port id (set_p_state state) server) id in
  vspwd_update_states server.

Definition vspwd_bridge_pop_packet (server : vspwd_server) : vspwd_server :=
  let id := b_port_id (s_bridge server) in
  let bridge_port := port_at server id in
  if (r_count (p_packets bridge_port) =? 0)%nat || negb (bridge_running server)
  then server else
  let slot := ring_front (p_packets bridge_port) in
  let packet :=
    {| pkt_data := Some (mem_read (ps_data slot) 0 (Z.to_nat (ps_length slot)));
       pkt_length := ps_length slot; pkt_capacity := ps_length slot;
       pkt_terminator := ps_terminator slot |} in
  let '(result, udp) :=
    spw_port_send (b_udp_port (s_bridge server)) (Some packet) SPW_TIMEOUT_IMMEDIATE in
  let server := set_udp_port udp server in
  if negb (result =? SPW_OK) then server else
  let server :=
    upd_port id
      (fun p => set_p_packets (ring_pop (p_packets p))
         (set_p_statistics (count_rx_packet (ps_length slot) (p_statistics p)) p)) server in
  vspwd_mark_port_changed server id.

Definition vspwd_bridge_pop_time_code (server : vspwd_server) : vspwd_server :=
  let id := b_port_id (s_bridge server) in
  let bridge_port := port_at server id in
  if (r_count (p_time_codes bridge_port) =? 0)%nat || negb (bridge_running server)
  then server else
  let time_code := ring_front (p_time_codes bridge_port) in
  let '(result, udp) :=
    spw_port_send_time_code (b_udp_port (s_bridge server)) (Some time_code)
      SPW_TIMEOUT_IMMEDIATE in
  let server := set_udp_port udp server in
  if negb (result =? SPW_OK) then server else
  let server :=
    upd_port id
      (fun p => set_p_time_codes (ring_pop (p_time_codes p))
         (set_p_statistics (count_rx_time_code (p_statistics p)) p)) server in
  vspwd_mark_port_changed server id.

Definition vspwd_bridge_push_packet (server : vspwd_server) : vspwd_server :=
  let bridge_id := b_port_id (s_bridge server) in
  let local_id := vspwd_peer_port bridge_id in
  let local_port := port_at server local_id in
  if negb (bridge_running server) || negb (p_state local_port =? SPW_LINK_RUN) ||
     (VSPWD_PACKET_QUEUE_DEPTH <=? r_count (p_packets local_port))%nat
  then server else
  let capacity := VSPD_MAX_LOGICAL_PACKET in
  let packet :=
    {| pkt_data := Some (mem_read (b_rx_packet (s_bridge server)) 0 (Z.to_nat capacity));
       pkt_length := 0; pkt_capacity := capacity; pkt_terminator := SPW_TERMINATOR_EOP |} in
  let '(result, out, udp) :=
    spw_port_receive (b_udp_port (s_bridge server)) (Some packet) SPW_TIMEOUT_IMMEDIATE in
  let packet := default packet out in
  let bytes := default [] (pkt_data packet) in
  let server := upd_bridge (set_b_rx_packet bytes) (set_udp_port udp server) in
  if negb (result =? SPW_OK) then server else
  let server :=
    upd_port local_id
      (vspwd_push_packet bytes (pkt_length packet) (pkt_terminator packet)) server in
  let server :=
    upd_port bridge_id
      (fun p => set_p_statistics
         (count_tx_packet (pkt_length packet) (pkt_terminator packet) (p_statistics p)) p)
      server in
  vspwd_mark_port_changed (vspwd_mark_port_changed server bridge_id) local_id.

Definition vspwd_bridge_push_time_code (server : vspwd_server) : vspwd_server :=
  let bridge_id := b_port_id (s_bridge server) in
  let local_id := vspwd_peer_port bridge_id in
  let local_port := port_at server local_id in
  if negb (bridge_running server) || negb (p_state local_port =? SPW_LINK_RUN) ||
     (VSPWD_TIME_CODE_QUEUE_DEPTH <=? r_count (p_time_codes local_port))%nat
  then server else
  let '(result, out, udp) :=
    spw_port_receive_time_code (b_udp_port (s_bridge server)) (Some zero_time_code)
      SPW_TIMEOUT_IMMEDIATE in
  let server := set_udp_port udp server in
  if negb (result =? SPW_OK) then server else
  let time_code := default zero_time_code out in
  let server :=
    upd_port local_id (fun p => set_p_time_codes (ring_push (p_time_codes p) time_code) p)
      server in
  let server :=
    upd_port bridge_id
      (fun p => set_p_statistics (count_tx_time_code (p_statistics p)) p) server in
  vspwd_mark_port_changed (vspwd_mark_port_changed server bridge_id) local_id.

Definition vspwd_service_bridge (server : vspwd_server) : vspwd_server :=
  if negb (b_enabled (s_bridge server)) then server else
  let server := vspwd_bridge_refresh_state server in
  if negb (bridge_running server) then server else
  let server := vspwd_bridge_pop_packet server in
  let server := vspwd_bridge_pop_time_code server in
  let server := vspwd_bridge_push_packet server in
  let server := vspwd_bridge_push_time_code server in
  vspwd_bridge_refresh_state server.

(** ** Requests

    One definition per case of the switch in [vspwd_handle_request].  The result
    is false when the connection is to be closed.  [response_payload] is
    uninitialised storage in C; it is only sent after it was written. *)

Definition handler : Type :=
  vspwd_server -> Z -> vspd_header -> option (list Z) -> bool * vspwd_server.

Definition handle_hello : handler := fun server i header _ =>
  let hello := [VSPD_VERSION_MAJOR; VSPD_VERSION_MINOR; 0; 0] in
  if 0 <=? c_port_id (client_at server i) then
    respond server i header VSPD_STATUS_INVALID_STATE (Some hello) VSPD_HELLO_PAYLOAD_SIZE
  else
    respond (upd_client i (set_c_hello_done true) server) i header VSPD_STATUS_OK
      (Some hello) VSPD_HELLO_PAYLOAD_SIZE.

(** The port as a new owner finds it. *)
Definition attached_port (client_index : Z) (port : vspwd_port) : vspwd_port :=
  set_p_statistics statistics_zero
    (vspwd_clear_port_queues
      (set_p_next_message_id 1
        (set_p_state_event_pending false
          (set_p_state SPW_LINK_ERROR_RESET
            (set_p_ever_attached true
              (set_p_reset_latched false
                (set_p_started false (set_p_client_index client_index port)))))))).

Definition handle_attach : handler := fun server i header _ =>
  let port_id := i32 (v_port_id header) in
  let client := client_at server i in
  let answer status := respond server i header status None 0 in
  if negb (c_hello_done client) || (0 <=? c_port_id client)
  then answer VSPD_STATUS_INVALID_STATE else
  if (port_id <? 0) || (VSPWD_PORT_COUNT <=? port_id)
  then answer VSPD_STATUS_INVALID_ARGUMENT else
  if p_bridged (port_at server port_id) then answer VSPD_STATUS_RESOURCE_EXHAUSTED else
  if 0 <=? p_client_index (port_at server port_id)
  then answer VSPD_STATUS_RESOURCE_EXHAUSTED else
  let server := upd_client i (set_c_port_id port_id) server in
  let server := upd_port port_id (attached_port i) server in
  respond (vspwd_update_states server) i header VSPD_STATUS_OK None 0.

Definition handle_detach : handler := fun server i header _ =>
  let status := vspwd_validate_attached_request (client_at server i) header in
  let '(ok, server) := respond server i header status None 0 in
  if negb ok then (false, server) else
  (true, if status =? VSPD_STATUS_OK then vspwd_detach_client server i else server).

(** START, STOP and RESET: [change] is the assignment to the client's port. *)
Definition handle_link_control (change : vspwd_port -> vspwd_port)
    (clear_partial : bool) : handler := fun server i header _ =>
  let client := client_at server i in
  let status := vspwd_validate_attached_request client header in
  let server :=
    if status =? VSPD_STATUS_OK then
      let server := upd_port (c_port_id client) change server in
      let server :=
        if clear_partial
        then upd_client i (fun c => set_c_reassembly (vspwd_clear_reassembly (c_reassembly c)) c)
               server
        else server in
      vspwd_update_states server
    else server in
  respond server i header status None 0.

Definition handle_start : handler :=
  handle_link_control (fun p => set_p_reset_latched false (set_p_started true p)) false.

Definition handle_stop : handler :=
  handle_link_control (fun p => set_p_reset_latched false (set_p_started false p)) false.

Definition handle_reset : handler :=
  handle_link_control
    (fun p => vspwd_clear_port_queues (set_p_reset_latched true (set_p_started false p))) true.

Definition handle_get_link_state : handler := fun server i header _ =>
  let client := client_at server i in
  let status := vspwd_validate_attached_request client header in
  let response_payload :=
    if status =? VSPD_STATUS_OK
    then vspd_encode_u32_payload (p_state (port_at server (c_port_id client))) [] else [] in
  respond server i header status (Some response_payload) VSPD_LINK_STATE_PAYLOAD_SIZE.

Definition server_capabilities : vspd_capabilities_payload :=
  {| vc_bits := SPW_CAP_EEP .| SPW_CAP_TIME_CODE .| SPW_CAP_LINK_CONTROL .| SPW_CAP_STATISTICS;
     vc_max_packet_size := VSPD_MAX_LOGICAL_PACKET;
     vc_tx_queue_depth := Z.of_nat VSPWD_PACKET_QUEUE_DEPTH;
     vc_rx_queue_depth := Z.of_nat VSPWD_PACKET_QUEUE_DEPTH;
     vc_buffer_alignment := 1 |}.

Definition handle_get_capabilities : handler := fun server i header _ =>
  let status := vspwd_validate_attached_request (client_at server i) header in
  let response_payload :=
    if status =? VSPD_STATUS_OK then vspd_encode_capabilities server_capabilities [] else [] in
  respond server i header status (Some response_payload) VSPD_CAPABILITIES_PAYLOAD_SIZE.

Definition handle_data_tx : handler := fun server i header payload =>
  let last := vspd_flag header VSPD_FLAG_FRAGMENT_END in
  let status := vspwd_validate_attached_request (client_at server i) header in
  let '(status, server) :=
    if status =? VSPD_STATUS_OK
    then vspwd_accept_data_fragment server i header (default [] payload)
    else (status, server) in
  let cleared :=
    upd_client i (fun c => set_c_reassembly (vspwd_clear_reassembly (c_reassembly c)) c)
      server in
  if status =? VSPD_STATUS_INVALID_PACKET then (false, cleared) else
  if negb last then (status =? VSPD_STATUS_OK, server) else
  respond cleared i header status None 0.

Definition handle_time_code_tx : handler := fun server i header payload =>
  let client := client_at server i in
  let port_id := c_port_id client in
  let status := vspwd_validate_attached_request client header in
  let status :=
    if (status =? VSPD_STATUS_OK) && negb (p_state (port_at server port_id) =? SPW_LINK_RUN)
    then VSPD_STATUS_LINK_UNAVAILABLE else status in
  let '(status, server) :=
    if status =? VSPD_STATUS_OK then
      let payload := default [] payload in
      let time_code := {| time_count := mem_get payload 0; control_flags := mem_get payload 1 |} in
      if (VSPWD_TIME_CODE_QUEUE_DEPTH <=?
          r_count (p_time_codes (port_at server (vspwd_peer_port port_id))))%nat
      then
        let server :=
          upd_port port_id (fun p => set_p_statistics (count_dropped (p_statistics p)) p)
            server in
        (VSPD_STATUS_RESOURCE_EXHAUSTED, vspwd_mark_port_changed server port_id)
      else
        let '(ok, server) := vspwd_enqueue_time_code server port_id time_code in
        (if ok then status else VSPD_STATUS_LINK_UNAVAILABLE, server)
    else (status, server) in
  respond server i header status None 0.

Definition statistics_payload (port : vspwd_port) : list Z :=
  vspd_encode_statistics (vspwd_statistics_to_wire (p_statistics port)) [] 0.

Definition handle_get_statistics : handler := fun server i header _ =>
  let client := client_at server i in
  let status := vspwd_validate_attached_request client header in
  let response_payload :=
    if status =? VSPD_STATUS_OK
    then statistics_payload (port_at server (c_port_id client)) else [] in
  respond server i header status (Some response_payload) VSPD_STATISTICS_PAYLOAD_SIZE.

Definition clear_port_statistics (server : vspwd_server) (port_id : Z) : vspwd_server :=
  vspwd_mark_port_changed (upd_port port_id (set_p_statistics statistics_zero) server) port_id.

Definition handle_clear_statistics : handler := fun server i header _ =>
  let client := client_at server i in
  let status := vspwd_validate_attached_request client header in
  let server :=
    if status =? VSPD_STATUS_OK then clear_port_statistics server (c_port_id client)
    else server in
  respond server i header status None 0.

Definition server_info : vspd_server_info_payload :=
  {| vi_port_count := VSPWD_PORT_COUNT; vi_client_capacity := VSPWD_CLIENT_COUNT;
     vi_packet_queue_depth := Z.of_nat VSPWD_PACKET_QUEUE_DEPTH;
     vi_time_code_queue_depth := Z.of_nat VSPWD_TIME_CODE_QUEUE_DEPTH;
     vi_max_logical_packet := VSPD_MAX_LOGICAL_PACKET |}.

Definition handle_get_server_info : handler := fun server i header _ =>
  let status := vspwd_validate_management_request (client_at server i) header false in
  let response_payload :=
    if status =? VSPD_STATUS_OK then vspd_encode_server_info server_info [] else [] in
  respond server i header status (Some response_payload) VSPD_SERVER_INFO_PAYLOAD_SIZE.

Definition handle_get_port_info : handler := fun server i header _ =>
  let status := vspwd_validate_management_request (client_at server i) header true in
  let response_payload :=
    if status =? VSPD_STATUS_OK
    then vspd_encode_port_info (vspwd_port_info_to_wire (port_at server (v_port_id header))) []
    else [] in
  respond server i header status (Some response_payload) VSPD_PORT_INFO_PAYLOAD_SIZE.

Definition handle_get_port_statistics : handler := fun server i header _ =>
  let status := vspwd_validate_management_request (client_at server i) header true in
  let response_payload :=
    if status =? VSPD_STATUS_OK
    then statistics_payload (port_at server (v_port_id header)) else [] in
  respond server i header status (Some response_payload) VSPD_STATISTICS_PAYLOAD_SIZE.

Definition handle_clear_port_statistics : handler := fun server i header _ =>
  let status := vspwd_validate_management_request (client_at server i) header true in
  let server :=
    if status =? VSPD_STATUS_OK then clear_port_statistics server (v_port_id header)
    else server in
  respond server i header status None 0.

Definition handle_subscribe_port : handler := fun server i header _ =>
  let status := vspwd_validate_management_request (client_at server i) header true in
  let bit := u32 (1 ≪ v_port_id header) in
  let server :=
    if status =? VSPD_STATUS_OK then
      upd_client i
        (fun c => set_c_monitor_pending_mask (c_monitor_pending_mask c .| bit)
                    (set_c_monitor_mask (c_monitor_mask c .| bit) c)) server
    else server in
  respond server i header status None 0.

Definition handle_unsubscribe_port : handler := fun server i header _ =>
  let status := vspwd_validate_management_request (client_at server i) header true in
  let bit := u32 (1 ≪ v_port_id header) in
  let server :=
    if status =? VSPD_STATUS_OK then
      upd_client i
        (fun c => set_c_monitor_pending_mask
                    (c_monitor_pending_mask c .& u32 (Z.lnot bit))
                    (set_c_monitor_mask (c_monitor_mask c .& u32 (Z.lnot bit)) c)) server
    else server in
  respond server i header status None 0.

(** The switch. *)
Definition handler_of (type : Z) : option handler :=
  if type =? VSPD_MSG_HELLO then Some handle_hello else
  if type =? VSPD_MSG_ATTACH then Some handle_attach else
  if type =? VSPD_MSG_DETACH then Some handle_detach else
  if type =? VSPD_MSG_START then Some handle_start else
  if type =? VSPD_MSG_STOP then Some handle_stop else
  if type =? VSPD_MSG_RESET then Some handle_reset else
  if type =? VSPD_MSG_GET_LINK_STATE then Some handle_get_link_state else
  if type =? VSPD_MSG_GET_CAPABILITIES then Some handle_get_capabilities else
  if type =? VSPD_MSG_DATA_TX then Some handle_data_tx else
  if type =? VSPD_MSG_TIME_CODE_TX then Some handle_time_code_tx else
  if type =? VSPD_MSG_GET_STATISTICS then Some handle_get_statistics else
  if type =? VSPD_MSG_CLEAR_STATISTICS then Some handle_clear_statistics else
  if type =? VSPD_MSG_GET_SERVER_INFO then Some handle_get_server_info else
  if type =? VSPD_MSG_GET_PORT_INFO then Some handle_get_port_info else
  if type =? VSPD_MSG_GET_PORT_STATISTICS then Some handle_get_port_statistics else
  if type =? VSPD_MSG_CLEAR_PORT_STATISTICS then Some handle_clear_port_statistics else
  if type =? VSPD_MSG_SUBSCRIBE_PORT then Some handle_subscribe_port else
  if type =? VSPD_MSG_UNSUBSCRIBE_PORT then Some handle_unsubscribe_port else
  None.

Definition vspwd_handle_request (server : vspwd_server) (client_index : Z) (frame : list Z)
    (frame_size : Z) : bool * vspwd_server :=
  let client := client_at server client_index in
  if c_response_pending client then (false, server) else
  match vspd_validate_frame (Some frame) frame_size (Some header_zero) with
  | (result, Some header) =>
      if negb (result =? VSPD_CODEC_OK) then (false, server) else
      if vspd_flag header VSPD_FLAG_RESPONSE ||
         (v_type header =? VSPD_MSG_DATA_RX) || (v_type header =? VSPD_MSG_TIME_CODE_RX) ||
         (v_type header =? VSPD_MSG_LINK_STATE_EVENT) ||
         (v_type header =? VSPD_MSG_PORT_SNAPSHOT_EVENT)
      then (false, server) else
      let payload :=
        if v_payload_size header =? 0 then None
        else Some (drop (Z.to_nat VSPD_HEADER_SIZE) frame) in
      if negb (c_hello_done client) && negb (v_type header =? VSPD_MSG_HELLO)
      then (false, server) else
      match handler_of (v_type header) with
      | Some f => f server client_index header payload
      | None => (false, server)
      end
  | (_, None) => (false, server)
  end.
End server.

Arguments vspwd_server : clear implicits.
Arguments vspwd_udp_bridge : clear implicits.
