(* ===== verification/ServerLoop.v ===== *)
(** * The vspwd server: sockets, events and the main loop

    The functions of src/src/vspwd/server.c that call the operating system.
    [W] is the state of the world outside the process and [os_ops] the calls the
    server makes; nothing is assumed about what they return.  errno is part of
    the world, read with [os_errno] as the code reads it after a failed send. *)

From S2P Require Import Prelude Types Ring Backend Loopback DriverApi PortConfig Port Vspd.
From S2P Require Import Posix Server.

Record os_ops (W : Type) := {
  (** send(fd, data, size, MSG_DONTWAIT | MSG_NOSIGNAL) *)
  os_send : Z -> list Z -> W -> Z * W;
  (** recvmsg(fd, &message, MSG_DONTWAIT | MSG_TRUNC) into a buffer of the given
      size: the return value, the bytes stored, and MSG_TRUNC in msg_flags *)
  os_recvmsg : Z -> Z -> W -> Z * list Z * bool * W;
  (** accept4(listener, NULL, NULL, SOCK_NONBLOCK | SOCK_CLOEXEC) *)
  os_accept4 : Z -> W -> Z * W;
  os_close : Z -> W -> W;
  (** poll(descriptors, count, timeout): the return value and the revents *)
  os_poll : list (Z * Z) -> Z -> W -> Z * list Z * W;
  os_errno : W -> Z;
  (** the flag the signal handler sets *)
  os_stop_requested : W -> bool;
  (** unlink(path) *)
  os_unlink : list Z -> W -> W;
  (** socket(AF_UNIX, SOCK_SEQPACKET | SOCK_NONBLOCK | SOCK_CLOEXEC, 0) *)
  os_socket : W -> Z * W;
  (** bind(fd, path), chmod(path, S_IRUSR | S_IWUSR), listen(fd, backlog) *)
  os_bind : Z -> list Z -> W -> Z * W;
  os_chmod : list Z -> W -> Z * W;
  os_listen : Z -> Z -> W -> Z * W;
  (** whether calloc has memory for the server structure *)
  os_calloc : W -> bool;
  (** install the signal handlers and clear the stop flag *)
  os_install_signals : W -> W
}.
Arguments os_send {W} _ _ _ _.
Arguments os_recvmsg {W} _ _ _ _.
Arguments os_accept4 {W} _ _ _.
Arguments os_close {W} _ _ _.
Arguments os_poll {W} _ _ _ _.
Arguments os_errno {W} _ _.
Arguments os_stop_requested {W} _ _.
Arguments os_unlink {W} _ _ _.
Arguments os_socket {W} _ _.
Arguments os_bind {W} _ _ _ _.
Arguments os_chmod {W} _ _ _.
Arguments os_listen {W} _ _ _ _.
Arguments os_calloc {W} _ _.
Arguments os_install_signals {W} _ _.

Section loop.
Context {B W : Type} (os : os_ops W).
Abbreviation server := (vspwd_server B).

(** The states of the server and of the world. *)
Abbreviation state := (server * W)%type.

Definition vspwd_send_record (fd : Z) (data : list Z) (w : W) : bool * W :=
  let '(sent, w) := os_send os fd data w in
  (sent =? Z.of_nat (length data), w).

Definition vspwd_flush_response (s : server) (client_index : Z) (w : W) : bool * state :=
  let client := client_at s client_index in
  if negb (c_response_pending client) then (true, (s, w)) else
  let '(ok, w) :=
    vspwd_send_record (c_fd client)
      (mem_read (c_response client) 0 (Z.to_nat (c_response_size client))) w in
  if negb ok then (false, (s, w)) else
  (true,
   (upd_client client_index
      (fun c => set_c_response_size 0 (set_c_response_pending false c)) s, w)).

(** ** Events *)

(** The header every event starts from: memset to zero and the common fields. *)
Definition event_header (type flags payload_size port_id message_id fragment_offset
    total_size : Z) : vspd_header :=
  {| v_magic := VSPD_MAGIC; v_version_major := VSPD_VERSION_MAJOR;
     v_version_minor := VSPD_VERSION_MINOR; v_type := type; v_flags := flags;
     v_header_size := VSPD_HEADER_SIZE; v_reserved := 0; v_payload_size := payload_size;
     v_request_id := 0; v_port_id := port_id; v_message_id := message_id;
     v_fragment_offset := fragment_offset; v_total_size := total_size; v_status := 0 |}.

(** Encode the header and the payload into a frame on the stack, and send it. *)
Definition send_event (fd : Z) (header : vspd_header) (payload : list Z) (w : W) : bool * W :=
  let '(result, frame) := vspd_encode_header header [] in
  if negb (result =? VSPD_CODEC_OK) then (false, w) else
  vspwd_send_record fd (mem_write frame (Z.to_nat VSPD_HEADER_SIZE) payload) w.

Definition vspwd_flush_state_event (s : server) (client_index : Z) (w : W) : bool * state :=
  let client := client_at s client_index in
  let port_id := c_port_id client in
  if port_id <? 0 then (true, (s, w)) else
  let port := port_at s port_id in
  if negb (p_state_event_pending port) then (true, (s, w)) else
  let header :=
    event_header VSPD_MSG_LINK_STATE_EVENT 0 VSPD_LINK_STATE_PAYLOAD_SIZE (u32 port_id) 0 0 0 in
  let '(ok, w) :=
    send_event (c_fd client) header (vspd_encode_u32_payload (p_state port) []) w in
  if negb ok then (false, (s, w)) else
  (true, (upd_port port_id (set_p_state_event_pending false) s, w)).

Definition set_ps_offset (offset : Z) (slot : vspwd_packet_slot) : vspwd_packet_slot :=
  {| ps_data := ps_data slot; ps_length := ps_length slot; ps_offset := offset;
     ps_message_id := ps_message_id slot; ps_terminator := ps_terminator slot |}.

Definition slot_chunk (slot : vspwd_packet_slot) : Z :=
  let remaining := u32 (ps_length slot - ps_offset slot) in
  if VSPD_MAX_FRAME_PAYLOAD <? remaining then VSPD_MAX_FRAME_PAYLOAD else remaining.

Definition slot_final (slot : vspwd_packet_slot) : bool :=
  (ps_length slot =? 0) || (u32 (ps_offset slot + slot_chunk slot) =? ps_length slot).

Definition packet_event_header (port_id : Z) (slot : vspwd_packet_slot) : vspd_header :=
  let flags := flag_if (ps_offset slot =? 0) VSPD_FLAG_FRAGMENT_START 0 in
  let flags :=
    if slot_final slot then
      flags .| VSPD_FLAG_FRAGMENT_END .|
      (if ps_terminator slot =? SPW_TERMINATOR_EEP then VSPD_FLAG_EEP else VSPD_FLAG_EOP)
    else flags in
  event_header VSPD_MSG_DATA_RX flags (slot_chunk slot) (u32 port_id) (ps_message_id slot)
    (ps_offset slot) (ps_length slot).

Definition vspwd_flush_packet_event (s : server) (client_index : Z) (w : W) : bool * state :=
  let client := client_at s client_index in
  let port_id := c_port_id client in
  if port_id <? 0 then (true, (s, w)) else
  let port := port_at s port_id in
  let queue := p_packets port in
  if (r_count queue =? 0)%nat then (true, (s, w)) else
  let slot := ring_front queue in
  let chunk := slot_chunk slot in
  let '(ok, w) :=
    send_event (c_fd client) (packet_event_header port_id slot)
      (mem_read (ps_data slot) (Z.to_nat (ps_offset slot)) (Z.to_nat chunk)) w in
  if negb ok then (false, (s, w)) else
  if negb (slot_final slot) then
    let moved := set_ps_offset (u32 (ps_offset slot + chunk)) slot in
    (true,
     (upd_port port_id (set_p_packets (ring_set_front queue moved)) s, w))
  else
    let s :=
      upd_port port_id
        (fun p => set_p_packets (ring_pop (p_packets p))
           (set_p_statistics (count_rx_packet (ps_length slot) (p_statistics p)) p)) s in
    (true, (vspwd_mark_port_changed s port_id, w)).

Definition vspwd_flush_time_code_event (s : server) (client_index : Z) (w : W)
    : bool * state :=
  let client := client_at s client_index in
  let port_id := c_port_id client in
  if port_id <? 0 then (true, (s, w)) else
  let port := port_at s port_id in
  if (r_count (p_time_codes port) =? 0)%nat then (true, (s, w)) else
  let time_code := ring_front (p_time_codes port) in
  let header :=
    event_header VSPD_MSG_TIME_CODE_RX 0 VSPD_TIME_CODE_PAYLOAD_SIZE (u32 port_id) 0 0 0 in
  let '(ok, w) :=
    send_event (c_fd client) header [time_count time_code; control_flags time_code] w in
  if negb ok then (false, (s, w)) else
  let s :=
    upd_port port_id
      (fun p => set_p_statistics (count_rx_time_code (p_statistics p))
         (set_p_time_codes (ring_pop (p_time_codes p)) p)) s in
  (true, (vspwd_mark_port_changed s port_id, w)).

(** The loop over the ports: the first pending one is sent. *)
Fixpoint flush_monitor_ports (s : server) (client_index : Z) (w : W) (port_ids : list Z)
    : bool * state :=
  match port_ids with
  | [] => (true, (s, w))
  | port_id :: port_ids =>
      let client := client_at s client_index in
      let bit := u32 (1 ≪ port_id) in
      if negb (c_monitor_pending_mask client .& bit =? 0) then
        let header :=
          event_header VSPD_MSG_PORT_SNAPSHOT_EVENT 0 VSPD_PORT_SNAPSHOT_PAYLOAD_SIZE
            port_id 0 0 0 in
        let snapshot := vspwd_port_snapshot_to_wire (port_at s port_id) in
        let '(ok, w) :=
          send_event (c_fd client) header (vspd_encode_port_snapshot snapshot []) w in
        if negb ok then (false, (s, w)) else
        (true,
         (upd_client client_index
            (fun c => set_c_monitor_pending_mask
               (c_monitor_pending_mask c .& u32 (Z.lnot bit)) c) s, w))
      else flush_monitor_ports s client_index w port_ids
  end.

Definition vspwd_flush_monitor_event (s : server) (client_index : Z) (w : W) : bool * state :=
  let client := client_at s client_index in
  if (0 <=? c_port_id client) || (c_monitor_pending_mask client =? 0)
  then (true, (s, w)) else
  flush_monitor_ports s client_index w (seqZ 0 VSPWD_PORT_COUNT).

Definition vspwd_client_has_output (s : server) (client_index : Z) : bool :=
  let client := client_at s client_index in
  if c_response_pending client then true else
  if c_port_id client <? 0 then negb (c_monitor_pending_mask client =? 0) else
  let port := port_at s (c_port_id client) in
  p_state_event_pending port || negb (r_count (p_packets port) =? 0)%nat ||
  negb (r_count (p_time_codes port) =? 0)%nat.

Definition vspwd_flush_client (s : server) (client_index : Z) (w : W) : bool * state :=
  let client := client_at s client_index in
  if c_response_pending client then vspwd_flush_response s client_index w else
  if c_port_id client <? 0 then vspwd_flush_monitor_event s client_index w else
  let '(ok, (s, w)) := vspwd_flush_state_event s client_index w in
  if negb ok then (false, (s, w)) else
  let port_id := c_port_id (client_at s client_index) in
  if (0 <=? port_id) && p_state_event_pending (port_at s port_id) then (true, (s, w)) else
  let '(ok, (s, w)) := vspwd_flush_packet_event s client_index w in
  if negb ok then (false, (s, w)) else
  vspwd_flush_time_code_event s client_index w.

(** ** Input *)

(** -1 closes the client, 0 means there was nothing to read. *)
Definition vspwd_receive_one (s : server) (client_index : Z) (w : W) : Z * state :=
  let '(received, frame, truncated, w) :=
    os_recvmsg os (c_fd (client_at s client_index)) VSPWD_FRAME_MAX w in
  if received =? 0 then (-1, (s, w)) else
  if received <? 0 then
    if (os_errno os w =? EAGAIN) || (os_errno os w =? EWOULDBLOCK)
    then (0, (s, w)) else (-1, (s, w))
  else
  if truncated || (VSPWD_FRAME_MAX <? received) then (-1, (s, w)) else
  let '(ok, s) := vspwd_handle_request s client_index frame received in
  (if ok then 1 else -1, (s, w)).

Definition vspwd_close_client (s : server) (client_index : Z) (w : W) : state :=
  let fd := c_fd (client_at s client_index) in
  (forget_client s client_index, if 0 <=? fd then os_close os fd w else w).

(** The first free entry of the client table. *)
Definition free_client (s : server) : option Z :=
  (fun p => Z.of_nat p.1) <$> list_find (fun c => c_fd c < 0) (s_clients s).

(** The loop ends when accept4 fails; [fuel] bounds the number of connections
    accepted in one call. *)
Fixpoint vspwd_accept_clients (fuel : nat) (s : server) (w : W) : state :=
  match fuel with
  | O => (s, w)
  | S fuel =>
      let '(fd, w) := os_accept4 os (s_listener_fd s) w in
      if fd <? 0 then (s, w) else
      match free_client s with
      | Some i =>
          vspwd_accept_clients fuel
            (upd_client i (fun _ => set_c_port_id (-1) (set_c_fd fd client_zero)) s) w
      | None => vspwd_accept_clients fuel s (os_close os fd w)
      end
  end.

(** ** The main loop *)

(** The clients polled, in order, and their poll entries. *)
Definition polled_clients (s : server) : list Z :=
  filter (fun i => 0 <= c_fd (client_at s i)) (seqZ 0 VSPWD_CLIENT_COUNT).

Definition poll_entry (s : server) (i : Z) : Z * Z :=
  (c_fd (client_at s i), if vspwd_client_has_output s i then POLLIN .| POLLOUT else POLLIN).

(** What the loop does for one polled client. *)
Definition service_client (s : server) (w : W) (client_index revents : Z) : state :=
  if c_fd (client_at s client_index) <? 0 then (s, w) else
  let close := negb (revents .& (POLLERR .| POLLHUP .| POLLNVAL) =? 0) in
  let '(close, (s, w)) :=
    if negb close && negb (revents .& POLLIN =? 0) then
      let '(r, (s, w)) := vspwd_receive_one s client_index w in (r <? 0, (s, w))
    else (close, (s, w)) in
  let '(close, (s, w)) :=
    if negb close && negb (revents .& POLLOUT =? 0) then
      let '(ok, (s, w)) := vspwd_flush_client s client_index w in
      (negb ok && negb (os_errno os w =? EAGAIN) && negb (os_errno os w =? EWOULDBLOCK),
       (s, w))
    else (close, (s, w)) in
  if close then vspwd_close_client s client_index w else (s, w).

Fixpoint service_clients (s : server) (w : W) (polled : list (Z * Z)) : state :=
  match polled with
  | [] => (s, w)
  | (client_index, revents) :: polled =>
      let '(s, w) := service_client s w client_index revents in
      service_clients s w polled
  end.

(** One iteration; the first component is the result to leave the loop with. *)
Definition vspwd_iteration (accept_fuel : nat) (s : server) (w : W) : option Z * state :=
  let s := vspwd_service_bridge s in
  let clients := polled_clients s in
  let descriptors := (s_listener_fd s, POLLIN) :: (poll_entry s <$> clients) in
  let '(poll_result, revents, w) :=
    os_poll os descriptors (if b_enabled (s_bridge s) then 10 else 100) w in
  if poll_result <? 0 then
    if os_errno os w =? EINTR then (None, (s, w)) else (Some 1, (s, w))
  else
  if poll_result =? 0 then (None, (s, w)) else
  let '(s, w) :=
    if negb (mem_get revents 0 .& POLLIN =? 0) then vspwd_accept_clients accept_fuel s w
    else (s, w) in
  (None, service_clients s w (zip clients (mem_read revents 1 (length clients)))).

(** The while loop of [vspwd_run_config] for at most [fuel] iterations. *)
Fixpoint vspwd_loop (fuel accept_fuel : nat) (s : server) (w : W) : option Z * state :=
  match fuel with
  | O => (None, (s, w))
  | S fuel =>
      if os_stop_requested os w then (Some 0, (s, w)) else
      match vspwd_iteration accept_fuel s w with
      | (Some result, (s, w)) => (Some result, (s, w))
      | (None, (s, w)) => vspwd_loop fuel accept_fuel s w
      end
  end.

(** ** Starting and stopping *)

(** sizeof(sun_path) on Linux. *)
Definition SUN_PATH_SIZE : Z := 108.

Definition set_listener (fd : Z) (path : list Z) (s : server) : server :=
  {| s_listener_fd := fd; s_socket_path := path; s_clients := s_clients s;
     s_ports := s_ports s; s_bridge := s_bridge s |}.

(** A C string is the list of its characters before the NUL. *)
Definition vspwd_open_listener (s : server) (socket_path : option (list Z)) (w : W)
    : Z * state :=
  match socket_path with
  | None | Some [] => (-1, (s, w))
  | Some path =>
      if SUN_PATH_SIZE <=? Z.of_nat (length path) then (-1, (s, w)) else
      let '(fd, w) := os_socket os w in
      let s := set_listener fd (s_socket_path s) s in
      if fd <? 0 then (-1, (s, w)) else
      let s := set_listener fd path s in
      let w := os_unlink os path w in
      let '(r, w) := os_bind os fd path w in
      if negb (r =? 0) then (-1, (s, w)) else
      let '(r, w) := os_chmod os path w in
      if negb (r =? 0) then (-1, (s, w)) else
      let '(r, w) := os_listen os fd VSPWD_CLIENT_COUNT w in
      if negb (r =? 0) then (-1, (s, w)) else
      (0, (s, w))
  end.

(** The descriptors closed and the path removed; closing the UDP port gives its
    backend context back to the backend. *)
Definition vspwd_cleanup (s : server) (w : W) : W :=
  let w := fold_left (fun w c => if 0 <=? c_fd c then os_close os (c_fd c) w else w)
             (s_clients s) w in
  let w := if 0 <=? s_listener_fd s then os_close os (s_listener_fd s) w else w in
  match s_socket_path s with [] => w | path => os_unlink os path w end.

Section run.
Context {P : Type} (A : abi) (Bd : build) (factories : factory_id -> spw_backend_factory P B)
  (aligned_alloc : Z -> Z -> option Z).

(** [bc_udp] is the storage of the UDP configuration. *)
Record vspwd_udp_bridge_config := {
  bc_enabled : bool;
  bc_port_id : Z;
  bc_udp : config_memory P
}.

Record vspwd_config := {
  vc_socket_path : option (list Z);
  vc_udp_bridge : vspwd_udp_bridge_config
}.

Definition udp_port_config (config : vspwd_udp_bridge_config) : spw_port_config P :=
  {| cfg_struct_size := sizeof_port_config A; cfg_version := SPW_PORT_CONFIG_VERSION;
     cfg_backend := SPW_BACKEND_UDP; cfg_flags := 0;
     cfg_backend_config := Some (bc_udp config);
     cfg_backend_config_size := sizeof_udp_config A |}.

(** The port as the bridge takes it over. *)
Definition bridged_port (port : vspwd_port) : vspwd_port :=
  set_p_next_message_id 1
    (set_p_state SPW_LINK_CONNECTING
      (set_p_reset_latched false (set_p_started true (set_p_bridged true port)))).

Definition vspwd_open_bridge (s : server) (config : vspwd_udp_bridge_config) : Z * server :=
  if negb (bc_enabled config) then (0, s) else
  if VSPWD_PORT_COUNT <=? bc_port_id config then (-1, s) else
  let '(result, udp, _) :=
    spw_port_open A Bd factories aligned_alloc (Some (udp_port_config config)) in
  let s := set_udp_port udp s in
  if negb (result =? SPW_OK) || negb (non_null udp) then (-1, s) else
  let '(result, udp) := spw_port_start udp in
  if negb (result =? SPW_OK) then (-1, set_udp_port None s) else
  let id := bc_port_id config in
  let s :=
    upd_bridge
      (fun b => set_b_state SPW_LINK_CONNECTING (set_b_port_id id (set_b_enabled true b)))
      (set_udp_port udp s) in
  (0, vspwd_bridge_refresh_state (upd_port id bridged_port s)).

(** The whole program for at most [fuel] iterations: the exit status once it
    ends, and the world it leaves. *)
Definition vspwd_run_config (fuel accept_fuel : nat) (config : option vspwd_config) (w : W)
    : option Z * W :=
  match config with
  | Some config =>
      if negb (non_null (vc_socket_path config)) then (Some 1, w) else
      if negb (os_calloc os w) then (Some 1, w) else
      let '(r, s) := vspwd_open_bridge vspwd_init_server (vc_udp_bridge config) in
      if negb (r =? 0) then (Some 1, vspwd_cleanup s w) else
      let '(r, (s, w)) := vspwd_open_listener s (vc_socket_path config) w in
      if negb (r =? 0) then (Some 1, vspwd_cleanup s w) else
      let w := os_install_signals os w in
      match vspwd_loop fuel accept_fuel s w with
      | (Some result, (s, w)) => (Some result, vspwd_cleanup s w)
      | (None, (_, w)) => (None, w)
      end
  | None => (Some 1, w)
  end.
End run.
End loop.
