(* ===== verification/ServerInv.v ===== *)
(** * The vspwd server: invariants

    The well-formedness of the server state, the lemmas that frame it over the
    field updates of [Server], and its preservation by the link-state, data-path
    and bridge functions.  The bridge's backend is any that keeps the promise
    [BackendOutputs]. *)

From S2P Require Import Prelude Types Ring Backend Loopback DriverApi PortConfig Port PortClient Vspd.
From S2P Require Import Server.

Ltac slia := unfold VSPWD_PORT_COUNT, VSPWD_CLIENT_COUNT in *; lia.

(** ** Local well-formedness *)

(** Packet storage stays inside its array. *)
Definition storage_ok (m : list Z) : Prop :=
  bytes_ok m /\ Z.of_nat (length m) <= VSPD_MAX_LOGICAL_PACKET.

(** A queued packet: within the limit, numbered, and not sent to its end. *)
Definition queued_ok (slot : vspwd_packet_slot) : Prop :=
  0 <= ps_offset slot /\ ps_length slot <= VSPD_MAX_LOGICAL_PACKET /\
  (ps_offset slot < ps_length slot \/ (ps_offset slot = 0 /\ ps_length slot = 0)) /\
  0 < ps_message_id slot < 2 ^ 32.

Ltac state_lia :=
  try unfold link_state_ok in *;
  unfold SPW_LINK_ERROR_RESET, SPW_LINK_ERROR_WAIT, SPW_LINK_READY, SPW_LINK_STARTED,
    SPW_LINK_CONNECTING, SPW_LINK_RUN in *; lia.

Definition packets_wf (q : ring vspwd_packet_slot) : Prop :=
  ring_wf VSPWD_PACKET_QUEUE_DEPTH q /\ Forall (fun sl => storage_ok (ps_data sl)) (r_slots q) /\
  Forall queued_ok (ring_list q) /\
  Forall (fun sl => ps_offset sl = 0) (tail (ring_list q)).

Definition time_codes_wf (q : ring spw_time_code) : Prop :=
  ring_wf VSPWD_TIME_CODE_QUEUE_DEPTH q /\ Forall time_code_ok (ring_list q).

Definition port_wf (p : vspwd_port) : Prop :=
  packets_wf (p_packets p) /\ time_codes_wf (p_time_codes p) /\ link_state_ok (p_state p) /\
  0 < p_next_message_id p < 2 ^ 32.

(** A stored response is a record the client's decoder accepts. *)
Definition response_ok (response : list Z) (size : Z) : Prop :=
  exists h payload, valid_record h payload /\ vspd_flag h VSPD_FLAG_RESPONSE = true /\
    size = VSPD_HEADER_SIZE + v_payload_size h /\
    mem_read response 0 (Z.to_nat size) = vspd_header_bytes h ++ payload.

Definition reassembly_wf (r : vspwd_reassembly) : Prop :=
  storage_ok (ra_data r) /\
  (ra_active r = true ->
   0 <= ra_next_offset r <= ra_total_size r /\ ra_total_size r <= VSPD_MAX_LOGICAL_PACKET).

Definition client_wf (c : vspwd_client) : Prop :=
  (c_response_pending c = true -> response_ok (c_response c) (c_response_size c)) /\
  Z.of_nat (length (c_response c)) <= VSPWD_RESPONSE_MAX /\
  reassembly_wf (c_reassembly c).

(** ** The server *)

Section inv.
Context {B : Type} (o : spw_backend_ops B) (Inv : B -> Prop) `{!BackendOutputs o Inv}.
Implicit Types (s : vspwd_server B).

(** The bridge's port, if any, runs the backend [o] in a good state. *)
Abbreviation port_runs := (port_runs o Inv).

Definition bridge_wf s : Prop :=
  let b := s_bridge s in
  port_runs (b_udp_port b) /\ storage_ok (b_rx_packet b) /\ link_state_ok (b_state b) /\
  (forall id, 0 <= id < VSPWD_PORT_COUNT ->
     p_bridged (port_at s id) = b_enabled b && (b_port_id b =? id)) /\
  (b_enabled b = true ->
     0 <= b_port_id b < VSPWD_PORT_COUNT /\ p_client_index (port_at s (b_port_id b)) = -1 /\
     p_state (port_at s (b_port_id b)) = b_state b).

(** A client and a port refer to each other or not at all. *)
Definition linked s : Prop :=
  forall i id, 0 <= i < VSPWD_CLIENT_COUNT -> 0 <= id < VSPWD_PORT_COUNT ->
    c_port_id (client_at s i) = id <-> p_client_index (port_at s id) = i.

Record server_wf s : Prop := {
  sw_clients : length (s_clients s) = 4%nat;
  sw_ports : length (s_ports s) = 2%nat;
  sw_client : forall i, 0 <= i < VSPWD_CLIENT_COUNT -> client_wf (client_at s i);
  sw_port : forall id, 0 <= id < VSPWD_PORT_COUNT -> port_wf (port_at s id);
  sw_port_id : forall i, 0 <= i < VSPWD_CLIENT_COUNT ->
    -1 <= c_port_id (client_at s i) < VSPWD_PORT_COUNT;
  sw_client_index : forall id, 0 <= id < VSPWD_PORT_COUNT ->
    -1 <= p_client_index (port_at s id) < VSPWD_CLIENT_COUNT;
  sw_owner : forall i, 0 <= i < VSPWD_CLIENT_COUNT -> 0 <= c_port_id (client_at s i) ->
    c_hello_done (client_at s i) = true /\ 0 <= c_fd (client_at s i);
  sw_linked : linked s;
  sw_bridge : bridge_wf s
}.

(** The state a port must be in. *)
Definition expected_state s (id : Z) : Z :=
  if (p_client_index (port_at s id) <? 0) && negb (p_bridged (port_at s id))
  then SPW_LINK_ERROR_RESET else vspwd_calculate_state s id.

Definition states_current s : Prop :=
  forall id, 0 <= id < VSPWD_PORT_COUNT -> p_state (port_at s id) = expected_state s id.

Definition server_ok s : Prop := server_wf s /\ states_current s.

(** ** Reading after an update *)

Lemma port_at_upd s id f id' : length (s_ports s) = 2%nat ->
  0 <= id < VSPWD_PORT_COUNT -> 0 <= id' ->
  port_at (upd_port id f s) id' = if id' =? id then f (port_at s id) else port_at s id'.
Proof.
  intros Hl Hid Hid'. unfold port_at, upd_port. cbn [s_ports set_s_ports]. case_if.
  - replace id' with id by lia. rewrite list_lookup_total_insert_eq by slia. done.
  - rewrite list_lookup_total_insert_ne by lia. done.
Qed.

Lemma client_at_upd s i f i' : length (s_clients s) = 4%nat ->
  0 <= i < VSPWD_CLIENT_COUNT -> 0 <= i' ->
  client_at (upd_client i f s) i' = if i' =? i then f (client_at s i) else client_at s i'.
Proof.
  intros Hl Hid Hid'. unfold client_at, upd_client. cbn [s_clients set_s_clients]. case_if.
  - replace i' with i by lia. rewrite list_lookup_total_insert_eq by slia. done.
  - rewrite list_lookup_total_insert_ne by lia. done.
Qed.

Lemma client_at_mark s id i : 0 <= i < VSPWD_CLIENT_COUNT -> length (s_clients s) = 4%nat ->
  exists m, client_at (vspwd_mark_port_changed s id) i =
            set_c_monitor_pending_mask m (client_at s i).
Proof.
  intros Hi Hl. unfold vspwd_mark_port_changed.
  assert (exists m, client_at s i = set_c_monitor_pending_mask m (client_at s i)) as Hid.
  { exists (c_monitor_pending_mask (client_at s i)). by destruct (client_at s i). }
  case_if; [done|]. unfold client_at. cbn [s_clients set_s_clients].
  rewrite (@list_lookup_total_fmap _ _ _ vspwd_client_inhabited) by slia.
  case_if; [eauto|exact Hid].
Qed.

Lemma port_at_mark s id id' : port_at (vspwd_mark_port_changed s id) id' = port_at s id'.
Proof. unfold vspwd_mark_port_changed. by case_if. Qed.

Lemma bridge_mark s id : s_bridge (vspwd_mark_port_changed s id) = s_bridge s.
Proof. unfold vspwd_mark_port_changed. by case_if. Qed.

Lemma length_clients_mark s id :
  length (s_clients (vspwd_mark_port_changed s id)) = length (s_clients s).
Proof. unfold vspwd_mark_port_changed. case_if; [done|]. apply length_fmap. Qed.

Lemma length_ports_upd s id f : length (s_ports (upd_port id f s)) = length (s_ports s).
Proof. apply length_insert. Qed.

Lemma length_clients_upd s i f : length (s_clients (upd_client i f s)) = length (s_clients s).
Proof. apply length_insert. Qed.


(** ** Framing well-formedness *)

(** Two servers that differ only in what the monitors still have to be told. *)
Record same_but_pending s s' : Prop := {
  sp_ports : s_ports s' = s_ports s;
  sp_bridge : s_bridge s' = s_bridge s;
  sp_length : length (s_clients s') = length (s_clients s);
  sp_client : forall i, 0 <= i < VSPWD_CLIENT_COUNT ->
    exists m, client_at s' i = set_c_monitor_pending_mask m (client_at s i)
}.

Lemma mark_pending s id : length (s_clients s) = 4%nat ->
  same_but_pending s (vspwd_mark_port_changed s id).
Proof.
  intros Hl. constructor.
  - unfold vspwd_mark_port_changed. by case_if.
  - apply bridge_mark.
  - apply length_clients_mark.
  - intros. by apply client_at_mark.
Qed.

Lemma pending_wf s s' : same_but_pending s s' -> server_wf s -> server_wf s'.
Proof.
  intros [Ep Eb Hl' Hm] [Hlc Hlp Hc Hp Hci Hpi Ho Hl Hb].
  assert (forall id, port_at s' id = port_at s id) as Hat by (intros; unfold port_at; by rewrite Ep).
  constructor.
  - by rewrite Hl'.
  - by rewrite Ep.
  - intros i Hi. destruct (Hm i Hi) as [m ->]. by apply Hc.
  - intros id Hid. rewrite Hat. by apply Hp.
  - intros i Hi. destruct (Hm i Hi) as [m ->]. by apply Hci.
  - intros id Hid. rewrite Hat. by apply Hpi.
  - intros i Hi. destruct (Hm i Hi) as [m ->]. by apply Ho.
  - intros i id Hi Hid. rewrite Hat. destruct (Hm i Hi) as [m ->]. by apply Hl.
  - unfold bridge_wf. rewrite Eb. setoid_rewrite Hat. exact Hb.
Qed.

Lemma mark_wf s id : server_wf s -> server_wf (vspwd_mark_port_changed s id).
Proof. intros Hw. apply (pending_wf s); [|done]. apply mark_pending, Hw. Qed.

Lemma upd_port_wf s id f : server_wf s -> 0 <= id < VSPWD_PORT_COUNT ->
  let p := port_at s id in
  port_wf (f p) -> p_client_index (f p) = p_client_index p -> p_bridged (f p) = p_bridged p ->
  (p_bridged p = true -> p_state (f p) = p_state p) ->
  server_wf (upd_port id f s).
Proof.
  cbn zeta. intros [Hlc Hlp Hc Hp Hci Hpi Ho Hl Hb] Hid Hf Hfi Hfb Hfs.
  assert (forall id', 0 <= id' -> port_at (upd_port id f s) id' =
    if id' =? id then f (port_at s id) else port_at s id') as Hat.
  { intros. by apply port_at_upd. }
  constructor; try done.
  - by rewrite length_ports_upd.
  - intros id' Hid'. rewrite Hat by lia. case_if; [done|]. by apply Hp.
  - intros id' Hid'. rewrite Hat by lia. case_if; [rewrite Hfi|]; by apply Hpi.
  - intros i id' Hi Hid'. rewrite Hat by lia. case_if; [rewrite Hfi|by apply Hl].
    replace id' with id by lia. by apply Hl.
  - destruct Hb as (Hu & Hrx & Hst & Hbr & Hen). unfold bridge_wf.
    cbn [upd_port set_s_ports s_bridge]. split; [done|]. split; [done|]. split; [done|].
    split.
    + intros id' Hid'. rewrite Hat by lia. case_if; [|by apply Hbr].
      rewrite Hfb. replace id' with id by lia. by apply Hbr.
    + intros He. destruct (Hen He) as (Hr & Hi & Hs). split; [done|].
      rewrite Hat by lia. case_if; [|done]. replace (b_port_id (s_bridge s)) with id in * by lia.
      rewrite Hfi, Hfs; [done|]. rewrite Hbr by done. rewrite He. lia.
Qed.

Lemma upd_client_wf s i f : server_wf s -> 0 <= i < VSPWD_CLIENT_COUNT ->
  let c := client_at s i in
  client_wf (f c) -> c_port_id (f c) = c_port_id c ->
  (0 <= c_port_id c -> c_hello_done (f c) = c_hello_done c /\ c_fd (f c) = c_fd c) ->
  server_wf (upd_client i f s).
Proof.
  cbn zeta. intros [Hlc Hlp Hc Hp Hci Hpi Ho Hl Hb] Hi Hf Hfp Hff.
  assert (forall i', 0 <= i' -> client_at (upd_client i f s) i' =
    if i' =? i then f (client_at s i) else client_at s i') as Hat.
  { intros. by apply client_at_upd. }
  constructor; try done.
  - by rewrite length_clients_upd.
  - intros i' Hi'. rewrite Hat by lia. case_if; [done|]. by apply Hc.
  - intros i' Hi'. rewrite Hat by lia. case_if; [rewrite Hfp|]; by apply Hci.
  - intros i' Hi'. rewrite Hat by lia. case_if; [rewrite Hfp|by apply Ho].
    intros Hpos. destruct (Hff Hpos) as [-> ->]. by apply Ho.
  - intros i' id Hi' Hid. rewrite Hat by lia. case_if; [rewrite Hfp|by apply Hl].
    replace i' with i by lia. by apply Hl.
Qed.

(** What the link states depend on. *)
Definition link_view (p : vspwd_port) : Z * bool * bool * bool * bool * Z :=
  (p_client_index p, p_started p, p_reset_latched p, p_ever_attached p, p_bridged p, p_state p).

Lemma peer_range id : 0 <= vspwd_peer_port id < VSPWD_PORT_COUNT.
Proof. unfold vspwd_peer_port. case_if; slia. Qed.

Lemma calculate_state_ext s s' id : 0 <= id < VSPWD_PORT_COUNT ->
  (forall id, 0 <= id < VSPWD_PORT_COUNT -> link_view (port_at s' id) = link_view (port_at s id)) ->
  b_state (s_bridge s') = b_state (s_bridge s) ->
  vspwd_calculate_state s' id = vspwd_calculate_state s id /\
  expected_state s' id = expected_state s id.
Proof.
  intros Hid Hv Hb. pose proof (Hv id Hid) as H1.
  pose proof (Hv (vspwd_peer_port id) (peer_range id)) as H2. unfold link_view in *.
  injection H1 as E1 E2 E3 E4 E5 E6. injection H2 as F1 F2 F3 F4 F5 F6.
  unfold expected_state, vspwd_calculate_state.
  by rewrite E1, E2, E3, E5, F1, F2, F3, F4, F5, F6, Hb.
Qed.

Lemma states_current_ext s s' : states_current s ->
  (forall id, 0 <= id < VSPWD_PORT_COUNT -> link_view (port_at s' id) = link_view (port_at s id)) ->
  b_state (s_bridge s') = b_state (s_bridge s) -> states_current s'.
Proof.
  intros Hs Hv Hb id Hid. destruct (calculate_state_ext s s' id Hid Hv Hb) as [_ ->].
  rewrite <- Hs by done. pose proof (Hv id Hid) as H. unfold link_view in H.
  injection H as _ _ _ _ _ ->. done.
Qed.

Lemma upd_port_ok s id f : server_ok s -> 0 <= id < VSPWD_PORT_COUNT ->
  port_wf (f (port_at s id)) -> link_view (f (port_at s id)) = link_view (port_at s id) ->
  server_ok (upd_port id f s).
Proof.
  intros [Hw Hs] Hid Hf Hv. pose proof Hv as Hv'. unfold link_view in Hv'.
  injection Hv' as E1 E2 E3 E4 E5 E6. split.
  - by apply upd_port_wf.
  - apply (states_current_ext s); [done| |done]. intros id' Hid'.
    rewrite port_at_upd by (try apply Hw; lia || done). case_if; [|done].
    rewrite Hv. by replace id' with id by lia.
Qed.

Lemma upd_client_ok s i f : server_ok s -> 0 <= i < VSPWD_CLIENT_COUNT ->
  client_wf (f (client_at s i)) -> c_port_id (f (client_at s i)) = c_port_id (client_at s i) ->
  (0 <= c_port_id (client_at s i) ->
   c_hello_done (f (client_at s i)) = c_hello_done (client_at s i) /\
   c_fd (f (client_at s i)) = c_fd (client_at s i)) ->
  server_ok (upd_client i f s).
Proof. intros [Hw Hs] Hi Hf Hp Hff. split; [by apply upd_client_wf|done]. Qed.

Lemma mark_ok s id : server_ok s -> server_ok (vspwd_mark_port_changed s id).
Proof.
  intros [Hw Hs]. split; [by apply mark_wf|].
  apply (states_current_ext s); [done| |by rewrite bridge_mark].
  intros. by rewrite port_at_mark.
Qed.


(** ** Link states *)

Definition link_flags (p : vspwd_port) : Z * bool * bool * bool * bool :=
  (p_client_index p, p_started p, p_reset_latched p, p_ever_attached p, p_bridged p).

(** A bridged port's state is the bridge's. *)
Lemma bridged_state s id : server_wf s -> 0 <= id < VSPWD_PORT_COUNT ->
  p_bridged (port_at s id) = true -> p_state (port_at s id) = b_state (s_bridge s).
Proof.
  intros Hw Hid Hb. destruct (sw_bridge _ Hw) as (_ & _ & _ & Hbr & Hen).
  rewrite Hbr in Hb by done. split_andb. destruct (Hen H) as (_ & _ & Hs).
  by replace id with (b_port_id (s_bridge s)) by lia.
Qed.

Lemma bridged_unattached s id : server_wf s -> 0 <= id < VSPWD_PORT_COUNT ->
  p_bridged (port_at s id) = true -> p_client_index (port_at s id) = -1.
Proof.
  intros Hw Hid Hb. destruct (sw_bridge _ Hw) as (_ & _ & _ & Hbr & Hen).
  rewrite Hbr in Hb by done. split_andb. destruct (Hen H) as (_ & Hi & _).
  by replace id with (b_port_id (s_bridge s)) by lia.
Qed.

Lemma expected_state_flags s s' id : server_wf s -> server_wf s' ->
  0 <= id < VSPWD_PORT_COUNT ->
  (forall id, 0 <= id < VSPWD_PORT_COUNT ->
     link_flags (port_at s' id) = link_flags (port_at s id)) ->
  b_state (s_bridge s') = b_state (s_bridge s) ->
  expected_state s' id = expected_state s id.
Proof.
  intros Hw Hw' Hid Hv Hb. pose proof (Hv id Hid) as H1.
  pose proof (peer_range id) as Hp. pose proof (Hv _ Hp) as H2. unfold link_flags in *.
  injection H1 as E1 E2 E3 E4 E5. injection H2 as F1 F2 F3 F4 F5.
  unfold expected_state, vspwd_calculate_state.
  rewrite E1, E2, E3, E5, F1, F2, F3, F4, F5, Hb.
  destruct (p_bridged (port_at s (vspwd_peer_port id))) eqn:Hbr; [|done].
  by rewrite (bridged_state s), (bridged_state s'), Hb by done.
Qed.

Lemma calculate_range s id : server_wf s -> link_state_ok (vspwd_calculate_state s id).
Proof.
  intros Hw. destruct (sw_bridge _ Hw) as (_ & _ & Hst & _).
  unfold vspwd_calculate_state. repeat case_if; try done; state_lia.
Qed.

Lemma expected_range s id : server_wf s -> link_state_ok (expected_state s id).
Proof.
  intros. unfold expected_state. case_if; [state_lia|by apply calculate_range].
Qed.

Definition update_port_state (next : Z) (pending : bool) (error : bool) (p : vspwd_port)
    : vspwd_port :=
  let p := if error then set_p_statistics (count_link_error (p_statistics p)) p else p in
  set_p_state_event_pending pending (set_p_state next p).

Lemma upd_port_upd s id f g : length (s_ports s) = 2%nat -> 0 <= id < VSPWD_PORT_COUNT ->
  upd_port id g (upd_port id f s) = upd_port id (fun p => g (f p)) s.
Proof.
  intros Hl Hid. unfold upd_port at 1. rewrite port_at_upd by (done || lia).
  rewrite Z.eqb_refl. unfold upd_port, set_s_ports. cbn [s_ports]. by rewrite list_insert_insert_eq.
Qed.

(** The loop body either leaves the server alone or sets the expected state. *)
Lemma update_state_cases s id : length (s_ports s) = 2%nat -> 0 <= id < VSPWD_PORT_COUNT ->
  (vspwd_update_state s id = s /\ p_state (port_at s id) = expected_state s id) \/
  (exists pending error s',
     s' = upd_port id (update_port_state (expected_state s id) pending error) s /\
     (vspwd_update_state s id = s' \/ vspwd_update_state s id = vspwd_mark_port_changed s' id)).
Proof.
  intros Hl Hid. unfold vspwd_update_state, expected_state.
  destruct (_ && _) eqn:E.
  { right. exists false, false. eexists. split; [done|]. by left. }
  case_if; [left; split; [done|lia]|]. right.
  exists true, (vspwd_calculate_state s id =? SPW_LINK_ERROR_WAIT). eexists. split; [done|].
  right. case_if; [|done]. by rewrite upd_port_upd.
Qed.

Lemma update_state_wf s id : server_wf s -> 0 <= id < VSPWD_PORT_COUNT ->
  server_wf (vspwd_update_state s id) /\
  p_state (port_at (vspwd_update_state s id) id) = expected_state s id /\
  s_bridge (vspwd_update_state s id) = s_bridge s /\
  (forall id', 0 <= id' < VSPWD_PORT_COUNT ->
     link_flags (port_at (vspwd_update_state s id) id') = link_flags (port_at s id') /\
     (id' <> id -> port_at (vspwd_update_state s id) id' = port_at s id')).
Proof.
  intros Hw Hid. pose proof (sw_ports _ Hw) as Hl.
  destruct (update_state_cases s id Hl Hid) as [[-> Hs]|(pending & error & s' & -> & Hs)];
    [done|].
  set (f := update_port_state (expected_state s id) pending error) in *.
  assert (server_wf (upd_port id f s)) as Hw'.
  { apply upd_port_wf; try done; unfold f, update_port_state; [|by destruct error..|].
    - pose proof (sw_port _ Hw id Hid) as (H1 & H2 & H3 & H4).
      destruct error; (split; [done|]; split; [done|]; split; [by apply expected_range|done]).
    - intros Hb. rewrite (bridged_state s) by done.
      unfold expected_state, vspwd_calculate_state. rewrite Hb, andb_false_r. by destruct error. }
  assert (forall id', 0 <= id' -> port_at (upd_port id f s) id' =
    if id' =? id then f (port_at s id) else port_at s id') as Hat.
  { intros. by apply port_at_upd. }
  assert (server_wf (vspwd_update_state s id) /\
    s_bridge (vspwd_update_state s id) = s_bridge s /\
    (forall id', port_at (vspwd_update_state s id) id' = port_at (upd_port id f s) id'))
    as (Hw2 & -> & Hat2).
  { destruct Hs as [-> | ->]; [done|]. split; [by apply mark_wf|]. split; [by rewrite bridge_mark|].
    intros. apply port_at_mark. }
  split; [done|]. split.
  { rewrite Hat2, Hat, Z.eqb_refl by lia. unfold f, update_port_state. by destruct error. }
  split; [done|]. intros id' Hid'. rewrite Hat2, Hat by lia. split; [|intros; case_if; [lia|done]].
  case_if; [|done]. replace id' with id by lia. unfold f, update_port_state. by destruct error.
Qed.

Lemma update_states_unfold s :
  vspwd_update_states s = vspwd_update_state (vspwd_update_state s 0) 1.
Proof. done. Qed.

(** After [vspwd_update_states] every port is in the state it must be in. *)
Lemma update_states_ok s : server_wf s ->
  server_ok (vspwd_update_states s) /\
  s_bridge (vspwd_update_states s) = s_bridge s /\
  (forall id, 0 <= id < VSPWD_PORT_COUNT ->
     link_flags (port_at (vspwd_update_states s) id) = link_flags (port_at s id)).
Proof.
  intros Hw. rewrite update_states_unfold.
  destruct (update_state_wf s 0 Hw) as (Hw1 & Hs1 & Hb1 & Hf1); [slia|].
  set (s1 := vspwd_update_state s 0) in *.
  destruct (update_state_wf s1 1 Hw1) as (Hw2 & Hs2 & Hb2 & Hf2); [slia|].
  set (s2 := vspwd_update_state s1 1) in *.
  assert (forall id, 0 <= id < VSPWD_PORT_COUNT ->
    link_flags (port_at s2 id) = link_flags (port_at s1 id)) as Hv2.
  { intros id Hid. by apply Hf2. }
  assert (forall id, 0 <= id < VSPWD_PORT_COUNT ->
    link_flags (port_at s2 id) = link_flags (port_at s id)) as Hv.
  { intros id Hid. rewrite Hv2 by done. by apply Hf1. }
  split; [|split; [by rewrite Hb2|done]]. split; [done|]. intros id Hid.
  assert (id = 0 \/ id = 1) as [-> | ->] by slia.
  - destruct (Hf2 0 ltac:(slia)) as [_ Hne]. rewrite Hne, Hs1 by lia.
    symmetry. apply expected_state_flags; try done. by rewrite Hb2, Hb1.
  - rewrite Hs2. symmetry. apply expected_state_flags; try done. by rewrite Hb2.
Qed.


(** ** Queues *)

Lemma storage_ok_nil : storage_ok [].
Proof. split; [constructor|done]. Qed.

Lemma storage_ok_copy m bytes n : storage_ok m -> bytes_ok bytes ->
  Z.of_nat n <= VSPD_MAX_LOGICAL_PACKET -> storage_ok (mem_write m 0 (mem_read bytes 0 n)).
Proof.
  intros [Hm Hl] Hb Hn. split; [auto with spw|].
  rewrite length_mem_write, length_mem_read. lia.
Qed.

Lemma next_message_id_spec p : 0 < p_next_message_id p < 2 ^ 32 ->
  vspwd_next_message_id p =
    (p_next_message_id p,
     set_p_next_message_id
       (if p_next_message_id p =? 2 ^ 32 - 1 then 1 else p_next_message_id p + 1) p).
Proof.
  intros H. unfold vspwd_next_message_id. replace (p_next_message_id p =? 0) with false by lia.
  do 2 f_equal. destruct (p_next_message_id p =? 2 ^ 32 - 1) eqn:E.
  - by replace (p_next_message_id p) with (2 ^ 32 - 1) by lia.
  - rewrite wrap_small by lia. replace (_ =? 0) with false by lia. done.
Qed.

Lemma packets_clear_wf q : packets_wf q -> packets_wf (ring_clear q).
Proof. intros (Hw & Hs & _ & _). split; [by apply ring_clear_wf|]. done. Qed.

Lemma clear_port_queues_wf p : port_wf p -> port_wf (vspwd_clear_port_queues p).
Proof.
  intros (Hp & [Ht _] & Hs & Hid). split; [by apply packets_clear_wf|].
  split; [|done]. split; [by apply ring_clear_wf|done].
Qed.

Lemma packets_push_wf q slot : packets_wf q -> (r_count q < VSPWD_PACKET_QUEUE_DEPTH)%nat ->
  storage_ok (ps_data slot) -> queued_ok slot -> ps_offset slot = 0 ->
  packets_wf (ring_push q slot).
Proof.
  intros (Hw & Hst & Hq & Ho) Hc Hd Hs H0. split; [by apply ring_push_wf|].
  split; [by apply Forall_insert|]. rewrite (ring_list_push VSPWD_PACKET_QUEUE_DEPTH) by done.
  split; [apply Forall_app; split; [done|by constructor]|].
  destruct (ring_list q); [done|]. apply Forall_app. split; [done|by constructor].
Qed.

Lemma packets_pop_wf q : packets_wf q -> (0 < r_count q)%nat -> packets_wf (ring_pop q).
Proof.
  intros (Hw & Hst & Hq & Ho) Hc. rewrite (ring_list_front q VSPWD_PACKET_QUEUE_DEPTH) in Hq, Ho
    by done. inversion Hq; subst. split; [by apply ring_pop_wf|]. split; [done|].
  split; [done|]. cbn [tail] in Ho. destruct (ring_list (ring_pop q)); [done|]. by apply Forall_cons in Ho as [_ ?].
Qed.

Lemma packets_front_ok q : packets_wf q -> (0 < r_count q)%nat ->
  queued_ok (ring_front q) /\ storage_ok (ps_data (ring_front q)).
Proof.
  intros (Hw & Hst & Hq & Ho) Hc. split.
  - rewrite (ring_list_front q VSPWD_PACKET_QUEUE_DEPTH) in Hq by done. by inversion Hq.
  - unfold ring_front, ring_at. apply (Forall_lookup_total_1 _ _ _ Hst).
    pose proof (ring_head_lt _ _ Hw). rewrite <- (ring_len _ _ Hw) in H. done.
Qed.

Lemma time_codes_push_wf q tc : time_codes_wf q ->
  (r_count q < VSPWD_TIME_CODE_QUEUE_DEPTH)%nat -> time_code_ok tc ->
  time_codes_wf (ring_push q tc).
Proof.
  intros [Hw Hq] Hc Ht. split; [by apply ring_push_wf|].
  rewrite (ring_list_push VSPWD_TIME_CODE_QUEUE_DEPTH) by done.
  apply Forall_app. split; [done|by constructor].
Qed.

Lemma time_codes_pop_wf q : time_codes_wf q -> (0 < r_count q)%nat ->
  time_codes_wf (ring_pop q) /\ time_code_ok (ring_front q).
Proof.
  intros [Hw Hq] Hc. rewrite (ring_list_front q VSPWD_TIME_CODE_QUEUE_DEPTH) in Hq by done.
  inversion Hq; subst. split; [|done]. split; [by apply ring_pop_wf|done].
Qed.

(** The packet a push appends to the destination's queue. *)
Definition pushed_slot (bytes : list Z) (length terminator : Z) (port : vspwd_port)
    : vspwd_packet_slot :=
  {| ps_data := if length =? 0 then ps_data (ring_at (p_packets port) (r_tail (p_packets port)))
                else mem_write (ps_data (ring_at (p_packets port) (r_tail (p_packets port)))) 0
                       (mem_read bytes 0 (Z.to_nat length));
     ps_length := length; ps_offset := 0; ps_message_id := p_next_message_id port;
     ps_terminator := terminator |}.

Lemma push_packet_spec bytes length terminator p : port_wf p ->
  0 <= length <= VSPD_MAX_LOGICAL_PACKET ->
  vspwd_push_packet bytes length terminator p =
  set_p_packets (ring_push (p_packets p) (pushed_slot bytes length terminator p))
    (set_p_next_message_id
       (if p_next_message_id p =? 2 ^ 32 - 1 then 1 else p_next_message_id p + 1) p).
Proof.
  intros (_ & _ & _ & Hid) Hl. unfold vspwd_push_packet.
  rewrite next_message_id_spec by done. unfold pushed_slot.
  rewrite (wrap_small 32 length) by (unfold VSPD_MAX_LOGICAL_PACKET in *; lia). done.
Qed.

Lemma push_packet_wf bytes length terminator p : port_wf p ->
  0 <= length <= VSPD_MAX_LOGICAL_PACKET -> bytes_ok bytes ->
  (r_count (p_packets p) < VSPWD_PACKET_QUEUE_DEPTH)%nat ->
  port_wf (vspwd_push_packet bytes length terminator p) /\
  link_view (vspwd_push_packet bytes length terminator p) = link_view p.
Proof.
  intros Hp Hl Hb Hc. rewrite push_packet_spec by done. split; [|done].
  destruct Hp as (Hq & Ht & Hs & Hid). split; [|split; [done|split; [done|]]].
  - apply packets_push_wf; try done; cbn.
    + destruct Hq as (Hw & Hst & _).
      assert (storage_ok (ps_data (ring_at (p_packets p) (r_tail (p_packets p))))) as Hd.
      { apply (Forall_lookup_total_1 _ _ _ Hst). pose proof (ring_tail_lt _ _ Hw) as Htl.
        rewrite <- (ring_len _ _ Hw) in Htl. done. }
      case_if; [done|]. apply storage_ok_copy; try done. lia.
    + unfold queued_ok. cbn. lia.
  - cbn. case_if; lia.
Qed.


(** ** What a client sees of its own session *)

Definition session_view (c : vspwd_client) : Z * bool * Z * bool * Z * list Z :=
  (c_fd c, c_hello_done c, c_port_id c, c_response_pending c, c_response_size c, c_response c).

Definition sessions_same s s' : Prop :=
  forall i, 0 <= i < VSPWD_CLIENT_COUNT ->
    session_view (client_at s' i) = session_view (client_at s i).

Lemma sessions_refl s : sessions_same s s.
Proof. done. Qed.

Lemma sessions_trans s1 s2 s3 :
  sessions_same s1 s2 -> sessions_same s2 s3 -> sessions_same s1 s3.
Proof. intros H1 H2 i Hi. by rewrite H2, H1. Qed.

Lemma sessions_mark s id : length (s_clients s) = 4%nat ->
  sessions_same s (vspwd_mark_port_changed s id).
Proof. intros Hl i Hi. by destruct (client_at_mark s id i Hi Hl) as [m ->]. Qed.

Lemma sessions_clients s s' : s_clients s' = s_clients s -> sessions_same s s'.
Proof. intros H i Hi. unfold client_at. by rewrite H. Qed.

(** Changing a port and telling the monitors leaves the sessions alone. *)
Lemma sessions_mark_after s s' id : sessions_same s s' -> length (s_clients s') = 4%nat ->
  sessions_same s (vspwd_mark_port_changed s' id).
Proof. intros H Hl. eapply sessions_trans; [done|]. by apply sessions_mark. Qed.

Lemma sessions_upd_client s j f : length (s_clients s) = 4%nat -> 0 <= j < VSPWD_CLIENT_COUNT ->
  session_view (f (client_at s j)) = session_view (client_at s j) ->
  sessions_same s (upd_client j f s).
Proof.
  intros Hl Hj Hf i Hi. rewrite client_at_upd by (done || lia). case_if; [|done].
  by replace i with j by lia.
Qed.

Lemma sessions_update_state s id : length (s_clients s) = 4%nat ->
  length (s_ports s) = 2%nat -> 0 <= id < VSPWD_PORT_COUNT ->
  sessions_same s (vspwd_update_state s id).
Proof.
  intros Hlc Hlp Hid. destruct (update_state_cases s id Hlp Hid)
    as [[-> _]|(pending & error & s' & -> & [-> | ->])]; [done|done|].
  by apply (sessions_mark (upd_port id _ s)).
Qed.

Lemma sessions_update_states s : server_wf s -> sessions_same s (vspwd_update_states s).
Proof.
  intros Hw. rewrite update_states_unfold.
  destruct (update_state_wf s 0 Hw) as (Hw1 & _); [slia|].
  apply (sessions_trans _ (vspwd_update_state s 0)); apply sessions_update_state;
    try apply Hw; try apply Hw1; slia.
Qed.

(** ** The data path *)

Lemma set_statistics_ok s id f : server_ok s -> 0 <= id < VSPWD_PORT_COUNT ->
  server_ok (upd_port id (fun p => set_p_statistics (f (p_statistics p)) p) s).
Proof. intros Hs Hid. apply upd_port_ok; try done. by apply Hs. Qed.

Lemma enqueue_packet_ok s src r : server_ok s -> 0 <= src < VSPWD_PORT_COUNT ->
  storage_ok (ra_data r) -> 0 <= ra_total_size r <= VSPD_MAX_LOGICAL_PACKET ->
  server_ok (vspwd_enqueue_packet s src r).2 /\ sessions_same s (vspwd_enqueue_packet s src r).2.
Proof.
  intros Hs Hsrc [Hd _] Ht. unfold vspwd_enqueue_packet. pose proof (peer_range src) as Hp.
  case_if; [done|]. destruct (_ <=? _)%nat eqn:Hc; [done|]. apply Nat.leb_gt in Hc. cbn [snd].
  assert (server_ok (upd_port (vspwd_peer_port src)
    (vspwd_push_packet (ra_data r) (ra_total_size r) (ra_terminator r)) s)) as Hs1.
  { destruct (push_packet_wf (ra_data r) (ra_total_size r) (ra_terminator r)
      (port_at s (vspwd_peer_port src))); try done; [by apply Hs|]. by apply upd_port_ok. }
  pose proof (set_statistics_ok _ src (count_tx_packet (ra_total_size r) (ra_terminator r))
    Hs1 Hsrc) as Hs2.
  split; [by do 2 apply mark_ok|].
  pose proof (sw_clients _ (proj1 Hs2)) as Hl.
  do 2 (apply sessions_mark_after; [|by rewrite ?length_clients_mark]).
  by apply sessions_clients.
Qed.

Lemma enqueue_time_code_ok s src tc : server_ok s -> 0 <= src < VSPWD_PORT_COUNT ->
  time_code_ok tc ->
  server_ok (vspwd_enqueue_time_code s src tc).2 /\
  sessions_same s (vspwd_enqueue_time_code s src tc).2.
Proof.
  intros Hs Hsrc Ht. unfold vspwd_enqueue_time_code. pose proof (peer_range src) as Hp.
  case_if; [done|]. destruct (_ <=? _)%nat eqn:Hc; [done|]. apply Nat.leb_gt in Hc. cbn [snd].
  assert (server_ok (upd_port (vspwd_peer_port src)
    (fun p => set_p_time_codes (ring_push (p_time_codes p) tc) p) s)) as Hs1.
  { apply upd_port_ok; try done. destruct (sw_port _ (proj1 Hs) _ Hp) as (H1 & H2 & H3).
    split; [done|]. split; [by apply time_codes_push_wf|done]. }
  pose proof (set_statistics_ok _ src count_tx_time_code Hs1 Hsrc) as Hs2.
  split; [by do 2 apply mark_ok|].
  pose proof (sw_clients _ (proj1 Hs2)) as Hl.
  do 2 (apply sessions_mark_after; [|by rewrite ?length_clients_mark]).
  by apply sessions_clients.
Qed.

Lemma count_dropped_ok s id : server_ok s -> 0 <= id < VSPWD_PORT_COUNT ->
  let s' := vspwd_mark_port_changed
    (upd_port id (fun p => set_p_statistics (count_dropped (p_statistics p)) p) s) id in
  server_ok s' /\ sessions_same s s'.
Proof.
  intros Hs Hid. cbn zeta. pose proof (set_statistics_ok s id count_dropped Hs Hid) as H.
  split; [by apply mark_ok|].
  apply sessions_mark_after; [by apply sessions_clients|apply H].
Qed.

(** The header facts the codec's validation gives for a DATA fragment. *)
Definition fragment_ok (h : vspd_header) : Prop :=
  0 <= v_fragment_offset h /\ 0 <= v_payload_size h /\
  v_fragment_offset h + v_payload_size h <= v_total_size h <= VSPD_MAX_LOGICAL_PACKET.

Lemma store_payload_wf r h payload : fragment_ok h -> bytes_ok payload ->
  reassembly_wf r -> (ra_active r = true -> ra_total_size r = v_total_size h) ->
  reassembly_wf (store_payload r h payload) /\
  (ra_active r = true -> ra_next_offset (store_payload r h payload) =
    v_fragment_offset h + v_payload_size h).
Proof.
  intros (Ho & Hp & Ht) Hb ([Hd Hdl] & Ha) Htot. unfold reassembly_wf, store_payload. cbn.
  rewrite wrap_small by (unfold VSPD_MAX_LOGICAL_PACKET in *; lia).
  split; [|done]. split.
  - case_if; [done|]. split; [auto with spw|].
    rewrite length_mem_write, length_mem_read. lia.
  - intros H. specialize (Htot H). lia.
Qed.

Lemma begin_or_continue_wf r h r' : fragment_ok h -> reassembly_wf r ->
  begin_or_continue r h = Some r' ->
  reassembly_wf r' /\ ra_active r' = true /\ ra_total_size r' = v_total_size h /\
  ra_next_offset r' = v_fragment_offset h.
Proof.
  intros (Ho & Hp & Ht) [Hd Ha] H. unfold begin_or_continue in H.
  destruct (ra_active r) eqn:Hact; cbn [negb] in H; case_if_in H; try done;
    injection H as <-; split_andb.
  - split; [split; [done|by rewrite Hact]|]. split; [done|]. lia.
  - cbn. split; [split; [done|cbn; lia]|]. split; [done|]. lia.
Qed.

Lemma set_reassembly_ok s i r : server_ok s -> 0 <= i < VSPWD_CLIENT_COUNT ->
  reassembly_wf r ->
  server_ok (set_reassembly i r s) /\ sessions_same s (set_reassembly i r s).
Proof.
  intros Hs Hi Hr. unfold set_reassembly. split.
  - apply upd_client_ok; try done. destruct (sw_client _ (proj1 Hs) i Hi) as (H1 & H2 & _).
    by split.
  - apply sessions_upd_client; try done. apply Hs.
Qed.

Lemma clear_reassembly_wf r : reassembly_wf r -> reassembly_wf (vspwd_clear_reassembly r).
Proof. intros [H _]. by split. Qed.

Lemma accept_data_fragment_ok s i h payload : server_ok s -> 0 <= i < VSPWD_CLIENT_COUNT ->
  0 <= c_port_id (client_at s i) -> fragment_ok h -> bytes_ok payload ->
  server_ok (vspwd_accept_data_fragment s i h payload).2 /\
  sessions_same s (vspwd_accept_data_fragment s i h payload).2.
Proof.
  intros Hs Hi Hp Hf Hb. unfold vspwd_accept_data_fragment.
  destruct (begin_or_continue _ h) as [r|] eqn:Er; [|done].
  destruct (sw_client _ (proj1 Hs) i Hi) as (_ & _ & Hra).
  destruct (begin_or_continue_wf _ h r Hf Hra Er) as (Hr & Ha & Ht & Hn).
  destruct (store_payload_wf r h payload Hf Hb Hr) as [Hr1 Hn1]; [done|].
  set (r1 := store_payload r h payload) in *.
  case_if; [by apply set_reassembly_ok|]. case_if; [by apply set_reassembly_ok|].
  set (r2 := set_ra_terminator _ r1) in *.
  assert (reassembly_wf r2) as Hr2 by done.
  destruct (set_reassembly_ok s i r2 Hs Hi Hr2) as [Hs2 Hv2].
  pose proof (sw_port_id _ (proj1 Hs) i Hi) as Hpi.
  case_if; [done|]. destruct (_ <=? _)%nat eqn:Hc.
  - destruct (count_dropped_ok (set_reassembly i r2 s) (c_port_id (client_at s i)) Hs2)
      as [H1 H2]; [lia|]. split; [done|]. by eapply sessions_trans.
  - destruct (enqueue_packet_ok (set_reassembly i r2 s) (c_port_id (client_at s i)) r2 Hs2)
      as [H1 H2]; [lia|apply Hr2| |].
    { change (ra_total_size r2) with (ra_total_size r). destruct Hf as (? & ? & ?). lia. }
    destruct (vspwd_enqueue_packet _ _ r2) as [ok s']. cbn [snd] in *.
    split; [done|]. by eapply sessions_trans.
Qed.


(** ** Attachment *)

(** Assigning to client [i] and port [id] together, where the two refer to each
    other or to nothing before and after. *)
Lemma relink_wf s i id f g : server_wf s -> 0 <= i < VSPWD_CLIENT_COUNT ->
  0 <= id < VSPWD_PORT_COUNT -> p_bridged (port_at s id) = false ->
  c_port_id (client_at s i) = id \/
    (c_port_id (client_at s i) < 0 /\ p_client_index (port_at s id) < 0) ->
  let p := f (port_at s id) in let c := g (client_at s i) in
  (c_port_id c = id /\ p_client_index p = i /\ c_hello_done c = true /\ 0 <= c_fd c) \/
    (c_port_id c = -1 /\ p_client_index p = -1) ->
  port_wf p -> p_bridged p = false -> client_wf c ->
  server_wf (upd_client i g (upd_port id f s)).
Proof.
  cbn zeta. intros Hw Hi Hid Hnb Hold Hnew Hf Hfb Hg.
  pose proof Hw as [Hlc Hlp Hc Hp Hci Hpi Ho Hl Hb].
  assert (forall id', 0 <= id' -> port_at (upd_client i g (upd_port id f s)) id' =
    if id' =? id then f (port_at s id) else port_at s id') as Hat
    by (intros; by apply port_at_upd).
  assert (forall i', 0 <= i' -> client_at (upd_client i g (upd_port id f s)) i' =
    if i' =? i then g (client_at s i) else client_at s i') as Hct
    by (intros; by apply (client_at_upd (upd_port id f s))).
  constructor.
  - by rewrite length_clients_upd.
  - cbn. by rewrite length_insert.
  - intros i' Hi'. rewrite Hct by lia. case_if; [done|by apply Hc].
  - intros id' Hid'. rewrite Hat by lia. case_if; [done|by apply Hp].
  - intros i' Hi'. rewrite Hct by lia. case_if; [slia|by apply Hci].
  - intros id' Hid'. rewrite Hat by lia. case_if; [slia|by apply Hpi].
  - intros i' Hi'. rewrite Hct by lia. case_if; [intros; destruct Hnew as [?|?]; [tauto|lia]|].
    by apply Ho.
  - intros i' id' Hi' Hid'. rewrite Hct, Hat by lia. pose proof (Hl i id Hi Hid) as H0.
    pose proof (Hl i' id Hi' Hid) as H2. pose proof (Hl i id' Hi Hid') as H3.
    destruct (Z.eqb_spec i' i) as [->|], (Z.eqb_spec id' id) as [->|];
      [| | |by apply Hl]; clear Hct Hat Hl Hb Ho Hpi Hci Hp Hc Hw Hf Hg.
    all: lia.
  - destruct Hb as (Hu & Hrx & Hst & Hbr & Hen). split; [done|]. split; [done|].
    split; [done|]. cbn [s_bridge upd_client set_s_clients upd_port set_s_ports]. split.
    + intros id' Hid'. rewrite Hat by lia. case_if; [|by apply Hbr].
      rewrite Hfb, <- Hnb. replace id' with id by lia. by apply Hbr.
    + intros He. destruct (Hen He) as (Hr & Hx). split; [done|].
      rewrite Hat by lia. case_if; [|done]. rewrite Hbr, He in Hnb by done. lia.
Qed.

Lemma attached_unbridged s i : server_wf s -> 0 <= i < VSPWD_CLIENT_COUNT ->
  0 <= c_port_id (client_at s i) ->
  p_bridged (port_at s (c_port_id (client_at s i))) = false /\
  p_client_index (port_at s (c_port_id (client_at s i))) = i /\
  c_port_id (client_at s i) < VSPWD_PORT_COUNT.
Proof.
  intros Hw Hi Hp. pose proof (sw_port_id _ Hw i Hi) as Hr.
  assert (p_client_index (port_at s (c_port_id (client_at s i))) = i) as Hlink
    by (apply (sw_linked _ Hw); lia || done).
  split; [|split; [done|lia]]. destruct (p_bridged _) eqn:E; [|done].
  apply (bridged_unattached s) in E; [lia|done|lia].
Qed.

Lemma detached_port_wf p : port_wf p -> port_wf (detached_port p).
Proof.
  intros (H1 & H2 & H3 & H4). apply clear_port_queues_wf.
  split; [done|]. split; [done|]. split; [cbn; state_lia|done].
Qed.

Lemma detached_client_wf c : client_wf c -> client_wf (detached_client c).
Proof. intros (H1 & H2 & H3). split; [done|]. split; [done|by apply clear_reassembly_wf]. Qed.

Lemma upd_client_pending s s' i g : same_but_pending s s' -> length (s_clients s) = 4%nat ->
  0 <= i < VSPWD_CLIENT_COUNT ->
  (forall m c, g (set_c_monitor_pending_mask m c) = set_c_monitor_pending_mask m (g c)) ->
  same_but_pending (upd_client i g s) (upd_client i g s').
Proof.
  intros [Ep Eb Hl Hm] Hlc Hi Hg. constructor; try done.
  - by rewrite !length_clients_upd.
  - intros i' Hi'. rewrite !client_at_upd by (lia || congruence). case_if; [|by apply Hm].
    destruct (Hm i Hi) as [m ->]. exists m. apply Hg.
Qed.

Lemma detach_wf s i : server_wf s -> 0 <= i < VSPWD_CLIENT_COUNT ->
  exists s1, vspwd_detach_client s i = vspwd_update_states s1 /\ server_wf s1 /\
    (forall i', 0 <= i' < VSPWD_CLIENT_COUNT -> session_view (client_at s1 i') =
      session_view (if i' =? i then detached_client (client_at s i) else client_at s i')) /\
    s_bridge s1 = s_bridge s.
Proof.
  intros Hw Hi. unfold vspwd_detach_client. eexists. split; [done|].
  pose proof (sw_port_id _ Hw i Hi) as Hr. pose proof (sw_clients _ Hw) as Hlc.
  pose proof (sw_client _ Hw i Hi) as Hcw.
  destruct (0 <=? c_port_id (client_at s i)) eqn:Ep; cbn [andb].
  - destruct (attached_unbridged s i Hw Hi) as (Hnb & Hlink & Hlt); [lia|].
    rewrite (proj2 (Z.ltb_lt _ _) Hlt), Hlink, Z.eqb_refl.
    set (id := c_port_id (client_at s i)) in *.
    assert (same_but_pending (upd_client i detached_client (upd_port id detached_port s))
      (upd_client i detached_client
        (vspwd_mark_port_changed (upd_port id detached_port s) id))) as Hpend.
    { apply upd_client_pending; try done. by apply mark_pending. }
    split; [|split].
    + apply (pending_wf _ _ Hpend), relink_wf; try done; [lia|by left|by right| |].
      * apply detached_port_wf, Hw. lia.
      * by apply detached_client_wf.
    + intros i' Hi'. destruct (sp_client _ _ Hpend i' Hi') as [m ->].
      rewrite (client_at_upd (upd_port id detached_port s)) by (done || lia).
      change (client_at (upd_port id detached_port s)) with (client_at s). by case_if.
    + by rewrite (sp_bridge _ _ Hpend).
  - split; [|split; [|done]].
    + apply upd_client_wf; try done; [by apply detached_client_wf|cbn; lia].
    + intros i' Hi'. rewrite client_at_upd by (done || lia). by case_if.
Qed.

Lemma detach_ok s i : server_wf s -> 0 <= i < VSPWD_CLIENT_COUNT ->
  server_ok (vspwd_detach_client s i) /\
  (forall i', 0 <= i' < VSPWD_CLIENT_COUNT ->
    session_view (client_at (vspwd_detach_client s i) i') =
    session_view (if i' =? i then detached_client (client_at s i) else client_at s i')) /\
  s_bridge (vspwd_detach_client s i) = s_bridge s.
Proof.
  intros Hw Hi. destruct (detach_wf s i Hw Hi) as (s1 & -> & Hw1 & Hc & Hb).
  destruct (update_states_ok s1 Hw1) as (Hok & Hb' & _). split; [done|].
  split; [|by rewrite Hb']. intros i' Hi'. rewrite <- Hc by done.
  by apply sessions_update_states.
Qed.

Definition closed_client : vspwd_client := set_c_port_id (-1) (set_c_fd (-1) client_zero).

Lemma fresh_client_wf fd : client_wf (set_c_port_id (-1) (set_c_fd fd client_zero)).
Proof. split; [done|]. split; [done|]. split; [apply storage_ok_nil|done]. Qed.

(** Closing a connection leaves a consistent server, whatever state it was in. *)
Lemma forget_ok s i : server_wf s -> 0 <= i < VSPWD_CLIENT_COUNT -> server_ok (forget_client s i).
Proof.
  intros Hw Hi. destruct (detach_ok s i Hw Hi) as ([Hw1 Hs1] & Hc & _).
  assert (c_port_id (client_at (vspwd_detach_client s i) i) = -1) as Hp.
  { pose proof (Hc i Hi) as H. rewrite Z.eqb_refl in H. by injection H. }
  apply upd_client_ok; try done; [apply fresh_client_wf|lia].
Qed.


Lemma upd_comm s i id f g : upd_port id f (upd_client i g s) = upd_client i g (upd_port id f s).
Proof. done. Qed.

Lemma attached_port_wf i p : port_wf p -> port_wf (attached_port i p).
Proof.
  intros (H1 & H2 & _ & _).
  split; [by apply packets_clear_wf|]. split; [split; [apply ring_clear_wf, H2|done]|].
  split; [cbn; state_lia|cbn; lia].
Qed.

Lemma attach_ok s i id : server_wf s -> 0 <= i < VSPWD_CLIENT_COUNT ->
  0 <= id < VSPWD_PORT_COUNT -> c_port_id (client_at s i) < 0 ->
  c_hello_done (client_at s i) = true -> 0 <= c_fd (client_at s i) ->
  p_client_index (port_at s id) < 0 -> p_bridged (port_at s id) = false ->
  let s' := vspwd_update_states
    (upd_port id (attached_port i) (upd_client i (set_c_port_id id) s)) in
  server_ok s' /\
  (forall i', 0 <= i' < VSPWD_CLIENT_COUNT -> session_view (client_at s' i') =
     session_view (if i' =? i then set_c_port_id id (client_at s i) else client_at s i')).
Proof.
  intros Hw Hi Hid Hfree Hh Hfd Hpf Hnb. cbn zeta. rewrite upd_comm.
  assert (server_wf (upd_client i (set_c_port_id id) (upd_port id (attached_port i) s))) as Hw1.
  { apply relink_wf; try done; [by right|by left|by apply attached_port_wf, Hw|by apply Hw]. }
  split; [by apply update_states_ok|]. intros i' Hi'.
  rewrite (sessions_update_states _ Hw1 i' Hi').
  rewrite (client_at_upd (upd_port id (attached_port i) s)) by (apply Hw || lia). done.
Qed.

(** START, STOP and RESET change the flags of the client's own port. *)
Lemma link_control_ok s i change : server_wf s -> 0 <= i < VSPWD_CLIENT_COUNT ->
  0 <= c_port_id (client_at s i) ->
  (forall p, port_wf p -> port_wf (change p) /\ p_client_index (change p) = p_client_index p /\
     p_bridged (change p) = p_bridged p /\ p_state (change p) = p_state p) ->
  server_wf (upd_port (c_port_id (client_at s i)) change s).
Proof.
  intros Hw Hi Hp Hch. destruct (attached_unbridged s i Hw Hi Hp) as (Hnb & _ & Hlt).
  destruct (Hch (port_at s (c_port_id (client_at s i)))) as (H1 & H2 & H3 & H4);
    [apply Hw; lia|]. by apply upd_port_wf.
Qed.

(** ** The bridge functions *)

Lemma bridge_io_ok s f : server_ok s ->
  port_runs (b_udp_port (f (s_bridge s))) -> storage_ok (b_rx_packet (f (s_bridge s))) ->
  b_enabled (f (s_bridge s)) = b_enabled (s_bridge s) ->
  b_port_id (f (s_bridge s)) = b_port_id (s_bridge s) ->
  b_state (f (s_bridge s)) = b_state (s_bridge s) -> server_ok (upd_bridge f s).
Proof.
  intros [[Hlc Hlp Hc Hp Hci Hpi Ho Hl Hb] Hs] Hu Hrx He Hid Hst. split.
  - constructor; try done. destruct Hb as (_ & _ & Hbs & Hbr & Hen). unfold bridge_wf.
    cbn [upd_bridge set_s_bridge s_bridge]. rewrite He, Hid, Hst. done.
  - by apply (states_current_ext s).
Qed.

Lemma set_udp_port_ok s udp : server_ok s -> port_runs udp -> server_ok (set_udp_port udp s).
Proof.
  intros Hs Hu. apply bridge_io_ok; try done. apply (sw_bridge _ (proj1 Hs)).
Qed.

(** The bridge and its port take a new state together. *)
Lemma bridge_state_wf s state f : server_wf s -> b_enabled (s_bridge s) = true ->
  link_state_ok state -> let id := b_port_id (s_bridge s) in
  port_wf (f (port_at s id)) -> p_client_index (f (port_at s id)) = -1 ->
  p_bridged (f (port_at s id)) = true -> p_state (f (port_at s id)) = state ->
  server_wf (upd_port id f (upd_bridge (set_b_state state) s)).
Proof.
  cbn zeta. intros [Hlc Hlp Hc Hp Hci Hpi Ho Hl Hb] He Hst Hf Hfi Hfb Hfs.
  destruct Hb as (Hu & Hrx & _ & Hbr & Hen). destruct (Hen He) as (Hid & Hi & Hs).
  set (id := b_port_id (s_bridge s)) in *.
  assert (forall id', 0 <= id' -> port_at (upd_port id f (upd_bridge (set_b_state state) s)) id' =
    if id' =? id then f (port_at s id) else port_at s id') as Hat
    by (intros; by apply (port_at_upd (upd_bridge (set_b_state state) s))).
  constructor; try done.
  - by rewrite length_ports_upd.
  - intros id' Hid'. rewrite Hat by lia. case_if; [done|]. by apply Hp.
  - intros id' Hid'. rewrite Hat by lia. case_if; [rewrite Hfi; slia|by apply Hpi].
  - intros i id' Hi' Hid'. rewrite Hat by lia. case_if; [|by apply Hl].
    rewrite Hfi. pose proof (Hl i id Hi' Hid) as H. rewrite Hi in H.
    replace id' with id by lia. exact H.
  - split; [done|]. split; [done|]. split; [done|]. split.
    + intros id' Hid'. rewrite Hat by lia.
      cbn [upd_port upd_bridge set_s_bridge set_s_ports s_bridge set_b_state b_enabled b_port_id].
      case_if; [|by apply Hbr]. rewrite Hfb, He. fold id. lia.
    + intros _. split; [done|].
      change (b_port_id (s_bridge (upd_port id f (upd_bridge (set_b_state state) s)))) with id.
      rewrite Hat, Z.eqb_refl by lia. done.
Qed.

Lemma bridge_refresh_ok s : server_ok s ->
  server_ok (vspwd_bridge_refresh_state s) /\ sessions_same s (vspwd_bridge_refresh_state s).
Proof.
  intros Hs. unfold vspwd_bridge_refresh_state.
  destruct (b_enabled (s_bridge s)) eqn:He; [|done]. cbn [negb orb]. case_if; [done|].
  pose proof (sw_bridge _ (proj1 Hs)) as (Hu & _ & _ & Hbr & Hen).
  destruct (Hen He) as (Hid & Hi & Hst).
  pose proof (link_state_runs o Inv _ SPW_LINK_ERROR_WAIT Hu) as H.
  destruct (spw_port_get_link_state _ _) as [[r out] udp]. destruct H as [Hu' Hr].
  pose proof (set_udp_port_ok s udp Hs Hu') as Hs1.
  set (state := if negb (r =? SPW_OK) then _ else _).
  assert (link_state_ok state) as Hstate.
  { unfold state. case_if; [state_lia|]. apply Hr. lia. }
  destruct (state =? b_state (s_bridge s)) eqn:Est; [done|].
  change (port_at (upd_bridge (set_b_state state) (set_udp_port udp s))) with (port_at s).
  rewrite Hst. rewrite Z.eqb_sym, Est.
  set (id := b_port_id (s_bridge s)) in *.
  set (f := fun p => set_p_state state
    (if state =? SPW_LINK_ERROR_WAIT then set_p_statistics (count_link_error (p_statistics p)) p
     else p)).
  set (s2 := upd_port id f (upd_bridge (set_b_state state) (set_udp_port udp s))).
  assert (server_wf s2) as Hw2.
  { apply (bridge_state_wf (set_udp_port udp s) state f); try done; [apply Hs1|..];
      change (port_at (set_udp_port udp s)) with (port_at s);
      change (b_port_id (s_bridge (set_udp_port udp s))) with id; unfold f.
    - destruct (sw_port _ (proj1 Hs) id Hid) as (H1 & H2 & H3 & H4). case_if; done.
    - case_if; exact Hi.
    - assert (p_bridged (port_at s id) = true) as Hbt by (rewrite Hbr, He by done; lia).
      case_if; exact Hbt. }
  assert (vspwd_mark_port_changed (upd_port id (set_p_state state)
    (if state =? SPW_LINK_ERROR_WAIT
     then upd_port id (fun p => set_p_statistics (count_link_error (p_statistics p)) p)
       (upd_bridge (set_b_state state) (set_udp_port udp s))
     else upd_bridge (set_b_state state) (set_udp_port udp s))) id =
    vspwd_mark_port_changed s2 id) as ->.
  { f_equal. unfold s2, f. case_if; [|done]. apply upd_port_upd; [apply Hs|done]. }
  pose proof (mark_wf s2 id Hw2) as Hw3. split; [by apply update_states_ok|].
  eapply sessions_trans; [|by apply sessions_update_states].
  apply sessions_mark_after; [by apply sessions_clients|apply Hs].
Qed.

(** The four transfers share their end: a port changes and its monitors hear. *)
Lemma mark_step_ok s s' id : server_ok s' -> s_clients s' = s_clients s ->
  server_ok (vspwd_mark_port_changed s' id) /\
  sessions_same s (vspwd_mark_port_changed s' id).
Proof.
  intros Hs Hc. split; [by apply mark_ok|].
  apply sessions_mark_after; [by apply sessions_clients|apply Hs].
Qed.

Lemma mark_two_ok s s' id id' : server_ok s' -> s_clients s' = s_clients s ->
  server_ok (vspwd_mark_port_changed (vspwd_mark_port_changed s' id) id') /\
  sessions_same s (vspwd_mark_port_changed (vspwd_mark_port_changed s' id) id').
Proof.
  intros Hs Hc. destruct (mark_step_ok s s' id Hs Hc) as [H1 H2].
  split; [by apply mark_ok|]. apply sessions_mark_after; [done|apply H1].
Qed.

Lemma bridge_pop_packet_ok s : server_ok s -> b_enabled (s_bridge s) = true ->
  server_ok (vspwd_bridge_pop_packet s) /\ sessions_same s (vspwd_bridge_pop_packet s).
Proof.
  intros Hs He. unfold vspwd_bridge_pop_packet.
  destruct (sw_bridge _ (proj1 Hs)) as (Hu & _ & _ & _ & Hen).
  destruct (Hen He) as (Hid & _ & _). set (id := b_port_id (s_bridge s)) in *.
  destruct ((r_count _ =? 0)%nat) eqn:Ec; [done|]. apply Nat.eqb_neq in Ec. cbn [orb].
  case_if; [done|].
  destruct (sw_port _ (proj1 Hs) id Hid) as (Hq & Ht & Hst & Hmid).
  destruct (packets_front_ok _ Hq) as [Hqo Hd]; [lia|].
  set (slot := ring_front (p_packets (port_at s id))) in *. clearbody slot.
  set (packet := {| pkt_data := _ |}).
  assert (bytes_ok (default [] (pkt_data packet))) as Hb
    by (cbn [pkt_data packet default]; apply bytes_ok_read, Hd).
  destruct (spw_port_send _ _ _) as [r udp] eqn:Esend.
  assert (port_runs udp) as Hu'.
  { destruct (valid_terminator (ps_terminator slot)) eqn:Hv.
    - assert (tx_packet_ok packet = true) as Hp.
      { unfold tx_packet_ok. cbn [pkt_data pkt_length pkt_terminator packet]. 
        rewrite Hv, length_mem_read. destruct Hqo as (? & ? & ? & _).
        rewrite Z2Nat.id by lia. lia. }
      pose proof (send_runs o Inv (b_udp_port (s_bridge s)) packet SPW_TIMEOUT_IMMEDIATE Hu Hp Hb) as H.
      by rewrite Esend in H.
    - unfold spw_port_send in Esend. cbn in Esend. rewrite andb_false_r in Esend.
      rewrite Hv in Esend. injection Esend as _ <-. exact Hu. }
  pose proof (set_udp_port_ok s udp Hs Hu') as Hs1. case_if; [done|].
  apply mark_step_ok; [|done]. apply upd_port_ok; try done.
  change (port_at (set_udp_port udp s)) with (port_at s).
  split; [apply packets_pop_wf; [done|lia]|done].
Qed.

Lemma bridge_pop_time_code_ok s : server_ok s -> b_enabled (s_bridge s) = true ->
  server_ok (vspwd_bridge_pop_time_code s) /\ sessions_same s (vspwd_bridge_pop_time_code s).
Proof.
  intros Hs He. unfold vspwd_bridge_pop_time_code.
  destruct (sw_bridge _ (proj1 Hs)) as (Hu & _ & _ & _ & Hen).
  destruct (Hen He) as (Hid & _ & _). set (id := b_port_id (s_bridge s)) in *.
  destruct ((r_count _ =? 0)%nat) eqn:Ec; [done|]. apply Nat.eqb_neq in Ec. cbn [orb].
  case_if; [done|].
  destruct (sw_port _ (proj1 Hs) id Hid) as (Hq & Ht & Hst & Hmid).
  destruct (time_codes_pop_wf _ Ht) as [Hpop [H0 _]]; [lia|].
  pose proof (send_time_code_runs o Inv (b_udp_port (s_bridge s))
    (ring_front (p_time_codes (port_at s id))) SPW_TIMEOUT_IMMEDIATE Hu) as Hu'.
  destruct (spw_port_send_time_code _ _ _) as [r udp]. cbn [snd] in Hu'.
  pose proof (set_udp_port_ok s udp Hs (Hu' ltac:(lia))) as Hs1. case_if; [done|].
  apply mark_step_ok; [|done]. apply upd_port_ok; try done.
Qed.

Lemma bridge_push_packet_ok s : server_ok s -> b_enabled (s_bridge s) = true ->
  server_ok (vspwd_bridge_push_packet s) /\ sessions_same s (vspwd_bridge_push_packet s).
Proof.
  intros Hs He. unfold vspwd_bridge_push_packet.
  destruct (sw_bridge _ (proj1 Hs)) as (Hu & [Hrx _] & _ & _ & Hen).
  destruct (Hen He) as (Hid & _ & _). set (id := b_port_id (s_bridge s)) in *.
  pose proof (peer_range id) as Hpeer. set (local := vspwd_peer_port id) in *.
  destruct (_ || _) eqn:E; [done|]. apply orb_false_iff in E as [_ Hc]. apply Nat.leb_gt in Hc.
  set (packet := {| pkt_data := _ |}).
  assert (rx_packet_ok packet = true) as Hp.
  { unfold rx_packet_ok. cbn [pkt_data pkt_capacity packet]. rewrite length_mem_read.
    by rewrite Z2Nat.id. }
  pose proof (receive_runs o Inv (b_udp_port (s_bridge s)) packet SPW_TIMEOUT_IMMEDIATE Hu Hp
    (bytes_ok_read _ _ _ Hrx)) as H.
  destruct (spw_port_receive _ _ _) as [[r out] udp].
  destruct H as (Hu' & Hb & Hl & Hr). set (p' := default packet out) in *.
  set (bytes := default [] (pkt_data p')) in *.
  assert (server_ok (upd_bridge (set_b_rx_packet bytes) (set_udp_port udp s))) as Hs1.
  { apply bridge_io_ok; try done; [by apply set_udp_port_ok|]. cbn. split; [done|].
    rewrite Hl. change (Z.of_nat (length (mem_read (b_rx_packet (s_bridge s)) 0
      (Z.to_nat VSPD_MAX_LOGICAL_PACKET))) <= VSPD_MAX_LOGICAL_PACKET).
    by rewrite length_mem_read, Z2Nat.id. }
  case_if; [done|]. destruct Hr as [Hlen _]; [lia|].
  destruct (push_packet_wf bytes (pkt_length p') (pkt_terminator p') (port_at s local))
    as [Hp1 Hp2]; try done; [by apply Hs|].
  apply mark_two_ok; [|done]. apply set_statistics_ok; [|done]. by apply upd_port_ok.
Qed.

Lemma bridge_push_time_code_ok s : server_ok s -> b_enabled (s_bridge s) = true ->
  server_ok (vspwd_bridge_push_time_code s) /\ sessions_same s (vspwd_bridge_push_time_code s).
Proof.
  intros Hs He. unfold vspwd_bridge_push_time_code.
  destruct (sw_bridge _ (proj1 Hs)) as (Hu & _ & _ & _ & Hen).
  destruct (Hen He) as (Hid & _ & _). set (id := b_port_id (s_bridge s)) in *.
  pose proof (peer_range id) as Hpeer. set (local := vspwd_peer_port id) in *.
  destruct (_ || _) eqn:E; [done|]. apply orb_false_iff in E as [_ Hc]. apply Nat.leb_gt in Hc.
  pose proof (receive_time_code_runs o Inv (b_udp_port (s_bridge s)) zero_time_code
    SPW_TIMEOUT_IMMEDIATE Hu) as H.
  destruct (spw_port_receive_time_code _ _ _) as [[r out] udp]. destruct H as [Hu' Hr].
  pose proof (set_udp_port_ok s udp Hs Hu') as Hs1. case_if; [done|].
  destruct (sw_port _ (proj1 Hs) local Hpeer) as (H1 & H2 & H3).
  apply mark_two_ok; [|done]. apply set_statistics_ok; [|done]. apply upd_port_ok; try done.
  split; [done|]. split; [apply time_codes_push_wf; try done; apply Hr; lia|done].
Qed.


Lemma refresh_enabled s : server_wf s ->
  b_enabled (s_bridge (vspwd_bridge_refresh_state s)) = b_enabled (s_bridge s).
Proof.
  intros Hw. unfold vspwd_bridge_refresh_state. case_if; [done|].
  destruct (spw_port_get_link_state _ _) as [[r out] udp].
  destruct (_ =? b_state (s_bridge s)); [done|]. rewrite update_states_unfold.
  assert (forall s id, s_bridge (vspwd_update_state s id) = s_bridge s) as Hu.
  { intros s' id. unfold vspwd_update_state. do 2 (case_if; [done|]). rewrite bridge_mark.
    by case_if. }
  rewrite !Hu. destruct (p_state _ =? _); [done|]. rewrite bridge_mark.
  by destruct (_ =? SPW_LINK_ERROR_WAIT).
Qed.

Lemma transfers_enabled s :
  b_enabled (s_bridge (vspwd_bridge_pop_packet s)) = b_enabled (s_bridge s) /\
  b_enabled (s_bridge (vspwd_bridge_pop_time_code s)) = b_enabled (s_bridge s) /\
  b_enabled (s_bridge (vspwd_bridge_push_packet s)) = b_enabled (s_bridge s).
Proof.
  unfold vspwd_bridge_pop_packet, vspwd_bridge_pop_time_code, vspwd_bridge_push_packet.
  cbn zeta. split; [|split].
  - case_if; [done|]. destruct (spw_port_send _ _ _). case_if; [done|]. by rewrite bridge_mark.
  - case_if; [done|]. destruct (spw_port_send_time_code _ _ _). case_if; [done|].
    by rewrite bridge_mark.
  - case_if; [done|]. destruct (spw_port_receive _ _ _) as [[??]?]. case_if; [done|].
    by rewrite !bridge_mark.
Qed.

Lemma service_bridge_ok s : server_ok s ->
  server_ok (vspwd_service_bridge s) /\ sessions_same s (vspwd_service_bridge s).
Proof.
  intros Hs. unfold vspwd_service_bridge. destruct (b_enabled _) eqn:He; [|done]. cbn [negb].
  destruct (bridge_refresh_ok s Hs) as [H1 V1].
  pose proof (refresh_enabled s (proj1 Hs)) as E1. rewrite He in E1.
  set (s1 := vspwd_bridge_refresh_state s) in *. case_if; [done|].
  destruct (transfers_enabled s1) as (E2 & _). rewrite E1 in E2.
  destruct (bridge_pop_packet_ok s1 H1 E1) as [H2 V2].
  set (s2 := vspwd_bridge_pop_packet s1) in *.
  destruct (transfers_enabled s2) as (_ & E3 & _). rewrite E2 in E3.
  destruct (bridge_pop_time_code_ok s2 H2 E2) as [H3 V3].
  set (s3 := vspwd_bridge_pop_time_code s2) in *.
  destruct (transfers_enabled s3) as (_ & _ & E4). rewrite E3 in E4.
  destruct (bridge_push_packet_ok s3 H3 E3) as [H4 V4].
  set (s4 := vspwd_bridge_push_packet s3) in *.
  destruct (bridge_push_time_code_ok s4 H4 E4) as [H5 V5].
  set (s5 := vspwd_bridge_push_time_code s4) in *.
  destruct (bridge_refresh_ok s5 H5) as [H6 V6]. split; [done|].
  by repeat (eapply sessions_trans; [eassumption|]).
Qed.

(** The initial server is consistent. *)
Lemma init_server_ok : server_ok (vspwd_init_server (B := B)).
Proof.
  set (p0 := set_p_next_message_id 1
    (set_p_state SPW_LINK_ERROR_RESET (set_p_client_index (-1) port_zero))).
  assert (forall id, 0 <= id < VSPWD_PORT_COUNT ->
    port_at (vspwd_init_server (B := B)) id = p0) as Hat.
  { intros id Hid. apply lookup_total_replicate_2. slia. }
  assert (forall i, 0 <= i < VSPWD_CLIENT_COUNT ->
    client_at (vspwd_init_server (B := B)) i = closed_client) as Hct.
  { intros i Hi. apply lookup_total_replicate_2. slia. }
  split.
  - constructor; try done.
    + intros i Hi. rewrite Hct by done. apply fresh_client_wf.
    + intros id Hid. rewrite Hat by done.
      split; [|split; [split; [apply ring_empty_wf, Nat.lt_0_succ|done]|split; [cbn; state_lia|done]]].
      split; [apply ring_empty_wf, Nat.lt_0_succ|]. split; [|done].
      apply Forall_replicate, storage_ok_nil.
    + intros i Hi. rewrite Hct by done. done.
    + intros id Hid. rewrite Hat by done. done.
    + intros i Hi. rewrite Hct by done. done.
    + intros i id Hi Hid. rewrite Hct, Hat by done. cbn. lia.
    + split; [done|]. split; [apply storage_ok_nil|]. split; [cbn; state_lia|].
      split; [|done]. intros id Hid. by rewrite Hat.
  - intros id Hid. unfold expected_state. by rewrite Hat.
Qed.
End inv.
