(* ===== verification/ServerRequests.v ===== *)
(** * The vspwd server: requests

    Every request a client can send keeps the server consistent, and every
    answer the server stores is a record the client's decoder accepts. *)

From S2P Require Import Prelude Types VspwTp Ring Backend Loopback DriverApi PortConfig Port PortClient Vspd.
From S2P Require Import Server ServerInv.

(** A request as the codec lets it through to the switch. *)
Record request_ok (h : vspd_header) : Prop := {
  rq_range : vspd_header_in_range h = true;
  rq_type : vspd_type_valid (v_type h) = true;
  rq_event : vspd_type_is_event (v_type h) = false;
  rq_id : v_request_id h <> 0
}.

(** A response payload that fits the request. *)
Definition answer_ok (h : vspd_header) (status : Z) (payload : option (list Z)) (size : Z)
    : Prop :=
  VSPD_STATUS_BACKEND <= status <= VSPD_STATUS_OK /\ 0 <= size <= VSPD_STATISTICS_PAYLOAD_SIZE /\
  (status = VSPD_STATUS_OK ->
     size = vspd_success_response_payload_size (v_type h) /\
     (size <> 0 -> exists bs, payload = Some bs /\ Z.of_nat (length bs) = size /\
        vspd_validate_content (response_header h status size) bs = VSPD_CODEC_OK)).

Lemma response_valid h status payload size : request_ok h -> answer_ok h status payload size ->
  exists bs, valid_record (response_header h status size) bs /\
    (v_payload_size (response_header h status size) <> 0 -> payload = Some bs) /\
    (v_payload_size (response_header h status size) = 0 -> bs = []).
Proof.
  intros [Hr Ht He Hid] (Hst & Hsz & Hok).
  exists (if v_payload_size (response_header h status size) =? 0 then [] else default [] payload).
  unfold vspd_header_in_range, in_width in Hr. split_andb.
  unfold VSPD_STATUS_BACKEND, VSPD_STATUS_OK, VSPD_STATISTICS_PAYLOAD_SIZE in *.
  assert (vspd_header_in_range (response_header h status size) = true /\
    vspd_validate_common (response_header h status size) = VSPD_CODEC_OK /\
    vspd_validate_shape_fields (response_header h status size) = VSPD_CODEC_OK)
    as (Hrange & Hcommon & Hshape).
  { split; [|split].
    - unfold vspd_header_in_range, in_width.
      cbn [response_header v_magic v_version_major v_version_minor v_type v_flags v_header_size
        v_reserved v_payload_size v_request_id v_port_id v_message_id v_fragment_offset
        v_total_size v_status].
      unfold VSPD_MAGIC, VSPD_VERSION_MAJOR, VSPD_VERSION_MINOR, VSPD_FLAG_RESPONSE,
        VSPD_HEADER_SIZE. destruct (status =? VSPD_STATUS_OK); lia.
    - unfold vspd_validate_common. cbn -[Z.land Z.lnot wrap vspd_type_valid].
      rewrite Ht. cbn [negb].
      change (VSPD_FLAG_RESPONSE .& u8 (Z.lnot VSPD_FLAG_KNOWN_MASK) =? 0) with true. cbn [negb].
      unfold VSPD_MAX_FRAME_PAYLOAD. case_if; case_if; lia || done.
    - unfold vspd_validate_shape_fields.
      change (vspd_flag (response_header h status size) VSPD_FLAG_RESPONSE) with true.
      cbn [response_header v_type v_request_id v_message_id v_fragment_offset v_total_size
        v_flags v_status v_payload_size].
      change (vspd_has_data_flags VSPD_FLAG_RESPONSE) with false.
      unfold vspd_type_allows_response, vspd_status_valid, VSPD_STATUS_OK, VSPD_STATUS_BACKEND.
      rewrite He. replace (v_request_id h =? 0) with false by lia.
      replace (status <=? 0) with true by lia. replace (-9 <=? status) with true by lia.
      cbn [negb orb andb Z.eqb].
      destruct (status =? 0) eqn:E; [|done].
      destruct Hok as [-> _]; [lia|]. by rewrite Z.eqb_refl. }
  assert (v_payload_size (response_header h status size) = if status =? 0 then size else 0)
    as Hps by done. rewrite Hps in *.
  assert ((if status =? 0 then size else 0) <> 0 -> exists bs, payload = Some bs /\
    Z.of_nat (length bs) = (if status =? 0 then size else 0) /\
    vspd_validate_content (response_header h status size) bs = VSPD_CODEC_OK) as Hpl.
  { intros Hnz. case_if; [|lia]. destruct Hok as [_ Hp]; [lia|]. by apply Hp. }
  destruct (Z.eqb_spec (if status =? 0 then size else 0) 0) as [E|E].
  - split; [|done]. constructor; try done.
    rewrite Hps, E. unfold vspd_validate_payload_shape. by rewrite Hshape, Hps, E.
  - destruct (Hpl E) as (bs & -> & Hl & Hc). split; [|done]. cbn [default].
    constructor; try done.
    rewrite Hps, (proj2 (Z.eqb_neq _ _) E). unfold vspd_validate_payload_shape.
    by rewrite Hshape.
Qed.

Lemma queue_response_ok c h status payload size :
  client_wf c -> c_response_pending c = false -> request_ok h ->
  answer_ok h status payload size ->
  exists response n, vspwd_queue_response c h status payload size =
      (true, set_c_response_pending true (set_c_response_size n (set_c_response response c))) /\
    response_ok response n /\ Z.of_nat (length response) <= VSPWD_RESPONSE_MAX /\
    exists bs, mem_read response 0 (Z.to_nat n) =
      vspd_header_bytes (response_header h status size) ++ bs /\
      valid_record (response_header h status size) bs /\
      (v_payload_size (response_header h status size) <> 0 -> payload = Some bs).
Proof.
  intros (_ & Hlen & _) Hp Hreq Ha. destruct (response_valid h status payload size Hreq Ha)
    as (bs & Hv & Hbs & Hnil). pose proof Hv as [Hr Hc Hl Hs].
  unfold vspwd_queue_response. rewrite Hp. cbn [orb].
  destruct Ha as (_ & Hsz & _). replace (_ <? size) with false by lia.
  rewrite vspd_encode_header_bytes by done. rewrite Z.eqb_refl. cbn [negb].
  set (r := response_header h status size) in *.
  assert (length (vspd_header_bytes r) = 40%nat) as H40 by done.
  unfold VSPWD_RESPONSE_MAX, VSPD_HEADER_SIZE, VSPD_STATISTICS_PAYLOAD_SIZE in *.
  assert (v_payload_size r <= 72) as Hrs by (unfold r; cbn; case_if; lia).
  destruct (v_payload_size r =? 0) eqn:E; cbn [negb].
  - assert (forall m, mem_read (vspd_header_bytes r ++ m) 0 (Z.to_nat (40 + 0)) =
      vspd_header_bytes r) as Hread.
    { intros m. rewrite mem_read_0_take by (rewrite length_app, H40; cbn; lia).
      by apply take_app_length'. }
    eexists _, _. split; [done|]. split.
    + exists r, []. rewrite Hnil in Hv by lia. split; [done|]. split; [done|].
      split; [done|]. replace (v_payload_size r) with 0 by lia.
      by rewrite app_nil_r, Hread.
    + rewrite length_app, length_drop, H40. split; [lia|]. exists []. rewrite app_nil_r.
      rewrite Hnil in Hv by lia. split; [|split; [done|lia]].
      replace (v_payload_size r) with 0 by lia. apply Hread.
  - rewrite Hbs by lia. eexists _, _. split; [done|].
    cbn [c_response set_c_response].
    change (Z.to_nat VSPD_HEADER_SIZE) with 40%nat.
    assert (mem_read bs 0 (Z.to_nat (v_payload_size r)) = bs) as ->.
    { rewrite <- Hl, Nat2Z.id, mem_read_0_take by done. by apply firstn_all. }
    rewrite mem_write_app by done.
    set (m := (vspd_header_bytes r ++ bs) ++ _).
    assert (mem_read m 0 (Z.to_nat (40 + v_payload_size r)) = vspd_header_bytes r ++ bs) as Hread.
    { unfold m. rewrite mem_read_0_take by (rewrite !length_app, H40; lia).
      apply take_app_length'. rewrite length_app, H40. lia. }
    split; [by exists r, bs|]. split; [|by exists bs].
    unfold m. rewrite !length_app, !length_drop, H40. lia.
Qed.

Lemma answer_none h status : VSPD_STATUS_BACKEND <= status <= VSPD_STATUS_OK ->
  vspd_success_response_payload_size (v_type h) = 0 -> answer_ok h status None 0.
Proof. intros Hs Hz. split; [done|]. split; [done|]. intros _. by rewrite Hz. Qed.

Lemma answer_payload h status bs size : VSPD_STATUS_BACKEND <= status <= VSPD_STATUS_OK ->
  0 <= size <= VSPD_STATISTICS_PAYLOAD_SIZE ->
  size = vspd_success_response_payload_size (v_type h) ->
  (status = VSPD_STATUS_OK -> Z.of_nat (length bs) = size /\
     vspd_validate_content (response_header h status size) bs = VSPD_CODEC_OK) ->
  answer_ok h status (Some bs) size.
Proof.
  intros Hs Hz Hsz Hb. split; [done|]. split; [done|]. intros H. split; [done|].
  intros _. destruct (Hb H). eauto.
Qed.

(** The contents of the payloads that the codec looks into. *)
Lemma content_link_state h state : v_type h = VSPD_MSG_GET_LINK_STATE -> link_state_ok state ->
  vspd_validate_content
    (response_header h VSPD_STATUS_OK VSPD_LINK_STATE_PAYLOAD_SIZE)
    (vspd_encode_u32_payload state []) = VSPD_CODEC_OK.
Proof.
  intros Ht Hs. unfold vspd_validate_content.
  cbn [response_header v_type v_payload_size v_status]. rewrite Ht.
  change (vspd_flag _ VSPD_FLAG_RESPONSE) with true.
  cbn [Z.eqb VSPD_MSG_GET_LINK_STATE VSPD_MSG_HELLO VSPD_MSG_TIME_CODE_TX VSPD_MSG_TIME_CODE_RX
    VSPD_MSG_GET_PORT_INFO VSPD_MSG_PORT_SNAPSHOT_EVENT VSPD_MSG_LINK_STATE_EVENT Pos.eqb
    andb orb VSPD_STATUS_OK VSPD_LINK_STATE_PAYLOAD_SIZE].
  assert (vspd_read_be32 (vspd_encode_u32_payload state []) 0 = state) as ->.
  { apply read_u32_bytes; [reflexivity..|state_lia]. }
  unfold VSPD_LINK_RUN. case_if; [state_lia|done].
Qed.

Lemma port_info_flags p :
  vp_flags (vspwd_port_info_to_wire p) .& u32 (Z.lnot VSPD_PORT_INFO_KNOWN_MASK) = 0 /\
  0 <= vp_flags (vspwd_port_info_to_wire p) < 2 ^ 32.
Proof.
  unfold vspwd_port_info_to_wire. cbn [vp_flags].
  by destruct (0 <=? p_client_index p), (p_started p), (p_reset_latched p), (p_ever_attached p),
    (p_bridged p).
Qed.

(** Both places where the codec checks a port description. *)
Lemma port_info_content p rest : link_state_ok (p_state p) ->
  negb (vspd_read_be32 (port_info_bytes (vspwd_port_info_to_wire p) ++ rest) 0 .&
        u32 (Z.lnot VSPD_PORT_INFO_KNOWN_MASK) =? 0) ||
  (VSPD_LINK_RUN <? vspd_read_be32 (port_info_bytes (vspwd_port_info_to_wire p) ++ rest) 4) =
  false.
Proof.
  intros Hs. destruct (port_info_flags p) as [Hf Hr].
  assert (vspd_read_be32 (port_info_bytes (vspwd_port_info_to_wire p) ++ rest) 0 =
    vp_flags (vspwd_port_info_to_wire p)) as -> by (apply read_u32_bytes; [reflexivity..|done]).
  assert (vspd_read_be32 (port_info_bytes (vspwd_port_info_to_wire p) ++ rest) 4 = p_state p)
    as -> by (apply read_u32_bytes; [reflexivity..|state_lia]).
  rewrite Hf. cbn [Z.eqb negb orb]. unfold VSPD_LINK_RUN. state_lia.
Qed.

Lemma content_port_info h p : v_type h = VSPD_MSG_GET_PORT_INFO -> link_state_ok (p_state p) ->
  vspd_validate_content
    (response_header h VSPD_STATUS_OK VSPD_PORT_INFO_PAYLOAD_SIZE)
    (vspd_encode_port_info (vspwd_port_info_to_wire p) []) = VSPD_CODEC_OK.
Proof.
  intros Ht Hs. unfold vspd_validate_content.
  cbn [response_header v_type v_payload_size v_status]. rewrite Ht.
  change (vspd_flag _ VSPD_FLAG_RESPONSE) with true.
  cbn [Z.eqb VSPD_MSG_GET_LINK_STATE VSPD_MSG_HELLO VSPD_MSG_TIME_CODE_TX VSPD_MSG_TIME_CODE_RX
    VSPD_MSG_GET_PORT_INFO VSPD_MSG_PORT_SNAPSHOT_EVENT VSPD_MSG_LINK_STATE_EVENT Pos.eqb
    andb orb VSPD_STATUS_OK VSPD_PORT_INFO_PAYLOAD_SIZE].
  rewrite encode_port_info_bytes. by rewrite port_info_content.
Qed.

(** ** Handlers *)

Section requests.
Context {B : Type} (o : spw_backend_ops B) (Inv : B -> Prop) `{!BackendOutputs o Inv}.
Implicit Types (s : vspwd_server B).
Abbreviation server_ok := (server_ok o Inv).
Abbreviation server_wf := (server_wf o Inv).

(** What holds when the switch is reached: client [i] is connected and has no
    answer outstanding, and request [h] with its payload passed validation. *)
Record request_in s (i : Z) (h : vspd_header) (payload : option (list Z)) : Prop := {
  ri_server : server_ok s;
  ri_index : 0 <= i < VSPWD_CLIENT_COUNT;
  ri_fd : 0 <= c_fd (client_at s i);
  ri_idle : c_response_pending (client_at s i) = false;
  ri_hello : c_hello_done (client_at s i) = true \/ v_type h = VSPD_MSG_HELLO;
  ri_request : request_ok h;
  ri_bytes : bytes_ok (default [] payload);
  ri_fragment : v_type h = VSPD_MSG_DATA_TX -> fragment_ok h;
  ri_time_code : v_type h = VSPD_MSG_TIME_CODE_TX ->
    time_code_ok {| time_count := mem_get (default [] payload) 0;
                    control_flags := mem_get (default [] payload) 1 |}
}.

(** Client [i] has an answer to [h] waiting: a record that validates and carries
    the request's type, identifier and port. *)
Definition answered_with s (i : Z) (h : vspd_header) (status : Z) : Prop :=
  let c := client_at s i in
  c_response_pending c = true /\ response_ok (c_response c) (c_response_size c) /\
  exists size bs,
    mem_read (c_response c) 0 (Z.to_nat (c_response_size c)) =
    vspd_header_bytes (response_header h status size) ++ bs.

Definition answered s (i : Z) (h : vspd_header) : Prop :=
  exists status, answered_with s i h status.

(** A handler that keeps the server consistent and answers. *)
Definition answers (i : Z) (h : vspd_header) (r : bool * vspwd_server B) : Prop :=
  r.1 = true /\ server_ok r.2 /\ answered r.2 i h.

(** The answer is stored and nothing else changes. *)
Lemma respond_with s i h status payload size : server_ok s -> 0 <= i < VSPWD_CLIENT_COUNT ->
  c_response_pending (client_at s i) = false -> request_ok h -> answer_ok h status payload size ->
  let r := respond s i h status payload size in
  r.1 = true /\ server_ok r.2 /\ answered_with r.2 i h status.
Proof.
  intros Hs Hi Hp Hr Ha. cbn zeta. unfold respond.
  pose proof (sw_client _ _ _ (proj1 Hs) i Hi) as Hc.
  destruct (queue_response_ok (client_at s i) h status payload size Hc Hp Hr Ha)
    as (response & n & -> & Hok & Hlen & bs & Hbs & _). split; [done|]. cbn [snd]. split.
  - apply upd_client_ok; try done. destruct Hc as (_ & _ & Hra). by split.
  - unfold answered_with. rewrite client_at_upd, Z.eqb_refl by (apply (proj1 Hs) || lia).
    split; [done|]. split; [done|]. by exists size, bs.
Qed.

Lemma respond_ok s i h status payload size : server_ok s -> 0 <= i < VSPWD_CLIENT_COUNT ->
  c_response_pending (client_at s i) = false -> request_ok h -> answer_ok h status payload size ->
  answers i h (respond s i h status payload size).
Proof.
  intros. destruct (respond_with s i h status payload size) as (? & ? & ?); try done.
  split; [done|]. split; [done|]. by exists status.
Qed.

Lemma respond_session s i h status payload size : server_ok s -> 0 <= i < VSPWD_CLIENT_COUNT ->
  c_response_pending (client_at s i) = false -> request_ok h -> answer_ok h status payload size ->
  exists response n, (respond s i h status payload size).2 =
    upd_client i (fun _ => set_c_response_pending true (set_c_response_size n
      (set_c_response response (client_at s i)))) s.
Proof.
  intros Hs Hi Hp Hr Ha. unfold respond. pose proof (sw_client _ _ _ (proj1 Hs) i Hi) as Hc.
  destruct (queue_response_ok (client_at s i) h status payload size Hc Hp Hr Ha)
    as (response & n & -> & _). by exists response, n.
Qed.

Lemma attached_status c h :
  VSPD_STATUS_BACKEND <= vspwd_validate_attached_request c h <= VSPD_STATUS_OK /\
  (vspwd_validate_attached_request c h = VSPD_STATUS_OK -> 0 <= c_port_id c).
Proof.
  unfold vspwd_validate_attached_request. case_if; [done|]. split_andb. case_if; [done|].
  split; [done|]. intros _. lia.
Qed.

Lemma management_status c h b :
  VSPD_STATUS_BACKEND <= vspwd_validate_management_request c h b <= VSPD_STATUS_OK /\
  (vspwd_validate_management_request c h b = VSPD_STATUS_OK ->
     c_port_id c < 0 /\ (b = true -> v_port_id h < VSPWD_PORT_COUNT)).
Proof.
  unfold vspwd_validate_management_request. case_if; [done|]. split_andb. case_if; [done|].
  split; [done|]. intros _. split; [lia|]. intros ->. cbn [andb] in E. lia.
Qed.

Lemma request_port_id h : request_ok h -> 0 <= v_port_id h < 2 ^ 32.
Proof.
  intros [Hr _ _ _]. unfold vspd_header_in_range, in_width in Hr. split_andb. lia.
Qed.

(** A changed server that kept the sessions can still answer. *)
Lemma respond_after s s' i h status payload size : server_ok s' ->
  sessions_same s s' -> 0 <= i < VSPWD_CLIENT_COUNT ->
  c_response_pending (client_at s i) = false -> request_ok h -> answer_ok h status payload size ->
  answers i h (respond s' i h status payload size).
Proof.
  intros Hs' Hv Hi Hp Hr Ha. apply respond_ok; try done.
  pose proof (Hv i Hi) as H. injection H as _ _ _ -> _ _. done.
Qed.

Ltac ok_status := unfold VSPD_STATUS_BACKEND, VSPD_STATUS_OK, VSPD_STATUS_INVALID_STATE,
  VSPD_STATUS_INVALID_ARGUMENT, VSPD_STATUS_RESOURCE_EXHAUSTED, VSPD_STATUS_LINK_UNAVAILABLE in *;
  lia.

(** The answer to a request whose success has no payload. *)
Ltac none_answer Ht := apply answer_none; [first [done|ok_status|apply attached_status|apply management_status]|by rewrite Ht].

Lemma hello_ok s i h payload : request_in s i h payload -> v_type h = VSPD_MSG_HELLO ->
  answers i h (handle_hello s i h payload).
Proof.
  intros [Hs Hi Hfd Hp _ Hr _ _ _] Ht. unfold handle_hello.
  assert (forall status, VSPD_STATUS_BACKEND <= status <= VSPD_STATUS_OK ->
    answer_ok h status (Some [VSPD_VERSION_MAJOR; VSPD_VERSION_MINOR; 0; 0])
      VSPD_HELLO_PAYLOAD_SIZE) as Ha.
  { intros status Hst. apply answer_payload; [done|done|by rewrite Ht|].
    intros ->. split; [done|]. unfold vspd_validate_content.
    cbn [response_header v_type v_payload_size v_status]. by rewrite Ht. }
  case_if.
  - by apply respond_ok; try done; apply Ha.
  - assert (server_ok (upd_client i (set_c_hello_done true) s)) as Hs1.
    { apply upd_client_ok; try done; [by apply (proj1 Hs)|lia]. }
    apply respond_ok; try done; [|by apply Ha].
    rewrite client_at_upd, Z.eqb_refl by (apply (proj1 Hs) || lia). done.
Qed.

Lemma attach_request_ok s i h payload : request_in s i h payload -> v_type h = VSPD_MSG_ATTACH ->
  answers i h (handle_attach s i h payload).
Proof.
  intros [Hs Hi Hfd Hp Hh Hr _ _ _] Ht. unfold handle_attach.
  assert (forall status, VSPD_STATUS_BACKEND <= status <= VSPD_STATUS_OK ->
    answer_ok h status None 0) as Ha by (intros; apply answer_none; [done|by rewrite Ht]).
  destruct (_ || _) eqn:E1; [by apply respond_ok; try done; apply Ha|]. split_andb.
  case_if; [by apply respond_ok; try done; apply Ha|]. split_andb.
  case_if; [by apply respond_ok; try done; apply Ha|].
  case_if; [by apply respond_ok; try done; apply Ha|].
  destruct (attach_ok o Inv s i (i32 (v_port_id h)) (proj1 Hs) Hi) as [Hok Hv]; try done; try slia.
  apply respond_ok; try done; [|by apply Ha].
  pose proof (Hv i Hi) as Hvi. rewrite Z.eqb_refl in Hvi. injection Hvi as _ _ _ -> _ _. done.
Qed.

Lemma detach_request_ok s i h payload : request_in s i h payload -> v_type h = VSPD_MSG_DETACH ->
  answers i h (handle_detach s i h payload).
Proof.
  intros [Hs Hi Hfd Hp Hh Hr _ _ _] Ht. unfold handle_detach.
  destruct (attached_status (client_at s i) h) as [Hst _].
  set (status := vspwd_validate_attached_request _ h) in *.
  destruct (respond_ok s i h status None 0) as [H1 H2]; try done; [none_answer Ht|].
  destruct (respond s i h status None 0) as [ok s']. cbn [fst snd] in *. subst ok. cbn [negb].
  destruct H2 as [H2 Ha]. split; [done|]. cbn [snd]. case_if; [|done].
  destruct (detach_ok o Inv s' i (proj1 H2) Hi) as (Hd & Hv & _). split; [done|].
  specialize (Hv i Hi). rewrite Z.eqb_refl in Hv. injection Hv as _ _ _ Hv1 Hv2 Hv3.
  unfold answered, answered_with. rewrite Hv1, Hv2, Hv3. exact Ha.
Qed.

Lemma link_control_request_ok change clear s i h payload :
  request_in s i h payload -> vspd_success_response_payload_size (v_type h) = 0 ->
  (forall p, port_wf p -> port_wf (change p) /\ p_client_index (change p) = p_client_index p /\
     p_bridged (change p) = p_bridged p /\ p_state (change p) = p_state p) ->
  answers i h (handle_link_control change clear s i h payload).
Proof.
  intros [Hs Hi Hfd Hp Hh Hr _ _ _] Ht Hch. unfold handle_link_control.
  destruct (attached_status (client_at s i) h) as [Hst Hatt].
  set (status := vspwd_validate_attached_request _ h) in *.
  assert (answer_ok h status None 0) as Ha by (by apply answer_none).
  destruct (status =? VSPD_STATUS_OK) eqn:E; [|by apply respond_ok].
  pose proof (link_control_ok o Inv s i change (proj1 Hs) Hi) as Hw.
  specialize (Hw ltac:(apply Hatt; lia) Hch). set (s1 := upd_port _ change s) in *.
  set (g := fun c => set_c_reassembly (vspwd_clear_reassembly (c_reassembly c)) c).
  assert (server_wf (upd_client i g s1)) as Hw2.
  { apply upd_client_wf; try done. destruct (sw_client _ _ _ Hw i Hi) as (H1 & H2 & H3).
    split; [done|]. split; [done|by apply clear_reassembly_wf]. }
  destruct clear.
  - apply (respond_after s); try done; [by apply update_states_ok|].
    eapply sessions_trans; [|by eapply sessions_update_states].
    apply (sessions_upd_client s1); try done. apply Hw.
  - apply (respond_after s); try done; [by apply update_states_ok|].
    eapply (sessions_trans _ s1); [by apply sessions_clients|by eapply sessions_update_states].
Qed.


(** Requests that only read: a payload computed from the server. *)
Lemma query_ok s i h payload status bs size : request_in s i h payload ->
  VSPD_STATUS_BACKEND <= status <= VSPD_STATUS_OK ->
  0 <= size <= VSPD_STATISTICS_PAYLOAD_SIZE ->
  size = vspd_success_response_payload_size (v_type h) ->
  (status = VSPD_STATUS_OK -> Z.of_nat (length bs) = size /\
     vspd_validate_content (response_header h VSPD_STATUS_OK size) bs = VSPD_CODEC_OK) ->
  let answer := if status =? VSPD_STATUS_OK then bs else [] in
  answers i h (respond s i h status (Some answer) size).
Proof.
  intros [Hs Hi Hfd Hp Hh Hr _ _ _] Hst Hsz Hsize Hb. cbn zeta.
  apply respond_ok; try done. apply answer_payload; try done. intros ->. by apply Hb.
Qed.

Lemma length_statistics_payload p : length (statistics_payload p) = 72%nat.
Proof.
  pose proof (encode_statistics_bytes (vspwd_statistics_to_wire (p_statistics p)) [] []) as H.
  unfold statistics_payload. cbn [app length] in H. by rewrite H.
Qed.

Lemma content_statistics h bs : v_type h = VSPD_MSG_GET_STATISTICS \/
    v_type h = VSPD_MSG_GET_PORT_STATISTICS ->
  vspd_validate_content
    (response_header h VSPD_STATUS_OK VSPD_STATISTICS_PAYLOAD_SIZE) bs = VSPD_CODEC_OK.
Proof.
  intros Ht. unfold vspd_validate_content.
  cbn [response_header v_type v_payload_size v_status]. by destruct Ht as [-> | ->].
Qed.

Lemma get_link_state_ok s i h payload :
  request_in s i h payload -> v_type h = VSPD_MSG_GET_LINK_STATE ->
  answers i h (handle_get_link_state s i h payload).
Proof.
  intros Hin Ht. destruct (attached_status (client_at s i) h) as [Hst Hatt].
  apply (query_ok s i h payload); try done; [by rewrite Ht|]. intros Hok. split; [done|].
  apply content_link_state; [done|]. destruct Hin as [Hs Hi _ _ _ _ _ _ _].
  pose proof (sw_port_id _ _ _ (proj1 Hs) i Hi). apply (sw_port _ _ _ (proj1 Hs)).
  specialize (Hatt Hok). lia.
Qed.

Lemma get_capabilities_ok s i h payload :
  request_in s i h payload -> v_type h = VSPD_MSG_GET_CAPABILITIES ->
  answers i h (handle_get_capabilities s i h payload).
Proof.
  intros Hin Ht. destruct (attached_status (client_at s i) h) as [Hst Hatt].
  apply (query_ok s i h payload); try done; [by rewrite Ht|]. intros Hok. split; [done|].
  unfold vspd_validate_content. cbn [response_header v_type v_payload_size v_status].
  by rewrite Ht.
Qed.

Lemma get_statistics_ok s i h payload :
  request_in s i h payload -> v_type h = VSPD_MSG_GET_STATISTICS ->
  answers i h (handle_get_statistics s i h payload).
Proof.
  intros Hin Ht. destruct (attached_status (client_at s i) h) as [Hst Hatt].
  apply (query_ok s i h payload); try done; [by rewrite Ht|]. intros Hok.
  split; [by rewrite length_statistics_payload|apply content_statistics; auto].
Qed.

Lemma get_server_info_ok s i h payload :
  request_in s i h payload -> v_type h = VSPD_MSG_GET_SERVER_INFO ->
  answers i h (handle_get_server_info s i h payload).
Proof.
  intros Hin Ht. destruct (management_status (client_at s i) h false) as [Hst Hatt].
  apply (query_ok s i h payload); try done; [by rewrite Ht|]. intros Hok. split; [done|].
  unfold vspd_validate_content. cbn [response_header v_type v_payload_size v_status].
  by rewrite Ht.
Qed.

Lemma get_port_info_ok s i h payload :
  request_in s i h payload -> v_type h = VSPD_MSG_GET_PORT_INFO ->
  answers i h (handle_get_port_info s i h payload).
Proof.
  intros Hin Ht. destruct (management_status (client_at s i) h true) as [Hst Hatt].
  apply (query_ok s i h payload); try done; [by rewrite Ht|]. intros Hok. split.
  - by rewrite encode_port_info_bytes.
  - apply content_port_info; [done|]. destruct Hin as [Hs Hi _ _ _ Hr _ _ _].
    apply (sw_port _ _ _ (proj1 Hs)). pose proof (request_port_id h Hr).
    destruct (Hatt Hok) as [_ Hlt]. specialize (Hlt eq_refl). lia.
Qed.

Lemma get_port_statistics_ok s i h payload :
  request_in s i h payload -> v_type h = VSPD_MSG_GET_PORT_STATISTICS ->
  answers i h (handle_get_port_statistics s i h payload).
Proof.
  intros Hin Ht. destruct (management_status (client_at s i) h true) as [Hst Hatt].
  apply (query_ok s i h payload); try done; [by rewrite Ht|]. intros Hok.
  split; [by rewrite length_statistics_payload|apply content_statistics; auto].
Qed.

Lemma clear_port_statistics_ok s id : server_ok s -> 0 <= id < VSPWD_PORT_COUNT ->
  server_ok (clear_port_statistics s id) /\ sessions_same s (clear_port_statistics s id).
Proof.
  intros Hs Hid. apply mark_step_ok; [|done]. apply upd_port_ok; try done.
  apply (sw_port _ _ _ (proj1 Hs) id Hid).
Qed.

Lemma clear_statistics_ok s i h payload :
  request_in s i h payload -> v_type h = VSPD_MSG_CLEAR_STATISTICS ->
  answers i h (handle_clear_statistics s i h payload).
Proof.
  intros [Hs Hi Hfd Hp Hh Hr _ _ _] Ht. unfold handle_clear_statistics.
  destruct (attached_status (client_at s i) h) as [Hst Hatt].
  set (status := vspwd_validate_attached_request _ h) in *.
  assert (answer_ok h status None 0) as Ha by (none_answer Ht).
  destruct (status =? VSPD_STATUS_OK) eqn:E; [|by apply respond_ok].
  pose proof (sw_port_id _ _ _ (proj1 Hs) i Hi) as Hpi. specialize (Hatt ltac:(lia)).
  destruct (clear_port_statistics_ok s (c_port_id (client_at s i)) Hs) as [H1 H2]; [lia|].
  by apply (respond_after s).
Qed.

Lemma clear_port_statistics_request_ok s i h payload :
  request_in s i h payload -> v_type h = VSPD_MSG_CLEAR_PORT_STATISTICS ->
  answers i h (handle_clear_port_statistics s i h payload).
Proof.
  intros [Hs Hi Hfd Hp Hh Hr _ _ _] Ht. unfold handle_clear_port_statistics.
  destruct (management_status (client_at s i) h true) as [Hst Hatt].
  set (status := vspwd_validate_management_request _ h true) in *.
  assert (answer_ok h status None 0) as Ha by (none_answer Ht).
  destruct (status =? VSPD_STATUS_OK) eqn:E; [|by apply respond_ok].
  pose proof (request_port_id h Hr). destruct (Hatt ltac:(lia)) as [_ Hlt].
  specialize (Hlt eq_refl).
  destruct (clear_port_statistics_ok s (v_port_id h) Hs) as [H1 H2]; [lia|].
  by apply (respond_after s).
Qed.

(** Subscriptions change the two monitor masks of the client. *)
Lemma subscription_ok s i h status (f : vspwd_client -> vspwd_client) :
  server_ok s -> 0 <= i < VSPWD_CLIENT_COUNT -> c_response_pending (client_at s i) = false ->
  request_ok h -> answer_ok h status None 0 ->
  (forall c, client_wf c -> client_wf (f c) /\ session_view (f c) = session_view c) ->
  let s' := if status =? VSPD_STATUS_OK then upd_client i f s else s in
  answers i h (respond s' i h status None 0).
Proof.
  intros Hs Hi Hp Hr Ha Hf. cbn zeta. case_if; [|by apply respond_ok].
  destruct (Hf (client_at s i)) as [Hw Hv]; [by apply (sw_client _ _ _ (proj1 Hs))|].
  injection Hv as H1 H2 H3 H4 H5 H6. apply (respond_after s); try done.
  - by apply upd_client_ok.
  - apply sessions_upd_client; try done; [apply (proj1 Hs)|]. unfold session_view. congruence.
Qed.

Lemma subscribe_ok s i h payload :
  request_in s i h payload -> v_type h = VSPD_MSG_SUBSCRIBE_PORT ->
  answers i h (handle_subscribe_port s i h payload).
Proof.
  intros [Hs Hi Hfd Hp Hh Hr _ _ _] Ht.
  destruct (management_status (client_at s i) h true) as [Hst _].
  by apply subscription_ok; try done; none_answer Ht.
Qed.

Lemma unsubscribe_ok s i h payload :
  request_in s i h payload -> v_type h = VSPD_MSG_UNSUBSCRIBE_PORT ->
  answers i h (handle_unsubscribe_port s i h payload).
Proof.
  intros [Hs Hi Hfd Hp Hh Hr _ _ _] Ht.
  destruct (management_status (client_at s i) h true) as [Hst _].
  by apply subscription_ok; try done; none_answer Ht.
Qed.


Lemma accept_status s i h payload :
  VSPD_STATUS_BACKEND <= (vspwd_accept_data_fragment s i h payload).1 <= VSPD_STATUS_OK.
Proof.
  unfold vspwd_accept_data_fragment. destruct (begin_or_continue _ h); [|done].
  destruct (negb (vspd_flag h VSPD_FLAG_FRAGMENT_END)); [done|].
  destruct (negb (ra_next_offset _ =? _)); [done|]. destruct (negb (p_state _ =? _)); [done|].
  destruct (_ <=? _)%nat; [done|].
  destruct (vspwd_enqueue_packet _ _ _) as [[] ?]; done.
Qed.

(** The answer of DATA_TX comes with the last fragment; a fragment out of order
    ends the connection. *)
Lemma data_tx_ok s i h payload : request_in s i h payload -> v_type h = VSPD_MSG_DATA_TX ->
  let r := handle_data_tx s i h payload in
  server_ok r.2 /\
  (r.1 = true -> vspd_flag h VSPD_FLAG_FRAGMENT_END = true -> answered r.2 i h).
Proof.
  intros [Hs Hi Hfd Hp Hh Hr Hb Hf _] Ht. cbn zeta. unfold handle_data_tx. specialize (Hf Ht).
  destruct (attached_status (client_at s i) h) as [Hst Hatt].
  set (status := vspwd_validate_attached_request _ h) in *.
  assert (exists status' s', (if status =? VSPD_STATUS_OK
      then vspwd_accept_data_fragment s i h (default [] payload) else (status, s)) = (status', s') /\
    VSPD_STATUS_BACKEND <= status' <= VSPD_STATUS_OK /\ server_ok s' /\ sessions_same s s')
    as (status' & s' & -> & Hst' & Hs' & Hv).
  { case_if; [|by exists status, s].
    destruct (accept_data_fragment_ok o Inv s i h (default [] payload) Hs Hi
      ltac:(apply Hatt; lia) Hf Hb) as [H1 H2].
    pose proof (accept_status s i h (default [] payload)) as H3.
    destruct (vspwd_accept_data_fragment _ _ _ _) as [st s']. by exists st, s'. }
  assert (reassembly_wf (vspwd_clear_reassembly (c_reassembly (client_at s' i)))) as Hra.
  { apply clear_reassembly_wf. apply (sw_client _ _ _ (proj1 Hs') i Hi). }
  destruct (set_reassembly_ok o Inv s' i _ Hs' Hi Hra) as [Hc1 Hc2].
  unfold set_reassembly in Hc1, Hc2. case_if; [done|].
  destruct (vspd_flag h VSPD_FLAG_FRAGMENT_END); [cbn [negb]|done].
  assert (forall x, answers i h x -> server_ok x.2 /\ (x.1 = true -> true = true ->
    answered x.2 i h)) as Hx by (intros x (_ & ? & ?); done).
  apply Hx, (respond_after s); try done; [by eapply sessions_trans|]. by none_answer Ht.
Qed.

Lemma time_code_tx_ok s i h payload :
  request_in s i h payload -> v_type h = VSPD_MSG_TIME_CODE_TX ->
  answers i h (handle_time_code_tx s i h payload).
Proof.
  intros [Hs Hi Hfd Hp Hh Hr Hb _ Htc] Ht. unfold handle_time_code_tx. specialize (Htc Ht).
  destruct (attached_status (client_at s i) h) as [Hst Hatt].
  set (status0 := vspwd_validate_attached_request _ h) in *.
  pose proof (sw_port_id _ _ _ (proj1 Hs) i Hi) as Hpi.
  set (id := c_port_id (client_at s i)) in *.
  set (status := if _ && _ then VSPD_STATUS_LINK_UNAVAILABLE else status0).
  assert (VSPD_STATUS_BACKEND <= status <= VSPD_STATUS_OK /\
    (status = VSPD_STATUS_OK -> 0 <= id)) as [Hst1 Hid].
  { unfold status. case_if; [done|]. done. }
  destruct (status =? VSPD_STATUS_OK) eqn:E; [|apply respond_ok; try done; by none_answer Ht].
  specialize (Hid ltac:(lia)). destruct (_ <=? _)%nat eqn:Hc.
  - destruct (count_dropped_ok o Inv s id Hs) as [H1 H2]; [lia|].
    by apply (respond_after s); try done; none_answer Ht.
  - destruct (enqueue_time_code_ok o Inv s id _ Hs (conj Hid (proj2 Hpi)) Htc) as [H1 H2].
    destruct (vspwd_enqueue_time_code _ _ _) as [ok s']. cbn [snd] in *.
    by apply (respond_after s); try done; destruct ok; none_answer Ht.
Qed.

(** ** The switch *)

Lemma handler_ok s i h payload f : request_in s i h payload ->
  handler_of (v_type h) = Some f ->
  let r := f s i h payload in
  server_ok r.2 /\ (v_type h <> VSPD_MSG_DATA_TX -> r.1 = true /\ answered r.2 i h) /\
  (r.1 = true -> vspd_flag h VSPD_FLAG_FRAGMENT_END = true -> answered r.2 i h).
Proof.
  intros Hin Hf. cbn zeta.
  assert (forall r, answers i h r -> server_ok r.2 /\
    (v_type h <> VSPD_MSG_DATA_TX -> r.1 = true /\ answered r.2 i h) /\
    (r.1 = true -> vspd_flag h VSPD_FLAG_FRAGMENT_END = true -> answered r.2 i h)) as Hswap
    by (intros r (? & ? & ?); done).
  assert (forall p, port_wf p -> port_wf (vspwd_clear_port_queues p)) as Hclear
    by apply clear_port_queues_wf.
  unfold handler_of in Hf.
  destruct (v_type h =? VSPD_MSG_HELLO) eqn:E1;
    [injection Hf as <-; apply Hswap, hello_ok; [done|lia]|].
  destruct (v_type h =? VSPD_MSG_ATTACH) eqn:E2;
    [injection Hf as <-; apply Hswap, attach_request_ok; [done|lia]|].
  destruct (v_type h =? VSPD_MSG_DETACH) eqn:E3;
    [injection Hf as <-; apply Hswap, detach_request_ok; [done|lia]|].
  destruct (v_type h =? VSPD_MSG_START) eqn:E4;
    [injection Hf as <-; apply Hswap, link_control_request_ok; try done;
     replace (v_type h) with VSPD_MSG_START by lia; done|].
  destruct (v_type h =? VSPD_MSG_STOP) eqn:E5;
    [injection Hf as <-; apply Hswap, link_control_request_ok; try done;
     replace (v_type h) with VSPD_MSG_STOP by lia; done|].
  destruct (v_type h =? VSPD_MSG_RESET) eqn:E6;
    [injection Hf as <-; apply Hswap, link_control_request_ok; try done;
     [replace (v_type h) with VSPD_MSG_RESET by lia; done|]; intros p Hp; split; [|done];
     apply Hclear, Hp|].
  destruct (v_type h =? VSPD_MSG_GET_LINK_STATE) eqn:E7;
    [injection Hf as <-; apply Hswap, get_link_state_ok; [done|lia]|].
  destruct (v_type h =? VSPD_MSG_GET_CAPABILITIES) eqn:E8;
    [injection Hf as <-; apply Hswap, get_capabilities_ok; [done|lia]|].
  destruct (v_type h =? VSPD_MSG_DATA_TX) eqn:E9;
    [injection Hf as <-; destruct (data_tx_ok s i h payload Hin ltac:(lia)); split; [done|];
     split; [lia|done]|].
  destruct (v_type h =? VSPD_MSG_TIME_CODE_TX) eqn:E10;
    [injection Hf as <-; apply Hswap, time_code_tx_ok; [done|lia]|].
  destruct (v_type h =? VSPD_MSG_GET_STATISTICS) eqn:E11;
    [injection Hf as <-; apply Hswap, get_statistics_ok; [done|lia]|].
  destruct (v_type h =? VSPD_MSG_CLEAR_STATISTICS) eqn:E12;
    [injection Hf as <-; apply Hswap, clear_statistics_ok; [done|lia]|].
  destruct (v_type h =? VSPD_MSG_GET_SERVER_INFO) eqn:E13;
    [injection Hf as <-; apply Hswap, get_server_info_ok; [done|lia]|].
  destruct (v_type h =? VSPD_MSG_GET_PORT_INFO) eqn:E14;
    [injection Hf as <-; apply Hswap, get_port_info_ok; [done|lia]|].
  destruct (v_type h =? VSPD_MSG_GET_PORT_STATISTICS) eqn:E15;
    [injection Hf as <-; apply Hswap, get_port_statistics_ok; [done|lia]|].
  destruct (v_type h =? VSPD_MSG_CLEAR_PORT_STATISTICS) eqn:E16;
    [injection Hf as <-; apply Hswap, clear_port_statistics_request_ok; [done|lia]|].
  destruct (v_type h =? VSPD_MSG_SUBSCRIBE_PORT) eqn:E17;
    [injection Hf as <-; apply Hswap, subscribe_ok; [done|lia]|].
  destruct (v_type h =? VSPD_MSG_UNSUBSCRIBE_PORT) eqn:E18;
    [injection Hf as <-; apply Hswap, unsubscribe_ok; [done|lia]|done].
Qed.

(** A record that reaches the switch satisfies [request_in]. *)
Lemma validated_request s i frame h : server_ok s -> 0 <= i < VSPWD_CLIENT_COUNT ->
  0 <= c_fd (client_at s i) -> c_response_pending (client_at s i) = false -> bytes_ok frame ->
  vspd_validate_frame (Some frame) (Z.of_nat (length frame)) (Some header_zero) =
    (VSPD_CODEC_OK, Some h) ->
  vspd_flag h VSPD_FLAG_RESPONSE = false -> vspd_type_is_event (v_type h) = false ->
  c_hello_done (client_at s i) = true \/ v_type h = VSPD_MSG_HELLO ->
  request_in s i h (if v_payload_size h =? 0 then None else Some (drop 40 frame)).
Proof.
  intros Hs Hi Hfd Hp Hb Hv Hresp Hev Hh.
  destruct (validate_frame_inv frame (Z.of_nat (length frame)) header_zero h Hv)
    as (H40 & -> & Hc & Hn & Hsh).
  set (h := vspd_read_header frame) in *.
  assert (vspd_header_in_range h = true) as Hr by (by apply vspd_read_header_in_range).
  assert (frame_ok h (drop 40 frame)) as Hfo.
  { apply frame_accepted; try done. rewrite length_drop. unfold VSPD_HEADER_SIZE in *. lia. }
  destruct Hfo as [_ Hty Hpl Hmax Hreq _ _ Hdata Htc].
  assert (bytes_ok (drop 40 frame)) as Hbd by (by apply Forall_drop).
  constructor; try done.
  - constructor; try done. intros H0. apply Hreq in H0. congruence.
  - case_if; [constructor|done].
  - intros Ht. destruct (Hdata Hresp (or_introl Ht)) as (_ & Hd & _).
    unfold vspd_header_in_range, in_width in Hr. split_andb. unfold fragment_ok. lia.
  - intros Ht. destruct (Htc Hresp (or_introl Ht)) as (Hl2 & H0 & H1).
    rewrite Hl2 in Hpl. replace (v_payload_size h =? 0) with false by lia. cbn [default].
    pose proof (bytes_ok_get (drop 40 frame) 0 Hbd). pose proof (bytes_ok_get (drop 40 frame) 1 Hbd).
    unfold time_code_ok. cbn. lia.
Qed.

(** The header of a record that reaches the switch: it validates, it is a
    request, no answer is outstanding, and HELLO came first. *)
Definition admitted s (i : Z) (frame : list Z) : option vspd_header :=
  match vspd_validate_frame (Some frame) (Z.of_nat (length frame)) (Some header_zero) with
  | (r, Some h) =>
      if (r =? VSPD_CODEC_OK) && negb (c_response_pending (client_at s i)) &&
         negb (vspd_flag h VSPD_FLAG_RESPONSE) && negb (vspd_type_is_event (v_type h)) &&
         (c_hello_done (client_at s i) || (v_type h =? VSPD_MSG_HELLO))
      then Some h else None
  | _ => None
  end.

Lemma handler_total type : vspd_type_valid type = true -> vspd_type_is_event type = false ->
  is_Some (handler_of (B := B) type).
Proof.
  unfold vspd_type_valid, vspd_type_is_event, handler_of, VSPD_MSG_HELLO, VSPD_MSG_ATTACH,
    VSPD_MSG_DETACH, VSPD_MSG_START, VSPD_MSG_STOP, VSPD_MSG_RESET, VSPD_MSG_GET_LINK_STATE,
    VSPD_MSG_GET_CAPABILITIES, VSPD_MSG_DATA_TX, VSPD_MSG_TIME_CODE_TX, VSPD_MSG_GET_STATISTICS,
    VSPD_MSG_CLEAR_STATISTICS, VSPD_MSG_GET_SERVER_INFO, VSPD_MSG_GET_PORT_INFO,
    VSPD_MSG_GET_PORT_STATISTICS, VSPD_MSG_CLEAR_PORT_STATISTICS, VSPD_MSG_SUBSCRIBE_PORT,
    VSPD_MSG_UNSUBSCRIBE_PORT, VSPD_MSG_DATA_RX, VSPD_MSG_TIME_CODE_RX,
    VSPD_MSG_LINK_STATE_EVENT, VSPD_MSG_PORT_SNAPSHOT_EVENT.
  intros Hv He. repeat (case_if; [by eexists|]). exfalso. lia.
Qed.

(** A record that is not admitted is refused and changes nothing; one that is
    goes to its handler. *)
Lemma handle_request_spec s i frame : server_ok s -> 0 <= i < VSPWD_CLIENT_COUNT ->
  0 <= c_fd (client_at s i) -> bytes_ok frame ->
  let r := vspwd_handle_request s i frame (Z.of_nat (length frame)) in
  match admitted s i frame with
  | None => r = (false, s)
  | Some h =>
      server_ok r.2 /\ (v_type h <> VSPD_MSG_DATA_TX -> r.1 = true /\ answered r.2 i h) /\
      (r.1 = true -> vspd_flag h VSPD_FLAG_FRAGMENT_END = true -> answered r.2 i h)
  end.
Proof.
  intros Hs Hi Hfd Hb. cbn zeta. unfold vspwd_handle_request, admitted.
  destruct (vspd_validate_frame _ _ _) as [r [h|]] eqn:Ev; [|by case_if].
  destruct (c_response_pending (client_at s i)) eqn:Ep; [by rewrite andb_false_r|].
  destruct (Z.eqb_spec r VSPD_CODEC_OK) as [-> |]; [|done]. cbn [negb andb].
  destruct (vspd_flag h VSPD_FLAG_RESPONSE) eqn:Eresp; [done|]. cbn [negb andb orb].
  fold (vspd_type_is_event (v_type h)).
  destruct (vspd_type_is_event (v_type h)) eqn:Eev; [done|]. cbn [negb andb].
  assert (negb (c_hello_done (client_at s i)) && negb (v_type h =? VSPD_MSG_HELLO) =
    negb (c_hello_done (client_at s i) || (v_type h =? VSPD_MSG_HELLO))) as ->
    by (by rewrite negb_orb).
  destruct (c_hello_done (client_at s i) || _) eqn:Eh; [cbn [negb]|done].
  assert (request_in s i h (if v_payload_size h =? 0 then None else Some (drop 40 frame))) as Hin.
  { apply validated_request; try done. apply orb_true_iff in Eh as [Eh|Eh]; [by left|right; lia]. }
  destruct (handler_total (v_type h)) as [f Hf]; [apply Hin|done|].
  rewrite Hf. by apply handler_ok.
Qed.

(** Whatever record arrives, the server stays consistent. *)
Lemma handle_request_ok s i frame : server_ok s -> 0 <= i < VSPWD_CLIENT_COUNT ->
  0 <= c_fd (client_at s i) -> bytes_ok frame ->
  server_ok (vspwd_handle_request s i frame (Z.of_nat (length frame))).2.
Proof.
  intros Hs Hi Hfd Hb. pose proof (handle_request_spec s i frame Hs Hi Hfd Hb) as H.
  cbn zeta in H. destruct (admitted s i frame); [apply H|by rewrite H].
Qed.
End requests.
