(* ===== verification/ServerProps.v ===== *)
(** * The vspwd server: theorems

    The consistency of the server over every run of its main loop, whatever the
    operating system and the clients do; the validity of every record it sends;
    and the behaviour of links, packets and the bridge. *)

From S2P Require Import Prelude Types VspwTp Ring Backend Loopback DriverApi PortConfig Port PortClient Vspd.
From S2P Require Import Posix Server ServerLoop ServerInv ServerRequests.

(** ** Events are valid records *)

Definition plain_event (type size port_id : Z) : vspd_header :=
  event_header type 0 size port_id 0 0 0.

Lemma plain_event_valid type size port_id payload :
  vspd_type_is_event type = true -> type <> VSPD_MSG_DATA_RX ->
  0 <= port_id < 2 ^ 32 -> 0 < size <= VSPD_MAX_FRAME_PAYLOAD ->
  vspd_request_payload_wrong type size = false -> Z.of_nat (length payload) = size ->
  vspd_validate_content (plain_event type size port_id) payload = VSPD_CODEC_OK ->
  valid_record (plain_event type size port_id) payload.
Proof.
  intros Hev Hnd Hp Hs Hw Hl Hc.
  assert (VSPD_MSG_HELLO <= type <= VSPD_MSG_PORT_SNAPSHOT_EVENT) as Ht.
  { unfold vspd_type_is_event, VSPD_MSG_HELLO, VSPD_MSG_PORT_SNAPSHOT_EVENT, VSPD_MSG_DATA_RX,
      VSPD_MSG_TIME_CODE_RX, VSPD_MSG_LINK_STATE_EVENT in *. lia. }
  unfold VSPD_MSG_HELLO, VSPD_MSG_PORT_SNAPSHOT_EVENT, VSPD_MAX_FRAME_PAYLOAD in *.
  constructor; [| |done|].
  - unfold vspd_header_in_range, in_width, plain_event, event_header.
    cbn [v_magic v_version_major v_version_minor v_type v_flags v_header_size v_reserved
      v_payload_size v_request_id v_port_id v_message_id v_fragment_offset v_total_size v_status].
    unfold VSPD_MAGIC, VSPD_VERSION_MAJOR, VSPD_VERSION_MINOR, VSPD_HEADER_SIZE. lia.
  - unfold vspd_validate_common, vspd_type_valid, plain_event, event_header.
    cbn [v_magic v_version_major v_version_minor v_type v_flags v_header_size v_reserved
      v_payload_size]. rewrite !Z.eqb_refl. cbn [negb orb Z.land Z.eqb].
    unfold VSPD_MSG_HELLO, VSPD_MSG_PORT_SNAPSHOT_EVENT, VSPD_MAX_FRAME_PAYLOAD.
    replace (1 <=? type) with true by lia. replace (type <=? 22) with true by lia.
    cbn [andb negb]. case_if; [lia|done].
  - unfold vspd_validate_payload_shape.
    assert (vspd_validate_shape_fields (plain_event type size port_id) = VSPD_CODEC_OK) as ->.
    { unfold vspd_validate_shape_fields, plain_event, event_header.
      change (vspd_flag _ VSPD_FLAG_RESPONSE) with false.
      cbn [v_type v_flags v_status v_request_id v_message_id v_fragment_offset v_total_size
        v_payload_size]. rewrite Hev. cbn [Z.eqb negb].
      change (vspd_has_data_flags 0) with false.
      replace (type =? VSPD_MSG_DATA_RX) with false by lia.
      replace (type =? VSPD_MSG_DATA_TX) with false
        by (unfold vspd_type_is_event, VSPD_MSG_DATA_TX, VSPD_MSG_DATA_RX, VSPD_MSG_TIME_CODE_RX,
              VSPD_MSG_LINK_STATE_EVENT, VSPD_MSG_PORT_SNAPSHOT_EVENT in *; lia).
      cbn [orb]. by rewrite Hw. }
    change (v_payload_size (plain_event type size port_id)) with size.
    replace (size =? 0) with false by lia. exact Hc.
Qed.

Lemma link_state_event_valid port_id state : 0 <= port_id < 2 ^ 32 -> link_state_ok state ->
  valid_record (plain_event VSPD_MSG_LINK_STATE_EVENT VSPD_LINK_STATE_PAYLOAD_SIZE port_id)
    (vspd_encode_u32_payload state []).
Proof.
  intros Hp Hs. apply plain_event_valid; try done. unfold vspd_validate_content.
  change (vspd_flag _ VSPD_FLAG_RESPONSE) with false.
  cbn [plain_event event_header v_type v_payload_size v_status Z.eqb VSPD_MSG_GET_LINK_STATE
    VSPD_MSG_HELLO VSPD_MSG_TIME_CODE_TX VSPD_MSG_TIME_CODE_RX VSPD_MSG_GET_PORT_INFO
    VSPD_MSG_PORT_SNAPSHOT_EVENT VSPD_MSG_LINK_STATE_EVENT Pos.eqb
    andb orb VSPD_STATUS_OK VSPD_LINK_STATE_PAYLOAD_SIZE].
  assert (vspd_read_be32 (vspd_encode_u32_payload state []) 0 = state) as ->.
  { apply read_u32_bytes; [reflexivity..|state_lia]. }
  unfold VSPD_LINK_RUN. case_if; [state_lia|done].
Qed.

Lemma time_code_event_valid port_id tc : 0 <= port_id < 2 ^ 32 -> time_code_ok tc ->
  valid_record (plain_event VSPD_MSG_TIME_CODE_RX VSPD_TIME_CODE_PAYLOAD_SIZE port_id)
    [time_count tc; control_flags tc].
Proof.
  intros Hp [Ht Hc]. apply plain_event_valid; try done. unfold vspd_validate_content.
  change (vspd_flag _ VSPD_FLAG_RESPONSE) with false.
  cbn [plain_event event_header v_type v_payload_size v_status Z.eqb VSPD_MSG_GET_LINK_STATE
    VSPD_MSG_HELLO VSPD_MSG_TIME_CODE_TX VSPD_MSG_TIME_CODE_RX VSPD_MSG_GET_PORT_INFO
    VSPD_MSG_PORT_SNAPSHOT_EVENT VSPD_MSG_LINK_STATE_EVENT Pos.eqb
    andb orb VSPD_STATUS_OK VSPD_TIME_CODE_PAYLOAD_SIZE].
  change (mem_get [time_count tc; control_flags tc] 0) with (time_count tc).
  change (mem_get [time_count tc; control_flags tc] 1) with (control_flags tc).
  case_if; [lia|done].
Qed.

Lemma snapshot_event_valid port_id p : 0 <= port_id < 2 ^ 32 -> link_state_ok (p_state p) ->
  valid_record (plain_event VSPD_MSG_PORT_SNAPSHOT_EVENT VSPD_PORT_SNAPSHOT_PAYLOAD_SIZE port_id)
    (vspd_encode_port_snapshot (vspwd_port_snapshot_to_wire p) []).
Proof.
  intros Hp Hs. rewrite encode_port_snapshot_bytes. apply plain_event_valid; try done.
  unfold vspd_validate_content. change (vspd_flag _ VSPD_FLAG_RESPONSE) with false.
  cbn [plain_event event_header v_type v_payload_size v_status Z.eqb VSPD_MSG_GET_LINK_STATE
    VSPD_MSG_HELLO VSPD_MSG_TIME_CODE_TX VSPD_MSG_TIME_CODE_RX VSPD_MSG_GET_PORT_INFO
    VSPD_MSG_PORT_SNAPSHOT_EVENT VSPD_MSG_LINK_STATE_EVENT Pos.eqb
    andb orb VSPD_STATUS_OK].
  rewrite Z.eqb_refl. cbn [vn_info vspwd_port_snapshot_to_wire andb].
  by rewrite port_info_content.
Qed.

(** ** The fragments of a queued packet *)

Lemma slot_chunk_spec slot : queued_ok slot ->
  slot_chunk slot = Z.min VSPD_MAX_FRAME_PAYLOAD (ps_length slot - ps_offset slot) /\
  slot_final slot = (ps_offset slot + slot_chunk slot =? ps_length slot) /\
  0 <= slot_chunk slot /\ (slot_chunk slot = 0 -> ps_length slot = 0) /\
  ps_offset slot + slot_chunk slot <= ps_length slot.
Proof.
  intros (Ho & Hl & Hor & _). unfold slot_final, slot_chunk, VSPD_MAX_LOGICAL_PACKET,
    VSPD_MAX_FRAME_PAYLOAD in *.
  rewrite (wrap_small 32 (ps_length slot - ps_offset slot)) by lia.
  assert ((if 32 * 1024 <? ps_length slot - ps_offset slot then 32 * 1024
    else ps_length slot - ps_offset slot) =
    Z.min (32 * 1024) (ps_length slot - ps_offset slot)) as -> by (case_if; lia).
  split; [done|]. split; [|lia]. rewrite wrap_small by lia.
  destruct (ps_length slot =? 0) eqn:E; [|done]. cbn [orb]. lia.
Qed.

(** The flags of a fragment say where in the packet it lies. *)
Lemma packet_event_flags port_id slot : queued_ok slot ->
  let h := packet_event_header port_id slot in
  let fin := ps_offset slot + slot_chunk slot =? ps_length slot in
  0 <= v_flags h < 32 /\ vspd_flag h VSPD_FLAG_RESPONSE = false /\
  vspd_flag h VSPD_FLAG_FRAGMENT_START = (ps_offset slot =? 0) /\
  vspd_flag h VSPD_FLAG_FRAGMENT_END = fin /\
  (if fin then eqb (vspd_flag h VSPD_FLAG_EOP) (vspd_flag h VSPD_FLAG_EEP)
   else vspd_flag h VSPD_FLAG_EOP || vspd_flag h VSPD_FLAG_EEP) = false /\
  v_flags h .& u8 (Z.lnot VSPD_FLAG_KNOWN_MASK) = 0 /\
  (fin = true -> vspd_flag h VSPD_FLAG_EEP = (ps_terminator slot =? SPW_TERMINATOR_EEP)).
Proof.
  intros Hq. destruct (slot_chunk_spec slot Hq) as (_ & Hfin & _). cbn zeta.
  unfold vspd_flag, packet_event_header. cbn [event_header v_flags]. rewrite Hfin. unfold flag_if.
  destruct (ps_offset slot =? 0), (ps_offset slot + slot_chunk slot =? ps_length slot),
    (ps_terminator slot =? SPW_TERMINATOR_EEP); by vm_compute.
Qed.

Lemma packet_event_valid port_id slot payload : queued_ok slot ->
  Z.of_nat (length payload) = slot_chunk slot ->
  valid_record (packet_event_header port_id slot) payload.
Proof.
  intros Hq Hl. destruct (slot_chunk_spec slot Hq) as (Hch & _ & Hch0 & Hnz & Hle).
  destruct (packet_event_flags port_id slot Hq) as (Gr & Gresp & Gstart & Gend & Gterm & Gmask & _).
  destruct Hq as (Ho & Hlen & Hor & Hid).
  set (h := packet_event_header port_id slot) in *.
  assert (v_type h = VSPD_MSG_DATA_RX /\ v_payload_size h = slot_chunk slot /\
    v_port_id h = u32 port_id /\ v_message_id h = ps_message_id slot /\
    v_fragment_offset h = ps_offset slot /\ v_total_size h = ps_length slot /\
    v_request_id h = 0 /\ v_status h = 0) as (Ft & Fp & Fport & Fm & Fo & Ftot & Fr & Fs) by done.
  unfold VSPD_MAX_LOGICAL_PACKET, VSPD_MAX_FRAME_PAYLOAD in *.
  pose proof (wrap_bounds 32 port_id ltac:(lia)) as Hport.
  constructor; [| |by rewrite Fp|].
  - unfold vspd_header_in_range, in_width. rewrite Ft, Fp, Fport, Fm, Fo, Ftot, Fr, Fs.
    cbn [h packet_event_header event_header v_magic v_version_major v_version_minor
      v_header_size v_reserved].
    unfold VSPD_MAGIC, VSPD_VERSION_MAJOR, VSPD_VERSION_MINOR, VSPD_HEADER_SIZE,
      VSPD_MSG_DATA_RX. lia.
  - unfold vspd_validate_common. rewrite Ft, Fp, Gmask.
    cbn [h packet_event_header event_header v_magic v_version_major v_version_minor
      v_header_size v_reserved]. rewrite !Z.eqb_refl. cbn [negb orb].
    change (vspd_type_valid VSPD_MSG_DATA_RX) with true. cbn [negb Z.eqb].
    unfold VSPD_MAX_FRAME_PAYLOAD. case_if; [lia|done].
  - unfold vspd_validate_payload_shape.
    assert (vspd_validate_shape_fields h = VSPD_CODEC_OK) as ->.
    { unfold vspd_validate_shape_fields. rewrite Gresp, Fs, Ft, Fr.
      change (vspd_type_is_event VSPD_MSG_DATA_RX) with true. cbn [negb Z.eqb orb].
      change (VSPD_MSG_DATA_RX =? VSPD_MSG_DATA_TX) with false.
      rewrite Z.eqb_refl. cbn [orb]. unfold vspd_validate_data_shape.
      rewrite Fm, Ftot, Fo, Fp, Gstart, Gend, Gterm, wrap_small by lia.
      unfold VSPD_MAX_LOGICAL_PACKET.
      replace (ps_message_id slot =? 0) with false by lia.
      replace (1024 * 1024 <? ps_length slot) with false by lia. cbn [orb].
      replace (ps_length slot <? _) with false by lia.
      rewrite !xorb_nilpotent. cbn [VSPD_STATUS_OK negb].
      destruct (ps_length slot =? 0) eqn:E0; (case_if; [exfalso; lia|done]). }
    cbn [negb Z.eqb VSPD_CODEC_OK]. destruct (v_payload_size h =? 0); [done|].
    unfold vspd_validate_content. by rewrite Ft.
Qed.

(** ** The operating system *)

(** A record on the wire: a response or an event that validates. *)
Definition sent_ok (data : list Z) : Prop :=
  exists h payload, data = vspd_header_bytes h ++ payload /\ valid_record h payload /\
    (vspd_flag h VSPD_FLAG_RESPONSE = true \/ vspd_type_is_event (v_type h) = true).

(** What the server needs of the system: recvmsg reports the number of bytes it
    stored.  [Good] is any property of the world that the calls keep as long as
    only valid records are sent. *)
Class OsContract {W : Type} (os : os_ops W) (Good : W -> Prop) : Prop := {
  os_keeps_send : forall fd data w, Good w -> sent_ok data -> Good (os_send os fd data w).2;
  os_keeps_recvmsg : forall fd size w, Good w ->
    let '(received, frame, truncated, w') := os_recvmsg os fd size w in
    Good w' /\ (0 < received -> truncated = false ->
      bytes_ok frame /\ Z.of_nat (length frame) = received);
  os_keeps_accept : forall fd w, Good w -> Good (os_accept4 os fd w).2;
  os_keeps_close : forall fd w, Good w -> Good (os_close os fd w);
  os_keeps_poll : forall entries timeout w, Good w -> Good (os_poll os entries timeout w).2
}.

Section loop.
Context {B W : Type} (os : os_ops W) (Good : W -> Prop) `{!OsContract os Good}.
Context (o : spw_backend_ops B) (Inv : B -> Prop) `{!BackendOutputs o Inv}.
Implicit Types (s : vspwd_server B) (w : W).
Abbreviation server_ok := (server_ok o Inv).

Definition state_ok (st : vspwd_server B * W) : Prop := server_ok st.1 /\ Good st.2.

Lemma send_event_ok fd h payload w : Good w -> valid_record h payload ->
  vspd_type_is_event (v_type h) = true -> Good (send_event os fd h payload w).2.
Proof.
  intros Hg Hv He. unfold send_event. rewrite vspd_encode_header_bytes by apply Hv.
  rewrite drop_nil, app_nil_r. cbn [negb Z.eqb VSPD_CODEC_OK].
  rewrite <- (app_nil_r (vspd_header_bytes h)), mem_write_app by done.
  rewrite drop_nil, app_nil_r. unfold vspwd_send_record.
  pose proof (os_keeps_send fd (vspd_header_bytes h ++ payload) w Hg) as H.
  destruct (os_send os fd _ w) as [sent w']. apply H. exists h, payload. auto.
Qed.

Lemma flush_response_ok s i w : server_ok s -> 0 <= i < VSPWD_CLIENT_COUNT -> Good w ->
  state_ok (vspwd_flush_response os s i w).2.
Proof.
  intros Hs Hi Hg. unfold vspwd_flush_response.
  destruct (c_response_pending _) eqn:Ep; [|by split]. cbn [negb]. unfold vspwd_send_record.
  destruct (sw_client _ _ _ (proj1 Hs) i Hi) as (Hr & Hl & Hra).
  destruct (Hr Ep) as (h & payload & Hv & Hf & Hn & Hb).
  pose proof (os_keeps_send (c_fd (client_at s i))
    (mem_read (c_response (client_at s i)) 0 (Z.to_nat (c_response_size (client_at s i)))) w Hg)
    as H.
  destruct (os_send os _ _ w) as [sent w']. cbn [snd] in H.
  assert (Good w') as Hg' by (apply H; exists h, payload; auto).
  case_if; [by split|]. split; [|done]. by apply upd_client_ok.
Qed.

Lemma owned_port s i : server_ok s -> 0 <= i < VSPWD_CLIENT_COUNT ->
  (c_port_id (client_at s i) <? 0) = false ->
  0 <= c_port_id (client_at s i) < VSPWD_PORT_COUNT /\
  port_wf (port_at s (c_port_id (client_at s i))).
Proof.
  intros Hs Hi E. pose proof (sw_port_id _ _ _ (proj1 Hs) i Hi) as Hr.
  split; [lia|]. apply (sw_port _ _ _ (proj1 Hs)). lia.
Qed.

Lemma flush_state_event_ok s i w : server_ok s -> 0 <= i < VSPWD_CLIENT_COUNT -> Good w ->
  state_ok (vspwd_flush_state_event os s i w).2.
Proof.
  intros Hs Hi Hg. unfold vspwd_flush_state_event. case_if; [by split|].
  destruct (owned_port s i Hs Hi E) as [Hid Hp]. case_if; [by split|].
  match goal with |- context [send_event os ?fd ?h ?p w] =>
    pose proof (send_event_ok fd h p w Hg) as H end.
  destruct (send_event os _ _ _ w) as [ok w'].
  assert (Good w') as Hg'.
  { apply H; [|done]. apply link_state_event_valid; [apply (wrap_bounds 32); lia|apply Hp]. }
  case_if; [by split|]. split; [|done]. by apply upd_port_ok.
Qed.

Lemma flush_packet_event_ok s i w : server_ok s -> 0 <= i < VSPWD_CLIENT_COUNT -> Good w ->
  state_ok (vspwd_flush_packet_event os s i w).2.
Proof.
  intros Hs Hi Hg. unfold vspwd_flush_packet_event. case_if; [by split|].
  destruct (owned_port s i Hs Hi E) as [Hid Hp]. set (id := c_port_id (client_at s i)) in *.
  destruct (r_count _ =? 0)%nat eqn:Ec; [by split|]. apply Nat.eqb_neq in Ec.
  pose proof Hp as (Hq & Hp2 & Hp3 & Hp4).
  destruct (packets_front_ok _ Hq) as [Hqo Hd]; [lia|].
  set (slot := ring_front (p_packets (port_at s id))) in *.
  destruct (slot_chunk_spec slot Hqo) as (Hch & Hfin & Hch0 & Hnz & Hle).
  match goal with |- context [send_event os ?fd ?h ?p w] =>
    pose proof (send_event_ok fd h p w Hg) as H end.
  destruct (send_event os _ _ _ w) as [ok w']. cbn [snd] in H.
  assert (Good w') as Hg'.
  { apply H; [|done]. apply packet_event_valid; [done|]. by rewrite length_mem_read, Z2Nat.id. }
  case_if; [by split|]. case_if.
  - split; [|done]. apply upd_port_ok; try done. split; [|done].
    destruct Hq as (Hw & Hst & Hql & Hrest).
    assert (ring_list (ring_set_front (p_packets (port_at s id))
      (set_ps_offset (u32 (ps_offset slot + slot_chunk slot)) slot)) =
      set_ps_offset (u32 (ps_offset slot + slot_chunk slot)) slot ::
      ring_list (ring_pop (p_packets (port_at s id)))) as Hrl.
    { apply (ring_list_set_front VSPWD_PACKET_QUEUE_DEPTH); [done|lia]. }
    rewrite (ring_list_front _ VSPWD_PACKET_QUEUE_DEPTH) in Hql, Hrest by (done || lia).
    apply Forall_cons in Hql as [_ Hql]. destruct Hqo as (Ho & Hl & Hor & Hm).
    split; [by apply ring_set_front_wf|]. split; [by apply Forall_insert|].
    cbn [p_packets set_p_packets]. rewrite Hrl.
    split; [|exact Hrest]. constructor; [|done].
    unfold queued_ok. cbn. unfold VSPD_MAX_LOGICAL_PACKET in *. rewrite wrap_small by lia.
    rewrite Hfin in E1. lia.
  - cbn [snd]. split; [|done]. cbn [fst]. apply mark_ok, upd_port_ok; try done.
    split; [apply packets_pop_wf; [done|lia]|done].
Qed.
Lemma flush_time_code_event_ok s i w : server_ok s -> 0 <= i < VSPWD_CLIENT_COUNT -> Good w ->
  state_ok (vspwd_flush_time_code_event os s i w).2.
Proof.
  intros Hs Hi Hg. unfold vspwd_flush_time_code_event. case_if; [by split|].
  destruct (owned_port s i Hs Hi E) as [Hid Hp]. set (id := c_port_id (client_at s i)) in *.
  destruct (r_count _ =? 0)%nat eqn:Ec; [by split|]. apply Nat.eqb_neq in Ec.
  pose proof Hp as (Hq & Ht & Hp3). destruct (time_codes_pop_wf _ Ht) as [Hpop Htc]; [lia|].
  match goal with |- context [send_event os ?fd ?h ?p w] =>
    pose proof (send_event_ok fd h p w Hg) as H end.
  destruct (send_event os _ _ _ w) as [ok w'].
  assert (Good w') as Hg'.
  { apply H; [|done]. apply time_code_event_valid; [apply (wrap_bounds 32); lia|done]. }
  case_if; [by split|]. split; [|done]. cbn [fst snd].
  by apply mark_ok, upd_port_ok.
Qed.

Lemma flush_monitor_ports_ok i port_ids : 0 <= i < VSPWD_CLIENT_COUNT ->
  Forall (fun id => 0 <= id < VSPWD_PORT_COUNT) port_ids -> forall s w,
  server_ok s -> Good w -> state_ok (flush_monitor_ports os s i w port_ids).2.
Proof.
  intros Hi. induction 1 as [|id ids Hid _ IH]; intros s w Hs Hg; [by split|].
  cbn [flush_monitor_ports]. case_if; [|by apply IH].
  match goal with |- context [send_event os ?fd ?h ?p w] =>
    pose proof (send_event_ok fd h p w Hg) as H end.
  destruct (send_event os _ _ _ w) as [ok w'].
  assert (Good w') as Hg'.
  { apply H; [|done]. apply snapshot_event_valid; [slia|].
    apply (sw_port _ _ _ (proj1 Hs) id Hid). }
  case_if; [by split|]. split; [|done]. cbn [fst snd].
  apply upd_client_ok; try done. by apply (sw_client _ _ _ (proj1 Hs)).
Qed.

Lemma flush_client_ok s i w : server_ok s -> 0 <= i < VSPWD_CLIENT_COUNT -> Good w ->
  state_ok (vspwd_flush_client os s i w).2.
Proof.
  intros Hs Hi Hg. unfold vspwd_flush_client. case_if; [by apply flush_response_ok|].
  case_if.
  { unfold vspwd_flush_monitor_event. case_if; [by split|].
    apply flush_monitor_ports_ok; try done. repeat constructor; slia. }
  pose proof (flush_state_event_ok s i w Hs Hi Hg) as [H1 G1].
  destruct (vspwd_flush_state_event os s i w) as [ok1 [s1 w1]]. cbn [fst snd] in *.
  case_if; [by split|]. case_if; [by split|].
  pose proof (flush_packet_event_ok s1 i w1 H1 Hi G1) as [H2 G2].
  destruct (vspwd_flush_packet_event os s1 i w1) as [ok2 [s2 w2]]. cbn [fst snd] in *.
  case_if; [by split|]. by apply flush_time_code_event_ok.
Qed.

Lemma receive_one_ok s i w : server_ok s -> 0 <= i < VSPWD_CLIENT_COUNT ->
  0 <= c_fd (client_at s i) -> Good w -> state_ok (vspwd_receive_one os s i w).2.
Proof.
  intros Hs Hi Hfd Hg. unfold vspwd_receive_one.
  pose proof (os_keeps_recvmsg (c_fd (client_at s i)) VSPWD_FRAME_MAX w Hg) as H.
  destruct (os_recvmsg os _ _ w) as [[[received frame] truncated] w']. destruct H as [Hg' Hf].
  case_if; [by split|]. case_if; [case_if; by split|].
  destruct truncated; cbn [orb]; [by split|]. case_if; [by split|].
  destruct Hf as [Hb Hl]; [lia|done|].
  pose proof (handle_request_ok o Inv s i frame Hs Hi Hfd Hb) as Hok. rewrite Hl in Hok.
  destruct (vspwd_handle_request s i frame received) as [ok s']. by split.
Qed.

Lemma close_client_ok s i w : server_ok s -> 0 <= i < VSPWD_CLIENT_COUNT -> Good w ->
  state_ok (vspwd_close_client os s i w).
Proof.
  intros Hs Hi Hg. unfold vspwd_close_client. split; cbn [fst snd].
  - apply forget_ok; [apply Hs|done].
  - case_if; [by apply os_keeps_close|done].
Qed.

Lemma free_client_range s i : server_ok s -> free_client s = Some i ->
  0 <= i < VSPWD_CLIENT_COUNT /\ c_fd (client_at s i) < 0.
Proof.
  intros Hs H. unfold free_client in H.
  destruct (list_find _ (s_clients s)) as [[n c]|] eqn:E; [|done]. injection H as <-.
  apply list_find_Some in E as (Hn & Hc & _). pose proof (lookup_lt_Some _ _ _ Hn) as Hlt.
  rewrite (sw_clients _ _ _ (proj1 Hs)) in Hlt. split; [cbn; slia|].
  unfold client_at. cbn. rewrite Nat2Z.id. by rewrite (list_lookup_total_correct _ _ _ Hn).
Qed.

Lemma accept_clients_ok fuel : forall s w, server_ok s -> Good w ->
  state_ok (vspwd_accept_clients os fuel s w).
Proof.
  induction fuel as [|fuel IH]; intros s w Hs Hg; [by split|]. cbn [vspwd_accept_clients].
  pose proof (os_keeps_accept (s_listener_fd s) w Hg) as Hg'.
  destruct (os_accept4 os _ w) as [fd w']. cbn [snd] in Hg'. case_if; [by split|].
  destruct (free_client s) as [i|] eqn:Ef; [|apply IH; [done|by apply os_keeps_close]].
  destruct (free_client_range s i Hs Ef) as [Hi Hneg]. apply IH; [|done].
  assert (c_port_id (client_at s i) = -1) as Hp.
  { pose proof (sw_port_id _ _ _ (proj1 Hs) i Hi) as Hr.
    destruct (decide (0 <= c_port_id (client_at s i))) as [Hpos|]; [|lia].
    pose proof (sw_owner _ _ _ (proj1 Hs) i Hi Hpos). lia. }
  apply upd_client_ok; try done; [apply fresh_client_wf|lia].
Qed.

Lemma service_client_ok s w i revents : server_ok s -> 0 <= i < VSPWD_CLIENT_COUNT -> Good w ->
  state_ok (service_client os s w i revents).
Proof.
  intros Hs Hi Hg. unfold service_client. case_if; [by split|].
  assert (0 <= c_fd (client_at s i)) as Hfd by lia. set (c0 := negb (_ =? 0)).
  assert (forall close s1 w1, state_ok (s1, w1) ->
    state_ok (let '(close, (s, w)) := if negb close && negb (revents .& POLLOUT =? 0)
      then let '(ok, (s, w)) := vspwd_flush_client os s1 i w1 in
        (negb ok && negb (os_errno os w =? EAGAIN) && negb (os_errno os w =? EWOULDBLOCK), (s, w))
      else (close, (s1, w1)) in
      if close then vspwd_close_client os s i w else (s, w))) as Hout.
  { intros close s1 w1 [Hs1 Hg1]. pose proof (flush_client_ok s1 i w1 Hs1 Hi Hg1) as Hf.
    destruct (negb close && _).
    - destruct (vspwd_flush_client os s1 i w1) as [ok [s2 w2]]. destruct Hf as [Hs2 Hg2].
      destruct (_ && _); [by apply close_client_ok|by split].
    - destruct close; [by apply close_client_ok|by split]. }
  pose proof (receive_one_ok s i w Hs Hi Hfd Hg) as Hr.
  destruct (negb c0 && _); [|by apply Hout].
  destruct (vspwd_receive_one os s i w) as [r [s1 w1]]. by apply Hout.
Qed.

Lemma service_clients_ok polled : Forall (fun p => 0 <= p.1 < VSPWD_CLIENT_COUNT) polled ->
  forall s w, server_ok s -> Good w -> state_ok (service_clients os s w polled).
Proof.
  induction 1 as [|[i revents] polled Hi _ IH]; intros s w Hs Hg; [by split|].
  cbn [service_clients]. pose proof (service_client_ok s w i revents Hs Hi Hg) as [H1 H2].
  destruct (service_client os s w i revents) as [s' w']. by apply IH.
Qed.

Lemma iteration_ok fuel s w : server_ok s -> Good w ->
  state_ok (vspwd_iteration os fuel s w).2.
Proof.
  intros Hs Hg. unfold vspwd_iteration.
  destruct (service_bridge_ok o Inv s Hs) as [H1 _].
  set (s1 := vspwd_service_bridge s) in *.
  match goal with |- context [os_poll os ?e ?t w] => pose proof (os_keeps_poll e t w Hg) as Hg1 end.
  destruct (os_poll os _ _ w) as [[poll_result revents] w1]. cbn [snd] in Hg1.
  case_if; [case_if; by split|]. case_if; [by split|].
  assert (state_ok (if negb (mem_get revents 0 .& POLLIN =? 0)
    then vspwd_accept_clients os fuel s1 w1 else (s1, w1))) as H2.
  { case_if; [by apply accept_clients_ok|by split]. }
  destruct (if negb _ then _ else _) as [s2 w2]. destruct H2 as [Hs2 Hg2].
  apply service_clients_ok; try done. apply Forall_forall. intros [i r] Hin.
  apply elem_of_zip_l in Hin. unfold polled_clients in Hin. apply list_elem_of_filter in Hin.
  destruct Hin as [_ Hin]. apply elem_of_seqZ in Hin. cbn. slia.
Qed.

(** The state after any number of iterations, from any consistent state. *)
Lemma loop_ok fuel accept_fuel : forall s w, server_ok s -> Good w ->
  state_ok (vspwd_loop os fuel accept_fuel s w).2.
Proof.
  induction fuel as [|fuel IH]; intros s w Hs Hg; [by split|]. cbn [vspwd_loop].
  case_if; [by split|]. pose proof (iteration_ok accept_fuel s w Hs Hg) as [H1 H2].
  destruct (vspwd_iteration os accept_fuel s w) as [[r|] [s' w']]; [by split|]. by apply IH.
Qed.
End loop.
