(* ===== verification/ServerRun.v ===== *)
(** * The vspwd server: whole runs

    Opening the bridge, and the invariant and the validity of everything sent,
    over a whole run of [vspwd_run_config]. *)

From S2P Require Import Prelude Types Ring Backend Loopback DriverApi PortConfig Port PortClient PortProps.
From S2P Require Import Posix Vspd Server ServerLoop ServerInv ServerRequests ServerProps.

(** ** Opening the bridge *)

Section bridge.
Context {P B : Type} (A : abi) (Bd : build) (factories : factory_id -> spw_backend_factory P B)
  (alloc : Z -> Z -> option Z).
Context (o : spw_backend_ops B) (Inv : B -> Prop) `{!BackendOutputs o Inv}.
Hypothesis Hfactory : factory_ok o Inv (factories UdpFactory).
Abbreviation server_ok := (server_ok o Inv).
Abbreviation port_runs := (port_runs o Inv).
Implicit Types (s : vspwd_server B) (config : vspwd_udp_bridge_config (P := P)).

Lemma select_udp config id :
  select_factory A Bd (Some (udp_port_config A config)) = (SPW_OK, Some id) -> id = UdpFactory.
Proof.
  unfold select_factory. case_if; [done|]. cbn [cfg_backend udp_port_config].
  change (SPW_BACKEND_UDP =? SPW_BACKEND_LOOPBACK) with false.
  change (SPW_BACKEND_UDP =? SPW_BACKEND_SIMULATOR) with false.
  rewrite Z.eqb_refl. case_if; [congruence|]. case_if; congruence.
Qed.

(** Taking a port over, in a server that has no bridge yet and nobody attached. *)
Lemma take_over_ok s id udp : server_ok s -> b_enabled (s_bridge s) = false ->
  0 <= id < VSPWD_PORT_COUNT ->
  (forall id', 0 <= id' < VSPWD_PORT_COUNT -> p_client_index (port_at s id') = -1) ->
  port_runs udp ->
  server_ok (upd_port id bridged_port
    (upd_bridge
      (fun b => set_b_state SPW_LINK_CONNECTING (set_b_port_id id (set_b_enabled true b)))
      (set_udp_port udp s))).
Proof.
  intros [[Hlc Hlp Hc Hp Hci Hpi Ho Hl Hb] Hs] He Hid Hnone Hu.
  set (s1 := upd_bridge _ (set_udp_port udp s)). set (s2 := upd_port id bridged_port s1).
  destruct Hb as (_ & Hrx & _ & Hbr & _). rewrite He in Hbr. cbn [andb] in Hbr.
  assert (forall id', 0 <= id' -> port_at s2 id' =
    if id' =? id then bridged_port (port_at s id) else port_at s id') as Hat.
  { intros. by apply (port_at_upd s1). }
  split.
  - constructor; try done.
    + unfold s2. by rewrite length_ports_upd.
    + intros id' Hid'. rewrite Hat by lia. case_if; [|by apply Hp].
      destruct (Hp id Hid) as (H1 & H2 & _ & _). split_and!; try done; cbn; state_lia.
    + intros id' Hid'. rewrite Hat by lia. case_if; [|by apply Hpi]. by apply (Hpi id).
    + intros i id' Hi Hid'. rewrite Hat by lia. case_if; [|by apply Hl].
      replace id' with id by lia. by apply Hl.
    + split; [done|]. split; [done|]. split; [cbn; state_lia|]. split.
      * intros id' Hid'. rewrite Hat by lia. cbn. case_if; [cbn; lia|]. rewrite Hbr by done. lia.
      * intros _. split; [done|]. change (b_port_id (s_bridge s2)) with id.
        rewrite Hat, Z.eqb_refl by lia. split; [by apply Hnone|done].
  - intros id' Hid'. unfold expected_state, vspwd_calculate_state. rewrite Hat by lia. case_if.
    + cbn [bridged_port p_bridged set_p_next_message_id set_p_state set_p_reset_latched
        set_p_started set_p_bridged]. by rewrite andb_false_r.
    + rewrite (Hnone id' Hid'), (Hbr id' Hid'). cbn [Z.ltb Z.compare negb andb].
      specialize (Hs id' Hid'). unfold expected_state in Hs.
      by rewrite (Hnone id' Hid'), (Hbr id' Hid') in Hs.
Qed.

Lemma init_unattached id : 0 <= id < VSPWD_PORT_COUNT ->
  p_client_index (port_at (vspwd_init_server (B := B)) id) = -1.
Proof.
  intros Hid. unfold port_at. cbn [s_ports vspwd_init_server].
  rewrite lookup_total_replicate_2; [done|slia].
Qed.

Lemma open_bridge_ok config : 0 <= bc_port_id config ->
  let '(r, s) := vspwd_open_bridge A Bd factories alloc vspwd_init_server config in
  r = 0 -> server_ok s.
Proof.
  intros Hid. unfold vspwd_open_bridge. case_if; [intros _; apply init_server_ok|].
  case_if; [done|]. pose proof (open_runs A Bd factories alloc o Inv UdpFactory Hfactory
    (udp_port_config A config) (select_udp config)) as Hu.
  destruct (spw_port_open _ _ _ _ _) as [[r udp] m]. case_if; [done|].
  pose proof (start_runs factories o Inv UdpFactory Hfactory udp Hu) as Hu'. destruct (spw_port_start udp) as [r' udp'].
  case_if; [done|]. intros _.
  refine (proj1 (bridge_refresh_ok o Inv _ _)). apply (take_over_ok vspwd_init_server (bc_port_id config) udp'); try done; [apply init_server_ok|slia|].
  apply init_unattached.
Qed.
End bridge.

(** ** Recording what is sent *)

(** recvmsg stores as many bytes as it reports. *)
Definition recvmsg_ok {W} (os : os_ops W) : Prop :=
  forall fd size w, let '(received, frame, truncated, _) := os_recvmsg os fd size w in
  0 < received -> truncated = false -> bytes_ok frame /\ Z.of_nat (length frame) = received.

(** The same system, which also keeps every record handed to send, newest first. *)
Definition log_os {W} (os : os_ops W) : os_ops (W * list (Z * list Z)) :=
  {| os_send := fun fd data '(w, log) =>
       let '(r, w) := os_send os fd data w in (r, (w, (fd, data) :: log));
     os_recvmsg := fun fd size '(w, log) =>
       let '(received, frame, truncated, w) := os_recvmsg os fd size w in
       (received, frame, truncated, (w, log));
     os_accept4 := fun fd '(w, log) => let '(r, w) := os_accept4 os fd w in (r, (w, log));
     os_close := fun fd '(w, log) => (os_close os fd w, log);
     os_poll := fun entries timeout '(w, log) =>
       let '(r, revents, w) := os_poll os entries timeout w in (r, revents, (w, log));
     os_errno := fun '(w, _) => os_errno os w;
     os_stop_requested := fun '(w, _) => os_stop_requested os w;
     os_unlink := fun path '(w, log) => (os_unlink os path w, log);
     os_socket := fun '(w, log) => let '(r, w) := os_socket os w in (r, (w, log));
     os_bind := fun fd path '(w, log) => let '(r, w) := os_bind os fd path w in (r, (w, log));
     os_chmod := fun path '(w, log) => let '(r, w) := os_chmod os path w in (r, (w, log));
     os_listen := fun fd n '(w, log) => let '(r, w) := os_listen os fd n w in (r, (w, log));
     os_calloc := fun '(w, _) => os_calloc os w;
     os_install_signals := fun '(w, log) => (os_install_signals os w, log) |}.

Definition log_ok {W} (w : W * list (Z * list Z)) : Prop := Forall (fun r => sent_ok r.2) w.2.

Lemma log_contract {W} (os : os_ops W) : recvmsg_ok os -> OsContract (log_os os) log_ok.
Proof.
  intros Hrecv. constructor.
  - intros fd data [w log] Hl Hd. cbn. destruct (os_send os fd data w). by constructor.
  - intros fd size [w log] Hl. cbn. pose proof (Hrecv fd size w) as H.
    destruct (os_recvmsg os fd size w) as [[[r f] tr] w']. done.
  - intros fd [w log] Hl. cbn. by destruct (os_accept4 os fd w).
  - by intros fd [w log] Hl.
  - intros e tm [w log] Hl. cbn. by destruct (os_poll os e tm w) as [[r ev] w'].
Qed.

(** Closing and removing send nothing. *)
Lemma cleanup_log {B W} (os : os_ops W) (s : vspwd_server B) w :
  (vspwd_cleanup (log_os os) s w).2 = w.2.
Proof.
  unfold vspwd_cleanup.
  assert (forall cs (w : W * list (Z * list Z)),
    (fold_left (fun w c => if 0 <=? c_fd c then os_close (log_os os) (c_fd c) w else w) cs w).2
    = w.2) as Hfold.
  { induction cs as [|c cs IH]; intros v; [done|]. cbn [fold_left]. rewrite IH.
    case_if; [by destruct v|done]. }
  rewrite <- (Hfold (s_clients s) w). destruct (fold_left _ (s_clients s) w) as [v log].
  by destruct (s_socket_path s), (0 <=? s_listener_fd s).
Qed.

Lemma open_listener_log {B W} (os : os_ops W) (s : vspwd_server B) path w :
  let '(_, (s', w')) := vspwd_open_listener (log_os os) s path w in
  w'.2 = w.2 /\ exists fd path', s' = set_listener fd path' s.
Proof.
  assert (exists fd path', s = set_listener fd path' s) as H0
    by (by exists (s_listener_fd s), (s_socket_path s); destruct s).
  unfold vspwd_open_listener. destruct path as [[|b path]|]; [done| |done].
  case_if; [done|]. destruct w as [w log]. cbn [log_os os_socket os_unlink os_bind os_chmod os_listen].
  destruct (os_socket os w) as [fd w1]. case_if; [split; [done|by eexists _, _]|].
  destruct (os_bind os fd (b :: path) _) as [r1 w2]. case_if; [split; [done|by eexists _, _]|].
  destruct (os_chmod os (b :: path) w2) as [r2 w3]. case_if; [split; [done|by eexists _, _]|].
  destruct (os_listen os fd _ w3) as [r3 w4]. case_if; (split; [done|by eexists _, _]).
Qed.

Lemma set_listener_ok {B} (o : spw_backend_ops B) Inv s fd path :
  server_ok o Inv s -> server_ok o Inv (set_listener fd path s).
Proof. intros [Hw Hs]. split; [|exact Hs]. by destruct Hw. Qed.

(** ** Whole runs *)

Section run.
Context {P B W : Type} (os : os_ops W) (A : abi) (Bd : build)
  (factories : factory_id -> spw_backend_factory P B) (alloc : Z -> Z -> option Z)
  (o : spw_backend_ops B) (Inv : B -> Prop).
Implicit Types (s : vspwd_server B).

Lemma any_contract : recvmsg_ok os -> OsContract os (fun _ => True).
Proof.
  intros Hrecv. constructor; try done. intros fd size w _. pose proof (Hrecv fd size w) as H.
  by destruct (os_recvmsg os fd size w) as [[[r f] tr] w'].
Qed.

(** A state of the main loop: some number of iterations after the bridge and the
    listener were opened, in any world. *)
Definition running (config : vspwd_udp_bridge_config) s : Prop :=
  exists fuel accept_fuel w s0 fd path,
    vspwd_open_bridge A Bd factories alloc vspwd_init_server config = (0, s0) /\
    s = (vspwd_loop os fuel accept_fuel (set_listener fd path s0) w).2.1.

Lemma running_ok config s : BackendOutputs o Inv -> factory_ok o Inv (factories UdpFactory) ->
  recvmsg_ok os -> 0 <= bc_port_id config -> running config s -> server_ok o Inv s.
Proof.
  intros Hout Hf Hrecv Hid (fuel & af & w & s0 & fd & path & Ho & ->).
  pose proof (any_contract Hrecv) as Hos.
  pose proof (open_bridge_ok A Bd factories alloc o Inv Hf config Hid) as H. rewrite Ho in H.
  by apply (loop_ok os (fun _ => True) o Inv); [apply set_listener_ok, H|].
Qed.

(** C3. Whatever the clients send, however the system interleaves, fails or
    closes their connections, and whatever the backend of the bridge does within
    its contract, every state of the server's main loop is well-formed and has
    current link states: clients and ports refer to each other or not at all, an
    owner is connected and has said HELLO, the bridged port has no owner, the
    queues are within their depths and hold packets within the limit, a waiting
    response fits its buffer and decodes, and each port's stored link state is
    the one its attachments imply. *)
Theorem server_invariant config s : BackendOutputs o Inv ->
  factory_ok o Inv (factories UdpFactory) -> recvmsg_ok os -> 0 <= bc_port_id config ->
  running config s -> server_ok o Inv s.
Proof. apply running_ok. Qed.

(** C13. Over a whole run of the server, from start to the end of the fuel or to
    its exit, every record handed to send is the encoding of a valid header
    followed by its payload, and is either a response or an event: a client's
    decoder never rejects what the server sends. *)
Theorem server_sends_valid fuel accept_fuel config w : BackendOutputs o Inv ->
  factory_ok o Inv (factories UdpFactory) -> recvmsg_ok os ->
  0 <= bc_port_id (vc_udp_bridge config) ->
  let '(_, (_, sent)) :=
    vspwd_run_config (log_os os) A Bd factories alloc fuel accept_fuel (Some config) (w, []) in
  Forall (fun r => sent_ok r.2) sent.
Proof.
  intros Hout Hf Hrecv Hid. unfold vspwd_run_config.
  case_if; [constructor|]. case_if; [constructor|].
  pose proof (open_bridge_ok A Bd factories alloc o Inv Hf _ Hid) as Hs0.
  destruct (vspwd_open_bridge _ _ _ _ _ _) as [r s0].
  destruct (r =? 0) eqn:Er; cbn [negb].
  2: { pose proof (cleanup_log os s0 (w, [])) as Hl.
       destruct (vspwd_cleanup _ _ _) as [w' log]. cbn in Hl. by rewrite Hl. }
  specialize (Hs0 ltac:(lia)).
  pose proof (open_listener_log os s0 (vc_socket_path config) (w, [])) as Hl.
  destruct (vspwd_open_listener _ _ _ _) as [r' [s1 w1]]. destruct Hl as [Hl (fd & path & ->)].
  case_if.
  { pose proof (cleanup_log os (set_listener fd path s0) w1) as Hc.
    destruct (vspwd_cleanup _ _ _) as [w' log]. cbn [snd] in *. by rewrite Hc, Hl. }
  pose proof (log_contract os Hrecv) as Hos.
  assert (log_ok (os_install_signals (log_os os) w1)) as Hg.
  { destruct w1 as [w1 log]. cbn [snd] in Hl. subst log. constructor. }
  pose proof (loop_ok (log_os os) log_ok o Inv fuel accept_fuel _ _
    (set_listener_ok o Inv s0 fd path Hs0) Hg) as [_ Hend].
  destruct (vspwd_loop _ _ _ _ _) as [[result|] [s2 [w2 log2]]]; [|done].
  pose proof (cleanup_log os s2 (w2, log2)) as Hc.
  destruct (vspwd_cleanup _ _ _) as [w' log]. cbn [snd] in *. by rewrite Hc.
Qed.

(** C22. Without a bridge the two ports form one link: in every state of the
    main loop a port is in Run exactly when both ports are owned, started and not
    held in reset, so that both ends always agree on it; a port nobody owns is in
    ErrorReset, and an owned one is there exactly while its reset is latched. *)
Theorem server_link_states config s id : BackendOutputs o Inv ->
  factory_ok o Inv (factories UdpFactory) -> recvmsg_ok os -> 0 <= bc_port_id config ->
  running config s -> b_enabled (s_bridge s) = false -> 0 <= id < VSPWD_PORT_COUNT ->
  (p_state (port_at s id) = SPW_LINK_RUN <->
   forall id', 0 <= id' < VSPWD_PORT_COUNT ->
     0 <= p_client_index (port_at s id') /\ p_started (port_at s id') = true /\
     p_reset_latched (port_at s id') = false) /\
  (p_state (port_at s id) = SPW_LINK_ERROR_RESET <->
   p_client_index (port_at s id) < 0 \/ p_reset_latched (port_at s id) = true).
Proof.
  intros Hout Hf Hrecv Hbc Hrun Hb Hid.
  destruct (running_ok config s Hout Hf Hrecv Hbc Hrun) as [Hw Hst].
  assert (forall id', 0 <= id' < VSPWD_PORT_COUNT -> p_bridged (port_at s id') = false) as Hbr.
  { intros id' Hid'. destruct (sw_bridge _ _ _ Hw) as (_ & _ & _ & H & _).
    rewrite H, Hb by done. done. }
  assert (forall Q : Z -> Prop, (forall id', 0 <= id' < VSPWD_PORT_COUNT -> Q id') <->
    Q id /\ Q (vspwd_peer_port id)) as Hboth.
  { intros Q. pose proof (peer_range id). split; [eauto|]. intros [H1 H2] id' Hid'.
    unfold vspwd_peer_port in *. destruct (decide (id' = id)) as [-> |]; [done|].
    case_if_in H2; [replace id' with 1 by slia|replace id' with 0 by slia]; done. }
  rewrite Hboth, (Hst id Hid). unfold expected_state, vspwd_calculate_state.
  rewrite !Hbr by (done || apply peer_range).
  destruct (p_client_index (port_at s id) <? 0) eqn:E1; cbn [negb andb]; [state_lia|].
  destruct (p_reset_latched (port_at s id)), (p_started (port_at s id)); cbn [negb andb];
    try (clear - E1; state_lia).
  destruct (0 <=? p_client_index (port_at s (vspwd_peer_port id))) eqn:E2,
    (p_started (port_at s (vspwd_peer_port id))),
    (p_reset_latched (port_at s (vspwd_peer_port id))),
    (p_ever_attached (port_at s (vspwd_peer_port id))); cbn [negb andb];
    clear - E1 E2; state_lia.
Qed.
End run.

(** ** Samples *)

(** A world with a script: the connections that wait to be accepted and the
    records the clients send, each in order. *)
Record script := { connects : list Z; inbox : list (Z * list Z) }.

Definition script_os : os_ops script :=
  {| os_send := fun _ data w => (Z.of_nat (length data), w);
     os_recvmsg := fun fd _ w =>
       match inbox w with
       | (fd', frame) :: rest =>
           if fd =? fd'
           then (Z.of_nat (length frame), (fun b => b mod 256) <$> frame, false,
                 {| connects := connects w; inbox := rest |})
           else (-1, [], false, w)
       | [] => (-1, [], false, w)
       end;
     os_accept4 := fun _ w =>
       match connects w with
       | fd :: rest => (fd, {| connects := rest; inbox := inbox w |})
       | [] => (-1, w)
       end;
     os_close := fun _ w => w;
     os_poll := fun entries _ w =>
       (Z.of_nat (length entries), (fun _ => POLLIN .| POLLOUT) <$> entries, w);
     os_errno := fun _ => EAGAIN;
     os_stop_requested := fun w => match connects w, inbox w with [], [] => true | _, _ => false end;
     os_unlink := fun _ w => w; os_socket := fun w => (3, w); os_bind := fun _ _ w => (0, w);
     os_chmod := fun _ w => (0, w); os_listen := fun _ _ w => (0, w); os_calloc := fun _ => true;
     os_install_signals := fun w => w |}.

Lemma script_recvmsg : recvmsg_ok script_os.
Proof.
  intros fd size w. cbn. destruct (inbox w) as [|[fd' frame] rest]; [lia|].
  case_if; [|lia]. intros _ _. rewrite length_fmap. split; [|done].
  apply Forall_fmap, Forall_forall. intros b _. cbn. pose proof (Z.mod_pos_bound b 256). lia.
Qed.

(** The FIFO as the UDP backend. *)
Definition fifo_factory : spw_backend_factory unit fifo :=
  {| context_size := 64; context_alignment := 8; construct := fun _ => (SPW_OK, fifo_initial);
     destroy := id; factory_ops := FIFO_OPS; context_size_for_config := None |}.

Lemma fifo_factory_ok : factory_ok FIFO_OPS fifo_contents_ok fifo_factory.
Proof.
  constructor; [done| |].
  - intros ? _. split; [done|]. by split.
  - intros c (_ & H). by split.
Qed.

Definition full_build : build :=
  {| has_simulator := true; has_udp := true; has_device := true; enable_heap := true |}.

Definition sample_memory : config_memory unit :=
  {| as_simulator :=
       {| sim_struct_size := 0; sim_version := 0; sim_link_id := 0; sim_endpoint := 0 |};
     as_udp :=
       {| udp_struct_size := 320; udp_version := 3; local_address := [49; 0]; local_port := 9000;
          remote_address := [50; 0]; remote_port := 9001; udp_link_id := 7;
          fragment_payload_size := 1024; max_retries := 3; ack_timeout_ms := 20;
          keepalive_interval_ms := 100; peer_timeout_ms := 400; virtual_link_bps := 0;
          virtual_latency_us := 0; fault_seed := 0; fault_rules := []; udp_reserved := 0 |};
     as_device := {| dev_struct_size := 0; dev_version := 0; dev_port_id := 0;
                     dev_reserved := 0; dev_endpoint := [] |};
     as_driver := {| drc_struct_size := 0; drc_version := 0; drc_ops := None;
                     drc_driver_context := tt; drc_reserved := 0; tx_buffer_slots := 0;
                     rx_buffer_slots := 0 |} |}.

Definition sample_config (enabled : bool) : vspwd_config :=
  {| vc_socket_path := Some [47; 118];
     vc_udp_bridge := {| bc_enabled := enabled; bc_port_id := 1; bc_udp := sample_memory |} |}.

(** A request record. *)
Definition request_frame (type port_id : Z) (payload : list Z) : list Z :=
  vspd_header_bytes
    {| v_magic := VSPD_MAGIC; v_version_major := VSPD_VERSION_MAJOR;
       v_version_minor := VSPD_VERSION_MINOR; v_type := type; v_flags := 0;
       v_header_size := VSPD_HEADER_SIZE; v_reserved := 0;
       v_payload_size := Z.of_nat (length payload); v_request_id := 1; v_port_id := port_id;
       v_message_id := 0; v_fragment_offset := 0; v_total_size := 0; v_status := 0 |} ++ payload.

Definition hello_frame : list Z :=
  request_frame VSPD_MSG_HELLO 0 [VSPD_VERSION_MAJOR; VSPD_VERSION_MINOR; 0; 0].

(** Two clients connect, say HELLO, attach to the two ports and start them. *)
Definition two_clients : script :=
  {| connects := [5; 6];
     inbox := [(5, hello_frame); (6, hello_frame); (5, request_frame VSPD_MSG_ATTACH 0 []);
               (6, request_frame VSPD_MSG_ATTACH 1 []); (5, request_frame VSPD_MSG_START 0 []);
               (6, request_frame VSPD_MSG_START 1 [])] |}.

(** The server of the sample after all of it. *)
Definition sample_server : vspwd_server fifo :=
  (vspwd_loop script_os 20 10 (set_listener 3 [47; 118] vspwd_init_server) two_clients).2.1.

Lemma sample_running :
  running script_os lp64 full_build (fun _ => fifo_factory) (fun _ _ => None)
    (vc_udp_bridge (sample_config false)) sample_server.
Proof. by exists 20%nat, 10%nat, two_clients, vspwd_init_server, 3, [47; 118]. Qed.

Lemma server_invariant_witness : server_ok FIFO_OPS fifo_contents_ok sample_server.
Proof.
  apply (server_invariant script_os lp64 full_build (fun _ => fifo_factory) (fun _ _ => None)
    FIFO_OPS fifo_contents_ok (vc_udp_bridge (sample_config false))).
  - apply fifo_outputs.
  - apply fifo_factory_ok.
  - apply script_recvmsg.
  - done.
  - apply sample_running.
Defined.

Lemma server_sends_valid_witness :
  let '(_, (_, sent)) := vspwd_run_config (log_os script_os) lp64 full_build
    (fun _ => fifo_factory) (fun _ _ => Some 4096) 20 10 (Some (sample_config false))
    (two_clients, []) in
  (6 <= length sent)%nat /\ Forall (fun r => sent_ok r.2) sent.
Proof.
  pose proof (server_sends_valid script_os lp64 full_build (fun _ => fifo_factory)
    (fun _ _ => Some 4096) FIFO_OPS fifo_contents_ok 20 10 (sample_config false) two_clients
    fifo_outputs fifo_factory_ok script_recvmsg ltac:(done)) as H.
  destruct (vspwd_run_config _ _ _ _ _ _ _ _ _) as [r [w sent]] eqn:E.
  split; [|exact H]. vm_compute in E. injection E as _ _ E. subst sent. cbn. lia.
Defined.

Lemma server_link_states_witness : p_state (port_at sample_server 0) = SPW_LINK_RUN.
Proof.
  apply (server_link_states script_os lp64 full_build (fun _ => fifo_factory) (fun _ _ => None)
    FIFO_OPS fifo_contents_ok (vc_udp_bridge (sample_config false)) sample_server 0
    fifo_outputs fifo_factory_ok script_recvmsg ltac:(done) sample_running).
  - by vm_compute.
  - done.
  - intros id Hid. assert (id = 0 \/ id = 1) as [-> | ->] by slia; by vm_compute.
Defined.
