(* ===== verification/ServerPaths.v ===== *)
(** * The vspwd server: what the clients see

    Requests are answered, a packet sent in fragments arrives whole in the
    peer's queue, a queued packet is sent out whole, and what the bridge does
    with time-codes it cannot send. *)

From S2P Require Import Prelude Types Ring Backend Loopback DriverApi PortConfig Port PortClient PortProps.
From S2P Require Import Vspd Server ServerLoop ServerInv ServerRequests ServerProps ServerRun.

(** ** Requests *)

(** C28. Whatever record arrives from a connected client: if it does not validate,
    is not a request, comes before HELLO or while an answer is outstanding, it is
    refused and the server is left exactly as it was; otherwise a request other
    than DATA gets an answer that validates and carries the request's type,
    identifier and port, and the last fragment of a packet gets one unless it
    closes the connection. *)
Theorem request_answered {B} (o : spw_backend_ops B) (Inv : B -> Prop) `{!BackendOutputs o Inv}
    (s : vspwd_server B) i frame :
  server_ok o Inv s -> 0 <= i < VSPWD_CLIENT_COUNT -> 0 <= c_fd (client_at s i) ->
  bytes_ok frame ->
  let '(ok, s') := vspwd_handle_request s i frame (Z.of_nat (length frame)) in
  match admitted s i frame with
  | None => ok = false /\ s' = s
  | Some h =>
      server_ok o Inv s' /\
      (v_type h <> VSPD_MSG_DATA_TX -> ok = true /\ answered s' i h) /\
      (ok = true -> vspd_flag h VSPD_FLAG_FRAGMENT_END = true -> answered s' i h)
  end.
Proof.
  intros Hs Hi Hfd Hb. pose proof (handle_request_spec o Inv s i frame Hs Hi Hfd Hb) as H.
  cbn zeta in H. destruct (vspwd_handle_request _ _ _ _) as [ok s'].
  destruct (admitted s i frame); [done|]. by injection H as -> ->.
Qed.

(** ** Packets in *)

(** The header of one fragment of a packet, as a client sends it: [offset] bytes
    went before, [chunk] is carried. *)
Record outgoing := {
  og_request_id : Z;
  og_port_id : Z;
  og_message_id : Z;
  og_total : Z;
  og_eep : bool
}.

Definition data_tx_flags (g : outgoing) (offset size : Z) : Z :=
  (if offset =? 0 then VSPD_FLAG_FRAGMENT_START else 0) .|
  (if offset + size =? og_total g
   then VSPD_FLAG_FRAGMENT_END .| (if og_eep g then VSPD_FLAG_EEP else VSPD_FLAG_EOP)
   else 0).

Definition data_tx_header (g : outgoing) (offset size : Z) : vspd_header :=
  {| v_magic := VSPD_MAGIC; v_version_major := VSPD_VERSION_MAJOR;
     v_version_minor := VSPD_VERSION_MINOR; v_type := VSPD_MSG_DATA_TX;
     v_flags := data_tx_flags g offset size; v_header_size := VSPD_HEADER_SIZE; v_reserved := 0;
     v_payload_size := size; v_request_id := og_request_id g; v_port_id := og_port_id g;
     v_message_id := og_message_id g; v_fragment_offset := offset; v_total_size := og_total g;
     v_status := 0 |}.

(** The server handling the fragments of one packet in order; it stops at the
    first one that closes the connection. *)
Fixpoint handle_fragments {B} (s : vspwd_server B) (i : Z) (g : outgoing) (offset : Z)
    (chunks : list (list Z)) : bool * vspwd_server B :=
  match chunks with
  | [] => (true, s)
  | chunk :: chunks =>
      let size := Z.of_nat (length chunk) in
      let '(ok, s) :=
        handle_data_tx s i (data_tx_header g offset size)
          (match chunk with [] => None | _ => Some chunk end) in
      if ok then handle_fragments s i g (offset + size) chunks else (false, s)
  end.

Lemma data_tx_flag_bits g offset size :
  vspd_flag (data_tx_header g offset size) VSPD_FLAG_FRAGMENT_START = (offset =? 0) /\
  vspd_flag (data_tx_header g offset size) VSPD_FLAG_FRAGMENT_END = (offset + size =? og_total g) /\
  vspd_flag (data_tx_header g offset size) VSPD_FLAG_EEP =
    ((offset + size =? og_total g) && og_eep g).
Proof.
  unfold vspd_flag, data_tx_header, data_tx_flags. cbn [v_flags].
  by destruct (offset =? 0), (offset + size =? og_total g), (og_eep g).
Qed.

(** A reassembly that holds the bytes [received] of the packet so far. *)
Definition holds (r : vspwd_reassembly) (g : outgoing) (received : list Z) : Prop :=
  match received with
  | [] => ra_active r = false
  | _ => ra_active r = true /\ ra_request_id r = og_request_id g /\
         ra_message_id r = og_message_id g /\ ra_total_size r = og_total g /\
         ra_next_offset r = Z.of_nat (length received) /\
         mem_read (ra_data r) 0 (length received) = received
  end.

Lemma mem_read_extend m (received chunk : list Z) :
  mem_read m 0 (length received) = received ->
  mem_read (mem_write m (length received) chunk) 0 (length received + length chunk) =
  received ++ chunk.
Proof.
  intros H. apply list_eq_mem_get.
  { by rewrite length_mem_read, length_app. }
  intros k Hk. rewrite length_mem_read in Hk. rewrite mem_get_read by done.
  rewrite mem_get_write, mem_get_app. cbn [Nat.add].
  destruct (decide (k < length received)%nat) as [Hlt|Hge].
  - rewrite decide_False by lia. pose proof (mem_get_read m 0 (length received) k Hlt) as Hk'.
    rewrite H in Hk'. by rewrite Hk'.
  - by rewrite decide_True by lia.
Qed.

(** What storing one more fragment gives. *)
Lemma store_chunk r g received chunk :
  0 <= og_total g <= VSPD_MAX_LOGICAL_PACKET -> holds r g received ->
  Z.of_nat (length received + length chunk) <= og_total g ->
  let h := data_tx_header g (Z.of_nat (length received)) (Z.of_nat (length chunk)) in
  exists r', begin_or_continue r h = Some r' /\
    let r2 := store_payload r' h chunk in
    ra_active r2 = true /\ ra_request_id r2 = og_request_id g /\
    ra_message_id r2 = og_message_id g /\ ra_total_size r2 = og_total g /\
    ra_next_offset r2 = Z.of_nat (length received + length chunk) /\
    mem_read (ra_data r2) 0 (length received + length chunk) = received ++ chunk.
Proof.
  intros Ht Hr Hle. cbn zeta. unfold begin_or_continue.
  destruct (data_tx_flag_bits g (Z.of_nat (length received)) (Z.of_nat (length chunk)))
    as (-> & _ & _).
  assert (forall r1, ra_active r1 = true -> ra_request_id r1 = og_request_id g ->
    ra_message_id r1 = og_message_id g -> ra_total_size r1 = og_total g ->
    mem_read (ra_data r1) 0 (length received) = received ->
    let r2 := store_payload r1 (data_tx_header g (Z.of_nat (length received))
                (Z.of_nat (length chunk))) chunk in
    ra_active r2 = true /\ ra_request_id r2 = og_request_id g /\
    ra_message_id r2 = og_message_id g /\ ra_total_size r2 = og_total g /\
    ra_next_offset r2 = Z.of_nat (length received + length chunk) /\
    mem_read (ra_data r2) 0 (length received + length chunk) = received ++ chunk) as Hst.
  { intros r1 H1 H2 H3 H4 H5. unfold store_payload.
    cbn [data_tx_header v_payload_size v_fragment_offset ra_active ra_request_id ra_message_id
      ra_total_size ra_next_offset ra_data]. unfold VSPD_MAX_LOGICAL_PACKET in *.
    rewrite wrap_small, !Nat2Z.id by lia. split_and!; try done; [lia|].
    destruct chunk as [|b chunk]; [by rewrite Nat.add_0_r, app_nil_r|].
    rewrite (proj2 (Z.eqb_neq _ 0)) by (cbn; lia).
    rewrite (mem_read_0_take (b :: chunk)), firstn_all by done.
    by apply mem_read_extend. }
  destruct received as [|b received].
  - cbn [holds] in Hr. rewrite Hr. cbn [length Z.of_nat Z.eqb negb orb data_tx_header v_fragment_offset].
    eexists. split; [done|]. by apply Hst.
  - destruct Hr as (Ha & H1 & H2 & H3 & H4 & H5). rewrite Ha.
    cbn [data_tx_header v_request_id v_message_id v_total_size v_fragment_offset].
    rewrite H1, H2, H3, H4, !Z.eqb_refl. cbn [negb orb length Z.of_nat Z.eqb].
    eexists. split; [done|]. by apply Hst.
Qed.

Section packets.
Context {B : Type} (o : spw_backend_ops B) (Inv : B -> Prop) `{!BackendOutputs o Inv}.
Implicit Types (s : vspwd_server B).
Abbreviation server_ok := (server_ok o Inv).

(** Client [i] may send packet [g]: it owns a port whose link runs, nothing is
    outstanding, and the peer's queue has room. *)
Record tx_ready s (i : Z) (g : outgoing) : Prop := {
  tr_server : server_ok s;
  tr_index : 0 <= i < VSPWD_CLIENT_COUNT;
  tr_idle : c_response_pending (client_at s i) = false;
  tr_attached : 0 <= c_port_id (client_at s i);
  tr_port : og_port_id g = c_port_id (client_at s i);
  tr_run : p_state (port_at s (og_port_id g)) = SPW_LINK_RUN;
  tr_peer_run : p_state (port_at s (vspwd_peer_port (og_port_id g))) = SPW_LINK_RUN;
  tr_room : (r_count (p_packets (port_at s (vspwd_peer_port (og_port_id g)))) <
             VSPWD_PACKET_QUEUE_DEPTH)%nat;
  tr_request : 0 < og_request_id g < 2 ^ 32;
  tr_message : 0 < og_message_id g < 2 ^ 32;
  tr_total : 0 <= og_total g <= VSPD_MAX_LOGICAL_PACKET
}.

(** The packet is the last of the peer's queue. *)
Definition queued s s' (g : outgoing) (data : list Z) : Prop :=
  let peer := vspwd_peer_port (og_port_id g) in
  exists slot, ring_list (p_packets (port_at s' peer)) =
       ring_list (p_packets (port_at s peer)) ++ [slot] /\
     ps_length slot = Z.of_nat (length data) /\ ps_offset slot = 0 /\
     mem_read (ps_data slot) 0 (length data) = data /\
     ps_terminator slot = (if og_eep g then SPW_TERMINATOR_EEP else SPW_TERMINATOR_EOP).

(** Every client owns the port it owned. *)
Definition owners_same s s' : Prop :=
  forall i, 0 <= i < VSPWD_CLIENT_COUNT -> c_port_id (client_at s' i) = c_port_id (client_at s i).

Lemma sessions_owners s s' : sessions_same s s' -> owners_same s s'.
Proof. intros H i Hi. specialize (H i Hi). by injection H. Qed.

Lemma respond_owners s i h status payload size : server_ok s -> 0 <= i < VSPWD_CLIENT_COUNT ->
  owners_same s (respond s i h status payload size).2.
Proof.
  intros Hs Hi j Hj. unfold respond, vspwd_queue_response.
  destruct (c_response_pending (client_at s i) || _);
    [|destruct (vspd_encode_header _ _) as [r out]; repeat case_if; try destruct payload];
    cbn [snd]; rewrite client_at_upd by (apply (proj1 Hs) || lia);
    (case_if; [by replace j with i by lia|done]).
Qed.

(** And the sender has its answer. *)
Definition arrived s s' (i : Z) (g : outgoing) (data : list Z) : Prop :=
  server_ok s' /\ queued s s' g data /\ owners_same s s' /\
  exists offset size, answered_with s' i (data_tx_header g offset size) VSPD_STATUS_OK.

Lemma tx_attached s i g offset size : tx_ready s i g ->
  vspwd_validate_attached_request (client_at s i) (data_tx_header g offset size) =
  VSPD_STATUS_OK.
Proof.
  intros H. destruct (sw_owner _ _ _ (proj1 (tr_server _ _ _ H)) i (tr_index _ _ _ H)
    (tr_attached _ _ _ H)) as [Hh _].
  pose proof (sw_port_id _ _ _ (proj1 (tr_server _ _ _ H)) i (tr_index _ _ _ H)) as Hr.
  pose proof (tr_attached _ _ _ H). pose proof (tr_port _ _ _ H) as Hp.
  unfold vspwd_validate_attached_request. rewrite Hh. cbn [negb orb data_tx_header v_port_id].
  rewrite wrap_small by slia. case_if; [lia|]. case_if; [lia|done].
Qed.

Lemma tx_request_ok g offset size : 0 < og_request_id g < 2 ^ 32 -> 0 < og_message_id g < 2 ^ 32 ->
  0 <= og_port_id g < VSPWD_PORT_COUNT -> 0 <= og_total g <= VSPD_MAX_LOGICAL_PACKET ->
  0 <= offset -> 0 <= size -> offset + size <= og_total g ->
  request_ok (data_tx_header g offset size).
Proof.
  intros Hr Hm Hp Ht Ho Hs Hle. unfold VSPD_MAX_LOGICAL_PACKET in *.
  assert (0 <= data_tx_flags g offset size < 32) as Hf.
  { unfold data_tx_flags.
    by destruct (offset =? 0), (offset + size =? og_total g), (og_eep g). }
  constructor; [|done|done|cbn; lia].
  unfold vspd_header_in_range, in_width.
  cbn [data_tx_header v_magic v_version_major v_version_minor v_type v_flags v_header_size
    v_reserved v_payload_size v_request_id v_port_id v_message_id v_fragment_offset v_total_size
    v_status].
  unfold VSPD_MAGIC, VSPD_VERSION_MAJOR, VSPD_VERSION_MINOR, VSPD_MSG_DATA_TX, VSPD_HEADER_SIZE,
    VSPWD_PORT_COUNT in *. lia.
Qed.

Lemma payload_default chunk : default [] (match chunk with [] => None | _ => Some chunk end) =
  chunk :> list Z.
Proof. by destruct chunk. Qed.

(** A fragment that is not the last is stored. *)
Lemma middle_fragment s i g received chunk : tx_ready s i g -> bytes_ok chunk ->
  holds (c_reassembly (client_at s i)) g received -> chunk <> [] ->
  Z.of_nat (length received + length chunk) < og_total g ->
  exists r, handle_data_tx s i
      (data_tx_header g (Z.of_nat (length received)) (Z.of_nat (length chunk)))
      (match chunk with [] => None | _ => Some chunk end) = (true, set_reassembly i r s) /\
    holds r g (received ++ chunk) /\ reassembly_wf r.
Proof.
  intros Hr Hbytes Hh Hne Hlt. unfold handle_data_tx.
  rewrite (tx_attached s i g _ _ Hr), Z.eqb_refl, payload_default.
  destruct (store_chunk _ g received chunk (tr_total _ _ _ Hr) Hh ltac:(lia))
    as (r' & Hb & H1 & H2 & H3 & H4 & H5 & H6).
  destruct (data_tx_flag_bits g (Z.of_nat (length received)) (Z.of_nat (length chunk)))
    as (_ & Hend & _).
  unfold vspwd_accept_data_fragment. rewrite Hb, Hend.
  rewrite (proj2 (Z.eqb_neq _ _)) by lia. cbn [negb].
  change (VSPD_STATUS_OK =? VSPD_STATUS_INVALID_PACKET) with false.
  eexists. split; [done|]. split.
  2: { set (h := data_tx_header g _ _) in *.
       assert (fragment_ok h) as Hf
         by (pose proof (tr_total _ _ _ Hr); unfold fragment_ok, h; cbn; lia).
       destruct (begin_or_continue_wf (c_reassembly (client_at s i)) h r' Hf)
         as (Hw & Ha & Ht & _); [|done|by apply store_payload_wf].
       apply (sw_client _ _ _ (proj1 (tr_server _ _ _ Hr)) i (tr_index _ _ _ Hr)). }
  unfold holds. destruct (received ++ chunk) eqn:E.
  { apply app_eq_nil in E as [_ ->]. done. }
  rewrite <- E in H6 |- *. rewrite length_app. by split_and!.
Qed.

Lemma peer_not_self id : 0 <= id < VSPWD_PORT_COUNT -> vspwd_peer_port id <> id.
Proof. unfold vspwd_peer_port. case_if; slia. Qed.

(** A packet accepted for the peer is appended to its queue. *)
Lemma enqueue_packet_arrives s id r data : server_ok s -> 0 <= id < VSPWD_PORT_COUNT ->
  p_state (port_at s id) = SPW_LINK_RUN ->
  p_state (port_at s (vspwd_peer_port id)) = SPW_LINK_RUN ->
  (r_count (p_packets (port_at s (vspwd_peer_port id))) < VSPWD_PACKET_QUEUE_DEPTH)%nat ->
  ra_total_size r = Z.of_nat (length data) -> ra_total_size r <= VSPD_MAX_LOGICAL_PACKET ->
  mem_read (ra_data r) 0 (length data) = data ->
  let '(ok, s') := vspwd_enqueue_packet s id r in
  ok = true /\ exists slot, ring_list (p_packets (port_at s' (vspwd_peer_port id))) =
      ring_list (p_packets (port_at s (vspwd_peer_port id))) ++ [slot] /\
    ps_length slot = Z.of_nat (length data) /\ ps_offset slot = 0 /\
    mem_read (ps_data slot) 0 (length data) = data /\ ps_terminator slot = ra_terminator r.
Proof.
  intros Hs Hid Hrun Hprun Hroom Ht Hmax Hd. unfold vspwd_enqueue_packet.
  rewrite Hrun, Hprun, Z.eqb_refl. cbn [negb orb].
  rewrite (proj2 (Nat.leb_gt _ _)) by done. split; [done|].
  pose proof (peer_range id) as Hp. pose proof (peer_not_self id Hid) as Hne.
  set (peer := vspwd_peer_port id) in *.
  pose proof (sw_port _ _ _ (proj1 Hs) peer Hp) as Hpw.
  assert (length (s_ports s) = 2%nat) as Hl by apply Hs.
  exists (pushed_slot (ra_data r) (ra_total_size r) (ra_terminator r) (port_at s peer)).
  rewrite !port_at_mark, !port_at_upd by (rewrite ?length_ports_upd; done || lia).
  rewrite (proj2 (Z.eqb_neq _ _)), Z.eqb_refl by done.
  rewrite push_packet_spec by (done || lia). cbn [p_packets set_p_packets].
  split. { apply (ring_list_push VSPWD_PACKET_QUEUE_DEPTH); [apply Hpw|done]. }
  split_and!; try done. cbn [ps_data pushed_slot].
  rewrite Ht. destruct data as [|b data]; [done|].
  rewrite (proj2 (Z.eqb_neq _ 0)) by (cbn; lia). rewrite Nat2Z.id, Hd.
  apply (mem_read_write_same _ 0 (b :: data)).
Qed.

Lemma accept_last_fragment s i g received chunk : tx_ready s i g -> bytes_ok chunk ->
  holds (c_reassembly (client_at s i)) g received ->
  Z.of_nat (length received + length chunk) = og_total g ->
  exists s', vspwd_accept_data_fragment s i
      (data_tx_header g (Z.of_nat (length received)) (Z.of_nat (length chunk))) chunk =
      (VSPD_STATUS_OK, s') /\
    server_ok s' /\ sessions_same s s' /\ queued s s' g (received ++ chunk).
Proof.
  intros [Hs Hi Hp Ha Hport Hrun Hprun Hroom Hrq Hmsg Htot] Hb Hh Heq.
  set (h := data_tx_header g _ _).
  pose proof (sw_port_id _ _ _ (proj1 Hs) i Hi) as Hpi.
  assert (fragment_ok h) as Hf by (unfold fragment_ok, h; cbn; lia).
  pose proof (accept_data_fragment_ok o Inv s i h chunk Hs Hi Ha Hf Hb) as Hok.
  destruct (store_chunk _ g received chunk Htot Hh ltac:(lia))
    as (r' & Hbc & H1 & H2 & H3 & H4 & H5 & H6). fold h in Hbc, H1, H2, H3, H4, H5, H6.
  destruct (data_tx_flag_bits g (Z.of_nat (length received)) (Z.of_nat (length chunk)))
    as (_ & Hend & Heep). fold h in Hend, Heep.
  rewrite (proj2 (Z.eqb_eq (Z.of_nat (length received) + _) (og_total g))) in Hend, Heep by lia.
  cbn [andb] in Heep.
  set (r := set_ra_terminator (if og_eep g then SPW_TERMINATOR_EEP else SPW_TERMINATOR_EOP)
    (store_payload r' h chunk)).
  assert (server_ok (set_reassembly i r s)) as Hs1.
  { apply set_reassembly_ok; [done..|]. destruct (begin_or_continue_wf (c_reassembly (client_at s i)) h r' Hf)
      as (Hw & Ha' & Ht' & _); [apply (sw_client _ _ _ (proj1 Hs) i Hi)|done|].
    by destruct (store_payload_wf r' h chunk Hf Hb Hw) as [Hw2 _]. }
  pose proof (enqueue_packet_arrives (set_reassembly i r s) (og_port_id g) r (received ++ chunk)
    Hs1 ltac:(lia) Hrun Hprun Hroom) as Harr.
  rewrite length_app, (H4 : ra_total_size r = og_total g) in Harr.
  specialize (Harr ltac:(lia) ltac:(lia) H6).
  unfold vspwd_accept_data_fragment in *. rewrite Hbc, Hend, Heep in *.
  fold r in Hok |- *. cbn [negb] in *. rewrite H5, H4, Heq, Z.eqb_refl in *. cbn [negb] in *.
  rewrite <- Hport in *. change (port_at (set_reassembly i r s)) with (port_at s) in *.
  rewrite Hrun, Z.eqb_refl in *. cbn [negb] in *.
  rewrite (proj2 (Nat.leb_gt _ _)) in * by done.
  destruct (vspwd_enqueue_packet (set_reassembly i r s) _ r) as [ok s2].
  destruct Harr as [-> Harr]. exists s2. split; [done|]. split; [apply Hok|]. split; [apply Hok|].
  unfold queued. rewrite length_app, Heq. exact Harr.
Qed.

Lemma last_fragment s i g received chunk : tx_ready s i g -> bytes_ok chunk ->
  holds (c_reassembly (client_at s i)) g received ->
  Z.of_nat (length received + length chunk) = og_total g ->
  exists s', handle_data_tx s i
      (data_tx_header g (Z.of_nat (length received)) (Z.of_nat (length chunk)))
      (match chunk with [] => None | _ => Some chunk end) = (true, s') /\
    arrived s s' i g (received ++ chunk).
Proof.
  intros Hr Hb Hh Heq.
  destruct (accept_last_fragment s i g received chunk Hr Hb Hh Heq) as (s1 & Hacc & Hs1 & Hv1 & Hq).
  destruct (data_tx_flag_bits g (Z.of_nat (length received)) (Z.of_nat (length chunk)))
    as (_ & Hend & _).
  rewrite (proj2 (Z.eqb_eq (Z.of_nat (length received) + _) (og_total g))) in Hend by lia.
  unfold handle_data_tx. rewrite (tx_attached s i g _ _ Hr), Z.eqb_refl, payload_default, Hacc, Hend.
  change (VSPD_STATUS_OK =? VSPD_STATUS_INVALID_PACKET) with false. cbn [negb].
  destruct Hr as [Hs Hi Hp Ha Hport _ _ _ Hrq Hmsg Htot].
  pose proof (sw_port_id _ _ _ (proj1 Hs) i Hi) as Hpi.
  destruct (set_reassembly_ok o Inv s1 i (vspwd_clear_reassembly (c_reassembly (client_at s1 i)))
    Hs1 Hi) as [Hc1 Hc2].
  { apply clear_reassembly_wf, (sw_client _ _ _ (proj1 Hs1) i Hi). }
  unfold set_reassembly in Hc1, Hc2. set (s2 := upd_client i _ s1) in Hc1, Hc2.
  pose proof (respond_with o Inv s2 i (data_tx_header g (Z.of_nat (length received))
    (Z.of_nat (length chunk))) VSPD_STATUS_OK None 0 Hc1 Hi) as H.
  destruct H as (H1 & H2 & H3).
  - pose proof (Hc2 i Hi) as E2. pose proof (Hv1 i Hi) as E1.
    injection E2 as _ _ _ -> _ _. by injection E1 as _ _ _ -> _ _.
  - apply tx_request_ok; lia.
  - by apply answer_none.
  - exists (respond s2 i (data_tx_header g (Z.of_nat (length received))
      (Z.of_nat (length chunk))) VSPD_STATUS_OK None 0).2.
    split; [|split; [done|split; [|split; [|by eexists _, _]]]].
    + unfold s2 in *. by destruct (respond _ _ _ _ _ _) as [ok s3]; cbn in H1; subst ok.
    + unfold respond. by destruct (vspwd_queue_response _ _ _ _ _).
    + intros j Hj. rewrite respond_owners by done. rewrite (sessions_owners _ _ Hc2) by done.
      by apply sessions_owners.
Qed.

(** The fragments before the last only move the reassembly. *)
Lemma tx_ready_reassembly s i g r : tx_ready s i g -> reassembly_wf r ->
  tx_ready (set_reassembly i r s) i g /\ c_reassembly (client_at (set_reassembly i r s) i) = r.
Proof.
  intros [Hs Hi Hp Ha Hport Hrun Hprun Hroom Hrq Hmsg Htot] Hr.
  destruct (set_reassembly_ok o Inv s i r Hs Hi Hr) as [Hs1 _].
  assert (client_at (set_reassembly i r s) i = set_c_reassembly r (client_at s i)) as Hat.
  { unfold set_reassembly. rewrite client_at_upd by (apply Hs || lia). by rewrite Z.eqb_refl. }
  split; [|by rewrite Hat]. constructor; try done; by rewrite Hat.
Qed.

Lemma fragments_arrive i g chunks : forall s received, tx_ready s i g ->
  Forall bytes_ok chunks -> chunks <> [] -> reassembly_wf (c_reassembly (client_at s i)) ->
  holds (c_reassembly (client_at s i)) g received ->
  Z.of_nat (length received + length (concat chunks)) = og_total g ->
  (Forall (fun c => c <> []) chunks \/ og_total g = 0 /\ length chunks = 1%nat) ->
  exists s', handle_fragments s i g (Z.of_nat (length received)) chunks = (true, s') /\
    arrived s s' i g (received ++ concat chunks).
Proof.
  induction chunks as [|chunk chunks IH]; [done|].
  intros s received Hr Hb _ Hw Hh Hlen Hne. cbn [handle_fragments concat] in *.
  apply Forall_cons in Hb as [Hb1 Hb]. rewrite length_app in Hlen.
  destruct chunks as [|chunk2 chunks].
  - cbn [concat length] in *. rewrite app_nil_r.
    destruct (last_fragment s i g received chunk Hr Hb1 Hh) as (s' & -> & Harr); [lia|].
    by exists s'.
  - destruct Hne as [Hne|[_ ?]]; [|done]. pose proof Hne as [Hc Hne2]%Forall_cons.
    pose proof Hne2 as [Hc2 _]%Forall_cons.
    assert (0 < length (concat (chunk2 :: chunks)))%nat as Hpos.
    { cbn [concat]. rewrite length_app. destruct chunk2; [done|cbn; lia]. }
    destruct (middle_fragment s i g received chunk Hr Hb1 Hh Hc) as (r & Heq & Hh' & Hrw); [lia|].
    rewrite Heq. destruct (tx_ready_reassembly s i g r Hr Hrw) as [Hr' Hat].
    destruct (IH (set_reassembly i r s) (received ++ chunk)) as (s' & Hrun & Harr); try done.
    + by rewrite Hat.
    + by rewrite Hat.
    + rewrite length_app. lia.
    + by left.
    + rewrite length_app, Nat2Z.inj_add in Hrun. rewrite Hrun. exists s'.
      rewrite app_assoc. split; [done|]. destruct Harr as (H1 & H2 & Hown & H3).
      split_and!; try done. intros j Hj. rewrite Hown by done.
      by apply sessions_owners; [|done]; apply (set_reassembly_ok o Inv s i r); try apply Hr.
Qed.

(** C15. A packet that a client sends in fragments, cut anywhere, over a running
    link reaches the peer's queue whole: after the last fragment the queue holds
    the packets it held before and then one with exactly the bytes of the
    fragments in order and the terminator of the last one, every client owns the
    port it owned, and the sender has an OK answer waiting.  An empty packet is one empty fragment. *)
Theorem packet_carried s i g chunks : tx_ready s i g ->
  ra_active (c_reassembly (client_at s i)) = false -> Forall bytes_ok chunks ->
  Z.of_nat (length (concat chunks)) = og_total g ->
  (chunks <> [] /\ Forall (fun c => c <> []) chunks \/ chunks = [[]]) ->
  exists s', handle_fragments s i g 0 chunks = (true, s') /\
    arrived s s' i g (concat chunks).
Proof.
  intros Hr Hidle Hb Hlen Hne. apply (fragments_arrive i g chunks s []); try done.
  - by destruct Hne as [[? _]| ->].
  - apply (sw_client _ _ _ (proj1 (tr_server _ _ _ Hr)) i (tr_index _ _ _ Hr)).
  - destruct Hne as [[_ ?]| ->]; [by left|right]. split; [|done]. cbn in Hlen. lia.
Qed.
End packets.

(** ** Packets out *)

(** The number of fragments of a packet of [length] bytes. *)
Definition fragment_count (length : Z) : nat :=
  if length =? 0 then 1
  else Z.to_nat ((length + (VSPD_MAX_FRAME_PAYLOAD - 1)) / VSPD_MAX_FRAME_PAYLOAD).

(** The slot when [k] fragments have been sent, and the payload of the next. *)
Definition sent_slot (slot : vspwd_packet_slot) (k : nat) : vspwd_packet_slot :=
  set_ps_offset (Z.of_nat k * VSPD_MAX_FRAME_PAYLOAD) slot.

Definition fragment_payload (slot : vspwd_packet_slot) (k : nat) : list Z :=
  mem_read (ps_data slot) (Z.to_nat (Z.of_nat k * VSPD_MAX_FRAME_PAYLOAD))
    (Z.to_nat (slot_chunk (sent_slot slot k))).

Definition fragment_record (port_id : Z) (slot : vspwd_packet_slot) (k : nat) : list Z :=
  vspd_header_bytes (packet_event_header port_id (sent_slot slot k)) ++ fragment_payload slot k.

(** Client [i]'s turn to receive a packet event, [n] times. *)
Fixpoint flush_packets {B W} (os : os_ops W) (n : nat) (s : vspwd_server B) (i : Z) (w : W)
    : bool * (vspwd_server B * W) :=
  match n with
  | O => (true, (s, w))
  | S n =>
      let '(ok, (s, w)) := vspwd_flush_packet_event os s i w in
      if ok then flush_packets os n s i w else (false, (s, w))
  end.

Lemma fragment_count_bounds length k : 0 <= length -> (k < fragment_count length)%nat ->
  Z.of_nat k * VSPD_MAX_FRAME_PAYLOAD <= length /\
  (Z.of_nat k * VSPD_MAX_FRAME_PAYLOAD = length -> length = 0) /\
  (S k = fragment_count length <-> length <= Z.of_nat (S k) * VSPD_MAX_FRAME_PAYLOAD).
Proof.
  unfold fragment_count, VSPD_MAX_FRAME_PAYLOAD. intros Hl Hk. case_if.
  - assert (k = 0%nat) as -> by lia. lia.
  - pose proof (Z.div_mod (length + (32 * 1024 - 1)) (32 * 1024) ltac:(lia)).
    pose proof (Z.mod_pos_bound (length + (32 * 1024 - 1)) (32 * 1024) ltac:(lia)). lia.
Qed.

Lemma fragment_count_pos length : 0 <= length -> (0 < fragment_count length)%nat.
Proof.
  intros H. unfold fragment_count, VSPD_MAX_FRAME_PAYLOAD. case_if; [lia|].
  pose proof (Z.div_le_lower_bound (length + (32 * 1024 - 1)) (32 * 1024) 1). lia.
Qed.

Lemma mem_read_split m off (a b : nat) :
  mem_read m off (a + b) = mem_read m off a ++ mem_read m (off + a) b.
Proof.
  apply list_eq_mem_get; [by rewrite length_app, !length_mem_read|].
  intros j Hj. rewrite length_mem_read in Hj. rewrite mem_get_app, length_mem_read.
  rewrite mem_get_read by done. case_decide; rewrite mem_get_read by lia; [done|].
  f_equal. lia.
Qed.

(** The payloads of the fragments make up the packet. *)
Lemma fragments_concat slot : queued_ok slot -> ps_offset slot = 0 ->
  concat (fragment_payload slot <$> seq 0 (fragment_count (ps_length slot))) =
  mem_read (ps_data slot) 0 (Z.to_nat (ps_length slot)).
Proof.
  intros (_ & Hmax & Hor & _) H0. rewrite H0 in Hor.
  assert (forall n, (n <= fragment_count (ps_length slot))%nat ->
    concat (fragment_payload slot <$> seq 0 n) =
    mem_read (ps_data slot) 0
      (Z.to_nat (Z.min (ps_length slot) (Z.of_nat n * VSPD_MAX_FRAME_PAYLOAD)))) as Hn.
  { induction n as [|n IH]; intros Hle; [by rewrite Z.min_r by lia|].
    rewrite seq_S, fmap_app, concat_app, IH by lia. cbn [fmap list_fmap concat]. rewrite app_nil_r.
    destruct (fragment_count_bounds (ps_length slot) n) as (H1 & H2 & H3); [lia|lia|].
    unfold fragment_payload, slot_chunk, sent_slot. cbn [Nat.add set_ps_offset ps_length ps_offset].
    unfold VSPD_MAX_LOGICAL_PACKET, VSPD_MAX_FRAME_PAYLOAD in *. rewrite wrap_small by lia.
    rewrite Z.min_r by lia.
    match goal with |- mem_read _ 0 ?a ++ mem_read _ _ ?b = _ =>
      etrans; [symmetry; apply (mem_read_split (ps_data slot) 0 a b)|] end.
    f_equal. case_if; lia. }
  rewrite Hn by done. f_equal. f_equal.
  pose proof (fragment_count_pos (ps_length slot) ltac:(lia)) as Hpos.
  destruct (fragment_count_bounds (ps_length slot) (fragment_count (ps_length slot) - 1))
    as (_ & _ & H3); [lia|lia|].
  replace (S (fragment_count (ps_length slot) - 1)) with (fragment_count (ps_length slot)) in H3 by lia.
  lia.
Qed.

Section delivery.
Context {B W : Type} (os : os_ops W) (o : spw_backend_ops B) (Inv : B -> Prop)
  `{!BackendOutputs o Inv}.
Implicit Types (s : vspwd_server B).
Abbreviation server_ok := (server_ok o Inv).

(** The socket takes whole records. *)
Definition sends_all : Prop :=
  forall fd data w, (os_send os fd data w).1 = Z.of_nat (length data).

Lemma send_event_logged fd h payload w log : sends_all -> vspd_header_in_range h = true ->
  vspd_validate_common h = VSPD_CODEC_OK ->
  exists w', send_event (log_os os) fd h payload (w, log) =
    (true, (w', (fd, vspd_header_bytes h ++ payload) :: log)).
Proof.
  intros Hsend Hr Hc. unfold send_event. rewrite vspd_encode_header_bytes by done.
  rewrite drop_nil, app_nil_r. cbn [negb Z.eqb VSPD_CODEC_OK].
  rewrite <- (app_nil_r (vspd_header_bytes h)), mem_write_app by done.
  rewrite drop_nil, app_nil_r. unfold vspwd_send_record. cbn [log_os os_send].
  pose proof (Hsend fd (vspd_header_bytes h ++ payload) w) as H.
  destruct (os_send os fd _ w) as [sent w']. cbn in H. rewrite H, Z.eqb_refl. by exists w'.
Qed.

(** Client [i] owns port [id], whose queue is [slots]. *)
Definition queue_is s (i id : Z) (slots : list vspwd_packet_slot) : Prop :=
  server_ok s /\ c_port_id (client_at s i) = id /\ ring_list (p_packets (port_at s id)) = slots.

Lemma front_queued s i id slot rest : 0 <= i < VSPWD_CLIENT_COUNT -> 0 <= id ->
  queue_is s i id (slot :: rest) -> queued_ok slot.
Proof.
  intros Hi Hid (Hs & Hp & Hq). pose proof (sw_port_id _ _ _ (proj1 Hs) i Hi) as Hpi.
  destruct (sw_port _ _ _ (proj1 Hs) id ltac:(lia)) as ((_ & _ & Hall & _) & _).
  rewrite Hq in Hall. by apply Forall_cons in Hall as [? _].
Qed.

Lemma log_recvmsg_ok : recvmsg_ok os -> recvmsg_ok (log_os os).
Proof.
  intros H fd size [w log]. cbn. specialize (H fd size w).
  by destruct (os_recvmsg os fd size w) as [[[r f] tr] w'].
Qed.

(** One packet event. *)
Lemma flush_packet_step s i id w log slot rest : sends_all -> recvmsg_ok os -> 0 <= i < VSPWD_CLIENT_COUNT ->
  0 <= id -> queue_is s i id (slot :: rest) ->
  exists s' w', vspwd_flush_packet_event (log_os os) s i (w, log) =
      (true, (s', (w', (c_fd (client_at s i),
        vspd_header_bytes (packet_event_header id slot) ++
        mem_read (ps_data slot) (Z.to_nat (ps_offset slot)) (Z.to_nat (slot_chunk slot))) :: log))) /\
    c_fd (client_at s' i) = c_fd (client_at s i) /\
    queue_is s' i id
      (if slot_final slot then rest
       else set_ps_offset (u32 (ps_offset slot + slot_chunk slot)) slot :: rest).
Proof.
  intros Hsend Hrecv Hi Hid (Hs & Hp & Hq).
  pose proof (sw_port_id _ _ _ (proj1 Hs) i Hi) as Hpi. rewrite Hp in Hpi.
  pose proof (sw_port _ _ _ (proj1 Hs) id ltac:(lia)) as ((Hw & Hst & Hql & Hrest) & _).
  destruct (ring_list_cons _ _ _ _ Hw Hq) as (Hfront & Hpop & _).
  assert (r_count (p_packets (port_at s id)) <> 0)%nat as Hc
    by (intros Hc; apply ring_list_nil in Hc; congruence).
  rewrite Hq in Hql. apply Forall_cons in Hql as [Hslot _].
  destruct (slot_chunk_spec slot Hslot) as (_ & _ & Hch0 & _).
  set (payload := mem_read (ps_data slot) (Z.to_nat (ps_offset slot)) (Z.to_nat (slot_chunk slot))).
  assert (valid_record (packet_event_header id slot) payload) as Hv.
  { apply packet_event_valid; [done|]. unfold payload. by rewrite length_mem_read, Z2Nat.id. }
  destruct (send_event_logged (c_fd (client_at s i)) _ payload w log Hsend (vr_range _ _ Hv)
    (vr_common _ _ Hv)) as [w' Hev].
  pose proof (any_contract _ (log_recvmsg_ok Hrecv)) as Hos.
  pose proof (flush_packet_event_ok (log_os os) (fun _ => True) o Inv s i (w, log) Hs Hi I)
    as [Hok _].
  assert (length (s_clients s) = 4%nat /\ length (s_ports s) = 2%nat) as [Hlc Hlp]
    by (split; apply Hs).
  unfold vspwd_flush_packet_event in *. rewrite Hp in *. rewrite (proj2 (Z.ltb_ge _ _)) in * by lia.
  rewrite (proj2 (Nat.eqb_neq _ _)) in * by done. rewrite Hfront in *. fold payload in Hok |- *.
  rewrite Hev in *. cbn [negb fst snd] in *.
  destruct (slot_final slot); cbn [negb fst snd] in *; eexists _, w'; (split; [done|]).
  - destruct (client_at_mark (upd_port id (fun p => set_p_packets (ring_pop (p_packets p))
      (set_p_statistics (count_rx_packet (ps_length slot) (p_statistics p)) p)) s) id i Hi Hlc)
      as [m Hm].
    rewrite Hm. split; [done|]. split; [done|]. rewrite Hm. split; [done|].
    rewrite port_at_mark, port_at_upd, Z.eqb_refl by (done || lia). exact Hpop.
  - split; [done|]. split; [done|]. split; [done|].
    rewrite port_at_upd, Z.eqb_refl by (done || lia). cbn [p_packets set_p_packets].
    rewrite (ring_list_set_front VSPWD_PACKET_QUEUE_DEPTH) by (done || lia). by rewrite Hpop.
Qed.

(** What is left of the queue when [k] fragments of its first packet are out. *)
Definition after_fragments (slot : vspwd_packet_slot) (rest : list vspwd_packet_slot) (k : nat) :=
  if (k <? fragment_count (ps_length slot))%nat then sent_slot slot k :: rest else rest.

Lemma sent_slot_next slot k : 0 <= ps_length slot <= VSPD_MAX_LOGICAL_PACKET ->
  queued_ok (sent_slot slot k) -> (k < fragment_count (ps_length slot))%nat ->
  slot_final (sent_slot slot k) = (S k =? fragment_count (ps_length slot))%nat /\
  (slot_final (sent_slot slot k) = false ->
   set_ps_offset (u32 (ps_offset (sent_slot slot k) + slot_chunk (sent_slot slot k)))
     (sent_slot slot k) = sent_slot slot (S k)).
Proof.
  intros Hl Hq Hk. destruct (slot_chunk_spec _ Hq) as (Hch & Hfin & _).
  destruct (fragment_count_bounds (ps_length slot) k ltac:(lia) Hk) as (H1 & H2 & H3).
  rewrite Hch in Hfin. rewrite Hfin. rewrite Hch.
  unfold sent_slot, VSPD_MAX_FRAME_PAYLOAD, VSPD_MAX_LOGICAL_PACKET in *.
  cbn [set_ps_offset ps_offset ps_length] in *.
  destruct (S k =? _)%nat eqn:E; [apply Nat.eqb_eq in E|apply Nat.eqb_neq in E]; split; try lia.
  intros _. unfold set_ps_offset. cbn [ps_data ps_length ps_message_id ps_terminator].
  rewrite wrap_small by lia. f_equal. lia.
Qed.

Lemma flush_packets_from i id slot rest m : sends_all -> recvmsg_ok os ->
  0 <= i < VSPWD_CLIENT_COUNT -> 0 <= id -> 0 <= ps_length slot <= VSPD_MAX_LOGICAL_PACKET ->
  forall k s w log, (k + m = fragment_count (ps_length slot))%nat ->
  queue_is s i id (after_fragments slot rest k) ->
  exists s' w', flush_packets (log_os os) m s i (w, log) =
      (true, (s', (w', rev ((fun k => (c_fd (client_at s i), fragment_record id slot k)) <$> seq k m)
                       ++ log))) /\
    queue_is s' i id rest.
Proof.
  intros Hsend Hrecv Hi Hid Hl. induction m as [|m IH]; intros k s w log Hk Hq.
  { exists s, w. split; [done|]. unfold after_fragments in Hq.
    by rewrite (proj2 (Nat.ltb_ge _ _)) in Hq by lia. }
  unfold after_fragments in Hq. rewrite (proj2 (Nat.ltb_lt _ _)) in Hq by lia.
  pose proof (front_queued s i id _ rest Hi Hid Hq) as Hqo.
  destruct (flush_packet_step s i id w log _ rest Hsend Hrecv Hi Hid Hq)
    as (s1 & w1 & Hstep & Hfd & Hq1).
  destruct (sent_slot_next slot k Hl Hqo ltac:(lia)) as [Hfin Hnext].
  destruct (IH (S k) s1 w1 ((c_fd (client_at s i), fragment_record id slot k) :: log))
    as (s' & w' & Hrun & Hq'); [lia| |].
  { unfold after_fragments.
    destruct (slot_final (sent_slot slot k)); symmetry in Hfin;
      [apply Nat.eqb_eq in Hfin|apply Nat.eqb_neq in Hfin].
    - by rewrite (proj2 (Nat.ltb_ge _ _)) by lia.
    - rewrite (proj2 (Nat.ltb_lt _ _)) by lia. by rewrite Hnext in Hq1. }
  exists s', w'. split; [|done]. cbn [flush_packets]. rewrite Hstep.
  unfold fragment_record in Hrun at 1. rewrite Hfd in Hrun. etrans; [exact Hrun|].
  cbn [seq fmap list_fmap rev]. by rewrite <- app_assoc.
Qed.

(** A packet at the front of an owner's queue leaves in a bounded number of
    turns: with a socket that takes whole records, after as many packet events
    as it has fragments of at most 32 KiB, exactly its fragments have been sent
    to the owner, in order, and their payloads make up the packet; the packet is
    then gone from the queue and the others are as they were. *)
Theorem packet_delivered s i id w log slot rest : sends_all -> recvmsg_ok os ->
  0 <= i < VSPWD_CLIENT_COUNT -> 0 <= id -> queue_is s i id (slot :: rest) ->
  ps_offset slot = 0 ->
  let n := fragment_count (ps_length slot) in
  concat (fragment_payload slot <$> seq 0 n) =
    mem_read (ps_data slot) 0 (Z.to_nat (ps_length slot)) /\
  exists s' w', flush_packets (log_os os) n s i (w, log) =
      (true, (s', (w', rev ((fun k => (c_fd (client_at s i), fragment_record id slot k)) <$> seq 0 n)
                       ++ log))) /\
    queue_is s' i id rest.
Proof.
  intros Hsend Hrecv Hi Hid Hq H0. cbn zeta.
  pose proof (front_queued s i id slot rest Hi Hid Hq) as Hqo.
  split; [by apply fragments_concat|]. pose proof Hqo as (_ & Hmax & Hor & _).
  apply (flush_packets_from i id slot rest _ Hsend Hrecv Hi Hid ltac:(lia) 0); [lia|].
  unfold after_fragments. rewrite (proj2 (Nat.ltb_lt _ _)).
  - unfold sent_slot. rewrite Z.mul_0_l, <- H0. by destruct slot.
  - apply fragment_count_pos. lia.
Qed.
End delivery.

(** ** Time-codes the bridge cannot send *)

Section stuck.
Context {B : Type}.
Implicit Types (s : vspwd_server B).

(** Port [id] is the bridge's and its time-code queue is [q]. *)
Definition bridge_queue (id : Z) (q : ring spw_time_code) s : Prop :=
  length (s_ports s) = 2%nat /\ 0 <= id < VSPWD_PORT_COUNT /\ b_port_id (s_bridge s) = id /\
  p_time_codes (port_at s id) = q.

Lemma bq_upd_port id q s id' f : bridge_queue id q s -> 0 <= id' < VSPWD_PORT_COUNT ->
  (id' = id -> p_time_codes (f (port_at s id)) = p_time_codes (port_at s id)) ->
  bridge_queue id q (upd_port id' f s).
Proof.
  intros (Hl & Hid & Hb & Hq) Hid' Hf. split; [by rewrite length_ports_upd|].
  split; [done|]. split; [done|]. rewrite port_at_upd by (done || lia).
  case_if; [|done]. assert (id = id') as <- by lia. by rewrite Hf.
Qed.

Lemma bq_mark id q s id' : bridge_queue id q s ->
  bridge_queue id q (vspwd_mark_port_changed s id').
Proof.
  intros (Hl & Hid & Hb & Hq). unfold bridge_queue. rewrite bridge_mark, port_at_mark.
  split; [|done]. unfold vspwd_mark_port_changed. by case_if.
Qed.

Lemma bq_upd_bridge id q s f : bridge_queue id q s ->
  b_port_id (f (s_bridge s)) = b_port_id (s_bridge s) -> bridge_queue id q (upd_bridge f s).
Proof. intros (Hl & Hid & Hb & Hq) Hf. split_and!; try done; [lia|lia|by rewrite <- Hb]. Qed.

Create HintDb stuck.
Hint Resolve bq_upd_port bq_mark bq_upd_bridge peer_range : stuck.

Lemma bq_update_state id q s id' : bridge_queue id q s -> 0 <= id' < VSPWD_PORT_COUNT ->
  bridge_queue id q (vspwd_update_state s id').
Proof.
  intros Hq Hid'. unfold vspwd_update_state. case_if; [auto with stuck|]. case_if; [done|].
  case_if; auto 6 with stuck.
Qed.

Lemma bq_refresh id q s : bridge_queue id q s -> bridge_queue id q (vspwd_bridge_refresh_state s).
Proof.
  intros Hq. pose proof Hq as (_ & Hid & Hb & _). unfold vspwd_bridge_refresh_state.
  case_if; [done|]. destruct (spw_port_get_link_state _ _) as [[r out] udp]. rewrite Hb.
  unfold set_udp_port. set (state := if negb (r =? SPW_OK) then _ else _).
  destruct (state =? b_state (s_bridge s)); [auto with stuck|]. rewrite update_states_unfold.
  apply bq_update_state; [|slia]. apply bq_update_state; [|slia].
  destruct (p_state _ =? _); [auto with stuck|].
  destruct (_ =? SPW_LINK_ERROR_WAIT); auto 10 with stuck.
Qed.

Lemma bq_transfers id q s : bridge_queue id q s ->
  bridge_queue id q (vspwd_bridge_pop_packet s) /\ bridge_queue id q (vspwd_bridge_push_packet s) /\
  bridge_queue id q (vspwd_bridge_push_time_code s).
Proof.
  intros Hq. pose proof Hq as (_ & Hid & Hb & _). pose proof (peer_not_self id Hid) as Hne.
  unfold vspwd_bridge_pop_packet, vspwd_bridge_push_packet, vspwd_bridge_push_time_code.
  rewrite Hb. unfold set_udp_port. split_and!; (case_if; [done|]).
  - destruct (spw_port_send _ _ _). case_if; auto 10 with stuck.
  - destruct (spw_port_receive _ _ _) as [[r out] udp]. case_if; auto 10 with stuck.
    do 2 apply bq_mark. apply bq_upd_port; [|done|done].
    apply bq_upd_port; auto 10 with stuck. done.
  - destruct (spw_port_receive_time_code _ _ _) as [[r out] udp]. case_if; auto 10 with stuck.
    do 2 apply bq_mark. apply bq_upd_port; [|done|done].
    apply bq_upd_port; auto 10 with stuck. done.
Qed.

(** A time-code whose control flags the port interface refuses is not removed. *)
Lemma bq_pop_time_code id q s : bridge_queue id q s ->
  valid_time_code (ring_front q) = false -> bridge_queue id q (vspwd_bridge_pop_time_code s).
Proof.
  intros Hq Hv. pose proof Hq as (_ & Hid & Hb & Ht). unfold vspwd_bridge_pop_time_code.
  rewrite Hb, Ht. case_if; [done|]. unfold spw_port_send_time_code. rewrite Hv.
  cbn [negb]. unfold set_udp_port. auto with stuck.
Qed.

Lemma bq_service id q s : bridge_queue id q s -> valid_time_code (ring_front q) = false ->
  bridge_queue id q (vspwd_service_bridge s).
Proof.
  intros Hq Hv. unfold vspwd_service_bridge. case_if; [done|].
  pose proof (bq_refresh id q s Hq) as H1. case_if; [done|].
  apply bq_refresh, bq_transfers, bq_transfers, bq_pop_time_code, Hv. by apply bq_transfers.
Qed.

(** C33. The device protocol admits time-codes with control flags 0 to 3, and the
    server queues them for the bridge, but the port interface sends only those
    with control flags 0: once one with other flags is at the head of the
    bridge's queue, no number of bridge services removes it, and nothing queued
    behind it is ever sent. *)
Theorem bridge_time_code_blocks (o : spw_backend_ops B) Inv s tc rest n :
  server_ok o Inv s -> b_enabled (s_bridge s) = true ->
  let id := b_port_id (s_bridge s) in
  ring_list (p_time_codes (port_at s id)) = tc :: rest -> control_flags tc <> 0 ->
  p_time_codes (port_at (Nat.iter n vspwd_service_bridge s) id) = p_time_codes (port_at s id).
Proof.
  intros [Hs _] He id Hq Hf. destruct (sw_bridge _ _ _ Hs) as (_ & _ & _ & _ & Hen).
  destruct (Hen He) as (Hid & _). destruct (sw_port _ _ _ Hs _ Hid) as (_ & [Hw _] & _).
  destruct (ring_list_cons _ _ _ _ Hw Hq) as [Hfront _]. fold id in Hid, Hfront.
  assert (length (s_ports s) = 2%nat) as Hl by apply Hs.
  assert (bridge_queue id (p_time_codes (port_at s id)) (Nat.iter n vspwd_service_bridge s)) as H.
  { induction n as [|n IH]; [done|]. cbn [Nat.iter nat_rect]. apply bq_service; [done|].
    rewrite Hfront. unfold valid_time_code.
    rewrite (proj2 (Z.eqb_neq _ _) Hf). apply andb_false_r. }
  apply H.
Qed.
End stuck.

(** ** Samples *)

Lemma sample_server_ok : server_ok FIFO_OPS fifo_contents_ok sample_server.
Proof.
  apply (running_ok script_os lp64 full_build (fun _ => fifo_factory) (fun _ _ => None)
    FIFO_OPS fifo_contents_ok (vc_udp_bridge (sample_config false)) sample_server
    fifo_outputs fifo_factory_ok script_recvmsg ltac:(done) sample_running).
Qed.

Lemma request_answered_witness :
  exists h, admitted sample_server 0 (request_frame VSPD_MSG_GET_LINK_STATE 0 []) = Some h /\
    answered (vspwd_handle_request sample_server 0
      (request_frame VSPD_MSG_GET_LINK_STATE 0 []) 40).2 0 h.
Proof.
  eexists. split; [vm_compute; reflexivity|].
  assert (0 <= c_fd (client_at sample_server 0)) as Hfd by (vm_compute; done).
  assert (bytes_ok (request_frame VSPD_MSG_GET_LINK_STATE 0 [])) as Hb
    by (apply bytes_ok_check; vm_compute; done).
  pose proof (request_answered FIFO_OPS fifo_contents_ok sample_server 0
    (request_frame VSPD_MSG_GET_LINK_STATE 0 []) sample_server_ok ltac:(done) Hfd Hb) as H.
  change (Z.of_nat (length (request_frame VSPD_MSG_GET_LINK_STATE 0 []))) with 40 in H.
  destruct (vspwd_handle_request sample_server 0 _ 40) as [ok s'].
  destruct (admitted sample_server 0 _) as [h|] eqn:E; vm_compute in E; [|done].
  injection E as <-. destruct H as (_ & H & _). by destruct H.
Defined.

(** A packet of three bytes in two fragments, from port 0 to port 1. *)
Definition sample_outgoing : outgoing :=
  {| og_request_id := 9; og_port_id := 0; og_message_id := 3; og_total := 3; og_eep := true |}.

Lemma sample_tx_ready : tx_ready FIFO_OPS fifo_contents_ok sample_server 0 sample_outgoing.
Proof.
  constructor; [apply sample_server_ok|by vm_compute..| |done|done|done].
  apply Nat.ltb_lt. by vm_compute.
Qed.

Definition carried_server : vspwd_server fifo :=
  (handle_fragments sample_server 0 sample_outgoing 0 [[1; 2]; [3]]).2.

Lemma packet_carried_witness :
  arrived FIFO_OPS fifo_contents_ok sample_server carried_server 0 sample_outgoing [1; 2; 3].
Proof.
  destruct (packet_carried FIFO_OPS fifo_contents_ok sample_server 0 sample_outgoing [[1; 2]; [3]])
    as (s' & H & Harr); [apply sample_tx_ready|by vm_compute|by repeat (constructor; [by apply bytes_ok_check|])|done| |].
  - left. split; [done|]. by repeat constructor.
  - unfold carried_server. by rewrite H.
Defined.

Lemma carried_server_ok : server_ok FIFO_OPS fifo_contents_ok carried_server.
Proof.
  pose proof (fragments_arrive FIFO_OPS fifo_contents_ok 0 sample_outgoing [[1; 2]; [3]]
    sample_server [] sample_tx_ready) as H.
  destruct H as (s' & H & [Hs' _]).
  - by repeat (constructor; [by apply bytes_ok_check|]).
  - discriminate.
  - by apply (sw_client _ _ _ (proj1 sample_server_ok)).
  - by vm_compute.
  - reflexivity.
  - left. by repeat constructor.
  - unfold carried_server. change (Z.of_nat (length [])) with 0 in H. by rewrite H.
Qed.

Lemma packet_delivered_witness :
  let slot := ring_front (p_packets (port_at carried_server 1)) in
  concat (fragment_payload slot <$> seq 0 1) = [1; 2; 3] /\
  exists s' w', flush_packets (log_os script_os) 1 carried_server 1 (two_clients, []) =
      (true, (s', (w', [(6, fragment_record 1 slot 0)]))) /\
    queue_is FIFO_OPS fifo_contents_ok s' 1 1 [].
Proof.
  cbn zeta. set (slot := ring_front _).
  assert (queue_is FIFO_OPS fifo_contents_ok carried_server 1 1 [slot]) as Hq.
  { split; [apply carried_server_ok|by vm_compute]. }
  destruct (packet_delivered script_os FIFO_OPS fifo_contents_ok carried_server 1 1 two_clients []
    slot [] ltac:(by intros ???) script_recvmsg ltac:(done) ltac:(done) Hq) as [H1 H2].
  - by vm_compute.
  - split; [etrans; [exact H1|by vm_compute]|]. exact H2.
Defined.

(** A bridge on port 1, and a client on port 0 that sends time-code 5 with
    control flags 1. *)
Definition opened_server : vspwd_server fifo :=
  upd_client 0 (fun _ => set_c_port_id (-1) (set_c_fd 5 client_zero))
    (vspwd_open_bridge lp64 full_build (fun _ => fifo_factory) (fun _ _ => Some 4096)
       vspwd_init_server (vc_udp_bridge (sample_config true))).2.

(** One request of client 0 and the answer sent. *)
Definition serve (s : vspwd_server fifo) (frame : list Z) : vspwd_server fifo :=
  (vspwd_flush_response script_os
     (vspwd_handle_request s 0 frame (Z.of_nat (length frame))).2 0 two_clients).2.1.

Definition bridged_frames : list (list Z) :=
  [hello_frame; request_frame VSPD_MSG_ATTACH 0 []; request_frame VSPD_MSG_START 0 [];
   request_frame VSPD_MSG_TIME_CODE_TX 0 [5; 1]].

Definition bridged_server : vspwd_server fifo := fold_left serve bridged_frames opened_server.

Lemma serve_ok s frame : server_ok FIFO_OPS fifo_contents_ok s ->
  (0 <=? c_fd (client_at s 0)) = true -> bytes_ok frame ->
  server_ok FIFO_OPS fifo_contents_ok (serve s frame).
Proof.
  intros Hs Hfd Hb. pose proof (any_contract script_os script_recvmsg) as Hos.
  pose proof (handle_request_ok FIFO_OPS fifo_contents_ok s 0 frame Hs ltac:(done) ltac:(lia) Hb)
    as H1.
  by destruct (flush_response_ok script_os (fun _ => True) FIFO_OPS fifo_contents_ok _ 0
    two_clients H1 ltac:(done) I).
Qed.

Lemma opened_server_ok : server_ok FIFO_OPS fifo_contents_ok opened_server.
Proof.
  assert (server_ok FIFO_OPS fifo_contents_ok
    (vspwd_open_bridge lp64 full_build (fun _ => fifo_factory) (fun _ _ => Some 4096)
       vspwd_init_server (vc_udp_bridge (sample_config true))).2) as Hs.
  { pose proof (open_bridge_ok lp64 full_build (fun _ => fifo_factory) (fun _ _ => Some 4096)
      FIFO_OPS fifo_contents_ok fifo_factory_ok (vc_udp_bridge (sample_config true)) ltac:(done))
      as H.
    destruct (vspwd_open_bridge _ _ _ _ _ _) as [r s] eqn:E. apply H.
    assert (r = (r, s).1) as -> by reflexivity. rewrite <- E. vm_compute. reflexivity. }
  apply upd_client_ok; [done|done|apply fresh_client_wf|by vm_compute|].
  intros H. vm_compute in H. by destruct H.
Qed.

Lemma bridged_server_ok : server_ok FIFO_OPS fifo_contents_ok bridged_server.
Proof.
  unfold bridged_server, bridged_frames. cbn [fold_left].
  do 4 (apply serve_ok; [|vm_compute; reflexivity|apply bytes_ok_check; vm_compute; reflexivity]).
  apply opened_server_ok.
Qed.

Lemma bridge_time_code_blocks_witness :
  p_time_codes (port_at (Nat.iter 1000 vspwd_service_bridge bridged_server) 1) =
  p_time_codes (port_at bridged_server 1).
Proof.
  assert (ring_list (p_time_codes (port_at bridged_server (b_port_id (s_bridge bridged_server)))) =
    [{| time_count := 5; control_flags := 1 |}]) as Hq by (vm_compute; reflexivity).
  assert (b_enabled (s_bridge bridged_server) = true) as He by (vm_compute; reflexivity).
  pose proof (bridge_time_code_blocks FIFO_OPS fifo_contents_ok bridged_server
    {| time_count := 5; control_flags := 1 |} [] 1000 bridged_server_ok He Hq ltac:(discriminate))
    as H.
  assert (b_port_id (s_bridge bridged_server) = 1) as Hid by (vm_compute; reflexivity).
  rewrite Hid in H. exact H.
Defined.
