(* ===== verification/Simulator.v ===== *)
(** * The simulator backend

    src/src/backends/virtual/simulator_backend.c: two ports of one process joined
    by a virtual link, kept in a process-wide registry of sixteen links.

    Threads: the registry, each link and each port's zero-copy buffers have a
    mutex.  The threads of the other ports run whenever this one waits for a mutex
    or for a condition; [host_lock] and [host_condition_wait] stand for these
    moments and may change whatever the other threads may change.  Everything
    between two of them is one critical section.  Unlocking, broadcasting and
    destroying have no effect on the data. *)

From S2P Require Import Prelude Types Ring Backend Loopback DriverApi PortConfig Port.

Definition SPW_SIMULATOR_MAX_PACKET_SIZE : Z := 4096.
Definition SPW_SIMULATOR_PACKET_QUEUE_DEPTH : nat := 8.
Definition SPW_SIMULATOR_TIME_CODE_QUEUE_DEPTH : nat := 8.
Definition SPW_SIMULATOR_MAX_LOCAL_LINKS : nat := 16.

(** alignof(spw_simulator_max_alignment_t), the alignment of long double. *)
Definition simulator_max_alignment : Z := 16.

(** ** State

    A packet slot is as the loopback's: 4096 bytes, a length and a terminator. *)

Record spw_simulator_endpoint_state := {
  ep_attached : bool;
  ep_started : bool;
  ep_state : Z;
  ep_packets : ring spw_loopback_packet_slot;
  ep_time_codes : ring spw_time_code;
  ep_statistics : spw_statistics
}.

Record spw_simulator_virtual_link := {
  lk_sync_initialized : bool;
  lk_allocated : bool;
  lk_link_id : Z;
  lk_endpoints : list spw_simulator_endpoint_state
}.

(** [sb_self] is the address of the context; [sb_link] the index of the link in
    the registry.  The storage of the transmit buffers is written by the
    application through the buffers it holds. *)
Record spw_simulator_backend := {
  sb_self : Z;
  sb_link_id : Z;
  sb_endpoint_index : nat;
  sb_link : option nat;
  sb_tx_storage : list (list Z);
  sb_tx_buffers : list spw_buffer;
  sb_rx_storage : list Z;
  sb_rx_buffer : spw_buffer;
  sb_rx_buffer_acquired : bool;
  sb_zero_copy_sync_initialized : bool
}.

Definition set_ep_attached (v : bool) (s : spw_simulator_endpoint_state)
    : spw_simulator_endpoint_state :=
  {| ep_attached := v; ep_started := ep_started s; ep_state := ep_state s;
     ep_packets := ep_packets s; ep_time_codes := ep_time_codes s;
     ep_statistics := ep_statistics s |}.
Definition set_ep_started (v : bool) (s : spw_simulator_endpoint_state)
    : spw_simulator_endpoint_state :=
  {| ep_attached := ep_attached s; ep_started := v; ep_state := ep_state s;
     ep_packets := ep_packets s; ep_time_codes := ep_time_codes s;
     ep_statistics := ep_statistics s |}.
Definition set_ep_state (v : Z) (s : spw_simulator_endpoint_state)
    : spw_simulator_endpoint_state :=
  {| ep_attached := ep_attached s; ep_started := ep_started s; ep_state := v;
     ep_packets := ep_packets s; ep_time_codes := ep_time_codes s;
     ep_statistics := ep_statistics s |}.
Definition set_ep_packets (v : ring spw_loopback_packet_slot) (s : spw_simulator_endpoint_state)
    : spw_simulator_endpoint_state :=
  {| ep_attached := ep_attached s; ep_started := ep_started s; ep_state := ep_state s;
     ep_packets := v; ep_time_codes := ep_time_codes s; ep_statistics := ep_statistics s |}.
Definition set_ep_time_codes (v : ring spw_time_code) (s : spw_simulator_endpoint_state)
    : spw_simulator_endpoint_state :=
  {| ep_attached := ep_attached s; ep_started := ep_started s; ep_state := ep_state s;
     ep_packets := ep_packets s; ep_time_codes := v; ep_statistics := ep_statistics s |}.
Definition set_ep_statistics (v : spw_statistics) (s : spw_simulator_endpoint_state)
    : spw_simulator_endpoint_state :=
  {| ep_attached := ep_attached s; ep_started := ep_started s; ep_state := ep_state s;
     ep_packets := ep_packets s; ep_time_codes := ep_time_codes s; ep_statistics := v |}.
Definition set_sb_link (v : option nat) (s : spw_simulator_backend) : spw_simulator_backend :=
  {| sb_self := sb_self s; sb_link_id := sb_link_id s;
     sb_endpoint_index := sb_endpoint_index s; sb_link := v;
     sb_tx_storage := sb_tx_storage s; sb_tx_buffers := sb_tx_buffers s;
     sb_rx_storage := sb_rx_storage s; sb_rx_buffer := sb_rx_buffer s;
     sb_rx_buffer_acquired := sb_rx_buffer_acquired s;
     sb_zero_copy_sync_initialized := sb_zero_copy_sync_initialized s |}.
Definition set_sb_tx_buffers (v : list spw_buffer) (s : spw_simulator_backend)
    : spw_simulator_backend :=
  {| sb_self := sb_self s; sb_link_id := sb_link_id s;
     sb_endpoint_index := sb_endpoint_index s; sb_link := sb_link s;
     sb_tx_storage := sb_tx_storage s; sb_tx_buffers := v; sb_rx_storage := sb_rx_storage s;
     sb_rx_buffer := sb_rx_buffer s; sb_rx_buffer_acquired := sb_rx_buffer_acquired s;
     sb_zero_copy_sync_initialized := sb_zero_copy_sync_initialized s |}.
Definition set_sb_rx_storage (v : list Z) (s : spw_simulator_backend) : spw_simulator_backend :=
  {| sb_self := sb_self s; sb_link_id := sb_link_id s;
     sb_endpoint_index := sb_endpoint_index s; sb_link := sb_link s;
     sb_tx_storage := sb_tx_storage s; sb_tx_buffers := sb_tx_buffers s; sb_rx_storage := v;
     sb_rx_buffer := sb_rx_buffer s; sb_rx_buffer_acquired := sb_rx_buffer_acquired s;
     sb_zero_copy_sync_initialized := sb_zero_copy_sync_initialized s |}.
Definition set_sb_rx_buffer (v : spw_buffer) (s : spw_simulator_backend)
    : spw_simulator_backend :=
  {| sb_self := sb_self s; sb_link_id := sb_link_id s;
     sb_endpoint_index := sb_endpoint_index s; sb_link := sb_link s;
     sb_tx_storage := sb_tx_storage s; sb_tx_buffers := sb_tx_buffers s;
     sb_rx_storage := sb_rx_storage s; sb_rx_buffer := v;
     sb_rx_buffer_acquired := sb_rx_buffer_acquired s;
     sb_zero_copy_sync_initialized := sb_zero_copy_sync_initialized s |}.
Definition set_sb_rx_buffer_acquired (v : bool) (s : spw_simulator_backend)
    : spw_simulator_backend :=
  {| sb_self := sb_self s; sb_link_id := sb_link_id s;
     sb_endpoint_index := sb_endpoint_index s; sb_link := sb_link s;
     sb_tx_storage := sb_tx_storage s; sb_tx_buffers := sb_tx_buffers s;
     sb_rx_storage := sb_rx_storage s; sb_rx_buffer := sb_rx_buffer s;
     sb_rx_buffer_acquired := v;
     sb_zero_copy_sync_initialized := sb_zero_copy_sync_initialized s |}.
Definition set_sb_zero_copy_sync_initialized (v : bool) (s : spw_simulator_backend)
    : spw_simulator_backend :=
  {| sb_self := sb_self s; sb_link_id := sb_link_id s;
     sb_endpoint_index := sb_endpoint_index s; sb_link := sb_link s;
     sb_tx_storage := sb_tx_storage s; sb_tx_buffers := sb_tx_buffers s;
     sb_rx_storage := sb_rx_storage s; sb_rx_buffer := sb_rx_buffer s;
     sb_rx_buffer_acquired := sb_rx_buffer_acquired s; sb_zero_copy_sync_initialized := v |}.

Definition zero_buffer : spw_buffer :=
  {| buf_data := None; buf_length := 0; buf_capacity := 0; buf_terminator := 0;
     buf_owner := None; buf_direction := 0; buf_state := SPW_BUFFER_STATE_FREE; buf_token := 0;
     buf_owner_epoch := None; buf_epoch := 0 |}.

#[export] Instance sim_buffer_inhabited : Inhabited spw_buffer := populate zero_buffer.

(** [reset_endpoint]: memset to zero and the state. *)
Definition reset_endpoint : spw_simulator_endpoint_state :=
  {| ep_attached := false; ep_started := false; ep_state := SPW_LINK_ERROR_RESET;
     ep_packets := ring_empty SPW_SIMULATOR_PACKET_QUEUE_DEPTH zero_slot;
     ep_time_codes := ring_empty SPW_SIMULATOR_TIME_CODE_QUEUE_DEPTH zero_time_code;
     ep_statistics := statistics_zero |}.

#[export] Instance endpoint_inhabited : Inhabited spw_simulator_endpoint_state :=
  populate reset_endpoint.

(** A link of the zero-initialised registry. *)
Definition zero_link : spw_simulator_virtual_link :=
  {| lk_sync_initialized := false; lk_allocated := false; lk_link_id := 0;
     lk_endpoints := [reset_endpoint; reset_endpoint] |}.

#[export] Instance link_inhabited : Inhabited spw_simulator_virtual_link := populate zero_link.

Definition clear_receive_queues (e : spw_simulator_endpoint_state)
    : spw_simulator_endpoint_state :=
  set_ep_statistics (count_drops (Z.of_nat (r_count (ep_packets e))) (ep_statistics e))
    (set_ep_packets (ring_empty SPW_SIMULATOR_PACKET_QUEUE_DEPTH zero_slot)
      (set_ep_time_codes (ring_empty SPW_SIMULATOR_TIME_CODE_QUEUE_DEPTH zero_time_code) e)).

Definition peer_available (peer : spw_simulator_endpoint_state) : bool :=
  ep_attached peer && ep_started peer.

Definition refresh_link_states (a b : spw_simulator_endpoint_state)
    : spw_simulator_endpoint_state * spw_simulator_endpoint_state :=
  if ep_started a && ep_attached a && ep_started b && ep_attached b
  then (set_ep_state SPW_LINK_RUN a, set_ep_state SPW_LINK_RUN b) else
  (if ep_started a && ep_attached a then set_ep_state SPW_LINK_CONNECTING a else a,
   if ep_started b && ep_attached b then set_ep_state SPW_LINK_CONNECTING b else b).

(** ** The process *)

Inductive host_mutex :=
| RegistryMutex
| LinkMutex (link : nat)
| ZeroCopyMutex.

Section simulator.
Context {W : Type}.

(** What an operation of one port reads and changes: the registry, the port's
    context, and the rest of the world. *)
Record sim := {
  sm_registry : list spw_simulator_virtual_link;
  sm_backend : spw_simulator_backend;
  sm_world : W
}.

(** src/src/platform/host_sync.h.  The mutexes held come first. *)
Record host_ops := {
  host_mutex_init : W -> bool * W;
  host_condition_init : W -> bool * W;
  host_now_us : W -> Z * W;
  host_lock : list host_mutex -> host_mutex -> sim -> sim;
  (** condition_wait(condition, mutex, timeout_us, infinite), which gives the
      mutex up while it waits *)
  host_condition_wait : host_mutex -> Z -> bool -> sim -> bool * sim
}.

Variable host : host_ops.

(** The number of wake-ups a wait is followed for.  A run that exhausts it is one
    in which the next wait fails. *)
Variable wait_fuel : nat.

(** The addresses of the buffers' storage in the context. *)
Variable storage_address : Z -> nat -> Z.

Definition set_registry (r : list spw_simulator_virtual_link) (s : sim) : sim :=
  {| sm_registry := r; sm_backend := sm_backend s; sm_world := sm_world s |}.
Definition upd_backend (f : spw_simulator_backend -> spw_simulator_backend) (s : sim) : sim :=
  {| sm_registry := sm_registry s; sm_backend := f (sm_backend s); sm_world := sm_world s |}.
Definition set_world (w : W) (s : sim) : sim :=
  {| sm_registry := sm_registry s; sm_backend := sm_backend s; sm_world := w |}.

Definition link_at (s : sim) (l : nat) : spw_simulator_virtual_link := sm_registry s !!! l.
Definition set_link (l : nat) (link : spw_simulator_virtual_link) (s : sim) : sim :=
  set_registry (<[l := link]> (sm_registry s)) s.

Definition endpoint_at (s : sim) (l k : nat) : spw_simulator_endpoint_state :=
  lk_endpoints (link_at s l) !!! k.
Definition set_endpoint (l k : nat) (e : spw_simulator_endpoint_state) (s : sim) : sim :=
  let link := link_at s l in
  set_link l
    {| lk_sync_initialized := lk_sync_initialized link; lk_allocated := lk_allocated link;
       lk_link_id := lk_link_id link; lk_endpoints := <[k := e]> (lk_endpoints link) |} s.

(** The two ends of link [l] as this port sees them. *)
Definition here (s : sim) : nat := sb_endpoint_index (sm_backend s).
Definition there (s : sim) : nat := 1 - here s.
Definition local_end (s : sim) (l : nat) : spw_simulator_endpoint_state := endpoint_at s l (here s).
Definition peer_end (s : sim) (l : nat) : spw_simulator_endpoint_state := endpoint_at s l (there s).
Definition upd_local (l : nat) (f : spw_simulator_endpoint_state -> spw_simulator_endpoint_state)
    (s : sim) : sim := set_endpoint l (here s) (f (local_end s l)) s.
Definition upd_peer (l : nat) (f : spw_simulator_endpoint_state -> spw_simulator_endpoint_state)
    (s : sim) : sim := set_endpoint l (there s) (f (peer_end s l)) s.

Definition refresh_link (l : nat) (s : sim) : sim :=
  let '(a, b) := refresh_link_states (endpoint_at s l 0) (endpoint_at s l 1) in
  set_endpoint l 1 b (set_endpoint l 0 a s).

(** ** Waiting *)

Definition now_us (s : sim) : Z * sim :=
  let '(now, w) := host_now_us host (sm_world s) in (now, set_world w s).

Definition deadline_from_timeout (timeout_us : Z) (s : sim) : Z * sim :=
  let '(now, s) := now_us s in
  if UINT64_MAX - now <? timeout_us then (UINT64_MAX, s) else (now + timeout_us, s).

Fixpoint wait_loop (fuel : nat) (mutex : host_mutex) (timeout_us deadline : Z)
    (predicate : sim -> bool) (s : sim) : bool * sim :=
  match fuel with
  | O => (predicate s, s)
  | S fuel =>
      if predicate s then (true, s) else
      if timeout_us =? SPW_TIMEOUT_INFINITE then
        let '(woken, s) := host_condition_wait host mutex 0 true s in
        if negb woken then (false, s) else wait_loop fuel mutex timeout_us deadline predicate s
      else
        let '(now, s) := now_us s in
        if deadline <=? now then (false, s) else
        let '(woken, s) := host_condition_wait host mutex (deadline - now) false s in
        if negb woken then (predicate s, s)
        else wait_loop fuel mutex timeout_us deadline predicate s
  end.

Definition wait_condition (mutex : host_mutex) (timeout_us : Z) (predicate : sim -> bool)
    (s : sim) : bool * sim :=
  if predicate s then (true, s) else
  if timeout_us =? SPW_TIMEOUT_IMMEDIATE then (false, s) else
  let '(deadline, s) :=
    if negb (timeout_us =? SPW_TIMEOUT_INFINITE) then deadline_from_timeout timeout_us s
    else (0, s) in
  wait_loop wait_fuel mutex timeout_us deadline predicate s.

(** ** Attaching and detaching *)

Definition initialize_link_sync (l : nat) (s : sim) : bool * sim :=
  let link := link_at s l in
  if lk_sync_initialized link then (true, s) else
  let '(ok, w) := host_mutex_init host (sm_world s) in
  let s := set_world w s in
  if negb ok then (false, s) else
  let '(ok, w) := host_condition_init host (sm_world s) in
  let s := set_world w s in
  if negb ok then (false, s) else
  (true,
   set_link l
     {| lk_sync_initialized := true; lk_allocated := lk_allocated link;
        lk_link_id := lk_link_id link; lk_endpoints := lk_endpoints link |} s).

(** The search loop: the link with the identifier, or else the first free one. *)
Definition find_link (id : Z) (registry : list spw_simulator_virtual_link) : option nat :=
  match list_find (fun link => lk_allocated link && (lk_link_id link =? id) = true) registry with
  | Some (l, _) => Some l
  | None => fst <$> list_find (fun link => lk_allocated link = false) registry
  end.

Definition attach_backend (s : sim) : Z * sim :=
  match sb_link (sm_backend s) with
  | Some _ => (SPW_ERR_INVALID_STATE, s)
  | None =>
      let s := host_lock host [] RegistryMutex s in
      let id := sb_link_id (sm_backend s) in
      match find_link id (take SPW_SIMULATOR_MAX_LOCAL_LINKS (sm_registry s)) with
      | None => (SPW_ERR_RESOURCE_EXHAUSTED, s)
      | Some l =>
          let '(ok, s) := initialize_link_sync l s in
          if negb ok then (SPW_ERR_BACKEND, s) else
          let s := host_lock host [RegistryMutex] (LinkMutex l) s in
          let s :=
            if negb (lk_allocated (link_at s l)) then
              set_link l
                {| lk_sync_initialized := lk_sync_initialized (link_at s l);
                   lk_allocated := true; lk_link_id := id;
                   lk_endpoints := [reset_endpoint; reset_endpoint] |} s
            else s in
          if ep_attached (local_end s l) then (SPW_ERR_RESOURCE_EXHAUSTED, s) else
          let s := upd_local l (fun _ => set_ep_attached true reset_endpoint) s in
          let s := upd_backend (set_sb_link (Some l)) s in
          (SPW_OK, refresh_link l s)
      end
  end.

(** A started peer loses its partner. *)
Definition lose_partner (error : bool) (peer : spw_simulator_endpoint_state)
    : spw_simulator_endpoint_state :=
  if ep_attached peer && ep_started peer then
    let peer := set_ep_state SPW_LINK_CONNECTING peer in
    if error then set_ep_statistics (count_link_error (ep_statistics peer)) peer else peer
  else peer.

Definition detach_backend (s : sim) : sim :=
  match sb_link (sm_backend s) with
  | None => s
  | Some l =>
      let s := host_lock host [] RegistryMutex s in
      let s := host_lock host [RegistryMutex] (LinkMutex l) s in
      let s := upd_local l (fun _ => reset_endpoint) s in
      let s := upd_peer l (lose_partner true) s in
      let s :=
        if negb (ep_attached (endpoint_at s l 0)) && negb (ep_attached (endpoint_at s l 1)) then
          set_link l
            {| lk_sync_initialized := lk_sync_initialized (link_at s l); lk_allocated := false;
               lk_link_id := 0; lk_endpoints := [reset_endpoint; reset_endpoint] |} s
        else s in
      upd_backend (set_sb_link None) s
  end.

(** The descriptor of a buffer as it is when nobody holds it. *)
Definition free_descriptor (self address direction token : Z) : spw_buffer :=
  {| buf_data := Some address; buf_length := 0; buf_capacity := SPW_SIMULATOR_MAX_PACKET_SIZE;
     buf_terminator := SPW_TERMINATOR_EOP; buf_owner := Some self; buf_direction := direction;
     buf_state := SPW_BUFFER_STATE_FREE; buf_token := token; buf_owner_epoch := None;
     buf_epoch := 0 |}.

Definition initialize_zero_copy_buffers (b : spw_simulator_backend) : spw_simulator_backend :=
  let self := sb_self b in
  let tx i :=
    free_descriptor self (storage_address self i) SPW_BUFFER_DIRECTION_TX (Z.of_nat i) in
  set_sb_rx_buffer_acquired false
    (set_sb_rx_buffer
       (free_descriptor self (storage_address self SPW_SIMULATOR_PACKET_QUEUE_DEPTH)
          SPW_BUFFER_DIRECTION_RX 0)
       (set_sb_tx_buffers (tx <$> seq 0 SPW_SIMULATOR_PACKET_QUEUE_DEPTH) b)).

(** ** Construction *)

(** memset and the configuration; the storage is cleared with the rest. *)
Definition zero_backend (self link_id : Z) (endpoint_index : nat) : spw_simulator_backend :=
  let storage := replicate (Z.to_nat SPW_SIMULATOR_MAX_PACKET_SIZE) 0 in
  {| sb_self := self; sb_link_id := link_id; sb_endpoint_index := endpoint_index;
     sb_link := None; sb_tx_storage := replicate SPW_SIMULATOR_PACKET_QUEUE_DEPTH storage;
     sb_tx_buffers := replicate SPW_SIMULATOR_PACKET_QUEUE_DEPTH zero_buffer;
     sb_rx_storage := storage; sb_rx_buffer := zero_buffer; sb_rx_buffer_acquired := false;
     sb_zero_copy_sync_initialized := false |}.

(** [s] holds the registry and the world; the context at address [self] is
    overwritten. *)
Definition simulator_construct (self : Z) (config : spw_simulator_config) (s : sim) : Z * sim :=
  let s :=
    upd_backend
      (fun _ => zero_backend self (sim_link_id config)
                  (if sim_endpoint config =? SPW_SIMULATOR_ENDPOINT_B then 1 else 0)) s in
  let '(ok, w) := host_mutex_init host (sm_world s) in
  let s := set_world w s in
  if negb ok then (SPW_ERR_BACKEND, s) else
  let '(ok, w) := host_condition_init host (sm_world s) in
  let s := set_world w s in
  if negb ok then (SPW_ERR_BACKEND, s) else
  let s := upd_backend (set_sb_zero_copy_sync_initialized true) s in
  let s := upd_backend initialize_zero_copy_buffers s in
  let '(result, s) := attach_backend s in
  if negb (result =? SPW_OK)
  then (result, upd_backend (set_sb_zero_copy_sync_initialized false) s)
  else (result, s).

Definition simulator_destroy (s : sim) : sim :=
  upd_backend (set_sb_zero_copy_sync_initialized false) (detach_backend s).

(** ** Lifecycle

    Every operation but the queries of capabilities starts the same way: no link
    is INVALID_STATE; then the link's mutex is taken. *)

Definition on_link {R : Type} (s : sim) (unlinked : R) (f : nat -> sim -> R) : R :=
  match sb_link (sm_backend s) with
  | None => unlinked
  | Some l => f l (host_lock host [] (LinkMutex l) s)
  end.

Definition simulator_start (s : sim) : Z * sim :=
  on_link s (SPW_ERR_INVALID_STATE, s) (fun l s =>
    if negb (ep_attached (local_end s l)) then (SPW_ERR_LINK_UNAVAILABLE, s) else
    let s :=
      upd_local l (fun e => set_ep_state SPW_LINK_CONNECTING (set_ep_started true e)) s in
    (SPW_OK, refresh_link l s)).

Definition simulator_stop (s : sim) : Z * sim :=
  on_link s (SPW_ERR_INVALID_STATE, s) (fun l s =>
    if negb (ep_attached (local_end s l)) then (SPW_ERR_LINK_UNAVAILABLE, s) else
    let s := upd_local l (fun e => set_ep_state SPW_LINK_READY (set_ep_started false e)) s in
    (SPW_OK, upd_peer l (lose_partner false) s)).

Definition simulator_reset (s : sim) : Z * sim :=
  on_link s (SPW_ERR_INVALID_STATE, s) (fun l s =>
    if negb (ep_attached (local_end s l)) then (SPW_ERR_LINK_UNAVAILABLE, s) else
    let s :=
      upd_local l
        (fun e => clear_receive_queues
           (set_ep_state SPW_LINK_ERROR_RESET (set_ep_started false e))) s in
    let s := upd_peer l (lose_partner true) s in
    let s := host_lock host [] ZeroCopyMutex s in
    (SPW_OK, upd_backend initialize_zero_copy_buffers s)).

Definition simulator_get_link_state (s : sim) (out : Z) : Z * Z * sim :=
  on_link s (SPW_ERR_INVALID_STATE, out, s) (fun l s =>
    if negb (ep_attached (local_end s l)) then (SPW_ERR_LINK_UNAVAILABLE, out, s) else
    (SPW_OK, ep_state (local_end s l), s)).

Definition simulator_capabilities : spw_capabilities :=
  {| cap_bits := SPW_CAP_EEP .| SPW_CAP_TIME_CODE .| SPW_CAP_LINK_CONTROL .|
                 SPW_CAP_STATISTICS;
     cap_max_packet_size := SPW_SIMULATOR_MAX_PACKET_SIZE;
     cap_tx_queue_depth := Z.of_nat SPW_SIMULATOR_PACKET_QUEUE_DEPTH;
     cap_rx_queue_depth := Z.of_nat SPW_SIMULATOR_PACKET_QUEUE_DEPTH;
     cap_buffer_alignment := simulator_max_alignment |}.

Definition simulator_get_capabilities (s : sim) (_ : spw_capabilities)
    : Z * spw_capabilities * sim := (SPW_OK, simulator_capabilities, s).

Definition simulator_supports_zero_copy (_ : sim) : bool := true.

(** ** Packets and time-codes *)

Definition packet_space_ready (l : nat) (s : sim) : bool :=
  negb (ep_started (local_end s l)) || negb (peer_available (peer_end s l)) ||
  (r_count (ep_packets (peer_end s l)) <? SPW_SIMULATOR_PACKET_QUEUE_DEPTH)%nat.

Definition time_code_space_ready (l : nat) (s : sim) : bool :=
  negb (ep_started (local_end s l)) || negb (peer_available (peer_end s l)) ||
  (r_count (ep_time_codes (peer_end s l)) <? SPW_SIMULATOR_TIME_CODE_QUEUE_DEPTH)%nat.

Definition packet_receive_ready (l : nat) (s : sim) : bool :=
  (0 <? r_count (ep_packets (local_end s l)))%nat || negb (ep_started (local_end s l)) ||
  negb (peer_available (peer_end s l)).

Definition time_code_receive_ready (l : nat) (s : sim) : bool :=
  (0 <? r_count (ep_time_codes (local_end s l)))%nat || negb (ep_started (local_end s l)) ||
  negb (peer_available (peer_end s l)).

(** Sending a packet or a time-code: check both ends, wait for space in the
    peer's queue, check both ends again; then [deliver]. *)
Definition when_space (l : nat) (ready : nat -> sim -> bool) (timeout_us : Z)
    (deliver : sim -> Z * sim) (s : sim) : Z * sim :=
  if negb (ep_attached (local_end s l)) || negb (ep_started (local_end s l))
  then (SPW_ERR_INVALID_STATE, s) else
  if negb (peer_available (peer_end s l)) then (SPW_ERR_LINK_UNAVAILABLE, s) else
  let '(is_ready, s) := wait_condition (LinkMutex l) timeout_us (ready l) s in
  if negb is_ready then
    (if timeout_us =? SPW_TIMEOUT_IMMEDIATE then SPW_ERR_RESOURCE_EXHAUSTED
     else SPW_ERR_TIMEOUT, s)
  else
  if negb (ep_started (local_end s l)) then (SPW_ERR_INVALID_STATE, s) else
  if negb (peer_available (peer_end s l)) then (SPW_ERR_LINK_UNAVAILABLE, s) else
  deliver s.

Definition deliver_packet (l : nat) (packet : spw_packet) (s : sim) : Z * sim :=
  if Nat.eqb (r_count (ep_packets (peer_end s l))) SPW_SIMULATOR_PACKET_QUEUE_DEPTH
  then (SPW_ERR_TIMEOUT, s) else
  let s :=
    upd_peer l
      (fun e => let q := ep_packets e in
         set_ep_packets (ring_push q (fill_slot (ring_at q (r_tail q)) packet)) e) s in
  (SPW_OK,
   upd_local l
     (fun e => set_ep_statistics
        (count_tx_packet (pkt_length packet) (pkt_terminator packet) (ep_statistics e)) e) s).

Definition simulator_send (s : sim) (packet : spw_packet) (timeout_us : Z) : Z * sim :=
  if negb (non_null (sb_link (sm_backend s))) then (SPW_ERR_INVALID_STATE, s) else
  if negb (valid_terminator (pkt_terminator packet)) ||
     (SPW_SIMULATOR_MAX_PACKET_SIZE <? pkt_length packet)
  then (SPW_ERR_INVALID_PACKET, s) else
  if (0 <? pkt_length packet) && negb (non_null (pkt_data packet))
  then (SPW_ERR_INVALID_ARGUMENT, s) else
  if negb (pkt_capacity packet =? 0) && (pkt_capacity packet <? pkt_length packet)
  then (SPW_ERR_INVALID_PACKET, s) else
  on_link s (SPW_ERR_INVALID_STATE, s) (fun l s =>
    when_space l packet_space_ready timeout_us (deliver_packet l packet) s).

Definition deliver_time_code (l : nat) (time_code : spw_time_code) (s : sim) : Z * sim :=
  let s :=
    upd_peer l
      (fun e => set_ep_time_codes (ring_push (ep_time_codes e) time_code) e) s in
  (SPW_OK,
   upd_local l (fun e => set_ep_statistics (count_tx_time_code (ep_statistics e)) e) s).

Definition simulator_send_time_code (s : sim) (time_code : spw_time_code) (timeout_us : Z)
    : Z * sim :=
  if negb (non_null (sb_link (sm_backend s))) then (SPW_ERR_INVALID_STATE, s) else
  if negb (valid_time_code time_code) then (SPW_ERR_INVALID_ARGUMENT, s) else
  on_link s (SPW_ERR_INVALID_STATE, s) (fun l s =>
    when_space l time_code_space_ready timeout_us (deliver_time_code l time_code) s).

(** Receiving: wait for something in the own queue [count], then [take_one];
    [out] is what is left in the caller's storage otherwise. *)
Definition when_data {R : Type} (l : nat) (ready : nat -> sim -> bool)
    (count : spw_simulator_endpoint_state -> nat) (timeout_us : Z) (out : R)
    (take_one : sim -> Z * R * sim) (s : sim) : Z * R * sim :=
  if negb (ep_attached (local_end s l)) || negb (ep_started (local_end s l))
  then (SPW_ERR_INVALID_STATE, out, s) else
  let '(is_ready, s) := wait_condition (LinkMutex l) timeout_us (ready l) s in
  if negb is_ready then (SPW_ERR_TIMEOUT, out, s) else
  if negb (ep_started (local_end s l)) then (SPW_ERR_INVALID_STATE, out, s) else
  if Nat.eqb (count (local_end s l)) 0 then
    (if negb (peer_available (peer_end s l)) then SPW_ERR_LINK_UNAVAILABLE
     else SPW_ERR_TIMEOUT, out, s)
  else take_one s.

Definition take_packet (l : nat) (packet : spw_packet) (s : sim) : Z * spw_packet * sim :=
  let slot := ring_front (ep_packets (local_end s l)) in
  let packet := set_packet_shape (slot_length slot) (slot_terminator slot) packet in
  if pkt_capacity packet <? slot_length slot then (SPW_ERR_BUFFER_TOO_SMALL, packet, s) else
  if (0 <? slot_length slot) && negb (non_null (pkt_data packet))
  then (SPW_ERR_INVALID_ARGUMENT, packet, s) else
  let packet :=
    if 0 <? slot_length slot then set_packet_bytes (slot_payload slot) packet else packet in
  (SPW_OK, packet,
   upd_local l
     (fun e => set_ep_statistics (count_rx_packet (slot_length slot) (ep_statistics e))
        (set_ep_packets (ring_pop (ep_packets e)) e)) s).

Definition simulator_receive (s : sim) (packet : spw_packet) (timeout_us : Z)
    : Z * spw_packet * sim :=
  on_link s (SPW_ERR_INVALID_STATE, packet, s) (fun l s =>
    when_data l packet_receive_ready (fun e => r_count (ep_packets e)) timeout_us packet
      (take_packet l packet) s).

Definition take_time_code (l : nat) (s : sim) : Z * spw_time_code * sim :=
  (SPW_OK, ring_front (ep_time_codes (local_end s l)),
   upd_local l
     (fun e => set_ep_statistics (count_rx_time_code (ep_statistics e))
        (set_ep_time_codes (ring_pop (ep_time_codes e)) e)) s).

Definition simulator_receive_time_code (s : sim) (out : spw_time_code) (timeout_us : Z)
    : Z * spw_time_code * sim :=
  on_link s (SPW_ERR_INVALID_STATE, out, s) (fun l s =>
    when_data l time_code_receive_ready (fun e => r_count (ep_time_codes e)) timeout_us out
      (take_time_code l) s).

Definition simulator_get_statistics (s : sim) (out : spw_statistics)
    : Z * spw_statistics * sim :=
  on_link s (SPW_ERR_INVALID_STATE, out, s) (fun l s =>
    if negb (ep_attached (local_end s l)) then (SPW_ERR_LINK_UNAVAILABLE, out, s) else
    (SPW_OK, ep_statistics (local_end s l), s)).

Definition simulator_clear_statistics (s : sim) : Z * sim :=
  on_link s (SPW_ERR_INVALID_STATE, s) (fun l s =>
    if negb (ep_attached (local_end s l)) then (SPW_ERR_LINK_UNAVAILABLE, s) else
    (SPW_OK, upd_local l (set_ep_statistics statistics_zero) s)).

(** ** Zero-copy

    Handles 0 to 7 are the transmit buffers and 8 is the receive buffer. *)

Definition RX_HANDLE : nat := SPW_SIMULATOR_PACKET_QUEUE_DEPTH.

Definition sim_buffer (b : spw_simulator_backend) (h : nat) : spw_buffer :=
  if Nat.eqb h RX_HANDLE then sb_rx_buffer b else sb_tx_buffers b !!! h.

Definition set_sim_buffer (b : spw_simulator_backend) (h : nat) (buffer : spw_buffer)
    : spw_simulator_backend :=
  if Nat.eqb h RX_HANDLE then set_sb_rx_buffer buffer b
  else set_sb_tx_buffers (<[h := buffer]> (sb_tx_buffers b)) b.

Definition buffer_in (state : Z) (b : spw_buffer) : spw_buffer :=
  {| buf_data := buf_data b; buf_length := buf_length b; buf_capacity := buf_capacity b;
     buf_terminator := buf_terminator b; buf_owner := buf_owner b;
     buf_direction := buf_direction b; buf_state := state; buf_token := buf_token b;
     buf_owner_epoch := buf_owner_epoch b; buf_epoch := buf_epoch b |}.

Definition buffer_shaped (length terminator : Z) (b : spw_buffer) : spw_buffer :=
  {| buf_data := buf_data b; buf_length := length; buf_capacity := buf_capacity b;
     buf_terminator := terminator; buf_owner := buf_owner b;
     buf_direction := buf_direction b; buf_state := buf_state b; buf_token := buf_token b;
     buf_owner_epoch := buf_owner_epoch b; buf_epoch := buf_epoch b |}.

Definition upd_buffer (h : nat) (f : spw_buffer -> spw_buffer) (s : sim) : sim :=
  upd_backend (fun b => set_sim_buffer b h (f (sim_buffer b h))) s.

Definition find_tx_buffer (state : Z) (s : sim) : option nat :=
  fst <$> list_find (fun b => buf_state b = state) (sb_tx_buffers (sm_backend s)).

Definition find_free_tx_buffer : sim -> option nat := find_tx_buffer SPW_BUFFER_STATE_FREE.
Definition find_completed_tx_buffer : sim -> option nat :=
  find_tx_buffer SPW_BUFFER_STATE_COMPLETED.
Definition free_tx_buffer_ready (s : sim) : bool := non_null (find_free_tx_buffer s).
Definition completed_tx_buffer_ready (s : sim) : bool := non_null (find_completed_tx_buffer s).
Definition rx_buffer_ready (s : sim) : bool := negb (sb_rx_buffer_acquired (sm_backend s)).

Definition simulator_acquire_tx_buffer (s : sim) (min_capacity timeout_us : Z)
    : Z * option nat * sim :=
  if SPW_SIMULATOR_MAX_PACKET_SIZE <? min_capacity then (SPW_ERR_BUFFER_TOO_SMALL, None, s) else
  let s := host_lock host [] ZeroCopyMutex s in
  let '(ready, s) :=
    match find_free_tx_buffer s with
    | Some _ => (true, s)
    | None => wait_condition ZeroCopyMutex timeout_us free_tx_buffer_ready s
    end in
  if negb ready then
    (if timeout_us =? SPW_TIMEOUT_IMMEDIATE then SPW_ERR_RESOURCE_EXHAUSTED
     else SPW_ERR_TIMEOUT, None, s)
  else
  match find_free_tx_buffer s with
  | None => (SPW_ERR_RESOURCE_EXHAUSTED, None, s)
  | Some h =>
      (SPW_OK, Some h,
       upd_buffer h
         (fun b => buffer_in SPW_BUFFER_STATE_APPLICATION (buffer_shaped 0 SPW_TERMINATOR_EOP b))
         s)
  end.

(** A transmit buffer of this port that the application holds. *)
Definition held_tx_buffer (s : sim) (h : nat) : bool :=
  let buffer := sim_buffer (sm_backend s) h in
  bool_decide (buf_owner buffer = Some (sb_self (sm_backend s))) &&
  (buf_direction buffer =? SPW_BUFFER_DIRECTION_TX) &&
  (buf_state buffer =? SPW_BUFFER_STATE_APPLICATION).

(** The packet in a transmit buffer. *)
Definition buffer_packet (s : sim) (h : nat) : spw_packet :=
  let buffer := sim_buffer (sm_backend s) h in
  {| pkt_data := Some (sb_tx_storage (sm_backend s) !!! h); pkt_length := buf_length buffer;
     pkt_capacity := buf_capacity buffer; pkt_terminator := buf_terminator buffer |}.

Definition simulator_submit_tx_buffer (s : sim) (h : nat) (timeout_us : Z) : Z * sim :=
  let s := host_lock host [] ZeroCopyMutex s in
  if negb (held_tx_buffer s h) then (SPW_ERR_INVALID_STATE, s) else
  let buffer := sim_buffer (sm_backend s) h in
  if (buf_capacity buffer <? buf_length buffer) ||
     (SPW_SIMULATOR_MAX_PACKET_SIZE <? buf_length buffer) ||
     negb (valid_terminator (buf_terminator buffer))
  then (SPW_ERR_INVALID_PACKET, s) else
  let s := upd_buffer h (buffer_in SPW_BUFFER_STATE_BACKEND) s in
  let '(result, s) := simulator_send s (buffer_packet s h) timeout_us in
  let s := host_lock host [] ZeroCopyMutex s in
  (result,
   upd_buffer h
     (buffer_in (if result =? SPW_OK then SPW_BUFFER_STATE_COMPLETED
                 else SPW_BUFFER_STATE_APPLICATION)) s).

Definition simulator_reclaim_tx_buffer (s : sim) (timeout_us : Z) : Z * option nat * sim :=
  let s := host_lock host [] ZeroCopyMutex s in
  let '(ready, s) :=
    match find_completed_tx_buffer s with
    | Some _ => (true, s)
    | None => wait_condition ZeroCopyMutex timeout_us completed_tx_buffer_ready s
    end in
  if negb ready then (SPW_ERR_TIMEOUT, None, s) else
  match find_completed_tx_buffer s with
  | None => (SPW_ERR_TIMEOUT, None, s)
  | Some h => (SPW_OK, Some h, upd_buffer h (buffer_in SPW_BUFFER_STATE_APPLICATION) s)
  end.

Definition simulator_release_tx_buffer (s : sim) (h : nat) : Z * sim :=
  let s := host_lock host [] ZeroCopyMutex s in
  if negb (held_tx_buffer s h) then (SPW_ERR_INVALID_STATE, s) else
  (SPW_OK,
   upd_buffer h
     (fun b => buffer_in SPW_BUFFER_STATE_FREE (buffer_shaped 0 SPW_TERMINATOR_EOP b)) s).

Definition simulator_acquire_rx_buffer (s : sim) (timeout_us : Z) : Z * option nat * sim :=
  let s := host_lock host [] ZeroCopyMutex s in
  let '(available, s) := wait_condition ZeroCopyMutex timeout_us rx_buffer_ready s in
  if negb available then
    (if timeout_us =? SPW_TIMEOUT_IMMEDIATE then SPW_ERR_RESOURCE_EXHAUSTED
     else SPW_ERR_TIMEOUT, None, s)
  else
  let s := upd_backend (set_sb_rx_buffer_acquired true) s in
  let s := upd_buffer RX_HANDLE (buffer_in SPW_BUFFER_STATE_BACKEND) s in
  let packet :=
    {| pkt_data := Some (sb_rx_storage (sm_backend s)); pkt_length := 0;
       pkt_capacity := SPW_SIMULATOR_MAX_PACKET_SIZE; pkt_terminator := SPW_TERMINATOR_EOP |} in
  let '(result, packet, s) := simulator_receive s packet timeout_us in
  let s := upd_backend (set_sb_rx_storage (default [] (pkt_data packet))) s in
  let s := host_lock host [] ZeroCopyMutex s in
  if negb (result =? SPW_OK) then
    let s := upd_buffer RX_HANDLE (buffer_in SPW_BUFFER_STATE_FREE) s in
    (result, None, upd_backend (set_sb_rx_buffer_acquired false) s)
  else
    (SPW_OK, Some RX_HANDLE,
     upd_buffer RX_HANDLE
       (fun b => buffer_in SPW_BUFFER_STATE_APPLICATION
                   (buffer_shaped (pkt_length packet) (pkt_terminator packet) b)) s).

Definition simulator_release_rx_buffer (s : sim) (h : nat) : Z * sim :=
  let s := host_lock host [] ZeroCopyMutex s in
  let buffer := sim_buffer (sm_backend s) h in
  if negb (Nat.eqb h RX_HANDLE) ||
     negb (bool_decide (buf_owner buffer = Some (sb_self (sm_backend s)))) ||
     negb (buf_direction buffer =? SPW_BUFFER_DIRECTION_RX) ||
     negb (buf_state buffer =? SPW_BUFFER_STATE_APPLICATION) ||
     negb (sb_rx_buffer_acquired (sm_backend s))
  then (SPW_ERR_INVALID_STATE, s) else
  let s :=
    upd_buffer RX_HANDLE
      (fun b => buffer_in SPW_BUFFER_STATE_FREE (buffer_shaped 0 SPW_TERMINATOR_EOP b)) s in
  (SPW_OK, upd_backend (set_sb_rx_buffer_acquired false) s).

Definition SIMULATOR_OPS : spw_backend_ops sim :=
  {| op_start := simulator_start;
     op_stop := simulator_stop;
     op_reset := simulator_reset;
     op_get_link_state := simulator_get_link_state;
     op_get_capabilities := simulator_get_capabilities;
     op_supports_zero_copy := Some simulator_supports_zero_copy;
     op_send := simulator_send;
     op_receive := simulator_receive;
     op_send_time_code := simulator_send_time_code;
     op_receive_time_code := simulator_receive_time_code;
     op_get_statistics := simulator_get_statistics;
     op_clear_statistics := simulator_clear_statistics;
     op_get_fault_statistics := None;
     op_clear_fault_statistics := None;
     op_acquire_tx_buffer := Some simulator_acquire_tx_buffer;
     op_submit_tx_buffer := Some simulator_submit_tx_buffer;
     op_reclaim_tx_buffer := Some simulator_reclaim_tx_buffer;
     op_release_tx_buffer := Some simulator_release_tx_buffer;
     op_acquire_rx_buffer := Some simulator_acquire_rx_buffer;
     op_release_rx_buffer := Some simulator_release_rx_buffer;
     op_wait := None |}.
End simulator.

Arguments sim : clear implicits.
Arguments host_ops : clear implicits.
