(* ===== verification/SimulatorProps.v ===== *)
(** * The simulator backend: correctness

    The invariant of the registry and of a port's buffers, its preservation by
    every operation whatever the other threads do within their contract, the
    link as a pair of FIFO channels, and the termination of waits. *)

From S2P Require Import Prelude Types Ring Backend Loopback DriverApi PortConfig Port PortProps.
From S2P Require Import Simulator.

(** ** Endpoints *)

Definition packet_contents_ok (p : list Z * Z) : Prop :=
  bytes_ok p.1 /\ valid_terminator p.2 = true.

Definition time_code_contents_ok (tc : spw_time_code) : Prop :=
  0 <= time_count tc <= 63 /\ control_flags tc = 0.

Record end_wf (e : spw_simulator_endpoint_state) : Prop := {
  ew_packets : ring_wf SPW_SIMULATOR_PACKET_QUEUE_DEPTH (ep_packets e);
  ew_slots : Forall slot_ok (r_slots (ep_packets e));
  ew_contents : Forall packet_contents_ok (slot_abs <$> ring_list (ep_packets e));
  ew_time_codes : ring_wf SPW_SIMULATOR_TIME_CODE_QUEUE_DEPTH (ep_time_codes e);
  ew_tc_contents : Forall time_code_contents_ok (ring_list (ep_time_codes e))
}.

(** Endpoint [a] facing [b]: what its flags say about its state. *)
Definition side_ok (a b : spw_simulator_endpoint_state) : Prop :=
  (ep_attached a = false -> ep_started a = false /\ ep_state a = SPW_LINK_ERROR_RESET) /\
  (if ep_started a
   then ep_state a = if ep_started b then SPW_LINK_RUN else SPW_LINK_CONNECTING
   else ep_state a = SPW_LINK_READY \/ ep_state a = SPW_LINK_ERROR_RESET).

Definition ends_ok (a b : spw_simulator_endpoint_state) : Prop :=
  end_wf a /\ end_wf b /\ side_ok a b /\ side_ok b a.

Lemma ends_ok_sym a b : ends_ok a b -> ends_ok b a.
Proof. intros (H1 & H2 & H3 & H4). by split_and!. Qed.

Lemma reset_endpoint_wf : end_wf reset_endpoint.
Proof.
  constructor.
  - apply ring_empty_wf. unfold SPW_SIMULATOR_PACKET_QUEUE_DEPTH. lia.
  - exact (Forall_replicate slot_ok SPW_SIMULATOR_PACKET_QUEUE_DEPTH _ zero_slot_ok).
  - constructor.
  - apply ring_empty_wf. unfold SPW_SIMULATOR_TIME_CODE_QUEUE_DEPTH. lia.
  - constructor.
Qed.

(** [end_wf] is about the queues alone. *)
Lemma end_wf_queues e e' : end_wf e -> ep_packets e' = ep_packets e ->
  ep_time_codes e' = ep_time_codes e -> end_wf e'.
Proof. intros [] Hp Ht. constructor; by rewrite ?Hp, ?Ht. Qed.

Lemma clear_queues_wf e : end_wf (clear_receive_queues e).
Proof. apply (end_wf_queues reset_endpoint); [apply reset_endpoint_wf|done|done]. Qed.

(** ** Queue operations *)

Definition pushed_packet (p : spw_packet) (e : spw_simulator_endpoint_state)
    : spw_simulator_endpoint_state :=
  let q := ep_packets e in
  set_ep_packets (ring_push q (fill_slot (ring_at q (r_tail q)) p)) e.

Lemma push_packet_end e p : end_wf e -> tx_packet_ok p = true ->
  bytes_ok (default [] (pkt_data p)) -> pkt_length p <= SPW_SIMULATOR_MAX_PACKET_SIZE ->
  (r_count (ep_packets e) < SPW_SIMULATOR_PACKET_QUEUE_DEPTH)%nat ->
  end_wf (pushed_packet p e) /\
  slot_abs <$> ring_list (ep_packets (pushed_packet p e)) =
    (slot_abs <$> ring_list (ep_packets e)) ++ [(packet_payload p, pkt_terminator p)].
Proof.
  intros [Hw Hs Hc Htw Htc] Hp Hb Hl Hroom.
  destruct (fill_slot_ok (ring_at (ep_packets e) (r_tail (ep_packets e))) p) as [Hok Habs].
  { eapply ring_front_slot_ok; [done|done|by eapply ring_tail_lt]. }
  { done. }
  { done. }
  unfold pushed_packet. cbn [ep_packets set_ep_packets].
  assert (slot_abs <$> ring_list (ring_push (ep_packets e)
      (fill_slot (ring_at (ep_packets e) (r_tail (ep_packets e))) p)) =
    (slot_abs <$> ring_list (ep_packets e)) ++ [(packet_payload p, pkt_terminator p)]) as Hlist.
  { rewrite (ring_list_push SPW_SIMULATOR_PACKET_QUEUE_DEPTH) by done.
    rewrite fmap_app. cbn [fmap list_fmap]. by rewrite Habs. }
  split; [|done]. constructor; cbn [ep_packets ep_time_codes set_ep_packets]; try done.
  - by apply ring_push_wf.
  - by apply Forall_insert.
  - rewrite Hlist. apply Forall_app. split; [done|]. constructor; [|constructor].
    unfold tx_packet_ok in Hp. split_andb. split; cbn; [|done].
    unfold packet_payload. by apply bytes_ok_read.
Qed.

Lemma pop_packet_end e : end_wf e -> (0 < r_count (ep_packets e))%nat ->
  let slot := ring_front (ep_packets e) in
  end_wf (set_ep_packets (ring_pop (ep_packets e)) e) /\ slot_ok slot /\
  packet_contents_ok (slot_abs slot) /\
  slot_abs <$> ring_list (ep_packets e) =
    slot_abs slot :: (slot_abs <$> ring_list (ring_pop (ep_packets e))).
Proof.
  intros [Hw Hs Hc Htw Htc] Hpos. cbn zeta.
  pose proof (ring_list_front _ _ Hw Hpos) as Hf. rewrite Hf in Hc. cbn [fmap list_fmap] in Hc.
  apply Forall_cons in Hc as [Hc1 Hc2].
  split; [|split; [|split; [done|by rewrite Hf]]].
  - constructor; cbn [ep_packets ep_time_codes set_ep_packets]; try done.
    by apply ring_pop_wf.
  - eapply ring_front_slot_ok; [done|done|apply Hw].
Qed.

Lemma push_time_code_end e tc : end_wf e -> time_code_contents_ok tc ->
  (r_count (ep_time_codes e) < SPW_SIMULATOR_TIME_CODE_QUEUE_DEPTH)%nat ->
  end_wf (set_ep_time_codes (ring_push (ep_time_codes e) tc) e) /\
  ring_list (ring_push (ep_time_codes e) tc) = ring_list (ep_time_codes e) ++ [tc].
Proof.
  intros [Hw Hs Hc Htw Htc] Hok Hroom.
  pose proof (ring_list_push SPW_SIMULATOR_TIME_CODE_QUEUE_DEPTH _ tc Htw Hroom) as Hl.
  split; [|done]. constructor; cbn [ep_packets ep_time_codes set_ep_time_codes]; try done.
  - by apply ring_push_wf.
  - rewrite Hl. apply Forall_app. split; [done|by constructor].
Qed.

Lemma pop_time_code_end e : end_wf e -> (0 < r_count (ep_time_codes e))%nat ->
  end_wf (set_ep_time_codes (ring_pop (ep_time_codes e)) e) /\
  time_code_contents_ok (ring_front (ep_time_codes e)) /\
  ring_list (ep_time_codes e) =
    ring_front (ep_time_codes e) :: ring_list (ring_pop (ep_time_codes e)).
Proof.
  intros [Hw Hs Hc Htw Htc] Hpos. pose proof (ring_list_front _ _ Htw Hpos) as Hf.
  rewrite Hf in Htc. apply Forall_cons in Htc as [H1 H2].
  split; [|split; [done|by rewrite Hf]].
  constructor; cbn [ep_packets ep_time_codes set_ep_time_codes]; try done. by apply ring_pop_wf.
Qed.

(** ** Links and the registry *)

Definition link_wf (link : spw_simulator_virtual_link) : Prop :=
  exists a b, lk_endpoints link = [a; b] /\ ends_ok a b /\
    lk_allocated link = ep_attached a || ep_attached b.

Definition registry_wf (registry : list spw_simulator_virtual_link) : Prop :=
  length registry = SPW_SIMULATOR_MAX_LOCAL_LINKS /\ Forall link_wf registry /\
  forall l l' link link', registry !! l = Some link -> registry !! l' = Some link' ->
    lk_allocated link = true -> lk_allocated link' = true ->
    lk_link_id link = lk_link_id link' -> l = l'.

(** ** The port's buffers *)

Definition descriptor_ok (self direction : Z) (b : spw_buffer) : Prop :=
  buf_owner b = Some self /\ buf_direction b = direction /\ 0 <= buf_length b /\
  buf_capacity b = SPW_SIMULATOR_MAX_PACKET_SIZE.

Definition storage_wf (m : list Z) : Prop :=
  bytes_ok m /\ length m = Z.to_nat SPW_SIMULATOR_MAX_PACKET_SIZE.

Record buffers_wf (b : spw_simulator_backend) : Prop := {
  bw_tx_count : length (sb_tx_buffers b) = SPW_SIMULATOR_PACKET_QUEUE_DEPTH;
  bw_tx : Forall (descriptor_ok (sb_self b) SPW_BUFFER_DIRECTION_TX) (sb_tx_buffers b);
  bw_rx : descriptor_ok (sb_self b) SPW_BUFFER_DIRECTION_RX (sb_rx_buffer b);
  bw_storage_count : length (sb_tx_storage b) = SPW_SIMULATOR_PACKET_QUEUE_DEPTH;
  bw_tx_storage : Forall storage_wf (sb_tx_storage b);
  bw_rx_storage : storage_wf (sb_rx_storage b)
}.

Section props.
Context {W : Type}.
Implicit Types (s : sim W).

(** The port owns the endpoint it is attached to. *)
Definition owns s : Prop :=
  forall l, sb_link (sm_backend s) = Some l ->
    (l < SPW_SIMULATOR_MAX_LOCAL_LINKS)%nat /\ ep_attached (local_end s l) = true /\
    lk_link_id (link_at s l) = sb_link_id (sm_backend s).

Record sim_ok s : Prop := {
  so_registry : registry_wf (sm_registry s);
  so_index : (here s <= 1)%nat;
  so_owns : owns s;
  so_buffers : buffers_wf (sm_backend s)
}.

(** ** The two ends of the port's link as a pair *)

Definition set_ends (l : nat) (x y : spw_simulator_endpoint_state) s : sim W :=
  let link := link_at s l in
  set_link l
    {| lk_sync_initialized := lk_sync_initialized link; lk_allocated := lk_allocated link;
       lk_link_id := lk_link_id link;
       lk_endpoints := if Nat.eqb (here s) 0 then [x; y] else [y; x] |} s.

Lemma link_at_wf s l : registry_wf (sm_registry s) -> (l < SPW_SIMULATOR_MAX_LOCAL_LINKS)%nat ->
  sm_registry s !! l = Some (link_at s l) /\ link_wf (link_at s l).
Proof.
  intros (Hl & Hall & _) Hlt. rewrite <- Hl in Hlt.
  pose proof (list_lookup_lookup_total_lt _ _ Hlt) as H.
  split; [done|]. by apply (Forall_lookup_1 _ _ _ _ Hall H).
Qed.

Lemma link_at_set s l link : (l < length (sm_registry s))%nat ->
  link_at (set_link l link s) l = link.
Proof. intros. apply list_lookup_total_insert_eq. done. Qed.

(** What the pair is, whichever end the port has. *)
Definition two_ends s (l : nat) : Prop := length (lk_endpoints (link_at s l)) = 2%nat.

Lemma ends_list s l : (here s <= 1)%nat -> two_ends s l ->
  lk_endpoints (link_at s l) =
    if Nat.eqb (here s) 0 then [local_end s l; peer_end s l] else [peer_end s l; local_end s l].
Proof.
  unfold two_ends, local_end, peer_end, endpoint_at, there. intros Hh Hl.
  destruct (lk_endpoints (link_at s l)) as [|a [|b [|? ?]]]; try done.
  by destruct (here s) as [|[|n]]; [| |lia].
Qed.

Lemma ends_of_link s l : (here s <= 1)%nat -> link_wf (link_at s l) ->
  two_ends s l /\ ends_ok (local_end s l) (peer_end s l) /\
  lk_allocated (link_at s l) = ep_attached (local_end s l) || ep_attached (peer_end s l).
Proof.
  intros Hh (a & b & He & Hok & Ha). unfold two_ends.
  unfold local_end, peer_end, endpoint_at, there. rewrite He, Ha.
  destruct (here s) as [|[|n]]; [| |lia]; cbn.
  - done.
  - split; [done|]. split; [by apply ends_ok_sym|]. apply orb_comm.
Qed.

Lemma local_set_ends s l x y : (here s <= 1)%nat -> (l < length (sm_registry s))%nat ->
  local_end (set_ends l x y s) l = x /\ peer_end (set_ends l x y s) l = y.
Proof.
  intros Hh Hl. unfold local_end, peer_end, endpoint_at, set_ends, there.
  rewrite link_at_set by done. cbn [lk_endpoints].
  change (here (set_link l _ s)) with (here s).
  by destruct (here s) as [|[|n]]; [| |lia].
Qed.

Lemma length_registry_ends s l x y :
  length (sm_registry (set_ends l x y s)) = length (sm_registry s).
Proof. apply length_insert. Qed.

Lemma two_ends_set s l x y : (l < length (sm_registry s))%nat -> two_ends (set_ends l x y s) l.
Proof.
  intros Hl. unfold two_ends, set_ends. rewrite link_at_set by done. cbn [lk_endpoints].
  by destruct (here s =? 0)%nat.
Qed.

Lemma set_ends_twice s l x y x' y' : (l < length (sm_registry s))%nat ->
  set_ends l x' y' (set_ends l x y s) = set_ends l x' y' s.
Proof.
  intros Hl. unfold set_ends. rewrite link_at_set by done.
  cbn [lk_sync_initialized lk_allocated lk_link_id].
  unfold set_link, set_registry. cbn [sm_registry sm_backend sm_world].
  by rewrite list_insert_insert_eq.
Qed.

Lemma set_endpoint_ends s l k e : (here s <= 1)%nat -> two_ends s l -> (k <= 1)%nat ->
  set_endpoint l k e s =
    if Nat.eqb k (here s) then set_ends l e (peer_end s l) s else set_ends l (local_end s l) e s.
Proof.
  intros Hh Hw Hk. unfold set_endpoint, set_ends. rewrite (ends_list s l Hh Hw).
  destruct (here s) as [|[|n]], k as [|[|k]]; try lia; done.
Qed.

Lemma upd_local_ends s l f : (here s <= 1)%nat -> two_ends s l ->
  upd_local l f s = set_ends l (f (local_end s l)) (peer_end s l) s.
Proof. intros Hh Hw. unfold upd_local. by rewrite set_endpoint_ends, Nat.eqb_refl. Qed.

Lemma upd_peer_ends s l f : (here s <= 1)%nat -> two_ends s l ->
  upd_peer l f s = set_ends l (local_end s l) (f (peer_end s l)) s.
Proof.
  intros Hh Hw. unfold upd_peer. rewrite set_endpoint_ends by (done || unfold there; lia).
  unfold there at 1. by destruct (here s) as [|[|n]]; [| |lia].
Qed.

Lemma refresh_link_ends s l : (here s <= 1)%nat -> two_ends s l ->
  (l < length (sm_registry s))%nat ->
  refresh_link l s =
    let '(x, y) := refresh_link_states (local_end s l) (peer_end s l) in set_ends l x y s.
Proof.
  intros Hh Hw Hl. pose proof (ends_list s l Hh Hw) as He. unfold refresh_link.
  assert (refresh_link_states (endpoint_at s l 0) (endpoint_at s l 1) =
    let '(x, y) := refresh_link_states (local_end s l) (peer_end s l) in
    if Nat.eqb (here s) 0 then (x, y) else (y, x)) as ->.
  { unfold endpoint_at. rewrite He. unfold refresh_link_states.
    destruct (here s) as [|[|n]]; [| |lia]; cbn -[local_end peer_end].
    - by case_if.
    - destruct (ep_started (local_end s l)), (ep_attached (local_end s l)),
        (ep_started (peer_end s l)), (ep_attached (peer_end s l)); done. }
  destruct (refresh_link_states _ _) as [x y].
  destruct (here s) as [|[|n]] eqn:Eh; [| |lia]; cbn [Nat.eqb];
    rewrite (set_endpoint_ends s) by (done || lia); rewrite Eh; cbn [Nat.eqb].
  - rewrite set_endpoint_ends; [| |by apply two_ends_set|lia]; [|unfold here in *; cbn; lia].
    change (here (set_ends l x (peer_end s l) s)) with (here s). rewrite Eh. cbn [Nat.eqb].
    rewrite set_ends_twice by done.
    by destruct (local_set_ends s l x (peer_end s l)) as [-> _]; [lia|done|].
  - rewrite set_endpoint_ends; [| |by apply two_ends_set|lia]; [|unfold here in *; cbn; lia].
    change (here (set_ends l (local_end s l) y s)) with (here s). rewrite Eh. cbn [Nat.eqb].
    rewrite set_ends_twice by done.
    by destruct (local_set_ends s l (local_end s l) y) as [_ ->]; [lia|done|].
Qed.

(** Replacing a link of the registry. *)
Lemma registry_insert registry l link' : registry_wf registry -> link_wf link' ->
  (lk_allocated link' = true -> forall j link, registry !! j = Some link ->
     lk_allocated link = true -> lk_link_id link = lk_link_id link' -> j = l) ->
  registry_wf (<[l := link']> registry).
Proof.
  intros (Hlen & Hall & Huniq) Hw Hone. split; [by rewrite length_insert|].
  split; [by apply Forall_insert|]. intros i j a b Hi Hj Hai Haj Hid.
  apply list_lookup_insert_Some in Hi as [(-> & <- & Hl)|[Hil Hi]];
    apply list_lookup_insert_Some in Hj as [(-> & <- & Hl')|[Hjl Hj]].
  - done.
  - symmetry. by apply (Hone Hai j b).
  - by apply (Hone Haj i a).
  - by apply (Huniq i j a b).
Qed.

(** Changing the two ends of the own link. *)
Lemma set_ends_registry s l x y : registry_wf (sm_registry s) ->
  (l < SPW_SIMULATOR_MAX_LOCAL_LINKS)%nat -> ends_ok x y ->
  ep_attached x || ep_attached y = lk_allocated (link_at s l) ->
  registry_wf (sm_registry (set_ends l x y s)).
Proof.
  intros Hr Hl Hok Ha. pose proof (link_at_wf s l Hr Hl) as [Hat _].
  apply registry_insert; [done| |].
  - destruct (here s =? 0)%nat; [exists x, y|exists y, x]; cbn; (split; [done|]).
    + done.
    + split; [by apply ends_ok_sym|]. by rewrite orb_comm.
  - intros Hal j link Hj Haj Hid. by apply (proj2 (proj2 Hr) j l link (link_at s l)).
Qed.

Lemma set_ends_ok s l x y : sim_ok s -> sb_link (sm_backend s) = Some l -> ends_ok x y ->
  ep_attached x = true -> sim_ok (set_ends l x y s).
Proof.
  intros [Hr Hi Ho Hb] Hl Hok Hx. destruct (Ho l Hl) as (Hlt & Ha & Hid).
  destruct (ends_of_link s l Hi (proj2 (link_at_wf s l Hr Hlt))) as (_ & _ & Hal).
  pose proof (proj1 Hr) as Hlen.
  constructor; [|done| |done].
  - apply set_ends_registry; try done. by rewrite Hal, Hx, Ha.
  - intros l' Hl'. assert (l' = l) as -> by (unfold set_ends in Hl'; cbn in Hl'; congruence).
    split; [done|]. destruct (local_set_ends s l x y Hi ltac:(lia)) as [-> _]. split; [done|].
    unfold set_ends. by rewrite link_at_set by lia.
Qed.

(** ** The other threads *)

Definition same_port s s' : Prop :=
  sb_self (sm_backend s') = sb_self (sm_backend s) /\
  sb_link_id (sm_backend s') = sb_link_id (sm_backend s) /\
  sb_endpoint_index (sm_backend s') = sb_endpoint_index (sm_backend s) /\
  sb_link (sm_backend s') = sb_link (sm_backend s).

(** Which links and endpoints are taken, which the registry's mutex protects. *)
Definition taken (link : spw_simulator_virtual_link) : bool * Z * list bool :=
  (lk_allocated link, lk_link_id link, ep_attached <$> lk_endpoints link).

(** What the threads of other ports may do while this one waits: they keep the
    invariant and this port's identity, and leave alone what the mutexes held
    protect. *)
Record others (held : list host_mutex) s s' : Prop := {
  ot_ok : sim_ok s -> sim_ok s';
  ot_port : same_port s s';
  ot_taken : In RegistryMutex held -> taken <$> sm_registry s' = taken <$> sm_registry s
}.
End props.

Class HostContract {W : Type} (host : host_ops W) : Prop := {
  hc_lock : forall held m s, others held s (host_lock host held m s);
  hc_wait : forall m timeout infinite s,
    others [] s (host_condition_wait host m timeout infinite s).2
}.

Section operations.
Context {W : Type} (host : host_ops W) `{!HostContract host} (wait_fuel : nat)
  (storage_address : Z -> nat -> Z).
Implicit Types (s : sim W).

Lemma same_port_refl s : same_port s s.
Proof. done. Qed.

Lemma same_port_trans s1 s2 s3 : same_port s1 s2 -> same_port s2 s3 -> same_port s1 s3.
Proof. unfold same_port. intuition congruence. Qed.

Lemma set_world_ok s w : sim_ok s -> sim_ok (set_world w s) /\ same_port s (set_world w s).
Proof. intros [H1 H2 H3 H4]. done. Qed.

Lemma wait_loop_ok fuel m t deadline pred : forall s, sim_ok s ->
  let '(ready, s') := wait_loop host fuel m t deadline pred s in
  sim_ok s' /\ same_port s s' /\ (ready = true -> pred s' = true).
Proof.
  induction fuel as [|fuel IH]; intros s Hs; cbn [wait_loop]; [done|].
  destruct (pred s) eqn:Hp; [done|]. case_if.
  - pose proof (hc_wait m 0 true s) as [Hk Hsame _].
    destruct (host_condition_wait host m 0 true s) as [woken s1]. cbn [snd] in *.
    destruct woken; cbn [negb]; [|by split_and!; [apply Hk| |]].
    specialize (IH s1 (Hk Hs)). destruct (wait_loop _ _ _ _ _ _ s1) as [r s2].
    destruct IH as (H1 & H2 & H3). split; [done|]. split; [by eapply same_port_trans|done].
  - unfold now_us. destruct (host_now_us host (sm_world s)) as [now w].
    destruct (set_world_ok s w Hs) as [Hs0 Hp0]. set (s0 := set_world w s) in *.
    case_if; [done|].
    pose proof (hc_wait m (deadline - now) false s0) as [Hk Hsame _].
    destruct (host_condition_wait host m (deadline - now) false s0) as [woken s1]. cbn [snd] in *.
    specialize (Hk Hs0). assert (same_port s s1) as H01 by (by eapply same_port_trans).
    destruct woken; cbn [negb]; [|done].
    specialize (IH s1 Hk). destruct (wait_loop _ _ _ _ _ _ s1) as [r s2].
    destruct IH as (H1 & H2 & H3). split; [done|]. split; [by eapply same_port_trans|done].
Qed.

Lemma wait_condition_ok m t pred s : sim_ok s ->
  let '(ready, s') := wait_condition host wait_fuel m t pred s in
  sim_ok s' /\ same_port s s' /\ (ready = true -> pred s' = true).
Proof.
  intros Hs. unfold wait_condition. destruct (pred s) eqn:Hp; [done|]. case_if; [done|].
  assert (exists d s1, (if negb (t =? SPW_TIMEOUT_INFINITE) then deadline_from_timeout host t s
    else (0, s)) = (d, s1) /\ sim_ok s1 /\ same_port s s1) as (d & s1 & -> & Hs1 & Hp1).
  { case_if; [|by exists 0, s]. unfold deadline_from_timeout, now_us.
    destruct (host_now_us host (sm_world s)) as [now w]. destruct (set_world_ok s w Hs).
    case_if; by eexists _, _. }
  pose proof (wait_loop_ok wait_fuel m t d pred s1 Hs1) as H.
  destruct (wait_loop _ _ _ _ _ _ _) as [r s2]. destruct H as (H1 & H2 & H3).
  split; [done|]. split; [by eapply same_port_trans|done].
Qed.

(** A critical section on the link. *)
Lemma on_link_ok {R} s (unlinked : R) f (Q : R -> Prop) : sim_ok s -> Q unlinked ->
  (forall l s', sim_ok s' -> same_port s s' -> sb_link (sm_backend s') = Some l -> Q (f l s')) ->
  Q (on_link host s unlinked f).
Proof.
  intros Hs Hq Hf. unfold on_link. destruct (sb_link (sm_backend s)) as [l|] eqn:El; [|done].
  destruct (hc_lock [] (LinkMutex l) s) as [Hk Hsame _].
  apply Hf; [by apply Hk|done|]. destruct Hsame as (_ & _ & _ & ->). done.
Qed.

(** The own link inside a critical section. *)
Lemma own_link s l : sim_ok s -> sb_link (sm_backend s) = Some l ->
  (l < length (sm_registry s))%nat /\ (here s <= 1)%nat /\ two_ends s l /\
  ends_ok (local_end s l) (peer_end s l) /\ ep_attached (local_end s l) = true.
Proof.
  intros [Hr Hi Ho Hb] Hl. destruct (Ho l Hl) as (Hlt & Ha & _).
  destruct (ends_of_link s l Hi (proj2 (link_at_wf s l Hr Hlt))) as (H2 & Hok & _).
  pose proof (proj1 Hr). split_and!; try done. lia.
Qed.

(** Two updates of the own link in a row, and one. *)
Lemma upd_both s l f g : sim_ok s -> sb_link (sm_backend s) = Some l ->
  upd_peer l g (upd_local l f s) = set_ends l (f (local_end s l)) (g (peer_end s l)) s /\
  upd_local l f (upd_peer l g s) = set_ends l (f (local_end s l)) (g (peer_end s l)) s.
Proof.
  intros Hs Hl. destruct (own_link s l Hs Hl) as (Hlen & Hh & H2 & _).
  rewrite (upd_local_ends s) by done. rewrite (upd_peer_ends s) by done. split.
  - rewrite upd_peer_ends by (done || by apply two_ends_set).
    destruct (local_set_ends s l (f (local_end s l)) (peer_end s l) Hh Hlen) as [-> ->].
    by rewrite set_ends_twice.
  - rewrite upd_local_ends by (done || by apply two_ends_set).
    destruct (local_set_ends s l (local_end s l) (g (peer_end s l)) Hh Hlen) as [-> ->].
    by rewrite set_ends_twice.
Qed.

Definition keeps s s' : Prop := sim_ok s' /\ same_port s s'.

Lemma keeps_ends s s' l x y : sim_ok s' -> same_port s s' -> sb_link (sm_backend s') = Some l ->
  ends_ok x y -> ep_attached x = true -> keeps s (set_ends l x y s').
Proof. intros Hs Hp Hl Hok Hx. split; [by apply set_ends_ok|exact Hp]. Qed.

(** One end changes in what the invariant does not look at. *)
Lemma ends_ok_same a b a' b' : ends_ok a b -> end_wf a' -> end_wf b' ->
  ep_attached a' = ep_attached a -> ep_started a' = ep_started a -> ep_state a' = ep_state a ->
  ep_attached b' = ep_attached b -> ep_started b' = ep_started b -> ep_state b' = ep_state b ->
  ends_ok a' b'.
Proof.
  intros (_ & _ & H3 & H4) Ha Hb E1 E2 E3 E4 E5 E6. unfold ends_ok, side_ok in *.
  by rewrite E1, E2, E3, E4, E5, E6.
Qed.

Lemma started_ends_ok a b : ends_ok a b -> ep_attached a = true ->
  let a' := set_ep_state SPW_LINK_CONNECTING (set_ep_started true a) in
  let '(x, y) := refresh_link_states a' b in ends_ok x y /\ ep_attached x = true.
Proof.
  intros (Ha & Hb & [Ha1 Ha2] & [Hb1 Hb2]) Hat. cbn zeta. unfold refresh_link_states.
  cbn [ep_started ep_attached set_ep_state set_ep_started]. rewrite Hat. cbn [andb].
  destruct (ep_started b) eqn:Esb.
  - destruct (ep_attached b) eqn:Eab; [|by destruct (Hb1 eq_refl)]. cbn [andb]. split; [|done].
    split; [by apply (end_wf_queues a)|]. split; [by apply (end_wf_queues b)|].
    unfold side_ok. cbn. rewrite Hat, Eab, Esb. done.
  - cbn [andb]. split; [|done].
    split; [by apply (end_wf_queues a)|]. split; [done|].
    unfold side_ok. cbn. by rewrite Hat, Esb.
Qed.

(** The local end stops, with or without its queues. *)
Lemma stopped_ends_ok a b a' error : ends_ok a b -> ep_attached a = true -> end_wf a' ->
  ep_attached a' = true -> ep_started a' = false ->
  ep_state a' = SPW_LINK_READY \/ ep_state a' = SPW_LINK_ERROR_RESET ->
  ends_ok a' (lose_partner error b).
Proof.
  intros (Ha & Hb & [Ha1 Ha2] & [Hb1 Hb2]) Hat Hwf' Hat' Hst' Hs'. unfold lose_partner.
  destruct (ep_attached b) eqn:Eab; cbn [andb].
  - destruct (ep_started b) eqn:Esb.
    + assert (forall st, ends_ok a' (set_ep_statistics st (set_ep_state SPW_LINK_CONNECTING b))) as H.
      { intros st. split; [done|]. split; [by apply (end_wf_queues b)|]. unfold side_ok. cbn.
        rewrite Hat', Hst', Eab, Esb. done. }
      destruct error; [apply H|]. specialize (H (ep_statistics b)). by destruct b.
    + split; [done|]. split; [done|]. unfold side_ok. by rewrite Hat', Hst', Eab, Esb.
  - destruct (Hb1 eq_refl) as [Esb Hsb]. split; [done|]. split; [done|]. unfold side_ok.
    rewrite Hat', Hst', Eab, Esb. split; [done|]. split; [done|]. by right.
Qed.

Lemma refresh_upd_local s l f : sim_ok s -> sb_link (sm_backend s) = Some l ->
  refresh_link l (upd_local l f s) =
    let '(x, y) := refresh_link_states (f (local_end s l)) (peer_end s l) in set_ends l x y s.
Proof.
  intros Hs Hl. destruct (own_link s l Hs Hl) as (Hlen & Hh & H2 & _).
  rewrite upd_local_ends by done.
  rewrite refresh_link_ends; [|done|by apply two_ends_set|by rewrite length_registry_ends].
  destruct (local_set_ends s l (f (local_end s l)) (peer_end s l) Hh Hlen) as [-> ->].
  destruct (refresh_link_states _ _) as [x y]. by rewrite set_ends_twice.
Qed.

Lemma start_ok s : sim_ok s -> keeps s (simulator_start host s).2.
Proof.
  intros Hs. apply (on_link_ok s _ _ (fun r => keeps s r.2)); [done|done|].
  intros l s' Hs' Hp Hl. destruct (own_link s' l Hs' Hl) as (Hlen & Hh & H2 & Hok & Hat).
  rewrite Hat. cbn [negb snd]. rewrite refresh_upd_local by done.
  pose proof (started_ends_ok _ _ Hok Hat) as H. cbn zeta in H.
  destruct (refresh_link_states _ _) as [x y]. destruct H as [H Hx]. by apply keeps_ends.
Qed.

Lemma stop_ok s : sim_ok s -> keeps s (simulator_stop host s).2.
Proof.
  intros Hs. apply (on_link_ok s _ _ (fun r => keeps s r.2)); [done|done|].
  intros l s' Hs' Hp Hl. destruct (own_link s' l Hs' Hl) as (Hlen & Hh & H2 & Hok & Hat).
  rewrite Hat. cbn [negb snd]. rewrite (proj1 (upd_both s' l _ _ Hs' Hl)).
  apply keeps_ends; try done. apply (stopped_ends_ok (local_end s' l)); try done; [|by left].
  by apply (end_wf_queues (local_end s' l)); [apply Hok| |].
Qed.

(** ** Buffers *)

Lemma initialize_buffers_wf b : Forall storage_wf (sb_tx_storage b) ->
  length (sb_tx_storage b) = SPW_SIMULATOR_PACKET_QUEUE_DEPTH -> storage_wf (sb_rx_storage b) ->
  buffers_wf (initialize_zero_copy_buffers storage_address b).
Proof. intros H1 H2 H3. constructor; try done. by repeat constructor. Qed.

(** A change of the context that the registry does not see. *)
Lemma upd_backend_ok s s' f : sim_ok s' -> same_port s s' ->
  buffers_wf (f (sm_backend s')) -> same_port s' (upd_backend f s') -> keeps s (upd_backend f s').
Proof.
  intros [Hr Hi Ho Hb] Hp Hf (E1 & E2 & E3 & E4). cbn [sm_backend upd_backend] in *.
  split; [|by eapply same_port_trans]. constructor; [done|unfold here; cbn; by rewrite E3| |done].
  intros l Hl. cbn [sm_backend upd_backend] in Hl. rewrite E4 in Hl.
  destruct (Ho l Hl) as (H1 & H2 & H3). split; [done|]. cbn [sm_backend upd_backend]. rewrite E2.
  split; [|done]. unfold local_end, here in *. cbn [sm_backend upd_backend]. by rewrite E3.
Qed.

Lemma reset_ok s : sim_ok s -> keeps s (simulator_reset host storage_address s).2.
Proof.
  intros Hs. apply (on_link_ok s _ _ (fun r => keeps s r.2)); [done|done|].
  intros l s' Hs' Hp Hl. destruct (own_link s' l Hs' Hl) as (Hlen & Hh & H2 & Hok & Hat).
  rewrite Hat. cbn [negb snd]. rewrite (proj1 (upd_both s' l _ _ Hs' Hl)).
  set (s1 := set_ends l _ _ s'). assert (keeps s s1) as [Hs1 Hp1].
  { apply keeps_ends; try done. apply (stopped_ends_ok (local_end s' l)); try done; [|by right].
    apply clear_queues_wf. }
  destruct (hc_lock [] ZeroCopyMutex s1) as [Hk Hsame _]. specialize (Hk Hs1).
  apply upd_backend_ok; [done|by eapply same_port_trans| |done].
  destruct Hk as [_ _ _ []]. by apply initialize_buffers_wf.
Qed.

Lemma descriptor_update s h f : buffers_wf (sm_backend s) ->
  (forall direction b, descriptor_ok (sb_self (sm_backend s)) direction b ->
     descriptor_ok (sb_self (sm_backend s)) direction (f b)) ->
  buffers_wf (sm_backend (upd_buffer h f s)).
Proof.
  intros [H1 H2 H3 H4 H5 H6] Hf. unfold upd_buffer, set_sim_buffer, sim_buffer.
  cbn [sm_backend upd_backend]. destruct (h =? RX_HANDLE)%nat; constructor; try done.
  - by apply Hf.
  - cbn. by rewrite length_insert.
  - destruct (decide (h < length (sb_tx_buffers (sm_backend s)))%nat) as [Hlt|Hge].
    + apply Forall_insert; [done|]. apply Hf. by apply Forall_lookup_total_1.
    + cbn. by rewrite list_insert_ge by lia.
Qed.

Lemma upd_buffer_ok s s' h f : sim_ok s' -> same_port s s' ->
  (forall direction b, descriptor_ok (sb_self (sm_backend s')) direction b ->
     descriptor_ok (sb_self (sm_backend s')) direction (f b)) ->
  keeps s (upd_buffer h f s').
Proof.
  intros Hs Hp Hf. apply upd_backend_ok; [done|done| |].
  - apply (descriptor_update s' h f); [apply Hs|done].
  - unfold set_sim_buffer. cbn. by destruct (h =? RX_HANDLE)%nat.
Qed.

Lemma in_state_ok self direction state b : descriptor_ok self direction b ->
  descriptor_ok self direction (buffer_in state b).
Proof. done. Qed.

Lemma shaped_ok self direction n t b : 0 <= n -> descriptor_ok self direction b ->
  descriptor_ok self direction (buffer_shaped n t b).
Proof. intros Hn (H1 & H2 & H3 & H4). done. Qed.

(** ** Packets and time-codes *)

Lemma when_space_ok s s' l ready t deliver : sim_ok s' -> same_port s s' ->
  sb_link (sm_backend s') = Some l ->
  (forall s2, sim_ok s2 -> same_port s s2 -> sb_link (sm_backend s2) = Some l ->
     ready l s2 = true -> ep_started (local_end s2 l) = true ->
     peer_available (peer_end s2 l) = true -> keeps s (deliver s2).2) ->
  keeps s (when_space host wait_fuel l ready t deliver s').2.
Proof.
  intros Hs Hp Hl Hd. unfold when_space. do 2 (case_if; [done|]).
  pose proof (wait_condition_ok (LinkMutex l) t (ready l) s' Hs) as H.
  destruct (wait_condition _ _ _ _ _ _) as [r s2]. destruct H as (Hs2 & Hp2 & Hr).
  assert (same_port s s2) as Hps by (by eapply same_port_trans).
  destruct r; cbn [negb]; [|done]. case_if; [done|]. case_if; [done|].
  apply Hd; [done|done| |by apply Hr|by apply negb_false_iff|by apply negb_false_iff].
  destruct Hp2 as (_ & _ & _ & ->). done.
Qed.

Lemma send_ok s p t : sim_ok s -> tx_packet_ok p = true -> bytes_ok (default [] (pkt_data p)) ->
  keeps s (simulator_send host wait_fuel s p t).2.
Proof.
  intros Hs Hp Hb. unfold simulator_send. case_if; [done|]. case_if; [done|]. do 2 (case_if; [done|]).
  apply (on_link_ok s _ _ (fun r => keeps s r.2)); [done|done|].
  intros l s1 Hs1 Hp1 Hl1. apply when_space_ok; [done|done|done|].
  intros s2 Hs2 Hp2 Hl2 Hready Hst Hpeer. unfold deliver_packet. case_if; [done|].
  destruct (own_link s2 l Hs2 Hl2) as (Hlen & Hh & H2 & Hok & Hat). cbn [snd].
  rewrite (proj2 (upd_both s2 l _ _ Hs2 Hl2)).
  destruct (push_packet_end (peer_end s2 l) p) as [Hw _]; try done; [apply Hok|lia| |].
  { unfold packet_space_ready in Hready. rewrite Hst, Hpeer in Hready. cbn [negb orb] in Hready.
    by apply Nat.ltb_lt in Hready. }
  apply keeps_ends; try done. apply (ends_ok_same (local_end s2 l) (peer_end s2 l)); try done.
  by apply (end_wf_queues (local_end s2 l)); [apply Hok| |].
Qed.

Lemma send_time_code_ok s tc t : sim_ok s -> valid_time_code tc = true -> 0 <= time_count tc ->
  keeps s (simulator_send_time_code host wait_fuel s tc t).2.
Proof.
  intros Hs Hv H0. unfold simulator_send_time_code. case_if; [done|]. case_if; [done|].
  apply (on_link_ok s _ _ (fun r => keeps s r.2)); [done|done|].
  intros l s1 Hs1 Hp1 Hl1. apply when_space_ok; [done|done|done|].
  intros s2 Hs2 Hp2 Hl2 Hready Hst Hpeer. unfold deliver_time_code.
  destruct (own_link s2 l Hs2 Hl2) as (Hlen & Hh & H2 & Hok & Hat). cbn [snd].
  rewrite (proj2 (upd_both s2 l _ _ Hs2 Hl2)).
  destruct (push_time_code_end (peer_end s2 l) tc) as [Hw _]; [apply Hok| | |].
  { unfold valid_time_code in Hv. unfold time_code_contents_ok. lia. }
  { unfold time_code_space_ready in Hready. rewrite Hst, Hpeer in Hready. cbn [negb orb] in Hready.
    by apply Nat.ltb_lt in Hready. }
  apply keeps_ends; try done. apply (ends_ok_same (local_end s2 l) (peer_end s2 l)); try done.
  by apply (end_wf_queues (local_end s2 l)); [apply Hok| |].
Qed.

Lemma when_data_ok {R} s s' l ready count t (out : R) take_one (Q : Z * R * sim W -> Prop) :
  sim_ok s' -> same_port s s' -> sb_link (sm_backend s') = Some l ->
  (forall r s2, r <> SPW_OK -> keeps s s2 -> Q (r, out, s2)) ->
  (forall s2, sim_ok s2 -> same_port s s2 -> sb_link (sm_backend s2) = Some l ->
     (0 < count (local_end s2 l))%nat -> Q (take_one s2)) ->
  Q (when_data host wait_fuel l ready count t out take_one s').
Proof.
  intros Hs Hp Hl Hq Hd. unfold when_data. case_if; [by apply Hq|].
  pose proof (wait_condition_ok (LinkMutex l) t (ready l) s' Hs) as H.
  destruct (wait_condition _ _ _ _ _ _) as [r s2]. destruct H as (Hs2 & Hp2 & Hr).
  assert (same_port s s2) as Hps by (by eapply same_port_trans).
  destruct r; cbn [negb]; [|by apply Hq]. case_if; [by apply Hq|].
  case_if; [|apply Hd; [done|done| |apply Nat.eqb_neq in E1; lia]].
  - case_if; by apply Hq.
  - destruct Hp2 as (_ & _ & _ & ->). done.
Qed.

(** A change of the local end's queues and statistics. *)
Lemma keeps_local s s' l f : sim_ok s' -> same_port s s' -> sb_link (sm_backend s') = Some l ->
  (forall e, ep_attached (f e) = ep_attached e /\ ep_started (f e) = ep_started e /\
             ep_state (f e) = ep_state e) ->
  (end_wf (local_end s' l) -> end_wf (f (local_end s' l))) -> keeps s (upd_local l f s').
Proof.
  intros Hs Hp Hl Hf Hw. destruct (own_link s' l Hs Hl) as (Hlen & Hh & H2 & Hok & Hat).
  rewrite upd_local_ends by done. destruct (Hf (local_end s' l)) as (E1 & E2 & E3).
  apply keeps_ends; try done; [|by rewrite E1].
  apply (ends_ok_same (local_end s' l) (peer_end s' l)); try done; [apply Hw|]; apply Hok.
Qed.

Definition received_ok (p p' : spw_packet) (r : Z) : Prop :=
  bytes_ok (default [] (pkt_data p')) /\
  length (default [] (pkt_data p')) = length (default [] (pkt_data p)) /\
  (r = SPW_OK -> 0 <= pkt_length p' <= pkt_capacity p /\
                 valid_terminator (pkt_terminator p') = true).

Lemma take_packet_ok s s' l p : sim_ok s' -> same_port s s' -> sb_link (sm_backend s') = Some l ->
  rx_packet_ok p = true -> bytes_ok (default [] (pkt_data p)) ->
  (0 < r_count (ep_packets (local_end s' l)))%nat ->
  let '(r, p', s2) := take_packet l p s' in keeps s s2 /\ received_ok p p' r.
Proof.
  intros Hs Hp Hl Hrx Hb Hc. destruct (own_link s' l Hs Hl) as (_ & _ & _ & (Hw & _) & _).
  destruct (pop_packet_end _ Hw Hc) as (Hpop & [Hd Hlen] & [Hbs Htm] & _). unfold take_packet.
  set (slot := ring_front (ep_packets (local_end s' l))) in *. cbn [slot_abs fst snd] in *.
  unfold rx_packet_ok in Hrx. split_andb. cbn zeta. cbn [set_packet_shape pkt_capacity pkt_data].
  case_if; [done|]. case_if; [done|]. split.
  - apply keeps_local; try done. intros _. by apply (end_wf_queues _ _ Hpop).
  - unfold received_ok. destruct (0 <? slot_length slot) eqn:E1; cbn [andb] in E0.
    + destruct (pkt_data p) as [m|] eqn:Em; [|done]. cbn in *. rewrite Em. cbn.
      rewrite length_mem_write. split; [by apply bytes_ok_write|]. 
      unfold slot_payload. rewrite length_mem_read. split; [lia|]. intros _. split; [lia|done].
    + cbn. split; [done|]. split; [done|]. intros _. split; [lia|done].
Qed.

Lemma receive_ok s p t : sim_ok s -> rx_packet_ok p = true -> bytes_ok (default [] (pkt_data p)) ->
  let '(r, p', s') := simulator_receive host wait_fuel s p t in
  keeps s s' /\ received_ok p p' r.
Proof.
  intros Hs Hp Hb. unfold simulator_receive.
  set (Q := fun x : Z * spw_packet * sim W => let '(r, p', s') := x in
    keeps s s' /\ received_ok p p' r).
  apply (on_link_ok s _ _ Q); [done|done|]. intros l s1 Hs1 Hp1 Hl1.
  apply when_data_ok with (s := s); try done.
  intros s2 Hs2 Hp2 Hl2 Hc. by apply take_packet_ok.
Qed.

Lemma receive_time_code_ok s out t : sim_ok s ->
  let '(r, tc, s') := simulator_receive_time_code host wait_fuel s out t in
  keeps s s' /\ (r = SPW_OK -> time_code_contents_ok tc).
Proof.
  intros Hs. unfold simulator_receive_time_code.
  set (Q := fun x : Z * spw_time_code * sim W => let '(r, tc, s') := x in
    keeps s s' /\ (r = SPW_OK -> time_code_contents_ok tc)).
  apply (on_link_ok s _ _ Q); [done|done|]. intros l s1 Hs1 Hp1 Hl1.
  apply when_data_ok with (s := s); try done.
  intros s2 Hs2 Hp2 Hl2 Hc. destruct (own_link s2 l Hs2 Hl2) as (_ & _ & _ & (Hw & _) & _).
  destruct (pop_time_code_end _ Hw Hc) as (Hpop & Htc & _). unfold take_time_code. cbn.
  split; [|done]. apply keeps_local; try done. intros _. by apply (end_wf_queues _ _ Hpop).
Qed.

Lemma link_state_range a b : side_ok a b -> SPW_LINK_ERROR_RESET <= ep_state a <= SPW_LINK_RUN.
Proof.
  intros [_ H]. unfold SPW_LINK_ERROR_RESET, SPW_LINK_RUN, SPW_LINK_READY, SPW_LINK_CONNECTING in *.
  destruct (ep_started a), (ep_started b); lia.
Qed.

Lemma sim_get_link_state_ok s out : sim_ok s ->
  let '(r, state, s') := simulator_get_link_state host s out in
  keeps s s' /\ (r = SPW_OK -> SPW_LINK_ERROR_RESET <= state <= SPW_LINK_RUN).
Proof.
  intros Hs. set (Q := fun x : Z * Z * sim W => let '(r, state, s') := x in
    keeps s s' /\ (r = SPW_OK -> SPW_LINK_ERROR_RESET <= state <= SPW_LINK_RUN)).
  apply (on_link_ok s _ _ Q); [done|done|]. intros l s1 Hs1 Hp1 Hl1.
  destruct (own_link s1 l Hs1 Hl1) as (_ & _ & _ & (_ & _ & Hok & _) & _).
  case_if; [done|]. split; [done|]. intros _. by apply (link_state_range _ _ Hok).
Qed.

Lemma statistics_ok s out : sim_ok s -> keeps s (simulator_get_statistics host s out).2.
Proof.
  intros Hs. apply (on_link_ok s _ _ (fun r => keeps s r.2)); [done|done|].
  intros l s1 Hs1 Hp1 Hl1. by case_if.
Qed.

Lemma sim_clear_statistics_ok s : sim_ok s -> keeps s (simulator_clear_statistics host s).2.
Proof.
  intros Hs. apply (on_link_ok s _ _ (fun r => keeps s r.2)); [done|done|].
  intros l s1 Hs1 Hp1 Hl1. case_if; [done|]. apply keeps_local; try done.
  intros H. by apply (end_wf_queues _ _ H).
Qed.

(** ** Zero-copy *)

Lemma keeps_trans s1 s2 s3 : keeps s1 s2 -> keeps s2 s3 -> keeps s1 s3.
Proof. intros [_ H1] [H2 H3]. split; [done|by eapply same_port_trans]. Qed.

Lemma lock_ok s held m : sim_ok s -> keeps s (host_lock host held m s).
Proof. intros Hs. destruct (hc_lock held m s) as [Hk Hp _]. split; [by apply Hk|done]. Qed.

Lemma keeps_buffer s h f : sim_ok s ->
  (forall direction b, descriptor_ok (sb_self (sm_backend s)) direction b ->
     descriptor_ok (sb_self (sm_backend s)) direction (f b)) ->
  keeps s (upd_buffer h f s).
Proof. intros. by apply upd_buffer_ok. Qed.

Lemma free_shape_ok self direction state b : descriptor_ok self direction b ->
  descriptor_ok self direction (buffer_in state (buffer_shaped 0 SPW_TERMINATOR_EOP b)).
Proof. intros (H1 & H2 & H3 & H4). by split_and!. Qed.

(** Looking for a transmit buffer, with a wait when there is none. *)
Lemma find_or_wait_ok s t state ready : sim_ok s ->
  let '(_, s') :=
    match find_tx_buffer state s with
    | Some _ => (true, s)
    | None => wait_condition host wait_fuel ZeroCopyMutex t ready s
    end in keeps s s'.
Proof.
  intros Hs. destruct (find_tx_buffer state s); [done|].
  pose proof (wait_condition_ok ZeroCopyMutex t ready s Hs) as H.
  destruct (wait_condition _ _ _ _ _ _) as [r s']. destruct H as (H1 & H2 & _). done.
Qed.

Lemma acquire_tx_ok s n t : sim_ok s -> keeps s (simulator_acquire_tx_buffer host wait_fuel s n t).2.
Proof.
  intros Hs. unfold simulator_acquire_tx_buffer. case_if; [done|].
  pose proof (lock_ok s [] ZeroCopyMutex Hs) as Hk. set (s1 := host_lock _ _ _ _) in *.
  pose proof (find_or_wait_ok s1 t SPW_BUFFER_STATE_FREE free_tx_buffer_ready (proj1 Hk)) as H.
  unfold find_free_tx_buffer in *. match type of H with (let '(_, _) := ?x in _) => destruct x as [r s2] end.
  assert (keeps s s2) as [Hs2 Hp2] by (by eapply keeps_trans).
  case_if; [done|]. destruct (find_tx_buffer _ s2) as [h|]; [|done].
  apply upd_buffer_ok; [done|done|]. intros. by apply free_shape_ok.
Qed.

Lemma reclaim_tx_ok s t : sim_ok s -> keeps s (simulator_reclaim_tx_buffer host wait_fuel s t).2.
Proof.
  intros Hs. unfold simulator_reclaim_tx_buffer.
  pose proof (lock_ok s [] ZeroCopyMutex Hs) as Hk. set (s1 := host_lock _ _ _ _) in *.
  pose proof (find_or_wait_ok s1 t SPW_BUFFER_STATE_COMPLETED completed_tx_buffer_ready
    (proj1 Hk)) as H.
  unfold find_completed_tx_buffer in *.
  match type of H with (let '(_, _) := ?x in _) => destruct x as [r s2] end.
  assert (keeps s s2) as [Hs2 Hp2] by (by eapply keeps_trans).
  case_if; [done|]. destruct (find_tx_buffer _ s2) as [h|]; [|done].
  by apply upd_buffer_ok.
Qed.

Lemma release_tx_ok s h : sim_ok s -> keeps s (simulator_release_tx_buffer host s h).2.
Proof.
  intros Hs. unfold simulator_release_tx_buffer.
  destruct (lock_ok s [] ZeroCopyMutex Hs) as [Hs1 Hp1]. case_if; [done|].
  apply upd_buffer_ok; [done|done|]. intros. by apply free_shape_ok.
Qed.

(** A handle the application holds for transmission is one of the eight. *)
Lemma held_handle s h : sim_ok s -> held_tx_buffer s h = true ->
  (h < SPW_SIMULATOR_PACKET_QUEUE_DEPTH)%nat /\
  descriptor_ok (sb_self (sm_backend s)) SPW_BUFFER_DIRECTION_TX (sim_buffer (sm_backend s) h).
Proof.
  intros [_ _ _ [H1 H2 H3 _ _ _]] Hh. unfold held_tx_buffer in Hh. split_andb.
  apply bool_decide_eq_true in H. unfold sim_buffer in *.
  destruct (h =? RX_HANDLE)%nat eqn:Eh.
  - destruct H3 as (_ & Hd & _). rewrite Hd in H4. done.
  - destruct (decide (h < length (sb_tx_buffers (sm_backend s)))%nat) as [Hlt|Hge].
    + split; [lia|]. by apply Forall_lookup_total_1.
    + rewrite list_lookup_total_alt, lookup_ge_None_2 in H by lia. done.
Qed.

Lemma buffer_packet_ok s h : sim_ok s -> (h < SPW_SIMULATOR_PACKET_QUEUE_DEPTH)%nat ->
  0 <= buf_length (sim_buffer (sm_backend s) h) <= SPW_SIMULATOR_MAX_PACKET_SIZE ->
  valid_terminator (buf_terminator (sim_buffer (sm_backend s) h)) = true ->
  tx_packet_ok (buffer_packet s h) = true /\ bytes_ok (default [] (pkt_data (buffer_packet s h))).
Proof.
  intros [_ _ _ [_ _ _ H4 H5 _]] Hh Hl Ht. unfold tx_packet_ok, buffer_packet. cbn.
  assert (storage_wf (sb_tx_storage (sm_backend s) !!! h)) as [Hb Hn]
    by (apply Forall_lookup_total_1; [done|lia]).
  split; [|done]. rewrite Ht, Hn, andb_true_r. apply andb_true_intro.
  split; apply Z.leb_le; [|rewrite Z2Nat.id]; lia || by vm_compute.
Qed.

Lemma submit_tx_ok s h t : sim_ok s -> keeps s (simulator_submit_tx_buffer host wait_fuel s h t).2.
Proof.
  intros Hs. unfold simulator_submit_tx_buffer.
  pose proof (lock_ok s [] ZeroCopyMutex Hs) as Hk1. set (s1 := host_lock _ _ _ _) in *.
  destruct (held_tx_buffer s1 h) eqn:Hheld; cbn [negb]; [|done]. case_if; [done|]. split_andb.
  destruct (held_handle s1 h (proj1 Hk1) Hheld) as (Hh & _ & _ & Hlen & _).
  assert (keeps s1 (upd_buffer h (buffer_in SPW_BUFFER_STATE_BACKEND) s1)) as Hk2
    by (by apply keeps_buffer; [apply Hk1|]).
  set (s2 := upd_buffer h _ s1) in *.
  assert (sim_buffer (sm_backend s2) h = buffer_in SPW_BUFFER_STATE_BACKEND
    (sim_buffer (sm_backend s1) h)) as Hb.
  { unfold s2, upd_buffer, sim_buffer, set_sim_buffer, RX_HANDLE. cbn [sm_backend upd_backend].
    replace (h =? SPW_SIMULATOR_PACKET_QUEUE_DEPTH)%nat with false
      by (symmetry; apply Nat.eqb_neq; lia).
    cbn [sb_tx_buffers set_sb_tx_buffers]. apply list_lookup_total_insert_eq.
    destruct (proj1 Hk1) as [_ _ _ []]. lia. }
  destruct (buffer_packet_ok s2 h (proj1 Hk2) Hh) as [Hp Hbs].
  { rewrite Hb. cbn. lia. }
  { by rewrite Hb. }
  pose proof (send_ok s2 (buffer_packet s2 h) t (proj1 Hk2) Hp Hbs) as Hk3.
  destruct (simulator_send _ _ _ _ _) as [r s3]. cbn [snd] in *.
  pose proof (lock_ok s3 [] ZeroCopyMutex (proj1 Hk3)) as Hk4.
  eapply keeps_trans; [exact Hk1|]. eapply keeps_trans; [exact Hk2|].
  eapply keeps_trans; [exact Hk3|]. eapply keeps_trans; [exact Hk4|].
  apply keeps_buffer; [apply Hk4|]. intros. by apply in_state_ok.
Qed.

Lemma rx_backend_ok s f : sim_ok s -> same_port s (upd_backend f s) ->
  buffers_wf (f (sm_backend s)) -> keeps s (upd_backend f s).
Proof. intros. by apply upd_backend_ok. Qed.

Lemma rx_acquired_wf b v : buffers_wf b -> buffers_wf (set_sb_rx_buffer_acquired v b).
Proof. by intros []. Qed.

Lemma acquire_rx_ok s t : sim_ok s -> keeps s (simulator_acquire_rx_buffer host wait_fuel s t).2.
Proof.
  intros Hs. unfold simulator_acquire_rx_buffer.
  pose proof (lock_ok s [] ZeroCopyMutex Hs) as Hk1. set (s1 := host_lock _ _ _ _) in *.
  pose proof (wait_condition_ok ZeroCopyMutex t rx_buffer_ready s1 (proj1 Hk1)) as H.
  destruct (wait_condition _ _ _ _ _ _) as [r s2]. destruct H as (Hs2 & Hp2 & _).
  assert (keeps s s2) as Hk2 by (by eapply keeps_trans). clear Hk1 Hp2. case_if; [done|].
  assert (keeps s2 (upd_backend (set_sb_rx_buffer_acquired true) s2)) as Hk3
    by (apply rx_backend_ok; [done|done|apply rx_acquired_wf, Hs2]).
  set (s3 := upd_backend _ s2) in *.
  assert (keeps s3 (upd_buffer RX_HANDLE (buffer_in SPW_BUFFER_STATE_BACKEND) s3)) as Hk4
    by (by apply keeps_buffer; [apply Hk3|]).
  set (s4 := upd_buffer _ _ s3) in *. cbv zeta.
  match goal with |- context [simulator_receive _ _ _ ?p _] => set (packet := p) end.
  pose proof (proj1 Hk4) as [_ _ _ [_ _ _ _ _ [Hrb Hrl]]].
  pose proof (receive_ok s4 packet t (proj1 Hk4)) as H5.
  destruct (simulator_receive _ _ _ _ _) as [[res p'] s5].
  destruct H5 as [Hk5 (Hb5 & Hl5 & Hr5)].
  { unfold rx_packet_ok, packet. cbn [pkt_capacity pkt_data]. by rewrite Hrl. }
  { done. }
  assert (keeps s5 (upd_backend (set_sb_rx_storage (default [] (pkt_data p'))) s5)) as Hk6.
  { apply rx_backend_ok; [apply Hk5|done|]. destruct (proj1 Hk5) as [_ _ _ []].
    constructor; try done. split; [done|]. exact (eq_trans Hl5 Hrl). }
  set (s6 := upd_backend _ s5) in *. pose proof (lock_ok s6 [] ZeroCopyMutex (proj1 Hk6)) as Hk7.
  set (s7 := host_lock _ _ _ s6) in *.
  eapply keeps_trans; [exact Hk2|]. eapply keeps_trans; [exact Hk3|].
  eapply keeps_trans; [exact Hk4|]. eapply keeps_trans; [exact Hk5|].
  eapply keeps_trans; [exact Hk6|]. eapply keeps_trans; [exact Hk7|]. case_if.
  - assert (keeps s7 (upd_buffer RX_HANDLE (buffer_in SPW_BUFFER_STATE_FREE) s7)) as Hk8
      by (by apply keeps_buffer; [apply Hk7|]).
    eapply keeps_trans; [exact Hk8|]. apply rx_backend_ok; [apply Hk8|done|].
    apply rx_acquired_wf, Hk8.
  - apply keeps_buffer; [apply Hk7|]. intros d b Hd. apply in_state_ok, shaped_ok; [|done].
    apply Hr5. by apply negb_false_iff, Z.eqb_eq in E0.
Qed.

Lemma release_rx_ok s h : sim_ok s -> keeps s (simulator_release_rx_buffer host s h).2.
Proof.
  intros Hs. unfold simulator_release_rx_buffer.
  pose proof (lock_ok s [] ZeroCopyMutex Hs) as Hk1. set (s1 := host_lock _ _ _ _) in *.
  case_if; [done|]. eapply keeps_trans; [exact Hk1|].
  assert (keeps s1 (upd_buffer RX_HANDLE (fun b => buffer_in SPW_BUFFER_STATE_FREE
    (buffer_shaped 0 SPW_TERMINATOR_EOP b)) s1)) as Hk2.
  { apply keeps_buffer; [apply Hk1|]. intros. by apply free_shape_ok. }
  eapply keeps_trans; [exact Hk2|]. apply rx_backend_ok; [apply Hk2|done|].
  apply rx_acquired_wf, Hk2.
Qed.

(** ** Attaching and detaching *)

Lemma reset_ends_ok b : end_wf b -> side_ok b reset_endpoint -> ends_ok reset_endpoint b.
Proof.
  intros Hb Hs. split; [apply reset_endpoint_wf|]. split; [done|]. split; [|done].
  split; [done|]. by right.
Qed.

Lemma zero_link_wf sync id : link_wf
  {| lk_sync_initialized := sync; lk_allocated := false; lk_link_id := id;
     lk_endpoints := [reset_endpoint; reset_endpoint] |}.
Proof.
  exists reset_endpoint, reset_endpoint. split; [done|]. split; [|done].
  apply reset_ends_ok; [apply reset_endpoint_wf|]. split; [done|]. by right.
Qed.

(** [find_link] takes the link with the identifier or, when there is none, a free one. *)
Lemma find_link_spec id registry l : find_link id registry = Some l ->
  exists link, registry !! l = Some link /\
    ((lk_allocated link = true /\ lk_link_id link = id) \/
     (lk_allocated link = false /\
      forall j link', registry !! j = Some link' -> lk_allocated link' = true ->
        lk_link_id link' <> id)).
Proof.
  unfold find_link. destruct (list_find _ registry) as [[i link]|] eqn:E.
  - intros [= ->]. apply list_find_Some in E as (Hi & Hp & _). exists link. split; [done|]. left.
    apply andb_true_iff in Hp as [? ?]. split; [done|]. by apply Z.eqb_eq.
  - destruct (list_find (fun link => lk_allocated link = false) registry) as [[i link]|] eqn:E2;
      [|done]. intros [= ->]. apply list_find_Some in E2 as (Hi & Hp & _). exists link.
    split; [done|]. right. split; [done|]. intros j link' Hj Ha Hid.
    apply list_find_None in E. rewrite Forall_lookup in E. apply (E j link' Hj).
    by rewrite Ha, Hid, Z.eqb_refl.
Qed.

(** A fresh end facing one whose partner was not attached. *)
Lemma fresh_end_ok b : end_wf b -> side_ok b reset_endpoint ->
  let '(x, y) := refresh_link_states (set_ep_attached true reset_endpoint) b in
  ends_ok x y /\ ep_attached x = true.
Proof.
  intros Hb [Hb1 Hb2]. unfold refresh_link_states. cbn [ep_started ep_attached set_ep_attached
    reset_endpoint andb]. split; [|done].
  assert (end_wf (set_ep_attached true reset_endpoint)) as Hf
    by (by apply (end_wf_queues reset_endpoint); [apply reset_endpoint_wf| |]).
  split; [done|]. destruct (ep_started b && ep_attached b) eqn:E.
  - split_andb. split; [by apply (end_wf_queues b)|]. unfold side_ok. cbn. rewrite H, H0.
    split_and!; try done. by right.
  - split; [done|]. unfold side_ok. cbn. split; [|done]. split; [done|]. by right.
Qed.

(** Whatever end the port is, an unattached end looks like a reset one to its peer. *)
Lemma unattached_peer s l : (here s <= 1)%nat -> link_wf (link_at s l) ->
  ep_attached (local_end s l) = false ->
  end_wf (peer_end s l) /\ side_ok (peer_end s l) reset_endpoint.
Proof.
  intros Hh Hw Ha. destruct (ends_of_link s l Hh Hw) as (_ & (_ & H2 & [H3 _] & [H4 H5]) & _).
  split; [done|]. destruct (H3 Ha) as [H6 _]. rewrite H6 in H5. done.
Qed.

(** The end of [attach_backend]: the local end becomes attached on link [l],
    which is allocated and carries the port's identifier. *)
Lemma attach_end_ok s l : sim_ok s -> sb_link (sm_backend s) = None ->
  (l < SPW_SIMULATOR_MAX_LOCAL_LINKS)%nat ->
  forall s', sm_backend s' = sm_backend s -> two_ends s' l ->
  sm_registry s' = <[l := link_at s' l]> (sm_registry s) ->
  lk_allocated (link_at s' l) = true -> lk_link_id (link_at s' l) = sb_link_id (sm_backend s) ->
  (forall j link, sm_registry s !! j = Some link -> lk_allocated link = true ->
     lk_link_id link = sb_link_id (sm_backend s) -> j = l) ->
  end_wf (peer_end s' l) /\ side_ok (peer_end s' l) reset_endpoint ->
  let s2 := refresh_link l (upd_backend (set_sb_link (Some l))
              (upd_local l (fun _ => set_ep_attached true reset_endpoint) s')) in
  sim_ok s2 /\ sb_link (sm_backend s2) = Some l.
Proof.
  intros [Hr Hi Ho Hb] Hnone Hl s' Eb H2 Er Hal Hid Hone [Hpw Hps]. cbn zeta.
  assert (here s' <= 1)%nat as Hi' by (unfold here in *; by rewrite Eb).
  assert (l < length (sm_registry s'))%nat as Hlen
    by (rewrite Er, length_insert; rewrite (proj1 Hr); done).
  rewrite upd_local_ends by done. set (f := set_ep_attached true reset_endpoint).
  set (s1 := upd_backend (set_sb_link (Some l)) s').
  change (upd_backend (set_sb_link (Some l)) (set_ends l f (peer_end s' l) s'))
    with (set_ends l f (peer_end s' l) s1).
  rewrite refresh_link_ends; [|done|by apply (two_ends_set s1)|by rewrite length_registry_ends].
  destruct (local_set_ends s1 l f (peer_end s' l) Hi' Hlen) as [-> ->].
  pose proof (fresh_end_ok _ Hpw Hps) as Hf. fold f in Hf.
  destruct (refresh_link_states f (peer_end s' l)) as [x y]. destruct Hf as [Hxy Hx].
  rewrite set_ends_twice by done. split; [|unfold s1; cbn; done].
  assert (buffers_wf (sm_backend s1)) as Hbw by (unfold s1; cbn; rewrite Eb; by destruct Hb).
  constructor; [| exact Hi' | |exact Hbw].
  - unfold set_ends, set_link. cbn [sm_registry set_registry]. unfold s1 at 5.
    cbn [sm_registry upd_backend]. rewrite Er, list_insert_insert_eq.
    change (link_at s1 l) with (link_at s' l). apply registry_insert; [done| |].
    + destruct (here s1 =? 0)%nat; [exists x, y|exists y, x]; cbn; rewrite Hal, Hx.
      * done.
      * split; [done|]. split; [by apply ends_ok_sym|]. by rewrite orb_true_r.
    + cbn. rewrite Hid. intros _. apply Hone.
  - intros l' Hl'. unfold s1 in Hl'. cbn in Hl'. injection Hl' as <-. split; [done|].
    destruct (local_set_ends s1 l x y Hi' Hlen) as [-> _]. split; [done|].
    unfold set_ends. rewrite link_at_set by done. cbn. by rewrite Eb.
Qed.

(** [initialize_link_sync] changes nothing the invariant looks at. *)
Lemma initialize_link_sync_ok s l : sim_ok s -> (l < SPW_SIMULATOR_MAX_LOCAL_LINKS)%nat ->
  let s' := (initialize_link_sync host l s).2 in
  keeps s s' /\ taken <$> sm_registry s' = taken <$> sm_registry s.
Proof.
  intros Hs Hl. unfold initialize_link_sync. case_if; [done|].
  destruct (host_mutex_init host (sm_world s)) as [ok w].
  destruct ok; cbn [negb]; [|by split; [apply set_world_ok|]].
  destruct (host_condition_init host _) as [ok' w'].
  destruct ok'; cbn [negb]; [|by split; [apply (set_world_ok s)|]].
  cbn [snd]. destruct (link_at_wf s l (so_registry s Hs) Hl) as [Hat Hw].
  match goal with |- context [set_link l ?x _] => set (link := x) end.
  assert (taken <$> <[l := link]> (sm_registry s) = taken <$> sm_registry s) as Ht.
  { rewrite list_fmap_insert. apply list_insert_id. rewrite list_lookup_fmap, Hat. done. }
  split; [|exact Ht]. split; [|done]. destruct Hs as [Hr Hi Ho Hb].
  constructor; [|done| |done].
  - apply registry_insert; [done|exact Hw|]. intros Hal j link' Hj Haj Hid.
    by apply (proj2 (proj2 Hr) j l link' (link_at s l)).
  - intros l' Hl'. destruct (Ho l' Hl') as (H1 & H2 & H3). split; [done|].
    assert (lk_endpoints (<[l := link]> (sm_registry s) !!! l') = lk_endpoints (link_at s l') /\
      lk_link_id (<[l := link]> (sm_registry s) !!! l') = lk_link_id (link_at s l')) as [E1 E2].
    { destruct (decide (l = l')) as [<- |Hne].
      - rewrite list_lookup_total_insert_eq; [done|]. by rewrite (proj1 Hr).
      - by rewrite list_lookup_total_insert_ne. }
    unfold local_end, endpoint_at, link_at, set_link in *.
    cbn [sm_registry sm_backend set_registry set_world] in *. rewrite E1, E2. done.
Qed.

Lemma taken_lookup (r r' : list spw_simulator_virtual_link) j link :
  taken <$> r' = taken <$> r -> r' !! j = Some link ->
  exists link0, r !! j = Some link0 /\ lk_allocated link0 = lk_allocated link /\
    lk_link_id link0 = lk_link_id link.
Proof.
  intros Ht Hj. assert ((taken <$> r) !! j = Some (taken link)) as H
    by (by rewrite <- Ht, list_lookup_fmap, Hj).
  rewrite list_lookup_fmap in H. destruct (r !! j) as [link0|]; [|done]. exists link0.
  cbn in H. unfold taken in H. injection H as H1 H2 _. done.
Qed.

(** What the search says still holds once the link's mutex is taken, because the
    registry's is held. *)
Lemma found_link_stable (r r' : list spw_simulator_virtual_link) id l : registry_wf r ->
  find_link id (take SPW_SIMULATOR_MAX_LOCAL_LINKS r) = Some l ->
  taken <$> r' = taken <$> r ->
  (l < SPW_SIMULATOR_MAX_LOCAL_LINKS)%nat /\
  (forall link, r' !! l = Some link -> lk_allocated link = true -> lk_link_id link = id) /\
  (forall j link, r' !! j = Some link -> lk_allocated link = true -> lk_link_id link = id -> j = l).
Proof.
  intros (Hlen & _ & Huniq) Hf Ht. rewrite take_ge in Hf by lia.
  apply find_link_spec in Hf as (link0 & Hl0 & Hcase).
  pose proof (lookup_lt_Some _ _ _ Hl0). split; [lia|]. split.
  - intros link Hl Ha. destruct (taken_lookup _ _ _ _ Ht Hl) as (link1 & Hl1 & E1 & E2).
    assert (link1 = link0) as -> by congruence. destruct Hcase as [[_ Hid]|[Hn _]]; congruence.
  - intros j link Hj Ha Hid. destruct (taken_lookup _ _ _ _ Ht Hj) as (link1 & Hl1 & E1 & E2).
    rewrite Ha in E1. rewrite Hid in E2. destruct Hcase as [[Ha0 Hid0]|[_ Hn]].
    + apply (Huniq j l link1 link0); congruence.
    + by destruct (Hn j link1 Hl1 E1).
Qed.

Lemma sim_attach_ok s : sim_ok s -> sb_link (sm_backend s) = None ->
  let '(r, s') := attach_backend host s in
  sim_ok s' /\ (r = SPW_OK -> exists l, sb_link (sm_backend s') = Some l).
Proof.
  intros Hs Hnone. unfold attach_backend. rewrite Hnone.
  pose proof (lock_ok s [] RegistryMutex Hs) as [Hs1 Hp1]. set (s1 := host_lock _ _ _ _) in *.
  destruct (find_link _ _) as [l|] eqn:Ef; [|done].
  assert (l < SPW_SIMULATOR_MAX_LOCAL_LINKS)%nat as Hl
    by apply (found_link_stable _ _ _ _ (so_registry _ Hs1) Ef eq_refl).
  destruct (initialize_link_sync_ok s1 l Hs1 Hl) as [[Hs2 Hp2] Ht2].
  destruct (initialize_link_sync host l s1) as [ok s2]. cbn [snd] in *.
  destruct ok; cbn [negb]; [|done].
  destruct (hc_lock [RegistryMutex] (LinkMutex l) s2) as [Hk3 Hp3 Ht3].
  specialize (Hk3 Hs2). specialize (Ht3 (or_introl eq_refl)).
  set (s3 := host_lock _ _ _ s2) in *. rewrite Ht2 in Ht3.
  destruct (found_link_stable _ _ _ _ (so_registry _ Hs1) Ef Ht3) as (_ & Hid & Hone).
  assert (same_port s1 s3) as (_ & E1 & _ & E2) by (by eapply same_port_trans).
  assert (sb_link (sm_backend s3) = None) as Hnone3
    by (rewrite E2; destruct Hp1 as (_ & _ & _ & ->); done).
  destruct (link_at_wf s3 l (so_registry _ Hk3) Hl) as [Hat Hw].
  destruct (ends_of_link s3 l (so_index _ Hk3) Hw) as (H2 & _ & _).
  pose proof (proj1 (so_registry _ Hk3)) as Hlen.
  rewrite <- E1 in Hid, Hone |- *. destruct (lk_allocated (link_at s3 l)) eqn:Ea; cbn [negb].
  - destruct (ep_attached (local_end s3 l)) eqn:Eat; [done|].
    destruct (attach_end_ok s3 l Hk3 Hnone3 Hl s3) as [Hok Hlk]; try done.
    + by rewrite list_insert_id.
    + by apply Hid.
    + by apply unattached_peer; [apply Hk3| |].
    + split; [done|]. intros _. by exists l.
  - match goal with |- context [set_link l ?x s3] => set (fresh := x); set (s4 := set_link l x s3) end.
    assert (link_at s4 l = fresh) as Hf4 by (apply link_at_set; lia).
    assert (forall k, endpoint_at s4 l k = reset_endpoint) as He4.
    { intros k. unfold endpoint_at. rewrite Hf4. by destruct k as [|[|[|k]]]. }
    unfold local_end at 1. rewrite He4. cbn [ep_attached reset_endpoint].
    destruct (attach_end_ok s3 l Hk3 Hnone3 Hl s4) as [Hok Hlk]; rewrite ?Hf4; try done.
    + unfold two_ends. by rewrite Hf4.
    + unfold peer_end. rewrite He4. split; [apply reset_endpoint_wf|].
      split; [done|]. by right.
    + split; [done|]. intros _. by exists l.
Qed.

Lemma unattached_both s l : (here s <= 1)%nat -> two_ends s l ->
  negb (ep_attached (endpoint_at s l 0)) && negb (ep_attached (endpoint_at s l 1)) =
  negb (ep_attached (local_end s l)) && negb (ep_attached (peer_end s l)).
Proof.
  intros Hh H2. unfold local_end, peer_end, there.
  destruct (here s) as [|[|n]]; [done|apply andb_comm|lia].
Qed.

(** A port without a link, whatever happened to the link it had. *)
Lemma unlinked_ok s s' : sim_ok s -> registry_wf (sm_registry s') ->
  sm_backend s' = sm_backend s -> sim_ok (upd_backend (set_sb_link None) s').
Proof.
  intros [_ Hi _ Hb] Hr Eb. constructor; [done| |done|].
  - unfold here in *. cbn. by rewrite Eb.
  - cbn. rewrite Eb. by destruct Hb.
Qed.

Lemma sim_detach_ok s : sim_ok s ->
  sim_ok (detach_backend host s) /\ sb_link (sm_backend (detach_backend host s)) = None.
Proof.
  intros Hs. unfold detach_backend. destruct (sb_link (sm_backend s)) as [l|] eqn:El; [|done].
  split; [|done]. pose proof (lock_ok s [] RegistryMutex Hs) as Hk1.
  set (s1 := host_lock _ _ _ s) in *.
  assert (keeps s (host_lock host [RegistryMutex] (LinkMutex l) s1)) as [Hs2 Hp2]
    by (eapply keeps_trans; [exact Hk1|apply lock_ok, Hk1]).
  set (s2 := host_lock _ _ _ s1) in *.
  assert (sb_link (sm_backend s2) = Some l) as Hl2 by (by destruct Hp2 as (_ & _ & _ & ->)).
  destruct (own_link s2 l Hs2 Hl2) as (Hlen & Hh & H2 & Hok & Hat).
  rewrite (proj1 (upd_both s2 l (fun _ => reset_endpoint) (lose_partner true) Hs2 Hl2)).
  set (y := lose_partner true (peer_end s2 l)). set (s3 := set_ends l reset_endpoint y s2).
  assert (two_ends s3 l) as H3 by (by apply two_ends_set).
  rewrite (unattached_both s3 l Hh H3).
  destruct (local_set_ends s2 l reset_endpoint y Hh Hlen) as [E1 E2]. fold s3 in E1, E2.
  rewrite E1, E2. cbn [ep_attached reset_endpoint negb andb].
  apply (unlinked_ok s2); [done| |by destruct (ep_attached y)].
  assert (ep_attached y = ep_attached (peer_end s2 l)) as Ey
    by (unfold y, lose_partner; by case_if).
  destruct (ep_attached y) eqn:Eat; cbn [negb].
  - destruct (so_owns _ Hs2 l Hl2) as (Hl & _ & _).
    destruct (ends_of_link s2 l Hh (proj2 (link_at_wf s2 l (so_registry _ Hs2) Hl)))
      as (_ & _ & Hal).
    apply set_ends_registry; [apply Hs2|done| |cbn; by rewrite Hal, Hat, Eat].
    destruct Hok as (_ & Hb & Ha1 & [Hb1 Hb2]). unfold y, lose_partner. rewrite <- Ey. cbn [andb].
    case_if.
    + apply reset_ends_ok; [by apply (end_wf_queues (peer_end s2 l))|]. unfold side_ok. cbn.
      by rewrite <- Ey, E.
    + apply reset_ends_ok; [done|]. unfold side_ok. by rewrite E, <- Ey.
  - unfold s3, set_ends, set_link. cbn [sm_registry set_registry]. rewrite list_insert_insert_eq.
    apply registry_insert; [apply Hs2|apply zero_link_wf|done].
Qed.

Lemma storage_zero_wf : storage_wf (replicate (Z.to_nat SPW_SIMULATOR_MAX_PACKET_SIZE) 0).
Proof. split; [|by rewrite length_replicate]. apply Forall_replicate. lia. Qed.

Lemma construct_ok self config s : registry_wf (sm_registry s) ->
  let '(r, s') := simulator_construct host storage_address self config s in
  registry_wf (sm_registry s') /\
  (r = SPW_OK -> sim_ok s' /\ exists l, sb_link (sm_backend s') = Some l).
Proof.
  intros Hr. unfold simulator_construct.
  destruct (host_mutex_init host _) as [[|] w]; cbn [negb]; [|done].
  destruct (host_condition_init host _) as [[|] w']; cbn [negb]; [|done].
  match goal with |- context [attach_backend host ?x] => set (s1 := x) end.
  assert (sim_ok s1) as Hs1.
  { constructor; [done| |done|].
    - unfold here, s1. cbn. case_if; lia.
    - unfold s1. cbn [sm_backend upd_backend set_world]. apply initialize_buffers_wf.
      + exact (Forall_replicate _ _ _ storage_zero_wf).
      + exact (length_replicate _ _).
      + exact storage_zero_wf. }
  pose proof (sim_attach_ok s1 Hs1 eq_refl) as H. destruct (attach_backend host s1) as [r s2].
  destruct H as [H2 Hl]. case_if.
  - cbn. split; [apply H2|]. intros ->. done.
  - split; [apply H2|]. intros ->. split; [done|by apply Hl].
Qed.

Lemma destroy_ok s : sim_ok s ->
  sim_ok (simulator_destroy host s) /\ sb_link (sm_backend (simulator_destroy host s)) = None.
Proof.
  intros Hs. destruct (sim_detach_ok s Hs) as [[Hr Hi Ho Hb] Hl]. split; [|done].
  constructor; [done|done|intros l Hl'; by apply Ho|]. by destruct Hb.
Qed.

#[export] Instance simulator_outputs : BackendOutputs (SIMULATOR_OPS host wait_fuel storage_address) sim_ok.
Proof.
  constructor; cbn [SIMULATOR_OPS op_get_link_state op_send op_receive op_send_time_code
    op_receive_time_code].
  - intros s out Hs. pose proof (sim_get_link_state_ok s out Hs) as H.
    destruct (simulator_get_link_state _ _ _) as [[r st] s']. by destruct H as [[H _] H'].
  - intros s p t Hs Hp Hb. by apply send_ok.
  - intros s p t Hs Hp Hb. pose proof (receive_ok s p t Hs Hp Hb) as H.
    destruct (simulator_receive _ _ _ _ _) as [[r p'] s']. by destruct H as [[H _] H'].
  - intros s tc t Hs Hv H0. by apply send_time_code_ok.
  - intros s out t Hs. pose proof (receive_time_code_ok s out t Hs) as H.
    destruct (simulator_receive_time_code _ _ _ _ _) as [[r tc] s']. destruct H as [[H _] H'].
    split; [done|]. intros Hr. destruct (H' Hr) as [H1 ->]. split; [done|lia].
Qed.
End operations.
