(* ===== verification/SimulatorDuplex.v ===== *)
(** * The simulator backend as a pair of FIFO channels

    Two ports attached to one virtual link, each used by a thread of its own,
    behave as the two bounded FIFO channels of [DUPLEX_OPS]: lists instead of rings
    and shared registries, and a link state computed from who is started instead of
    stored.  A call holds the mutex of the link except while it waits on the
    condition, so what can happen during a call is that the other port completes
    calls during its waits: a [schedule] says which ones, and when the waiting
    thread is woken.  What the other port completes before a call gets the mutex is
    made before that call, and what it completes after the mutex was given back is
    made after it.  Such a call takes effect at one moment, when it returns. *)

From S2P Require Import Prelude Types Ring Backend Loopback DriverApi PortConfig Port PortProps.
From S2P Require Import Simulator SimulatorProps.

(** ** The specification *)

(** One end: whether its port is started, the state it shows while it is not,
    what it has yet to receive, and its statistics. *)
Record duplex_end := {
  de_started : bool;
  de_idle : Z;
  de_packets : list (list Z * Z);
  de_time_codes : list spw_time_code;
  de_statistics : spw_statistics
}.

(** The two ends as one port sees them: its own, then its peer's. *)
Definition duplex : Type := duplex_end * duplex_end.

Definition de_with_run (started : bool) (idle : Z) (x : duplex_end) : duplex_end :=
  {| de_started := started; de_idle := idle; de_packets := de_packets x;
     de_time_codes := de_time_codes x; de_statistics := de_statistics x |}.
Definition de_with_packets (ps : list (list Z * Z)) (x : duplex_end) : duplex_end :=
  {| de_started := de_started x; de_idle := de_idle x; de_packets := ps;
     de_time_codes := de_time_codes x; de_statistics := de_statistics x |}.
Definition de_with_time_codes (ts : list spw_time_code) (x : duplex_end) : duplex_end :=
  {| de_started := de_started x; de_idle := de_idle x; de_packets := de_packets x;
     de_time_codes := ts; de_statistics := de_statistics x |}.
Definition de_counting (f : spw_statistics -> spw_statistics) (x : duplex_end) : duplex_end :=
  {| de_started := de_started x; de_idle := de_idle x; de_packets := de_packets x;
     de_time_codes := de_time_codes x; de_statistics := f (de_statistics x) |}.

(** RUN exactly when both ends are started. *)
Definition duplex_state (x y : duplex_end) : Z :=
  if de_started x then if de_started y then SPW_LINK_RUN else SPW_LINK_CONNECTING
  else de_idle x.

Definition duplex_reset (d : duplex) : Z * duplex :=
  let '(x, y) := d in
  (SPW_OK,
   (de_counting (count_drops (Z.of_nat (length (de_packets x))))
      (de_with_packets [] (de_with_time_codes [] (de_with_run false SPW_LINK_ERROR_RESET x))),
    if de_started y then de_counting count_link_error y else y)).

(** What a full channel answers. *)
Definition full_result (timeout_us : Z) : Z :=
  if timeout_us =? SPW_TIMEOUT_IMMEDIATE then SPW_ERR_RESOURCE_EXHAUSTED else SPW_ERR_TIMEOUT.

Definition duplex_send (d : duplex) (p : spw_packet) (timeout_us : Z) : Z * duplex :=
  let '(x, y) := d in
  if (SPW_SIMULATOR_MAX_PACKET_SIZE <? pkt_length p) ||
     (negb (pkt_capacity p =? 0) && (pkt_capacity p <? pkt_length p))
  then (SPW_ERR_INVALID_PACKET, d) else
  if negb (de_started x) then (SPW_ERR_INVALID_STATE, d) else
  if negb (de_started y) then (SPW_ERR_LINK_UNAVAILABLE, d) else
  if Nat.eqb (length (de_packets y)) SPW_SIMULATOR_PACKET_QUEUE_DEPTH
  then (full_result timeout_us, d) else
  (SPW_OK,
   (de_counting (count_tx_packet (pkt_length p) (pkt_terminator p)) x,
    de_with_packets (de_packets y ++ [(packet_payload p, pkt_terminator p)]) y)).

Definition duplex_send_time_code (d : duplex) (tc : spw_time_code) (timeout_us : Z)
    : Z * duplex :=
  let '(x, y) := d in
  if negb (de_started x) then (SPW_ERR_INVALID_STATE, d) else
  if negb (de_started y) then (SPW_ERR_LINK_UNAVAILABLE, d) else
  if Nat.eqb (length (de_time_codes y)) SPW_SIMULATOR_TIME_CODE_QUEUE_DEPTH
  then (full_result timeout_us, d) else
  (SPW_OK,
   (de_counting count_tx_time_code x, de_with_time_codes (de_time_codes y ++ [tc]) y)).

(** What an empty channel answers. *)
Definition empty_result (y : duplex_end) : Z :=
  if de_started y then SPW_ERR_TIMEOUT else SPW_ERR_LINK_UNAVAILABLE.

Definition duplex_receive (d : duplex) (p : spw_packet) (_ : Z) : Z * spw_packet * duplex :=
  let '(x, y) := d in
  if negb (de_started x) then (SPW_ERR_INVALID_STATE, p, d) else
  match de_packets x with
  | [] => (empty_result y, p, d)
  | (bs, terminator) :: rest =>
      let len := Z.of_nat (length bs) in
      let p := set_packet_shape len terminator p in
      if pkt_capacity p <? len then (SPW_ERR_BUFFER_TOO_SMALL, p, d) else
      (SPW_OK, set_packet_bytes bs p,
       (de_counting (count_rx_packet len) (de_with_packets rest x), y))
  end.

Definition duplex_receive_time_code (d : duplex) (out : spw_time_code) (_ : Z)
    : Z * spw_time_code * duplex :=
  let '(x, y) := d in
  if negb (de_started x) then (SPW_ERR_INVALID_STATE, out, d) else
  match de_time_codes x with
  | [] => (empty_result y, out, d)
  | tc :: rest =>
      (SPW_OK, tc, (de_counting count_rx_time_code (de_with_time_codes rest x), y))
  end.

Definition DUPLEX_OPS : spw_backend_ops duplex :=
  {| op_start := fun d => (SPW_OK, (de_with_run true (de_idle d.1) d.1, d.2));
     op_stop := fun d => (SPW_OK, (de_with_run false SPW_LINK_READY d.1, d.2));
     op_reset := duplex_reset;
     op_get_link_state := fun d _ => (SPW_OK, duplex_state d.1 d.2, d);
     op_get_capabilities := fun d _ => (SPW_OK, simulator_capabilities, d);
     op_supports_zero_copy := Some (fun _ => true);
     op_send := duplex_send;
     op_receive := duplex_receive;
     op_send_time_code := duplex_send_time_code;
     op_receive_time_code := duplex_receive_time_code;
     op_get_statistics := fun d _ => (SPW_OK, de_statistics d.1, d);
     op_clear_statistics := fun d => (SPW_OK, (de_counting (fun _ => statistics_zero) d.1, d.2));
     op_get_fault_statistics := None;
     op_clear_fault_statistics := None;
     op_acquire_tx_buffer := None;
     op_submit_tx_buffer := None;
     op_reclaim_tx_buffer := None;
     op_release_tx_buffer := None;
     op_acquire_rx_buffer := None;
     op_release_rx_buffer := None;
     op_wait := None |}.

(** ** The refinement *)

Record end_abs (e : spw_simulator_endpoint_state) (x : duplex_end) : Prop := {
  ea_started : ep_started e = de_started x;
  ea_idle : ep_started e = false -> ep_state e = de_idle x;
  ea_packets : slot_abs <$> ring_list (ep_packets e) = de_packets x;
  ea_time_codes : ring_list (ep_time_codes e) = de_time_codes x;
  ea_statistics : ep_statistics e = de_statistics x
}.

Lemma ends_abs_count e x : end_abs e x ->
  r_count (ep_packets e) = length (de_packets x) /\
  r_count (ep_time_codes e) = length (de_time_codes x).
Proof.
  intros [_ _ Hp Ht _]. rewrite <- Hp, <- Ht. by rewrite length_fmap, !length_ring_list.
Qed.

(** A call during which nothing else happens: no other thread runs, and a wait for
    something that is not there is given up. *)
Definition still_host {W : Type} : host_ops W :=
  {| host_mutex_init := fun w => (true, w);
     host_condition_init := fun w => (true, w);
     host_now_us := fun w => (0, w);
     host_lock := fun _ _ s => s;
     host_condition_wait := fun _ _ _ s => (false, s) |}.

#[export] Instance still_contract {W} : HostContract (still_host (W := W)).
Proof.
  constructor; intros; (constructor; [intros H; by destruct H|done|done]).
Qed.

Section duplex.
Context {W : Type} (storage_address : Z -> nat -> Z).
Abbreviation host := (still_host (W := W)).
Abbreviation wait_fuel := 0%nat.
Implicit Types (s : sim W).

Record refines (l : nat) s (d : duplex) : Prop := {
  rf_ok : sim_ok s;
  rf_link : sb_link (sm_backend s) = Some l;
  rf_local : end_abs (local_end s l) d.1;
  rf_peer : end_abs (peer_end s l) d.2
}.

(** What a call leaves as it was besides: the port's identity and whether its
    peer is attached. *)
Definition unmoved (l : nat) s s' : Prop :=
  same_port s s' /\ ep_attached (peer_end s' l) = ep_attached (peer_end s l).

Lemma still_waits m t pred s : wait_condition host wait_fuel m t pred s = (pred s, s).
Proof.
  destruct s as [reg c w]. unfold wait_condition.
  destruct (pred _) eqn:E; [done|]. case_if; [done|]. unfold deadline_from_timeout, now_us.
  case_if; cbn; [case_if|]; unfold set_world; cbn; by rewrite E.
Qed.

Lemma idle_wait_condition m t pred s :
  exists w, wait_condition host wait_fuel m t pred s = (pred s, set_world w s).
Proof. exists (sm_world s). rewrite still_waits. by destruct s. Qed.

Lemma idle_on_link {R} l s (unlinked : R) f : sb_link (sm_backend s) = Some l ->
  on_link host s unlinked f = f l s.
Proof. intros Hl. unfold on_link. by rewrite Hl. Qed.

Lemma available_abs l s d : refines l s d -> peer_available (peer_end s l) = de_started d.2.
Proof.
  intros [Hs Hl _ [Hp _ _ _ _]].
  destruct (own_link s l Hs Hl) as (_ & _ & _ & (_ & _ & _ & [H1 _]) & _).
  unfold peer_available. rewrite <- Hp. destruct (ep_attached _); [done|].
  by destruct (H1 eq_refl) as [-> _].
Qed.

(** The ends after an update of both. *)
Lemma refines_set_ends l s s0 d x y : refines l s d -> sm_registry s0 = sm_registry s ->
  sm_backend s0 = sm_backend s -> keeps s (set_ends l x y s0) ->
  forall d', end_abs x d'.1 -> end_abs y d'.2 ->
  ep_attached y = ep_attached (peer_end s l) ->
  refines l (set_ends l x y s0) d' /\ unmoved l s (set_ends l x y s0).
Proof.
  intros [Hs Hl _ _] Er Eb [Hk Hp] d' Hx Hy Ha.
  destruct (own_link s l Hs Hl) as (Hlen & Hh & _).
  destruct (local_set_ends s0 l x y) as [E1 E2].
  { unfold here in *. by rewrite Eb. }
  { by rewrite Er. }
  split; [|by split; [|rewrite E2]]. constructor; [done| |by rewrite E1|by rewrite E2].
  destruct Hp as (_ & _ & _ & ->). done.
Qed.

(** Unfold one critical section of the port with link [l]. *)
Ltac enter HR :=
  let Hs := fresh "Hs" in let Hl := fresh "Hl" in
  let Hx := fresh "Hx" in let Hy := fresh "Hy" in
  pose proof HR as [Hs Hl Hx Hy]; rewrite (idle_on_link _ _ _ _ Hl);
  destruct (own_link _ _ Hs Hl) as (Hlen & Hh & H2 & Hok & Hat); rewrite Hat; cbn [negb orb].

Lemma start_refines l s d : refines l s d ->
  let '(r, s') := simulator_start host s in
  r = SPW_OK /\ refines l s' (de_with_run true (de_idle d.1) d.1, d.2) /\ unmoved l s s'.
Proof.
  intros HR. pose proof (start_ok host s (rf_ok _ _ _ HR)) as Hk. unfold simulator_start in *.
  enter HR. rewrite idle_on_link with (l := l), Hat in Hk by done. cbn [negb snd] in Hk.
  rewrite refresh_upd_local in Hk |- * by done. split; [done|].
  destruct (refresh_link_states _ _) as [x y] eqn:E. unfold refresh_link_states in E.
  cbn [ep_started ep_attached set_ep_state set_ep_started] in E. rewrite Hat in E.
  cbn [andb] in E. destruct Hx as [X1 X2 X3 X4 X5]. pose proof Hy as [Y1 Y2 Y3 Y4 Y5].
  destruct (ep_started (peer_end s l) && ep_attached (peer_end s l)) eqn:Ep; injection E as <- <-;
    eapply (refines_set_ends l s s); try done.
  split_andb. constructor; try done. cbn. congruence.
Qed.

(** The peer of an end that stops: it is told nothing, and is not started or
    loses its partner. *)
Lemma lose_partner_abs e y error : (ep_started e = true -> ep_attached e = true) -> end_abs e y ->
  end_abs (lose_partner error e)
    (if error && de_started y then de_counting count_link_error y else y) /\
  ep_attached (lose_partner error e) = ep_attached e.
Proof.
  intros Ha [Y1 Y2 Y3 Y4 Y5]. unfold lose_partner. rewrite <- Y1.
  destruct (ep_started e) eqn:E; [specialize (Ha eq_refl); rewrite Ha|]; cbn [andb].
  - destruct error; cbn [andb]; (split; [|done]);
      constructor; cbn; try done; try congruence.
  - rewrite !andb_false_r. split; [|done]. constructor; try done; by rewrite E.
Qed.

Lemma peer_attached l s d : refines l s d -> ep_started (peer_end s l) = true ->
  ep_attached (peer_end s l) = true.
Proof.
  intros [Hs Hl _ _] Hst. destruct (own_link s l Hs Hl) as (_ & _ & _ & (_ & _ & _ & [H1 _]) & _).
  destruct (ep_attached _); [done|]. destruct (H1 eq_refl). congruence.
Qed.

Lemma stop_refines l s d : refines l s d ->
  let '(r, s') := simulator_stop host s in
  r = SPW_OK /\ refines l s' (de_with_run false SPW_LINK_READY d.1, d.2) /\ unmoved l s s'.
Proof.
  intros HR. pose proof (stop_ok host s (rf_ok _ _ _ HR)) as Hk. unfold simulator_stop in *.
  enter HR. rewrite idle_on_link with (l := l), Hat in Hk by done. cbn [negb snd] in Hk.
  rewrite (proj1 (upd_both s l _ _ Hs Hl)) in Hk |- *. split; [done|].
  destruct (lose_partner_abs _ _ false (peer_attached _ _ _ HR) Hy) as [Hy' Ha'].
  destruct Hx as [X1 X2 X3 X4 X5]. by eapply (refines_set_ends l s s).
Qed.

Lemma cleared_abs e x : end_abs e x ->
  end_abs (clear_receive_queues (set_ep_state SPW_LINK_ERROR_RESET (set_ep_started false e)))
    (duplex_reset (x, x)).2.1.
Proof.
  intros Hx. pose proof (ends_abs_count _ _ Hx) as [Hc _]. destruct Hx as [X1 X2 X3 X4 X5].
  constructor; try done. cbn. by rewrite Hc, X5.
Qed.

Lemma reset_refines l s d : refines l s d ->
  let '(r, s') := simulator_reset host storage_address s in
  r = (duplex_reset d).1 /\ refines l s' (duplex_reset d).2 /\ unmoved l s s'.
Proof.
  intros HR. pose proof (reset_ok host storage_address s (rf_ok _ _ _ HR)) as Hk.
  unfold simulator_reset in *. enter HR. rewrite idle_on_link with (l := l), Hat in Hk by done.
  cbn [negb snd] in Hk. rewrite (proj1 (upd_both s l _ _ Hs Hl)) in Hk |- *.
  cbn [host_lock still_host] in Hk |- *.
  destruct (lose_partner_abs _ _ true (peer_attached _ _ _ HR) Hy) as [Hy' Ha'].
  pose proof (cleared_abs _ _ Hx) as Hx'. destruct d as [x y]. split; [done|].
  match type of Hk with keeps s (upd_backend ?f (set_ends l ?a ?b s)) =>
    change (upd_backend f (set_ends l a b s)) with (set_ends l a b (upd_backend f s)) in Hk |- *;
    destruct (local_set_ends (upd_backend f s) l a b Hh Hlen) as [E1 E2] end.
  destruct Hk as [Hk Hp]. split.
  - constructor; [done|by destruct Hp as (_ & _ & _ & ->)|by rewrite E1|by rewrite E2].
  - split; [done|]. by rewrite E2.
Qed.

Lemma link_state_refines l s d out : refines l s d ->
  simulator_get_link_state host s out = (SPW_OK, duplex_state d.1 d.2, s).
Proof.
  intros HR. unfold simulator_get_link_state. enter HR. repeat f_equal.
  destruct Hok as (_ & _ & [_ Hst] & _). unfold duplex_state.
  rewrite <- (ea_started _ _ Hx), <- (ea_started _ _ Hy).
  destruct (ep_started (local_end s l)) eqn:E; [done|]. by apply Hx.
Qed.

Lemma statistics_refines l s d out : refines l s d ->
  simulator_get_statistics host s out = (SPW_OK, de_statistics d.1, s).
Proof.
  intros HR. unfold simulator_get_statistics. enter HR. by rewrite (ea_statistics _ _ Hx).
Qed.

Lemma clear_statistics_refines l s d : refines l s d ->
  let '(r, s') := simulator_clear_statistics host s in
  r = SPW_OK /\ refines l s' (de_counting (fun _ => statistics_zero) d.1, d.2) /\ unmoved l s s'.
Proof.
  intros HR. pose proof (sim_clear_statistics_ok host s (rf_ok _ _ _ HR)) as Hk.
  unfold simulator_clear_statistics in *. enter HR.
  rewrite idle_on_link with (l := l), Hat in Hk by done. cbn [negb snd] in Hk.
  rewrite upd_local_ends in Hk |- * by done. split; [done|].
  destruct Hx as [X1 X2 X3 X4 X5]. by eapply (refines_set_ends l s s).
Qed.

Lemma refines_world l s d w : refines l s d ->
  refines l (set_world w s) d /\ unmoved l s (set_world w s).
Proof.
  intros [Hs Hl Hx Hy]. split; [|done]. constructor; [by apply set_world_ok|done|done|done].
Qed.

(** Sending to a peer whose queue holds [count] of [depth] items. *)
Lemma when_space_idle l s d ready count depth t deliver : refines l s d ->
  (forall w s, ready l (set_world w s) = ready l s) ->
  ready l s = negb (ep_started (local_end s l)) || negb (peer_available (peer_end s l)) ||
    (count <? depth)%nat ->
  exists w, when_space host wait_fuel l ready t deliver s =
    if negb (de_started d.1) then (SPW_ERR_INVALID_STATE, s) else
    if negb (de_started d.2) then (SPW_ERR_LINK_UNAVAILABLE, s) else
    if (count <? depth)%nat then deliver (set_world w s) else (full_result t, set_world w s).
Proof.
  intros HR Hw Hr. pose proof (available_abs _ _ _ HR) as Hav. pose proof HR as [Hs Hl Hx _].
  destruct (own_link s l Hs Hl) as (_ & _ & _ & _ & Hat). unfold when_space.
  destruct (idle_wait_condition (LinkMutex l) t (ready l) s) as [w Hwait].
  exists w. rewrite Hwait, Hr, Hat, Hav, (ea_started _ _ Hx). cbn [negb orb].
  case_if; [done|]. case_if; [done|]. cbn [orb].
  change (local_end (set_world w s) l) with (local_end s l).
  change (peer_end (set_world w s) l) with (peer_end s l).
  rewrite Hav, (ea_started _ _ Hx), E, E0. by destruct (count <? depth)%nat.
Qed.

(** A delivered item: one more in the peer's queue, one more in the statistics. *)
Lemma deliver_packet_refines l s d p : refines l s d -> tx_packet_ok p = true ->
  bytes_ok (default [] (pkt_data p)) -> pkt_length p <= SPW_SIMULATOR_MAX_PACKET_SIZE ->
  (length (de_packets d.2) < SPW_SIMULATOR_PACKET_QUEUE_DEPTH)%nat ->
  keeps s (deliver_packet l p s).2 ->
  (deliver_packet l p s).1 = SPW_OK /\
  refines l (deliver_packet l p s).2
    (de_counting (count_tx_packet (pkt_length p) (pkt_terminator p)) d.1,
     de_with_packets (de_packets d.2 ++ [(packet_payload p, pkt_terminator p)]) d.2) /\
  unmoved l s (deliver_packet l p s).2.
Proof.
  intros HR Hp Hb Hsize Hroom Hk. pose proof HR as [Hs Hl Hx Hy].
  destruct (own_link s l Hs Hl) as (_ & _ & _ & (_ & Hwf & _) & _).
  pose proof (ends_abs_count _ _ Hy) as [Hc _]. unfold deliver_packet in *.
  rewrite (proj2 (Nat.eqb_neq _ _)) in Hk |- * by lia.
  rewrite (proj2 (upd_both s l _ _ Hs Hl)) in Hk |- *. cbn [fst snd] in *. split; [done|].
  destruct (push_packet_end (peer_end s l) p Hwf) as [_ Hpush]; try done; try lia.
  eapply (refines_set_ends l s s); try done.
  - destruct Hx as [X1 X2 X3 X4 X5]. constructor; try done. exact (f_equal _ X5).
  - destruct Hy as [Y1 Y2 Y3 Y4 Y5]. constructor; try done. cbn -[ring_list].
    by rewrite <- Y3.
Qed.

Lemma deliver_time_code_refines l s d tc : refines l s d ->
  (length (de_time_codes d.2) < SPW_SIMULATOR_TIME_CODE_QUEUE_DEPTH)%nat ->
  keeps s (deliver_time_code l tc s).2 ->
  (deliver_time_code l tc s).1 = SPW_OK /\
  refines l (deliver_time_code l tc s).2
    (de_counting count_tx_time_code d.1,
     de_with_time_codes (de_time_codes d.2 ++ [tc]) d.2) /\
  unmoved l s (deliver_time_code l tc s).2.
Proof.
  intros HR Hroom Hk. pose proof HR as [Hs Hl Hx Hy].
  destruct (own_link s l Hs Hl) as (_ & _ & _ & (_ & Hwf & _) & _).
  pose proof (ends_abs_count _ _ Hy) as [_ Hc]. unfold deliver_time_code in *.
  rewrite (proj2 (upd_both s l _ _ Hs Hl)) in Hk |- *. cbn [fst snd] in *. split; [done|].
  pose proof (ring_list_push SPW_SIMULATOR_TIME_CODE_QUEUE_DEPTH (ep_time_codes (peer_end s l)) tc
    (ew_time_codes _ Hwf)) as Hpush. rewrite Hc in Hpush. specialize (Hpush Hroom).
  eapply (refines_set_ends l s s); try done.
  - destruct Hx as [X1 X2 X3 X4 X5]. constructor; try done. exact (f_equal _ X5).
  - destruct Hy as [Y1 Y2 Y3 Y4 Y5]. constructor; try done. cbn -[ring_list].
    by rewrite <- Y4.
Qed.

Lemma send_refines_duplex l s d p t : refines l s d -> tx_packet_ok p = true ->
  bytes_ok (default [] (pkt_data p)) ->
  let '(r, s') := simulator_send host wait_fuel s p t in
  r = (duplex_send d p t).1 /\ refines l s' (duplex_send d p t).2 /\ unmoved l s s'.
Proof.
  intros HR Hp Hb. pose proof (send_ok host wait_fuel s p t (rf_ok _ _ _ HR) Hp Hb) as Hk.
  assert (refines l s d /\ unmoved l s s) as Hsame by done.
  unfold simulator_send in *. destruct d as [x y]. cbn [duplex_send].
  pose proof HR as [Hs Hl Hx Hy]. rewrite Hl in Hk |- *. cbn [non_null negb] in *.
  pose proof Hp as Hp'. unfold tx_packet_ok in Hp'. split_andb.
  rewrite H1 in Hk |- *. cbn [negb orb] in *.
  destruct (SPW_SIMULATOR_MAX_PACKET_SIZE <? pkt_length p) eqn:Esize; [done|].
  assert ((0 <? pkt_length p) && negb (non_null (pkt_data p)) = false) as Enull.
  { destruct (pkt_data p); cbn; [by rewrite andb_false_r|lia]. }
  rewrite Enull in Hk |- *. case_if; [done|]. rewrite idle_on_link with (l := l) in Hk |- * by done.
  pose proof (ends_abs_count _ _ Hy) as [Hc _].
  destruct (when_space_idle l s (x, y) packet_space_ready (length (de_packets y))
    SPW_SIMULATOR_PACKET_QUEUE_DEPTH t (deliver_packet l p) HR) as [w Hws]; [done| |].
  { unfold packet_space_ready. by rewrite Hc. }
  rewrite Hws in Hk |- *. cbn [fst snd] in *. case_if; [done|]. case_if; [done|].
  destruct (refines_world _ _ _ w HR) as [HRw Hmw].
  destruct (length (de_packets y) <? SPW_SIMULATOR_PACKET_QUEUE_DEPTH)%nat eqn:Efull.
  - apply Nat.ltb_lt in Efull. rewrite (proj2 (Nat.eqb_neq _ _)) by lia.
    pose proof (deliver_packet_refines l _ _ p HRw Hp Hb ltac:(lia) Efull Hk) as H'.
    by destruct (deliver_packet l p (set_world w s)).
  - destruct (own_link s l Hs Hl) as (_ & _ & _ & (_ & Hwf & _) & _).
    pose proof (ring_count_le _ _ (ew_packets _ Hwf)) as Hle.
    apply Nat.ltb_ge in Efull. by rewrite (proj2 (Nat.eqb_eq _ _)) by lia.
Qed.

Lemma send_time_code_refines_duplex l s d tc t : refines l s d -> valid_time_code tc = true ->
  0 <= time_count tc ->
  let '(r, s') := simulator_send_time_code host wait_fuel s tc t in
  r = (duplex_send_time_code d tc t).1 /\ refines l s' (duplex_send_time_code d tc t).2 /\
  unmoved l s s'.
Proof.
  intros HR Hv H0. pose proof (send_time_code_ok host wait_fuel s tc t (rf_ok _ _ _ HR) Hv H0) as Hk.
  assert (refines l s d /\ unmoved l s s) as Hsame by done.
  unfold simulator_send_time_code in *. destruct d as [x y]. cbn [duplex_send_time_code].
  pose proof HR as [Hs Hl Hx Hy]. rewrite Hl, Hv in Hk |- *. cbn [non_null negb] in *.
  rewrite idle_on_link with (l := l) in Hk |- * by done.
  pose proof (ends_abs_count _ _ Hy) as [_ Hc].
  destruct (when_space_idle l s (x, y) time_code_space_ready (length (de_time_codes y))
    SPW_SIMULATOR_TIME_CODE_QUEUE_DEPTH t (deliver_time_code l tc) HR) as [w Hws]; [done| |].
  { unfold time_code_space_ready. by rewrite Hc. }
  rewrite Hws in Hk |- *. cbn [fst snd] in *. case_if; [done|]. case_if; [done|].
  destruct (refines_world _ _ _ w HR) as [HRw Hmw].
  destruct (length (de_time_codes y) <? SPW_SIMULATOR_TIME_CODE_QUEUE_DEPTH)%nat eqn:Efull.
  - apply Nat.ltb_lt in Efull. rewrite (proj2 (Nat.eqb_neq _ _)) by lia.
    pose proof (deliver_time_code_refines l _ _ tc HRw Efull Hk) as H'.
    by destruct (deliver_time_code l tc (set_world w s)).
  - destruct (own_link s l Hs Hl) as (_ & _ & _ & (_ & Hwf & _) & _).
    pose proof (ring_count_le _ _ (ew_time_codes _ Hwf)) as Hle.
    apply Nat.ltb_ge in Efull. by rewrite (proj2 (Nat.eqb_eq _ _)) by lia.
Qed.

(** Receiving from an own queue that holds [count] items. *)
Lemma when_data_idle {R} l s d ready count t (out : R) take_one : refines l s d ->
  (forall w s, ready l (set_world w s) = ready l s) ->
  ready l s = (0 <? count (local_end s l))%nat || negb (ep_started (local_end s l)) ||
    negb (peer_available (peer_end s l)) ->
  exists w, when_data host wait_fuel l ready count t out take_one s =
    if negb (de_started d.1) then (SPW_ERR_INVALID_STATE, out, s) else
    if Nat.eqb (count (local_end s l)) 0 then (empty_result d.2, out, set_world w s)
    else take_one (set_world w s).
Proof.
  intros HR Hw Hr. pose proof (available_abs _ _ _ HR) as Hav. pose proof HR as [Hs Hl Hx _].
  destruct (own_link s l Hs Hl) as (_ & _ & _ & _ & Hat). unfold when_data.
  destruct (idle_wait_condition (LinkMutex l) t (ready l) s) as [w Hwait].
  exists w. rewrite Hwait, Hr, Hat, Hav, (ea_started _ _ Hx). cbn [negb orb].
  case_if; [done|]. cbn [orb].
  change (local_end (set_world w s) l) with (local_end s l).
  change (peer_end (set_world w s) l) with (peer_end s l).
  rewrite Hav, (ea_started _ _ Hx), E. unfold empty_result.
  by destruct (count (local_end s l)), (de_started d.2).
Qed.

Lemma take_packet_refines l s x y bs terminator rest p : refines l s (x, y) ->
  de_packets x = (bs, terminator) :: rest -> rx_packet_ok p = true ->
  keeps s (take_packet l p s).2 ->
  let len := Z.of_nat (length bs) in
  let q := set_packet_shape len terminator p in
  if pkt_capacity q <? len then take_packet l p s = (SPW_ERR_BUFFER_TOO_SMALL, q, s) else
  let '(r, out, s') := take_packet l p s in
  r = SPW_OK /\ out = set_packet_bytes bs q /\
  refines l s' (de_counting (count_rx_packet len) (de_with_packets rest x), y) /\ unmoved l s s'.
Proof.
  intros HR Hxp Hp Hk. pose proof HR as [Hs Hl Hx Hy]. cbn [fst snd] in Hx, Hy.
  destruct (own_link s l Hs Hl) as (_ & Hh & H2 & (Hwf & _) & _).
  pose proof (ends_abs_count _ _ Hx) as [Hc _]. rewrite Hxp in Hc. cbn [length] in Hc.
  destruct (pop_packet_end _ Hwf ltac:(lia)) as (_ & [Hd Hlen] & _ & Hlist).
  pose proof (ea_packets _ _ Hx) as X3. rewrite Hlist, Hxp in X3. cbn [slot_abs] in X3.
  injection X3 as Hbs Htm Hrest. cbn zeta. unfold take_packet in *.
  set (slot := ring_front (ep_packets (local_end s l))) in *.
  assert (Z.of_nat (length bs) = slot_length slot) as Hbl.
  { rewrite <- Hbs. unfold slot_payload. rewrite length_mem_read. lia. }
  rewrite Hbl, <- Htm. cbn [set_packet_shape pkt_capacity pkt_data] in *. case_if; [done|].
  assert ((0 <? slot_length slot) && negb (non_null (pkt_data p)) = false) as Enull.
  { unfold rx_packet_ok in Hp. destruct (pkt_data p); cbn; [by rewrite andb_false_r|lia]. }
  rewrite Enull in Hk |- *. cbn [snd] in Hk. rewrite upd_local_ends in Hk |- * by done.
  split; [done|]. split.
  - rewrite Hbs. case_if; [done|].
    assert (bs = []) as -> by (apply length_zero_iff_nil; lia). by rewrite set_bytes_nil.
  - eapply (refines_set_ends l s s); try done.
    destruct Hx as [X1 X2 X3 X4 X5]. constructor; try done. exact (f_equal _ X5).
Qed.

Lemma receive_refines_duplex l s d p t : refines l s d -> rx_packet_ok p = true ->
  bytes_ok (default [] (pkt_data p)) ->
  let '(r, out, s') := simulator_receive host wait_fuel s p t in
  (r, out) = (duplex_receive d p t).1 /\ refines l s' (duplex_receive d p t).2 /\ unmoved l s s'.
Proof.
  intros HR Hp Hb. pose proof HR as [Hs Hl Hx Hy]. unfold simulator_receive.
  rewrite idle_on_link with (l := l) by done.
  pose proof (ends_abs_count _ _ Hx) as [Hc _].
  destruct (when_data_idle l s d packet_receive_ready (fun e => r_count (ep_packets e)) t p
    (take_packet l p) HR) as [w Hw]; [done|done|].
  rewrite Hw, Hc. destruct d as [x y]. cbn [fst snd] in *. unfold duplex_receive. case_if; [done|].
  destruct (refines_world _ _ _ w HR) as [HRw Hmw].
  destruct (de_packets x) as [|[bs terminator] rest] eqn:Ex; cbn [length Nat.eqb]; [done|].
  assert (keeps (set_world w s) (take_packet l p (set_world w s)).2) as Hk.
  { pose proof (take_packet_ok (set_world w s) (set_world w s) l p (rf_ok _ _ _ HRw)
      (same_port_refl _) Hl Hp Hb) as H.
    change (local_end (set_world w s) l) with (local_end s l) in H. rewrite Hc in H.
    specialize (H ltac:(cbn; lia)).
    destruct (take_packet _ _ _) as [[? ?] ?]. apply H. }
  pose proof (take_packet_refines l _ x y bs terminator rest p HRw Ex Hp Hk) as H. cbn zeta in H.
  case_if; [by rewrite H|]. destruct (take_packet _ _ _) as [[r out] s'].
  destruct H as (-> & -> & HR' & Hm). done.
Qed.

Lemma receive_time_code_refines_duplex l s d out t : refines l s d ->
  let '(r, tc, s') := simulator_receive_time_code host wait_fuel s out t in
  (r, tc) = (duplex_receive_time_code d out t).1 /\
  refines l s' (duplex_receive_time_code d out t).2 /\ unmoved l s s'.
Proof.
  intros HR. pose proof HR as [Hs Hl Hx Hy].
  pose proof (receive_time_code_ok host wait_fuel s out t Hs) as Hk.
  unfold simulator_receive_time_code in *. rewrite idle_on_link with (l := l) in Hk |- * by done.
  pose proof (ends_abs_count _ _ Hx) as [_ Hc].
  destruct (when_data_idle l s d time_code_receive_ready (fun e => r_count (ep_time_codes e)) t out
    (take_time_code l) HR) as [w Hw]; [done|done|].
  rewrite Hw, Hc in Hk |- *. destruct d as [x y]. cbn [fst snd] in *.
  unfold duplex_receive_time_code. case_if; [done|].
  destruct (refines_world _ _ _ w HR) as [HRw Hmw].
  destruct (de_time_codes x) as [|tc rest] eqn:Ex; cbn [length Nat.eqb] in *; [done|].
  destruct (own_link s l Hs Hl) as (_ & Hh & H2 & (Hwf & _) & _).
  destruct (pop_time_code_end _ Hwf ltac:(lia)) as (_ & _ & Hlist).
  pose proof (ea_time_codes _ _ Hx) as X4. rewrite Hlist, Ex in X4. injection X4 as Htc Hrest.
  unfold take_time_code in *. rewrite upd_local_ends in Hk |- * by done. destruct Hk as [Hk _].
  change (local_end (set_world w s) l) with (local_end s l) in *.
  split; [by rewrite Htc|]. eapply (refines_set_ends l s (set_world w s)); try done.
  destruct Hx as [X1 X2 X3 X4 X5]. constructor; try done. exact (f_equal _ X5).
Qed.

Abbreviation ops := (SIMULATOR_OPS host wait_fuel storage_address).

Lemma duplex_call l s d call : refines l s d -> call_args_ok call ->
  let '(r, out, s') := do_call ops s call in
  let '(r', out', d') := do_call DUPLEX_OPS d call in
  r = r' /\ out = out' /\ refines l s' d' /\ unmoved l s s'.
Proof.
  intros HR [Hok Hc].
  destruct call; cbn [do_call SIMULATOR_OPS DUPLEX_OPS op_start op_stop op_reset op_get_link_state
    op_get_capabilities op_send op_receive op_send_time_code op_receive_time_code
    op_get_statistics op_clear_statistics op_get_fault_statistics op_clear_fault_statistics
    op_wait] in *; cbn [call_ok] in Hok; try done.
  - pose proof (start_refines l s d HR) as H. destruct (simulator_start _ _). by destruct H as (-> & H).
  - pose proof (stop_refines l s d HR) as H. destruct (simulator_stop _ _). by destruct H as (-> & H).
  - pose proof (reset_refines l s d HR) as H. destruct (simulator_reset _ _ _), (duplex_reset d).
    by destruct H as (-> & H).
  - by rewrite (link_state_refines l s d) by done.
  - pose proof (send_refines_duplex l s d p timeout HR Hok Hc) as H.
    destruct (simulator_send _ _ _ _ _), (duplex_send _ _ _). by destruct H as (-> & H).
  - pose proof (receive_refines_duplex l s d p timeout HR Hok Hc) as H.
    destruct (simulator_receive _ _ _ _ _) as [[??]?], (duplex_receive _ _ _) as [[??]?].
    destruct H as (H1 & H). cbn [fst snd] in *. by injection H1 as -> ->.
  - pose proof (send_time_code_refines_duplex l s d tc timeout HR Hok Hc) as H.
    destruct (simulator_send_time_code _ _ _ _ _), (duplex_send_time_code _ _ _). by destruct H as (-> & H).
  - pose proof (receive_time_code_refines_duplex l s d out timeout HR) as H.
    destruct (simulator_receive_time_code _ _ _ _ _) as [[??]?],
      (duplex_receive_time_code _ _ _) as [[??]?].
    destruct H as (H1 & H). cbn [fst snd] in *. by injection H1 as -> ->.
  - by rewrite (statistics_refines l s d) by done.
  - pose proof (clear_statistics_refines l s d HR) as H.
    destruct (simulator_clear_statistics _ _). by destruct H as (-> & H).
Qed.

(** Nothing else moves. *)
Lemma still_world s call : sm_world (do_call ops s call).2 = sm_world s.
Proof.
  destruct call; cbn [do_call SIMULATOR_OPS op_start op_stop op_reset op_get_link_state
    op_get_capabilities op_send op_receive op_send_time_code op_receive_time_code
    op_get_statistics op_clear_statistics op_get_fault_statistics op_clear_fault_statistics
    op_wait]; try done;
  unfold simulator_start, simulator_stop, simulator_reset, simulator_get_link_state,
    simulator_get_capabilities, simulator_send, simulator_receive, simulator_send_time_code,
    simulator_receive_time_code, simulator_get_statistics, simulator_clear_statistics, on_link,
    when_space, when_data, deliver_packet, deliver_time_code, take_packet, take_time_code, refresh_link;
  destruct (sb_link (sm_backend s)); try done; cbn beta iota; rewrite ?still_waits;
  repeat case_match; try done; simplify_eq; try done.
Qed.
(** The link as the context [c] of the other end sees it. *)
Lemma seen_from_peer l s d c w : refines l s d -> sb_endpoint_index c = there s ->
  sb_link c = Some l -> sb_link_id c = sb_link_id (sm_backend s) ->
  ep_attached (peer_end s l) = true -> buffers_wf c ->
  refines l {| sm_registry := sm_registry s; sm_backend := c; sm_world := w |} (d.2, d.1).
Proof.
  intros [Hs Hl Hx Hy] Hc Hlc Hid Hat Hb. set (s' := {| sm_registry := _ |}).
  pose proof (so_index _ Hs) as Hh.
  assert (local_end s' l = peer_end s l /\ peer_end s' l = local_end s l) as [F1 F2].
  { unfold local_end, peer_end, there, here in *. cbn. rewrite Hc.
    by replace (1 - (1 - sb_endpoint_index (sm_backend s)))%nat
      with (sb_endpoint_index (sm_backend s)) by lia. }
  constructor; [|done|by rewrite F1|by rewrite F2].
  constructor; [apply Hs|unfold here, there in *; cbn; lia| |done].
  intros l' Hl'. assert (l' = l) as -> by (cbn in Hl'; congruence).
  destruct (so_owns _ Hs l Hl) as (G1 & _ & G3). split; [done|]. rewrite F1. split; [done|].
  change (link_at s' l) with (link_at s l). cbn. congruence.
Qed.

End duplex.

(** ** Two ports *)

Definition swap_ends (a : bool) (d : duplex) : duplex := if a then d else (d.2, d.1).

Fixpoint duplex_calls (d : duplex) (cs : list (bool * backend_call))
    : list (Z * backend_out) * duplex :=
  match cs with
  | [] => ([], d)
  | (a, call) :: cs =>
      let '(r, out, d) := do_call DUPLEX_OPS (swap_ends a d) call in
      let '(rs, d) := duplex_calls (swap_ends a d) cs in ((r, out) :: rs, d)
  end.

Definition duplex_initial : duplex :=
  let x := {| de_started := false; de_idle := SPW_LINK_ERROR_RESET; de_packets := [];
              de_time_codes := []; de_statistics := statistics_zero |} in (x, x).

(** What happens while a thread waits on the condition of the link, whose mutex it
    has given up: the calls that the other port completes, and whether the waiting
    thread is woken or its timeout ends the wait.  A call of the other port that
    began before and only completes here is listed here: until then it has read
    the link and changed nothing. *)
Record turn := {
  turn_calls : list backend_call;
  turn_woken : bool
}.

(** A completed call: whose it was (port A's is [true]), and what it returned. *)
Definition completed : Type := (bool * backend_call) * (Z * backend_out).

Record schedule := {
  sc_turns : list turn;
  sc_clock : list Z;
  sc_done : list completed
}.

Definition set_sc_turns (v : list turn) (x : schedule) : schedule :=
  {| sc_turns := v; sc_clock := sc_clock x; sc_done := sc_done x |}.
Definition set_sc_clock (v : list Z) (x : schedule) : schedule :=
  {| sc_turns := sc_turns x; sc_clock := v; sc_done := sc_done x |}.
Definition add_sc_done (v : completed) (x : schedule) : schedule :=
  {| sc_turns := sc_turns x; sc_clock := sc_clock x; sc_done := sc_done x ++ [v] |}.

(** The process as one of the two ports sees it: the registry, its own context,
    and, in the world, what is to come and the context of the other port. *)
Definition process : Type := sim (schedule * spw_simulator_backend).

Definition peer_view (s : process) : process :=
  {| sm_registry := sm_registry s; sm_backend := (sm_world s).2;
     sm_world := ((sm_world s).1, sm_backend s) |}.

Definition upd_schedule (f : schedule -> schedule) (s : process) : process :=
  set_world (f (sm_world s).1, (sm_world s).2) s.

Definition history (s : process) : list completed := sc_done (sm_world s).1.

Definition is_a (s : process) : bool := Nat.eqb (here s) 0.

Definition call_timeout (call : backend_call) : option Z :=
  match call with
  | CallSend _ t | CallReceive _ t | CallSendTimeCode _ t | CallReceiveTimeCode _ t => Some t
  | _ => None
  end.

(** A call without a time limit does not time out: it is still waiting. *)
Definition still_waiting (call : backend_call) (r : Z) : bool :=
  match call_timeout call with
  | Some t => (t =? SPW_TIMEOUT_INFINITE) && (r =? SPW_ERR_TIMEOUT)
  | None => false
  end.

Definition complete (call : backend_call) (r : Z) (out : backend_out) (s : process) : process :=
  upd_schedule (add_sc_done ((is_a s, call), (r, out))) s.

Section schedule.
Context (wait_fuel : nat) (storage_address : Z -> nat -> Z).
Implicit Types (s : process).
Abbreviation still := (SIMULATOR_OPS still_host 0 storage_address).

(** A call of the other port. *)
Definition peer_call s (call : backend_call) : process :=
  let '(r, out, s') := do_call still (peer_view s) call in
  if still_waiting call r then s else peer_view (complete call r out s').

Definition schedule_host : host_ops (schedule * spw_simulator_backend) :=
  {| host_mutex_init := fun w => (true, w);
     host_condition_init := fun w => (true, w);
     host_now_us := fun w =>
       match sc_clock w.1 with
       | [] => (0, w)
       | now :: rest => (now, (set_sc_clock rest w.1, w.2))
       end;
     host_lock := fun _ _ s => s;
     host_condition_wait := fun _ _ infinite s =>
       match sc_turns (sm_world s).1 with
       | [] => (infinite, s)
       | turn :: rest =>
           (infinite || turn_woken turn,
            fold_left peer_call (turn_calls turn) (upd_schedule (set_sc_turns rest) s))
       end |}.

Abbreviation ops := (SIMULATOR_OPS schedule_host wait_fuel storage_address).

(** The calls of the two ports, one after the other except for what the schedule
    inserts.  The run ends at a call that is still waiting. *)
Definition port_view (a : bool) (p : process) : process := if a then p else peer_view p.

Fixpoint process_run (p : process) (cs : list (bool * backend_call)) : bool * process :=
  match cs with
  | [] => (true, p)
  | (a, call) :: cs =>
      let '(r, out, s) := do_call ops (port_view a p) call in
      if still_waiting call r then (false, port_view a s)
      else process_run (port_view a (complete call r out s)) cs
  end.

(** Two ports, one after the other, of a process that has opened nothing. *)
Definition open_two (a b : spw_simulator_config) (self_a self_b : Z) (x : schedule)
    : option process :=
  let s :=
    {| sm_registry := replicate SPW_SIMULATOR_MAX_LOCAL_LINKS zero_link;
       sm_backend := zero_backend 0 0 0; sm_world := (x, zero_backend 0 0 0) |} in
  let '(r, s) := simulator_construct schedule_host storage_address self_a a s in
  if negb (r =? SPW_OK) then None else
  let '(r, s') := simulator_construct schedule_host storage_address self_b b s in
  if negb (r =? SPW_OK) then None else
  Some {| sm_registry := sm_registry s'; sm_backend := sm_backend s;
          sm_world := ((sm_world s').1, sm_backend s') |}.

(** ** The two ends *)

(** The port and its peer on link [l]. *)
Record paired (l : nat) s (d : duplex) : Prop := {
  pd_own : refines l s d;
  pd_index : sb_endpoint_index (sm_world s).2 = there s;
  pd_link : sb_link (sm_world s).2 = Some l;
  pd_id : sb_link_id (sm_world s).2 = sb_link_id (sm_backend s);
  pd_attached : ep_attached (peer_end s l) = true;
  pd_buffers : buffers_wf (sm_world s).2
}.

Lemma paired_peer l s d : paired l s d -> paired l (peer_view s) (d.2, d.1).
Proof.
  intros [HR Hi Hl Hid Ha Hb].
  pose proof (seen_from_peer l s d (sm_world s).2 ((sm_world s).1, sm_backend s) HR Hi Hl Hid Ha Hb)
    as HR'.
  pose proof (so_index _ (rf_ok _ _ _ HR)) as H01. destruct HR as [Hs Hls _ _].
  constructor; [exact HR'| |exact Hls|by symmetry| |apply Hs].
  - unfold there, here in *. cbn in *. lia.
  - destruct (so_owns _ Hs l Hls) as (_ & G & _).
    unfold local_end, peer_end, there, here in *. cbn in *. rewrite Hi.
    by replace (1 - (1 - sb_endpoint_index (sm_backend s)))%nat
      with (sb_endpoint_index (sm_backend s)) by lia.
Qed.

Lemma paired_step l s d s' d' : paired l s d -> refines l s' d' -> unmoved l s s' ->
  (sm_world s').2 = (sm_world s).2 -> paired l s' d'.
Proof.
  intros [HR Hi Hl Hid Ha Hb] HR' [(P1 & P2 & P3 & P4) Hat] Hw.
  constructor; rewrite ?Hw; try done; [|congruence|congruence].
  unfold there, here in *. congruence.
Qed.

Lemma paired_schedule l s d f : paired l s d -> paired l (upd_schedule f s) d.
Proof.
  intros Hp. pose proof Hp as [HR _ _ _ _ _].
  destruct (refines_world l s d (f (sm_world s).1, (sm_world s).2) HR) as [HR' Hm].
  by apply (paired_step l s d).
Qed.

(** ** The history *)

Definition turn_ok (t : turn) : Prop := Forall call_args_ok (turn_calls t).

(** The specification, from the start, returns what the history says and ends in
    the state of the link. *)
Record tracked (l : nat) s (d : duplex) : Prop := {
  tr_history : duplex_calls duplex_initial (fst <$> history s) =
                 (snd <$> history s, swap_ends (is_a s) d);
  tr_paired : paired l s d;
  tr_turns : Forall turn_ok (sc_turns (sm_world s).1)
}.

Lemma swap_ends_twice a d : swap_ends a (swap_ends a d) = d.
Proof. by destruct a, d. Qed.

Lemma duplex_calls_app d cs1 cs2 :
  duplex_calls d (cs1 ++ cs2) =
  let '(rs1, d1) := duplex_calls d cs1 in
  let '(rs2, d2) := duplex_calls d1 cs2 in (rs1 ++ rs2, d2).
Proof.
  revert d. induction cs1 as [|[a call] cs1 IH]; intros d; cbn [duplex_calls app].
  { by destruct (duplex_calls d cs2). }
  destruct (do_call DUPLEX_OPS _ _) as [[r out] d']. rewrite IH.
  destruct (duplex_calls _ cs1) as [rs1 d1], (duplex_calls d1 cs2). done.
Qed.

Lemma is_a_peer l s d : paired l s d -> is_a (peer_view s) = negb (is_a s).
Proof.
  intros [HR Hi _ _ _ _]. pose proof (so_index _ (rf_ok _ _ _ HR)) as H01.
  unfold is_a, there, here in *. cbn. rewrite Hi.
  destruct (sb_endpoint_index (sm_backend s)) as [|[|]]; [done|done|lia].
Qed.

Lemma tracked_peer l s d : tracked l s d -> tracked l (peer_view s) (d.2, d.1).
Proof.
  intros [Hh Hp Ht]. constructor; [|by apply paired_peer|done].
  rewrite (is_a_peer l s d Hp). change (history (peer_view s)) with (history s). rewrite Hh.
  by destruct (is_a s), d.
Qed.

(** A call of the port that nothing interrupts. *)
Lemma tracked_call l s d call r out s' : tracked l s d -> call_args_ok call ->
  do_call still s call = (r, out, s') ->
  tracked l (complete call r out s') (do_call DUPLEX_OPS d call).2.
Proof.
  intros [Hh Hp Ht] Hok E. pose proof (duplex_call storage_address l s d call (pd_own _ _ _ Hp) Hok) as H.
  pose proof (still_world storage_address s call) as Hw. rewrite E in H, Hw. cbn [snd] in Hw.
  destruct (do_call DUPLEX_OPS d call) as [[r' out'] d'] eqn:Ed. destruct H as (-> & -> & HR & Hm).
  assert (is_a s' = is_a s) as Ha by (destruct Hm as [(_ & _ & P & _) _]; unfold is_a, here; by rewrite P).
  constructor.
  - unfold history, complete, upd_schedule. cbn [sm_world set_world add_sc_done sc_done fst snd].
    rewrite !fmap_app, duplex_calls_app, Hw. fold (history s). rewrite Hh. cbn [fmap list_fmap fst snd].
    cbn [duplex_calls]. rewrite Ha, swap_ends_twice, Ed. unfold is_a, here. cbn.
    destruct Hm as [(_ & _ & P & _) _]. by rewrite P.
  - apply paired_schedule. apply (paired_step l s d); [done|done|done|by rewrite Hw].
  - cbn. by rewrite Hw.
Qed.

Lemma tracked_schedule l s d f : tracked l s d ->
  sc_done (f (sm_world s).1) = sc_done (sm_world s).1 ->
  Forall turn_ok (sc_turns (f (sm_world s).1)) -> tracked l (upd_schedule f s) d.
Proof.
  intros [Hh Hp Ht] Ed Ho. constructor; [|by apply paired_schedule|done].
  unfold history, upd_schedule. cbn. by rewrite Ed.
Qed.

(** What stays of a port while it waits. *)
Definition waited (l : nat) s s' : Prop :=
  sm_backend s' = sm_backend s /\ ep_started (local_end s' l) = ep_started (local_end s l) /\
  history s `prefix_of` history s'.

Lemma waited_refl l s : waited l s s.
Proof. done. Qed.

Lemma peer_keeps_started d call : de_started (do_call DUPLEX_OPS d call).2.2 = de_started d.2.
Proof.
  destruct d as [x y]. destruct call; cbn [do_call DUPLEX_OPS op_start op_stop op_reset op_get_link_state
    op_get_capabilities op_send op_receive op_send_time_code op_receive_time_code
    op_get_statistics op_clear_statistics op_get_fault_statistics op_clear_fault_statistics
    op_wait]; try done;
  unfold duplex_reset, duplex_send, duplex_receive, duplex_send_time_code, duplex_receive_time_code;
  repeat case_match; simplify_eq; done.
Qed.

Lemma tracked_started l s d : tracked l s d -> ep_started (local_end s l) = de_started d.1.
Proof. intros [_ [HR _ _ _ _ _] _]. apply HR. Qed.

Lemma peer_call_tracked l s d call : tracked l s d -> call_args_ok call ->
  exists d', tracked l (peer_call s call) d' /\ waited l s (peer_call s call).
Proof.
  intros Ht Hok. unfold peer_call.
  destruct (do_call still (peer_view s) call) as [[r out] s'] eqn:E.
  case_if; [exists d; split; [done|apply waited_refl]|].
  pose proof (tracked_call l (peer_view s) (d.2, d.1) call r out s' (tracked_peer _ _ _ Ht) Hok E) as H.
  pose proof (peer_keeps_started (d.2, d.1) call) as Hk.
  set (d' := (do_call DUPLEX_OPS (d.2, d.1) call).2) in *.
  pose proof (tracked_peer _ _ _ H) as H'. exists (d'.2, d'.1). split; [done|].
  pose proof (still_world storage_address (peer_view s) call) as Hw. rewrite E in Hw. cbn [snd] in Hw.
  split; [cbn in *; by rewrite Hw|]. split.
  - by rewrite (tracked_started _ _ _ H'), (tracked_started _ _ _ Ht).
  - exists [((is_a s', call), (r, out))]. unfold history. cbn. by rewrite Hw.
Qed.

Lemma waited_trans l s1 s2 s3 : waited l s1 s2 -> waited l s2 s3 -> waited l s1 s3.
Proof.
  intros (H1 & H2 & H3) (H4 & H5 & H6). split; [congruence|]. split; [congruence|]. by etrans.
Qed.

Lemma turn_tracked l calls : Forall call_args_ok calls -> forall s d, tracked l s d ->
  exists d', tracked l (fold_left peer_call calls s) d' /\ waited l s (fold_left peer_call calls s).
Proof.
  induction 1 as [|call calls Hc _ IH]; intros s d Ht; [by exists d|]. cbn [fold_left].
  destruct (peer_call_tracked l s d call Ht Hc) as (d1 & H1 & W1).
  destruct (IH _ _ H1) as (d2 & H2 & W2). exists d2. split; [done|]. by eapply waited_trans.
Qed.

Lemma wait_tracked l s d m t infinite : tracked l s d ->
  let '(woken, s') := host_condition_wait schedule_host m t infinite s in
  (infinite = true -> woken = true) /\ exists d', tracked l s' d' /\ waited l s s'.
Proof.
  intros Ht. cbn [host_condition_wait schedule_host].
  destruct (sc_turns (sm_world s).1) as [|turn rest] eqn:E; [split; [done|by exists d]|].
  split; [by intros ->|]. pose proof (tr_turns _ _ _ Ht) as Ho. rewrite E in Ho.
  inversion Ho as [|? ? Hturn Hrest]; subst.
  assert (tracked l (upd_schedule (set_sc_turns rest) s) d) as H1 by by apply tracked_schedule.
  destruct (turn_tracked l _ Hturn _ _ H1) as (d' & H' & W). by exists d'.
Qed.

Lemma now_tracked l s d : tracked l s d ->
  let '(_, s') := now_us schedule_host s in tracked l s' d /\ waited l s s'.
Proof.
  intros Ht. unfold now_us. cbn [host_now_us schedule_host].
  destruct (sc_clock (sm_world s).1) as [|now rest]; [by destruct s|].
  split; [|done]. apply (tracked_schedule l s d (set_sc_clock rest)); [done|done|apply Ht].
Qed.

Lemma wait_loop_tracked l m t deadline pred fuel : (forall w s, pred (set_world w s) = pred s) ->
  forall s d, tracked l s d ->
  exists s1 d1, wait_loop schedule_host fuel m t deadline pred s = (pred s1, s1) /\
    tracked l s1 d1 /\ waited l s s1.
Proof.
  intros Hp. induction fuel as [|fuel IH]; intros s d Ht; cbn [wait_loop]; [by exists s, d|].
  destruct (pred s) eqn:E; [exists s, d; by rewrite E|]. case_if.
  - pose proof (wait_tracked l s d m 0 true Ht) as H.
    destruct (host_condition_wait _ _ _ _ _) as [woken s']. destruct H as (Hw & d' & H' & W).
    rewrite Hw by done. cbn [negb]. destruct (IH s' d' H') as (s1 & d1 & E1 & H1 & W1).
    exists s1, d1. split; [done|]. split; [done|]. by eapply waited_trans.
  - pose proof (now_tracked l s d Ht) as Hn.
    assert (pred (now_us schedule_host s).2 = false) as E2
      by (unfold now_us; destruct (host_now_us _ _); cbn [snd]; by rewrite Hp).
    destruct (now_us _ s) as [now s2]. destruct Hn as [H2 W2]. cbn [snd] in E2.
    case_if; [exists s2, d; by rewrite E2|].
    pose proof (wait_tracked l s2 d m (deadline - now) false H2) as H.
    destruct (host_condition_wait _ _ _ _ _) as [woken s']. destruct H as (_ & d' & H' & W).
    pose proof (waited_trans _ _ _ _ W2 W) as W'.
    destruct woken; cbn [negb]; [|by exists s', d'].
    destruct (IH s' d' H') as (s1 & d1 & E3 & H1 & W1).
    exists s1, d1. split; [done|]. split; [done|]. by eapply waited_trans.
Qed.

Lemma wait_condition_tracked l m t pred s d : (forall w s, pred (set_world w s) = pred s) ->
  tracked l s d ->
  exists s1 d1, wait_condition schedule_host wait_fuel m t pred s = (pred s1, s1) /\
    tracked l s1 d1 /\ waited l s s1.
Proof.
  intros Hp Ht. unfold wait_condition. destruct (pred s) eqn:E; [exists s, d; by rewrite E|].
  case_if; [exists s, d; by rewrite E|]. case_if; [|by eapply wait_loop_tracked].
  unfold deadline_from_timeout. pose proof (now_tracked l s d Ht) as Hn.
  destruct (now_us _ s) as [now s2]. destruct Hn as [H2 W2].
  destruct (wait_loop_tracked l m t
    (if UINT64_MAX - now <? t then UINT64_MAX else now + t) pred wait_fuel Hp s2 d H2)
    as (s1 & d1 & Eloop & H1 & W1).
  exists s1, d1. split; [by case_if|]. split; [done|]. by eapply waited_trans.
Qed.

(** ** A call that waits

    is the calls of the other port during its waits, and then the same call without
    a wait: each of them takes effect at one moment, the last one when it returns. *)

Lemma tracked_attached l s d : tracked l s d ->
  sb_link (sm_backend s) = Some l /\ ep_attached (local_end s l) = true.
Proof.
  intros [_ [[Hs Hl _ _] _ _ _ _ _] _]. split; [done|]. by destruct (so_owns _ Hs l Hl) as (_ & ? & _).
Qed.

Lemma when_space_waits l s d ready t deliver : tracked l s d ->
  (forall w s, ready l (set_world w s) = ready l s) ->
  (forall s, peer_available (peer_end s l) = false -> ready l s = true) ->
  exists s1 d1, tracked l s1 d1 /\ waited l s s1 /\
    when_space schedule_host wait_fuel l ready t deliver s =
    when_space still_host 0 l ready t deliver s1.
Proof.
  intros Ht Hw Hpeer. unfold when_space.
  destruct (tracked_attached l s d Ht) as [_ Ha]. rewrite Ha.
  destruct (ep_started (local_end s l)) eqn:Es.
  2: { exists s, d. rewrite Ha, Es. done. }
  destruct (peer_available (peer_end s l)) eqn:Ep.
  2: { exists s, d. rewrite Ha, Es, Ep. done. }
  cbn [negb orb].
  destruct (wait_condition_tracked l (LinkMutex l) t (ready l) s d Hw Ht) as (s1 & d1 & -> & H1 & W).
  exists s1, d1. split; [done|]. split; [done|].
  destruct (tracked_attached l s1 d1 H1) as [_ Ha1]. pose proof W as (_ & Es1 & _). rewrite Es in Es1.
  rewrite still_waits, Ha1, Es1. cbn [negb orb].
  destruct (peer_available (peer_end s1 l)) eqn:Ep1; cbn [negb]; [done|]. by rewrite (Hpeer s1 Ep1).
Qed.

Lemma when_data_waits {R} l s d ready count t (out : R) take_one : tracked l s d ->
  (forall w s, ready l (set_world w s) = ready l s) ->
  exists s1 d1, tracked l s1 d1 /\ waited l s s1 /\
    when_data schedule_host wait_fuel l ready count t out take_one s =
    when_data still_host 0 l ready count t out take_one s1.
Proof.
  intros Ht Hw. unfold when_data. destruct (tracked_attached l s d Ht) as [_ Ha]. rewrite Ha.
  destruct (ep_started (local_end s l)) eqn:Es.
  2: { exists s, d. rewrite Ha, Es. done. }
  cbn [negb orb].
  destruct (wait_condition_tracked l (LinkMutex l) t (ready l) s d Hw Ht) as (s1 & d1 & -> & H1 & W).
  exists s1, d1. split; [done|]. split; [done|].
  destruct (tracked_attached l s1 d1 H1) as [_ Ha1]. pose proof W as (_ & Es1 & _). rewrite Es in Es1.
  by rewrite still_waits, Ha1, Es1.
Qed.

Lemma call_waits l s d call : tracked l s d ->
  exists s1 d1, tracked l s1 d1 /\ waited l s s1 /\ do_call ops s call = do_call still s1 call.
Proof.
  intros Ht. destruct (tracked_attached l s d Ht) as [Hl _].
  destruct call; try (by exists s, d); cbn [do_call SIMULATOR_OPS op_send op_receive op_send_time_code
    op_receive_time_code].
  - unfold simulator_send, on_link. rewrite Hl. cbn [non_null negb host_lock schedule_host].
    repeat (case_if; [exists s, d; rewrite Hl; cbn [non_null negb]; repeat case_if; done|]).
    destruct (when_space_waits l s d packet_space_ready timeout (deliver_packet l p) Ht)
      as (s1 & d1 & H1 & W & ->); [done| |].
    { intros s1 E'. unfold packet_space_ready. by rewrite E', orb_true_r. }
    exists s1, d1. split; [done|]. split; [done|]. destruct W as (-> & _ & _). rewrite Hl. done.
  - unfold simulator_receive, on_link. rewrite Hl. cbn [host_lock schedule_host].
    destruct (when_data_waits l s d packet_receive_ready (fun e => r_count (ep_packets e)) timeout p
      (take_packet l p) Ht) as (s1 & d1 & H1 & W & ->); [done|].
    exists s1, d1. split; [done|]. split; [done|]. destruct W as (-> & _ & _). rewrite Hl. done.
  - unfold simulator_send_time_code, on_link. rewrite Hl. cbn [non_null negb host_lock schedule_host].
    case_if; [exists s, d; rewrite Hl; done|].
    destruct (when_space_waits l s d time_code_space_ready timeout (deliver_time_code l tc) Ht)
      as (s1 & d1 & H1 & W & ->); [done| |].
    { intros s1 E'. unfold time_code_space_ready. by rewrite E', orb_true_r. }
    exists s1, d1. split; [done|]. split; [done|]. destruct W as (-> & _ & _). rewrite Hl. done.
  - unfold simulator_receive_time_code, on_link. rewrite Hl. cbn [host_lock schedule_host].
    destruct (when_data_waits l s d time_code_receive_ready (fun e => r_count (ep_time_codes e)) timeout
      out (take_time_code l) Ht) as (s1 & d1 & H1 & W & ->); [done|].
    exists s1, d1. split; [done|]. split; [done|]. destruct W as (-> & _ & _). rewrite Hl. done.
Qed.

Lemma port_view_tracked l a s d : tracked l s d -> exists d', tracked l (port_view a s) d'.
Proof.
  intros Ht. destruct a; [by exists d|]. exists (d.2, d.1). by apply tracked_peer.
Qed.

Lemma port_view_is_a l a s d : tracked l s d ->
  is_a (port_view a s) = if a then is_a s else negb (is_a s).
Proof. intros Ht. destruct a; [done|]. by apply (is_a_peer l s d (tr_paired _ _ _ Ht)). Qed.

Lemma still_is_a l s d call : tracked l s d -> call_args_ok call ->
  is_a (do_call still s call).2 = is_a s.
Proof.
  intros Ht Hc.
  pose proof (duplex_call storage_address l s d call (pd_own _ _ _ (tr_paired _ _ _ Ht)) Hc) as Hm.
  destruct (do_call still s call) as [[r out] s'], (do_call DUPLEX_OPS d call) as [[? ?] ?].
  destruct Hm as (_ & _ & _ & (_ & _ & P & _) & _). unfold is_a, here. cbn. by rewrite P.
Qed.

(** The history is one of the specification, and has every call that was made. *)
Lemma run_history l cs : forall p d, tracked l p d -> is_a p = true ->
  Forall (fun c => call_args_ok c.2) cs ->
  let '(finished, p') := process_run p cs in
  (duplex_calls duplex_initial (fst <$> history p')).1 = snd <$> history p' /\
  exists h, history p' = history p ++ h /\ (finished = true -> cs `sublist_of` (fst <$> h)).
Proof.
  induction cs as [|[a call] cs IH]; intros p d Ht Ha Hok; cbn [process_run].
  { rewrite (tr_history _ _ _ Ht). split; [done|]. exists []. by rewrite app_nil_r. }
  inversion Hok as [|? ? Hc Hcs]; subst. cbn [snd] in Hc.
  destruct (port_view_tracked l a p d Ht) as [d0 H0].
  destruct (call_waits l (port_view a p) d0 call H0) as (s1 & d1 & H1 & (W1 & _ & h1 & W3) & ->).
  assert (history (port_view a p) = history p) as Eh by (by destruct a).
  assert (is_a s1 = a) as Es1.
  { pose proof (port_view_is_a l a p d Ht) as Hv. unfold is_a, here in *. rewrite W1, Hv, Ha.
    by destruct a. }
  pose proof (still_world storage_address s1 call) as Hw.
  pose proof (fun r out s' => tracked_call l s1 d1 call r out s' H1 Hc) as Hcall.
  pose proof (still_is_a l s1 d1 call H1 Hc) as Es'. rewrite Es1 in Es'.
  destruct (do_call still s1 call) as [[r out] s']. specialize (Hcall r out s' eq_refl). cbn [snd] in Hw, Es'.
  assert (history s' = history p ++ h1) as Es'h by (unfold history at 1; rewrite Hw; by rewrite <- Eh).
  case_if.
  - assert (history (port_view a s') = history s') as -> by (by destruct a).
    split; [|by exists h1]. unfold history at 1 2. rewrite Hw. fold (history s1).
    by rewrite (tr_history _ _ _ H1).
  - set (s2 := complete call r out s') in *. destruct (port_view_tracked l a s2 _ Hcall) as [d2 H2].
    assert (is_a (port_view a s2) = true) as Ea2.
    { rewrite (port_view_is_a l a s2 _ Hcall). change (is_a s2) with (is_a s').
      rewrite Es'. by destruct a. }
    specialize (IH _ _ H2 Ea2 Hcs). destruct (process_run _ cs) as [finished p'].
    destruct IH as (IH & h2 & E2 & Hsub). split; [done|].
    exists (h1 ++ [((a, call), (r, out))] ++ h2). split.
    + rewrite E2. assert (history (port_view a s2) = history s' ++ [((is_a s', call), (r, out))]) as ->
        by (by destruct a). by rewrite Es'h, Es', <- !app_assoc.
    + intros Hf. rewrite !fmap_app. apply sublist_inserts_l. cbn. apply sublist_skip. by apply Hsub.
Qed.

(** ** Opening the two ports *)

(** The link with port A attached, and with both. *)
Definition attached_link (sync b : bool) (id : Z) : spw_simulator_virtual_link :=
  {| lk_sync_initialized := sync; lk_allocated := true; lk_link_id := id;
     lk_endpoints := [set_ep_attached true reset_endpoint;
                      if b then set_ep_attached true reset_endpoint else reset_endpoint] |}.

Definition other_links : list spw_simulator_virtual_link :=
  replicate (SPW_SIMULATOR_MAX_LOCAL_LINKS - 1) zero_link.

Lemma attach_first s r s' : sb_link (sm_backend s) = None -> here s = 0%nat ->
  sm_registry s = zero_link :: other_links -> attach_backend schedule_host s = (r, s') -> r = SPW_OK ->
  sm_registry s' = attached_link true false (sb_link_id (sm_backend s)) :: other_links /\
  sm_backend s' = set_sb_link (Some 0%nat) (sm_backend s).
Proof.
  destruct s as [reg b w]. cbn [sm_registry sm_backend here]. intros Hn Hh -> Ha ->.
  unfold attach_backend in Ha. cbn [sm_backend] in Ha. rewrite Hn in Ha. cbn [host_lock schedule_host] in Ha.
  cbn [sm_registry sm_backend] in Ha.
  change (find_link _ _) with (Some 0%nat) in Ha. unfold initialize_link_sync in Ha.
  cbn [link_at sm_registry lookup_total list_lookup_total zero_link lk_sync_initialized] in Ha.
  cbn [sm_world] in Ha.
  destruct (host_mutex_init schedule_host w) as [[|] w1]; cbn [negb] in Ha; [|by injection Ha].
  destruct (host_condition_init schedule_host _) as [[|] w2]; cbn [negb] in Ha; [|by injection Ha].
  unfold here in Hh. cbn in Hh.
  unfold local_end, upd_local, local_end, here in Ha. cbn in Ha. rewrite Hh in Ha.
  cbn in Ha. injection Ha as <-. cbn. done.
Qed.

Lemma attach_second s r s' : sb_link (sm_backend s) = None -> here s = 1%nat ->
  sm_registry s = attached_link true false (sb_link_id (sm_backend s)) :: other_links ->
  attach_backend schedule_host s = (r, s') ->
  sm_registry s' = attached_link true true (sb_link_id (sm_backend s)) :: other_links /\
  sm_backend s' = set_sb_link (Some 0%nat) (sm_backend s).
Proof.
  destruct s as [reg b w]. cbn [sm_registry sm_backend here]. intros Hn Hh -> Ha.
  unfold attach_backend in Ha. cbn [sm_backend] in Ha. rewrite Hn in Ha. cbn [host_lock schedule_host] in Ha.
  cbn [sm_registry sm_backend] in Ha.
  assert (find_link (sb_link_id b) (take SPW_SIMULATOR_MAX_LOCAL_LINKS
    (attached_link true false (sb_link_id b) :: other_links)) = Some 0%nat) as Hf.
  { unfold find_link, SPW_SIMULATOR_MAX_LOCAL_LINKS. cbn [take list_find].
    rewrite decide_True by (cbn; by rewrite Z.eqb_refl). done. }
  rewrite Hf in Ha. unfold initialize_link_sync in Ha.
  cbn [link_at sm_registry lookup_total list_lookup_total attached_link lk_sync_initialized] in Ha.
  cbn [negb] in Ha. unfold here in Hh. cbn in Hh.
  unfold local_end, upd_local, local_end, here in Ha. cbn in Ha. rewrite Hh in Ha.
  cbn in Ha. injection Ha as _ <-. cbn. done.
Qed.

(** [simulator_construct] is [attach_backend] on an initialised context. *)
Lemma construct_attaches self config s r s' :
  simulator_construct schedule_host storage_address self config s = (r, s') -> r = SPW_OK ->
  exists c w, attach_backend schedule_host {| sm_registry := sm_registry s; sm_backend := c; sm_world := w |}
      = (r, s') /\
    sb_link c = None /\ sb_link_id c = sim_link_id config /\ buffers_wf c /\
    sb_endpoint_index c = if sim_endpoint config =? SPW_SIMULATOR_ENDPOINT_B then 1%nat else 0%nat.
Proof.
  intros Hc ->. unfold simulator_construct in Hc.
  destruct (host_mutex_init schedule_host _) as [[|] w1]; cbn [negb] in Hc; [|by injection Hc].
  destruct (host_condition_init schedule_host _) as [[|] w2]; cbn [negb] in Hc; [|by injection Hc].
  destruct (attach_backend schedule_host _) as [r s2] eqn:Ea. case_if_in Hc; [by injection Hc as ->|].
  injection Hc as -> ->. eexists _, _. split; [exact Ea|]. split; [done|]. split; [done|].
  split; [|done]. apply initialize_buffers_wf;
    [exact (Forall_replicate _ _ _ storage_zero_wf)|exact (length_replicate _ _)|
     exact storage_zero_wf].
Qed.

Lemma attached_end_abs : end_abs (set_ep_attached true reset_endpoint) duplex_initial.1.
Proof. by constructor. Qed.

Lemma no_link_allocated j link : (zero_link :: other_links) !! j = Some link ->
  lk_allocated link = false.
Proof.
  intros Hj. assert (Forall (fun link => lk_allocated link = false) (zero_link :: other_links)) as H
    by exact (Forall_replicate (fun link => lk_allocated link = false) 16 zero_link eq_refl).
  exact (Forall_lookup_1 _ _ _ _ H Hj).
Qed.

Lemma fresh_registry_wf : registry_wf (zero_link :: other_links).
Proof.
  split; [done|]. split; [exact (Forall_replicate link_wf 16 zero_link (zero_link_wf false 0))|].
  intros i j x y Hi Hj Ha _ _. pose proof (no_link_allocated i x Hi). congruence.
Qed.

Lemma attached_registry_wf id : registry_wf (attached_link true true id :: other_links).
Proof.
  apply (registry_insert (zero_link :: other_links) 0%nat).
  - apply fresh_registry_wf.
  - eexists _, _. split; [done|]. split; [|done].
    pose proof reset_endpoint_wf as Hw.
    split; [by apply (end_wf_queues reset_endpoint)|].
    split; [by apply (end_wf_queues reset_endpoint)|].
    unfold side_ok. cbn. split; (split; [done|by right]).
  - intros _ j link Hj Ha _. pose proof (no_link_allocated j link Hj). congruence.
Qed.

Lemma attached_paired p id : sm_registry p = attached_link true true id :: other_links ->
  (forall c, c = sm_backend p \/ c = (sm_world p).2 ->
     sb_link c = Some 0%nat /\ sb_link_id c = id /\ buffers_wf c) ->
  sb_endpoint_index (sm_backend p) = 0%nat -> sb_endpoint_index (sm_world p).2 = 1%nat ->
  paired 0 p duplex_initial.
Proof.
  intros Hr Hc A1 B1. destruct (Hc _ (or_introl eq_refl)) as (A2 & A3 & A4).
  destruct (Hc _ (or_intror eq_refl)) as (B2 & B3 & B4).
  assert (local_end p 0 = set_ep_attached true reset_endpoint /\
    peer_end p 0 = set_ep_attached true reset_endpoint) as [E1 E2].
  { unfold local_end, peer_end, endpoint_at, there, here, link_at. by rewrite Hr, A1. }
  constructor; try done; [|unfold there, here; by rewrite A1, B1|congruence|by rewrite E2].
  constructor; [|done|rewrite E1|rewrite E2]; [|apply attached_end_abs|apply attached_end_abs].
  constructor; [rewrite Hr; apply attached_registry_wf|unfold here; lia| |done].
  intros l Hl. rewrite A2 in Hl. injection Hl as <-. rewrite E1.
  split; [unfold SPW_SIMULATOR_MAX_LOCAL_LINKS; lia|]. split; [done|].
  unfold link_at. rewrite Hr. cbn. congruence.
Qed.

(** The schedule is not used while the ports are opened. *)
Lemma attach_world s : sm_world (attach_backend schedule_host s).2 = sm_world s.
Proof.
  unfold attach_backend. destruct (sb_link _); [done|]. cbn [host_lock schedule_host].
  destruct (find_link _ _) as [l|]; [|done].
  assert (sm_world (initialize_link_sync schedule_host l s).2 = sm_world s) as Hi
    by (unfold initialize_link_sync; case_if; done).
  destruct (initialize_link_sync _ l s) as [ok s1]. cbn [snd] in Hi. case_if; [done|].
  set (s2 := if negb _ then _ else _).
  assert (sm_world s2 = sm_world s) as Hs2 by (unfold s2; by case_if). clearbody s2.
  case_if; [done|]. unfold refresh_link. by destruct (refresh_link_states _ _).
Qed.

Lemma construct_schedule self config s :
  (sm_world (simulator_construct schedule_host storage_address self config s).2).1 = (sm_world s).1.
Proof.
  unfold simulator_construct. cbn [host_mutex_init host_condition_init schedule_host negb].
  match goal with |- context [attach_backend _ ?x] => pose proof (attach_world x) as H end.
  destruct (attach_backend _ _) as [r s']. cbn [snd] in H.
  case_if; cbn [snd upd_backend sm_world]; by rewrite H.
Qed.

Lemma open_two_tracked a b self_a self_b x p : sim_endpoint a = SPW_SIMULATOR_ENDPOINT_A ->
  sim_endpoint b = SPW_SIMULATOR_ENDPOINT_B -> sim_link_id a = sim_link_id b ->
  sc_done x = [] -> Forall turn_ok (sc_turns x) ->
  open_two a b self_a self_b x = Some p ->
  tracked 0 p duplex_initial /\ is_a p = true /\ history p = [].
Proof.
  intros Ha Hb Hid Hd Hturns Ho. unfold open_two in Ho. set (s0 := {| sm_registry := _ |}) in Ho.
  pose proof (construct_schedule self_a a s0) as W1.
  destruct (simulator_construct _ _ self_a _ _) as [ra s1] eqn:Ea. cbn [snd] in W1.
  destruct (ra =? SPW_OK) eqn:Era; cbn [negb] in Ho; [|done]. apply Z.eqb_eq in Era.
  pose proof (construct_schedule self_b b s1) as W2.
  destruct (simulator_construct _ _ self_b _ s1) as [rb s2] eqn:Eb. cbn [snd] in W2.
  destruct (rb =? SPW_OK) eqn:Erb; cbn [negb] in Ho; [|done]. apply Z.eqb_eq in Erb.
  injection Ho as <-.
  destruct (construct_attaches _ _ _ _ _ Ea Era) as (ca & wa & Eaa & A1 & A2 & A3 & A4).
  destruct (construct_attaches _ _ _ _ _ Eb Erb) as (cb & wb & Ebb & B1 & B2 & B3 & B4).
  rewrite Ha in A4. rewrite Hb in B4. cbn in A4, B4.
  destruct (attach_first {| sm_registry := _; sm_backend := ca; sm_world := wa |} ra s1 A1 A4
    eq_refl Eaa Era) as [R1 C1].
  destruct (attach_second {| sm_registry := sm_registry s1; sm_backend := cb; sm_world := wb |}
    rb s2 B1 B4) as [R2 C2]; [cbn in *; by rewrite R1, A2, B2, Hid|done|]. cbn [sm_backend] in *.
  assert (sc_done (sm_world s2).1 = [] /\ Forall turn_ok (sc_turns (sm_world s2).1)) as [W3 W4]
    by (by rewrite W2, W1).
  split; [|split; [unfold is_a, here; cbn; rewrite C1; cbn; by rewrite A4|
    unfold history; cbn; by rewrite W3]].
  constructor; [unfold history, is_a, here; cbn; rewrite W3, C1; cbn; by rewrite A4| |done].
  apply (attached_paired _ (sb_link_id cb)); cbn [sm_registry sm_backend sm_world snd];
    [done| |by rewrite C1|by rewrite C2].
  intros c [->| ->]; rewrite ?C1, ?C2.
  - split; [done|]. split; [cbn; congruence|by destruct A3].
  - split; [done|]. split; [done|by destruct B3].
Qed.

(** C6. Two ports of one process on one simulated link, each used by a thread of
    its own, behave as a pair of bounded FIFO channels.  Take any calls of the two
    ports (lifecycle, packets, time-codes, statistics) and, for every wait on the
    link's condition, any calls that the other port completes meanwhile, any reading
    of the clock and any wake-up.  Then the calls that were completed, in the order
    in which they were, returned the codes and the data that the list specification
    [DUPLEX_OPS] gives for them in that order, so packets and time-codes arrive
    once, in order and unaltered at the other end; and if none is left waiting
    without a time limit, every call was completed. *)
Theorem simulator_is_duplex a b self_a self_b x p calls :
  sim_endpoint a = SPW_SIMULATOR_ENDPOINT_A -> sim_endpoint b = SPW_SIMULATOR_ENDPOINT_B ->
  sim_link_id a = sim_link_id b -> sc_done x = [] -> Forall turn_ok (sc_turns x) ->
  open_two a b self_a self_b x = Some p -> Forall (fun c => call_args_ok c.2) calls ->
  let '(finished, p') := process_run p calls in
  (duplex_calls duplex_initial (fst <$> history p')).1 = snd <$> history p' /\
  (finished = true -> calls `sublist_of` (fst <$> history p')).
Proof.
  intros Ha Hb Hid Hd Hturns Ho Hok.
  destruct (open_two_tracked a b self_a self_b x p Ha Hb Hid Hd Hturns Ho) as (Ht & Hp & Hh).
  pose proof (run_history 0 calls p duplex_initial Ht Hp Hok) as H.
  destruct (process_run p calls) as [finished p']. destruct H as (H1 & h & H2 & H3).
  split; [done|]. by rewrite H2, Hh.
Qed.
End schedule.

(** ** Examples *)

Definition sample_end (endpoint : Z) : spw_simulator_config :=
  {| sim_struct_size := 0; sim_version := 1; sim_link_id := 7; sim_endpoint := endpoint |}.

(** B talks before A is started; then A waits without a limit for a packet, which B
    sends after a wake-up that brought nothing; both ends time out. *)
Definition sample_duplex_calls : list (bool * backend_call) :=
  [(false, CallStart); (false, CallSend (sample_tx [9] 0) 0); (true, CallStart);
   (true, CallLinkState 0); (true, CallReceive (sample_rx 4) SPW_TIMEOUT_INFINITE);
   (true, CallSend (sample_tx [1; 2; 3] 1) 5); (false, CallReceive (sample_rx 2) 0);
   (false, CallReceive (sample_rx 4) 20); (false, CallReceive (sample_rx 4) 20); (true, CallStop);
   (false, CallReceive (sample_rx 4) 0); (false, CallReset)].

Definition sample_schedule : schedule :=
  {| sc_turns := [{| turn_calls := [CallLinkState 0]; turn_woken := true |};
                  {| turn_calls := [CallSend (sample_tx [9; 8] 0) 0;
                                    CallReceive (sample_rx 4) SPW_TIMEOUT_INFINITE];
                     turn_woken := true |};
                  {| turn_calls := []; turn_woken := false |}];
     sc_clock := [100; 101]; sc_done := [] |}.

Definition sample_address (self : Z) (i : nat) : Z := self + 4096 * Z.of_nat i.

Lemma sample_schedule_ok : Forall turn_ok (sc_turns sample_schedule).
Proof.
  repeat (apply Forall_cons; split); try (by apply Forall_nil);
    unfold turn_ok; cbn [turn_calls]; repeat (apply Forall_cons; split); try (by apply Forall_nil);
    (split; [vm_compute; reflexivity|try exact I; apply bytes_ok_check; vm_compute; reflexivity]).
Qed.

Definition sample_process : process :=
  default {| sm_registry := []; sm_backend := zero_backend 0 0 0;
             sm_world := (sample_schedule, zero_backend 0 0 0) |}
    (open_two sample_address (sample_end 0) (sample_end 1) 100 200 sample_schedule).

Lemma sample_process_opened :
  open_two sample_address (sample_end 0) (sample_end 1) 100 200 sample_schedule = Some sample_process.
Proof.
  assert (bool_decide (is_Some (open_two sample_address (sample_end 0) (sample_end 1) 100 200
    sample_schedule)) = true) as H by (vm_compute; reflexivity).
  apply bool_decide_eq_true in H as [p H]. unfold sample_process. by rewrite H.
Qed.

Definition sample_duplex_run : bool * process := process_run 5 sample_address sample_process sample_duplex_calls.

Lemma simulator_is_duplex_witness :
  sample_duplex_run.1 = true /\
  fst <$> (snd <$> history sample_duplex_run.2) =
    [SPW_OK; SPW_ERR_LINK_UNAVAILABLE; SPW_OK; SPW_OK; SPW_OK; SPW_OK; SPW_OK; SPW_OK;
     SPW_ERR_BUFFER_TOO_SMALL; SPW_OK; SPW_ERR_TIMEOUT; SPW_OK; SPW_ERR_LINK_UNAVAILABLE; SPW_OK] /\
  (duplex_calls duplex_initial (fst <$> history sample_duplex_run.2)).1 = snd <$> history sample_duplex_run.2 /\
  (sample_duplex_run.1 = true -> sample_duplex_calls `sublist_of` (fst <$> history sample_duplex_run.2)).
Proof.
  split; [vm_compute; reflexivity|]. split; [vm_compute; reflexivity|].
  pose proof (simulator_is_duplex 5 sample_address (sample_end 0) (sample_end 1) 100 200
    sample_schedule sample_process sample_duplex_calls eq_refl eq_refl eq_refl eq_refl
    sample_schedule_ok sample_process_opened) as H.
  unfold sample_duplex_run. destruct (process_run _ _ _ _) as [finished p']. apply H.
  repeat (apply Forall_cons; split); try (by apply Forall_nil);
    (split; [vm_compute; reflexivity|try exact I; apply bytes_ok_check; vm_compute; reflexivity]).
Defined.
