(* ===== verification/SimulatorRun.v ===== *)
(** * The simulator backend: a port's life and its waits

    Whatever the application calls and whatever the threads of other ports do
    within their contract, the registry and the port's buffers stay well formed;
    and a call with a finite timeout ends when the clock moves. *)

From S2P Require Import Prelude Types Ring Backend Loopback DriverApi PortConfig Port PortProps.
From S2P Require Import Simulator SimulatorProps SimulatorDuplex.

(** ** What an application does with a port *)

Inductive port_action :=
| ActCall (call : backend_call)
| ActAcquireTx (min_capacity timeout : Z)
| ActFill (handle : nat) (bytes : list Z) (length terminator : Z)
| ActSubmitTx (handle : nat) (timeout : Z)
| ActReclaimTx (timeout : Z)
| ActReleaseTx (handle : nat)
| ActAcquireRx (timeout : Z)
| ActReleaseRx (handle : nat).

Definition action_ok (a : port_action) : Prop :=
  match a with
  | ActCall call => call_args_ok call
  | ActFill _ bytes length _ => bytes_ok bytes /\ 0 <= length
  | _ => True
  end.

Section run.
Context {W : Type} (host : host_ops W) (wait_fuel : nat) (storage_address : Z -> nat -> Z).
Implicit Types (s : sim W).

Abbreviation ops := (SIMULATOR_OPS host wait_fuel storage_address).

(** The application writes its bytes into the storage of a transmit buffer it
    holds, and the length and terminator fields of the descriptor. *)
Definition write_storage (h : nat) (bytes : list Z) (b : spw_simulator_backend)
    : spw_simulator_backend :=
  {| sb_self := sb_self b; sb_link_id := sb_link_id b;
     sb_endpoint_index := sb_endpoint_index b; sb_link := sb_link b;
     sb_tx_storage :=
       <[h := mem_write (sb_tx_storage b !!! h) 0
                (take (Z.to_nat SPW_SIMULATOR_MAX_PACKET_SIZE) bytes)]> (sb_tx_storage b);
     sb_tx_buffers := sb_tx_buffers b; sb_rx_storage := sb_rx_storage b;
     sb_rx_buffer := sb_rx_buffer b; sb_rx_buffer_acquired := sb_rx_buffer_acquired b;
     sb_zero_copy_sync_initialized := sb_zero_copy_sync_initialized b |}.

Definition fill_buffer (h : nat) (bytes : list Z) (length terminator : Z) s : sim W :=
  if held_tx_buffer s h
  then upd_buffer h (buffer_shaped length terminator) (upd_backend (write_storage h bytes) s)
  else s.

Definition port_step s (a : port_action) : sim W :=
  match a with
  | ActCall call => (do_call ops s call).2
  | ActAcquireTx n t => (simulator_acquire_tx_buffer host wait_fuel s n t).2
  | ActFill h bytes length terminator => fill_buffer h bytes length terminator s
  | ActSubmitTx h t => (simulator_submit_tx_buffer host wait_fuel s h t).2
  | ActReclaimTx t => (simulator_reclaim_tx_buffer host wait_fuel s t).2
  | ActReleaseTx h => (simulator_release_tx_buffer host s h).2
  | ActAcquireRx t => (simulator_acquire_rx_buffer host wait_fuel s t).2
  | ActReleaseRx h => (simulator_release_rx_buffer host s h).2
  end.

Definition port_run s (actions : list port_action) : sim W := foldl port_step s actions.

Context `{!HostContract host}.

Lemma fill_ok s h bytes length terminator : sim_ok s -> bytes_ok bytes -> 0 <= length ->
  keeps s (fill_buffer h bytes length terminator s).
Proof.
  intros Hs Hb Hl. unfold fill_buffer. destruct (held_tx_buffer s h) eqn:Hh; [|done].
  destruct (held_handle s h Hs Hh) as [Hlt _].
  assert (keeps s (upd_backend (write_storage h bytes) s)) as Hk.
  { apply upd_backend_ok; [exact Hs|done| |done]. destruct (so_buffers _ Hs).
    assert (storage_wf (sb_tx_storage (sm_backend s) !!! h)) as [H1 H2]
      by (apply Forall_lookup_total_1; [done|lia]).
    constructor; try done; cbn [sb_tx_storage write_storage]; [by rewrite length_insert|].
    apply Forall_insert; [done|]. split.
    - apply bytes_ok_write; [done|]. by apply Forall_take.
    - rewrite length_mem_write, length_take. lia. }
  apply upd_buffer_ok; [apply Hk|done|]. intros d b Hd. by apply shaped_ok.
Qed.

Lemma call_keeps s call : sim_ok s -> call_args_ok call -> keeps s (do_call ops s call).2.
Proof.
  intros Hs [Hok Hc].
  destruct call; cbn [do_call SIMULATOR_OPS op_start op_stop op_reset op_get_link_state
    op_get_capabilities op_send op_receive op_send_time_code op_receive_time_code
    op_get_statistics op_clear_statistics op_get_fault_statistics op_clear_fault_statistics
    op_wait] in *; cbn [call_ok] in Hok; try done.
  - pose proof (start_ok host s Hs) as H. by destruct (simulator_start _ _).
  - pose proof (stop_ok host s Hs) as H. by destruct (simulator_stop _ _).
  - pose proof (reset_ok host storage_address s Hs) as H. by destruct (simulator_reset _ _ _).
  - pose proof (sim_get_link_state_ok host s out Hs) as H.
    destruct (simulator_get_link_state _ _ _) as [[??]?]. apply H.
  - pose proof (send_ok host wait_fuel s p timeout Hs Hok Hc) as H.
    by destruct (simulator_send _ _ _ _ _).
  - pose proof (receive_ok host wait_fuel s p timeout Hs Hok Hc) as H.
    destruct (simulator_receive _ _ _ _ _) as [[??]?]. apply H.
  - pose proof (send_time_code_ok host wait_fuel s tc timeout Hs Hok Hc) as H.
    by destruct (simulator_send_time_code _ _ _ _ _).
  - pose proof (receive_time_code_ok host wait_fuel s out timeout Hs) as H.
    destruct (simulator_receive_time_code _ _ _ _ _) as [[??]?]. apply H.
  - pose proof (statistics_ok host s out Hs) as H.
    by destruct (simulator_get_statistics _ _ _) as [[??]?].
  - pose proof (sim_clear_statistics_ok host s Hs) as H. by destruct (simulator_clear_statistics _ _).
Qed.

Lemma step_keeps s a : sim_ok s -> action_ok a -> keeps s (port_step s a).
Proof.
  intros Hs Ha. destruct a; cbn [port_step action_ok] in *.
  - by apply call_keeps.
  - by apply acquire_tx_ok.
  - by destruct Ha; apply fill_ok.
  - by apply submit_tx_ok.
  - by apply reclaim_tx_ok.
  - by apply release_tx_ok.
  - by apply acquire_rx_ok.
  - by apply release_rx_ok.
Qed.

Lemma run_keeps actions : forall s, sim_ok s -> Forall action_ok actions ->
  keeps s (port_run s actions).
Proof.
  induction actions as [|a actions IH]; intros s Hs Hall; [done|].
  inversion Hall; subst. cbn. pose proof (step_keeps s a Hs H1) as Hk.
  eapply keeps_trans; [exact Hk|]. by apply IH; [apply Hk|].
Qed.

(** From a well-formed registry, a port that was constructed keeps it well
    formed through every sequence of copied and zero-copy calls and buffer
    writes, and through its destruction, whatever the threads of other ports do
    while it waits for a mutex or a condition.  Well formed: no two allocated
    links share an identifier, a link is allocated exactly while an end is
    attached, an end shows RUN exactly while both ends are started, CONNECTING
    while only it is, and every queue holds legal packets and time-codes within
    its depth.  The port stays on its link, and its buffers keep their storage,
    owner and direction. *)
Theorem simulator_invariant self config s s1 actions :
  registry_wf (sm_registry s) ->
  simulator_construct host storage_address self config s = (SPW_OK, s1) ->
  Forall action_ok actions ->
  sim_ok (port_run s1 actions) /\
  (exists l, sb_link (sm_backend (port_run s1 actions)) = Some l) /\
  registry_wf (sm_registry (simulator_destroy host (port_run s1 actions))).
Proof.
  intros Hr Hc Hall. pose proof (construct_ok host storage_address self config s Hr) as H.
  rewrite Hc in H. destruct H as [_ H]. destruct (H eq_refl) as [Hs [l Hl]].
  destruct (run_keeps actions s1 Hs Hall) as [Hk (_ & _ & _ & El)].
  split; [done|]. split; [exists l; congruence|]. apply (destroy_ok host _ Hk).
Qed.
End run.

(** ** Waits end *)

(** A host whose clock never goes back and moves while a thread waits. *)
Class ProgressingHost {W : Type} (host : host_ops W) (clock : W -> Z) : Prop := {
  ph_now : forall w, (host_now_us host w).1 = clock w /\ clock w <= clock (host_now_us host w).2;
  ph_wait : forall m timeout s,
    clock (sm_world s) < clock (sm_world (host_condition_wait host m timeout false s).2)
}.

(** The wait a call may make: its timeout, when it has one. *)
Definition action_timeout (a : port_action) : option Z :=
  match a with
  | ActCall (CallSend _ t) | ActCall (CallReceive _ t) | ActCall (CallSendTimeCode _ t)
  | ActCall (CallReceiveTimeCode _ t) | ActAcquireTx _ t | ActSubmitTx _ t | ActReclaimTx t
  | ActAcquireRx t => Some t
  | _ => None
  end.

Section waits.
Context {W : Type} (host : host_ops W) (clock : W -> Z) `{!ProgressingHost host clock}
  (storage_address : Z -> nat -> Z).
Implicit Types (s : sim W).

Lemma wait_loop_fuel m t deadline pred : t <> SPW_TIMEOUT_INFINITE -> forall f1 f2 s,
  deadline - clock (sm_world s) < Z.of_nat f1 -> deadline - clock (sm_world s) < Z.of_nat f2 ->
  (0 < f1)%nat -> (0 < f2)%nat ->
  wait_loop host f1 m t deadline pred s = wait_loop host f2 m t deadline pred s.
Proof.
  intros Ht. induction f1 as [|f1 IH]; intros f2 s H1 H2 P1 P2; [lia|].
  destruct f2 as [|f2]; [lia|]. cbn [wait_loop]. case_if; [done|].
  case_if; [apply Z.eqb_eq in E0; lia|]. unfold now_us.
  pose proof (ph_now (sm_world s)) as [Hn Hc].
  destruct (host_now_us host (sm_world s)) as [now w]. cbn [fst snd] in *.
  case_if; [done|]. pose proof (ph_wait m (deadline - now) (set_world w s)) as Hw.
  destruct (host_condition_wait host m (deadline - now) false (set_world w s)) as [woken s'].
  cbn [fst snd sm_world set_world] in *. case_if; [done|]. apply IH; lia.
Qed.

Lemma wait_condition_fuel f1 f2 m t pred s : t <> SPW_TIMEOUT_INFINITE ->
  (Z.to_nat t < f1)%nat -> (Z.to_nat t < f2)%nat ->
  wait_condition host f1 m t pred s = wait_condition host f2 m t pred s.
Proof.
  intros Ht H1 H2. unfold wait_condition. case_if; [done|]. case_if; [done|].
  case_if; [|lia]. unfold deadline_from_timeout, now_us.
  pose proof (ph_now (sm_world s)) as [Hn Hc].
  destruct (host_now_us host (sm_world s)) as [now w]. cbn [fst snd] in *.
  case_if; apply wait_loop_fuel; cbn [sm_world set_world]; lia.
Qed.

Lemma send_fuel f1 f2 s p t : t <> SPW_TIMEOUT_INFINITE ->
  (Z.to_nat t < f1)%nat -> (Z.to_nat t < f2)%nat ->
  simulator_send host f1 s p t = simulator_send host f2 s p t.
Proof.
  intros. unfold simulator_send, on_link, when_space. repeat (case_if; [done|]).
  destruct (sb_link (sm_backend s)); [|done]. repeat (case_if; [done|]).
  by rewrite (wait_condition_fuel f1 f2).
Qed.

Lemma receive_fuel f1 f2 s p t : t <> SPW_TIMEOUT_INFINITE ->
  (Z.to_nat t < f1)%nat -> (Z.to_nat t < f2)%nat ->
  simulator_receive host f1 s p t = simulator_receive host f2 s p t.
Proof.
  intros. unfold simulator_receive, on_link, when_data.
  destruct (sb_link (sm_backend s)); [|done]. case_if; [done|].
  by rewrite (wait_condition_fuel f1 f2).
Qed.

(** C34. A call with a finite timeout ends: when the clock moves while a thread
    waits, the number of wake-ups the model follows does not matter once it
    exceeds the timeout in microseconds, so no run of the loops in
    [wait_condition] is longer; calls without a timeout never loop. *)
Theorem simulator_waits_end f1 f2 s a :
  (forall t, action_timeout a = Some t -> t <> SPW_TIMEOUT_INFINITE /\
     (Z.to_nat t < f1)%nat /\ (Z.to_nat t < f2)%nat) ->
  port_step host f1 storage_address s a = port_step host f2 storage_address s a.
Proof.
  intros Ht. destruct a as [[]| | | | | | |]; cbn [action_timeout] in Ht; try done;
    destruct (Ht _ eq_refl) as (T1 & T2 & T3);
    cbn [port_step do_call SIMULATOR_OPS op_send op_receive op_send_time_code
      op_receive_time_code].
  - by rewrite (send_fuel f1 f2).
  - by rewrite (receive_fuel f1 f2).
  - unfold simulator_send_time_code, on_link, when_space. do 2 (case_if; [done|]).
    destruct (sb_link (sm_backend s)); [|done]. do 2 (case_if; [done|]).
    by rewrite (wait_condition_fuel f1 f2).
  - unfold simulator_receive_time_code, on_link, when_data.
    destruct (sb_link (sm_backend s)); [|done]. case_if; [done|].
    by rewrite (wait_condition_fuel f1 f2).
  - unfold simulator_acquire_tx_buffer. by rewrite (wait_condition_fuel f1 f2).
  - unfold simulator_submit_tx_buffer. by rewrite (send_fuel f1 f2).
  - unfold simulator_reclaim_tx_buffer. by rewrite (wait_condition_fuel f1 f2).
  - unfold simulator_acquire_rx_buffer. rewrite (wait_condition_fuel f1 f2) by done.
    destruct (wait_condition _ _ _ _ _ _) as [ok s']. case_if; [done|].
    by rewrite (receive_fuel f1 f2).
Qed.
End waits.

(** ** Examples *)

(** While the port waits, its peer sends a time-code if there is room for it. *)
Definition late_time_code (e : spw_simulator_endpoint_state) : spw_simulator_endpoint_state :=
  if (r_count (ep_time_codes e) <? SPW_SIMULATOR_TIME_CODE_QUEUE_DEPTH)%nat
  then set_ep_time_codes (ring_push (ep_time_codes e) {| time_count := 5; control_flags := 0 |}) e
  else e.

Definition busy_host : host_ops Z :=
  {| host_mutex_init := fun w => (true, w);
     host_condition_init := fun w => (true, w);
     host_now_us := fun w => (w, w + 1);
     host_lock := fun _ _ s => s;
     host_condition_wait := fun _ _ _ s =>
       (true, set_world (sm_world s + 3)
                (match sb_link (sm_backend s) with
                 | Some l => upd_local l late_time_code s
                 | None => s
                 end)) |}.

#[export] Instance busy_contract : HostContract busy_host.
Proof.
  constructor; [by intros; constructor|]. intros m t inf s.
  cbn [host_condition_wait busy_host snd].
  destruct (sb_link (sm_backend s)) as [l|] eqn:El; [|by constructor; [apply set_world_ok| |]].
  constructor; [|by unfold same_port|done]. intros Hs. apply set_world_ok.
  apply (keeps_local s s l); try done.
  - intros e. unfold late_time_code. by case_if.
  - intros Hw. unfold late_time_code. case_if; [|done]. apply Nat.ltb_lt in E.
    by apply push_time_code_end.
Qed.

#[export] Instance busy_progress : ProgressingHost busy_host id.
Proof.
  constructor; [intros w; cbn; lia|]. intros m t s. cbn. lia.
Qed.

Definition empty_process : sim Z :=
  {| sm_registry := replicate SPW_SIMULATOR_MAX_LOCAL_LINKS zero_link;
     sm_backend := zero_backend 0 0 0; sm_world := 0 |}.

Definition sample_actions : list port_action :=
  [ActCall CallStart; ActAcquireTx 16 0; ActFill 0 [1; 2; 3] 3 0; ActSubmitTx 0 10;
   ActReleaseTx 0; ActCall (CallReceiveTimeCode zero_time_code 20); ActAcquireRx 2;
   ActCall CallReset].

Definition sample_opened : Z * sim Z :=
  simulator_construct busy_host sample_address 100 (sample_end 0) empty_process.

Definition sample_port : sim Z := sample_opened.2.

Lemma simulator_invariant_witness :
  let s2 := port_run busy_host 9 sample_address sample_port sample_actions in
  sample_opened.1 = SPW_OK /\
  sim_ok s2 /\ (exists l, sb_link (sm_backend s2) = Some l) /\
  registry_wf (sm_registry (simulator_destroy busy_host s2)).
Proof.
  assert (sample_opened.1 = SPW_OK) as H by (vm_compute; reflexivity).
  intros s2. split; [exact H|].
  apply (simulator_invariant busy_host 9 sample_address 100 (sample_end 0) empty_process);
    [exact fresh_registry_wf| |].
  - fold sample_opened. unfold sample_port. rewrite <- H. exact (surjective_pairing sample_opened).
  - repeat (apply Forall_cons; split); try (by apply Forall_nil); try exact I;
      try (split; [vm_compute; reflexivity|exact I]).
    split; [apply bytes_ok_check; vm_compute; reflexivity|lia].
Defined.

(** Eight buffers are out; the ninth request gives up after six microseconds. *)
Definition buffers_out : sim Z :=
  port_run busy_host 0 sample_address sample_port (replicate 8 (ActAcquireTx 1 0)).

Lemma simulator_waits_end_witness :
  (simulator_acquire_tx_buffer busy_host 7 buffers_out 1 6).1 = (SPW_ERR_TIMEOUT, None) /\
  port_step busy_host 7 sample_address buffers_out (ActAcquireTx 1 6) =
  port_step busy_host 1000 sample_address buffers_out (ActAcquireTx 1 6).
Proof.
  split; [vm_compute; reflexivity|].
  apply (simulator_waits_end busy_host id sample_address 7 1000 buffers_out (ActAcquireTx 1 6)).
  intros t Ht. injection Ht as <-. split; [discriminate|]. split; vm_compute; lia.
Defined.
