(* ===== verification/Device.v ===== *)
(** * The device backend

    src/src/backends/device/device_backend.c: a port served by the vspwd daemon.
    The backend is a client of the VSPD record protocol over a sequenced-packet
    socket: a synchronous request waits for its response and handles the events
    that arrive in between.

    [W] is the state of the world outside the process and [dev_os] the calls the
    backend makes; nothing is assumed about what they return.  A loop that the
    socket drives is followed for [io_fuel] rounds: a run that exhausts it is one
    in which the next system call fails. *)

From S2P Require Import Prelude Types Posix Ring Backend Loopback DriverApi PortConfig Vspd.

Definition DEVICE_TIME_CODE_QUEUE_DEPTH : nat := 8.
Definition INT32_MAX : Z := 2 ^ 31 - 1.

(** ** State *)

Record device_context := {
  dc_config : spw_device_config;
  dc_fd : Z;
  dc_next_request_id : Z;
  dc_next_message_id : Z;
  dc_desired_started : bool;
  dc_state : Z;
  dc_capabilities : spw_capabilities;
  dc_rx_active : bool;
  dc_rx_ready : bool;
  dc_rx_message_id : Z;
  dc_rx_total_size : Z;
  dc_rx_next_offset : Z;
  dc_rx_terminator : Z;
  dc_rx_data : list Z;
  dc_time_codes : list spw_time_code;
  dc_time_code_head : nat;
  dc_time_code_count : nat
}.

(** Updates of the groups of fields the code assigns together. *)
Definition dset_session (fd state : Z) (c : device_context) : device_context :=
  {| dc_config := dc_config c; dc_fd := fd; dc_next_request_id := dc_next_request_id c;
     dc_next_message_id := dc_next_message_id c; dc_desired_started := dc_desired_started c;
     dc_state := state; dc_capabilities := dc_capabilities c; dc_rx_active := dc_rx_active c;
     dc_rx_ready := dc_rx_ready c; dc_rx_message_id := dc_rx_message_id c;
     dc_rx_total_size := dc_rx_total_size c; dc_rx_next_offset := dc_rx_next_offset c;
     dc_rx_terminator := dc_rx_terminator c; dc_rx_data := dc_rx_data c;
     dc_time_codes := dc_time_codes c; dc_time_code_head := dc_time_code_head c;
     dc_time_code_count := dc_time_code_count c |}.
Definition dset_fd (fd : Z) (c : device_context) : device_context :=
  dset_session fd (dc_state c) c.
Definition dset_state (state : Z) (c : device_context) : device_context :=
  dset_session (dc_fd c) state c.
Definition dset_ids (request message : Z) (c : device_context) : device_context :=
  {| dc_config := dc_config c; dc_fd := dc_fd c; dc_next_request_id := request;
     dc_next_message_id := message; dc_desired_started := dc_desired_started c;
     dc_state := dc_state c; dc_capabilities := dc_capabilities c;
     dc_rx_active := dc_rx_active c; dc_rx_ready := dc_rx_ready c;
     dc_rx_message_id := dc_rx_message_id c; dc_rx_total_size := dc_rx_total_size c;
     dc_rx_next_offset := dc_rx_next_offset c; dc_rx_terminator := dc_rx_terminator c;
     dc_rx_data := dc_rx_data c; dc_time_codes := dc_time_codes c;
     dc_time_code_head := dc_time_code_head c; dc_time_code_count := dc_time_code_count c |}.
Definition dset_desired_started (v : bool) (c : device_context) : device_context :=
  {| dc_config := dc_config c; dc_fd := dc_fd c; dc_next_request_id := dc_next_request_id c;
     dc_next_message_id := dc_next_message_id c; dc_desired_started := v;
     dc_state := dc_state c; dc_capabilities := dc_capabilities c;
     dc_rx_active := dc_rx_active c; dc_rx_ready := dc_rx_ready c;
     dc_rx_message_id := dc_rx_message_id c; dc_rx_total_size := dc_rx_total_size c;
     dc_rx_next_offset := dc_rx_next_offset c; dc_rx_terminator := dc_rx_terminator c;
     dc_rx_data := dc_rx_data c; dc_time_codes := dc_time_codes c;
     dc_time_code_head := dc_time_code_head c; dc_time_code_count := dc_time_code_count c |}.
Definition dset_capabilities (v : spw_capabilities) (c : device_context) : device_context :=
  {| dc_config := dc_config c; dc_fd := dc_fd c; dc_next_request_id := dc_next_request_id c;
     dc_next_message_id := dc_next_message_id c; dc_desired_started := dc_desired_started c;
     dc_state := dc_state c; dc_capabilities := v; dc_rx_active := dc_rx_active c;
     dc_rx_ready := dc_rx_ready c; dc_rx_message_id := dc_rx_message_id c;
     dc_rx_total_size := dc_rx_total_size c; dc_rx_next_offset := dc_rx_next_offset c;
     dc_rx_terminator := dc_rx_terminator c; dc_rx_data := dc_rx_data c;
     dc_time_codes := dc_time_codes c; dc_time_code_head := dc_time_code_head c;
     dc_time_code_count := dc_time_code_count c |}.
Definition dset_rx (active ready : bool) (message total next terminator : Z) (data : list Z)
    (c : device_context) : device_context :=
  {| dc_config := dc_config c; dc_fd := dc_fd c; dc_next_request_id := dc_next_request_id c;
     dc_next_message_id := dc_next_message_id c; dc_desired_started := dc_desired_started c;
     dc_state := dc_state c; dc_capabilities := dc_capabilities c; dc_rx_active := active;
     dc_rx_ready := ready; dc_rx_message_id := message; dc_rx_total_size := total;
     dc_rx_next_offset := next; dc_rx_terminator := terminator; dc_rx_data := data;
     dc_time_codes := dc_time_codes c; dc_time_code_head := dc_time_code_head c;
     dc_time_code_count := dc_time_code_count c |}.
Definition dset_time_codes (slots : list spw_time_code) (head count : nat) (c : device_context)
    : device_context :=
  {| dc_config := dc_config c; dc_fd := dc_fd c; dc_next_request_id := dc_next_request_id c;
     dc_next_message_id := dc_next_message_id c; dc_desired_started := dc_desired_started c;
     dc_state := dc_state c; dc_capabilities := dc_capabilities c;
     dc_rx_active := dc_rx_active c; dc_rx_ready := dc_rx_ready c;
     dc_rx_message_id := dc_rx_message_id c; dc_rx_total_size := dc_rx_total_size c;
     dc_rx_next_offset := dc_rx_next_offset c; dc_rx_terminator := dc_rx_terminator c;
     dc_rx_data := dc_rx_data c; dc_time_codes := slots; dc_time_code_head := head;
     dc_time_code_count := count |}.

(** ** Events *)

Definition clear_rx (c : device_context) : device_context :=
  dset_rx false false 0 0 0 SPW_TERMINATOR_EOP (dc_rx_data c) c.

Definition clear_time_codes (c : device_context) : device_context :=
  dset_time_codes (dc_time_codes c) 0 0 c.

Definition status_to_result (status : Z) : Z :=
  if status =? VSPD_STATUS_OK then SPW_OK else
  if status =? VSPD_STATUS_INVALID_ARGUMENT then SPW_ERR_INVALID_ARGUMENT else
  if status =? VSPD_STATUS_INVALID_STATE then SPW_ERR_INVALID_STATE else
  if status =? VSPD_STATUS_TIMEOUT then SPW_ERR_TIMEOUT else
  if status =? VSPD_STATUS_UNSUPPORTED then SPW_ERR_UNSUPPORTED else
  if status =? VSPD_STATUS_RESOURCE_EXHAUSTED then SPW_ERR_RESOURCE_EXHAUSTED else
  if status =? VSPD_STATUS_LINK_UNAVAILABLE then SPW_ERR_LINK_UNAVAILABLE else
  if status =? VSPD_STATUS_BUFFER_TOO_SMALL then SPW_ERR_BUFFER_TOO_SMALL else
  if status =? VSPD_STATUS_INVALID_PACKET then SPW_ERR_INVALID_PACKET else SPW_ERR_BACKEND.

Definition queue_time_code (c : device_context) (payload : list Z) : bool * device_context :=
  if (DEVICE_TIME_CODE_QUEUE_DEPTH <=? dc_time_code_count c)%nat then (false, c) else
  let index := ((dc_time_code_head c + dc_time_code_count c) mod DEVICE_TIME_CODE_QUEUE_DEPTH)%nat in
  (true,
   dset_time_codes
     (<[index := {| time_count := mem_get payload 0; control_flags := mem_get payload 1 |}]>
        (dc_time_codes c))
     (dc_time_code_head c) (dc_time_code_count c + 1) c).

(** A DATA_RX event: begin or continue the packet, store, finish. *)
Definition begin_rx (c : device_context) (header : vspd_header) : option device_context :=
  if vspd_flag header VSPD_FLAG_FRAGMENT_START then
    if dc_rx_active c || negb (v_fragment_offset header =? 0) ||
       (VSPD_MAX_LOGICAL_PACKET <? v_total_size header)
    then None
    else Some (dset_rx true (dc_rx_ready c) (v_message_id header) (v_total_size header) 0
                 (dc_rx_terminator c) (dc_rx_data c) c)
  else
    if negb (dc_rx_active c) || negb (dc_rx_message_id c =? v_message_id header) ||
       negb (dc_rx_total_size c =? v_total_size header)
    then None else Some c.

Definition store_rx (c : device_context) (header : vspd_header) (payload : list Z)
    : device_context :=
  dset_rx (dc_rx_active c) (dc_rx_ready c) (dc_rx_message_id c) (dc_rx_total_size c)
    (u32 (dc_rx_next_offset c + v_payload_size header)) (dc_rx_terminator c)
    (if negb (v_payload_size header =? 0)
     then mem_write (dc_rx_data c) (Z.to_nat (dc_rx_next_offset c))
            (take (Z.to_nat (v_payload_size header)) payload)
     else dc_rx_data c) c.

Definition finish_rx (c : device_context) (header : vspd_header) : device_context :=
  dset_rx false true (dc_rx_message_id c) (dc_rx_total_size c) (dc_rx_next_offset c)
    (if vspd_flag header VSPD_FLAG_EEP then SPW_TERMINATOR_EEP else SPW_TERMINATOR_EOP)
    (dc_rx_data c) c.

Definition process_event (c : device_context) (header : vspd_header) (payload : list Z)
    : Z * device_context :=
  if v_type header =? VSPD_MSG_LINK_STATE_EVENT then
    (SPW_OK, dset_state (vspd_decode_u32_payload payload) c) else
  if v_type header =? VSPD_MSG_TIME_CODE_RX then
    (let '(queued, c) := queue_time_code c payload in
     (if queued then SPW_OK else SPW_ERR_RESOURCE_EXHAUSTED, c)) else
  if v_type header =? VSPD_MSG_DATA_RX then
    (if dc_rx_ready c then (SPW_ERR_RESOURCE_EXHAUSTED, c) else
     match begin_rx c header with
     | None => (SPW_ERR_BACKEND, c)
     | Some c =>
         if negb (v_fragment_offset header =? dc_rx_next_offset c) ||
            (u32 (dc_rx_total_size c - dc_rx_next_offset c) <? v_payload_size header)
         then (SPW_ERR_BACKEND, clear_rx c) else
         let c := store_rx c header payload in
         if vspd_flag header VSPD_FLAG_FRAGMENT_END then
           if negb (dc_rx_next_offset c =? dc_rx_total_size c)
           then (SPW_ERR_BACKEND, clear_rx c) else (SPW_OK, finish_rx c header)
         else (SPW_OK, c)
     end)
  else (SPW_ERR_BACKEND, c).

(** ** The socket *)

Record dev_os (W : Type) := {
  (** socket(AF_UNIX, SOCK_SEQPACKET | SOCK_CLOEXEC, 0) *)
  do_socket : W -> Z * W;
  (** connect(fd, path) *)
  do_connect : Z -> list Z -> W -> Z * W;
  (** poll of one descriptor: events, timeout in ms; the result and revents *)
  do_poll : Z -> Z -> Z -> W -> Z * Z * W;
  (** send(fd, data, size, MSG_NOSIGNAL | MSG_DONTWAIT) *)
  do_send : Z -> list Z -> W -> Z * W;
  (** recv(fd, frame, capacity, MSG_DONTWAIT): the result and the bytes stored *)
  do_recv : Z -> Z -> W -> Z * list Z * W;
  do_close : Z -> W -> W;
  do_errno : W -> Z;
  (** clock_gettime(CLOCK_MONOTONIC): the result, tv_sec and tv_nsec *)
  do_clock_gettime : W -> Z * Z * Z * W
}.
Arguments do_socket {W} _ _.
Arguments do_connect {W} _ _ _ _.
Arguments do_poll {W} _ _ _ _ _.
Arguments do_send {W} _ _ _ _.
Arguments do_recv {W} _ _ _ _.
Arguments do_close {W} _ _ _.
Arguments do_errno {W} _ _.
Arguments do_clock_gettime {W} _ _.

Section device.
Context {W : Type} (os : dev_os W) (io_fuel : nat).

(** The context of the backend and the world. *)
Definition device : Type := device_context * W.
Implicit Types (d : device).

Definition upd (f : device_context -> device_context) d : device := (f d.1, d.2).

Definition monotonic_us d : Z * device :=
  let '(result, tv_sec, tv_nsec, w) := do_clock_gettime os d.2 in
  (if negb (result =? 0) then 0 else u64 (u64 tv_sec * 1000000 + u64 tv_nsec / 1000), (d.1, w)).

Definition deadline_for (timeout_us : Z) d : Z * device :=
  if timeout_us =? SPW_TIMEOUT_INFINITE then (UINT64_MAX, d) else
  let '(now, d) := monotonic_us d in
  if UINT64_MAX - now <? timeout_us then (UINT64_MAX - 1, d) else (now + timeout_us, d).

Definition poll_timeout_ms (deadline : Z) d : Z * device :=
  if deadline =? UINT64_MAX then (-1, d) else
  let '(now, d) := monotonic_us d in
  if deadline <=? now then (0, d) else
  let remaining := deadline - now in
  if INT32_MAX * 1000 <? remaining then (INT32_MAX, d) else ((remaining + 999) / 1000, d).

Definition mark_disconnected d : device :=
  let d := if 0 <=? dc_fd d.1 then (d.1, do_close os (dc_fd d.1) d.2) else d in
  upd (fun c => clear_time_codes (clear_rx (dset_session (-1) SPW_LINK_ERROR_WAIT c))) d.

(** What the loops below answer when a system call fails for good. *)
Definition lost d : Z * device := (SPW_ERR_LINK_UNAVAILABLE, mark_disconnected d).

Fixpoint wait_fd (fuel : nat) (events deadline : Z) d : Z * device :=
  match fuel with
  | O => lost d
  | S fuel =>
      let '(ms, d) := poll_timeout_ms deadline d in
      let '(result, revents, w) := do_poll os (dc_fd d.1) events ms d.2 in
      let d := (d.1, w) in
      if 0 <? result then
        if negb (revents .& (POLLERR .| POLLHUP .| POLLNVAL) =? 0) then lost d else
        if negb (revents .& events =? 0) then (SPW_OK, d) else wait_fd fuel events deadline d
      else if result =? 0 then (SPW_ERR_TIMEOUT, d)
      else if negb (do_errno os d.2 =? EINTR) then lost d
      else wait_fd fuel events deadline d
  end.

(** After a failed send or receive: [None] to try again. *)
Definition io_retry (events deadline : Z) d : option Z * device :=
  if do_errno os d.2 =? EINTR then
    if negb (deadline =? UINT64_MAX) then
      let '(ms, d) := poll_timeout_ms deadline d in
      (if ms =? 0 then Some SPW_ERR_TIMEOUT else None, d)
    else (None, d)
  else if (do_errno os d.2 =? EAGAIN) || (do_errno os d.2 =? EWOULDBLOCK) then
    let '(result, d) := wait_fd io_fuel events deadline d in
    (if negb (result =? SPW_OK) then Some result else None, d)
  else let '(result, d) := lost d in (Some result, d).

Fixpoint send_record_loop (fuel : nat) (data : list Z) (deadline : Z) d : Z * device :=
  match fuel with
  | O => lost d
  | S fuel =>
      let '(sent, w) := do_send os (dc_fd d.1) data d.2 in
      let d := (d.1, w) in
      if sent =? Z.of_nat (length data) then (SPW_OK, d) else
      if 0 <=? sent then (SPW_ERR_BACKEND, mark_disconnected d) else
      match io_retry POLLOUT deadline d with
      | (Some result, d) => (result, d)
      | (None, d) => send_record_loop fuel data deadline d
      end
  end.

Definition send_record (data : list Z) (deadline : Z) d : Z * device :=
  send_record_loop io_fuel data deadline d.

(** The bytes received; the caller's frame buffer has [capacity] bytes. *)
Fixpoint receive_record_loop (fuel : nat) (capacity deadline : Z) d : Z * list Z * device :=
  match fuel with
  | O => let '(result, d) := lost d in (result, [], d)
  | S fuel =>
      let '(received, bytes, w) := do_recv os (dc_fd d.1) capacity d.2 in
      let d := (d.1, w) in
      if 0 <? received then (SPW_OK, take (Z.to_nat received) bytes, d) else
      if received =? 0 then let '(result, d) := lost d in (result, [], d) else
      match io_retry POLLIN deadline d with
      | (Some result, d) => (result, [], d)
      | (None, d) => receive_record_loop fuel capacity deadline d
      end
  end.

Definition FRAME_CAPACITY : Z := VSPD_HEADER_SIZE + VSPD_MAX_FRAME_PAYLOAD.

Definition receive_record (deadline : Z) d : Z * list Z * device :=
  receive_record_loop io_fuel FRAME_CAPACITY deadline d.

(** vspd_validate_frame on a received record: the header, if it is valid. *)
Definition frame_header (frame : list Z) : option vspd_header :=
  let '(result, header) :=
    vspd_validate_frame (Some frame) (Z.of_nat (length frame)) (Some header_zero) in
  if result =? VSPD_CODEC_OK then header else None.

Definition frame_payload (frame : list Z) : list Z := drop (Z.to_nat VSPD_HEADER_SIZE) frame.

(** ** Requests *)

(** The result, the status and the payload of the response. *)
Fixpoint wait_response_loop (fuel : nat) (type request_id response_capacity deadline : Z) d
    : Z * Z * list Z * device :=
  match fuel with
  | O => let '(result, d) := lost d in (result, VSPD_STATUS_BACKEND, [], d)
  | S fuel =>
      let '(result, frame, d) := receive_record deadline d in
      if negb (result =? SPW_OK) then (result, VSPD_STATUS_BACKEND, [], d) else
      match frame_header frame with
      | None => (SPW_ERR_BACKEND, VSPD_STATUS_BACKEND, [], mark_disconnected d)
      | Some header =>
          if vspd_flag header VSPD_FLAG_RESPONSE then
            if negb (v_type header =? type) || negb (v_request_id header =? request_id)
            then (SPW_ERR_BACKEND, VSPD_STATUS_BACKEND, [], mark_disconnected d) else
            if response_capacity <? v_payload_size header
            then (SPW_ERR_BACKEND, VSPD_STATUS_BACKEND, [], d) else
            (SPW_OK, v_status header, frame_payload frame, d)
          else
            let '(result, c) := process_event d.1 header (frame_payload frame) in
            let d := (c, d.2) in
            if negb (result =? SPW_OK) then (result, VSPD_STATUS_BACKEND, [], d)
            else wait_response_loop fuel type request_id response_capacity deadline d
      end
  end.

Definition wait_response (type request_id response_capacity deadline : Z) d
    : Z * Z * list Z * device :=
  wait_response_loop io_fuel type request_id response_capacity deadline d.

Definition request_header (type payload_size request_id port_id : Z) : vspd_header :=
  {| v_magic := VSPD_MAGIC; v_version_major := VSPD_VERSION_MAJOR;
     v_version_minor := VSPD_VERSION_MINOR; v_type := type; v_flags := 0;
     v_header_size := VSPD_HEADER_SIZE; v_reserved := 0; v_payload_size := payload_size;
     v_request_id := request_id; v_port_id := port_id; v_message_id := 0;
     v_fragment_offset := 0; v_total_size := 0; v_status := 0 |}.

Definition take_request_id d : Z * device :=
  let id := dc_next_request_id d.1 in
  (id, upd (fun c => dset_ids (u32 (id + 1)) (dc_next_message_id c) c) d).

(** The result and the payload of the response; [payload] is empty for NULL. *)
Definition send_request (type : Z) (payload : list Z) (response_capacity deadline : Z) d
    : Z * list Z * device :=
  let '(request_id, d) := take_request_id d in
  let payload_size := Z.of_nat (length payload) in
  if VSPD_STATISTICS_PAYLOAD_SIZE <? payload_size then (SPW_ERR_INVALID_ARGUMENT, [], d) else
  let '(coded, frame) :=
    vspd_encode_header (request_header type payload_size request_id (dev_port_id (dc_config d.1))) []
  in
  if negb (coded =? VSPD_CODEC_OK) then (SPW_ERR_BACKEND, [], d) else
  let frame := mem_write frame (Z.to_nat VSPD_HEADER_SIZE) payload in
  let '(result, d) := send_record frame deadline d in
  if negb (result =? SPW_OK) then (result, [], d) else
  let '(result, status, response, d) := wait_response type request_id response_capacity deadline d in
  (if result =? SPW_OK then status_to_result status else result, response, d).

(** A request without payloads. *)
Definition plain_request (type deadline : Z) d : Z * device :=
  let '(result, _, d) := send_request type [] 0 deadline d in (result, d).

(** ** The session *)

Definition hello_payload : list Z := [VSPD_VERSION_MAJOR; VSPD_VERSION_MINOR; 0; 0].

(** The endpoint name, up to its NUL. *)
Definition endpoint_path (config : spw_device_config) : list Z :=
  mem_read (dev_endpoint config) 0
    (endpoint_length_from (dev_endpoint config) 0 (Z.to_nat SPW_DEVICE_ENDPOINT_CAPACITY)).

Definition capabilities_of (wire : vspd_capabilities_payload) : spw_capabilities :=
  {| cap_bits := vc_bits wire; cap_max_packet_size := vc_max_packet_size wire;
     cap_tx_queue_depth := vc_tx_queue_depth wire; cap_rx_queue_depth := vc_rx_queue_depth wire;
     cap_buffer_alignment := vc_buffer_alignment wire |}.

Definition connect_session (deadline : Z) d : Z * device :=
  let '(fd, w) := do_socket os d.2 in
  let d := (dset_fd fd d.1, w) in
  if fd <? 0 then (SPW_ERR_LINK_UNAVAILABLE, d) else
  let '(connected, w) := do_connect os fd (endpoint_path (dc_config d.1)) d.2 in
  let d := (d.1, w) in
  if negb (connected =? 0) then lost d else
  let '(result, response, d) :=
    send_request VSPD_MSG_HELLO hello_payload VSPD_CAPABILITIES_PAYLOAD_SIZE deadline d in
  if negb (result =? SPW_OK) ||
     negb (Z.of_nat (length response) =? VSPD_HELLO_PAYLOAD_SIZE) ||
     negb (bool_decide (response = hello_payload))
  then (if result =? SPW_OK then SPW_ERR_UNSUPPORTED else result, mark_disconnected d) else
  let '(result, d) := plain_request VSPD_MSG_ATTACH deadline d in
  if negb (result =? SPW_OK) then (result, mark_disconnected d) else
  let d := upd (fun c => clear_time_codes (clear_rx (dset_state SPW_LINK_ERROR_RESET c))) d in
  let '(result, response, d) :=
    send_request VSPD_MSG_GET_CAPABILITIES [] VSPD_CAPABILITIES_PAYLOAD_SIZE deadline d in
  if negb (result =? SPW_OK) ||
     negb (Z.of_nat (length response) =? VSPD_CAPABILITIES_PAYLOAD_SIZE)
  then (if result =? SPW_OK then SPW_ERR_BACKEND else result, mark_disconnected d) else
  let d := upd (dset_capabilities (capabilities_of (vspd_decode_capabilities response))) d in
  if dc_desired_started d.1 then
    let '(result, d) := plain_request VSPD_MSG_START deadline d in
    if negb (result =? SPW_OK) then (result, mark_disconnected d) else (SPW_OK, d)
  else (SPW_OK, d).

Definition ensure_connected (deadline : Z) d : Z * device :=
  if 0 <=? dc_fd d.1 then (SPW_OK, d) else connect_session deadline d.

Definition request_simple (type timeout_us : Z) d : Z * device :=
  let '(deadline, d) := deadline_for timeout_us d in
  let '(result, d) := ensure_connected deadline d in
  if negb (result =? SPW_OK) then (result, d) else plain_request type deadline d.

(** ** Operations *)

(** [d] holds the world; the context is overwritten. *)
Definition zero_context (config : spw_device_config) : device_context :=
  {| dc_config := config; dc_fd := -1; dc_next_request_id := 1; dc_next_message_id := 1;
     dc_desired_started := false; dc_state := SPW_LINK_ERROR_RESET;
     dc_capabilities :=
       {| cap_bits := 0; cap_max_packet_size := 0; cap_tx_queue_depth := 0;
          cap_rx_queue_depth := 0; cap_buffer_alignment := 0 |};
     dc_rx_active := false; dc_rx_ready := false; dc_rx_message_id := 0; dc_rx_total_size := 0;
     dc_rx_next_offset := 0; dc_rx_terminator := 0; dc_rx_data := [];
     dc_time_codes := replicate DEVICE_TIME_CODE_QUEUE_DEPTH zero_time_code;
     dc_time_code_head := 0; dc_time_code_count := 0 |}.

Definition device_construct (config : spw_device_config) (w : W) : Z * device :=
  let '(deadline, d) := deadline_for 1000000 (zero_context config, w) in
  connect_session deadline d.

Definition device_destroy d : device :=
  let d :=
    if 0 <=? dc_fd d.1 then
      let '(deadline, d) := deadline_for 100000 d in
      let '(_, d) := plain_request VSPD_MSG_DETACH deadline d in
      if 0 <=? dc_fd d.1 then (d.1, do_close os (dc_fd d.1) d.2) else d
    else d in
  upd (dset_fd (-1)) d.

Definition device_start d : Z * device :=
  request_simple VSPD_MSG_START SPW_TIMEOUT_INFINITE (upd (dset_desired_started true) d).

Definition device_stop d : Z * device :=
  request_simple VSPD_MSG_STOP SPW_TIMEOUT_INFINITE (upd (dset_desired_started false) d).

Definition device_reset d : Z * device :=
  let '(result, d) :=
    request_simple VSPD_MSG_RESET SPW_TIMEOUT_INFINITE (upd (dset_desired_started false) d) in
  if result =? SPW_OK then (result, upd (fun c => clear_time_codes (clear_rx c)) d)
  else (result, d).

Definition device_get_link_state d (_ : Z) : Z * Z * device :=
  let '(deadline, d) := deadline_for 250000 d in
  let '(result, d) := ensure_connected deadline d in
  if negb (result =? SPW_OK) then (result, dc_state d.1, d) else
  let '(result, payload, d) :=
    send_request VSPD_MSG_GET_LINK_STATE [] VSPD_LINK_STATE_PAYLOAD_SIZE deadline d in
  let d :=
    if (result =? SPW_OK) && (Z.of_nat (length payload) =? VSPD_LINK_STATE_PAYLOAD_SIZE)
    then upd (dset_state (vspd_decode_u32_payload payload)) d else d in
  (result, dc_state d.1, d).

Definition device_get_capabilities d (_ : spw_capabilities) : Z * spw_capabilities * device :=
  (SPW_OK, dc_capabilities d.1, d).

Definition device_supports_zero_copy d : bool := false.

(** One fragment of a packet of [length] bytes (as uint32_t) from [offset]. *)
Definition fragment_header (config : spw_device_config) (request_id message_id : Z)
    (packet : spw_packet) (offset chunk : Z) (final : bool) : vspd_header :=
  let flags := if offset =? 0 then VSPD_FLAG_FRAGMENT_START else 0 in
  {| v_magic := VSPD_MAGIC; v_version_major := VSPD_VERSION_MAJOR;
     v_version_minor := VSPD_VERSION_MINOR; v_type := VSPD_MSG_DATA_TX;
     v_flags :=
       if final then
         flags .| VSPD_FLAG_FRAGMENT_END .|
         (if pkt_terminator packet =? SPW_TERMINATOR_EEP then VSPD_FLAG_EEP else VSPD_FLAG_EOP)
       else flags;
     v_header_size := VSPD_HEADER_SIZE; v_reserved := 0; v_payload_size := chunk;
     v_request_id := request_id; v_port_id := dev_port_id config; v_message_id := message_id;
     v_fragment_offset := offset; v_total_size := u32 (pkt_length packet); v_status := 0 |}.

(** The do-while loop: [fuel] fragments at most, which the callers make enough. *)
Fixpoint send_fragments (fuel : nat) (request_id message_id : Z) (packet : spw_packet)
    (offset deadline : Z) d : Z * device :=
  match fuel with
  | O => (SPW_ERR_BACKEND, d)
  | S fuel =>
      let remaining := u32 (u32 (pkt_length packet) - offset) in
      let chunk :=
        if VSPD_MAX_FRAME_PAYLOAD <? remaining then VSPD_MAX_FRAME_PAYLOAD else remaining in
      let final :=
        (pkt_length packet =? 0) || (u32 (offset + chunk) =? u32 (pkt_length packet)) in
      let '(coded, frame) :=
        vspd_encode_header
          (fragment_header (dc_config d.1) request_id message_id packet offset chunk final) [] in
      if negb (coded =? VSPD_CODEC_OK) then (SPW_ERR_BACKEND, d) else
      let frame :=
        mem_write frame (Z.to_nat VSPD_HEADER_SIZE)
          (mem_read (default [] (pkt_data packet)) (Z.to_nat offset) (Z.to_nat chunk)) in
      let '(result, d) := send_record frame deadline d in
      if negb (result =? SPW_OK) then (result, d) else
      let offset := u32 (offset + chunk) in
      if final then
        let '(result, status, _, d) := wait_response VSPD_MSG_DATA_TX request_id 0 deadline d in
        (if result =? SPW_OK then status_to_result status else result, d)
      else if offset <? pkt_length packet
      then send_fragments fuel request_id message_id packet offset deadline d
      else (SPW_ERR_BACKEND, d)
  end.

(** The number of fragments a packet needs. *)
Definition tx_fragment_count (length : Z) : nat :=
  S (Z.to_nat (u32 length / VSPD_MAX_FRAME_PAYLOAD)).

Definition device_send d (packet : spw_packet) (timeout_us : Z) : Z * device :=
  let '(deadline, d) := deadline_for timeout_us d in
  let '(result, d) := ensure_connected deadline d in
  if negb (result =? SPW_OK) then (result, d) else
  let request_id := dc_next_request_id d.1 in
  let message_id := dc_next_message_id d.1 in
  let d := upd (dset_ids (u32 (request_id + 1)) (u32 (message_id + 1))) d in
  send_fragments (tx_fragment_count (pkt_length packet)) request_id message_id packet 0 deadline d.

(** Receive one record and handle it as an event; [on_bad] is what is done to
    the session when the record is not a valid event. *)
Definition service_record (on_bad : device -> device) (deadline : Z) d : Z * device :=
  let '(result, frame, d) := receive_record deadline d in
  if negb (result =? SPW_OK) then (result, d) else
  match frame_header frame with
  | None => (SPW_ERR_BACKEND, on_bad d)
  | Some header =>
      if vspd_flag header VSPD_FLAG_RESPONSE then (SPW_ERR_BACKEND, on_bad d) else
      let '(result, c) := process_event d.1 header (frame_payload frame) in (result, (c, d.2))
  end.

(** Handle events until [ready]. *)
Fixpoint service_until (fuel : nat) (ready : device_context -> bool) (deadline : Z) d
    : Z * device :=
  match fuel with
  | O => if ready d.1 then (SPW_OK, d) else lost d
  | S fuel =>
      if ready d.1 then (SPW_OK, d) else
      let '(result, d) := service_record (fun d => d) deadline d in
      if negb (result =? SPW_OK) then (result, d) else service_until fuel ready deadline d
  end.

Definition service_until_packet (deadline : Z) d : Z * device :=
  service_until io_fuel dc_rx_ready deadline d.

Definition device_receive d (packet : spw_packet) (timeout_us : Z) : Z * spw_packet * device :=
  let '(deadline, d) := deadline_for timeout_us d in
  let '(result, d) := ensure_connected deadline d in
  if negb (result =? SPW_OK) then (result, packet, d) else
  let '(result, d) := service_until_packet deadline d in
  if negb (result =? SPW_OK) then (result, packet, d) else
  let total := dc_rx_total_size d.1 in
  let packet := set_packet_shape total (dc_rx_terminator d.1) packet in
  if pkt_capacity packet <? total then (SPW_ERR_BUFFER_TOO_SMALL, packet, d) else
  let packet :=
    if negb (total =? 0)
    then set_packet_bytes (mem_read (dc_rx_data d.1) 0 (Z.to_nat total)) packet else packet in
  (SPW_OK, packet, upd clear_rx d).

Definition device_send_time_code d (time_code : spw_time_code) (timeout_us : Z) : Z * device :=
  let '(deadline, d) := deadline_for timeout_us d in
  let '(result, d) := ensure_connected deadline d in
  if negb (result =? SPW_OK) then (result, d) else
  let '(result, _, d) :=
    send_request VSPD_MSG_TIME_CODE_TX [time_count time_code; control_flags time_code] 0 deadline d in
  (result, d).

Definition pop_time_code (c : device_context) : device_context :=
  dset_time_codes (dc_time_codes c)
    ((dc_time_code_head c + 1) mod DEVICE_TIME_CODE_QUEUE_DEPTH) (dc_time_code_count c - 1) c.

Definition device_receive_time_code d (time_code : spw_time_code) (timeout_us : Z)
    : Z * spw_time_code * device :=
  let '(deadline, d) := deadline_for timeout_us d in
  let '(result, d) := ensure_connected deadline d in
  if negb (result =? SPW_OK) then (result, time_code, d) else
  let '(result, d) :=
    service_until io_fuel (fun c => negb (Nat.eqb (dc_time_code_count c) 0)) deadline d in
  if negb (result =? SPW_OK) then (result, time_code, d) else
  (SPW_OK, dc_time_codes d.1 !!! dc_time_code_head d.1, upd pop_time_code d).

(** ** Readiness and statistics *)

Definition device_ready_events (c : device_context) (interests : Z) : Z :=
  (if negb (interests .& SPW_READY_RX_PACKET =? 0) && dc_rx_ready c
   then SPW_READY_RX_PACKET else SPW_READY_NONE) .|
  (if negb (interests .& SPW_READY_RX_TIME_CODE =? 0) && negb (Nat.eqb (dc_time_code_count c) 0)
   then SPW_READY_RX_TIME_CODE else SPW_READY_NONE).

Definition device_service_event (deadline : Z) d : Z * device :=
  service_record mark_disconnected deadline d.

Fixpoint device_wait_loop (fuel : nat) (interests deadline : Z) d : Z * Z * device :=
  match fuel with
  | O => let '(result, d) := lost d in (result, SPW_READY_NONE, d)
  | S fuel =>
      let '(result, d) := device_service_event deadline d in
      if negb (result =? SPW_OK) then (result, SPW_READY_NONE, d) else
      let ready := device_ready_events d.1 interests in
      if negb (ready =? SPW_READY_NONE) then (SPW_OK, ready, d)
      else device_wait_loop fuel interests deadline d
  end.

Definition device_wait d (interests timeout_us _ : Z) : Z * Z * device :=
  let '(deadline, d) := deadline_for timeout_us d in
  let ready := device_ready_events d.1 interests in
  if negb (ready =? SPW_READY_NONE) then (SPW_OK, ready, d) else
  let '(result, d) := ensure_connected deadline d in
  if negb (result =? SPW_OK) then (result, SPW_READY_NONE, d) else
  device_wait_loop io_fuel interests deadline d.

Definition statistics_of (wire : vspd_statistics_payload) : spw_statistics :=
  {| tx_packets := vs_tx_packets wire; rx_packets := vs_rx_packets wire;
     tx_bytes := vs_tx_bytes wire; rx_bytes := vs_rx_bytes wire;
     tx_time_codes := vs_tx_time_codes wire; rx_time_codes := vs_rx_time_codes wire;
     eep_packets := vs_eep_packets wire; link_errors := vs_link_errors wire;
     dropped_packets := vs_dropped_packets wire |}.

Definition device_get_statistics d (out : spw_statistics) : Z * spw_statistics * device :=
  let '(deadline, d) := deadline_for 250000 d in
  let '(result, d) := ensure_connected deadline d in
  if negb (result =? SPW_OK) then (result, out, d) else
  let '(result, payload, d) :=
    send_request VSPD_MSG_GET_STATISTICS [] VSPD_STATISTICS_PAYLOAD_SIZE deadline d in
  if negb (result =? SPW_OK) ||
     negb (Z.of_nat (length payload) =? VSPD_STATISTICS_PAYLOAD_SIZE)
  then (if result =? SPW_OK then SPW_ERR_BACKEND else result, out, d) else
  (SPW_OK, statistics_of (vspd_decode_statistics payload 0), d).

Definition device_clear_statistics d : Z * device :=
  request_simple VSPD_MSG_CLEAR_STATISTICS 250000 d.

Definition device_get_fault_statistics d (_ : spw_fault_statistics)
    : Z * spw_fault_statistics * device := (SPW_ERR_UNSUPPORTED, fault_statistics_zero, d).

Definition device_clear_fault_statistics d : Z * device := (SPW_ERR_UNSUPPORTED, d).

Definition unsupported_acquire_tx d (_ _ : Z) : Z * option nat * device :=
  (SPW_ERR_UNSUPPORTED, None, d).
Definition unsupported_submit_tx d (_ : nat) (_ : Z) : Z * device := (SPW_ERR_UNSUPPORTED, d).
Definition unsupported_reclaim_tx d (_ : Z) : Z * option nat * device :=
  (SPW_ERR_UNSUPPORTED, None, d).
Definition unsupported_release_tx d (_ : nat) : Z * device := (SPW_ERR_UNSUPPORTED, d).
Definition unsupported_acquire_rx d (_ : Z) : Z * option nat * device :=
  (SPW_ERR_UNSUPPORTED, None, d).
Definition unsupported_release_rx d (_ : nat) : Z * device := (SPW_ERR_UNSUPPORTED, d).

Definition DEVICE_OPS : spw_backend_ops device :=
  {| op_start := device_start;
     op_stop := device_stop;
     op_reset := device_reset;
     op_get_link_state := device_get_link_state;
     op_get_capabilities := device_get_capabilities;
     op_supports_zero_copy := Some device_supports_zero_copy;
     op_send := device_send;
     op_receive := device_receive;
     op_send_time_code := device_send_time_code;
     op_receive_time_code := device_receive_time_code;
     op_get_statistics := device_get_statistics;
     op_clear_statistics := device_clear_statistics;
     op_get_fault_statistics := Some device_get_fault_statistics;
     op_clear_fault_statistics := Some device_clear_fault_statistics;
     op_acquire_tx_buffer := Some unsupported_acquire_tx;
     op_submit_tx_buffer := Some unsupported_submit_tx;
     op_reclaim_tx_buffer := Some unsupported_reclaim_tx;
     op_release_tx_buffer := Some unsupported_release_tx;
     op_acquire_rx_buffer := Some unsupported_acquire_rx;
     op_release_rx_buffer := Some unsupported_release_rx;
     op_wait := Some device_wait |}.
End device.
