(* ===== verification/DeviceProps.v ===== *)
(** * The device backend: correctness

    The invariant of a device port over any socket behaviour, what it hands out,
    and that every record it sends is a valid request. *)

From S2P Require Import Prelude Types Posix VspwTp Ring Backend Loopback DriverApi PortConfig.
From S2P Require Import Port PortClient Vspd Device.

(** ** The context *)

(** The time-code queue; the code computes the tail from head and count. *)
Definition tc_ring (c : device_context) : ring spw_time_code :=
  Ring (dc_time_codes c) (dc_time_code_head c)
    ((dc_time_code_head c + dc_time_code_count c) mod DEVICE_TIME_CODE_QUEUE_DEPTH)
    (dc_time_code_count c).

Definition wire_time_code_ok (tc : spw_time_code) : Prop :=
  0 <= time_count tc <= 63 /\ 0 <= control_flags tc <= 3.

Record ctx_ok (c : device_context) : Prop := {
  co_state : SPW_LINK_ERROR_RESET <= dc_state c <= SPW_LINK_RUN;
  co_bytes : bytes_ok (dc_rx_data c);
  co_size : Z.of_nat (length (dc_rx_data c)) <= VSPD_MAX_LOGICAL_PACKET;
  co_rx : 0 <= dc_rx_next_offset c <= dc_rx_total_size c /\
          dc_rx_total_size c <= VSPD_MAX_LOGICAL_PACKET;
  co_ready : dc_rx_ready c = true ->
    dc_rx_active c = false /\ dc_rx_next_offset c = dc_rx_total_size c;
  co_terminator : valid_terminator (dc_rx_terminator c) = true;
  co_ring : ring_wf DEVICE_TIME_CODE_QUEUE_DEPTH (tc_ring c);
  co_time_codes : Forall wire_time_code_ok (ring_list (tc_ring c));
  co_ids : 0 <= dc_next_request_id c < 2 ^ 32 /\ 0 <= dc_next_message_id c < 2 ^ 32;
  co_port : 0 <= dev_port_id (dc_config c) < 2 ^ 32
}.

(** Updates that leave the packet and the time-codes alone. *)
Lemma session_ok fd state c : ctx_ok c -> SPW_LINK_ERROR_RESET <= state <= SPW_LINK_RUN ->
  ctx_ok (dset_session fd state c).
Proof. by intros [] Hs. Qed.

Lemma desired_ok v c : ctx_ok c -> ctx_ok (dset_desired_started v c).
Proof. by intros []. Qed.

Lemma set_capabilities_ok v c : ctx_ok c -> ctx_ok (dset_capabilities v c).
Proof. by intros []. Qed.

Lemma ids_ok request message c : ctx_ok c -> 0 <= request < 2 ^ 32 -> 0 <= message < 2 ^ 32 ->
  ctx_ok (dset_ids request message c).
Proof. by intros [] H1 H2. Qed.

Lemma clear_rx_ok c : ctx_ok c -> ctx_ok (clear_rx c).
Proof. intros []. constructor; try done. Qed.

Lemma clear_time_codes_ok c : ctx_ok c -> ctx_ok (clear_time_codes c).
Proof.
  intros []. constructor; try done. destruct co_ring0 as [Hl _ _ _ _].
  constructor; cbn; try done; unfold DEVICE_TIME_CODE_QUEUE_DEPTH; lia.
Qed.

Lemma zero_context_ok config : 0 <= dev_port_id config < 2 ^ 32 -> ctx_ok (zero_context config).
Proof.
  intros Hp. constructor; try done; [constructor|].
  apply (ring_empty_wf DEVICE_TIME_CODE_QUEUE_DEPTH zero_time_code).
  unfold DEVICE_TIME_CODE_QUEUE_DEPTH. lia.
Qed.

(** ** Time-codes *)

Lemma tc_ring_push c slots tc : length (dc_time_codes c) = DEVICE_TIME_CODE_QUEUE_DEPTH ->
  slots = <[((dc_time_code_head c + dc_time_code_count c) mod DEVICE_TIME_CODE_QUEUE_DEPTH)%nat
              := tc]> (dc_time_codes c) ->
  tc_ring (dset_time_codes slots (dc_time_code_head c) (dc_time_code_count c + 1) c) =
  ring_push (tc_ring c) tc.
Proof.
  intros Hl ->. unfold tc_ring, ring_push, ring_depth.
  cbn [r_slots r_head r_tail r_count dset_time_codes dc_time_codes dc_time_code_head
    dc_time_code_count]. f_equal. rewrite Hl, Nat.Div0.add_mod_idemp_l. f_equal. lia.
Qed.

Lemma tc_ring_pop c : length (dc_time_codes c) = DEVICE_TIME_CODE_QUEUE_DEPTH ->
  (0 < dc_time_code_count c)%nat -> tc_ring (pop_time_code c) = ring_pop (tc_ring c).
Proof.
  intros Hl Hc. unfold tc_ring, ring_pop, ring_depth, pop_time_code.
  cbn [r_slots r_head r_tail r_count dset_time_codes dc_time_codes dc_time_code_head
    dc_time_code_count]. rewrite Hl. f_equal. rewrite Nat.Div0.add_mod_idemp_l. f_equal. lia.
Qed.

Lemma queue_time_code_ok c payload : ctx_ok c ->
  wire_time_code_ok {| time_count := mem_get payload 0; control_flags := mem_get payload 1 |} ->
  ctx_ok (queue_time_code c payload).2.
Proof.
  intros Hc Htc. unfold queue_time_code. destruct (_ <=? _)%nat eqn:E; [done|].
  apply Nat.leb_gt in E. cbn [snd]. destruct Hc.
  pose proof (ring_len _ _ co_ring0) as Hl.
  constructor; try done; rewrite (tc_ring_push c _ _ Hl eq_refl).
  - by apply ring_push_wf.
  - rewrite (ring_list_push DEVICE_TIME_CODE_QUEUE_DEPTH) by done.
    apply Forall_app. split; [done|]. by constructor.
Qed.

Lemma pop_time_code_ok c : ctx_ok c -> (0 < dc_time_code_count c)%nat ->
  ctx_ok (pop_time_code c) /\ wire_time_code_ok (dc_time_codes c !!! dc_time_code_head c).
Proof.
  intros [] Hc. pose proof (ring_len _ _ co_ring0) as Hl.
  pose proof (ring_list_front _ _ co_ring0 Hc) as Hf. rewrite Hf in co_time_codes0.
  apply Forall_cons in co_time_codes0 as [H1 H2]. split; [|done].
  constructor; try done; rewrite (tc_ring_pop c Hl Hc); [by apply ring_pop_wf|done].
Qed.

(** ** Events *)

(** A valid record as [frame_header] accepts it. *)
Record record_ok (h : vspd_header) (payload : list Z) : Prop := {
  rk_frame : frame_ok h payload;
  rk_bytes : bytes_ok payload;
  rk_shape : vspd_validate_payload_shape h
    (if v_payload_size h =? 0 then None else Some payload) = VSPD_CODEC_OK
}.

Lemma frame_header_ok frame h : bytes_ok frame -> frame_header frame = Some h ->
  record_ok h (frame_payload frame).
Proof.
  intros Hb Hf. unfold frame_header in Hf.
  destruct (vspd_validate_frame _ _ _) as [r o] eqn:E. case_if_in Hf; [|done].
  apply Z.eqb_eq in E0 as ->. subst o.
  pose proof (validate_frame_inv _ _ _ _ E) as (Hn & Hh & Hc & Hsize & Hs).
  assert (bytes_ok (drop 40 frame)) as Hd by (by apply Forall_drop).
  change (frame_payload frame) with (drop 40 frame).
  constructor; [|done|done]. apply frame_accepted; try done.
  - rewrite Hh. by apply vspd_read_header_in_range.
  - rewrite length_drop. unfold VSPD_HEADER_SIZE in *. lia.
Qed.

(** A link state on the wire is one of the six. *)
Lemma wire_link_state h payload : record_ok h payload ->
  v_payload_size h = VSPD_LINK_STATE_PAYLOAD_SIZE ->
  (v_type h = VSPD_MSG_LINK_STATE_EVENT \/
   v_type h = VSPD_MSG_GET_LINK_STATE /\ vspd_flag h VSPD_FLAG_RESPONSE = true /\
   v_status h = VSPD_STATUS_OK) ->
  SPW_LINK_ERROR_RESET <= vspd_decode_u32_payload payload <= SPW_LINK_RUN.
Proof.
  intros [_ Hb Hs] Hsize Ht. rewrite Hsize in Hs. cbn [Z.eqb] in Hs.
  unfold vspd_validate_payload_shape in Hs. cbn zeta in Hs. case_if_in Hs; [lia|].
  unfold vspd_validate_content in Hs. rewrite Hsize in Hs. cbn zeta in Hs.
  pose proof (read_u32_range payload 0 Hb) as Hr.
  change (read_u32 payload 0) with (vspd_decode_u32_payload payload) in Hr.
  unfold SPW_LINK_ERROR_RESET, SPW_LINK_RUN.
  destruct Ht as [Ht|(Ht & Hf & Hst)]; rewrite Ht in Hs; [|rewrite Hf, Hst in Hs]; cbn in Hs;
    (case_if_in Hs; [done|]); unfold VSPD_LINK_RUN, vspd_decode_u32_payload in *; lia.
Qed.

Lemma event_payload_size h : vspd_header_in_range h = true ->
  vspd_validate_shape_fields h = VSPD_CODEC_OK -> vspd_flag h VSPD_FLAG_RESPONSE = false ->
  v_type h = VSPD_MSG_LINK_STATE_EVENT -> v_payload_size h = VSPD_LINK_STATE_PAYLOAD_SIZE.
Proof.
  intros Hr H Hf Ht. unfold vspd_validate_shape_fields in H. rewrite Hf, Ht in H. cbn in H.
  do 4 (case_if_in H; [done|]). by apply negb_false_iff, Z.eqb_eq in E2.
Qed.

Lemma begin_rx_ok c h c1 : ctx_ok c -> vspd_header_in_range h = true -> dc_rx_ready c = false ->
  begin_rx c h = Some c1 -> ctx_ok c1 /\ dc_rx_ready c1 = false /\ dc_rx_active c1 = true.
Proof.
  intros Hc Hr Hn Hb. unfold begin_rx in Hb.
  unfold vspd_header_in_range, in_width in Hr. split_andb.
  case_if_in Hb; (case_if_in Hb; [done|]); injection Hb as <-; split_andb.
  - split; [|done]. destruct Hc. constructor; try done; cbn; [lia|]. by rewrite Hn.
  - done.
Qed.

Lemma store_rx_ok c h payload : ctx_ok c -> bytes_ok payload -> dc_rx_ready c = false ->
  0 <= v_payload_size h <= dc_rx_total_size c - dc_rx_next_offset c ->
  Z.of_nat (length payload) = v_payload_size h ->
  ctx_ok (store_rx c h payload) /\
  dc_rx_next_offset (store_rx c h payload) = dc_rx_next_offset c + v_payload_size h.
Proof.
  intros [] Hb Hn Hsz Hl. unfold VSPD_MAX_LOGICAL_PACKET in *.
  assert (u32 (dc_rx_next_offset c + v_payload_size h) =
    dc_rx_next_offset c + v_payload_size h) as Hu by (apply wrap_small; lia).
  split; [|done]. constructor; try done; cbn [store_rx dset_rx dc_rx_data dc_rx_next_offset
    dc_rx_total_size dc_rx_ready]; rewrite ?Hu; try lia.
  - case_if; [|done]. apply bytes_ok_write; [done|]. by apply Forall_take.
  - case_if; [|done]. rewrite length_mem_write, length_take. unfold VSPD_MAX_LOGICAL_PACKET. lia.
  - unfold VSPD_MAX_LOGICAL_PACKET. lia.
  - by rewrite Hn.
Qed.

Lemma process_event_ok c h payload : ctx_ok c -> record_ok h payload ->
  vspd_flag h VSPD_FLAG_RESPONSE = false -> ctx_ok (process_event c h payload).2.
Proof.
  intros Hc Hk Hf. pose proof Hk as [Hfr Hb Hs]. pose proof (fo_range _ _ Hfr) as Hr.
  unfold process_event. case_if.
  { apply Z.eqb_eq in E. apply session_ok; [done|].
    apply (wire_link_state h); [done| |by left]. apply event_payload_size; try done.
    unfold vspd_validate_payload_shape in Hs. cbn zeta in Hs. case_if_in Hs; [congruence|lia]. }
  case_if.
  { apply Z.eqb_eq in E0. destruct (fo_time_code _ _ Hfr Hf (or_intror E0)) as (_ & H1 & H2).
    pose proof (bytes_ok_get payload 0 Hb). pose proof (bytes_ok_get payload 1 Hb).
    pose proof (queue_time_code_ok c payload Hc) as H3.
    destruct (queue_time_code c payload). apply H3. split; cbn; lia. }
  case_if; [|done]. destruct (dc_rx_ready c) eqn:En; [done|].
  destruct (begin_rx c h) as [c1|] eqn:Eb; [|done].
  destruct (begin_rx_ok c h c1 Hc Hr En Eb) as (Hc1 & Hn1 & _). case_if; [by apply clear_rx_ok|].
  split_andb. pose proof (co_rx _ Hc1) as [Hrx Hmax]. pose proof Hr as Hr'.
  unfold vspd_header_in_range, in_width in Hr'. split_andb. unfold VSPD_MAX_LOGICAL_PACKET in Hmax.
  rewrite wrap_small in * by lia.
  destruct (store_rx_ok c1 h payload Hc1 Hb Hn1) as [Hc2 Hnext]; [lia|apply Hfr|].
  case_if; [|done]. case_if; [by apply clear_rx_ok|].
  destruct Hc2. constructor; try done; cbn [finish_rx dset_rx dc_rx_ready dc_rx_active
    dc_rx_next_offset dc_rx_total_size dc_rx_terminator].
  - intros _. split; [done|]. by apply negb_false_iff, Z.eqb_eq in E3.
  - cbn [snd finish_rx dset_rx dc_rx_terminator]. by case_if.
Qed.

(** ** Records a client sends

    A request of this protocol; it is valid unless its number, or the number of
    its packet, is zero, or the packet it announces is above 1 MiB. *)

Record request_record (h : vspd_header) (payload : list Z) : Prop := {
  rr_range : vspd_header_in_range h = true;
  rr_common : vspd_validate_common h = VSPD_CODEC_OK;
  rr_bytes : bytes_ok payload;
  rr_size : Z.of_nat (length payload) = v_payload_size h;
  rr_request : vspd_flag h VSPD_FLAG_RESPONSE = false;
  rr_valid : v_request_id h <> 0 ->
    (v_type h = VSPD_MSG_DATA_TX ->
     v_message_id h <> 0 /\ v_total_size h <= VSPD_MAX_LOGICAL_PACKET) ->
    valid_record h payload
}.

Definition sendable (data : list Z) : Prop :=
  exists h payload, data = vspd_header_bytes h ++ payload /\ request_record h payload.

Lemma mem_write_after (bytes payload : list Z) n : length bytes = n ->
  mem_write bytes n payload = bytes ++ payload.
Proof.
  intros <-. rewrite <- (app_nil_r bytes) at 1. rewrite mem_write_app by done.
  by rewrite drop_nil, app_nil_r.
Qed.

Lemma encoded_record h payload : vspd_validate_common h = VSPD_CODEC_OK ->
  vspd_encode_header h [] = (VSPD_CODEC_OK, vspd_header_bytes h) /\
  mem_write (vspd_header_bytes h) (Z.to_nat VSPD_HEADER_SIZE) payload = vspd_header_bytes h ++ payload.
Proof.
  intros Hc. rewrite vspd_encode_header_bytes by done. rewrite drop_nil, app_nil_r.
  split; [done|]. by apply mem_write_after.
Qed.

(** The requests other than DATA: a number above zero makes them valid. *)
Definition request_valid (type : Z) (payload : list Z) : Prop :=
  valid_record (request_header type (Z.of_nat (length payload)) 1 0) payload /\ bytes_ok payload.

Lemma request_is_record type payload id port : request_valid type payload ->
  0 <= id < 2 ^ 32 -> 0 <= port < 2 ^ 32 ->
  request_record (request_header type (Z.of_nat (length payload)) id port) payload.
Proof.
  intros [[Hr Hc Hl Hs] Hb] Hid Hport. set (n := Z.of_nat (length payload)) in *.
  assert (vspd_header_in_range (request_header type n id port) = true) as Hr'.
  { unfold vspd_header_in_range, in_width in *. cbn [request_header v_magic v_version_major
      v_version_minor v_type v_flags v_header_size v_reserved v_payload_size v_request_id v_port_id
      v_message_id v_fragment_offset v_total_size v_status] in *. split_andb. lia. }
  constructor; try done. intros Hnz _. constructor; try done. cbn [request_header v_request_id] in Hnz.
  rewrite <- Hs. cbn [request_header v_payload_size]. unfold vspd_validate_payload_shape.
  replace (vspd_validate_shape_fields (request_header type n id port))
    with (vspd_validate_shape_fields (request_header type n 1 0)); [done|].
  unfold vspd_validate_shape_fields. cbn [request_header v_request_id].
  by replace (id =? 0) with false by lia.
Qed.

Definition plain_types : list Z :=
  [VSPD_MSG_ATTACH; VSPD_MSG_DETACH; VSPD_MSG_START; VSPD_MSG_STOP; VSPD_MSG_RESET;
   VSPD_MSG_GET_LINK_STATE; VSPD_MSG_GET_CAPABILITIES; VSPD_MSG_GET_STATISTICS;
   VSPD_MSG_CLEAR_STATISTICS].

Lemma plain_valid type : existsb (Z.eqb type) plain_types = true -> request_valid type [].
Proof.
  intros H. split; [|constructor]. apply existsb_exists in H as (x & Hx & ->%Z.eqb_eq).
  cbn in Hx. repeat (destruct Hx as [<-|Hx]; [by constructor|]). done.
Qed.

Lemma hello_valid : request_valid VSPD_MSG_HELLO hello_payload.
Proof. split; [by constructor|]. by apply bytes_ok_check. Qed.

Lemma time_code_valid tc : wire_time_code_ok tc ->
  request_valid VSPD_MSG_TIME_CODE_TX [time_count tc; control_flags tc].
Proof.
  intros [H1 H2]. split; [constructor; try done|].
  - assert ((63 <? time_count tc) || (3 <? control_flags tc) = false) as E by lia.
    change (vspd_validate_content (request_header VSPD_MSG_TIME_CODE_TX 2 1 0)
      [time_count tc; control_flags tc] = VSPD_CODEC_OK).
    unfold vspd_validate_content.
    change (mem_get [time_count tc; control_flags tc] 0) with (time_count tc).
    change (mem_get [time_count tc; control_flags tc] 1) with (control_flags tc). by rewrite E.
  - apply Forall_cons; split; [lia|]. apply Forall_singleton. lia.
Qed.

(** The size of the next fragment. *)
Definition fragment_size (p : spw_packet) (offset : Z) : Z :=
  Z.min (u32 (pkt_length p) - offset) VSPD_MAX_FRAME_PAYLOAD.

Definition is_final (p : spw_packet) (offset : Z) : bool :=
  offset + fragment_size p offset =? u32 (pkt_length p).

Lemma fragment_flags config request message p offset chunk fin :
  let h := fragment_header config request message p offset chunk fin in
  0 <= v_flags h < 32 /\ vspd_flag h VSPD_FLAG_RESPONSE = false /\
  vspd_flag h VSPD_FLAG_FRAGMENT_START = (offset =? 0) /\
  vspd_flag h VSPD_FLAG_FRAGMENT_END = fin /\
  (if fin then eqb (vspd_flag h VSPD_FLAG_EOP) (vspd_flag h VSPD_FLAG_EEP)
   else vspd_flag h VSPD_FLAG_EOP || vspd_flag h VSPD_FLAG_EEP) = false /\
  v_flags h .& u8 (Z.lnot VSPD_FLAG_KNOWN_MASK) = 0.
Proof.
  cbn zeta. unfold vspd_flag, fragment_header. cbn [v_flags].
  destruct (offset =? 0), fin, (pkt_terminator p =? SPW_TERMINATOR_EEP); by vm_compute.
Qed.

Lemma fragment_is_record config request message p offset payload :
  0 <= dev_port_id config < 2 ^ 32 -> 0 <= request < 2 ^ 32 -> 0 <= message < 2 ^ 32 ->
  0 <= offset <= u32 (pkt_length p) -> (offset = u32 (pkt_length p) -> offset = 0) ->
  bytes_ok payload -> Z.of_nat (length payload) = fragment_size p offset ->
  request_record (fragment_header config request message p offset (fragment_size p offset)
    (is_final p offset)) payload.
Proof.
  intros Hport Hreq Hmes Ho Hend Hb Hl.
  pose proof (fragment_flags config request message p offset (fragment_size p offset)
    (is_final p offset)) as (Gr & Gresp & Gstart & Gend & Gterm & Gmask).
  set (h := fragment_header _ _ _ _ _ _ _) in *.
  assert (v_type h = VSPD_MSG_DATA_TX /\ v_payload_size h = fragment_size p offset /\
    v_port_id h = dev_port_id config /\ v_message_id h = message /\
    v_fragment_offset h = offset /\ v_total_size h = u32 (pkt_length p) /\
    v_request_id h = request /\ v_status h = 0) as (Ft & Fp & Fport & Fm & Fo & Ftot & Fr & Fs)
    by done.
  pose proof (wrap_bounds 32 (pkt_length p) ltac:(lia)) as Hw.
  assert (vspd_header_in_range h = true) as Hr.
  { unfold vspd_header_in_range, in_width. rewrite Ft, Fp, Fport, Fm, Fo, Ftot, Fr, Fs.
    cbn [h fragment_header v_magic v_version_major v_version_minor v_header_size v_reserved].
    unfold VSPD_MAGIC, VSPD_VERSION_MAJOR, VSPD_VERSION_MINOR, VSPD_HEADER_SIZE,
      VSPD_MSG_DATA_TX, fragment_size in *. lia. }
  assert (vspd_validate_common h = VSPD_CODEC_OK) as Hc.
  { unfold vspd_validate_common. rewrite Ft, Fp, Gmask.
    cbn [h fragment_header v_magic v_version_major v_version_minor v_header_size v_reserved].
    rewrite !Z.eqb_refl. cbn [negb orb].
    change (vspd_type_valid VSPD_MSG_DATA_TX) with true. cbn [negb Z.eqb].
    unfold fragment_size. case_if; [lia|done]. }
  constructor; try done. intros Hnz HM. destruct (HM Ft) as [Hm HT]. rewrite Fm, Ftot in *.
  constructor; try done. unfold vspd_validate_payload_shape.
  assert (vspd_validate_shape_fields h = VSPD_CODEC_OK) as ->.
  { unfold vspd_validate_shape_fields. rewrite Gresp, Fs, Ft.
    change (vspd_type_is_event VSPD_MSG_DATA_TX) with false. cbn [negb Z.eqb orb VSPD_STATUS_OK].
    replace (v_request_id h =? 0) with false by lia. rewrite Z.eqb_refl. cbn [orb].
    unfold vspd_validate_data_shape.
    rewrite Fm, Ftot, Fo, Fp, Gstart, Gend, Gterm. unfold is_final, fragment_size in *.
    unfold VSPD_MAX_LOGICAL_PACKET, VSPD_MAX_FRAME_PAYLOAD in *. rewrite (wrap_small 64) by lia.
    replace (message =? 0) with false by lia.
    replace (1024 * 1024 <? u32 (pkt_length p)) with false by lia. cbn [orb].
    replace (u32 (pkt_length p) <? _) with false by lia.
    rewrite !xorb_nilpotent. destruct (u32 (pkt_length p) =? 0) eqn:E0; (case_if; [exfalso; lia|done]). }
  cbn [negb Z.eqb VSPD_CODEC_OK]. destruct (v_payload_size h =? 0); [done|].
  unfold vspd_validate_content. by rewrite Ft.
Qed.

(** What a system call may do to the world: [J] is kept, by a send if the record
    is a request, and what recv stores are bytes. *)
Class DevContract {W : Type} (os : dev_os W) (J : W -> Prop) : Prop := {
  dv_socket : forall w, J w -> J (do_socket os w).2;
  dv_connect : forall fd path w, J w -> J (do_connect os fd path w).2;
  dv_poll : forall fd events ms w, J w -> J (do_poll os fd events ms w).2;
  dv_send : forall fd data w, J w -> sendable data -> J (do_send os fd data w).2;
  dv_recv : forall fd capacity w, J w -> J (do_recv os fd capacity w).2;
  dv_bytes : forall fd capacity w, J w -> bytes_ok (do_recv os fd capacity w).1.2;
  dv_close : forall fd w, J w -> J (do_close os fd w);
  dv_clock : forall w, J w -> J (do_clock_gettime os w).2
}.

Section props.
Context {W : Type} (os : dev_os W) (J : W -> Prop) `{!DevContract os J} (io_fuel : nat).
Implicit Types (d : device (W := W)).

Definition dev_ok d : Prop := ctx_ok d.1 /\ J d.2.

(** ** The socket

    A call on the socket changes nothing of the context, or the connection is
    lost and with it what was being received. *)
Definition dropped d d' : Prop :=
  (J d.2 -> J d'.2) /\
  (d'.1 = d.1 \/ d'.1 = clear_time_codes (clear_rx (dset_session (-1) SPW_LINK_ERROR_WAIT d.1))).

Lemma dropped_refl d w : (J d.2 -> J w) -> dropped d (d.1, w).
Proof. intros H. split; [done|by left]. Qed.

Lemma mark_disconnected_dropped d : dropped d (mark_disconnected os d).
Proof.
  unfold mark_disconnected. case_if; (split; [|by right]); intros HJ; [|done].
  by apply dv_close.
Qed.

Lemma dropped_ok d d' : dev_ok d -> dropped d d' -> dev_ok d'.
Proof.
  intros [H HJ] [Hw [E|E]]; (split; [|by apply Hw]); rewrite E; [done|].
  by apply clear_time_codes_ok, clear_rx_ok, session_ok.
Qed.

Lemma mark_disconnected_ok d : dev_ok d -> dev_ok (mark_disconnected os d).
Proof. intros H. apply (dropped_ok d); [done|apply mark_disconnected_dropped]. Qed.

(** Steps that leave the context alone come first. *)
Definition same_context d d' : Prop := d'.1 = d.1 /\ (J d.2 -> J d'.2).

Lemma same_dropped d d1 d2 : same_context d d1 -> dropped d1 d2 -> dropped d d2.
Proof. intros [E H] [Hw Hc]. split; [auto|]. by rewrite <- E. Qed.

Lemma same_ok d d' : dev_ok d -> same_context d d' -> dev_ok d'.
Proof. intros [H HJ] [E Hw]. split; [by rewrite E|auto]. Qed.

Lemma monotonic_same d : same_context d (monotonic_us os d).2.
Proof.
  unfold monotonic_us. pose proof (dv_clock d.2) as H.
  by destruct (do_clock_gettime os d.2) as [[[? ?] ?] ?].
Qed.

Lemma deadline_same t d : same_context d (deadline_for os t d).2.
Proof.
  unfold deadline_for. case_if; [done|]. pose proof (monotonic_same d) as H.
  destruct (monotonic_us os d) as [now d']. by case_if.
Qed.

Lemma poll_timeout_same t d : same_context d (poll_timeout_ms os t d).2.
Proof.
  unfold poll_timeout_ms. case_if; [done|]. pose proof (monotonic_same d) as H.
  destruct (monotonic_us os d) as [now d']. case_if; [done|]. by case_if.
Qed.

Lemma wait_fd_dropped fuel events deadline : forall d,
  let '(r, d') := wait_fd os fuel events deadline d in
  dropped d d' /\ (r = SPW_OK -> same_context d d').
Proof.
  induction fuel as [|fuel IH]; intros d; cbn [wait_fd].
  { split; [apply mark_disconnected_dropped|done]. }
  pose proof (poll_timeout_same deadline d) as H.
  destruct (poll_timeout_ms os deadline d) as [ms d1]. cbn [snd] in H.
  pose proof (dv_poll (dc_fd d1.1) events ms d1.2) as Hp.
  destruct (do_poll os (dc_fd d1.1) events ms d1.2) as [[result revents] w]. cbn [snd] in Hp.
  assert (same_context d (d1.1, w)) as Hs by (destruct H as [E H]; split; [done|auto]).
  assert (dropped d (mark_disconnected os (d1.1, w))) as Hl
    by (eapply same_dropped; [done|apply mark_disconnected_dropped]).
  assert (dropped d (d1.1, w)) as Hn by (destruct Hs; split; [done|by left]).
  specialize (IH (d1.1, w)). repeat case_if; try done.
  - destruct (wait_fd os fuel events deadline (d1.1, w)) as [r d2]. destruct IH as [I1 I2].
    split; [by eapply same_dropped|]. intros Hr. destruct (I2 Hr), Hs. split; [congruence|auto].
  - destruct (wait_fd os fuel events deadline (d1.1, w)) as [r d2]. destruct IH as [I1 I2].
    split; [by eapply same_dropped|]. intros Hr. destruct (I2 Hr), Hs. split; [congruence|auto].
Qed.

Lemma io_retry_dropped events deadline d :
  let '(r, d') := io_retry os io_fuel events deadline d in
  dropped d d' /\ (r = None -> same_context d d') /\ r <> Some SPW_OK.
Proof.
  unfold io_retry. case_if.
  - case_if; [|split; [|done]; by split; [|left]].
    pose proof (poll_timeout_same deadline d) as H.
    destruct (poll_timeout_ms os deadline d) as [ms d']. cbn [snd] in H.
    split; [destruct H; split; [done|by left]|]. by case_if.
  - case_if; [|split; [apply mark_disconnected_dropped|done]].
    pose proof (wait_fd_dropped io_fuel events deadline d) as H.
    destruct (wait_fd os io_fuel events deadline d) as [r d']. destruct H as [H1 H2].
    split; [done|]. case_if; [|apply negb_false_iff, Z.eqb_eq in E1; by split; [auto|]].
    split; [done|]. intros [= ->]. done.
Qed.

Lemma send_record_dropped data deadline : sendable data -> forall fuel d,
  let '(r, d') := send_record_loop os io_fuel fuel data deadline d in
  dropped d d' /\ (r = SPW_OK -> same_context d d').
Proof.
  intros Hdata. induction fuel as [|fuel IH]; intros d; cbn [send_record_loop].
  { split; [apply mark_disconnected_dropped|done]. }
  pose proof (dv_send (dc_fd d.1) data d.2) as Hs.
  destruct (do_send os (dc_fd d.1) data d.2) as [sent w]. cbn [snd] in Hs.
  assert (same_context d (d.1, w)) as Hw by (split; auto).
  case_if; [by split; [split; [apply Hw|left]|]|].
  case_if; [split; [|done]; eapply same_dropped; [done|apply mark_disconnected_dropped]|].
  pose proof (io_retry_dropped POLLOUT deadline (d.1, w)) as H.
  destruct (io_retry os io_fuel POLLOUT deadline (d.1, w)) as [[r|] d1].
  - destruct H as (H1 & _ & H2). split; [by eapply same_dropped|]. congruence.
  - destruct H as (_ & H2 & _). specialize (H2 eq_refl).
    assert (same_context d d1) as Hd1 by (destruct H2, Hw; split; [congruence|auto]).
    specialize (IH d1). destruct (send_record_loop _ _ _ _ _ d1) as [r d2].
    destruct IH as [I1 I2]. split; [by eapply same_dropped|]. intros Hr.
    destruct (I2 Hr), Hd1. split; [congruence|auto].
Qed.

Lemma receive_record_dropped capacity deadline : forall fuel d, J d.2 ->
  let '(r, frame, d') := receive_record_loop os io_fuel fuel capacity deadline d in
  dropped d d' /\ bytes_ok frame.
Proof.
  induction fuel as [|fuel IH]; intros d HJ; cbn [receive_record_loop].
  { split; [apply mark_disconnected_dropped|constructor]. }
  pose proof (dv_recv (dc_fd d.1) capacity d.2) as Hs.
  pose proof (dv_bytes (dc_fd d.1) capacity d.2 HJ) as Hb.
  destruct (do_recv os (dc_fd d.1) capacity d.2) as [[received bytes] w]. cbn [fst snd] in Hb, Hs.
  assert (same_context d (d.1, w)) as Hw by (split; auto).
  case_if; [by split; [split; [apply Hw|left]|apply Forall_take]|].
  case_if; [split; [|constructor]; eapply same_dropped; [done|apply mark_disconnected_dropped]|].
  pose proof (io_retry_dropped POLLIN deadline (d.1, w)) as H.
  destruct (io_retry os io_fuel POLLIN deadline (d.1, w)) as [[r|] d1].
  - destruct H as (H1 & _ & H2). split; [by eapply same_dropped|constructor].
  - destruct H as (_ & H2 & _). specialize (H2 eq_refl).
    assert (same_context d d1) as Hd1 by (destruct H2, Hw; split; [congruence|auto]).
    specialize (IH d1 (proj2 Hd1 HJ)). destruct (receive_record_loop _ _ _ _ _ d1) as [[r frame] d2].
    destruct IH as [I1 I2]. split; [by eapply same_dropped|done].
Qed.

(** ** Requests *)

(** The response of a request of the given type. *)
Definition responds (type status : Z) (payload : list Z) : Prop :=
  exists h, record_ok h payload /\ vspd_flag h VSPD_FLAG_RESPONSE = true /\
    v_type h = type /\ v_status h = status.

Lemma wait_response_ok fuel type id capacity deadline : forall d, dev_ok d ->
  let '(r, status, payload, d') := wait_response_loop os io_fuel fuel type id capacity deadline d in
  dev_ok d' /\ (r = SPW_OK -> responds type status payload).
Proof.
  induction fuel as [|fuel IH]; intros d Hd; cbn [wait_response_loop].
  { split; [by apply mark_disconnected_ok|done]. }
  pose proof (receive_record_dropped FRAME_CAPACITY deadline io_fuel d (proj2 Hd)) as H.
  unfold receive_record. destruct (receive_record_loop _ _ _ _ _ _) as [[r frame] d1].
  destruct H as [H1 Hb]. pose proof (dropped_ok d d1 Hd H1) as Hd1.
  case_if; [split; [done|]; intros ->; done|].
  destruct (frame_header frame) as [h|] eqn:Eh; [|by split; [apply mark_disconnected_ok|]].
  pose proof (frame_header_ok frame h Hb Eh) as Hk.
  destruct (vspd_flag h VSPD_FLAG_RESPONSE) eqn:Ef.
  - case_if; [by split; [apply mark_disconnected_ok|]|]. case_if; [done|].
    split; [done|]. intros _. exists h. split_andb.
    split; [done|]. split; [done|]. split; [by apply Z.eqb_eq|done].
  - pose proof (process_event_ok d1.1 h (frame_payload frame) (proj1 Hd1) Hk Ef) as Hc.
    destruct (process_event d1.1 h (frame_payload frame)) as [r' c]. cbn [snd] in Hc.
    assert (dev_ok (c, d1.2)) as Hd2 by (by split; [|apply Hd1]).
    case_if; [split; [done|]; intros ->; done|]. by apply (IH (c, d1.2)).
Qed.

Lemma status_ok status : status_to_result status = SPW_OK -> status = VSPD_STATUS_OK.
Proof. unfold status_to_result. intros H. repeat (case_if_in H; try done). lia. Qed.

Lemma upd_ok f d : dev_ok d -> (ctx_ok d.1 -> ctx_ok (f d.1)) -> dev_ok (upd f d).
Proof. intros [H HJ] Hf. by split; [apply Hf|]. Qed.

Lemma take_request_id_ok d : dev_ok d ->
  0 <= (take_request_id d).1 < 2 ^ 32 /\ dev_ok (take_request_id d).2.
Proof.
  intros Hd. split; [apply (co_ids _ (proj1 Hd))|]. apply upd_ok; [done|]. intros Hc.
  apply ids_ok; [done|apply wrap_bounds; lia|apply Hc].
Qed.

Lemma send_request_ok type payload capacity deadline d : request_valid type payload -> dev_ok d ->
  let '(r, response, d') := send_request os io_fuel type payload capacity deadline d in
  dev_ok d' /\ (r = SPW_OK -> responds type VSPD_STATUS_OK response).
Proof.
  intros Hv Hd. unfold send_request. pose proof (take_request_id_ok d Hd) as [Hid Hd1].
  destruct (take_request_id d) as [id d1]. cbn [fst snd] in Hid, Hd1. case_if; [done|].
  pose proof (request_is_record type payload id _ Hv Hid (co_port _ (proj1 Hd1))) as Hr.
  destruct (encoded_record _ payload (rr_common _ _ Hr)) as [-> ->]. cbn [negb Z.eqb VSPD_CODEC_OK].
  match goal with |- context [send_record _ _ ?f _ _] => set (record := f) end.
  assert (sendable record) as Hrec by (eexists _, _; done). clearbody record.
  pose proof (send_record_dropped record deadline Hrec io_fuel d1) as H.
  unfold send_record. destruct (send_record_loop _ _ _ _ _ _) as [r d2]. destruct H as [H _].
  pose proof (dropped_ok d1 d2 Hd1 H) as Hd2.
  case_if; [split; [done|]; intros ->; done|].
  pose proof (wait_response_ok io_fuel type id capacity deadline d2 Hd2) as H'. unfold wait_response.
  destruct (wait_response_loop _ _ _ _ _ _ _ _) as [[[r' status] response] d3].
  destruct H' as [Hd3 Hresp]. split; [done|]. case_if; [|intros ->; done].
  intros Hs. apply status_ok in Hs as ->. apply Hresp. lia.
Qed.

Lemma plain_request_ok type deadline d : request_valid type [] -> dev_ok d ->
  dev_ok (plain_request os io_fuel type deadline d).2.
Proof.
  intros Hv Hd. unfold plain_request. pose proof (send_request_ok type [] 0 deadline d Hv Hd) as H.
  destruct (send_request _ _ _ _ _ _ _) as [[r response] d']. apply H.
Qed.

(** ** The session *)

Lemma connect_session_ok deadline d : dev_ok d -> dev_ok (connect_session os io_fuel deadline d).2.
Proof.
  intros Hd. unfold connect_session. pose proof (dv_socket d.2 (proj2 Hd)) as Hw.
  destruct (do_socket os d.2) as [fd w]. cbn [snd] in Hw.
  assert (ctx_ok (dset_fd fd d.1)) as Hc by (apply session_ok; apply Hd).
  case_if; [done|]. pose proof (dv_connect fd (endpoint_path (dc_config d.1)) w Hw) as Hw1.
  destruct (do_connect os fd _ _) as [connected w1]. cbn [snd] in Hw1.
  assert (dev_ok (dset_fd fd d.1, w1)) as Hd1 by done.
  case_if; [by apply mark_disconnected_ok|].
  match goal with |- context [send_request _ _ VSPD_MSG_HELLO ?p ?k ?dl ?d0] =>
    pose proof (send_request_ok VSPD_MSG_HELLO p k dl d0 hello_valid Hd1) as H end.
  destruct (send_request _ _ VSPD_MSG_HELLO _ _ _ _) as [[r1 resp1] d2]. destruct H as [Hd2 _].
  case_if; [by apply mark_disconnected_ok|].
  pose proof (plain_request_ok VSPD_MSG_ATTACH deadline d2 ltac:(by apply plain_valid) Hd2) as Hd3.
  destruct (plain_request _ _ VSPD_MSG_ATTACH _ _) as [r2 d3]. cbn [snd] in Hd3.
  case_if; [by apply mark_disconnected_ok|].
  assert (dev_ok (upd (fun c => clear_time_codes (clear_rx (dset_state SPW_LINK_ERROR_RESET c))) d3))
    as Hd4 by (apply upd_ok; [done|]; intros; by apply clear_time_codes_ok, clear_rx_ok, session_ok).
  match goal with |- context [send_request _ _ VSPD_MSG_GET_CAPABILITIES ?p ?k ?dl ?d0] =>
    pose proof (send_request_ok VSPD_MSG_GET_CAPABILITIES p k dl d0 ltac:(by apply plain_valid) Hd4) as H end.
  destruct (send_request _ _ VSPD_MSG_GET_CAPABILITIES _ _ _ _) as [[r4 resp4] d5].
  destruct H as [Hd5 _]. case_if; [by apply mark_disconnected_ok|].
  assert (dev_ok (upd (dset_capabilities (capabilities_of (vspd_decode_capabilities resp4))) d5))
    as Hd6 by (apply upd_ok; [done|apply set_capabilities_ok]).
  case_if; [|done]. pose proof (plain_request_ok VSPD_MSG_START deadline _ ltac:(by apply plain_valid) Hd6) as Hd7.
  destruct (plain_request _ _ VSPD_MSG_START _ _) as [r7 d7]. cbn [snd] in Hd7.
  case_if; [by apply mark_disconnected_ok|done].
Qed.

Lemma ensure_connected_ok deadline d : dev_ok d -> dev_ok (ensure_connected os io_fuel deadline d).2.
Proof. intros Hd. unfold ensure_connected. case_if; [done|]. by apply connect_session_ok. Qed.

(** The common start of the operations: a deadline and a session. *)
Lemma session_start {R} t d (failed : Z -> device -> R) (go : Z -> device -> R) (Q : R -> Prop) :
  dev_ok d -> (forall r d', dev_ok d' -> r <> SPW_OK -> Q (failed r d')) ->
  (forall deadline d', dev_ok d' -> Q (go deadline d')) ->
  Q (let '(deadline, d) := deadline_for os t d in
     let '(result, d) := ensure_connected os io_fuel deadline d in
     if negb (result =? SPW_OK) then failed result d else go deadline d).
Proof.
  intros Hd Hf Hg. pose proof (deadline_same t d) as H.
  destruct (deadline_for os t d) as [deadline d1]. cbn [snd] in H.
  pose proof (same_ok _ _ Hd H) as Hd1.
  pose proof (ensure_connected_ok deadline d1 Hd1) as Hd2.
  destruct (ensure_connected _ _ _ _) as [r d2]. cbn [snd] in Hd2.
  case_if; [|by apply Hg]. apply Hf; [done|]. intros ->. done.
Qed.

Lemma request_simple_ok type t d : request_valid type [] -> dev_ok d ->
  dev_ok (request_simple os io_fuel type t d).2.
Proof.
  intros Hv Hd. unfold request_simple.
  apply (session_start t d (fun r d => (r, d)) (fun dl d => plain_request os io_fuel type dl d)
    (fun x => dev_ok x.2)); [done|done|]. intros. by apply plain_request_ok.
Qed.

(** ** Operations *)

(** The arithmetic of the loop at an offset inside the packet. *)
Definition inside (p : spw_packet) (offset : Z) : Prop :=
  0 <= offset <= u32 (pkt_length p) /\ (offset = u32 (pkt_length p) -> offset = 0).

Lemma fragment_cut p offset : inside p offset -> 0 <= pkt_length p ->
  let remaining := u32 (u32 (pkt_length p) - offset) in
  let chunk := if VSPD_MAX_FRAME_PAYLOAD <? remaining then VSPD_MAX_FRAME_PAYLOAD else remaining in
  chunk = fragment_size p offset /\ 0 <= chunk /\ u32 (offset + chunk) = offset + chunk /\
  (pkt_length p =? 0) || (u32 (offset + chunk) =? u32 (pkt_length p)) = is_final p offset /\
  (is_final p offset = false -> 0 < chunk /\ inside p (offset + chunk) /\ offset + chunk < pkt_length p).
Proof.
  intros [Ho Hend] Hp. pose proof (wrap_bounds 32 (pkt_length p) ltac:(lia)) as Hw.
  assert (u32 (pkt_length p) <= pkt_length p) as Hle by (apply Z.mod_le; lia).
  cbn zeta. rewrite (wrap_small 32 (u32 _ - _)) by lia. unfold is_final, fragment_size, inside.
  unfold VSPD_MAX_FRAME_PAYLOAD in *.
  set (chunk := if _ <? _ then _ else _).
  assert (chunk = Z.min (u32 (pkt_length p) - offset) (32 * 1024)) as Hc
    by (unfold chunk; case_if; lia). clearbody chunk. rewrite (wrap_small 32 (_ + _)) by lia.
  rewrite <- Hc. assert (pkt_length p = 0 -> u32 (pkt_length p) = 0) as H0 by (by intros ->).
  split_and!; try done; try lia.
Qed.

Lemma send_fragments_ok fuel request message p deadline :
  bytes_ok (default [] (pkt_data p)) -> 0 <= pkt_length p ->
  0 <= request < 2 ^ 32 -> 0 <= message < 2 ^ 32 ->
  forall offset d, inside p offset -> dev_ok d ->
  dev_ok (send_fragments os io_fuel fuel request message p offset deadline d).2.
Proof.
  intros Hb Hp Hr Hm. induction fuel as [|fuel IH]; intros offset d Ho Hd; cbn [send_fragments]; [done|].
  destruct (fragment_cut p offset Ho Hp) as (Hchunk & Hc0 & Hnext & -> & Hgo).
  set (chunk := if VSPD_MAX_FRAME_PAYLOAD <? _ then _ else _) in *.
  clearbody chunk. rewrite Hnext.
  set (payload := mem_read _ _ (Z.to_nat chunk)).
  assert (bytes_ok payload) as Hbp by (by apply bytes_ok_read).
  assert (Z.of_nat (length payload) = fragment_size p offset) as Hl
    by (unfold payload; rewrite length_mem_read; lia).
  pose proof (fragment_is_record (dc_config d.1) request message p offset payload
    (co_port _ (proj1 Hd)) Hr Hm (proj1 Ho) (proj2 Ho) Hbp Hl) as Hrec. rewrite <- Hchunk in Hrec.
  destruct (encoded_record _ payload (rr_common _ _ Hrec)) as [-> ->].
  cbn [negb Z.eqb VSPD_CODEC_OK].
  match goal with |- context [send_record _ _ ?f _ _] => set (record := f) end.
  assert (sendable record) as Hs by (eexists _, _; done). clearbody record.
  pose proof (send_record_dropped record deadline Hs io_fuel d) as H.
  unfold send_record. destruct (send_record_loop _ _ _ _ _ _) as [r d1]. destruct H as [H _].
  pose proof (dropped_ok d d1 Hd H) as Hd1. case_if; [done|]. destruct (is_final p offset).
  - pose proof (wait_response_ok io_fuel VSPD_MSG_DATA_TX request 0 deadline d1 Hd1) as H'.
    unfold wait_response. destruct (wait_response_loop _ _ _ _ _ _ _ _) as [[[? ?] ?] d2].
    apply H'.
  - case_if; [|done]. apply IH; [|done]. by apply Hgo.
Qed.

Lemma device_send_ok d p t : dev_ok d -> tx_packet_ok p = true ->
  bytes_ok (default [] (pkt_data p)) -> dev_ok (device_send os io_fuel d p t).2.
Proof.
  intros Hd Hp Hb. unfold device_send.
  apply (session_start t d (fun r d => (r, d))
    (fun dl d => send_fragments os io_fuel (tx_fragment_count (pkt_length p))
       (dc_next_request_id d.1) (dc_next_message_id d.1) p 0 dl
       (upd (dset_ids (u32 (dc_next_request_id d.1 + 1)) (u32 (dc_next_message_id d.1 + 1))) d))
    (fun x => dev_ok x.2)); [done|done|].
  intros deadline d' Hd'. pose proof (co_ids _ (proj1 Hd')) as [Hr Hm].
  pose proof (wrap_bounds 32 (pkt_length p) ltac:(lia)) as Hw.
  apply send_fragments_ok; try done; [unfold tx_packet_ok in Hp; split_andb; lia|by split; [lia|]|].
  apply upd_ok; [done|]. intros. apply ids_ok; [done|..]; apply wrap_bounds; lia.
Qed.

Lemma service_record_ok bad deadline d : (forall d, dev_ok d -> dev_ok (bad d)) -> dev_ok d ->
  dev_ok (service_record os io_fuel bad deadline d).2.
Proof.
  intros Hbad Hd. unfold service_record, receive_record.
  pose proof (receive_record_dropped FRAME_CAPACITY deadline io_fuel d (proj2 Hd)) as H.
  destruct (receive_record_loop _ _ _ _ _ _) as [[r frame] d1].
  destruct H as [H1 Hb]. pose proof (dropped_ok d d1 Hd H1) as Hd1.
  case_if; [done|]. destruct (frame_header frame) as [h|] eqn:Eh; [|by apply Hbad].
  pose proof (frame_header_ok frame h Hb Eh) as Hk.
  destruct (vspd_flag h VSPD_FLAG_RESPONSE) eqn:Ef; [by apply Hbad|].
  pose proof (process_event_ok d1.1 h (frame_payload frame) (proj1 Hd1) Hk Ef) as Hc.
  destruct (process_event d1.1 h (frame_payload frame)). by split; [|apply Hd1].
Qed.

Lemma service_until_ok ready deadline fuel : forall d, dev_ok d ->
  let '(r, d') := service_until os io_fuel fuel ready deadline d in
  dev_ok d' /\ (r = SPW_OK -> ready d'.1 = true).
Proof.
  induction fuel as [|fuel IH]; intros d Hd; cbn [service_until].
  { destruct (ready d.1) eqn:E; [done|]. split; [by apply mark_disconnected_ok|done]. }
  destruct (ready d.1) eqn:E; [done|].
  pose proof (service_record_ok (fun d => d) deadline d (fun d H => H) Hd) as Hd1.
  destruct (service_record _ _ _ _ _) as [r d1]. cbn [snd] in Hd1.
  case_if; [split; [done|]; intros ->; done|]. by apply IH.
Qed.

(** The packet that is ready is handed out, or stays. *)
Lemma take_ready_ok d p : dev_ok d -> dc_rx_ready d.1 = true -> rx_packet_ok p = true ->
  bytes_ok (default [] (pkt_data p)) ->
  let total := dc_rx_total_size d.1 in
  let q := set_packet_shape total (dc_rx_terminator d.1) p in
  let q' := if negb (total =? 0)
            then set_packet_bytes (mem_read (dc_rx_data d.1) 0 (Z.to_nat total)) q else q in
  (pkt_capacity q <? total) = false ->
  dev_ok (upd clear_rx d) /\ bytes_ok (default [] (pkt_data q')) /\
  length (default [] (pkt_data q')) = length (default [] (pkt_data p)) /\
  0 <= pkt_length q' <= pkt_capacity p /\ valid_terminator (pkt_terminator q') = true.
Proof.
  intros Hd Hready Hrx Hb total q q' Hcap. pose proof (proj1 Hd) as [].
  unfold rx_packet_ok in Hrx. split_andb. split; [apply upd_ok; [done|apply clear_rx_ok]|].
  unfold q' in *. cbn in Hcap. unfold total in *. case_if; cbn.
  - destruct (pkt_data p) as [m|] eqn:Em; cbn in *; [|lia].
    rewrite length_mem_write, length_mem_read.
    split; [apply bytes_ok_write; [done|by apply bytes_ok_read]|].
    split; [lia|]. split; [lia|done].
  - split; [done|]. split; [done|]. split; [lia|done].
Qed.

Lemma device_receive_ok d p t : dev_ok d -> rx_packet_ok p = true ->
  bytes_ok (default [] (pkt_data p)) ->
  let '(r, p', d') := device_receive os io_fuel d p t in
  dev_ok d' /\ bytes_ok (default [] (pkt_data p')) /\
  length (default [] (pkt_data p')) = length (default [] (pkt_data p)) /\
  (r = SPW_OK -> 0 <= pkt_length p' <= pkt_capacity p /\
                 valid_terminator (pkt_terminator p') = true).
Proof.
  intros Hd Hp Hb.
  set (Q := fun x : Z * spw_packet * device => let '(r, p', d') := x in
    dev_ok d' /\ bytes_ok (default [] (pkt_data p')) /\
    length (default [] (pkt_data p')) = length (default [] (pkt_data p)) /\
    (r = SPW_OK -> 0 <= pkt_length p' <= pkt_capacity p /\
                   valid_terminator (pkt_terminator p') = true)).
  change (Q (device_receive os io_fuel d p t)). unfold device_receive.
  apply (session_start t d (fun r d => (r, p, d)) (fun deadline d => _) Q); [done|done|].
  intros deadline d1 Hd1. unfold service_until_packet.
  pose proof (service_until_ok dc_rx_ready deadline io_fuel d1 Hd1) as H.
  destruct (service_until _ _ _ _ _ _) as [r d2]. destruct H as [Hd2 Hr].
  case_if; [split; [done|]; split; [done|]; split; [done|]; intros ->; done|].
  assert (dc_rx_ready d2.1 = true) as Hready
    by (apply Hr; by apply negb_false_iff, Z.eqb_eq in E).
  pose proof (take_ready_ok d2 p Hd2 Hready Hp Hb) as H. cbn zeta in H.
  case_if; [done|]. destruct (H eq_refl) as (H1 & H2 & H3 & H4 & H5). by split_and!.
Qed.

Lemma device_send_time_code_ok d tc t : wire_time_code_ok tc -> dev_ok d ->
  dev_ok (device_send_time_code os io_fuel d tc t).2.
Proof.
  intros Htc Hd. unfold device_send_time_code.
  apply (session_start t d (fun r d => (r, d)) (fun deadline d => _) (fun x => dev_ok x.2));
    [done|done|].
  intros deadline d1 Hd1. match goal with |- context [send_request _ _ ?ty ?p ?k ?dl ?d0] =>
    pose proof (send_request_ok ty p k dl d0 (time_code_valid tc Htc) Hd1) as H end.
  destruct (send_request _ _ _ _ _ _ _) as [[r response] d2]. apply H.
Qed.

Lemma device_receive_time_code_ok d out t : dev_ok d ->
  let '(r, tc, d') := device_receive_time_code os io_fuel d out t in
  dev_ok d' /\ (r = SPW_OK -> wire_time_code_ok tc).
Proof.
  intros Hd. set (Q := fun x : Z * spw_time_code * device => let '(r, tc, d') := x in
    dev_ok d' /\ (r = SPW_OK -> wire_time_code_ok tc)).
  change (Q (device_receive_time_code os io_fuel d out t)). unfold device_receive_time_code.
  apply (session_start t d (fun r d => (r, out, d)) (fun deadline d => _) Q); [done|done|].
  intros deadline d1 Hd1.
  pose proof (service_until_ok (fun c => negb (Nat.eqb (dc_time_code_count c) 0)) deadline io_fuel
    d1 Hd1) as H.
  destruct (service_until _ _ _ _ _ _) as [r d2]. destruct H as [Hd2 Hr].
  case_if; [split; [done|]; intros ->; done|]. apply negb_false_iff, Z.eqb_eq in E.
  specialize (Hr E). apply negb_true_iff, Nat.eqb_neq in Hr.
  destruct (pop_time_code_ok d2.1 (proj1 Hd2)) as [H1 H2]; [lia|]. split; [by apply upd_ok|]. by intros _.
Qed.

Lemma device_get_link_state_ok d out : dev_ok d ->
  let '(r, state, d') := device_get_link_state os io_fuel d out in
  dev_ok d' /\ SPW_LINK_ERROR_RESET <= state <= SPW_LINK_RUN.
Proof.
  intros Hd. set (Q := fun x : Z * Z * device => let '(r, state, d') := x in
    dev_ok d' /\ SPW_LINK_ERROR_RESET <= state <= SPW_LINK_RUN).
  change (Q (device_get_link_state os io_fuel d out)). unfold device_get_link_state.
  apply (session_start 250000 d (fun r d => (r, dc_state d.1, d)) (fun deadline d => _) Q); [done| |].
  { intros r d1 Hd1 _. split; [done|apply Hd1]. }
  intros deadline d1 Hd1. match goal with |- context [send_request _ _ ?ty ?p ?k ?dl ?d0] =>
    pose proof (send_request_ok ty p k dl d0 ltac:(by apply plain_valid) Hd1) as H end.
  destruct (send_request _ _ _ _ _ _ _) as [[r payload] d2]. destruct H as [Hd2 Hr].
  assert (dev_ok (if (r =? SPW_OK) && (Z.of_nat (length payload) =? VSPD_LINK_STATE_PAYLOAD_SIZE)
    then upd (dset_state (vspd_decode_u32_payload payload)) d2 else d2)) as Hd3.
  { case_if; [|done]. split_andb. destruct (Hr ltac:(lia)) as (h & Hk & H1 & H2 & H3).
    apply upd_ok; [done|]. intros. apply session_ok; [done|]. apply (wire_link_state h); [done| |by right].
    rewrite <- (fo_payload _ _ (rk_frame _ _ Hk)). lia. }
  split; [done|apply Hd3].
Qed.

Lemma device_wait_loop_ok interests deadline fuel : forall d, dev_ok d ->
  dev_ok (device_wait_loop os io_fuel fuel interests deadline d).2.
Proof.
  induction fuel as [|fuel IH]; intros d Hd; cbn [device_wait_loop].
  { by apply mark_disconnected_ok. }
  unfold device_service_event.
  pose proof (service_record_ok (mark_disconnected os) deadline d mark_disconnected_ok Hd) as Hd1.
  destruct (service_record _ _ _ _ _) as [r d1]. cbn [snd] in Hd1. case_if; [done|].
  case_if; [done|]. by apply IH.
Qed.

Lemma device_wait_ok d interests t out : dev_ok d ->
  dev_ok (device_wait os io_fuel d interests t out).2.
Proof.
  intros Hd. unfold device_wait. pose proof (deadline_same t d) as H.
  destruct (deadline_for os t d) as [deadline d1]. cbn [snd] in H.
  pose proof (same_ok _ _ Hd H) as Hd1. case_if; [done|].
  pose proof (ensure_connected_ok deadline d1 Hd1) as Hd2.
  destruct (ensure_connected _ _ _ _) as [r d2]. case_if; [done|]. by apply device_wait_loop_ok.
Qed.

Lemma device_get_statistics_ok d out : dev_ok d -> dev_ok (device_get_statistics os io_fuel d out).2.
Proof.
  intros Hd. unfold device_get_statistics.
  apply (session_start 250000 d (fun r d => (r, out, d)) (fun deadline d => _) (fun x => dev_ok x.2));
    [done|done|].
  intros deadline d1 Hd1. match goal with |- context [send_request _ _ ?ty ?p ?k ?dl ?d0] =>
    pose proof (send_request_ok ty p k dl d0 ltac:(by apply plain_valid) Hd1) as H end.
  destruct (send_request _ _ _ _ _ _ _) as [[r payload] d2]. destruct H as [Hd2 _]. by case_if.
Qed.

Lemma device_reset_ok d : dev_ok d -> dev_ok (device_reset os io_fuel d).2.
Proof.
  intros Hd. unfold device_reset.
  assert (dev_ok (upd (dset_desired_started false) d)) as Hd1 by (apply upd_ok; [done|apply desired_ok]).
  pose proof (request_simple_ok VSPD_MSG_RESET SPW_TIMEOUT_INFINITE _ ltac:(by apply plain_valid) Hd1) as H.
  destruct (request_simple _ _ _ _ _) as [r d2]. cbn [snd] in H.
  case_if; [|done]. apply upd_ok; [done|]. intros. by apply clear_time_codes_ok, clear_rx_ok.
Qed.

Lemma device_construct_ok config w : 0 <= dev_port_id config < 2 ^ 32 -> J w ->
  dev_ok (device_construct os io_fuel config w).2.
Proof.
  intros Hp Hw. unfold device_construct.
  pose proof (deadline_same 1000000 (zero_context config, w)) as H.
  destruct (deadline_for os 1000000 _) as [deadline d]. cbn [snd fst] in H.
  apply connect_session_ok, (same_ok (zero_context config, w)); [|done].
  by split; [apply zero_context_ok|].
Qed.

Lemma device_destroy_ok d : dev_ok d -> dev_ok (device_destroy os io_fuel d).
Proof.
  intros Hd. unfold device_destroy.
  assert (forall d', dev_ok d' -> dev_ok (upd (dset_fd (-1)) d')) as Hfd
    by (intros d' Hd'; apply upd_ok; [done|]; intros Hc; apply session_ok; apply Hc).
  apply Hfd. case_if; [|done]. pose proof (deadline_same 100000 d) as H.
  destruct (deadline_for os 100000 d) as [deadline d1]. cbn [snd] in H.
  pose proof (same_ok _ _ Hd H) as Hd1.
  pose proof (plain_request_ok VSPD_MSG_DETACH deadline d1 ltac:(by apply plain_valid) Hd1) as Hd2.
  destruct (plain_request _ _ _ _ _) as [r d2]. cbn [snd] in Hd2. case_if; [|done].
  split; [apply Hd2|]. by apply dv_close, Hd2.
Qed.

Lemma valid_on_wire tc : valid_time_code tc = true -> 0 <= time_count tc -> wire_time_code_ok tc.
Proof. unfold valid_time_code, wire_time_code_ok. intros H H0. split_andb. lia. Qed.

#[export] Instance device_outputs : BackendOutputs (DEVICE_OPS os io_fuel) dev_ok.
Proof.
  constructor; cbn [DEVICE_OPS op_get_link_state op_send op_receive op_send_time_code
    op_receive_time_code].
  - intros d out Hd. pose proof (device_get_link_state_ok d out Hd) as H.
    destruct (device_get_link_state _ _ _ _) as [[r st] d']. by destruct H.
  - intros d p t Hd Hp Hb. by apply device_send_ok.
  - intros d p t Hd Hp Hb. pose proof (device_receive_ok d p t Hd Hp Hb) as H.
    by destruct (device_receive _ _ _ _ _) as [[r p'] d'].
  - intros d tc t Hd Hv H0. by apply device_send_time_code_ok; [apply valid_on_wire|].
  - intros d out t Hd. by apply device_receive_time_code_ok.
Qed.

#[export] Instance device_waits : BackendWaits (DEVICE_OPS os io_fuel) dev_ok.
Proof. intros f d interests t out [= <-]. apply device_wait_ok. Qed.

Lemma device_call_ok d call : dev_ok d -> call_args_ok call ->
  dev_ok (do_call (DEVICE_OPS os io_fuel) d call).2.
Proof.
  intros Hd [Hok Hc]. destruct call; cbn [do_call DEVICE_OPS op_start op_stop op_reset
    op_get_link_state op_get_capabilities op_send op_receive op_send_time_code
    op_receive_time_code op_get_statistics op_clear_statistics op_get_fault_statistics
    op_clear_fault_statistics op_wait] in *; cbn [call_ok] in Hok; try done.
  - pose proof (request_simple_ok VSPD_MSG_START SPW_TIMEOUT_INFINITE
      (upd (dset_desired_started true) d) ltac:(by apply plain_valid)
      (upd_ok _ _ Hd (desired_ok _ _))) as H.
    unfold device_start. by destruct (request_simple _ _ _ _ _).
  - pose proof (request_simple_ok VSPD_MSG_STOP SPW_TIMEOUT_INFINITE
      (upd (dset_desired_started false) d) ltac:(by apply plain_valid)
      (upd_ok _ _ Hd (desired_ok _ _))) as H.
    unfold device_stop. by destruct (request_simple _ _ _ _ _).
  - pose proof (device_reset_ok d Hd) as H. by destruct (device_reset _ _ _).
  - pose proof (device_get_link_state_ok d out Hd) as H.
    destruct (device_get_link_state _ _ _ _) as [[? ?] ?]. apply H.
  - pose proof (device_send_ok d p timeout Hd Hok Hc) as H. by destruct (device_send _ _ _ _ _).
  - pose proof (device_receive_ok d p timeout Hd Hok Hc) as H.
    destruct (device_receive _ _ _ _ _) as [[? ?] ?]. apply H.
  - pose proof (device_send_time_code_ok d tc timeout (valid_on_wire tc Hok Hc) Hd) as H.
    by destruct (device_send_time_code _ _ _ _ _).
  - pose proof (device_receive_time_code_ok d out timeout Hd) as H.
    destruct (device_receive_time_code _ _ _ _ _) as [[? ?] ?]. apply H.
  - pose proof (device_get_statistics_ok d out Hd) as H.
    by destruct (device_get_statistics _ _ _ _) as [[? ?] ?].
  - pose proof (request_simple_ok VSPD_MSG_CLEAR_STATISTICS 250000 d ltac:(by apply plain_valid) Hd) as H.
    unfold device_clear_statistics. by destruct (request_simple _ _ _ _ _).
  - pose proof (device_wait_ok d interests timeout out Hd) as H.
    by destruct (device_wait _ _ _ _ _ _) as [[? ?] ?].
Qed.

Lemma device_calls_ok calls : forall d, dev_ok d -> Forall call_args_ok calls ->
  dev_ok (run_calls (DEVICE_OPS os io_fuel) d calls).2.
Proof.
  induction calls as [|call calls IH]; intros d Hd Hall; [done|].
  inversion Hall; subst. cbn [run_calls].
  pose proof (device_call_ok d call Hd ltac:(done)) as H.
  destruct (do_call _ d call) as [[r out] d1]. cbn [snd] in H. specialize (IH d1 H ltac:(done)).
  by destruct (run_calls _ d1 calls).
Qed.
End props.

(** ** What a client sends *)

(** The same system with a log of the records that were passed to send. *)
Definition log_dev {W} (os : dev_os W) : dev_os (W * list (list Z)) :=
  {| do_socket := fun w => let '(r, w1) := do_socket os w.1 in (r, (w1, w.2));
     do_connect := fun fd path w => let '(r, w1) := do_connect os fd path w.1 in (r, (w1, w.2));
     do_poll := fun fd ev ms w => let '(r, w1) := do_poll os fd ev ms w.1 in (r, (w1, w.2));
     do_send := fun fd data w =>
       let '(r, w1) := do_send os fd data w.1 in (r, (w1, w.2 ++ [data]));
     do_recv := fun fd cap w => let '(r, w1) := do_recv os fd cap w.1 in (r, (w1, w.2));
     do_close := fun fd w => (do_close os fd w.1, w.2);
     do_errno := fun w => do_errno os w.1;
     do_clock_gettime := fun w => let '(r, w1) := do_clock_gettime os w.1 in (r, (w1, w.2)) |}.

#[export] Instance log_contract {W} (os : dev_os W) (J : W -> Prop) `{!DevContract os J} :
  DevContract (log_dev os) (fun w => J w.1 /\ Forall sendable w.2).
Proof.
  constructor.
  - intros [w l] [HJ Hl]. cbn in *. pose proof (dv_socket w HJ) as H. by destruct (do_socket os w).
  - intros fd path [w l] [HJ Hl]. cbn in *. pose proof (dv_connect fd path w HJ) as H.
    by destruct (do_connect os fd path w).
  - intros fd ev ms [w l] [HJ Hl]. cbn in *. pose proof (dv_poll fd ev ms w HJ) as H.
    by destruct (do_poll os fd ev ms w).
  - intros fd data [w l] [HJ Hl] Hs. cbn in *. pose proof (dv_send fd data w HJ Hs) as H.
    destruct (do_send os fd data w). split; [done|]. apply Forall_app. by rewrite Forall_singleton.
  - intros fd cap [w l] [HJ Hl]. cbn in *. pose proof (dv_recv fd cap w HJ) as H.
    by destruct (do_recv os fd cap w).
  - intros fd cap [w l] [HJ Hl]. cbn in *. pose proof (dv_bytes fd cap w HJ) as H.
    by destruct (do_recv os fd cap w).
  - intros fd [w l] [HJ Hl]. cbn in *. by split; [apply dv_close|].
  - intros [w l] [HJ Hl]. cbn in *. pose proof (dv_clock w HJ) as H. by destruct (do_clock_gettime os w).
Qed.

(** C24. Whatever the socket does (refuse, fail, deliver late, out of turn or
    malformed records, close), a device port that was constructed on any
    configuration stays well formed through every sequence of calls: the packet
    being received never leaves its 1 MiB buffer and is complete when it is
    offered, the time-code queue holds at most eight time-codes in range, and the
    link state is one of the six. *)
Theorem device_invariant {W} (os : dev_os W) J `{!DevContract os J} io_fuel config w calls :
  0 <= dev_port_id config < 2 ^ 32 -> J w -> Forall call_args_ok calls ->
  let d := (run_calls (DEVICE_OPS os io_fuel) (device_construct os io_fuel config w).2 calls).2 in
  ctx_ok d.1 /\ ctx_ok (device_destroy os io_fuel d).1.
Proof.
  intros Hp Hw Hall. cbn zeta. pose proof (device_construct_ok os J io_fuel config w Hp Hw) as Hd.
  pose proof (device_calls_ok os J io_fuel calls _ Hd Hall) as H.
  split; [apply H|]. by apply (device_destroy_ok os J).
Qed.

(** Every record a device port sends, from its construction to its
    destruction and whatever the socket does and the caller asks for, is a request
    the protocol defines: the 40-byte header, in range and accepted by the
    validator, with no response flag, and exactly the announced payload. It is a
    valid record of the protocol unless its request number or its message number
    has wrapped around to zero or it announces a packet above 1 MiB. *)
Theorem device_sends_requests {W} (os : dev_os W) J `{!DevContract os J} io_fuel config w calls :
  0 <= dev_port_id config < 2 ^ 32 -> J w -> Forall call_args_ok calls ->
  let os := log_dev os in
  let d := (run_calls (DEVICE_OPS os io_fuel) (device_construct os io_fuel config (w, [])).2 calls).2 in
  Forall sendable (device_destroy os io_fuel d).2.2.
Proof.
  intros Hp Hw Hall. cbn zeta. set (J' := fun w => J w.1 /\ Forall sendable w.2).
  assert (J' (w, [])) as Hw' by (by split; [|constructor]).
  pose proof (device_construct_ok (log_dev os) J' io_fuel config _ Hp Hw') as Hd.
  pose proof (device_calls_ok (log_dev os) J' io_fuel calls _ Hd Hall) as H.
  by destruct (device_destroy_ok (log_dev os) J' io_fuel _ H) as [_ [_ Hl]].
Qed.

(** ** An ideal socket

    The records to receive, in order, and the records sent so far; a receive
    with nothing there would block. *)

Definition sock : Type := list (list Z) * list (list Z).

Definition seqpacket : dev_os sock :=
  {| do_socket := fun w => (3, w);
     do_connect := fun _ _ w => (0, w);
     do_poll := fun _ events _ w =>
       match w.1 with
       | [] => if events =? POLLIN then (0, 0, w) else (1, events, w)
       | _ => (1, events, w)
       end;
     do_send := fun _ data w => (Z.of_nat (length data), (w.1, w.2 ++ [data]));
     do_recv := fun _ capacity w =>
       match w.1 with
       | [] => (-1, [], w)
       | record :: rest =>
           let stored := take (Z.to_nat capacity) record in
           (Z.of_nat (length stored), stored, (rest, w.2))
       end;
     do_close := fun _ w => w;
     do_errno := fun _ => EAGAIN;
     do_clock_gettime := fun w => (0, 0, 0, w) |}.

#[export] Instance seqpacket_contract :
  DevContract seqpacket (fun w => Forall bytes_ok w.1).
Proof.
  constructor; try done.
  - intros fd events ms [[|r i] o] H; cbn; [by case_if|done].
  - intros fd capacity [[|r i] o] H; cbn in *; [done|by apply Forall_cons in H as [_ H]].
  - intros fd capacity [[|r i] o] H; cbn in *; [constructor|]. apply Forall_take.
    by apply Forall_cons in H as [H _].
Qed.

(** ** Witnesses *)

(** The response to request [id]. *)
Definition ok_response (type id : Z) (payload : list Z) : list Z :=
  vspd_header_bytes
    {| v_magic := VSPD_MAGIC; v_version_major := VSPD_VERSION_MAJOR;
       v_version_minor := VSPD_VERSION_MINOR; v_type := type; v_flags := VSPD_FLAG_RESPONSE;
       v_header_size := VSPD_HEADER_SIZE; v_reserved := 0;
       v_payload_size := Z.of_nat (length payload); v_request_id := id; v_port_id := 0;
       v_message_id := 0; v_fragment_offset := 0; v_total_size := 0; v_status := VSPD_STATUS_OK |}
  ++ payload.

(** A server that answers the handshake, a start, a send and the detach. *)
Definition session_records : list (list Z) :=
  [ok_response VSPD_MSG_HELLO 1 hello_payload; ok_response VSPD_MSG_ATTACH 2 [];
   ok_response VSPD_MSG_GET_CAPABILITIES 3 (replicate 24 0); ok_response VSPD_MSG_START 4 [];
   ok_response VSPD_MSG_DATA_TX 5 []; ok_response VSPD_MSG_DETACH 6 []].

Definition device_sample_config : spw_device_config :=
  {| dev_struct_size := 124; dev_version := SPW_DEVICE_CONFIG_VERSION; dev_port_id := 0;
     dev_reserved := 0; dev_endpoint := [47; 118; 0] |}.

Definition device_sample_packet : spw_packet :=
  {| pkt_data := Some [1; 2; 3]; pkt_length := 3; pkt_capacity := 3;
     pkt_terminator := SPW_TERMINATOR_EEP |}.

Definition device_sample_calls : list backend_call :=
  [CallStart; CallSend device_sample_packet SPW_TIMEOUT_INFINITE].

Lemma device_sample_calls_ok : Forall call_args_ok device_sample_calls.
Proof.
  constructor; [done|]. constructor; [|constructor]. split; [done|]. by apply bytes_ok_check.
Qed.

Lemma session_bytes : Forall bytes_ok session_records.
Proof. repeat (constructor; [by apply bytes_ok_check|]). constructor. Qed.

Lemma device_invariant_witness :
  let d := (run_calls (DEVICE_OPS seqpacket 4)
              (device_construct seqpacket 4 device_sample_config (session_records, [])).2 device_sample_calls).2 in
  fst <$> (run_calls (DEVICE_OPS seqpacket 4)
     (device_construct seqpacket 4 device_sample_config (session_records, [])).2 device_sample_calls).1 =
    [SPW_OK; SPW_OK] /\
  ctx_ok d.1 /\ ctx_ok (device_destroy seqpacket 4 d).1.
Proof.
  cbn zeta. split; [by vm_compute|].
  apply (device_invariant seqpacket (fun w => Forall bytes_ok w.1)); [done|apply session_bytes|].
  apply device_sample_calls_ok.
Defined.

Lemma device_sends_requests_witness :
  let os := log_dev seqpacket in
  let d := (run_calls (DEVICE_OPS os 4)
     (device_construct os 4 device_sample_config ((session_records, []), [])).2 device_sample_calls).2 in
  length (device_destroy os 4 d).2.2 = 6%nat /\ Forall sendable (device_destroy os 4 d).2.2.
Proof.
  cbn zeta. split; [by vm_compute|].
  apply (device_sends_requests seqpacket (fun w => Forall bytes_ok w.1)); [done|apply session_bytes|].
  apply device_sample_calls_ok.
Defined.
