(* ===== verification/DevicePaths.v ===== *)
(** * The device backend: a packet from one device port to another

    The device backend and the server joined at the record: what a device port
    sends over an ideal socket is what the server's handlers accept, the response
    the server stores is the one the port waits for, and the packet events the
    server sends are assembled by the receiving port into the same packet. *)

From S2P Require Import Prelude Types Posix Ring Backend Loopback DriverApi PortConfig Port PortClient PortProps.
From S2P Require Import Vspd Server ServerLoop ServerInv ServerRequests ServerProps ServerRun.
From S2P Require Import ServerPaths Device DeviceProps.

(** ** An ideal socket *)

Lemma record_frame h payload : valid_record h payload ->
  frame_header (vspd_header_bytes h ++ payload) = Some h /\
  frame_payload (vspd_header_bytes h ++ payload) = payload.
Proof.
  intros Hv. unfold frame_header, frame_payload. split.
  - rewrite length_app. change (length (vspd_header_bytes h)) with 40%nat.
    replace (Z.of_nat (40 + length payload)) with (VSPD_HEADER_SIZE + v_payload_size h)
      by (rewrite <- (vr_size _ _ Hv); unfold VSPD_HEADER_SIZE; lia).
    by rewrite valid_record_validates.
  - by rewrite drop_app_length' by done.
Qed.

Lemma seq_deadline t (d : device (W := sock)) : exists deadline, deadline_for seqpacket t d = (deadline, d).
Proof.
  unfold deadline_for, monotonic_us. destruct d as [c w]. cbn [seqpacket do_clock_gettime fst snd].
  case_if; [by eexists|]. cbn [Z.eqb negb]. case_if; by eexists.
Qed.
Section ideal.
Context (io_fuel : nat) (Hfuel : (0 < io_fuel)%nat).
Implicit Types (c : device_context).

Lemma seq_send data deadline c inp out :
  send_record seqpacket io_fuel data deadline (c, (inp, out)) = (SPW_OK, (c, (inp, out ++ [data]))).
Proof.
  unfold send_record. destruct io_fuel as [|f]; [lia|]. cbn [send_record_loop].
  cbn [seqpacket do_send fst snd]. by rewrite Z.eqb_refl.
Qed.

Lemma seq_receive h payload deadline c inp out : valid_record h payload ->
  receive_record seqpacket io_fuel deadline
    (c, ((vspd_header_bytes h ++ payload) :: inp, out)) =
  (SPW_OK, vspd_header_bytes h ++ payload, (c, (inp, out))).
Proof.
  intros [_ Hc Hl _]. unfold receive_record. destruct io_fuel as [|f]; [lia|].
  cbn [receive_record_loop]. cbn [seqpacket do_recv fst snd].
  apply validate_common_ok in Hc as [_ Hm].
  assert (length (vspd_header_bytes h ++ payload) <= Z.to_nat FRAME_CAPACITY)%nat as Hle.
  { rewrite length_app. change (length (vspd_header_bytes h)) with 40%nat.
    unfold FRAME_CAPACITY, VSPD_HEADER_SIZE, VSPD_MAX_FRAME_PAYLOAD in *. lia. }
  rewrite take_ge by done.
  assert (0 < length (vspd_header_bytes h ++ payload))%nat as Hpos
    by (rewrite length_app; change (length (vspd_header_bytes h)) with 40%nat; lia).
  replace (0 <? _) with true by lia. by rewrite Nat2Z.id, take_ge.
Qed.


Lemma seq_poll_timeout deadline (d : device (W := sock)) :
  exists ms, poll_timeout_ms seqpacket deadline d = (ms, d).
Proof.
  unfold poll_timeout_ms, monotonic_us. destruct d as [c w].
  cbn [seqpacket do_clock_gettime fst snd Z.eqb negb]. repeat case_if; by eexists.
Qed.

(** Nothing to receive. *)
Lemma seq_receive_nothing deadline c out :
  receive_record seqpacket io_fuel deadline (c, ([], out)) = (SPW_ERR_TIMEOUT, [], (c, ([], out))).
Proof.
  unfold receive_record. destruct io_fuel as [|f]; [lia|].
  cbn [receive_record_loop seqpacket do_recv fst snd]. cbn [Z.ltb Z.compare Z.eqb].
  unfold io_retry. cbn [do_errno wait_fd]. change (EAGAIN =? EINTR) with false. rewrite Z.eqb_refl.
  cbn [orb]. match goal with |- context [poll_timeout_ms _ _ ?d] =>
    destruct (seq_poll_timeout deadline d) as [ms ->] end. done.
Qed.
End ideal.

(** ** What a port sends *)

Definition packet_bytes (p : spw_packet) : list Z :=
  take (Z.to_nat (pkt_length p)) (default [] (pkt_data p)).

Definition outgoing_of (c : device_context) (p : spw_packet) : outgoing :=
  {| og_request_id := dc_next_request_id c; og_port_id := dev_port_id (dc_config c);
     og_message_id := dc_next_message_id c; og_total := pkt_length p;
     og_eep := pkt_terminator p =? SPW_TERMINATOR_EEP |}.

(** The bytes cut into at most [fuel + 1] fragments of at most 32 KiB. *)
Fixpoint cut (fuel : nat) (data : list Z) : list (list Z) :=
  match fuel with
  | O => [data]
  | S fuel =>
      if VSPD_MAX_FRAME_PAYLOAD <? Z.of_nat (length data)
      then take (Z.to_nat VSPD_MAX_FRAME_PAYLOAD) data ::
           cut fuel (drop (Z.to_nat VSPD_MAX_FRAME_PAYLOAD) data)
      else [data]
  end.

(** The DATA_TX records of the fragments. *)
Fixpoint tx_records (g : outgoing) (offset : Z) (chunks : list (list Z)) : list (list Z) :=
  match chunks with
  | [] => []
  | chunk :: chunks =>
      let size := Z.of_nat (length chunk) in
      (vspd_header_bytes (data_tx_header g offset size) ++ chunk) ::
      tx_records g (offset + size) chunks
  end.

Fixpoint frames_valid (g : outgoing) (offset : Z) (chunks : list (list Z)) : Prop :=
  match chunks with
  | [] => True
  | chunk :: chunks =>
      let size := Z.of_nat (length chunk) in
      valid_record (data_tx_header g offset size) chunk /\ frames_valid g (offset + size) chunks
  end.

Lemma cut_nonempty fuel data : cut fuel data <> [].
Proof. destruct fuel; cbn [cut]; [done|]. by case_if. Qed.

Lemma cut_concat fuel : forall data, concat (cut fuel data) = data.
Proof.
  induction fuel as [|fuel IH]; intros data; cbn [cut concat]; [apply app_nil_r|].
  case_if; cbn [concat]; [|apply app_nil_r]. by rewrite IH, take_drop.
Qed.

Lemma cut_bytes fuel : forall data, bytes_ok data -> Forall bytes_ok (cut fuel data).
Proof.
  induction fuel as [|fuel IH]; intros data Hb; cbn [cut]; [by apply Forall_singleton|].
  case_if; [|by apply Forall_singleton]. apply Forall_cons. split; [by apply Forall_take|].
  by apply IH, Forall_drop.
Qed.

Lemma cut_chunks fuel : forall data, data <> [] -> Forall (fun c => c <> []) (cut fuel data).
Proof.
  induction fuel as [|fuel IH]; intros data Hne; cbn [cut]; [by apply Forall_singleton|].
  unfold VSPD_MAX_FRAME_PAYLOAD. case_if; [|by apply Forall_singleton].
  apply Forall_cons. split; [|apply IH]; intros H%(f_equal length);
    rewrite ?length_take, ?length_drop in H; cbn [length] in H; lia.
Qed.

(** The header the port writes is the one the server's model of a packet in
    fragments has. *)
Lemma fragment_header_eq c p offset chunk : 0 <= pkt_length p < 2 ^ 32 ->
  chunk = fragment_size p offset ->
  fragment_header (dc_config c) (dc_next_request_id c) (dc_next_message_id c) p offset chunk
    (is_final p offset) = data_tx_header (outgoing_of c p) offset chunk.
Proof.
  intros Hp ->. unfold fragment_header, data_tx_header, data_tx_flags.
  cbn [outgoing_of og_request_id og_port_id og_message_id og_total og_eep].
  unfold is_final. rewrite (wrap_small 32 (pkt_length p)) by lia. f_equal.
  by destruct (offset =? 0), (offset + _ =? _), (pkt_terminator p =? SPW_TERMINATOR_EEP).
Qed.

Lemma cut_last fuel data : Z.of_nat (length data) <= VSPD_MAX_FRAME_PAYLOAD -> cut fuel data = [data].
Proof. intros H. destruct fuel; cbn [cut]; [done|]. by case_if; [lia|]. Qed.

Lemma mem_read_take_drop m off n : (off + n <= length m)%nat ->
  mem_read m off n = take n (drop off m).
Proof. intros H. unfold mem_read. rewrite take_app_le; [done|]. rewrite length_drop. lia. Qed.

(** A packet the protocol can carry, with numbers that have not wrapped. *)
Record sends_packet (c : device_context) (p : spw_packet) : Prop := {
  sp_packet : tx_packet_ok p = true;
  sp_bytes : bytes_ok (default [] (pkt_data p));
  sp_size : pkt_length p <= VSPD_MAX_LOGICAL_PACKET;
  sp_request : 0 < dc_next_request_id c < 2 ^ 32;
  sp_message : 0 < dc_next_message_id c < 2 ^ 32;
  sp_port : 0 <= dev_port_id (dc_config c) < 2 ^ 32
}.

Lemma packet_bytes_length p : tx_packet_ok p = true ->
  0 <= pkt_length p /\ Z.of_nat (length (packet_bytes p)) = pkt_length p /\
  (Z.to_nat (pkt_length p) <= length (default [] (pkt_data p)))%nat.
Proof.
  unfold tx_packet_ok, packet_bytes. intros H. split_andb. rewrite length_take.
  destruct (pkt_data p) as [m|]; cbn [default length from_option id] in *; lia.
Qed.

(** The bytes of the next fragment. *)
Lemma next_chunk c p offset : sends_packet c p -> inside p offset ->
  let rest := drop (Z.to_nat offset) (packet_bytes p) in
  let chunk := mem_read (default [] (pkt_data p)) (Z.to_nat offset)
                 (Z.to_nat (fragment_size p offset)) in
  Z.of_nat (length rest) = pkt_length p - offset /\
  chunk = take (Z.to_nat VSPD_MAX_FRAME_PAYLOAD) rest /\
  Z.of_nat (length chunk) = fragment_size p offset /\
  is_final p offset = negb (VSPD_MAX_FRAME_PAYLOAD <? Z.of_nat (length rest)) /\
  (is_final p offset = false -> inside p (offset + fragment_size p offset)) /\
  valid_record (data_tx_header (outgoing_of c p) offset (fragment_size p offset)) chunk.
Proof.
  intros [Hp Hb Hs Hr Hm Hport] Ho. destruct (packet_bytes_length p Hp) as (H0 & Hl & Hd).
  unfold VSPD_MAX_LOGICAL_PACKET, inside in *.
  assert (u32 (pkt_length p) = pkt_length p) as Hw by (apply wrap_small; lia). rewrite Hw in Ho.
  cbn zeta. set (rest := drop _ _).
  assert (Z.of_nat (length rest) = pkt_length p - offset) as Hrest
    by (unfold rest; rewrite length_drop; lia).
  assert (0 <= fragment_size p offset <= pkt_length p - offset) as Hf
    by (unfold fragment_size, VSPD_MAX_FRAME_PAYLOAD; rewrite Hw; lia).
  split; [done|]. rewrite Hrest.
  assert (mem_read (default [] (pkt_data p)) (Z.to_nat offset) (Z.to_nat (fragment_size p offset)) =
    take (Z.to_nat VSPD_MAX_FRAME_PAYLOAD) rest) as Heq.
  { rewrite mem_read_take_drop by lia. unfold rest, packet_bytes, fragment_size.
    rewrite Hw, skipn_firstn_comm, take_take. f_equal.
    unfold VSPD_MAX_FRAME_PAYLOAD. lia. }
  split; [done|]. split; [rewrite length_mem_read; lia|].
  split; [unfold is_final, fragment_size, VSPD_MAX_FRAME_PAYLOAD; rewrite Hw; lia|].
  split; [unfold is_final; rewrite Hw; lia|].
  rewrite <- fragment_header_eq by (done || lia).
  pose proof (fragment_is_record (dc_config c) (dc_next_request_id c) (dc_next_message_id c) p offset
    (mem_read (default [] (pkt_data p)) (Z.to_nat offset) (Z.to_nat (fragment_size p offset)))) as H.
  apply H; try lia; [by apply bytes_ok_read|by rewrite length_mem_read; lia|cbn; lia|].
  intros _. cbn [fragment_header v_message_id v_total_size]. rewrite Hw.
  unfold VSPD_MAX_LOGICAL_PACKET. lia.
Qed.

Section sending.
Context (io_fuel : nat) (Hfuel : (0 < io_fuel)%nat) (c : device_context) (p : spw_packet)
  (Hp : sends_packet c p).

(** One turn of the loop over an ideal socket. *)
Lemma fragment_step c' deadline inp fuel offset out : dc_config c' = dc_config c -> inside p offset ->
  let chunk := mem_read (default [] (pkt_data p)) (Z.to_nat offset)
                 (Z.to_nat (fragment_size p offset)) in
  let size := fragment_size p offset in
  let d := (c', (inp, out ++ [vspd_header_bytes (data_tx_header (outgoing_of c p) offset size) ++
                              chunk])) in
  send_fragments seqpacket io_fuel (S fuel) (dc_next_request_id c) (dc_next_message_id c) p offset
    deadline (c', (inp, out)) =
  if is_final p offset then
    (let '(result, status, _, d) :=
       wait_response seqpacket io_fuel VSPD_MSG_DATA_TX (dc_next_request_id c) 0 deadline d in
     (if result =? SPW_OK then status_to_result status else result, d))
  else send_fragments seqpacket io_fuel fuel (dc_next_request_id c) (dc_next_message_id c) p
         (offset + size) deadline d.
Proof.
  intros Hconfig Ho. cbn zeta. cbn [send_fragments].
  destruct (packet_bytes_length p (sp_packet _ _ Hp)) as (H0 & _).
  destruct (fragment_cut p offset Ho H0) as (Hchunk & Hc0 & Hnext & -> & Hgo).
  set (chunk := if VSPD_MAX_FRAME_PAYLOAD <? _ then _ else _) in *. clearbody chunk. subst chunk.
  destruct (next_chunk c p offset Hp Ho) as (_ & _ & _ & _ & _ & Hv).
  pose proof (sp_size _ _ Hp) as Hs. unfold VSPD_MAX_LOGICAL_PACKET in Hs.
  cbn [fst]. rewrite Hconfig, Hnext, (fragment_header_eq c p offset _) by (done || lia).
  destruct (encoded_record _ (mem_read (default [] (pkt_data p)) (Z.to_nat offset)
    (Z.to_nat (fragment_size p offset))) (vr_common _ _ Hv)) as [-> ->].
  cbn [negb Z.eqb VSPD_CODEC_OK]. rewrite seq_send by done. cbn [negb Z.eqb SPW_OK].
  destruct (is_final p offset) eqn:E; [done|]. destruct (Hgo eq_refl) as (_ & _ & Hlt).
  by replace (_ <? pkt_length p) with true by lia.
Qed.

(** The fragments of the rest of a packet are valid and go out in order, and then
    the response is waited for. *)
Definition goes_out c' deadline inp fuel offset out : Prop :=
  let chunks := cut fuel (drop (Z.to_nat offset) (packet_bytes p)) in
  let g := outgoing_of c p in
  frames_valid g offset chunks /\
  send_fragments seqpacket io_fuel (S fuel) (dc_next_request_id c) (dc_next_message_id c) p offset
    deadline (c', (inp, out)) =
  (let '(result, status, _, d) :=
     wait_response seqpacket io_fuel VSPD_MSG_DATA_TX (dc_next_request_id c) 0 deadline
       (c', (inp, out ++ tx_records g offset chunks)) in
   (if result =? SPW_OK then status_to_result status else result, d)).

Lemma last_goes_out c' deadline inp fuel offset out : dc_config c' = dc_config c -> inside p offset ->
  pkt_length p - offset <= VSPD_MAX_FRAME_PAYLOAD -> goes_out c' deadline inp fuel offset out.
Proof.
  intros Hconfig Ho Hlen. unfold goes_out. rewrite (fragment_step c' deadline inp _ offset out) by done.
  destruct (next_chunk c p offset Hp Ho) as (Hrest & Hchunk & Hsize & -> & _ & Hv).
  rewrite cut_last by lia. cbn zeta. cbn [tx_records frames_valid].
  rewrite Hchunk, take_ge in * by (unfold VSPD_MAX_FRAME_PAYLOAD in *; lia).
  rewrite Hsize. by replace (VSPD_MAX_FRAME_PAYLOAD <? _) with false by lia.
Qed.

Lemma fragments_go_out c' deadline inp fuel : dc_config c' = dc_config c ->
  forall offset out, inside p offset ->
  pkt_length p - offset <= Z.of_nat (S fuel) * VSPD_MAX_FRAME_PAYLOAD ->
  goes_out c' deadline inp fuel offset out.
Proof.
  intros Hconfig. induction fuel as [|fuel IH]; intros offset out Ho Hlen.
  { apply last_goes_out; [done|done|lia]. }
  destruct (VSPD_MAX_FRAME_PAYLOAD <? pkt_length p - offset) eqn:E;
    [|apply last_goes_out; [done|done|lia]].
  destruct (next_chunk c p offset Hp Ho) as (Hrest & Hchunk & Hsize & Hfin & Hgo & Hv).
  rewrite Hrest, E in Hfin. cbn [negb] in Hfin.
  assert (fragment_size p offset = VSPD_MAX_FRAME_PAYLOAD) as Hfs.
  { rewrite <- Hsize, Hchunk, length_take. unfold VSPD_MAX_FRAME_PAYLOAD in *. lia. }
  unfold goes_out. rewrite (fragment_step c' deadline inp _ offset out) by done.
  rewrite Hfin. cbn [cut]. rewrite Hrest, E. cbn zeta. cbn [tx_records frames_valid].
  rewrite <- Hchunk, Hsize, drop_drop.
  replace (Z.to_nat offset + Z.to_nat VSPD_MAX_FRAME_PAYLOAD)%nat
    with (Z.to_nat (offset + fragment_size p offset))
    by (destruct Ho; unfold VSPD_MAX_FRAME_PAYLOAD in *; lia).
  match goal with |- _ /\ send_fragments _ _ _ _ _ _ _ _ (_, (_, ?o)) = _ =>
    destruct (IH (offset + fragment_size p offset) o (Hgo Hfin)) as [H1 H2]; [lia|] end.
  split; [done|]. rewrite H2. cbn zeta. by rewrite <- app_assoc.
Qed.
End sending.

(** ** The server takes them *)

(** The server handling records of client [i] in order, until one closes the
    connection. *)
Fixpoint serve_records {B} (s : vspwd_server B) (i : Z) (records : list (list Z))
    : bool * vspwd_server B :=
  match records with
  | [] => (true, s)
  | record :: records =>
      let '(ok, s) := vspwd_handle_request s i record (Z.of_nat (length record)) in
      if ok then serve_records s i records else (false, s)
  end.

Section serving.
Context {B : Type} (o : spw_backend_ops B) (Inv : B -> Prop) `{!BackendOutputs o Inv}.
Implicit Types (s : vspwd_server B).

(** A valid DATA_TX record gets to its handler. *)
Lemma record_handled s i g offset chunk : tx_ready o Inv s i g ->
  let h := data_tx_header g offset (Z.of_nat (length chunk)) in
  valid_record h chunk ->
  vspwd_handle_request s i (vspd_header_bytes h ++ chunk)
    (Z.of_nat (length (vspd_header_bytes h ++ chunk))) =
  handle_data_tx s i h (match chunk with [] => None | _ => Some chunk end).
Proof.
  intros Hr h Hv. unfold vspwd_handle_request. rewrite (tr_idle _ _ _ _ _ Hr).
  replace (Z.of_nat (length (vspd_header_bytes h ++ chunk)))
    with (VSPD_HEADER_SIZE + v_payload_size h).
  2: { rewrite length_app, <- (vr_size _ _ Hv). change (length (vspd_header_bytes h)) with 40%nat.
       unfold VSPD_HEADER_SIZE. lia. }
  rewrite valid_record_validates by done. rewrite Z.eqb_refl. cbn [negb].
  assert (vspd_flag h VSPD_FLAG_RESPONSE = false) as ->.
  { unfold h, vspd_flag, data_tx_header, data_tx_flags. cbn [v_flags].
    by destruct (offset =? 0), (offset + _ =? og_total g), (og_eep g). }
  destruct (sw_owner _ _ _ (proj1 (tr_server _ _ _ _ _ Hr)) i (tr_index _ _ _ _ _ Hr)
    (tr_attached _ _ _ _ _ Hr)) as [-> _].
  cbn [h data_tx_header v_type negb orb andb v_payload_size].
  change (handler_of VSPD_MSG_DATA_TX) with (Some (handle_data_tx (B := B))).
  rewrite drop_app_length' by done. by destruct chunk.
Qed.

(** Records and fragments: the same server. *)
Lemma records_handled i g chunks : forall s received, tx_ready o Inv s i g ->
  Forall bytes_ok chunks -> frames_valid g (Z.of_nat (length received)) chunks ->
  reassembly_wf (c_reassembly (client_at s i)) ->
  holds (c_reassembly (client_at s i)) g received ->
  Z.of_nat (length received + length (concat chunks)) = og_total g ->
  (Forall (fun c => c <> []) chunks \/ og_total g = 0 /\ length chunks = 1%nat) ->
  serve_records s i (tx_records g (Z.of_nat (length received)) chunks) =
  handle_fragments s i g (Z.of_nat (length received)) chunks.
Proof.
  induction chunks as [|chunk chunks IH]; [done|].
  intros s received Hr Hb [Hv Hvs] Hw Hh Hlen Hne. cbn [tx_records serve_records handle_fragments].
  cbn [concat] in Hlen. apply Forall_cons in Hb as [Hb1 Hb]. rewrite length_app in Hlen.
  rewrite (record_handled s i g _ chunk) by done. destruct chunks as [|chunk2 chunks].
  { by destruct (handle_data_tx _ _ _ _). }
  destruct Hne as [Hne|[_ ?]]; [|done]. pose proof Hne as [Hc Hne2]%Forall_cons.
  pose proof Hne2 as [Hc2 _]%Forall_cons.
  assert (0 < length (concat (chunk2 :: chunks)))%nat as Hpos.
  { cbn [concat]. rewrite length_app. destruct chunk2; [done|cbn; lia]. }
  destruct (middle_fragment o Inv s i g received chunk Hr Hb1 Hh Hc) as (r & Heq & Hh' & Hrw); [lia|].
  rewrite Heq. destruct (tx_ready_reassembly o Inv s i g r Hr Hrw) as [Hr' Hat].
  rewrite <- Nat2Z.inj_add, <- length_app. apply IH; try done; rewrite ?Hat; try done.
  - rewrite length_app. by rewrite Nat2Z.inj_add.
  - rewrite length_app. lia.
  - by left.
Qed.

(** The stored response is the one the sender waits for. *)
Lemma stored_response s i g offset size : answered_with s i (data_tx_header g offset size) VSPD_STATUS_OK ->
  0 < og_request_id g < 2 ^ 32 ->
  let c := client_at s i in
  exists h, valid_record h [] /\ vspd_flag h VSPD_FLAG_RESPONSE = true /\
    v_type h = VSPD_MSG_DATA_TX /\ v_request_id h = og_request_id g /\ v_status h = VSPD_STATUS_OK /\
    mem_read (c_response c) 0 (Z.to_nat (c_response_size c)) = vspd_header_bytes h ++ [].
Proof.
  intros (_ & (h & payload & Hv & Hf & Hsize & Hread) & n & bs & Hread') Hid. cbn zeta.
  set (R := response_header (data_tx_header g offset size) VSPD_STATUS_OK n) in *.
  assert (h = vspd_read_header (vspd_header_bytes R ++ bs)) as Hh.
  { rewrite <- Hread', Hread. symmetry. by apply vspd_read_header_bytes, Hv. }
  set (R0 := {| v_magic := VSPD_MAGIC; v_version_major := VSPD_VERSION_MAJOR;
     v_version_minor := VSPD_VERSION_MINOR; v_type := VSPD_MSG_DATA_TX;
     v_flags := VSPD_FLAG_RESPONSE; v_header_size := VSPD_HEADER_SIZE; v_reserved := 0;
     v_payload_size := 0; v_request_id := og_request_id g; v_port_id := 0;
     v_message_id := 0; v_fragment_offset := 0; v_total_size := 0; v_status := VSPD_STATUS_OK |}).
  assert (vspd_read_header (vspd_header_bytes R0 ++ bs) = R0) as HR0.
  { apply vspd_read_header_bytes. unfold vspd_header_in_range, in_width, R0.
    cbn [v_magic v_version_major v_version_minor v_type v_flags v_header_size v_reserved
      v_payload_size v_request_id v_port_id v_message_id v_fragment_offset v_total_size v_status].
    unfold VSPD_MAGIC, VSPD_VERSION_MAJOR, VSPD_VERSION_MINOR, VSPD_HEADER_SIZE, VSPD_MSG_DATA_TX,
      VSPD_FLAG_RESPONSE, VSPD_STATUS_OK. lia. }
  assert (v_type h = VSPD_MSG_DATA_TX) as Ht by (by rewrite Hh).
  assert (v_request_id h = og_request_id g) as Hrid.
  { rewrite Hh. change (v_request_id (vspd_read_header (vspd_header_bytes R0 ++ bs)) =
      og_request_id g). by rewrite HR0. }
  assert (v_status h = VSPD_STATUS_OK) as Hst by (by rewrite Hh).
  assert (v_payload_size h = 0) as Hps.
  { destruct Hv as [_ _ _ Hs]. unfold vspd_validate_payload_shape in Hs. case_if_in Hs; [lia|].
    unfold vspd_validate_shape_fields in E. rewrite Hf, Ht, Hst in E. case_if_in E; [done|].
    cbn in E. case_if_in E; [done|]. lia. }
  assert (payload = []) as -> by (destruct payload; [done|]; pose proof (vr_size _ _ Hv); cbn in *; lia).
  exists h. by split_and!.
Qed.
End serving.

Lemma response_received io_fuel h id deadline c inp out : (0 < io_fuel)%nat ->
  valid_record h [] -> vspd_flag h VSPD_FLAG_RESPONSE = true ->
  v_type h = VSPD_MSG_DATA_TX -> v_request_id h = id -> v_status h = VSPD_STATUS_OK ->
  wait_response seqpacket io_fuel VSPD_MSG_DATA_TX id 0 deadline
    (c, ((vspd_header_bytes h ++ []) :: inp, out)) =
  (SPW_OK, VSPD_STATUS_OK, [], (c, (inp, out))).
Proof.
  intros Hf Hv Hresp Ht Hid Hs. unfold wait_response.
  remember io_fuel as fuel eqn:Efuel. rewrite Efuel at 1. destruct fuel as [|fuel]; [lia|].
  cbn [wait_response_loop]. rewrite <- Efuel, seq_receive by (done || lia). cbn [negb Z.eqb SPW_OK].
  destruct (record_frame h [] Hv) as [-> ->]. rewrite Hresp, Ht, Hid, Hs, !Z.eqb_refl. cbn [negb orb].
  rewrite <- (vr_size _ _ Hv). done.
Qed.

(** The fragments of a packet. *)
Definition tx_chunks (p : spw_packet) : list (list Z) :=
  cut (Z.to_nat (u32 (pkt_length p) / VSPD_MAX_FRAME_PAYLOAD)) (packet_bytes p).

Lemma tx_chunks_ok c p : sends_packet c p ->
  concat (tx_chunks p) = packet_bytes p /\ Forall bytes_ok (tx_chunks p) /\ tx_chunks p <> [] /\
  Z.of_nat (length (concat (tx_chunks p))) = pkt_length p /\
  (Forall (fun c => c <> []) (tx_chunks p) \/ pkt_length p = 0 /\ length (tx_chunks p) = 1%nat).
Proof.
  intros Hp. destruct (packet_bytes_length p (sp_packet _ _ Hp)) as (H0 & Hl & _).
  unfold tx_chunks. rewrite cut_concat. split; [done|].
  split; [apply cut_bytes, Forall_take, Hp|]. split; [apply cut_nonempty|]. split; [done|].
  destruct (packet_bytes p) as [|b l]; [right|left; by apply cut_chunks].
  cbn [length] in Hl. split; [lia|]. by rewrite cut_last.
Qed.

Lemma chunks_go_out io_fuel c p deadline inp : (0 < io_fuel)%nat -> sends_packet c p ->
  let c' := dset_ids (u32 (dc_next_request_id c + 1)) (u32 (dc_next_message_id c + 1)) c in
  goes_out io_fuel c p c' deadline inp (Z.to_nat (u32 (pkt_length p) / VSPD_MAX_FRAME_PAYLOAD)) 0 [].
Proof.
  intros Hf Hp. pose proof (sp_size _ _ Hp) as Hsize. unfold VSPD_MAX_LOGICAL_PACKET in Hsize.
  destruct (packet_bytes_length p (sp_packet _ _ Hp)) as (H0 & Hl & _).
  pose proof (wrap_bounds 32 (pkt_length p) ltac:(lia)) as Hw.
  apply fragments_go_out; try done; [by split; [lia|]|]. unfold VSPD_MAX_FRAME_PAYLOAD.
  rewrite wrap_small by lia. pose proof (Z.div_mod (pkt_length p) (32 * 1024) ltac:(lia)).
  pose proof (Z.mod_pos_bound (pkt_length p) (32 * 1024) ltac:(lia)). lia.
Qed.

(** A connected port sends the fragments of the packet and waits for the response. *)
Lemma send_then_wait io_fuel c p t inp : (0 < io_fuel)%nat -> 0 <= dc_fd c -> sends_packet c p ->
  exists deadline,
    device_send seqpacket io_fuel (c, (inp, [])) p t =
    (let '(result, status, _, d) :=
       wait_response seqpacket io_fuel VSPD_MSG_DATA_TX (dc_next_request_id c) 0 deadline
         (dset_ids (u32 (dc_next_request_id c + 1)) (u32 (dc_next_message_id c + 1)) c,
          (inp, tx_records (outgoing_of c p) 0 (tx_chunks p))) in
     (if result =? SPW_OK then status_to_result status else result, d)).
Proof.
  intros Hf Hfd Hp. unfold device_send.
  destruct (seq_deadline t (c, (inp, []))) as [deadline ->]. exists deadline.
  unfold ensure_connected. cbn [fst]. replace (0 <=? dc_fd c) with true by lia. cbn [negb Z.eqb SPW_OK].
  destruct (chunks_go_out io_fuel c p deadline inp Hf Hp) as [_ Hgo]. exact Hgo.
Qed.

(** A packet given to a connected port, and the server at the other end of the
    socket: the records that go out are all accepted, the packet is queued for
    the peer, and the response the server stored lets the send return OK. *)
Lemma packet_sent {B} (o : spw_backend_ops B) (Inv : B -> Prop) `{!BackendOutputs o Inv}
    (s : vspwd_server B) i io_fuel c p t inp :
  (0 < io_fuel)%nat -> 0 <= dc_fd c -> sends_packet c p ->
  tx_ready o Inv s i (outgoing_of c p) -> ra_active (c_reassembly (client_at s i)) = false ->
  exists records s' c',
    serve_records s i records = (true, s') /\
    arrived o Inv s s' i (outgoing_of c p) (packet_bytes p) /\
    let response := mem_read (c_response (client_at s' i)) 0
                      (Z.to_nat (c_response_size (client_at s' i))) in
    device_send seqpacket io_fuel (c, (response :: inp, [])) p t = (SPW_OK, (c', (inp, records))).
Proof.
  intros Hf Hfd Hp Hr Hidle. set (g := outgoing_of c p) in *.
  destruct (tx_chunks_ok c p Hp) as (Hcat & Hb & Hne & Hlen & Hchunks).
  destruct (chunks_go_out io_fuel c p 0 [] Hf Hp) as [Hv _].
  pose proof (sw_client _ _ _ (proj1 (tr_server _ _ _ _ _ Hr)) i (tr_index _ _ _ _ _ Hr))
    as (_ & _ & Hw).
  destruct (fragments_arrive o Inv i g (tx_chunks p) s [] Hr Hb Hne Hw Hidle Hlen Hchunks)
    as (s' & Hrun & Harr). cbn [app] in Harr. rewrite Hcat in Harr.
  rewrite <- (records_handled o Inv i g (tx_chunks p) s []) in Hrun by done.
  destruct Harr as (Hs' & Hq & Hown & offset & size & Hans).
  destruct (stored_response s' i g offset size Hans (tr_request _ _ _ _ _ Hr))
    as (h & Hv' & Hf' & Ht & Hid & Hst & Hread).
  eexists _, s', _. split; [exact Hrun|]. split; [by split_and!; [| | |eexists _, _]|]. cbn zeta.
  rewrite Hread.
  destruct (send_then_wait io_fuel c p t ((vspd_header_bytes h ++ []) :: inp) Hf Hfd Hp) as [deadline Hgo].
  etrans; [exact Hgo|]. rewrite (response_received io_fuel h) by done. done.
Qed.

(** ** What a port receives *)

(** [k] fragments of the packet in [slot] have been received. *)
Definition rx_holds (c : device_context) (slot : vspwd_packet_slot) (k : nat) : Prop :=
  let received := Z.of_nat k * VSPD_MAX_FRAME_PAYLOAD in
  dc_rx_ready c = false /\
  match k with
  | O => dc_rx_active c = false
  | _ => dc_rx_active c = true /\ dc_rx_message_id c = ps_message_id slot /\
         dc_rx_total_size c = ps_length slot /\ dc_rx_next_offset c = received /\
         mem_read (dc_rx_data c) 0 (Z.to_nat received) = mem_read (ps_data slot) 0 (Z.to_nat received)
  end.

(** All of it. *)
Definition rx_complete (c : device_context) (slot : vspwd_packet_slot) : Prop :=
  dc_rx_ready c = true /\ dc_rx_total_size c = ps_length slot /\
  dc_rx_terminator c = (if ps_terminator slot =? SPW_TERMINATOR_EEP then SPW_TERMINATOR_EEP
                        else SPW_TERMINATOR_EOP) /\
  mem_read (dc_rx_data c) 0 (Z.to_nat (ps_length slot)) =
  mem_read (ps_data slot) 0 (Z.to_nat (ps_length slot)).

(** The start of an event is accepted: the packet is now being received at its
    fragment [k]. *)
Lemma begin_accepts c id slot k : queued_ok (sent_slot slot k) -> rx_holds c slot k ->
  exists c1, begin_rx c (packet_event_header id (sent_slot slot k)) = Some c1 /\
    dc_rx_ready c1 = false /\ dc_rx_active c1 = true /\ dc_rx_message_id c1 = ps_message_id slot /\
    dc_rx_total_size c1 = ps_length slot /\
    dc_rx_next_offset c1 = Z.of_nat k * VSPD_MAX_FRAME_PAYLOAD /\
    mem_read (dc_rx_data c1) 0 (Z.to_nat (Z.of_nat k * VSPD_MAX_FRAME_PAYLOAD)) =
    mem_read (ps_data slot) 0 (Z.to_nat (Z.of_nat k * VSPD_MAX_FRAME_PAYLOAD)).
Proof.
  intros Hq [Hready Hk]. destruct (packet_event_flags id _ Hq) as (_ & _ & Hstart & _).
  destruct Hq as (_ & Hmax & _). cbn [sent_slot set_ps_offset ps_length] in Hmax.
  unfold begin_rx. rewrite Hstart. cbn [sent_slot set_ps_offset ps_offset]. destruct k as [|k].
  - rewrite Hk. change (Z.of_nat 0 * VSPD_MAX_FRAME_PAYLOAD =? 0) with true.
    change (v_fragment_offset (packet_event_header id (sent_slot slot 0)) =? 0) with true.
    change (v_total_size (packet_event_header id (sent_slot slot 0))) with (ps_length slot).
    cbn [negb orb].
    replace (VSPD_MAX_LOGICAL_PACKET <? ps_length slot) with false by lia.
    eexists. by split_and!.
  - destruct Hk as (Ha & Hm & Ht & Hn & Hd).
    rewrite (proj2 (Z.eqb_neq (Z.of_nat (S k) * VSPD_MAX_FRAME_PAYLOAD) 0))
      by (clear; unfold VSPD_MAX_FRAME_PAYLOAD; lia).
    cbn [packet_event_header event_header v_message_id v_total_size set_ps_offset ps_message_id
      ps_length]. rewrite Ha, Hm, Ht, !Z.eqb_refl. cbn [negb orb].
    exists c. by split_and!.
Qed.

(** Storing fragment [k]. *)
Lemma store_extends c1 id slot k : 0 <= ps_length slot <= VSPD_MAX_LOGICAL_PACKET ->
  queued_ok (sent_slot slot k) ->
  let off := Z.of_nat k * VSPD_MAX_FRAME_PAYLOAD in
  let next := off + slot_chunk (sent_slot slot k) in
  dc_rx_next_offset c1 = off ->
  mem_read (dc_rx_data c1) 0 (Z.to_nat off) = mem_read (ps_data slot) 0 (Z.to_nat off) ->
  let c2 := store_rx c1 (packet_event_header id (sent_slot slot k)) (fragment_payload slot k) in
  dc_rx_next_offset c2 = next /\
  mem_read (dc_rx_data c2) 0 (Z.to_nat next) = mem_read (ps_data slot) 0 (Z.to_nat next).
Proof.
  intros Hl Hq off next Hn Hd. destruct (slot_chunk_spec _ Hq) as (_ & _ & Hc0 & _ & Hcle).
  change (ps_offset (sent_slot slot k)) with off in Hcle.
  change (ps_length (sent_slot slot k)) with (ps_length slot) in Hcle.
  assert (0 <= off) as Hoff by (unfold off, VSPD_MAX_FRAME_PAYLOAD; lia).
  unfold VSPD_MAX_LOGICAL_PACKET in Hl. cbn zeta. unfold store_rx.
  cbn [dset_rx dc_rx_next_offset dc_rx_data].
  change (v_payload_size (packet_event_header id (sent_slot slot k)))
    with (slot_chunk (sent_slot slot k)).
  rewrite Hn, wrap_small by lia. split; [done|]. unfold next, fragment_payload. fold off.
  set (size := slot_chunk (sent_slot slot k)) in *.
  destruct (size =? 0) eqn:E; cbn [negb].
  { apply Z.eqb_eq in E. by rewrite E, Z.add_0_r. }
  rewrite take_ge by (rewrite length_mem_read; lia).
  rewrite Z2Nat.inj_add by lia.
  pose proof (mem_read_extend (dc_rx_data c1) (mem_read (ps_data slot) 0 (Z.to_nat off))
    (mem_read (ps_data slot) (Z.to_nat off) (Z.to_nat size))) as H.
  rewrite !length_mem_read in H. rewrite H by done. symmetry. apply mem_read_split.
Qed.

Lemma event_received c id slot k : 0 <= ps_length slot <= VSPD_MAX_LOGICAL_PACKET ->
  queued_ok (sent_slot slot k) -> (k < fragment_count (ps_length slot))%nat -> rx_holds c slot k ->
  exists c', process_event c (packet_event_header id (sent_slot slot k)) (fragment_payload slot k) =
      (SPW_OK, c') /\
    if (S k =? fragment_count (ps_length slot))%nat then rx_complete c' slot
    else rx_holds c' slot (S k).
Proof.
  intros Hl Hq Hk Hh. destruct (begin_accepts c id slot k Hq Hh)
    as (c1 & Hb & Hready & Ha & Hm & Ht & Hn & Hd).
  destruct (packet_event_flags id _ Hq) as (_ & _ & _ & Hend & _ & _ & Heep).
  destruct (slot_chunk_spec _ Hq) as (Hch & Hfin & Hc0 & Hcz & Hcle).
  destruct (sent_slot_next slot k Hl Hq Hk) as [Hlast _]. rewrite Hfin in Hlast.
  unfold process_event. change (v_type (packet_event_header id (sent_slot slot k))) with VSPD_MSG_DATA_RX.
  change (VSPD_MSG_DATA_RX =? VSPD_MSG_LINK_STATE_EVENT) with false.
  change (VSPD_MSG_DATA_RX =? VSPD_MSG_TIME_CODE_RX) with false. rewrite Z.eqb_refl.
  rewrite (proj1 Hh), Hb.
  change (v_fragment_offset (packet_event_header id (sent_slot slot k)))
    with (Z.of_nat k * VSPD_MAX_FRAME_PAYLOAD).
  change (v_payload_size (packet_event_header id (sent_slot slot k)))
    with (slot_chunk (sent_slot slot k)).
  rewrite Hn, Ht, Z.eqb_refl. cbn [negb orb].
  set (off := Z.of_nat k * VSPD_MAX_FRAME_PAYLOAD) in *.
  change (ps_offset (sent_slot slot k)) with off in *.
  change (ps_length (sent_slot slot k)) with (ps_length slot) in *.
  set (size := slot_chunk (sent_slot slot k)) in *. unfold VSPD_MAX_LOGICAL_PACKET in Hl.
  assert (0 <= off) as Hoff by (unfold off, VSPD_MAX_FRAME_PAYLOAD; lia).
  rewrite (wrap_small 32 (_ - _)) by lia. replace (_ <? size) with false by lia.
  rewrite Hend. destruct (store_extends c1 id slot k) as [Hn2 Hd2]; [done|done|done|done|].
  fold off size in Hn2, Hd2. rewrite Hn2, <- Hlast.
  change (dc_rx_total_size (store_rx c1 _ _)) with (dc_rx_total_size c1). rewrite Ht.
  destruct (off + size =? ps_length slot) eqn:E; cbn [negb]; (eexists; split; [done|]).
  - apply Z.eqb_eq in E. rewrite E in Hd2. specialize (Heep eq_refl).
    unfold rx_complete, finish_rx. cbn [dset_rx dc_rx_ready dc_rx_total_size dc_rx_terminator dc_rx_data].
    rewrite Heep. by split_and!.
  - assert (size = VSPD_MAX_FRAME_PAYLOAD) as Hsz by lia.
    assert (Z.of_nat (S k) * VSPD_MAX_FRAME_PAYLOAD = off + size) as Hoff2 by (unfold off; lia).
    split; [done|]. rewrite Hoff2. by split_and!.
Qed.

Lemma sent_queued slot k : queued_ok slot -> 0 <= ps_length slot ->
  (k < fragment_count (ps_length slot))%nat -> queued_ok (sent_slot slot k).
Proof.
  intros (_ & Hmax & _ & Hid) Hl Hk.
  destruct (fragment_count_bounds (ps_length slot) k Hl Hk) as (H1 & H2 & _).
  unfold queued_ok, sent_slot. cbn [set_ps_offset ps_offset ps_length ps_message_id].
  split_and!; try done; unfold VSPD_MAX_FRAME_PAYLOAD in *; lia.
Qed.

Lemma record_serviced io_fuel bad deadline c slot id k inp out : (0 < io_fuel)%nat ->
  0 <= ps_length slot -> queued_ok slot -> (k < fragment_count (ps_length slot))%nat ->
  rx_holds c slot k ->
  exists c', service_record seqpacket io_fuel bad deadline
      (c, (fragment_record id slot k :: inp, out)) = (SPW_OK, (c', (inp, out))) /\
    if (S k =? fragment_count (ps_length slot))%nat then rx_complete c' slot
    else rx_holds c' slot (S k).
Proof.
  intros Hf Hl Hq Hk Hh. pose proof (sent_queued slot k Hq Hl Hk) as Hs.
  assert (0 <= ps_length slot <= VSPD_MAX_LOGICAL_PACKET) as Hmax by (destruct Hq; lia).
  destruct (event_received c id slot k Hmax Hs Hk Hh) as (c' & Hev & Hc').
  assert (valid_record (packet_event_header id (sent_slot slot k)) (fragment_payload slot k)) as Hv.
  { apply packet_event_valid; [done|]. unfold fragment_payload. rewrite length_mem_read.
    destruct (slot_chunk_spec _ Hs) as (_ & _ & H & _). lia. }
  exists c'. split; [|done]. unfold service_record, fragment_record.
  rewrite seq_receive by done. cbn [negb Z.eqb SPW_OK]. destruct (record_frame _ _ Hv) as [-> ->].
  destruct (packet_event_flags id _ Hs) as (_ & -> & _). cbn [fst snd]. by rewrite Hev.
Qed.

Lemma packet_serviced io_fuel slot id deadline : (0 < io_fuel)%nat ->
  0 <= ps_length slot -> queued_ok slot -> forall m fuel k c inp out,
  (k + m = fragment_count (ps_length slot))%nat -> (0 < m <= fuel)%nat -> rx_holds c slot k ->
  exists c', service_until seqpacket io_fuel fuel dc_rx_ready deadline
      (c, ((fragment_record id slot <$> seq k m) ++ inp, out)) = (SPW_OK, (c', (inp, out))) /\
    rx_complete c' slot.
Proof.
  intros Hf Hl Hq. induction m as [|m IH]; intros fuel k c inp out Hk Hm Hh; [lia|].
  destruct fuel as [|fuel]; [lia|]. cbn [service_until fst]. rewrite (proj1 Hh).
  cbn [seq fmap list_fmap app].
  destruct (record_serviced io_fuel (fun d => d) deadline c slot id k
    ((fragment_record id slot <$> seq (S k) m) ++ inp) out Hf Hl Hq ltac:(lia) Hh) as (c' & Heq & Hc').
  rewrite Heq. cbn [negb Z.eqb SPW_OK].
  destruct (S k =? fragment_count (ps_length slot))%nat eqn:E.
  - apply Nat.eqb_eq in E. assert (m = 0%nat) as -> by lia. exists c'. split; [|done].
    destruct Hc' as [Hready _]. destruct fuel; cbn [service_until fst]; by rewrite Hready.
  - apply Nat.eqb_neq in E. apply IH; [lia|lia|done].
Qed.

(** The packet events of one packet, read by a port that is connected and
    between packets. *)
Lemma packet_received io_fuel slot id c inp out q t :
  (fragment_count (ps_length slot) <= io_fuel)%nat -> 0 <= ps_length slot -> queued_ok slot ->
  0 <= dc_fd c -> rx_holds c slot 0 -> rx_packet_ok q = true -> ps_length slot <= pkt_capacity q ->
  let n := fragment_count (ps_length slot) in
  exists q' c', device_receive seqpacket io_fuel
      (c, ((fragment_record id slot <$> seq 0 n) ++ inp, out)) q t = (SPW_OK, q', (c', (inp, out))) /\
    pkt_length q' = ps_length slot /\
    packet_bytes q' = mem_read (ps_data slot) 0 (Z.to_nat (ps_length slot)) /\
    pkt_terminator q' = (if ps_terminator slot =? SPW_TERMINATOR_EEP then SPW_TERMINATOR_EEP
                         else SPW_TERMINATOR_EOP) /\
    dc_rx_ready c' = false /\ dc_rx_active c' = false.
Proof.
  intros Hf Hl Hq Hfd Hh Hrx Hcap n. pose proof (fragment_count_pos _ Hl) as Hpos.
  unfold device_receive. match goal with |- context [deadline_for _ t ?d] =>
    destruct (seq_deadline t d) as [deadline ->] end.
  unfold ensure_connected. cbn [fst]. replace (0 <=? dc_fd c) with true by lia.
  cbn [negb Z.eqb SPW_OK]. unfold service_until_packet.
  destruct (packet_serviced io_fuel slot id deadline ltac:(lia) Hl Hq n io_fuel 0 c inp out)
    as (c' & Hrun & Hready & Ht & Hterm & Hdata); [done|lia|done|].
  rewrite Hrun. cbn [negb Z.eqb SPW_OK fst]. rewrite Ht, Hterm.
  cbn [set_packet_shape pkt_capacity]. replace (pkt_capacity q <? ps_length slot) with false by lia.
  eexists _, _. split; [done|]. rewrite Hdata. unfold packet_bytes.
  destruct (ps_length slot =? 0) eqn:E; cbn [negb set_packet_shape set_packet_bytes pkt_length pkt_data
    pkt_terminator].
  { apply Z.eqb_eq in E. by rewrite E. }
  split_and!; try done. unfold rx_packet_ok in Hrx. destruct (pkt_data q) as [m|]; [|split_andb; lia].
  cbn [fmap option_fmap option_map default from_option Datatypes.id]. rewrite mem_write_0.
  rewrite take_app_le by (rewrite length_mem_read; lia).
  by rewrite take_ge by (rewrite length_mem_read; lia).
Qed.

(** ** From port to port *)

Lemma terminator_carried p : tx_packet_ok p = true ->
  let wire := if pkt_terminator p =? SPW_TERMINATOR_EEP then SPW_TERMINATOR_EEP
              else SPW_TERMINATOR_EOP in
  (if wire =? SPW_TERMINATOR_EEP then SPW_TERMINATOR_EEP else SPW_TERMINATOR_EOP) =
  pkt_terminator p.
Proof.
  unfold tx_packet_ok. intros H. split_andb. unfold valid_terminator in *. cbn zeta.
  destruct (pkt_terminator p =? SPW_TERMINATOR_EEP) eqn:E; [apply Z.eqb_eq in E; by rewrite E|].
  change (SPW_TERMINATOR_EOP =? SPW_TERMINATOR_EEP) with false. cbn match. lia.
Qed.

Section port_to_port.
Context {B W : Type} (os : os_ops W) (o : spw_backend_ops B) (Inv : B -> Prop)
  `{!BackendOutputs o Inv}.

(** The receiving half: the queued packet goes out as events and comes in at
    the port. *)
Lemma packet_fetched (s : vspwd_server B) j id w slot io_fuel c q t :
  sends_all os -> recvmsg_ok os -> 0 <= j < VSPWD_CLIENT_COUNT -> 0 <= id ->
  queue_is o Inv s j id [slot] -> ps_offset slot = 0 -> 0 <= ps_length slot ->
  (fragment_count (ps_length slot) <= io_fuel)%nat -> 0 <= dc_fd c ->
  dc_rx_ready c = false -> dc_rx_active c = false ->
  rx_packet_ok q = true -> ps_length slot <= pkt_capacity q ->
  exists events s' w' q' c',
    flush_packets (log_os os) (fragment_count (ps_length slot)) s j (w, []) =
      (true, (s', (w', rev ((fun e => (c_fd (client_at s j), e)) <$> events)))) /\
    queue_is o Inv s' j id [] /\
    device_receive seqpacket io_fuel (c, (events, [])) q t = (SPW_OK, q', (c', ([], []))) /\
    pkt_length q' = ps_length slot /\
    packet_bytes q' = mem_read (ps_data slot) 0 (Z.to_nat (ps_length slot)) /\
    pkt_terminator q' = (if ps_terminator slot =? SPW_TERMINATOR_EEP then SPW_TERMINATOR_EEP
                         else SPW_TERMINATOR_EOP).
Proof.
  intros Hsend Hrecv Hj Hid Hq Hoff Hl Hf Hfd Hready Hactive Hrx Hcap.
  pose proof (front_queued o Inv s j id slot [] Hj Hid Hq) as Hqo.
  pose proof (fragment_count_pos _ Hl) as Hpos. set (n := fragment_count (ps_length slot)) in *.
  destruct (flush_packets_from os o Inv j id slot [] n Hsend Hrecv Hj Hid
    ltac:(destruct Hqo; lia) 0 s w []) as (s' & w' & Hrun & Hq'); [done| |].
  { unfold after_fragments. rewrite (proj2 (Nat.ltb_lt _ _)) by done.
    unfold sent_slot. rewrite Z.mul_0_l, <- Hoff. by destruct slot. }
  destruct (packet_received io_fuel slot id c [] [] q t) as (q' & c' & Hr & H1 & H2 & H3 & _);
    try done. rewrite app_nil_r in Hr, Hrun.
  exists (fragment_record id slot <$> seq 0 n), s', w', q', c'. split_and!; try done.
  by rewrite <- list_fmap_compose.
Qed.

(** C9. A packet of at most 1 MiB that one device port sends arrives at the other
    unchanged.  The server has the sender's port and its peer running, with room
    and nothing outstanding; the receiver is connected and between packets.  Then
    the server accepts every record the sending port puts on its socket, with the
    response the server stores the send returns OK, the queued packet leaves the
    server as events to the receiving client, and with exactly those records on
    its socket the receiving port's receive returns OK and a packet of the same
    bytes, length and terminator. *)
Theorem packet_end_to_end (s : vspwd_server B) i j w io_fuel ca cb p q ta tb inp :
  sends_all os -> recvmsg_ok os -> 0 <= j < VSPWD_CLIENT_COUNT ->
  (fragment_count (pkt_length p) <= io_fuel)%nat -> sends_packet ca p ->
  0 <= dc_fd ca -> tx_ready o Inv s i (outgoing_of ca p) ->
  ra_active (c_reassembly (client_at s i)) = false ->
  queue_is o Inv s j (vspwd_peer_port (dev_port_id (dc_config ca))) [] ->
  0 <= dc_fd cb -> dc_rx_ready cb = false -> dc_rx_active cb = false ->
  rx_packet_ok q = true -> pkt_length p <= pkt_capacity q ->
  exists records s1 ca' events s2 w2 q' cb',
    serve_records s i records = (true, s1) /\
    (let response := mem_read (c_response (client_at s1 i)) 0
                       (Z.to_nat (c_response_size (client_at s1 i))) in
     device_send seqpacket io_fuel (ca, (response :: inp, [])) p ta = (SPW_OK, (ca', (inp, records)))) /\
    flush_packets (log_os os) (fragment_count (pkt_length p)) s1 j (w, []) =
      (true, (s2, (w2, rev ((fun e => (c_fd (client_at s1 j), e)) <$> events)))) /\
    device_receive seqpacket io_fuel (cb, (events, [])) q tb = (SPW_OK, q', (cb', ([], []))) /\
    packet_bytes q' = packet_bytes p /\ pkt_length q' = pkt_length p /\
    pkt_terminator q' = pkt_terminator p.
Proof.
  intros Hsend Hrecv Hj Hf Hp Hfa Hr Hidle Hq Hfb Hready Hactive Hrx Hcap.
  destruct (packet_bytes_length p (sp_packet _ _ Hp)) as (H0 & Hlen & _).
  pose proof (fragment_count_pos _ H0) as Hpos.
  destruct (packet_sent o Inv s i io_fuel ca p ta inp) as (records & s1 & ca' & Hserve & Harr & Hout);
    try done; [lia|].
  destruct Harr as (Hs1 & (slot & Hring & Hl & Hoff & Hdata & Hterm) & Hown & _).
  set (peer := vspwd_peer_port _) in *. destruct Hq as (_ & Hport & Hempty).
  cbn [outgoing_of og_port_id] in Hring. fold peer in Hring. rewrite Hempty in Hring.
  rewrite Hlen in Hl. assert (0 <= peer) as Hpeer by (unfold peer, vspwd_peer_port; case_if; lia).
  assert (queue_is o Inv s1 j peer [slot]) as Hq1 by (split_and!; [done|by rewrite Hown|done]).
  destruct (packet_fetched s1 j peer w slot io_fuel cb q tb) as
    (events & s2 & w2 & q' & cb' & Hflush & _ & Hin & H1 & H2 & H3); rewrite ?Hl; try done.
  rewrite Hl in Hflush, H1, H2. replace (Z.to_nat (pkt_length p)) with (length (packet_bytes p)) in H2
    by lia. rewrite Hdata in H2. rewrite Hterm in H3. cbn [outgoing_of og_eep] in H3.
  rewrite (terminator_carried p (sp_packet _ _ Hp)) in H3.
  exists records, s1, ca', events, s2, w2, q', cb'. by split_and!.
Qed.
End port_to_port.

(** ** Responses out of step *)

(** The connection was given up, and with it what had been received. *)
Definition disconnected (c : device_context) : Prop :=
  dc_fd c = -1 /\ dc_state c = SPW_LINK_ERROR_WAIT /\ dc_rx_ready c = false /\
  dc_time_code_count c = 0%nat.

(** A response that is not the one waited for ends the session. *)
Lemma stale_response io_fuel c p t h inp : (0 < io_fuel)%nat -> 0 <= dc_fd c -> sends_packet c p ->
  valid_record h [] -> vspd_flag h VSPD_FLAG_RESPONSE = true ->
  v_request_id h <> dc_next_request_id c ->
  let '(r, d) := device_send seqpacket io_fuel (c, ((vspd_header_bytes h ++ []) :: inp, [])) p t in
  r = SPW_ERR_BACKEND /\ disconnected d.1.
Proof.
  intros Hf Hfd Hp Hv Hresp Hid.
  destruct (send_then_wait io_fuel c p t ((vspd_header_bytes h ++ []) :: inp) Hf Hfd Hp) as [deadline ->].
  unfold wait_response. destruct io_fuel as [|fuel]; [lia|]. cbn [wait_response_loop]. rewrite seq_receive by (done || lia). cbn [negb Z.eqb SPW_OK].
  destruct (record_frame h [] Hv) as [-> _]. rewrite Hresp.
  replace (v_request_id h =? dc_next_request_id c) with false by lia. rewrite orb_true_r.
  split; [done|]. unfold mark_disconnected. by case_if.
Qed.

Definition after_request (c : device_context) : device_context :=
  dset_ids (u32 (dc_next_request_id c + 1)) (u32 (dc_next_message_id c + 1)) c.

(** The response to the request that [c] makes next. *)
Record answers (c : device_context) (h : vspd_header) : Prop := {
  an_valid : valid_record h [];
  an_response : vspd_flag h VSPD_FLAG_RESPONSE = true;
  an_request : v_request_id h = dc_next_request_id c
}.

Lemma answer_stale c h : answers c h -> v_request_id h <> dc_next_request_id (after_request c).
Proof.
  intros Ha. rewrite (an_request _ _ Ha). cbn [after_request dset_ids dc_next_request_id]. intros E.
  pose proof (wrap_bounds 32 (dc_next_request_id c + 1) ltac:(lia)) as Hw.
  destruct (Z.eq_dec (dc_next_request_id c) (2 ^ 32 - 1)) as [E1|E1]; [by rewrite E1 in E|].
  rewrite wrap_small in E by lia. lia.
Qed.

(** C35. A port that holds a packet its caller has not read yet loses it when a
    second packet arrives during a send: the send of [p] fails with
    SPW_ERR_RESOURCE_EXHAUSTED although its response is on its way, the second
    packet is dropped, and the next send takes that response for its own, fails
    with SPW_ERR_BACKEND and leaves the port disconnected, the first packet gone
    as well. *)
Theorem second_packet_breaks_session io_fuel c p p2 t t2 event payload h :
  (0 < io_fuel)%nat -> 0 <= dc_fd c -> sends_packet c p -> sends_packet (after_request c) p2 ->
  dc_rx_ready c = true -> valid_record event payload -> v_type event = VSPD_MSG_DATA_RX ->
  vspd_flag event VSPD_FLAG_RESPONSE = false -> answers c h ->
  let response := vspd_header_bytes h ++ [] in
  let '(r1, d1) :=
    device_send seqpacket io_fuel
      (c, ([vspd_header_bytes event ++ payload; response], [])) p t in
  r1 = SPW_ERR_RESOURCE_EXHAUSTED /\ dc_rx_ready d1.1 = true /\ d1.2.1 = [response] /\
  let '(r2, d2) := device_send seqpacket io_fuel (d1.1, (d1.2.1, [])) p2 t2 in
  r2 = SPW_ERR_BACKEND /\ disconnected d2.1.
Proof.
  intros Hf Hfd Hp Hp2 Hready Hv Ht Hflag Ha. cbn zeta.
  destruct (send_then_wait io_fuel c p t
    [vspd_header_bytes event ++ payload; vspd_header_bytes h ++ []] Hf Hfd Hp) as [deadline ->].
  unfold wait_response. destruct io_fuel as [|fuel]; [lia|]. cbn [wait_response_loop].
  rewrite seq_receive by (done || lia). cbn [negb Z.eqb SPW_OK].
  destruct (record_frame event payload Hv) as [-> ->]. rewrite Hflag. cbn [fst snd].
  unfold process_event. rewrite Ht. cbn [dset_ids dc_rx_ready]. rewrite Hready.
  split; [done|]. split; [done|]. split; [done|]. cbn [fst snd].
  by apply (stale_response (S fuel) (after_request c) p2 t2 h); try apply Ha;
    [..|by apply answer_stale].
Qed.

(** C36. A send that times out breaks the session: the response that arrives
    later is read by the next send, which fails with SPW_ERR_BACKEND and leaves
    the port disconnected. *)
Theorem late_response_disconnects io_fuel c p p2 t t2 h :
  (0 < io_fuel)%nat -> 0 <= dc_fd c -> sends_packet c p -> sends_packet (after_request c) p2 ->
  answers c h ->
  let '(r1, d1) := device_send seqpacket io_fuel (c, ([], [])) p t in
  r1 = SPW_ERR_TIMEOUT /\
  let '(r2, d2) :=
    device_send seqpacket io_fuel (d1.1, ([vspd_header_bytes h ++ []], [])) p2 t2 in
  r2 = SPW_ERR_BACKEND /\ disconnected d2.1.
Proof.
  intros Hf Hfd Hp Hp2 Ha.
  destruct (send_then_wait io_fuel c p t [] ltac:(lia) Hfd Hp) as [deadline ->].
  unfold wait_response. destruct io_fuel as [|fuel]; [lia|]. cbn [wait_response_loop].
  rewrite seq_receive_nothing by lia. cbn [negb Z.eqb SPW_OK SPW_ERR_TIMEOUT fst snd].
  split; [done|]. by apply (stale_response (S fuel) (after_request c) p2 t2 h); try apply Ha;
    [..|by apply answer_stale].
Qed.

(** ** Witnesses *)

(** A connected port between packets, with the given numbers to use next. *)
Definition connected_context (port_id request message : Z) : device_context :=
  dset_ids request message
    (dset_session 5 SPW_LINK_RUN
       (zero_context {| dev_struct_size := 124; dev_version := SPW_DEVICE_CONFIG_VERSION;
          dev_port_id := port_id; dev_reserved := 0; dev_endpoint := [47; 118; 0] |})).

Lemma connected_sends port_id request message : 0 <= port_id < 2 ^ 32 -> 0 < request < 2 ^ 32 ->
  0 < message < 2 ^ 32 ->
  sends_packet (connected_context port_id request message) device_sample_packet.
Proof. intros H1 H2 H3. constructor; try done. by apply bytes_ok_check. Qed.

Definition empty_packet : spw_packet :=
  {| pkt_data := Some [0; 0; 0; 0]; pkt_length := 0; pkt_capacity := 4;
     pkt_terminator := SPW_TERMINATOR_EOP |}.

Lemma packet_end_to_end_witness :
  exists records s1 ca' events s2 w2 q' cb',
    serve_records sample_server 0 records = (true, s1) /\
    (let response := mem_read (c_response (client_at s1 0)) 0
                       (Z.to_nat (c_response_size (client_at s1 0))) in
     device_send seqpacket 2 (connected_context 0 9 3, ([response], [])) device_sample_packet 0 =
       (SPW_OK, (ca', ([], records)))) /\
    flush_packets (log_os script_os) 1 s1 1 (two_clients, []) =
      (true, (s2, (w2, rev ((fun e => (c_fd (client_at s1 1), e)) <$> events)))) /\
    device_receive seqpacket 2 (connected_context 1 1 1, (events, [])) empty_packet 0 =
      (SPW_OK, q', (cb', ([], []))) /\
    packet_bytes q' = [1; 2; 3] /\ pkt_length q' = 3 /\ pkt_terminator q' = SPW_TERMINATOR_EEP.
Proof.
  apply (packet_end_to_end script_os FIFO_OPS fifo_contents_ok sample_server 0 1 two_clients 2
    (connected_context 0 9 3) (connected_context 1 1 1) device_sample_packet empty_packet 0 0 []).
  - by intros ???.
  - apply script_recvmsg.
  - by vm_compute.
  - apply Nat.leb_le. by vm_compute.
  - by apply connected_sends.
  - by vm_compute.
  - apply sample_tx_ready.
  - by vm_compute.
  - split; [apply sample_server_ok|by vm_compute].
  - by vm_compute.
  - by vm_compute.
  - by vm_compute.
  - by vm_compute.
  - by vm_compute.
Defined.

Definition late_answer : vspd_header :=
  {| v_magic := VSPD_MAGIC; v_version_major := VSPD_VERSION_MAJOR;
     v_version_minor := VSPD_VERSION_MINOR; v_type := VSPD_MSG_DATA_TX;
     v_flags := VSPD_FLAG_RESPONSE; v_header_size := VSPD_HEADER_SIZE; v_reserved := 0;
     v_payload_size := 0; v_request_id := 9; v_port_id := 0; v_message_id := 0;
     v_fragment_offset := 0; v_total_size := 0; v_status := VSPD_STATUS_OK |}.

Lemma late_answers : answers (connected_context 0 9 3) late_answer.
Proof. by constructor; [constructor|..]. Qed.

Lemma late_response_disconnects_witness :
  let '(r1, d1) :=
    device_send seqpacket 2 (connected_context 0 9 3, ([], [])) device_sample_packet 0 in
  r1 = SPW_ERR_TIMEOUT /\
  let '(r2, d2) :=
    device_send seqpacket 2 (d1.1, ([vspd_header_bytes late_answer ++ []], []))
      device_sample_packet 1000 in
  r2 = SPW_ERR_BACKEND /\ disconnected d2.1.
Proof.
  apply (late_response_disconnects 2 (connected_context 0 9 3) device_sample_packet
    device_sample_packet 0 1000 late_answer); [lia|done|by apply connected_sends| |apply late_answers].
  by apply (connected_sends 0 10 4).
Defined.

(** A packet event for the witness of the lost packets. *)
Definition held_context : device_context :=
  dset_rx false true 1 0 0 SPW_TERMINATOR_EOP [] (connected_context 0 9 3).

Definition second_event : vspd_header :=
  {| v_magic := VSPD_MAGIC; v_version_major := VSPD_VERSION_MAJOR;
     v_version_minor := VSPD_VERSION_MINOR; v_type := VSPD_MSG_DATA_RX;
     v_flags := 0x0e; v_header_size := VSPD_HEADER_SIZE; v_reserved := 0;
     v_payload_size := 1; v_request_id := 0; v_port_id := 0; v_message_id := 2;
     v_fragment_offset := 0; v_total_size := 1; v_status := 0 |}.

Lemma second_packet_breaks_session_witness :
  let response := vspd_header_bytes late_answer ++ [] in
  let '(r1, d1) :=
    device_send seqpacket 2 (held_context, ([vspd_header_bytes second_event ++ [7]; response], []))
      device_sample_packet SPW_TIMEOUT_INFINITE in
  r1 = SPW_ERR_RESOURCE_EXHAUSTED /\ dc_rx_ready d1.1 = true /\ d1.2.1 = [response] /\
  let '(r2, d2) := device_send seqpacket 2 (d1.1, (d1.2.1, [])) device_sample_packet 1000 in
  r2 = SPW_ERR_BACKEND /\ disconnected d2.1.
Proof.
  apply (second_packet_breaks_session 2 held_context device_sample_packet device_sample_packet
    SPW_TIMEOUT_INFINITE 1000 second_event [7] late_answer); try done; [lia|..].
  - constructor; try done. by apply bytes_ok_check.
  - constructor; try done. by apply bytes_ok_check.
Defined.
