(* ===== verification/Udp.v ===== *)
(** * The UDP backend

    src/src/backends/ethernet/udp_backend.c: a port carried by UDP datagrams to
    one peer.  A packet or a time-code waits in a single slot until its peer has
    acknowledged it and is sent again while it has not; received fragments are
    assembled, and what was delivered is remembered so that a repetition is only
    acknowledged.  Keepalives establish the session of the peer.

    [W] is the state of the world outside the process and [udp_os] the calls the
    backend makes; nothing is assumed about what they return.  A loop that the
    system drives is followed for [io_fuel] rounds: a run that exhausts it is one
    in which the next system call fails, which gives [SPW_ERR_BACKEND].  The
    buffers tx_datagram, rx_datagram and control_datagram are written before each
    use and are the values of local definitions here. *)

From S2P Require Import Prelude Types Posix VspwTp Reassembler LinkTiming Faults Ring Queue Backend Loopback.
From S2P Require Import DriverApi PortConfig.

Definition SPW_UDP_BACKEND_MAX_PACKET_SIZE : Z := 1024 * 1024.
Definition SPW_UDP_TIME_CODE_QUEUE_DEPTH : nat := 8.
Definition SPW_UDP_RECENT_MESSAGE_DEPTH : nat := 32.
Definition SPW_UDP_RETIRED_SESSION_DEPTH : nat := 8.
Definition SPW_UDP_CONTROL_DATAGRAM_SIZE : Z := 64.

(** alignof(spw_udp_max_alignment_t), that of long double, on x86-64. *)
Definition udp_max_alignment : Z := 16.

Definition SPW_UDP_PENDING_NONE : Z := 0.
Definition SPW_UDP_PENDING_DATA : Z := 1.
Definition SPW_UDP_PENDING_TIME_CODE : Z := 2.

Definition INT_MAX : Z := 2 ^ 31 - 1.
Definition AF_INET : Z := 2.

(** ** State *)

(** The fields pending_packet, pending_packet_size, _terminator and _valid. *)
Record pending_packet := {
  pp_data : list Z;
  pp_size : Z;
  pp_terminator : Z;
  pp_valid : bool
}.

(** The fields pending_tx_*. *)
Record pending_tx := {
  pt_packet : list Z;
  pt_packet_size : Z;
  pt_terminator : Z;
  pt_time_code : spw_time_code;
  pt_kind : Z;
  pt_message_id : Z;
  pt_retries : Z;
  pt_failed : bool;
  pt_last_send_us : Z
}.

Record spw_udp_backend := {
  ub_config : spw_udp_config;
  ub_timing : spw_virtual_link_timing;
  ub_injector : spw_deterministic_fault_injector;
  ub_socket_fd : Z;
  ub_state : Z;
  ub_statistics : spw_statistics;
  ub_fault_statistics : spw_fault_statistics;
  ub_next_sequence : Z;
  ub_next_message_id : Z;
  ub_reordered : option (list Z);
  ub_reassembly : spw_fragment_reassembler;
  ub_last_fragment_us : Z;
  ub_pending : pending_packet;
  ub_time_codes : queue spw_time_code;
  ub_tx : pending_tx;
  ub_recent : queue (Z * Z);
  ub_retired : queue Z;
  ub_local_session_id : Z;
  ub_remote_session_id : Z;
  ub_peer_seen : bool;
  ub_last_peer_rx_us : Z;
  ub_last_keepalive_tx_us : Z
}.

(** Assignments to one field. *)
Definition set_ub_injector (v : spw_deterministic_fault_injector) (s : spw_udp_backend) : spw_udp_backend :=
  {| ub_config := ub_config s; ub_timing := ub_timing s; ub_injector := v;
     ub_socket_fd := ub_socket_fd s; ub_state := ub_state s;
     ub_statistics := ub_statistics s; ub_fault_statistics := ub_fault_statistics s;
     ub_next_sequence := ub_next_sequence s; ub_next_message_id := ub_next_message_id s;
     ub_reordered := ub_reordered s; ub_reassembly := ub_reassembly s;
     ub_last_fragment_us := ub_last_fragment_us s; ub_pending := ub_pending s;
     ub_time_codes := ub_time_codes s; ub_tx := ub_tx s; ub_recent := ub_recent s;
     ub_retired := ub_retired s; ub_local_session_id := ub_local_session_id s;
     ub_remote_session_id := ub_remote_session_id s; ub_peer_seen := ub_peer_seen s;
     ub_last_peer_rx_us := ub_last_peer_rx_us s;
     ub_last_keepalive_tx_us := ub_last_keepalive_tx_us s |}.
Definition set_ub_socket_fd (v : Z) (s : spw_udp_backend) : spw_udp_backend :=
  {| ub_config := ub_config s; ub_timing := ub_timing s; ub_injector := ub_injector s;
     ub_socket_fd := v; ub_state := ub_state s; ub_statistics := ub_statistics s;
     ub_fault_statistics := ub_fault_statistics s; ub_next_sequence := ub_next_sequence s;
     ub_next_message_id := ub_next_message_id s; ub_reordered := ub_reordered s;
     ub_reassembly := ub_reassembly s; ub_last_fragment_us := ub_last_fragment_us s;
     ub_pending := ub_pending s; ub_time_codes := ub_time_codes s; ub_tx := ub_tx s;
     ub_recent := ub_recent s; ub_retired := ub_retired s;
     ub_local_session_id := ub_local_session_id s;
     ub_remote_session_id := ub_remote_session_id s; ub_peer_seen := ub_peer_seen s;
     ub_last_peer_rx_us := ub_last_peer_rx_us s;
     ub_last_keepalive_tx_us := ub_last_keepalive_tx_us s |}.
Definition set_ub_state (v : Z) (s : spw_udp_backend) : spw_udp_backend :=
  {| ub_config := ub_config s; ub_timing := ub_timing s; ub_injector := ub_injector s;
     ub_socket_fd := ub_socket_fd s; ub_state := v; ub_statistics := ub_statistics s;
     ub_fault_statistics := ub_fault_statistics s; ub_next_sequence := ub_next_sequence s;
     ub_next_message_id := ub_next_message_id s; ub_reordered := ub_reordered s;
     ub_reassembly := ub_reassembly s; ub_last_fragment_us := ub_last_fragment_us s;
     ub_pending := ub_pending s; ub_time_codes := ub_time_codes s; ub_tx := ub_tx s;
     ub_recent := ub_recent s; ub_retired := ub_retired s;
     ub_local_session_id := ub_local_session_id s;
     ub_remote_session_id := ub_remote_session_id s; ub_peer_seen := ub_peer_seen s;
     ub_last_peer_rx_us := ub_last_peer_rx_us s;
     ub_last_keepalive_tx_us := ub_last_keepalive_tx_us s |}.
Definition set_ub_statistics (v : spw_statistics) (s : spw_udp_backend) : spw_udp_backend :=
  {| ub_config := ub_config s; ub_timing := ub_timing s; ub_injector := ub_injector s;
     ub_socket_fd := ub_socket_fd s; ub_state := ub_state s; ub_statistics := v;
     ub_fault_statistics := ub_fault_statistics s; ub_next_sequence := ub_next_sequence s;
     ub_next_message_id := ub_next_message_id s; ub_reordered := ub_reordered s;
     ub_reassembly := ub_reassembly s; ub_last_fragment_us := ub_last_fragment_us s;
     ub_pending := ub_pending s; ub_time_codes := ub_time_codes s; ub_tx := ub_tx s;
     ub_recent := ub_recent s; ub_retired := ub_retired s;
     ub_local_session_id := ub_local_session_id s;
     ub_remote_session_id := ub_remote_session_id s; ub_peer_seen := ub_peer_seen s;
     ub_last_peer_rx_us := ub_last_peer_rx_us s;
     ub_last_keepalive_tx_us := ub_last_keepalive_tx_us s |}.
Definition set_ub_fault_statistics (v : spw_fault_statistics) (s : spw_udp_backend) : spw_udp_backend :=
  {| ub_config := ub_config s; ub_timing := ub_timing s; ub_injector := ub_injector s;
     ub_socket_fd := ub_socket_fd s; ub_state := ub_state s;
     ub_statistics := ub_statistics s; ub_fault_statistics := v;
     ub_next_sequence := ub_next_sequence s; ub_next_message_id := ub_next_message_id s;
     ub_reordered := ub_reordered s; ub_reassembly := ub_reassembly s;
     ub_last_fragment_us := ub_last_fragment_us s; ub_pending := ub_pending s;
     ub_time_codes := ub_time_codes s; ub_tx := ub_tx s; ub_recent := ub_recent s;
     ub_retired := ub_retired s; ub_local_session_id := ub_local_session_id s;
     ub_remote_session_id := ub_remote_session_id s; ub_peer_seen := ub_peer_seen s;
     ub_last_peer_rx_us := ub_last_peer_rx_us s;
     ub_last_keepalive_tx_us := ub_last_keepalive_tx_us s |}.
Definition set_ub_next_sequence (v : Z) (s : spw_udp_backend) : spw_udp_backend :=
  {| ub_config := ub_config s; ub_timing := ub_timing s; ub_injector := ub_injector s;
     ub_socket_fd := ub_socket_fd s; ub_state := ub_state s;
     ub_statistics := ub_statistics s; ub_fault_statistics := ub_fault_statistics s;
     ub_next_sequence := v; ub_next_message_id := ub_next_message_id s;
     ub_reordered := ub_reordered s; ub_reassembly := ub_reassembly s;
     ub_last_fragment_us := ub_last_fragment_us s; ub_pending := ub_pending s;
     ub_time_codes := ub_time_codes s; ub_tx := ub_tx s; ub_recent := ub_recent s;
     ub_retired := ub_retired s; ub_local_session_id := ub_local_session_id s;
     ub_remote_session_id := ub_remote_session_id s; ub_peer_seen := ub_peer_seen s;
     ub_last_peer_rx_us := ub_last_peer_rx_us s;
     ub_last_keepalive_tx_us := ub_last_keepalive_tx_us s |}.
Definition set_ub_next_message_id (v : Z) (s : spw_udp_backend) : spw_udp_backend :=
  {| ub_config := ub_config s; ub_timing := ub_timing s; ub_injector := ub_injector s;
     ub_socket_fd := ub_socket_fd s; ub_state := ub_state s;
     ub_statistics := ub_statistics s; ub_fault_statistics := ub_fault_statistics s;
     ub_next_sequence := ub_next_sequence s; ub_next_message_id := v;
     ub_reordered := ub_reordered s; ub_reassembly := ub_reassembly s;
     ub_last_fragment_us := ub_last_fragment_us s; ub_pending := ub_pending s;
     ub_time_codes := ub_time_codes s; ub_tx := ub_tx s; ub_recent := ub_recent s;
     ub_retired := ub_retired s; ub_local_session_id := ub_local_session_id s;
     ub_remote_session_id := ub_remote_session_id s; ub_peer_seen := ub_peer_seen s;
     ub_last_peer_rx_us := ub_last_peer_rx_us s;
     ub_last_keepalive_tx_us := ub_last_keepalive_tx_us s |}.
Definition set_ub_reordered (v : option (list Z)) (s : spw_udp_backend) : spw_udp_backend :=
  {| ub_config := ub_config s; ub_timing := ub_timing s; ub_injector := ub_injector s;
     ub_socket_fd := ub_socket_fd s; ub_state := ub_state s;
     ub_statistics := ub_statistics s; ub_fault_statistics := ub_fault_statistics s;
     ub_next_sequence := ub_next_sequence s; ub_next_message_id := ub_next_message_id s;
     ub_reordered := v; ub_reassembly := ub_reassembly s;
     ub_last_fragment_us := ub_last_fragment_us s; ub_pending := ub_pending s;
     ub_time_codes := ub_time_codes s; ub_tx := ub_tx s; ub_recent := ub_recent s;
     ub_retired := ub_retired s; ub_local_session_id := ub_local_session_id s;
     ub_remote_session_id := ub_remote_session_id s; ub_peer_seen := ub_peer_seen s;
     ub_last_peer_rx_us := ub_last_peer_rx_us s;
     ub_last_keepalive_tx_us := ub_last_keepalive_tx_us s |}.
Definition set_ub_reassembly (v : spw_fragment_reassembler) (s : spw_udp_backend) : spw_udp_backend :=
  {| ub_config := ub_config s; ub_timing := ub_timing s; ub_injector := ub_injector s;
     ub_socket_fd := ub_socket_fd s; ub_state := ub_state s;
     ub_statistics := ub_statistics s; ub_fault_statistics := ub_fault_statistics s;
     ub_next_sequence := ub_next_sequence s; ub_next_message_id := ub_next_message_id s;
     ub_reordered := ub_reordered s; ub_reassembly := v;
     ub_last_fragment_us := ub_last_fragment_us s; ub_pending := ub_pending s;
     ub_time_codes := ub_time_codes s; ub_tx := ub_tx s; ub_recent := ub_recent s;
     ub_retired := ub_retired s; ub_local_session_id := ub_local_session_id s;
     ub_remote_session_id := ub_remote_session_id s; ub_peer_seen := ub_peer_seen s;
     ub_last_peer_rx_us := ub_last_peer_rx_us s;
     ub_last_keepalive_tx_us := ub_last_keepalive_tx_us s |}.
Definition set_ub_last_fragment_us (v : Z) (s : spw_udp_backend) : spw_udp_backend :=
  {| ub_config := ub_config s; ub_timing := ub_timing s; ub_injector := ub_injector s;
     ub_socket_fd := ub_socket_fd s; ub_state := ub_state s;
     ub_statistics := ub_statistics s; ub_fault_statistics := ub_fault_statistics s;
     ub_next_sequence := ub_next_sequence s; ub_next_message_id := ub_next_message_id s;
     ub_reordered := ub_reordered s; ub_reassembly := ub_reassembly s;
     ub_last_fragment_us := v; ub_pending := ub_pending s; ub_time_codes := ub_time_codes s;
     ub_tx := ub_tx s; ub_recent := ub_recent s; ub_retired := ub_retired s;
     ub_local_session_id := ub_local_session_id s;
     ub_remote_session_id := ub_remote_session_id s; ub_peer_seen := ub_peer_seen s;
     ub_last_peer_rx_us := ub_last_peer_rx_us s;
     ub_last_keepalive_tx_us := ub_last_keepalive_tx_us s |}.
Definition set_ub_pending (v : pending_packet) (s : spw_udp_backend) : spw_udp_backend :=
  {| ub_config := ub_config s; ub_timing := ub_timing s; ub_injector := ub_injector s;
     ub_socket_fd := ub_socket_fd s; ub_state := ub_state s;
     ub_statistics := ub_statistics s; ub_fault_statistics := ub_fault_statistics s;
     ub_next_sequence := ub_next_sequence s; ub_next_message_id := ub_next_message_id s;
     ub_reordered := ub_reordered s; ub_reassembly := ub_reassembly s;
     ub_last_fragment_us := ub_last_fragment_us s; ub_pending := v;
     ub_time_codes := ub_time_codes s; ub_tx := ub_tx s; ub_recent := ub_recent s;
     ub_retired := ub_retired s; ub_local_session_id := ub_local_session_id s;
     ub_remote_session_id := ub_remote_session_id s; ub_peer_seen := ub_peer_seen s;
     ub_last_peer_rx_us := ub_last_peer_rx_us s;
     ub_last_keepalive_tx_us := ub_last_keepalive_tx_us s |}.
Definition set_ub_time_codes (v : queue spw_time_code) (s : spw_udp_backend) : spw_udp_backend :=
  {| ub_config := ub_config s; ub_timing := ub_timing s; ub_injector := ub_injector s;
     ub_socket_fd := ub_socket_fd s; ub_state := ub_state s;
     ub_statistics := ub_statistics s; ub_fault_statistics := ub_fault_statistics s;
     ub_next_sequence := ub_next_sequence s; ub_next_message_id := ub_next_message_id s;
     ub_reordered := ub_reordered s; ub_reassembly := ub_reassembly s;
     ub_last_fragment_us := ub_last_fragment_us s; ub_pending := ub_pending s;
     ub_time_codes := v; ub_tx := ub_tx s; ub_recent := ub_recent s;
     ub_retired := ub_retired s; ub_local_session_id := ub_local_session_id s;
     ub_remote_session_id := ub_remote_session_id s; ub_peer_seen := ub_peer_seen s;
     ub_last_peer_rx_us := ub_last_peer_rx_us s;
     ub_last_keepalive_tx_us := ub_last_keepalive_tx_us s |}.
Definition set_ub_tx (v : pending_tx) (s : spw_udp_backend) : spw_udp_backend :=
  {| ub_config := ub_config s; ub_timing := ub_timing s; ub_injector := ub_injector s;
     ub_socket_fd := ub_socket_fd s; ub_state := ub_state s;
     ub_statistics := ub_statistics s; ub_fault_statistics := ub_fault_statistics s;
     ub_next_sequence := ub_next_sequence s; ub_next_message_id := ub_next_message_id s;
     ub_reordered := ub_reordered s; ub_reassembly := ub_reassembly s;
     ub_last_fragment_us := ub_last_fragment_us s; ub_pending := ub_pending s;
     ub_time_codes := ub_time_codes s; ub_tx := v; ub_recent := ub_recent s;
     ub_retired := ub_retired s; ub_local_session_id := ub_local_session_id s;
     ub_remote_session_id := ub_remote_session_id s; ub_peer_seen := ub_peer_seen s;
     ub_last_peer_rx_us := ub_last_peer_rx_us s;
     ub_last_keepalive_tx_us := ub_last_keepalive_tx_us s |}.
Definition set_ub_recent (v : queue (Z * Z)) (s : spw_udp_backend) : spw_udp_backend :=
  {| ub_config := ub_config s; ub_timing := ub_timing s; ub_injector := ub_injector s;
     ub_socket_fd := ub_socket_fd s; ub_state := ub_state s;
     ub_statistics := ub_statistics s; ub_fault_statistics := ub_fault_statistics s;
     ub_next_sequence := ub_next_sequence s; ub_next_message_id := ub_next_message_id s;
     ub_reordered := ub_reordered s; ub_reassembly := ub_reassembly s;
     ub_last_fragment_us := ub_last_fragment_us s; ub_pending := ub_pending s;
     ub_time_codes := ub_time_codes s; ub_tx := ub_tx s; ub_recent := v;
     ub_retired := ub_retired s; ub_local_session_id := ub_local_session_id s;
     ub_remote_session_id := ub_remote_session_id s; ub_peer_seen := ub_peer_seen s;
     ub_last_peer_rx_us := ub_last_peer_rx_us s;
     ub_last_keepalive_tx_us := ub_last_keepalive_tx_us s |}.
Definition set_ub_retired (v : queue Z) (s : spw_udp_backend) : spw_udp_backend :=
  {| ub_config := ub_config s; ub_timing := ub_timing s; ub_injector := ub_injector s;
     ub_socket_fd := ub_socket_fd s; ub_state := ub_state s;
     ub_statistics := ub_statistics s; ub_fault_statistics := ub_fault_statistics s;
     ub_next_sequence := ub_next_sequence s; ub_next_message_id := ub_next_message_id s;
     ub_reordered := ub_reordered s; ub_reassembly := ub_reassembly s;
     ub_last_fragment_us := ub_last_fragment_us s; ub_pending := ub_pending s;
     ub_time_codes := ub_time_codes s; ub_tx := ub_tx s; ub_recent := ub_recent s;
     ub_retired := v; ub_local_session_id := ub_local_session_id s;
     ub_remote_session_id := ub_remote_session_id s; ub_peer_seen := ub_peer_seen s;
     ub_last_peer_rx_us := ub_last_peer_rx_us s;
     ub_last_keepalive_tx_us := ub_last_keepalive_tx_us s |}.
Definition set_ub_local_session_id (v : Z) (s : spw_udp_backend) : spw_udp_backend :=
  {| ub_config := ub_config s; ub_timing := ub_timing s; ub_injector := ub_injector s;
     ub_socket_fd := ub_socket_fd s; ub_state := ub_state s;
     ub_statistics := ub_statistics s; ub_fault_statistics := ub_fault_statistics s;
     ub_next_sequence := ub_next_sequence s; ub_next_message_id := ub_next_message_id s;
     ub_reordered := ub_reordered s; ub_reassembly := ub_reassembly s;
     ub_last_fragment_us := ub_last_fragment_us s; ub_pending := ub_pending s;
     ub_time_codes := ub_time_codes s; ub_tx := ub_tx s; ub_recent := ub_recent s;
     ub_retired := ub_retired s; ub_local_session_id := v;
     ub_remote_session_id := ub_remote_session_id s; ub_peer_seen := ub_peer_seen s;
     ub_last_peer_rx_us := ub_last_peer_rx_us s;
     ub_last_keepalive_tx_us := ub_last_keepalive_tx_us s |}.
Definition set_ub_remote_session_id (v : Z) (s : spw_udp_backend) : spw_udp_backend :=
  {| ub_config := ub_config s; ub_timing := ub_timing s; ub_injector := ub_injector s;
     ub_socket_fd := ub_socket_fd s; ub_state := ub_state s;
     ub_statistics := ub_statistics s; ub_fault_statistics := ub_fault_statistics s;
     ub_next_sequence := ub_next_sequence s; ub_next_message_id := ub_next_message_id s;
     ub_reordered := ub_reordered s; ub_reassembly := ub_reassembly s;
     ub_last_fragment_us := ub_last_fragment_us s; ub_pending := ub_pending s;
     ub_time_codes := ub_time_codes s; ub_tx := ub_tx s; ub_recent := ub_recent s;
     ub_retired := ub_retired s; ub_local_session_id := ub_local_session_id s;
     ub_remote_session_id := v; ub_peer_seen := ub_peer_seen s;
     ub_last_peer_rx_us := ub_last_peer_rx_us s;
     ub_last_keepalive_tx_us := ub_last_keepalive_tx_us s |}.
Definition set_ub_peer_seen (v : bool) (s : spw_udp_backend) : spw_udp_backend :=
  {| ub_config := ub_config s; ub_timing := ub_timing s; ub_injector := ub_injector s;
     ub_socket_fd := ub_socket_fd s; ub_state := ub_state s;
     ub_statistics := ub_statistics s; ub_fault_statistics := ub_fault_statistics s;
     ub_next_sequence := ub_next_sequence s; ub_next_message_id := ub_next_message_id s;
     ub_reordered := ub_reordered s; ub_reassembly := ub_reassembly s;
     ub_last_fragment_us := ub_last_fragment_us s; ub_pending := ub_pending s;
     ub_time_codes := ub_time_codes s; ub_tx := ub_tx s; ub_recent := ub_recent s;
     ub_retired := ub_retired s; ub_local_session_id := ub_local_session_id s;
     ub_remote_session_id := ub_remote_session_id s; ub_peer_seen := v;
     ub_last_peer_rx_us := ub_last_peer_rx_us s;
     ub_last_keepalive_tx_us := ub_last_keepalive_tx_us s |}.
Definition set_ub_last_peer_rx_us (v : Z) (s : spw_udp_backend) : spw_udp_backend :=
  {| ub_config := ub_config s; ub_timing := ub_timing s; ub_injector := ub_injector s;
     ub_socket_fd := ub_socket_fd s; ub_state := ub_state s;
     ub_statistics := ub_statistics s; ub_fault_statistics := ub_fault_statistics s;
     ub_next_sequence := ub_next_sequence s; ub_next_message_id := ub_next_message_id s;
     ub_reordered := ub_reordered s; ub_reassembly := ub_reassembly s;
     ub_last_fragment_us := ub_last_fragment_us s; ub_pending := ub_pending s;
     ub_time_codes := ub_time_codes s; ub_tx := ub_tx s; ub_recent := ub_recent s;
     ub_retired := ub_retired s; ub_local_session_id := ub_local_session_id s;
     ub_remote_session_id := ub_remote_session_id s; ub_peer_seen := ub_peer_seen s;
     ub_last_peer_rx_us := v; ub_last_keepalive_tx_us := ub_last_keepalive_tx_us s |}.
Definition set_ub_last_keepalive_tx_us (v : Z) (s : spw_udp_backend) : spw_udp_backend :=
  {| ub_config := ub_config s; ub_timing := ub_timing s; ub_injector := ub_injector s;
     ub_socket_fd := ub_socket_fd s; ub_state := ub_state s;
     ub_statistics := ub_statistics s; ub_fault_statistics := ub_fault_statistics s;
     ub_next_sequence := ub_next_sequence s; ub_next_message_id := ub_next_message_id s;
     ub_reordered := ub_reordered s; ub_reassembly := ub_reassembly s;
     ub_last_fragment_us := ub_last_fragment_us s; ub_pending := ub_pending s;
     ub_time_codes := ub_time_codes s; ub_tx := ub_tx s; ub_recent := ub_recent s;
     ub_retired := ub_retired s; ub_local_session_id := ub_local_session_id s;
     ub_remote_session_id := ub_remote_session_id s; ub_peer_seen := ub_peer_seen s;
     ub_last_peer_rx_us := ub_last_peer_rx_us s; ub_last_keepalive_tx_us := v |}.


Definition set_pp_valid (v : bool) (p : pending_packet) : pending_packet :=
  {| pp_data := pp_data p; pp_size := pp_size p; pp_terminator := pp_terminator p; pp_valid := v |}.

(** The assignments of the retry state. *)
Definition set_pt_retry (retries : Z) (failed : bool) (last_send_us : Z) (t : pending_tx)
    : pending_tx :=
  {| pt_packet := pt_packet t; pt_packet_size := pt_packet_size t;
     pt_terminator := pt_terminator t; pt_time_code := pt_time_code t; pt_kind := pt_kind t;
     pt_message_id := pt_message_id t; pt_retries := retries; pt_failed := failed;
     pt_last_send_us := last_send_us |}.

Definition valid_wire_time_code (tc : spw_time_code) : bool :=
  (time_count tc <=? 63) && (control_flags tc <=? 3).

Definition timeout_ms (timeout_us : Z) : Z :=
  if timeout_us =? SPW_TIMEOUT_INFINITE then -1 else
  let rounded := u64 (timeout_us + 999) / 1000 in
  if INT_MAX <? rounded then INT_MAX else rounded.

Definition min_timeout (lhs rhs : Z) : Z :=
  if lhs =? SPW_TIMEOUT_INFINITE then rhs else
  if rhs =? SPW_TIMEOUT_INFINITE then lhs else
  if lhs <? rhs then lhs else rhs.

Definition terminator_flag (terminator : Z) : Z :=
  if terminator =? SPW_TERMINATOR_EEP then SPW_VSPW_TP_FLAG_EEP else SPW_VSPW_TP_FLAG_EOP.

(** The value and the counter after it. *)
Definition take_nonzero (counter : Z) : Z * Z :=
  let value := counter in
  let counter := u32 (counter + 1) in
  if value =? 0 then (counter, u32 (counter + 1)) else (value, counter).

(** [htons] on a little-endian machine. *)
Definition htons (x : Z) : Z := u16 (x ≪ 8) .| (u16 x ≫ 8).

Record sockaddr_in := {
  sin_family : Z;
  sin_port : Z;
  sin_addr : Z
}.

(** ** Operations on the state alone *)

Definition clear_reassembly (b : spw_udp_backend) : spw_udp_backend :=
  set_ub_last_fragment_us 0
    (set_ub_reassembly (spw_fragment_reassembler_reset (ub_reassembly b)) b).

Definition clear_pending_tx (b : spw_udp_backend) : spw_udp_backend :=
  set_ub_tx
    {| pt_packet := pt_packet (ub_tx b); pt_packet_size := 0; pt_terminator := SPW_TERMINATOR_EOP;
       pt_time_code := zero_time_code; pt_kind := SPW_UDP_PENDING_NONE; pt_message_id := 0;
       pt_retries := 0; pt_failed := false; pt_last_send_us := 0 |} b.

Definition clear_recent_messages (b : spw_udp_backend) : spw_udp_backend :=
  set_ub_recent (queue_clear (ub_recent b)) b.

Definition clear_retired_sessions (b : spw_udp_backend) : spw_udp_backend :=
  set_ub_retired (queue_clear (ub_retired b)) b.

Definition clear_reordered_datagram (b : spw_udp_backend) : spw_udp_backend :=
  set_ub_reordered None b.

Definition count_drop (b : spw_udp_backend) : spw_udp_backend :=
  set_ub_statistics (count_dropped (ub_statistics b)) b.

Definition mark_peer_lost (b : spw_udp_backend) : spw_udp_backend :=
  let b :=
    if negb (ub_state b =? SPW_LINK_ERROR_WAIT)
    then set_ub_statistics (count_link_error (ub_statistics b)) b else b in
  set_ub_state SPW_LINK_ERROR_WAIT (clear_reassembly b).

Definition is_retired_session (b : spw_udp_backend) (session_id : Z) : bool :=
  if session_id =? 0 then false else queue_has (Z.eqb session_id) (ub_retired b).

Definition remember_retired_session (b : spw_udp_backend) (session_id : Z) : spw_udp_backend :=
  if (session_id =? 0) || is_retired_session b session_id then b else
  set_ub_retired (queue_remember (ub_retired b) session_id) b.

Definition same_message (type message_id : Z) (key : Z * Z) : bool :=
  (key.1 =? type) && (key.2 =? message_id).

Definition recently_delivered (b : spw_udp_backend) (type message_id : Z) : bool :=
  if message_id =? 0 then false else queue_has (same_message type message_id) (ub_recent b).

Definition remember_delivered (b : spw_udp_backend) (type message_id : Z) : spw_udp_backend :=
  if (message_id =? 0) || recently_delivered b type message_id then b else
  set_ub_recent (queue_remember (ub_recent b) (type, message_id)) b.

(** ** The system *)

Record udp_os (W : Type) := {
  (** clock_gettime(CLOCK_MONOTONIC): the result, tv_sec and tv_nsec *)
  uo_clock_gettime : W -> Z * Z * Z * W;
  (** sendto(fd, bytes, size, MSG_DONTWAIT, remote) *)
  uo_sendto : Z -> list Z -> sockaddr_in -> W -> Z * W;
  (** recvfrom(fd, buffer, capacity, MSG_DONTWAIT, source): the result, the bytes
      stored and the source *)
  uo_recvfrom : Z -> Z -> W -> Z * list Z * sockaddr_in * W;
  (** poll of one descriptor: events, timeout in ms; the result and revents *)
  uo_poll : Z -> Z -> Z -> W -> Z * Z * W;
  (** nanosleep: seconds and nanoseconds; the result and what remains *)
  uo_nanosleep : Z * Z -> W -> Z * (Z * Z) * W;
  uo_errno : W -> Z;
  uo_getpid : W -> Z;
  (** inet_pton(AF_INET, text): s_addr, if the text is an address *)
  uo_inet_pton : list Z -> option Z;
  uo_socket : W -> Z * W;
  uo_setsockopt : Z -> W -> W;
  uo_bind : Z -> sockaddr_in -> W -> Z * W;
  uo_close : Z -> W -> W;
  (** the address of the context *)
  uo_object : Z
}.
Arguments uo_clock_gettime {W} _ _.
Arguments uo_sendto {W} _ _ _ _ _.
Arguments uo_recvfrom {W} _ _ _ _.
Arguments uo_poll {W} _ _ _ _ _.
Arguments uo_nanosleep {W} _ _ _.
Arguments uo_errno {W} _ _.
Arguments uo_getpid {W} _ _.
Arguments uo_inet_pton {W} _ _.
Arguments uo_socket {W} _ _.
Arguments uo_setsockopt {W} _ _ _.
Arguments uo_bind {W} _ _ _ _.
Arguments uo_close {W} _ _ _.
Arguments uo_object {W} _.

Record spw_udp_deadline := {
  dl_infinite : bool;
  dl_end_us : Z
}.

Section udp.
Context {W : Type} (os : udp_os W) (io_fuel : nat).

Definition udp : Type := spw_udp_backend * W.
Implicit Types (u : udp).

Definition uupd (f : spw_udp_backend -> spw_udp_backend) u : udp := (f u.1, u.2).

(** ** Time *)

Definition now_us u : Z * udp :=
  let '(result, tv_sec, tv_nsec, w) := uo_clock_gettime os u.2 in
  (if negb (result =? 0) then 0 else u64 (u64 tv_sec * 1000000 + u64 tv_nsec / 1000), (u.1, w)).

Definition deadline_make (timeout_us : Z) u : spw_udp_deadline * udp :=
  if timeout_us =? SPW_TIMEOUT_INFINITE
  then ({| dl_infinite := true; dl_end_us := UINT64_MAX |}, u) else
  let '(now, u) := now_us u in
  ({| dl_infinite := false;
      dl_end_us := if UINT64_MAX - now <? timeout_us then UINT64_MAX else now + timeout_us |}, u).

Definition deadline_remaining (deadline : spw_udp_deadline) u : Z * udp :=
  if dl_infinite deadline then (SPW_TIMEOUT_INFINITE, u) else
  let '(now, u) := now_us u in
  (if dl_end_us deadline <=? now then SPW_TIMEOUT_IMMEDIATE else dl_end_us deadline - now, u).

Definition deadline_expired (deadline : spw_udp_deadline) u : bool * udp :=
  if dl_infinite deadline then (false, u) else
  let '(now, u) := now_us u in (dl_end_us deadline <=? now, u).

Definition make_session_id u : Z * udp :=
  let config := ub_config u.1 in
  let '(now, u) := now_us u in
  let value :=
    now .^ u64 (u32 (uo_getpid os u.2) ≪ 32) .^ u64 (local_port config ≪ 16) .^
    udp_link_id config .^ u64 (uo_object os) in
  (if value =? 0 then 1 else value, u).

Definition source_matches (config : spw_udp_config) (source : sockaddr_in) : bool :=
  if negb (sin_family source =? AF_INET) || negb (sin_port source =? htons (remote_port config))
  then false else
  match uo_inet_pton os (remote_address config) with
  | Some expected => sin_addr source =? expected
  | None => false
  end.

Definition close_socket u : udp :=
  if 0 <=? ub_socket_fd u.1
  then (set_ub_socket_fd (-1) u.1, uo_close os (ub_socket_fd u.1) u.2) else u.

Definition expire_reassembly u : udp :=
  let '(now, u) := now_us u in
  let timeout_us_value := peer_timeout_ms (ub_config u.1) * 1000 in
  if negb (active (ub_reassembly u.1)) || (ub_last_fragment_us u.1 =? 0) then u else
  if (ub_last_fragment_us u.1 <=? now) && (timeout_us_value <=? now - ub_last_fragment_us u.1)
  then uupd clear_reassembly u else u.

Definition peer_is_current u : bool * udp :=
  let '(now, u) := now_us u in
  let timeout := peer_timeout_ms (ub_config u.1) * 1000 in
  (if negb (ub_peer_seen u.1) || (ub_last_peer_rx_us u.1 =? 0) || (now <? ub_last_peer_rx_us u.1)
   then false else now - ub_last_peer_rx_us u.1 <=? timeout, u).

Definition refresh_peer_state u : udp :=
  let u := expire_reassembly u in
  if ub_state u.1 =? SPW_LINK_RUN then
    let '(current, u) := peer_is_current u in
    if negb current then uupd mark_peer_lost u else u
  else if ub_state u.1 =? SPW_LINK_ERROR_WAIT then
    let '(current, u) := peer_is_current u in
    if current then uupd (set_ub_state SPW_LINK_RUN) u else u
  else u.

Definition note_peer_activity u : udp :=
  let u := uupd (set_ub_peer_seen true) u in
  let '(now, u) := now_us u in
  let u := uupd (set_ub_last_peer_rx_us now) u in
  if (ub_state u.1 =? SPW_LINK_CONNECTING) || (ub_state u.1 =? SPW_LINK_ERROR_WAIT)
  then uupd (set_ub_state SPW_LINK_RUN) u else u.

Definition reset_remote_session (session_id : Z) u : bool * udp :=
  if (session_id =? 0) || is_retired_session u.1 session_id then (false, u) else
  if ub_remote_session_id u.1 =? session_id then (true, note_peer_activity u) else
  let u :=
    if negb (ub_remote_session_id u.1 =? 0)
    then uupd (fun b => remember_retired_session b (ub_remote_session_id b)) u else u in
  let u := uupd (set_ub_remote_session_id session_id) u in
  let u := uupd clear_recent_messages (uupd clear_reassembly u) in
  let u :=
    if negb (pt_kind (ub_tx u.1) =? SPW_UDP_PENDING_NONE)
    then uupd (fun b => set_ub_tx (set_pt_retry 0 false 0 (ub_tx b)) b) u else u in
  (true, note_peer_activity u).

(** ** Datagrams *)

(** The poll of a do-while loop that repeats on EINTR; [timeout] is what its
    timeout argument evaluates to in each round. *)
Fixpoint poll_loop (fuel : nat) (events : Z) (timeout : udp -> Z * udp) u : Z * Z * udp :=
  match fuel with
  | O => (-1, 0, u)
  | S fuel =>
      let '(ms, u) := timeout u in
      let '(ready, revents, w) := uo_poll os (ub_socket_fd u.1) events ms u.2 in
      let u := (u.1, w) in
      if (ready <? 0) && (uo_errno os u.2 =? EINTR) then poll_loop fuel events timeout u
      else (ready, revents, u)
  end.

Definition poll_result (events ready revents : Z) : Z :=
  if ready =? 0 then SPW_ERR_TIMEOUT else
  if (ready <? 0) || (revents .& events =? 0) then SPW_ERR_BACKEND else SPW_OK.

Definition wait_readable (timeout_us : Z) u : Z * udp :=
  let '(ready, revents, u) := poll_loop io_fuel POLLIN (fun u => (timeout_ms timeout_us, u)) u in
  (poll_result POLLIN ready revents, u).

Fixpoint sendto_loop (fuel : nat) (bytes : list Z) (remote : sockaddr_in)
    (deadline : spw_udp_deadline) u : Z * udp :=
  match fuel with
  | O => (SPW_ERR_BACKEND, u)
  | S fuel =>
      let '(sent, w) := uo_sendto os (ub_socket_fd u.1) bytes remote u.2 in
      let u := (u.1, w) in
      if sent =? Z.of_nat (length bytes) then (SPW_OK, u) else
      if 0 <=? sent then (SPW_ERR_BACKEND, u) else
      if uo_errno os u.2 =? EINTR then
        let '(expired, u) := deadline_expired deadline u in
        if expired then (SPW_ERR_TIMEOUT, u) else sendto_loop fuel bytes remote deadline u
      else if negb (uo_errno os u.2 =? EAGAIN) && negb (uo_errno os u.2 =? EWOULDBLOCK)
      then (SPW_ERR_BACKEND, u) else
      let '(ready, revents, u) :=
        poll_loop io_fuel POLLOUT
          (fun u => let '(remaining, u) := deadline_remaining deadline u in (timeout_ms remaining, u)) u in
      if negb (poll_result POLLOUT ready revents =? SPW_OK)
      then (poll_result POLLOUT ready revents, u)
      else sendto_loop fuel bytes remote deadline u
  end.

Definition send_datagram_raw (bytes : list Z) (timeout_us : Z) u : Z * udp :=
  if ub_socket_fd u.1 <? 0 then (SPW_ERR_INVALID_STATE, u) else
  match uo_inet_pton os (remote_address (ub_config u.1)) with
  | None => (SPW_ERR_BACKEND, u)
  | Some addr =>
      let remote :=
        {| sin_family := AF_INET; sin_port := htons (remote_port (ub_config u.1));
           sin_addr := addr |} in
      let '(deadline, u) := deadline_make timeout_us u in
      sendto_loop io_fuel bytes remote deadline u
  end.

Fixpoint nanosleep_loop (fuel : nat) (request : Z * Z) u : Z * udp :=
  match fuel with
  | O => (SPW_ERR_BACKEND, u)
  | S fuel =>
      let '(result, remaining, w) := uo_nanosleep os request u.2 in
      let u := (u.1, w) in
      if result =? 0 then (SPW_OK, u) else
      if negb (uo_errno os u.2 =? EINTR) then (SPW_ERR_BACKEND, u)
      else nanosleep_loop fuel remaining u
  end.

Definition wait_transport_fault_delay (delay_us timeout_us : Z) u : Z * udp :=
  if delay_us =? 0 then (SPW_OK, u) else
  if negb (timeout_us =? SPW_TIMEOUT_INFINITE) && (timeout_us <? delay_us)
  then (SPW_ERR_TIMEOUT, u) else
  nanosleep_loop io_fuel (delay_us / 1000000, (delay_us mod 1000000) * 1000) u.

Definition count_fault (f : spw_fault_statistics -> spw_fault_statistics) u : udp :=
  uupd (fun b => set_ub_fault_statistics (f (ub_fault_statistics b)) b) u.

Definition bump_drops (s : spw_fault_statistics) : spw_fault_statistics :=
  {| transport_drops := u64 (transport_drops s + 1); transport_duplicates := transport_duplicates s;
     transport_reorders := transport_reorders s; transport_delays := transport_delays s;
     spacewire_eep_injections := spacewire_eep_injections s |}.
Definition bump_duplicates (s : spw_fault_statistics) : spw_fault_statistics :=
  {| transport_drops := transport_drops s; transport_duplicates := u64 (transport_duplicates s + 1);
     transport_reorders := transport_reorders s; transport_delays := transport_delays s;
     spacewire_eep_injections := spacewire_eep_injections s |}.
Definition bump_reorders (s : spw_fault_statistics) : spw_fault_statistics :=
  {| transport_drops := transport_drops s; transport_duplicates := transport_duplicates s;
     transport_reorders := u64 (transport_reorders s + 1); transport_delays := transport_delays s;
     spacewire_eep_injections := spacewire_eep_injections s |}.
Definition bump_delays (s : spw_fault_statistics) : spw_fault_statistics :=
  {| transport_drops := transport_drops s; transport_duplicates := transport_duplicates s;
     transport_reorders := transport_reorders s; transport_delays := u64 (transport_delays s + 1);
     spacewire_eep_injections := spacewire_eep_injections s |}.
Definition bump_eep_injections (s : spw_fault_statistics) : spw_fault_statistics :=
  {| transport_drops := transport_drops s; transport_duplicates := transport_duplicates s;
     transport_reorders := transport_reorders s; transport_delays := transport_delays s;
     spacewire_eep_injections := u64 (spacewire_eep_injections s + 1) |}.

(** The actions of the fault rule that fired for this datagram. *)
Definition send_with_fault (decision : spw_fault_decision) (bytes : list Z) (timeout_us : Z) u
    : Z * udp :=
  if dec_action decision =? SPW_UDP_FAULT_ACTION_TRANSPORT_DROP then
    (SPW_OK, uupd count_drop (count_fault bump_drops u)) else
  if dec_action decision =? SPW_UDP_FAULT_ACTION_TRANSPORT_DUPLICATE then
    (let u := count_fault bump_duplicates u in
     let '(result, u) := send_datagram_raw bytes timeout_us u in
     if result =? SPW_OK then send_datagram_raw bytes timeout_us u else (result, u)) else
  if dec_action decision =? SPW_UDP_FAULT_ACTION_TRANSPORT_REORDER then
    (let u := count_fault bump_reorders u in
     if SPW_VSPW_TP_MAX_UDP_PAYLOAD <? Z.of_nat (length bytes) then (SPW_ERR_BACKEND, u) else
     (SPW_OK, uupd (set_ub_reordered (Some bytes)) u)) else
  if dec_action decision =? SPW_UDP_FAULT_ACTION_TRANSPORT_DELAY then
    (let u := count_fault bump_delays u in
     let '(result, u) := wait_transport_fault_delay (dec_delay_us decision) timeout_us u in
     if result =? SPW_OK then send_datagram_raw bytes timeout_us u else (result, u))
  else send_datagram_raw bytes timeout_us u.

Definition send_datagram (bytes : list Z) (timeout_us : Z) u : Z * udp :=
  match ub_reordered u.1 with
  | Some held =>
      let '(result, u) := send_datagram_raw bytes timeout_us u in
      if negb (result =? SPW_OK) then (result, u) else
      let '(result, u) := send_datagram_raw held timeout_us u in
      (result, uupd clear_reordered_datagram u)
  | None =>
      match spw_vspw_tp_decode_header (Some bytes) (Z.of_nat (length bytes)) with
      | DECODE_OK header =>
          let '(decision, injector) := spw_fault_inject_transport (ub_injector u.1) (type header) in
          send_with_fault decision bytes timeout_us (uupd (set_ub_injector injector) u)
      | _ => send_datagram_raw bytes timeout_us u
      end
  end.

(** SPW_VSPW_TP_HEADER_INITIALIZER with the fields a sender sets. *)
Definition tp_header (type flags payload_size link_id session_id sequence message_id
    fragment_offset total_size : Z) : spw_vspw_tp_header :=
  {| version_major := SPW_VSPW_TP_VERSION_MAJOR; version_minor := SPW_VSPW_TP_VERSION_MINOR;
     VspwTp.type := type; VspwTp.flags := flags; header_size := SPW_VSPW_TP_HEADER_SIZE;
     VspwTp.payload_size := payload_size; VspwTp.link_id := link_id;
     VspwTp.session_id := session_id; VspwTp.sequence := sequence;
     VspwTp.message_id := message_id; VspwTp.fragment_offset := fragment_offset;
     VspwTp.total_size := total_size |}.

Definition take_sequence u : Z * udp :=
  let '(value, counter) := take_nonzero (ub_next_sequence u.1) in
  (value, uupd (set_ub_next_sequence counter) u).

Definition send_keepalive (timeout_us : Z) u : Z * udp :=
  let b := u.1 in
  let '(sequence, u) := take_sequence u in
  let header :=
    tp_header SPW_VSPW_TP_KEEPALIVE 0 0 (udp_link_id (ub_config b)) (ub_local_session_id b)
      sequence 0 0 0 in
  match spw_vspw_tp_encode_header (Some header) (Some []) SPW_UDP_CONTROL_DATAGRAM_SIZE with
  | None => (SPW_ERR_BACKEND, u)
  | Some datagram =>
      let '(result, u) := send_datagram datagram timeout_us u in
      if result =? SPW_OK then
        let '(now, u) := now_us u in (result, uupd (set_ub_last_keepalive_tx_us now) u)
      else (result, u)
  end.

Definition keeps_alive (state : Z) : bool :=
  (state =? SPW_LINK_CONNECTING) || (state =? SPW_LINK_RUN) || (state =? SPW_LINK_ERROR_WAIT).

Definition maybe_send_keepalive u : udp :=
  let '(now, u) := now_us u in
  let b := u.1 in
  let interval := keepalive_interval_ms (ub_config b) * 1000 in
  if (ub_socket_fd b <? 0) || (ub_local_session_id b =? 0) || negb (keeps_alive (ub_state b))
  then u else
  if (ub_last_keepalive_tx_us b =? 0) ||
     ((ub_last_keepalive_tx_us b <=? now) && (interval <=? now - ub_last_keepalive_tx_us b))
  then (send_keepalive SPW_TIMEOUT_IMMEDIATE u).2 else u.

Definition send_ack (message_id : Z) u : Z * udp :=
  let b := u.1 in
  if message_id =? 0 then (SPW_ERR_INVALID_ARGUMENT, u) else
  if ub_remote_session_id b =? 0 then (SPW_ERR_INVALID_STATE, u) else
  let '(sequence, u) := take_sequence u in
  let header :=
    tp_header SPW_VSPW_TP_ACK 0 SPW_VSPW_TP_ACK_PAYLOAD_SIZE (udp_link_id (ub_config b))
      (ub_local_session_id b) sequence message_id 0 SPW_VSPW_TP_ACK_PAYLOAD_SIZE in
  match spw_vspw_tp_encode_header (Some header) (Some []) SPW_UDP_CONTROL_DATAGRAM_SIZE,
        spw_vspw_tp_encode_ack_payload (ub_remote_session_id b) (Some [])
          SPW_VSPW_TP_ACK_PAYLOAD_SIZE with
  | Some datagram, Some payload =>
      send_datagram (datagram ++ payload) SPW_TIMEOUT_IMMEDIATE u
  | _, _ => (SPW_ERR_BACKEND, u)
  end.

(** ** The transmit slot *)

Definition sent_now u : udp :=
  let '(now, u) := now_us u in
  uupd (fun b => set_ub_tx (set_pt_retry (pt_retries (ub_tx b)) (pt_failed (ub_tx b)) now (ub_tx b)) b)
    u.

Definition transmit_time_code (timeout_us : Z) u : Z * udp :=
  let b := u.1 in
  let '(sequence, u) := take_sequence u in
  let header :=
    tp_header SPW_VSPW_TP_TIME_CODE SPW_VSPW_TP_FLAG_ACK_REQUIRED
      SPW_VSPW_TP_TIME_CODE_PAYLOAD_SIZE (udp_link_id (ub_config b)) (ub_local_session_id b)
      sequence (pt_message_id (ub_tx b)) 0 SPW_VSPW_TP_TIME_CODE_PAYLOAD_SIZE in
  match spw_vspw_tp_encode_header (Some header) (Some []) SPW_VSPW_TP_MAX_UDP_PAYLOAD with
  | None => (SPW_ERR_BACKEND, u)
  | Some datagram =>
      let tc := pt_time_code (ub_tx b) in
      let '(result, u) := send_datagram (datagram ++ [time_count tc; control_flags tc]) timeout_us u in
      if result =? SPW_OK then (result, sent_now u) else (result, u)
  end.

Definition data_fragment_header (b : spw_udp_backend) (sequence offset payload_size : Z)
    : spw_vspw_tp_header :=
  let size := pt_packet_size (ub_tx b) in
  let fragmented := fragment_payload_size (ub_config b) <? size in
  let flags := terminator_flag (pt_terminator (ub_tx b)) .| SPW_VSPW_TP_FLAG_ACK_REQUIRED in
  let flags :=
    if fragmented && (offset =? 0) then flags .| SPW_VSPW_TP_FLAG_FRAGMENT_START else flags in
  let flags :=
    if fragmented && (offset + payload_size =? size)
    then flags .| SPW_VSPW_TP_FLAG_FRAGMENT_END else flags in
  tp_header SPW_VSPW_TP_DATA flags (u16 payload_size) (udp_link_id (ub_config b))
    (ub_local_session_id b) sequence (pt_message_id (ub_tx b)) (u32 offset) (u32 size).

Definition fragment_length (b : spw_udp_backend) (offset : Z) : Z :=
  let size := pt_packet_size (ub_tx b) in
  let fragment_size := fragment_payload_size (ub_config b) in
  let remaining := size - offset in
  if fragment_size <? size
  then (if fragment_size <? remaining then fragment_size else remaining)
  else remaining.

(** The do-while loop over the fragments; [fuel] is their number at most. *)
Fixpoint transmit_fragments (fuel : nat) (offset timeout_us : Z) u : Z * udp :=
  match fuel with
  | O => (SPW_ERR_BACKEND, u)
  | S fuel =>
      let b := u.1 in
      let payload_size := fragment_length b offset in
      let '(sequence, u) := take_sequence u in
      match spw_vspw_tp_encode_header (Some (data_fragment_header b sequence offset payload_size))
              (Some []) SPW_VSPW_TP_MAX_UDP_PAYLOAD with
      | None => (SPW_ERR_INVALID_PACKET, u)
      | Some datagram =>
          let payload := mem_read (pt_packet (ub_tx b)) (Z.to_nat offset) (Z.to_nat payload_size) in
          let '(result, u) := send_datagram (datagram ++ payload) timeout_us u in
          if negb (result =? SPW_OK) then (result, u) else
          let offset := offset + payload_size in
          if offset <? pt_packet_size (ub_tx u.1) then transmit_fragments fuel offset timeout_us u
          else (SPW_OK, sent_now u)
      end
  end.

Definition udp_fragment_count (b : spw_udp_backend) : nat :=
  S (Z.to_nat (pt_packet_size (ub_tx b) / fragment_payload_size (ub_config b))).

Definition transmit_pending (timeout_us : Z) u : Z * udp :=
  let tx := ub_tx u.1 in
  if (pt_kind tx =? SPW_UDP_PENDING_NONE) || (pt_message_id tx =? 0) then (SPW_OK, u) else
  if pt_kind tx =? SPW_UDP_PENDING_TIME_CODE then transmit_time_code timeout_us u
  else transmit_fragments (udp_fragment_count u.1) 0 timeout_us u.

Definition service_pending_tx u : Z * udp :=
  let '(now, u) := now_us u in
  let tx := ub_tx u.1 in
  let ack_timeout := ack_timeout_ms (ub_config u.1) * 1000 in
  if pt_kind tx =? SPW_UDP_PENDING_NONE then (SPW_OK, u) else
  if negb (pt_last_send_us tx =? 0) && (pt_last_send_us tx <=? now) &&
     (now - pt_last_send_us tx <? ack_timeout) then (SPW_OK, u) else
  if max_retries (ub_config u.1) <=? pt_retries tx then
    (let u :=
       if negb (pt_failed tx)
       then uupd (fun b => count_drop
                    (set_ub_tx (set_pt_retry (pt_retries tx) true (pt_last_send_us tx) (ub_tx b)) b)) u
       else u in
     (SPW_ERR_LINK_UNAVAILABLE, uupd mark_peer_lost u)) else
  let '(result, u) := transmit_pending SPW_TIMEOUT_IMMEDIATE u in
  if result =? SPW_OK then
    (result,
     uupd (fun b => set_ub_tx (set_pt_retry (u16 (pt_retries (ub_tx b) + 1)) (pt_failed (ub_tx b))
                      (pt_last_send_us (ub_tx b)) (ub_tx b)) b) u)
  else (result, u).

(** ** Received messages *)

Definition process_ack (header : spw_vspw_tp_header) (payload : list Z) u : Z * udp :=
  match spw_vspw_tp_decode_ack_payload (Some payload) (payload_size header) with
  | None => (SPW_OK, uupd count_drop u)
  | Some acknowledged_session_id =>
      if negb (acknowledged_session_id =? ub_local_session_id u.1) then (SPW_OK, u) else
      if negb (pt_kind (ub_tx u.1) =? SPW_UDP_PENDING_NONE) &&
         (VspwTp.message_id header =? pt_message_id (ub_tx u.1))
      then (SPW_OK, uupd clear_pending_tx u) else (SPW_OK, u)
  end.

Definition process_keepalive (header : spw_vspw_tp_header) u : Z * udp :=
  (SPW_OK, (reset_remote_session (session_id header) u).2).

(** remember_delivered and send_ack, its result unused. *)
Definition acknowledge (type message_id : Z) u : udp :=
  (send_ack message_id (uupd (fun b => remember_delivered b type message_id) u)).2.

Definition process_time_code (header : spw_vspw_tp_header) (payload : list Z) u : Z * udp :=
  let ack_required := has_flag (flags header) SPW_VSPW_TP_FLAG_ACK_REQUIRED in
  let message_id := VspwTp.message_id header in
  if ack_required && recently_delivered u.1 SPW_VSPW_TP_TIME_CODE message_id
  then (SPW_OK, (send_ack message_id u).2) else
  if Nat.eqb (q_count (ub_time_codes u.1)) SPW_UDP_TIME_CODE_QUEUE_DEPTH
  then (SPW_ERR_RESOURCE_EXHAUSTED, u) else
  let time_code := {| time_count := mem_get payload 0; control_flags := mem_get payload 1 |} in
  if negb (valid_wire_time_code time_code) then (SPW_OK, uupd count_drop u) else
  let u := uupd (fun b => set_ub_time_codes (queue_push (ub_time_codes b) time_code) b) u in
  (SPW_OK, if ack_required then acknowledge SPW_VSPW_TP_TIME_CODE message_id u else u).

(** A packet for the reader. *)
Definition offer_packet (data : list Z) (size terminator : Z) (b : spw_udp_backend)
    : spw_udp_backend :=
  set_ub_pending
    {| pp_data :=
         if negb (size =? 0) then mem_write (pp_data (ub_pending b)) 0 data
         else pp_data (ub_pending b);
       pp_size := size; pp_terminator := terminator; pp_valid := true |} b.

Definition tp_terminator (flags : Z) : Z :=
  if has_flag flags SPW_VSPW_TP_FLAG_EEP then SPW_TERMINATOR_EEP else SPW_TERMINATOR_EOP.

(** A packet in one datagram. *)
Definition process_whole (header : spw_vspw_tp_header) (payload : list Z) u : Z * udp :=
  let size := payload_size header in
  if pp_valid (ub_pending u.1) then (SPW_ERR_RESOURCE_EXHAUSTED, u) else
  let u :=
    uupd (offer_packet (mem_read payload 0 (Z.to_nat size)) size (tp_terminator (flags header))) u in
  (SPW_OK,
   if has_flag (flags header) SPW_VSPW_TP_FLAG_ACK_REQUIRED
   then acknowledge SPW_VSPW_TP_DATA (VspwTp.message_id header) u else u).

(** The assembled packet. *)
Definition deliver_assembled u : Z * udp :=
  if pp_valid (ub_pending u.1) then (SPW_ERR_RESOURCE_EXHAUSTED, u) else
  let r := ub_reassembly u.1 in
  let size := total_size r in
  let u :=
    uupd (offer_packet (mem_read (default [] (data r)) 0 (Z.to_nat size)) size
            (tp_terminator (terminator_flags r))) u in
  let u := uupd clear_reassembly u in
  (SPW_OK,
   if ack_required r then acknowledge SPW_VSPW_TP_DATA (message_id r) u else u).

Definition process_data (header : spw_vspw_tp_header) (payload : list Z) u : Z * udp :=
  let message_id := VspwTp.message_id header in
  if has_flag (flags header) SPW_VSPW_TP_FLAG_ACK_REQUIRED &&
     recently_delivered u.1 SPW_VSPW_TP_DATA message_id
  then (SPW_OK, (send_ack message_id u).2) else
  if VspwTp.total_size header =? payload_size header then process_whole header payload u else
  let u := expire_reassembly u in
  let '(result, r) :=
    spw_fragment_reassembler_push (ub_reassembly u.1) (Some header) (Some payload) in
  let u := uupd (set_ub_reassembly r) u in
  match result with
  | REASSEMBLY_INVALID | REASSEMBLY_CONFLICT => (SPW_OK, uupd count_drop u)
  | _ =>
      let '(now, u) := now_us u in
      let u := uupd (set_ub_last_fragment_us now) u in
      match result with
      | REASSEMBLY_COMPLETE => deliver_assembled u
      | _ => (SPW_OK, u)
      end
  end.

(** ** Receiving datagrams *)

Fixpoint recvfrom_loop (fuel : nat) (deadline : spw_udp_deadline) u
    : Z * list Z * sockaddr_in * udp :=
  match fuel with
  | O => (SPW_ERR_BACKEND, [], {| sin_family := 0; sin_port := 0; sin_addr := 0 |}, u)
  | S fuel =>
      let '(received, bytes, source, w) :=
        uo_recvfrom os (ub_socket_fd u.1) SPW_VSPW_TP_MAX_UDP_PAYLOAD u.2 in
      let u := (u.1, w) in
      if 0 <=? received then (SPW_OK, take (Z.to_nat received) bytes, source, u) else
      if uo_errno os u.2 =? EINTR then
        let '(expired, u) := deadline_expired deadline u in
        if expired then (SPW_ERR_TIMEOUT, [], source, u) else recvfrom_loop fuel deadline u
      else if negb (uo_errno os u.2 =? EAGAIN) && negb (uo_errno os u.2 =? EWOULDBLOCK)
      then (SPW_ERR_BACKEND, [], source, u) else
      let '(remaining, u) := deadline_remaining deadline u in
      let '(result, u) := wait_readable remaining u in
      if negb (result =? SPW_OK) then (result, [], source, u) else recvfrom_loop fuel deadline u
  end.

(** A datagram of the peer. *)
Definition handle_datagram (datagram : list Z) u : Z * udp :=
  match spw_vspw_tp_decode_header (Some datagram) (Z.of_nat (length datagram)) with
  | DECODE_OK header =>
      if negb (Z.of_nat (length datagram) =? SPW_VSPW_TP_HEADER_SIZE + payload_size header)
      then (SPW_OK, uupd count_drop u) else
      if negb (link_id header =? udp_link_id (ub_config u.1)) then (SPW_OK, u) else
      let payload := drop (Z.to_nat SPW_VSPW_TP_HEADER_SIZE) datagram in
      if type header =? SPW_VSPW_TP_KEEPALIVE then process_keepalive header u else
      if (ub_remote_session_id u.1 =? 0) ||
         negb (session_id header =? ub_remote_session_id u.1) then (SPW_OK, u) else
      let u := note_peer_activity u in
      if type header =? SPW_VSPW_TP_DATA then
        if SPW_UDP_BACKEND_MAX_PACKET_SIZE <? VspwTp.total_size header
        then (SPW_OK, uupd count_drop u) else process_data header payload u
      else if type header =? SPW_VSPW_TP_TIME_CODE then process_time_code header payload u
      else if type header =? SPW_VSPW_TP_ACK then process_ack header payload u
      else (SPW_OK, u)
  | _ => (SPW_OK, uupd count_drop u)
  end.

Definition pump_one (timeout_us : Z) u : Z * udp :=
  let u := maybe_send_keepalive u in
  let keepalive_slice := keepalive_interval_ms (ub_config u.1) * 1000 in
  let service_slice :=
    if negb (pt_kind (ub_tx u.1) =? SPW_UDP_PENDING_NONE)
    then min_timeout keepalive_slice (ack_timeout_ms (ub_config u.1) * 1000)
    else keepalive_slice in
  let wait_timeout := min_timeout timeout_us service_slice in
  let '(deadline, u) := deadline_make wait_timeout u in
  let '(wait_result, datagram, source, u) := recvfrom_loop io_fuel deadline u in
  if wait_result =? SPW_ERR_TIMEOUT then
    (let u := refresh_peer_state (maybe_send_keepalive u) in
     if (timeout_us =? SPW_TIMEOUT_INFINITE) || (wait_timeout <? timeout_us)
     then (SPW_OK, u) else (SPW_ERR_TIMEOUT, u)) else
  if negb (wait_result =? SPW_OK) then (wait_result, u) else
  if negb (source_matches (ub_config u.1) source) then (SPW_OK, u) else
  handle_datagram datagram u.

(** ** Waiting *)

Definition may_go_on (result : Z) : bool :=
  (result =? SPW_OK) || (result =? SPW_ERR_TIMEOUT) || (result =? SPW_ERR_RESOURCE_EXHAUSTED).

Fixpoint delay_loop (fuel : nat) (deadline : spw_udp_deadline) (target : Z) u : Z * udp :=
  match fuel with
  | O => (SPW_ERR_BACKEND, u)
  | S fuel =>
      let '(now, u) := now_us u in
      if target <=? now then (SPW_OK, u) else
      let '(now, u) := now_us u in
      let remaining := if now <? target then target - now else 0 in
      let timing_slice := if remaining =? 0 then SPW_TIMEOUT_IMMEDIATE else remaining in
      let '(left_us, u) := deadline_remaining deadline u in
      let '(result, u) := pump_one (min_timeout left_us timing_slice) u in
      if negb (may_go_on result) then (result, u) else
      let '(now, u) := now_us u in
      if target <=? now then (SPW_OK, u) else
      let '(expired, u) := deadline_expired deadline u in
      if expired then (SPW_ERR_TIMEOUT, u) else delay_loop fuel deadline target u
  end.

Definition wait_virtual_link_delay (delay_us timeout_us : Z) u : Z * udp :=
  if delay_us =? 0 then (SPW_OK, u) else
  if negb (timeout_us =? SPW_TIMEOUT_INFINITE) && (timeout_us <? delay_us)
  then (SPW_ERR_TIMEOUT, u) else
  let '(deadline, u) := deadline_make timeout_us u in
  let '(now, u) := now_us u in
  delay_loop io_fuel deadline (u64 (now + delay_us)) u.

(** RUN with a current peer. *)
Definition peer_running u : bool * udp :=
  if ub_state u.1 =? SPW_LINK_RUN then peer_is_current u else (false, u).

Fixpoint ensure_peer_loop (fuel : nat) (deadline : spw_udp_deadline) (timeout_us : Z) u : Z * udp :=
  match fuel with
  | O => (SPW_ERR_BACKEND, u)
  | S fuel =>
      let u := maybe_send_keepalive u in
      let '(remaining, u) := deadline_remaining deadline u in
      let '(result, u) := pump_one remaining u in
      let u := refresh_peer_state u in
      let '(running, u) := peer_running u in
      if running then (SPW_OK, u) else
      if negb (may_go_on result) then (result, u) else
      let '(expired, u) := deadline_expired deadline u in
      if expired || (timeout_us =? SPW_TIMEOUT_IMMEDIATE) then (SPW_ERR_LINK_UNAVAILABLE, u)
      else ensure_peer_loop fuel deadline timeout_us u
  end.

Definition ensure_peer (timeout_us : Z) u : Z * udp :=
  let u := refresh_peer_state u in
  let '(running, u) := peer_running u in
  if running then (SPW_OK, u) else
  if negb (keeps_alive (ub_state u.1)) then (SPW_ERR_LINK_UNAVAILABLE, u) else
  let '(deadline, u) := deadline_make timeout_us u in
  ensure_peer_loop io_fuel deadline timeout_us u.

Definition tx_idle u : bool := pt_kind (ub_tx u.1) =? SPW_UDP_PENDING_NONE.

Fixpoint tx_slot_loop (fuel : nat) (deadline : spw_udp_deadline) (timeout_us : Z) u : Z * udp :=
  match fuel with
  | O => (SPW_ERR_BACKEND, u)
  | S fuel =>
      let '(service_result, u) := service_pending_tx u in
      if tx_idle u then (SPW_OK, u) else
      if service_result =? SPW_ERR_LINK_UNAVAILABLE then (service_result, u) else
      if negb (service_result =? SPW_OK) && negb (service_result =? SPW_ERR_TIMEOUT)
      then (service_result, u) else
      let retry_slice := ack_timeout_ms (ub_config u.1) * 1000 in
      let '(remaining, u) := deadline_remaining deadline u in
      let '(pump_result, u) := pump_one (min_timeout remaining retry_slice) u in
      if negb (may_go_on pump_result) then (pump_result, u) else
      if tx_idle u then (SPW_OK, u) else
      let '(expired, u) := deadline_expired deadline u in
      if expired || (timeout_us =? SPW_TIMEOUT_IMMEDIATE) then (SPW_ERR_TIMEOUT, u)
      else tx_slot_loop fuel deadline timeout_us u
  end.

Definition wait_for_tx_slot (timeout_us : Z) u : Z * udp :=
  if tx_idle u then (SPW_OK, u) else
  let '(deadline, u) := deadline_make timeout_us u in
  tx_slot_loop io_fuel deadline timeout_us u.

(** ** Operations of the backend *)

Definition zero_udp (config : spw_udp_config) : spw_udp_backend :=
  {| ub_config := config;
     ub_timing := {| link_bps := virtual_link_bps config; latency_us := virtual_latency_us config |};
     ub_injector := spw_fault_injector_init config; ub_socket_fd := -1;
     ub_state := SPW_LINK_ERROR_RESET; ub_statistics := statistics_zero;
     ub_fault_statistics := fault_statistics_zero; ub_next_sequence := 1; ub_next_message_id := 1;
     ub_reordered := None;
     ub_reassembly :=
       (let words := SPW_FRAGMENT_COVERAGE_WORDS 32 SPW_UDP_BACKEND_MAX_PACKET_SIZE in
        spw_fragment_reassembler_init (Some []) SPW_UDP_BACKEND_MAX_PACKET_SIZE
          (Some (replicate (Z.to_nat words) 0)) words);
     ub_last_fragment_us := 0;
     ub_pending := {| pp_data := []; pp_size := 0; pp_terminator := SPW_TERMINATOR_EOP;
                      pp_valid := false |};
     ub_time_codes := Queue (replicate SPW_UDP_TIME_CODE_QUEUE_DEPTH zero_time_code) 0 0;
     ub_tx := {| pt_packet := []; pt_packet_size := 0; pt_terminator := SPW_TERMINATOR_EOP;
                 pt_time_code := zero_time_code; pt_kind := 0; pt_message_id := 0; pt_retries := 0;
                 pt_failed := false; pt_last_send_us := 0 |};
     ub_recent := Queue (replicate SPW_UDP_RECENT_MESSAGE_DEPTH (0, 0)) 0 0;
     ub_retired := Queue (replicate SPW_UDP_RETIRED_SESSION_DEPTH 0) 0 0;
     ub_local_session_id := 0; ub_remote_session_id := 0; ub_peer_seen := false;
     ub_last_peer_rx_us := 0; ub_last_keepalive_tx_us := 0 |}.

(** The checks of the configuration. *)
Definition udp_config_accepted (A : abi) (config : spw_udp_config) : bool :=
  negb (negb (udp_version config =? SPW_UDP_CONFIG_VERSION) ||
        (udp_struct_size config <? sizeof_udp_config A) ||
        (remote_port config =? 0) || (udp_link_id config =? 0) ||
        (fragment_payload_size config <? 256) ||
        (SPW_VSPW_TP_MAX_FRAGMENT_PAYLOAD <? fragment_payload_size config) ||
        (max_retries config =? 0) || (ack_timeout_ms config =? 0) ||
        (keepalive_interval_ms config =? 0) ||
        (peer_timeout_ms config <=? keepalive_interval_ms config) ||
        negb (udp_reserved config =? 0)) &&
  forallb (fun rule => spw_fault_rule_valid (Some rule)) (fault_rules config).

Definition udp_construct (A : abi) (config : spw_udp_config) (w : W) : Z * udp :=
  let u := (zero_udp config, w) in
  if negb (udp_config_accepted A config) then (SPW_ERR_INVALID_ARGUMENT, u) else
  match uo_inet_pton os (local_address config), uo_inet_pton os (remote_address config) with
  | Some local, Some _ =>
      let '(fd, w) := uo_socket os w in
      let u := (set_ub_socket_fd fd u.1, w) in
      if fd <? 0 then (SPW_ERR_BACKEND, u) else
      let w := uo_setsockopt os fd w in
      let '(bound, w) :=
        uo_bind os fd {| sin_family := AF_INET; sin_port := htons (local_port config);
                         sin_addr := local |} w in
      let u := (u.1, w) in
      if negb (bound =? 0) then (SPW_ERR_BACKEND, close_socket u) else
      (SPW_OK, uupd (set_ub_state SPW_LINK_READY) u)
  | _, _ => (SPW_ERR_INVALID_ARGUMENT, u)
  end.

Definition udp_destroy u : udp := close_socket u.

(** What start, stop and reset clear. *)
Definition clear_transport (b : spw_udp_backend) : spw_udp_backend :=
  let b := clear_pending_tx (clear_reassembly b) in
  let b := clear_reordered_datagram (clear_retired_sessions (clear_recent_messages b)) in
  let b := set_ub_pending (set_pp_valid false (ub_pending b)) b in
  set_ub_time_codes (queue_clear (ub_time_codes b)) b.

Definition forget_peer (b : spw_udp_backend) : spw_udp_backend :=
  set_ub_remote_session_id 0 (set_ub_peer_seen false b).

Definition reset_injector (b : spw_udp_backend) : spw_udp_backend :=
  set_ub_injector (spw_fault_injector_reset (ub_injector b)) b.

Definition udp_start u : Z * udp :=
  if ub_socket_fd u.1 <? 0 then (SPW_ERR_INVALID_STATE, u) else
  let u := uupd (fun b => reset_injector (clear_transport b)) u in
  let u := uupd (fun b => set_ub_next_message_id 1 (set_ub_next_sequence 1 b)) u in
  let '(session, u) := make_session_id u in
  let u := uupd (fun b => forget_peer (set_ub_local_session_id session b)) u in
  let u := uupd (fun b => set_ub_last_keepalive_tx_us 0 (set_ub_last_peer_rx_us 0 b)) u in
  let u := uupd (set_ub_state SPW_LINK_CONNECTING) u in
  let '(result, u) := send_keepalive SPW_TIMEOUT_IMMEDIATE u in
  (if result =? SPW_ERR_TIMEOUT then SPW_OK else result, u).

Definition udp_stop u : Z * udp :=
  if ub_socket_fd u.1 <? 0 then (SPW_ERR_INVALID_STATE, u) else
  (SPW_OK, uupd (fun b => forget_peer (clear_transport (set_ub_state SPW_LINK_READY b))) u).

Definition udp_reset u : Z * udp :=
  if ub_socket_fd u.1 <? 0 then (SPW_ERR_INVALID_STATE, u) else
  (SPW_OK,
   uupd (fun b => forget_peer (clear_transport (set_ub_state SPW_LINK_ERROR_RESET
                    (reset_injector b)))) u).

Definition udp_get_link_state u (out_state : Z) : Z * Z * udp :=
  let u :=
    if keeps_alive (ub_state u.1) then
      let u := maybe_send_keepalive u in
      let '(_, u) := pump_one SPW_TIMEOUT_IMMEDIATE u in
      let '(_, u) := service_pending_tx u in
      refresh_peer_state u
    else u in
  (SPW_OK, ub_state u.1, u).

Definition udp_get_capabilities u (out : spw_capabilities) : Z * spw_capabilities * udp :=
  (SPW_OK,
   {| cap_bits := SPW_CAP_EEP .| SPW_CAP_TIME_CODE .| SPW_CAP_STATISTICS .| SPW_CAP_RATE_CONTROL .|
                  SPW_CAP_FAULT_INJECTION;
      cap_max_packet_size := SPW_UDP_BACKEND_MAX_PACKET_SIZE; cap_tx_queue_depth := 1;
      cap_rx_queue_depth := 1; cap_buffer_alignment := udp_max_alignment |}, u).

Definition udp_supports_zero_copy u : bool := false.

(** ensure_peer, wait_for_tx_slot and the delay of the event, on one deadline. *)
Definition before_send (event size : Z) (deadline : spw_udp_deadline) u : Z * udp :=
  let '(remaining, u) := deadline_remaining deadline u in
  let '(result, u) := ensure_peer remaining u in
  if negb (result =? SPW_OK) then (result, u) else
  let '(remaining, u) := deadline_remaining deadline u in
  let '(result, u) := wait_for_tx_slot remaining u in
  if negb (result =? SPW_OK) then (result, u) else
  let '(remaining, u) := deadline_remaining deadline u in
  wait_virtual_link_delay (spw_virtual_link_delay_us (Some (ub_timing u.1)) event size) remaining u.

(** The slot is filled, announced with a keepalive, and sent. *)
Definition send_slot (fill : pending_tx -> Z -> pending_tx) (deadline : spw_udp_deadline) u
    : Z * udp :=
  let '(id, counter) := take_nonzero (ub_next_message_id u.1) in
  let u :=
    uupd (fun b => set_ub_next_message_id counter (set_ub_tx (fill (ub_tx b) id) b)) u in
  let '(_, u) := send_keepalive SPW_TIMEOUT_IMMEDIATE u in
  let '(remaining, u) := deadline_remaining deadline u in
  let '(result, u) := transmit_pending remaining u in
  if negb (result =? SPW_OK) then (result, uupd clear_pending_tx u) else (SPW_OK, u).

Definition fill_packet (packet : spw_packet) (terminator : Z) (t : pending_tx) (id : Z)
    : pending_tx :=
  {| pt_packet :=
       if negb (pkt_length packet =? 0)
       then mem_write (pt_packet t) 0
              (mem_read (default [] (pkt_data packet)) 0 (Z.to_nat (pkt_length packet)))
       else pt_packet t;
     pt_packet_size := pkt_length packet; pt_terminator := terminator;
     pt_time_code := pt_time_code t; pt_kind := SPW_UDP_PENDING_DATA; pt_message_id := id;
     pt_retries := 0; pt_failed := pt_failed t; pt_last_send_us := 0 |}.

Definition udp_send u (packet : spw_packet) (timeout_us : Z) : Z * udp :=
  if (negb (pkt_length packet =? 0) && negb (non_null (pkt_data packet))) ||
     (SPW_UDP_BACKEND_MAX_PACKET_SIZE <? pkt_length packet) ||
     negb (valid_terminator (pkt_terminator packet))
  then (SPW_ERR_INVALID_PACKET, u) else
  let '(deadline, u) := deadline_make timeout_us u in
  let '(result, u) := before_send SPW_VIRTUAL_LINK_EVENT_DATA (pkt_length packet) deadline u in
  if negb (result =? SPW_OK) then (result, u) else
  let '(terminator, u) :=
    if pkt_terminator packet =? SPW_TERMINATOR_EOP then
      let '(hit, injector) := spw_fault_inject_spacewire_eep (ub_injector u.1) in
      let u := uupd (set_ub_injector injector) u in
      if hit then (SPW_TERMINATOR_EEP, count_fault bump_eep_injections u)
      else (pkt_terminator packet, u)
    else (pkt_terminator packet, u) in
  let '(result, u) := send_slot (fill_packet packet terminator) deadline u in
  if negb (result =? SPW_OK) then (result, u) else
  (SPW_OK,
   uupd (fun b => set_ub_statistics
     (count_tx_packet (pkt_length packet) (pt_terminator (ub_tx b)) (ub_statistics b)) b) u).

(** The receive loops: [waiting] while nothing is there. *)
Fixpoint receive_loop (fuel : nat) (waiting : spw_udp_backend -> bool) (deadline : spw_udp_deadline)
    (timeout_us : Z) u : Z * udp :=
  if negb (waiting u.1) then (SPW_OK, u) else
  match fuel with
  | O => (SPW_ERR_BACKEND, u)
  | S fuel =>
      let '(service_result, u) := service_pending_tx u in
      if service_result =? SPW_ERR_LINK_UNAVAILABLE then (service_result, u) else
      let '(remaining, u) := deadline_remaining deadline u in
      let '(result, u) := pump_one remaining u in
      if negb (may_go_on result) then (result, u) else
      if waiting u.1 then
        let '(expired, u) := deadline_expired deadline u in
        if expired || (timeout_us =? SPW_TIMEOUT_IMMEDIATE) then
          let u := refresh_peer_state u in
          (if ub_state u.1 =? SPW_LINK_ERROR_WAIT then SPW_ERR_LINK_UNAVAILABLE
           else SPW_ERR_TIMEOUT, u)
        else receive_loop fuel waiting deadline timeout_us u
      else receive_loop fuel waiting deadline timeout_us u
  end.

(** The start of both receive operations, up to something being there. *)
Definition await (waiting : spw_udp_backend -> bool) (timeout_us : Z) u : Z * udp :=
  let '(deadline, u) := deadline_make timeout_us u in
  let '(remaining, u) := deadline_remaining deadline u in
  let '(peer_result, u) := ensure_peer remaining u in
  if negb (peer_result =? SPW_OK) && waiting u.1 then (peer_result, u) else
  receive_loop io_fuel waiting deadline timeout_us u.

Definition no_packet (b : spw_udp_backend) : bool := negb (pp_valid (ub_pending b)).
Definition no_time_code (b : spw_udp_backend) : bool := Nat.eqb (q_count (ub_time_codes b)) 0.

Definition udp_receive u (packet : spw_packet) (timeout_us : Z) : Z * spw_packet * udp :=
  let '(result, u) := await no_packet timeout_us u in
  if negb (result =? SPW_OK) then (result, packet, u) else
  let pending := ub_pending u.1 in
  let size := pp_size pending in
  let packet := set_packet_shape size (pp_terminator pending) packet in
  if (pkt_capacity packet <? size) || (negb (size =? 0) && negb (non_null (pkt_data packet)))
  then (SPW_ERR_BUFFER_TOO_SMALL, packet, u) else
  let packet :=
    if negb (size =? 0)
    then set_packet_bytes (mem_read (pp_data pending) 0 (Z.to_nat size)) packet else packet in
  (SPW_OK, packet,
   uupd (fun b => set_ub_statistics (count_rx_packet size (ub_statistics b))
                    (set_ub_pending (set_pp_valid false (ub_pending b)) b)) u).

Definition fill_time_code (time_code : spw_time_code) (t : pending_tx) (id : Z) : pending_tx :=
  {| pt_packet := pt_packet t; pt_packet_size := pt_packet_size t; pt_terminator := pt_terminator t;
     pt_time_code := time_code; pt_kind := SPW_UDP_PENDING_TIME_CODE; pt_message_id := id;
     pt_retries := 0; pt_failed := pt_failed t; pt_last_send_us := 0 |}.

Definition udp_send_time_code u (time_code : spw_time_code) (timeout_us : Z) : Z * udp :=
  if negb (valid_wire_time_code time_code) then (SPW_ERR_INVALID_ARGUMENT, u) else
  let '(deadline, u) := deadline_make timeout_us u in
  let '(result, u) :=
    before_send SPW_VIRTUAL_LINK_EVENT_TIME_CODE SPW_VSPW_TP_TIME_CODE_PAYLOAD_SIZE deadline u in
  if negb (result =? SPW_OK) then (result, u) else
  let '(result, u) := send_slot (fill_time_code time_code) deadline u in
  if negb (result =? SPW_OK) then (result, u) else
  (SPW_OK, uupd (fun b => set_ub_statistics (count_tx_time_code (ub_statistics b)) b) u).

Definition udp_receive_time_code u (out : spw_time_code) (timeout_us : Z)
    : Z * spw_time_code * udp :=
  let '(result, u) := await no_time_code timeout_us u in
  if negb (result =? SPW_OK) then (result, out, u) else
  (SPW_OK, queue_front (ub_time_codes u.1),
   uupd (fun b => set_ub_statistics (count_rx_time_code (ub_statistics b))
                    (set_ub_time_codes (queue_pop (ub_time_codes b)) b)) u).

Definition udp_get_statistics u (out : spw_statistics) : Z * spw_statistics * udp :=
  (SPW_OK, ub_statistics u.1, u).
Definition udp_clear_statistics u : Z * udp := (SPW_OK, uupd (set_ub_statistics statistics_zero) u).
Definition udp_get_fault_statistics u (out : spw_fault_statistics)
    : Z * spw_fault_statistics * udp :=
  (SPW_OK, ub_fault_statistics u.1, u).
Definition udp_clear_fault_statistics u : Z * udp :=
  (SPW_OK, uupd (set_ub_fault_statistics fault_statistics_zero) u).

Definition UDP_OPS : spw_backend_ops udp :=
  {| op_start := udp_start;
     op_stop := udp_stop;
     op_reset := udp_reset;
     op_get_link_state := udp_get_link_state;
     op_get_capabilities := udp_get_capabilities;
     op_supports_zero_copy := Some udp_supports_zero_copy;
     op_send := udp_send;
     op_receive := udp_receive;
     op_send_time_code := udp_send_time_code;
     op_receive_time_code := udp_receive_time_code;
     op_get_statistics := udp_get_statistics;
     op_clear_statistics := udp_clear_statistics;
     op_get_fault_statistics := Some udp_get_fault_statistics;
     op_clear_fault_statistics := Some udp_clear_fault_statistics;
     op_acquire_tx_buffer := None;
     op_submit_tx_buffer := None;
     op_reclaim_tx_buffer := None;
     op_release_tx_buffer := None;
     op_acquire_rx_buffer := None;
     op_release_rx_buffer := None;
     op_wait := None |}.
End udp.
