(* ===== verification/UdpProps.v ===== *)
(** * The UDP backend: correctness

    The invariant of a UDP port over any behaviour of the system, what it hands
    out, and that every datagram it sends is a valid one of its own session. *)

From S2P Require Import Prelude Types Posix VspwTp Reassembler LinkTiming Faults Ring Queue Backend Loopback.
From S2P Require Import DriverApi PortConfig Udp.

(** ** Datagrams *)

(** A datagram the decoder of the peer accepts, exactly as long as its header
    says, of this link and session. *)
Record datagram_of (link session : Z) (d : list Z) (h : spw_vspw_tp_header) : Prop := {
  do_bytes : bytes_ok d;
  do_decodes : spw_vspw_tp_decode_header (Some d) (Z.of_nat (length d)) = DECODE_OK h;
  do_size : Z.of_nat (length d) = SPW_VSPW_TP_HEADER_SIZE + payload_size h;
  do_link : link_id h = link;
  do_session : session_id h = session
}.

Definition wire_datagram (link session : Z) (d : list Z) : Prop := exists h, datagram_of link session d h.

Lemma header_bytes_ok h : header_in_range h = true -> bytes_ok (header_bytes h).
Proof.
  unfold header_in_range, in_width. intros H. split_andb. unfold header_bytes.
  unfold be16_bytes, be64_bytes, be32_bytes. cbn [app].
  repeat constructor; try (apply u8_range); cbn; lia.
Qed.

Lemma length_header_bytes h : length (header_bytes h) = 40%nat.
Proof. done. Qed.

(** What is encoded and followed by its payload decodes to the header. *)
Lemma encoded_datagram h payload capacity d :
  header_in_range h = true -> bytes_ok payload -> Z.of_nat (length payload) = payload_size h ->
  spw_vspw_tp_encode_header (Some h) (Some []) capacity = Some d ->
  datagram_of (link_id h) (session_id h) (d ++ payload) h /\
  drop (Z.to_nat SPW_VSPW_TP_HEADER_SIZE) (d ++ payload) = payload.
Proof.
  intros Hr Hb Hl He. unfold spw_vspw_tp_encode_header in He. case_if_in He; [done|].
  rewrite encode_fields_bytes, drop_nil, app_nil_r in He. injection He as <-.
  apply orb_false_iff in E as [_ Hv%negb_false_iff].
  assert (Z.of_nat (length (header_bytes h ++ payload)) =
    SPW_VSPW_TP_HEADER_SIZE + payload_size h) as Hsize.
  { rewrite length_app, length_header_bytes. unfold SPW_VSPW_TP_HEADER_SIZE. lia. }
  assert (0 <= payload_size h) by lia. split; [|done].
  constructor; try done.
  - apply Forall_app. split; [by apply header_bytes_ok|done].
  - pose proof (decode_ok_intro (header_bytes h ++ payload)
      (Z.of_nat (length (header_bytes h ++ payload)))) as Hd.
    rewrite decode_fields_bytes in Hd by done. rewrite Hsize in *.
    apply Hd; [lia|apply header_bytes_magic|done|lia].
Qed.

(** ** The context *)

Definition u64_ok (x : Z) : Prop := 0 <= x < 2 ^ 64.
Definition u32_ok (x : Z) : Prop := 0 <= x < 2 ^ 32.

Definition udp_time_code_ok (tc : spw_time_code) : Prop :=
  0 <= time_count tc <= 63 /\ 0 <= control_flags tc <= 3.

Record pending_ok (p : pending_packet) : Prop := {
  pk_bytes : bytes_ok (pp_data p);
  pk_room : Z.of_nat (length (pp_data p)) <= SPW_UDP_BACKEND_MAX_PACKET_SIZE;
  pk_size : 0 <= pp_size p <= SPW_UDP_BACKEND_MAX_PACKET_SIZE;
  pk_terminator : valid_terminator (pp_terminator p) = true
}.

Record tx_ok (t : pending_tx) : Prop := {
  to_bytes : bytes_ok (pt_packet t);
  to_room : Z.of_nat (length (pt_packet t)) <= SPW_UDP_BACKEND_MAX_PACKET_SIZE;
  to_size : 0 <= pt_packet_size t <= SPW_UDP_BACKEND_MAX_PACKET_SIZE;
  to_terminator : valid_terminator (pt_terminator t) = true;
  to_time_code : udp_time_code_ok (pt_time_code t);
  to_kind : pt_kind t = SPW_UDP_PENDING_NONE \/ pt_kind t = SPW_UDP_PENDING_DATA \/
            pt_kind t = SPW_UDP_PENDING_TIME_CODE;
  to_message_id : u32_ok (pt_message_id t);
  to_named : pt_kind t <> SPW_UDP_PENDING_NONE -> pt_message_id t <> 0;
  to_retries : 0 <= pt_retries t < 2 ^ 16;
  to_last : u64_ok (pt_last_send_us t)
}.

Record reassembly_ok (r : spw_fragment_reassembler) : Prop := {
  ro_wf : reassembler_wf r;
  ro_capacity : capacity r = SPW_UDP_BACKEND_MAX_PACKET_SIZE;
  ro_bytes : bytes_ok (default [] (data r));
  ro_message_id : u32_ok (message_id r)
}.

(** Every counter within its 64 bits. *)
Record counters_ok (s : spw_statistics) : Prop := {
  cn_tx : u64_ok (tx_packets s) /\ u64_ok (tx_bytes s) /\ u64_ok (tx_time_codes s);
  cn_rx : u64_ok (rx_packets s) /\ u64_ok (rx_bytes s) /\ u64_ok (rx_time_codes s);
  cn_err : u64_ok (eep_packets s) /\ u64_ok (link_errors s) /\ u64_ok (dropped_packets s)
}.

Record fault_counters_ok (s : spw_fault_statistics) : Prop := {
  fn_transport : u64_ok (transport_drops s) /\ u64_ok (transport_duplicates s) /\
                 u64_ok (transport_reorders s) /\ u64_ok (transport_delays s);
  fn_eep : u64_ok (spacewire_eep_injections s)
}.

(** A configuration as [udp_construct] accepts it, every field within its type. *)
Record config_ok (c : spw_udp_config) : Prop := {
  cf_link : 0 < udp_link_id c < 2 ^ 32;
  cf_local_port : 0 <= local_port c < 2 ^ 16;
  cf_fragment : 256 <= fragment_payload_size c <= SPW_VSPW_TP_MAX_FRAGMENT_PAYLOAD;
  cf_retries : 0 < max_retries c < 2 ^ 16;
  cf_times : 0 < ack_timeout_ms c < 2 ^ 32 /\ 0 < keepalive_interval_ms c < 2 ^ 32 /\
             keepalive_interval_ms c < peer_timeout_ms c < 2 ^ 32
}.

(** The context of a port configured with [cfg] in its session [sid]. *)
Record ub_ok (cfg : spw_udp_config) (sid : Z) (b : spw_udp_backend) : Prop := {
  uk_config : ub_config b = cfg;
  uk_session : ub_local_session_id b = sid /\ u64_ok sid;
  uk_started : keeps_alive (ub_state b) = true -> sid <> 0;
  uk_state : SPW_LINK_ERROR_RESET <= ub_state b <= SPW_LINK_RUN;
  uk_statistics : counters_ok (ub_statistics b);
  uk_faults : fault_counters_ok (ub_fault_statistics b);
  uk_ids : u32_ok (ub_next_sequence b) /\ u32_ok (ub_next_message_id b);
  uk_reordered : forall d, ub_reordered b = Some d -> wire_datagram (udp_link_id cfg) sid d;
  uk_reassembly : reassembly_ok (ub_reassembly b);
  uk_pending : pending_ok (ub_pending b);
  uk_time_codes : queue_wf SPW_UDP_TIME_CODE_QUEUE_DEPTH (ub_time_codes b) /\
                  Forall udp_time_code_ok (q_slots (ub_time_codes b));
  uk_recent : queue_wf SPW_UDP_RECENT_MESSAGE_DEPTH (ub_recent b);
  uk_retired : queue_wf SPW_UDP_RETIRED_SESSION_DEPTH (ub_retired b);
  uk_remote : u64_ok (ub_remote_session_id b);
  uk_clocks : u64_ok (ub_last_fragment_us b) /\ u64_ok (ub_last_peer_rx_us b) /\
              u64_ok (ub_last_keepalive_tx_us b)
}.

Create HintDb udp.

Lemma u64_ok_wrap x : u64_ok (u64 x).
Proof. apply (wrap_bounds 64). lia. Qed.
Lemma u32_ok_wrap x : u32_ok (u32 x).
Proof. apply (wrap_bounds 32). lia. Qed.
#[export] Hint Resolve u64_ok_wrap u32_ok_wrap : udp.

Lemma count_drops_ok n s : counters_ok s -> counters_ok (count_drops n s).
Proof. intros []. constructor; cbn; intuition auto with udp. Qed.
Lemma count_link_error_ok s : counters_ok s -> counters_ok (count_link_error s).
Proof. intros []. constructor; cbn; intuition auto with udp. Qed.
Lemma count_tx_packet_ok n t s : counters_ok s -> counters_ok (count_tx_packet n t s).
Proof. intros []. constructor; cbn; try case_if; intuition auto with udp. Qed.
Lemma count_rx_packet_ok n s : counters_ok s -> counters_ok (count_rx_packet n s).
Proof. intros []. constructor; cbn; intuition auto with udp. Qed.
Lemma count_tx_time_code_ok s : counters_ok s -> counters_ok (count_tx_time_code s).
Proof. intros []. constructor; cbn; intuition auto with udp. Qed.
Lemma count_rx_time_code_ok s : counters_ok s -> counters_ok (count_rx_time_code s).
Proof. intros []. constructor; cbn; intuition auto with udp. Qed.
#[export] Hint Resolve count_drops_ok count_link_error_ok count_tx_packet_ok count_rx_packet_ok
  count_tx_time_code_ok count_rx_time_code_ok : udp.

Lemma bump_drops_ok s : fault_counters_ok s -> fault_counters_ok (bump_drops s).
Proof. intros []. constructor; cbn; intuition auto with udp. Qed.
Lemma bump_duplicates_ok s : fault_counters_ok s -> fault_counters_ok (bump_duplicates s).
Proof. intros []. constructor; cbn; intuition auto with udp. Qed.
Lemma bump_reorders_ok s : fault_counters_ok s -> fault_counters_ok (bump_reorders s).
Proof. intros []. constructor; cbn; intuition auto with udp. Qed.
Lemma bump_delays_ok s : fault_counters_ok s -> fault_counters_ok (bump_delays s).
Proof. intros []. constructor; cbn; intuition auto with udp. Qed.
Lemma bump_eep_injections_ok s : fault_counters_ok s -> fault_counters_ok (bump_eep_injections s).
Proof. intros []. constructor; cbn; intuition auto with udp. Qed.
#[export] Hint Resolve bump_drops_ok bump_duplicates_ok bump_reorders_ok bump_delays_ok
  bump_eep_injections_ok : udp.

Lemma take_nonzero_ok counter : u32_ok counter ->
  let '(value, next) := take_nonzero counter in value <> 0 /\ u32_ok value /\ u32_ok next.
Proof.
  intros H. unfold take_nonzero. destruct (counter =? 0) eqn:E.
  - apply Z.eqb_eq in E as ->. unfold u32_ok. change (u32 (0 + 1)) with 1.
    change (u32 (1 + 1)) with 2. lia.
  - split_and!; [lia|done|apply u32_ok_wrap].
Qed.

(** ** Assignments that keep the context *)

Section context.
Context (cfg : spw_udp_config) (sid : Z).
Abbreviation ok := (ub_ok cfg sid).
Implicit Types (b : spw_udp_backend).

Lemma set_injector_ok v b : ok b -> ok (set_ub_injector v b).
Proof. by intros []. Qed.
Lemma set_socket_fd_ok v b : ok b -> ok (set_ub_socket_fd v b).
Proof. by intros []. Qed.
Lemma set_tx_ok v b : ok b -> ok (set_ub_tx v b).
Proof. by intros []. Qed.
Lemma set_peer_seen_ok v b : ok b -> ok (set_ub_peer_seen v b).
Proof. by intros []. Qed.
Lemma set_state_ok v b : ok b -> SPW_LINK_ERROR_RESET <= v <= SPW_LINK_RUN ->
  (keeps_alive v = true -> sid <> 0) -> ok (set_ub_state v b).
Proof. by intros []. Qed.
Lemma set_statistics_counted f b : ok b ->
  (forall s, counters_ok s -> counters_ok (f s)) -> ok (set_ub_statistics (f (ub_statistics b)) b).
Proof. intros [] Hf. constructor; try done. by apply Hf. Qed.
Lemma set_fault_statistics_counted f b : ok b ->
  (forall s, fault_counters_ok s -> fault_counters_ok (f s)) ->
  ok (set_ub_fault_statistics (f (ub_fault_statistics b)) b).
Proof. intros [] Hf. constructor; try done. by apply Hf. Qed.
Lemma set_next_sequence_ok v b : ok b -> u32_ok v -> ok (set_ub_next_sequence v b).
Proof. intros [] ?. constructor; try done. by split; [|apply uk_ids0]. Qed.
Lemma set_next_message_id_ok v b : ok b -> u32_ok v -> ok (set_ub_next_message_id v b).
Proof. intros [] ?. constructor; try done. by split; [apply uk_ids0|]. Qed.
Lemma set_reordered_ok v b : ok b -> (forall d, v = Some d -> wire_datagram (udp_link_id cfg) sid d) ->
  ok (set_ub_reordered v b).
Proof. by intros []. Qed.
Lemma set_assembly_ok v b : ok b -> reassembly_ok v -> ok (set_ub_reassembly v b).
Proof. by intros []. Qed.
Lemma set_pending_ok v b : ok b -> pending_ok v -> ok (set_ub_pending v b).
Proof. by intros []. Qed.
Lemma set_time_codes_ok v b : ok b -> queue_wf SPW_UDP_TIME_CODE_QUEUE_DEPTH v ->
  Forall udp_time_code_ok (q_slots v) -> ok (set_ub_time_codes v b).
Proof. by intros []. Qed.
Lemma set_recent_ok v b : ok b -> queue_wf SPW_UDP_RECENT_MESSAGE_DEPTH v -> ok (set_ub_recent v b).
Proof. by intros []. Qed.
Lemma set_retired_ok v b : ok b -> queue_wf SPW_UDP_RETIRED_SESSION_DEPTH v ->
  ok (set_ub_retired v b).
Proof. by intros []. Qed.
Lemma set_remote_session_id_ok v b : ok b -> u64_ok v -> ok (set_ub_remote_session_id v b).
Proof. by intros []. Qed.
Lemma set_last_fragment_ok v b : ok b -> u64_ok v -> ok (set_ub_last_fragment_us v b).
Proof. intros [] ?. constructor; try done. cbn. intuition auto. Qed.
Lemma set_last_peer_rx_ok v b : ok b -> u64_ok v -> ok (set_ub_last_peer_rx_us v b).
Proof. intros [] ?. constructor; try done. cbn. intuition auto. Qed.
Lemma set_last_keepalive_ok v b : ok b -> u64_ok v -> ok (set_ub_last_keepalive_tx_us v b).
Proof. intros [] ?. constructor; try done. cbn. intuition auto. Qed.

Lemma reassembly_reset_ok r : reassembly_ok r -> reassembly_ok (spw_fragment_reassembler_reset r).
Proof. intros [H Hc]. constructor; [apply reset_wf; [done|by rewrite Hc]|done|done|by split]. Qed.

Lemma clear_reassembly_ok b : ok b -> ok (clear_reassembly b).
Proof.
  intros H. apply set_last_fragment_ok; [|by split]. apply set_assembly_ok; [done|].
  apply reassembly_reset_ok, H.
Qed.

Lemma clear_pending_tx_ok b : ok b -> ok (clear_pending_tx b).
Proof. by intros []. Qed.

Lemma clear_recent_messages_ok b : ok b -> ok (clear_recent_messages b).
Proof. intros H. apply set_recent_ok; [done|]. apply queue_clear_wf, H. Qed.

Lemma clear_retired_sessions_ok b : ok b -> ok (clear_retired_sessions b).
Proof. intros H. apply set_retired_ok; [done|]. apply queue_clear_wf, H. Qed.

Lemma clear_reordered_datagram_ok b : ok b -> ok (clear_reordered_datagram b).
Proof. intros H. by apply set_reordered_ok. Qed.

Lemma count_drop_ok b : ok b -> ok (count_drop b).
Proof. intros H. apply (set_statistics_counted count_dropped); [done|]. apply count_drops_ok. Qed.

Lemma mark_peer_lost_ok b : ok b -> sid <> 0 -> ok (mark_peer_lost b).
Proof.
  intros H Hs. unfold mark_peer_lost. apply set_state_ok; [|done..].
  apply clear_reassembly_ok. case_if; [|done]. apply (set_statistics_counted count_link_error); auto with udp.
Qed.

Lemma remember_retired_session_ok b id : ok b -> ok (remember_retired_session b id).
Proof.
  intros H. unfold remember_retired_session. case_if; [done|].
  apply set_retired_ok; [done|]. apply queue_remember_wf, H.
Qed.

Lemma remember_delivered_ok b type id : ok b -> ok (remember_delivered b type id).
Proof.
  intros H. unfold remember_delivered. case_if; [done|].
  apply set_recent_ok; [done|]. apply queue_remember_wf, H.
Qed.

Lemma set_pp_valid_ok v p : pending_ok p -> pending_ok (set_pp_valid v p).
Proof. by intros []. Qed.

Lemma offer_packet_ok data size terminator b : ok b -> bytes_ok data ->
  Z.of_nat (length data) <= SPW_UDP_BACKEND_MAX_PACKET_SIZE ->
  0 <= size <= SPW_UDP_BACKEND_MAX_PACKET_SIZE -> valid_terminator terminator = true ->
  ok (offer_packet data size terminator b).
Proof.
  intros H Hb Hl Hs Ht. apply set_pending_ok; [done|]. destruct (uk_pending _ _ _ H).
  constructor; cbn; try done; case_if; try done.
  - by apply bytes_ok_write.
  - rewrite length_mem_write. lia.
Qed.

Lemma tp_terminator_valid flags : valid_terminator (tp_terminator flags) = true.
Proof. unfold tp_terminator. by case_if. Qed.

Lemma forget_peer_ok b : ok b -> ok (forget_peer b).
Proof. intros H. apply set_remote_session_id_ok; [|by split]. by apply set_peer_seen_ok. Qed.

Lemma reset_injector_ok b : ok b -> ok (reset_injector b).
Proof. by intros []. Qed.

Lemma clear_transport_ok b : ok b -> ok (clear_transport b).
Proof.
  intros H. unfold clear_transport.
  set (b1 := clear_reordered_datagram _).
  assert (ok b1) as H1.
  { unfold b1. apply clear_reordered_datagram_ok, clear_retired_sessions_ok,
      clear_recent_messages_ok, clear_pending_tx_ok, clear_reassembly_ok, H. }
  apply set_time_codes_ok.
  - apply set_pending_ok; [done|]. apply set_pp_valid_ok, H1.
  - apply queue_clear_wf, H1.
  - apply H1.
Qed.
End context.

#[export] Hint Resolve set_injector_ok set_socket_fd_ok set_tx_ok set_peer_seen_ok
  set_next_sequence_ok set_next_message_id_ok set_last_fragment_ok set_last_peer_rx_ok
  set_last_keepalive_ok clear_reassembly_ok clear_pending_tx_ok clear_recent_messages_ok
  clear_retired_sessions_ok clear_reordered_datagram_ok count_drop_ok mark_peer_lost_ok
  remember_retired_session_ok remember_delivered_ok forget_peer_ok reset_injector_ok
  clear_transport_ok : udp.

(** ** Reassembly keeps bytes *)

Lemma header_ids h : header_in_range h = true ->
  u32_ok (VspwTp.message_id h) /\ u64_ok (session_id h) /\
  0 <= payload_size h < 2 ^ 16 /\ u32_ok (VspwTp.total_size h).
Proof. unfold header_in_range, in_width, u32_ok, u64_ok. intros H. split_andb. lia. Qed.

Lemma store_bytes_bytes payload offset n : bytes_ok payload -> forall s,
  bytes_ok (st_data s) -> bytes_ok (st_data (store_bytes s offset n payload)).
Proof.
  intros Hp. unfold store_bytes. induction (seq 0 (Z.to_nat n)) as [|i l IH]; intros s Hs; [done|].
  cbn [fold_left]. apply IH. unfold store_byte. case_if; [done|]. cbn [st_data].
  apply bytes_ok_write; [done|]. constructor; [by apply bytes_ok_get|constructor].
Qed.

Lemma push_bytes r h payload : bytes_ok payload -> bytes_ok (default [] (data r)) ->
  bytes_ok (default [] (data (spw_fragment_reassembler_push r (Some h) (Some payload)).2)) /\
  capacity (spw_fragment_reassembler_push r (Some h) (Some payload)).2 = capacity r.
Proof.
  intros Hp Hr. unfold spw_fragment_reassembler_push. do 2 (case_if; [done|]). cbv zeta.
  fold (activated r h).
  assert (data (activated r h) = data r /\ capacity (activated r h) = capacity r) as [Hd Hc]
    by (unfold activated; by case_if).
  assert (bytes_ok (st_data (store_of (activated r h)))) as Hs by (cbn; by rewrite Hd).
  destruct (store_fragment _ _ _ _) as [s|] eqn:Es; cbn [snd]; [|by rewrite Hd].
  split; [|done]. cbn. unfold store_fragment in Es. case_if_in Es.
  - injection Es as <-. cbn. apply bytes_ok_write; [done|]. by apply bytes_ok_read.
  - case_if_in Es; [done|]. injection Es as <-. by apply store_bytes_bytes.
Qed.

Lemma reassembly_push_ok r h payload : reassembly_ok r -> header_in_range h = true ->
  bytes_ok payload ->
  reassembly_ok (spw_fragment_reassembler_push r (Some h) (Some payload)).2.
Proof.
  intros [Hw Hc Hb Hm] Hr Hp. destruct (push_bytes r h payload Hp Hb) as [H1 H2].
  constructor; [by apply push_wf|by rewrite H2|done|].
  unfold spw_fragment_reassembler_push. do 2 (case_if; [done|]). cbv zeta. fold (activated r h).
  assert (u32_ok (message_id (activated r h))).
  { unfold activated. case_if; [done|]. cbn. by apply header_ids. }
  by destruct (store_fragment _ _ _ _).
Qed.

(** ** What the system promises

    [J] is an invariant of the outside world: every call keeps it, a send if the
    datagram satisfies [P].  Received data consists of bytes. *)
Class UdpContract {W : Type} (os : udp_os W) (J : W -> Prop) (P : list Z -> Prop) : Prop := {
  uc_clock : forall w, J w -> J (uo_clock_gettime os w).2;
  uc_sendto : forall fd d to w, J w -> P d -> J (uo_sendto os fd d to w).2;
  uc_recvfrom : forall fd n w, J w ->
    let '(_, bytes, _, w') := uo_recvfrom os fd n w in J w' /\ bytes_ok bytes;
  uc_poll : forall fd events ms w, J w -> J (uo_poll os fd events ms w).2;
  uc_nanosleep : forall request w, J w -> J (uo_nanosleep os request w).2;
  uc_socket : forall w, J w -> J (uo_socket os w).2;
  uc_setsockopt : forall fd w, J w -> J (uo_setsockopt os fd w);
  uc_bind : forall fd addr w, J w -> J (uo_bind os fd addr w).2;
  uc_close : forall fd w, J w -> J (uo_close os fd w)
}.

Section udp.
Context {W : Type} (os : udp_os W) (io_fuel : nat).
Context (cfg : spw_udp_config) (sid : Z) (J : W -> Prop).
Context `{!UdpContract os J (wire_datagram (udp_link_id cfg) sid)} (Hcfg : config_ok cfg).
Implicit Types (u : @udp W) (F : pending_tx -> Prop).

(** The invariant; [F] is what is known of the transmit slot. *)
Definition good F u : Prop := ub_ok cfg sid u.1 /\ F (ub_tx u.1) /\ J u.2.

Lemma good_world F u w : good F u -> J w -> good F (u.1, w).
Proof. by intros (H & HF & _) Hw. Qed.

(** An assignment that leaves the slot alone. *)
Lemma good_upd F f u : good F u -> (ub_ok cfg sid u.1 -> ub_ok cfg sid (f u.1)) ->
  ub_tx (f u.1) = ub_tx u.1 -> good F (uupd f u).
Proof. intros (H & HF & Hw) Hf Ht. split_and!; [by apply Hf|by rewrite <- Ht in HF|done]. Qed.

(** A call and what follows it. *)
Lemma good_bind {A B} F F' (e : A * @udp W) (K : A -> @udp W -> B * @udp W) :
  good F e.2 -> (forall x u, e = (x, u) -> good F u -> good F' (K x u).2) ->
  good F' (let '(x, u) := e in K x u).2.
Proof. destruct e as [x u]. intros H HK. by apply HK. Qed.

Lemma good_bind' {A} F F' (e : A * @udp W) (K : A -> @udp W -> @udp W) :
  good F e.2 -> (forall x u, e = (x, u) -> good F u -> good F' (K x u)) ->
  good F' (let '(x, u) := e in K x u).
Proof. destruct e as [x u]. intros H HK. by apply HK. Qed.

(** ** Time *)

Lemma now_us_good F u : good F u -> good F (now_us os u).2.
Proof.
  intros H. unfold now_us. pose proof (uc_clock u.2 (proj2 (proj2 H))) as Hc.
  destruct (uo_clock_gettime os u.2) as [[[r s] n] w]. by apply good_world.
Qed.

Lemma now_us_range u : u64_ok (now_us os u).1.
Proof.
  unfold now_us. destruct (uo_clock_gettime os u.2) as [[[r s] n] w]. cbn [fst].
  case_if; [by split|apply u64_ok_wrap].
Qed.

Lemma deadline_make_good F t u : good F u -> good F (deadline_make os t u).2.
Proof.
  intros H. unfold deadline_make. case_if; [done|].
  apply (good_bind F); [by apply now_us_good|done].
Qed.

Lemma deadline_remaining_good F d u : good F u -> good F (deadline_remaining os d u).2.
Proof.
  intros H. unfold deadline_remaining. case_if; [done|].
  apply (good_bind F); [by apply now_us_good|done].
Qed.

Lemma deadline_expired_good F d u : good F u -> good F (deadline_expired os d u).2.
Proof.
  intros H. unfold deadline_expired. case_if; [done|].
  apply (good_bind F); [by apply now_us_good|done].
Qed.
#[local] Hint Resolve now_us_good deadline_make_good deadline_remaining_good
  deadline_expired_good : udp.

(** Case analysis along the code: a call keeps the invariant by its lemma. *)
Ltac walk_step :=
  lazymatch goal with
  | |- good ?F (if _ then _ else _).2 => case_if
  | |- good ?F (if _ then _ else _) => case_if
  | |- good ?F (let '(_, _) := ?e in _).2 =>
      first [ is_var e; destruct e
            | eapply (good_bind F); [solve [auto with udp]|intros ? ? ? ?] ]
  | |- good ?F (let '(_, _) := ?e in _) =>
      first [ is_var e; destruct e
            | eapply (good_bind' F); [solve [auto with udp]|intros ? ? ? ?] ]
  | |- good ?F (match ?e with _ => _ end).2 => destruct e eqn:?
  | |- good ?F (_, _).2 => cbn [snd]
  | |- good ?F (uupd _ _) => apply good_upd; [solve [auto with udp]| |done]
  end.
Ltac walk := repeat (walk_step; try solve [auto with udp]).

Lemma expire_reassembly_good F u : good F u -> good F (expire_reassembly os u).
Proof. intros H. unfold expire_reassembly. cbv zeta. walk. Qed.

Lemma peer_is_current_good F u : good F u -> good F (peer_is_current os u).2.
Proof. intros H. unfold peer_is_current. cbv zeta. walk. Qed.
#[local] Hint Resolve expire_reassembly_good peer_is_current_good : udp.

Lemma now_us_value n u u' : now_us os u = (n, u') -> u64_ok n.
Proof. intros E. pose proof (now_us_range u) as H. by rewrite E in H. Qed.
#[local] Hint Resolve now_us_value : udp.

(** A state that keeps alive has a session. *)
Lemma good_alive F u : good F u -> keeps_alive (ub_state u.1) = true -> sid <> 0.
Proof. intros (H & _). apply H. Qed.

Lemma good_state F u v : good F u -> SPW_LINK_ERROR_RESET <= v <= SPW_LINK_RUN ->
  keeps_alive (ub_state u.1) = true -> good F (uupd (set_ub_state v) u).
Proof.
  intros H Hv Hk. apply good_upd; [done| |done]. intros Hb. apply set_state_ok; [done|done|].
  intros _. by eapply good_alive.
Qed.

Lemma good_lost F u : good F u -> sid <> 0 -> good F (uupd mark_peer_lost u).
Proof.
  intros H Hs. apply good_upd; [done|auto with udp|]. unfold mark_peer_lost. by case_if.
Qed.
#[local] Hint Resolve good_lost : udp.

Lemma same_state_alive v u : (ub_state u.1 =? v) = true -> keeps_alive v = true ->
  keeps_alive (ub_state u.1) = true.
Proof. by intros ->%Z.eqb_eq. Qed.

(** The clock does not touch the context. *)
Lemma now_us_context u n u' : now_us os u = (n, u') -> u'.1 = u.1.
Proof.
  unfold now_us. destruct (uo_clock_gettime os u.2) as [[[r s] m] w]. by intros [= _ <-].
Qed.

Lemma peer_is_current_context u c u' : peer_is_current os u = (c, u') -> u'.1 = u.1.
Proof.
  unfold peer_is_current. destruct (now_us os u) as [n v] eqn:E. intros [= _ <-].
  by eapply now_us_context.
Qed.

Lemma refresh_peer_state_good F u : good F u -> good F (refresh_peer_state os u).
Proof.
  intros H. unfold refresh_peer_state.
  pose proof (expire_reassembly_good F u H) as H1. revert H1.
  generalize (expire_reassembly os u). clear u H. intros u H.
  case_if; [|case_if; [|done]].
  - destruct (peer_is_current os u) as [c u'] eqn:Ec.
    pose proof (peer_is_current_good F u H) as H'. rewrite Ec in H'. cbn [snd] in H'.
    case_if; [|done]. apply good_lost; [done|]. apply (good_alive F u H).
    by eapply same_state_alive.
  - destruct (peer_is_current os u) as [c u'] eqn:Ec.
    pose proof (peer_is_current_good F u H) as H'. rewrite Ec in H'. cbn [snd] in H'.
    case_if; [|done]. apply good_state; [done|done|].
    rewrite (peer_is_current_context _ _ _ Ec). by eapply same_state_alive.
Qed.

Lemma note_peer_activity_good F u : good F u -> good F (note_peer_activity os u).
Proof.
  intros H. unfold note_peer_activity.
  assert (good F (uupd (set_ub_peer_seen true) u)) as H1 by walk.
  revert H1. generalize (uupd (set_ub_peer_seen true) u). clear u H. intros u H.
  destruct (now_us os u) as [n u'] eqn:En.
  pose proof (now_us_good F u H) as H'. rewrite En in H'. cbn [snd] in H'.
  assert (good F (uupd (set_ub_last_peer_rx_us n) u')) as H2 by (walk; eauto with udp).
  revert H2. generalize (uupd (set_ub_last_peer_rx_us n) u'). clear u u' H En H'. intros u H.
  case_if; [|done]. apply good_state; [done|done|]. apply orb_true_iff in E as [E|E];
    by eapply same_state_alive.
Qed.
#[local] Hint Resolve refresh_peer_state_good note_peer_activity_good : udp.

(** ** Sending *)

Lemma poll_loop_good F fuel events timeout : (forall u, good F u -> good F (timeout u).2) ->
  forall u, good F u -> good F (poll_loop os fuel events timeout u).2.
Proof.
  intros Ht. induction fuel as [|fuel IH]; intros u H; cbn [poll_loop]; [done|].
  apply (good_bind F); [by apply Ht|]. intros ms v _ Hv.
  pose proof (uc_poll (ub_socket_fd v.1) events ms v.2 (proj2 (proj2 Hv))) as Hp.
  destruct (uo_poll os _ _ _ _) as [[ready revents] w].
  assert (good F (v.1, w)) by (by apply good_world). case_if; [by apply IH|done].
Qed.

Lemma wait_readable_good F t u : good F u -> good F (wait_readable os io_fuel t u).2.
Proof.
  intros H. unfold wait_readable. apply (good_bind F); [by apply poll_loop_good|].
  intros [ready revents] v _ Hv. done.
Qed.

Lemma sendto_loop_good F d to deadline : wire_datagram (udp_link_id cfg) sid d ->
  forall fuel u, good F u -> good F (sendto_loop os io_fuel fuel d to deadline u).2.
Proof.
  intros Hd. induction fuel as [|fuel IH]; intros u H; cbn [sendto_loop]; [done|].
  pose proof (uc_sendto (ub_socket_fd u.1) d to u.2 (proj2 (proj2 H)) Hd) as Hs.
  destruct (uo_sendto os _ _ _ _) as [sent w]. cbn [snd] in Hs.
  assert (good F (u.1, w)) as H1 by (by apply good_world).
  do 2 (case_if; [done|]). case_if.
  - apply (good_bind F); [by apply deadline_expired_good|]. intros e v _ Hv.
    case_if; [done|by apply IH].
  - case_if; [done|]. apply (good_bind F).
    + apply poll_loop_good; [|done]. intros v Hv.
      apply (good_bind F); [by apply deadline_remaining_good|done].
    + intros [ready revents] v _ Hv. case_if; [done|by apply IH].
Qed.

Lemma send_datagram_raw_good F d t u : wire_datagram (udp_link_id cfg) sid d -> good F u ->
  good F (send_datagram_raw os io_fuel d t u).2.
Proof.
  intros Hd H. unfold send_datagram_raw. case_if; [done|]. destruct (uo_inet_pton os _); [|done].
  apply (good_bind F); [by apply deadline_make_good|]. intros dl v _ Hv. by apply sendto_loop_good.
Qed.

Lemma nanosleep_loop_good F fuel : forall request u, good F u ->
  good F (nanosleep_loop os fuel request u).2.
Proof.
  induction fuel as [|fuel IH]; intros request u H; cbn [nanosleep_loop]; [done|].
  pose proof (uc_nanosleep request u.2 (proj2 (proj2 H))) as Hn.
  destruct (uo_nanosleep os _ _) as [[r rest] w]. cbn [snd] in Hn.
  assert (good F (u.1, w)) by (by apply good_world).
  case_if; [done|]. case_if; [done|by apply IH].
Qed.

Lemma wait_transport_fault_delay_good F d t u : good F u ->
  good F (wait_transport_fault_delay os io_fuel d t u).2.
Proof. intros H. unfold wait_transport_fault_delay. do 2 (case_if; [done|]). by apply nanosleep_loop_good. Qed.
#[local] Hint Resolve wait_readable_good send_datagram_raw_good wait_transport_fault_delay_good : udp.

Lemma count_fault_good F f u : good F u ->
  (forall s, fault_counters_ok s -> fault_counters_ok (f s)) -> good F (count_fault f u).
Proof.
  intros H Hf. apply good_upd; [done| |done]. intros Hb. by apply set_fault_statistics_counted.
Qed.

Lemma send_with_fault_good F decision d t u : wire_datagram (udp_link_id cfg) sid d -> good F u ->
  good F (send_with_fault os io_fuel decision d t u).2.
Proof.
  intros Hd H. unfold send_with_fault. cbv zeta.
  assert (good F (count_fault bump_drops u)) by (apply count_fault_good; auto with udp).
  assert (good F (count_fault bump_duplicates u)) by (apply count_fault_good; auto with udp).
  assert (good F (count_fault bump_reorders u)) by (apply count_fault_good; auto with udp).
  assert (good F (count_fault bump_delays u)) by (apply count_fault_good; auto with udp).
  walk. intros Hb. apply set_reordered_ok; [done|]. by intros ? [= <-].
Qed.

Lemma send_datagram_good F d t u : wire_datagram (udp_link_id cfg) sid d -> good F u ->
  good F (send_datagram os io_fuel d t u).2.
Proof.
  intros Hd H. unfold send_datagram. destruct (ub_reordered u.1) as [held|] eqn:Eh.
  - assert (wire_datagram (udp_link_id cfg) sid held) as Hh by (by apply (uk_reordered _ _ _ (proj1 H))).
    walk.
  - destruct (spw_vspw_tp_decode_header _ _); [|by apply send_datagram_raw_good..].
    destruct (spw_fault_inject_transport _ _). apply send_with_fault_good; [done|]. walk.
Qed.
#[local] Hint Resolve send_datagram_good : udp.

Lemma take_sequence_good F u : good F u -> good F (take_sequence u).2.
Proof.
  intros H. unfold take_sequence. destruct H as (Hb & HF & Hw).
  pose proof (take_nonzero_ok (ub_next_sequence u.1) (proj1 (uk_ids _ _ _ Hb))) as Ht.
  destruct (take_nonzero _) as [value counter]. destruct Ht as (_ & _ & Hn).
  apply good_upd; [done|auto with udp|done].
Qed.

Lemma take_sequence_value F u s u' : good F u -> take_sequence u = (s, u') ->
  u32_ok s /\ ub_tx u'.1 = ub_tx u.1.
Proof.
  unfold take_sequence. intros (Hb & _).
  pose proof (take_nonzero_ok (ub_next_sequence u.1) (proj1 (uk_ids _ _ _ Hb))) as Ht.
  destruct (take_nonzero _) as [value counter]. intros [= <- <-]. by split; [apply Ht|].
Qed.
#[local] Hint Resolve take_sequence_good : udp.

(** A header the backend fills is within its types. *)
Lemma tp_header_range type flags size seq mid offset total :
  0 <= type < 2 ^ 8 -> 0 <= flags < 2 ^ 8 -> 0 <= size < 2 ^ 16 -> u64_ok sid -> u32_ok seq ->
  u32_ok mid -> u32_ok offset -> u32_ok total ->
  header_in_range (tp_header type flags size (udp_link_id cfg) sid seq mid offset total) = true.
Proof.
  intros. pose proof (cf_link _ Hcfg). unfold u32_ok, u64_ok in *.
  unfold header_in_range, in_width. cbn [tp_header version_major version_minor VspwTp.type
    VspwTp.flags header_size payload_size link_id session_id sequence VspwTp.message_id
    fragment_offset VspwTp.total_size].
  unfold SPW_VSPW_TP_VERSION_MAJOR, SPW_VSPW_TP_VERSION_MINOR, SPW_VSPW_TP_HEADER_SIZE. lia.
Qed.

(** A datagram made of such a header and its payload can be sent. *)
Lemma built_sendable h payload capacity d : header_in_range h = true -> bytes_ok payload ->
  Z.of_nat (length payload) = payload_size h -> link_id h = udp_link_id cfg -> session_id h = sid ->
  spw_vspw_tp_encode_header (Some h) (Some []) capacity = Some d ->
  wire_datagram (udp_link_id cfg) sid (d ++ payload).
Proof.
  intros Hr Hb Hl Hli Hs He. exists h. rewrite <- Hli, <- Hs. by eapply encoded_datagram.
Qed.

Lemma send_keepalive_good F t u : good F u -> good F (send_keepalive os io_fuel t u).2.
Proof.
  intros H. unfold send_keepalive. pose proof H as (Hb & _).
  rewrite (uk_config _ _ _ Hb), (proj1 (uk_session _ _ _ Hb)).
  apply (good_bind F); [auto with udp|]. intros s v Es Hv.
  destruct (take_sequence_value F u s v H Es) as [Hs _].
  destruct (spw_vspw_tp_encode_header _ _ _) as [d|] eqn:Ee; [|done].
  assert (wire_datagram (udp_link_id cfg) sid d) as Hd.
  { rewrite <- (app_nil_r d). refine (built_sendable _ _ _ _ _ _ _ _ _ Ee); [|constructor|done..].
    apply tp_header_range; try done. apply (proj2 (uk_session _ _ _ Hb)). }
  walk. eauto with udp.
Qed.
#[local] Hint Resolve send_keepalive_good : udp.

Lemma maybe_send_keepalive_good F u : good F u -> good F (maybe_send_keepalive os io_fuel u).
Proof. intros H. unfold maybe_send_keepalive. cbv zeta. walk. Qed.

Lemma bytes_ok_u64 v : bytes_ok (write_u64 [] 0 v).
Proof.
  rewrite <- (app_nil_l []), write_u64_app by done. unfold be64_bytes, be32_bytes. cbn [app drop].
  repeat constructor; apply u8_range.
Qed.

Lemma length_u64 v : length (write_u64 [] 0 v) = 8%nat.
Proof. rewrite <- (app_nil_l []), write_u64_app by done. done. Qed.

Lemma send_ack_good F mid u : good F u -> u32_ok mid -> good F (send_ack os io_fuel mid u).2.
Proof.
  intros H Hm. unfold send_ack. cbv zeta. do 2 (case_if; [done|]). pose proof H as (Hb & _).
  rewrite (uk_config _ _ _ Hb), (proj1 (uk_session _ _ _ Hb)).
  apply (good_bind F); [auto with udp|]. intros s v Es Hv.
  destruct (take_sequence_value F u s v H Es) as [Hs _].
  destruct (spw_vspw_tp_encode_header _ _ _) as [d|] eqn:Ee; [|done].
  destruct (spw_vspw_tp_encode_ack_payload _ _ _) as [p|] eqn:Ep; [|done].
  unfold spw_vspw_tp_encode_ack_payload in Ep. case_if_in Ep; [done|]. injection Ep as <-.
  apply send_datagram_good; [|done].
  refine (built_sendable _ _ _ _ _ _ _ _ _ Ee); [|apply bytes_ok_u64|by rewrite length_u64|done..].
  apply tp_header_range; try done. apply (proj2 (uk_session _ _ _ Hb)).
Qed.
#[local] Hint Resolve maybe_send_keepalive_good send_ack_good : udp.

(** ** The transmit slot *)

Lemma good_weaken F F' u : good F u -> (F (ub_tx u.1) -> F' (ub_tx u.1)) -> good F' u.
Proof. intros (H & HF & Hw) Hi. split_and!; auto. Qed.

Lemma set_pt_retry_ok retries failed last t : tx_ok t -> 0 <= retries < 2 ^ 16 -> u64_ok last ->
  tx_ok (set_pt_retry retries failed last t).
Proof. by intros []. Qed.

Lemma good_set_tx u t : good (fun _ => True) u -> tx_ok t ->
  good tx_ok (uupd (set_ub_tx t) u).
Proof. intros (H & _ & Hw) Ht. split_and!; [by apply set_tx_ok|done|done]. Qed.

(** An assignment to the slot. *)
Lemma good_upd_tx (f : pending_tx -> pending_tx) u : good tx_ok u ->
  (tx_ok (ub_tx u.1) -> tx_ok (f (ub_tx u.1))) ->
  good tx_ok (uupd (fun b => set_ub_tx (f (ub_tx b)) b) u).
Proof. intros (H & HF & Hw) Ht. split_and!; [by apply set_tx_ok|by apply Ht|done]. Qed.

Lemma sent_now_good u : good tx_ok u -> good tx_ok (sent_now os u).
Proof.
  intros H. unfold sent_now. apply (good_bind' tx_ok); [auto with udp|]. intros n v En Hv.
  apply (good_upd_tx (fun t => set_pt_retry (pt_retries t) (pt_failed t) n t)); [done|].
  intros Ht. apply set_pt_retry_ok; [done|apply Ht|by eapply now_us_value].
Qed.
#[local] Hint Resolve sent_now_good : udp.

Lemma transmit_time_code_good t u : good tx_ok u -> good tx_ok (transmit_time_code os io_fuel t u).2.
Proof.
  intros H. unfold transmit_time_code. cbv zeta. pose proof H as (Hb & Ht & _).
  rewrite (uk_config _ _ _ Hb), (proj1 (uk_session _ _ _ Hb)).
  apply (good_bind tx_ok); [auto with udp|]. intros s v Es Hv.
  destruct (take_sequence_value tx_ok u s v H Es) as [Hs _].
  destruct (spw_vspw_tp_encode_header _ _ _) as [d|] eqn:Ee; [|done].
  apply (good_bind tx_ok); [|intros r v' _ Hv'; walk].
  apply send_datagram_good; [|done]. destruct (to_time_code _ Ht).
  refine (built_sendable _ _ _ _ _ _ _ _ _ Ee); [|repeat constructor; cbn; lia|done..].
  apply tp_header_range; try done; [apply (proj2 (uk_session _ _ _ Hb))|apply Ht].
Qed.

Lemma fragment_length_range b offset : config_ok (ub_config b) -> tx_ok (ub_tx b) ->
  0 <= offset <= pt_packet_size (ub_tx b) ->
  0 <= fragment_length b offset < 2 ^ 16 /\
  offset + fragment_length b offset <= pt_packet_size (ub_tx b) /\
  fragment_length b offset <= fragment_payload_size (ub_config b).
Proof.
  intros [] [] Ho. unfold fragment_length. unfold SPW_VSPW_TP_MAX_FRAGMENT_PAYLOAD,
    SPW_VSPW_TP_MAX_UDP_PAYLOAD, SPW_VSPW_TP_HEADER_SIZE in *.
  repeat case_if; lia.
Qed.

Lemma data_flags_range (terminator : Z) (first last : bool) :
  let flags := terminator_flag terminator .| SPW_VSPW_TP_FLAG_ACK_REQUIRED in
  let flags := if first then flags .| SPW_VSPW_TP_FLAG_FRAGMENT_START else flags in
  0 <= (if last then flags .| SPW_VSPW_TP_FLAG_FRAGMENT_END else flags) < 2 ^ 8.
Proof. unfold terminator_flag. destruct (_ =? _), first, last; (split; by vm_compute). Qed.

(** The header of a fragment: its fields within their types, the cast of the
    payload size without effect. *)
Lemma data_fragment_header_ok b seq offset : ub_ok cfg sid b -> tx_ok (ub_tx b) -> u32_ok seq ->
  0 <= offset <= pt_packet_size (ub_tx b) ->
  let n := fragment_length b offset in
  let h := data_fragment_header b seq offset n in
  header_in_range h = true /\ payload_size h = n /\ link_id h = udp_link_id cfg /\
  session_id h = sid /\ fragment_offset h = offset /\
  VspwTp.total_size h = pt_packet_size (ub_tx b) /\ VspwTp.message_id h = pt_message_id (ub_tx b).
Proof.
  intros Hb Ht Hs Ho. cbv zeta. pose proof (uk_config _ _ _ Hb) as Hc.
  destruct (fragment_length_range b offset) as (Hn & He & _); [by rewrite Hc|done|done|].
  pose proof (to_size _ Ht) as Hsz. unfold SPW_UDP_BACKEND_MAX_PACKET_SIZE in Hsz.
  unfold data_fragment_header. rewrite Hc, (proj1 (uk_session _ _ _ Hb)).
  rewrite (wrap_small 16), !(wrap_small 32) by lia.
  split_and!; [|done..]. apply tp_header_range; try done; [apply data_flags_range| | |..].
  - apply (proj2 (uk_session _ _ _ Hb)).
  - apply Ht.
  - unfold u32_ok. lia.
  - unfold u32_ok. lia.
Qed.

Lemma transmit_fragments_good t0 t : tx_ok t0 -> forall fuel offset u,
  good (fun tx => tx = t0) u -> 0 <= offset <= pt_packet_size t0 ->
  good tx_ok (transmit_fragments os io_fuel fuel offset t u).2.
Proof.
  intros Ht0. assert (Hweak : forall u, good (fun tx => tx = t0) u -> good tx_ok u).
  { intros u H. apply (good_weaken _ _ _ H). by intros ->. }
  induction fuel as [|fuel IH]; intros offset u H Ho; cbn [transmit_fragments]; [by apply Hweak|].
  pose proof H as (Hb & Ht & _). cbv zeta. assert (tx_ok (ub_tx u.1)) as Htx by (by rewrite Ht).
  apply (good_bind (fun tx => tx = t0)); [auto with udp|]. intros s v Es Hv.
  destruct (take_sequence_value _ u s v H Es) as [Hs _]. rewrite <- Ht in Ho.
  destruct (data_fragment_header_ok u.1 s offset Hb Htx Hs Ho) as (Hr & Hp & Hl & Hse & _).
  destruct (fragment_length_range u.1 offset) as (Hn & He & _);
    [by rewrite (uk_config _ _ _ Hb)|done|done|].
  destruct (spw_vspw_tp_encode_header _ _ _) as [d|] eqn:Ee; [|by apply Hweak].
  apply (good_bind (fun tx => tx = t0)).
  - apply send_datagram_good; [|done]. refine (built_sendable _ _ _ _ Hr _ _ Hl Hse Ee).
    + apply bytes_ok_read, Htx.
    + rewrite length_mem_read, Hp. lia.
  - intros r v' _ Hv'. case_if; [by apply Hweak|]. case_if; [|apply sent_now_good; by apply Hweak].
    apply IH; [done|]. rewrite <- Ht. lia.
Qed.

Lemma transmit_pending_good t u : good tx_ok u -> good tx_ok (transmit_pending os io_fuel t u).2.
Proof.
  intros H. unfold transmit_pending. cbv zeta. case_if; [done|]. case_if.
  - by apply transmit_time_code_good.
  - eapply transmit_fragments_good; [apply H|by apply (good_weaken _ _ _ H)|].
    split; [done|]. apply H.
Qed.
#[local] Hint Resolve transmit_pending_good : udp.


Lemma good_clear_tx u : good tx_ok u -> good tx_ok (uupd clear_pending_tx u).
Proof.
  intros (H & [] & Hw). split_and!; [by apply clear_pending_tx_ok| |done].
  constructor; try done; cbn; by auto.
Qed.
#[local] Hint Resolve good_clear_tx : udp.

Lemma reset_remote_session_good id u : good tx_ok u -> u64_ok id ->
  good tx_ok (reset_remote_session os id u).2.
Proof.
  intros H Hid. unfold reset_remote_session. cbv zeta. case_if; [done|].
  case_if; [cbn [snd]; auto with udp|]. cbn [snd]. apply note_peer_activity_good.
  match goal with |- context [uupd (set_ub_remote_session_id id) ?x] => assert (good tx_ok x) as H1 end.
  { case_if; [|done]. apply good_upd; [done|auto with udp|].
    unfold remember_retired_session. by case_if. }
  set (u2 := uupd clear_recent_messages _).
  assert (good tx_ok u2) as H2.
  { unfold u2. do 2 (apply good_upd; [|auto with udp|done]). apply good_upd; [done| |done].
    intros Hb. by apply set_remote_session_id_ok. }
  case_if; [|done]. apply (good_upd_tx (set_pt_retry 0 false 0)); [done|].
  intros Ht. by apply set_pt_retry_ok.
Qed.

(** ** In a session *)

Section session.
Context (Hsid : sid <> 0).

Lemma service_pending_tx_good u : good tx_ok u -> good tx_ok (service_pending_tx os io_fuel u).2.
Proof.
  intros H. unfold service_pending_tx. cbv zeta.
  apply (good_bind tx_ok); [auto with udp|]. intros now v _ Hv.
  do 2 (case_if; [done|]). pose proof Hv as (_ & Ht & _).
  case_if; [cbn [snd]; apply good_lost; [|done]|].
  - case_if; [|done]. destruct Hv as (Hb & _ & Hw). split_and!; [|cbn; by destruct Ht|done].
    by apply count_drop_ok, set_tx_ok.
  - apply (good_bind tx_ok); [auto with udp|]. intros r v' _ Hv'. case_if; [|done]. cbn [snd].
    apply (good_upd_tx (fun t => set_pt_retry (u16 (pt_retries t + 1)) (pt_failed t)
      (pt_last_send_us t) t)); [done|]. intros Ht'.
    apply set_pt_retry_ok; [done|apply (wrap_bounds 16); lia|apply Ht'].
Qed.

(** ** Received messages *)

Lemma acknowledge_good F type mid u : good F u -> u32_ok mid ->
  good F (acknowledge os io_fuel type mid u).
Proof.
  intros H Hm. unfold acknowledge. apply send_ack_good; [|done].
  apply good_upd; [done|auto with udp|]. unfold remember_delivered. by case_if.
Qed.
#[local] Hint Resolve acknowledge_good : udp.

Lemma process_ack_good h payload u : good tx_ok u -> good tx_ok (process_ack h payload u).2.
Proof. intros H. unfold process_ack. walk. Qed.

Lemma process_time_code_good F h payload u : good F u -> header_in_range h = true ->
  bytes_ok payload -> good F (process_time_code os io_fuel h payload u).2.
Proof.
  intros H Hr Hp. destruct (header_ids h Hr) as (Hm & _). unfold process_time_code. cbv zeta.
  case_if; [cbn [snd]; auto with udp|]. case_if; [done|]. case_if; [cbn [snd]; walk|].
  set (tc := {| time_count := _; control_flags := _ |}) in *.
  assert (good F (uupd (fun b => set_ub_time_codes (queue_push (ub_time_codes b) tc) b) u)) as H1.
  { apply good_upd; [done| |done]. intros Hb. destruct (uk_time_codes _ _ _ Hb) as [Hq Hf].
    apply set_time_codes_ok; [done| |].
    - apply queue_push_wf; [done|]. pose proof (qw_count _ _ Hq). apply Nat.eqb_neq in E0. lia.
    - apply Forall_insert; [done|]. apply negb_false_iff in E1. unfold valid_wire_time_code in E1.
      pose proof (bytes_ok_get payload 0 Hp). pose proof (bytes_ok_get payload 1 Hp).
      unfold udp_time_code_ok, tc in *. cbn in *. lia. }
  cbn [snd]. case_if; auto with udp.
Qed.

Lemma process_whole_good F h payload u : good F u -> header_in_range h = true -> bytes_ok payload ->
  VspwTp.total_size h = payload_size h ->
  VspwTp.total_size h <= SPW_UDP_BACKEND_MAX_PACKET_SIZE ->
  good F (process_whole os io_fuel h payload u).2.
Proof.
  intros H Hr Hp Ht Hmax. destruct (header_ids h Hr) as (Hm & _ & Hs & _).
  unfold process_whole. cbv zeta. case_if; [done|]. cbn [snd].
  set (u1 := uupd _ u). assert (good F u1) as H1.
  { apply good_upd; [done| |done]. intros Hb. apply offer_packet_ok; try done.
    - by apply bytes_ok_read.
    - rewrite length_mem_read. lia.
    - lia.
    - apply tp_terminator_valid. }
  case_if; auto with udp.
Qed.

Lemma reassembly_total r : reassembly_ok r -> 0 <= total_size r <= SPW_UDP_BACKEND_MAX_PACKET_SIZE.
Proof.
  intros [Hw Hc _ _]. pose proof (sw_total _ _ (rw_store _ Hw)). pose proof (rw_active _ Hw) as Ha.
  rewrite Hc in Ha. destruct (active r); [lia|]. unfold SPW_UDP_BACKEND_MAX_PACKET_SIZE. lia.
Qed.

Lemma deliver_assembled_good F u : good F u -> good F (deliver_assembled os io_fuel u).2.
Proof.
  intros H. unfold deliver_assembled. cbv zeta. case_if; [done|]. cbn [snd].
  pose proof (uk_reassembly _ _ _ (proj1 H)) as Hr. pose proof (reassembly_total _ Hr) as Ht.
  match goal with |- context [uupd clear_reassembly ?x] => assert (good F x) as H1 end.
  { apply good_upd; [done| |done]. intros Hb. apply offer_packet_ok; try done.
    - apply bytes_ok_read, Hr.
    - rewrite length_mem_read. lia.
    - apply tp_terminator_valid. }
  match goal with |- context [uupd clear_reassembly ?x] =>
    assert (good F (uupd clear_reassembly x)) as H2 by (apply good_upd; [done|auto with udp|done]) end.
  case_if; [|done]. apply acknowledge_good; [done|]. apply Hr.
Qed.

Lemma process_data_good F h payload u : good F u -> header_in_range h = true -> bytes_ok payload ->
  VspwTp.total_size h <= SPW_UDP_BACKEND_MAX_PACKET_SIZE ->
  good F (process_data os io_fuel h payload u).2.
Proof.
  intros H Hr Hp Hmax. destruct (header_ids h Hr) as (Hm & _). unfold process_data. cbv zeta.
  case_if; [cbn [snd]; auto with udp|]. case_if; [apply process_whole_good; try done; by apply Z.eqb_eq|].
  pose proof (expire_reassembly_good F u H) as H1. revert H1.
  generalize (expire_reassembly os u). clear u H E. intros u H.
  pose proof (reassembly_push_ok _ h payload (uk_reassembly _ _ _ (proj1 H)) Hr Hp) as Hpush.
  destruct (spw_fragment_reassembler_push _ _ _) as [result r]. cbn [snd] in Hpush.
  assert (good F (uupd (set_ub_reassembly r) u)) as H1.
  { apply good_upd; [done| |done]. intros Hb. by apply set_assembly_ok. }
  revert H1. generalize (uupd (set_ub_reassembly r) u). clear u H Hpush. intros u H.
  assert (good F (let '(now, u) := now_us os u in
    match result with
    | REASSEMBLY_COMPLETE => deliver_assembled os io_fuel (uupd (set_ub_last_fragment_us now) u)
    | _ => (SPW_OK, uupd (set_ub_last_fragment_us now) u)
    end).2) as H2.
  { apply (good_bind F); [auto with udp|]. intros n v En Hv.
    assert (good F (uupd (set_ub_last_fragment_us n) v)) by (walk; eauto with udp).
    destruct result; try done. by apply deliver_assembled_good. }
  destruct result; try done; cbn [snd]; walk.
Qed.

(** ** Receiving *)

Lemma recvfrom_loop_good F deadline fuel : forall u, good F u ->
  good F (recvfrom_loop os io_fuel fuel deadline u).2 /\
  bytes_ok (recvfrom_loop os io_fuel fuel deadline u).1.1.2.
Proof.
  induction fuel as [|fuel IH]; intros u H; cbn [recvfrom_loop];
    [split; [done|constructor]|].
  pose proof (uc_recvfrom (ub_socket_fd u.1) SPW_VSPW_TP_MAX_UDP_PAYLOAD u.2 (proj2 (proj2 H))) as Hr.
  destruct (uo_recvfrom os _ _ _) as [[[n bytes] source] w]. destruct Hr as [Hw Hb].
  assert (good F (u.1, w)) as H1 by (by apply good_world).
  case_if; [split; [done|]; cbn; by apply Forall_take|]. case_if.
  - pose proof (deadline_expired_good F deadline _ H1) as H2.
    destruct (deadline_expired os deadline _) as [e v]. cbn [snd] in H2.
    case_if; [split; [done|constructor]|by apply IH].
  - case_if; [split; [done|constructor]|].
    pose proof (deadline_remaining_good F deadline _ H1) as H2.
    destruct (deadline_remaining os deadline _) as [t v]. cbn [snd] in H2.
    pose proof (wait_readable_good F t v H2) as H3.
    destruct (wait_readable os io_fuel t v) as [r v']. cbn [snd] in H3.
    case_if; [split; [done|constructor]|by apply IH].
Qed.

Lemma handle_datagram_good d u : good tx_ok u -> bytes_ok d ->
  good tx_ok (handle_datagram os io_fuel d u).2.
Proof.
  intros H Hb. unfold handle_datagram. cbv zeta.
  destruct (spw_vspw_tp_decode_header _ _) as [h| | | | | | | | |] eqn:Ed; [|cbn [snd]; walk..].
  destruct (decode_ok_inv _ _ _ Ed) as (_ & _ & Hh & _).
  assert (header_in_range h = true) as Hr by (rewrite Hh; by apply decode_fields_in_range).
  assert (bytes_ok (drop (Z.to_nat SPW_VSPW_TP_HEADER_SIZE) d)) as Hp by (by apply Forall_drop).
  destruct (header_ids h Hr) as (_ & Hs & _).
  assert (good tx_ok (note_peer_activity os u)) as Hn by auto with udp.
  repeat case_if; try (cbn [snd]; walk; done).
  - unfold process_keepalive. cbn [snd]. by apply reset_remote_session_good.
  - apply process_data_good; try done. by apply Z.ltb_ge.
  - by apply process_time_code_good.
  - by apply process_ack_good.
Qed.

Lemma pump_one_good t u : good tx_ok u -> good tx_ok (pump_one os io_fuel t u).2.
Proof.
  intros H. unfold pump_one. cbv zeta.
  pose proof (maybe_send_keepalive_good tx_ok u H) as H1. revert H1.
  generalize (maybe_send_keepalive os io_fuel u). clear u H. intros u H.
  apply (good_bind tx_ok); [auto with udp|]. intros deadline v _ Hv.
  destruct (recvfrom_loop_good tx_ok deadline io_fuel v Hv) as [H1 H2].
  destruct (recvfrom_loop os io_fuel io_fuel deadline v) as [[[r d] source] v'].
  cbn [fst snd] in H1, H2. case_if; [repeat case_if; cbn [snd]; auto with udp|].
  do 2 (case_if; [done|]). by apply handle_datagram_good.
Qed.
#[local] Hint Resolve service_pending_tx_good pump_one_good : udp.

(** ** Waiting *)

Lemma peer_running_good F u : good F u -> good F (peer_running os u).2.
Proof. intros H. unfold peer_running. walk. Qed.
#[local] Hint Resolve peer_running_good : udp.

Lemma delay_loop_good deadline target fuel : forall u, good tx_ok u ->
  good tx_ok (delay_loop os io_fuel fuel deadline target u).2.
Proof. induction fuel as [|fuel IH]; intros u H; cbn [delay_loop]; [done|]. cbv zeta. walk. Qed.
#[local] Hint Resolve delay_loop_good : udp.

Lemma wait_virtual_link_delay_good delay t u : good tx_ok u ->
  good tx_ok (wait_virtual_link_delay os io_fuel delay t u).2.
Proof. intros H. unfold wait_virtual_link_delay. walk. Qed.

Lemma ensure_peer_loop_good deadline t fuel : forall u, good tx_ok u ->
  good tx_ok (ensure_peer_loop os io_fuel fuel deadline t u).2.
Proof. induction fuel as [|fuel IH]; intros u H; cbn [ensure_peer_loop]; [done|]. cbv zeta. walk. Qed.
#[local] Hint Resolve ensure_peer_loop_good : udp.

Lemma ensure_peer_good t u : good tx_ok u -> good tx_ok (ensure_peer os io_fuel t u).2.
Proof. intros H. unfold ensure_peer. cbv zeta. walk. Qed.

Lemma tx_slot_loop_good deadline t fuel : forall u, good tx_ok u ->
  good tx_ok (tx_slot_loop os io_fuel fuel deadline t u).2.
Proof. induction fuel as [|fuel IH]; intros u H; cbn [tx_slot_loop]; [done|]. cbv zeta. walk. Qed.
#[local] Hint Resolve tx_slot_loop_good : udp.

Lemma wait_for_tx_slot_good t u : good tx_ok u -> good tx_ok (wait_for_tx_slot os io_fuel t u).2.
Proof. intros H. unfold wait_for_tx_slot. walk. Qed.
#[local] Hint Resolve wait_virtual_link_delay_good ensure_peer_good wait_for_tx_slot_good : udp.

Lemma receive_loop_good waiting deadline t fuel : forall u, good tx_ok u ->
  good tx_ok (receive_loop os io_fuel fuel waiting deadline t u).2.
Proof.
  induction fuel as [|fuel IH]; intros u H; cbn [receive_loop]; [by case_if|].
  case_if; [done|]. walk.
Qed.
#[local] Hint Resolve receive_loop_good : udp.

(** ** Sending *)

Lemma before_send_good event size deadline u : good tx_ok u ->
  good tx_ok (before_send os io_fuel event size deadline u).2.
Proof. intros H. unfold before_send. walk. Qed.

(** What fills the slot. *)
Definition fills (fill : pending_tx -> Z -> pending_tx) : Prop :=
  forall t id, tx_ok t -> u32_ok id -> id <> 0 -> tx_ok (fill t id).

Lemma send_slot_good fill deadline u : good tx_ok u -> fills fill ->
  good tx_ok (send_slot os io_fuel fill deadline u).2.
Proof.
  intros H Hf. unfold send_slot. cbv zeta.
  pose proof (take_nonzero_ok (ub_next_message_id u.1) (proj2 (uk_ids _ _ _ (proj1 H)))) as Ht.
  destruct (take_nonzero _) as [id counter]. destruct Ht as (Hid & Hr & Hc).
  match goal with |- context [send_keepalive os io_fuel _ ?x] => assert (good tx_ok x) as H1 end.
  { destruct H as (Hb & Htx & Hw). split_and!; [|by apply Hf|done].
    apply set_next_message_id_ok; [by apply set_tx_ok|done]. }
  walk.
Qed.

Lemma fill_packet_fills p terminator : tx_packet_ok p = true -> bytes_ok (default [] (pkt_data p)) ->
  pkt_length p <= SPW_UDP_BACKEND_MAX_PACKET_SIZE -> valid_terminator terminator = true ->
  fills (fill_packet p terminator).
Proof.
  intros Hp Hb Hl Hv t id [] Hid H0. unfold tx_packet_ok in Hp.
  constructor; cbn; try done; try (by auto).
  - case_if; [|done]. apply bytes_ok_write; [done|]. by apply bytes_ok_read.
  - case_if; [|done]. rewrite length_mem_write, length_mem_read. lia.
  - split_andb. lia.
Qed.

Lemma fill_time_code_fills tc : valid_wire_time_code tc = true -> 0 <= time_count tc ->
  0 <= control_flags tc -> fills (fill_time_code tc).
Proof.
  intros Hv H1 H2 t id [] Hid H0. unfold valid_wire_time_code in Hv.
  constructor; cbn; try done; try (by auto). unfold udp_time_code_ok. lia.
Qed.
#[local] Hint Resolve before_send_good send_slot_good : udp.

Lemma await_started waiting t u : good tx_ok u -> good tx_ok (await os io_fuel waiting t u).2.
Proof. intros H. unfold await. walk. Qed.
End session.

(** ** Operations in any state *)

(** Without a session there is no peer. *)
Lemma ensure_peer_idle t u : sid = 0 -> good tx_ok u ->
  (ensure_peer os io_fuel t u).1 = SPW_ERR_LINK_UNAVAILABLE /\
  good tx_ok (ensure_peer os io_fuel t u).2.
Proof.
  intros Hs H. unfold ensure_peer. cbv zeta. pose proof (refresh_peer_state_good tx_ok u H) as H1.
  revert H1. generalize (refresh_peer_state os u). clear u H. intros u H.
  assert (keeps_alive (ub_state u.1) = false) as Hk.
  { destruct (keeps_alive _) eqn:E; [|done]. by destruct (good_alive _ _ H E). }
  unfold peer_running. destruct (ub_state u.1 =? SPW_LINK_RUN) eqn:E.
  { apply Z.eqb_eq in E. by rewrite E in Hk. }
  by rewrite Hk.
Qed.

Lemma before_send_any event size deadline u : good tx_ok u ->
  good tx_ok (before_send os io_fuel event size deadline u).2 /\
  ((before_send os io_fuel event size deadline u).1 = SPW_OK -> sid <> 0).
Proof.
  intros H. destruct (decide (sid = 0)) as [Hs|Hs]; [|split; [by apply before_send_good|done]].
  unfold before_send. pose proof (deadline_remaining_good tx_ok deadline u H) as H1.
  destruct (deadline_remaining os deadline u) as [t v]. cbn [snd] in H1.
  destruct (ensure_peer_idle t v Hs H1) as [H2 H3].
  destruct (ensure_peer os io_fuel t v) as [r v']. cbn [fst snd] in H2, H3. by subst r.
Qed.

Lemma receive_loop_done waiting deadline t fuel : forall u,
  (receive_loop os io_fuel fuel waiting deadline t u).1 = SPW_OK ->
  waiting (receive_loop os io_fuel fuel waiting deadline t u).2.1 = false.
Proof.
  induction fuel as [|fuel IH]; intros u; cbn [receive_loop].
  { case_if; [by intros _; apply negb_true_iff|done]. }
  case_if; [by intros _; apply negb_true_iff|].
  destruct (service_pending_tx os io_fuel u) as [r1 w1]. case_if; [by cbn [fst]; intros ->|].
  destruct (deadline_remaining os deadline w1) as [rem w2].
  destruct (pump_one os io_fuel rem w2) as [r2 w3]. case_if; [by cbn [fst]; intros ->|].
  case_if; [|apply IH]. destruct (deadline_expired os deadline w3) as [e w4].
  case_if; [|apply IH]. cbn [fst]. by case_if.
Qed.

(** When the wait succeeds, there is something. *)
Lemma await_any waiting t u : good tx_ok u ->
  good tx_ok (await os io_fuel waiting t u).2 /\
  ((await os io_fuel waiting t u).1 = SPW_OK -> waiting (await os io_fuel waiting t u).2.1 = false).
Proof.
  intros H. split.
  - destruct (decide (sid = 0)) as [Hs|Hs]; [|by apply await_started]. unfold await.
    apply (good_bind tx_ok); [auto with udp|]. intros dl v _ Hv.
    apply (good_bind tx_ok); [auto with udp|]. intros rem v1 _ Hv1.
    destruct (ensure_peer_idle rem v1 Hs Hv1) as [H2 H3].
    destruct (ensure_peer os io_fuel rem v1) as [r v']. cbn [fst snd] in H2, H3. subst r.
    destruct (waiting v'.1) eqn:Ew; [done|]. cbn.
    destruct io_fuel; cbn [receive_loop]; by rewrite Ew.
  - clear H. unfold await. destruct (deadline_make os t u) as [dl v].
    destruct (deadline_remaining os dl v) as [rem v1]. destruct (ensure_peer os io_fuel rem v1) as [r v2].
    case_if; [cbn [fst]; by intros ->|]. apply receive_loop_done.
Qed.

Lemma udp_stop_good u : good tx_ok u -> good tx_ok (udp_stop u).2.
Proof.
  intros H. unfold udp_stop. case_if; [done|]. destruct H as (Hb & [] & Hw).
  split_and!; [|constructor; try done; cbn; by auto|done].
  by apply forget_peer_ok, clear_transport_ok, set_state_ok.
Qed.

Lemma udp_reset_good u : good tx_ok u -> good tx_ok (udp_reset u).2.
Proof.
  intros H. unfold udp_reset. case_if; [done|]. destruct H as (Hb & [] & Hw).
  split_and!; [|constructor; try done; cbn; by auto|done].
  by apply forget_peer_ok, clear_transport_ok, set_state_ok; [apply reset_injector_ok|..].
Qed.

Lemma udp_get_link_state_good u out : good tx_ok u ->
  good tx_ok (udp_get_link_state os io_fuel u out).2 /\
  SPW_LINK_ERROR_RESET <= (udp_get_link_state os io_fuel u out).1.2 <= SPW_LINK_RUN.
Proof.
  intros H. unfold udp_get_link_state. cbv zeta. cbn [fst snd].
  match goal with |- good _ ?x /\ _ => assert (good tx_ok x) as H1 end.
  { case_if; [|done]. pose proof (good_alive _ _ H E) as Hs.
    apply (good_bind' tx_ok); [apply pump_one_good; auto with udp|]. intros r v _ Hv.
    apply (good_bind' tx_ok); [by apply service_pending_tx_good|]. intros r' v' _ Hv'.
    auto with udp. }
  split; [done|]. apply H1.
Qed.

Lemma inject_eep_good F u : good F u ->
  good F (uupd (set_ub_injector (spw_fault_inject_spacewire_eep (ub_injector u.1)).2) u).
Proof. intros H. apply good_upd; [done|auto with udp|done]. Qed.

Lemma udp_send_good u p t : good tx_ok u -> tx_packet_ok p = true ->
  bytes_ok (default [] (pkt_data p)) -> good tx_ok (udp_send os io_fuel u p t).2.
Proof.
  intros H Hp Hb. unfold udp_send. case_if; [done|]. apply orb_false_iff in E as [E Hv].
  apply orb_false_iff in E as [_ Hmax%Z.ltb_ge]. apply negb_false_iff in Hv.
  apply (good_bind tx_ok); [auto with udp|]. intros dl v _ Hv1.
  pose proof (before_send_any SPW_VIRTUAL_LINK_EVENT_DATA (pkt_length p) dl v Hv1) as [H1 Hs].
  destruct (before_send _ _ _ _ _ _) as [r v1]. cbn [fst snd] in H1, Hs.
  case_if; [done|]. apply negb_false_iff, Z.eqb_eq in E. specialize (Hs E).
  pose proof (inject_eep_good tx_ok v1 H1) as H2.
  set (inj := if pkt_terminator p =? _ then _ else _).
  assert (good tx_ok inj.2 /\ valid_terminator inj.1 = true) as [H3 H4].
  { unfold inj. case_if; [|done]. destruct (spw_fault_inject_spacewire_eep _) as [hit i] eqn:Ei.
    cbn [snd] in H2. case_if; [|by split]. split; [|done]. apply count_fault_good; auto with udp. }
  destruct inj as [terminator v2]. cbn [fst snd] in H3, H4.
  apply (good_bind tx_ok).
  - apply (send_slot_good _ _ _ H3). by apply fill_packet_fills.
  - intros r' v3 _ Hv3. case_if; [done|]. cbn [snd].
    apply good_upd; [done| |done]. intros Hc.
    by apply (set_statistics_counted _ _ (count_tx_packet _ _)); [|auto with udp].
Qed.

Lemma udp_send_time_code_good u tc t : good tx_ok u -> 0 <= time_count tc -> 0 <= control_flags tc ->
  good tx_ok (udp_send_time_code os io_fuel u tc t).2.
Proof.
  intros H Ht Hf. unfold udp_send_time_code. case_if; [done|]. apply negb_false_iff in E.
  apply (good_bind tx_ok); [auto with udp|]. intros dl v _ Hv1.
  pose proof (before_send_any SPW_VIRTUAL_LINK_EVENT_TIME_CODE SPW_VSPW_TP_TIME_CODE_PAYLOAD_SIZE
    dl v Hv1) as [H1 Hs].
  destruct (before_send _ _ _ _ _ _) as [r v1]. cbn [fst snd] in H1, Hs.
  case_if; [done|]. apply negb_false_iff, Z.eqb_eq in E0. specialize (Hs E0).
  apply (good_bind tx_ok).
  - apply (send_slot_good _ _ _ H1). by apply fill_time_code_fills.
  - intros r' v3 _ Hv3. case_if; [done|]. cbn [snd]. apply good_upd; [done| |done]. intros Hc.
    apply (set_statistics_counted _ _ count_tx_time_code); auto with udp.
Qed.

Lemma udp_receive_good u p t : good tx_ok u -> rx_packet_ok p = true ->
  bytes_ok (default [] (pkt_data p)) ->
  let '(r, p', u') := udp_receive os io_fuel u p t in
  good tx_ok u' /\ bytes_ok (default [] (pkt_data p')) /\
  length (default [] (pkt_data p')) = length (default [] (pkt_data p)) /\
  (r = SPW_OK -> 0 <= pkt_length p' <= pkt_capacity p /\
                 valid_terminator (pkt_terminator p') = true).
Proof.
  intros H Hp Hb. unfold udp_receive.
  destruct (await_any no_packet t u H) as [H1 _].
  destruct (await os io_fuel no_packet t u) as [r v]. cbn [snd] in H1.
  case_if; [split_and!; try done; intros ->; done|].
  pose proof (uk_pending _ _ _ (proj1 H1)) as []. cbv zeta.
  case_if; [by split_and!|]. apply orb_false_iff in E0 as [Hc Hd]. cbn in Hc, Hd.
  apply Z.ltb_ge in Hc. set (p2 := if negb _ then _ else _).
  assert (bytes_ok (default [] (pkt_data p2)) /\
    length (default [] (pkt_data p2)) = length (default [] (pkt_data p)) /\
    pkt_length p2 = pp_size (ub_pending v.1) /\ pkt_terminator p2 = pp_terminator (ub_pending v.1))
    as (Hb2 & Hl2 & Hs2 & Ht2).
  { unfold p2. case_if; [|done]. unfold rx_packet_ok in Hp. cbn in Hd |- *.
    destruct (pkt_data p) as [bs|]; [|done]. cbn in *. split_andb. split_and!; [| |done|done].
    - apply bytes_ok_write; [done|]. by apply bytes_ok_read.
    - rewrite length_mem_write, length_mem_read. lia. }
  split_and!; [|done|done|].
  - apply good_upd; [done| |done]. intros Hc'.
    apply (set_statistics_counted _ _ (count_rx_packet _) (set_ub_pending _ _)); [|auto with udp].
    apply set_pending_ok; [done|]. by apply set_pp_valid_ok, Hc'.
  - intros _. rewrite Hs2, Ht2. by split; [lia|].
Qed.

Lemma udp_receive_time_code_good u out t : good tx_ok u ->
  let '(r, tc, u') := udp_receive_time_code os io_fuel u out t in
  good tx_ok u' /\ (r = SPW_OK -> udp_time_code_ok tc).
Proof.
  intros H. unfold udp_receive_time_code.
  destruct (await_any no_time_code t u H) as [H1 _].
  destruct (await os io_fuel no_time_code t u) as [r v]. cbn [snd] in H1.
  case_if; [split; [done|]; intros ->; done|].
  destruct (uk_time_codes _ _ _ (proj1 H1)) as [Hq Hf]. split.
  - apply good_upd; [done| |done]. intros Hc.
    apply (set_statistics_counted _ _ count_rx_time_code (set_ub_time_codes _ _)); [|auto with udp].
    apply set_time_codes_ok; [done|by apply queue_pop_wf|done].
  - intros _. unfold queue_front. apply Forall_lookup_total_1; [done|].
    rewrite (qw_len _ _ Hq). apply Hq.
Qed.

Lemma udp_clear_statistics_good u : good tx_ok u -> good tx_ok (udp_clear_statistics u).2.
Proof.
  intros H. apply good_upd; [done| |done]. intros Hb.
  apply (set_statistics_counted _ _ (fun _ => statistics_zero)); [done|]. intros _ _. by constructor.
Qed.

Lemma udp_clear_fault_statistics_good u : good tx_ok u -> good tx_ok (udp_clear_fault_statistics u).2.
Proof.
  intros H. apply (count_fault_good _ (fun _ => fault_statistics_zero)); [done|]. intros _ _.
  by constructor.
Qed.

Lemma udp_destroy_good F u : good F u -> good F (udp_destroy os u).
Proof.
  intros (Hb & HF & Hw). unfold udp_destroy, close_socket. case_if; [|done].
  split_and!; [by apply set_socket_fd_ok|done|by apply uc_close].
Qed.
End udp.

(** ** A new session *)

Lemma set_local_session_ok cfg sid sid' b : ub_ok cfg sid b -> ub_reordered b = None ->
  u64_ok sid' -> sid' <> 0 -> ub_ok cfg sid' (set_ub_local_session_id sid' b).
Proof. intros [] Hr Hs H0. constructor; try done. cbn. by rewrite Hr. Qed.

Lemma u64_lxor a b : u64_ok a -> u64_ok b -> u64_ok (a .^ b).
Proof. unfold u64_ok. intros. apply lxor_bound; lia. Qed.

Section start.
Context {W : Type} (os : udp_os W) (io_fuel : nat) (cfg : spw_udp_config) (J : W -> Prop).
Context (Hcfg : config_ok cfg).
Implicit Types (u : @udp W).

(** The session a start would open. *)
Definition new_session u : Z := (make_session_id os u).1.

Lemma new_session_ok u : ub_config u.1 = cfg -> u64_ok (new_session u) /\ new_session u <> 0.
Proof.
  intros Hc. unfold new_session, make_session_id. rewrite Hc. pose proof (now_us_range os u) as Hn.
  destruct (now_us os u) as [n v]. cbn [fst] in *.
  match goal with |- u64_ok (if ?x =? 0 then 1 else _) /\ _ => assert (u64_ok x) as Hx end.
  { pose proof (cf_link _ Hcfg). repeat apply u64_lxor; try apply u64_ok_wrap; [done|].
    unfold u64_ok. lia. }
  case_if; [by split|split; [done|lia]].
Qed.

(** It depends on the configuration and the world alone. *)
Lemma new_session_same u u' : ub_config u'.1 = ub_config u.1 -> u'.2 = u.2 ->
  new_session u' = new_session u.
Proof.
  intros Hc Hw. unfold new_session, make_session_id, now_us. rewrite Hc, Hw.
  by destruct (uo_clock_gettime os u.2) as [[[r s] n] w].
Qed.

Lemma make_session_id_context u : (make_session_id os u).2.1 = u.1.
Proof.
  unfold make_session_id. destruct (now_us os u) as [n v] eqn:En. exact (now_us_context _ _ _ _ En).
Qed.

Lemma udp_start_good sid u `{!UdpContract os J (wire_datagram (udp_link_id cfg) (new_session u))} :
  good cfg sid J tx_ok u -> (ub_socket_fd u.1 <? 0) = false ->
  good cfg (new_session u) J tx_ok (udp_start os io_fuel u).2.
Proof.
  intros H Hfd. unfold udp_start. rewrite Hfd. cbv zeta. set (u0 := uupd _ (uupd _ u)).
  assert (good cfg sid J tx_ok u0 /\ ub_reordered u0.1 = None) as [(Hb & Ht & Hw) Hr].
  { split; [|done]. destruct H as (Hb & [] & Hw).
    split_and!; [|constructor; try done; cbn; by auto|done].
    apply set_next_message_id_ok; [|by split]. apply set_next_sequence_ok; [|by split].
    by apply reset_injector_ok, clear_transport_ok. }
  pose proof (new_session_same u u0 eq_refl eq_refl) as Hn.
  destruct (new_session_ok u (uk_config _ _ _ (proj1 H))) as [Hs1 Hs2].
  pose proof (make_session_id_context u0) as Hc.
  assert (J (make_session_id os u0).2.2) as HJ.
  { unfold make_session_id, now_us. pose proof (uc_clock u0.2 Hw).
    by destruct (uo_clock_gettime os u0.2) as [[[? ?] ?] ?]. }
  unfold new_session at 1 in Hn. destruct (make_session_id os u0) as [session v].
  cbn [fst snd] in *. subst session.
  match goal with |- context [send_keepalive os io_fuel ?t ?x] =>
    assert (good cfg (new_session u) J tx_ok x) as H2;
    [|pose proof (send_keepalive_good os io_fuel cfg (new_session u) J Hcfg tx_ok t x H2) as H3;
      by destruct (send_keepalive os io_fuel t x)] end.
  split_and!; [|cbn; by rewrite Hc|done]. apply set_state_ok; [|done|done].
  apply set_last_keepalive_ok; [|by split]. apply set_last_peer_rx_ok; [|by split].
  apply forget_peer_ok. eapply set_local_session_ok; [by rewrite Hc|by rewrite Hc|done|done].
Qed.
End start.

(** ** Calls *)

Lemma valid_time_code_wire tc : valid_time_code tc = true -> 0 <= control_flags tc.
Proof. unfold valid_time_code. intros H. split_andb. lia. Qed.

(** Every call but a start keeps the session. *)
Lemma udp_call_good {W} (os : udp_os W) io_fuel cfg sid J
    `{!UdpContract os J (wire_datagram (udp_link_id cfg) sid)} u call :
  config_ok cfg -> good cfg sid J tx_ok u -> call_args_ok call -> call <> CallStart ->
  good cfg sid J tx_ok (do_call (UDP_OPS os io_fuel) u call).2.
Proof.
  intros Hcfg H [Hok Hc] Hns. destruct call; cbn [do_call UDP_OPS op_start op_stop op_reset
    op_get_link_state op_get_capabilities op_send op_receive op_send_time_code
    op_receive_time_code op_get_statistics op_clear_statistics op_get_fault_statistics
    op_clear_fault_statistics op_wait] in *; cbn [call_ok] in Hok; try done.
  - pose proof (udp_stop_good cfg sid J u H) as H1. by destruct (udp_stop u).
  - pose proof (udp_reset_good cfg sid J u H) as H1. by destruct (udp_reset u).
  - pose proof (udp_get_link_state_good os io_fuel cfg sid J Hcfg u out H) as [H1 _].
    by destruct (udp_get_link_state _ _ _ _) as [[? ?] ?].
  - pose proof (udp_send_good os io_fuel cfg sid J Hcfg u p timeout H Hok Hc) as H1.
    by destruct (udp_send _ _ _ _ _).
  - pose proof (udp_receive_good os io_fuel cfg sid J Hcfg u p timeout H Hok Hc) as H1.
    destruct (udp_receive _ _ _ _ _) as [[? ?] ?]. apply H1.
  - pose proof (udp_send_time_code_good os io_fuel cfg sid J Hcfg u tc timeout H Hc
      (valid_time_code_wire tc Hok)) as H1.
    by destruct (udp_send_time_code _ _ _ _ _).
  - pose proof (udp_receive_time_code_good os io_fuel cfg sid J Hcfg u out timeout H) as H1.
    destruct (udp_receive_time_code _ _ _ _ _) as [[? ?] ?]. apply H1.
  - by apply udp_clear_statistics_good.
  - by apply udp_clear_fault_statistics_good.
Qed.

(** A datagram of the link, in some session. *)
Definition link_datagram (link : Z) (d : list Z) : Prop := exists sid, wire_datagram link sid d.

#[export] Instance contract_session {W} (os : udp_os W) J link sid
    `{!UdpContract os J (link_datagram link)} : UdpContract os J (wire_datagram link sid).
Proof.
  destruct UdpContract0 as [H1 H2]. constructor; try done.
  intros fd d to w Hw Hd. apply H2; [done|]. by exists sid.
Qed.

Lemma zero_udp_ok config : ub_ok config 0 (zero_udp config) /\ tx_ok (ub_tx (zero_udp config)).
Proof.
  split; [|constructor; try done; [constructor|by left]]. constructor; try done.
  - constructor; [|done|constructor|by split]. by apply init_wf.
  - by constructor; [constructor|..].
  - split; [apply queue_new_wf; cbv; lia|]. by apply Forall_replicate.
  - apply queue_new_wf. cbv; lia.
  - apply queue_new_wf. cbv; lia.
Qed.

(** ** Sequences of calls *)

Section calls.
Context {W : Type} (os : udp_os W) (io_fuel : nat) (cfg : spw_udp_config) (J : W -> Prop).
Context `{!UdpContract os J (link_datagram (udp_link_id cfg))} (Hcfg : config_ok cfg).
Implicit Types (u : @udp W).

(** The invariant in the session the port is in. *)
Definition udp_port_ok u : Prop := good cfg (ub_local_session_id u.1) J tx_ok u.

Lemma good_port_ok sid u : good cfg sid J tx_ok u -> udp_port_ok u.
Proof. intros H. unfold udp_port_ok. by rewrite (proj1 (uk_session _ _ _ (proj1 H))). Qed.

Lemma udp_call_ok u call : udp_port_ok u -> call_args_ok call ->
  udp_port_ok (do_call (UDP_OPS os io_fuel) u call).2.
Proof.
  intros H Hc. assert (call = CallStart \/ call <> CallStart) as [->|Hns]
    by (destruct call; first [by left|by right]).
  - cbn [do_call UDP_OPS op_start]. destruct (ub_socket_fd u.1 <? 0) eqn:Hfd.
    { unfold udp_start. by rewrite Hfd. }
    pose proof (udp_start_good os io_fuel cfg J Hcfg _ u H Hfd) as H1.
    destruct (udp_start os io_fuel u). exact (good_port_ok _ _ H1).
  - apply (good_port_ok (ub_local_session_id u.1)).
    exact (udp_call_good os io_fuel cfg _ J u call Hcfg H Hc Hns).
Qed.

Lemma udp_calls_ok calls : forall u, udp_port_ok u -> Forall call_args_ok calls ->
  udp_port_ok (run_calls (UDP_OPS os io_fuel) u calls).2.
Proof.
  induction calls as [|call calls IH]; intros u Hu Hall; [done|].
  inversion Hall; subst. cbn [run_calls]. pose proof (udp_call_ok u call Hu ltac:(done)) as H.
  destruct (do_call _ u call) as [[r out] u1]. cbn [snd] in H. specialize (IH u1 H ltac:(done)).
  by destruct (run_calls _ u1 calls).
Qed.

#[export] Instance udp_outputs : BackendOutputs (UDP_OPS os io_fuel) udp_port_ok.
Proof.
  constructor; cbn [UDP_OPS op_get_link_state op_send op_receive op_send_time_code
    op_receive_time_code].
  - intros u out Hu. pose proof (udp_get_link_state_good os io_fuel cfg _ J Hcfg u out Hu) as [H1 H2].
    destruct (udp_get_link_state _ _ _ _) as [[r st] u']. split; [by eapply good_port_ok|done].
  - intros u p t Hu Hp Hb. apply (good_port_ok (ub_local_session_id u.1)).
    exact (udp_send_good os io_fuel cfg _ J Hcfg u p t Hu Hp Hb).
  - intros u p t Hu Hp Hb. pose proof (udp_receive_good os io_fuel cfg _ J Hcfg u p t Hu Hp Hb) as H.
    destruct (udp_receive _ _ _ _ _) as [[r p'] u']. destruct H as (H & ?).
    split; [by eapply good_port_ok|done].
  - intros u tc t Hu Hv H0. apply (good_port_ok (ub_local_session_id u.1)).
    exact (udp_send_time_code_good os io_fuel cfg _ J Hcfg u tc t Hu H0 (valid_time_code_wire tc Hv)).
  - intros u out t Hu. pose proof (udp_receive_time_code_good os io_fuel cfg _ J Hcfg u out t Hu) as H.
    destruct (udp_receive_time_code _ _ _ _ _) as [[r tc] u']. destruct H as (H & ?).
    split; [by eapply good_port_ok|done].
Qed.
End calls.

(** The fields of a configuration within their C types. *)
Record config_typed (c : spw_udp_config) : Prop := {
  ct_link : 0 <= udp_link_id c < 2 ^ 32;
  ct_local_port : 0 <= local_port c < 2 ^ 16;
  ct_retries : 0 <= max_retries c < 2 ^ 16;
  ct_ack : 0 <= ack_timeout_ms c < 2 ^ 32;
  ct_keepalive : 0 <= keepalive_interval_ms c < 2 ^ 32;
  ct_peer : 0 <= peer_timeout_ms c < 2 ^ 32
}.

Lemma udp_config_accepted_ok A config : udp_config_accepted A config = true ->
  config_typed config -> config_ok config.
Proof.
  intros Ha []. unfold udp_config_accepted in Ha. apply andb_prop in Ha as [Ha _]. constructor; lia.
Qed.

Lemma udp_construct_ok {W} (os : udp_os W) J A config w
    `{!UdpContract os J (link_datagram (udp_link_id config))} :
  J w -> (udp_construct os A config w).1 = SPW_OK -> config_typed config ->
  config_ok config /\ udp_port_ok config J (udp_construct os A config w).2.
Proof.
  intros Hw Hr Ht. destruct (zero_udp_ok config) as [Hz Hz']. unfold udp_construct in *.
  destruct (udp_config_accepted A config) eqn:Ea; cbn [negb] in *; [|done].
  split; [by eapply udp_config_accepted_ok|].
  destruct (uo_inet_pton os (local_address config)) as [local|]; [|done].
  destruct (uo_inet_pton os (remote_address config)); [|done].
  pose proof (uc_socket w Hw) as H1. destruct (uo_socket os w) as [fd w1]. cbn [snd] in H1.
  destruct (fd <? 0); [done|]. pose proof (uc_setsockopt fd w1 H1) as H2.
  match goal with |- context [uo_bind os fd ?a ?x] => pose proof (uc_bind fd a x H2) as H3;
    destruct (uo_bind os fd a x) as [bound w2] end. cbn [snd] in H3.
  case_if; [done|]. cbn [snd]. split_and!; [|done|done].
  apply set_state_ok; [|done|done]. by apply set_socket_fd_ok.
Qed.

(** ** What a port sends *)

(** The same system with a log of the datagrams that were passed to sendto. *)
Definition log_udp {W} (os : udp_os W) : udp_os (W * list (list Z)) :=
  {| uo_clock_gettime := fun w => let '(r, w1) := uo_clock_gettime os w.1 in (r, (w1, w.2));
     uo_sendto := fun fd d to w => let '(r, w1) := uo_sendto os fd d to w.1 in (r, (w1, w.2 ++ [d]));
     uo_recvfrom := fun fd n w => let '(r, w1) := uo_recvfrom os fd n w.1 in (r, (w1, w.2));
     uo_poll := fun fd ev ms w => let '(r, w1) := uo_poll os fd ev ms w.1 in (r, (w1, w.2));
     uo_nanosleep := fun request w => let '(r, w1) := uo_nanosleep os request w.1 in (r, (w1, w.2));
     uo_errno := fun w => uo_errno os w.1;
     uo_getpid := fun w => uo_getpid os w.1;
     uo_inet_pton := uo_inet_pton os;
     uo_socket := fun w => let '(r, w1) := uo_socket os w.1 in (r, (w1, w.2));
     uo_setsockopt := fun fd w => (uo_setsockopt os fd w.1, w.2);
     uo_bind := fun fd addr w => let '(r, w1) := uo_bind os fd addr w.1 in (r, (w1, w.2));
     uo_close := fun fd w => (uo_close os fd w.1, w.2);
     uo_object := uo_object os |}.

(** Nothing was sent since the log was [before] but datagrams that satisfy [P]. *)
Definition logged {W} (J : W -> Prop) (P : list Z -> Prop) (before : list (list Z))
    (w : W * list (list Z)) : Prop :=
  J w.1 /\ exists new, w.2 = before ++ new /\ Forall P new.

#[export] Instance log_udp_contract {W} (os : udp_os W) J (P Q : list Z -> Prop) before
    `{!UdpContract os J Q} : (forall d, P d -> Q d) -> UdpContract (log_udp os) (logged J P before) P.
Proof.
  intros HPQ. constructor.
  - intros [w l] [HJ Hl]. cbn in *. pose proof (uc_clock w HJ) as H.
    by destruct (uo_clock_gettime os w).
  - intros fd d to [w l] [HJ Hl] Hd. cbn in *. destruct Hl as (new & -> & Hn).
    pose proof (uc_sendto fd d to w HJ (HPQ d Hd)) as H. destruct (uo_sendto os fd d to w).
    split; [done|]. exists (new ++ [d]). cbn. rewrite app_assoc. split; [done|].
    apply Forall_app. by rewrite Forall_singleton.
  - intros fd n [w l] [HJ Hl]. cbn in *. pose proof (uc_recvfrom fd n w HJ) as H.
    destruct (uo_recvfrom os fd n w) as [[[? ?] ?] ?]. destruct H. by split.
  - intros fd ev ms [w l] [HJ Hl]. cbn in *. pose proof (uc_poll fd ev ms w HJ) as H.
    by destruct (uo_poll os fd ev ms w).
  - intros request [w l] [HJ Hl]. cbn in *. pose proof (uc_nanosleep request w HJ) as H.
    by destruct (uo_nanosleep os request w).
  - intros [w l] [HJ Hl]. cbn in *. pose proof (uc_socket w HJ) as H. by destruct (uo_socket os w).
  - intros fd [w l] [HJ Hl]. cbn in *. by split; [apply uc_setsockopt|].
  - intros fd addr [w l] [HJ Hl]. cbn in *. pose proof (uc_bind fd addr w HJ) as H.
    by destruct (uo_bind os fd addr w).
  - intros fd [w l] [HJ Hl]. cbn in *. by split; [apply uc_close|].
Qed.

(** C8. Whatever the network delivers and the system calls return, a UDP port
    that was constructed on a configuration it accepts stays well typed and well
    formed through every sequence of calls and its destruction: identifiers,
    retry counts, times and counters keep to their C widths, the packet offered
    and the packet awaiting acknowledgement lie in their 1 MiB buffers, the
    reassembler keeps its invariant, the queues keep to their depths with
    time-codes in range, and the link state is one of the six. *)
Theorem udp_invariant {W} (os : udp_os W) J A io_fuel config w calls
    `{!UdpContract os J (link_datagram (udp_link_id config))} :
  config_typed config -> J w -> (udp_construct os A config w).1 = SPW_OK ->
  Forall call_args_ok calls ->
  let u := (run_calls (UDP_OPS os io_fuel) (udp_construct os A config w).2 calls).2 in
  ub_ok config (ub_local_session_id u.1) u.1 /\ tx_ok (ub_tx u.1) /\
  ub_ok config (ub_local_session_id u.1) (udp_destroy os u).1.
Proof.
  intros Ht Hw Hr Hall. cbn zeta. destruct (udp_construct_ok os J A config w Hw Hr Ht) as [Hc Hu].
  pose proof (udp_calls_ok os io_fuel config J Hc calls _ Hu Hall) as H. pose proof H as (H1 & H2 & _).
  split_and!; [done|done|]. by destruct (udp_destroy_good os config _ J tx_ok _ H).
Qed.

(** One call from any well-formed state: the datagrams it adds to the log. *)
Lemma udp_call_logged {W} (os : udp_os W) J io_fuel config u call
    `{!UdpContract os J (link_datagram (udp_link_id config))} :
  config_ok config -> call_args_ok call -> ub_ok config (ub_local_session_id u.1) u.1 ->
  tx_ok (ub_tx u.1) -> J u.2.1 ->
  let u' := (do_call (UDP_OPS (log_udp os) io_fuel) u call).2 in
  exists new, u'.2.2 = u.2.2 ++ new /\
    Forall (wire_datagram (udp_link_id config) (ub_local_session_id u'.1)) new.
Proof.
  intros Hcfg Hc Hb Htx HJ. cbn zeta.
  set (J' := fun sid => logged J (wire_datagram (udp_link_id config) sid) u.2.2).
  assert (forall sid, UdpContract (log_udp os) (J' sid) (wire_datagram (udp_link_id config) sid)) as HC.
  { intros sid. eapply log_udp_contract; [done|]. intros d Hd. by exists sid. }
  assert (forall sid, J' sid u.2) as HJ'.
  { intros sid. split; [done|]. exists []. by rewrite app_nil_r. }
  assert (forall sid v, good config sid (J' sid) tx_ok v -> exists new, v.2.2 = u.2.2 ++ new /\
    Forall (wire_datagram (udp_link_id config) (ub_local_session_id v.1)) new) as Hend.
  { intros sid v (Hv & _ & _ & Hn). by rewrite (proj1 (uk_session _ _ _ Hv)). }
  assert (call = CallStart \/ call <> CallStart) as [->|Hns]
    by (destruct call; first [by left|by right]).
  - cbn [do_call UDP_OPS op_start]. destruct (ub_socket_fd u.1 <? 0) eqn:Hfd.
    { unfold udp_start. rewrite Hfd. exists []. by rewrite app_nil_r. }
    pose proof (udp_start_good (log_udp os) io_fuel config _ Hcfg (ub_local_session_id u.1) u
      (conj Hb (conj Htx (HJ' _))) Hfd) as H1.
    destruct (udp_start (log_udp os) io_fuel u). by eapply Hend.
  - eapply Hend. exact (udp_call_good (log_udp os) io_fuel config _ _ u call Hcfg
      (conj Hb (conj Htx (HJ' _))) Hc Hns).
Qed.

(** C7. Every datagram a UDP port sends during a call, whatever the network does
    and in whatever order the calls were made, is one the decoder of the peer
    accepts: exactly as long as its header and payload, of the configured link and
    of the session the port is in. In particular nothing held back by the reorder
    fault crosses into another session, and nothing is sent before a start. *)
Theorem udp_sends_own_session {W} (os : udp_os W) J A io_fuel config w calls call
    `{!UdpContract os J (link_datagram (udp_link_id config))} :
  config_typed config -> J w -> (udp_construct (log_udp os) A config (w, [])).1 = SPW_OK ->
  Forall call_args_ok (calls ++ [call]) ->
  let u := (run_calls (UDP_OPS (log_udp os) io_fuel)
              (udp_construct (log_udp os) A config (w, [])).2 calls).2 in
  let u' := (do_call (UDP_OPS (log_udp os) io_fuel) u call).2 in
  exists new, u'.2.2 = u.2.2 ++ new /\
    Forall (wire_datagram (udp_link_id config) (ub_local_session_id u'.1)) new.
Proof.
  intros Ht Hw Hr [Hall Hc]%Forall_app. rewrite Forall_singleton in Hc. cbn zeta.
  set (J0 := logged J (link_datagram (udp_link_id config)) []).
  assert (UdpContract (log_udp os) J0 (link_datagram (udp_link_id config))) as HC
    by (by eapply log_udp_contract).
  assert (J0 (w, [])) as Hw0 by (split; [done|]; exists []; by split).
  destruct (udp_construct_ok (log_udp os) J0 A config _ Hw0 Hr Ht) as [Hcfg Hu].
  pose proof (udp_calls_ok (log_udp os) io_fuel config J0 Hcfg calls _ Hu Hall) as (Hb & Htx & HJ).
  exact (udp_call_logged os J io_fuel config _ call Hcfg Hc Hb Htx (proj1 HJ)).
Qed.

(** ** What sending leaves alone

    Handing datagrams to the network changes the fault injector, the counters, the
    sequence number, the datagram held back and the time of the last keepalive. *)
Record same_core (b b' : spw_udp_backend) : Prop := {
  sc_config : ub_config b' = ub_config b;
  sc_timing : ub_timing b' = ub_timing b;
  sc_socket : ub_socket_fd b' = ub_socket_fd b;
  sc_state : ub_state b' = ub_state b;
  sc_next_message : ub_next_message_id b' = ub_next_message_id b;
  sc_reassembly : ub_reassembly b' = ub_reassembly b;
  sc_last_fragment : ub_last_fragment_us b' = ub_last_fragment_us b;
  sc_pending : ub_pending b' = ub_pending b;
  sc_time_codes : ub_time_codes b' = ub_time_codes b;
  sc_tx : ub_tx b' = ub_tx b;
  sc_recent : ub_recent b' = ub_recent b;
  sc_retired : ub_retired b' = ub_retired b;
  sc_local : ub_local_session_id b' = ub_local_session_id b;
  sc_remote : ub_remote_session_id b' = ub_remote_session_id b;
  sc_peer_seen : ub_peer_seen b' = ub_peer_seen b;
  sc_last_peer : ub_last_peer_rx_us b' = ub_last_peer_rx_us b
}.

Section core.
Context {W : Type} (os : udp_os W) (io_fuel : nat).
Implicit Types (u v : @udp W) (b : spw_udp_backend).

Definition core b v : Prop := same_core b v.1.

Lemma core_refl v : core v.1 v.
Proof. done. Qed.
#[local] Hint Resolve core_refl : core.

Lemma core_world b v w : core b v -> core b (v.1, w).
Proof. done. Qed.

Lemma core_bind {A B} b (e : A * @udp W) (K : A -> @udp W -> B * @udp W) :
  core b e.2 -> (forall x v, core b v -> core b (K x v).2) ->
  core b (let '(x, v) := e in K x v).2.
Proof. destruct e as [x v]. intros H HK. by apply HK. Qed.

Lemma core_bind' {A} b (e : A * @udp W) (K : A -> @udp W -> @udp W) :
  core b e.2 -> (forall x v, core b v -> core b (K x v)) -> core b (let '(x, v) := e in K x v).
Proof. destruct e as [x v]. intros H HK. by apply HK. Qed.

Lemma now_us_core b v : core b v -> core b (now_us os v).2.
Proof. intros H. unfold now_us. by destruct (uo_clock_gettime os v.2) as [[[r s] n] w]. Qed.
#[local] Hint Resolve now_us_core : core.

Ltac core_step :=
  lazymatch goal with
  | |- core ?b (if _ then _ else _).2 => case_if
  | |- core ?b (if _ then _ else _) => case_if
  | |- core ?b (let '(_, _) := ?e in _).2 =>
      first [ is_var e; destruct e
            | eapply (core_bind b); [solve [auto with core]|intros ? ? ?] ]
  | |- core ?b (let '(_, _) := ?e in _) =>
      first [ is_var e; destruct e
            | eapply (core_bind' b); [solve [auto with core]|intros ? ? ?] ]
  | |- core ?b (match ?e with _ => _ end).2 => destruct e eqn:?
  | |- core ?b (_, _).2 => cbn [snd]
  | |- core ?b (uupd _ _) => solve [eauto with core]
  end.
Ltac core_walk := repeat (core_step; try solve [auto with core]).

Lemma deadline_make_core b t v : core b v -> core b (deadline_make os t v).2.
Proof. intros H. unfold deadline_make. core_walk. Qed.
Lemma deadline_remaining_core b d v : core b v -> core b (deadline_remaining os d v).2.
Proof. intros H. unfold deadline_remaining. core_walk. Qed.
Lemma deadline_expired_core b d v : core b v -> core b (deadline_expired os d v).2.
Proof. intros H. unfold deadline_expired. core_walk. Qed.
Lemma peer_is_current_core b v : core b v -> core b (peer_is_current os v).2.
Proof. intros H. unfold peer_is_current. cbv zeta. core_walk. Qed.
#[local] Hint Resolve deadline_make_core deadline_remaining_core deadline_expired_core
  peer_is_current_core : core.

Lemma poll_loop_core b fuel events timeout : (forall v, core b v -> core b (timeout v).2) ->
  forall v, core b v -> core b (poll_loop os fuel events timeout v).2.
Proof.
  intros Ht. induction fuel as [|fuel IH]; intros v H; cbn [poll_loop]; [done|].
  apply core_bind; [by apply Ht|]. intros ms v1 Hv.
  destruct (uo_poll os _ _ _ _) as [[ready revents] w]. case_if; [by apply IH|done].
Qed.

Lemma sendto_loop_core b d to deadline fuel : forall v, core b v ->
  core b (sendto_loop os io_fuel fuel d to deadline v).2.
Proof.
  induction fuel as [|fuel IH]; intros v H; cbn [sendto_loop]; [done|].
  destruct (uo_sendto os _ _ _ _) as [sent w]. do 2 (case_if; [done|]). case_if.
  - apply core_bind; [by apply deadline_expired_core|]. intros e v1 Hv. case_if; [done|by apply IH].
  - case_if; [done|]. apply core_bind.
    + apply poll_loop_core; [|done]. intros v1 Hv. core_walk.
    + intros [ready revents] v1 Hv. case_if; [done|by apply IH].
Qed.
#[local] Hint Resolve sendto_loop_core : core.

Lemma send_datagram_raw_core b d t v : core b v -> core b (send_datagram_raw os io_fuel d t v).2.
Proof. intros H. unfold send_datagram_raw. core_walk. Qed.
#[local] Hint Resolve send_datagram_raw_core : core.

Lemma nanosleep_loop_core b fuel : forall request v, core b v ->
  core b (nanosleep_loop os fuel request v).2.
Proof.
  induction fuel as [|fuel IH]; intros request v H; cbn [nanosleep_loop]; [done|].
  destruct (uo_nanosleep os _ _) as [[r rest] w]. do 2 (case_if; [done|]). by apply IH.
Qed.
#[local] Hint Resolve nanosleep_loop_core : core.

Lemma wait_transport_fault_delay_core b d t v : core b v ->
  core b (wait_transport_fault_delay os io_fuel d t v).2.
Proof. intros H. unfold wait_transport_fault_delay. core_walk. Qed.
#[local] Hint Resolve wait_transport_fault_delay_core : core.

(** An assignment to what sending may change. *)
Lemma core_upd b f v : core b v -> same_core v.1 (f v.1) -> core b (uupd f v).
Proof. intros [] []. constructor; cbn; etrans; eassumption. Qed.

Lemma send_with_fault_core b decision d t v : core b v ->
  core b (send_with_fault os io_fuel decision d t v).2.
Proof.
  intros H. unfold send_with_fault. cbv zeta.
  assert (forall f, core b (count_fault f v)) as Hc by (intros f; by apply core_upd).
  assert (core b (uupd count_drop (count_fault bump_drops v))) by (by apply core_upd).
  assert (core b (uupd (set_ub_reordered (Some d)) (count_fault bump_reorders v)))
    by (by apply core_upd).
  core_walk.
Qed.

Lemma send_datagram_core b d t v : core b v -> core b (send_datagram os io_fuel d t v).2.
Proof.
  intros H. unfold send_datagram. destruct (ub_reordered v.1) as [held|].
  - apply core_bind; [by apply send_datagram_raw_core|]. intros r v1 Hv. case_if; [done|].
    apply core_bind; [by apply send_datagram_raw_core|]. intros r' v2 Hv2. by apply core_upd.
  - destruct (spw_vspw_tp_decode_header _ _); [|by apply send_datagram_raw_core..].
    destruct (spw_fault_inject_transport _ _). apply send_with_fault_core. by apply core_upd.
Qed.
#[local] Hint Resolve send_datagram_core : core.

Lemma take_sequence_core b v : core b v -> core b (take_sequence v).2.
Proof. intros H. unfold take_sequence. destruct (take_nonzero _). by apply core_upd. Qed.
#[local] Hint Resolve take_sequence_core : core.

Lemma send_keepalive_core b t v : core b v -> core b (send_keepalive os io_fuel t v).2.
Proof.
  intros H. unfold send_keepalive. cbv zeta. apply core_bind; [auto with core|]. intros s v1 Hv.
  destruct (spw_vspw_tp_encode_header _ _ _); [|done].
  apply core_bind; [auto with core|]. intros r v2 Hv2. case_if; [|done].
  apply core_bind; [auto with core|]. intros n v3 Hv3. by apply core_upd.
Qed.
#[local] Hint Resolve send_keepalive_core : core.

Lemma maybe_send_keepalive_core b v : core b v -> core b (maybe_send_keepalive os io_fuel v).
Proof. intros H. unfold maybe_send_keepalive. cbv zeta. core_walk. Qed.

Lemma send_ack_core b mid v : core b v -> core b (send_ack os io_fuel mid v).2.
Proof.
  intros H. unfold send_ack. cbv zeta. do 2 (case_if; [done|]).
  apply core_bind; [auto with core|]. intros s v1 Hv.
  destruct (spw_vspw_tp_encode_header _ _ _); [|done].
  destruct (spw_vspw_tp_encode_ack_payload _ _ _); [|done]. auto with core.
Qed.
End core.

(** ** Delivered once *)

(** What the reader of a port is offered. *)
Definition offered (b : spw_udp_backend) : pending_packet * queue spw_time_code :=
  (ub_pending b, ub_time_codes b).

Section once.
Context {W : Type} (os : udp_os W) (io_fuel : nat).
Implicit Types (u v : @udp W).

Lemma core_offered b v : core b v -> offered v.1 = offered b /\ ub_recent v.1 = ub_recent b.
Proof. intros []. unfold offered. by rewrite sc_pending0, sc_time_codes0. Qed.

Lemma note_peer_activity_offered u :
  let v := note_peer_activity os u in
  offered v.1 = offered u.1 /\ ub_reassembly v.1 = ub_reassembly u.1 /\ ub_recent v.1 = ub_recent u.1.
Proof.
  cbn zeta. unfold note_peer_activity.
  pose proof (now_us_core os (uupd (set_ub_peer_seen true) u).1 _ (core_refl _)) as H.
  destruct (now_us os _) as [n v]. cbn [snd] in H. pose proof (core_offered _ _ H) as [Ho Hr].
  pose proof (sc_reassembly _ _ H). by case_if.
Qed.

Lemma expire_reassembly_offered u : let v := expire_reassembly os u in
  offered v.1 = offered u.1 /\ ub_recent v.1 = ub_recent u.1.
Proof.
  cbn zeta. unfold expire_reassembly. pose proof (now_us_core os u.1 u (core_refl u)) as H.
  destruct (now_us os u) as [n v]. pose proof (core_offered _ _ H) as [Ho Hr]. cbv zeta.
  by repeat case_if.
Qed.

Lemma same_message_refl type mid : same_message type mid (type, mid) = true.
Proof. unfold same_message. cbn. by rewrite !Z.eqb_refl. Qed.

(** A message that was acknowledged is remembered. *)
Lemma acknowledge_recent type mid u : queue_wf SPW_UDP_RECENT_MESSAGE_DEPTH (ub_recent u.1) ->
  mid <> 0 -> recently_delivered (acknowledge os io_fuel type mid u).1 type mid = true.
Proof.
  intros Hq Hm. unfold acknowledge. set (u1 := uupd _ u).
  pose proof (send_ack_core os io_fuel u1.1 mid u1 (core_refl _)) as H.
  destruct (core_offered _ _ H) as [_ Hr]. unfold recently_delivered. rewrite Hr.
  destruct (mid =? 0) eqn:E; [lia|]. unfold u1, uupd, remember_delivered. cbn [fst]. rewrite E. cbn [orb].
  case_if; [unfold recently_delivered in E0; by rewrite E in E0|]. cbn.
  apply existsb_exists. exists (type, mid). split; [by eapply queue_remember_elem|].
  apply same_message_refl.
Qed.

(** The identity of a stored fragment is that of the message. *)
Lemma push_identity r h payload res r' :
  spw_fragment_reassembler_push r (Some h) (Some payload) = (res, r') -> res = REASSEMBLY_COMPLETE ->
  message_id r' = VspwTp.message_id h /\ ack_required r' = frag_ack_required h.
Proof.
  unfold spw_fragment_reassembler_push. case_if; [by intros [= <- <-]|]. case_if; [by intros [= <- <-]|].
  cbv zeta. destruct (store_fragment _ _ _ _); [|by intros [= <- <-]]. intros [= _ <-] _. cbn.
  destruct (active r); [|done]. cbn in E0. unfold identity_differs in E0. split_andb.
  split; [lia|]. by destruct (frag_ack_required h), (ack_required r).
Qed.

Lemma process_data_once h payload u :
  queue_wf SPW_UDP_RECENT_MESSAGE_DEPTH (ub_recent u.1) ->
  has_flag (flags h) SPW_VSPW_TP_FLAG_ACK_REQUIRED = true -> VspwTp.message_id h <> 0 ->
  let v := (process_data os io_fuel h payload u).2 in
  (recently_delivered u.1 SPW_VSPW_TP_DATA (VspwTp.message_id h) = true -> core u.1 v) /\
  (offered v.1 <> offered u.1 ->
     recently_delivered v.1 SPW_VSPW_TP_DATA (VspwTp.message_id h) = true).
Proof.
  intros Hq Hf Hm. cbn zeta. unfold process_data. cbv zeta. rewrite Hf. cbn [andb].
  case_if.
  { cbn [snd]. pose proof (send_ack_core os io_fuel u.1 (VspwTp.message_id h) u (core_refl u)) as H.
    split; [done|]. by destruct (core_offered _ _ H) as [-> _]. }
  split; [done|]. case_if.
  { unfold process_whole. cbv zeta. case_if; [done|]. cbn [snd]. rewrite Hf. intros _.
    by apply acknowledge_recent. }
  pose proof (expire_reassembly_offered u) as [Ho Hr]. revert Ho Hr.
  generalize (expire_reassembly os u). intros v <- Hr. rewrite <- Hr in Hq. clear dependent u.
  destruct (spw_fragment_reassembler_push _ _ _) as [res r'] eqn:Ep.
  set (v1 := uupd (set_ub_reassembly r') v).
  pose proof (now_us_core os v1.1 v1 (core_refl _)) as H.
  destruct (now_us os v1) as [n v2]. cbn [snd] in H. destruct (core_offered _ _ H) as [Ho2 Hr2].
  destruct res; try done; try (intros Hd; exfalso; apply Hd; exact Ho2).
  destruct (push_identity _ _ _ _ _ Ep eq_refl) as [Hid Hack].
  unfold deliver_assembled. cbv zeta. case_if; [intros Hd; exfalso; apply Hd; exact Ho2|].
  assert (ub_reassembly (uupd (set_ub_last_fragment_us n) v2).1 = r') as -> by exact (sc_reassembly _ _ H).
  rewrite Hack, Hid. cbn [snd]. unfold frag_ack_required. unfold has_flag in Hf. rewrite Hf.
  intros _. apply acknowledge_recent; [|done].
  change (queue_wf SPW_UDP_RECENT_MESSAGE_DEPTH (ub_recent v2.1)). by rewrite Hr2.
Qed.

Lemma process_time_code_once h payload u :
  queue_wf SPW_UDP_RECENT_MESSAGE_DEPTH (ub_recent u.1) ->
  has_flag (flags h) SPW_VSPW_TP_FLAG_ACK_REQUIRED = true -> VspwTp.message_id h <> 0 ->
  let v := (process_time_code os io_fuel h payload u).2 in
  (recently_delivered u.1 SPW_VSPW_TP_TIME_CODE (VspwTp.message_id h) = true -> core u.1 v) /\
  (offered v.1 <> offered u.1 ->
     recently_delivered v.1 SPW_VSPW_TP_TIME_CODE (VspwTp.message_id h) = true).
Proof.
  intros Hq Hf Hm. cbn zeta. unfold process_time_code. cbv zeta. rewrite Hf. cbn [andb].
  case_if.
  { cbn [snd]. pose proof (send_ack_core os io_fuel u.1 (VspwTp.message_id h) u (core_refl u)) as H.
    split; [done|]. by destruct (core_offered _ _ H) as [-> _]. }
  split; [done|]. do 2 (case_if; [done|]). intros _. by apply acknowledge_recent.
Qed.
End once.

(** C17. A message that asks for an acknowledgement is delivered to the reader at
    most once while it is in the history: whatever the system does, a datagram of
    a message found there changes neither the packet offered, nor the time-codes
    queued, nor the message being assembled; and a datagram that does change what
    the reader is offered leaves its message in the history. *)
Theorem udp_delivers_once {W} (os : udp_os W) io_fuel u d h :
  queue_wf SPW_UDP_RECENT_MESSAGE_DEPTH (ub_recent u.1) ->
  spw_vspw_tp_decode_header (Some d) (Z.of_nat (length d)) = DECODE_OK h ->
  type h = SPW_VSPW_TP_DATA \/ type h = SPW_VSPW_TP_TIME_CODE ->
  has_flag (flags h) SPW_VSPW_TP_FLAG_ACK_REQUIRED = true -> VspwTp.message_id h <> 0 ->
  let v := (handle_datagram os io_fuel d u).2 in
  (recently_delivered u.1 (type h) (VspwTp.message_id h) = true ->
     offered v.1 = offered u.1 /\ ub_reassembly v.1 = ub_reassembly u.1) /\
  (offered v.1 <> offered u.1 -> recently_delivered v.1 (type h) (VspwTp.message_id h) = true).
Proof.
  intros Hq Hd Ht Hf Hm. cbn zeta. unfold handle_datagram. rewrite Hd. cbv zeta.
  assert ((type h =? SPW_VSPW_TP_KEEPALIVE) = false) as -> by (by destruct Ht as [-> | ->]).
  destruct (note_peer_activity_offered os u) as (Ho & Hr & Hq'). revert Ho Hr Hq'.
  generalize (note_peer_activity os u) as n. intros n Ho Hr Hq'. rewrite <- Hq' in Hq.
  assert (forall t, recently_delivered u.1 t (VspwTp.message_id h) =
    recently_delivered n.1 t (VspwTp.message_id h)) as Hsame
    by (intros t; unfold recently_delivered; by rewrite Hq').
  do 3 (case_if; [done|]). rewrite <- Ho, <- Hr, Hsame. destruct Ht as [-> | ->]; cbn [Z.eqb
    SPW_VSPW_TP_DATA SPW_VSPW_TP_TIME_CODE Pos.eqb].
  - case_if; [done|].
    destruct (process_data_once os io_fuel h (drop (Z.to_nat SPW_VSPW_TP_HEADER_SIZE) d) n Hq Hf Hm)
      as [H1 H2].
    split; [|done]. intros H%H1. by split; [apply (core_offered _ _ H)|apply H].
  - destruct (process_time_code_once os io_fuel h (drop (Z.to_nat SPW_VSPW_TP_HEADER_SIZE) d) n Hq Hf Hm)
      as [H1 H2].
    split; [|done]. intros H%H1. by split; [apply (core_offered _ _ H)|apply H].
Qed.

(** ** An ideal network

    The time in microseconds, which does not pass during a call, the datagrams
    that have arrived from the peer, in order, and the datagrams sent so far; a
    receive with nothing there would block. *)

Record lan_world := {
  lw_time : Z;
  lw_inbox : list (list Z);
  lw_outbox : list (list Z)
}.

Definition lan (peer : sockaddr_in) : udp_os lan_world :=
  {| uo_clock_gettime := fun w => (0, lw_time w / 1000000, lw_time w mod 1000000 * 1000, w);
     uo_sendto := fun _ d _ w =>
       (Z.of_nat (length d),
        {| lw_time := lw_time w; lw_inbox := lw_inbox w; lw_outbox := lw_outbox w ++ [d] |});
     uo_recvfrom := fun _ capacity w =>
       match lw_inbox w with
       | [] => (-1, [], peer, w)
       | d :: rest =>
           let stored := take (Z.to_nat capacity) d in
           (Z.of_nat (length stored), stored, peer,
            {| lw_time := lw_time w; lw_inbox := rest; lw_outbox := lw_outbox w |})
       end;
     uo_poll := fun _ events _ w =>
       match lw_inbox w with
       | [] => if events =? POLLIN then (0, 0, w) else (1, events, w)
       | _ => (1, events, w)
       end;
     uo_nanosleep := fun _ w => (0, (0, 0), w);
     uo_errno := fun _ => EAGAIN;
     uo_getpid := fun _ => 1;
     uo_inet_pton := fun _ => Some (sin_addr peer);
     uo_socket := fun w => (3, w);
     uo_setsockopt := fun _ w => w;
     uo_bind := fun _ _ w => (0, w);
     uo_close := fun _ w => w;
     uo_object := 4096 |}.

#[export] Instance lan_contract peer P :
  UdpContract (lan peer) (fun w => Forall bytes_ok (lw_inbox w)) P.
Proof.
  constructor; try done.
  - intros fd capacity [t [|d rest] o] H; cbn in *; [split; constructor|]. apply Forall_cons in H as [H1 H2].
    split; [done|]. by apply Forall_take.
  - intros fd events ms [t [|d rest] o] H; cbn; [by case_if|done].
Qed.

(** ** Witnesses *)

Definition udp_peer : sockaddr_in :=
  {| sin_family := AF_INET; sin_port := htons 5001; sin_addr := 16777343 |}.

Definition udp_sample_config : spw_udp_config :=
  {| udp_struct_size := 400; udp_version := SPW_UDP_CONFIG_VERSION; local_address := [49; 0];
     local_port := 5000; remote_address := [49; 0]; remote_port := 5001; udp_link_id := 7;
     fragment_payload_size := 256; max_retries := 3; ack_timeout_ms := 50;
     keepalive_interval_ms := 100; peer_timeout_ms := 1000; virtual_link_bps := 0;
     virtual_latency_us := 0; fault_seed := 0; fault_rules := replicate 8 SPW_UDP_FAULT_RULE_INITIALIZER;
     udp_reserved := 0 |}.

(** A keepalive of a peer in session 99. *)
Definition udp_sample_keepalive : list Z :=
  header_bytes (tp_header SPW_VSPW_TP_KEEPALIVE 0 0 7 99 1 0 0 0).

Definition udp_sample_world : lan_world :=
  {| lw_time := 5000000; lw_inbox := [udp_sample_keepalive]; lw_outbox := [] |}.

Definition udp_sample_packet : spw_packet :=
  {| pkt_data := Some (replicate 600 7); pkt_length := 600; pkt_capacity := 600;
     pkt_terminator := SPW_TERMINATOR_EEP |}.

Definition udp_sample_calls : list backend_call :=
  [CallStart; CallLinkState 0; CallSend udp_sample_packet SPW_TIMEOUT_INFINITE].

Lemma udp_sample_calls_ok : Forall call_args_ok udp_sample_calls.
Proof.
  do 2 (constructor; [done|]). constructor; [|constructor]. split; [done|]. by apply bytes_ok_check.
Qed.

Lemma udp_sample_typed : config_typed udp_sample_config.
Proof. by constructor. Qed.

Lemma udp_sample_bytes : Forall bytes_ok (lw_inbox udp_sample_world).
Proof. constructor; [by apply bytes_ok_check|constructor]. Qed.

Lemma udp_invariant_witness :
  let c := udp_construct (lan udp_peer) lp64 udp_sample_config udp_sample_world in
  let rs := run_calls (UDP_OPS (lan udp_peer) 4) c.2 udp_sample_calls in
  (fst <$> rs.1 = [SPW_OK; SPW_OK; SPW_OK] /\ length (lw_outbox rs.2.2) = 5%nat) /\
  (ub_ok udp_sample_config (ub_local_session_id rs.2.1) rs.2.1 /\ tx_ok (ub_tx rs.2.1) /\
   ub_ok udp_sample_config (ub_local_session_id rs.2.1) (udp_destroy (lan udp_peer) rs.2).1).
Proof.
  cbn zeta. split; [by vm_compute|].
  apply (udp_invariant (lan udp_peer) (fun w => Forall bytes_ok (lw_inbox w)) lp64 4
    udp_sample_config); [apply lan_contract|apply udp_sample_typed|apply udp_sample_bytes|by vm_compute|apply udp_sample_calls_ok].
Defined.

Lemma udp_sends_own_session_witness :
  let os := log_udp (lan udp_peer) in
  let u := (run_calls (UDP_OPS os 4)
              (udp_construct os lp64 udp_sample_config (udp_sample_world, [])).2
              [CallStart; CallLinkState 0]).2 in
  let u' := (do_call (UDP_OPS os 4) u (CallSend udp_sample_packet SPW_TIMEOUT_INFINITE)).2 in
  length u'.2.2 = 5%nat /\
  exists new, u'.2.2 = u.2.2 ++ new /\
    Forall (wire_datagram (udp_link_id udp_sample_config) (ub_local_session_id u'.1)) new.
Proof.
  cbn zeta. split; [by vm_compute|].
  apply (udp_sends_own_session (lan udp_peer) (fun w => Forall bytes_ok (lw_inbox w)) lp64 4
    udp_sample_config); [apply lan_contract|apply udp_sample_typed|apply udp_sample_bytes|by vm_compute|apply udp_sample_calls_ok].
Defined.

(** A time-code of the peer, and the port after it was delivered. *)
Definition udp_sample_time_code : list Z :=
  header_bytes (tp_header SPW_VSPW_TP_TIME_CODE SPW_VSPW_TP_FLAG_ACK_REQUIRED 2 7 99 2 5 0 2) ++ [33; 0].

Definition udp_sample_port : @udp lan_world :=
  (run_calls (UDP_OPS (lan udp_peer) 4)
     (udp_construct (lan udp_peer) lp64 udp_sample_config udp_sample_world).2
     [CallStart; CallLinkState 0]).2.

Lemma udp_delivers_once_witness :
  let v := (handle_datagram (lan udp_peer) 4 udp_sample_time_code udp_sample_port).2 in
  queue_list (ub_time_codes v.1) = [{| time_count := 33; control_flags := 0 |}] /\
  recently_delivered v.1 SPW_VSPW_TP_TIME_CODE 5 = true.
Proof.
  cbn zeta. split; [by vm_compute|].
  refine (proj2 (udp_delivers_once (lan udp_peer) 4 udp_sample_port udp_sample_time_code
    (tp_header SPW_VSPW_TP_TIME_CODE SPW_VSPW_TP_FLAG_ACK_REQUIRED 2 7 99 2 5 0 2) _ _ _ _ _) _).
  - constructor; vm_compute; lia.
  - by vm_compute.
  - by right.
  - by vm_compute.
  - by vm_compute.
  - intros H. apply (f_equal (fun x => q_count x.2)) in H. vm_compute in H. discriminate H.
Defined.
