(* ===== verification/UdpPaths.v ===== *)
(** * Paths over UDP

    Two UDP ports joined by an ideal network: a packet sent by one, its datagrams
    arriving in any order and any number of times, is received by the other as it
    was sent, and the acknowledgement frees the slot of the sender.  And the fate
    of a message that is never acknowledged. *)

From S2P Require Import Prelude Types Posix VspwTp Reassembler LinkTiming Faults Ring Queue Backend Loopback.
From S2P Require Import DriverApi PortConfig Udp UdpProps.

(** ** The ideal network *)

Section lan.
Context (peer : sockaddr_in) (io_fuel : nat).
Abbreviation net := (lan peer).
Implicit Types (u v : @udp lan_world) (b : spw_udp_backend).

Lemma now_us_lan u : u64_ok (lw_time u.2) -> now_us net u = (lw_time u.2, u).
Proof.
  unfold u64_ok. intros Ht. unfold now_us. cbn [lan uo_clock_gettime]. destruct u as [b w]. cbn in *.
  set (t := lw_time w) in *. f_equal. pose proof (Z.div_mod t 1000000 ltac:(lia)).
  pose proof (Z.mod_pos_bound t 1000000 ltac:(lia)).
  assert (0 <= t / 1000000 <= t) by (split; [apply Z.div_pos; lia|apply Z.div_le_upper_bound; lia]).
  rewrite (wrap_small 64 (t / 1000000)), (wrap_small 64 (_ * 1000)) by lia.
  rewrite Z.div_mul by lia. rewrite (wrap_small 64); lia.
Qed.

Lemma deadline_remaining_lan d u : u64_ok (lw_time u.2) ->
  (deadline_remaining net d u).2 = u.
Proof. intros H. unfold deadline_remaining. case_if; [done|]. by rewrite now_us_lan. Qed.

Lemma deadline_make_lan t u : u64_ok (lw_time u.2) -> (deadline_make net t u).2 = u.
Proof. intros H. unfold deadline_make. case_if; [done|]. by rewrite now_us_lan. Qed.

Lemma deadline_infinite u : deadline_make net SPW_TIMEOUT_INFINITE u =
  ({| dl_infinite := true; dl_end_us := UINT64_MAX |}, u).
Proof. done. Qed.

(** The last sign of life of the peer is recent. *)
Record peer_current (b : spw_udp_backend) (now : Z) : Prop := {
  pc_seen : ub_peer_seen b = true;
  pc_last : 0 < ub_last_peer_rx_us b <= now;
  pc_recent : now - ub_last_peer_rx_us b <= peer_timeout_ms (ub_config b) * 1000
}.

Lemma peer_is_current_lan u : u64_ok (lw_time u.2) -> peer_current u.1 (lw_time u.2) ->
  peer_is_current net u = (true, u).
Proof.
  intros Ht [Hs Hl Hr]. unfold peer_is_current. rewrite now_us_lan by done. cbv zeta.
  rewrite Hs. cbn [negb orb].
  destruct ((ub_last_peer_rx_us u.1 =? 0) || (lw_time u.2 <? ub_last_peer_rx_us u.1)) eqn:E; [lia|].
  f_equal. lia.
Qed.

Lemma expire_reassembly_lan u : u64_ok (lw_time u.2) ->
  expire_reassembly net u = u \/ expire_reassembly net u = uupd clear_reassembly u.
Proof.
  intros Ht. unfold expire_reassembly. rewrite now_us_lan by done. cbv zeta.
  repeat case_if; auto.
Qed.

(** A fragment of this instant does not expire; without a fragment nothing does. *)
Lemma expire_reassembly_fresh u : u64_ok (lw_time u.2) -> config_ok (ub_config u.1) ->
  active (ub_reassembly u.1) = false \/ ub_last_fragment_us u.1 = lw_time u.2 ->
  expire_reassembly net u = u.
Proof.
  intros Ht [] Hf. unfold expire_reassembly. rewrite now_us_lan by done. cbv zeta.
  case_if; [done|]. destruct Hf as [Hf|Hf]; [by rewrite Hf in E|]. rewrite Hf. case_if; [lia|done].
Qed.

Lemma set_state_same b : set_ub_state (ub_state b) b = b.
Proof. by destruct b. Qed.

(** With a current peer, waiting for it ends at once and the link is up. *)
Lemma ensure_peer_lan t u : u64_ok (lw_time u.2) -> peer_current u.1 (lw_time u.2) ->
  ub_state u.1 = SPW_LINK_RUN \/ ub_state u.1 = SPW_LINK_ERROR_WAIT ->
  ensure_peer net io_fuel t u =
    (SPW_OK, uupd (set_ub_state SPW_LINK_RUN) (expire_reassembly net u)).
Proof.
  intros Ht Hp Hs. unfold ensure_peer, refresh_peer_state, peer_running.
  assert (peer_current (expire_reassembly net u).1 (lw_time (expire_reassembly net u).2) /\
    u64_ok (lw_time (expire_reassembly net u).2) /\
    ub_state (expire_reassembly net u).1 = ub_state u.1) as (Hp' & Ht' & Hs').
  { destruct (expire_reassembly_lan u Ht) as [-> | ->]; [done|]. split_and!; try done.
    by destruct Hp. }
  revert Hp' Ht' Hs'. generalize (expire_reassembly net u). clear Ht Hp. intros v Hp Ht Hv.
  rewrite <- Hv in Hs. clear u Hv. rewrite peer_is_current_lan by done. cbn [negb].
  assert (peer_is_current net (uupd (set_ub_state SPW_LINK_RUN) v) =
    (true, uupd (set_ub_state SPW_LINK_RUN) v)) as Hr
    by (apply peer_is_current_lan; [done|by destruct Hp]).
  destruct Hs as [Hs|Hs]; rewrite Hs.
  - cbn [Z.eqb SPW_LINK_RUN Pos.eqb]. rewrite Hs. cbn [Z.eqb SPW_LINK_RUN Pos.eqb].
    rewrite peer_is_current_lan by done. f_equal. unfold uupd. change (5) with SPW_LINK_RUN.
    rewrite <- Hs, set_state_same. by destruct v.
  - cbn [Z.eqb SPW_LINK_RUN SPW_LINK_ERROR_WAIT Pos.eqb]. by rewrite Hr.
Qed.

(** ** A message that was given up *)

(** The slot holds a message whose retries are used up, the peer is alive. *)
Record given_up u : Prop := {
  gu_time : u64_ok (lw_time u.2);
  gu_peer : peer_current u.1 (lw_time u.2);
  gu_state : ub_state u.1 = SPW_LINK_RUN \/ ub_state u.1 = SPW_LINK_ERROR_WAIT;
  gu_busy : pt_kind (ub_tx u.1) <> SPW_UDP_PENDING_NONE;
  gu_retries : max_retries (ub_config u.1) <= pt_retries (ub_tx u.1);
  gu_waited : pt_last_send_us (ub_tx u.1) + ack_timeout_ms (ub_config u.1) * 1000 <= lw_time u.2
}.

Lemma service_given_up u : given_up u ->
  let '(r, u') := service_pending_tx net io_fuel u in
  r = SPW_ERR_LINK_UNAVAILABLE /\ u'.2 = u.2 /\ ub_state u'.1 = SPW_LINK_ERROR_WAIT /\
  ub_config u'.1 = ub_config u.1 /\ ub_peer_seen u'.1 = ub_peer_seen u.1 /\
  ub_last_peer_rx_us u'.1 = ub_last_peer_rx_us u.1 /\
  pt_kind (ub_tx u'.1) = pt_kind (ub_tx u.1) /\
  pt_message_id (ub_tx u'.1) = pt_message_id (ub_tx u.1) /\
  pt_retries (ub_tx u'.1) = pt_retries (ub_tx u.1) /\
  pt_last_send_us (ub_tx u'.1) = pt_last_send_us (ub_tx u.1) /\
  link_errors (ub_statistics u'.1) =
    if ub_state u.1 =? SPW_LINK_ERROR_WAIT then link_errors (ub_statistics u.1)
    else u64 (link_errors (ub_statistics u.1) + 1).
Proof.
  intros [Ht _ _ Hb Hr Hw]. unfold service_pending_tx. rewrite now_us_lan by done. cbv zeta.
  case_if; [lia|]. case_if; [lia|]. case_if; [|lia].
  unfold mark_peer_lost. cbn [uupd fst snd].
  case_if; cbn; destruct (ub_state u.1 =? SPW_LINK_ERROR_WAIT); cbn; by split_and!.
Qed.

(** The checks of a send let a well-formed packet pass. *)
Lemma sendable_packet p : tx_packet_ok p = true -> pkt_length p <= SPW_UDP_BACKEND_MAX_PACKET_SIZE ->
  (negb (pkt_length p =? 0) && negb (non_null (pkt_data p))) ||
  (SPW_UDP_BACKEND_MAX_PACKET_SIZE <? pkt_length p) || negb (valid_terminator (pkt_terminator p)) = false.
Proof.
  intros Hp Hl. unfold tx_packet_ok in Hp. apply andb_prop in Hp as [Hp Hd].
  apply andb_prop in Hp as [H0 ->]. destruct (pkt_data p); cbn in *; lia.
Qed.

(** A send to the live peer fails, counts a link error and leaves the message. *)
Lemma send_given_up p t u : given_up u -> tx_packet_ok p = true ->
  pkt_length p <= SPW_UDP_BACKEND_MAX_PACKET_SIZE -> (0 < io_fuel)%nat ->
  let '(r, u') := udp_send net io_fuel u p t in
  r = SPW_ERR_LINK_UNAVAILABLE /\ given_up u' /\
  pt_message_id (ub_tx u'.1) = pt_message_id (ub_tx u.1) /\
  link_errors (ub_statistics u'.1) = u64 (link_errors (ub_statistics u.1) + 1).
Proof.
  intros Hu Hp Hl Hf. pose proof Hu as [Ht Hpc Hs Hb Hr Hw].
  unfold udp_send. rewrite sendable_packet by done. cbn [orb].
  pose proof (deadline_make_lan t u Ht) as Hd. destruct (deadline_make net t u) as [dl u0].
  cbn [snd] in Hd. subst u0. unfold before_send.
  pose proof (deadline_remaining_lan dl u Ht) as H1. destruct (deadline_remaining net dl u) as [rem u0].
  cbn [snd] in H1. subst u0. rewrite ensure_peer_lan by done. cbn [negb Z.eqb SPW_OK].
  set (v := uupd (set_ub_state SPW_LINK_RUN) (expire_reassembly net u)).
  assert (given_up v /\ ub_state v.1 = SPW_LINK_RUN /\
    pt_message_id (ub_tx v.1) = pt_message_id (ub_tx u.1) /\
    link_errors (ub_statistics v.1) = link_errors (ub_statistics u.1)) as (Hv & Hvs & Hvm & Hve).
  { unfold v. destruct (expire_reassembly_lan u Ht) as [-> | ->]; split_and!; try done;
      (constructor; try done; [by destruct Hpc|by left]). }
  pose proof Hv as [Htv _ _ Hbv _ _].
  pose proof (deadline_remaining_lan dl v Htv) as H1. destruct (deadline_remaining net dl v) as [rem' u0].
  cbn [snd] in H1. subst u0. unfold wait_for_tx_slot, tx_idle. case_if; [lia|].
  pose proof (deadline_make_lan rem' v Htv) as H1. destruct (deadline_make net rem' v) as [dl' u0].
  cbn [snd] in H1. subst u0. destruct io_fuel as [|fuel] eqn:Ef; [lia|]. cbn [tx_slot_loop].
  rewrite <- Ef. pose proof (service_given_up v Hv) as Hsv.
  destruct (service_pending_tx net io_fuel v) as [r v'].
  destruct Hsv as (-> & Hw' & Hs' & Hc' & Hps & Hlp & Hk & Hm & Hrt & Hls & He).
  unfold tx_idle. rewrite Hk. case_if; [lia|]. cbn [Z.eqb SPW_ERR_LINK_UNAVAILABLE Pos.eqb negb].
  split_and!; [done| |congruence|].
  - destruct Hv as [Htv' [] _ _ Hrv Hwv]. constructor;
      rewrite ?Hk, ?Hc', ?Hw', ?Hrt, ?Hls; try done; [constructor|by right];
      rewrite ?Hps, ?Hlp, ?Hc'; done.
  - by rewrite He, Hvs, Hve.
Qed.
End lan.

(** ** The datagrams of a packet *)

(** The flags of a fragment. *)
Definition data_flags (terminator : Z) (first last : bool) : Z :=
  let flags := terminator_flag terminator .| SPW_VSPW_TP_FLAG_ACK_REQUIRED in
  let flags := if first then flags .| SPW_VSPW_TP_FLAG_FRAGMENT_START else flags in
  if last then flags .| SPW_VSPW_TP_FLAG_FRAGMENT_END else flags.

Lemma data_flags_spec terminator first last : valid_terminator terminator = true ->
  let f := data_flags terminator first last in
  has_flag f SPW_VSPW_TP_FLAG_FRAGMENT_START = first /\
  has_flag f SPW_VSPW_TP_FLAG_FRAGMENT_END = last /\
  has_flag f SPW_VSPW_TP_FLAG_ACK_REQUIRED = true /\ tp_terminator f = terminator /\
  f .& (SPW_VSPW_TP_FLAG_EOP .| SPW_VSPW_TP_FLAG_EEP) = terminator_flag terminator /\
  tp_terminator (terminator_flag terminator) = terminator.
Proof.
  unfold valid_terminator. intros Ht. assert (terminator = SPW_TERMINATOR_EOP \/
    terminator = SPW_TERMINATOR_EEP) as [-> | ->] by (unfold SPW_TERMINATOR_EOP, SPW_TERMINATOR_EEP in *; lia);
    destruct first, last; by vm_compute.
Qed.

(** A datagram seen as a header and a payload. *)
Definition datagram_parts (d : list Z) : spw_vspw_tp_header * list Z :=
  (decode_fields d, drop (Z.to_nat SPW_VSPW_TP_HEADER_SIZE) d).

Lemma datagram_header link sid d h : datagram_of link sid d h -> (datagram_parts d).1 = h.
Proof. intros [_ Hd _ _ _]. by destruct (decode_ok_inv _ _ _ Hd) as (_ & _ & -> & _). Qed.

(** A part of packet [msg] with its terminator, sent as message [mid]. *)
Record part_of (msg : list Z) (mid terminator : Z) (f : spw_vspw_tp_header * list Z) : Prop := {
  mp_range : header_in_range f.1 = true;
  mp_type : type f.1 = SPW_VSPW_TP_DATA;
  mp_total : VspwTp.total_size f.1 = Z.of_nat (length msg);
  mp_id : VspwTp.message_id f.1 = mid;
  mp_ack : has_flag (flags f.1) SPW_VSPW_TP_FLAG_ACK_REQUIRED = true;
  mp_terminator : tp_terminator (flags f.1) = terminator;
  mp_flags : frag_terminator_flags f.1 = terminator_flag terminator;
  mp_inside : fragment_offset f.1 + payload_size f.1 <= Z.of_nat (length msg);
  mp_length : Z.of_nat (length f.2) = payload_size f.1;
  mp_bytes : forall i, 0 <= i < payload_size f.1 ->
    mem_get f.2 (Z.to_nat i) = mem_get msg (Z.to_nat (fragment_offset f.1 + i))
}.

Lemma part_fragment msg mid terminator f : part_of msg mid terminator f ->
  payload_size f.1 <> VspwTp.total_size f.1 ->
  fragment_of msg mid (terminator_flag terminator) true f.
Proof. by intros [] Hp. Qed.

(** A part that is the whole packet carries its bytes. *)
Lemma part_whole msg mid terminator f : part_of msg mid terminator f ->
  payload_size f.1 = VspwTp.total_size f.1 -> 0 <= fragment_offset f.1 -> f.2 = msg.
Proof.
  intros [] Hp Ho. apply list_eq_mem_get; [lia|]. intros i Hi.
  specialize (mp_bytes0 (Z.of_nat i) ltac:(lia)). rewrite Nat2Z.id in mp_bytes0.
  rewrite mp_bytes0. f_equal. lia.
Qed.

Definition whole (f : spw_vspw_tp_header * list Z) : bool :=
  (type f.1 =? SPW_VSPW_TP_DATA) && (payload_size f.1 =? VspwTp.total_size f.1).

(** The parts make up the packet. *)
Definition complete (msg : list Z) (fs : list (spw_vspw_tp_header * list Z)) : Prop :=
  existsb whole fs = true \/
  ((forall i, 0 <= i < Z.of_nat (length msg) -> existsb (in_fragment i) fs = true) /\
   existsb (fun f => frag_start f.1) fs = true /\ existsb (fun f => frag_end f.1) fs = true).

(** A datagram of the packet, or a keepalive, of the session. *)
Definition packet_datagram (link sid : Z) (msg : list Z) (mid terminator : Z) (d : list Z) : Prop :=
  exists h, datagram_of link sid d h /\ part_of msg mid terminator (datagram_parts d).

Definition keepalive_datagram (link sid : Z) (d : list Z) : Prop :=
  exists h, datagram_of link sid d h /\ type h = SPW_VSPW_TP_KEEPALIVE.

Lemma datagram_length link session d h : datagram_of link session d h ->
  Z.of_nat (length d) <= SPW_VSPW_TP_MAX_UDP_PAYLOAD.
Proof.
  intros [_ Hd Hsz _ _]. destruct (decode_ok_inv _ _ _ Hd) as (_ & _ & _ & Hv & _).
  unfold spw_vspw_tp_validate in Hv. apply andb_prop in Hv as [Hv _]. apply andb_prop in Hv as [_ Hv].
  unfold validate_fragment in Hv. case_if_in Hv; [done|]. rewrite Hsz.
  unfold SPW_VSPW_TP_MAX_FRAGMENT_PAYLOAD, SPW_VSPW_TP_MAX_UDP_PAYLOAD, SPW_VSPW_TP_HEADER_SIZE in *. lia.
Qed.

(** A keepalive adds nothing to the packet. *)
Lemma keepalive_no_part link session d : keepalive_datagram link session d ->
  whole (datagram_parts d) = false /\ (forall i, in_fragment i (datagram_parts d) = false) /\
  frag_start (datagram_parts d).1 = false /\ frag_end (datagram_parts d).1 = false.
Proof.
  intros (h & Hd & Ht). rewrite (surjective_pairing (datagram_parts d)), (datagram_header _ _ _ _ Hd).
  unfold whole, in_fragment, frag_start, frag_end. cbn [fst].
  destruct Hd as [_ Hd _ _ _]. destruct (decode_ok_inv _ _ _ Hd) as (_ & _ & _ & Hv & _).
  unfold spw_vspw_tp_validate in Hv. apply andb_prop in Hv as [Hv Hm]. apply andb_prop in Hv as [_ Hv].
  unfold validate_message_shape in Hm. unfold validate_fragment in Hv. case_if_in Hv; [done|].
  rewrite Ht in *. cbn in Hm, Hv. unfold has_flag in Hv. split_andb. split_and!; try done; lia.
Qed.

(** ** Sending without faults *)

Definition fault_free (inj : spw_deterministic_fault_injector) : Prop :=
  Forall (fun r => action r = SPW_UDP_FAULT_ACTION_NONE) (rules inj).

Lemma fault_loop_quiet eligible inj : fault_free inj ->
  (forall r, action r = SPW_UDP_FAULT_ACTION_NONE -> eligible r = false) ->
  forall todo i, fault_loop eligible todo i inj = (None, inj).
Proof.
  intros Hq He. induction todo as [|todo IH]; intros i; [done|]. cbn [fault_loop].
  assert (action (rule_at inj i) = SPW_UDP_FAULT_ACTION_NONE) as Hr.
  { unfold rule_at. destruct (rules inj !! i) as [r|] eqn:E; [|done].
    by apply (Forall_lookup_1 _ _ _ _ Hq E). }
  rewrite (He _ Hr). apply IH.
Qed.

(** Nothing held back, no fault rule, an open socket. *)
Record clean (b : spw_udp_backend) : Prop := {
  cl_socket : 0 <= ub_socket_fd b;
  cl_reordered : ub_reordered b = None;
  cl_quiet : fault_free (ub_injector b)
}.

(** The network after some datagrams were sent. *)
Definition posted (ds : list (list Z)) (w : lan_world) : lan_world :=
  {| lw_time := lw_time w; lw_inbox := lw_inbox w; lw_outbox := lw_outbox w ++ ds |}.

Lemma posted_nil w : posted [] w = w.
Proof. destruct w. unfold posted. cbn. by rewrite app_nil_r. Qed.

Lemma posted_outbox ds w : lw_outbox (posted ds w) = lw_outbox w ++ ds.
Proof. done. Qed.

Lemma posted_posted ds ds' w : posted ds' (posted ds w) = posted (ds ++ ds') w.
Proof. unfold posted. cbn. by rewrite app_assoc. Qed.

(** [ds] was sent from [u] to [v], and nothing else happened to the port. *)
Record posts (ds : list (list Z)) (u v : @udp lan_world) : Prop := {
  po_world : v.2 = posted ds u.2;
  po_core : same_core u.1 v.1;
  po_clean : clean v.1
}.

Lemma posts_trans ds ds' u v x : posts ds u v -> posts ds' v x -> posts (ds ++ ds') u x.
Proof.
  intros [Hw Hc _] [Hw' Hc' Hcl]. constructor; [by rewrite Hw', Hw, posted_posted| |done].
  destruct Hc, Hc'. constructor; etrans; eassumption.
Qed.

Lemma posts_refl u : clean u.1 -> posts [] u u.
Proof. intros H. constructor; [by rewrite posted_nil|done|done]. Qed.

Lemma session_nonzero sid : sid <> 0 -> (sid =? 0) = false.
Proof. lia. Qed.

Section sending.
Context (peer : sockaddr_in) (io_fuel : nat) (Hfuel : (0 < io_fuel)%nat).
Abbreviation net := (lan peer).
Implicit Types (u v : @udp lan_world) (b : spw_udp_backend).

Lemma send_datagram_raw_lan d t u : 0 <= ub_socket_fd u.1 -> u64_ok (lw_time u.2) ->
  send_datagram_raw net io_fuel d t u = (SPW_OK, (u.1, posted [d] u.2)).
Proof.
  intros Hs Ht. unfold send_datagram_raw. case_if; [lia|]. cbn [lan uo_inet_pton].
  pose proof (deadline_make_lan peer t u Ht) as H. destruct (deadline_make net t u) as [dl v].
  cbn [snd] in H. subst v. destruct io_fuel; [lia|]. cbn. by rewrite Z.eqb_refl.
Qed.

Lemma send_datagram_lan d t u : clean u.1 -> u64_ok (lw_time u.2) ->
  send_datagram net io_fuel d t u = (SPW_OK, (u.1, posted [d] u.2)).
Proof.
  intros [Hs Hr Hq] Ht. unfold send_datagram. rewrite Hr.
  destruct (spw_vspw_tp_decode_header _ _) as [h| | | | | | | | |]; [|by apply send_datagram_raw_lan..].
  unfold spw_fault_inject_transport.
  rewrite fault_loop_quiet; [|done|by intros r Ha; unfold transport_eligible; rewrite Ha].
  cbn. assert (uupd (set_ub_injector (ub_injector u.1)) u = u) as Hu
    by (destruct u as [b w]; unfold uupd; cbn; f_equal; by destruct b).
  rewrite Hu. by apply send_datagram_raw_lan.
Qed.

Lemma encode_valid h capacity : spw_vspw_tp_validate (Some h) = true -> 40 <= capacity ->
  spw_vspw_tp_encode_header (Some h) (Some []) capacity = Some (header_bytes h).
Proof.
  intros Hv Hc. unfold spw_vspw_tp_encode_header. rewrite Hv, encode_fields_bytes, drop_nil, app_nil_r.
  unfold SPW_VSPW_TP_HEADER_SIZE. case_if; [lia|done].
Qed.

(** The sequence number of the next datagram. *)
Lemma take_sequence_posts u : clean u.1 -> exists s v, take_sequence u = (s, v) /\ posts [] u v.
Proof.
  intros [Hs Hr Hq]. unfold take_sequence. destruct (take_nonzero _) as [s n].
  eexists _, _. split; [done|]. constructor; [by rewrite posted_nil|by constructor|by constructor].
Qed.

Lemma posts_send ds u v d t : posts ds u v -> u64_ok (lw_time u.2) ->
  exists x, send_datagram net io_fuel d t v = (SPW_OK, x) /\ posts (ds ++ [d]) u x.
Proof.
  intros Hp Ht. exists (v.1, posted [d] v.2). split.
  - apply send_datagram_lan; [apply Hp|]. by rewrite (po_world _ _ _ Hp).
  - apply (posts_trans ds [d] u v); [done|]. constructor; [done|done|apply Hp].
Qed.

Lemma posts_time ds u v : posts ds u v -> lw_time v.2 = lw_time u.2.
Proof. intros H. by rewrite (po_world _ _ _ H). Qed.

Definition lan_bytes (w : lan_world) : Prop := Forall bytes_ok (lw_inbox w).

(** A started port without faults. *)
Record ready (cfg : spw_udp_config) (sid : Z) u : Prop := {
  rd_good : good cfg sid lan_bytes tx_ok u;
  rd_config : config_ok cfg;
  rd_session : sid <> 0;
  rd_clean : clean u.1;
  rd_time : u64_ok (lw_time u.2)
}.

Lemma ready_posts cfg sid ds u v : ready cfg sid u -> posts ds u v ->
  good cfg sid lan_bytes tx_ok v -> ready cfg sid v.
Proof.
  intros [] Hp Hg. constructor; try done; [apply Hp|]. by rewrite (posts_time _ _ _ Hp).
Qed.

(** A keepalive of the session goes out. *)
Lemma send_keepalive_lan cfg sid t u : ready cfg sid u -> exists d h v,
  send_keepalive net io_fuel t u = (SPW_OK, v) /\ posts [d] u v /\ ready cfg sid v /\
  datagram_of (udp_link_id cfg) sid d h /\ type h = SPW_VSPW_TP_KEEPALIVE.
Proof.
  intros Hrd. pose proof Hrd as [Hg Hc Hs Hcl Ht]. pose proof Hg as (Hb & _).
  pose proof (send_keepalive_good net io_fuel cfg sid lan_bytes Hc tx_ok t u Hg) as Hg'.
  unfold send_keepalive in *. cbv zeta in *.
  rewrite (uk_config _ _ _ Hb), (proj1 (uk_session _ _ _ Hb)) in *.
  destruct (take_sequence_posts u Hcl) as (s & v & Es & Hv). rewrite Es in *.
  destruct (take_sequence_value cfg sid lan_bytes tx_ok u s v Hg Es) as [Hseq _].
  set (h := tp_header _ _ _ _ _ _ _ _ _) in *.
  assert (spw_vspw_tp_encode_header (Some h) (Some []) SPW_UDP_CONTROL_DATAGRAM_SIZE =
    Some (header_bytes h)) as He.
  { apply encode_valid; [|done]. cbn. by rewrite (session_nonzero sid Hs). }
  assert (header_in_range h = true) as Hr.
  { apply tp_header_range; try done. apply (proj2 (uk_session _ _ _ Hb)). }
  destruct (encoded_datagram h [] _ _ Hr (Forall_nil_2 _) eq_refl He) as [Hd _].
  rewrite app_nil_r in Hd. rewrite He in *.
  destruct (posts_send [] u v (header_bytes h) t Hv Ht) as (x & Ex & Hx). rewrite Ex in *. rewrite Z.eqb_refl in *.
  rewrite now_us_lan in * by (by rewrite (posts_time _ _ _ Hx)). cbn [snd] in Hg'.
  eexists _, h, _. split; [done|].
  assert (posts [header_bytes h] u (uupd (set_ub_last_keepalive_tx_us (lw_time x.2)) x)) as Hp.
  { destruct Hx as [Hw Hco Hcl']. constructor; [done|by destruct Hco|by destruct Hcl']. }
  split_and!; [done|by eapply ready_posts|done|done].
Qed.

(** An acknowledgement of message [mid] goes out, for the session of the peer. *)
Lemma send_ack_lan cfg sid mid u : ready cfg sid u -> u32_ok mid -> mid <> 0 ->
  ub_remote_session_id u.1 <> 0 -> exists d h v,
  send_ack net io_fuel mid u = (SPW_OK, v) /\ posts [d] u v /\ ready cfg sid v /\
  datagram_of (udp_link_id cfg) sid d h /\ type h = SPW_VSPW_TP_ACK /\
  VspwTp.message_id h = mid /\
  spw_vspw_tp_decode_ack_payload (Some (drop (Z.to_nat SPW_VSPW_TP_HEADER_SIZE) d)) (payload_size h) =
    Some (ub_remote_session_id u.1).
Proof.
  intros Hrd Hm Hm0 Hrem. pose proof Hrd as [Hg Hc Hs Hcl Ht]. pose proof Hg as (Hb & _).
  pose proof (send_ack_good net io_fuel cfg sid lan_bytes Hc tx_ok mid u Hg Hm) as Hg'.
  unfold send_ack in *. cbv zeta in *.
  rewrite (session_nonzero mid Hm0), (session_nonzero _ Hrem) in *.
  rewrite (uk_config _ _ _ Hb), (proj1 (uk_session _ _ _ Hb)) in *.
  destruct (take_sequence_posts u Hcl) as (s & v & Es & Hv). rewrite Es in *.
  destruct (take_sequence_value cfg sid lan_bytes tx_ok u s v Hg Es) as [Hseq _].
  set (h := tp_header _ _ _ _ _ _ _ _ _) in *.
  assert (spw_vspw_tp_encode_header (Some h) (Some []) SPW_UDP_CONTROL_DATAGRAM_SIZE =
    Some (header_bytes h)) as He.
  { apply encode_valid; [|done]. cbn. by rewrite (session_nonzero sid Hs), (session_nonzero mid Hm0). }
  assert (header_in_range h = true) as Hr.
  { apply tp_header_range; try done. apply (proj2 (uk_session _ _ _ Hb)). }
  unfold spw_vspw_tp_encode_ack_payload in *. rewrite (session_nonzero _ Hrem) in *.
  set (payload := write_u64 [] 0 (ub_remote_session_id u.1)) in *.
  destruct (encoded_datagram h payload _ _ Hr (bytes_ok_u64 _)
    ltac:(unfold payload; by rewrite length_u64) He) as [Hd Hdrop].
  rewrite He in *. rewrite Z.ltb_irrefl in *. cbn [orb] in *.
  destruct (posts_send [] u v (header_bytes h ++ payload) SPW_TIMEOUT_IMMEDIATE Hv Ht) as (x & Ex & Hx).
  rewrite Ex in *. eexists _, h, x. split; [done|].
  split_and!; [done|by eapply ready_posts|done|done|done|]. rewrite Hdrop.
  unfold spw_vspw_tp_decode_ack_payload, payload.
  change (payload_size h) with SPW_VSPW_TP_ACK_PAYLOAD_SIZE. rewrite Z.eqb_refl. cbn [negb].
  pose proof (uk_remote _ _ _ Hb). rewrite read_write_u64 by done. by rewrite (session_nonzero _ Hrem).
Qed.
(** Is the packet in the slot sent in more than one datagram? *)
Definition fragmented b : bool := fragment_payload_size (ub_config b) <? pt_packet_size (ub_tx b).

Lemma data_fragment_flags b seq offset n :
  flags (data_fragment_header b seq offset n) =
  data_flags (pt_terminator (ub_tx b)) (fragmented b && (offset =? 0))
    (fragmented b && (offset + n =? pt_packet_size (ub_tx b))).
Proof. done. Qed.

Lemma validate_data_flags h terminator first last : valid_terminator terminator = true ->
  type h = SPW_VSPW_TP_DATA -> flags h = data_flags terminator first last ->
  validate_flags h = true.
Proof.
  intros Ht Hty Hf. unfold validate_flags. rewrite Hty, Hf. unfold valid_terminator in Ht.
  assert (terminator = SPW_TERMINATOR_EOP \/ terminator = SPW_TERMINATOR_EEP) as [-> | ->]
    by (unfold SPW_TERMINATOR_EOP, SPW_TERMINATOR_EEP in *; lia); destruct first, last; by vm_compute.
Qed.

(** The header of every fragment of the transmit loop is valid. *)
Lemma data_fragment_valid cfg sid b seq offset : ub_ok cfg sid b -> config_ok cfg -> sid <> 0 ->
  tx_ok (ub_tx b) -> u32_ok seq -> 0 <= offset ->
  offset < pt_packet_size (ub_tx b) \/ offset = 0 /\ pt_packet_size (ub_tx b) = 0 ->
  fragmented b = true \/ offset = 0 ->
  spw_vspw_tp_validate (Some (data_fragment_header b seq offset (fragment_length b offset))) = true.
Proof.
  intros Hb Hc Hs Ht Hseq Ho Hlt Hfr. pose proof (uk_config _ _ _ Hb) as Hcfg.
  assert (0 <= offset <= pt_packet_size (ub_tx b)) as Ho' by lia.
  destruct (data_fragment_header_ok cfg sid Hc b seq offset Hb Ht Hseq Ho')
    as (_ & Hn & _ & Hse & Hof & Htot & _).
  destruct (fragment_length_range b offset) as (Hr & He & Hle); [by rewrite Hcfg|done|done|].
  pose proof (data_fragment_flags b seq offset (fragment_length b offset)) as Hf.
  destruct (data_flags_spec (pt_terminator (ub_tx b)) (fragmented b && (offset =? 0))
    (fragmented b && (offset + fragment_length b offset =? pt_packet_size (ub_tx b)))
    (to_terminator _ Ht)) as (Hst & Hend & _).
  set (n := fragment_length b offset) in *. set (h := data_fragment_header b seq offset n) in *.
  unfold spw_vspw_tp_validate. change (version_major h) with 1. change (version_minor h) with 0.
  change (type h) with SPW_VSPW_TP_DATA. change (header_size h) with 40.
  rewrite Hse, (session_nonzero sid Hs).
  rewrite (validate_data_flags h _ _ _ (to_terminator _ Ht) eq_refl Hf).
  assert (validate_fragment h = true) as ->; [|done].
  unfold validate_fragment. rewrite Hf, Hst, Hend, Hn, Hof, Htot.
  pose proof (to_size _ Ht) as Hsz. pose proof (cf_fragment _ Hc) as Hcf. rewrite <- Hcfg in Hcf.
  unfold SPW_UDP_BACKEND_MAX_PACKET_SIZE in Hsz.
  change (type h) with SPW_VSPW_TP_DATA. rewrite (wrap_small 64) by lia.
  unfold SPW_VSPW_TP_MAX_PACKET_SIZE, fragmented in *. subst n. unfold fragment_length in *.
  repeat case_if; try done; lia.
Qed.

(** The packet in the slot. *)
Definition slot_packet b : list Z :=
  mem_read (pt_packet (ub_tx b)) 0 (Z.to_nat (pt_packet_size (ub_tx b))).

(** The datagram of a fragment is a part of the packet. *)
Lemma fragment_datagram cfg sid b seq offset : ub_ok cfg sid b -> config_ok cfg -> sid <> 0 ->
  tx_ok (ub_tx b) -> u32_ok seq -> 0 <= offset ->
  offset < pt_packet_size (ub_tx b) \/ offset = 0 /\ pt_packet_size (ub_tx b) = 0 ->
  fragmented b = true \/ offset = 0 ->
  let n := fragment_length b offset in
  let h := data_fragment_header b seq offset n in
  let d := header_bytes h ++ mem_read (pt_packet (ub_tx b)) (Z.to_nat offset) (Z.to_nat n) in
  spw_vspw_tp_encode_header (Some h) (Some []) SPW_VSPW_TP_MAX_UDP_PAYLOAD = Some (header_bytes h) /\
  packet_datagram (udp_link_id cfg) sid (slot_packet b) (pt_message_id (ub_tx b))
    (pt_terminator (ub_tx b)) d /\ (datagram_parts d).1 = h.
Proof.
  intros Hb Hc Hs Ht Hseq Ho Hlt Hfr. cbn zeta.
  pose proof (data_fragment_valid cfg sid b seq offset Hb Hc Hs Ht Hseq Ho Hlt Hfr) as Hv.
  assert (0 <= offset <= pt_packet_size (ub_tx b)) as Ho' by lia.
  destruct (data_fragment_header_ok cfg sid Hc b seq offset Hb Ht Hseq Ho')
    as (Hr & Hn & Hli & Hse & Hof & Htot & Hid).
  destruct (fragment_length_range b offset) as (Hlen & He & Hle);
    [by rewrite (uk_config _ _ _ Hb)|done|done|].
  pose proof (data_fragment_flags b seq offset (fragment_length b offset)) as Hf.
  destruct (data_flags_spec (pt_terminator (ub_tx b)) (fragmented b && (offset =? 0))
    (fragmented b && (offset + fragment_length b offset =? pt_packet_size (ub_tx b)))
    (to_terminator _ Ht)) as (_ & _ & Hack & Hterm & Htf & _).
  set (n := fragment_length b offset) in *. set (h := data_fragment_header b seq offset n) in *.
  set (payload := mem_read _ _ _).
  pose proof (encode_valid h SPW_VSPW_TP_MAX_UDP_PAYLOAD Hv ltac:(done)) as Henc.
  assert (Z.of_nat (length payload) = n) as Hpl by (unfold payload; rewrite length_mem_read; lia).
  destruct (encoded_datagram h payload _ _ Hr ltac:(apply bytes_ok_read, Ht) ltac:(lia) Henc) as [Hd Hdrop].
  rewrite Hli, Hse in Hd. pose proof (datagram_header _ _ _ _ Hd) as Hh.
  split_and!; [done| |done]. exists h. split; [done|].
  assert (datagram_parts (header_bytes h ++ payload) = (h, payload)) as ->.
  { rewrite (surjective_pairing (datagram_parts _)), Hh. unfold datagram_parts. cbn [snd].
    by rewrite Hdrop. }
  assert (Z.of_nat (length (slot_packet b)) = pt_packet_size (ub_tx b)) as Hml
    by (unfold slot_packet; rewrite length_mem_read; lia).
  constructor; cbn [fst snd]; try done; try lia.
  rewrite Hn. intros i Hi. rewrite Hof. unfold payload, slot_packet.
  rewrite !mem_get_read by lia. f_equal. lia.
Qed.

(** One turn of the transmit loop. *)
Lemma transmit_fragment_lan cfg sid u fuel offset t : ready cfg sid u -> 0 <= offset ->
  offset < pt_packet_size (ub_tx u.1) \/ offset = 0 /\ pt_packet_size (ub_tx u.1) = 0 ->
  fragmented u.1 = true \/ offset = 0 ->
  let n := fragment_length u.1 offset in
  exists d v s, posts [d] u v /\ ready cfg sid v /\
    packet_datagram (udp_link_id cfg) sid (slot_packet u.1) (pt_message_id (ub_tx u.1))
      (pt_terminator (ub_tx u.1)) d /\
    (datagram_parts d).1 = data_fragment_header u.1 s offset n /\ u32_ok s /\
    transmit_fragments net io_fuel (S fuel) offset t u =
      if offset + n <? pt_packet_size (ub_tx u.1)
      then transmit_fragments net io_fuel fuel (offset + n) t v else (SPW_OK, sent_now net v).
Proof.
  intros Hrd Ho Hlt Hfr. cbn zeta. pose proof Hrd as [Hg Hc Hs Hcl Ht]. pose proof Hg as (Hb & Htx & _).
  destruct (take_sequence_posts u Hcl) as (s & v & Es & Hv).
  destruct (take_sequence_value cfg sid lan_bytes tx_ok u s v Hg Es) as [Hseq _].
  pose proof (take_sequence_good cfg sid lan_bytes tx_ok u Hg) as Hgv. rewrite Es in Hgv. cbn [snd] in Hgv.
  destruct (fragment_datagram cfg sid u.1 s offset Hb Hc Hs Htx Hseq Ho Hlt Hfr) as (He & Hd & Hh).
  set (d := header_bytes _ ++ _) in *.
  destruct (posts_send [] u v d t Hv Ht) as (x & Ex & Hx).
  assert (wire_datagram (udp_link_id cfg) sid d) as Hw by (destruct Hd as (h & Hd & _); by exists h).
  pose proof (send_datagram_good net io_fuel cfg sid lan_bytes tx_ok d t v Hw Hgv) as Hgx.
  rewrite Ex in Hgx. cbn [snd] in Hgx. exists d, x, s.
  split_and!; [done|by eapply ready_posts|done|done|done|].
  cbn [transmit_fragments]. cbv zeta. rewrite Es, He. fold d. rewrite Ex. cbn [negb Z.eqb SPW_OK].
  by rewrite (sc_tx _ _ (po_core _ _ _ Hx)).
Qed.

(** The parts of the slot's packet from [offset] on. *)
Record tail_of b (offset : Z) (fs : list (spw_vspw_tp_header * list Z)) : Prop := {
  ta_cover : forall i, offset <= i < pt_packet_size (ub_tx b) -> existsb (in_fragment i) fs = true;
  ta_start : offset = 0 -> fragmented b = true -> existsb (fun f => frag_start f.1) fs = true;
  ta_end : fragmented b = true -> existsb (fun f => frag_end f.1) fs = true;
  ta_whole : fragmented b = false -> existsb whole fs = true
}.

(** What the header of a fragment says of its place. *)
Lemma fragment_place cfg sid b seq offset d : ub_ok cfg sid b -> config_ok cfg -> tx_ok (ub_tx b) ->
  u32_ok seq -> 0 <= offset <= pt_packet_size (ub_tx b) ->
  (datagram_parts d).1 = data_fragment_header b seq offset (fragment_length b offset) ->
  (forall i, in_fragment i (datagram_parts d) =
     (offset <=? i) && (i <? offset + fragment_length b offset)) /\
  frag_start (datagram_parts d).1 = fragmented b && (offset =? 0) /\
  frag_end (datagram_parts d).1 =
    fragmented b && (offset + fragment_length b offset =? pt_packet_size (ub_tx b)) /\
  whole (datagram_parts d) = (fragment_length b offset =? pt_packet_size (ub_tx b)).
Proof.
  intros Hb Hc Ht Hs Ho Hd.
  destruct (data_fragment_header_ok cfg sid Hc b seq offset Hb Ht Hs Ho)
    as (_ & Hn & _ & _ & Hof & Htot & _).
  pose proof (data_fragment_flags b seq offset (fragment_length b offset)) as Hf.
  destruct (data_flags_spec (pt_terminator (ub_tx b)) (fragmented b && (offset =? 0))
    (fragmented b && (offset + fragment_length b offset =? pt_packet_size (ub_tx b)))
    (to_terminator _ Ht)) as (Hst & Hend & _).
  unfold in_fragment, frag_start, frag_end, whole. rewrite Hd, Hn, Hof, Htot.
  change (type _) with SPW_VSPW_TP_DATA. rewrite Z.eqb_refl.
  unfold has_flag in Hst, Hend. rewrite <- Hf in Hst, Hend. by split_and!.
Qed.

Lemma fragment_advance b offset : config_ok (ub_config b) -> tx_ok (ub_tx b) ->
  0 <= offset <= pt_packet_size (ub_tx b) -> fragmented b = true \/ offset = 0 ->
  let n := fragment_length b offset in
  if offset + n <? pt_packet_size (ub_tx b)
  then fragmented b = true /\ n = fragment_payload_size (ub_config b)
  else offset + n = pt_packet_size (ub_tx b).
Proof.
  intros Hc Ht Ho Hfr. cbn zeta. unfold fragment_length, fragmented in *. repeat case_if; lia.
Qed.

Lemma tail_one cfg sid b seq offset d : ub_ok cfg sid b -> config_ok cfg -> tx_ok (ub_tx b) ->
  u32_ok seq -> 0 <= offset <= pt_packet_size (ub_tx b) -> fragmented b = true \/ offset = 0 ->
  (datagram_parts d).1 = data_fragment_header b seq offset (fragment_length b offset) ->
  offset + fragment_length b offset = pt_packet_size (ub_tx b) ->
  tail_of b offset [datagram_parts d].
Proof.
  intros Hb Hc Ht Hs Ho Hfr Hd He.
  destruct (fragment_place cfg sid b seq offset d) as (Hin & Hst & Hend & Hwh); [done..|].
  constructor; cbn [existsb].
  - intros i Hi. rewrite orb_false_r, Hin. lia.
  - intros -> Hf. by rewrite Hst, Hf.
  - intros Hf. rewrite Hend, Hf, He. by rewrite Z.eqb_refl.
  - intros Hf. rewrite orb_false_r, Hwh. destruct Hfr as [Hfr|Hfr]; [congruence|lia].
Qed.

Lemma tail_cons cfg sid b seq offset d fs : ub_ok cfg sid b -> config_ok cfg -> tx_ok (ub_tx b) ->
  u32_ok seq -> 0 <= offset <= pt_packet_size (ub_tx b) -> fragmented b = true ->
  (datagram_parts d).1 = data_fragment_header b seq offset (fragment_length b offset) ->
  tail_of b (offset + fragment_length b offset) fs -> tail_of b offset (datagram_parts d :: fs).
Proof.
  intros Hb Hc Ht Hs Ho Hfr Hd [Hc1 _ He1 _].
  destruct (fragment_place cfg sid b seq offset d) as (Hin & Hst & _ & _); [done..|].
  constructor; cbn [existsb].
  - intros i Hi. rewrite Hin. destruct (i <? offset + fragment_length b offset) eqn:E.
    + apply orb_true_iff. left. lia.
    + rewrite Hc1 by lia. apply orb_true_r.
  - intros -> Hf. by rewrite Hst, Hf.
  - intros Hf. rewrite (He1 Hf). apply orb_true_r.
  - congruence.
Qed.

(** The loop sends the parts of the packet from [offset] on; [fuel] is enough. *)
Lemma transmit_fragments_lan cfg sid t : forall fuel u offset, ready cfg sid u -> 0 <= offset ->
  offset < pt_packet_size (ub_tx u.1) \/ offset = 0 /\ pt_packet_size (ub_tx u.1) = 0 ->
  fragmented u.1 = true \/ offset = 0 -> (0 < fuel)%nat ->
  pt_packet_size (ub_tx u.1) - offset <= Z.of_nat fuel * fragment_payload_size cfg ->
  exists ds v, transmit_fragments net io_fuel fuel offset t u = (SPW_OK, sent_now net v) /\
    posts ds u v /\ ready cfg sid v /\
    Forall (packet_datagram (udp_link_id cfg) sid (slot_packet u.1) (pt_message_id (ub_tx u.1))
      (pt_terminator (ub_tx u.1))) ds /\
    tail_of u.1 offset (datagram_parts <$> ds).
Proof.
  induction fuel as [|fuel IH]; intros u offset Hrd Ho Hlt Hfr Hf Hsize; [lia|].
  pose proof Hrd as [(Hb & Htx & _) Hc _ _ _]. pose proof (uk_config _ _ _ Hb) as Hcfg.
  assert (0 <= offset <= pt_packet_size (ub_tx u.1)) as Ho' by lia.
  destruct (transmit_fragment_lan cfg sid u fuel offset t Hrd Ho Hlt Hfr)
    as (d & v & s & Hp & Hrv & Hd & Hh & Hs & ->).
  pose proof (fragment_advance u.1 offset ltac:(by rewrite Hcfg) Htx Ho' Hfr) as Hst. cbn zeta in Hst.
  destruct (offset + fragment_length u.1 offset <? pt_packet_size (ub_tx u.1)) eqn:E.
  - destruct Hst as [Hfrag Hn]. pose proof (cf_fragment _ Hc) as Hcf. rewrite Hcfg in Hn.
    pose proof (po_core _ _ _ Hp) as Hcore. pose proof (sc_tx _ _ Hcore) as Htxv.
    assert (fragmented v.1 = fragmented u.1) as Hfv
      by (unfold fragmented; by rewrite Htxv, (sc_config _ _ Hcore)).
    apply Z.ltb_lt in E.
    destruct (IH v (offset + fragment_length u.1 offset)) as (ds & x & -> & Hp2 & Hrx & Hds & Htail);
      [done|lia|rewrite Htxv; lia|left; congruence|lia|rewrite Htxv; lia|].
    unfold slot_packet in Hds. rewrite Htxv in Hds.
    exists (d :: ds), x. split_and!; [done|by apply (posts_trans [d] ds u v)|done|by constructor|].
    cbn. eapply tail_cons; try done. destruct Htail as [H1 H2 H3 H4]. rewrite Hfv, Htxv in *.
    by constructor.
  - exists [d], v. split_and!; [done|done|done|by constructor|]. by eapply tail_one.
Qed.

Lemma transmit_pending_lan cfg sid t u : ready cfg sid u ->
  pt_kind (ub_tx u.1) = SPW_UDP_PENDING_DATA ->
  exists ds v, transmit_pending net io_fuel t u = (SPW_OK, sent_now net v) /\
    posts ds u v /\ ready cfg sid v /\
    Forall (packet_datagram (udp_link_id cfg) sid (slot_packet u.1) (pt_message_id (ub_tx u.1))
      (pt_terminator (ub_tx u.1))) ds /\
    complete (slot_packet u.1) (datagram_parts <$> ds).
Proof.
  intros Hrd Hk. pose proof Hrd as [(Hb & Htx & _) Hc _ _ _]. pose proof (uk_config _ _ _ Hb) as Hcfg.
  unfold transmit_pending. cbv zeta.
  assert (pt_message_id (ub_tx u.1) <> 0) as Hm by (apply (to_named _ Htx); by rewrite Hk).
  rewrite Hk, (session_nonzero _ Hm). cbn [Z.eqb SPW_UDP_PENDING_DATA SPW_UDP_PENDING_NONE
    SPW_UDP_PENDING_TIME_CODE orb Pos.eqb].
  pose proof (to_size _ Htx) as Hsz. pose proof (cf_fragment _ Hc) as Hcf.
  destruct (transmit_fragments_lan cfg sid t (udp_fragment_count u.1) u 0)
    as (ds & v & -> & Hp & Hrv & Hds & [H1 H2 H3 H4]); try done.
  - lia.
  - by right.
  - unfold udp_fragment_count. lia.
  - unfold udp_fragment_count. rewrite Hcfg.
    pose proof (Z.div_mod (pt_packet_size (ub_tx u.1)) (fragment_payload_size cfg) ltac:(lia)).
    pose proof (Z.mod_pos_bound (pt_packet_size (ub_tx u.1)) (fragment_payload_size cfg) ltac:(lia)).
    pose proof (Z.div_pos (pt_packet_size (ub_tx u.1)) (fragment_payload_size cfg) ltac:(lia) ltac:(lia)).
    nia.
  - exists ds, v. split_and!; try done. unfold complete.
    destruct (fragmented u.1) eqn:E; [right|left; by apply H4].
    split_and!; [|by apply H2|by apply H3]. intros i Hi. apply H1.
    unfold slot_packet in Hi. rewrite length_mem_read in Hi. lia.
Qed.

(** ** A send *)

(** A started port without faults or virtual delay, whose peer is alive and whose
    slot is free. *)
Record sender (cfg : spw_udp_config) (sid : Z) u : Prop := {
  se_ready : ready cfg sid u;
  se_peer : peer_current u.1 (lw_time u.2);
  se_state : ub_state u.1 = SPW_LINK_RUN;
  se_idle : pt_kind (ub_tx u.1) = SPW_UDP_PENDING_NONE;
  se_timing : ub_timing u.1 = {| link_bps := 0; latency_us := 0 |}
}.

(** Nothing to wait for; at most an old partial message expires. *)
Lemma before_send_lan cfg sid event size deadline u : sender cfg sid u ->
  exists v, before_send net io_fuel event size deadline u = (SPW_OK, v) /\ v.2 = u.2 /\
    sender cfg sid v /\ ub_remote_session_id v.1 = ub_remote_session_id u.1.
Proof.
  intros [Hrd Hp Hs Hi Htm]. pose proof Hrd as [Hg Hc Hsid Hcl Ht]. unfold before_send.
  pose proof (deadline_remaining_lan peer deadline u Ht) as H1.
  destruct (deadline_remaining net deadline u) as [rem u0]. cbn [snd] in H1. subst u0.
  pose proof (ensure_peer_good net io_fuel cfg sid lan_bytes Hc rem u Hg) as Hg'.
  rewrite ensure_peer_lan in * by (done || by left). cbn [snd] in Hg'. cbn [negb Z.eqb SPW_OK].
  set (v := uupd (set_ub_state SPW_LINK_RUN) (expire_reassembly net u)) in *.
  assert (sender cfg sid v /\ v.2 = u.2 /\ ub_remote_session_id v.1 = ub_remote_session_id u.1)
    as (Hv & Hw & Hm).
  { assert (clean v.1 /\ v.2 = u.2 /\ peer_current v.1 (lw_time v.2) /\
      pt_kind (ub_tx v.1) = SPW_UDP_PENDING_NONE /\ ub_timing v.1 = ub_timing u.1 /\
      ub_remote_session_id v.1 = ub_remote_session_id u.1) as (H1 & H2 & H3 & H4 & H5 & H6).
    { unfold v. destruct (expire_reassembly_lan peer u Ht) as [-> | ->]; split_and!; try done;
        first [by destruct Hcl|by destruct Hp]. }
    split_and!; [|done|done]. constructor; [constructor; try done; by rewrite H2|done|done|done|congruence]. }
  assert (u64_ok (lw_time v.2)) as Htv by (by rewrite Hw).
  pose proof (deadline_remaining_lan peer deadline v Htv) as H1.
  destruct (deadline_remaining net deadline v) as [rem' u0]. cbn [snd] in H1. subst u0.
  unfold wait_for_tx_slot, tx_idle. rewrite (se_idle _ _ _ Hv). cbn [Z.eqb SPW_UDP_PENDING_NONE negb SPW_OK].
  pose proof (deadline_remaining_lan peer deadline v Htv) as H1.
  destruct (deadline_remaining net deadline v) as [rem'' u0]. cbn [snd] in H1. subst u0.
  exists v. rewrite (se_timing _ _ _ Hv). by split_and!.
Qed.

Lemma sent_now_lan u : u64_ok (lw_time u.2) -> exists tx, sent_now net u = (set_ub_tx tx u.1, u.2) /\
  pt_kind tx = pt_kind (ub_tx u.1) /\ pt_message_id tx = pt_message_id (ub_tx u.1) /\
  pt_terminator tx = pt_terminator (ub_tx u.1).
Proof. intros Ht. unfold sent_now. rewrite now_us_lan by done. eexists. by split. Qed.

(** The packet goes into the slot, and out behind a keepalive. *)
Lemma send_slot_lan cfg sid fill deadline u : ready cfg sid u -> fills fill ->
  (forall tx id, pt_kind (fill tx id) = SPW_UDP_PENDING_DATA /\ pt_message_id (fill tx id) = id) ->
  exists ka ds v tx mid, send_slot net io_fuel fill deadline u = (SPW_OK, (set_ub_tx tx v.1, v.2)) /\
    v.2 = posted (ka :: ds) u.2 /\ ready cfg sid v /\ mid <> 0 /\ u32_ok mid /\
    keepalive_datagram (udp_link_id cfg) sid ka /\
    Forall (packet_datagram (udp_link_id cfg) sid (slot_packet v.1) mid (pt_terminator (ub_tx v.1))) ds /\
    complete (slot_packet v.1) (datagram_parts <$> ds) /\
    ub_tx v.1 = fill (ub_tx u.1) mid /\ ub_remote_session_id v.1 = ub_remote_session_id u.1 /\
    ub_state v.1 = ub_state u.1 /\
    pt_kind tx = SPW_UDP_PENDING_DATA /\ pt_message_id tx = mid /\
    pt_terminator tx = pt_terminator (ub_tx v.1).
Proof.
  intros Hrd Hf Hk. pose proof Hrd as [(Hb & Htx & Hw) Hc Hsid Hcl Ht]. unfold send_slot. cbv zeta.
  pose proof (take_nonzero_ok (ub_next_message_id u.1) (proj2 (uk_ids _ _ _ Hb))) as Htn.
  destruct (take_nonzero _) as [mid counter]. destruct Htn as (Hm0 & Hm & Hcn).
  destruct (Hk (ub_tx u.1) mid) as [Hk1 Hk2].
  match goal with |- context [send_keepalive net io_fuel _ ?x] => set (u1 := x) end.
  assert (ready cfg sid u1) as Hrd1.
  { constructor; try done; [|by destruct Hcl]. split_and!; [|by apply Hf|done].
    apply set_next_message_id_ok; [by apply set_tx_ok|done]. }
  destruct (send_keepalive_lan cfg sid SPW_TIMEOUT_IMMEDIATE u1 Hrd1)
    as (ka & h & v & -> & Hp & Hrv & Hd & Hty).
  pose proof (deadline_remaining_lan peer deadline v (rd_time _ _ _ Hrv)) as H1.
  destruct (deadline_remaining net deadline v) as [rem u0]. cbn [snd] in H1. subst u0.
  pose proof (sc_tx _ _ (po_core _ _ _ Hp)) as Htxv. change (ub_tx u1.1) with (fill (ub_tx u.1) mid) in Htxv.
  destruct (transmit_pending_lan cfg sid rem v Hrv) as (ds & x & -> & Hpx & Hrx & Hds & Hco);
    [by rewrite Htxv|]. cbn [negb Z.eqb SPW_OK].
  pose proof (sc_tx _ _ (po_core _ _ _ Hpx)) as Htxx.
  destruct (sent_now_lan x (rd_time _ _ _ Hrx)) as (tx & -> & Ht1 & Ht2 & Ht3).
  exists ka, ds, x, tx, mid. unfold slot_packet in *. rewrite Htxx, Htxv in *.
  split_and!; try done; try congruence.
  - rewrite (po_world _ _ _ Hpx), (po_world _ _ _ Hp). by rewrite posted_posted.
  - by exists h.
  - by rewrite (sc_remote _ _ (po_core _ _ _ Hpx)), (sc_remote _ _ (po_core _ _ _ Hp)).
  - by rewrite (sc_state _ _ (po_core _ _ _ Hpx)), (sc_state _ _ (po_core _ _ _ Hp)).
Qed.

Lemma fill_packet_payload p terminator tx id : tx_packet_ok p = true ->
  mem_read (pt_packet (fill_packet p terminator tx id)) 0 (Z.to_nat (pkt_length p)) = packet_payload p.
Proof.
  intros Hp. unfold packet_payload. cbn [fill_packet pt_packet]. case_if.
  - pose proof (mem_read_write_same (pt_packet tx) 0
      (mem_read (default [] (pkt_data p)) 0 (Z.to_nat (pkt_length p)))) as H.
    by rewrite length_mem_read in H.
  - apply negb_false_iff, Z.eqb_eq in E. by rewrite E.
Qed.

(** A send succeeds: a keepalive and the parts of the packet go out, and the packet
    waits in the slot for its acknowledgement. *)
Lemma udp_send_lan cfg sid u p t : sender cfg sid u -> tx_packet_ok p = true ->
  bytes_ok (default [] (pkt_data p)) -> pkt_length p <= SPW_UDP_BACKEND_MAX_PACKET_SIZE ->
  exists ka ds v mid, udp_send net io_fuel u p t = (SPW_OK, v) /\
    v.2 = posted (ka :: ds) u.2 /\ ready cfg sid v /\ mid <> 0 /\ u32_ok mid /\
    keepalive_datagram (udp_link_id cfg) sid ka /\
    Forall (packet_datagram (udp_link_id cfg) sid (packet_payload p) mid (pkt_terminator p)) ds /\
    complete (packet_payload p) (datagram_parts <$> ds) /\
    pt_kind (ub_tx v.1) = SPW_UDP_PENDING_DATA /\ pt_message_id (ub_tx v.1) = mid /\
    ub_remote_session_id v.1 = ub_remote_session_id u.1 /\ ub_state v.1 = SPW_LINK_RUN.
Proof.
  intros Hse Hp Hb Hl. pose proof (rd_good _ _ _ (se_ready _ _ _ Hse)) as Hg.
  pose proof (se_ready _ _ _ Hse) as [_ Hc Hsid _ Ht].
  pose proof (udp_send_good net io_fuel cfg sid lan_bytes Hc u p t Hg Hp Hb) as Hg'.
  unfold udp_send in *. rewrite sendable_packet in * by done.
  pose proof (deadline_make_lan peer t u Ht) as H1.
  destruct (deadline_make net t u) as [dl u0]. cbn [snd] in H1. subst u0.
  destruct (before_send_lan cfg sid SPW_VIRTUAL_LINK_EVENT_DATA (pkt_length p) dl u Hse)
    as (v & Ev & Hw & Hv & Hrem). rewrite Ev in *. cbn [negb Z.eqb SPW_OK] in *.
  pose proof (se_ready _ _ _ Hv) as Hrv. pose proof Hrv as [_ _ _ [_ _ Hq] _].
  unfold spw_fault_inject_spacewire_eep in *.
  rewrite fault_loop_quiet in * by first [done|by intros r Ha; unfold eep_eligible; rewrite Ha].
  assert (uupd (set_ub_injector (ub_injector v.1)) v = v) as Hu
    by (destruct v as [b w]; unfold uupd; cbn; f_equal; by destruct b). rewrite Hu in *.
  assert ((if pkt_terminator p =? SPW_TERMINATOR_EOP then (pkt_terminator p, v) else
    (pkt_terminator p, v)) = (pkt_terminator p, v)) as Hif by (by case_if). rewrite Hif in *.
  assert (valid_terminator (pkt_terminator p) = true) as Hvt.
  { unfold tx_packet_ok in Hp. apply andb_prop in Hp as [Hp _]. by apply andb_prop in Hp as [_ ?]. }
  destruct (send_slot_lan cfg sid (fill_packet p (pkt_terminator p)) dl v Hrv)
    as (ka & ds & x & tx & mid & Ex & Hwx & Hrx & Hm0 & Hm & Hka & Hds & Hco & Htx & Hremx & Hstx & Hk & Hid & Hte);
    [by apply fill_packet_fills|done|].
  rewrite Ex in *. cbn [negb Z.eqb SPW_OK snd] in *.
  unfold slot_packet in Hds, Hco. rewrite Htx in Hds, Hco. cbn [fill_packet pt_packet_size pt_terminator] in Hds, Hco.
  change (pt_packet _) with (pt_packet (fill_packet p (pkt_terminator p) (ub_tx v.1) mid)) in Hds, Hco.
  rewrite fill_packet_payload in Hds, Hco by done.
  eexists ka, ds, _, mid. split; [done|]. split_and!; try done.
  - cbn. by rewrite Hwx, Hw.
  - constructor; try done; [by destruct (rd_clean _ _ _ Hrx)|]. cbn. rewrite Hwx. cbn. by rewrite Hw.
  - cbn. congruence.
  - cbn. rewrite Hstx. apply (se_state _ _ _ Hv).
Qed.

End sending.

(** ** Receiving *)

Section receiving.
Context (peer : sockaddr_in) (io_fuel : nat) (Hfuel : (0 < io_fuel)%nat).
Abbreviation net := (lan peer).
Implicit Types (u v : @udp lan_world) (b : spw_udp_backend).

(** A port in touch with session [rid] of its peer, whose reader has taken the
    last packet and has not been given message [mid]. *)
Record receiver (cfg : spw_udp_config) (sid rid mid : Z) u : Prop := {
  rc_ready : ready cfg sid u;
  rc_peer : peer_current u.1 (lw_time u.2);
  rc_state : ub_state u.1 = SPW_LINK_RUN;
  rc_idle : pt_kind (ub_tx u.1) = SPW_UDP_PENDING_NONE;
  rc_remote : ub_remote_session_id u.1 = rid;
  rc_session : rid <> 0;
  rc_retired : is_retired_session u.1 rid = false;
  rc_free : pp_valid (ub_pending u.1) = false;
  rc_new : recently_delivered u.1 SPW_VSPW_TP_DATA mid = false
}.

(** The datagrams come from the configured peer. *)
Definition from_peer (cfg : spw_udp_config) : Prop :=
  sin_family peer = AF_INET /\ sin_port peer = htons (remote_port cfg).

Lemma source_matches_lan cfg : from_peer cfg -> source_matches net cfg peer = true.
Proof.
  intros [Hf Hp]. unfold source_matches. rewrite Hf, Hp, !Z.eqb_refl. cbn. apply Z.eqb_refl.
Qed.

Lemma maybe_send_keepalive_lan cfg sid u : ready cfg sid u -> exists ks v,
  maybe_send_keepalive net io_fuel u = v /\ posts ks u v /\ ready cfg sid v.
Proof.
  intros Hrd. pose proof Hrd as [_ _ _ Hcl Ht].
  unfold maybe_send_keepalive. rewrite now_us_lan by done. cbv zeta.
  case_if; [exists [], u; split_and!; [done|by apply posts_refl|done]|].
  case_if; [|exists [], u; split_and!; [done|by apply posts_refl|done]].
  destruct (send_keepalive_lan peer io_fuel Hfuel cfg sid SPW_TIMEOUT_IMMEDIATE u Hrd)
    as (d & h & v & -> & Hp & Hr & _). by exists [d], v.
Qed.

(** The first datagram is taken from the network. *)
Definition popped (rest : list (list Z)) u : @udp lan_world :=
  (u.1, {| lw_time := lw_time u.2; lw_inbox := rest; lw_outbox := lw_outbox u.2 |}).

Lemma popped_ready cfg sid d rest u : ready cfg sid u -> lw_inbox u.2 = d :: rest ->
  ready cfg sid (popped rest u).
Proof.
  intros [(Hb & Htx & Hw) ? ? ? ?] Hi. constructor; try done. split_and!; [done|done|].
  unfold lan_bytes in *. rewrite Hi in Hw. by apply Forall_cons in Hw as [_ Hw].
Qed.

(** A pump with a datagram waiting handles it. *)
Lemma pump_one_lan cfg sid t d rest u : ready cfg sid u -> from_peer cfg ->
  lw_inbox u.2 = d :: rest -> Z.of_nat (length d) <= SPW_VSPW_TP_MAX_UDP_PAYLOAD ->
  exists ks v, posts ks u v /\ ready cfg sid (popped rest v) /\
    pump_one net io_fuel t u = handle_datagram net io_fuel d (popped rest v).
Proof.
  intros Hrd Hfp Hi Hl. destruct (maybe_send_keepalive_lan cfg sid u Hrd) as (ks & v & Ev & Hp & Hrv).
  assert (lw_inbox v.2 = d :: rest) as Hi' by (by rewrite (po_world _ _ _ Hp)).
  exists ks, v. split_and!; [done|by eapply popped_ready|]. unfold pump_one. rewrite Ev. cbv zeta.
  match goal with |- context [deadline_make net ?t v] =>
    pose proof (deadline_make_lan peer t v (rd_time _ _ _ Hrv)) as H1;
    destruct (deadline_make net t v) as [dl u0] end. cbn [snd] in H1. subst u0.
  destruct io_fuel as [|fuel] eqn:Ef; [lia|]. cbn [recvfrom_loop]. rewrite <- Ef.
  cbn [lan uo_recvfrom]. rewrite Hi'.
  rewrite (take_ge d) by (unfold SPW_VSPW_TP_MAX_UDP_PAYLOAD in *; lia).
  destruct (0 <=? Z.of_nat (length d)) eqn:E; [|lia]. rewrite Nat2Z.id, take_ge by done.
  cbn [Z.eqb SPW_OK SPW_ERR_TIMEOUT negb].
  change (ub_config (v.1, _).1) with (ub_config v.1).
  rewrite (uk_config _ _ _ (proj1 (rd_good _ _ _ Hrv))), source_matches_lan by done. done.
Qed.

Lemma note_peer_activity_lan u : u64_ok (lw_time u.2) -> ub_state u.1 = SPW_LINK_RUN ->
  note_peer_activity net u =
    uupd (fun b => set_ub_last_peer_rx_us (lw_time u.2) (set_ub_peer_seen true b)) u.
Proof.
  intros Ht Hs. unfold note_peer_activity. rewrite now_us_lan by done. cbn. rewrite Hs. done.
Qed.
Lemma receiver_moved cfg sid rid mid ks rest u v : receiver cfg sid rid mid u -> posts ks u v ->
  ready cfg sid (popped rest v) -> receiver cfg sid rid mid (popped rest v).
Proof.
  intros [Hrd [] Hs Hi Hr Hr0 Hret Hf Hn] Hp Hrv. pose proof (po_core _ _ _ Hp) as [].
  constructor; try done; unfold popped; cbn [fst snd lw_time]; try congruence.
  - rewrite (posts_time _ _ _ Hp). constructor; congruence.
  - unfold is_retired_session in *. by rewrite sc_retired.
  - unfold recently_delivered in *. by rewrite sc_recent.
Qed.

Lemma note_receiver cfg sid rid mid u : receiver cfg sid rid mid u ->
  let v := note_peer_activity net u in
  receiver cfg sid rid mid v /\ v.2 = u.2 /\ ub_reassembly v.1 = ub_reassembly u.1 /\
  ub_last_fragment_us v.1 = ub_last_fragment_us u.1.
Proof.
  intros Hrc. pose proof Hrc as [Hrd [Hps Hpl Hpr] Hs Hi Hr Hr0 Hret Hf Hn]. cbn zeta.
  pose proof Hrd as [Hg Hc Hsid Hcl Ht].
  pose proof (note_peer_activity_good net cfg sid lan_bytes tx_ok u Hg) as Hg'.
  rewrite note_peer_activity_lan in * by done. split_and!; try done. constructor; try done.
  - constructor; try done; by destruct Hcl.
  - constructor; cbn; [done|lia|]. destruct (cf_times _ Hc) as (_ & ? & ?).
    rewrite (uk_config _ _ _ (proj1 Hg)). lia.
Qed.

(** A datagram of the peer's session, past the checks. *)
Lemma handle_datagram_lan cfg sid rid mid u d h : receiver cfg sid rid mid u ->
  datagram_of (udp_link_id cfg) rid d h ->
  handle_datagram net io_fuel d u =
    if type h =? SPW_VSPW_TP_KEEPALIVE then process_keepalive net h u else
    let u := note_peer_activity net u in
    let payload := drop (Z.to_nat SPW_VSPW_TP_HEADER_SIZE) d in
    if type h =? SPW_VSPW_TP_DATA then
      if SPW_UDP_BACKEND_MAX_PACKET_SIZE <? VspwTp.total_size h
      then (SPW_OK, uupd count_drop u) else process_data net io_fuel h payload u
    else if type h =? SPW_VSPW_TP_TIME_CODE then process_time_code net io_fuel h payload u
    else if type h =? SPW_VSPW_TP_ACK then process_ack h payload u
    else (SPW_OK, u).
Proof.
  intros Hrc [_ Hd Hsz Hl Hs]. pose proof Hrc as [Hrd _ _ _ Hr Hr0 _ _ _].
  unfold handle_datagram. rewrite Hd. cbv zeta.
  rewrite Hsz, Z.eqb_refl, Hl, (uk_config _ _ _ (proj1 (rd_good _ _ _ Hrd))), Z.eqb_refl.
  cbn [negb]. case_if; [done|]. rewrite Hr, (session_nonzero rid Hr0), Hs, Z.eqb_refl. done.
Qed.

Lemma handle_keepalive_lan cfg sid rid mid u d : receiver cfg sid rid mid u ->
  keepalive_datagram (udp_link_id cfg) rid d ->
  handle_datagram net io_fuel d u = (SPW_OK, note_peer_activity net u).
Proof.
  intros Hrc (h & Hd & Ht). rewrite (handle_datagram_lan cfg sid rid mid u d h Hrc Hd), Ht.
  cbn [Z.eqb SPW_VSPW_TP_KEEPALIVE Pos.eqb]. unfold process_keepalive, reset_remote_session.
  pose proof Hrc as [_ _ _ _ Hr Hr0 Hret _ _].
  by rewrite (do_session _ _ _ _ Hd), (session_nonzero rid Hr0), Hret, Hr, Z.eqb_refl.
Qed.

(** ** Delivery *)

(** The reader is offered [msg]. *)
Record handed (msg : list Z) (terminator : Z) b : Prop := {
  dv_valid : pp_valid (ub_pending b) = true;
  dv_size : pp_size (ub_pending b) = Z.of_nat (length msg);
  dv_terminator : pp_terminator (ub_pending b) = terminator;
  dv_bytes : mem_read (pp_data (ub_pending b)) 0 (length msg) = msg
}.

(** An acknowledgement of message [mid] for session [rid]. *)
Definition ack_datagram (link sid rid mid : Z) (d : list Z) : Prop :=
  exists h, datagram_of link sid d h /\ type h = SPW_VSPW_TP_ACK /\ VspwTp.message_id h = mid /\
    spw_vspw_tp_decode_ack_payload (Some (drop (Z.to_nat SPW_VSPW_TP_HEADER_SIZE) d)) (payload_size h) =
      Some rid.

Lemma acknowledge_lan cfg sid rid mid u : ready cfg sid u -> ub_remote_session_id u.1 = rid ->
  rid <> 0 -> u32_ok mid -> mid <> 0 ->
  exists a v, acknowledge net io_fuel SPW_VSPW_TP_DATA mid u = v /\ v.2 = posted [a] u.2 /\
    ready cfg sid v /\ ub_pending v.1 = ub_pending u.1 /\
    ack_datagram (udp_link_id cfg) sid rid mid a.
Proof.
  intros Hrd Hr Hr0 Hm Hm0. unfold acknowledge. set (u1 := uupd _ u).
  assert (ready cfg sid u1) as Hrd1.
  { destruct Hrd as [(Hb & Htx & Hw) Hc Hsid [? ? ?] Ht]. constructor; try done.
    - split_and!; [by apply remember_delivered_ok| |done]. unfold u1, uupd, remember_delivered.
      cbn [fst]. by case_if.
    - unfold u1, uupd, remember_delivered. cbn [fst]. by case_if. }
  assert (ub_remote_session_id u1.1 = rid /\ ub_pending u1.1 = ub_pending u.1) as [Hr1 Hp1].
  { unfold u1, uupd, remember_delivered. cbn [fst]. by case_if. }
  destruct (send_ack_lan peer io_fuel Hfuel cfg sid mid u1 Hrd1 Hm Hm0 ltac:(by rewrite Hr1))
    as (a & h & v & -> & Hp & Hrv & Hd & Hty & Hid & Hdec).
  exists a, v. split_and!; [done|by rewrite (po_world _ _ _ Hp)|done| |].
  - by rewrite (sc_pending _ _ (po_core _ _ _ Hp)).
  - exists h. rewrite Hr1 in Hdec. by split_and!.
Qed.

(** ** The parts of a packet *)

Section packet.
Context (cfg : spw_udp_config) (sid rid mid terminator : Z) (msg : list Z).
Context (Hmid : u32_ok mid) (Hmid0 : mid <> 0) (Hterm : valid_terminator terminator = true).
Context (Hmsg : Z.of_nat (length msg) <= SPW_UDP_BACKEND_MAX_PACKET_SIZE).
Abbreviation part := (packet_datagram (udp_link_id cfg) rid msg mid terminator).

(** The port has received the parts [fs]. *)
Definition assembling (fs : list (spw_vspw_tp_header * list Z)) u : Prop :=
  partial msg mid (terminator_flag terminator) true fs SPW_UDP_BACKEND_MAX_PACKET_SIZE
    (ub_reassembly u.1) /\
  (active (ub_reassembly u.1) = false \/ ub_last_fragment_us u.1 = lw_time u.2).

(** The packet was handed over and acknowledged with [a]. *)
Definition handed_over (a : list Z) u v : Prop :=
  v.2 = posted [a] u.2 /\ ready cfg sid v /\ handed msg terminator v.1 /\
  ack_datagram (udp_link_id cfg) sid rid mid a.

(** What is offered and acknowledged is handed over. *)
Lemma offer_lan data size u : ready cfg sid u -> ub_remote_session_id u.1 = rid -> rid <> 0 ->
  size = Z.of_nat (length msg) -> data = msg -> bytes_ok msg ->
  exists a v, acknowledge net io_fuel SPW_VSPW_TP_DATA mid
    (uupd (offer_packet data size terminator) u) = v /\ handed_over a u v.
Proof.
  intros Hrd Hr Hr0 -> -> Hb. set (u1 := uupd _ u).
  assert (ready cfg sid u1) as Hrd1.
  { destruct Hrd as [(Hk & Htx & Hw) Hc Hs [] Ht]. constructor; try done.
    split_and!; [|done|done]. apply offer_packet_ok; try done. lia. }
  destruct (acknowledge_lan cfg sid rid mid u1 Hrd1) as (a & v & -> & Hw & Hrv & Hp & Ha); try done.
  exists a, v. split_and!; [done|]. split_and!; [done|done| |done].
  constructor; rewrite Hp; try done. cbn. case_if; [apply mem_read_write_same|].
  assert (length msg = 0%nat) as H0 by lia. rewrite H0. by destruct msg.
Qed.

(** The checks in front of a part. *)
Lemma handle_part_lan u d : receiver cfg sid rid mid u -> part d ->
  handle_datagram net io_fuel d u =
    process_data net io_fuel (datagram_parts d).1 (datagram_parts d).2 (note_peer_activity net u).
Proof.
  intros Hrc (h & Hd & Hp). pose proof (datagram_header _ _ _ _ Hd) as Hh.
  rewrite (handle_datagram_lan cfg sid rid mid u d h Hrc Hd), <- Hh, (mp_type _ _ _ _ Hp).
  cbn [Z.eqb SPW_VSPW_TP_KEEPALIVE SPW_VSPW_TP_DATA Pos.eqb]. cbv zeta.
  rewrite (mp_total _ _ _ _ Hp). case_if; [lia|done].
Qed.

Lemma part_bytes d : part d -> bytes_ok (datagram_parts d).2.
Proof. intros (h & [Hb _ _ _ _] & _). by apply Forall_drop. Qed.

(** A packet in one datagram is handed over. *)
Lemma handle_whole_lan u d : receiver cfg sid rid mid u -> part d -> whole (datagram_parts d) = true ->
  exists a v, handle_datagram net io_fuel d u = (SPW_OK, v) /\ handed_over a u v.
Proof.
  intros Hrc Hd Hwh. rewrite (handle_part_lan u d Hrc Hd). pose proof (part_bytes d Hd) as Hbytes.
  destruct Hd as (h & _ & Hp). destruct (note_receiver cfg sid rid mid u Hrc) as (Hrn & Hw & _).
  revert Hrn Hw. generalize (note_peer_activity net u). intros n Hrn Hw.
  apply andb_prop in Hwh as [_ Hwh%Z.eqb_eq].
  destruct (header_ids _ (mp_range _ _ _ _ Hp)) as (_ & _ & Hps & _).
  assert ((datagram_parts d).2 = msg) as Hmsg'.
  { apply (part_whole _ _ _ _ Hp Hwh). pose proof (mp_range _ _ _ _ Hp) as Hr.
    unfold header_in_range, in_width in Hr. split_andb. lia. }
  unfold process_data. cbv zeta. rewrite (mp_ack _ _ _ _ Hp), (mp_id _ _ _ _ Hp), (rc_new _ _ _ _ _ Hrn).
  cbn [andb]. rewrite Hwh, Z.eqb_refl. unfold process_whole. cbv zeta.
  rewrite (rc_free _ _ _ _ _ Hrn), (mp_ack _ _ _ _ Hp), (mp_terminator _ _ _ _ Hp), (mp_id _ _ _ _ Hp), Hmsg'.
  pose proof (mp_total _ _ _ _ Hp) as Htot. rewrite Hwh, Htot, Nat2Z.id.
  destruct (offer_lan (mem_read msg 0 (length msg)) (Z.of_nat (length msg)) n) as (a & v & -> & Ho);
    [apply Hrn|apply Hrn|apply Hrn|done| |by rewrite <- Hmsg'|].
  - by rewrite mem_read_0_take, take_ge.
  - exists a, v. split; [done|]. destruct Ho as (Hwv & Ho). split; [by rewrite <- Hw|done].
Qed.
Abbreviation fragment := (fragment_of msg mid (terminator_flag terminator) true).

Lemma push_active r f : stored_result (push_one r f).1 -> active (push_one r f).2 = true.
Proof.
  unfold push_one, spw_fragment_reassembler_push. case_if; [by intros [|[|]]|].
  case_if; [by intros [|[|]]|]. cbv zeta. destruct (store_fragment _ _ _ _); [|by intros [|[|]]].
  intros _. cbn. by destruct (active r) eqn:Ha.
Qed.

Lemma fragments_not_whole fs : Forall fragment fs -> existsb whole fs = false.
Proof.
  intros Hfs. rewrite Forall_forall in Hfs. apply not_true_iff_false.
  intros (f & Hin & Hw)%existsb_exists. apply list_elem_of_In in Hin.
  pose proof (Hfs f Hin) as [_ _ _ Hp _ _ _ _ _]. unfold whole in Hw. lia.
Qed.

(** What has not completed the reassembly does not make up the packet. *)
Lemma incomplete_partial fs cap r : partial msg mid (terminator_flag terminator) true fs cap r ->
  Forall fragment fs ->
  ~ ((forall j, 0 <= j < Z.of_nat (length msg) -> is_Some (content_of r j)) /\
     seen_start r = true /\ seen_end r = true) -> ~ complete msg fs.
Proof.
  intros [_ _ Hcon Hst Hen _] Hfs Hn [Hc|(Hc & Hs & He)].
  - by rewrite fragments_not_whole in Hc.
  - apply Hn. rewrite Hst, Hen. split_and!; try done. intros j Hj. rewrite Hcon by lia.
    by rewrite Hc.
Qed.

(** A proper fragment belongs to a packet that has bytes. *)
Lemma part_proper d : part d -> whole (datagram_parts d) = false ->
  fragment (datagram_parts d) /\ (0 < length msg)%nat /\
  (VspwTp.total_size (datagram_parts d).1 =? payload_size (datagram_parts d).1) = false.
Proof.
  intros (h & _ & Hp) Hwh. unfold whole in Hwh. rewrite (mp_type _ _ _ _ Hp), Z.eqb_refl in Hwh.
  cbn [andb] in Hwh. apply Z.eqb_neq in Hwh. split_and!; [by apply part_fragment| |lia].
  pose proof (mp_total _ _ _ _ Hp). pose proof (mp_inside _ _ _ _ Hp).
  pose proof (mp_range _ _ _ _ Hp) as Hr. unfold header_in_range, in_width in Hr. split_andb. lia.
Qed.

(** The assembled packet is handed over. *)
Lemma deliver_assembled_lan fs u : receiver cfg sid rid mid u ->
  partial msg mid (terminator_flag terminator) true fs SPW_UDP_BACKEND_MAX_PACKET_SIZE
    (ub_reassembly u.1) ->
  active (ub_reassembly u.1) = true ->
  (forall j, 0 <= j < Z.of_nat (length msg) -> is_Some (content_of (ub_reassembly u.1) j)) ->
  exists a v, deliver_assembled net io_fuel u = (SPW_OK, v) /\ handed_over a u v.
Proof.
  intros Hrc Hpa Hact Hall. destruct (pa_id _ _ _ _ _ _ _ Hpa Hact) as (Hid & Htot & Htf & Hack).
  pose proof (partial_data _ _ _ _ _ _ _ Hpa Hall) as Hdata.
  destruct (data_flags_spec terminator true true Hterm) as (_ & _ & _ & _ & _ & Hte).
  unfold deliver_assembled. cbv zeta. rewrite (rc_free _ _ _ _ _ Hrc), Hack, Hid, Htot, Htf, Hte, Nat2Z.id, Hdata.
  pose proof (rc_ready _ _ _ _ _ Hrc) as [(Hb & Htx & Hw) Hc Hs Hcl Ht].
  assert (bytes_ok msg) as Hbytes by (rewrite <- Hdata; apply bytes_ok_read, (uk_reassembly _ _ _ Hb)).
  destruct (offer_lan msg (Z.of_nat (length msg)) (uupd clear_reassembly u)) as (a & v & Hv & Ho); try done.
  - constructor; try done; [|by destruct Hcl]. split_and!; [by apply clear_reassembly_ok|done|done].
  - apply Hrc.
  - apply Hrc.
  - exists a, v. split; [|done]. f_equal. exact Hv.
Qed.

(** A state in which nothing but the reassembly has moved is still receiving. *)
Lemma receiver_reassembly r l u : receiver cfg sid rid mid u -> reassembly_ok r -> u64_ok l ->
  receiver cfg sid rid mid (uupd (set_ub_last_fragment_us l) (uupd (set_ub_reassembly r) u)).
Proof.
  intros [[(Hb & Htx & Hw) Hc Hs [] Ht] [] ? ? ? ? ? ? ?] Hr Hl. constructor; try done.
  constructor; try done. split_and!; [|done|done].
  apply set_last_fragment_ok; [|done]. by apply set_assembly_ok.
Qed.

(** A fragment is stored; the one that completes the packet has it handed over. *)
Lemma handle_fragment_lan fs u d : receiver cfg sid rid mid u -> assembling fs u ->
  Forall fragment fs -> part d -> whole (datagram_parts d) = false ->
  exists v, handle_datagram net io_fuel d u = (SPW_OK, v) /\
    ((exists a, handed_over a u v) \/
     receiver cfg sid rid mid v /\ v.2 = u.2 /\ assembling (fs ++ [datagram_parts d]) v /\
     Forall fragment (fs ++ [datagram_parts d]) /\ ~ complete msg (fs ++ [datagram_parts d])).
Proof.
  intros Hrc [Hpa Hfresh] Hfs Hd Hwh. rewrite (handle_part_lan u d Hrc Hd).
  pose proof (part_bytes d Hd) as Hbytes. destruct (part_proper d Hd Hwh) as (Hf & Hlen & Hne).
  destruct Hd as (h & _ & Hp). destruct (note_receiver cfg sid rid mid u Hrc) as (Hrn & Hw & Hre & Hlf).
  rewrite <- Hre in Hpa. rewrite <- Hre, <- Hlf, <- Hw in Hfresh. clear Hre Hlf.
  revert Hrn Hw Hpa Hfresh. generalize (note_peer_activity net u). intros n Hrn Hw Hpa Hfresh.
  set (f := datagram_parts d) in *.
  destruct (partial_push msg mid (terminator_flag terminator) true fs SPW_UDP_BACKEND_MAX_PACKET_SIZE
    (ub_reassembly n.1) f Hpa Hf Hmid0 Hlen Hmsg) as (Hres & Hpa2 & Hcomp).
  pose proof (push_active _ _ Hres) as Hact. pose proof (rc_ready _ _ _ _ _ Hrn) as [(Hbn & _) Hc _ _ Htn].
  pose proof (reassembly_push_ok _ f.1 f.2 (uk_reassembly _ _ _ Hbn) (mp_range _ _ _ _ Hp) Hbytes) as Hrok.
  fold (push_one (ub_reassembly n.1) f) in Hrok.
  unfold process_data. cbv zeta. rewrite (mp_ack _ _ _ _ Hp), (mp_id _ _ _ _ Hp), (rc_new _ _ _ _ _ Hrn).
  cbn [andb]. rewrite Hne, expire_reassembly_fresh by first [done|by rewrite (uk_config _ _ _ Hbn)].
  fold (push_one (ub_reassembly n.1) f). destruct (push_one (ub_reassembly n.1) f) as [res r'].
  cbn [fst snd] in *. pose proof (receiver_reassembly r' (lw_time n.2) n Hrn Hrok Htn) as Hrv.
  rewrite now_us_lan by done.
  assert (Forall fragment (fs ++ [f])) as Hall by (apply Forall_app; split; [done|by constructor]).
  set (v := uupd (set_ub_last_fragment_us (lw_time (uupd (set_ub_reassembly r') n).2)) _).
  assert (res = REASSEMBLY_COMPLETE \/ res <> REASSEMBLY_COMPLETE /\
    ~ complete msg (fs ++ [f])) as [->|[Hnc Hinc]].
  { destruct res; first [by left|right; split; [done|]]; eapply incomplete_partial; try done;
      intros Hx; by apply Hcomp in Hx. }
  - destruct (deliver_assembled_lan (fs ++ [f]) v Hrv Hpa2 Hact) as (a & x & -> & Hx); [by apply Hcomp|].
    exists x. split; [done|]. left. exists a. destruct Hx as (Hwx & Hx). split; [by rewrite <- Hw|done].
  - exists v. assert (assembling (fs ++ [f]) v) as Hasv by (split; [done|by right]).
    destruct Hres as [-> |[-> | ->]]; [| |done]; (split; [done|right; by split_and!]).
Qed.
(** ** The receive loop *)

Lemma complete_skip fs f rest : whole f = false -> (forall i, in_fragment i f = false) ->
  frag_start f.1 = false -> frag_end f.1 = false ->
  complete msg (fs ++ f :: rest) -> complete msg (fs ++ rest).
Proof.
  intros Hw Hi Hs He. unfold complete. rewrite !existsb_app. cbn [existsb]. rewrite Hw, Hs, He.
  intros [H|(H1 & H2 & H3)]; [by left|right]. split_and!; try done. intros i Hin.
  specialize (H1 i Hin). rewrite existsb_app in *. cbn [existsb] in H1. by rewrite Hi in H1.
Qed.

Lemma service_idle u : u64_ok (lw_time u.2) -> pt_kind (ub_tx u.1) = SPW_UDP_PENDING_NONE ->
  service_pending_tx net io_fuel u = (SPW_OK, u).
Proof. intros Ht Hk. unfold service_pending_tx. rewrite now_us_lan by done. by rewrite Hk. Qed.

(** The packet has been received and [a], an acknowledgement, sent. *)
Definition received_packet (a : list Z) u v : Prop :=
  ready cfg sid v /\ handed msg terminator v.1 /\ ack_datagram (udp_link_id cfg) sid rid mid a /\
  exists new, lw_outbox v.2 = lw_outbox u.2 ++ new ++ [a].

Lemma handed_over_received a ks rest u v x : posts ks u v -> handed_over a (popped rest v) x ->
  received_packet a u x.
Proof.
  intros Hp (Hw & Hrd & Hd & Ha). split_and!; try done. exists ks. rewrite Hw. cbn.
  rewrite (po_world _ _ _ Hp). cbn. by rewrite app_assoc.
Qed.

Lemma received_later a ks rest u v x y : posts ks u v -> x.2 = (popped rest v).2 ->
  received_packet a x y -> received_packet a u y.
Proof.
  intros Hp Hw (Hrd & Hd & Ha & new & Ho). split_and!; try done. exists (ks ++ new).
  rewrite Ho, Hw. cbn. rewrite (po_world _ _ _ Hp). cbn. by rewrite !app_assoc.
Qed.

(** One turn of the loop: a keepalive, a fragment that does not complete the
    packet, or the delivery. *)
Lemma receive_turn fs d rest u : receiver cfg sid rid mid u -> assembling fs u -> Forall fragment fs ->
  from_peer cfg -> lw_inbox u.2 = d :: rest -> keepalive_datagram (udp_link_id cfg) rid d \/ part d ->
  complete msg (fs ++ datagram_parts d :: (datagram_parts <$> rest)) -> ~ complete msg fs ->
  exists ks w v, posts ks u w /\ pump_one net io_fuel SPW_TIMEOUT_INFINITE u = (SPW_OK, v) /\
    ((exists a, handed_over a (popped rest w) v) \/
     exists fs', receiver cfg sid rid mid v /\ v.2 = (popped rest w).2 /\ assembling fs' v /\
       Forall fragment fs' /\ ~ complete msg fs' /\ complete msg (fs' ++ (datagram_parts <$> rest))).
Proof.
  intros Hrc [Hpa Hfr] Hfs Hfp Hi Hd Hco Hnc.
  assert (Z.of_nat (length d) <= SPW_VSPW_TP_MAX_UDP_PAYLOAD) as Hl
    by (destruct Hd as [(h & Hd & _)|(h & Hd & _)]; by eapply datagram_length).
  destruct (pump_one_lan cfg sid SPW_TIMEOUT_INFINITE d rest u (rc_ready _ _ _ _ _ Hrc) Hfp Hi Hl)
    as (ks & w & Hp & Hrw & ->).
  pose proof (receiver_moved _ _ _ _ _ rest u w Hrc Hp Hrw) as Hrc'.
  assert (assembling fs (popped rest w)) as Has.
  { unfold assembling, popped. cbn [fst snd lw_time].
    by rewrite (sc_reassembly _ _ (po_core _ _ _ Hp)), (sc_last_fragment _ _ (po_core _ _ _ Hp)),
      (posts_time _ _ _ Hp). }
  exists ks, w. destruct Hd as [Hd|Hd].
  - rewrite (handle_keepalive_lan _ _ _ _ _ _ Hrc' Hd).
    destruct (note_receiver _ _ _ _ _ Hrc') as (Hrn & Hw & Hre & Hlf).
    destruct (keepalive_no_part _ _ _ Hd) as (H1 & H2 & H3 & H4).
    eexists. split_and!; [done|done|]. right. exists fs. split_and!; try done.
    + unfold assembling in *. by rewrite Hre, Hlf, Hw.
    + by eapply complete_skip.
  - destruct (whole (datagram_parts d)) eqn:Hwh.
    + destruct (handle_whole_lan _ d Hrc' Hd Hwh) as (a & v & -> & Hv). exists v.
      split_and!; [done|done|]. left. by exists a.
    + destruct (handle_fragment_lan fs _ d Hrc' Has Hfs Hd Hwh)
        as (v & -> & [Hv|(Hrv & Hw & Hasv & Hfs' & Hnc')]); exists v; (split_and!; [done|done|]);
        [by left|right]. exists (fs ++ [datagram_parts d]). split_and!; try done.
      by rewrite <- app_assoc.
Qed.

Abbreviation forever := {| dl_infinite := true; dl_end_us := UINT64_MAX |}.

(** The parts may arrive in any order and any number of times. *)
Lemma receive_loop_lan : forall arr fs fuel u, receiver cfg sid rid mid u -> assembling fs u ->
  Forall fragment fs -> ~ complete msg fs -> from_peer cfg -> lw_inbox u.2 = arr ->
  Forall (fun d => keepalive_datagram (udp_link_id cfg) rid d \/ part d) arr ->
  complete msg (fs ++ (datagram_parts <$> arr)) -> (length arr < fuel)%nat ->
  exists a v, receive_loop net io_fuel fuel no_packet forever SPW_TIMEOUT_INFINITE u = (SPW_OK, v) /\
    received_packet a u v.
Proof.
  induction arr as [|d rest IH]; intros fs fuel u Hrc Has Hfs Hnc Hfp Hi Hall Hco Hf.
  { cbn in Hco. by rewrite app_nil_r in Hco. }
  apply Forall_cons in Hall as [Hd Hall]. destruct fuel as [|fuel]; [lia|].
  destruct (receive_turn fs d rest u Hrc Has Hfs Hfp Hi Hd Hco Hnc) as (ks & w & v & Hp & Hpump & Hv).
  cbn [receive_loop]. unfold no_packet at 1. rewrite (rc_free _ _ _ _ _ Hrc). cbn [negb].
  rewrite service_idle by first [apply Hrc|apply (rd_time _ _ _ (rc_ready _ _ _ _ _ Hrc))].
  cbn [Z.eqb SPW_OK SPW_ERR_LINK_UNAVAILABLE]. change (deadline_remaining net forever u) with (SPW_TIMEOUT_INFINITE, u).
  cbn iota. rewrite Hpump. cbn [may_go_on Z.eqb SPW_OK orb negb]. unfold no_packet at 1.
  destruct Hv as [(a & Hv)|(fs' & Hrv & Hw & Hasv & Hfs' & Hnc' & Hco')].
  - exists a, v. assert (pp_valid (ub_pending v.1) = true) as Hvalid by (apply Hv). rewrite Hvalid. cbn [negb].
    split; [|by eapply handed_over_received]. destruct fuel; cbn [receive_loop]; unfold no_packet at 1;
      by rewrite Hvalid.
  - rewrite (rc_free _ _ _ _ _ Hrv). cbn [negb]. change (deadline_expired net forever v) with (false, v).
    cbn iota. cbn [orb Z.eqb SPW_TIMEOUT_INFINITE SPW_TIMEOUT_IMMEDIATE].
    destruct (IH fs' fuel v Hrv Hasv Hfs' Hnc' Hfp) as (a & y & -> & Hy); [by rewrite Hw|done|done|cbn in Hf; lia|].
    exists a, y. split; [done|]. by eapply received_later.
Qed.

Lemma nothing_incomplete : ~ complete msg [].
Proof. intros [H|(_ & H & _)]; done. Qed.

(** A receive gets the packet as it was sent. *)
Lemma udp_receive_lan arr q u : receiver cfg sid rid mid u -> active (ub_reassembly u.1) = false ->
  from_peer cfg -> lw_inbox u.2 = arr ->
  Forall (fun d => keepalive_datagram (udp_link_id cfg) rid d \/ part d) arr ->
  complete msg (datagram_parts <$> arr) -> (length arr < io_fuel)%nat ->
  rx_packet_ok q = true -> Z.of_nat (length msg) <= pkt_capacity q ->
  exists a q' v new, udp_receive net io_fuel u q SPW_TIMEOUT_INFINITE = (SPW_OK, q', v) /\
    packet_payload q' = msg /\ pkt_length q' = Z.of_nat (length msg) /\
    pkt_terminator q' = terminator /\ ack_datagram (udp_link_id cfg) sid rid mid a /\
    lw_outbox v.2 = lw_outbox u.2 ++ new ++ [a].
Proof.
  intros Hrc Hina Hfp Hi Hall Hco Hf Hq Hcap. pose proof Hrc as [[(Hb & _) Hc _ _ Ht] Hpc Hs _ _ _ _ _ _].
  pose proof (uk_reassembly _ _ _ Hb) as [Hwf Hcapr _ _].
  assert (assembling [] u) as Has.
  { split; [|by left]. rewrite <- Hcapr. by apply partial_fresh. }
  destruct (receive_loop_lan arr [] io_fuel u Hrc Has (Forall_nil_2 _) nothing_incomplete Hfp Hi Hall Hco Hf)
    as (a & v & Hl & Hrd & Hd & Ha & new & Ho).
  unfold udp_receive, await. change (deadline_make net SPW_TIMEOUT_INFINITE u) with (forever, u).
  cbn iota. change (deadline_remaining net forever u) with (SPW_TIMEOUT_INFINITE, u). cbn iota.
  rewrite ensure_peer_lan by (done || by left).
  rewrite expire_reassembly_fresh by first [done|by rewrite (uk_config _ _ _ Hb)|by left].
  assert (uupd (set_ub_state SPW_LINK_RUN) u = u) as ->
    by (unfold uupd; rewrite <- Hs, set_state_same; by destruct u).
  cbn [negb Z.eqb SPW_OK andb]. rewrite Hl. cbn [negb Z.eqb SPW_OK]. cbv zeta.
  destruct Hd as [_ Hsize Hte Hbytes]. rewrite Hsize, Hte, Nat2Z.id, Hbytes. cbn [set_packet_shape pkt_capacity pkt_data].
  unfold rx_packet_ok in Hq. destruct (pkt_capacity q <? _) eqn:E1; [lia|]. cbn [orb].
  destruct (Z.of_nat (length msg) =? 0) eqn:E2; cbn [negb andb].
  - eexists a, _, _, new. split; [done|]. split_and!; try done. unfold packet_payload. cbn. rewrite Nat2Z.id.
    assert (length msg = 0%nat) as Hz by lia. rewrite Hz. by destruct msg.
  - destruct (pkt_data q) as [bs|] eqn:Eq; [|lia]. cbn [non_null negb].
    eexists a, _, _, new. split; [done|]. split_and!; try done. unfold packet_payload.
    cbn [set_packet_bytes set_packet_shape pkt_length pkt_data]. rewrite Eq, Nat2Z.id. cbn.
    apply mem_read_write_same.
Qed.

End packet.
(** ** The acknowledgement *)

Lemma note_peer_activity_tx u : ub_tx (note_peer_activity net u).1 = ub_tx u.1.
Proof.
  unfold note_peer_activity.
  pose proof (now_us_core net _ (uupd (set_ub_peer_seen true) u) (core_refl _)) as H.
  destruct (now_us net _) as [n v]. pose proof (sc_tx _ _ H) as Ht. by case_if.
Qed.

Lemma note_peer_activity_world u : u64_ok (lw_time u.2) -> (note_peer_activity net u).2 = u.2.
Proof. intros Ht. unfold note_peer_activity. rewrite now_us_lan by done. by case_if. Qed.

Lemma refresh_peer_state_tx u : ub_tx (refresh_peer_state net u).1 = ub_tx u.1.
Proof.
  unfold refresh_peer_state. set (v := expire_reassembly net u).
  assert (ub_tx v.1 = ub_tx u.1) as <-.
  { unfold v, expire_reassembly. pose proof (now_us_core net _ u (core_refl _)) as H.
    destruct (now_us net u) as [n x]. pose proof (sc_tx _ _ H). cbv zeta. by repeat case_if. }
  pose proof (peer_is_current_core net _ v (core_refl _)) as H.
  destruct (peer_is_current net v) as [c x]. pose proof (sc_tx _ _ H) as Hx. cbn [snd] in Hx.
  repeat case_if; try done. rewrite <- Hx. unfold uupd, mark_peer_lost. cbn [fst]. by case_if.
Qed.

(** The acknowledgement frees the slot of the sender. *)
Lemma handle_ack_lan cfg sid rid mid u a : ready cfg sid u -> ub_remote_session_id u.1 = rid ->
  rid <> 0 -> pt_kind (ub_tx u.1) <> SPW_UDP_PENDING_NONE -> pt_message_id (ub_tx u.1) = mid ->
  ack_datagram (udp_link_id cfg) rid sid mid a ->
  handle_datagram net io_fuel a u = (SPW_OK, uupd clear_pending_tx (note_peer_activity net u)).
Proof.
  intros Hrd Hr Hr0 Hk Hm (h & [_ Hd Hsz Hl Hs] & Hty & Hid & Hdec).
  pose proof (rd_good _ _ _ Hrd) as (Hb & _). unfold handle_datagram. rewrite Hd. cbv zeta.
  rewrite Hsz, Z.eqb_refl, Hl, (uk_config _ _ _ Hb), Z.eqb_refl, Hty. cbn [negb Z.eqb SPW_VSPW_TP_ACK
    SPW_VSPW_TP_KEEPALIVE SPW_VSPW_TP_DATA SPW_VSPW_TP_TIME_CODE Pos.eqb].
  rewrite Hr, (session_nonzero rid Hr0), Hs, Z.eqb_refl. cbn [orb negb].
  unfold process_ack. rewrite Hdec, note_peer_activity_tx, Hid, Hm, Z.eqb_refl.
  pose proof (note_peer_activity_good net cfg sid lan_bytes tx_ok u (rd_good _ _ _ Hrd)) as (Hbn & _).
  rewrite (proj1 (uk_session _ _ _ Hbn)), Z.eqb_refl. cbn [negb].
  by destruct (pt_kind (ub_tx u.1) =? SPW_UDP_PENDING_NONE) eqn:E; [lia|].
Qed.

(** The next poll of the link reads it. *)
Lemma link_state_frees cfg sid rid mid u a rest : ready cfg sid u -> from_peer cfg ->
  ub_state u.1 = SPW_LINK_RUN -> ub_remote_session_id u.1 = rid -> rid <> 0 ->
  pt_kind (ub_tx u.1) <> SPW_UDP_PENDING_NONE -> pt_message_id (ub_tx u.1) = mid ->
  ack_datagram (udp_link_id cfg) rid sid mid a -> lw_inbox u.2 = a :: rest ->
  pt_kind (ub_tx (udp_get_link_state net io_fuel u 0).2.1) = SPW_UDP_PENDING_NONE.
Proof.
  intros Hrd Hfp Hs Hr Hr0 Hk Hm Ha Hi. unfold udp_get_link_state. rewrite Hs. cbn [keeps_alive Z.eqb
    SPW_LINK_RUN SPW_LINK_CONNECTING Pos.eqb orb]. cbv zeta. cbn [snd].
  destruct (maybe_send_keepalive_lan cfg sid u Hrd) as (ks & v & -> & Hp & Hrv).
  destruct Ha as (h & Hd & Hrest).
  assert (lw_inbox v.2 = a :: rest) as Hi' by (by rewrite (po_world _ _ _ Hp)).
  destruct (pump_one_lan cfg sid SPW_TIMEOUT_IMMEDIATE a rest v Hrv Hfp Hi' (datagram_length _ _ _ _ Hd))
    as (ks' & w & Hp' & Hrw & ->).
  pose proof (posts_trans _ _ _ _ _ Hp Hp') as Hpp. pose proof (po_core _ _ _ Hpp) as Hcore.
  rewrite (handle_ack_lan cfg sid rid mid _ a Hrw); first last.
  - by exists h.
  - cbn. by rewrite (sc_tx _ _ Hcore).
  - cbn. by rewrite (sc_tx _ _ Hcore).
  - done.
  - cbn. by rewrite (sc_remote _ _ Hcore).
  - rewrite service_idle; [by rewrite refresh_peer_state_tx| |done].
    cbn [uupd snd]. rewrite note_peer_activity_world; apply Hrw.
Qed.

(** What has arrived at a port. *)
Definition with_inbox (arrived : list (list Z)) u : @udp lan_world :=
  (u.1, {| lw_time := lw_time u.2; lw_inbox := arrived; lw_outbox := lw_outbox u.2 |}).

Lemma receiver_inbox cfg sid rid mid arr u : receiver cfg sid rid mid u -> Forall bytes_ok arr ->
  receiver cfg sid rid mid (with_inbox arr u).
Proof.
  intros [[(Hb & Htx & Hw) ? ? ? ?] [] ? ? ? ? ? ? ?] Ha. constructor; try done.
Qed.

Lemma complete_incl msg fs gs : complete msg fs -> (forall f, In f fs -> In f gs) -> complete msg gs.
Proof.
  intros Hc Hin. assert (forall P, existsb P fs = true -> existsb P gs = true) as He.
  { intros P (f & Hf & HP)%existsb_exists. apply existsb_exists. eauto. }
  destruct Hc as [H|(H1 & H2 & H3)]; [left; auto|right]. split_and!; auto.
Qed.

Lemma tx_packet_terminator p : tx_packet_ok p = true -> valid_terminator (pkt_terminator p) = true.
Proof.
  unfold tx_packet_ok. intros Hp. apply andb_prop in Hp as [Hp _]. by apply andb_prop in Hp as [_ ?].
Qed.
End receiving.

(** C2. A packet over UDP, end to end. A port in touch with its peer, without
    virtual delay or faults, sends a packet: the send succeeds and hands a list of
    datagrams to the network. Let them reach the peer in any order and any number
    of times, each at least once: a receive of the peer returns the packet as it
    was sent, its bytes, length and terminator, and sends an acknowledgement that,
    when the sender next polls its link, frees the transmit slot. *)
Theorem packet_over_udp peerA peerB io_fuel cfgA cfgB sA sB A B p t :
  (0 < io_fuel)%nat -> sender cfgA sA A -> ub_remote_session_id A.1 = sB -> sB <> 0 ->
  from_peer peerA cfgA -> from_peer peerB cfgB -> udp_link_id cfgA = udp_link_id cfgB ->
  tx_packet_ok p = true -> bytes_ok (default [] (pkt_data p)) ->
  pkt_length p <= SPW_UDP_BACKEND_MAX_PACKET_SIZE ->
  exists A' sent, udp_send (lan peerA) io_fuel A p t = (SPW_OK, A') /\ A'.2 = posted sent A.2 /\
  forall arrived q, receiver cfgB sB sA (pt_message_id (ub_tx A'.1)) B ->
    active (ub_reassembly B.1) = false ->
    (forall d, In d arrived <-> In d sent) -> (length arrived < io_fuel)%nat ->
    rx_packet_ok q = true -> pkt_length p <= pkt_capacity q ->
    exists a q' B' new,
      udp_receive (lan peerB) io_fuel (with_inbox arrived B) q SPW_TIMEOUT_INFINITE = (SPW_OK, q', B') /\
      packet_payload q' = packet_payload p /\ pkt_length q' = pkt_length p /\
      pkt_terminator q' = pkt_terminator p /\ lw_outbox B'.2 = lw_outbox B.2 ++ new ++ [a] /\
      pt_kind (ub_tx (udp_get_link_state (lan peerA) io_fuel (with_inbox [a] A') 0).2.1) =
        SPW_UDP_PENDING_NONE.
Proof.
  intros Hf HA Hrem HsB HpA HpB Hlink Hp Hb Hl.
  destruct (udp_send_lan peerA io_fuel Hf cfgA sA A p t HA Hp Hb Hl) as (ka & ds & A' & mid & -> & Hw &
    HrA & Hm0 & Hm & Hka & Hds & Hco & Hk & Hid & HremA & HstA).
  exists A', (ka :: ds). split_and!; [done|done|]. intros arr q HB Hina Harr Hlen Hq Hcap. rewrite Hid in HB.
  assert (Z.of_nat (length (packet_payload p)) = pkt_length p) as Hpl.
  { unfold packet_payload, tx_packet_ok in *. rewrite length_mem_read. split_andb. lia. }
  assert (Forall (fun d => keepalive_datagram (udp_link_id cfgB) sA d \/
    packet_datagram (udp_link_id cfgB) sA (packet_payload p) mid (pkt_terminator p) d) arr) as Hall.
  { apply Forall_forall. intros d Hd%list_elem_of_In%Harr. rewrite <- Hlink.
    destruct Hd as [<-|Hd]; [by left|right]. rewrite Forall_forall in Hds. apply Hds.
    by apply list_elem_of_In. }
  destruct (udp_receive_lan peerB io_fuel Hf cfgB sB sA mid (pkt_terminator p) (packet_payload p) Hm Hm0
    (tx_packet_terminator p Hp) ltac:(lia) arr q (with_inbox arr B))
    as (a & q' & B' & new & Hr & Hpay & Hlq & Htq & Ha & Ho); try done.
  - apply receiver_inbox; [done|]. eapply Forall_impl; [exact Hall|].
    intros d [(h & [] & _)|(h & [] & _)]; done.
  - eapply complete_incl; [exact Hco|]. intros f Hin. apply in_map_iff in Hin as (d & <- & Hd).
    apply in_map, Harr. by right.
  - lia.
  - exists a, q', B', new. split_and!; try done; [lia|].
    apply (link_state_frees peerA io_fuel Hf cfgA sA sB mid _ a []); try done;
      cbn [with_inbox fst]; [|congruence|by rewrite Hk|by rewrite Hlink].
    destruct HrA as [(HbA & HtA & HwA) ? ? ? ?]. constructor; try done. split_and!; try done.
    constructor; [|constructor]. destruct Ha as (h & [] & _). done.
Qed.

(** C37. A message whose retries are used up blocks the port while its peer counts
    as alive: however often the caller sends, and whatever has arrived at the
    socket meanwhile, every send fails with SPW_ERR_LINK_UNAVAILABLE, the message
    stays in the only transmit slot, and each attempt counts one more link error
    for it, because the live peer brings the link back to RUN in between. *)
Theorem given_up_counts_again peer io_fuel p t n : forall u,
  given_up u -> tx_packet_ok p = true -> pkt_length p <= SPW_UDP_BACKEND_MAX_PACKET_SIZE ->
  (0 < io_fuel)%nat -> u64_ok (link_errors (ub_statistics u.1)) ->
  let '(rs, u') := run_calls (UDP_OPS (lan peer) io_fuel) u (replicate n (CallSend p t)) in
  rs = replicate n (SPW_ERR_LINK_UNAVAILABLE, OutNone) /\
  pt_kind (ub_tx u'.1) <> SPW_UDP_PENDING_NONE /\
  pt_message_id (ub_tx u'.1) = pt_message_id (ub_tx u.1) /\
  link_errors (ub_statistics u'.1) = u64 (link_errors (ub_statistics u.1) + Z.of_nat n).
Proof.
  induction n as [|n IH]; intros u Hu Hp Hl Hf He; cbn [replicate run_calls].
  { split_and!; [done|apply Hu|done|]. by rewrite Z.add_0_r, (wrap_small 64). }
  cbn [do_call UDP_OPS op_send].
  pose proof (send_given_up peer io_fuel p t u Hu Hp Hl Hf) as H.
  destruct (udp_send (lan peer) io_fuel u p t) as [r u1]. destruct H as (-> & Hu1 & Hm & Hl1).
  specialize (IH u1 Hu1 Hp Hl Hf). rewrite Hl1 in IH. specialize (IH (u64_ok_wrap _)).
  destruct (run_calls _ u1 _) as [rs u2]. destruct IH as (-> & Hk & Hm2 & He2).
  split_and!; [done|done|congruence|]. rewrite He2. unfold wrap.
  rewrite Zplus_mod_idemp_l. f_equal. lia.
Qed.

(** ** Witnesses *)

(** The port some milliseconds later. *)
Definition later (ms : Z) (u : @udp lan_world) : @udp lan_world :=
  (u.1, {| lw_time := lw_time u.2 + ms * 1000; lw_inbox := lw_inbox u.2; lw_outbox := lw_outbox u.2 |}).

(** Three retries of a packet that nobody acknowledges. *)
Definition udp_given_up_port : @udp lan_world :=
  let poll u := (udp_get_link_state (lan udp_peer) 4 (later 60 u) 0).2 in
  let sent := (udp_send (lan udp_peer) 4 udp_sample_port udp_sample_packet SPW_TIMEOUT_INFINITE).2 in
  later 60 (poll (poll (poll sent))).

Lemma given_up_counts_again_witness :
  let '(rs, u') := run_calls (UDP_OPS (lan udp_peer) 4) udp_given_up_port
                     (replicate 3 (CallSend udp_sample_packet SPW_TIMEOUT_INFINITE)) in
  rs = replicate 3 (SPW_ERR_LINK_UNAVAILABLE, OutNone) /\
  pt_kind (ub_tx u'.1) <> SPW_UDP_PENDING_NONE /\
  pt_message_id (ub_tx u'.1) = pt_message_id (ub_tx udp_given_up_port.1) /\
  link_errors (ub_statistics u'.1) = u64 (link_errors (ub_statistics udp_given_up_port.1) + 3).
Proof.
  apply (given_up_counts_again udp_peer 4 udp_sample_packet SPW_TIMEOUT_INFINITE 3 udp_given_up_port).
  - constructor; [by vm_compute|constructor; by vm_compute|left; by vm_compute|by vm_compute..].
  - by vm_compute.
  - by vm_compute.
  - lia.
  - by vm_compute.
Defined.

(** Two ports that have started and seen each other's keepalive. *)
Definition udp_config_b : spw_udp_config :=
  {| udp_struct_size := 400; udp_version := SPW_UDP_CONFIG_VERSION; local_address := [49; 0];
     local_port := 5001; remote_address := [49; 0]; remote_port := 5000; udp_link_id := 7;
     fragment_payload_size := 1400; max_retries := 3; ack_timeout_ms := 50;
     keepalive_interval_ms := 100; peer_timeout_ms := 1000; virtual_link_bps := 0;
     virtual_latency_us := 0; fault_seed := 0; fault_rules := replicate 8 SPW_UDP_FAULT_RULE_INITIALIZER;
     udp_reserved := 0 |}.

Definition udp_peer_b : sockaddr_in :=
  {| sin_family := AF_INET; sin_port := htons 5000; sin_addr := 16777343 |}.

Definition quiet_world : lan_world := {| lw_time := 5000000; lw_inbox := []; lw_outbox := [] |}.

Definition udp_started (peer : sockaddr_in) (config : spw_udp_config) : @udp lan_world :=
  (run_calls (UDP_OPS (lan peer) 16) (udp_construct (lan peer) lp64 config quiet_world).2
     [CallStart]).2.

Definition udp_joined (peer : sockaddr_in) (config : spw_udp_config) (other : @udp lan_world)
    : @udp lan_world :=
  (run_calls (UDP_OPS (lan peer) 16)
     (with_inbox (lw_outbox other.2) (udp_started peer config)) [CallLinkState 0]).2.

Definition udp_a : @udp lan_world :=
  udp_joined udp_peer udp_sample_config (udp_started udp_peer_b udp_config_b).
Definition udp_b : @udp lan_world :=
  udp_joined udp_peer_b udp_config_b (udp_started udp_peer udp_sample_config).

Lemma udp_joined_ready peer config other : config_typed config ->
  (udp_construct (lan peer) lp64 config quiet_world).1 = SPW_OK -> lan_bytes
    (with_inbox (lw_outbox other.2) (udp_started peer config)).2 ->
  let u := udp_joined peer config other in
  ub_local_session_id u.1 <> 0 -> clean u.1 -> u64_ok (lw_time u.2) ->
  ready config (ub_local_session_id u.1) u.
Proof.
  intros Ht Hr Hb. cbn zeta. intros Hs Hcl Hti.
  destruct (udp_construct_ok (lan peer) lan_bytes lp64 config quiet_world (Forall_nil_2 _) Hr Ht) as [Hc Hu].
  constructor; [|exact Hc|exact Hs|exact Hcl|exact Hti]. unfold udp_joined.
  apply (udp_calls_ok (lan peer) 16 config lan_bytes Hc); [|by repeat constructor].
  pose proof (udp_calls_ok (lan peer) 16 config lan_bytes Hc [CallStart] _ Hu ltac:(by repeat constructor))
    as (H1 & H2 & _). split_and!; [exact H1|exact H2|exact Hb].
Qed.

Lemma udp_config_b_typed : config_typed udp_config_b.
Proof. by constructor. Qed.

Definition udp_buffer : spw_packet :=
  {| pkt_data := Some (replicate 1000 0); pkt_length := 0; pkt_capacity := 1000;
     pkt_terminator := SPW_TERMINATOR_EOP |}.

Lemma quiet_check inj : forallb (fun r => action r =? SPW_UDP_FAULT_ACTION_NONE) (rules inj) = true ->
  fault_free inj.
Proof.
  intros H. apply Forall_forall. intros r Hr%list_elem_of_In. rewrite forallb_forall in H.
  apply Z.eqb_eq. by apply H.
Qed.

Lemma all_bytes_check (ds : list (list Z)) :
  forallb (forallb (fun x => (0 <=? x) && (x <? 256))) ds = true -> Forall bytes_ok ds.
Proof.
  intros H. apply Forall_forall. intros d Hd%list_elem_of_In. rewrite forallb_forall in H.
  apply Forall_forall. intros x Hx%list_elem_of_In. specialize (H d Hd). rewrite forallb_forall in H.
  specialize (H x Hx). lia.
Qed.

Lemma udp_a_ready : ready udp_sample_config (ub_local_session_id udp_a.1) udp_a.
Proof.
  apply udp_joined_ready; [apply udp_sample_typed|by vm_compute| |by vm_compute| |by vm_compute].
  - apply all_bytes_check. by vm_compute.
  - constructor; [by vm_compute|by vm_compute|]. apply quiet_check. by vm_compute.
Qed.

Lemma udp_b_ready : ready udp_config_b (ub_local_session_id udp_b.1) udp_b.
Proof.
  apply udp_joined_ready; [apply udp_config_b_typed|by vm_compute| |by vm_compute| |by vm_compute].
  - apply all_bytes_check. by vm_compute.
  - constructor; [by vm_compute|by vm_compute|]. apply quiet_check. by vm_compute.
Qed.

Lemma udp_a_sender : sender udp_sample_config (ub_local_session_id udp_a.1) udp_a.
Proof.
  constructor; [apply udp_a_ready| |by vm_compute..]. constructor; by vm_compute.
Qed.

Lemma udp_b_receiver : receiver udp_config_b (ub_local_session_id udp_b.1)
  (ub_local_session_id udp_a.1) 1 udp_b.
Proof.
  constructor; [apply udp_b_ready| |by vm_compute..]. constructor; by vm_compute.
Qed.

(** The sample ports fit together. *)
Lemma udp_ports_fit : ub_remote_session_id udp_a.1 = ub_local_session_id udp_b.1 /\
  ub_local_session_id udp_b.1 <> 0 /\ from_peer udp_peer udp_sample_config /\
  from_peer udp_peer_b udp_config_b /\ udp_link_id udp_sample_config = udp_link_id udp_config_b /\
  active (ub_reassembly udp_b.1) = false.
Proof. split_and!; by vm_compute. Qed.

Lemma udp_packet_fits : tx_packet_ok udp_sample_packet = true /\
  bytes_ok (default [] (pkt_data udp_sample_packet)) /\
  pkt_length udp_sample_packet <= SPW_UDP_BACKEND_MAX_PACKET_SIZE /\
  rx_packet_ok udp_buffer = true /\ pkt_length udp_sample_packet <= pkt_capacity udp_buffer.
Proof. split_and!; [by vm_compute|by apply bytes_ok_check|by vm_compute..]. Qed.

Definition udp_a_sent : @udp lan_world :=
  (udp_send (lan udp_peer) 16 udp_a udp_sample_packet SPW_TIMEOUT_INFINITE).2.

Lemma udp_a_sent_facts : length (lw_outbox udp_a_sent.2) = 5%nat /\
  length (lw_outbox udp_a.2) = 1%nat /\ pt_message_id (ub_tx udp_a_sent.1) = 1.
Proof. split_and!; by vm_compute. Qed.

(** Three fragments and a keepalive, delivered backwards and then again. *)
Lemma packet_over_udp_witness : exists A' sent a q' B' new,
  udp_send (lan udp_peer) 16 udp_a udp_sample_packet SPW_TIMEOUT_INFINITE = (SPW_OK, A') /\
  A'.2 = posted sent udp_a.2 /\ length sent = 4%nat /\
  udp_receive (lan udp_peer_b) 16 (with_inbox (rev sent ++ sent) udp_b) udp_buffer SPW_TIMEOUT_INFINITE =
    (SPW_OK, q', B') /\
  packet_payload q' = packet_payload udp_sample_packet /\
  lw_outbox B'.2 = lw_outbox udp_b.2 ++ new ++ [a] /\
  pt_kind (ub_tx (udp_get_link_state (lan udp_peer) 16 (with_inbox [a] A') 0).2.1) =
    SPW_UDP_PENDING_NONE.
Proof.
  destruct udp_ports_fit as (F1 & F2 & F3 & F4 & F5 & F6), udp_packet_fits as (P1 & P2 & P3 & P4 & P5).
  destruct (packet_over_udp udp_peer udp_peer_b 16 udp_sample_config udp_config_b
    (ub_local_session_id udp_a.1) (ub_local_session_id udp_b.1) udp_a udp_b udp_sample_packet
    SPW_TIMEOUT_INFINITE ltac:(lia) udp_a_sender F1 F2 F3 F4 F5 P1 P2 P3) as (A' & sent & Hsend & Hw & H).
  assert (udp_a_sent = A') as HA by (unfold udp_a_sent; by rewrite Hsend).
  destruct udp_a_sent_facts as (L1 & L2 & L3). rewrite HA in L1, L3.
  assert (length sent = 4%nat) as Hsent.
  { rewrite Hw, posted_outbox, length_app in L1. lia. }
  destruct (H (rev sent ++ sent) udp_buffer) as (a & q' & B' & new & H1 & H2 & _ & _ & H5 & H6).
  - rewrite L3. apply udp_b_receiver.
  - exact F6.
  - intros d. rewrite in_app_iff, <- in_rev. tauto.
  - rewrite length_app, length_rev. lia.
  - exact P4.
  - exact P5.
  - exists A', sent, a, q', B', new. split_and!; assumption.
Defined.
