(* ===== verification/Spwcuse.v ===== *)
(** * The CUSE presenter

    src/src/cuse/spwcuse.c from [result_to_errno] to [cleanup_state]: the
    character device that carries one packet or time-code per read or write.

    Two threads share a state behind a mutex.  The thread of libfuse runs one
    handler at a time (the session is started with -s); the broker answers
    queued reads, carries out queued writes and reads the port.  A critical
    section is one step of its thread, and so is each call of the port or of
    libfuse outside of one; the steps of the two threads interleave in any
    order.  [broker] and [main_thread] are what is left to do of each thread.

    The heap is a map from addresses to live blocks.  Using or freeing an
    address that is not live sets [sy_fault].  [mallocs n] says whether the
    call of malloc with index [n] succeeds. *)

From stdpp Require Import gmap.
From S2P Require Import Prelude Types Posix Queue Backend DriverApi VspwTp Loopback PortConfig Port.
From S2P Require Import CuseRecord.

Definition SPWCUSE_READ_QUEUE_DEPTH : nat := 16.
Definition SPWCUSE_WRITE_QUEUE_DEPTH : nat := 16.
Definition SPWCUSE_RECORD_QUEUE_DEPTH : nat := 16.
Definition SPWCUSE_BACKEND_WAIT_US : Z := 20000.
Definition SPWCUSE_TRANSFER_TIMEOUT_US : Z := 2000000.

(** ** Data *)

(** A [fuse_req_t], a poll handle and the address of a block are numbers; NULL
    is [None]. *)
Record spwcuse_pending_read := {
  pr_req : option Z;
  pr_size : Z;
  pr_nonblocking : bool
}.

Record spwcuse_pending_write := {
  pw_req : option Z;
  pw_size : Z;
  pw_record : option Z
}.

Record spwcuse_record := {
  rec_data : option Z;
  rec_size : Z
}.

Definition no_read : spwcuse_pending_read :=
  {| pr_req := None; pr_size := 0; pr_nonblocking := false |}.
Definition no_write : spwcuse_pending_write := {| pw_req := None; pw_size := 0; pw_record := None |}.
Definition no_record : spwcuse_record := {| rec_data := None; rec_size := 0 |}.

#[export] Instance pending_read_inhabited : Inhabited spwcuse_pending_read := populate no_read.
#[export] Instance pending_write_inhabited : Inhabited spwcuse_pending_write := populate no_write.
#[export] Instance record_inhabited : Inhabited spwcuse_record := populate no_record.

Definition result_to_errno (result : Z) : Z :=
  if result =? SPW_OK then 0 else
  if (result =? SPW_ERR_INVALID_ARGUMENT) || (result =? SPW_ERR_INVALID_PACKET) then EINVAL else
  if result =? SPW_ERR_INVALID_STATE then EBUSY else
  if result =? SPW_ERR_TIMEOUT then EAGAIN else
  if result =? SPW_ERR_UNSUPPORTED then EOPNOTSUPP else
  if result =? SPW_ERR_RESOURCE_EXHAUSTED then ENOBUFS else
  if result =? SPW_ERR_LINK_UNAVAILABLE then ENOLINK else
  if result =? SPW_ERR_BUFFER_TOO_SMALL then EMSGSIZE else EIO.

(** What a thread does outside a critical section. *)
Inductive action :=
| fuse_reply_err (req : option Z) (err : Z)
| fuse_reply_buf (req : option Z) (data : option Z) (size : Z)
| fuse_reply_write (req : option Z) (count : Z)
| fuse_reply_open (req : option Z) (direct_io nonseekable fh : Z)
| fuse_reply_poll (req : option Z) (revents : Z)
| fuse_lowlevel_notify_poll (ph : Z)
| fuse_pollhandle_destroy (ph : Z)
| free (ptr : option Z).

(** What libfuse and the port see of it. *)
Inductive answer :=
| ErrorAnswer (err : Z)
| BufferAnswer (bytes : list Z)
| CountAnswer (count : Z)
| OpenAnswer (direct_io nonseekable fh : Z)
| PollAnswer (revents : Z).

Inductive event :=
| Answered (req : option Z) (a : answer)
| Notified (ph : Z)
| Destroyed (ph : Z)
| Closed (result : Z).

(** The broker: [AtService] the loop around service_one_read, [AtLock] the
    section that follows, [Asleep] in pthread_cond_wait and [Woken] when it was
    signalled, [AtWrite] process_write, [AtWait] the wait for the port,
    [AtTimeout] the section after a wait that timed out, [AtReceive] and
    [AtReceiveTimeCode] the two halves of receive_one_ready_record, [AtEnqueue]
    the sections in it, [AtMore] the wait in the loop around it and [AtRoom] the
    section that ends the loop when the queue is full. *)
Inductive broker :=
| AtService
| AtLock
| Asleep
| Woken
| AtWrite (pending : spwcuse_pending_write)
| AtWait (timeout : Z)
| AtTimeout
| AtReceive (ready : Z)
| AtReceiveTimeCode (ready : Z)
| AtEnqueue (type flags : Z) (payload : list Z) (size : Z)
| AtMore
| AtRoom (ready : Z)
| Calls (actions : list action) (next : broker)
| Exited.

(** The thread of libfuse: what is left of the handler that runs; then
    cleanup_state from pthread_join on. *)
Inductive main_thread :=
| Serving (actions : list action)
| Joining
| Ended.

(** The requests libfuse hands over: the file flags of the open file, the
    buffer of a write and the poll handle. *)
Inductive request :=
| RequestOpen (req : Z)
| RequestRead (req size flags : Z)
| RequestWrite (req : Z) (buf : list Z) (flags : Z)
| RequestPoll (req : Z) (ph : option Z)
| RequestRelease (req : Z).

Section spwcuse.
Context {C : Type} (Bd : build) (mallocs : nat -> bool).

Record spwcuse_state := {
  cu_worker_started : bool;
  cu_stopping : bool;
  cu_opened : bool;
  cu_port : option (spw_port C);
  cu_rx_storage : list Z;
  cu_reads : queue spwcuse_pending_read;
  cu_writes : queue spwcuse_pending_write;
  cu_records : queue spwcuse_record;
  cu_poll_handle : option Z
}.

(** [sy_received] is the list of what the port delivered, kept for the
    statements only: type, flags and payload. *)
Record presenter := {
  sy_state : spwcuse_state;
  sy_heap : gmap Z (list Z);
  sy_mallocs : nat;
  sy_broker : broker;
  sy_main : main_thread;
  sy_log : list event;
  sy_fault : bool;
  sy_received : list (Z * Z * list Z)
}.
Implicit Types (st : spwcuse_state) (s : presenter).

(** ** Field updates *)

Definition set_cu_stopping (v : bool) st : spwcuse_state :=
  {| cu_worker_started := cu_worker_started st; cu_stopping := v; cu_opened := cu_opened st;
     cu_port := cu_port st; cu_rx_storage := cu_rx_storage st; cu_reads := cu_reads st;
     cu_writes := cu_writes st; cu_records := cu_records st;
     cu_poll_handle := cu_poll_handle st |}.
Definition set_cu_opened (v : bool) st : spwcuse_state :=
  {| cu_worker_started := cu_worker_started st; cu_stopping := cu_stopping st; cu_opened := v;
     cu_port := cu_port st; cu_rx_storage := cu_rx_storage st; cu_reads := cu_reads st;
     cu_writes := cu_writes st; cu_records := cu_records st;
     cu_poll_handle := cu_poll_handle st |}.
Definition set_cu_port (v : option (spw_port C)) st : spwcuse_state :=
  {| cu_worker_started := cu_worker_started st; cu_stopping := cu_stopping st;
     cu_opened := cu_opened st; cu_port := v; cu_rx_storage := cu_rx_storage st;
     cu_reads := cu_reads st; cu_writes := cu_writes st; cu_records := cu_records st;
     cu_poll_handle := cu_poll_handle st |}.
Definition set_cu_rx_storage (v : list Z) st : spwcuse_state :=
  {| cu_worker_started := cu_worker_started st; cu_stopping := cu_stopping st;
     cu_opened := cu_opened st; cu_port := cu_port st; cu_rx_storage := v;
     cu_reads := cu_reads st; cu_writes := cu_writes st; cu_records := cu_records st;
     cu_poll_handle := cu_poll_handle st |}.
Definition set_cu_reads (v : queue spwcuse_pending_read) st : spwcuse_state :=
  {| cu_worker_started := cu_worker_started st; cu_stopping := cu_stopping st;
     cu_opened := cu_opened st; cu_port := cu_port st; cu_rx_storage := cu_rx_storage st;
     cu_reads := v; cu_writes := cu_writes st; cu_records := cu_records st;
     cu_poll_handle := cu_poll_handle st |}.
Definition set_cu_writes (v : queue spwcuse_pending_write) st : spwcuse_state :=
  {| cu_worker_started := cu_worker_started st; cu_stopping := cu_stopping st;
     cu_opened := cu_opened st; cu_port := cu_port st; cu_rx_storage := cu_rx_storage st;
     cu_reads := cu_reads st; cu_writes := v; cu_records := cu_records st;
     cu_poll_handle := cu_poll_handle st |}.
Definition set_cu_records (v : queue spwcuse_record) st : spwcuse_state :=
  {| cu_worker_started := cu_worker_started st; cu_stopping := cu_stopping st;
     cu_opened := cu_opened st; cu_port := cu_port st; cu_rx_storage := cu_rx_storage st;
     cu_reads := cu_reads st; cu_writes := cu_writes st; cu_records := v;
     cu_poll_handle := cu_poll_handle st |}.
Definition set_cu_poll_handle (v : option Z) st : spwcuse_state :=
  {| cu_worker_started := cu_worker_started st; cu_stopping := cu_stopping st;
     cu_opened := cu_opened st; cu_port := cu_port st; cu_rx_storage := cu_rx_storage st;
     cu_reads := cu_reads st; cu_writes := cu_writes st; cu_records := cu_records st;
     cu_poll_handle := v |}.

Definition set_sy_state (v : spwcuse_state) s : presenter :=
  {| sy_state := v; sy_heap := sy_heap s; sy_mallocs := sy_mallocs s; sy_broker := sy_broker s;
     sy_main := sy_main s; sy_log := sy_log s; sy_fault := sy_fault s;
     sy_received := sy_received s |}.
Definition set_sy_heap (v : gmap Z (list Z)) s : presenter :=
  {| sy_state := sy_state s; sy_heap := v; sy_mallocs := sy_mallocs s; sy_broker := sy_broker s;
     sy_main := sy_main s; sy_log := sy_log s; sy_fault := sy_fault s;
     sy_received := sy_received s |}.
Definition set_sy_mallocs (v : nat) s : presenter :=
  {| sy_state := sy_state s; sy_heap := sy_heap s; sy_mallocs := v; sy_broker := sy_broker s;
     sy_main := sy_main s; sy_log := sy_log s; sy_fault := sy_fault s;
     sy_received := sy_received s |}.
Definition set_sy_broker (v : broker) s : presenter :=
  {| sy_state := sy_state s; sy_heap := sy_heap s; sy_mallocs := sy_mallocs s; sy_broker := v;
     sy_main := sy_main s; sy_log := sy_log s; sy_fault := sy_fault s;
     sy_received := sy_received s |}.
Definition set_sy_main (v : main_thread) s : presenter :=
  {| sy_state := sy_state s; sy_heap := sy_heap s; sy_mallocs := sy_mallocs s;
     sy_broker := sy_broker s; sy_main := v; sy_log := sy_log s; sy_fault := sy_fault s;
     sy_received := sy_received s |}.
Definition set_sy_log (v : list event) s : presenter :=
  {| sy_state := sy_state s; sy_heap := sy_heap s; sy_mallocs := sy_mallocs s;
     sy_broker := sy_broker s; sy_main := sy_main s; sy_log := v; sy_fault := sy_fault s;
     sy_received := sy_received s |}.
Definition set_sy_fault (v : bool) s : presenter :=
  {| sy_state := sy_state s; sy_heap := sy_heap s; sy_mallocs := sy_mallocs s;
     sy_broker := sy_broker s; sy_main := sy_main s; sy_log := sy_log s; sy_fault := v;
     sy_received := sy_received s |}.
Definition set_sy_received (v : list (Z * Z * list Z)) s : presenter :=
  {| sy_state := sy_state s; sy_heap := sy_heap s; sy_mallocs := sy_mallocs s;
     sy_broker := sy_broker s; sy_main := sy_main s; sy_log := sy_log s; sy_fault := sy_fault s;
     sy_received := v |}.

Definition supd (f : spwcuse_state -> spwcuse_state) s : presenter := set_sy_state (f (sy_state s)) s.
Definition emit (e : event) s : presenter := set_sy_log (sy_log s ++ [e]) s.


(** ** The C library *)

Definition block (ptr : option Z) s : list Z :=
  match ptr with Some a => default [] (sy_heap s !! a) | None => [] end.

Definition live (ptr : option Z) s : bool :=
  match ptr with Some a => bool_decide (is_Some (sy_heap s !! a)) | None => false end.

(** An access through [ptr]. *)
Definition touch (ptr : option Z) s : presenter := if live ptr s then s else set_sy_fault true s.

(** The contents of a new block are arbitrary; zeros stand for them, and every
    byte is written before it is read. *)
Definition malloc (size : Z) s : option Z * presenter :=
  let n := sy_mallocs s in
  let s := set_sy_mallocs (S n) s in
  if mallocs n then
    let a := Z.of_nat (S n) in
    (Some a, set_sy_heap (<[a := replicate (Z.to_nat size) 0]> (sy_heap s)) s)
  else (None, s).

Definition do_free (ptr : option Z) s : presenter :=
  match ptr with
  | None => s
  | Some a => let s := touch ptr s in set_sy_heap (delete a (sy_heap s)) s
  end.

Definition perform (a : action) s : presenter :=
  match a with
  | fuse_reply_err req err => emit (Answered req (ErrorAnswer err)) s
  | fuse_reply_buf req data size =>
      let s := touch data s in
      emit (Answered req (BufferAnswer (mem_read (block data s) 0 (Z.to_nat size)))) s
  | fuse_reply_write req count => emit (Answered req (CountAnswer count)) s
  | fuse_reply_open req direct_io nonseekable fh =>
      emit (Answered req (OpenAnswer direct_io nonseekable fh)) s
  | fuse_reply_poll req revents => emit (Answered req (PollAnswer revents)) s
  | fuse_lowlevel_notify_poll ph => emit (Notified ph) s
  | fuse_pollhandle_destroy ph => emit (Destroyed ph) s
  | free ptr => do_free ptr s
  end.

(** pthread_cond_signal and pthread_cond_broadcast: only the broker waits. *)
Definition signal s : presenter :=
  match sy_broker s with Asleep => set_sy_broker Woken s | _ => s end.

(** ** Queues *)

Definition notify_poll_handle (handle : option Z) : list action :=
  match handle with
  | None => []
  | Some ph => [fuse_lowlevel_notify_poll ph; fuse_pollhandle_destroy ph]
  end.

Definition take_poll_handle_locked st : option Z * spwcuse_state :=
  (cu_poll_handle st, set_cu_poll_handle None st).

Definition current_poll_events_locked st : Z :=
  let events := if negb (Nat.eqb (q_count (cu_records st)) 0) then POLLIN .| POLLRDNORM else 0 in
  if (q_count (cu_writes st) <? SPWCUSE_WRITE_QUEUE_DEPTH)%nat
  then events .| (POLLOUT .| POLLWRNORM) else events.

Definition enqueue_read_locked st (req : option Z) (size : Z) (nonblocking : bool)
    : bool * spwcuse_state :=
  if (SPWCUSE_READ_QUEUE_DEPTH <=? q_count (cu_reads st))%nat then (false, st) else
  (true, set_cu_reads (queue_push (cu_reads st)
           {| pr_req := req; pr_size := size; pr_nonblocking := nonblocking |}) st).

Definition enqueue_write_locked st (req : option Z) (record : option Z) (size : Z)
    : bool * spwcuse_state :=
  if (SPWCUSE_WRITE_QUEUE_DEPTH <=? q_count (cu_writes st))%nat then (false, st) else
  (true, set_cu_writes (queue_push (cu_writes st)
           {| pw_req := req; pw_size := size; pw_record := record |}) st).

Definition pop_write_locked st : option spwcuse_pending_write * spwcuse_state :=
  if Nat.eqb (q_count (cu_writes st)) 0 then (None, st) else
  (Some (queue_front (cu_writes st)), set_cu_writes (queue_take no_write (cu_writes st)) st).

Definition enqueue_record_locked (type flags : Z) (payload : list Z) (payload_size : Z) s
    : bool * presenter :=
  if (SPWCUSE_RECORD_QUEUE_DEPTH <=? q_count (cu_records (sy_state s)))%nat ||
     (VSPW_CUSE_RECORD_MAX_PAYLOAD <? payload_size) then (false, s) else
  if SIZE_MAX - VSPW_CUSE_RECORD_HEADER_SIZE <? payload_size then (false, s) else
  let record_size := VSPW_CUSE_RECORD_HEADER_SIZE + payload_size in
  let '(record, s) := malloc (if record_size =? 0 then 1 else record_size) s in
  match record with
  | None => (false, s)
  | Some a =>
      let header := {| cr_type := type; cr_flags := flags; cr_payload_size := u32 payload_size |} in
      match vspw_cuse_record_encode_header (Some header) (Some (block record s)) with
      | (VSPW_CUSE_RECORD_OK, Some bytes) =>
          let bytes :=
            if negb (payload_size =? 0)
            then mem_write bytes (Z.to_nat VSPW_CUSE_RECORD_HEADER_SIZE)
                   (mem_read payload 0 (Z.to_nat payload_size))
            else bytes in
          let s := set_sy_heap (<[a := bytes]> (sy_heap s)) s in
          (true, supd (fun st => set_cu_records (queue_push (cu_records st)
                   {| rec_data := record; rec_size := record_size |}) st) s)
      | _ => (false, do_free record s)
      end
  end.

(** The loops that take every read out of the queue, at most [n] of them. *)
Fixpoint cancel_reads (n : nat) (q : queue spwcuse_pending_read)
    : list (option Z) * queue spwcuse_pending_read :=
  match n with
  | O => ([], q)
  | S n =>
      if Nat.eqb (q_count q) 0 then ([], q) else
      let '(cancelled, q') := cancel_reads n (queue_take no_read q) in
      (pr_req (queue_front q) :: cancelled, q')
  end.

(** ** The broker *)

(** service_one_read; the loop around it ends in [AtLock]. *)
Definition service_one_read s : presenter :=
  let st := sy_state s in
  if Nat.eqb (q_count (cu_reads st)) 0 || Nat.eqb (q_count (cu_records st)) 0
  then set_sy_broker AtLock s else
  let pending := queue_front (cu_reads st) in
  let st := set_cu_reads (queue_take no_read (cu_reads st)) st in
  let record := queue_front (cu_records st) in
  if rec_size record <=? pr_size pending then
    let st := set_cu_records (queue_take no_record (cu_records st)) st in
    set_sy_broker
      (Calls [fuse_reply_buf (pr_req pending) (rec_data record) (rec_size record);
              free (rec_data record)] AtService) (set_sy_state st s)
  else
    set_sy_broker (Calls [fuse_reply_err (pr_req pending) EMSGSIZE] AtService) (set_sy_state st s).

(** The error number and the header; [out_header] is not NULL. *)
Definition validate_user_record (data : option (list Z)) (size : Z)
    (out_header : vspw_cuse_record_header) : Z * vspw_cuse_record_header :=
  match data with
  | None => (EINVAL, out_header)
  | Some bytes =>
      if size <? VSPW_CUSE_RECORD_HEADER_SIZE then (EINVAL, out_header) else
      let '(result, header) := vspw_cuse_record_decode_header data (Some out_header) in
      let out_header := default out_header header in
      if negb (bool_decide (result = VSPW_CUSE_RECORD_OK)) then (EINVAL, out_header) else
      let payload_size := size - VSPW_CUSE_RECORD_HEADER_SIZE in
      if negb (payload_size =? cr_payload_size out_header) then (EMSGSIZE, out_header) else
      if negb (bool_decide (vspw_cuse_record_validate_payload (Some out_header)
                 (if payload_size =? 0 then None
                  else Some (drop (Z.to_nat VSPW_CUSE_RECORD_HEADER_SIZE) bytes)) payload_size =
               VSPW_CUSE_RECORD_OK))
      then (EINVAL, out_header) else (0, out_header)
  end.

(** A header that was not initialised. *)
Definition any_header : vspw_cuse_record_header :=
  {| cr_type := 0; cr_flags := 0; cr_payload_size := 0 |}.

Definition process_write (pending : spwcuse_pending_write) s : presenter :=
  let s := touch (pw_record pending) s in
  let bytes := block (pw_record pending) s in
  let done reply := Calls [reply; free (pw_record pending)] AtService in
  let '(error, header) := validate_user_record (Some bytes) (pw_size pending) any_header in
  if negb (error =? 0) then set_sy_broker (done (fuse_reply_err (pw_req pending) error)) s else
  let payload := drop (Z.to_nat VSPW_CUSE_RECORD_HEADER_SIZE) bytes in
  let '(result, port) :=
    if cr_type header =? VSPW_CUSE_RECORD_DATA then
      spw_port_send (cu_port (sy_state s))
        (Some {| pkt_data := Some payload; pkt_length := cr_payload_size header;
                 pkt_capacity := cr_payload_size header;
                 pkt_terminator :=
                   if has_flag (cr_flags header) VSPW_CUSE_RECORD_FLAG_EEP
                   then SPW_TERMINATOR_EEP else SPW_TERMINATOR_EOP |}) SPWCUSE_TRANSFER_TIMEOUT_US
    else
      spw_port_send_time_code (cu_port (sy_state s))
        (Some {| time_count := mem_get payload 0; control_flags := mem_get payload 1 |})
        SPWCUSE_TRANSFER_TIMEOUT_US in
  let s := supd (set_cu_port port) s in
  set_sy_broker
    (done (if result =? SPW_OK then fuse_reply_write (pw_req pending) (pw_size pending)
           else fuse_reply_err (pw_req pending) (result_to_errno result))) s.

(** receive_one_ready_record up to the packet, or up to the time-code. *)
Definition receive_packet (ready : Z) s : presenter :=
  if negb (has_flag ready SPW_READY_RX_PACKET) then set_sy_broker (AtReceiveTimeCode ready) s else
  let storage := cu_rx_storage (sy_state s) in
  let packet := {| pkt_data := Some storage; pkt_length := 0;
                   pkt_capacity := VSPW_CUSE_RECORD_MAX_PAYLOAD;
                   pkt_terminator := SPW_TERMINATOR_EOP |} in
  let '(result, packet, port) :=
    spw_port_receive (cu_port (sy_state s)) (Some packet) SPW_TIMEOUT_IMMEDIATE in
  let data := default storage (packet ≫= pkt_data) in
  let s := supd (fun st => set_cu_rx_storage data (set_cu_port port st)) s in
  match packet with
  | Some packet =>
      if result =? SPW_OK then
        let flags := if pkt_terminator packet =? SPW_TERMINATOR_EEP
                     then VSPW_CUSE_RECORD_FLAG_EEP else 0 in
        let size := pkt_length packet in
        set_sy_received
          (sy_received s ++ [(VSPW_CUSE_RECORD_DATA, flags, mem_read data 0 (Z.to_nat size))])
          (set_sy_broker (AtEnqueue VSPW_CUSE_RECORD_DATA flags data size) s)
      else set_sy_broker (AtReceiveTimeCode ready) s
  | None => set_sy_broker (AtReceiveTimeCode ready) s
  end.

Definition receive_time_code (ready : Z) s : presenter :=
  if negb (has_flag ready SPW_READY_RX_TIME_CODE) then set_sy_broker AtService s else
  let '(result, time_code, port) :=
    spw_port_receive_time_code (cu_port (sy_state s)) (Some zero_time_code) SPW_TIMEOUT_IMMEDIATE in
  let s := supd (set_cu_port port) s in
  match time_code with
  | Some tc =>
      if result =? SPW_OK then
        let payload := [time_count tc; control_flags tc] in
        set_sy_received (sy_received s ++ [(VSPW_CUSE_RECORD_TIME_CODE, 0, payload)])
          (set_sy_broker (AtEnqueue VSPW_CUSE_RECORD_TIME_CODE 0 payload 2) s)
      else set_sy_broker AtService s
  | None => set_sy_broker AtService s
  end.

(** The critical section of receive_one_ready_record, the notification, and
    where the loop around it goes on. *)
Definition enqueue_received (type flags : Z) (payload : list Z) (size : Z) s : presenter :=
  let '(queued, s) := enqueue_record_locked type flags payload size s in
  if queued then
    let '(handle, st) := take_poll_handle_locked (sy_state s) in
    set_sy_broker (Calls (notify_poll_handle handle) AtMore) (set_sy_state st s)
  else set_sy_broker AtService s.

(** The section of broker_main that chooses what to do. *)
Definition broker_turn s : presenter :=
  let st := sy_state s in
  if cu_stopping st then set_sy_broker Exited s else
  let '(pending_write, st) := pop_write_locked st in
  match pending_write with
  | Some pending =>
      let '(handle, st) := take_poll_handle_locked st in
      set_sy_broker (Calls (notify_poll_handle handle) (AtWrite pending)) (set_sy_state st s)
  | None =>
      let should_wait_backend :=
        (q_count (cu_records st) <? SPWCUSE_RECORD_QUEUE_DEPTH)%nat &&
        (negb (Nat.eqb (q_count (cu_reads st)) 0) || non_null (cu_poll_handle st)) in
      let wait_timeout :=
        if negb (Nat.eqb (q_count (cu_reads st)) 0) && pr_nonblocking (queue_front (cu_reads st))
        then SPW_TIMEOUT_IMMEDIATE else SPWCUSE_BACKEND_WAIT_US in
      set_sy_broker (if should_wait_backend then AtWait wait_timeout else Asleep) s
  end.

Definition wait_backend (wait_timeout : Z) s : presenter :=
  let '(result, ready, port) :=
    spw_port_wait (cu_port (sy_state s)) SPW_READY_ALL wait_timeout (Some SPW_READY_NONE) in
  let ready := default SPW_READY_NONE ready in
  let s := supd (set_cu_port port) s in
  set_sy_broker
    (if (result =? SPW_ERR_TIMEOUT) && (wait_timeout =? SPW_TIMEOUT_IMMEDIATE) then AtTimeout
     else if (result =? SPW_OK) && negb (ready =? SPW_READY_NONE) then AtReceive ready
     else AtService) s.

(** The section after a wait that found nothing for a non-blocking read. *)
Definition refuse_nonblocking s : presenter :=
  let st := sy_state s in
  if Nat.eqb (q_count (cu_records st)) 0 && negb (Nat.eqb (q_count (cu_reads st)) 0) &&
     pr_nonblocking (queue_front (cu_reads st)) then
    let req := pr_req (queue_front (cu_reads st)) in
    set_sy_broker
      (Calls (if non_null req then [fuse_reply_err req EAGAIN] else []) AtService)
      (supd (fun st => set_cu_reads (queue_take no_read (cu_reads st)) st) s)
  else set_sy_broker AtService s.

Definition wait_more s : presenter :=
  let '(result, ready, port) :=
    spw_port_wait (cu_port (sy_state s)) SPW_READY_ALL SPW_TIMEOUT_IMMEDIATE (Some SPW_READY_NONE) in
  let ready := default SPW_READY_NONE ready in
  set_sy_broker
    (if negb (result =? SPW_OK) || (ready =? SPW_READY_NONE) then AtService else AtRoom ready)
    (supd (set_cu_port port) s).

Definition check_room (ready : Z) s : presenter :=
  set_sy_broker
    (if (SPWCUSE_RECORD_QUEUE_DEPTH <=? q_count (cu_records (sy_state s)))%nat
     then AtService else AtReceive ready) s.

(** One step of broker_main; [None] while it sleeps and after it has ended. *)
Definition broker_step s : option presenter :=
  match sy_broker s with
  | AtService => Some (service_one_read s)
  | AtLock => Some (broker_turn s)
  | Asleep => None
  | Woken => Some (set_sy_broker AtService s)
  | AtWrite pending => Some (process_write pending s)
  | AtWait timeout => Some (wait_backend timeout s)
  | AtTimeout => Some (refuse_nonblocking s)
  | AtReceive ready => Some (receive_packet ready s)
  | AtReceiveTimeCode ready => Some (receive_time_code ready s)
  | AtEnqueue type flags payload size => Some (enqueue_received type flags payload size s)
  | AtMore => Some (wait_more s)
  | AtRoom ready => Some (check_room ready s)
  | Calls [] next => Some (set_sy_broker next s)
  | Calls (a :: actions) next => Some (perform a (set_sy_broker (Calls actions next) s))
  | Exited => None
  end.

(** ** The handlers *)

Definition cuse_open (req : Z) s : presenter :=
  if cu_opened (sy_state s) then set_sy_main (Serving [fuse_reply_err (Some req) EBUSY]) s else
  set_sy_main (Serving [fuse_reply_open (Some req) 1 1 1]) (supd (set_cu_opened true) s).

Definition cuse_read (req size flags : Z) s : presenter :=
  let nonblocking := has_flag flags O_NONBLOCK in
  let '(queued, st) := enqueue_read_locked (sy_state s) (Some req) size nonblocking in
  if queued then set_sy_main (Serving []) (signal (set_sy_state st s)) else
  set_sy_main (Serving [fuse_reply_err (Some req) (if nonblocking then EAGAIN else ENOBUFS)]) s.

Definition cuse_write (req : Z) (buf : list Z) (flags : Z) s : presenter :=
  let size := Z.of_nat (length buf) in
  let '(error, _) := validate_user_record (Some buf) size any_header in
  if negb (error =? 0) then set_sy_main (Serving [fuse_reply_err (Some req) error]) s else
  let '(copy, s) := malloc (if size =? 0 then 1 else size) s in
  match copy with
  | None => set_sy_main (Serving [fuse_reply_err (Some req) ENOMEM]) s
  | Some a =>
      let s := set_sy_heap (<[a := mem_write (block copy s) 0 buf]> (sy_heap s)) s in
      let '(queued, st) := enqueue_write_locked (sy_state s) (Some req) copy size in
      if queued then set_sy_main (Serving []) (signal (set_sy_state st s)) else
      set_sy_main
        (Serving [free copy;
                  fuse_reply_err (Some req) (if has_flag flags O_NONBLOCK then EAGAIN else ENOBUFS)]) s
  end.

Definition cuse_poll (req : Z) (ph : option Z) s : presenter :=
  let events := current_poll_events_locked (sy_state s) in
  let reply := fuse_reply_poll (Some req) events in
  match ph with
  | None => set_sy_main (Serving [reply]) s
  | Some h =>
      if non_null (cu_poll_handle (sy_state s)) then
        set_sy_main (Serving [fuse_pollhandle_destroy h; reply]) (signal s)
      else set_sy_main (Serving [reply]) (signal (supd (set_cu_poll_handle ph) s))
  end.

Definition cuse_release (req : Z) s : presenter :=
  let st := set_cu_opened false (sy_state s) in
  let '(cancelled, reads) := cancel_reads SPWCUSE_READ_QUEUE_DEPTH (cu_reads st) in
  let '(handle, st) := take_poll_handle_locked (set_cu_reads reads st) in
  set_sy_main
    (Serving
       (map (fun r => fuse_reply_err r EINTR) cancelled ++
        match handle with Some h => [fuse_pollhandle_destroy h] | None => [] end ++
        [fuse_reply_err (Some req) 0])) (set_sy_state st s).

Definition cuse_ops (r : request) : presenter -> presenter :=
  match r with
  | RequestOpen req => cuse_open req
  | RequestRead req size flags => cuse_read req size flags
  | RequestWrite req buf flags => cuse_write req buf flags
  | RequestPoll req ph => cuse_poll req ph
  | RequestRelease req => cuse_release req
  end.

(** ** Start and end *)

(** The state that main has set up when the broker starts. *)
Definition presenter_start (port : option (spw_port C)) : presenter :=
  {| sy_state :=
       {| cu_worker_started := true; cu_stopping := false; cu_opened := false; cu_port := port;
          cu_rx_storage := replicate (Z.to_nat VSPW_CUSE_RECORD_MAX_PAYLOAD) 0;
          cu_reads := Queue (replicate SPWCUSE_READ_QUEUE_DEPTH no_read) 0 0;
          cu_writes := Queue (replicate SPWCUSE_WRITE_QUEUE_DEPTH no_write) 0 0;
          cu_records := Queue (replicate SPWCUSE_RECORD_QUEUE_DEPTH no_record) 0 0;
          cu_poll_handle := None |};
     sy_heap := ∅; sy_mallocs := 0; sy_broker := AtService; sy_main := Serving []; sy_log := [];
     sy_fault := false; sy_received := [] |}.

(** The loops of cleanup_state that free what the slots of an array point to. *)
Definition free_all (ptrs : list (option Z)) s : presenter := foldl (fun s p => do_free p s) s ptrs.

(** cleanup_state up to pthread_join, and from there on. *)
Definition cleanup_begin s : presenter :=
  set_sy_main Joining (signal (supd (set_cu_stopping true) s)).

Definition cleanup_end s : presenter :=
  let s :=
    match cu_port (sy_state s) with
    | None => s
    | Some _ =>
        let '(result, _, _, _) := spw_port_close Bd (cu_port (sy_state s)) in
        supd (set_cu_port None) (emit (Closed result) s)
    end in
  let s :=
    match cu_poll_handle (sy_state s) with
    | None => s
    | Some h => supd (set_cu_poll_handle None) (emit (Destroyed h) s)
    end in
  let s := free_all (pw_record <$> q_slots (cu_writes (sy_state s))) s in
  let s := free_all (rec_data <$> q_slots (cu_records (sy_state s))) s in
  set_sy_main Ended s.

(** ** Interleavings *)

(** A step of one of the threads, with the request that libfuse hands over in it,
    if any.  A sleeping broker may also wake up without a signal. *)
Inductive step : option request -> presenter -> presenter -> Prop :=
| step_request r s : sy_main s = Serving [] -> step (Some r) s (cuse_ops r s)
| step_call a actions s : sy_main s = Serving (a :: actions) ->
    step None s (perform a (set_sy_main (Serving actions) s))
| step_broker s s' : broker_step s = Some s' -> step None s s'
| step_spurious s : sy_broker s = Asleep -> step None s (set_sy_broker Woken s)
| step_exit s : sy_main s = Serving [] -> step None s (cleanup_begin s)
| step_joined s : sy_main s = Joining -> sy_broker s = Exited -> step None s (cleanup_end s).

(** The states reachable from a start with this port, with the requests handed
    over on the way. *)
Inductive reached (port : option (spw_port C)) : list request -> presenter -> Prop :=
| reached_start : reached port [] (presenter_start port)
| reached_step rs r s s' : reached port rs s -> step r s s' ->
    reached port (rs ++ option_list r) s'.

(** The broker alone, for [n] steps or until it sleeps or ends. *)
Fixpoint broker_run (n : nat) s : presenter :=
  match n with
  | O => s
  | S n => match broker_step s with Some s' => broker_run n s' | None => s end
  end.
End spwcuse.
