(* ===== verification/SpwcuseProps.v ===== *)
(** * The CUSE presenter: correctness

    What holds in every state that the two threads of spwcuse can reach, in any
    interleaving: every request is answered once, every poll handle destroyed
    once and every block freed once; the records are delivered complete and in
    order; and when the broker sleeps. *)

From stdpp Require Import gmap.
From S2P Require Import Prelude Types Posix Ring Queue Backend DriverApi VspwTp Loopback PortConfig Port.
From S2P Require Import PortClient CuseRecord Spwcuse.

(** ** Counting occurrences *)

Definition one {A} `{EqDecision A} (x a : A) : nat := if decide (a = x) then 1 else 0.

Fixpoint occ {A} `{EqDecision A} (x : A) (l : list A) : nat :=
  match l with [] => 0 | a :: l => one x a + occ x l end.

Lemma one_same {A} `{EqDecision A} (x : A) : one x x = 1%nat.
Proof. unfold one. by rewrite decide_True. Qed.

Lemma occ_app {A} `{EqDecision A} (x : A) l k : occ x (l ++ k) = (occ x l + occ x k)%nat.
Proof. induction l as [|a l IH]; cbn; lia. Qed.

Lemma occ_count {A} `{EqDecision A} (x : A) l : occ x l = count_occ (fun a b => decide (a = b)) l x.
Proof.
  induction l as [|a l IH]; cbn; [done|]. unfold one. case_decide; by rewrite IH.
Qed.

Lemma occ_permutation {A} `{EqDecision A} (l k : list A) : (forall x, occ x l = occ x k) -> l ≡ₚ k.
Proof.
  intros H. apply (Permutation_count_occ (fun a b => decide (a = b))). intros x.
  by rewrite <- !occ_count.
Qed.

Lemma occ_pos {A} `{EqDecision A} (x : A) l : x ∈ l -> (0 < occ x l)%nat.
Proof.
  induction 1 as [x l|x y l _ IH]; cbn; [rewrite one_same|]; lia.
Qed.

Lemma occ_push {A B} `{!Inhabited A} `{EqDecision B} (f : A -> B) depth q a x :
  queue_wf depth q -> (q_count q < depth)%nat ->
  occ x (f <$> queue_list (queue_push q a)) = (occ x (f <$> queue_list q) + one x (f a))%nat.
Proof.
  intros. rewrite (queue_list_push depth) by done. rewrite fmap_app, occ_app. cbn. lia.
Qed.

Lemma occ_take {A B} `{!Inhabited A} `{EqDecision B} (f : A -> B) depth z q x :
  queue_wf depth q -> (0 < q_count q)%nat ->
  occ x (f <$> queue_list q) =
  (one x (f (queue_front q)) + occ x (f <$> queue_list (queue_take z q)))%nat.
Proof. intros. by rewrite (queue_list_take depth z q) by done. Qed.

(** ** What is held *)

Definition request_id (r : request) : Z :=
  match r with
  | RequestOpen req | RequestRead req _ _ | RequestWrite req _ _ | RequestPoll req _
  | RequestRelease req => req
  end.

Definition request_handle (r : request) : list Z :=
  match r with RequestPoll _ (Some ph) => [ph] | _ => [] end.

Definition action_reqs (a : action) : list (option Z) :=
  match a with
  | fuse_reply_err req _ | fuse_reply_buf req _ _ | fuse_reply_write req _
  | fuse_reply_open req _ _ _ | fuse_reply_poll req _ => [req]
  | _ => []
  end.

Definition action_handles (a : action) : list Z :=
  match a with fuse_pollhandle_destroy ph => [ph] | _ => [] end.

Definition action_ptrs (a : action) : list (option Z) :=
  match a with free ptr => [ptr] | _ => [] end.

(** What the rest of a thread's work holds: [f] of its actions and [g] of the
    write it carries out. *)
Fixpoint broker_holds {A} (f : action -> list A) (g : spwcuse_pending_write -> list A) (b : broker)
    : list A :=
  match b with
  | AtWrite w => g w
  | Calls actions next => concat (f <$> actions) ++ broker_holds f g next
  | _ => []
  end.

Definition main_holds {A} (f : action -> list A) (m : main_thread) : list A :=
  match m with Serving actions => concat (f <$> actions) | _ => [] end.

Definition answered_reqs (log : list event) : list (option Z) :=
  omap (fun e => match e with Answered req _ => Some req | _ => None end) log.

Definition destroyed_handles (log : list event) : list Z :=
  omap (fun e => match e with Destroyed ph => Some ph | _ => None end) log.

(** A buffer that is sent is freed only afterwards. *)
Fixpoint actions_safe (l : list action) : Prop :=
  match l with
  | [] => True
  | fuse_reply_buf _ data _ :: l => data ∈ concat (action_ptrs <$> l) /\ actions_safe l
  | _ :: l => actions_safe l
  end.

Fixpoint broker_safe (b : broker) : Prop :=
  match b with Calls actions next => actions_safe actions /\ broker_safe next | _ => True end.

Definition main_safe (m : main_thread) : Prop :=
  match m with Serving actions => actions_safe actions | _ => True end.

Section presenter.
Context {C : Type} (Bd : build) (mallocs : nat -> bool).
Implicit Types (st : @spwcuse_state C) (s : @presenter C).

Definition held_reqs s : list (option Z) :=
  (pr_req <$> queue_list (cu_reads (sy_state s))) ++
  (pw_req <$> queue_list (cu_writes (sy_state s))) ++
  broker_holds action_reqs (fun w => [pw_req w]) (sy_broker s) ++ main_holds action_reqs (sy_main s).

Definition held_handles s : list Z :=
  option_list (cu_poll_handle (sy_state s)) ++
  broker_holds action_handles (fun _ => []) (sy_broker s) ++ main_holds action_handles (sy_main s).

Definition held_ptrs s : list (option Z) :=
  (pw_record <$> queue_list (cu_writes (sy_state s))) ++
  (rec_data <$> queue_list (cu_records (sy_state s))) ++
  broker_holds action_ptrs (fun w => [pw_record w]) (sy_broker s) ++ main_holds action_ptrs (sy_main s).

(** The three queues, and what is in nobody's hands but ours. *)
Record accounted (rs : list request) s : Prop := {
  ac_reads : queue_wf SPWCUSE_READ_QUEUE_DEPTH (cu_reads (sy_state s));
  ac_writes : queue_wf SPWCUSE_WRITE_QUEUE_DEPTH (cu_writes (sy_state s));
  ac_records : queue_wf SPWCUSE_RECORD_QUEUE_DEPTH (cu_records (sy_state s));
  ac_writes_clean : queue_clean no_write (cu_writes (sy_state s));
  ac_records_clean : queue_clean no_record (cu_records (sy_state s));
  ac_reqs : forall r, occ r (Some <$> (request_id <$> rs)) =
    (occ r (answered_reqs (sy_log s)) + occ r (held_reqs s))%nat;
  ac_handles : forall h, occ h (concat (request_handle <$> rs)) =
    (occ h (destroyed_handles (sy_log s)) + occ h (held_handles s))%nat;
  ac_ptrs : forall p, occ p (held_ptrs s) = if live p s then 1%nat else 0%nat;
  ac_fresh : forall a, is_Some (sy_heap s !! a) -> 0 < a <= Z.of_nat (sy_mallocs s);
  ac_fault : sy_fault s = false;
  ac_safe : broker_safe (sy_broker s) /\ main_safe (sy_main s)
}.

#[local] Opaque queue_list queue_push queue_take queue_front.

Lemma answered_snoc log e :
  answered_reqs (log ++ [e]) =
  answered_reqs log ++ match e with Answered req _ => [req] | _ => [] end.
Proof. unfold answered_reqs. rewrite omap_app. by destruct e. Qed.

Lemma destroyed_snoc log e :
  destroyed_handles (log ++ [e]) =
  destroyed_handles log ++ match e with Destroyed ph => [ph] | _ => [] end.
Proof. unfold destroyed_handles. rewrite omap_app. by destruct e. Qed.

#[local] Opaque answered_reqs destroyed_handles.

Lemma count_pos n : Nat.eqb n 0 = false -> (0 < n)%nat.
Proof. intros H%Nat.eqb_neq. lia. Qed.

(** Both sides of an accounting equation as sums. *)
Ltac sums :=
  unfold held_reqs, held_handles, held_ptrs; cbn;
  rewrite ?answered_snoc, ?destroyed_snoc, ?fmap_app, ?concat_app, ?occ_app; cbn.

Ltac tally H := let x := fresh "x" in intros x; generalize (H x); sums; intros; lia.

(** The broker at another place, holding the same. *)
Lemma accounted_broker rs s b : accounted rs s ->
  (forall r, occ r (broker_holds action_reqs (fun w => [pw_req w]) b) =
             occ r (broker_holds action_reqs (fun w => [pw_req w]) (sy_broker s))) ->
  (forall h, occ h (broker_holds action_handles (fun _ => []) b) =
             occ h (broker_holds action_handles (fun _ => []) (sy_broker s))) ->
  (forall p, occ p (broker_holds action_ptrs (fun w => [pw_record w]) b) =
             occ p (broker_holds action_ptrs (fun w => [pw_record w]) (sy_broker s))) ->
  broker_safe b -> accounted rs (set_sy_broker b s).
Proof.
  intros [] Hr Hh Hp Hb. constructor; try done.
  - intros r. generalize (ac_reqs0 r) (Hr r). sums. lia.
  - intros h. generalize (ac_handles0 h) (Hh h). sums. lia.
  - intros p. generalize (ac_ptrs0 p) (Hp p). sums. unfold live. cbn. lia.
  - by destruct ac_safe0.
Qed.

Lemma service_one_read_accounted rs s : accounted rs s -> sy_broker s = AtService ->
  accounted rs (service_one_read s).
Proof.
  intros H Hb. pose proof H as []. unfold service_one_read. case_if.
  { apply accounted_broker; [done|by rewrite Hb..|done]. }
  apply orb_false_elim in E as [E1%count_pos E2%count_pos].
  pose proof (fun r => occ_take pr_req _ no_read _ r ac_reads0 E1) as Hr.
  pose proof (fun r => occ_take rec_data _ no_record _ r ac_records0 E2) as Hd.
  cbv zeta. case_if; constructor; cbn; try done; try by apply queue_take_wf.
  - by eapply queue_take_clean.
  - intros r. generalize (ac_reqs0 r). sums. rewrite Hr, Hb. cbn. lia.
  - intros h. generalize (ac_handles0 h). sums. rewrite Hb. cbn. lia.
  - intros p. generalize (ac_ptrs0 p). sums. rewrite Hd, Hb. cbn. unfold live. cbn. lia.
  - destruct ac_safe0. split; [|done]. split_and!; try done. by left.
  - intros r. generalize (ac_reqs0 r). sums. rewrite Hr, Hb. cbn. lia.
  - intros h. generalize (ac_handles0 h). sums. rewrite Hb. cbn. lia.
  - intros p. generalize (ac_ptrs0 p). sums. rewrite Hb. cbn. unfold live. cbn. lia.
  - by destruct ac_safe0.
Qed.

(** ** Blocks *)

Lemma live_some a s : live (Some a) s = bool_decide (is_Some (sy_heap s !! a)).
Proof. done. Qed.

(** Who holds a pointer may use it. *)
Lemma held_live rs s p : accounted rs s -> p ∈ held_ptrs s -> live p s = true.
Proof.
  intros H Hp%occ_pos. pose proof (ac_ptrs rs s H p) as E. destruct (live p s); [done|lia].
Qed.

Lemma touch_live p s : live p s = true -> touch p s = s.
Proof. unfold touch. by intros ->. Qed.

Lemma live_delete p a s : live p (set_sy_heap (delete a (sy_heap s)) s) =
  if decide (p = Some a) then false else live p s.
Proof.
  destruct p as [b|]; [|done]. cbn. case_decide as E.
  - injection E as ->. by rewrite lookup_delete_eq.
  - rewrite lookup_delete_ne; [done|congruence].
Qed.

Lemma live_insert p a v s : live p (set_sy_heap (<[a := v]> (sy_heap s)) s) =
  if decide (p = Some a) then true else live p s.
Proof.
  destruct p as [b|]; [|done]. cbn. case_decide as E.
  - injection E as ->. by rewrite lookup_insert_eq.
  - rewrite lookup_insert_ne; [done|congruence].
Qed.

(** What an action uses is live. *)
Definition usable (a : action) s : Prop :=
  match a with fuse_reply_buf _ p _ | free p => live p s = true | _ => True end.

Lemma perform_frame a s : usable a s ->
  sy_state (perform a s) = sy_state s /\ sy_broker (perform a s) = sy_broker s /\
  sy_main (perform a s) = sy_main s /\ sy_mallocs (perform a s) = sy_mallocs s /\
  sy_fault (perform a s) = sy_fault s /\ sy_received (perform a s) = sy_received s /\
  answered_reqs (sy_log (perform a s)) = answered_reqs (sy_log s) ++ action_reqs a /\
  destroyed_handles (sy_log (perform a s)) = destroyed_handles (sy_log s) ++ action_handles a /\
  sy_heap (perform a s) = match a with free (Some x) => delete x (sy_heap s) | _ => sy_heap s end.
Proof.
  intros Hu. destruct a; cbn in *; rewrite ?answered_snoc, ?destroyed_snoc, ?app_nil_r;
    try (split_and!; done).
  - rewrite touch_live by done. rewrite ?answered_snoc, ?destroyed_snoc, ?app_nil_r. by split_and!.
  - destruct ptr; [|done]. cbn. rewrite touch_live by done. cbn. by split_and!.
Qed.

(** The first action of a thread's list uses what the thread holds. *)
Lemma held_usable rs s a s0 : accounted rs s -> sy_heap s0 = sy_heap s ->
  (forall p, occ p (held_ptrs s) = (occ p (action_ptrs a) + occ p (held_ptrs s0))%nat) ->
  match a with fuse_reply_buf _ d _ => d ∈ held_ptrs s0 | _ => True end -> usable a s0.
Proof.
  intros Ha Hh Hptr Hbuf. assert (forall p, live p s0 = live p s) as Hlive
    by (intros [x|]; cbn; by rewrite ?Hh).
  assert (forall p, (0 < occ p (held_ptrs s))%nat -> live p s0 = true) as Hpos.
  { intros p Hp. rewrite (ac_ptrs rs s Ha), <- Hlive in Hp. destruct (live p s0); [done|lia]. }
  destruct a; try done; cbn; apply Hpos; rewrite Hptr; cbn; rewrite ?one_same; [|lia].
  apply occ_pos in Hbuf. lia.
Qed.

(** The first action of a thread's list moves from what is held to what is done. *)
Lemma perform_accounted rs s a s0 : accounted rs s ->
  sy_state s0 = sy_state s -> sy_heap s0 = sy_heap s -> sy_log s0 = sy_log s ->
  sy_mallocs s0 = sy_mallocs s -> sy_fault s0 = sy_fault s ->
  (forall r, occ r (held_reqs s) = (occ r (action_reqs a) + occ r (held_reqs s0))%nat) ->
  (forall h, occ h (held_handles s) = (occ h (action_handles a) + occ h (held_handles s0))%nat) ->
  (forall p, occ p (held_ptrs s) = (occ p (action_ptrs a) + occ p (held_ptrs s0))%nat) ->
  match a with fuse_reply_buf _ d _ => d ∈ held_ptrs s0 | _ => True end ->
  broker_safe (sy_broker s0) /\ main_safe (sy_main s0) ->
  accounted rs (perform a s0).
Proof.
  intros Ha Hst Hh Hl Hm Hf Hreq Hhan Hptr Hbuf Hsafe. pose proof Ha as [].
  assert (forall p, live p s0 = live p s) as Hlive by (intros [x|]; cbn; by rewrite ?Hh).
  assert (usable a s0) as Hu by (by eapply held_usable).
  destruct (perform_frame a s0 Hu) as (E1 & E2 & E3 & E4 & E5 & _ & E6 & E7 & E8).
  constructor; rewrite ?E1, ?E2, ?E3, ?E4, ?E5, ?Hst, ?Hm; try done.
  - intros r. rewrite E6, Hl, occ_app, ac_reqs0, Hreq. unfold held_reqs. rewrite E1, E2, E3. lia.
  - intros h. rewrite E7, Hl, occ_app, ac_handles0, Hhan. unfold held_handles. rewrite E1, E2, E3. lia.
  - intros p. pose proof (ac_ptrs0 p) as Hp. rewrite Hptr, <- Hlive in Hp.
    assert (held_ptrs (perform a s0) = held_ptrs s0) as -> by (unfold held_ptrs; by rewrite E1, E2, E3).
    assert (live p (perform a s0) = match a with free (Some x) => if decide (p = Some x) then false
      else live p s0 | _ => live p s0 end) as ->.
    { destruct a as [| | | | | | |[x|]]; try (destruct p; cbn [live]; by rewrite ?E8).
      etransitivity; [|exact (live_delete p x s0)].
      destruct p; cbn [live set_sy_heap sy_heap]; by rewrite ?E8. }
    destruct a as [| | | | | | |[x|]]; try done; cbn in Hp.
    cbn [usable] in Hu. unfold one in Hp. repeat case_decide; try congruence; subst;
      [rewrite Hu in Hp; lia|lia].
  - intros x Hx. apply ac_fresh0. rewrite E8, Hh in Hx. destruct a as [| | | | | | |[y|]]; try done.
    destruct Hx as [v Hv]. apply lookup_delete_Some in Hv as [_ Hv]. by exists v.
  - by rewrite Hf.
Qed.

Lemma broker_call_held rs s a actions next : accounted rs s ->
  sy_broker s = Calls (a :: actions) next ->
  let s0 := set_sy_broker (Calls actions next) s in
  (forall p, occ p (held_ptrs s) = (occ p (action_ptrs a) + occ p (held_ptrs s0))%nat) /\
  match a with fuse_reply_buf _ d _ => d ∈ held_ptrs s0 | _ => True end /\
  broker_safe (Calls actions next).
Proof.
  intros H Hb. pose proof (ac_safe _ _ H) as [Hs _]. rewrite Hb in Hs. cbn zeta. split_and!.
  - intros p. sums. rewrite Hb. cbn. rewrite !occ_app. lia.
  - destruct a; try done. unfold held_ptrs. cbn. rewrite !elem_of_app. cbn in Hs. tauto.
  - cbn in *. destruct a; cbn in Hs; tauto.
Qed.

Lemma main_call_held rs s a actions : accounted rs s -> sy_main s = Serving (a :: actions) ->
  let s0 := set_sy_main (Serving actions) s in
  (forall p, occ p (held_ptrs s) = (occ p (action_ptrs a) + occ p (held_ptrs s0))%nat) /\
  match a with fuse_reply_buf _ d _ => d ∈ held_ptrs s0 | _ => True end /\
  actions_safe actions.
Proof.
  intros H Hb. pose proof (ac_safe _ _ H) as [_ Hm]. rewrite Hb in Hm. cbn in Hm. cbn zeta. split_and!.
  - intros p. sums. rewrite Hb. cbn. rewrite !occ_app. lia.
  - destruct a; try done. unfold held_ptrs. cbn. rewrite !elem_of_app. tauto.
  - destruct a; cbn in Hm; tauto.
Qed.

Lemma broker_call_accounted rs s a actions next : accounted rs s ->
  sy_broker s = Calls (a :: actions) next ->
  accounted rs (perform a (set_sy_broker (Calls actions next) s)).
Proof.
  intros H Hb. destruct (broker_call_held rs s a actions next H Hb) as (Hp & Hbuf & Hs).
  apply (perform_accounted rs s a); try done.
  - intros r. sums. rewrite Hb. cbn. rewrite !occ_app. lia.
  - intros h. sums. rewrite Hb. cbn. rewrite !occ_app. lia.
  - split; [done|]. apply H.
Qed.

Lemma main_call_accounted rs s a actions : accounted rs s -> sy_main s = Serving (a :: actions) ->
  accounted rs (perform a (set_sy_main (Serving actions) s)).
Proof.
  intros H Hb. destruct (main_call_held rs s a actions H Hb) as (Hp & Hbuf & Hs).
  apply (perform_accounted rs s a); try done.
  - intros r. sums. rewrite Hb. cbn. rewrite !occ_app. lia.
  - intros h. sums. rewrite Hb. cbn. rewrite !occ_app. lia.
  - split; [|done]. apply H.
Qed.

(** ** The steps of the broker *)

Lemma accounted_port rs s port : accounted rs s -> accounted rs (supd (set_cu_port port) s).
Proof. intros []. by constructor. Qed.

Lemma accounted_storage rs s v : accounted rs s -> accounted rs (supd (set_cu_rx_storage v) s).
Proof. intros []. by constructor. Qed.

Lemma accounted_received rs s v : accounted rs s -> accounted rs (set_sy_received v s).
Proof. intros []. by constructor. Qed.

(** A place where the broker holds nothing. *)
Definition empty_handed (b : broker) : Prop :=
  match b with AtWrite _ | Calls _ _ => False | _ => True end.

Lemma accounted_idle rs s b : accounted rs s -> empty_handed (sy_broker s) -> empty_handed b ->
  accounted rs (set_sy_broker b s).
Proof.
  intros H Hs Hb. apply accounted_broker; [done|intros ?..|by destruct b];
    by destruct (sy_broker s), b.
Qed.

Lemma broker_turn_accounted rs s : accounted rs s -> sy_broker s = AtLock ->
  accounted rs (broker_turn s).
Proof.
  intros H Hb. pose proof H as []. unfold broker_turn, pop_write_locked. case_if.
  { apply accounted_idle; by rewrite ?Hb. }
  case_if. { apply accounted_idle; [done|by rewrite Hb|by case_if]. }
  apply count_pos in E0. cbn.
  pose proof (fun r => occ_take pw_req _ no_write _ r ac_writes0 E0) as Hr.
  pose proof (fun r => occ_take pw_record _ no_write _ r ac_writes0 E0) as Hd.
  constructor; cbn; try done.
  - by apply queue_take_wf.
  - by eapply queue_take_clean.
  - intros r. generalize (ac_reqs0 r). sums. rewrite Hr, Hb. destruct (cu_poll_handle _); cbn; lia.
  - intros h. generalize (ac_handles0 h). sums. rewrite Hb. destruct (cu_poll_handle _); cbn; lia.
  - intros p. generalize (ac_ptrs0 p). sums. rewrite Hd, Hb. unfold live.
    destruct (cu_poll_handle _); cbn; lia.
  - destruct ac_safe0. split; [|done]. by destruct (cu_poll_handle _).
Qed.

Lemma process_write_accounted rs s w : accounted rs s -> sy_broker s = AtWrite w ->
  accounted rs (process_write w s).
Proof.
  intros H Hb. assert (live (pw_record w) s = true) as Hl.
  { eapply held_live; [done|]. unfold held_ptrs. rewrite Hb. cbn. rewrite !elem_of_app.
    right. right. by left. }
  unfold process_write. rewrite touch_live by done.
  assert (forall a, action_reqs a = [pw_req w] -> action_handles a = [] -> action_ptrs a = [] ->
    actions_safe [a; free (pw_record w)] -> forall s', accounted rs s' -> sy_broker s' = AtWrite w ->
    accounted rs (set_sy_broker (Calls [a; free (pw_record w)] AtService) s')) as Hend.
  { intros a E1 E2 E3 Hs s' H' Hb'. apply accounted_broker; rewrite ?Hb'; cbn; try done;
      intros; rewrite ?E1, ?E2, ?E3; cbn; try done; lia. }
  destruct (validate_user_record _ _ _) as [error header]. case_if; [by apply Hend|].
  destruct (if cr_type header =? VSPW_CUSE_RECORD_DATA then _ else _) as [result port].
  case_if; (apply Hend; [done..|by apply accounted_port|done]).
Qed.

Lemma wait_backend_accounted rs s t : accounted rs s -> sy_broker s = AtWait t ->
  accounted rs (wait_backend t s).
Proof.
  intros H Hb. unfold wait_backend. destruct (spw_port_wait _ _ _ _) as [[result ready] port].
  apply accounted_idle; [by apply accounted_port|cbn; by rewrite Hb|]. by repeat case_if.
Qed.

Lemma wait_more_accounted rs s : accounted rs s -> sy_broker s = AtMore -> accounted rs (wait_more s).
Proof.
  intros H Hb. unfold wait_more. destruct (spw_port_wait _ _ _ _) as [[result ready] port].
  apply accounted_idle; [by apply accounted_port|cbn; by rewrite Hb|]. by case_if.
Qed.

Lemma refuse_nonblocking_accounted rs s : accounted rs s -> sy_broker s = AtTimeout ->
  accounted rs (refuse_nonblocking s).
Proof.
  intros H Hb. pose proof H as []. unfold refuse_nonblocking. cbv zeta.
  case_if; [|apply accounted_idle; by rewrite ?Hb].
  apply andb_prop in E as [[_ E%negb_true_iff%count_pos]%andb_prop _].
  pose proof (fun r => occ_take pr_req _ no_read _ r ac_reads0 E) as Hr.
  assert (non_null (pr_req (queue_front (cu_reads (sy_state s)))) = true) as ->.
  { generalize (ac_reqs0 None). sums. rewrite Hr. destruct (pr_req _); [done|]. rewrite one_same.
    assert (occ None (Some <$> (request_id <$> rs)) = 0%nat) as -> by (clear; by induction rs).
    lia. }
  constructor; cbn; try done.
  - by apply queue_take_wf.
  - intros r. generalize (ac_reqs0 r). sums. rewrite Hr, Hb. cbn. lia.
  - intros h. generalize (ac_handles0 h). sums. rewrite Hb. cbn. lia.
  - intros p. generalize (ac_ptrs0 p). sums. rewrite Hb. cbn. unfold live. cbn. lia.
  - by destruct ac_safe0.
Qed.

Lemma receive_packet_accounted rs s ready : accounted rs s -> sy_broker s = AtReceive ready ->
  accounted rs (receive_packet ready s).
Proof.
  intros H Hb. unfold receive_packet. case_if; [apply accounted_idle; by rewrite ?Hb|].
  cbv zeta. destruct (spw_port_receive _ _ _) as [[result packet] port].
  assert (forall v b, empty_handed b -> accounted rs (set_sy_broker b
    (supd (fun st => set_cu_rx_storage v (set_cu_port port st)) s))) as Hend.
  { intros v b Hb'. apply accounted_idle; [|cbn; by rewrite Hb|done].
    exact (accounted_storage rs _ v (accounted_port rs s port H)). }
  destruct packet as [packet|]; [|by apply Hend]. case_if; [|by apply Hend].
  apply accounted_received. by apply Hend.
Qed.

Lemma receive_time_code_accounted rs s ready : accounted rs s ->
  sy_broker s = AtReceiveTimeCode ready -> accounted rs (receive_time_code ready s).
Proof.
  intros H Hb. unfold receive_time_code. case_if; [apply accounted_idle; by rewrite ?Hb|].
  destruct (spw_port_receive_time_code _ _ _) as [[result tc] port].
  assert (forall b, empty_handed b -> accounted rs (set_sy_broker b (supd (set_cu_port port) s))) as Hend.
  { intros b Hb'. apply accounted_idle; [by apply accounted_port|cbn; by rewrite Hb|done]. }
  destruct tc as [tc|]; [|by apply Hend]. case_if; [|by apply Hend].
  apply accounted_received. by apply Hend.
Qed.

(** ** Allocation *)

Lemma accounted_mallocs rs s : accounted rs s -> accounted rs (set_sy_mallocs (S (sy_mallocs s)) s).
Proof. intros []. constructor; try done. intros a Ha%ac_fresh0. cbn. lia. Qed.

Lemma fresh_block rs s : accounted rs s -> sy_heap s !! Z.of_nat (S (sy_mallocs s)) = None.
Proof.
  intros H. apply eq_None_not_Some. intros Ha%(ac_fresh _ _ H). lia.
Qed.

(** A new block with its contents [v], which somebody has to hold. *)
Definition with_block (v : list Z) s : presenter :=
  set_sy_heap (<[Z.of_nat (S (sy_mallocs s)) := v]> (sy_heap s)) (set_sy_mallocs (S (sy_mallocs s)) s).

Lemma live_with_block rs s v p : accounted rs s ->
  (if live p (with_block v s) then 1%nat else 0%nat) =
  (one p (Some (Z.of_nat (S (sy_mallocs s)))) + if live p s then 1 else 0)%nat.
Proof.
  intros H. assert (live p (with_block v s) = if decide (p = Some (Z.of_nat (S (sy_mallocs s))))
    then true else live p s) as -> by apply (live_insert p _ v s).
  unfold one. repeat case_decide; try congruence; [|done]. subst p. rewrite live_some.
  rewrite (fresh_block rs) by done. done.
Qed.

Lemma with_block_fresh rs s v : accounted rs s -> forall a, is_Some (sy_heap (with_block v s) !! a) ->
  0 < a <= Z.of_nat (S (sy_mallocs s)).
Proof.
  intros H a Ha. cbn in Ha. destruct (decide (a = Z.of_nat (S (sy_mallocs s)))) as [->|Hne]; [lia|].
  rewrite lookup_insert_ne in Ha by congruence. apply (ac_fresh _ _ H) in Ha. lia.
Qed.

(** malloc, and the block written right after. *)
Lemma malloc_eq size s : malloc mallocs size s =
  if mallocs (sy_mallocs s)
  then (Some (Z.of_nat (S (sy_mallocs s))), with_block (replicate (Z.to_nat size) 0) s)
  else (None, set_sy_mallocs (S (sy_mallocs s)) s).
Proof. done. Qed.

Lemma with_block_write v w s :
  set_sy_heap (<[Z.of_nat (S (sy_mallocs s)) := w]> (sy_heap (with_block v s))) (with_block v s) =
  with_block w s.
Proof. unfold with_block. cbn. by rewrite insert_insert_eq. Qed.

Lemma block_with_block v s : block (Some (Z.of_nat (S (sy_mallocs s)))) (with_block v s) = v.
Proof. cbn. by rewrite lookup_insert_eq. Qed.

Lemma free_with_block rs v s : accounted rs s ->
  do_free (Some (Z.of_nat (S (sy_mallocs s)))) (with_block v s) = set_sy_mallocs (S (sy_mallocs s)) s.
Proof.
  intros H. cbn [do_free]. rewrite touch_live by (cbn; by rewrite lookup_insert_eq).
  pose proof (fresh_block rs s H) as Hf. unfold with_block. cbn [sy_heap set_sy_heap].
  rewrite delete_insert_id by done. by destruct s.
Qed.

(** enqueue_record_locked: refused, out of memory, or queued. *)
Lemma enqueue_record_cases rs type flags payload size s : accounted rs s ->
  let result := enqueue_record_locked mallocs type flags payload size s in
  (result.1 = false /\ (result.2 = s \/ result.2 = set_sy_mallocs (S (sy_mallocs s)) s)) \/
  (result.1 = true /\ (q_count (cu_records (sy_state s)) < SPWCUSE_RECORD_QUEUE_DEPTH)%nat /\
   exists bytes, result.2 = supd (fun st => set_cu_records (queue_push (cu_records st)
     {| rec_data := Some (Z.of_nat (S (sy_mallocs s))); rec_size := 16 + size |}) st) (with_block bytes s)).
Proof.
  intros H. cbn zeta. unfold enqueue_record_locked. case_if; [by left; eauto|].
  apply orb_false_elim in E as [E%Nat.leb_gt _]. case_if; [by left; eauto|].
  rewrite malloc_eq. destruct (mallocs _); [|left; eauto]. rewrite block_with_block.
  destruct (vspw_cuse_record_encode_header _ _) as [[] [bytes|]];
    try (left; rewrite (free_with_block rs) by done; by eauto).
  right. split; [done|]. split; [done|]. cbn [snd]. rewrite with_block_write. by eauto.
Qed.

Lemma enqueue_received_accounted rs s type flags payload size : accounted rs s ->
  sy_broker s = AtEnqueue type flags payload size ->
  accounted rs (enqueue_received mallocs type flags payload size s).
Proof.
  intros H Hb. unfold enqueue_received.
  destruct (enqueue_record_cases rs type flags payload size s H) as
    [[E1 E2]|(E1 & Hlt & bytes & E2)]; destruct (enqueue_record_locked _ _ _ _ _ _) as [queued s'];
    cbn in E1, E2; rewrite E1.
  { destruct E2 as [-> | ->]; (apply accounted_idle; [|cbn; by rewrite Hb|done]); [done|].
    by apply accounted_mallocs. }
  subst s'. pose proof H as []. cbn.
  pose proof (fun r x => occ_push rec_data _ _ x r ac_records0 Hlt) as Hr.
  constructor; cbn; try done.
  - by apply queue_push_wf.
  - by eapply queue_push_clean.
  - intros r. generalize (ac_reqs0 r). sums. rewrite Hb. destruct (cu_poll_handle _); cbn; lia.
  - intros h. generalize (ac_handles0 h). sums. rewrite Hb. destruct (cu_poll_handle _); cbn; lia.
  - intros p. generalize (ac_ptrs0 p) (live_with_block rs s bytes p H). sums. rewrite Hr, Hb. cbn.
    unfold live. destruct (cu_poll_handle _); cbn; lia.
  - by apply (with_block_fresh rs s bytes).
  - destruct ac_safe0. split; [|done]. by destruct (cu_poll_handle _).
Qed.

Lemma check_room_accounted rs s ready : accounted rs s -> sy_broker s = AtRoom ready ->
  accounted rs (check_room ready s).
Proof. intros H Hb. unfold check_room. apply accounted_idle; [done|by rewrite Hb|by case_if]. Qed.

Lemma broker_step_accounted rs s s' : accounted rs s -> broker_step mallocs s = Some s' ->
  accounted rs s'.
Proof.
  intros H Hs. unfold broker_step in Hs. destruct (sy_broker s) eqn:Hb; try done;
    try (injection Hs as <-).
  - by apply service_one_read_accounted.
  - by apply broker_turn_accounted.
  - by apply accounted_idle; rewrite ?Hb.
  - by apply process_write_accounted.
  - by apply wait_backend_accounted.
  - by apply refuse_nonblocking_accounted.
  - by apply receive_packet_accounted.
  - by apply receive_time_code_accounted.
  - by apply enqueue_received_accounted.
  - by apply wait_more_accounted.
  - by apply check_room_accounted.
  - destruct actions as [|a actions]; injection Hs as <-; [|by apply broker_call_accounted].
    apply accounted_broker; rewrite ?Hb; try done. pose proof (ac_safe _ _ H) as [Hsafe _].
    rewrite Hb in Hsafe. by destruct Hsafe.
Qed.

(** ** The handlers *)

Lemma signal_accounted rs s : accounted rs s -> accounted rs (signal s).
Proof.
  intros H. unfold signal. destruct (sy_broker s) eqn:Hb; try done. apply accounted_idle; by rewrite ?Hb.
Qed.

Lemma accounted_opened rs s v : accounted rs s -> accounted rs (supd (set_cu_opened v) s).
Proof. intros []. by constructor. Qed.

(** A request enters with what the handler will do about it. *)
Lemma accounted_reply rs r s actions : accounted rs s -> sy_main s = Serving [] ->
  concat (action_reqs <$> actions) = [Some (request_id r)] ->
  concat (action_handles <$> actions) = request_handle r ->
  concat (action_ptrs <$> actions) = [] -> actions_safe actions ->
  accounted (rs ++ [r]) (set_sy_main (Serving actions) s).
Proof.
  intros [] Hm Hr Hh Hp Hs. constructor; try done.
  - intros x. generalize (ac_reqs0 x). sums. rewrite Hm, Hr. cbn. lia.
  - intros x. generalize (ac_handles0 x). sums. rewrite Hm, Hh, app_nil_r. cbn. lia.
  - intros p. generalize (ac_ptrs0 p). sums. rewrite Hm, Hp. unfold live. cbn. lia.
  - by destruct ac_safe0.
Qed.

Lemma cuse_open_accounted rs req s : accounted rs s -> sy_main s = Serving [] ->
  accounted (rs ++ [RequestOpen req]) (cuse_open req s).
Proof.
  intros H Hm. unfold cuse_open. case_if; apply accounted_reply; try done. by apply accounted_opened.
Qed.

Lemma set_main_same s m : sy_main s = m -> set_sy_main m s = s.
Proof. intros <-. by destruct s. Qed.

Lemma signal_main s m : sy_main s = m -> set_sy_main m (signal s) = signal s.
Proof. intros H. apply set_main_same. unfold signal. by destruct (sy_broker s). Qed.

Lemma cuse_read_accounted rs req size flags s : accounted rs s -> sy_main s = Serving [] ->
  accounted (rs ++ [RequestRead req size flags]) (cuse_read req size flags s).
Proof.
  intros H Hm. unfold cuse_read, enqueue_read_locked. cbv zeta.
  destruct (_ <=? _)%nat eqn:E; [by apply accounted_reply|]. apply Nat.leb_gt in E.
  rewrite signal_main by done. apply signal_accounted. pose proof H as [].
  pose proof (fun r x => occ_push pr_req _ _ x r ac_reads0 E) as Hr. constructor; cbn; try done.
  - by apply queue_push_wf.
  - intros x. generalize (ac_reqs0 x). sums. rewrite Hr. cbn. lia.
  - intros x. generalize (ac_handles0 x). sums. lia.
Qed.

Lemma cuse_write_accounted rs req buf flags s : accounted rs s -> sy_main s = Serving [] ->
  accounted (rs ++ [RequestWrite req buf flags]) (cuse_write mallocs req buf flags s).
Proof.
  intros H Hm. unfold cuse_write. cbv zeta. destruct (validate_user_record _ _ _) as [error header].
  case_if; [by apply accounted_reply|]. rewrite malloc_eq.
  destruct (mallocs _); [|by apply accounted_reply; [apply accounted_mallocs|..]].
  rewrite block_with_block, with_block_write. unfold enqueue_write_locked.
  set (v := mem_write _ _ _). clearbody v. pose proof H as [].
  destruct (_ <=? _)%nat eqn:E0; [|apply Nat.leb_gt in E0].
  - constructor; cbn; try done.
    + intros x. generalize (ac_reqs0 x). sums. rewrite Hm. cbn. lia.
    + intros x. generalize (ac_handles0 x). sums. rewrite Hm. cbn. lia.
    + intros p. generalize (ac_ptrs0 p) (live_with_block rs s v p H). sums. rewrite Hm. cbn.
      unfold live. cbn. lia.
    + by apply (with_block_fresh rs s v).
    + by destruct ac_safe0.
  - rewrite signal_main by done. apply signal_accounted. cbn in E0.
    pose proof (fun r x => occ_push pw_req _ _ x r ac_writes0 E0) as Hr.
    pose proof (fun r x => occ_push pw_record _ _ x r ac_writes0 E0) as Hp.
    constructor; cbn; try done.
    + by apply queue_push_wf.
    + by eapply queue_push_clean.
    + intros x. generalize (ac_reqs0 x). sums. rewrite Hr. cbn. lia.
    + intros x. generalize (ac_handles0 x). sums. lia.
    + intros p. generalize (ac_ptrs0 p) (live_with_block rs s v p H). sums. rewrite Hp. cbn.
      unfold live. cbn. lia.
    + by apply (with_block_fresh rs s v).
Qed.

Lemma signal_set_main s m : set_sy_main m (signal s) = signal (set_sy_main m s).
Proof. unfold signal. cbn. by destruct (sy_broker s). Qed.

Lemma cuse_poll_accounted rs req ph s : accounted rs s -> sy_main s = Serving [] ->
  accounted (rs ++ [RequestPoll req ph]) (cuse_poll req ph s).
Proof.
  intros H Hm. unfold cuse_poll. cbv zeta. destruct ph as [ph|]; [|by apply accounted_reply].
  case_if; rewrite signal_set_main; apply signal_accounted; [by apply accounted_reply|].
  pose proof H as []. destruct (cu_poll_handle (sy_state s)) eqn:Eh; [done|]. constructor; cbn; try done.
  - intros x. generalize (ac_reqs0 x). sums. rewrite Hm. cbn. lia.
  - intros x. generalize (ac_handles0 x). sums. rewrite Hm, Eh. cbn. lia.
  - intros p. generalize (ac_ptrs0 p). sums. rewrite Hm. unfold live. cbn. lia.
  - by destruct ac_safe0.
Qed.

Lemma cancel_reads_spec n : forall q, queue_wf SPWCUSE_READ_QUEUE_DEPTH q ->
  let '(cancelled, q') := cancel_reads n q in
  queue_wf SPWCUSE_READ_QUEUE_DEPTH q' /\
  pr_req <$> queue_list q = cancelled ++ (pr_req <$> queue_list q').
Proof.
  induction n as [|n IH]; intros q Hq; cbn [cancel_reads]; [done|]. case_if; [done|].
  apply count_pos in E. specialize (IH (queue_take no_read q) (queue_take_wf _ _ _ Hq)).
  destruct (cancel_reads n _) as [cancelled q']. destruct IH as [Hw IH]. split; [done|].
  rewrite (queue_list_take _ no_read q Hq E), fmap_cons, IH. done.
Qed.

Lemma cancelled_actions l e : concat (action_reqs <$> map (fun r => fuse_reply_err r e) l) = l /\
  concat (action_handles <$> map (fun r => fuse_reply_err r e) l) = [] /\
  concat (action_ptrs <$> map (fun r => fuse_reply_err r e) l) = [] /\
  forall k, actions_safe k -> actions_safe (map (fun r => fuse_reply_err r e) l ++ k).
Proof.
  induction l as [|r l (IH1 & IH2 & IH3 & IH4)]; [done|]. cbn. rewrite IH1, IH2, IH3. split_and!; auto.
Qed.

Lemma cuse_release_accounted rs req s : accounted rs s -> sy_main s = Serving [] ->
  accounted (rs ++ [RequestRelease req]) (cuse_release req s).
Proof.
  intros H Hm. pose proof H as []. unfold cuse_release. cbv zeta.
  pose proof (cancel_reads_spec SPWCUSE_READ_QUEUE_DEPTH (cu_reads (sy_state s)) ac_reads0) as Hc.
  cbn [set_cu_opened cu_reads]. destruct (cancel_reads _ _) as [cancelled reads]. destruct Hc as [Hw Hc].
  destruct (cancelled_actions cancelled EINTR) as (H1 & H2 & H3 & H4).
  set (l := map _ cancelled) in *. clearbody l. constructor; cbn; try done.
  - intros x. generalize (ac_reqs0 x). sums. rewrite Hm, H1, Hc, occ_app.
    destruct (cu_poll_handle _); cbn; lia.
  - intros x. generalize (ac_handles0 x). sums. rewrite Hm, H2.
    destruct (cu_poll_handle _); cbn; lia.
  - intros p. generalize (ac_ptrs0 p). sums. rewrite Hm, H3. unfold live.
    destruct (cu_poll_handle _); cbn; lia.
  - split; [by destruct ac_safe0|]. apply H4. by destruct (cu_poll_handle _).
Qed.

Lemma cuse_ops_accounted rs r s : accounted rs s -> sy_main s = Serving [] ->
  accounted (rs ++ [r]) (cuse_ops mallocs r s).
Proof.
  intros. destruct r; cbn [cuse_ops].
  - by apply cuse_open_accounted.
  - by apply cuse_read_accounted.
  - by apply cuse_write_accounted.
  - by apply cuse_poll_accounted.
  - by apply cuse_release_accounted.
Qed.

(** ** The end *)

Lemma cleanup_begin_accounted rs s : accounted rs s -> sy_main s = Serving [] ->
  accounted rs (cleanup_begin s).
Proof.
  intros [] Hm. unfold cleanup_begin. rewrite signal_set_main. apply signal_accounted.
  constructor; cbn; try done.
  - intros x. generalize (ac_reqs0 x). sums. rewrite Hm. cbn. lia.
  - intros x. generalize (ac_handles0 x). sums. rewrite Hm. cbn. lia.
  - intros p. generalize (ac_ptrs0 p). sums. rewrite Hm. unfold live. cbn. lia.
  - by destruct ac_safe0.
Qed.

(** Freeing a list of live blocks, NULL pointers among them. *)
Lemma free_all_spec ptrs : forall s,
  (forall a, (occ (Some a) ptrs <= if live (Some a) s then 1 else 0)%nat) ->
  let s' := free_all ptrs s in
  sy_state s' = sy_state s /\ sy_broker s' = sy_broker s /\ sy_main s' = sy_main s /\
  sy_log s' = sy_log s /\ sy_fault s' = sy_fault s /\
  forall a, (if live (Some a) s then 1 else 0)%nat =
            (occ (Some a) ptrs + if live (Some a) s' then 1 else 0)%nat.
Proof.
  induction ptrs as [|[x|] ptrs IH]; intros s Hl; cbn zeta; [done| |by apply IH].
  change (free_all (Some x :: ptrs) s) with (free_all ptrs (do_free (Some x) s)).
  assert (live (Some x) s = true) as Hx.
  { specialize (Hl x). cbn [occ] in Hl. rewrite one_same in Hl. by destruct (live (Some x) s); [|lia]. }
  cbn [do_free]. rewrite touch_live by done.
  assert (forall a, (if live (Some a) s then 1 else 0)%nat = (one (Some a) (Some x) +
    if live (Some a) (set_sy_heap (delete x (sy_heap s)) s) then 1 else 0)%nat) as Hd.
  { intros a. rewrite live_delete. unfold one. repeat case_decide; try congruence; [|done].
    simplify_eq. by rewrite Hx. }
  destruct (IH (set_sy_heap (delete x (sy_heap s)) s)) as (H1 & H2 & H3 & H4 & H5 & H6).
  { intros a. specialize (Hl a). rewrite Hd in Hl. cbn [occ] in Hl. lia. }
  split_and!; try done. intros a. rewrite Hd, H6. cbn [occ]. lia.
Qed.

Lemma occ_replicate_none n a : occ (Some a) (replicate n (@None Z)) = 0%nat.
Proof. by induction n. Qed.

Lemma occ_perm {A} `{EqDecision A} (x : A) l k : l ≡ₚ k -> occ x l = occ x k.
Proof. induction 1; cbn; lia. Qed.

(** The slots point to what the queue holds, the others to nothing. *)
Lemma occ_slots {A} `{!Inhabited A} (f : A -> option Z) z depth q a : f z = None ->
  queue_wf depth q -> queue_clean z q ->
  occ (Some a) (f <$> q_slots q) = occ (Some a) (f <$> queue_list q).
Proof.
  intros Hz Hq Hc. rewrite (occ_perm _ _ _ (fmap_Permutation f _ _ (queue_slots_perm depth z q Hq Hc))).
  rewrite fmap_app, occ_app, fmap_replicate, Hz, occ_replicate_none. lia.
Qed.

Lemma heap_empty s : (forall a, live (Some a) s = false) -> sy_heap s = ∅.
Proof.
  intros H. apply map_empty. intros a. specialize (H a). cbn in H. apply bool_decide_eq_false in H.
  by apply eq_None_not_Some.
Qed.

(** cleanup_state from pthread_join on, without the frees. *)
Lemma close_and_destroy rs s : accounted rs s ->
  let s1 := match cu_port (sy_state s) with
    | None => s
    | Some _ => let '(result, _, _, _) := spw_port_close Bd (cu_port (sy_state s)) in
                supd (set_cu_port None) (emit (Closed result) s)
    end in
  let s2 := match cu_poll_handle (sy_state s1) with
    | None => s1
    | Some h => supd (set_cu_poll_handle None) (emit (Destroyed h) s1)
    end in
  sy_state s2 = set_cu_poll_handle None (set_cu_port None (sy_state s)) /\ sy_heap s2 = sy_heap s /\
  sy_broker s2 = sy_broker s /\ sy_main s2 = sy_main s /\ sy_fault s2 = sy_fault s /\
  sy_mallocs s2 = sy_mallocs s /\ answered_reqs (sy_log s2) = answered_reqs (sy_log s) /\
  destroyed_handles (sy_log s2) =
    destroyed_handles (sy_log s) ++ option_list (cu_poll_handle (sy_state s)).
Proof.
  intros H. cbn zeta. destruct (cu_port (sy_state s)) eqn:Ep;
    [destruct (spw_port_close _ _) as [[[? ?] ?] ?]|]; cbn;
    destruct (cu_poll_handle (sy_state s)) eqn:Eh; cbn;
    rewrite ?answered_snoc, ?destroyed_snoc, ?app_nil_r; split_and!; try done;
    destruct (sy_state s); cbn in *; by subst.
Qed.

Lemma cleanup_end_spec rs s : accounted rs s -> sy_main s = Joining -> sy_broker s = Exited ->
  let s' := cleanup_end Bd s in
  sy_main s' = Ended /\ sy_broker s' = Exited /\ sy_fault s' = false /\ sy_heap s' = ∅ /\
  sy_state s' = set_cu_poll_handle None (set_cu_port None (sy_state s)) /\
  answered_reqs (sy_log s') = answered_reqs (sy_log s) /\
  destroyed_handles (sy_log s') =
    destroyed_handles (sy_log s) ++ option_list (cu_poll_handle (sy_state s)).
Proof.
  intros H Hm Hb. unfold cleanup_end. pose proof (close_and_destroy rs s H) as Hc. cbv zeta in *.
  set (s1 := match cu_port (sy_state s) with Some _ => _ | None => _ end) in *. clearbody s1.
  set (s2 := match cu_poll_handle (sy_state s1) with Some _ => _ | None => _ end) in *. clearbody s2.
  destruct Hc as (Hst & Hheap & Hbr & Hmain & Hfault & _ & Hans & Hdes). pose proof H as [].
  assert (forall a, live (Some a) s2 = live (Some a) s) as Hlive by (intros; cbn; by rewrite Hheap).
  assert (forall a, (if live (Some a) s then 1 else 0)%nat =
    (occ (Some a) (pw_record <$> q_slots (cu_writes (sy_state s))) +
     occ (Some a) (rec_data <$> q_slots (cu_records (sy_state s))))%nat) as Hall.
  { intros a. rewrite (occ_slots pw_record no_write _ _ a eq_refl ac_writes0 ac_writes_clean0).
    rewrite (occ_slots rec_data no_record _ _ a eq_refl ac_records0 ac_records_clean0).
    generalize (ac_ptrs0 (Some a)). sums. rewrite Hm, Hb. cbn. lia. }
  destruct (free_all_spec (pw_record <$> q_slots (cu_writes (sy_state s2))) s2) as
    (E1 & E2 & E3 & E4 & E5 & E6).
  { intros a. rewrite Hlive, Hst, Hall. cbn. lia. }
  set (s3 := free_all _ s2) in *. clearbody s3.
  destruct (free_all_spec (rec_data <$> q_slots (cu_records (sy_state s3))) s3) as
    (F1 & F2 & F3 & F4 & F5 & F6).
  { intros a. specialize (E6 a). rewrite Hlive, Hst, Hall in E6. rewrite E1, Hst. cbn in *. lia. }
  set (s4 := free_all _ s3) in *. clearbody s4. cbn [sy_main set_sy_main sy_broker sy_fault sy_heap
    sy_state sy_log]. rewrite F1, F2, F4, F5, E1, E2, E4, E5, Hst, Hbr, Hfault, Hans, Hdes.
  split_and!; try done. apply heap_empty. intros a. specialize (E6 a). specialize (F6 a).
  rewrite Hlive, Hst, Hall in E6. rewrite E1, Hst in F6.
  cbn [cu_writes cu_records set_cu_poll_handle set_cu_port] in E6, F6.
  change (live (Some a) s4 = false). destruct (live (Some a) s4); [lia|done].
Qed.

(** ** Every reachable state *)

Lemma do_free_main p s : sy_main (do_free p s) = sy_main s.
Proof. destruct p; [|done]. unfold do_free, touch. by case_if. Qed.

Lemma perform_main a s : sy_main (perform a s) = sy_main s.
Proof.
  destruct a; try done; cbn [perform]; [unfold touch; by case_if|]. apply do_free_main.
Qed.

Lemma enqueue_record_main type flags payload size s :
  sy_main (enqueue_record_locked mallocs type flags payload size s).2 = sy_main s.
Proof.
  unfold enqueue_record_locked. do 2 (case_if; [done|]). rewrite malloc_eq. destruct (mallocs _); [|done].
  destruct (vspw_cuse_record_encode_header _ _) as [[] [bytes|]]; try done; cbn [snd];
    by rewrite do_free_main.
Qed.

Lemma broker_step_main s s' : broker_step mallocs s = Some s' -> sy_main s' = sy_main s.
Proof.
  unfold broker_step. destruct (sy_broker s); try done; try (intros [= <-]).
  - unfold service_one_read. by repeat case_if.
  - unfold broker_turn, pop_write_locked. by repeat case_if.
  - done.
  - unfold process_write. destruct (validate_user_record _ _ _) as [e h].
    assert (sy_main (touch (pw_record pending) s) = sy_main s) as E by (unfold touch; by case_if).
    case_if; [done|]. by match goal with |- context [let '(_, _) := ?x in _] => destruct x end.
  - unfold wait_backend. by destruct (spw_port_wait _ _ _ _) as [[? ?] ?].
  - unfold refuse_nonblocking. cbv zeta. by case_if.
  - unfold receive_packet. case_if; [done|]. cbv zeta.
    destruct (spw_port_receive _ _ _) as [[? [packet|]] ?]; [|done]. by case_if.
  - unfold receive_time_code. case_if; [done|].
    destruct (spw_port_receive_time_code _ _ _) as [[? [tc|]] ?]; [|done]. by case_if.
  - unfold enqueue_received. pose proof (enqueue_record_main type flags payload size s) as H.
    destruct (enqueue_record_locked _ _ _ _ _ _) as [queued s1]. by case_if.
  - unfold wait_more. by destruct (spw_port_wait _ _ _ _) as [[? ?] ?].
  - done.
  - destruct actions; intros [= <-]; [done|]. by rewrite perform_main.
Qed.

Lemma cuse_ops_main r s : exists actions, sy_main (cuse_ops mallocs r s) = Serving actions.
Proof.
  destruct r; cbn [cuse_ops].
  - unfold cuse_open. case_if; by eexists.
  - unfold cuse_read, enqueue_read_locked. cbv zeta. destruct (_ <=? _)%nat; by eexists.
  - unfold cuse_write. destruct (validate_user_record _ _ _) as [e h]. case_if; [by eexists|].
    rewrite malloc_eq. destruct (mallocs _); [|by eexists].
    unfold enqueue_write_locked. destruct (_ <=? _)%nat; by eexists.
  - unfold cuse_poll. cbv zeta. destruct ph; [|by eexists]. case_if; by eexists.
  - unfold cuse_release. cbv zeta. destruct (cancel_reads _ _) as [? ?]. by eexists.
Qed.

Lemma start_accounted port : accounted [] (presenter_start port).
Proof.
  constructor; try done; try (by apply queue_new_wf; cbv; lia); try apply queue_new_clean.
  - intros [a|]; [|done]. cbn. by rewrite lookup_empty.
  - intros a [v Hv]. cbn in Hv. by rewrite lookup_empty in Hv.
Qed.

(** While main has not ended everything is accounted for; at the end nothing
    is left on the heap. *)
Definition balanced (rs : list request) s : Prop :=
  (accounted rs s /\ sy_main s <> Ended) \/
  (sy_main s = Ended /\ sy_broker s = Exited /\ sy_fault s = false /\ sy_heap s = ∅ /\
   held_handles s = [] /\
   (forall r, occ r (Some <$> (request_id <$> rs)) =
     (occ r (answered_reqs (sy_log s)) + occ r (held_reqs s))%nat) /\
   (forall h, occ h (concat (request_handle <$> rs)) = occ h (destroyed_handles (sy_log s)))).

Lemma step_balanced rs r s s' : balanced rs s -> step Bd mallocs r s s' ->
  balanced (rs ++ option_list r) s'.
Proof.
  intros [[H Hne]|(Hm & Hb & _)] Hs; [|by inversion Hs; subst; unfold broker_step in *; try congruence;
    rewrite Hb in *].
  inversion Hs; subst; cbn [option_list]; rewrite ?app_nil_r.
  - left. split; [by apply cuse_ops_accounted|]. by destruct (cuse_ops_main r0 s) as [? ->].
  - left. split; [by apply main_call_accounted|]. by rewrite perform_main.
  - left. split; [by eapply broker_step_accounted|]. by rewrite (broker_step_main s).
  - left. split; [|done]. apply accounted_idle; by rewrite ?H0.
  - left. split; [by apply cleanup_begin_accounted|done].
  - right. destruct (cleanup_end_spec rs s H H0 H1) as (E1 & E2 & E3 & E4 & E5 & E6 & E7).
    destruct H as []. split_and!; try done.
    + unfold held_handles. by rewrite E1, E2, E5.
    + intros r. rewrite ac_reqs0, E6. unfold held_reqs. by rewrite E1, E2, E5, H0, H1.
    + intros h. rewrite ac_handles0, E7. unfold held_handles. rewrite H0, H1, !occ_app. cbn. lia.
Qed.

Lemma reached_balanced port rs s : reached Bd mallocs port rs s -> balanced rs s.
Proof.
  induction 1; [left; split; [apply start_accounted|done]|by eapply step_balanced].
Qed.
End presenter.

(** ** What is delivered *)

(** The record of a packet or a time-code the port delivered. *)
Definition encode (x : Z * Z * list Z) : list Z :=
  record_bytes {| cr_type := x.1.1; cr_flags := x.1.2; cr_payload_size := Z.of_nat (length x.2) |} ++
  x.2.

Definition delivered (log : list event) : list (list Z) :=
  omap (fun e => match e with Answered _ (BufferAnswer bytes) => Some bytes | _ => None end) log.

Section order.
Context {C : Type} (Bd : build) (mallocs : nat -> bool) (o : spw_backend_ops C) (Inv : C -> Prop).
Context `{!BackendOutputs o Inv} `{!BackendWaits o Inv}.
Implicit Types (st : @spwcuse_state C) (s : @presenter C).

Definition contents s (r : spwcuse_record) : list Z :=
  mem_read (block (rec_data r) s) 0 (Z.to_nat (rec_size r)).

Definition action_bufs s (a : action) : list (list Z) :=
  match a with
  | fuse_reply_buf _ data size => [mem_read (block data s) 0 (Z.to_nat size)]
  | _ => []
  end.

(** The buffers a thread is about to send. *)
Definition flying s : list (list Z) := broker_holds (action_bufs s) (fun _ => []) (sy_broker s).

(** What the broker has done with: all that was received but the record in its
    hands. *)
Definition settled s : list (Z * Z * list Z) :=
  match sy_broker s with AtEnqueue _ _ _ _ => removelast (sy_received s) | _ => sy_received s end.

(** The records handed out, on the way and queued. *)
Definition outgoing s : list (list Z) :=
  delivered (sy_log s) ++ flying s ++ (contents s <$> queue_list (cu_records (sy_state s))).

Definition in_order s : Prop :=
  sublist (outgoing s) (encode <$> settled s) /\
  ((forall n, mallocs n = true) -> outgoing s = encode <$> settled s).

(** A write that waits: its block holds a record that was found valid. *)
Definition write_stored s (w : spwcuse_pending_write) : Prop :=
  bytes_ok (block (pw_record w) s) /\ pw_size w = Z.of_nat (length (block (pw_record w) s)) /\
  (validate_user_record (Some (block (pw_record w) s)) (pw_size w) any_header).1 = 0.

Definition writes_waiting s : list spwcuse_pending_write :=
  queue_list (cu_writes (sy_state s)) ++ broker_holds (fun _ => []) (fun w => [w]) (sy_broker s).

(** Where the broker is sure to find room for a record. *)
Definition needs_room (b : broker) : bool :=
  match b with
  | AtWait _ | AtReceive _ | AtReceiveTimeCode _ | AtEnqueue _ _ _ _ => true
  | _ => false
  end.

Definition in_hand s : Prop :=
  match sy_broker s with
  | AtEnqueue type flags payload size =>
      0 <= size <= VSPW_CUSE_RECORD_MAX_PAYLOAD /\
      record_ok {| cr_type := type; cr_flags := flags; cr_payload_size := size |} /\
      exists l, sy_received s = l ++ [(type, flags, mem_read payload 0 (Z.to_nat size))]
  | _ => True
  end.

Definition sends_buffer (a : action) : list action :=
  match a with fuse_reply_buf _ _ _ => [a] | _ => [] end.

(** Only the broker sends buffers. *)
Definition main_plain (m : main_thread) : Prop :=
  match m with
  | Serving actions =>
      concat (sends_buffer <$> actions) = []
  | _ => True
  end.

(** After its calls the broker goes on at one of three places. *)
Definition calls_next (b : broker) : Prop :=
  match b with
  | Calls _ (AtService | AtMore | AtWrite _) => True
  | Calls _ _ => False
  | _ => True
  end.

Record stored s : Prop := {
  so_port : port_runs o Inv (cu_port (sy_state s));
  so_storage : bytes_ok (cu_rx_storage (sy_state s)) /\
    Z.of_nat (length (cu_rx_storage (sy_state s))) = VSPW_CUSE_RECORD_MAX_PAYLOAD;
  so_writes : Forall (write_stored s) (writes_waiting s);
  so_room : needs_room (sy_broker s) = true ->
    (q_count (cu_records (sy_state s)) < SPWCUSE_RECORD_QUEUE_DEPTH)%nat;
  so_hand : in_hand s;
  so_next : calls_next (sy_broker s);
  so_plain : main_plain (sy_main s);
  so_order : in_order s
}.

#[local] Opaque queue_list queue_push queue_take queue_front.
#[local] Arguments encode : simpl never.
#[local] Arguments record_bytes : simpl never.
#[local] Arguments mem_read : simpl never.
#[local] Arguments block : simpl never.

(** A step that leaves the heap, the queues of writes and records and the log
    alone. *)
Lemma stored_frame s s' : stored s -> sy_heap s' = sy_heap s -> sy_log s' = sy_log s ->
  cu_records (sy_state s') = cu_records (sy_state s) -> port_runs o Inv (cu_port (sy_state s')) ->
  bytes_ok (cu_rx_storage (sy_state s')) /\
    Z.of_nat (length (cu_rx_storage (sy_state s'))) = VSPW_CUSE_RECORD_MAX_PAYLOAD ->
  (forall w, w ∈ writes_waiting s' -> w ∈ writes_waiting s) ->
  (needs_room (sy_broker s') = true ->
    (q_count (cu_records (sy_state s)) < SPWCUSE_RECORD_QUEUE_DEPTH)%nat) ->
  in_hand s' -> calls_next (sy_broker s') -> main_plain (sy_main s') ->
  settled s' = settled s -> flying s' = flying s -> stored s'.
Proof.
  intros [] Hh Hl Hr Hp Hst Hw Hroom Hhand Hc Hm Hset Hfly.
  assert (forall p, block p s' = block p s) as Hb by (intros p; unfold block; by rewrite Hh).
  constructor; try done.
  - apply Forall_forall. intros w Hin%Hw. unfold write_stored. rewrite Hb.
    revert w Hin. by apply Forall_forall.
  - by rewrite Hr.
  - assert (outgoing s' = outgoing s) as E.
    { unfold outgoing. rewrite Hl, Hr, Hfly. do 2 f_equal. apply list_fmap_ext. intros _ r _.
      unfold contents. by rewrite Hb. }
    unfold in_order. by rewrite E, Hset.
Qed.

(** Between places where the broker holds nothing. *)
Definition idle (b : broker) : Prop :=
  match b with AtWrite _ | Calls _ _ | AtEnqueue _ _ _ _ => False | _ => True end.

Lemma stored_idle s f b : stored s -> idle (sy_broker s) -> idle b ->
  cu_records (f (sy_state s)) = cu_records (sy_state s) ->
  cu_writes (f (sy_state s)) = cu_writes (sy_state s) ->
  cu_rx_storage (f (sy_state s)) = cu_rx_storage (sy_state s) ->
  port_runs o Inv (cu_port (f (sy_state s))) ->
  (needs_room b = true -> (q_count (cu_records (sy_state s)) < SPWCUSE_RECORD_QUEUE_DEPTH)%nat) ->
  stored (set_sy_broker b (supd f s)).
Proof.
  intros H Hs Hb Hr Hw Hst Hp Hroom. pose proof H as [].
  assert (flying s = []) as Hf by (unfold flying; by destruct (sy_broker s)).
  assert (writes_waiting s = queue_list (cu_writes (sy_state s))) as Hww.
  { unfold writes_waiting. destruct (sy_broker s); cbn; rewrite ?app_nil_r; done. }
  eapply (stored_frame s); try done; cbn.
  - by rewrite Hst.
  - unfold writes_waiting at 1. cbn. rewrite Hw, Hww. destruct b; cbn; rewrite ?app_nil_r; done.
  - unfold in_hand. cbn. by destruct b.
  - by destruct b.
  - unfold settled. cbn. by destruct b, (sy_broker s).
  - rewrite Hf. unfold flying. cbn. by destruct b.
Qed.

Lemma stored_at s b : stored s -> idle (sy_broker s) -> idle b ->
  (needs_room b = true -> (q_count (cu_records (sy_state s)) < SPWCUSE_RECORD_QUEUE_DEPTH)%nat) ->
  stored (set_sy_broker b s).
Proof.
  intros H Hs Hb Hroom. assert (set_sy_broker b s = set_sy_broker b (supd id s)) as ->.
  { by destruct s. }
  apply stored_idle; try done. apply H.
Qed.

Lemma wait_backend_stored s t : stored s -> sy_broker s = AtWait t -> stored (wait_backend t s).
Proof.
  intros H Hb. unfold wait_backend.
  pose proof (wait_runs o Inv (cu_port (sy_state s)) SPW_READY_ALL t (Some SPW_READY_NONE) (so_port s H)) as Hp.
  destruct (spw_port_wait _ _ _ _) as [[result ready] port]. cbn [snd] in Hp.
  assert (q_count (cu_records (sy_state s)) < SPWCUSE_RECORD_QUEUE_DEPTH)%nat
    by (apply (so_room s H); by rewrite Hb).
  apply stored_idle; try done; [by rewrite Hb|by repeat case_if].
Qed.

Lemma wait_more_stored s : stored s -> sy_broker s = AtMore -> stored (wait_more s).
Proof.
  intros H Hb. unfold wait_more.
  pose proof (wait_runs o Inv (cu_port (sy_state s)) SPW_READY_ALL SPW_TIMEOUT_IMMEDIATE
    (Some SPW_READY_NONE) (so_port s H)) as Hp.
  destruct (spw_port_wait _ _ _ _) as [[result ready] port]. cbn [snd] in Hp.
  apply stored_idle; try done; [by rewrite Hb|by case_if|by case_if].
Qed.

Lemma check_room_stored s ready : stored s -> sy_broker s = AtRoom ready -> stored (check_room ready s).
Proof.
  intros H Hb. unfold check_room. apply stored_at; [done|by rewrite Hb|by case_if|].
  case_if; [done|]. apply Nat.leb_gt in E. done.
Qed.

Lemma refuse_nonblocking_stored s : stored s -> sy_broker s = AtTimeout -> stored (refuse_nonblocking s).
Proof.
  intros H Hb. pose proof H as []. unfold refuse_nonblocking. cbv zeta.
  case_if; [|apply stored_at; by rewrite ?Hb].
  eapply (stored_frame s); try done.
  - unfold writes_waiting. cbn. rewrite Hb. cbn. by case_if.
  - unfold settled. cbn. by rewrite Hb.
  - unfold flying. cbn. rewrite Hb. by case_if.
Qed.

Lemma broker_turn_stored rs s : accounted rs s -> stored s -> sy_broker s = AtLock ->
  stored (broker_turn s).
Proof.
  intros Ha H Hb. pose proof H as []. unfold broker_turn, pop_write_locked. case_if.
  { apply stored_at; by rewrite ?Hb. }
  case_if.
  { apply stored_at; [done|by rewrite Hb|by case_if|]. case_if; [|done]. intros _.
    apply andb_prop in E1 as [E1%Nat.ltb_lt _]. done. }
  apply count_pos in E0. cbn. eapply (stored_frame s); try done.
  - intros w. unfold writes_waiting. cbn. rewrite Hb.
    rewrite (queue_list_take _ no_write _ (ac_writes _ _ Ha) E0).
    destruct (cu_poll_handle _); cbn; rewrite app_nil_r, elem_of_app, !elem_of_cons, elem_of_nil; tauto.
  - unfold settled. cbn. by rewrite Hb.
  - unfold flying. cbn. rewrite Hb. by destruct (cu_poll_handle _).
Qed.

Lemma service_one_read_stored rs s : accounted rs s -> stored s -> sy_broker s = AtService ->
  stored (service_one_read s).
Proof.
  intros Ha H Hb. pose proof H as []. unfold service_one_read. case_if.
  { apply stored_at; by rewrite ?Hb. }
  apply orb_false_elim in E as [E1%count_pos E2%count_pos]. cbv zeta. case_if.
  - pose proof (queue_list_take _ no_record _ (ac_records _ _ Ha) E2) as Hq.
    constructor; cbn; try done.
    + unfold writes_waiting in *. cbn. by rewrite Hb in so_writes0.
    + assert (outgoing s = delivered (sy_log s) ++
        (contents s <$> queue_list (cu_records (sy_state s)))) as E0
        by (unfold outgoing, flying; by rewrite Hb).
      unfold in_order in so_order0. rewrite E0, Hq in so_order0. unfold settled in so_order0.
      by rewrite Hb in so_order0.
  - eapply (stored_frame s); try done.
    + unfold writes_waiting. cbn. by rewrite Hb.
    + unfold settled. cbn. by rewrite Hb.
    + unfold flying. cbn. by rewrite Hb.
Qed.

(** A record that was found valid is as long as its header says. *)
Lemma validate_inv bytes size h0 h : validate_user_record (Some bytes) size h0 = (0, h) ->
  16 <= size /\ cr_payload_size h = size - 16.
Proof.
  unfold validate_user_record. case_if; [done|].
  destruct (vspw_cuse_record_decode_header _ _) as [result header]. repeat (case_if; [done|]).
  intros Heq. match type of Heq with (if ?b then _ else _) = _ => destruct b end; [done|].
  injection Heq as <-. unfold VSPW_CUSE_RECORD_HEADER_SIZE in *.
  apply negb_false_iff in E1. lia.
Qed.

Lemma process_write_stored rs s w : accounted rs s -> stored s -> sy_broker s = AtWrite w ->
  stored (process_write w s).
Proof.
  intros Ha H Hb. pose proof H as []. unfold process_write.
  assert (live (pw_record w) s = true) as Hl.
  { eapply held_live; [done|]. unfold held_ptrs. rewrite Hb. cbn. rewrite !elem_of_app.
    right. right. by left. }
  rewrite touch_live by done.
  assert (write_stored s w) as (Hbytes & Hsize & Hv).
  { rewrite Forall_forall in so_writes0. apply so_writes0. unfold writes_waiting. rewrite Hb.
    rewrite elem_of_app. right. by left. }
  assert (forall a port, concat (action_bufs s <$> [a]) = [] ->
    port_runs o Inv port -> stored (set_sy_broker (Calls [a; free (pw_record w)] AtService)
      (supd (set_cu_port port) s))) as Hend.
  { intros a port Hp Hr. eapply (stored_frame s); try done.
    - unfold writes_waiting. cbn. rewrite Hb, app_nil_r. cbn. intros x Hx. rewrite elem_of_app. by left.
    - unfold settled. cbn. by rewrite Hb.
    - unfold flying. cbn. rewrite Hb. by destruct a. }
  destruct (validate_user_record _ _ _) as [error header] eqn:Ev. cbn in Hv. subst error.
  apply validate_inv in Ev as [Hs1 Hs2]. cbn [Z.eqb negb].
  assert (bytes_ok (drop 16 (block (pw_record w) s))) as Hd by (by apply Forall_drop).
  destruct (if cr_type header =? VSPW_CUSE_RECORD_DATA then _ else _) as [result port] eqn:Ep.
  assert (port_runs o Inv port) as Hport.
  { case_if_in Ep; (change port with (result, port).2; rewrite <- Ep; clear Ep).
    - apply send_runs; try done. unfold tx_packet_ok. cbn [pkt_length pkt_terminator pkt_data].
      change (Z.to_nat VSPW_CUSE_RECORD_HEADER_SIZE) with 16%nat. rewrite length_drop.
      apply andb_true_intro. split; [|apply Z.leb_le; rewrite Hs2, Hsize; lia]. apply andb_true_intro. split; [lia|by case_if].
    - apply send_time_code_runs; try done. cbn [time_count].
      apply (bytes_ok_get _ 0) in Hd. change (Z.to_nat VSPW_CUSE_RECORD_HEADER_SIZE) with 16%nat. lia. }
  case_if; by apply Hend.
Qed.

Lemma receive_time_code_stored s ready : stored s -> sy_broker s = AtReceiveTimeCode ready ->
  stored (receive_time_code ready s).
Proof.
  intros H Hb. unfold receive_time_code. case_if; [apply stored_at; by rewrite ?Hb|].
  pose proof (receive_time_code_runs o Inv (cu_port (sy_state s)) zero_time_code SPW_TIMEOUT_IMMEDIATE
    (so_port s H)) as Hp.
  destruct (spw_port_receive_time_code _ _ _) as [[result tc] port]. destruct Hp as [Hp Hr].
  assert (forall b, idle b -> needs_room b = false ->
    stored (set_sy_broker b (supd (set_cu_port port) s))) as Hend.
  { intros b Hi Hn. apply stored_idle; try done; [by rewrite Hb|by rewrite Hn]. }
  destruct tc as [tc|]; [|by apply Hend]. case_if; [|by apply Hend].
  apply Z.eqb_eq in E0. pose proof H as []. specialize (Hr E0).
  eapply (stored_frame s); try done.
  - unfold writes_waiting. cbn. rewrite Hb. done.
  - intros _. apply so_room0. by rewrite Hb.
  - cbn. split; [by vm_compute|]. split; [by right|]. by eexists.
  - unfold settled. cbn. rewrite Hb. apply removelast_last.
  - unfold flying. cbn. by rewrite Hb.
Qed.

Lemma receive_packet_stored s ready : stored s -> sy_broker s = AtReceive ready ->
  stored (receive_packet ready s).
Proof.
  intros H Hb. unfold receive_packet. pose proof H as [].
  assert (q_count (cu_records (sy_state s)) < SPWCUSE_RECORD_QUEUE_DEPTH)%nat as Hroom
    by (apply so_room0; by rewrite Hb).
  case_if; [apply stored_at; by rewrite ?Hb|]. destruct so_storage0 as [Hsb Hsl]. cbv zeta.
  set (p := {| pkt_data := _ |}).
  assert (rx_packet_ok p = true) as Hrx.
  { unfold rx_packet_ok, p. cbn [pkt_capacity pkt_data]. rewrite Hsl. by vm_compute. }
  pose proof (receive_runs o Inv (cu_port (sy_state s)) p SPW_TIMEOUT_IMMEDIATE so_port0 Hrx Hsb) as Hp.
  destruct (spw_port_receive _ _ _) as [[result packet] port]. cbv zeta in Hp.
  destruct Hp as (Hp & Hb' & Hl' & Hr).
  set (data := default _ (packet ≫= pkt_data)).
  assert (bytes_ok data /\ Z.of_nat (length data) = VSPW_CUSE_RECORD_MAX_PAYLOAD) as Hdata.
  { unfold data. destruct packet as [packet|]; cbn in *; [|by split].
    destruct (pkt_data packet); cbn in *; [by rewrite Hl'|by split]. }
  assert (forall s' b, sy_heap s' = sy_heap s -> sy_log s' = sy_log s -> sy_main s' = sy_main s ->
    sy_state s' = set_cu_rx_storage data (set_cu_port port (sy_state s)) -> sy_broker s' = b ->
    broker_holds (fun _ => []) (fun w => [w]) b = [] -> (forall s, broker_holds (action_bufs s) (fun _ => []) b = []) ->
    settled s' = sy_received s -> calls_next b -> in_hand s' -> stored s') as Hend.
  { intros s' b E1 E2 E3 E4 E5 Hw Hf Hset Hc Hh. eapply (stored_frame s); rewrite ?E3, ?E4, ?E5; try done.
    - unfold writes_waiting. rewrite E4, E5, Hw, Hb. done.
    - unfold settled at 2. by rewrite Hb.
    - unfold flying. by rewrite E5, Hb, Hf. }
  destruct packet as [packet|]; [|by eapply Hend]. case_if; [|by eapply Hend].
  apply Z.eqb_eq in E0. specialize (Hr E0). cbn [default] in Hr. destruct Hr as [Hlen Hterm].
  cbn [pkt_capacity p] in Hlen.
  eapply Hend; try done.
  - unfold settled. cbn. apply removelast_last.
  - cbn. split; [done|]. split; [|by eexists]. left. split; [done|]. split; [|done]. case_if; [by right|by left].
Qed.

(** ** Queueing a record *)

Lemma length_record_bytes h : length (record_bytes h) = 16%nat.
Proof. done. Qed.

(** With room for it and a legal header, a record is queued unless malloc fails. *)
Lemma enqueue_record_eq type flags payload size s :
  (q_count (cu_records (sy_state s)) < SPWCUSE_RECORD_QUEUE_DEPTH)%nat ->
  0 <= size <= VSPW_CUSE_RECORD_MAX_PAYLOAD ->
  record_ok {| cr_type := type; cr_flags := flags; cr_payload_size := size |} ->
  enqueue_record_locked mallocs type flags payload size s =
  if mallocs (sy_mallocs s)
  then (true, supd (fun st => set_cu_records (queue_push (cu_records st)
          {| rec_data := Some (Z.of_nat (S (sy_mallocs s))); rec_size := 16 + size |}) st)
          (with_block (encode (type, flags, mem_read payload 0 (Z.to_nat size))) s))
  else (false, set_sy_mallocs (S (sy_mallocs s)) s).
Proof.
  intros Hroom Hsize Hok. unfold enqueue_record_locked.
  assert ((SPWCUSE_RECORD_QUEUE_DEPTH <=? q_count (cu_records (sy_state s)))%nat = false) as ->
    by (by apply Nat.leb_gt).
  assert ((VSPW_CUSE_RECORD_MAX_PAYLOAD <? size) = false) as -> by lia. cbn [orb].
  assert ((SIZE_MAX - VSPW_CUSE_RECORD_HEADER_SIZE <? size) = false) as ->
    by (unfold VSPW_CUSE_RECORD_MAX_PAYLOAD in Hsize; cbv [SIZE_MAX VSPW_CUSE_RECORD_HEADER_SIZE]; lia).
  cbv zeta. rewrite malloc_eq. destruct (mallocs _); [|done]. rewrite block_with_block.
  assert (u32 size = size) as -> by (apply (wrap_small 32);
    unfold VSPW_CUSE_RECORD_MAX_PAYLOAD in Hsize; lia).
  rewrite encode_header_bytes.
  2: { apply validate_header_ok; [|done]. unfold cuse_header_in_range, in_width.
       unfold VSPW_CUSE_RECORD_MAX_PAYLOAD in Hsize.
       destruct Hok as [(E1 & [E2|E2] & E3)|(E1 & E2 & E3)]; cbn in *; rewrite E1, E2; cbv -[Z.leb Z.ltb Z.pow andb]; lia. }
  rewrite with_block_write. do 4 f_equal. unfold encode. cbn [fst snd].
  rewrite length_mem_read, Z2Nat.id by lia. unfold VSPW_CUSE_RECORD_HEADER_SIZE. case_if.
  - rewrite mem_write_app by done. rewrite length_mem_read, <- app_assoc. f_equal.
    rewrite drop_drop, drop_ge, app_nil_r; [done|]. rewrite length_replicate. case_if; lia.
  - apply negb_false_iff, Z.eqb_eq in E as ->. done.
Qed.

Lemma contents_block s s' r : block (rec_data r) s' = block (rec_data r) s ->
  contents s' r = contents s r.
Proof. unfold contents. by intros ->. Qed.

Lemma block_heap p s s' : sy_heap s = sy_heap s' -> block p s = block p s'.
Proof. unfold block. by intros ->. Qed.

(** A held block keeps its contents when another one is made. *)
Lemma held_with_block rs s v p : accounted rs s -> p ∈ held_ptrs s ->
  block p (with_block v s) = block p s.
Proof.
  intros Ha Hp. pose proof (held_live rs s p Ha Hp) as Hl. destruct p as [a|]; [|done].
  unfold block, with_block. cbn in *. rewrite lookup_insert_ne; [done|]. intros <-.
  apply bool_decide_eq_true in Hl. rewrite (fresh_block rs s Ha) in Hl. by destruct Hl.
Qed.

Lemma record_held s r : r ∈ queue_list (cu_records (sy_state s)) -> rec_data r ∈ held_ptrs s.
Proof.
  intros Hr. unfold held_ptrs. rewrite !elem_of_app. right. left. by apply list_elem_of_fmap_2.
Qed.

Lemma concat_none {A} (l : list action) : concat ((fun _ => @nil A) <$> l) = [].
Proof. by induction l. Qed.

Lemma write_held s w : w ∈ writes_waiting s -> pw_record w ∈ held_ptrs s.
Proof.
  unfold writes_waiting, held_ptrs. rewrite !elem_of_app. intros [Hw|Hw].
  - left. by apply list_elem_of_fmap_2.
  - right. right. left. revert Hw. generalize (sy_broker s). intros b.
    induction b; cbn; try (by intros ?%elem_of_nil); [by intros ->%list_elem_of_singleton; left|].
    rewrite concat_none. intros Hw. rewrite elem_of_app. right. auto.
Qed.

Lemma enqueue_received_stored rs s type flags payload size : accounted rs s -> stored s ->
  sy_broker s = AtEnqueue type flags payload size ->
  stored (enqueue_received mallocs type flags payload size s).
Proof.
  intros Ha H Hb. pose proof H as []. unfold in_hand in so_hand0. rewrite Hb in so_hand0.
  destruct so_hand0 as (Hsize & Hok & l & Hl). set (x := (type, flags, _)) in Hl.
  assert (q_count (cu_records (sy_state s)) < SPWCUSE_RECORD_QUEUE_DEPTH)%nat as Hroom
    by (apply so_room0; by rewrite Hb).
  assert (settled s = l) as Hset by (unfold settled; rewrite Hb, Hl; apply removelast_last).
  assert (outgoing s = delivered (sy_log s) ++ (contents s <$> queue_list (cu_records (sy_state s)))) as Hout
    by (unfold outgoing, flying; by rewrite Hb).
  assert (writes_waiting s = queue_list (cu_writes (sy_state s))) as Hww
    by (unfold writes_waiting; rewrite Hb; apply app_nil_r).
  destruct so_order0 as [Hsub Heq]. rewrite Hset, Hout in Hsub, Heq.
  unfold enqueue_received. rewrite enqueue_record_eq by done. destruct (mallocs _) eqn:Em.
  - cbn [take_poll_handle_locked]. constructor; cbn; try done.
    + apply Forall_forall. intros w. unfold writes_waiting. cbn. rewrite concat_none, app_nil_r, <- Hww. intros Hw. rewrite Forall_forall in so_writes0.
      pose proof (so_writes0 w Hw) as Hs. unfold write_stored in *.
      rewrite (block_heap _ _ (with_block (encode x) s)) by done.
      by rewrite (held_with_block rs s (encode x) _ Ha (write_held s w Hw)).
    + set (s' := set_sy_broker _ _).
      assert (outgoing s' = delivered (sy_log s) ++ (contents s <$> queue_list (cu_records (sy_state s))) ++
        [encode x]) as Hout'.
      { unfold outgoing, flying, s'. cbn. rewrite (queue_list_push _ _ _ (ac_records _ _ Ha) Hroom).
        assert (concat (action_bufs s' <$> notify_poll_handle (cu_poll_handle (sy_state s))) = []) as Hn
          by (by destruct (cu_poll_handle _)).
        fold s'. rewrite Hn, fmap_app. cbn. do 2 f_equal.
        - apply list_fmap_ext. intros i r Hr%list_elem_of_lookup_2. apply contents_block.
          exact (held_with_block rs s _ _ Ha (record_held s r Hr)).
        - unfold contents. rewrite (block_heap _ _ (with_block (encode x) s)) by done.
          cbn [rec_data rec_size]. rewrite block_with_block. f_equal. rewrite mem_read_0_take.
          + apply take_ge. unfold encode. rewrite length_app, length_record_bytes. cbn.
            rewrite length_mem_read. lia.
          + unfold encode. rewrite length_app, length_record_bytes. cbn. rewrite length_mem_read. lia. }
      assert (settled s' = l ++ [x]) as Hset' by done.
      unfold in_order. rewrite Hout', Hset', fmap_app, app_assoc. split.
      * by apply sublist_app.
      * intros Hm. by rewrite (Heq Hm).
  - constructor; cbn; try done.
    + unfold writes_waiting. cbn. rewrite app_nil_r, <- Hww. done.
    + set (s' := set_sy_broker _ _). unfold in_order.
      assert (outgoing s' = outgoing s) as -> by (rewrite Hout; done).
      assert (settled s' = l ++ [x]) as -> by done. rewrite Hout, fmap_app. split.
      * by apply sublist_inserts_r.
      * intros Hm. by rewrite Hm in Em.
Qed.

(** ** Actions *)

Lemma no_bufs s l : concat (sends_buffer <$> l) = [] -> concat (action_bufs s <$> l) = [].
Proof. induction l as [|[] l IH]; cbn; auto; done. Qed.

Lemma delivered_snoc log e : delivered (log ++ [e]) =
  delivered log ++ match e with Answered _ (BufferAnswer bytes) => [bytes] | _ => [] end.
Proof. unfold delivered. rewrite omap_app. by destruct e as [? []| | |]. Qed.

Lemma perform_delivered a s : usable a s ->
  delivered (sy_log (perform a s)) = delivered (sy_log s) ++ action_bufs s a.
Proof.
  intros Hu. destruct a; cbn in *; rewrite ?touch_live, ?delivered_snoc, ?app_nil_r by done; try done.
  destruct ptr; [|done]. cbn. by rewrite touch_live.
Qed.

(** What is still held after an action has kept its contents. *)
Lemma perform_block rs s a s0 p : accounted rs s -> sy_heap s0 = sy_heap s -> usable a s0 ->
  (forall p, occ p (held_ptrs s) = (occ p (action_ptrs a) + occ p (held_ptrs s0))%nat) ->
  p ∈ held_ptrs s0 -> block p (perform a s0) = block p s.
Proof.
  intros Ha Hh Hu Hp Hin. destruct (perform_frame a s0 Hu) as (_ & _ & _ & _ & _ & _ & _ & _ & E).
  unfold block. rewrite E, Hh. destruct p as [x|]; [|done].
  destruct a as [| | | | | | |[y|]]; try done. destruct (decide (x = y)) as [<-|Hne].
  - apply occ_pos in Hin. pose proof (Hp (Some x)) as E1. rewrite (ac_ptrs rs s Ha) in E1. cbn in E1.
    rewrite one_same in E1. destruct (bool_decide _) in E1; lia.
  - by rewrite lookup_delete_ne.
Qed.

(** A thread sends what is still held. *)
Lemma flying_held s s1 b : broker_safe b ->
  (forall p, p ∈ broker_holds action_ptrs (fun w => [pw_record w]) b -> block p s1 = block p s) ->
  broker_holds (action_bufs s1) (fun _ => []) b = broker_holds (action_bufs s) (fun _ => []) b.
Proof.
  induction b; cbn; intros Hs Hp; try done. destruct Hs as [Hs Hn]. f_equal.
  - assert (forall p, p ∈ concat (action_ptrs <$> actions) -> block p s1 = block p s) as Hq.
    { intros p Hin. apply Hp. rewrite elem_of_app. by left. }
    clear Hp Hn IHb. induction actions as [|a actions IH]; [done|]. cbn in *.
    assert (actions_safe actions) as Hs' by (destruct a; tauto).
    f_equal; [|apply IH; [done|]; intros p Hin; apply Hq; rewrite elem_of_app; by right].
    destruct a; try done. cbn. by rewrite Hq; destruct Hs.
  - apply IHb; [done|]. intros p Hin. apply Hp. rewrite elem_of_app. by right.
Qed.

Lemma perform_stored rs s a s0 : accounted rs s -> stored s ->
  sy_state s0 = sy_state s -> sy_heap s0 = sy_heap s -> sy_log s0 = sy_log s -> usable a s0 ->
  (forall p, occ p (held_ptrs s) = (occ p (action_ptrs a) + occ p (held_ptrs s0))%nat) ->
  writes_waiting s0 = writes_waiting s ->
  (needs_room (sy_broker s0) = true -> needs_room (sy_broker s) = true) ->
  action_bufs s a ++ broker_holds (action_bufs s) (fun _ => []) (sy_broker s0) = flying s ->
  broker_safe (sy_broker s0) -> calls_next (sy_broker s0) -> main_plain (sy_main s0) -> settled s0 = settled s -> in_hand s0 ->
  stored (perform a s0).
Proof.
  intros Ha [] Hst Hh Hl Hu Hptr Hw Hroom Hfly Hsafe Hnext Hplain Hset Hhand.
  destruct (perform_frame a s0 Hu) as (E1 & E2 & E3 & _ & _ & E6 & _).
  assert (forall p, p ∈ held_ptrs s0 -> block p (perform a s0) = block p s) as Hb
    by (intros p; by eapply perform_block).
  assert (forall f g, @broker_holds spwcuse_pending_write f g (sy_broker (perform a s0)) =
    broker_holds f g (sy_broker s0)) as Hbh by (intros; by rewrite E2).
  assert (writes_waiting (perform a s0) = writes_waiting s) as Hww
    by (rewrite <- Hw; unfold writes_waiting; by rewrite Hbh, E1).
  constructor; rewrite ?E1, ?E2, ?E3, ?Hst; try done.
  - rewrite Hww. apply Forall_forall. intros w Hin. unfold write_stored. rewrite Hb.
    + revert w Hin. by apply Forall_forall.
    + apply write_held. by rewrite Hw.
  - auto.
  - unfold in_hand in *. by rewrite E2, E6.
  - assert (settled (perform a s0) = settled s) as Hs'
      by (unfold settled in *; by rewrite E2, E6).
    assert (outgoing (perform a s0) = outgoing s) as Ho.
    { unfold outgoing. rewrite perform_delivered, Hl by done. rewrite <- Hfly, <- !app_assoc, E1, Hst.
      f_equal. assert (action_bufs s0 a = action_bufs s a) as ->.
      { destruct a; try done. cbn. by rewrite (block_heap _ s0 s). }
      f_equal. unfold flying. rewrite E2. f_equal.
      - apply flying_held; [done|]. intros p Hp. apply Hb. unfold held_ptrs. rewrite !elem_of_app. auto.
      - apply list_fmap_ext. intros i r Hr%list_elem_of_lookup_2. apply contents_block, Hb, record_held.
        by rewrite Hst. }
    unfold in_order. by rewrite Ho, Hs'.
Qed.

Lemma broker_call_stored rs s a actions next : accounted rs s -> stored s ->
  sy_broker s = Calls (a :: actions) next ->
  stored (perform a (set_sy_broker (Calls actions next) s)).
Proof.
  intros Ha H Hb. destruct (broker_call_held rs s a actions next Ha Hb) as (Hp & Hbuf & Hs).
  apply (perform_stored rs s a); try done; [by eapply held_usable|..].
  - unfold writes_waiting. by rewrite Hb.
  - unfold flying. rewrite Hb. cbn. by rewrite app_assoc.
  - pose proof (so_next s H) as Hn. by rewrite Hb in Hn.
  - apply H.
  - unfold settled. by rewrite Hb.
Qed.

Lemma main_call_stored rs s a actions : accounted rs s -> stored s ->
  sy_main s = Serving (a :: actions) -> stored (perform a (set_sy_main (Serving actions) s)).
Proof.
  intros Ha H Hb. destruct (main_call_held rs s a actions Ha Hb) as (Hp & Hbuf & Hs).
  pose proof (so_plain _ H) as Hplain. rewrite Hb in Hplain. cbn in Hplain.
  apply (perform_stored rs s a); try done; [by eapply held_usable|..].
  - by destruct a.
  - apply Ha.
  - apply H.
  - by destruct a.
  - apply H.
Qed.

Lemma calls_done_stored s next : stored s -> sy_broker s = Calls [] next ->
  stored (set_sy_broker next s).
Proof.
  intros H Hb. pose proof H as []. rewrite Hb in so_next0.
  eapply (stored_frame s); try done; cbn; try (by destruct next).
  - unfold writes_waiting. cbn. by rewrite Hb.
  - unfold settled. rewrite Hb. by destruct next.
  - unfold flying. by rewrite Hb.
Qed.

Lemma broker_step_stored rs s s' : accounted rs s -> stored s -> broker_step mallocs s = Some s' ->
  stored s'.
Proof.
  intros Ha H Hs. unfold broker_step in Hs. destruct (sy_broker s) eqn:Hb; try done;
    try (injection Hs as <-).
  - by eapply service_one_read_stored.
  - by eapply broker_turn_stored.
  - apply stored_at; by rewrite ?Hb.
  - by eapply process_write_stored.
  - by apply wait_backend_stored.
  - by apply refuse_nonblocking_stored.
  - by apply receive_packet_stored.
  - by apply receive_time_code_stored.
  - by eapply enqueue_received_stored.
  - by apply wait_more_stored.
  - by apply check_room_stored.
  - destruct actions as [|a actions]; injection Hs as <-; [|by eapply broker_call_stored].
    by apply calls_done_stored.
Qed.

(** ** The handlers *)

(** The buffer of a write consists of bytes. *)
Definition request_ok (r : request) : Prop :=
  match r with RequestWrite _ buf _ => bytes_ok buf | _ => True end.

Lemma stored_main s m : stored s -> main_plain m -> stored (set_sy_main m s).
Proof. intros [] Hm. by constructor. Qed.

Lemma signal_stored s : stored s -> stored (signal s).
Proof.
  intros H. unfold signal. destruct (sy_broker s) eqn:Hb; try done. apply stored_at; by rewrite ?Hb.
Qed.

(** Changes of what only the readers use. *)
Lemma stored_state s f : stored s -> cu_port (f (sy_state s)) = cu_port (sy_state s) ->
  cu_rx_storage (f (sy_state s)) = cu_rx_storage (sy_state s) ->
  cu_writes (f (sy_state s)) = cu_writes (sy_state s) ->
  cu_records (f (sy_state s)) = cu_records (sy_state s) -> stored (supd f s).
Proof.
  intros H Hp Hs Hw Hr. pose proof H as []. eapply (stored_frame s); try done; cbn; rewrite ?Hp, ?Hs, ?Hw; try done.
  - unfold writes_waiting. cbn. by rewrite Hw.
Qed.

Lemma stored_mallocs s n : stored s -> stored (set_sy_mallocs n s).
Proof. intros []. by constructor. Qed.

Lemma with_block_outgoing rs s v : accounted rs s -> outgoing (with_block v s) = outgoing s.
Proof.
  intros Ha. unfold outgoing, flying. cbn. do 2 f_equal.
  - apply flying_held; [apply Ha|]. intros p Hp. apply (held_with_block rs s v p Ha).
    unfold held_ptrs. rewrite !elem_of_app. auto.
  - apply list_fmap_ext. intros i r Hr%list_elem_of_lookup_2. apply contents_block.
    apply (held_with_block rs s v _ Ha). by apply record_held.
Qed.

(** A new block that is not yet held does not matter. *)
Lemma with_block_stored rs s v : accounted rs s -> stored s -> stored (with_block v s).
Proof.
  intros Ha []. constructor; try done.
  - change (writes_waiting (with_block v s)) with (writes_waiting s). apply Forall_forall. intros w Hw.
    unfold write_stored. rewrite (held_with_block rs s v _ Ha (write_held s w Hw)). revert w Hw.
    by apply Forall_forall.
  - unfold in_order. rewrite (with_block_outgoing rs) by done. exact so_order0.
Qed.

Lemma cuse_write_stored rs s req buf flags : accounted rs s -> stored s -> bytes_ok buf ->
  stored (cuse_write mallocs req buf flags s).
Proof.
  intros Ha H Hbuf. unfold cuse_write. cbv zeta.
  destruct (validate_user_record _ _ _) as [error header] eqn:Ev.
  case_if; [by apply stored_main|]. apply negb_false_iff, Z.eqb_eq in E as ->.
  pose proof (validate_inv _ _ _ _ Ev) as [Hsize _]. rewrite malloc_eq.
  destruct (mallocs _); [|by apply stored_main; [apply stored_mallocs|]].
  rewrite block_with_block, with_block_write, mem_write_0, drop_ge, app_nil_r
    by (rewrite length_replicate; case_if; lia).
  unfold enqueue_write_locked. case_if; [by apply stored_main; [eapply with_block_stored|]|].
  apply Nat.leb_gt in E. apply stored_main; [|done]. apply signal_stored.
  pose proof (with_block_stored rs s buf Ha H) as Hs. pose proof Hs as []. constructor; try done.
  - apply Forall_forall. intros w. unfold writes_waiting. cbn.
    rewrite (queue_list_push _ _ _ (ac_writes _ _ Ha) E), !elem_of_app, list_elem_of_singleton.
    intros [[Hw| ->]|Hw].
    + rewrite Forall_forall in so_writes0. apply so_writes0. unfold writes_waiting. rewrite elem_of_app. by left.
    + unfold write_stored. cbn [pw_record pw_size].
      rewrite (block_heap _ _ (with_block buf s)) by done. rewrite block_with_block, Ev. done.
    + rewrite Forall_forall in so_writes0. apply so_writes0. unfold writes_waiting. rewrite elem_of_app. by right.
Qed.

Lemma cuse_ops_stored rs s r : accounted rs s -> stored s -> request_ok r ->
  stored (cuse_ops mallocs r s).
Proof.
  intros Ha H Hr. destruct r; cbn [cuse_ops].
  - unfold cuse_open. case_if; (apply stored_main; [|done]); [done|by apply stored_state].
  - unfold cuse_read, enqueue_read_locked. cbv zeta. destruct (_ <=? _)%nat; [by apply stored_main|].
    apply stored_main; [|done]. apply signal_stored.
    apply (stored_state s (fun st => set_cu_reads (queue_push (cu_reads st) _) st)); done.
  - by eapply cuse_write_stored.
  - unfold cuse_poll. cbv zeta. destruct ph as [ph|]; [|by apply stored_main].
    case_if; (apply stored_main; [|done]); apply signal_stored; [done|by apply stored_state].
  - unfold cuse_release. cbv zeta. destruct (cancel_reads _ _) as [cancelled reads].
    cbn [take_poll_handle_locked]. apply stored_main.
    + apply (stored_state s (fun st => set_cu_poll_handle None (set_cu_reads reads (set_cu_opened false st)))); done.
    + cbn. rewrite !fmap_app, !concat_app. destruct (cu_poll_handle _); cbn; rewrite app_nil_r;
        by induction cancelled.
Qed.

Lemma start_stored port : port_runs o Inv port -> stored (presenter_start port).
Proof.
  intros Hp. constructor.
  - exact Hp.
  - cbn [sy_state presenter_start cu_rx_storage]. split; [by apply bytes_ok_replicate|].
    rewrite length_replicate. by apply Z2Nat.id.
  - exact (Forall_nil_2 _).
  - intros H. discriminate H.
  - exact I.
  - exact I.
  - exact eq_refl.
  - split; [exact (sublist_nil)|]. intros _. exact eq_refl.
Qed.

(** ** Every reachable state *)

Lemma cleanup_begin_stored s : stored s -> stored (cleanup_begin s).
Proof.
  intros H. unfold cleanup_begin. apply stored_main; [|done]. apply signal_stored. by apply stored_state.
Qed.

Lemma free_all_log ptrs : forall s,
  sy_log (free_all ptrs s) = sy_log s /\ sy_received (free_all ptrs s) = sy_received s.
Proof.
  induction ptrs as [|p ptrs IH]; intros s; [done|].
  change (free_all (p :: ptrs) s) with (free_all ptrs (do_free p s)).
  destruct (IH (do_free p s)) as [-> ->]. destruct p; [|done]. cbn. unfold touch. by case_if.
Qed.

Lemma cleanup_end_log s : delivered (sy_log (cleanup_end Bd s)) = delivered (sy_log s) /\
  sy_received (cleanup_end Bd s) = sy_received s.
Proof.
  unfold cleanup_end. cbv zeta. cbn [sy_log sy_received set_sy_main].
  set (s1 := match cu_port (sy_state s) with Some _ => _ | None => _ end).
  assert (delivered (sy_log s1) = delivered (sy_log s) /\ sy_received s1 = sy_received s) as [<- <-].
  { unfold s1. destruct (cu_port (sy_state s)); [|done].
    destruct (spw_port_close _ _) as [[[? ?] ?] ?]. cbn. by rewrite delivered_snoc, app_nil_r. }
  clearbody s1. set (s2 := match cu_poll_handle (sy_state s1) with Some _ => _ | None => _ end).
  assert (delivered (sy_log s2) = delivered (sy_log s1) /\ sy_received s2 = sy_received s1) as [<- <-].
  { unfold s2. destruct (cu_poll_handle _); [|done]. cbn. by rewrite delivered_snoc, app_nil_r. }
  clearbody s2. set (s3 := free_all _ s2).
  destruct (free_all_log (rec_data <$> q_slots (cu_records (sy_state s3))) s3) as [-> ->].
  unfold s3. by destruct (free_all_log (pw_record <$> q_slots (cu_writes (sy_state s2))) s2) as [-> ->].
Qed.

(** The records handed out are, in order, records of what was received. *)
Definition delivered_in_order s : Prop :=
  sublist (delivered (sy_log s)) (encode <$> sy_received s) /\
  ((forall n, mallocs n = true) -> delivered (sy_log s) `prefix_of` (encode <$> sy_received s)).

Lemma settled_prefix s : stored s -> settled s `prefix_of` sy_received s.
Proof.
  intros H. pose proof (so_hand s H) as Hh. unfold settled, in_hand in *.
  destruct (sy_broker s); try done. destruct Hh as (_ & _ & l & ->). rewrite removelast_last.
  by apply prefix_app_r.
Qed.

Lemma stored_delivered s : stored s -> delivered_in_order s.
Proof.
  intros H. destruct (so_order s H) as [Hsub Heq]. destruct (settled_prefix s H) as [k Hk].
  unfold delivered_in_order. rewrite Hk, fmap_app. split.
  - apply sublist_inserts_r. etransitivity; [|exact Hsub]. by apply sublist_inserts_r.
  - intros Hm. rewrite <- (Heq Hm). unfold outgoing. rewrite <- !app_assoc. by apply prefix_app_r.
Qed.

Lemma step_stored rs r s s' : accounted rs s -> stored s -> Forall request_ok (option_list r) ->
  step Bd mallocs r s s' -> stored s' \/ (sy_main s' = Ended /\ delivered_in_order s').
Proof.
  intros Ha Hst Hr Hs. inversion Hs; subst.
  - left. eapply cuse_ops_stored; [done..|]. by inversion Hr.
  - left. by eapply main_call_stored.
  - left. by eapply broker_step_stored.
  - left. apply stored_at; by rewrite ?H.
  - left. by apply cleanup_begin_stored.
  - right. destruct (cleanup_end_spec Bd rs s Ha H H0) as [-> _]. split; [done|].
    unfold delivered_in_order. destruct (cleanup_end_log s) as [-> ->]. by apply stored_delivered.
Qed.

Lemma reached_stored port rs s : port_runs o Inv port -> Forall request_ok rs ->
  reached Bd mallocs port rs s -> stored s \/ (sy_main s = Ended /\ delivered_in_order s).
Proof.
  intros Hp Hrs Hr. induction Hr as [|rs r s s' Hr IH Hs]; [left; by apply start_stored|].
  apply Forall_app in Hrs as [Hrs Hr'].
  destruct (reached_balanced Bd mallocs port rs s Hr) as [[Ha Hne]|(Hm & Hb & _)].
  - destruct (IH Hrs) as [H|[Hm _]]; [by eapply step_stored|done].
  - by inversion Hs; subst; unfold broker_step in *; try congruence; rewrite Hb in *.
Qed.
End order.
