(* ===== verification/SpwcuseRun.v ===== *)
(** * The CUSE presenter: runs

    The theorems about every reachable state of spwcuse, when the broker
    sleeps, what it owes to a waiting write and to the end of the program, and
    the two ways in which a read is left unanswered. *)

From stdpp Require Import gmap.
From S2P Require Import Prelude Types Posix Ring Queue Backend DriverApi VspwTp Loopback PortConfig Port.
From S2P Require Import PortClient Device DeviceProps CuseRecord Spwcuse SpwcuseProps.

(** ** Schedules *)

(** A schedule names the thread that moves; it makes runs executable. *)
Inductive move :=
| MoveRequest (r : request)
| MoveCall
| MoveBroker
| MoveWake
| MoveExit
| MoveJoin.

Section schedule.
Context {C : Type} (Bd : build) (mallocs : nat -> bool).
Implicit Types (s : @presenter C).

Definition make_move (m : move) s : option (presenter) :=
  match m, sy_main s with
  | MoveRequest r, Serving [] => Some (cuse_ops mallocs r s)
  | MoveCall, Serving (a :: actions) => Some (perform a (set_sy_main (Serving actions) s))
  | MoveBroker, _ => broker_step mallocs s
  | MoveWake, _ => match sy_broker s with Asleep => Some (set_sy_broker Woken s) | _ => None end
  | MoveExit, Serving [] => Some (cleanup_begin s)
  | MoveJoin, Joining => match sy_broker s with Exited => Some (cleanup_end Bd s) | _ => None end
  | _, _ => None
  end.

Definition move_request (m : move) : option request :=
  match m with MoveRequest r => Some r | _ => None end.

Fixpoint make_moves (ms : list move) s : option presenter :=
  match ms with [] => Some s | m :: ms => make_move m s ≫= make_moves ms end.

Lemma make_move_step m s s' : make_move m s = Some s' -> step Bd mallocs (move_request m) s s'.
Proof.
  unfold make_move. intros H. destruct m; cbn [move_request].
  - destruct (sy_main s) as [[|? ?]| |] eqn:Hm; try done. injection H as <-. by constructor.
  - destruct (sy_main s) as [[|? ?]| |] eqn:Hm; try done. injection H as <-. by constructor.
  - by constructor.
  - destruct (sy_broker s) eqn:Hb; try done. injection H as <-. by constructor.
  - destruct (sy_main s) as [[|? ?]| |] eqn:Hm; try done. injection H as <-. by constructor.
  - destruct (sy_main s) as [[|? ?]| |] eqn:Hm; try done. destruct (sy_broker s) eqn:Hb; try done.
    injection H as <-. by constructor.
Qed.

(** The requests of a schedule, in order. *)
Definition move_requests (ms : list move) : list request := concat (option_list ∘ move_request <$> ms).

Lemma make_moves_reached port ms : forall rs s s', reached Bd mallocs port rs s ->
  make_moves ms s = Some s' -> reached Bd mallocs port (rs ++ move_requests ms) s'.
Proof.
  induction ms as [|m ms IH]; intros rs s s' Hr Hm; cbn in Hm.
  { injection Hm as <-. by rewrite app_nil_r. }
  destruct (make_move m s) as [s1|] eqn:E; [|done]. cbn in Hm. unfold move_requests. cbn.
  rewrite app_assoc. eapply IH; [|done]. eapply reached_step; [done|by apply make_move_step].
Qed.

Lemma schedule_reached port ms s : make_moves ms (presenter_start port) = Some s ->
  reached Bd mallocs port (move_requests ms) s.
Proof. apply (make_moves_reached port ms []). constructor. Qed.
End schedule.

(** ** Resources *)

Lemma occ_nodup {A} `{EqDecision A} (x : A) l : NoDup l ->
  occ x l = if decide (x ∈ l) then 1%nat else 0%nat.
Proof.
  induction 1 as [|a l Ha Hl IH]; cbn; [done|]. rewrite IH. unfold one.
  destruct (decide (x ∈ a :: l)) as [E|E]; rewrite elem_of_cons in E; repeat case_decide; subst;
    try done; exfalso; intuition congruence.
Qed.

Lemma live_blocks {C} (s : @presenter C) p :
  occ p (Some <$> elements (dom (sy_heap s))) = if live p s then 1%nat else 0%nat.
Proof.
  rewrite occ_nodup by (apply NoDup_fmap_2; [apply _|apply NoDup_elements]).
  destruct p as [a|]; cbn.
  - case_decide as E; rewrite list_elem_of_fmap in E.
    + destruct E as (b & [= <-] & Hb). rewrite elem_of_elements, elem_of_dom in Hb.
      by rewrite bool_decide_true.
    + rewrite bool_decide_false; [done|]. intros Ha. apply E. exists a.
      by rewrite elem_of_elements, elem_of_dom.
  - rewrite decide_False; [done|]. rewrite list_elem_of_fmap. by intros (? & ? & _).
Qed.

(** C10. In every state that the threads of the presenter reach, in any
    interleaving and whether malloc succeeds or not: no block is used or freed
    that is not live; every request libfuse handed over has been answered exactly
    once or is held in exactly one place, and the same is true of every poll
    handle and its destruction; every live block is held in exactly one place, so
    none has leaked; and when the program ends, the heap is empty and every poll
    handle is destroyed. *)
Theorem spwcuse_resources {C} (Bd : build) mallocs (port : option (spw_port C)) rs s :
  reached Bd mallocs port rs s ->
  sy_fault s = false /\
  Some <$> (request_id <$> rs) ≡ₚ answered_reqs (sy_log s) ++ held_reqs s /\
  concat (request_handle <$> rs) ≡ₚ destroyed_handles (sy_log s) ++ held_handles s /\
  (sy_main s <> Ended -> Some <$> elements (dom (sy_heap s)) ≡ₚ held_ptrs s) /\
  (sy_main s = Ended -> sy_heap s = ∅ /\ held_handles s = []).
Proof.
  intros [[[] Hne]|(Hm & _ & Hf & Hh & Hhh & Hr & Hd)]%reached_balanced.
  - split_and!; try done.
    + apply occ_permutation. intros r. by rewrite occ_app.
    + apply occ_permutation. intros h. by rewrite occ_app.
    + intros _. apply occ_permutation. intros p. by rewrite live_blocks, ac_ptrs.
  - split_and!; try done.
    + apply occ_permutation. intros r. by rewrite occ_app.
    + rewrite Hhh, app_nil_r. by apply occ_permutation.
Qed.

(** ** Order *)


(** ** Sleep and progress *)

Section progress.
Context {C : Type} (Bd : build) (mallocs : nat -> bool).
Implicit Types (st : @spwcuse_state C) (s : @presenter C).

#[local] Opaque queue_list queue_push queue_take queue_front.

(** The broker takes part: it neither sleeps nor has ended. *)
Definition awake (b : broker) : bool := match b with Asleep | Exited => false | _ => true end.

(** An upper bound on the steps to the end of the broker's turn: the reads that
    wait, four steps each, and the room for records, ten steps each. *)
Fixpoint turn_left (reads room : nat) (b : broker) : nat :=
  match b with
  | AtLock | Asleep | Exited => 0
  | AtService => 4 * reads + 1
  | Woken => 4 * reads + 2
  | AtWrite _ => 4 * reads + 5
  | AtTimeout => 4 * reads + 4
  | AtEnqueue _ _ _ _ => 10 * room + 4 * reads + 2
  | AtReceiveTimeCode _ => 10 * room + 4 * reads + 3
  | AtReceive _ => 10 * room + 4 * reads + 4
  | AtRoom _ => 10 * room + 4 * reads + 5
  | AtMore => 10 * room + 4 * reads + 6
  | AtWait _ => 10 * room + 4 * reads + 7
  | Calls actions next => length actions + 1 + turn_left reads room next
  end.

Definition steps_left s : nat :=
  turn_left (q_count (cu_reads (sy_state s)))
    (SPWCUSE_RECORD_QUEUE_DEPTH - q_count (cu_records (sy_state s))) (sy_broker s).

Lemma perform_state a s : sy_state (perform a s) = sy_state s /\ sy_broker (perform a s) = sy_broker s.
Proof.
  destruct a as [| | | | | | |[x|]]; try done; cbn; unfold touch; by case_if.
Qed.

(** A step of the broker within a turn. *)
Record within_turn s s' : Prop := {
  wt_left : (steps_left s' < steps_left s)%nat;
  wt_writes : cu_writes (sy_state s') = cu_writes (sy_state s);
  wt_stopping : cu_stopping (sy_state s') = cu_stopping (sy_state s);
  wt_awake : awake (sy_broker s') = true;
  wt_next : calls_next (sy_broker s')
}.

Lemma take_count {A} `{!Inhabited A} (z : A) q : q_count (queue_take z q) = (q_count q - 1)%nat.
Proof. done. Qed.

Lemma push_count {A} `{!Inhabited A} (a : A) q : q_count (queue_push q a) = (q_count q + 1)%nat.
Proof. done. Qed.

Ltac turn := constructor; try done; unfold steps_left; cbn -[Nat.mul]; rewrite ?take_count, ?push_count.

Lemma within_service s : sy_broker s = AtService -> within_turn s (service_one_read s).
Proof.
  intros Hb. unfold service_one_read. case_if; [turn; rewrite Hb; cbn; lia|].
  apply orb_false_elim in E as [E1%count_pos E2%count_pos].
  cbv zeta. case_if; turn; rewrite Hb; cbn -[Nat.mul]; lia.
Qed.

Lemma within_process s w : sy_broker s = AtWrite w -> within_turn s (process_write w s).
Proof.
  intros Hb. unfold process_write.
  assert (sy_state (touch (pw_record w) s) = sy_state s) as E by (unfold touch; by case_if).
  destruct (validate_user_record _ _ _) as [error header].
  case_if; [turn; rewrite ?E, ?Hb; cbn -[Nat.mul]; try done; lia|].
  match goal with |- context [let '(_, _) := ?x in _] => destruct x as [result port] end.
  turn; rewrite ?E, ?Hb; cbn -[Nat.mul]; try done; lia.
Qed.

(** A move to a place further on, with the same queues. *)
Lemma within_place s f b : cu_reads (f (sy_state s)) = cu_reads (sy_state s) ->
  cu_records (f (sy_state s)) = cu_records (sy_state s) ->
  cu_writes (f (sy_state s)) = cu_writes (sy_state s) ->
  cu_stopping (f (sy_state s)) = cu_stopping (sy_state s) ->
  (forall reads room, turn_left reads room b < turn_left reads room (sy_broker s))%nat ->
  awake b = true -> calls_next b -> within_turn s (set_sy_broker b (supd f s)).
Proof.
  intros E1 E2 E3 E4 Hlt Ha Hn. constructor; try done. unfold steps_left. cbn. rewrite E1, E2. apply Hlt.
Qed.

Lemma within_wait s t : sy_broker s = AtWait t -> within_turn s (wait_backend t s).
Proof.
  intros Hb. unfold wait_backend. destruct (spw_port_wait _ _ _ _) as [[result ready] port].
  repeat case_if; apply within_place; try done; intros; rewrite Hb; cbn; lia.
Qed.

Lemma within_more s : sy_broker s = AtMore -> within_turn s (wait_more s).
Proof.
  intros Hb. unfold wait_more. destruct (spw_port_wait _ _ _ _) as [[result ready] port].
  case_if; apply within_place; try done; intros; rewrite Hb; cbn; lia.
Qed.

Lemma supd_id b s : set_sy_broker b s = set_sy_broker b (supd (fun st => st) s).
Proof. by destruct s. Qed.

Lemma within_refuse s : sy_broker s = AtTimeout -> within_turn s (refuse_nonblocking s).
Proof.
  intros Hb. unfold refuse_nonblocking. cbv zeta. case_if.
  - turn. rewrite Hb. cbn -[Nat.mul]. case_if; cbn; lia.
  - rewrite supd_id. apply within_place; try done. intros. rewrite Hb. cbn. lia.
Qed.

Lemma within_received s s' l : within_turn s s' -> within_turn s (set_sy_received l s').
Proof. intros []. by constructor. Qed.

Lemma within_receive_packet s ready : sy_broker s = AtReceive ready ->
  within_turn s (receive_packet ready s).
Proof.
  intros Hb. unfold receive_packet. case_if.
  { rewrite supd_id. apply within_place; try done. intros. rewrite Hb. cbn. lia. }
  cbv zeta. destruct (spw_port_receive _ _ _) as [[result [packet|]] port]; [case_if|];
    try apply within_received; apply within_place; try done; intros; rewrite Hb; cbn; lia.
Qed.

Lemma within_receive_time_code s ready : sy_broker s = AtReceiveTimeCode ready ->
  within_turn s (receive_time_code ready s).
Proof.
  intros Hb. unfold receive_time_code. case_if.
  { rewrite supd_id. apply within_place; try done. intros. rewrite Hb. cbn. lia. }
  destruct (spw_port_receive_time_code _ _ _) as [[result [tc|]] port]; [case_if|];
    try apply within_received; apply within_place; try done; intros; rewrite Hb; cbn; lia.
Qed.

Lemma within_enqueue rs s type flags payload size : accounted rs s ->
  sy_broker s = AtEnqueue type flags payload size ->
  within_turn s (enqueue_received mallocs type flags payload size s).
Proof.
  intros Ha Hb. unfold enqueue_received.
  destruct (enqueue_record_cases mallocs rs type flags payload size s Ha) as
    [[E1 E2]|(E1 & Hlt & bytes & E2)]; destruct (enqueue_record_locked _ _ _ _ _ _) as [queued s'];
    cbn in E1, E2; rewrite E1.
  - destruct E2 as [-> | ->]; turn; rewrite Hb; cbn -[Nat.mul]; lia.
  - subst s'. unfold SPWCUSE_RECORD_QUEUE_DEPTH in *. turn. rewrite Hb. cbn -[Nat.mul Nat.sub].
    destruct (cu_poll_handle _); cbn -[Nat.mul Nat.sub]; lia.
Qed.

Lemma within_calls s actions next : sy_broker s = Calls actions next -> calls_next (sy_broker s) ->
  forall s', broker_step mallocs s = Some s' -> within_turn s s'.
Proof.
  intros Hb Hn s'. unfold broker_step. rewrite Hb in *. destruct actions as [|a actions]; intros [= <-].
  - rewrite supd_id. apply within_place; try done; [intros; rewrite Hb; cbn; lia|by destruct next..].
  - destruct (perform_state a (set_sy_broker (Calls actions next) s)) as [E1 E2].
    constructor; unfold steps_left; rewrite ?E1, ?E2; try done. cbn. rewrite Hb. cbn. lia.
Qed.

Lemma broker_step_within rs s s' : accounted rs s -> calls_next (sy_broker s) ->
  sy_broker s <> AtLock -> broker_step mallocs s = Some s' -> within_turn s s'.
Proof.
  intros Ha Hn Hl Hs. pose proof Hs as Hs0. unfold broker_step in Hs.
  destruct (sy_broker s) eqn:Hb; try done; try (injection Hs as <-).
  - by apply within_service.
  - rewrite supd_id. apply within_place; try done. intros. rewrite Hb. cbn. lia.
  - by apply within_process.
  - by apply within_wait.
  - by apply within_refuse.
  - by apply within_receive_packet.
  - by apply within_receive_time_code.
  - by eapply within_enqueue.
  - by apply within_more.
  - unfold check_room. rewrite supd_id. case_if; apply within_place; try done; intros; rewrite Hb; cbn; lia.
  - eapply within_calls; [done|by rewrite Hb|done].
Qed.

(** ** When the broker sleeps *)

(** A broker that sleeps has no write to carry out, is not told to stop, and
    either nobody waits for a record or there is no room for one. *)
Definition rested s : Prop :=
  (sy_broker s = Asleep -> q_count (cu_writes (sy_state s)) = 0%nat /\
     cu_stopping (sy_state s) = false /\
     ((SPWCUSE_RECORD_QUEUE_DEPTH <= q_count (cu_records (sy_state s)))%nat \/
      (q_count (cu_reads (sy_state s)) = 0%nat /\ cu_poll_handle (sy_state s) = None))) /\
  (sy_broker s = Exited -> cu_stopping (sy_state s) = true) /\
  calls_next (sy_broker s) /\
  cu_stopping (sy_state s) = match sy_main s with Serving _ => false | _ => true end.

Lemma turn_rested s : rested s -> sy_broker s = AtLock -> rested (broker_turn s).
Proof.
  intros (_ & _ & _ & Hst) Hb. unfold broker_turn, pop_write_locked. case_if.
  { split; [discriminate|]. split; [done|]. split; [done|cbn; congruence]. }
  case_if.
  - apply Nat.eqb_eq in E0. split; [|split; [by case_if|split; [by case_if|cbn; congruence]]].
    cbn. case_if; [done|]. intros _. split_and!; try done.
    apply andb_false_iff in E1 as [E1%Nat.leb_gt|E1]; [left; exact E1|right].
    apply orb_false_elim in E1 as [E1 E2]. apply negb_false_iff, Nat.eqb_eq in E1.
    by destruct (cu_poll_handle _).
  - split; [discriminate|]. split; [discriminate|]. split; [done|cbn; congruence].
Qed.

Lemma broker_step_rested rs s s' : accounted rs s -> rested s -> broker_step mallocs s = Some s' ->
  rested s'.
Proof.
  intros Ha Hr Hs. pose proof Hr as (_ & _ & Hn & Hst).
  assert (sy_broker s = AtLock \/ sy_broker s <> AtLock) as [Hb|Hb]
    by (destruct (sy_broker s); by (left + right)).
  - unfold broker_step in Hs. rewrite Hb in Hs. injection Hs as <-. by apply turn_rested.
  - destruct (broker_step_within rs s s' Ha Hn Hb Hs). pose proof (broker_step_main mallocs s s' Hs) as Hm.
    split_and!; try done; [by intros E; rewrite E in *..|]. by rewrite wt_stopping0, Hst, Hm.
Qed.

(** Whoever puts something into a queue wakes the broker. *)
Lemma signal_rested s m : calls_next (sy_broker s) ->
  (sy_broker s = Exited -> cu_stopping (sy_state s) = true) ->
  cu_stopping (sy_state s) = match m with Serving _ => false | _ => true end ->
  rested (set_sy_main m (signal s)).
Proof.
  intros Hn He Hst. unfold signal, rested. destruct (sy_broker s) eqn:Hb; cbn; rewrite ?Hb; by split_and!.
Qed.

Lemma rested_main s l l' : rested s -> sy_main s = Serving l -> rested (set_sy_main (Serving l') s).
Proof. intros (H1 & H2 & H3 & H4) Hm. rewrite Hm in H4. by split_and!. Qed.

Lemma cancel_reads_none n q : q_count q = 0%nat -> cancel_reads n q = ([], q).
Proof. intros H. destruct n; [done|]. cbn. by rewrite H. Qed.

Lemma cuse_ops_rested r s : rested s -> sy_main s = Serving [] -> rested (cuse_ops mallocs r s).
Proof.
  intros Hr Hm. pose proof Hr as (H1 & H2 & H3 & H4). rewrite Hm in H4.
  destruct r; cbn [cuse_ops].
  - unfold cuse_open. case_if; by apply (rested_main _ []).
  - unfold cuse_read, enqueue_read_locked. cbv zeta.
    destruct (_ <=? _)%nat; [by apply (rested_main _ [])|]. by apply signal_rested.
  - unfold cuse_write. destruct (validate_user_record _ _ _) as [e h].
    case_if; [by apply (rested_main _ [])|]. rewrite malloc_eq.
    destruct (mallocs _); [|by apply (rested_main _ [])].
    unfold enqueue_write_locked. destruct (_ <=? _)%nat; [by apply (rested_main _ [])|].
    by apply signal_rested.
  - unfold cuse_poll. cbv zeta. destruct ph; [|by apply (rested_main _ [])].
    case_if; by apply signal_rested.
  - unfold cuse_release. cbv zeta. cbn [cu_reads set_cu_opened].
    destruct (cancel_reads _ _) as [cancelled reads] eqn:Ec. cbn [take_poll_handle_locked].
    split; [|by split_and!]. cbn. intros Hb. destruct (H1 Hb) as (Hw & Hs & Hd). split_and!; try done.
    destruct Hd as [Hd|[Hd _]]; [by left|right]. rewrite cancel_reads_none in Ec by done.
    injection Ec as _ <-. done.
Qed.

Lemma reached_rested port rs s : reached Bd mallocs port rs s -> rested s.
Proof.
  induction 1 as [|rs r s s' Hr IH Hs]; [by split_and!|].
  destruct (reached_balanced Bd mallocs port rs s Hr) as [[Ha Hne]|(Hm & Hb & _)];
    [|by inversion Hs; subst; unfold broker_step in *; try congruence; rewrite Hb in *].
  pose proof IH as (H1 & H2 & H3 & H4). inversion Hs; subst.
  - by apply cuse_ops_rested.
  - destruct (perform_state a (set_sy_main (Serving actions) s)) as [E1 E2].
    unfold rested. rewrite E1, E2, perform_main. by apply (rested_main s (a :: actions)).
  - by eapply broker_step_rested.
  - split_and!; try done.
  - unfold cleanup_begin. by apply signal_rested.
  - destruct (cleanup_end_spec Bd rs s Ha H H0) as (E1 & E2 & _ & _ & E5 & _).
    unfold rested. rewrite E1, E2, E5. split_and!; try done; cbn; by rewrite H4, H.
Qed.

(** ** The broker alone *)

Lemma broker_run_add a b s : broker_run mallocs (a + b) s = broker_run mallocs b (broker_run mallocs a s).
Proof.
  revert s. induction a as [|a IH]; intros s; [done|]. cbn. destruct (broker_step mallocs s) eqn:E; [apply IH|].
  destruct b; [done|]. cbn. by rewrite E.
Qed.

Lemma broker_run_reached port rs n : forall s, reached Bd mallocs port rs s ->
  reached Bd mallocs port rs (broker_run mallocs n s).
Proof.
  induction n as [|n IH]; intros s Hr; [done|]. cbn. destruct (broker_step mallocs s) eqn:E; [|done].
  apply IH. rewrite <- (app_nil_r rs). by apply (reached_step Bd mallocs port rs None s); [|constructor].
Qed.

Lemma broker_run_main n : forall s, sy_main (broker_run mallocs n s) = sy_main s.
Proof.
  induction n as [|n IH]; intros s; [done|]. cbn. destruct (broker_step mallocs s) eqn:E; [|done].
  by rewrite IH, (broker_step_main mallocs s).
Qed.

(** An awake broker comes to the end of its turn. *)
Lemma turn_ends port rs s : reached Bd mallocs port rs s -> sy_main s <> Ended ->
  awake (sy_broker s) = true ->
  exists n, sy_broker (broker_run mallocs n s) = AtLock /\
    cu_writes (sy_state (broker_run mallocs n s)) = cu_writes (sy_state s) /\
    cu_stopping (sy_state (broker_run mallocs n s)) = cu_stopping (sy_state s).
Proof.
  remember (steps_left s) as k eqn:Hk. revert s Hk. induction k as [k IH] using lt_wf_ind.
  intros s -> Hr Hm Ha.
  assert (sy_broker s = AtLock \/ sy_broker s <> AtLock) as [Hb|Hb]
    by (destruct (sy_broker s); by (left + right)); [by exists 0%nat|].
  destruct (broker_step mallocs s) as [s'|] eqn:Hs;
    [|unfold broker_step in Hs; destruct (sy_broker s); try done; by destruct actions].
  destruct (reached_balanced Bd mallocs port rs s Hr) as [[Hacc _]|(Hm' & _)]; [|done].
  destruct (reached_rested port rs s Hr) as (_ & _ & Hn & _).
  destruct (broker_step_within rs s s' Hacc Hn Hb Hs).
  destruct (IH (steps_left s') wt_left0 s' eq_refl) as (n & H1 & H2 & H3); try done.
  - pose proof (broker_run_reached port rs 1 s Hr) as H. cbn in H. by rewrite Hs in H.
  - by rewrite (broker_step_main mallocs s).
  - exists (S n). cbn. rewrite Hs. by rewrite H1, H2, H3.
Qed.

(** The calls of a list, one after the other. *)
Lemma calls_end actions next : forall s, sy_broker s = Calls actions next ->
  let s' := broker_run mallocs (S (length actions)) s in
  sy_broker s' = next /\ sy_state s' = sy_state s.
Proof.
  induction actions as [|a actions IH]; intros s Hb; cbn zeta.
  { cbn. unfold broker_step. by rewrite Hb. }
  set (s1 := perform a (set_sy_broker (Calls actions next) s)).
  destruct (perform_state a (set_sy_broker (Calls actions next) s)) as [E1 E2].
  assert (broker_run mallocs 1 s = s1) as Hs by (cbn; unfold broker_step; by rewrite Hb).
  change (S (length (a :: actions))) with (1 + S (length actions))%nat.
  rewrite broker_run_add, Hs. destruct (IH s1 E2) as [-> ->]. split; [done|exact E1].
Qed.

(** The write at the head is carried out and answered. *)
Lemma process_write_calls w s : exists a, sy_broker (process_write w s) =
    Calls [a; free (pw_record w)] AtService /\ action_reqs a = [pw_req w] /\
  cu_writes (sy_state (process_write w s)) = cu_writes (sy_state s) /\
  cu_stopping (sy_state (process_write w s)) = cu_stopping (sy_state s).
Proof.
  unfold process_write. assert (sy_state (touch (pw_record w) s) = sy_state s) as E
    by (unfold touch; by case_if).
  destruct (validate_user_record _ _ _) as [error header]. case_if; [eexists; cbn; rewrite E; by split_and!|].
  match goal with |- context [let '(_, _) := ?x in _] => destruct x as [result port] end.
  eexists. cbn. rewrite E. split_and!; try done. by case_if.
Qed.

Lemma perform_answers a s r : r ∈ action_reqs a -> r ∈ answered_reqs (sy_log (perform a s)).
Proof.
  unfold answered_reqs. intros Hr. destruct a; cbn in *; try (by apply elem_of_nil in Hr);
    rewrite omap_app; apply elem_of_app; right; cbn; done.
Qed.

Lemma write_turn s w ws : sy_broker s = AtLock -> cu_stopping (sy_state s) = false ->
  queue_wf SPWCUSE_WRITE_QUEUE_DEPTH (cu_writes (sy_state s)) ->
  queue_list (cu_writes (sy_state s)) = w :: ws ->
  exists n, let s' := broker_run mallocs n s in
    pw_req w ∈ answered_reqs (sy_log s') /\ awake (sy_broker s') = true /\
    queue_list (cu_writes (sy_state s')) = ws /\ cu_stopping (sy_state s') = false.
Proof.
  intros Hb Hst Hq Hl.
  assert (0 < q_count (cu_writes (sy_state s)))%nat as Hc by (rewrite <- length_queue_list, Hl; cbn; lia).
  pose proof (queue_list_take _ no_write _ Hq Hc) as Ht. rewrite Hl in Ht. injection Ht as Hw Hws.
  set (l := notify_poll_handle (cu_poll_handle (sy_state s))).
  set (s1 := broker_turn s).
  assert (broker_run mallocs 1 s = s1) as E1 by (cbn; unfold broker_step; by rewrite Hb).
  assert (sy_broker s1 = Calls l (AtWrite w) /\ queue_list (cu_writes (sy_state s1)) = ws /\
    cu_stopping (sy_state s1) = false) as (Hb1 & Hw1 & Hs1).
  { unfold s1, broker_turn, pop_write_locked. rewrite Hst.
    assert (Nat.eqb (q_count (cu_writes (sy_state s))) 0 = false) as -> by (apply Nat.eqb_neq; lia).
    cbn. by rewrite Hst, <- Hw, <- Hws. }
  destruct (calls_end l (AtWrite w) s1 Hb1) as [Hb2 Hs2].
  set (s2 := broker_run mallocs (S (length l)) s1) in *.
  destruct (process_write_calls w s2) as (a & Hb3 & Ha & Hw3 & Hs3).
  set (s3 := perform a (set_sy_broker (Calls [free (pw_record w)] AtService) (process_write w s2))).
  assert (broker_run mallocs 2 s2 = s3) as E3.
  { cbn [broker_run]. assert (broker_step mallocs s2 = Some (process_write w s2)) as ->
      by (unfold broker_step; by rewrite Hb2). unfold broker_step. by rewrite Hb3. }
  destruct (perform_state a (set_sy_broker (Calls [free (pw_record w)] AtService) (process_write w s2)))
    as [E4 E5]. fold s3 in E4, E5.
  exists (1 + (S (length l) + 2))%nat. cbn zeta. rewrite !broker_run_add, E1. fold s2. rewrite E3, E4, E5.
  split_and!; [|done|..].
  - apply perform_answers. rewrite Ha. by left.
  - change (queue_list (cu_writes (sy_state (process_write w s2))) = ws). by rewrite Hw3, Hs2.
  - change (cu_stopping (sy_state (process_write w s2)) = false). by rewrite Hs3, Hs2.
Qed.

Lemma writes_answered port rs i : forall s w, reached Bd mallocs port rs s ->
  cu_stopping (sy_state s) = false -> queue_list (cu_writes (sy_state s)) !! i = Some w ->
  exists n, pw_req w ∈ answered_reqs (sy_log (broker_run mallocs n s)).
Proof.
  induction i as [|i IH]; intros s w Hr Hst Hi;
    destruct (reached_rested port rs s Hr) as (Hsleep & Hexit & _ & Hmain);
    (assert (sy_main s <> Ended) as Hm by (intros E; rewrite E in Hmain; congruence));
    (assert (awake (sy_broker s) = true) as Ha by
      (destruct (sy_broker s); try done; [destruct (Hsleep eq_refl) as [H0 _];
         rewrite (queue_list_nil _ H0) in Hi; done|rewrite Hexit in Hst; done]));
    destruct (turn_ends port rs s Hr Hm Ha) as (n & Hb & Hw & Hs);
    pose proof (broker_run_reached port rs n s Hr) as Hr';
    destruct (reached_balanced Bd mallocs port rs _ Hr') as [[Hacc _]|(Hm' & _)];
    try (rewrite broker_run_main in Hm'; done);
    destruct (queue_list (cu_writes (sy_state s))) as [|w0 ws] eqn:Hq; try done;
    rewrite <- Hw in Hq; rewrite <- Hs in Hst;
    destruct (write_turn _ w0 ws Hb Hst (ac_writes _ _ Hacc) Hq) as (k & Hans & Hak & Hws & Hsk).
  - injection Hi as <-. exists (n + k)%nat. by rewrite broker_run_add.
  - destruct (IH (broker_run mallocs k (broker_run mallocs n s)) w) as [j Hj]; [|done|by rewrite Hws|].
    + by apply broker_run_reached.
    + exists (n + (k + j))%nat. by rewrite !broker_run_add.
Qed.
End progress.

(** C20. Every write that was accepted is answered: in whatever state the threads
    have reached, as long as the program is not told to stop, the broker on its
    own comes to answer each of the writes that wait, after a number of steps that
    the queues bound. *)
Theorem write_answered {C} (Bd : build) mallocs (port : option (spw_port C)) rs s w :
  reached Bd mallocs port rs s -> cu_stopping (sy_state s) = false ->
  w ∈ queue_list (cu_writes (sy_state s)) ->
  exists n, pw_req w ∈ answered_reqs (sy_log (broker_run mallocs n s)).
Proof. intros Hr Hst [i Hi]%list_elem_of_lookup. by eapply writes_answered. Qed.

(** C38. The program comes to its end: once libfuse has returned, the broker on
    its own reaches its exit, whatever it was doing, so that pthread_join returns
    and cleanup_state runs to its end. *)
Theorem shutdown_completes {C} (Bd : build) mallocs (port : option (spw_port C)) rs s :
  reached Bd mallocs port rs s -> sy_main s = Joining ->
  exists n, sy_broker (broker_run mallocs n s) = Exited /\
    reached Bd mallocs port rs (cleanup_end Bd (broker_run mallocs n s)) /\
    sy_main (cleanup_end Bd (broker_run mallocs n s)) = Ended.
Proof.
  intros Hr Hm. destruct (reached_rested Bd mallocs port rs s Hr) as (Hsleep & _ & _ & Hst).
  rewrite Hm in Hst.
  assert (exists n, sy_broker (broker_run mallocs n s) = Exited) as [n Hn].
  { destruct (sy_broker s) eqn:Hb; try (by destruct (Hsleep eq_refl) as (_ & H & _); congruence);
      try (by exists 0%nat);
      (destruct (turn_ends Bd mallocs port rs s Hr) as (n & H1 & _ & H3); [congruence|by rewrite Hb|];
       exists (n + 1)%nat; rewrite broker_run_add; cbn; unfold broker_step; rewrite H1; cbn;
       unfold broker_turn; by rewrite H3, Hst). }
  exists n. assert (sy_main (broker_run mallocs n s) = Joining) as Hm' by (by rewrite broker_run_main).
  split_and!; [done|..].
  - rewrite <- (app_nil_r rs). eapply (reached_step Bd mallocs port rs None);
      [by apply broker_run_reached|by constructor].
  - done.
Qed.

(** A sleeping broker has a reason: there is no write to carry out, the
    program is not told to stop, and either neither a read nor a poll waits for a
    record or the queue of records is full. *)
Theorem asleep_with_reason {C} (Bd : build) mallocs (port : option (spw_port C)) rs s :
  reached Bd mallocs port rs s -> sy_broker s = Asleep ->
  queue_list (cu_writes (sy_state s)) = [] /\ cu_stopping (sy_state s) = false /\
  (q_count (cu_records (sy_state s)) = SPWCUSE_RECORD_QUEUE_DEPTH \/
   queue_list (cu_reads (sy_state s)) = [] /\ cu_poll_handle (sy_state s) = None).
Proof.
  intros Hr Hb. destruct (reached_rested Bd mallocs port rs s Hr) as (H & _ & _ & Hst).
  destruct (H Hb) as (Hw & Hs & Hd). split; [by apply queue_list_nil|]. split; [done|].
  destruct (reached_balanced Bd mallocs port rs s Hr) as [[Ha _]|(_ & Hb' & _)]; [|congruence].
  destruct Hd as [Hd|[Hd1 Hd2]]; [left|right; split; [by apply queue_list_nil|done]].
  pose proof (qw_count _ _ (ac_records _ _ Ha)). lia.
Qed.

(** ** Reads without an answer *)

(** C39. A wake-up can be lost. Let the broker have found no read to serve while
    the queue of records is full, and let a read arrive before it takes the lock
    again: the signal of the read finds nobody waiting, and the broker then goes to
    sleep with the read and sixteen records at hand. Nothing but another request,
    the end of the session or a spurious wake-up changes this state, so a reader
    that blocks in this read waits for ever although the records are there. *)
Theorem read_missed {C} (Bd : build) mallocs (port : option (spw_port C)) rs s req size flags :
  reached Bd mallocs port rs s -> sy_broker s = AtLock -> sy_main s = Serving [] ->
  q_count (cu_records (sy_state s)) = SPWCUSE_RECORD_QUEUE_DEPTH ->
  q_count (cu_writes (sy_state s)) = 0%nat -> q_count (cu_reads (sy_state s)) = 0%nat ->
  exists s', reached Bd mallocs port (rs ++ [RequestRead req size flags]) s' /\
    sy_broker s' = Asleep /\ sy_log s' = sy_log s /\
    queue_list (cu_reads (sy_state s')) =
      [{| pr_req := Some req; pr_size := size; pr_nonblocking := has_flag flags O_NONBLOCK |}] /\
    q_count (cu_records (sy_state s')) = SPWCUSE_RECORD_QUEUE_DEPTH /\
    forall s'', step Bd mallocs None s' s'' ->
      s'' = set_sy_broker Woken s' \/ s'' = cleanup_begin s'.
Proof.
  intros Hr Hb Hm Hrec Hw Hrd.
  destruct (reached_balanced Bd mallocs port rs s Hr) as [[Ha _]|(Hm' & _)]; [|congruence].
  destruct (reached_rested Bd mallocs port rs s Hr) as (_ & _ & _ & Hst). rewrite Hm in Hst.
  set (s1 := cuse_read req size flags s).
  assert (s1 = set_sy_main (Serving []) (set_sy_state (set_cu_reads (queue_push (cu_reads (sy_state s))
    {| pr_req := Some req; pr_size := size; pr_nonblocking := has_flag flags O_NONBLOCK |})
    (sy_state s)) s)) as E1.
  { unfold s1, cuse_read, enqueue_read_locked. cbv zeta. rewrite Hrd. cbn [Nat.leb].
    unfold signal. cbn [sy_broker set_sy_state]. by rewrite Hb. }
  assert (reached Bd mallocs port (rs ++ [RequestRead req size flags]) s1) as Hr1
    by (apply (reached_step Bd mallocs port rs (Some (RequestRead req size flags)) s); [done|exact (step_request Bd mallocs (RequestRead req size flags) s Hm)]).
  set (s2 := set_sy_broker Asleep s1).
  assert (broker_step mallocs s1 = Some s2) as E2.
  { unfold broker_step. rewrite E1 at 1. cbn [sy_broker set_sy_state set_sy_main]. rewrite Hb. f_equal.
    unfold broker_turn, pop_write_locked, s2. rewrite E1. cbn -[queue_push]. rewrite Hst, Hw. cbn -[queue_push].
    by rewrite Hrec. }
  exists s2. split_and!.
  - rewrite <- (app_nil_r (rs ++ _)). apply (reached_step Bd mallocs port _ None s1); [done|by constructor].
  - done.
  - unfold s2. by rewrite E1.
  - unfold s2. rewrite E1. cbn -[queue_push].
    rewrite (queue_list_push _ _ _ (ac_reads _ _ Ha)) by (rewrite Hrd; cbv; lia).
    by rewrite (queue_list_nil _ Hrd).
  - unfold s2. by rewrite E1.
  - assert (sy_main s2 = Serving []) as Hm2 by (unfold s2; by rewrite E1).
    intros s'' Hs. inversion Hs; subst; try congruence; [|by left|by right].
    by assert (broker_step mallocs s2 = None) by done; congruence.
Qed.

Section stranded.
Context {C : Type} (mallocs : nat -> bool) (Down : option (spw_port C) -> Prop).
Implicit Types (s : @presenter C).

(** Waiting for the port fails, neither with an event nor with a timeout. *)
Hypothesis wait_fails : forall port t, Down port ->
  let '(result, _, port') := spw_port_wait port SPW_READY_ALL t (Some SPW_READY_NONE) in
  result <> SPW_OK /\ result <> SPW_ERR_TIMEOUT /\ Down port'.

(** Readers wait, there is nothing for them and nothing to send. *)
Record stranded s : Prop := {
  sd_port : Down (cu_port (sy_state s));
  sd_stopping : cu_stopping (sy_state s) = false;
  sd_reads : (0 < q_count (cu_reads (sy_state s)))%nat;
  sd_writes : q_count (cu_writes (sy_state s)) = 0%nat;
  sd_records : q_count (cu_records (sy_state s)) = 0%nat;
  sd_place : match sy_broker s with AtService | AtLock | AtWait _ => True | _ => False end
}.

Lemma stranded_step s : stranded s -> exists s', broker_step mallocs s = Some s' /\ stranded s' /\
  sy_log s' = sy_log s /\ cu_reads (sy_state s') = cu_reads (sy_state s).
Proof.
  intros Hs. pose proof Hs as [Hp Hst Hr Hw Hrec Hpl]. unfold broker_step.
  destruct (sy_broker s) as [| | | | |t| | | | | | | |] eqn:Hb; try done; eexists; (split; [done|]).
  - unfold service_one_read. rewrite Hrec, orb_true_r. split; [by constructor|done].
  - unfold broker_turn, pop_write_locked. rewrite Hst, Hw. cbn.
    assert (forall t, stranded (set_sy_broker (AtWait t) s)) as H by by constructor.
    rewrite Hrec. destruct (q_count (cu_reads (sy_state s))) eqn:E; [lia|]. cbn. by split.
  - unfold wait_backend. pose proof (wait_fails _ t Hp) as H.
    destruct (spw_port_wait _ _ _ _) as [[result ready] port']. destruct H as (H1 & H2 & H3).
    apply Z.eqb_neq in H1, H2. rewrite H1, H2. cbn. split; [by constructor|done].
Qed.

Lemma stranded_run n : forall s, stranded s -> stranded (broker_run mallocs n s) /\
  sy_log (broker_run mallocs n s) = sy_log s /\
  cu_reads (sy_state (broker_run mallocs n s)) = cu_reads (sy_state s).
Proof.
  induction n as [|n IH]; intros s Hs; [done|]. cbn.
  destruct (stranded_step s Hs) as (s' & -> & Hs' & E1 & E2). destruct (IH s' Hs') as (H & H1 & H2).
  split; [done|]. split; congruence.
Qed.
End stranded.

(** A started port of the device backend without a session and with nothing
    received. *)
Definition session_lost {W} (os : dev_os W) io_fuel (port : option (spw_port (device_context * W))) : Prop :=
  exists p c, port = Some p /\ ops p = Some (DEVICE_OPS os io_fuel) /\ backend_context p = Some c /\
    locally_started p = true /\ dc_fd c.1 < 0 /\ dc_rx_ready c.1 = false /\
    dc_time_code_count c.1 = 0%nat.

Lemma deadline_context {W} (os : dev_os W) t d : (deadline_for os t d).2.1 = d.1.
Proof.
  unfold deadline_for, monotonic_us. destruct (do_clock_gettime os d.2) as [[[r sec] nsec] w].
  repeat case_if; done.
Qed.

Lemma connect_refused {W} (os : dev_os W) io_fuel deadline d :
  (forall fd path w, (do_connect os fd path w).1 <> 0) -> dc_rx_ready d.1 = false ->
  dc_time_code_count d.1 = 0%nat ->
  let '(result, d') := connect_session os io_fuel deadline d in
  result = SPW_ERR_LINK_UNAVAILABLE /\ dc_fd d'.1 < 0 /\ dc_rx_ready d'.1 = false /\
  dc_time_code_count d'.1 = 0%nat.
Proof.
  intros Hc Hr Ht. unfold connect_session. destruct (do_socket os d.2) as [fd w]. case_if.
  { apply Z.ltb_lt in E. by split_and!. }
  match goal with |- context [do_connect os fd ?p ?w] =>
    pose proof (Hc fd p w) as H; destruct (do_connect os fd p w) as [connected w'] end.
  apply Z.eqb_neq in H. cbn [fst] in H. rewrite H. cbn [negb]. unfold lost, mark_disconnected.
  case_if; split_and!; done.
Qed.

Lemma lost_waits {W} (os : dev_os W) io_fuel port t :
  (forall fd path w, (do_connect os fd path w).1 <> 0) -> session_lost os io_fuel port ->
  let '(result, _, port') := spw_port_wait port SPW_READY_ALL t (Some SPW_READY_NONE) in
  result <> SPW_OK /\ result <> SPW_ERR_TIMEOUT /\ session_lost os io_fuel port'.
Proof.
  intros Hc (p & c & -> & Ho & Hb & Hl & Hfd & Hr & Ht). unfold spw_port_wait, validate_started_port.
  cbn -[op_wait]. rewrite Ho, Hb, Hl. cbn -[device_wait]. unfold device_wait.
  pose proof (deadline_context os t c) as E. destruct (deadline_for os t c) as [deadline d].
  cbn [snd] in E. unfold device_ready_events. rewrite E, Hr, Ht, !andb_false_r. cbn -[connect_session].
  unfold ensure_connected. rewrite (proj2 (Z.leb_gt 0 (dc_fd d.1))) by (rewrite E; lia).
  pose proof (connect_refused os io_fuel deadline d Hc) as H. rewrite E in H. specialize (H Hr Ht).
  destruct (connect_session os io_fuel deadline d) as [result d']. destruct H as (-> & H).
  cbn. split; [done|]. split; [done|]. by exists (with_context d' p), d'.
Qed.

(** C40. When the daemon has gone and does not come back, a read is never
    answered, not even a non-blocking one: the broker of a presenter on the device
    backend neither sleeps nor answers, it goes round and round between the queues
    and a connect that fails at once. *)
Theorem reads_unanswered {W} (os : dev_os W) io_fuel mallocs (s : presenter) n :
  (forall fd path w, (do_connect os fd path w).1 <> 0) ->
  stranded (session_lost os io_fuel) s ->
  let s' := broker_run mallocs n s in
  stranded (session_lost os io_fuel) s' /\ sy_log s' = sy_log s /\
  cu_reads (sy_state s') = cu_reads (sy_state s) /\ broker_step mallocs s' <> None.
Proof.
  intros Hc Hs s'.
  assert (forall port t, session_lost os io_fuel port ->
    let '(result, _, port') := spw_port_wait port SPW_READY_ALL t (Some SPW_READY_NONE) in
    result <> SPW_OK /\ result <> SPW_ERR_TIMEOUT /\ session_lost os io_fuel port') as Hw
    by (intros; by apply lost_waits).
  destruct (stranded_run mallocs _ Hw n s Hs) as (H1 & H2 & H3). split; [done|]. split; [done|].
  split; [done|]. by destruct (stranded_step mallocs _ Hw s' H1) as (s'' & -> & _).
Qed.

(** ** Witnesses *)

(** The loopback backend with a wait that reports what is queued. *)
Definition feed_wait (b : spw_loopback_backend) (interests timeout_us out : Z)
    : Z * Z * spw_loopback_backend :=
  let ready :=
    (if Nat.eqb (r_count (lb_packets b)) 0 then SPW_READY_NONE else SPW_READY_RX_PACKET) .|
    (if Nat.eqb (r_count (lb_time_codes b)) 0 then SPW_READY_NONE else SPW_READY_RX_TIME_CODE) in
  (if ready =? SPW_READY_NONE then SPW_ERR_TIMEOUT else SPW_OK, ready, b).

Definition FEED_OPS : spw_backend_ops spw_loopback_backend :=
  {| op_start := loopback_start; op_stop := loopback_stop; op_reset := loopback_reset;
     op_get_link_state := loopback_get_link_state;
     op_get_capabilities := loopback_get_capabilities;
     op_supports_zero_copy := Some loopback_supports_zero_copy;
     op_send := loopback_send; op_receive := loopback_receive;
     op_send_time_code := loopback_send_time_code;
     op_receive_time_code := loopback_receive_time_code;
     op_get_statistics := loopback_get_statistics;
     op_clear_statistics := loopback_clear_statistics;
     op_get_fault_statistics := None; op_clear_fault_statistics := None;
     op_acquire_tx_buffer := None; op_submit_tx_buffer := None; op_reclaim_tx_buffer := None;
     op_release_tx_buffer := None; op_acquire_rx_buffer := None; op_release_rx_buffer := None;
     op_wait := Some feed_wait |}.

Definition feed_ok (b : spw_loopback_backend) : Prop :=
  exists f, loopback_refines b f /\ fifo_contents_ok f.

#[export] Instance feed_outputs : BackendOutputs FEED_OPS feed_ok.
Proof. destruct loopback_outputs as [H1 H2 H3 H4 H5]. constructor; assumption. Qed.

#[export] Instance feed_waits : BackendWaits FEED_OPS feed_ok.
Proof. by intros f c interests t out [= <-] Hc. Qed.

Definition feed_port : spw_port spw_loopback_backend :=
  {| ops := Some FEED_OPS; backend_context := Some (loopback_start loopback_construct.2).2;
     destroy_backend := loopback_destroy; workspace_base := 4096; workspace_alignment := 8;
     release_workspace := true; locally_started := true; ownership_epoch := 1 |}.

Definition sample_build : build :=
  {| has_simulator := true; has_udp := true; has_device := true; enable_heap := true |}.

Definition enough (_ : nat) : bool := true.

Definition data_bytes : list Z := record_bytes
  {| cr_type := VSPW_CUSE_RECORD_DATA; cr_flags := VSPW_CUSE_RECORD_FLAG_EEP; cr_payload_size := 3 |} ++
  [7; 8; 9].

Definition time_code_bytes : list Z := record_bytes
  {| cr_type := VSPW_CUSE_RECORD_TIME_CODE; cr_flags := 0; cr_payload_size := 2 |} ++ [21; 0].

Definition feed_run (ms : list move) : presenter :=
  default (presenter_start (Some feed_port))
    (make_moves sample_build enough ms (presenter_start (Some feed_port))).

Lemma feed_reached ms :
  bool_decide (is_Some (make_moves sample_build enough ms (presenter_start (Some feed_port)))) = true ->
  reached sample_build enough (Some feed_port) (move_requests ms) (feed_run ms).
Proof.
  intros [s Hs]%bool_decide_eq_true. unfold feed_run. rewrite Hs. by apply schedule_reached.
Qed.

Lemma feed_port_runs : port_runs FEED_OPS feed_ok (Some feed_port).
Proof.
  intros p [= <-]. split; [by intros o [= <-]|]. intros c [= <-].
  exists (fifo_with_state SPW_LINK_RUN fifo_initial). split.
  - destruct loopback_initial_refines. by constructor.
  - split; [done|]. by split.
Qed.

Definition steps (n : nat) : list move := replicate n MoveBroker.

(** A packet is written and read back; the broker then sleeps. *)
Definition echo_moves : list move :=
  [MoveRequest (RequestOpen 1); MoveCall; MoveRequest (RequestWrite 2 data_bytes 0)] ++ steps 7 ++
  [MoveRequest (RequestRead 3 64 0)] ++ steps 13.

(** The program is told to end while a read and a poll wait. *)
Definition exit_moves : list move :=
  echo_moves ++ [MoveRequest (RequestRead 4 64 0); MoveRequest (RequestPoll 5 (Some 9)); MoveCall; MoveExit].

Definition end_moves : list move := exit_moves ++ steps 3 ++ [MoveJoin].

(** Eight time-codes are sent and received into the queue of records. *)
Definition round_moves (k : nat) : list move :=
  concat ((fun i => MoveRequest (RequestWrite (Z.of_nat i) time_code_bytes 0) :: steps 7) <$> seq k 8) ++
  [MoveRequest (RequestPoll (Z.of_nat k) (Some (Z.of_nat k))); MoveCall] ++ steps 52.

(** The queue of records is full and the broker past the service of reads. *)
Definition full_moves : list move := round_moves 10 ++ round_moves 20 ++ steps 1.

Definition write_moves : list move := [MoveRequest (RequestWrite 2 data_bytes 0)].

Lemma spwcuse_resources_witness :
  let s := feed_run end_moves in
  sy_main s = Ended /\ sy_fault s = false /\ sy_heap s = ∅ /\ held_handles s = [] /\
  Some <$> (request_id <$> move_requests end_moves) ≡ₚ answered_reqs (sy_log s) ++ held_reqs s.
Proof.
  cbn zeta. destruct (spwcuse_resources sample_build enough (Some feed_port) (move_requests end_moves)
    (feed_run end_moves)) as (H1 & H2 & _ & _ & H3); [apply feed_reached; vm_compute; reflexivity|].
  assert (sy_main (feed_run end_moves) = Ended) as E by (vm_compute; reflexivity).
  destruct (H3 E) as [H4 H5]. by split_and!.
Defined.


Lemma write_answered_witness :
  exists n, Some 2 ∈ answered_reqs (sy_log (broker_run enough n (feed_run write_moves))).
Proof.
  apply (write_answered sample_build enough (Some feed_port) (move_requests write_moves)
    (feed_run write_moves) {| pw_req := Some 2; pw_size := 19; pw_record := Some 1 |}).
  - apply feed_reached. vm_compute. reflexivity.
  - vm_compute. reflexivity.
  - apply list_elem_of_lookup. exists 0%nat. vm_compute. reflexivity.
Defined.

Lemma shutdown_completes_witness :
  exists n, sy_broker (broker_run enough n (feed_run exit_moves)) = Exited.
Proof.
  destruct (shutdown_completes sample_build enough (Some feed_port) (move_requests exit_moves)
    (feed_run exit_moves)) as (n & H & _).
  - apply feed_reached. vm_compute. reflexivity.
  - vm_compute. reflexivity.
  - by exists n.
Defined.

Lemma asleep_with_reason_witness :
  sy_broker (feed_run echo_moves) = Asleep /\
  queue_list (cu_writes (sy_state (feed_run echo_moves))) = [].
Proof.
  assert (sy_broker (feed_run echo_moves) = Asleep) as E by (vm_compute; reflexivity).
  split; [exact E|].
  apply (asleep_with_reason sample_build enough (Some feed_port) (move_requests echo_moves)
    (feed_run echo_moves)); [apply feed_reached; vm_compute; reflexivity|exact E].
Defined.

Lemma read_missed_witness :
  exists s' : @presenter spw_loopback_backend, sy_broker s' = Asleep /\ sy_log s' = sy_log (feed_run full_moves) /\
    queue_list (cu_reads (sy_state s')) =
      [{| pr_req := Some 40; pr_size := 64; pr_nonblocking := false |}] /\
    q_count (cu_records (sy_state s')) = 16%nat.
Proof.
  destruct (read_missed sample_build enough (Some feed_port) (move_requests full_moves)
    (feed_run full_moves) 40 64 0) as (s' & _ & H1 & H2 & H3 & H4 & _);
    [apply feed_reached; vm_compute; reflexivity|vm_compute; reflexivity..|].
  exists s'. exact (conj H1 (conj H2 (conj H3 H4))).
Defined.

(** A host on which nothing listens at the socket of the daemon. *)
Definition refusing : dev_os sock :=
  {| do_socket := do_socket seqpacket; do_connect := fun _ _ w => (-1, w);
     do_poll := do_poll seqpacket; do_send := do_send seqpacket; do_recv := do_recv seqpacket;
     do_close := do_close seqpacket; do_errno := do_errno seqpacket;
     do_clock_gettime := do_clock_gettime seqpacket |}.

Definition lost_port : spw_port (device_context * sock) :=
  {| ops := Some (DEVICE_OPS refusing 4);
     backend_context := Some (zero_context device_sample_config, ([], []));
     destroy_backend := device_destroy refusing 4; workspace_base := 4096; workspace_alignment := 8;
     release_workspace := true; locally_started := true; ownership_epoch := 1 |}.

(** A non-blocking read on it. *)
Definition lost_read : presenter := cuse_read 7 64 O_NONBLOCK (presenter_start (Some lost_port)).

Lemma reads_unanswered_witness :
  let s' := broker_run enough 1000 lost_read in
  pr_nonblocking (queue_front (cu_reads (sy_state s'))) = true /\ sy_log s' = [].
Proof.
  destruct (reads_unanswered refusing 4 enough lost_read 1000) as (_ & H1 & H2 & _).
  - by intros fd path w.
  - constructor; [|vm_compute; (reflexivity || exact I || lia)..].
    exists lost_port, (zero_context device_sample_config, ([], [])). split_and!; reflexivity.
  - cbn zeta. rewrite H1, H2. split; vm_compute; reflexivity.
Defined.
