(* ===== verification/CommandLine.v ===== *)
(** * Command lines

    The text functions of the programs and the option parsing of vspwd
    (src/src/vspwd/main.c) and of spwcuse (main in src/src/cuse/spwcuse.c).  A C
    string is the list of its characters without the NUL; the functions of the C
    library the programs call are modelled for the C locale and a 64-bit long. *)

From stdpp Require Import strings.
From S2P Require Import Prelude Types Backend Loopback DriverApi PortConfig Port Server ServerLoop.

(** ** Text *)

(** A string literal. *)
Definition text (s : string) : list Z :=
  (fun a => Z.of_N (Ascii.N_of_ascii a)) <$> String.list_ascii_of_string s.

Definition str_eq (a b : list Z) : bool := bool_decide (a = b).

(** The conversion %u of printf; [fuel] is the number of digits. *)
Fixpoint digits (fuel : nat) (n : Z) : list Z :=
  match fuel with
  | O => []
  | S fuel => (if n <? 10 then [] else digits fuel (n / 10)) ++ [48 + n mod 10]
  end.

Definition decimal (n : Z) : list Z := digits 20 n.

Definition isspace (c : Z) : bool := (c =? 32) || ((9 <=? c) && (c <=? 13)).

(** The value of a digit or letter. *)
Definition digit_value (c : Z) : option Z :=
  if (48 <=? c) && (c <=? 57) then Some (c - 48) else
  if (97 <=? c) && (c <=? 122) then Some (c - 87) else
  if (65 <=? c) && (c <=? 90) then Some (c - 55) else None.

Definition digit_in (base c : Z) : option Z :=
  match digit_value c with Some v => if v <? base then Some v else None | None => None end.

Fixpoint skip_spaces (s : list Z) : list Z :=
  match s with c :: rest => if isspace c then skip_spaces rest else s | [] => [] end.

(** The digits at the start of [s]: the value they add to [acc] and what follows. *)
Fixpoint read_digits (base : Z) (s : list Z) (acc : Z) : Z * list Z :=
  match s with
  | c :: rest =>
      match digit_in base c with
      | Some v => read_digits base rest (acc * base + v)
      | None => (acc, s)
      end
  | [] => (acc, s)
  end.

Definition read_sign (s : list Z) : bool * list Z :=
  match s with
  | c :: rest => if c =? 45 then (true, rest) else if c =? 43 then (false, rest) else (false, s)
  | [] => (false, s)
  end.

(** The base of a number written with base 0, and its digits. *)
Definition read_prefix (base : Z) (s : list Z) : Z * list Z :=
  if negb (base =? 0) then (base, s) else
  match s with
  | z :: x :: h :: rest =>
      if (z =? 48) && ((x =? 120) || (x =? 88)) && bool_decide (is_Some (digit_in 16 h))
      then (16, h :: rest) else if z =? 48 then (8, s) else (10, s)
  | z :: _ => if z =? 48 then (8, s) else (10, s)
  | [] => (10, s)
  end.

Definition ERANGE : Z := 34.
Definition ULONG_MAX : Z := 2 ^ 64 - 1.

(** strtoul(s, &end, base) for the bases 0 and 10: the value, the string [end]
    points to, and errno. *)
Definition strtoul (s : list Z) (base : Z) : Z * list Z * Z :=
  let '(negative, body) := read_sign (skip_spaces s) in
  let '(base, body) := read_prefix base body in
  match body with
  | c :: _ =>
      if bool_decide (is_Some (digit_in base c)) then
        let '(value, rest) := read_digits base body 0 in
        if ULONG_MAX <? value then (ULONG_MAX, rest, ERANGE)
        else (if negative then u64 (- value) else value, rest, 0)
      else (0, s, 0)
  | [] => (0, s, 0)
  end.

Definition UINT32_MAX : Z := 2 ^ 32 - 1.
Definition UINT16_MAX : Z := 2 ^ 16 - 1.

(** ** vspwd *)

Module vspwd.

Definition parse_u32 (s : list Z) : option Z :=
  let '(parsed, rest, errno) := strtoul s 0 in
  if negb (errno =? 0) || bool_decide (s = []) || negb (bool_decide (rest = [])) ||
     (UINT32_MAX <? parsed) then None else Some (u32 parsed).

Definition parse_port (s : list Z) : option Z :=
  match parse_u32 s with
  | Some parsed =>
      if (parsed =? 0) || (UINT16_MAX <? parsed) then None else Some (u16 parsed)
  | None => None
  end.

(** snprintf with %s: the destination and whether the string fitted. *)
Definition copy_address (destination : list Z) (capacity : Z) (source : list Z) : bool * list Z :=
  (Z.of_nat (length source) <? capacity,
   mem_write destination 0 (take (Z.to_nat capacity - 1) source ++ [0])).

Record options := {
  socket_path : list Z;
  enabled : bool;
  port_id : Z;
  udp : spw_udp_config
}.

Definition SPW_UDP_DEFAULT_FAULT_SEED : Z := 0x9e3779b97f4a7c15.

(** A string in an array that is zero after it. *)
Definition char_array (capacity : Z) (s : list Z) : list Z :=
  mem_write (replicate (Z.to_nat capacity) 0) 0 s.

(** SPW_UDP_CONFIG_INITIALIZER(0, 0, 42) *)
Definition initial_udp (A : abi) : spw_udp_config :=
  {| udp_struct_size := sizeof_udp_config A; udp_version := SPW_UDP_CONFIG_VERSION;
     local_address := char_array SPW_UDP_ADDRESS_MAX (text "127.0.0.1"); local_port := 0;
     remote_address := char_array SPW_UDP_ADDRESS_MAX (text "127.0.0.1"); remote_port := 0;
     udp_link_id := 42; fragment_payload_size := 1200; max_retries := 5; ack_timeout_ms := 100;
     keepalive_interval_ms := 1000; peer_timeout_ms := 3000; virtual_link_bps := 0;
     virtual_latency_us := 0; fault_seed := SPW_UDP_DEFAULT_FAULT_SEED;
     fault_rules := replicate 8 SPW_UDP_FAULT_RULE_INITIALIZER; udp_reserved := 0 |}.

Definition VSPWD_DEFAULT_SOCKET_PATH : list Z := text "/tmp/spwkit-vspwd.sock".

(** VSPWD_CONFIG_INITIALIZER *)
Definition initial_options (A : abi) : options :=
  {| socket_path := VSPWD_DEFAULT_SOCKET_PATH; enabled := false; port_id := 0; udp := initial_udp A |}.

(** *** Assignments to the fields of the UDP configuration *)

Definition set_local_address v (u : spw_udp_config) : spw_udp_config :=
  let '(Build_spw_udp_config a b _ d e f g h i j k l m n o p q) := u in
  Build_spw_udp_config a b v d e f g h i j k l m n o p q.
Definition set_local_port v (u : spw_udp_config) : spw_udp_config :=
  let '(Build_spw_udp_config a b c _ e f g h i j k l m n o p q) := u in
  Build_spw_udp_config a b c v e f g h i j k l m n o p q.
Definition set_remote_address v (u : spw_udp_config) : spw_udp_config :=
  let '(Build_spw_udp_config a b c d _ f g h i j k l m n o p q) := u in
  Build_spw_udp_config a b c d v f g h i j k l m n o p q.
Definition set_remote_port v (u : spw_udp_config) : spw_udp_config :=
  let '(Build_spw_udp_config a b c d e _ g h i j k l m n o p q) := u in
  Build_spw_udp_config a b c d e v g h i j k l m n o p q.
Definition set_link_id v (u : spw_udp_config) : spw_udp_config :=
  let '(Build_spw_udp_config a b c d e f _ h i j k l m n o p q) := u in
  Build_spw_udp_config a b c d e f v h i j k l m n o p q.
Definition set_ack_timeout_ms v (u : spw_udp_config) : spw_udp_config :=
  let '(Build_spw_udp_config a b c d e f g h i _ k l m n o p q) := u in
  Build_spw_udp_config a b c d e f g h i v k l m n o p q.
Definition set_keepalive_interval_ms v (u : spw_udp_config) : spw_udp_config :=
  let '(Build_spw_udp_config a b c d e f g h i j _ l m n o p q) := u in
  Build_spw_udp_config a b c d e f g h i j v l m n o p q.
Definition set_peer_timeout_ms v (u : spw_udp_config) : spw_udp_config :=
  let '(Build_spw_udp_config a b c d e f g h i j k _ m n o p q) := u in
  Build_spw_udp_config a b c d e f g h i j k v m n o p q.

Definition set_udp (f : spw_udp_config -> spw_udp_config) (c : options) : options :=
  {| socket_path := socket_path c; enabled := enabled c; port_id := port_id c; udp := f (udp c) |}.
Definition set_socket_path v (c : options) : options :=
  {| socket_path := v; enabled := enabled c; port_id := port_id c; udp := udp c |}.
Definition set_bridge v (c : options) : options :=
  {| socket_path := socket_path c; enabled := true; port_id := v; udp := udp c |}.

(** *** main *)

(** What an option does with its argument: [None] prints the usage. *)
Definition port_option (set : Z -> spw_udp_config -> spw_udp_config) (v : list Z) (c : options)
    : option options := (fun n => set_udp (set n) c) <$> parse_port v.

Definition u32_option (set : Z -> spw_udp_config -> spw_udp_config) (v : list Z) (c : options)
    : option options :=
  match parse_u32 v with
  | Some n => if n =? 0 then None else Some (set_udp (set n) c)
  | None => None
  end.

Definition address_option (get : spw_udp_config -> list Z)
    (set : list Z -> spw_udp_config -> spw_udp_config) (v : list Z) (c : options) : option options :=
  let '(fits, bytes) := copy_address (get (udp c)) SPW_UDP_ADDRESS_MAX v in
  if fits then Some (set_udp (set bytes) c) else None.

Definition bridge_option (v : list Z) (c : options) : option options :=
  match parse_u32 v with
  | Some n => if 1 <? n then None else Some (set_bridge n c)
  | None => None
  end.

(** The chain of comparisons, for the options that take an argument. *)
Definition option_of (arg : list Z) : option (list Z -> options -> option options) :=
  if str_eq arg (text "--socket") then Some (fun v c => Some (set_socket_path v c)) else
  if str_eq arg (text "--bridge-port") then Some bridge_option else
  if str_eq arg (text "--udp-local-port") then Some (port_option set_local_port) else
  if str_eq arg (text "--udp-remote-port") then Some (port_option set_remote_port) else
  if str_eq arg (text "--udp-local-address")
  then Some (address_option local_address set_local_address) else
  if str_eq arg (text "--udp-remote-address")
  then Some (address_option remote_address set_remote_address) else
  if str_eq arg (text "--udp-link-id") then Some (u32_option set_link_id) else
  if str_eq arg (text "--udp-ack-timeout-ms") then Some (u32_option set_ack_timeout_ms) else
  if str_eq arg (text "--udp-keepalive-ms") then Some (u32_option set_keepalive_interval_ms) else
  if str_eq arg (text "--udp-peer-timeout-ms") then Some (u32_option set_peer_timeout_ms) else
  None.

(** The loop over the arguments: the exit code after the usage, or the options. *)
Fixpoint parse_options (args : list (list Z)) (c : options) : Z + options :=
  match args with
  | [] => inr c
  | arg :: args =>
      match option_of arg with
      | Some f =>
          match args with
          | [] => inl 2
          | v :: args =>
              match f v c with Some c => parse_options args c | None => inl 2 end
          end
      | None =>
          if str_eq arg (text "--help") || str_eq arg (text "-h") then inl 0 else inl 2
      end
  end.

Definition command_line (A : abi) (args : list (list Z)) : Z + options :=
  match parse_options args (initial_options A) with
  | inl code => inl code
  | inr c =>
      if enabled c && ((local_port (udp c) =? 0) || (remote_port (udp c) =? 0)) then inl 2 else inr c
  end.

(** The configuration in the storage [memory] of the UDP configuration. *)
Definition config_of {P} (memory : config_memory P) (c : options) : @vspwd_config P :=
  {| vc_socket_path := Some (socket_path c);
     vc_udp_bridge :=
       {| bc_enabled := enabled c; bc_port_id := port_id c;
          bc_udp := {| as_simulator := as_simulator memory; as_udp := udp c;
                       as_device := as_device memory; as_driver := as_driver memory |} |} |}.

(** The exit code; [None] while the server still runs after [fuel] iterations. *)
Definition main {B W P} (os : os_ops W) (A : abi) (Bd : build)
    (factories : factory_id -> spw_backend_factory P B) aligned_alloc (memory : config_memory P)
    (fuel accept_fuel : nat) (args : list (list Z)) (w : W) : option Z * W :=
  match command_line A args with
  | inl code => (Some code, w)
  | inr c =>
      vspwd_run_config os A Bd factories aligned_alloc fuel accept_fuel (Some (config_of memory c)) w
  end.
End vspwd.

(** ** spwcuse *)

Module spwcuse.

Definition parse_u32 (s : list Z) : option Z :=
  if bool_decide (s = []) then None else
  let '(value, rest, errno) := strtoul s 10 in
  if negb (errno =? 0) || (length rest =? length s)%nat || negb (bool_decide (rest = [])) ||
     (UINT32_MAX <? value) then None else Some (u32 value).

Definition normalize_device_name (value : list Z) : list Z :=
  let prefix := text "/dev/" in
  if str_eq (take (length prefix) value) prefix then drop (length prefix) value else value.

Record options := {
  socket_path : list Z;
  port_id : Z;
  requested_device : option (list Z)
}.

Definition set_socket_path v (c : options) : options :=
  {| socket_path := v; port_id := port_id c; requested_device := requested_device c |}.
Definition set_port_id v (c : options) : options :=
  {| socket_path := socket_path c; port_id := v; requested_device := requested_device c |}.
Definition set_requested_device v (c : options) : options :=
  {| socket_path := socket_path c; port_id := port_id c; requested_device := Some v |}.

Definition SPW_DEVICE_DEFAULT_ENDPOINT : list Z := text "/tmp/spwkit-vspwd.sock".

Definition initial_options : options :=
  {| socket_path := SPW_DEVICE_DEFAULT_ENDPOINT; port_id := 0; requested_device := None |}.

(** The loop over the arguments; an option at the end without its argument falls
    through to the usage. *)
Fixpoint parse_options (args : list (list Z)) (c : options) : Z + options :=
  match args with
  | [] => inr c
  | [arg] => if str_eq arg (text "--help") || str_eq arg (text "-h") then inl 0 else inl 2
  | arg :: v :: rest =>
      if str_eq arg (text "--socket") then parse_options rest (set_socket_path v c) else
      if str_eq arg (text "--port") then
        match parse_u32 v with
        | Some n => parse_options rest (set_port_id n c)
        | None => inl 2
        end else
      if str_eq arg (text "--device")
      then parse_options rest (set_requested_device (normalize_device_name v) c) else
      if str_eq arg (text "--help") || str_eq arg (text "-h") then inl 0 else inl 2
  end.

(** The name of the entry under /dev; the generated one is at most 14 characters
    long, so its snprintf into 48 never fails. *)
Definition device_name (c : options) : list Z :=
  match requested_device c with
  | None => text "vspw" ++ decimal (port_id c)
  | Some name => name
  end.

Definition command_line (args : list (list Z)) : Z + options :=
  match args with
  | [arg] => if str_eq arg (text "--api-check") then inl 0 else parse_options args initial_options
  | _ => parse_options args initial_options
  end.

Section main.
Context {B P : Type} (A : abi) (Bd : build) (factories : factory_id -> spw_backend_factory P B)
  (aligned_alloc : Z -> Z -> option Z) (memory : config_memory P).

(** SPW_DEVICE_CONFIG_INITIALIZER(port_id), with the path copied over the default
    one. *)
Definition device_config (c : options) : spw_device_config :=
  {| dev_struct_size := sizeof_device_config A; dev_version := SPW_DEVICE_CONFIG_VERSION;
     dev_port_id := port_id c; dev_reserved := 0;
     dev_endpoint :=
       mem_write (vspwd.char_array SPW_DEVICE_ENDPOINT_CAPACITY SPW_DEVICE_DEFAULT_ENDPOINT) 0
         (socket_path c ++ [0]) |}.

Definition port_config (c : options) : spw_port_config P :=
  {| cfg_struct_size := sizeof_port_config A; cfg_version := SPW_PORT_CONFIG_VERSION;
     cfg_backend := SPW_BACKEND_DEVICE; cfg_flags := 0;
     cfg_backend_config :=
       Some {| as_simulator := as_simulator memory; as_udp := as_udp memory;
               as_device := device_config c; as_driver := as_driver memory |};
     cfg_backend_config_size := sizeof_device_config A |}.

(** main up to cuse_lowlevel_main: the exit code, or the name of the device and
    the port that the broker then serves.  [resources] tells whether calloc, the
    initialisation of mutex and condition, and pthread_create succeed. *)
Definition setup (resources : nat -> bool) (args : list (list Z)) : Z + list Z * spw_port B :=
  match command_line args with
  | inl code => inl code
  | inr c =>
      let name := device_name c in
      if bool_decide (name = []) || bool_decide (47 ∈ name) then inl 2 else
      if negb (resources 0%nat) || negb (resources 1%nat) then inl 1 else
      if SPW_DEVICE_ENDPOINT_CAPACITY <=? Z.of_nat (length (socket_path c)) then inl 2 else
      match spw_port_open A Bd factories aligned_alloc (Some (port_config c)) with
      | (result, Some port, _) =>
          if negb (result =? SPW_OK) then inl 1 else
          match spw_port_start (Some port) with
          | (result, Some port) =>
              if negb (result =? SPW_OK) then inl 1 else
              if negb (resources 2%nat) then inl 1 else
              if 192 <=? Z.of_nat (length (text "DEVNAME=" ++ name)) then inl 2 else
              inr (text "DEVNAME=" ++ name, port)
          | (_, None) => inl 1
          end
      | (_, None, _) => inl 1
      end
  end.
End main.
End spwcuse.
