(* ===== verification/CommandLineProps.v ===== *)
(** * Command lines: correctness

    Numbers survive printing and parsing; what the options of vspwd can express
    and what is guaranteed of a configuration it accepts; and the port with which
    spwcuse starts its broker. *)

From stdpp Require Import strings.
From S2P Require Import Prelude Types Backend Loopback DriverApi PortConfig Port PortClient PortProps.
From S2P Require Import Vspd Server ServerLoop ServerRun Device CommandLine.

(** ** Numbers *)

Lemma digit_in_decimal base d : 0 <= d < base -> base <= 10 -> digit_in base (48 + d) = Some d.
Proof.
  intros H1 H2. unfold digit_in, digit_value.
  rewrite (proj2 (Z.leb_le 48 (48 + d))), (proj2 (Z.leb_le (48 + d) 57)) by lia. cbn [andb].
  replace (48 + d - 48) with d by lia. by rewrite (proj2 (Z.ltb_lt d base)) by lia.
Qed.

Lemma read_decimal rest fuel : forall n acc, 0 <= n < 10 ^ Z.of_nat fuel ->
  read_digits 10 (digits fuel n ++ rest) acc =
  read_digits 10 rest (acc * 10 ^ Z.of_nat (length (digits fuel n)) + n).
Proof.
  revert rest. induction fuel as [|fuel IH]; intros rest n acc Hn.
  { cbn in Hn. cbn. f_equal. lia. }
  cbn [digits]. rewrite <- app_assoc. rewrite Nat2Z.inj_succ, Z.pow_succ_r in Hn by lia.
  pose proof (Z.mod_pos_bound n 10). pose proof (Z.div_mod n 10).
  assert (forall a, read_digits 10 ([48 + n mod 10] ++ rest) a = read_digits 10 rest (a * 10 + n mod 10))
    as Hd by (intros a; cbn [app read_digits]; by rewrite digit_in_decimal by lia).
  case_if.
  - cbn [app length]. rewrite Hd. f_equal. rewrite Z.mod_small by lia. cbn. lia.
  - rewrite IH, Hd by (split; [apply Z.div_pos; lia|apply Z.div_lt_upper_bound; lia]).
    f_equal. rewrite length_app. cbn [length].
    rewrite Nat2Z.inj_add, Z.pow_add_r by lia. change (10 ^ Z.of_nat 1) with 10. lia.
Qed.

Lemma digits_head fuel : forall n, 0 < n < 10 ^ Z.of_nat fuel ->
  exists d rest, digits fuel n = d :: rest /\ 49 <= d <= 57.
Proof.
  induction fuel as [|fuel IH]; intros n Hn; [cbn in Hn; lia|].
  cbn [digits]. rewrite Nat2Z.inj_succ, Z.pow_succ_r in Hn by lia. case_if.
  - rewrite Z.mod_small by lia. cbn. exists (48 + n), []. split; [done|lia].
  - destruct (IH (n / 10)) as (d & rest & -> & Hd).
    { split; [apply Z.div_str_pos; lia|apply Z.div_lt_upper_bound; lia]. }
    by exists d, (rest ++ [48 + n mod 10]).
Qed.

Lemma strtoul_decimal n base : 0 <= n <= ULONG_MAX -> base = 0 \/ base = 10 ->
  strtoul (decimal n) base = (n, [], 0).
Proof.
  intros Hn Hb. destruct (decide (n = 0)) as [->|Hz]; [by destruct Hb as [-> | ->]|].
  unfold ULONG_MAX in *.
  assert (0 < n < 10 ^ Z.of_nat 20) as Hr by (change (10 ^ Z.of_nat 20) with 100000000000000000000; lia).
  unfold decimal. destruct (digits_head 20 n Hr) as (d & rest & E & Hd).
  pose proof (read_decimal [] 20 n 0 ltac:(lia)) as Hread. rewrite app_nil_r, E in Hread.
  assert (strtoul (d :: rest) base = let '(value, rest) := read_digits 10 (d :: rest) 0 in
    if ULONG_MAX <? value then (ULONG_MAX, rest, ERANGE) else (value, rest, 0)) as Hs.
  { unfold strtoul. cbn [skip_spaces]. unfold isspace.
    rewrite (proj2 (Z.eqb_neq d 32)), (proj2 (Z.leb_gt d 13)), andb_false_r by lia.
    cbn [orb read_sign].
    rewrite (proj2 (Z.eqb_neq d 45)), (proj2 (Z.eqb_neq d 43)) by lia.
    assert (read_prefix base (d :: rest) = (10, d :: rest)) as ->.
    { unfold read_prefix. destruct Hb as [-> | ->]; [|done]. cbn [Z.eqb negb].
      rewrite (proj2 (Z.eqb_neq d 48)) by lia. by destruct rest as [|? [|??]]. }
    pose proof (digit_in_decimal 10 (d - 48) ltac:(lia) ltac:(lia)) as Hdig.
    replace (48 + (d - 48)) with d in Hdig by lia. by rewrite Hdig. }
  rewrite E, Hs, Hread. cbn [read_digits]. unfold ULONG_MAX. case_if; [lia|]. done.
Qed.

Lemma decimal_nonempty n : decimal n <> [].
Proof. unfold decimal. cbn [digits]. by destruct (if n <? 10 then _ else _). Qed.

Lemma vspwd_parse_u32 n : 0 <= n < 2 ^ 32 -> vspwd.parse_u32 (decimal n) = Some n.
Proof.
  intros Hn. unfold vspwd.parse_u32. rewrite strtoul_decimal by (unfold ULONG_MAX; lia || auto).
  rewrite (bool_decide_false _ (decimal_nonempty n)). cbn [Z.eqb negb orb].
  rewrite bool_decide_true by done. unfold UINT32_MAX. cbn [negb orb]. case_if; [lia|].
  by rewrite (wrap_small 32) by lia.
Qed.

Lemma vspwd_parse_port n : 0 < n < 2 ^ 16 -> vspwd.parse_port (decimal n) = Some n.
Proof.
  intros Hn. unfold vspwd.parse_port. rewrite vspwd_parse_u32 by lia. unfold UINT16_MAX.
  case_if; [lia|]. by rewrite (wrap_small 16) by lia.
Qed.

(** ** The options of vspwd *)

Lemma wrap_range w v : 0 <= w -> 0 <= wrap w v < 2 ^ w.
Proof. intros Hw. apply Z.mod_pos_bound. lia. Qed.

Lemma parse_u32_range s n : vspwd.parse_u32 s = Some n -> 0 <= n < 2 ^ 32.
Proof.
  unfold vspwd.parse_u32. destruct (strtoul s 0) as [[parsed rest] errno].
  case_if; [done|]. intros [= <-]. by apply (wrap_range 32).
Qed.

Lemma parse_port_range s n : vspwd.parse_port s = Some n -> 0 < n < 2 ^ 16.
Proof.
  unfold vspwd.parse_port. destruct (vspwd.parse_u32 s) as [parsed|] eqn:E; [|done].
  apply parse_u32_range in E. unfold UINT16_MAX. case_if; [done|]. intros [= <-].
  apply orb_false_elim in E0 as [E1 E2]. rewrite (wrap_small 16) by lia. lia.
Qed.

Lemma parse_options_keeps (Q : vspwd.options -> Prop) :
  (forall arg f v c c', vspwd.option_of arg = Some f -> f v c = Some c' -> Q c -> Q c') ->
  forall n args c c', (length args <= n)%nat -> Q c -> vspwd.parse_options args c = inr c' -> Q c'.
Proof.
  intros Hstep. induction n as [|n IH]; intros [|arg args] c c' Hn Hq; cbn in Hn; try lia;
    cbn [vspwd.parse_options]; [by intros [= <-]..|].
  destruct (vspwd.option_of arg) as [f|] eqn:Ef; [|by case_if].
  destruct args as [|v args]; [done|]. destruct (f v c) as [c1|] eqn:Ec; [|done].
  apply IH; [cbn in Hn; lia|by eapply Hstep].
Qed.

(** What main never changes, and the ranges of what it does. *)
Record options_ok (A : abi) (c : vspwd.options) : Prop := {
  oo_port_id : 0 <= vspwd.port_id c <= 1;
  oo_struct_size : udp_struct_size (vspwd.udp c) = sizeof_udp_config A;
  oo_version : udp_version (vspwd.udp c) = SPW_UDP_CONFIG_VERSION;
  oo_local_port : 0 <= local_port (vspwd.udp c) < 2 ^ 16;
  oo_remote_port : 0 <= remote_port (vspwd.udp c) < 2 ^ 16;
  oo_link_id : 0 < udp_link_id (vspwd.udp c) < 2 ^ 32;
  oo_fragment : fragment_payload_size (vspwd.udp c) = 1200;
  oo_retries : max_retries (vspwd.udp c) = 5;
  oo_ack : 0 < ack_timeout_ms (vspwd.udp c) < 2 ^ 32;
  oo_keepalive : 0 < keepalive_interval_ms (vspwd.udp c) < 2 ^ 32;
  oo_peer : 0 < peer_timeout_ms (vspwd.udp c) < 2 ^ 32;
  oo_rules : fault_rules (vspwd.udp c) = replicate 8 SPW_UDP_FAULT_RULE_INITIALIZER;
  oo_reserved : udp_reserved (vspwd.udp c) = 0
}.

Lemma initial_options_ok A : options_ok A (vspwd.initial_options A).
Proof. constructor; done. Qed.

Lemma bridge_option_ok A v c c' : vspwd.bridge_option v c = Some c' -> options_ok A c -> options_ok A c'.
Proof.
  unfold vspwd.bridge_option. destruct (vspwd.parse_u32 v) as [n|] eqn:E; [|done].
  apply parse_u32_range in E. case_if; [done|]. intros [= <-] []. constructor; try done. cbn. lia.
Qed.

Lemma port_option_ok A set v c c' : vspwd.port_option set v c = Some c' ->
  (forall n, 0 < n < 2 ^ 16 -> options_ok A (vspwd.set_udp (set n) c)) -> options_ok A c'.
Proof.
  unfold vspwd.port_option. destruct (vspwd.parse_port v) as [n|] eqn:E; [|done].
  apply parse_port_range in E. intros [= <-] H. by apply H.
Qed.

Lemma u32_option_ok A set v c c' : vspwd.u32_option set v c = Some c' ->
  (forall n, 0 < n < 2 ^ 32 -> options_ok A (vspwd.set_udp (set n) c)) -> options_ok A c'.
Proof.
  unfold vspwd.u32_option. destruct (vspwd.parse_u32 v) as [n|] eqn:E; [|done].
  apply parse_u32_range in E. case_if; [done|]. intros [= <-] H. apply H. lia.
Qed.

Lemma address_option_ok A get set v c c' : vspwd.address_option get set v c = Some c' ->
  (forall bytes, options_ok A (vspwd.set_udp (set bytes) c)) -> options_ok A c'.
Proof. unfold vspwd.address_option, vspwd.copy_address. case_if; [|done]. by intros [= <-] H. Qed.

Lemma option_keeps_ok A arg f v c c' : vspwd.option_of arg = Some f -> f v c = Some c' ->
  options_ok A c -> options_ok A c'.
Proof.
  intros Hf Hc Hok. unfold vspwd.option_of in Hf. repeat case_if_in Hf; try done; injection Hf as <-.
  1: injection Hc as <-; by destruct Hok.
  1: by eapply bridge_option_ok.
  all: first [eapply port_option_ok; [done|] | eapply address_option_ok; [done|] |
    eapply u32_option_ok; [done|]].
  all: intros; destruct c as [? ? ? []], Hok; constructor; cbn in *; done || lia.
Qed.

(** C25. A command line that vspwd accepts gives a configuration of the UDP bridge
    in range: a port of the daemon, non-zero port numbers, link id and times.  The
    port layer accepts it exactly when the peer timeout is above the keepalive
    interval and neither address is empty, the two conditions main leaves to it. *)
Theorem vspwd_command_sound {P} A (memory : config_memory P) args c :
  vspwd.command_line A args = inr c -> vspwd.enabled c = true ->
  0 <= vspwd.port_id c < VSPWD_PORT_COUNT /\
  0 < local_port (vspwd.udp c) < 2 ^ 16 /\ 0 < remote_port (vspwd.udp c) < 2 ^ 16 /\
  options_ok A c /\
  (validate_udp_config A (udp_port_config A (vc_udp_bridge (vspwd.config_of memory c))) = SPW_OK <->
   keepalive_interval_ms (vspwd.udp c) < peer_timeout_ms (vspwd.udp c) /\
   mem_get (local_address (vspwd.udp c)) 0 <> 0 /\ mem_get (remote_address (vspwd.udp c)) 0 <> 0).
Proof.
  unfold vspwd.command_line. destruct (vspwd.parse_options _ _) as [|c'] eqn:E; [done|].
  case_if; [done|]. intros [= ->] He. rewrite He in E0. apply orb_false_elim in E0 as [E1 E2].
  assert (options_ok A c) as Hok by (eapply parse_options_keeps;
    [intros *; apply (option_keeps_ok A)|done|apply initial_options_ok|done]).
  pose proof Hok as []. split; [unfold VSPWD_PORT_COUNT; lia|]. split; [lia|]. split; [lia|].
  split; [done|]. unfold validate_udp_config, udp_port_config, vspwd.config_of.
  cbn [vc_udp_bridge bc_udp cfg_backend_config cfg_backend_config_size as_udp].
  rewrite oo_struct_size0, oo_version0, oo_fragment0, oo_retries0, oo_rules0, oo_reserved0.
  rewrite Z.ltb_irrefl, Z.eqb_refl, (proj2 (Z.eqb_neq (udp_link_id _) 0)),
    (proj2 (Z.eqb_neq (ack_timeout_ms _) 0)), (proj2 (Z.eqb_neq (keepalive_interval_ms _) 0)), E2 by lia.
  change (1200 <? 256) with false. change (5 =? 0) with false. cbn [negb orb Z.eqb].
  rewrite !orb_false_r. case_if.
  - split; [done|]. intros (H1 & H2 & H3). lia.
  - split; [|done]. intros _. lia.
Qed.

(** The string in a character array. *)
Fixpoint c_string (s : list Z) : list Z :=
  match s with c :: rest => if c =? 0 then [] else c :: c_string rest | [] => [] end.

Definition no_nul (s : list Z) : Prop := Forall (fun c => c <> 0) s.

Lemma c_string_app s rest : no_nul s -> c_string (s ++ 0 :: rest) = s.
Proof. induction 1 as [|c s Hc Hs IH]; [done|]. cbn. by rewrite (proj2 (Z.eqb_neq c 0)), IH. Qed.

Lemma mem_write_start m bs : mem_write m 0 bs = bs ++ drop (length bs) m.
Proof. done. Qed.

Lemma copy_address_string old s : no_nul s -> Z.of_nat (length s) < SPW_UDP_ADDRESS_MAX ->
  let '(fits, bytes) := vspwd.copy_address old SPW_UDP_ADDRESS_MAX s in
  fits = true /\ c_string bytes = s.
Proof.
  intros Hs Hl. unfold vspwd.copy_address. split; [lia|].
  rewrite take_ge by (unfold SPW_UDP_ADDRESS_MAX in *; lia).
  rewrite mem_write_start, <- app_assoc. by apply c_string_app.
Qed.

Lemma parse_option_step arg f v args c c' : vspwd.option_of arg = Some f -> f v c = Some c' ->
  vspwd.parse_options (arg :: v :: args) c = vspwd.parse_options args c'.
Proof. intros Hf Hc. cbn [vspwd.parse_options]. by rewrite Hf, Hc. Qed.

Lemma u32_option_decimal set n c : 0 < n < 2 ^ 32 ->
  vspwd.u32_option set (decimal n) c = Some (vspwd.set_udp (set n) c).
Proof. intros Hn. unfold vspwd.u32_option. rewrite vspwd_parse_u32 by lia. case_if; [lia|done]. Qed.

Lemma bridge_option_decimal n c : 0 <= n <= 1 ->
  vspwd.bridge_option (decimal n) c = Some (vspwd.set_bridge n c).
Proof. intros Hn. unfold vspwd.bridge_option. rewrite vspwd_parse_u32 by lia. case_if; [lia|done]. Qed.

Lemma port_option_decimal set n c : 0 < n < 2 ^ 16 ->
  vspwd.port_option set (decimal n) c = Some (vspwd.set_udp (set n) c).
Proof. intros Hn. unfold vspwd.port_option. by rewrite vspwd_parse_port. Qed.

Lemma address_option_string get set s c : no_nul s -> Z.of_nat (length s) < SPW_UDP_ADDRESS_MAX ->
  exists bytes, vspwd.address_option get set s c = Some (vspwd.set_udp (set bytes) c) /\ c_string bytes = s.
Proof.
  intros Hs Hl. pose proof (copy_address_string (get (vspwd.udp c)) s Hs Hl) as H.
  unfold vspwd.address_option. destruct (vspwd.copy_address _ _ _) as [fits bytes].
  destruct H as [-> H]. by exists bytes.
Qed.

(** The command line that asks for a bridge with these settings. *)
Record bridge_settings := {
  bs_socket : list Z;
  bs_bridge : Z;
  bs_local_port : Z;
  bs_remote_port : Z;
  bs_local : list Z;
  bs_remote : list Z;
  bs_link : Z;
  bs_ack : Z;
  bs_keepalive : Z;
  bs_peer : Z
}.

Definition bridge_command (b : bridge_settings) : list (list Z) :=
  [text "--socket"; bs_socket b; text "--bridge-port"; decimal (bs_bridge b);
   text "--udp-local-port"; decimal (bs_local_port b);
   text "--udp-remote-port"; decimal (bs_remote_port b);
   text "--udp-local-address"; bs_local b; text "--udp-remote-address"; bs_remote b;
   text "--udp-link-id"; decimal (bs_link b); text "--udp-ack-timeout-ms"; decimal (bs_ack b);
   text "--udp-keepalive-ms"; decimal (bs_keepalive b);
   text "--udp-peer-timeout-ms"; decimal (bs_peer b)].

Record settings_ok (b : bridge_settings) : Prop := {
  so_bridge : 0 <= bs_bridge b <= 1;
  so_local_port : 0 < bs_local_port b < 2 ^ 16;
  so_remote_port : 0 < bs_remote_port b < 2 ^ 16;
  so_local : no_nul (bs_local b) /\ Z.of_nat (length (bs_local b)) < SPW_UDP_ADDRESS_MAX;
  so_remote : no_nul (bs_remote b) /\ Z.of_nat (length (bs_remote b)) < SPW_UDP_ADDRESS_MAX;
  so_link : 0 < bs_link b < 2 ^ 32;
  so_ack : 0 < bs_ack b < 2 ^ 32;
  so_keepalive : 0 < bs_keepalive b < 2 ^ 32;
  so_peer : 0 < bs_peer b < 2 ^ 32
}.

Definition settings_of (c : vspwd.options) : bridge_settings :=
  {| bs_socket := vspwd.socket_path c; bs_bridge := vspwd.port_id c;
     bs_local_port := local_port (vspwd.udp c); bs_remote_port := remote_port (vspwd.udp c);
     bs_local := c_string (local_address (vspwd.udp c));
     bs_remote := c_string (remote_address (vspwd.udp c));
     bs_link := udp_link_id (vspwd.udp c); bs_ack := ack_timeout_ms (vspwd.udp c);
     bs_keepalive := keepalive_interval_ms (vspwd.udp c);
     bs_peer := peer_timeout_ms (vspwd.udp c) |}.

(** C26. Every setting of the bridge in range can be written on the command line of
    vspwd, with numbers in decimal, and is read back unchanged. *)
Theorem vspwd_command_roundtrip A b : settings_ok b ->
  exists c, vspwd.command_line A (bridge_command b) = inr c /\ vspwd.enabled c = true /\
    settings_of c = b.
Proof.
  intros []. unfold vspwd.command_line, bridge_command.
  destruct so_local0 as [Hl1 Hl2], so_remote0 as [Hr1 Hr2].
  erewrite (parse_option_step (text "--socket")) by reflexivity.
  erewrite (parse_option_step (text "--bridge-port")); [|reflexivity|by apply bridge_option_decimal].
  erewrite (parse_option_step (text "--udp-local-port")); [|reflexivity|by apply port_option_decimal].
  erewrite (parse_option_step (text "--udp-remote-port")); [|reflexivity|by apply port_option_decimal].
  match goal with |- context [vspwd.parse_options _ ?c] =>
    destruct (address_option_string local_address vspwd.set_local_address (bs_local b) c Hl1 Hl2)
      as (la & El & Hla) end.
  erewrite (parse_option_step (text "--udp-local-address")); [|reflexivity|exact El].
  match goal with |- context [vspwd.parse_options _ ?c] =>
    destruct (address_option_string remote_address vspwd.set_remote_address (bs_remote b) c Hr1 Hr2)
      as (ra & Er & Hra) end.
  erewrite (parse_option_step (text "--udp-remote-address")); [|reflexivity|exact Er].
  erewrite (parse_option_step (text "--udp-link-id")); [|reflexivity|by apply u32_option_decimal].
  erewrite (parse_option_step (text "--udp-ack-timeout-ms")); [|reflexivity|by apply u32_option_decimal].
  erewrite (parse_option_step (text "--udp-keepalive-ms")); [|reflexivity|by apply u32_option_decimal].
  erewrite (parse_option_step (text "--udp-peer-timeout-ms")); [|reflexivity|by apply u32_option_decimal].
  cbn [vspwd.parse_options]. cbn -[Z.eqb c_string]. case_if; [lia|]. eexists. split; [done|].
  split; [done|]. unfold settings_of. cbn -[c_string]. rewrite Hla, Hra. by destruct b.
Qed.

(** ** The start of spwcuse *)

Lemma spwcuse_parse_u32 n : 0 <= n < 2 ^ 32 -> spwcuse.parse_u32 (decimal n) = Some n.
Proof.
  intros Hn. unfold spwcuse.parse_u32. rewrite (bool_decide_false _ (decimal_nonempty n)).
  rewrite strtoul_decimal by (unfold ULONG_MAX; lia || auto). cbn [Z.eqb negb orb].
  pose proof (decimal_nonempty n). destruct (decimal n) as [|d rest]; [done|]. cbn [length Nat.eqb].
  rewrite bool_decide_true by done. unfold UINT32_MAX. cbn [negb orb]. case_if; [lia|].
  by rewrite (wrap_small 32) by lia.
Qed.

(** A name under /dev is one component, whether or not it is given with its path. *)
Lemma device_name_path name : 47 ∉ name ->
  spwcuse.normalize_device_name (text "/dev/" ++ name) = name /\
  spwcuse.normalize_device_name name = name.
Proof.
  intros Hn. unfold spwcuse.normalize_device_name, str_eq. split.
  - by rewrite take_app_length, bool_decide_true, drop_app_length.
  - rewrite bool_decide_false; [done|]. intros E. apply Hn.
    destruct name as [|c name]; [done|]. cbn in E. injection E as -> _. by left.
Qed.

Lemma spwcuse_options_socket n : forall args c c', (length args <= n)%nat -> Forall no_nul args ->
  no_nul (spwcuse.socket_path c) -> spwcuse.parse_options args c = inr c' ->
  no_nul (spwcuse.socket_path c').
Proof.
  induction n as [|n IH]; intros [|arg [|v args]] c c' Hn Ha Hc; cbn in Hn; try lia;
    cbn [spwcuse.parse_options]; try (by intros [= <-]); try (by case_if).
  apply Forall_cons in Ha as [Ha1 [Hv Ha]%Forall_cons].
  case_if; [apply IH; [lia|done..]|]. case_if.
  { destruct (spwcuse.parse_u32 v); [apply IH; [lia|done..]|done]. }
  case_if; [apply IH; [lia|done..]|]. by case_if.
Qed.

Lemma command_line_socket args c : Forall no_nul args -> spwcuse.command_line args = inr c ->
  no_nul (spwcuse.socket_path c).
Proof.
  intros Ha. assert (no_nul (spwcuse.socket_path spwcuse.initial_options)) as Hi
    by (cbv; repeat (constructor; [done|]); constructor).
  unfold spwcuse.command_line. destruct args as [|a [|b args]];
    [|case_if; [done|]|]; by apply (spwcuse_options_socket _ _ _ _ (Nat.le_refl _)).
Qed.

Lemma started_port {B} (p : spw_port B) :
  let '(r, port) := spw_port_start (Some p) in
  r = SPW_OK -> forall p', port = Some p' -> locally_started p' = true.
Proof.
  unfold spw_port_start, on_backend. destruct (ops p) as [o|]; [|done].
  destruct (backend_context p) as [ctx|]; [|done]. destruct (op_start o ctx) as [r ctx'].
  intros ->. rewrite Z.eqb_refl. by intros p' [= <-].
Qed.

Section setup.
Context {B P : Type} (A : abi) (Bd : build) (factories : factory_id -> spw_backend_factory P B)
  (aligned_alloc : Z -> Z -> option Z) (memory : config_memory P).
Context (o : spw_backend_ops B) (Inv : B -> Prop) `{!BackendOutputs o Inv}.

Lemma select_device c id :
  select_factory A Bd (Some (spwcuse.port_config A memory c)) = (SPW_OK, Some id) -> id = DeviceFactory.
Proof.
  unfold select_factory. case_if; [done|]. cbn [cfg_backend spwcuse.port_config].
  repeat (case_if; try congruence); done.
Qed.

(** The string that the device backend finds in the endpoint. *)
Lemma endpoint_length_string (s rest : list Z) fuel : forall k,
  (forall i, (i < length s)%nat -> mem_get rest (k + i) <> 0) -> mem_get rest (k + length s) = 0 ->
  (length s < fuel)%nat -> endpoint_length_from rest k fuel = (k + length s)%nat.
Proof.
  revert fuel. induction s as [|c s IH]; intros fuel k Hs Hz Hf; destruct fuel as [|fuel]; cbn in Hf; try lia;
    cbn [endpoint_length_from length] in *.
  - rewrite Nat.add_0_r in Hz. rewrite Hz. cbn. lia.
  - pose proof (Hs 0%nat ltac:(lia)) as H0. rewrite Nat.add_0_r in H0.
    rewrite (proj2 (Z.eqb_neq _ 0) H0). rewrite IH; [lia|..|lia].
    + intros i Hi. replace (S k + i)%nat with (k + S i)%nat by lia. apply Hs. lia.
    + by replace (S k + length s)%nat with (k + S (length s))%nat by lia.
Qed.

Lemma device_endpoint c : no_nul (spwcuse.socket_path c) ->
  Z.of_nat (length (spwcuse.socket_path c)) < SPW_DEVICE_ENDPOINT_CAPACITY ->
  endpoint_path (spwcuse.device_config A c) = spwcuse.socket_path c.
Proof.
  intros Hn Hl. unfold endpoint_path. cbn [spwcuse.device_config dev_endpoint].
  set (s := spwcuse.socket_path c) in *. rewrite mem_write_start, <- app_assoc. cbn [app].
  set (tail := drop _ _).
  rewrite (endpoint_length_string s) with (k := 0%nat).
  - unfold mem_read. cbn [Nat.add]. by rewrite drop_0, <- app_assoc, take_app_length.
  - intros i Hi. cbn [Nat.add]. rewrite mem_get_app, decide_True by done.
    unfold mem_get. destruct (s !! i) as [v|] eqn:E; [|apply lookup_ge_None in E; lia].
    cbn. by eapply (Forall_lookup_1 (fun c => c <> 0)).
  - cbn [Nat.add]. rewrite mem_get_app, decide_False by lia. by rewrite Nat.sub_diag.
  - lia.
Qed.

(** When spwcuse goes on to present its device, the name is one entry of /dev
    that fits, and the broker's port is an open and started port of the device
    backend in a state its table keeps its promises on, attached to the port and
    the socket that the command line names. *)
Theorem spwcuse_setup_sound resources args info port :
  factory_ok o Inv (factories DeviceFactory) -> Forall no_nul args ->
  spwcuse.setup A Bd factories aligned_alloc memory resources args = inr (info, port) ->
  exists c, spwcuse.command_line args = inr c /\
    info = (text "DEVNAME=" ++ spwcuse.device_name c) /\ Z.of_nat (length info) < 192 /\
    spwcuse.device_name c <> [] /\ (47 ∉ spwcuse.device_name c) /\
    port_runs o Inv (Some port) /\ locally_started port = true /\
    dev_port_id (spwcuse.device_config A c) = spwcuse.port_id c /\
    endpoint_path (spwcuse.device_config A c) = spwcuse.socket_path c.
Proof.
  intros Hf Hargs. unfold spwcuse.setup.
  destruct (spwcuse.command_line args) as [|c] eqn:Ec; [done|].
  case_if; [done|]. apply orb_false_elim in E as [E1%bool_decide_eq_false E2%bool_decide_eq_false].
  case_if; [done|]. case_if; [done|].
  pose proof (open_runs A Bd factories aligned_alloc o Inv DeviceFactory Hf
    (spwcuse.port_config A memory c) (select_device c)) as Hopen.
  destruct (spw_port_open _ _ _ _ _) as [[r [p|]] ?]; [|done]. case_if; [done|].
  pose proof (start_runs factories o Inv DeviceFactory Hf (Some p) Hopen) as Hstart.
  pose proof (started_port p) as Hlocal.
  destruct (spw_port_start (Some p)) as [r' [p'|]]; [|done]. cbn [snd] in Hstart.
  case_if; [done|]. case_if; [done|]. case_if; [done|].
  intros [<- <-]%(inj inr)%pair_eq.
  exists c. split_and!; try done; [lia|apply Hlocal; [lia|done]|].
  apply device_endpoint; [|lia]. by eapply command_line_socket.
Qed.
End setup.

(** ** Witnesses *)

Definition sample_settings : bridge_settings :=
  {| bs_socket := text "/tmp/a"; bs_bridge := 1; bs_local_port := 9000; bs_remote_port := 9001;
     bs_local := text "10.0.0.1"; bs_remote := text "10.0.0.2"; bs_link := 7; bs_ack := 20;
     bs_keepalive := 100; bs_peer := 400 |}.

Lemma vspwd_command_roundtrip_witness :
  exists c, vspwd.command_line lp64 (bridge_command sample_settings) = inr c /\
    settings_of c = sample_settings.
Proof.
  destruct (vspwd_command_roundtrip lp64 sample_settings) as (c & H1 & _ & H2).
  - constructor; try (cbn; lia);
      (split; [repeat (apply Forall_cons; split; [discriminate|]); apply Forall_nil_2|reflexivity]).
  - by exists c.
Defined.

(** Keepalives slower than the peer timeout pass main and are refused by the port
    layer. *)
Definition slow_command : list (list Z) :=
  [text "--bridge-port"; text "0"; text "--udp-local-port"; text "9000";
   text "--udp-remote-port"; text "0x2329"; text "--udp-keepalive-ms"; text "5000"].

Definition slow_options : vspwd.options :=
  match vspwd.command_line lp64 slow_command with inr c => c | inl _ => vspwd.initial_options lp64 end.

Lemma vspwd_command_sound_witness :
  vspwd.command_line lp64 slow_command = inr slow_options /\
  remote_port (vspwd.udp slow_options) = 9001 /\
  validate_udp_config lp64
    (udp_port_config lp64 (vc_udp_bridge (vspwd.config_of sample_memory slow_options))) <> SPW_OK.
Proof.
  assert (vspwd.command_line lp64 slow_command = inr slow_options) as E by (vm_compute; reflexivity).
  split; [exact E|]. split; [vm_compute; reflexivity|]. intros H.
  destruct (vspwd_command_sound lp64 sample_memory slow_command slow_options E) as (_ & _ & _ & _ & Hv);
    [vm_compute; reflexivity|].
  apply Hv in H as [H _]. revert H. vm_compute. discriminate.
Defined.

Definition cuse_command : list (list Z) :=
  [text "--port"; text "1"; text "--device"; text "/dev/spw"; text "--socket"; text "/tmp/a"].

Definition cuse_setup : Z + list Z * spw_port fifo :=
  spwcuse.setup lp64 full_build (fun _ => fifo_factory) (fun _ _ => Some 4096) sample_memory
    (fun _ => true) cuse_command.

Definition cuse_port : spw_port fifo :=
  match cuse_setup with
  | inr (_, port) => port
  | inl _ => fifo_port
  end.

Lemma cuse_command_strings : Forall no_nul cuse_command.
Proof.
  repeat (apply Forall_cons; split; [repeat (apply Forall_cons; split; [discriminate|]); apply Forall_nil_2|]).
  apply Forall_nil_2.
Qed.

Lemma cuse_setup_eq : cuse_setup = inr (text "DEVNAME=spw", cuse_port).
Proof.
  assert (match cuse_setup with inr (info, _) => str_eq info (text "DEVNAME=spw") | inl _ => false end
    = true) as E by (vm_compute; reflexivity).
  unfold cuse_port. destruct cuse_setup as [|[info port]]; [discriminate E|].
  apply bool_decide_eq_true in E. rewrite E. reflexivity.
Qed.

Lemma spwcuse_setup_sound_witness :
  cuse_setup = inr (text "DEVNAME=spw", cuse_port) /\
  port_runs FIFO_OPS fifo_contents_ok (Some cuse_port).
Proof.
  split; [exact cuse_setup_eq|].
  destruct (spwcuse_setup_sound lp64 full_build (fun _ => fifo_factory) (fun _ _ => Some 4096)
    sample_memory FIFO_OPS fifo_contents_ok (fun _ => true) cuse_command _ _ fifo_factory_ok
    cuse_command_strings cuse_setup_eq) as (_ & _ & _ & _ & _ & _ & H & _). exact H.
Defined.
