(* ===== verification/Management.v ===== *)
(** * The management client

    src/src/tools/vspd_management_client.c: the client of vspwd that observes and
    manages ports without attaching to one.  [W] is the state of the world outside
    the process and [mgmt_os] the calls the client makes.  A client pointer is an
    option; each function returns its status, its out-parameters, the client and
    the world. *)

From S2P Require Import Prelude Types Posix Ring Vspd.

Record mgmt_os (W : Type) := {
  (** socket(AF_UNIX, SOCK_SEQPACKET | SOCK_CLOEXEC, 0) *)
  mo_socket : W -> Z * W;
  (** connect(fd, path) *)
  mo_connect : Z -> list Z -> W -> Z * W;
  (** poll of one descriptor: events, timeout in ms; the result and revents *)
  mo_poll : Z -> Z -> Z -> W -> Z * Z * W;
  (** send(fd, data, size, MSG_NOSIGNAL) *)
  mo_send : Z -> list Z -> W -> Z * W;
  (** recvmsg(fd, &message, MSG_TRUNC) into a buffer of the given size: the
      result, the bytes stored, and MSG_TRUNC in msg_flags *)
  mo_recvmsg : Z -> Z -> W -> Z * list Z * bool * W;
  mo_close : Z -> W -> W;
  mo_errno : W -> Z
}.
Arguments mo_socket {W} _ _.
Arguments mo_connect {W} _ _ _ _.
Arguments mo_poll {W} _ _ _ _ _.
Arguments mo_send {W} _ _ _ _.
Arguments mo_recvmsg {W} _ _ _ _.
Arguments mo_close {W} _ _ _.
Arguments mo_errno {W} _ _.

Definition VSPD_MANAGEMENT_TIMEOUT_MS : Z := 2000.
Definition VSPD_MANAGEMENT_FRAME_MAX : Z := VSPD_HEADER_SIZE + VSPD_PORT_SNAPSHOT_PAYLOAD_SIZE.
Definition VSPD_MANAGEMENT_EVENT_QUEUE_DEPTH : nat := 8.
Definition SUN_PATH_SIZE : Z := 108.

Record vspd_management_event := {
  ev_port_id : Z;
  ev_snapshot : vspd_port_snapshot_payload
}.

(** The ring holds events, event_head, event_tail and event_count. *)
Record vspd_management_client := {
  mc_fd : Z;
  mc_next_request_id : Z;
  mc_events : ring vspd_management_event
}.

Definition statistics_payload_zero : vspd_statistics_payload :=
  {| vs_tx_packets := 0; vs_rx_packets := 0; vs_tx_bytes := 0; vs_rx_bytes := 0;
     vs_tx_time_codes := 0; vs_rx_time_codes := 0; vs_eep_packets := 0; vs_link_errors := 0;
     vs_dropped_packets := 0 |}.

Definition snapshot_zero : vspd_port_snapshot_payload :=
  {| vn_info := {| vp_flags := 0; vp_link_state := 0; vp_packet_queue_count := 0;
                   vp_time_code_queue_count := 0 |};
     vn_statistics := statistics_payload_zero |}.

Definition event_zero : vspd_management_event := {| ev_port_id := 0; ev_snapshot := snapshot_zero |}.

#[export] Instance event_inhabited : Inhabited vspd_management_event := populate event_zero.

(** A client without a connection: memset to zero, then fd and the first id. *)
Definition client_closed : vspd_management_client :=
  {| mc_fd := -1; mc_next_request_id := 1;
     mc_events := ring_empty VSPD_MANAGEMENT_EVENT_QUEUE_DEPTH event_zero |}.

Definition set_mc_fd v (c : vspd_management_client) : vspd_management_client :=
  {| mc_fd := v; mc_next_request_id := mc_next_request_id c; mc_events := mc_events c |}.
Definition set_mc_next_request_id v (c : vspd_management_client) : vspd_management_client :=
  {| mc_fd := mc_fd c; mc_next_request_id := v; mc_events := mc_events c |}.
Definition set_mc_events v (c : vspd_management_client) : vspd_management_client :=
  {| mc_fd := mc_fd c; mc_next_request_id := mc_next_request_id c; mc_events := v |}.

Section client.
Context {W : Type} (os : mgmt_os W) (io_fuel : nat).
Implicit Types (c : vspd_management_client) (client : option vspd_management_client) (w : W).

(** ** Records *)

(** The loop around poll; without fuel the next poll fails. *)
Fixpoint poll_loop (fuel : nat) (fd events timeout_ms : Z) w : Z * Z * W :=
  match fuel with
  | O => (-1, 0, w)
  | S fuel =>
      let '(result, revents, w) := mo_poll os fd events timeout_ms w in
      if (result <? 0) && (mo_errno os w =? EINTR) then poll_loop fuel fd events timeout_ms w
      else (result, revents, w)
  end.

Definition wait_fd (fd events timeout_ms : Z) w : Z * W :=
  let '(result, revents, w) := poll_loop io_fuel fd events timeout_ms w in
  if result <=? 0 then (result, w) else
  if negb (revents .& (POLLERR .| POLLHUP .| POLLNVAL) =? 0) then (-1, w) else
  (if negb (revents .& events =? 0) then 1 else -1, w).

Fixpoint send_loop (fuel : nat) (fd : Z) (data : list Z) w : Z * W :=
  match fuel with
  | O => (-1, w)
  | S fuel =>
      let '(sent, w) := mo_send os fd data w in
      if (sent <? 0) && (mo_errno os w =? EINTR) then send_loop fuel fd data w else (sent, w)
  end.

Definition send_record (fd : Z) (data : list Z) w : bool * W :=
  let '(ready, w) := wait_fd fd POLLOUT VSPD_MANAGEMENT_TIMEOUT_MS w in
  if negb (ready =? 1) then (false, w) else
  let '(sent, w) := send_loop io_fuel fd data w in
  (sent =? Z.of_nat (length data), w).

Fixpoint recvmsg_loop (fuel : nat) (fd capacity : Z) w : Z * list Z * bool * W :=
  match fuel with
  | O => (-1, [], false, w)
  | S fuel =>
      let '(received, bytes, truncated, w) := mo_recvmsg os fd capacity w in
      if (received <? 0) && (mo_errno os w =? EINTR) then recvmsg_loop fuel fd capacity w
      else (received, bytes, truncated, w)
  end.

(** The result, the bytes of the frame, and whether the wait timed out. *)
Definition receive_record (fd capacity timeout_ms : Z) w : Z * list Z * bool * W :=
  let '(ready, w) := wait_fd fd POLLIN timeout_ms w in
  if ready =? 0 then (-1, [], true, w) else
  if negb (ready =? 1) then (-1, [], false, w) else
  let '(received, bytes, truncated, w) := recvmsg_loop io_fuel fd capacity w in
  if (received <? 0) || truncated || (capacity <? received) then (-1, [], false, w) else
  (received, take (Z.to_nat received) bytes, false, w).

(** ** Events *)

Definition next_request_id c : Z * vspd_management_client :=
  let request_id := mc_next_request_id c in
  let next := u32 (request_id + 1) in
  let '(request_id, next) := if request_id =? 0 then (next, u32 (next + 1)) else (request_id, next) in
  (request_id, set_mc_next_request_id (if next =? 0 then 1 else next) c).

(** The loop over the queued events, the [n] from index [i] on: the queue with the
    snapshot of the port replaced. *)
Fixpoint replace_event (n i : nat) (r : ring vspd_management_event) (event : vspd_management_event)
    : option (ring vspd_management_event) :=
  match n with
  | O => None
  | S n =>
      let index := ((r_head r + i) mod VSPD_MANAGEMENT_EVENT_QUEUE_DEPTH)%nat in
      if ev_port_id (ring_at r index) =? ev_port_id event
      then Some (Ring (<[index := event]> (r_slots r)) (r_head r) (r_tail r) (r_count r))
      else replace_event n (S i) r event
  end.

Definition queue_event c (port_id : Z) (snapshot : vspd_port_snapshot_payload)
    : bool * vspd_management_client :=
  let event := {| ev_port_id := port_id; ev_snapshot := snapshot |} in
  match replace_event (r_count (mc_events c)) 0 (mc_events c) event with
  | Some r => (true, set_mc_events r c)
  | None =>
      if (VSPD_MANAGEMENT_EVENT_QUEUE_DEPTH <=? r_count (mc_events c))%nat then (false, c) else
      (true, set_mc_events (ring_push (mc_events c) event) c)
  end.

Definition decode_snapshot_event c (header : vspd_header) (payload : option (list Z))
    : bool * vspd_management_client :=
  if negb (v_type header =? VSPD_MSG_PORT_SNAPSHOT_EVENT) ||
     negb (v_payload_size header =? VSPD_PORT_SNAPSHOT_PAYLOAD_SIZE) then (false, c) else
  match payload with
  | None => (false, c)
  | Some payload => queue_event c (v_port_id header) (vspd_decode_port_snapshot payload)
  end.

Definition pop_event c : option (Z * vspd_port_snapshot_payload) * vspd_management_client :=
  if Nat.eqb (r_count (mc_events c)) 0 then (None, c) else
  let event := ring_front (mc_events c) in
  (Some (ev_port_id event, ev_snapshot event), set_mc_events (ring_pop (mc_events c)) c).

(** ** Requests *)

(** vspd_validate_frame on what was received: the header and the payload. *)
Definition received_frame (frame : list Z) : option (vspd_header * option (list Z)) :=
  match vspd_validate_frame (Some frame) (Z.of_nat (length frame)) (Some header_zero) with
  | (result, Some header) =>
      if negb (result =? VSPD_CODEC_OK) then None else
      Some (header, if v_payload_size header =? 0 then None
                    else Some (drop (Z.to_nat VSPD_HEADER_SIZE) frame))
  | (_, None) => None
  end.

(** What a response does: the status, the response buffer and its size. *)
Definition take_response (header : vspd_header) (payload response_payload : option (list Z))
    (response_capacity : Z) : Z * option (list Z) :=
  if negb (v_status header =? VSPD_STATUS_OK) then (v_status header, response_payload) else
  if response_capacity <? v_payload_size header
  then (VSPD_STATUS_BUFFER_TOO_SMALL, response_payload) else
  if v_payload_size header =? 0 then (VSPD_STATUS_OK, response_payload) else
  match response_payload with
  | Some buffer =>
      (VSPD_STATUS_OK,
       Some (mem_write buffer 0 (take (Z.to_nat (v_payload_size header)) (default [] payload))))
  | None => (VSPD_STATUS_INVALID_ARGUMENT, None)
  end.

(** The loop that waits for the response; without fuel the next receive fails. *)
Fixpoint wait_response (fuel : nat) c (type request_id : Z) (response_payload : option (list Z))
    (response_capacity response_size : Z) w
    : Z * option (list Z) * Z * vspd_management_client * W :=
  match fuel with
  | O => (VSPD_STATUS_BACKEND, response_payload, response_size, c, w)
  | S fuel =>
      let '(received, frame, timed_out, w) :=
        receive_record (mc_fd c) VSPD_MANAGEMENT_FRAME_MAX VSPD_MANAGEMENT_TIMEOUT_MS w in
      if received <=? 0 then
        (if timed_out then VSPD_STATUS_TIMEOUT else VSPD_STATUS_BACKEND,
         response_payload, response_size, c, w) else
      match received_frame frame with
      | None => (VSPD_STATUS_BACKEND, response_payload, response_size, c, w)
      | Some (header, payload) =>
          if negb (vspd_flag header VSPD_FLAG_RESPONSE) then
            let '(ok, c) := decode_snapshot_event c header payload in
            if negb ok then (VSPD_STATUS_BACKEND, response_payload, response_size, c, w) else
            wait_response fuel c type request_id response_payload response_capacity response_size w
          else
          if negb (v_type header =? type) || negb (v_request_id header =? request_id)
          then (VSPD_STATUS_BACKEND, response_payload, response_size, c, w) else
          let '(status, response_payload) :=
            take_response header payload response_payload response_capacity in
          (status, response_payload, v_payload_size header, c, w)
      end
  end.

Definition request_header (type payload_size request_id port_id : Z) : vspd_header :=
  {| v_magic := VSPD_MAGIC; v_version_major := VSPD_VERSION_MAJOR;
     v_version_minor := VSPD_VERSION_MINOR; v_type := type; v_flags := 0;
     v_header_size := VSPD_HEADER_SIZE; v_reserved := 0; v_payload_size := payload_size;
     v_request_id := request_id; v_port_id := port_id; v_message_id := 0;
     v_fragment_offset := 0; v_total_size := 0; v_status := 0 |}.

(** The status, the response buffer, [*out_response_size], the client and the
    world; every caller passes the address of a size that is zero. *)
Definition request client (type port_id : Z) (payload : option (list Z)) (payload_size : Z)
    (response_payload : option (list Z)) (response_capacity : Z) w
    : Z * option (list Z) * Z * option vspd_management_client * W :=
  match client with
  | None => (VSPD_STATUS_INVALID_ARGUMENT, response_payload, 0, None, w)
  | Some c =>
      if (mc_fd c <? 0) || (VSPD_HELLO_PAYLOAD_SIZE <? payload_size)
      then (VSPD_STATUS_INVALID_ARGUMENT, response_payload, 0, Some c, w) else
      let '(request_id, c) := next_request_id c in
      let '(coded, frame) :=
        vspd_encode_header (request_header type payload_size request_id port_id) [] in
      if negb (coded =? VSPD_CODEC_OK)
      then (VSPD_STATUS_BACKEND, response_payload, 0, Some c, w) else
      if negb (payload_size =? 0) && negb (bool_decide (is_Some payload))
      then (VSPD_STATUS_INVALID_ARGUMENT, response_payload, 0, Some c, w) else
      let frame :=
        mem_write frame (Z.to_nat VSPD_HEADER_SIZE) (take (Z.to_nat payload_size) (default [] payload)) in
      let '(sent, w) := send_record (mc_fd c) frame w in
      if negb sent then (VSPD_STATUS_BACKEND, response_payload, 0, Some c, w) else
      let '(status, response_payload, response_size, c, w) :=
        wait_response io_fuel c type request_id response_payload response_capacity 0 w in
      (status, response_payload, response_size, Some c, w)
  end.

(** ** The connection *)

Definition vspd_management_close client w : option vspd_management_client * W :=
  match client with
  | None => (None, w)
  | Some c => (Some client_closed, if 0 <=? mc_fd c then mo_close os (mc_fd c) w else w)
  end.

Definition hello_payload : list Z := [VSPD_VERSION_MAJOR; VSPD_VERSION_MINOR; 0; 0].

Definition vspd_management_open client (socket_path : option (list Z)) w
    : Z * option vspd_management_client * W :=
  match client, socket_path with
  | Some _, Some path =>
      if bool_decide (path = []) then (VSPD_STATUS_INVALID_ARGUMENT, client, w) else
      if SUN_PATH_SIZE <=? Z.of_nat (length path)
      then (VSPD_STATUS_INVALID_ARGUMENT, Some client_closed, w) else
      let '(fd, w) := mo_socket os w in
      let client := Some (set_mc_fd fd client_closed) in
      if fd <? 0 then (VSPD_STATUS_BACKEND, client, w) else
      let '(connected, w) := mo_connect os fd path w in
      if negb (connected =? 0) then
        let '(client, w) := vspd_management_close client w in (VSPD_STATUS_BACKEND, client, w) else
      let '(status, response, response_size, client, w) :=
        request client VSPD_MSG_HELLO 0 (Some hello_payload) VSPD_HELLO_PAYLOAD_SIZE
          (Some []) VSPD_HELLO_PAYLOAD_SIZE w in
      if negb (status =? VSPD_STATUS_OK) || negb (response_size =? VSPD_HELLO_PAYLOAD_SIZE) ||
         negb (bool_decide (take 4 (default [] response) = hello_payload)) then
        let '(client, w) := vspd_management_close client w in
        (if status =? VSPD_STATUS_OK then VSPD_STATUS_BACKEND else status, client, w) else
      (VSPD_STATUS_OK, client, w)
  | _, _ => (VSPD_STATUS_INVALID_ARGUMENT, client, w)
  end.

(** ** The operations *)

(** A request whose response has a payload of exactly [size] bytes, decoded into
    [*out]. *)
Definition query {A} (type port_id size : Z) (decode : list Z -> A) client (out : option A) w
    : Z * option A * option vspd_management_client * W :=
  match out with
  | None => (VSPD_STATUS_INVALID_ARGUMENT, None, client, w)
  | Some _ =>
      let '(status, payload, response_size, client, w) :=
        request client type port_id None 0 (Some []) size w in
      if negb (status =? VSPD_STATUS_OK) then (status, out, client, w) else
      if negb (response_size =? size) then (VSPD_STATUS_BACKEND, out, client, w) else
      (VSPD_STATUS_OK, Some (decode (default [] payload)), client, w)
  end.

Definition vspd_management_get_server_info client (out_info : option vspd_server_info_payload) w
    : Z * option vspd_server_info_payload * option vspd_management_client * W :=
  query VSPD_MSG_GET_SERVER_INFO 0 VSPD_SERVER_INFO_PAYLOAD_SIZE vspd_decode_server_info
    client out_info w.

Definition vspd_management_get_port_info client (port_id : Z) (out_info : option vspd_port_info_payload)
    w : Z * option vspd_port_info_payload * option vspd_management_client * W :=
  query VSPD_MSG_GET_PORT_INFO port_id VSPD_PORT_INFO_PAYLOAD_SIZE vspd_decode_port_info
    client out_info w.

Definition vspd_management_get_port_statistics client (port_id : Z)
    (out_statistics : option vspd_statistics_payload) w
    : Z * option vspd_statistics_payload * option vspd_management_client * W :=
  query VSPD_MSG_GET_PORT_STATISTICS port_id VSPD_STATISTICS_PAYLOAD_SIZE
    (fun payload => vspd_decode_statistics payload 0) client out_statistics w.

(** A request whose response has no payload. *)
Definition subscription_request client (type port_id : Z) w
    : Z * option vspd_management_client * W :=
  let '(status, _, size, client, w) := request client type port_id None 0 None 0 w in
  (if (status =? VSPD_STATUS_OK) && negb (size =? 0) then VSPD_STATUS_BACKEND else status, client, w).

Definition vspd_management_clear_port_statistics client (port_id : Z) w
    : Z * option vspd_management_client * W :=
  subscription_request client VSPD_MSG_CLEAR_PORT_STATISTICS port_id w.

Definition vspd_management_subscribe_port client (port_id : Z) w
    : Z * option vspd_management_client * W :=
  subscription_request client VSPD_MSG_SUBSCRIBE_PORT port_id w.

Definition vspd_management_unsubscribe_port client (port_id : Z) w
    : Z * option vspd_management_client * W :=
  subscription_request client VSPD_MSG_UNSUBSCRIBE_PORT port_id w.

(** [out] is what out_port_id and out_snapshot point to; [None] when one is NULL. *)
Definition vspd_management_receive_snapshot client (timeout_ms : Z)
    (out : option (Z * vspd_port_snapshot_payload)) w
    : Z * option (Z * vspd_port_snapshot_payload) * option vspd_management_client * W :=
  match client, out with
  | Some c, Some _ =>
      if (mc_fd c <? 0) || (timeout_ms <? -1)
      then (VSPD_STATUS_INVALID_ARGUMENT, out, client, w) else
      match pop_event c with
      | (Some event, c) => (VSPD_STATUS_OK, Some event, Some c, w)
      | (None, c) =>
          let '(received, frame, timed_out, w) :=
            receive_record (mc_fd c) VSPD_MANAGEMENT_FRAME_MAX timeout_ms w in
          if received <=? 0 then
            (if timed_out then VSPD_STATUS_TIMEOUT else VSPD_STATUS_BACKEND, out, Some c, w) else
          match received_frame frame with
          | None => (VSPD_STATUS_BACKEND, out, Some c, w)
          | Some (header, payload) =>
              if vspd_flag header VSPD_FLAG_RESPONSE
              then (VSPD_STATUS_BACKEND, out, Some c, w) else
              let '(ok, c) := decode_snapshot_event c header payload in
              if negb ok then (VSPD_STATUS_BACKEND, out, Some c, w) else
              match pop_event c with
              | (Some event, c) => (VSPD_STATUS_OK, Some event, Some c, w)
              | (None, c) => (VSPD_STATUS_BACKEND, out, Some c, w)
              end
          end
      end
  | _, _ => (VSPD_STATUS_INVALID_ARGUMENT, out, client, w)
  end.
End client.
