(* ===== verification/ManagementProps.v ===== *)
(** * The management client: correctness

    The queue of snapshots holds the latest one of each port; the client stays well
    formed whatever the socket does; every record it sends is a valid request of
    the management part of the protocol; and its descriptor is used only while it
    is open and closed once. *)

From S2P Require Import Prelude Types Posix Ring Vspd Backend Device DeviceProps Management.

(** ** The queue of snapshots *)

Lemma ring_slot_inj (h d j k : nat) : (h < d)%nat -> (j < d)%nat -> (k < d)%nat ->
  ((h + j) mod d = (h + k) mod d)%nat -> j = k.
Proof.
  intros Hh Hj Hk. rewrite !mod_wrap_once by lia. repeat case_decide; lia.
Qed.

Lemma ring_list_lookup {A} `{!Inhabited A} (r : ring A) k : (k < r_count r)%nat ->
  ring_list r !! k = Some (ring_at r ((r_head r + k) mod ring_depth r)%nat).
Proof.
  intros Hk. unfold ring_list. rewrite list_lookup_fmap, lookup_seq_lt by done. done.
Qed.

(** An assignment to the slot of the k-th element. *)
Lemma ring_list_assign {A} `{!Inhabited A} depth (r : ring A) k a : ring_wf depth r ->
  (k < r_count r)%nat ->
  let r' := Ring (<[((r_head r + k) mod depth)%nat := a]> (r_slots r)) (r_head r) (r_tail r)
              (r_count r) in
  ring_wf depth r' /\ ring_list r' = <[k := a]> (ring_list r).
Proof.
  intros [Hl Hp Hh Hc Ht] Hk r'.
  assert (ring_depth r' = depth) as Hl' by (unfold r', ring_depth; cbn; by rewrite length_insert).
  split; [by constructor|]. apply list_eq. intros j.
  destruct (decide (j < r_count r)%nat) as [Hj|Hj].
  2: { rewrite !lookup_ge_None_2; [done|..]; rewrite ?length_insert, length_ring_list; cbn; lia. }
  rewrite ring_list_lookup by done. rewrite Hl'. unfold ring_at. cbn [r' r_head r_slots].
  destruct (decide (j = k)) as [->|Hne].
  - rewrite list_lookup_insert_eq by (by rewrite length_ring_list).
    rewrite list_lookup_total_insert_eq; [done|].
    unfold ring_depth in Hl. rewrite Hl. apply Nat.mod_upper_bound. lia.
  - rewrite list_lookup_insert_ne by done. rewrite ring_list_lookup by done. rewrite Hl.
    rewrite list_lookup_total_insert_ne; [done|]. intros E. apply Hne.
    symmetry. eapply (ring_slot_inj (r_head r) depth); [lia..|done].
Qed.

Lemma replace_event_spec e r : ring_wf VSPD_MANAGEMENT_EVENT_QUEUE_DEPTH r ->
  forall n i, (n + i = r_count r)%nat ->
  match replace_event n i r e with
  | Some r' => exists k e0, (i <= k)%nat /\ ring_list r !! k = Some e0 /\ ev_port_id e0 = ev_port_id e /\
      ring_wf VSPD_MANAGEMENT_EVENT_QUEUE_DEPTH r' /\ ring_list r' = <[k := e]> (ring_list r)
  | None => forall k e0, (i <= k)%nat -> ring_list r !! k = Some e0 -> ev_port_id e0 <> ev_port_id e
  end.
Proof.
  intros Hw. induction n as [|n IH]; intros i Hi; cbn [replace_event].
  - intros k e0 Hk H. apply lookup_lt_Some in H. rewrite length_ring_list in H. lia.
  - pose proof (ring_list_lookup r i ltac:(lia)) as Hat. rewrite (ring_len _ _ Hw) in Hat.
    case_if.
    + destruct (ring_list_assign _ r i e Hw ltac:(lia)) as [H1 H2].
      exists i. eexists. split; [done|]. split; [exact Hat|].
      split; [by apply Z.eqb_eq|]. by split.
    + specialize (IH (S i) ltac:(lia)). destruct (replace_event n (S i) r e) as [r'|].
      * destruct IH as (k & e0 & Hk & IH). exists k, e0. split; [lia|done].
      * intros k e0 Hk Hlk. destruct (decide (k = i)) as [->|]; [|apply (IH k); [lia|done]].
        rewrite Hat in Hlk. injection Hlk as <-. by apply Z.eqb_neq.
Qed.

(** The abstract queue: the place of a port is kept when its snapshot changes. *)
Fixpoint latest (e : vspd_management_event) (l : list vspd_management_event)
    : list vspd_management_event :=
  match l with
  | [] => [e]
  | e0 :: l => if ev_port_id e0 =? ev_port_id e then e :: l else e0 :: latest e l
  end.

Definition ports_of (l : list vspd_management_event) : list Z := ev_port_id <$> l.

Lemma latest_in e l k e0 : NoDup (ports_of l) -> l !! k = Some e0 -> ev_port_id e0 = ev_port_id e ->
  latest e l = <[k := e]> l.
Proof.
  revert k. induction l as [|x l IH]; intros k Hn Hk He; [done|]. cbn. apply NoDup_cons in Hn as [Hx Hn].
  destruct k as [|k]; cbn in *.
  - injection Hk as ->. by rewrite He, Z.eqb_refl.
  - rewrite (proj2 (Z.eqb_neq _ _)); [f_equal; by apply IH|]. intros E. apply Hx.
    rewrite E, <- He. apply list_elem_of_fmap. exists e0. split; [done|]. by eapply list_elem_of_lookup_2.
Qed.

Lemma latest_out e l : (forall e0, e0 ∈ l -> ev_port_id e0 <> ev_port_id e) -> latest e l = l ++ [e].
Proof.
  induction l as [|x l IH]; intros H; [done|]. cbn.
  rewrite (proj2 (Z.eqb_neq _ _)) by (apply H; left). f_equal. apply IH. intros e0 He. apply H. by right.
Qed.

Lemma latest_ports e l : ports_of (latest e l) =
  if decide (ev_port_id e ∈ ports_of l) then ports_of l else ports_of l ++ [ev_port_id e].
Proof.
  induction l as [|x l IH]; [done|]. cbn [latest]. unfold ports_of in *.
  destruct (ev_port_id x =? ev_port_id e) eqn:E; rewrite !fmap_cons.
  - apply Z.eqb_eq in E. rewrite E, decide_True by left. done.
  - rewrite IH. apply Z.eqb_neq in E. repeat case_decide; try done; exfalso.
    + apply H0. by right.
    + apply elem_of_cons in H0 as [H0|H0]; [by symmetry in H0|done].
Qed.

Record client_ok (c : vspd_management_client) : Prop := {
  co_ring : ring_wf VSPD_MANAGEMENT_EVENT_QUEUE_DEPTH (mc_events c);
  co_ports : NoDup (ports_of (ring_list (mc_events c)));
  co_id : 0 < mc_next_request_id c < 2 ^ 32
}.

(** Queueing refines [latest]; it fails exactly when eight other ports wait. *)
Lemma queue_event_spec c port_id snapshot : client_ok c ->
  let e := {| ev_port_id := port_id; ev_snapshot := snapshot |} in
  let l := ring_list (mc_events c) in
  let '(ok, c') := queue_event c port_id snapshot in
  ok = bool_decide (port_id ∈ ports_of l \/ (length l < 8)%nat) /\
  ring_list (mc_events c') = (if ok then latest e l else l) /\ client_ok c' /\
  mc_fd c' = mc_fd c /\ mc_next_request_id c' = mc_next_request_id c.
Proof.
  intros Hc e l. pose proof Hc as [Hw Hn Hid]. unfold queue_event.
  pose proof (replace_event_spec e (mc_events c) Hw (r_count (mc_events c)) 0 ltac:(lia)) as H.
  fold e. destruct (replace_event _ _ _ _) as [r'|].
  - destruct H as (k & e0 & _ & Hk & He & Hw' & Hl). fold l in Hk, Hl.
    assert (port_id ∈ ports_of l) as Hin.
    { apply list_elem_of_fmap. exists e0. split; [done|]. by eapply list_elem_of_lookup_2. }
    rewrite bool_decide_true by auto. cbn [mc_events set_mc_events].
    rewrite (latest_in e l k e0) by done. split; [done|]. split; [done|]. split; [|done].
    constructor; [done| |done]. cbn. rewrite Hl, <- (latest_in e l k e0) by done.
    rewrite latest_ports, decide_True by done. done.
  - assert (port_id ∉ ports_of l) as Hout.
    { intros (e0 & E & [k Hk]%list_elem_of_lookup)%list_elem_of_fmap. by apply (H k e0 ltac:(lia) Hk). }
    pose proof (length_ring_list (mc_events c)) as Hlen. fold l in Hlen.
    unfold VSPD_MANAGEMENT_EVENT_QUEUE_DEPTH. case_if.
    + apply Nat.leb_le in E. rewrite bool_decide_false; [done|]. intros [?|?]; [done|]. lia.
    + apply Nat.leb_gt in E. rewrite bool_decide_true by (right; lia). cbn [mc_events set_mc_events].
      assert (r_count (mc_events c) < VSPD_MANAGEMENT_EVENT_QUEUE_DEPTH)%nat as Hlt
        by (unfold VSPD_MANAGEMENT_EVENT_QUEUE_DEPTH; lia).
      rewrite (ring_list_push _ _ _ Hw Hlt). fold l. rewrite latest_out.
      2: { intros e0 He Ee. apply Hout. change (ev_port_id e ∈ ports_of l). rewrite <- Ee. apply list_elem_of_fmap. by exists e0. }
      split; [done|]. split; [done|]. split; [|done].
      constructor; [by apply ring_push_wf| |done]. cbn [mc_events set_mc_events]. rewrite (ring_list_push _ _ _ Hw Hlt).
      fold l. unfold ports_of. rewrite fmap_app. apply NoDup_app. split; [done|].
      split; [|apply NoDup_singleton]. intros p Hp Hp'. apply list_elem_of_singleton in Hp' as ->. done.
Qed.

(** ** What the client does to its socket *)

Inductive sys_event :=
| Opened (fd : Z)
| Connected (fd : Z)
| Polled (fd : Z)
| Sent (fd : Z) (data : list Z)
| Received (fd : Z)
| Closed (fd : Z).

(** The calls of [os], recorded in order. *)
Definition log_mgmt {W} (os : mgmt_os W) : mgmt_os (W * list sys_event) :=
  {| mo_socket := fun x => let '(fd, w) := mo_socket os x.1 in (fd, (w, x.2 ++ [Opened fd]));
     mo_connect := fun fd path x =>
       let '(r, w) := mo_connect os fd path x.1 in (r, (w, x.2 ++ [Connected fd]));
     mo_poll := fun fd events t x =>
       let '(r, revents, w) := mo_poll os fd events t x.1 in (r, revents, (w, x.2 ++ [Polled fd]));
     mo_send := fun fd data x =>
       let '(r, w) := mo_send os fd data x.1 in (r, (w, x.2 ++ [Sent fd data]));
     mo_recvmsg := fun fd capacity x =>
       let '(r, bytes, truncated, w) := mo_recvmsg os fd capacity x.1 in
       (r, bytes, truncated, (w, x.2 ++ [Received fd]));
     mo_close := fun fd x => (mo_close os fd x.1, x.2 ++ [Closed fd]);
     mo_errno := fun x => mo_errno os x.1 |}.

(** The descriptor that is open after these calls; [None] for the whole when a call
    used another descriptor than the one that was open, or opened a second one. *)
Definition log_step (st : option (option Z)) (e : sys_event) : option (option Z) :=
  match st, e with
  | Some None, Opened fd => Some (if fd <? 0 then None else Some fd)
  | Some (Some open), Connected fd | Some (Some open), Polled fd | Some (Some open), Sent fd _
  | Some (Some open), Received fd => if open =? fd then st else None
  | Some (Some open), Closed fd => if open =? fd then Some None else None
  | _, _ => None
  end.

Definition run_log (l : list sys_event) : option (option Z) := foldl log_step (Some None) l.

(** The requests of the management part of the protocol. *)
Definition management_type (type : Z) : bool :=
  (type =? VSPD_MSG_HELLO) ||
  ((VSPD_MSG_GET_SERVER_INFO <=? type) && (type <=? VSPD_MSG_UNSUBSCRIBE_PORT)).

Definition sent_request (e : sys_event) : Prop :=
  match e with
  | Sent _ data => exists h payload, data = vspd_header_bytes h ++ payload /\ valid_record h payload /\
      vspd_flag h VSPD_FLAG_RESPONSE = false /\ management_type (v_type h) = true
  | _ => True
  end.

Definition open_fd (c : vspd_management_client) : option Z :=
  if mc_fd c <? 0 then None else Some (mc_fd c).

(** The client and the record of its calls. *)
Record good (c : vspd_management_client) (l : list sys_event) : Prop := {
  go_client : client_ok c;
  go_log : run_log l = Some (open_fd c);
  go_sent : Forall sent_request l
}.

Lemma run_log_snoc l e : run_log (l ++ [e]) = log_step (run_log l) e.
Proof. unfold run_log. by rewrite foldl_app. Qed.

Lemma good_use c l e : good c l -> 0 <= mc_fd c ->
  log_step (Some (Some (mc_fd c))) e = Some (Some (mc_fd c)) -> sent_request e -> good c (l ++ [e]).
Proof.
  intros [H1 H2 H3] Hfd He Hs. constructor; [done| |by apply Forall_app_2; [|apply Forall_singleton]].
  rewrite run_log_snoc, H2. unfold open_fd. by rewrite (proj2 (Z.ltb_ge _ _) Hfd).
Qed.

(** Another client with the same descriptor. *)
Lemma good_client c c' l : good c l -> client_ok c' -> mc_fd c' = mc_fd c -> good c' l.
Proof. intros [H1 H2 H3] Hc Hf. constructor; try done. unfold open_fd. by rewrite Hf. Qed.

Section keeps.
Context {W : Type} (os : mgmt_os W) (io_fuel : nat).
Abbreviation los := (log_mgmt os).
Implicit Types (c : vspd_management_client) (x : W * list sys_event).

Ltac used H := apply good_use; [exact H|done|cbn; by rewrite Z.eqb_refl|].

Lemma client_poll_loop_good c events t fuel : forall x, good c x.2 -> 0 <= mc_fd c ->
  good c (poll_loop los fuel (mc_fd c) events t x).2.2.
Proof.
  induction fuel as [|fuel IH]; intros x Hg Hf; [done|]. cbn.
  destruct (mo_poll os _ _ _ _) as [[r revents] w].
  assert (good c (x.2 ++ [Polled (mc_fd c)])) as H by (by used Hg).
  case_if; [by apply IH|done].
Qed.

Lemma wait_fd_good c events t x : good c x.2 -> 0 <= mc_fd c ->
  good c (wait_fd los io_fuel (mc_fd c) events t x).2.2.
Proof.
  intros Hg Hf. unfold wait_fd. pose proof (client_poll_loop_good c events t io_fuel x Hg Hf) as H.
  destruct (poll_loop _ _ _ _ _ _) as [[r revents] x']. by repeat case_if.
Qed.

Lemma send_loop_good c data fuel : sent_request (Sent (mc_fd c) data) ->
  forall x, good c x.2 -> 0 <= mc_fd c -> good c (send_loop los fuel (mc_fd c) data x).2.2.
Proof.
  intros Hs. induction fuel as [|fuel IH]; intros x Hg Hf; [done|]. cbn -[sent_request].
  destruct (mo_send os _ _ _) as [r w].
  assert (good c (x.2 ++ [Sent (mc_fd c) data])) as H by (by used Hg).
  case_if; [by apply IH|done].
Qed.

Lemma send_record_good c data x : sent_request (Sent (mc_fd c) data) -> good c x.2 -> 0 <= mc_fd c ->
  good c (send_record los io_fuel (mc_fd c) data x).2.2.
Proof.
  intros Hs Hg Hf. unfold send_record.
  pose proof (wait_fd_good c POLLOUT VSPD_MANAGEMENT_TIMEOUT_MS x Hg Hf) as H.
  destruct (wait_fd _ _ _ _ _ _) as [r x']. case_if; [done|].
  pose proof (send_loop_good c data io_fuel Hs x' H Hf) as H'.
  by destruct (send_loop _ _ _ _ _) as [r' x''].
Qed.

Lemma recvmsg_loop_good c capacity fuel : forall x, good c x.2 -> 0 <= mc_fd c ->
  good c (recvmsg_loop los fuel (mc_fd c) capacity x).2.2.
Proof.
  induction fuel as [|fuel IH]; intros x Hg Hf; [done|]. cbn.
  destruct (mo_recvmsg os _ _ _) as [[[r bytes] truncated] w].
  assert (good c (x.2 ++ [Received (mc_fd c)])) as H by (by used Hg).
  case_if; [by apply IH|done].
Qed.

Lemma receive_record_good c capacity t x : good c x.2 -> 0 <= mc_fd c ->
  good c (receive_record los io_fuel (mc_fd c) capacity t x).2.2.
Proof.
  intros Hg Hf. unfold receive_record. pose proof (wait_fd_good c POLLIN t x Hg Hf) as H.
  destruct (wait_fd _ _ _ _ _ _) as [r x']. case_if; [done|]. case_if; [done|].
  pose proof (recvmsg_loop_good c capacity io_fuel x' H Hf) as H'.
  destruct (recvmsg_loop _ _ _ _ _) as [[[r' bytes] truncated] x'']. by case_if.
Qed.

Lemma decode_snapshot_good c header payload : client_ok c ->
  let '(_, c') := decode_snapshot_event c header payload in
  client_ok c' /\ mc_fd c' = mc_fd c.
Proof.
  intros Hc. unfold decode_snapshot_event. case_if; [done|]. destruct payload as [payload|]; [|done].
  pose proof (queue_event_spec c (v_port_id header) (vspd_decode_port_snapshot payload) Hc) as H.
  cbn zeta in H. destruct (queue_event _ _ _) as [ok c']. by destruct H as (_ & _ & H1 & H2 & _).
Qed.

Lemma pop_event_good c : client_ok c ->
  let '(out, c') := pop_event c in
  client_ok c' /\ mc_fd c' = mc_fd c /\ mc_next_request_id c' = mc_next_request_id c /\
  match ring_list (mc_events c) with
  | [] => out = None /\ c' = c
  | e :: l => out = Some (ev_port_id e, ev_snapshot e) /\ ring_list (mc_events c') = l
  end.
Proof.
  intros Hc. pose proof Hc as [Hw Hn Hid]. unfold pop_event. case_if.
  - apply Nat.eqb_eq in E. by rewrite (proj2 (ring_list_nil _) E).
  - apply Nat.eqb_neq in E. rewrite (ring_list_front _ _ Hw) in Hn |- * by lia.
    apply NoDup_cons in Hn as [_ Hn]. split_and!; try done.
    constructor; [by apply ring_pop_wf; [|lia]|done..].
Qed.

(** ** Requests *)

Lemma wait_response_good type id cap fuel : forall c buf size x, good c x.2 -> 0 <= mc_fd c ->
  let '(_, _, _, c', x') := wait_response los io_fuel fuel c type id buf cap size x in
  good c' x'.2 /\ mc_fd c' = mc_fd c.
Proof.
  induction fuel as [|fuel IH]; intros c buf size x Hg Hf; [done|]. cbn [wait_response].
  pose proof (receive_record_good c VSPD_MANAGEMENT_FRAME_MAX VSPD_MANAGEMENT_TIMEOUT_MS x Hg Hf) as H.
  destruct (receive_record _ _ _ _ _ _) as [[[received frame] timed_out] x']. cbn [snd] in H.
  case_if; [done|]. destruct (received_frame frame) as [[header payload]|]; [|done]. case_if.
  - pose proof (decode_snapshot_good c header payload (go_client _ _ H)) as Hd.
    destruct (decode_snapshot_event _ _ _) as [ok c']. destruct Hd as [Hc' Hf'].
    pose proof (good_client c c' _ H Hc' Hf') as H'. case_if; [done|].
    specialize (IH c' buf size x' H' ltac:(lia)).
    destruct (wait_response _ _ _ _ _ _ _ _ _ _) as [[[[? ?] ?] c''] x'']. destruct IH. split; [done|lia].
  - case_if; [done|]. by destruct (take_response _ _ _ _).
Qed.

Lemma next_request_id_good c l : good c l -> let '(id, c') := next_request_id c in
  0 < id < 2 ^ 32 /\ good c' l /\ mc_fd c' = mc_fd c /\ mc_events c' = mc_events c.
Proof.
  intros Hg. pose proof (co_id _ (go_client _ _ Hg)) as Hid. unfold next_request_id.
  rewrite (proj2 (Z.eqb_neq (mc_next_request_id c) 0)) by lia. split; [lia|]. split; [|done].
  eapply good_client; [done| |done]. destruct (go_client _ _ Hg). constructor; try done. cbn.
  pose proof (Z.mod_pos_bound (mc_next_request_id c + 1) (2 ^ 32)). unfold wrap. case_if; lia.
Qed.

(** The requests the operations make. *)
Definition requested (type : Z) (payload : option (list Z)) (payload_size : Z) : Prop :=
  management_type type = true /\ request_valid type (take (Z.to_nat payload_size) (default [] payload)) /\
  length (take (Z.to_nat payload_size) (default [] payload)) = Z.to_nat payload_size /\ 0 <= payload_size.

Lemma plain_requested type : existsb (Z.eqb type) [VSPD_MSG_GET_SERVER_INFO; VSPD_MSG_GET_PORT_INFO;
    VSPD_MSG_GET_PORT_STATISTICS; VSPD_MSG_CLEAR_PORT_STATISTICS; VSPD_MSG_SUBSCRIBE_PORT;
    VSPD_MSG_UNSUBSCRIBE_PORT] = true -> requested type None 0.
Proof.
  intros (y & Hy & ->%Z.eqb_eq)%existsb_exists. cbn in Hy.
  repeat (destruct Hy as [<-|Hy]; [by repeat constructor|]). done.
Qed.

Lemma hello_requested : requested VSPD_MSG_HELLO (Some hello_payload) VSPD_HELLO_PAYLOAD_SIZE.
Proof. split; [done|]. split; [apply hello_valid|done]. Qed.

(** A request is sent on the open descriptor as a valid record. *)
Lemma request_record_valid type payload payload_size id port : requested type payload payload_size ->
  0 < id < 2 ^ 32 -> 0 <= port < 2 ^ 32 ->
  let h := request_header type payload_size id port in
  let bytes := take (Z.to_nat payload_size) (default [] payload) in
  valid_record h bytes /\ vspd_encode_header h [] = (VSPD_CODEC_OK, vspd_header_bytes h) /\
  mem_write (vspd_header_bytes h) (Z.to_nat VSPD_HEADER_SIZE) bytes = vspd_header_bytes h ++ bytes.
Proof.
  intros (Ht & Hv & Hl & H0) Hid Hport h bytes. fold bytes in Hv, Hl.
  pose proof (request_is_record type bytes id port Hv ltac:(lia) Hport) as Hr.
  rewrite Hl, Z2Nat.id in Hr by done. change (request_record h bytes) in Hr.
  assert (valid_record h bytes) as Hvr.
  { apply (rr_valid _ _ Hr); [cbn; lia|]. intros E. change (type = VSPD_MSG_DATA_TX) in E.
    by rewrite E in Ht. }
  split; [done|]. by apply encoded_record, Hvr.
Qed.

Lemma request_good c type port payload payload_size buf cap x : good c x.2 ->
  requested type payload payload_size -> 0 <= port < 2 ^ 32 ->
  exists c', let '(_, _, _, client, x') :=
    request los io_fuel (Some c) type port payload payload_size buf cap x in
  client = Some c' /\ good c' x'.2 /\ mc_fd c' = mc_fd c.
Proof.
  intros Hg Hreq Hport. unfold request. case_if; [by exists c|].
  apply orb_false_elim in E as [E1 E2].
  pose proof (next_request_id_good c x.2 Hg) as Hn. destruct (next_request_id c) as [id c1].
  destruct Hn as (Hid & Hg1 & Hf1 & _).
  destruct (request_record_valid type payload payload_size id port Hreq Hid Hport) as (Hv & -> & ->).
  rewrite Z.eqb_refl. cbn [negb]. case_if; [by exists c1|].
  set (h := request_header _ _ _ _) in *. set (bytes := take _ _) in *.
  assert (sent_request (Sent (mc_fd c1) (vspd_header_bytes h ++ bytes))) as Hs
    by (exists h, bytes; split_and!; try done; apply Hreq).
  pose proof (send_record_good c1 _ x Hs Hg1 ltac:(lia)) as H.
  destruct (send_record _ _ _ _ _) as [sent x1]. cbn [snd] in H. case_if; [by exists c1|].
  pose proof (wait_response_good type id cap io_fuel c1 buf 0 x1 H ltac:(lia)) as Hw.
  destruct (wait_response _ _ _ _ _ _ _ _ _ _) as [[[[? ?] ?] c2] x2]. destruct Hw as [Hg2 Hf2].
  exists c2. split; [done|]. split; [done|lia].
Qed.

(** ** The operations *)

(** A client pointer that is not NULL. *)
Definition good_client_at (client : option vspd_management_client) x (fd : Z) : Prop :=
  exists c, client = Some c /\ good c x.2 /\ mc_fd c = fd.

Lemma query_good {A} c type port size (decode : list Z -> A) out x : good c x.2 ->
  requested type None 0 -> 0 <= port < 2 ^ 32 ->
  let '(_, _, client, x') := query los io_fuel type port size decode (Some c) out x in
  good_client_at client x' (mc_fd c).
Proof.
  intros Hg Hreq Hport. unfold query. destruct out as [out|]; [|by exists c].
  destruct (request_good c type port None 0 (Some []) size x Hg Hreq Hport) as (c' & H).
  destruct (request _ _ _ _ _ _ _ _ _ _) as [[[[? ?] ?] client] x']. destruct H as (-> & Hg' & Hf).
  repeat case_if; by exists c'.
Qed.

Lemma subscription_good c type port x : good c x.2 -> requested type None 0 -> 0 <= port < 2 ^ 32 ->
  let '(_, client, x') := subscription_request los io_fuel (Some c) type port x in
  good_client_at client x' (mc_fd c).
Proof.
  intros Hg Hreq Hport. unfold subscription_request.
  destruct (request_good c type port None 0 None 0 x Hg Hreq Hport) as (c' & H).
  destruct (request _ _ _ _ _ _ _ _ _ _) as [[[[? ?] ?] client] x']. destruct H as (-> & Hg' & Hf).
  by exists c'.
Qed.

Lemma receive_snapshot_good c timeout out x : good c x.2 ->
  let '(_, _, client, x') := vspd_management_receive_snapshot los io_fuel (Some c) timeout out x in
  good_client_at client x' (mc_fd c).
Proof.
  intros Hg. unfold vspd_management_receive_snapshot. destruct out as [out|]; [|by exists c].
  case_if; [by exists c|]. apply orb_false_elim in E as [E _].
  pose proof (pop_event_good c (go_client _ _ Hg)) as Hp. destruct (pop_event c) as [[event|] c1];
    destruct Hp as (Hc1 & Hf1 & _); pose proof (good_client c c1 _ Hg Hc1 Hf1) as Hg1;
    [by exists c1|].
  pose proof (receive_record_good c1 VSPD_MANAGEMENT_FRAME_MAX timeout x Hg1 ltac:(lia)) as H.
  destruct (receive_record _ _ _ _ _ _) as [[[received frame] timed_out] x']. cbn [snd] in H.
  case_if; [by exists c1|]. destruct (received_frame frame) as [[header payload]|]; [|by exists c1].
  case_if; [by exists c1|]. pose proof (decode_snapshot_good c1 header payload (go_client _ _ H)) as Hd.
  destruct (decode_snapshot_event _ _ _) as [ok c2]. destruct Hd as [Hc2 Hf2].
  pose proof (good_client c1 c2 _ H Hc2 Hf2) as Hg2. case_if; [exists c2; split_and!; [done..|lia]|].
  pose proof (pop_event_good c2 Hc2) as Hp. destruct (pop_event c2) as [[event|] c3];
    destruct Hp as (Hc3 & Hf3 & _); pose proof (good_client c2 c3 _ Hg2 Hc3 Hf3) as Hg3;
    exists c3; (split_and!; [done..|lia]).
Qed.

Lemma client_closed_ok : client_ok client_closed.
Proof. constructor; [by apply ring_empty_wf; cbv; lia|constructor|done]. Qed.

Lemma close_good c x : good c x.2 ->
  let '(client, x') := vspd_management_close los (Some c) x in
  client = Some client_closed /\ good client_closed x'.2.
Proof.
  intros [H1 H2 H3]. unfold vspd_management_close. split; [done|].
  constructor; [apply client_closed_ok| |]; unfold open_fd in H2; case_if.
  - cbn. rewrite run_log_snoc, H2, (proj2 (Z.ltb_ge _ _)) by lia. cbn. by rewrite Z.eqb_refl.
  - by rewrite H2, (proj2 (Z.ltb_lt _ _)) by lia.
  - apply Forall_app_2; [done|]. by apply Forall_singleton.
  - done.
Qed.

Lemma open_good c path x : good c x.2 -> mc_fd c < 0 ->
  let '(status, client, x') := vspd_management_open los io_fuel (Some c) path x in
  exists c', client = Some c' /\ good c' x'.2 /\ (status <> VSPD_STATUS_OK -> mc_fd c' < 0).
Proof.
  intros Hg Hfd. unfold vspd_management_open. destruct path as [path|]; [|by exists c].
  case_if; [by exists c|].
  assert (good client_closed x.2) as Hg0.
  { destruct Hg as [H1 H2 H3]. constructor; [apply client_closed_ok| |done].
    rewrite H2. unfold open_fd. by rewrite (proj2 (Z.ltb_lt _ _) Hfd). }
  case_if; [by exists client_closed|]. cbn [mo_socket mo_connect log_mgmt].
  destruct (mo_socket os x.1) as [fd w]. cbn [fst snd].
  set (c1 := set_mc_fd fd client_closed).
  assert (good c1 (x.2 ++ [Opened fd])) as Hg1.
  { destruct Hg0 as [H1 H2 H3]. constructor; [by destruct H1| |by apply Forall_app_2; [|apply Forall_singleton]].
    by rewrite run_log_snoc, H2. }
  case_if; [exists c1; split_and!; [done..|cbn; lia]|].
  destruct (mo_connect os fd path w) as [connected w1]. fold c1.
  assert (good c1 ((x.2 ++ [Opened fd]) ++ [Connected fd])) as Hg2
    by (apply good_use; [done|cbn; lia|cbn; by rewrite Z.eqb_refl|done]).
  case_if.
  { pose proof (close_good c1 (w1, (x.2 ++ [Opened fd]) ++ [Connected fd]) Hg2) as H.
    destruct (vspd_management_close _ _ _) as [client x']. destruct H as [-> H].
    by exists client_closed. }
  destruct (request_good c1 VSPD_MSG_HELLO 0 (Some hello_payload) VSPD_HELLO_PAYLOAD_SIZE (Some [])
    VSPD_HELLO_PAYLOAD_SIZE (w1, (x.2 ++ [Opened fd]) ++ [Connected fd]) Hg2 hello_requested ltac:(lia))
    as (c2 & H).
  destruct (request _ _ _ _ _ _ _ _ _ _) as [[[[status ?] ?] client] x2]. destruct H as (-> & Hg3 & Hf3).
  case_if; [|by exists c2]. pose proof (close_good c2 x2 Hg3) as H.
  destruct (vspd_management_close _ _ _) as [client x']. destruct H as [-> H]. by exists client_closed.
Qed.
End keeps.

(** ** Every use of the client *)

Inductive mgmt_call :=
| CallOpen (path : list Z)
| CallClose
| CallServerInfo
| CallPortInfo (port_id : Z)
| CallPortStatistics (port_id : Z)
| CallClear (port_id : Z)
| CallSubscribe (port_id : Z)
| CallUnsubscribe (port_id : Z)
| CallReceive (timeout_ms : Z).

(** The port numbers are of type uint32_t, and a client is opened once. *)
Definition call_allowed (call : mgmt_call) (client : option vspd_management_client) : Prop :=
  match call with
  | CallOpen _ => exists c, client = Some c /\ mc_fd c < 0
  | CallPortInfo id | CallPortStatistics id | CallClear id | CallSubscribe id | CallUnsubscribe id =>
      0 <= id < 2 ^ 32
  | _ => True
  end.

Definition make_call {W} (os : mgmt_os W) io_fuel (call : mgmt_call)
    (s : option vspd_management_client * W) : option vspd_management_client * W :=
  let '(client, w) := s in
  match call with
  | CallOpen path =>
      let '(_, client, w) := vspd_management_open os io_fuel client (Some path) w in (client, w)
  | CallClose => vspd_management_close os client w
  | CallServerInfo => let '(_, _, client, w) := vspd_management_get_server_info os io_fuel client
      (Some {| vi_port_count := 0; vi_client_capacity := 0; vi_packet_queue_depth := 0;
               vi_time_code_queue_depth := 0; vi_max_logical_packet := 0 |}) w in (client, w)
  | CallPortInfo id => let '(_, _, client, w) :=
      vspd_management_get_port_info os io_fuel client id (Some (vn_info snapshot_zero)) w in (client, w)
  | CallPortStatistics id => let '(_, _, client, w) :=
      vspd_management_get_port_statistics os io_fuel client id (Some statistics_payload_zero) w in
      (client, w)
  | CallClear id =>
      let '(_, client, w) := vspd_management_clear_port_statistics os io_fuel client id w in (client, w)
  | CallSubscribe id =>
      let '(_, client, w) := vspd_management_subscribe_port os io_fuel client id w in (client, w)
  | CallUnsubscribe id =>
      let '(_, client, w) := vspd_management_unsubscribe_port os io_fuel client id w in (client, w)
  | CallReceive timeout => let '(_, _, client, w) :=
      vspd_management_receive_snapshot os io_fuel client timeout (Some (0, snapshot_zero)) w in (client, w)
  end.

Inductive client_reached {W} (os : mgmt_os W) io_fuel (w : W)
    : option vspd_management_client * (W * list sys_event) -> Prop :=
| client_start : client_reached os io_fuel w (Some client_closed, (w, []))
| client_step call s : client_reached os io_fuel w s -> call_allowed call s.1 ->
    client_reached os io_fuel w (make_call (log_mgmt os) io_fuel call s).

Lemma port_zero_range : 0 <= 0 < 2 ^ 32.
Proof. lia. Qed.

Ltac query_case os io_fuel c x Hg Hport Hat :=
  unfold vspd_management_get_server_info, vspd_management_get_port_info,
    vspd_management_get_port_statistics;
  match goal with |- context [query _ _ ?t ?p ?n ?d ?cl ?out ?y] =>
    pose proof (query_good os io_fuel c t p n d out x Hg ltac:(by apply plain_requested) Hport) as H;
    destruct (query _ _ t p n d cl out y) as [[[? ?] client] x']; by eapply Hat end.

Ltac subscription_case os io_fuel c x Hg Hport Hat :=
  unfold vspd_management_clear_port_statistics, vspd_management_subscribe_port,
    vspd_management_unsubscribe_port;
  match goal with |- context [subscription_request _ _ ?cl ?t ?p ?y] =>
    pose proof (subscription_good os io_fuel c t p x Hg ltac:(by apply plain_requested) Hport) as H;
    destruct (subscription_request _ _ cl t p y) as [[? client] x']; by eapply Hat end.

Lemma client_reached_good {W} (os : mgmt_os W) io_fuel w s : client_reached os io_fuel w s ->
  exists c, s.1 = Some c /\ good c s.2.2.
Proof.
  induction 1 as [|call [client x] _ (c & Hc & Hg) Hallow].
  { exists client_closed. split; [done|]. constructor; [apply client_closed_ok|done|constructor]. }
  cbn in Hc. subst client.
  assert (forall client x' fd, good_client_at (W := W) client x' fd ->
    exists c', client = Some c' /\ good c' x'.2) as Hat by (intros client x' fd (c' & H1 & H2 & _); eauto).
  destruct call; cbn [make_call call_allowed] in *.
  - destruct Hallow as (c0 & [= <-] & Hfd). pose proof (open_good os io_fuel c (Some path) x Hg Hfd) as H.
    destruct (vspd_management_open _ _ _ _ _) as [[? client] x']. destruct H as (c' & -> & H & _). eauto.
  - pose proof (close_good os c x Hg) as H. destruct (vspd_management_close _ _ _) as [client x'].
    destruct H as [-> H]. eauto.
  - query_case os io_fuel c x Hg port_zero_range Hat.
  - query_case os io_fuel c x Hg Hallow Hat.
  - query_case os io_fuel c x Hg Hallow Hat.
  - subscription_case os io_fuel c x Hg Hallow Hat.
  - subscription_case os io_fuel c x Hg Hallow Hat.
  - subscription_case os io_fuel c x Hg Hallow Hat.
  - pose proof (receive_snapshot_good os io_fuel c timeout_ms (Some (0, snapshot_zero)) x Hg) as H.
    destruct (vspd_management_receive_snapshot _ _ _ _ _ _) as [[[? ?] client] x']. by eapply Hat.
Qed.

(** C18. Whatever the socket does, over every sequence of operations in which open is
    called on a closed client (an open client would be given a new descriptor
    without closing the old one): the queue of
    snapshots is well formed with at most one snapshot of a port, request numbers
    are never zero, only the open descriptor is used and it is closed once, and
    every record sent is a valid request that does not attach to a port. *)
Theorem management_client_sound {W} (os : mgmt_os W) io_fuel w s : client_reached os io_fuel w s ->
  exists c, s.1 = Some c /\ client_ok c /\ run_log s.2.2 = Some (open_fd c) /\
    Forall sent_request s.2.2.
Proof. intros (c & Hc & [])%client_reached_good. by exists c. Qed.

(** The queue of snapshots refines a list in which each port has one entry, its
    latest snapshot, in the order in which the ports first appeared: queueing
    replaces or appends and fails exactly when eight other ports wait, and taking
    removes the first entry. *)
Theorem snapshot_queue_latest c port_id snapshot : client_ok c ->
  let l := ring_list (mc_events c) in
  (let '(ok, c') := queue_event c port_id snapshot in
   client_ok c' /\ ok = bool_decide (port_id ∈ ports_of l \/ (length l < 8)%nat) /\
   ring_list (mc_events c') =
     if ok then latest {| ev_port_id := port_id; ev_snapshot := snapshot |} l else l) /\
  (let '(out, c') := pop_event c in
   client_ok c' /\ out = (fun e => (ev_port_id e, ev_snapshot e)) <$> head l /\
   ring_list (mc_events c') = tail l).
Proof.
  intros Hc l. split.
  - pose proof (queue_event_spec c port_id snapshot Hc) as H. cbn zeta in H. fold l in H.
    destruct (queue_event _ _ _) as [ok c']. by destruct H as (H1 & H2 & H3 & _).
  - pose proof (pop_event_good c Hc) as H. fold l in H. destruct (pop_event c) as [out c'].
    destruct H as (H1 & _ & _ & H2). destruct l as [|e l'] eqn:El.
    + destruct H2 as [-> ->]. by split.
    + destruct H2 as [-> H2]. by split.
Qed.

(** ** Witnesses *)

(** A server that answers HELLO, sends a snapshot of port 1 and answers a
    subscription; the world is the list of records still to come. *)
Definition script_mgmt : mgmt_os (list (list Z)) :=
  {| mo_socket := fun w => (3, w);
     mo_connect := fun _ _ w => (0, w);
     mo_poll := fun _ events _ w =>
       match w with
       | [] => if events =? POLLIN then (0, 0, w) else (1, events, w)
       | _ => (1, events, w)
       end;
     mo_send := fun _ data w => (Z.of_nat (length data), w);
     mo_recvmsg := fun _ _ w =>
       match w with [] => (0, [], false, w) | r :: w => (Z.of_nat (length r), r, false, w) end;
     mo_close := fun _ w => w;
     mo_errno := fun _ => 0 |}.

Definition snapshot_record : list Z :=
  vspd_header_bytes
    {| v_magic := VSPD_MAGIC; v_version_major := VSPD_VERSION_MAJOR;
       v_version_minor := VSPD_VERSION_MINOR; v_type := VSPD_MSG_PORT_SNAPSHOT_EVENT; v_flags := 0;
       v_header_size := VSPD_HEADER_SIZE; v_reserved := 0;
       v_payload_size := VSPD_PORT_SNAPSHOT_PAYLOAD_SIZE; v_request_id := 0; v_port_id := 1;
       v_message_id := 0; v_fragment_offset := 0; v_total_size := 0; v_status := 0 |} ++
  replicate 88 0.

Definition script_records : list (list Z) :=
  [ok_response VSPD_MSG_HELLO 1 hello_payload; snapshot_record;
   ok_response VSPD_MSG_SUBSCRIBE_PORT 2 []].

Definition script_calls : list mgmt_call := [CallOpen [47; 115]; CallSubscribe 1; CallReceive 500].

Definition script_state : option vspd_management_client * (list (list Z) * list sys_event) :=
  foldl (fun s call => make_call (log_mgmt script_mgmt) 3 call s)
    (Some client_closed, (script_records, [])) script_calls.

Lemma script_reached : client_reached script_mgmt 3 script_records script_state.
Proof.
  unfold script_state, script_calls. cbn [foldl].
  repeat apply client_step; try apply client_start.
  - exists client_closed. by split.
  - cbn. lia.
  - done.
Qed.

Lemma management_client_sound_witness :
  exists c, script_state.1 = Some c /\ mc_fd c = 3 /\ client_ok c /\ length script_state.2.2 = 12%nat /\
    Forall sent_request script_state.2.2.
Proof.
  destruct (management_client_sound script_mgmt 3 script_records script_state script_reached)
    as (c & H1 & H2 & _ & H3). exists c. split; [exact H1|].
  assert (mc_fd <$> script_state.1 = Some 3) as E by (vm_compute; reflexivity).
  rewrite H1 in E. injection E as E. split; [exact E|]. split; [exact H2|].
  split; [vm_compute; reflexivity|exact H3].
Defined.

Lemma snapshot_queue_latest_witness :
  let c := (queue_event client_closed 1 snapshot_zero).2 in
  ports_of (ring_list (mc_events (queue_event c 1 snapshot_zero).2)) = [1].
Proof.
  cbn zeta. pose proof (snapshot_queue_latest (queue_event client_closed 1 snapshot_zero).2 1 snapshot_zero)
    as H. destruct H as [H _].
  - pose proof (queue_event_spec client_closed 1 snapshot_zero client_closed_ok) as H. cbn zeta in H.
    destruct (queue_event _ _ _) as [ok c']. by destruct H as (_ & _ & H & _).
  - destruct (queue_event (queue_event client_closed 1 snapshot_zero).2 1 snapshot_zero) as [ok c'] eqn:E.
    destruct H as (_ & Hok & Hl). cbn [snd]. rewrite Hl, Hok. vm_compute. reflexivity.
Defined.
