(* ===== verification/Tools.v ===== *)
(** * The management tools

    The programs spwctl (src/src/tools/spwctl.c) and spwmon
    (src/src/tools/spwmon.c) on the management client.  A program is a function of
    its arguments and the world; it returns its exit code, what it wrote to stdout
    and stderr, and the world. *)

From stdpp Require Import strings.
From S2P Require Import Prelude Types Posix Ring Vspd CommandLine Management.

(** ** Text that both programs write *)

(** The conversion %d of printf. *)
Definition signed_decimal (n : Z) : list Z :=
  if n <? 0 then text "-" ++ decimal (- n) else decimal n.

Definition newline : list Z := [10].

Definition state_name (state : Z) : list Z :=
  if state =? VSPD_LINK_ERROR_RESET then text "ERROR_RESET" else
  if state =? VSPD_LINK_ERROR_WAIT then text "ERROR_WAIT" else
  if state =? VSPD_LINK_READY then text "READY" else
  if state =? VSPD_LINK_STARTED then text "STARTED" else
  if state =? VSPD_LINK_CONNECTING then text "CONNECTING" else
  if state =? VSPD_LINK_RUN then text "RUN" else text "UNKNOWN".

Definition yes_no (flags bit : Z) : list Z :=
  if negb (flags .& bit =? 0) then text "yes" else text "no".

Definition status_name (status : Z) : list Z :=
  if status =? VSPD_STATUS_OK then text "ok" else
  if status =? VSPD_STATUS_INVALID_ARGUMENT then text "invalid argument" else
  if status =? VSPD_STATUS_INVALID_STATE then text "invalid state" else
  if status =? VSPD_STATUS_TIMEOUT then text "timeout" else
  if status =? VSPD_STATUS_UNSUPPORTED then text "unsupported" else
  if status =? VSPD_STATUS_RESOURCE_EXHAUSTED then text "resource exhausted" else
  if status =? VSPD_STATUS_LINK_UNAVAILABLE then text "link unavailable" else
  if status =? VSPD_STATUS_BUFFER_TOO_SMALL then text "buffer too small" else
  if status =? VSPD_STATUS_INVALID_PACKET then text "invalid packet" else
  if status =? VSPD_STATUS_BACKEND then text "daemon/transport error" else text "unknown error".

(** parse_port of spwctl and parse_u32 of spwmon. *)
Definition parse_u32 (s : list Z) : option Z :=
  let '(value, rest, errno) := strtoul s 10 in
  if negb (errno =? 0) || (length rest =? length s)%nat || negb (bool_decide (rest = [])) ||
     (UINT32_MAX <? value) then None else Some (u32 value).

(** strtoull has the range of strtoul where a long has 64 bits. *)
Definition parse_u64 (s : list Z) : option Z :=
  let '(value, rest, errno) := strtoul s 10 in
  if negb (errno =? 0) || (length rest =? length s)%nat || negb (bool_decide (rest = []))
  then None else Some value.

Definition server_info_zero : vspd_server_info_payload :=
  {| vi_port_count := 0; vi_client_capacity := 0; vi_packet_queue_depth := 0;
     vi_time_code_queue_depth := 0; vi_max_logical_packet := 0 |}.

(** What a program leaves behind. *)
Record outcome (W : Type) := Outcome {
  exit_code : Z;
  stdout : list Z;
  stderr : list Z;
  after : W
}.
Arguments Outcome {W} _ _ _ _.
Arguments exit_code {W} _.
Arguments stdout {W} _.
Arguments stderr {W} _.
Arguments after {W} _.

(** ** spwctl *)

Module spwctl.
Section spwctl.
Context {W : Type} (os : mgmt_os W) (io_fuel : nat).
Implicit Types (client : option vspd_management_client) (w : W).

Definition usage (program : list Z) : list Z :=
  text "usage: " ++ program ++ text " [--socket PATH] list" ++ newline ++
  text "       " ++ program ++ text " [--socket PATH] show PORT" ++ newline ++
  text "       " ++ program ++ text " [--socket PATH] stats PORT" ++ newline ++
  text "       " ++ program ++ text " [--socket PATH] clear-stats PORT" ++ newline.

(** The message; the result is always 1. *)
Definition fail_status (operation : list Z) (status : Z) : list Z :=
  text "spwctl: " ++ operation ++ text ": " ++ status_name status ++ text " (" ++
  signed_decimal status ++ text ")" ++ newline.

Definition port_line (server : vspd_server_info_payload) (port_id : Z) (info : vspd_port_info_payload)
    : list Z :=
  decimal port_id ++ text " " ++
  yes_no (vp_flags info) VSPD_PORT_INFO_BRIDGED ++ text " " ++
  yes_no (vp_flags info) VSPD_PORT_INFO_ATTACHED ++ text " " ++
  yes_no (vp_flags info) VSPD_PORT_INFO_STARTED ++ text " " ++
  yes_no (vp_flags info) VSPD_PORT_INFO_RESET_LATCHED ++ text " " ++
  state_name (vp_link_state info) ++ text " " ++
  decimal (vp_packet_queue_count info) ++ text "/" ++ decimal (vi_packet_queue_depth server) ++
  text " " ++ decimal (vp_time_code_queue_count info) ++ text "/" ++
  decimal (vi_time_code_queue_depth server) ++ newline.

(** The loop over the ports: what was printed, the status that ended it. *)
Fixpoint list_ports (server : vspd_server_info_payload) (port_ids : list Z) client w
    : list Z * Z * option vspd_management_client * W :=
  match port_ids with
  | [] => ([], VSPD_STATUS_OK, client, w)
  | port_id :: port_ids =>
      let '(status, info, client, w) :=
        vspd_management_get_port_info os io_fuel client port_id (Some (vn_info snapshot_zero)) w in
      if negb (status =? VSPD_STATUS_OK) then ([], status, client, w) else
      let line := port_line server port_id (default (vn_info snapshot_zero) info) in
      let '(lines, status, client, w) := list_ports server port_ids client w in
      (line ++ lines, status, client, w)
  end.

(** The commands: the exit code, stdout, stderr, the client and the world. *)
Definition command_list client w : Z * list Z * list Z * option vspd_management_client * W :=
  let '(status, server, client, w) :=
    vspd_management_get_server_info os io_fuel client (Some server_info_zero) w in
  if negb (status =? VSPD_STATUS_OK)
  then (1, [], fail_status (text "get server info") status, client, w) else
  let server := default server_info_zero server in
  let '(lines, status, client, w) := list_ports server (seqZ 0 (vi_port_count server)) client w in
  let out := text "PORT BRIDGED ATTACHED STARTED RESET STATE PACKETS TIMECODES" ++ newline ++ lines in
  if negb (status =? VSPD_STATUS_OK)
  then (1, out, fail_status (text "get port info") status, client, w) else
  (0, out, [], client, w).

Definition port_text (server : vspd_server_info_payload) (port_id : Z) (info : vspd_port_info_payload)
    : list Z :=
  text "port: " ++ decimal port_id ++ newline ++
  text "bridged: " ++ yes_no (vp_flags info) VSPD_PORT_INFO_BRIDGED ++ newline ++
  text "attached: " ++ yes_no (vp_flags info) VSPD_PORT_INFO_ATTACHED ++ newline ++
  text "started: " ++ yes_no (vp_flags info) VSPD_PORT_INFO_STARTED ++ newline ++
  text "reset_latched: " ++ yes_no (vp_flags info) VSPD_PORT_INFO_RESET_LATCHED ++ newline ++
  text "ever_attached: " ++ yes_no (vp_flags info) VSPD_PORT_INFO_EVER_ATTACHED ++ newline ++
  text "state: " ++ state_name (vp_link_state info) ++ newline ++
  text "packet_queue: " ++ decimal (vp_packet_queue_count info) ++ text "/" ++
  decimal (vi_packet_queue_depth server) ++ newline ++
  text "time_code_queue: " ++ decimal (vp_time_code_queue_count info) ++ text "/" ++
  decimal (vi_time_code_queue_depth server) ++ newline ++
  text "max_logical_packet: " ++ decimal (vi_max_logical_packet server) ++ newline.

Definition command_show client (port_id : Z) w
    : Z * list Z * list Z * option vspd_management_client * W :=
  let '(status, server, client, w) :=
    vspd_management_get_server_info os io_fuel client (Some server_info_zero) w in
  if negb (status =? VSPD_STATUS_OK)
  then (1, [], fail_status (text "get server info") status, client, w) else
  let '(status, info, client, w) :=
    vspd_management_get_port_info os io_fuel client port_id (Some (vn_info snapshot_zero)) w in
  if negb (status =? VSPD_STATUS_OK)
  then (1, [], fail_status (text "get port info") status, client, w) else
  (0, port_text (default server_info_zero server) port_id (default (vn_info snapshot_zero) info), [],
   client, w).

Definition statistics_text (port_id : Z) (stats : vspd_statistics_payload) : list Z :=
  text "port: " ++ decimal port_id ++ newline ++
  text "tx_packets: " ++ decimal (vs_tx_packets stats) ++ newline ++
  text "rx_packets: " ++ decimal (vs_rx_packets stats) ++ newline ++
  text "tx_bytes: " ++ decimal (vs_tx_bytes stats) ++ newline ++
  text "rx_bytes: " ++ decimal (vs_rx_bytes stats) ++ newline ++
  text "tx_time_codes: " ++ decimal (vs_tx_time_codes stats) ++ newline ++
  text "rx_time_codes: " ++ decimal (vs_rx_time_codes stats) ++ newline ++
  text "eep_packets: " ++ decimal (vs_eep_packets stats) ++ newline ++
  text "link_errors: " ++ decimal (vs_link_errors stats) ++ newline ++
  text "dropped_packets: " ++ decimal (vs_dropped_packets stats) ++ newline.

Definition command_stats client (port_id : Z) w
    : Z * list Z * list Z * option vspd_management_client * W :=
  let '(status, stats, client, w) :=
    vspd_management_get_port_statistics os io_fuel client port_id (Some statistics_payload_zero) w in
  if negb (status =? VSPD_STATUS_OK)
  then (1, [], fail_status (text "get port statistics") status, client, w) else
  (0, statistics_text port_id (default statistics_payload_zero stats), [], client, w).

Definition command_clear client (port_id : Z) w
    : Z * list Z * list Z * option vspd_management_client * W :=
  let '(status, client, w) := vspd_management_clear_port_statistics os io_fuel client port_id w in
  if negb (status =? VSPD_STATUS_OK)
  then (1, [], fail_status (text "clear port statistics") status, client, w) else
  (0, text "cleared statistics for port " ++ decimal port_id ++ newline, [], client, w).

Inductive command :=
| CmdList
| CmdShow (port_id : Z)
| CmdStats (port_id : Z)
| CmdClearStats (port_id : Z).

(** --socket at the front: the path and the other arguments, or the usage. *)
Definition socket_option (args : list (list Z)) : option (list Z * list (list Z)) :=
  match args with
  | arg :: rest =>
      if str_eq arg (text "--socket") then
        match rest with path :: rest => Some (path, rest) | [] => None end
      else Some (vspwd.VSPWD_DEFAULT_SOCKET_PATH, args)
  | [] => Some (vspwd.VSPWD_DEFAULT_SOCKET_PATH, args)
  end.

(** The command and its arguments: the exit code after the usage, or the command. *)
Definition parse_command (args : list (list Z)) : Z + command :=
  match args with
  | [] => inl 2
  | arg :: rest =>
      if str_eq arg (text "--help") || str_eq arg (text "-h") then inl 0 else
      if str_eq arg (text "list") then match rest with [] => inr CmdList | _ => inl 2 end else
      if str_eq arg (text "show") || str_eq arg (text "stats") || str_eq arg (text "clear-stats") then
        match rest with
        | [value] =>
            match parse_u32 value with
            | Some port_id =>
                inr (if str_eq arg (text "show") then CmdShow port_id
                     else if str_eq arg (text "stats") then CmdStats port_id else CmdClearStats port_id)
            | None => inl 2
            end
        | _ => inl 2
        end
      else inl 2
  end.

Definition run_command (cmd : command) client w
    : Z * list Z * list Z * option vspd_management_client * W :=
  match cmd with
  | CmdList => command_list client w
  | CmdShow port_id => command_show client port_id w
  | CmdStats port_id => command_stats client port_id w
  | CmdClearStats port_id => command_clear client port_id w
  end.

(** [client] is not initialised before vspd_management_open sets its fields. *)
Definition main (program : list Z) (args : list (list Z)) w : outcome W :=
  match socket_option args with
  | None => Outcome 2 [] (usage program) w
  | Some (socket_path, args) =>
      match parse_command args with
      | inl code => Outcome code [] (usage program) w
      | inr cmd =>
          let '(status, client, w) :=
            vspd_management_open os io_fuel (Some client_closed) (Some socket_path) w in
          if negb (status =? VSPD_STATUS_OK)
          then Outcome 1 [] (fail_status (text "connect") status) w else
          let '(result, out, err, client, w) := run_command cmd client w in
          let '(_, w) := vspd_management_close os client w in
          Outcome result out err w
      end
  end.
End spwctl.
End spwctl.

(** ** spwmon *)

Module spwmon.

(** gmtime_r: the date of a day counted from 1970-01-01, as year, month and day of
    the Gregorian calendar. *)
Definition civil_from_days (days : Z) : Z * Z * Z :=
  let z := days + 719468 in
  let era := z / 146097 in
  let doe := z mod 146097 in
  let yoe := (doe - doe / 1460 + doe / 36524 - doe / 146096) / 365 in
  let doy := doe - (365 * yoe + yoe / 4 - yoe / 100) in
  let mp := (5 * doy + 2) / 153 in
  let day := doy - (153 * mp + 2) / 5 + 1 in
  let month := if mp <? 10 then mp + 3 else mp - 9 in
  (yoe + era * 400 + (if month <=? 2 then 1 else 0), month, day).

Definition two_digits (n : Z) : list Z := [48 + n / 10 mod 10; 48 + n mod 10].

Definition year_text (year : Z) : list Z :=
  if (0 <=? year) && (year <? 1000)
  then [48; 48 + year / 100 mod 10] ++ two_digits (year mod 100) else signed_decimal year.

Definition INT_MAX : Z := 2 ^ 31 - 1.

(** strftime(out, 32, "%Y-%m-%dT%H:%M:%S", gmtime_r(&tv_sec)); [None] when the year
    does not fit an int. *)
Definition utc_text (tv_sec : Z) : option (list Z) :=
  let '(year, month, day) := civil_from_days (tv_sec / 86400) in
  let second := tv_sec mod 86400 in
  if (INT_MAX <? year - 1900) || (year - 1900 <? - INT_MAX - 1) then None else
  Some (year_text year ++ text "-" ++ two_digits month ++ text "-" ++ two_digits day ++ text "T" ++
        two_digits (second / 3600) ++ text ":" ++ two_digits (second / 60 mod 60) ++ text ":" ++
        two_digits (second mod 60)).

(** [now] is what clock_gettime(CLOCK_REALTIME) gives: the result, tv_sec and
    tv_nsec. *)
Definition timestamp_utc (now : Z * Z * Z) : list Z :=
  let '(result, tv_sec, tv_nsec) := now in
  if negb (result =? 0) then text "unknown" else
  match utc_text tv_sec with
  | None => text "unknown"
  | Some out =>
      let length := Z.of_nat (length out) in
      if 32 <=? length + 5 then text "unknown" else
      let milliseconds := u32 (tv_nsec / 1000000) in
      out ++ text "." ++
      [48 + milliseconds / 100 mod 10; 48 + milliseconds / 10 mod 10; 48 + milliseconds mod 10] ++
      text "Z"
  end.

Definition json_bool (flags bit : Z) : list Z :=
  if negb (flags .& bit =? 0) then text "true" else text "false".

Definition quoted (s : list Z) : list Z := [34] ++ s ++ [34].

(** A member of the object, after the first. *)
Definition member (name : string) (value : list Z) : list Z :=
  text "," ++ quoted (text name) ++ text ":" ++ value.

Definition snapshot_json (timestamp : list Z) (port_id : Z) (snapshot : vspd_port_snapshot_payload)
    (server : vspd_server_info_payload) : list Z :=
  let info := vn_info snapshot in
  let stats := vn_statistics snapshot in
  text "{" ++ quoted (text "timestamp") ++ text ":" ++ quoted timestamp ++
  member "port" (decimal port_id) ++
  member "bridged" (json_bool (vp_flags info) VSPD_PORT_INFO_BRIDGED) ++
  member "attached" (json_bool (vp_flags info) VSPD_PORT_INFO_ATTACHED) ++
  member "started" (json_bool (vp_flags info) VSPD_PORT_INFO_STARTED) ++
  member "reset_latched" (json_bool (vp_flags info) VSPD_PORT_INFO_RESET_LATCHED) ++
  member "ever_attached" (json_bool (vp_flags info) VSPD_PORT_INFO_EVER_ATTACHED) ++
  member "state" (quoted (state_name (vp_link_state info))) ++
  member "packet_queue" (decimal (vp_packet_queue_count info)) ++
  member "packet_queue_depth" (decimal (vi_packet_queue_depth server)) ++
  member "time_code_queue" (decimal (vp_time_code_queue_count info)) ++
  member "time_code_queue_depth" (decimal (vi_time_code_queue_depth server)) ++
  member "tx_packets" (decimal (vs_tx_packets stats)) ++
  member "rx_packets" (decimal (vs_rx_packets stats)) ++
  member "tx_bytes" (decimal (vs_tx_bytes stats)) ++
  member "rx_bytes" (decimal (vs_rx_bytes stats)) ++
  member "tx_time_codes" (decimal (vs_tx_time_codes stats)) ++
  member "rx_time_codes" (decimal (vs_rx_time_codes stats)) ++
  member "eep_packets" (decimal (vs_eep_packets stats)) ++
  member "link_errors" (decimal (vs_link_errors stats)) ++
  member "dropped_packets" (decimal (vs_dropped_packets stats)) ++ text "}" ++ newline.

Definition snapshot_line (timestamp : list Z) (port_id : Z) (snapshot : vspd_port_snapshot_payload)
    (server : vspd_server_info_payload) : list Z :=
  let info := vn_info snapshot in
  let stats := vn_statistics snapshot in
  timestamp ++ text " port=" ++ decimal port_id ++
  text " state=" ++ state_name (vp_link_state info) ++
  text " bridged=" ++ yes_no (vp_flags info) VSPD_PORT_INFO_BRIDGED ++
  text " attached=" ++ yes_no (vp_flags info) VSPD_PORT_INFO_ATTACHED ++
  text " started=" ++ yes_no (vp_flags info) VSPD_PORT_INFO_STARTED ++
  text " packets=" ++ decimal (vp_packet_queue_count info) ++ text "/" ++
  decimal (vi_packet_queue_depth server) ++
  text " timecodes=" ++ decimal (vp_time_code_queue_count info) ++ text "/" ++
  decimal (vi_time_code_queue_depth server) ++
  text " tx_packets=" ++ decimal (vs_tx_packets stats) ++
  text " rx_packets=" ++ decimal (vs_rx_packets stats) ++
  text " link_errors=" ++ decimal (vs_link_errors stats) ++
  text " dropped=" ++ decimal (vs_dropped_packets stats) ++ newline.

(** *** Options *)

Record options := {
  socket_path : list Z;
  selected_port : option Z;
  count_limit : option Z;
  json : bool
}.

Definition initial_options : options :=
  {| socket_path := vspwd.VSPWD_DEFAULT_SOCKET_PATH; selected_port := None; count_limit := None;
     json := false |}.

Definition set_socket_path v (c : options) : options :=
  {| socket_path := v; selected_port := selected_port c; count_limit := count_limit c;
     json := json c |}.
Definition set_selected_port v (c : options) : options :=
  {| socket_path := socket_path c; selected_port := Some v; count_limit := count_limit c;
     json := json c |}.
Definition set_count_limit v (c : options) : options :=
  {| socket_path := socket_path c; selected_port := selected_port c; count_limit := Some v;
     json := json c |}.
Definition set_json (c : options) : options :=
  {| socket_path := socket_path c; selected_port := selected_port c; count_limit := count_limit c;
     json := true |}.

(** port_selected and count_set are the constructors of the options. *)
Fixpoint parse_options (args : list (list Z)) (c : options) : Z + options :=
  match args with
  | [] => inr c
  | arg :: rest =>
      if str_eq arg (text "--socket") then
        match rest with v :: rest => parse_options rest (set_socket_path v c) | [] => inl 2 end else
      if str_eq arg (text "--port") then
        match rest with
        | v :: rest =>
            match parse_u32 v with
            | Some n => parse_options rest (set_selected_port n c)
            | None => inl 2
            end
        | [] => inl 2
        end else
      if str_eq arg (text "--count") then
        match rest with
        | v :: rest =>
            match parse_u64 v with
            | Some n => parse_options rest (set_count_limit n c)
            | None => inl 2
            end
        | [] => inl 2
        end else
      if str_eq arg (text "--json") then parse_options rest (set_json c) else
      if str_eq arg (text "--help") || str_eq arg (text "-h") then inl 0 else inl 2
  end.

Definition usage (program : list Z) : list Z :=
  text "usage: " ++ program ++ text " [--socket PATH] [--port PORT] [--count N] [--json]" ++ newline ++
  newline ++ text "Continuously observes vspwd port metadata without ATTACHing to an" ++ newline ++
  text "application port. Without --port, all daemon ports are monitored." ++ newline.

Definition fail_status (operation : list Z) (status : Z) : list Z :=
  text "spwmon: " ++ operation ++ text ": " ++ status_name status ++ text " (" ++
  signed_decimal status ++ text ")" ++ newline.

(** *** main *)

Section spwmon.
Context {W : Type} (os : mgmt_os W) (io_fuel : nat).
(** Setting the signal handlers and clearing the flag; the flag; the clock. *)
Context (install_signals : W -> W) (stop_requested : W -> bool) (realtime : W -> Z * Z * Z).
Implicit Types (client : option vspd_management_client) (w : W).

Definition print_snapshot (port_id : Z) (snapshot : vspd_port_snapshot_payload)
    (server : vspd_server_info_payload) (as_json : bool) w : list Z :=
  let timestamp := timestamp_utc (realtime w) in
  if as_json then snapshot_json timestamp port_id snapshot server
  else snapshot_line timestamp port_id snapshot server.

Fixpoint subscribe (port_ids : list Z) client w : Z * option vspd_management_client * W :=
  match port_ids with
  | [] => (VSPD_STATUS_OK, client, w)
  | port_id :: port_ids =>
      let '(status, client, w) := vspd_management_subscribe_port os io_fuel client port_id w in
      if negb (status =? VSPD_STATUS_OK) then (status, client, w) else subscribe port_ids client w
  end.

Fixpoint unsubscribe (port_ids : list Z) client w : option vspd_management_client * W :=
  match port_ids with
  | [] => (client, w)
  | port_id :: port_ids =>
      let '(_, client, w) := vspd_management_unsubscribe_port os io_fuel client port_id w in
      unsubscribe port_ids client w
  end.

(** The loop, for at most [fuel] iterations; [None] while it goes on. *)
Fixpoint monitor (fuel : nat) (c : options) (server : vspd_server_info_payload) (emitted : Z) client w
    : option Z * list Z * option vspd_management_client * W :=
  match fuel with
  | O => (None, [], client, w)
  | S fuel =>
      if stop_requested w ||
         match count_limit c with Some limit => limit <=? emitted | None => false end
      then (Some VSPD_STATUS_OK, [], client, w) else
      let '(status, out, client, w) :=
        vspd_management_receive_snapshot os io_fuel client 500 (Some (0, snapshot_zero)) w in
      if status =? VSPD_STATUS_TIMEOUT then monitor fuel c server emitted client w else
      if negb (status =? VSPD_STATUS_OK) then (Some status, [], client, w) else
      let '(port_id, snapshot) := default (0, snapshot_zero) out in
      let line := print_snapshot port_id snapshot server (json c) w in
      let '(status, lines, client, w) := monitor fuel c server (u64 (emitted + 1)) client w in
      (status, line ++ lines, client, w)
  end.

(** The ports a program observes. *)
Definition monitored (c : options) (server : vspd_server_info_payload) : list Z :=
  match selected_port c with Some port_id => [port_id] | None => seqZ 0 (vi_port_count server) end.

Definition session (fuel : nat) (c : options) client w : option (outcome W) :=
  let close client w out err code :=
    let '(_, w) := vspd_management_close os client w in Some (Outcome code out err w) in
  let '(status, server, client, w) :=
    vspd_management_get_server_info os io_fuel client (Some server_info_zero) w in
  if negb (status =? VSPD_STATUS_OK)
  then close client w [] (fail_status (text "get server info") status) 1 else
  let server := default server_info_zero server in
  if match selected_port c with Some port_id => vi_port_count server <=? port_id | None => false end
  then close client w [] (text "spwmon: port " ++ decimal (default 0 (selected_port c)) ++
                          text " does not exist" ++ newline) 2 else
  let w := install_signals w in
  let '(status, client, w) := subscribe (monitored c server) client w in
  if negb (status =? VSPD_STATUS_OK) then close client w [] (fail_status (text "subscribe") status) 1 else
  match monitor fuel c server 0 client w with
  | (None, _, _, _) => None
  | (Some status, out, client, w) =>
      if negb (status =? VSPD_STATUS_OK)
      then close client w out (fail_status (text "receive snapshot") status) 1 else
      let '(client, w) := unsubscribe (monitored c server) client w in
      close client w out [] 0
  end.

(** [None] while the program still runs after [fuel] iterations of its loop. *)
Definition main (fuel : nat) (program : list Z) (args : list (list Z)) w : option (outcome W) :=
  match parse_options args initial_options with
  | inl code => Some (Outcome code [] (usage program) w)
  | inr c =>
      if bool_decide (count_limit c = Some 0) then Some (Outcome 0 [] [] w) else
      let '(status, client, w) :=
        vspd_management_open os io_fuel (Some client_closed) (Some (socket_path c)) w in
      if negb (status =? VSPD_STATUS_OK)
      then Some (Outcome 1 [] (fail_status (text "connect") status) w) else
      session fuel c client w
  end.
End spwmon.
End spwmon.
