(* ===== verification/ToolsProps.v ===== *)
(** * The management tools: correctness

    spwctl and spwmon return with their socket closed, whatever the daemon and the
    system do, and send valid requests only; the timestamps of spwmon fit their
    buffer. *)

From stdpp Require Import strings.
From S2P Require Import Prelude Types Posix Ring VspwTp Vspd Backend DriverApi CommandLine CommandLineProps.
From S2P Require Import Device DeviceProps Management ManagementProps Tools.

(** ** Numbers *)

Lemma tools_parse_range s n : parse_u32 s = Some n -> 0 <= n < 2 ^ 32.
Proof.
  unfold parse_u32. destruct (strtoul s 10) as [[parsed rest] errno].
  case_if; [done|]. intros [= <-]. by apply (wrap_range 32).
Qed.

(** What the programs print as a port number they also read. *)
Lemma tools_parse_decimal n : 0 <= n < 2 ^ 32 -> parse_u32 (decimal n) = Some n.
Proof.
  intros Hn. pose proof (spwcuse_parse_u32 n Hn) as H. unfold spwcuse.parse_u32 in H.
  by rewrite (bool_decide_false _ (decimal_nonempty n)) in H.
Qed.

(** ** Received values *)

(** recvmsg stores bytes. *)
Definition receives_bytes {W} (os : mgmt_os W) : Prop :=
  forall fd capacity w, bytes_ok (mo_recvmsg os fd capacity w).1.1.2.

Section bytes.
Context {W : Type} (os : mgmt_os W) (io_fuel : nat).
Hypothesis Hbytes : receives_bytes os.
Implicit Types (w : W).

Lemma recvmsg_loop_bytes fd capacity fuel : forall w,
  bytes_ok (recvmsg_loop os fuel fd capacity w).1.1.2.
Proof.
  induction fuel as [|fuel IH]; intros w; [constructor|]. cbn. pose proof (Hbytes fd capacity w) as H.
  destruct (mo_recvmsg os fd capacity w) as [[[r bytes] truncated] w']. by case_if.
Qed.

Lemma receive_record_bytes fd capacity t w :
  bytes_ok (receive_record os io_fuel fd capacity t w).1.1.2.
Proof.
  unfold receive_record. destruct (wait_fd _ _ _ _ _ _) as [ready w1]. case_if; [constructor|].
  case_if; [constructor|]. pose proof (recvmsg_loop_bytes fd capacity io_fuel w1) as H.
  destruct (recvmsg_loop _ _ _ _ _) as [[[r bytes] truncated] w2]. case_if; [constructor|].
  by apply Forall_take.
Qed.

Lemma take_response_bytes header payload buffer cap : bytes_ok (default [] payload) ->
  bytes_ok (default [] buffer) -> bytes_ok (default [] (take_response header payload buffer cap).2).
Proof.
  intros Hp Hb. unfold take_response. repeat (case_if; [done|]). destruct buffer as [b|]; [|done].
  cbn. apply bytes_ok_write; [done|by apply Forall_take].
Qed.

Lemma wait_response_bytes type id cap fuel : forall c buffer size w, bytes_ok (default [] buffer) ->
  let '(_, buffer', _, _, _) := wait_response os io_fuel fuel c type id buffer cap size w in
  bytes_ok (default [] buffer').
Proof.
  induction fuel as [|fuel IH]; intros c buffer size w Hb; [done|]. cbn [wait_response].
  pose proof (receive_record_bytes (mc_fd c) VSPD_MANAGEMENT_FRAME_MAX VSPD_MANAGEMENT_TIMEOUT_MS w) as H.
  destruct (receive_record _ _ _ _ _ _) as [[[received frame] timed_out] w1]. cbn [fst snd] in H.
  case_if; [done|]. unfold received_frame.
  destruct (vspd_validate_frame _ _ _) as [result [header|]]; [|done]. case_if; [done|]. case_if.
  - destruct (decode_snapshot_event _ _ _) as [ok c']. case_if; [done|]. by apply IH.
  - case_if; [done|].
    match goal with |- context [take_response header ?p buffer cap] =>
      pose proof (take_response_bytes header p buffer cap) as Ht;
      destruct (take_response header p buffer cap) as [status buffer'] end.
    cbn [snd] in Ht. apply Ht; [|done]. case_if; [constructor|]. by apply Forall_drop.
Qed.

Lemma request_bytes client type port payload payload_size buffer cap w : bytes_ok (default [] buffer) ->
  let '(_, buffer', _, _, _) := request os io_fuel client type port payload payload_size buffer cap w in
  bytes_ok (default [] buffer').
Proof.
  intros Hb. unfold request. destruct client as [c|]; [|done]. case_if; [done|].
  destruct (next_request_id c) as [id c1]. destruct (vspd_encode_header _ _) as [coded frame].
  case_if; [done|]. case_if; [done|]. destruct (send_record _ _ _ _ _) as [sent w1]. case_if; [done|].
  pose proof (wait_response_bytes type id cap io_fuel c1 buffer 0 w1 Hb) as H.
  by destruct (wait_response _ _ _ _ _ _ _ _ _ _) as [[[[? ?] ?] ?] ?].
Qed.

Lemma server_info_range client w :
  let '(status, info, _, _) :=
    vspd_management_get_server_info os io_fuel client (Some server_info_zero) w in
  0 <= vi_port_count (default server_info_zero info) < 2 ^ 32.
Proof.
  unfold vspd_management_get_server_info, query.
  pose proof (request_bytes client VSPD_MSG_GET_SERVER_INFO 0 None 0 (Some [])
    VSPD_SERVER_INFO_PAYLOAD_SIZE w ltac:(constructor)) as H.
  destruct (request _ _ _ _ _ _ _ _ _ _) as [[[[status payload] size] client'] w'].
  case_if; [done|]. case_if; [done|]. cbn.
  change (vspd_read_be32 (default [] payload) 0) with (read_u32 (default [] payload) 0).
  by apply read_u32_range.
Qed.
End bytes.

Lemma log_receives_bytes {W} (os : mgmt_os W) : receives_bytes os -> receives_bytes (log_mgmt os).
Proof.
  intros H fd capacity x. cbn. specialize (H fd capacity x.1).
  by destruct (mo_recvmsg os fd capacity x.1) as [[[r bytes] truncated] w].
Qed.

(** ** The socket *)

Section tools.
Context {W : Type} (os : mgmt_os W) (io_fuel : nat).
Hypothesis Hbytes : receives_bytes os.
Abbreviation los := (log_mgmt os).
Implicit Types (client : option vspd_management_client) (x : W * list sys_event).

Definition kept client x : Prop := exists c, client = Some c /\ good c x.2.

Lemma at_kept client x fd : good_client_at client x fd -> kept client x.
Proof. intros (c & H1 & H2 & _). by exists c. Qed.

Lemma server_info_kept client out x : kept client x ->
  let '(_, _, client', x') := vspd_management_get_server_info los io_fuel client out x in kept client' x'.
Proof. intros (c & -> & Hg). query_case os io_fuel c x Hg port_zero_range at_kept. Qed.

Lemma port_info_kept client id out x : kept client x -> 0 <= id < 2 ^ 32 ->
  let '(_, _, client', x') := vspd_management_get_port_info los io_fuel client id out x in kept client' x'.
Proof. intros (c & -> & Hg) Hid. query_case os io_fuel c x Hg Hid at_kept. Qed.

Lemma port_statistics_kept client id out x : kept client x -> 0 <= id < 2 ^ 32 ->
  let '(_, _, client', x') := vspd_management_get_port_statistics los io_fuel client id out x in
  kept client' x'.
Proof. intros (c & -> & Hg) Hid. query_case os io_fuel c x Hg Hid at_kept. Qed.

Lemma clear_kept client id x : kept client x -> 0 <= id < 2 ^ 32 ->
  let '(_, client', x') := vspd_management_clear_port_statistics los io_fuel client id x in kept client' x'.
Proof. intros (c & -> & Hg) Hid. subscription_case os io_fuel c x Hg Hid at_kept. Qed.

Lemma subscribe_kept client id x : kept client x -> 0 <= id < 2 ^ 32 ->
  let '(_, client', x') := vspd_management_subscribe_port los io_fuel client id x in kept client' x'.
Proof. intros (c & -> & Hg) Hid. subscription_case os io_fuel c x Hg Hid at_kept. Qed.

Lemma unsubscribe_kept client id x : kept client x -> 0 <= id < 2 ^ 32 ->
  let '(_, client', x') := vspd_management_unsubscribe_port los io_fuel client id x in kept client' x'.
Proof. intros (c & -> & Hg) Hid. subscription_case os io_fuel c x Hg Hid at_kept. Qed.

(** The calls that were made have left no socket open. *)
Definition all_closed x : Prop := run_log x.2 = Some None /\ Forall sent_request x.2.

Lemma close_kept client x : kept client x -> all_closed (vspd_management_close los client x).2.
Proof.
  intros (c & -> & Hg). pose proof (close_good os c x Hg) as H.
  destruct (vspd_management_close _ _ _) as [client' x']. by destruct H as [_ []].
Qed.

Lemma open_kept path w :
  let '(status, client, x) := vspd_management_open los io_fuel (Some client_closed) path (w, []) in
  kept client x /\ (status <> VSPD_STATUS_OK -> all_closed x).
Proof.
  assert (good client_closed (w, [] : list sys_event).2) as Hg
    by (constructor; [apply client_closed_ok|done|constructor]).
  pose proof (open_good os io_fuel client_closed path (w, []) Hg ltac:(done)) as H.
  destruct (vspd_management_open _ _ _ _ _) as [[status client] x]. destruct H as (c & -> & Hc & Hf).
  split; [by exists c|]. intros Hs. destruct Hc as [_ Hl Hsent]. split; [|done].
  rewrite Hl. unfold open_fd. by rewrite (proj2 (Z.ltb_lt _ _) (Hf Hs)).
Qed.

Definition port_number (id : Z) : Prop := 0 <= id < 2 ^ 32.

Lemma seq_port_numbers n : n < 2 ^ 32 -> Forall port_number (seqZ 0 n).
Proof. intros Hn. apply Forall_forall. intros id Hid%elem_of_seqZ. unfold port_number. lia. Qed.

Lemma list_ports_kept server ids : Forall port_number ids -> forall client x, kept client x ->
  let '(_, _, client', x') := spwctl.list_ports los io_fuel server ids client x in kept client' x'.
Proof.
  induction 1 as [|id ids Hid Hids IH]; intros client x Hk; [done|]. cbn [spwctl.list_ports].
  pose proof (port_info_kept client id (Some (vn_info snapshot_zero)) x Hk Hid) as H.
  destruct (vspd_management_get_port_info _ _ _ _ _ _) as [[[status info] client1] x1].
  case_if; [done|]. specialize (IH client1 x1 H).
  by destruct (spwctl.list_ports _ _ _ _ _ _) as [[[? ?] ?] ?].
Qed.

Definition command_ok (cmd : spwctl.command) : Prop :=
  match cmd with
  | spwctl.CmdList => True
  | spwctl.CmdShow id | spwctl.CmdStats id | spwctl.CmdClearStats id => port_number id
  end.

Lemma command_kept cmd client x : command_ok cmd -> kept client x ->
  let '(_, _, _, client', x') := spwctl.run_command los io_fuel cmd client x in kept client' x'.
Proof.
  intros Hcmd Hk. destruct cmd as [|id|id|id]; cbn [spwctl.run_command command_ok] in *.
  - unfold spwctl.command_list. pose proof (server_info_kept client (Some server_info_zero) x Hk) as H.
    pose proof (server_info_range los io_fuel (log_receives_bytes os Hbytes) client x) as Hr.
    destruct (vspd_management_get_server_info _ _ _ _ _) as [[[status info] client1] x1].
    case_if; [done|]. set (server := default _ info) in *.
    pose proof (list_ports_kept server _ (seq_port_numbers (vi_port_count server) ltac:(lia)) client1 x1 H)
      as Hl. destruct (spwctl.list_ports _ _ _ _ _ _) as [[[lines status'] client2] x2]. by case_if.
  - unfold spwctl.command_show. pose proof (server_info_kept client (Some server_info_zero) x Hk) as H.
    destruct (vspd_management_get_server_info _ _ _ _ _) as [[[status info] client1] x1].
    case_if; [done|].
    pose proof (port_info_kept client1 id (Some (vn_info snapshot_zero)) x1 H Hcmd) as H1.
    destruct (vspd_management_get_port_info _ _ _ _ _ _) as [[[? ?] client2] x2]. by case_if.
  - unfold spwctl.command_stats.
    pose proof (port_statistics_kept client id (Some statistics_payload_zero) x Hk Hcmd) as H.
    destruct (vspd_management_get_port_statistics _ _ _ _ _ _) as [[[? ?] client1] x1]. by case_if.
  - unfold spwctl.command_clear. pose proof (clear_kept client id x Hk Hcmd) as H.
    destruct (vspd_management_clear_port_statistics _ _ _ _ _) as [[? client1] x1]. by case_if.
Qed.

Lemma parse_command_ok args cmd : spwctl.parse_command args = inr cmd -> command_ok cmd.
Proof.
  unfold spwctl.parse_command. destruct args as [|arg rest]; [done|]. case_if; [done|].
  case_if; [destruct rest; [by intros [= <-]|done]|]. case_if; [|done].
  destruct rest as [|value [|]]; try done. destruct (parse_u32 value) as [id|] eqn:Eid; [|done].
  apply tools_parse_range in Eid. intros [= <-]. by repeat case_if.
Qed.

(** spwctl closes the socket it opened on every way out, uses no other, and
    sends valid management requests only, whatever its arguments and whatever the
    daemon and the system calls return. *)
Theorem spwctl_closes program args w :
  all_closed (after (spwctl.main los io_fuel program args (w, []))).
Proof.
  unfold spwctl.main. assert (all_closed (w, [])) as H0 by (split; [done|constructor]).
  destruct (spwctl.socket_option args) as [[path rest]|]; [|done].
  destruct (spwctl.parse_command rest) as [code|cmd] eqn:Ec; [done|].
  pose proof (open_kept (Some path) w) as H.
  destruct (vspd_management_open _ _ _ _ _) as [[status client] x]. destruct H as [Hk Hc].
  case_if; [apply Hc; lia|]. pose proof (command_kept cmd client x (parse_command_ok _ _ Ec) Hk) as H1.
  destruct (spwctl.run_command _ _ _ _ _) as [[[[result out] err] client1] x1].
  pose proof (close_kept client1 x1 H1) as H2. by destruct (vspd_management_close _ _ _) as [client2 x2].
Qed.

(** *** spwmon *)

Context (install_signals : W -> W) (stop_requested : W -> bool) (realtime : W -> Z * Z * Z).

Definition log_install x : W * list sys_event := (install_signals x.1, x.2).

Lemma subscribe_all_kept ids : Forall port_number ids -> forall client x, kept client x ->
  let '(_, client', x') := spwmon.subscribe los io_fuel ids client x in kept client' x'.
Proof.
  induction 1 as [|id ids Hid Hids IH]; intros client x Hk; [done|]. cbn [spwmon.subscribe].
  pose proof (subscribe_kept client id x Hk Hid) as H.
  destruct (vspd_management_subscribe_port _ _ _ _ _) as [[status client1] x1].
  case_if; [done|]. by apply IH.
Qed.

Lemma unsubscribe_all_kept ids : Forall port_number ids -> forall client x, kept client x ->
  let '(client', x') := spwmon.unsubscribe los io_fuel ids client x in kept client' x'.
Proof.
  induction 1 as [|id ids Hid Hids IH]; intros client x Hk; [done|]. cbn [spwmon.unsubscribe].
  pose proof (unsubscribe_kept client id x Hk Hid) as H.
  destruct (vspd_management_unsubscribe_port _ _ _ _ _) as [[status client1] x1]. by apply IH.
Qed.

Lemma monitor_kept c server fuel : forall emitted client x, kept client x ->
  let '(_, _, client', x') := spwmon.monitor los io_fuel (fun x => stop_requested x.1)
    (fun x => realtime x.1) fuel c server emitted client x in kept client' x'.
Proof.
  induction fuel as [|fuel IH]; intros emitted client x Hk; [done|]. cbn [spwmon.monitor].
  case_if; [done|]. destruct Hk as (cl & -> & Hg).
  pose proof (receive_snapshot_good os io_fuel cl 500 (Some (0, snapshot_zero)) x Hg) as H.
  destruct (vspd_management_receive_snapshot _ _ _ _ _ _) as [[[status out] client1] x1].
  apply at_kept in H. case_if; [by apply IH|]. case_if; [done|].
  destruct (default _ out) as [port_id snapshot]. specialize (IH (u64 (emitted + 1)) client1 x1 H).
  by destruct (spwmon.monitor _ _ _ _ _ _ _ _ _ _) as [[[? ?] ?] ?].
Qed.

Lemma monitored_numbers c server : vi_port_count server < 2 ^ 32 ->
  match spwmon.selected_port c with Some id => 0 <= id | None => True end ->
  match spwmon.selected_port c with Some id => vi_port_count server <=? id | None => false end = false ->
  Forall port_number (spwmon.monitored c server).
Proof.
  intros Hn H0 Hs. unfold spwmon.monitored. destruct (spwmon.selected_port c) as [id|].
  - apply Forall_singleton. unfold port_number. lia.
  - by apply seq_port_numbers.
Qed.

Lemma session_closes c fuel client x :
  match spwmon.selected_port c with Some id => 0 <= id | None => True end -> kept client x ->
  match spwmon.session los io_fuel log_install (fun x => stop_requested x.1) (fun x => realtime x.1)
          fuel c client x with
  | Some o => all_closed (after o)
  | None => True
  end.
Proof.
  intros Hsel Hk. unfold spwmon.session.
  assert (forall client x out err code, kept client x ->
    match (let '(_, x') := vspd_management_close los client x in Some (Outcome code out err x')) with
    | Some o => all_closed (after o) | None => True end) as Hclose.
  { intros cl y out err code H. pose proof (close_kept cl y H) as H'.
    by destruct (vspd_management_close _ _ _) as [cl' y']. }
  pose proof (server_info_kept client (Some server_info_zero) x Hk) as H.
  pose proof (server_info_range los io_fuel (log_receives_bytes os Hbytes) client x) as Hr.
  destruct (vspd_management_get_server_info _ _ _ _ _) as [[[status info] client1] x1].
  case_if; [by apply Hclose|]. set (server := default _ info) in *.
  destruct (match spwmon.selected_port c with Some id => _ | None => _ end) eqn:Es;
    [by apply Hclose|].
  assert (kept client1 (log_install x1)) as H1 by exact H.
  pose proof (monitored_numbers c server ltac:(lia) Hsel Es) as Hids.
  pose proof (subscribe_all_kept _ Hids client1 _ H1) as H2.
  destruct (spwmon.subscribe _ _ _ _ _) as [[status2 client2] x2]. case_if; [by apply Hclose|].
  pose proof (monitor_kept c server fuel 0 client2 x2 H2) as H3.
  destruct (spwmon.monitor _ _ _ _ _ _ _ _ _ _) as [[[[status3|] out] client3] x3]; [|done].
  case_if; [by apply Hclose|]. pose proof (unsubscribe_all_kept _ Hids client3 x3 H3) as H4.
  destruct (spwmon.unsubscribe _ _ _ _ _) as [client4 x4]. by apply Hclose.
Qed.

Lemma spwmon_selected n : forall args c c', (length args <= n)%nat ->
  match spwmon.selected_port c with Some id => 0 <= id | None => True end ->
  spwmon.parse_options args c = inr c' ->
  match spwmon.selected_port c' with Some id => 0 <= id | None => True end.
Proof.
  induction n as [|n IH]; intros [|arg rest] c c' Hn Hc; cbn in Hn; try lia; cbn [spwmon.parse_options];
    [by intros [= <-]..|].
  case_if. { destruct rest as [|v rest]; [done|]. cbn in Hn. apply IH; [lia|done]. }
  case_if. { destruct rest as [|v rest]; [done|]. destruct (parse_u32 v) as [id|] eqn:Ep; [|done].
             apply tools_parse_range in Ep. cbn in Hn. apply IH; cbn; lia. }
  case_if. { destruct rest as [|v rest]; [done|]. destruct (parse_u64 v) as [k|]; [|done].
             cbn in Hn. apply IH; [lia|done]. }
  case_if; [apply IH; [lia|done]|]. by case_if.
Qed.

(** C27. spwmon closes the socket it opened on every way out, uses no other, and
    sends valid management requests only, whatever its arguments, the daemon, the
    system calls and the signals do. *)
Theorem spwmon_closes fuel program args w o :
  spwmon.main los io_fuel log_install (fun x => stop_requested x.1) (fun x => realtime x.1) fuel program
    args (w, []) = Some o ->
  all_closed (after o).
Proof.
  unfold spwmon.main. assert (all_closed (w, [])) as H0 by (split; [done|constructor]).
  destruct (spwmon.parse_options _ _) as [code|c] eqn:Ec; [by intros [= <-]|].
  case_if; [by intros [= <-]|]. pose proof (open_kept (Some (spwmon.socket_path c)) w) as H.
  destruct (vspd_management_open _ _ _ _ _) as [[status client] x]. destruct H as [Hk Hc].
  case_if; [intros [= <-]; apply Hc; lia|]. intros Hs.
  pose proof (session_closes c fuel client x
    (spwmon_selected _ args spwmon.initial_options c (Nat.le_refl _) I Ec) Hk) as H1. by rewrite Hs in H1.
Qed.
End tools.

(** ** Timestamps *)

(** The timestamp and its NUL fit the 32 bytes of the buffer. *)
Lemma timestamp_fits now : (length (spwmon.timestamp_utc now) < 32)%nat.
Proof.
  unfold spwmon.timestamp_utc. destruct now as [[result sec] nsec]. case_if; [cbn; lia|].
  destruct (spwmon.utc_text sec) as [out|]; [|cbn; lia]. case_if; [cbn; lia|].
  rewrite !length_app. cbn. lia.
Qed.

(** ** Witnesses *)

Definition byte_script : mgmt_os (list (list Z)) :=
  {| mo_socket := mo_socket script_mgmt; mo_connect := mo_connect script_mgmt;
     mo_poll := mo_poll script_mgmt; mo_send := mo_send script_mgmt;
     mo_recvmsg := fun _ _ w =>
       match w with
       | [] => (0, [], false, w)
       | r :: w => (Z.of_nat (length r), wrap 8 <$> r, false, w)
       end;
     mo_close := mo_close script_mgmt; mo_errno := mo_errno script_mgmt |}.

Lemma byte_script_bytes : receives_bytes byte_script.
Proof.
  intros fd capacity w. destruct w as [|r w]; [constructor|]. cbn. apply Forall_fmap, Forall_forall.
  intros v _. cbn. by apply (wrap_range 8).
Qed.

Definition clear_records : list (list Z) :=
  [ok_response VSPD_MSG_HELLO 1 hello_payload; ok_response VSPD_MSG_CLEAR_PORT_STATISTICS 2 []].

Lemma spwctl_closes_witness :
  let o := spwctl.main (log_mgmt byte_script) 3 (text "spwctl") [text "clear-stats"; text "1"]
             (clear_records, []) in
  exit_code o = 0 /\ stdout o = text "cleared statistics for port 1" ++ newline /\ all_closed (after o).
Proof.
  split; [vm_compute; reflexivity|]. split; [vm_compute; reflexivity|].
  apply (spwctl_closes byte_script 3 byte_script_bytes).
Defined.

(** The daemon goes away after the subscription: the program ends with an error. *)
Definition monitor_records : list (list Z) :=
  [ok_response VSPD_MSG_HELLO 1 hello_payload;
   ok_response VSPD_MSG_GET_SERVER_INFO 2 (vspd_encode_server_info
     {| vi_port_count := 2; vi_client_capacity := 4; vi_packet_queue_depth := 2;
        vi_time_code_queue_depth := 8; vi_max_logical_packet := 1048576 |} []);
   snapshot_record; ok_response VSPD_MSG_SUBSCRIBE_PORT 3 []; []].

Definition monitor_outcome : option (outcome (list (list Z) * list sys_event)) :=
  spwmon.main (log_mgmt byte_script) 5 (log_install (fun w => w)) (fun _ => false) (fun _ => (0, 0, 0)) 9
    (text "spwmon") [text "--port"; text "1"] (monitor_records, []).

Lemma spwmon_closes_witness :
  exists o, monitor_outcome = Some o /\ exit_code o = 1 /\ all_closed (after o).
Proof.
  assert (exit_code <$> monitor_outcome = Some 1) as H by (vm_compute; reflexivity).
  destruct monitor_outcome as [o|] eqn:E; [|discriminate H]. injection H as H.
  exists o. split; [reflexivity|]. split; [exact H|].
  apply (spwmon_closes byte_script 5 byte_script_bytes (fun w => w) (fun _ => false)
    (fun _ => (0, 0, 0)) 9 (text "spwmon") [text "--port"; text "1"] monitor_records o). exact E.
Defined.
