(* ===== verification/ToolsPaths.v ===== *)
(** * The management tools and the daemon

    spwctl and spwmon run against the model of vspwd: what they print is the state
    of the server's ports. *)

From stdpp Require Import strings.
From S2P Require Import Prelude Types Posix Ring VspwTp Vspd Backend Loopback DriverApi PortConfig Port PortClient.
From S2P Require Import Server ServerLoop ServerInv ServerRequests ServerProps ServerRun ServerPaths CommandLine CommandLineProps.
From S2P Require Import Device DeviceProps Management ManagementProps Tools ToolsProps.

(** ** A connection to the daemon *)

(** What the server sends is appended to a list; it needs no other call here. *)
Definition pipe : os_ops (list (list Z)) :=
  {| os_send := fun _ data w => (Z.of_nat (length data), w ++ [data]);
     os_recvmsg := fun _ _ w => (-1, [], false, w);
     os_accept4 := fun _ w => (-1, w);
     os_close := fun _ w => w;
     os_poll := fun _ _ w => (0, [], w);
     os_errno := fun _ => EAGAIN;
     os_stop_requested := fun _ => false;
     os_unlink := fun _ w => w;
     os_socket := fun w => (-1, w);
     os_bind := fun _ _ w => (-1, w);
     os_chmod := fun _ w => (-1, w);
     os_listen := fun _ _ w => (-1, w);
     os_calloc := fun _ => true;
     os_install_signals := fun w => w |}.

Section daemon.
Context {B : Type} (i : Z).
Abbreviation server := (vspwd_server B).

(** The daemon, the records on their way to client [i], and those it has received
    from it. *)
Record served := Served {
  sv_server : server;
  sv_inbox : list (list Z);
  sv_requests : list (list Z)
}.

(** The rounds of the main loop that send what waits for the client. *)
Fixpoint drain (n : nat) (s : server) (inbox requests : list (list Z)) : served :=
  match n with
  | O => Served s inbox requests
  | S n =>
      if vspwd_client_has_output s i then
        let '(_, (s, inbox)) := vspwd_flush_client pipe s i inbox in
        drain n s inbox requests
      else Served s inbox requests
  end.

Definition daemon_serves (data : list Z) (v : served) : served :=
  let requests := sv_requests v ++ [data] in
  let '(ok, s) := vspwd_handle_request (sv_server v) i data (Z.of_nat (length data)) in
  if ok then drain 3 s (sv_inbox v) requests
  else Served (forget_client s i) (sv_inbox v) requests.

(** The calls of a tool whose socket is connected to the daemon as client [i]. *)
Definition daemon : mgmt_os served :=
  {| mo_socket := fun v => (3, v);
     mo_connect := fun _ _ v => (0, v);
     mo_poll := fun _ events _ v =>
       if events =? POLLIN then
         match sv_inbox v with [] => (0, 0, v) | _ => (1, POLLIN, v) end
       else (1, events, v);
     mo_send := fun _ data v => (Z.of_nat (length data), daemon_serves data v);
     mo_recvmsg := fun _ _ v =>
       match sv_inbox v with
       | [] => (-1, [], false, v)
       | r :: inbox => (Z.of_nat (length r), r, false, Served (sv_server v) inbox (sv_requests v))
       end;
     mo_close := fun _ v => Served (forget_client (sv_server v) i) [] (sv_requests v);
     mo_errno := fun _ => EAGAIN |}.
End daemon.
Arguments served : clear implicits.

(** The record of request [id], and those of requests without a payload that are
    numbered from [id] on. *)
Definition request_bytes (type port id : Z) (payload : option (list Z)) (psize : Z) : list Z :=
  vspd_header_bytes (request_header type psize id port) ++
  take (Z.to_nat psize) (default [] payload).

Fixpoint asked (id : Z) (questions : list (Z * Z)) : list (list Z) :=
  match questions with
  | [] => []
  | (type, port) :: questions => request_bytes type port id None 0 :: asked (id + 1) questions
  end.

Definition hello_bytes : list Z :=
  request_bytes VSPD_MSG_HELLO 0 1 (Some hello_payload) VSPD_HELLO_PAYLOAD_SIZE.

(** The test of a status that is OK. *)
Ltac status_ok := change (negb (VSPD_STATUS_OK =? VSPD_STATUS_OK)) with false; cbn iota.

Section paths.
Context {B : Type} (o : spw_backend_ops B) (Inv : B -> Prop) `{!BackendOutputs o Inv} (i : Z).
Hypothesis Hi : 0 <= i < VSPWD_CLIENT_COUNT.
Implicit Types (s : vspwd_server B) (c : vspd_management_client).
Abbreviation server_ok := (server_ok o Inv).
Abbreviation daemon := (daemon (B := B) i).

(** The connection of a tool: it has not attached and has no answer to come. *)
Record conn (hello : bool) (mask pending : Z) s : Prop := {
  cn_server : server_ok s;
  cn_fd : 0 <= c_fd (client_at s i);
  cn_hello : c_hello_done (client_at s i) = hello;
  cn_port : c_port_id (client_at s i) < 0;
  cn_idle : c_response_pending (client_at s i) = false;
  cn_mask : c_monitor_mask (client_at s i) = mask;
  cn_pending : c_monitor_pending_mask (client_at s i) = pending
}.

(** ** The server's side *)

Lemma handled s h bytes : valid_record h bytes -> vspd_flag h VSPD_FLAG_RESPONSE = false ->
  vspd_type_is_event (v_type h) = false -> c_response_pending (client_at s i) = false ->
  c_hello_done (client_at s i) = true \/ v_type h = VSPD_MSG_HELLO ->
  vspwd_handle_request s i (vspd_header_bytes h ++ bytes)
    (Z.of_nat (length (vspd_header_bytes h ++ bytes))) =
  match handler_of (v_type h) with
  | Some f => f s i h (if v_payload_size h =? 0 then None else Some bytes)
  | None => (false, s)
  end.
Proof.
  intros Hv Hf He Hidle Hh. unfold vspwd_handle_request. rewrite Hidle.
  rewrite length_app. change (length (vspd_header_bytes h)) with 40%nat.
  replace (Z.of_nat (40 + length bytes)) with (VSPD_HEADER_SIZE + v_payload_size h)
    by (rewrite <- (vr_size _ _ Hv); unfold VSPD_HEADER_SIZE; lia).
  rewrite valid_record_validates by done. rewrite Z.eqb_refl, Hf. cbn [negb orb].
  unfold vspd_type_is_event in He. apply orb_false_elim in He as [He H4].
  apply orb_false_elim in He as [He H3]. apply orb_false_elim in He as [H1 H2].
  rewrite H1, H2, H3, H4. cbn [orb].
  assert (negb (c_hello_done (client_at s i)) && negb (v_type h =? VSPD_MSG_HELLO) = false) as ->.
  { destruct Hh as [-> | ->]; [done|]. by rewrite Z.eqb_refl, andb_false_r. }
  by rewrite drop_app_length' by done.
Qed.

(** An answer that is flushed at once. *)
Definition flushed (s : vspwd_server B) (client : vspwd_client) : vspwd_server B :=
  upd_client i (fun cl => set_c_response_size 0 (set_c_response_pending false cl))
    (upd_client i (fun _ => client) s).

Lemma client_at_flushed s client : server_ok s ->
  client_at (flushed s client) i = set_c_response_size 0 (set_c_response_pending false client).
Proof.
  intros Hs. unfold flushed. pose proof (sw_clients _ _ _ (proj1 Hs)) as Hl.
  rewrite client_at_upd, Z.eqb_refl by (rewrite ?length_clients_upd; done || lia).
  by rewrite client_at_upd, Z.eqb_refl by (done || lia).
Qed.

(** The header and the bytes of the answer to [h]. *)
Definition answer_bytes (h : vspd_header) (status : Z) (bs : list Z) (size : Z) : list Z :=
  vspd_header_bytes (response_header h status size) ++ bs.

(** One answer of a handler: the flush sends it and keeps the connection. *)
Lemma reply hello mask pending s h status payload size inbox : conn hello mask pending s ->
  request_ok h -> answer_ok h status payload size ->
  exists bs s2, (let '(ok, s1) := respond s i h status payload size in
      ok = true /\ vspwd_client_has_output s1 i = true /\
      vspwd_flush_client pipe s1 i inbox = (true, (s2, inbox ++ [answer_bytes h status bs size]))) /\
    valid_record (response_header h status size) bs /\
    (v_payload_size (response_header h status size) <> 0 -> payload = Some bs) /\
    conn hello mask pending s2 /\ s_ports s2 = s_ports s.
Proof.
  intros [Hs Hfd Hh Hp Hidle Hm Hq] Hr Ha. unfold respond.
  pose proof (sw_client _ _ _ (proj1 Hs) i Hi) as Hwf.
  destruct (queue_response_ok (client_at s i) h status payload size Hwf Hidle Hr Ha)
    as (response & n & -> & Hok & Hlen & bs & Hbs & Hv & Hpl).
  set (client := set_c_response_pending true _). exists bs, (flushed s client).
  pose proof (client_at_flushed s client Hs) as Hat.
  pose proof (sw_clients _ _ _ (proj1 Hs)) as Hl.
  assert (client_at (upd_client i (fun _ => client) s) i = client) as Hc
    by (by rewrite client_at_upd, Z.eqb_refl by (done || lia)).
  assert (server_ok (upd_client i (fun _ => client) s)) as Hs1
    by (apply upd_client_ok; try done; destruct Hwf as (_ & _ & Hra); by split).
  assert (server_ok (flushed s client)) as Hs2.
  { apply upd_client_ok; try done; rewrite Hc; try done. destruct Hwf as (_ & _ & Hra). by split. }
  split; [|split; [done|]; split; [done|]; split; [|done]].
  - split; [done|]. unfold vspwd_client_has_output, vspwd_flush_client, vspwd_flush_response.
    rewrite Hc. cbn [c_response_pending client set_c_response_pending negb]. split; [done|].
    unfold vspwd_send_record. cbn [os_send pipe]. rewrite Z.eqb_refl. cbn [negb].
    fold (flushed s client).
    change (mem_read (c_response client) 0 (Z.to_nat (c_response_size client)))
      with (mem_read response 0 (Z.to_nat n)). by rewrite Hbs.
  - constructor; try done; rewrite Hat; done.
Qed.

Lemma no_output hello mask s : conn hello mask 0 s -> vspwd_client_has_output s i = false.
Proof.
  intros [_ _ _ Hp Hidle _ Hq]. unfold vspwd_client_has_output.
  by rewrite Hidle, (proj2 (Z.ltb_lt _ _) Hp), Hq.
Qed.

(** ** The tool's side *)

Context (io_fuel : nat) (Hfuel : (0 < io_fuel)%nat).

Lemma daemon_waits fd t s r inbox log :
  wait_fd daemon io_fuel fd POLLIN t (Served s (r :: inbox) log) = (1, Served s (r :: inbox) log).
Proof. unfold wait_fd. by destruct io_fuel; [lia|]. Qed.

Lemma daemon_receives fd t s r inbox log : 0 < Z.of_nat (length r) <= VSPD_MANAGEMENT_FRAME_MAX ->
  receive_record daemon io_fuel fd VSPD_MANAGEMENT_FRAME_MAX t (Served s (r :: inbox) log) =
  (Z.of_nat (length r), r, false, Served s inbox log).
Proof.
  intros Hr. unfold receive_record. rewrite daemon_waits. change (1 =? 0) with false. cbn [Z.eqb negb Pos.eqb].
  assert (recvmsg_loop daemon io_fuel fd VSPD_MANAGEMENT_FRAME_MAX (Served s (r :: inbox) log) =
    (Z.of_nat (length r), r, false, Served s inbox log)) as ->.
  { destruct io_fuel as [|f]; [lia|]. cbn. by rewrite (proj2 (Z.ltb_ge (Z.of_nat (length r)) 0)) by lia. }
  rewrite (proj2 (Z.ltb_ge (Z.of_nat (length r)) 0)), (proj2 (Z.ltb_ge VSPD_MANAGEMENT_FRAME_MAX _)) by lia.
  cbn [orb]. by rewrite Nat2Z.id, firstn_all.
Qed.

Lemma record_received h bs : valid_record h bs ->
  received_frame (vspd_header_bytes h ++ bs) =
    Some (h, if v_payload_size h =? 0 then None else Some bs).
Proof.
  intros Hv. unfold received_frame. rewrite length_app. change (length (vspd_header_bytes h)) with 40%nat.
  replace (Z.of_nat (40 + length bs)) with (VSPD_HEADER_SIZE + v_payload_size h)
    by (rewrite <- (vr_size _ _ Hv); unfold VSPD_HEADER_SIZE; lia).
  rewrite valid_record_validates by done. rewrite Z.eqb_refl. cbn [negb].
  by rewrite drop_app_length' by done.
Qed.

Lemma record_fits h bs : valid_record h bs -> v_payload_size h <= VSPD_PORT_SNAPSHOT_PAYLOAD_SIZE ->
  0 < Z.of_nat (length (vspd_header_bytes h ++ bs)) <= VSPD_MANAGEMENT_FRAME_MAX.
Proof.
  intros Hv Hsize. rewrite length_app. change (length (vspd_header_bytes h)) with 40%nat.
  pose proof (vr_size _ _ Hv). unfold VSPD_MANAGEMENT_FRAME_MAX, VSPD_HEADER_SIZE. lia.
Qed.

(** The response to the request that waits for it. *)
Lemma response_taken fuel c buf cap n s h bs inbox log : (0 < fuel)%nat -> valid_record h bs ->
  v_payload_size h <= VSPD_PORT_SNAPSHOT_PAYLOAD_SIZE -> vspd_flag h VSPD_FLAG_RESPONSE = true ->
  wait_response daemon io_fuel fuel c (v_type h) (v_request_id h) buf cap n
    (Served s ((vspd_header_bytes h ++ bs) :: inbox) log) =
  (let '(status, buf) :=
     take_response h (if v_payload_size h =? 0 then None else Some bs) buf cap in
   (status, buf, v_payload_size h, c, Served s inbox log)).
Proof.
  intros Hf Hv Hsize Hr. destruct fuel as [|fuel]; [lia|]. cbn [wait_response].
  pose proof (record_fits h bs Hv Hsize) as Hlen. rewrite daemon_receives by done.
  rewrite (proj2 (Z.leb_gt (Z.of_nat _) 0)) by lia. rewrite record_received by done.
  rewrite Hr, !Z.eqb_refl. done.
Qed.

Lemma daemon_sends fd data s inbox log :
  send_record daemon io_fuel fd data (Served s inbox log) = (true, daemon_serves i data (Served s inbox log)).
Proof.
  unfold send_record.
  assert (wait_fd daemon io_fuel fd POLLOUT VSPD_MANAGEMENT_TIMEOUT_MS (Served s inbox log) =
    (1, Served s inbox log)) as -> by (unfold wait_fd; by destruct io_fuel; [lia|]).
  assert (send_loop daemon io_fuel fd data (Served s inbox log) =
    (Z.of_nat (length data), daemon_serves i data (Served s inbox log))) as ->.
  { destruct io_fuel as [|f]; [lia|]. cbn [send_loop mo_send ToolsPaths.daemon].
    by rewrite (proj2 (Z.ltb_ge (Z.of_nat (length data)) 0)) by lia. }
  change (negb (1 =? 1)) with false. by rewrite Z.eqb_refl.
Qed.

(** A client that can send. *)
Definition ready c : Prop := 0 <= mc_fd c /\ 0 < mc_next_request_id c < 2 ^ 32.

Lemma next_request_id_ready c : ready c ->
  next_request_id c = (mc_next_request_id c, (next_request_id c).2) /\ ready (next_request_id c).2 /\
  mc_fd (next_request_id c).2 = mc_fd c /\ mc_events (next_request_id c).2 = mc_events c.
Proof.
  intros [Hfd Hid]. unfold next_request_id. rewrite (proj2 (Z.eqb_neq (mc_next_request_id c) 0)) by lia.
  split; [done|]. split; [|done]. split; [done|]. cbn.
  pose proof (Z.mod_pos_bound (mc_next_request_id c + 1) (2 ^ 32)). unfold wrap. case_if; lia.
Qed.

Lemma requested_ok type payload psize id port : requested type payload psize -> 0 < id < 2 ^ 32 ->
  0 <= port < 2 ^ 32 -> request_ok (request_header type psize id port) /\
  vspd_type_is_event type = false.
Proof.
  intros Hreq Hid Hport. destruct (request_record_valid type payload psize id port Hreq Hid Hport)
    as ([Hr _ _ _] & _ & _). destruct Hreq as (Ht & _).
  assert (vspd_type_valid type = true /\ vspd_type_is_event type = false) as [Hv He].
  { unfold management_type, VSPD_MSG_HELLO, VSPD_MSG_GET_SERVER_INFO, VSPD_MSG_UNSUBSCRIBE_PORT in Ht.
    assert (type = 1 \/ type = 16 \/ type = 17 \/ type = 18 \/ type = 19 \/ type = 20 \/ type = 21) as H
      by lia.
    repeat (destruct H as [->|H]; [done|]). by subst. }
  split; [|done]. constructor; try done. cbn. lia.
Qed.

(** What the tool holds after its request was answered. *)
Definition given (status : Z) (ans buf : option (list Z)) (size : Z) : Z * option (list Z) * Z :=
  if status =? VSPD_STATUS_OK then (status, if size =? 0 then buf else ans, size) else (status, buf, 0).

Lemma given_taken h status ans size buf cap bs : valid_record (response_header h status size) bs ->
  (v_payload_size (response_header h status size) <> 0 -> ans = Some bs) ->
  0 <= size <= cap -> buf = Some [] \/ size = 0 ->
  (let R := response_header h status size in
   let '(st, b) := take_response R (if v_payload_size R =? 0 then None else Some bs) buf cap in
   (st, b, v_payload_size R)) = given status ans buf size.
Proof.
  intros Hv Ha Hcap Hbuf. unfold take_response, given. pose proof (vr_size _ _ Hv) as Hl.
  cbn zeta. cbn [v_status response_header v_payload_size] in *.
  destruct (status =? VSPD_STATUS_OK) eqn:E; rewrite ?E in *; cbn [negb]; [|done].
  rewrite (proj2 (Z.ltb_ge cap size)) by lia.
  destruct (size =? 0) eqn:E0; [repeat f_equal; lia|].
  destruct Hbuf as [->|]; [|lia]. rewrite Ha by lia.
  change (default [] (Some bs)) with bs. rewrite take_ge by lia.
  unfold mem_write. cbn [take drop length replicate Nat.sub app]. rewrite drop_nil, app_nil_r.
  f_equal. f_equal. lia.
Qed.

Lemma drain_step n s inbox log : drain i (S n) s inbox log =
  if vspwd_client_has_output s i then
    let '(_, (s, inbox)) := vspwd_flush_client pipe s i inbox in drain i n s inbox log
  else Served s inbox log.
Proof. done. Qed.

(** What is sent after the answer. *)
Definition follows (hello : bool) (mask pending : Z) s' (events : list (list Z)) : Prop :=
  forall s2 r log, conn hello mask pending s2 -> s_ports s2 = s_ports s' ->
  exists s3, drain i 2 s2 [r] log = Served s3 (r :: events) log /\ conn hello mask 0 s3 /\
    s_ports s3 = s_ports s2.

Lemma follows_nothing hello mask s' : follows hello mask 0 s' [].
Proof.
  intros s2 r log H2 _. exists s2. cbn [drain]. by rewrite (no_output _ _ _ H2).
Qed.

(** A request, from the tool to the handler and back. *)
Lemma request_served hello hello' mask mask' pending events s s' log c type port payload psize buf cap f
    status ans size :
  conn hello mask 0 s -> conn hello' mask' pending s' -> follows hello' mask' pending s' events ->
  ready c -> hello = true \/ type = VSPD_MSG_HELLO ->
  requested type payload psize -> psize = 0 \/ (psize = 4 /\ is_Some payload) -> 0 <= port < 2 ^ 32 ->
  let h := request_header type psize (mc_next_request_id c) port in
  handler_of type = Some f -> (forall p, f s i h p = respond s' i h status ans size) ->
  answer_ok h status ans size -> size <= cap -> buf = Some [] \/ size = 0 ->
  exists s2, request daemon io_fuel (Some c) type port payload psize buf cap (Served s [] log) =
      (given status ans buf size, Some (next_request_id c).2,
       Served s2 events (log ++ [request_bytes type port (mc_next_request_id c) payload psize])) /\
    conn hello' mask' 0 s2 /\ s_ports s2 = s_ports s'.
Proof.
  intros Hc Hc' Hev Hr Hh Hreq Hsize Hport h Hf Hres Ha Hcap Hbuf. unfold request.
  destruct (next_request_id_ready c Hr) as (-> & _ & Hfd & _). destruct Hr as [H0 Hid].
  rewrite (proj2 (Z.ltb_ge (mc_fd c) 0)) by lia.
  assert ((VSPD_HELLO_PAYLOAD_SIZE <? psize) = false) as -> by (unfold VSPD_HELLO_PAYLOAD_SIZE; lia).
  destruct (requested_ok type payload psize _ port Hreq Hid Hport) as [Hok He].
  destruct (request_record_valid type payload psize _ port Hreq Hid Hport) as (Hv & -> & ->).
  rewrite Z.eqb_refl. cbn [negb orb].
  assert (negb (psize =? 0) && negb (bool_decide (is_Some payload)) = false) as ->.
  { destruct Hsize as [->|[-> Hp]]; [done|]. by rewrite bool_decide_true. }
  rewrite daemon_sends. fold h. fold h in Hv, Hok. cbn [negb].
  destruct (reply hello' mask' pending s' h status ans size [] Hc' Hok Ha)
    as (bs & s2 & Hrep & Hvr & Hans & H2 & Hp).
  unfold daemon_serves. cbn [sv_server sv_inbox sv_requests].
  rewrite (handled s h _ Hv) by (try apply Hc; try done; by rewrite (cn_hello _ _ _ _ Hc)).
  change (v_type h) with type. rewrite Hf, Hres. destruct (respond s' i h status ans size) as [ok s1].
  destruct Hrep as (-> & Ho & Hfl). rewrite drain_step, Ho, Hfl.
  destruct (Hev s2 (answer_bytes h status bs size)
    (log ++ [vspd_header_bytes h ++ take (Z.to_nat psize) (default [] payload)]) H2 Hp) as (s3 & Hd & H3 & Hp3). cbn [app]. rewrite Hd.
  exists s3. split; [|split; [done|congruence]]. destruct Ha as (_ & Hs & _).
  rewrite <- (given_taken h status ans size buf cap bs Hvr Hans ltac:(lia) Hbuf). cbn zeta.
  rewrite (response_taken io_fuel _ buf cap 0 s3 (response_header h status size) bs events _); try done.
  - by destruct (take_response _ _ _ _).
  - cbn [response_header v_payload_size]. unfold VSPD_PORT_SNAPSHOT_PAYLOAD_SIZE, VSPD_PORT_INFO_PAYLOAD_SIZE.
    unfold VSPD_STATISTICS_PAYLOAD_SIZE in *. case_if; lia.
Qed.

(** ** The operations *)

Lemma ready_next c : ready c -> ready (next_request_id c).2.
Proof. apply next_request_id_ready. Qed.

Lemma next_number c : ready c -> mc_next_request_id c + 1 < 2 ^ 32 ->
  mc_next_request_id (next_request_id c).2 = mc_next_request_id c + 1.
Proof.
  intros [_ Hid] Hlt. unfold next_request_id.
  rewrite (proj2 (Z.eqb_neq (mc_next_request_id c) 0)), wrap_small by lia. cbn.
  by rewrite (proj2 (Z.eqb_neq _ 0)) by lia.
Qed.

Lemma conn_hello hello mask s : conn hello mask 0 s ->
  conn true mask 0 (upd_client i (set_c_hello_done true) s).
Proof.
  intros [Hs Hfd Hh Hp Hidle Hm Hq]. pose proof (sw_clients _ _ _ (proj1 Hs)) as Hl.
  assert (server_ok (upd_client i (set_c_hello_done true) s)) as H1
    by (apply upd_client_ok; try done; [by apply (proj1 Hs)|lia]).
  constructor; try done; rewrite client_at_upd, Z.eqb_refl by (done || lia); done.
Qed.

Lemma opened hello s log path : conn hello 0 0 s -> path <> [] -> Z.of_nat (length path) < SUN_PATH_SIZE ->
  exists c s2, vspd_management_open daemon io_fuel (Some client_closed) (Some path) (Served s [] log) =
      (VSPD_STATUS_OK, Some c, Served s2 [] (log ++ [hello_bytes])) /\
    (ready c /\ mc_next_request_id c = 2 /\ mc_events c = mc_events client_closed) /\ conn true 0 0 s2 /\ s_ports s2 = s_ports s.
Proof.
  intros Hc Hp Hl. unfold vspd_management_open. rewrite bool_decide_false by done.
  rewrite (proj2 (Z.leb_gt SUN_PATH_SIZE _)) by lia. cbn [mo_socket mo_connect ToolsPaths.daemon].
  change (3 <? 0) with false. change (negb (0 =? 0)) with false. cbn beta iota.
  set (c := set_mc_fd 3 client_closed). assert (ready c) as Hr by (split; [done|]; cbn; lia).
  destruct (request_served hello true 0 0 0 [] s (upd_client i (set_c_hello_done true) s) log c VSPD_MSG_HELLO 0
    (Some hello_payload) VSPD_HELLO_PAYLOAD_SIZE (Some []) VSPD_HELLO_PAYLOAD_SIZE handle_hello
    VSPD_STATUS_OK (Some hello_payload) VSPD_HELLO_PAYLOAD_SIZE) as (s2 & -> & H2 & H3);
    try done; [by eapply conn_hello|apply follows_nothing|by right|apply hello_requested|by right|..|by left|].
  - intros p. unfold handle_hello. by rewrite (proj2 (Z.leb_gt 0 _)) by apply Hc.
  - by apply answer_payload.
  - exists (next_request_id c).2, s2. split; [done|]. split; [|done].
    split; [by apply ready_next|done].
Qed.

(** The status of a management request about port [id]. *)
Definition port_status (id : Z) : Z :=
  if VSPWD_PORT_COUNT <=? id then VSPD_STATUS_INVALID_ARGUMENT else VSPD_STATUS_OK.

Lemma management_allowed mask pending s h : conn true mask pending s ->
  vspwd_validate_management_request (client_at s i) h false = VSPD_STATUS_OK /\
  vspwd_validate_management_request (client_at s i) h true = port_status (v_port_id h).
Proof.
  intros [_ _ Hh Hp _ _ _]. unfold vspwd_validate_management_request.
  by rewrite Hh, (proj2 (Z.leb_gt 0 _) Hp).
Qed.

Lemma query_served {A} mask s log c type port size f status bs (decode : list Z -> A) out :
  conn true mask 0 s -> ready c -> requested type None 0 -> 0 <= port < 2 ^ 32 ->
  let h := request_header type 0 (mc_next_request_id c) port in
  handler_of type = Some f -> (forall p, f s i h p = respond s i h status (Some bs) size) ->
  VSPD_STATUS_BACKEND <= status <= VSPD_STATUS_OK -> 0 < size <= VSPD_STATISTICS_PAYLOAD_SIZE ->
  size = vspd_success_response_payload_size type ->
  (status = VSPD_STATUS_OK -> Z.of_nat (length bs) = size /\
     vspd_validate_content (response_header h status size) bs = VSPD_CODEC_OK) ->
  exists s2, query daemon io_fuel type port size decode (Some c) (Some out) (Served s [] log) =
      (status, Some (if status =? VSPD_STATUS_OK then decode bs else out),
       Some (next_request_id c).2, Served s2 [] (log ++ asked (mc_next_request_id c) [(type, port)])) /\
    conn true mask 0 s2 /\ s_ports s2 = s_ports s.
Proof.
  intros Hc Hr Hreq Hport h Hf Hres Hst Hsize Hsz Hb. unfold query.
  destruct (request_served true true mask mask 0 [] s s log c type port None 0 (Some []) size f status (Some bs) size)
    as (s2 & -> & H2 & H3); try done; [apply follows_nothing|by left..|apply answer_payload; (done || lia)|by left|].
  exists s2. split; [|done]. unfold given. destruct (status =? VSPD_STATUS_OK) eqn:E.
  - cbn beta iota. rewrite E, Z.eqb_refl. cbn [negb].
    rewrite (proj2 (Z.eqb_neq size 0)) by lia. do 3 f_equal. lia.
  - cbn beta iota. by rewrite E.
Qed.

Lemma port_status_range id : VSPD_STATUS_BACKEND <= port_status id <= VSPD_STATUS_OK.
Proof. unfold port_status. by case_if. Qed.

Lemma server_info_served mask s log c out : conn true mask 0 s -> ready c ->
  exists s2, vspd_management_get_server_info daemon io_fuel (Some c) (Some out) (Served s [] log) =
      (VSPD_STATUS_OK, Some server_info, Some (next_request_id c).2,
       Served s2 [] (log ++ asked (mc_next_request_id c) [(VSPD_MSG_GET_SERVER_INFO, 0)])) /\
    conn true mask 0 s2 /\ s_ports s2 = s_ports s.
Proof.
  intros Hc Hr. unfold vspd_management_get_server_info.
  destruct (query_served mask s log c VSPD_MSG_GET_SERVER_INFO 0 VSPD_SERVER_INFO_PAYLOAD_SIZE
    handle_get_server_info VSPD_STATUS_OK (vspd_encode_server_info server_info [])
    vspd_decode_server_info out) as (s2 & -> & H); try done; [by apply plain_requested| |by exists s2].
  intros p. unfold handle_get_server_info. by rewrite (proj1 (management_allowed mask 0 s _ Hc)).
Qed.

Lemma port_info_range s id : server_ok s -> 0 <= id < VSPWD_PORT_COUNT ->
  port_info_ok (vspwd_port_info_to_wire (port_at s id)) = true.
Proof.
  intros Hs Hid.
  destruct (sw_port _ _ _ (proj1 Hs) id Hid) as (Hq & Ht & Hst & _).
  destruct (port_info_flags (port_at s id)) as [_ Hf].
  pose proof (ring_count_le _ _ (proj1 Hq)). pose proof (ring_count_le _ _ (proj1 Ht)).
  unfold port_info_ok, in_width. cbn [vspwd_port_info_to_wire vp_link_state vp_packet_queue_count
    vp_time_code_queue_count]. unfold VSPWD_PACKET_QUEUE_DEPTH, VSPWD_TIME_CODE_QUEUE_DEPTH in *.
  change (vp_flags _) with (vp_flags (vspwd_port_info_to_wire (port_at s id))).
  repeat (apply andb_true_intro; split); try lia; state_lia.
Qed.

Lemma port_info_served mask s log c id out : conn true mask 0 s -> ready c -> 0 <= id < 2 ^ 32 ->
  exists s2, vspd_management_get_port_info daemon io_fuel (Some c) id (Some out) (Served s [] log) =
      (port_status id,
       Some (if id <? VSPWD_PORT_COUNT then vspwd_port_info_to_wire (port_at s id) else out),
       Some (next_request_id c).2,
       Served s2 [] (log ++ asked (mc_next_request_id c) [(VSPD_MSG_GET_PORT_INFO, id)])) /\
    conn true mask 0 s2 /\ s_ports s2 = s_ports s.
Proof.
  intros Hc Hr Hid. unfold vspd_management_get_port_info.
  set (bs := if port_status id =? VSPD_STATUS_OK
             then vspd_encode_port_info (vspwd_port_info_to_wire (port_at s id)) [] else []).
  destruct (query_served mask s log c VSPD_MSG_GET_PORT_INFO id VSPD_PORT_INFO_PAYLOAD_SIZE
    handle_get_port_info (port_status id) bs vspd_decode_port_info out) as (s2 & -> & H);
    try done; [by apply plain_requested|..|exists s2; split; [|done]].
  - intros p. unfold handle_get_port_info. by rewrite (proj2 (management_allowed mask 0 s _ Hc)).
  - apply port_status_range.
  - intros E. subst bs. rewrite E. cbn [Z.eqb VSPD_STATUS_OK]. split; [by rewrite encode_port_info_bytes|].
    apply content_port_info; [done|]. apply (sw_port _ _ _ (proj1 (cn_server _ _ _ _ Hc))).
    unfold port_status in E. case_if_in E; [done|lia].
  - subst bs. unfold port_status. case_if.
    + by rewrite (proj2 (Z.ltb_ge id _)) by lia.
    + rewrite Z.eqb_refl, (proj2 (Z.ltb_lt id _)) by lia.
      by rewrite encode_port_info_bytes, decode_port_info_bytes by (apply port_info_range; [apply Hc|lia]).
Qed.

Lemma port_statistics_served mask s log c id out : conn true mask 0 s -> ready c -> 0 <= id < 2 ^ 32 ->
  (id < VSPWD_PORT_COUNT ->
   vspd_statistics_ok (vspwd_statistics_to_wire (p_statistics (port_at s id))) = true) ->
  exists s2, vspd_management_get_port_statistics daemon io_fuel (Some c) id (Some out) (Served s [] log) =
      (port_status id,
       Some (if id <? VSPWD_PORT_COUNT
             then vspwd_statistics_to_wire (p_statistics (port_at s id)) else out),
       Some (next_request_id c).2,
       Served s2 [] (log ++ asked (mc_next_request_id c) [(VSPD_MSG_GET_PORT_STATISTICS, id)])) /\
    conn true mask 0 s2 /\ s_ports s2 = s_ports s.
Proof.
  intros Hc Hr Hid Hstat. unfold vspd_management_get_port_statistics.
  set (bs := if port_status id =? VSPD_STATUS_OK then statistics_payload (port_at s id) else []).
  destruct (query_served mask s log c VSPD_MSG_GET_PORT_STATISTICS id VSPD_STATISTICS_PAYLOAD_SIZE
    handle_get_port_statistics (port_status id) bs (fun p => vspd_decode_statistics p 0) out)
    as (s2 & -> & H); try done; [by apply plain_requested|..|exists s2; split; [|done]].
  - intros p. unfold handle_get_port_statistics. by rewrite (proj2 (management_allowed mask 0 s _ Hc)).
  - apply port_status_range.
  - intros E. subst bs. rewrite E. cbn [Z.eqb VSPD_STATUS_OK].
    split; [by rewrite length_statistics_payload|apply content_statistics; auto].
  - subst bs. unfold port_status. case_if.
    + by rewrite (proj2 (Z.ltb_ge id _)) by lia.
    + rewrite Z.eqb_refl, (proj2 (Z.ltb_lt id _)) by lia. unfold statistics_payload.
      pose proof (encode_statistics_bytes (vspwd_statistics_to_wire (p_statistics (port_at s id))) [] [])
        as He. cbn [app length] in He. rewrite He.
      pose proof (decode_statistics_bytes (vspwd_statistics_to_wire (p_statistics (port_at s id))) [] []
        (Hstat ltac:(lia))) as Hd. cbn [app length] in Hd. by rewrite drop_nil, Hd.
Qed.

(** The state after the request: the statistics of a port that exists are cleared. *)
Definition cleared s (id : Z) : vspwd_server B :=
  if id <? VSPWD_PORT_COUNT then clear_port_statistics s id else s.

Lemma conn_cleared s id : conn true 0 0 s -> 0 <= id -> conn true 0 0 (cleared s id).
Proof.
  intros Hc Hid. unfold cleared. case_if; [|done]. destruct Hc as [Hs Hfd Hh Hp Hidle Hm Hq].
  destruct (clear_port_statistics_ok o Inv s id Hs ltac:(lia)) as [H1 _].
  assert (client_at (clear_port_statistics s id) i = client_at s i) as Hat.
  { unfold clear_port_statistics, vspwd_mark_port_changed. case_if; [done|].
    unfold client_at at 1. cbn [s_clients set_s_clients].
    rewrite (@list_lookup_total_fmap _ _ _ vspwd_client_inhabited)
      by (pose proof (sw_clients _ _ _ (proj1 Hs)); cbn; unfold VSPWD_CLIENT_COUNT in *; lia).
    change (s_clients (upd_port _ _ s) !!! Z.to_nat i) with (client_at s i). unfold monitors.
    by rewrite Hm, Z.land_0_l, andb_false_r. }
  by constructor; rewrite ?Hat.
Qed.

Lemma clear_served s log c id : conn true 0 0 s -> ready c -> 0 <= id < 2 ^ 32 ->
  exists s2, vspd_management_clear_port_statistics daemon io_fuel (Some c) id (Served s [] log) =
      (port_status id, Some (next_request_id c).2,
       Served s2 [] (log ++ asked (mc_next_request_id c) [(VSPD_MSG_CLEAR_PORT_STATISTICS, id)])) /\
    conn true 0 0 s2 /\ s_ports s2 = s_ports (cleared s id).
Proof.
  intros Hc Hr Hid. unfold vspd_management_clear_port_statistics, subscription_request.
  destruct (request_served true true 0 0 0 [] s (cleared s id) log c VSPD_MSG_CLEAR_PORT_STATISTICS id None 0 None 0
    handle_clear_port_statistics (port_status id) None 0) as (s2 & -> & H2 & H3);
    try done; [apply conn_cleared; [done|lia]|apply follows_nothing|by left|by apply plain_requested|by left|..|by right|].
  - intros p. unfold handle_clear_port_statistics. rewrite (proj2 (management_allowed 0 0 s _ Hc)).
    cbn [v_port_id request_header]. unfold cleared. f_equal. unfold port_status. case_if.
    + by rewrite (proj2 (Z.ltb_ge id _)) by lia.
    + by rewrite (proj2 (Z.ltb_lt id _)) by lia.
  - apply answer_none; [apply port_status_range|done].
  - exists s2. split; [|done]. unfold given.
    by destruct (port_status id =? VSPD_STATUS_OK) eqn:E; rewrite E.
Qed.

Lemma daemon_closed s log c : ready c ->
  vspd_management_close daemon (Some c) (Served s [] log) =
  (Some client_closed, Served (forget_client s i) [] log).
Proof. intros [Hfd _]. unfold vspd_management_close. by rewrite (proj2 (Z.leb_le 0 _) Hfd). Qed.

(** ** spwctl *)

(** What a command prints about the ports: the exit code, stdout and stderr. *)
Definition about_port (id : Z) (operation out : list Z) : Z * list Z * list Z :=
  if id <? VSPWD_PORT_COUNT then (0, out, [])
  else (1, [], spwctl.fail_status operation VSPD_STATUS_INVALID_ARGUMENT).

Definition port_report s (id : Z) : list Z :=
  spwctl.port_line server_info id (vspwd_port_info_to_wire (port_at s id)).

Definition report s (cmd : spwctl.command) : Z * list Z * list Z :=
  match cmd with
  | spwctl.CmdList =>
      (0, text "PORT BRIDGED ATTACHED STARTED RESET STATE PACKETS TIMECODES" ++ newline ++
          (seqZ 0 VSPWD_PORT_COUNT ≫= port_report s), [])
  | spwctl.CmdShow id =>
      about_port id (text "get port info")
        (spwctl.port_text server_info id (vspwd_port_info_to_wire (port_at s id)))
  | spwctl.CmdStats id =>
      about_port id (text "get port statistics")
        (spwctl.statistics_text id (vspwd_statistics_to_wire (p_statistics (port_at s id))))
  | spwctl.CmdClearStats id =>
      about_port id (text "clear port statistics")
        (text "cleared statistics for port " ++ decimal id ++ newline)
  end.

(** The server a command leaves, but for the connection. *)
Definition commanded s (cmd : spwctl.command) : vspwd_server B :=
  match cmd with spwctl.CmdClearStats id => cleared s id | _ => s end.

Lemma port_status_ok id : (port_status id =? VSPD_STATUS_OK) = (id <? VSPWD_PORT_COUNT).
Proof. unfold port_status. case_if; [by rewrite (proj2 (Z.ltb_ge id _)) by lia|symmetry; cbn; lia]. Qed.

Lemma list_served s ids log c : conn true 0 0 s -> ready c ->
  Forall (fun id => 0 <= id < VSPWD_PORT_COUNT) ids ->
  mc_next_request_id c + Z.of_nat (length ids) < 2 ^ 32 ->
  exists c2 s2, spwctl.list_ports daemon io_fuel server_info ids (Some c) (Served s [] log) =
      (ids ≫= port_report s, VSPD_STATUS_OK, Some c2,
       Served s2 [] (log ++ asked (mc_next_request_id c) (pair VSPD_MSG_GET_PORT_INFO <$> ids))) /\
    ready c2 /\ conn true 0 0 s2 /\ s_ports s2 = s_ports s.
Proof.
  intros Hc Hr Hids. revert s log c Hc Hr.
  induction Hids as [|id ids Hid _ IH]; intros s log c Hc Hr Hn.
  { exists c, s. cbn. by rewrite app_nil_r. }
  cbn [spwctl.list_ports]. unfold VSPWD_PORT_COUNT in Hid.
  destruct (port_info_served 0 s log c id (vn_info snapshot_zero) Hc Hr ltac:(lia)) as (s1 & -> & H1 & Hp1).
  rewrite port_status_ok. rewrite (proj2 (Z.ltb_lt id VSPWD_PORT_COUNT)) by (unfold VSPWD_PORT_COUNT; lia).
  cbn [negb].
  cbn [length] in Hn. pose proof (next_number c Hr ltac:(lia)) as Hid'.
  destruct (IH s1 (log ++ asked (mc_next_request_id c) [(VSPD_MSG_GET_PORT_INFO, id)])
    (next_request_id c).2 H1 (ready_next c Hr) ltac:(lia)) as (c2 & s2 & -> & H2 & H3 & Hp2).
  exists c2, s2. split; [|split_and!; try done; congruence]. cbn [default mbind list_bind].
  rewrite Hid', <- app_assoc.
  unfold port_report, port_at. by rewrite Hp1.
Qed.

(** The requests of a command. *)
Definition questions (cmd : spwctl.command) : list (Z * Z) :=
  match cmd with
  | spwctl.CmdList =>
      (VSPD_MSG_GET_SERVER_INFO, 0) :: (pair VSPD_MSG_GET_PORT_INFO <$> seqZ 0 VSPWD_PORT_COUNT)
  | spwctl.CmdShow id => [(VSPD_MSG_GET_SERVER_INFO, 0); (VSPD_MSG_GET_PORT_INFO, id)]
  | spwctl.CmdStats id => [(VSPD_MSG_GET_PORT_STATISTICS, id)]
  | spwctl.CmdClearStats id => [(VSPD_MSG_CLEAR_PORT_STATISTICS, id)]
  end.

Lemma command_served s log c cmd : conn true 0 0 s -> ready c -> mc_next_request_id c = 2 ->
  command_ok cmd ->
  (forall id, 0 <= id < VSPWD_PORT_COUNT ->
   vspd_statistics_ok (vspwd_statistics_to_wire (p_statistics (port_at s id))) = true) ->
  exists c2 s2, spwctl.run_command daemon io_fuel cmd (Some c) (Served s [] log) =
      (report s cmd, Some c2, Served s2 [] (log ++ asked 2 (questions cmd))) /\
    ready c2 /\ conn true 0 0 s2 /\ s_ports s2 = s_ports (commanded s cmd).
Proof.
  intros Hc Hr Hn Hcmd Hst. pose proof (ready_next c Hr) as Hr1.
  pose proof (next_number c Hr ltac:(lia)) as Hn1. rewrite Hn in Hn1.
  destruct cmd as [|id|id|id]; cbn [spwctl.run_command report commanded command_ok] in *.
  - unfold spwctl.command_list.
    destruct (server_info_served 0 s log c server_info_zero Hc Hr) as (s1 & -> & H1 & Hp1).
    change (default server_info_zero (Some server_info)) with server_info.
    status_ok.
    destruct (list_served s1 (seqZ 0 (vi_port_count server_info)) (log ++ asked (mc_next_request_id c)
      [(VSPD_MSG_GET_SERVER_INFO, 0)]) _ H1 Hr1) as (c2 & s2 & -> & ? & ? & ?).
    { apply Forall_forall. intros x Hx%elem_of_seqZ. cbn in *. lia. }
    { rewrite Hn1. done. }
    exists c2, s2. split_and!; try done; [|congruence]. unfold port_report, port_at.
    by rewrite Hp1, Hn, Hn1, <- app_assoc.
  - unfold spwctl.command_show, about_port.
    destruct (server_info_served 0 s log c server_info_zero Hc Hr) as (s1 & -> & H1 & Hp1).
    status_ok.
    destruct (port_info_served 0 s1 (log ++ asked (mc_next_request_id c)
      [(VSPD_MSG_GET_SERVER_INFO, 0)]) _ id (vn_info snapshot_zero) H1 Hr1 Hcmd) as (s2 & -> & H2 & Hp2).
    exists (next_request_id (next_request_id c).2).2, s2. rewrite port_status_ok.
    split; [|split_and!; [by apply ready_next|done|congruence]]. unfold port_at.
    rewrite Hp1, Hn, Hn1, <- app_assoc.
    destruct (id <? VSPWD_PORT_COUNT) eqn:E; [done|]. unfold port_status.
    by rewrite (proj2 (Z.leb_le _ id)) by lia.
  - unfold spwctl.command_stats, about_port.
    destruct (port_statistics_served 0 s log c id statistics_payload_zero Hc Hr Hcmd) as (s2 & -> & H2 & Hp2).
    { intros. apply Hst. by split; [apply Hcmd|]. }
    exists (next_request_id c).2, s2. rewrite port_status_ok, Hn. split; [|done].
    destruct (id <? VSPWD_PORT_COUNT) eqn:E; [done|]. unfold port_status.
    by rewrite (proj2 (Z.leb_le _ id)) by lia.
  - unfold spwctl.command_clear, about_port.
    destruct (clear_served s log c id Hc Hr Hcmd) as (s2 & -> & H2 & Hp2).
    exists (next_request_id c).2, s2. rewrite port_status_ok, Hn. split; [|done].
    destruct (id <? VSPWD_PORT_COUNT) eqn:E; [done|]. unfold port_status.
    by rewrite (proj2 (Z.leb_le _ id)) by lia.
Qed.


(** ** spwmon *)

Lemma sent_event fd h payload inbox : valid_record h payload ->
  send_event pipe fd h payload inbox = (true, inbox ++ [vspd_header_bytes h ++ payload]).
Proof.
  intros Hv. unfold send_event. rewrite vspd_encode_header_bytes by apply Hv.
  rewrite drop_nil, app_nil_r. cbn [negb Z.eqb VSPD_CODEC_OK].
  rewrite <- (app_nil_r (vspd_header_bytes h)), mem_write_app by done.
  rewrite drop_nil, !app_nil_r. unfold vspwd_send_record. cbn [os_send pipe]. by rewrite Z.eqb_refl.
Qed.

Definition port_bit (id : Z) : Z := u32 (1 ≪ id).

Definition snapshot_bytes s (id : Z) : list Z :=
  vspd_header_bytes (plain_event VSPD_MSG_PORT_SNAPSHOT_EVENT VSPD_PORT_SNAPSHOT_PAYLOAD_SIZE id) ++
  vspd_encode_port_snapshot (vspwd_port_snapshot_to_wire (port_at s id)) [].

Lemma port_cases id : 0 <= id < VSPWD_PORT_COUNT -> id = 0 \/ id = 1.
Proof. unfold VSPWD_PORT_COUNT. lia. Qed.

(** The first snapshot of a port that was subscribed to. *)
Lemma snapshot_flushed mask s id : conn true mask (port_bit id) s -> 0 <= id < VSPWD_PORT_COUNT ->
  follows true mask (port_bit id) s [snapshot_bytes s id].
Proof.
  intros _ Hid s2 r log [Hs Hfd Hh Hp Hidle Hm Hq] Hports.
  set (clear := fun cl => set_c_monitor_pending_mask
    (c_monitor_pending_mask cl .& u32 (Z.lnot (port_bit id))) cl).
  exists (upd_client i clear s2). pose proof (sw_clients _ _ _ (proj1 Hs)) as Hl.
  assert (client_at (upd_client i clear s2) i = clear (client_at s2 i)) as Hat
    by (by rewrite client_at_upd, Z.eqb_refl by (done || lia)).
  assert (conn true mask 0 (upd_client i clear s2)) as H3.
  { constructor; rewrite ?Hat; unfold clear; cbn; try done.
    - apply upd_client_ok; try done. by apply (proj1 Hs).
    - rewrite Hq. by destruct (port_cases id Hid) as [-> | ->]. }
  split; [|done]. unfold snapshot_bytes. rewrite drain_step.
  assert (vspwd_client_has_output s2 i = true) as ->.
  { unfold vspwd_client_has_output. rewrite Hidle, (proj2 (Z.ltb_lt _ _) Hp), Hq.
    by destruct (port_cases id Hid) as [-> | ->]. }
  assert (vspwd_flush_client pipe s2 i [r] = (true, (upd_client i clear s2, [r; snapshot_bytes s id]))) as ->.
  2: { by rewrite drain_step, (no_output _ _ _ H3). }
  unfold vspwd_flush_client, vspwd_flush_monitor_event.
  rewrite Hidle, (proj2 (Z.ltb_lt _ _) Hp), (proj2 (Z.leb_gt _ _) Hp), Hq.
  unfold snapshot_bytes. assert (port_at s id = port_at s2 id) as -> by (unfold port_at; by rewrite Hports).
  assert (link_state_ok (p_state (port_at s2 id))) as Hst by apply (sw_port _ _ _ (proj1 Hs) id Hid).
  pose proof (snapshot_event_valid id (port_at s2 id) ltac:(unfold VSPWD_PORT_COUNT in Hid; lia) Hst) as Hv.
  change (seqZ 0 VSPWD_PORT_COUNT) with [0; 1].
  destruct (port_cases id Hid) as [-> | ->]; cbn [flush_monitor_ports]; rewrite Hq; cbn [orb negb].
  - by rewrite sent_event by exact Hv.
  - change (port_bit 1 .& u32 (1 ≪ 0) =? 0) with true. cbn [negb].
    by rewrite sent_event by exact Hv.
Qed.

(** The masks of the client after a subscription and after its end. *)
Definition subscribed s (id : Z) : vspwd_server B :=
  upd_client i (fun cl => set_c_monitor_pending_mask (c_monitor_pending_mask cl .| port_bit id)
                 (set_c_monitor_mask (c_monitor_mask cl .| port_bit id) cl)) s.

Definition unsubscribed s (id : Z) : vspwd_server B :=
  upd_client i (fun cl => set_c_monitor_pending_mask
                  (c_monitor_pending_mask cl .& u32 (Z.lnot (port_bit id)))
                  (set_c_monitor_mask (c_monitor_mask cl .& u32 (Z.lnot (port_bit id))) cl)) s.

Lemma conn_masks f mask mask' pending' s : conn true mask 0 s ->
  (let cl := client_at s i in f cl = set_c_monitor_pending_mask pending' (set_c_monitor_mask mask' cl)) ->
  conn true mask' pending' (upd_client i f s).
Proof.
  intros [Hs Hfd Hh Hp Hidle Hm Hq] Hf. pose proof (sw_clients _ _ _ (proj1 Hs)) as Hl. cbn zeta in Hf.
  assert (client_at (upd_client i f s) i = f (client_at s i)) as Hat
    by (by rewrite client_at_upd, Z.eqb_refl by (done || lia)).
  constructor; rewrite ?Hat, ?Hf; try done.
  apply upd_client_ok; try done; rewrite Hf; try done. by apply (proj1 Hs).
Qed.

Lemma conn_subscribed s id : conn true 0 0 s -> 0 <= id < VSPWD_PORT_COUNT ->
  conn true (port_bit id) (port_bit id) (subscribed s id).
Proof.
  intros Hc Hid. apply (conn_masks _ 0); [done|]. cbn zeta.
  by rewrite (cn_mask _ _ _ _ Hc), (cn_pending _ _ _ _ Hc).
Qed.

Lemma conn_unsubscribed s id : conn true (port_bit id) 0 s -> 0 <= id < VSPWD_PORT_COUNT ->
  conn true 0 0 (unsubscribed s id).
Proof.
  intros Hc Hid. apply (conn_masks _ (port_bit id)); [done|]. cbn zeta.
  rewrite (cn_mask _ _ _ _ Hc), (cn_pending _ _ _ _ Hc).
  by destruct (port_cases id Hid) as [-> | ->].
Qed.

Lemma port_status_exists id : 0 <= id < VSPWD_PORT_COUNT -> port_status id = VSPD_STATUS_OK.
Proof. intros Hid. unfold port_status. by rewrite (proj2 (Z.leb_gt _ id)) by lia. Qed.

Lemma subscription_served mask mask' pending events s s' log c type id f :
  conn true mask 0 s -> conn true mask' pending s' -> follows true mask' pending s' events -> ready c ->
  requested type None 0 -> 0 <= id < VSPWD_PORT_COUNT -> handler_of type = Some f ->
  vspd_success_response_payload_size type = 0 ->
  (forall h p, v_port_id h = id -> f s i h p = respond s' i h VSPD_STATUS_OK None 0) ->
  exists s2, subscription_request daemon io_fuel (Some c) type id (Served s [] log) =
      (VSPD_STATUS_OK, Some (next_request_id c).2,
       Served s2 events (log ++ asked (mc_next_request_id c) [(type, id)])) /\
    conn true mask' 0 s2 /\ s_ports s2 = s_ports s'.
Proof.
  intros Hc Hc' Hev Hr Hreq Hid Hf Hz Hres. unfold subscription_request.
  assert (0 <= id < 2 ^ 32) as Hid' by (unfold VSPWD_PORT_COUNT in Hid; lia).
  set (h := request_header type 0 (mc_next_request_id c) id).
  assert (forall p, f s i h p = respond s' i h VSPD_STATUS_OK None 0) as Hh by (intros; by apply Hres).
  destruct (request_served true true mask mask' pending events s s' log c type id None 0 None 0 f
    VSPD_STATUS_OK None 0 Hc Hc' Hev Hr ltac:(by left) Hreq ltac:(by left) Hid' Hf Hh
    ltac:(by apply answer_none) ltac:(done) ltac:(by right)) as (s2 & -> & H2 & H3).
  by exists s2.
Qed.

Lemma subscribe_served s log c id : conn true 0 0 s -> ready c -> 0 <= id < VSPWD_PORT_COUNT ->
  exists s2, vspd_management_subscribe_port daemon io_fuel (Some c) id (Served s [] log) =
      (VSPD_STATUS_OK, Some (next_request_id c).2,
       Served s2 [snapshot_bytes s id]
         (log ++ asked (mc_next_request_id c) [(VSPD_MSG_SUBSCRIBE_PORT, id)])) /\
    conn true (port_bit id) 0 s2 /\ s_ports s2 = s_ports s.
Proof.
  intros Hc Hr Hid. pose proof (conn_subscribed s id Hc Hid) as Hc'.
  destruct (subscription_served 0 (port_bit id) (port_bit id) [snapshot_bytes s id] s (subscribed s id) log c
    VSPD_MSG_SUBSCRIBE_PORT id handle_subscribe_port) as (s2 & H & H2); try done; [| | |by exists s2].
  - change (snapshot_bytes s id) with (snapshot_bytes (subscribed s id) id). by apply snapshot_flushed.
  - by apply plain_requested.
  - intros h p Hh. unfold handle_subscribe_port.
    rewrite (proj2 (management_allowed 0 0 s h Hc)), Hh, port_status_exists by done. done.
Qed.

Lemma unsubscribe_served s log c id : conn true (port_bit id) 0 s -> ready c -> 0 <= id < VSPWD_PORT_COUNT ->
  exists s2, vspd_management_unsubscribe_port daemon io_fuel (Some c) id (Served s [] log) =
      (VSPD_STATUS_OK, Some (next_request_id c).2,
       Served s2 [] (log ++ asked (mc_next_request_id c) [(VSPD_MSG_UNSUBSCRIBE_PORT, id)])) /\
    conn true 0 0 s2 /\ s_ports s2 = s_ports s.
Proof.
  intros Hc Hr Hid. pose proof (conn_unsubscribed s id Hc Hid) as Hc'.
  destruct (subscription_served (port_bit id) 0 0 [] s (unsubscribed s id) log c
    VSPD_MSG_UNSUBSCRIBE_PORT id handle_unsubscribe_port) as (s2 & H & H2);
    try done; [apply follows_nothing|by apply plain_requested| |by exists s2].
  intros h p Hh. unfold handle_unsubscribe_port.
  rewrite (proj2 (management_allowed (port_bit id) 0 s h Hc)), Hh, port_status_exists by done. done.
Qed.

Lemma snapshot_received s0 s c id inbox log out : server_ok s0 -> 0 <= id < VSPWD_PORT_COUNT ->
  vspd_statistics_ok (vspwd_statistics_to_wire (p_statistics (port_at s0 id))) = true ->
  ready c -> mc_events c = mc_events client_closed ->
  exists c2, vspd_management_receive_snapshot daemon io_fuel (Some c) 500 (Some out)
      (Served s (snapshot_bytes s0 id :: inbox) log) =
    (VSPD_STATUS_OK, Some (id, vspwd_port_snapshot_to_wire (port_at s0 id)), Some c2, Served s inbox log) /\
    ready c2 /\ mc_next_request_id c2 = mc_next_request_id c.
Proof.
  intros Hs Hid Hst [Hfd Hn] Hev. unfold vspd_management_receive_snapshot, pop_event.
  rewrite (proj2 (Z.ltb_ge _ 0) Hfd), Hev. change (500 <? -1) with false.
  change (Nat.eqb (r_count (mc_events client_closed)) 0) with true. cbn [orb].
  assert (link_state_ok (p_state (port_at s0 id))) as Hl by apply (sw_port _ _ _ (proj1 Hs) id Hid).
  pose proof (snapshot_event_valid id (port_at s0 id) ltac:(unfold VSPWD_PORT_COUNT in Hid; lia) Hl) as Hv.
  pose proof (record_fits _ _ Hv (Z.le_refl _)) as Hlen. unfold snapshot_bytes.
  rewrite daemon_receives by exact Hlen. rewrite (proj2 (Z.leb_gt (Z.of_nat _) 0)) by lia.
  rewrite record_received by done. cbn [v_payload_size plain_event event_header].
  change (vspd_flag _ VSPD_FLAG_RESPONSE) with false. unfold decode_snapshot_event, queue_event.
  destruct (vspd_payload_roundtrip server_info (vspwd_port_info_to_wire (port_at s0 id))
    (Build_vspd_capabilities_payload 0 0 0 0 0) (vspwd_statistics_to_wire (p_statistics (port_at s0 id))) []
    ltac:(vm_compute; reflexivity) (port_info_range s0 id Hs Hid) ltac:(vm_compute; reflexivity) Hst)
    as (_ & _ & _ & _ & _ & _ & _ & _ & Hd & _).
  change (VSPD_PORT_SNAPSHOT_PAYLOAD_SIZE =? 0) with false. cbn iota.
  fold (vspwd_port_snapshot_to_wire (port_at s0 id)) in Hd. rewrite Hd, Hev.
  eexists. split; [reflexivity|]. split; [split; [exact Hfd|exact Hn]|reflexivity].
Qed.

(** The line about a port. *)
Definition monitor_line s (id : Z) (now : Z * Z * Z) (as_json : bool) : list Z :=
  let snapshot := vspwd_port_snapshot_to_wire (port_at s id) in
  if as_json then spwmon.snapshot_json (spwmon.timestamp_utc now) id snapshot server_info
  else spwmon.snapshot_line (spwmon.timestamp_utc now) id snapshot server_info.

End paths.

(** ** Witnesses *)

(** A tool connects as client 1 of a daemon with a bridge and an attached client. *)
Definition tool_server : vspwd_server fifo :=
  upd_client 1 (fun _ => set_c_port_id (-1) (set_c_fd 6 client_zero)) bridged_server.

Lemma tool_server_conn : conn FIFO_OPS fifo_contents_ok 1 false 0 0 tool_server.
Proof.
  constructor; [|vm_compute; (reflexivity || discriminate)..].
  apply upd_client_ok; [apply bridged_server_ok|done|apply fresh_client_wf|vm_compute; reflexivity|].
  intros H. vm_compute in H. by destruct H.
Qed.

Lemma tool_server_statistics id : 0 <= id < VSPWD_PORT_COUNT ->
  vspd_statistics_ok (vspwd_statistics_to_wire (p_statistics (port_at tool_server id))) = true.
Proof.
  intros Hid. assert (id = 0 \/ id = 1) as [-> | ->] by (unfold VSPWD_PORT_COUNT in Hid; lia);
    vm_compute; reflexivity.
Qed.


Definition monitor_args : list (list Z) :=
  [text "--port"; text "1"; text "--count"; text "1"; text "--json"].

